(* ===== verification/_CoqProject ===== *)
-Q . S2P
Prelude.v
CLib.v
Mwan3Ct.v
Mwan3IpCheck.v
HwInfo.v
Wifidog.v
MhiReg.v
MhiRing.v
MhiCtrl.v
MhiPm.v
MhiXfer.v
MhiFifo.v
MhiPaths.v
MhiEvents.v
MhiQueue.v
MhiDtr.v
MhiUci.v
UciStream.v
UciLife.v
MhiMem.v
MhiBoot.v
BootImage.v
MhiLayout.v
MhiInit.v
InitProofs.v
MhiBus.v
Netdev.v
Qmap.v
Mbim.v
NetFlow.v
NetRx.v
RxProofs.v
NetProbe.v
AtTok.v
QmiMsg.v
QmiReq.v
QmiAddr.v
QmiCard.v
QmiSession.v
QmiProxy.v
QmiClient.v
QmiEth.v
MbimMsg.v
MbimCm.v
QmiNet.v
QcmDial.v
QcmSessions.v
