(* ===== verification/Prelude.v ===== *)
(** * gl-xe3000-op25: the C code of the GL-XE3000 OpenWrt port

    The repository is an OpenWrt feed (src/gl-feed) for a cellular router.
    Its C code is the driver of the 5G modem (kernel/pcie_mhi), a captive
    portal kernel module (net/gl-portal), a hardware-information kernel module
    (kernel/gl-hw-info), two helpers of the multi-WAN service
    (net/mwan3-nft) and the modem's connection manager (net/quectel-cm); the
    rest is Lua and shell.  This library models the kernel side, the
    multi-WAN helpers and the connection manager with its QMI and MBIM sides.

    ** How the parts fit together

    The modem is an MHI device on PCIe.  The core (core/mhi_main.c, mhi_pm.c,
    mhi_init.c) keeps a controller with a power state, event rings, a command
    ring and channels; a channel has a ring of transfer elements, shared with
    the device, and a parallel ring of buffers.  Clients queue buffers and get
    them back through callbacks.  The network device
    (devices/mhi_netdev_quectel.c) is the client of the two data channels: it
    frames packets of up to eight virtual interfaces in QMAP or MBIM, takes
    received frames apart, and obeys the modem's flow control; mhi_dtr.c is the
    client that carries the control lines of the serial ports; mhi_uci.c gives the
    modem's byte channels to programs as character devices.  mhi_init.c also builds
    what the others use: the rings and contexts in one block shared with the modem,
    interrupts, the registration of controllers; mhi_boot.c loads a modem without
    storage of its own and fetches its RAM after a crash.

    The connection manager talks QMI to the modem over a control port of its
    own or through a proxy that several programs share.  QMIThread.c composes
    requests as type-length-value messages, sends them from one thread while
    another hands over what the modem sends, and decodes the responses;
    QmiWwanCM.c obtains and releases the client identifiers the requests carry;
    mbim-cm.c is the same over MBIM.  main.c keeps the connection up: a loop over
    signals it sends itself and events of the modem drives either session through
    one table of operations;
    quectel-qmi-proxy.c serialises the control requests of its clients and
    routes responses and indications.  at_tok.c takes AT responses apart.  The
    portal's hook and the other programs stand alone.

    ** Files

    - Prelude: machine integers with their wrap-around, bit fields, indexed
      lists, the result type with its notation, loops over a state, the monad of
      state and failure with its Hoare triples and relations, tactics.
    - CLib: error numbers and the C library functions the code calls
      (strtoul, strtol, strtok_r, ...), on byte lists.
    - Mwan3Ct, Mwan3IpCheck: net/mwan3-nft/src/mwan3ct.c and mwan3ipcheck.c.
      libnetfilter_conntrack and inet_pton are arguments.
    - HwInfo: kernel/gl-hw-info/src/gl-hw-info.c; the heap is part of the state.
    - Wifidog: net/gl-portal/src/wifidog-ng.c; IP sets, routing and NAT of the
      kernel are arguments of the hook.
    - MhiReg: registers, doorbells and the packing of ring elements.
    - MhiRing: struct mhi_ring, and the class [BoundedQueue], the interface
      through which channels use their rings, with its instance.
    - MhiCtrl: the controller's state ([ctrl], [mhi_chan], [mhi_event]) with
      its setters, the power states and what all parts share.
    - MhiPm: core/mhi_pm.c and the register programming of mhi_init.c.
    - MhiXfer: queueing, completions, commands, channel life cycle.
    - MhiFifo, MhiPaths: theorems on runs of MhiXfer's operations.
    - MhiEvents: the control event ring with its handlers and its task, the
      interrupt handlers, the requests of time synchronisation.
    - MhiQueue: the class [TransferQueue], what a client of the core is promised
      of its two channels; the channels of MhiXfer are an instance.
    - MhiDtr: core/mhi_dtr.c over that class.
    - MhiUci: devices/mhi_uci.c over that class.  One device is a [uci]; freed or
      uninitialised memory is a failure of the monad; the events that come while a
      call sleeps or has dropped its lock are arguments of the call.
    - UciStream, UciLife: theorems on runs of MhiUci's operations.
    - MhiMem: coherent memory and the heap objects that describe it; [held] says
      which blocks a component has on top of the memory it found.
    - MhiBoot: core/mhi_boot.c; the state is the controller, the memory and the
      driver's image pointers, interrupts and firmware files.  BootImage: theorems,
      with a device that fetches what the registers name.
    - MhiLayout: the tables of channels and event rings, their parsing, the layout
      of the control segment and the rings in it.
    - MhiInit: interrupts, device context, preparation for power-up and the way
      back.  InitProofs: theorems on whole lives of a controller.
    - MhiBus: registration of controllers, minors, the control device.
    - Netdev: state of the network device and its flow control.
    - Qmap, Mbim: the two framings, transmit and receive.
    - NetFlow: transmit paths and everything that stops or wakes a queue.
    - NetRx: receive buffers, polling, the refill worker, starting and removing the
      interface, over [TransferQueue] and [RoomyQueue]; MhiXfer's channel with
      mhi_queue_skb is an instance.  RxProofs: theorems on any sequence of these.
    - NetProbe: probing the device and its virtual interfaces.
    - AtTok: net/quectel-cm/src/at_tok.c.
    - QmiMsg: composing messages and finding their fields (QMIThread.c,
      QCQMUX.h, QCQMI.h).
    - QmiReq: the statics of QMIThread.c and the requests that start, stop and
      query data calls.
    - QmiAddr: requestGetIPAddress.  QmiCard: SIM status, PIN and profile
      requests.  QmiEth: requestSetEthMode.  QmiNet: registration.
    - QmiSession: sender and receiver as interleaved steps.
    - QmiProxy: quectel-qmi-proxy.c.  QmiClient: QmiWwanCM.c.
    - MbimMsg: UUIDs, messages and the connect request of mbim-cm.c.
    - MbimCm: its session: sending, checking, the queries and settings, the
      addresses, the operations handed to the dial loop, the reader.

    - QcmDial: qmi_main of main.c over the class [RequestOps], the table of
      operations; the class [SessionInv] states what a session promises.
    - QcmSessions: the QMI and MBIM tables as instances of both classes.

    ** Correspondence

    A C function is a definition of the same name on an explicit state; a loop
    is a Fixpoint named after it.  Records have the members the code uses.
    Everything that leaves the modelled code (callbacks, votes on the bus,
    packets handed to the stack, messages sent, freed memory) is an entry of a
    trace in the state, in order.  Waiting ([wait_event_timeout] and the like)
    takes as an argument what the rest of the system does meanwhile;
    allocation, mapping and calls into the kernel take their outcome as an
    argument; the modem behind a QMI request is a function from requests to
    responses.  [None] or a constructor of its own stands for an access outside
    an array, a buffer or a frame.  Locks are not modelled: an operation is one
    step between its points of waiting; QmiSession makes the steps explicit.

    ** Bounds and fuel

    Structural loops need none.  The completion, drain and stale-event loops
    run on the ring's number of elements and the theorems prove that this is
    enough; the control event ring runs on the number of pending elements,
    enough by C35; the QMAP receive loop runs on the
    number of bytes, which C7 proves enough; the MBIM receive
    loop has no bound in the code, and [Mbim.mbim_rx_diverges] proves that none
    would be enough.  The search for a field of a QMI message runs on the bytes
    left; the write loop of the character devices on the bytes to write, enough by
    [UciLife.uci_write_cut]; the loop over received buffers on the length of their
    chain, enough by C10.  Machine integers wrap where the code can overflow; the ring theorems
    assume the sizes the driver allocates (fewer than 2^31 elements, addresses
    below 2^64).

    ** Theorems

    - Rings: C1 (a ring refines a bounded queue).
    - Transfers: C2 (buffers come back in order, exactly
      once, with the vote following the pending packets),
      C3 (a reset leaves nothing behind).
    - Power management: C4,
      C5 (the state machine is the documented one, and
      every handler walks it), C33 (so does whatever the
      device puts in the control ring), C35,
      [MhiPm.suspend_outcomes],
      C11.
    - Control lines: C36.
    - Character devices: C16 (a node is a queue of
      packets), C17 (over a device's whole life),
      [UciLife.uci_write_cut] (what a write hands over).
    - Boot: C12 (the device fetches the file),
      C13 (what the worker holds at its end, on every path),
      [BootImage.rddm_table_covers].
    - Initialisation: C14 (the rings fit and start as the
      ring theorems assume), C15 (nothing is left behind),
      [MhiBus.minor_is_stable], [MhiBus.registration_all_or_nothing].
    - Network device: C6, C7 (any frame is
      handled safely), C8, C38,
      C9 (the receive ring is always refilled),
      C10 (frames in order, every buffer in one place),
      [NetProbe.probed_device_ready] (a probed device has what the others assume);
      further theorems of Qmap and Mbim pin down frames on which the handlers
      loop for ever or read outside their data.
    - Dial loop: C19 (no lost wake-up),
      C20 (back-off), C21,
      C22; for the
      sessions C23, C24,
      C26.
    - QMI: C29, C40,
      C30, [QmiMsg.start_request_bound]
      (messages), C27, C39
      (data calls), [QmiAddr.address_roundtrip], C25
      (requests), C28 (threads),
      C31 (identifiers),
      C32, [QmiProxy.proxy_ids_accounted] (proxy).
    - MBIM session: C34; what it keeps in any run
      is in the dial loop's theorems.
    - Portal: C18, C37.  Multi-WAN helpers:
      [Mwan3Ct.flush_any_marked_exact].

    Theorems without a number show what the findings say (overreads, lost
    buffers, locks left taken) or are the further facts of a component.

    ** Not modelled

    The PCI controllers, the other builds of the
    network device, the time-sync capability, the text monitor and the module
    start of mhi_init.c, and of net/quectel-cm the command line and device discovery, the AT channel, the
    other proxies, qrtr and the DHCP glue.  Printing, statistics read-out and
    sysfs/debugfs views are left out throughout; Lua and shell are out of
    scope. *)

From stdpp Require Export prelude list gmap strings.
From Stdlib Require Export ZArith Lia.

#[global] Open Scope Z_scope.

(** ** Machine integers

    A C integer is a [Z]; an operation that can leave the range of its type is
    followed by the wrap-around of that type, written [u8], [u16], [u32],
    [u64] for the unsigned types and [s32], [s64] for the signed ones. *)

Definition wrap (w x : Z) : Z := x mod 2 ^ w.
Definition swrap (w x : Z) : Z :=
  let y := wrap w x in if y <? 2 ^ (w - 1) then y else y - 2 ^ w.

Abbreviation u8 := (wrap 8).
Abbreviation u16 := (wrap 16).
Abbreviation u32 := (wrap 32).
Abbreviation u64 := (wrap 64).
Abbreviation s32 := (swrap 32).
Abbreviation s64 := (swrap 64).

(** [in_u w x]: [x] is a value of the unsigned type of [w] bits. *)
Definition in_u (w x : Z) : Prop := 0 <= x < 2 ^ w.

#[global] Instance in_u_dec w x : Decision (in_u w x).
Proof. unfold in_u. apply _. Defined.

Lemma wrap_in_u w x : 0 <= w -> in_u w (wrap w x).
Proof. intros. apply Z.mod_pos_bound, Z.pow_pos_nonneg; lia. Qed.

Lemma wrap_small w x : in_u w x -> wrap w x = x.
Proof. apply Z.mod_small. Qed.

Lemma wrap_idemp w x : 0 <= w -> wrap w (wrap w x) = wrap w x.
Proof. intros. apply wrap_small, wrap_in_u; lia. Qed.

Lemma wrap_testbit w x i :
  0 <= w -> 0 <= i -> Z.testbit (wrap w x) i = (i <? w) && Z.testbit x i.
Proof.
  intros Hw Hi. unfold wrap. destruct (Z.ltb_spec i w).
  - by rewrite Z.mod_pow2_bits_low by lia.
  - by rewrite Z.mod_pow2_bits_high by lia.
Qed.

Lemma in_u_testbit w x i : 0 <= w <= i -> in_u w x -> Z.testbit x i = false.
Proof.
  intros Hi Hx. rewrite <- (wrap_small w x Hx), wrap_testbit by lia.
  destruct (Z.ltb_spec i w); [lia|done].
Qed.

(** The proof obligations [in_u] of constants and of bounded expressions. *)
Ltac in_u := unfold in_u in *; cbn [Z.pow Z.pow_pos Pos.iter Z.mul Pos.mul] in *; lia.

(** ** Bits *)

(** A number all of whose bits from [w] on are clear is a [w]-bit number. *)
Lemma testbit_in_u w x :
  0 <= w -> 0 <= x -> (forall i, w <= i -> Z.testbit x i = false) -> in_u w x.
Proof.
  intros Hw Hx Hhi. split; [done|].
  destruct (Z.eq_dec x 0) as [->|Hne]; [by apply Z.pow_pos_nonneg; lia|].
  apply Z.log2_lt_pow2; [lia|].
  destruct (Z.lt_ge_cases (Z.log2 x) w) as [|Hge]; [done|].
  specialize (Hhi _ Hge). by rewrite Z.bit_log2 in Hhi by lia.
Qed.

Lemma land_zero_testbit x y :
  Z.land x y = 0 <-> (forall i, 0 <= i -> Z.testbit x i && Z.testbit y i = false).
Proof.
  split.
  - intros H i _. by rewrite <- Z.land_spec, H, Z.testbit_0_l.
  - intros H. apply Z.bits_inj'. intros i Hi. rewrite Z.land_spec, Z.testbit_0_l. auto.
Qed.

(** [submask v m]: every bit of [v] is a bit of [m]; [v & ~m == 0] in C. *)
Definition submask (v m : Z) : Prop := forall i, 0 <= i -> Z.testbit v i = true -> Z.testbit m i = true.

Lemma submask_ldiff v m : Z.ldiff v m = 0 <-> submask v m.
Proof.
  split.
  - intros H i Hi Hv. destruct (Z.testbit m i) eqn:E; [done|].
    apply (f_equal (fun z => Z.testbit z i)) in H.
    rewrite Z.ldiff_spec, Z.testbit_0_l, Hv, E in H. done.
  - intros H. apply Z.bits_inj'. intros i Hi. rewrite Z.ldiff_spec, Z.testbit_0_l.
    destruct (Z.testbit v i) eqn:E; [|done]. by rewrite (H i Hi E).
Qed.

Lemma submask_0 m : submask 0 m.
Proof. intros i _. by rewrite Z.testbit_0_l. Qed.

Lemma submask_refl m : submask m m.
Proof. intros i _ H. done. Qed.

(** A contiguous bit field: [w] ones starting at bit [s]. *)
Definition field_mask (s w : Z) : Z := Z.shiftl (Z.ones w) s.

Lemma field_mask_testbit s w i :
  0 <= s -> 0 <= w -> 0 <= i -> Z.testbit (field_mask s w) i = (s <=? i) && (i <? s + w).
Proof.
  intros. unfold field_mask. rewrite Z.shiftl_spec by lia.
  destruct (Z.leb_spec s i); cbn [andb]; [|by rewrite Z.testbit_neg_r by lia].
  destruct (Z.ltb_spec i (s + w)); [apply Z.ones_spec_low|apply Z.ones_spec_high]; lia.
Qed.

(** ** Results

    A C function that returns [0] or a negative error number. *)

Inductive res (A : Type) := Ok (a : A) | Err (e : Z).
#[global] Arguments Ok {A} a.
#[global] Arguments Err {A} e.

Definition res_bind {A B} (r : res A) (f : A -> res B) : res B :=
  match r with Ok a => f a | Err e => Err e end.

Declare Scope gl_scope.
Delimit Scope gl_scope with gl.
Notation "'let?' x := r 'in' k" := (res_bind r (fun x => k))
  (at level 200, x pattern, r at level 100, k at level 200, right associativity) : gl_scope.
#[global] Open Scope gl_scope.

#[global] Instance res_eq_dec {A} `{EqDecision A} : EqDecision (res A).
Proof. solve_decision. Defined.

(** ** State and failure

    Code on a state [S] that ends with a result or leaves the program's objects
    ([None]). *)

Definition st (S A : Type) : Type := S -> option (A * S).

#[global] Instance st_ret S : MRet (st S) := fun A x s => Some (x, s).
#[global] Instance st_bind S : MBind (st S) := fun A B f m s => match m s with Some (x, s) => f x s | None => None end.

Definition st_gets {S A} (f : S -> A) : st S A := fun s => Some (f s, s).
Definition st_modify {S} (f : S -> S) : st S unit := fun s => Some (tt, f s).
Definition st_load {S A} (o : option A) : st S A := fun s => match o with Some x => Some (x, s) | None => None end.

(** A computation on a part of the state: [get] reads the part, [put] replaces it. *)
Definition st_zoom {S T A} (get : S -> T) (put : T -> S -> S) (m : st T A) : st S A := fun s =>
  match m (get s) with Some (x, t) => Some (x, put t s) | None => None end.

Lemma st_bind_inv {S A B} (f : A -> st S B) (m : st S A) s y s' :
  (m ≫= f) s = Some (y, s') -> exists x s1, m s = Some (x, s1) /\ f x s1 = Some (y, s').
Proof. unfold mbind, st_bind. destruct (m s) as [[x s1]|]; [|done]. by exists x, s1. Qed.

Lemma st_bind_some {S A B} (f : A -> st S B) (m : st S A) s x s1 : m s = Some (x, s1) -> (m ≫= f) s = f x s1.
Proof. intros E. unfold mbind, st_bind. by rewrite E. Qed.
Lemma st_ret_inv {S A} (x y : A) (s s' : S) : (mret x : st S A) s = Some (y, s') -> y = x /\ s' = s.
Proof. by intros [= <- <-]. Qed.
Lemma st_gets_inv {S A} (f : S -> A) s y s' : st_gets f s = Some (y, s') -> y = f s /\ s' = s.
Proof. by intros [= <- <-]. Qed.
Lemma st_modify_inv {S} (f : S -> S) s y s' : st_modify f s = Some (y, s') -> s' = f s.
Proof. by intros [= <- <-]. Qed.
Lemma st_load_inv {S A} (o : option A) (s : S) y s' : st_load o s = Some (y, s') -> o = Some y /\ s' = s.
Proof. unfold st_load. destruct o; [|done]. by intros [= <- <-]. Qed.

Lemma st_bind_gets {S A B} (f : S -> A) (k : A -> st S B) s : (st_gets f ≫= k) s = k (f s) s.
Proof. done. Qed.
Lemma st_bind_modify {S B} (f : S -> S) (k : unit -> st S B) s : (st_modify f ≫= k) s = k tt (f s).
Proof. done. Qed.
Lemma st_bind_ret {S A B} (x : A) (k : A -> st S B) s : (mret x ≫= k) s = k x s.
Proof. done. Qed.
Lemma st_bind_assoc {S A B C} (m : st S A) (f : A -> st S B) (g : B -> st S C) s :
  ((m ≫= f) ≫= g) s = (m ≫= fun x => f x ≫= g) s.
Proof. unfold mbind, st_bind. by destruct (m s) as [[]|]. Qed.
Lemma st_bind_if {S A B} (b : bool) (m n : st S A) (k : A -> st S B) s :
  ((if b then m else n) ≫= k) s = if b then (m ≫= k) s else (n ≫= k) s.
Proof. by destruct b. Qed.
Lemma st_if {S A} (b : bool) (m n : st S A) s : (if b then m else n) s = if b then m s else n s.
Proof. by destruct b. Qed.
Lemma st_ret_eq {S A} (x : A) (s : S) : (mret x : st S A) s = Some (x, s).
Proof. done. Qed.
Lemma st_modify_eq {S} (f : S -> S) s : st_modify f s = Some (tt, f s).
Proof. done. Qed.

(** Runs code on a symbolic state up to the first test or call. *)
Ltac st_step H :=
  first [rewrite st_bind_gets in H | rewrite st_bind_modify in H | rewrite st_bind_ret in H
        | rewrite st_bind_assoc in H | rewrite st_bind_if in H | rewrite st_if in H
        | rewrite st_ret_eq in H | rewrite st_modify_eq in H]; cbn beta zeta in H.
Ltac st_run H := cbn beta zeta in H; repeat st_step H.

(** [m] started where [P] holds ends where [Q] holds of its result. *)
Definition has_post {S A} (P : S -> Prop) (m : st S A) (Q : A -> S -> Prop) : Prop :=
  forall s x s', P s -> m s = Some (x, s') -> Q x s'.

Section HasPost.
Context {S : Type}.
Implicit Types P : S -> Prop.

Lemma post_ret {A} P (x : A) (Q : A -> S -> Prop) : (forall s, P s -> Q x s) -> has_post P (mret x) Q.
Proof. intros H s y s' HP [= <- <-]. by apply H. Qed.

Lemma post_bind {A B} P (m : st S A) (f : A -> st S B) (R : A -> S -> Prop) (Q : B -> S -> Prop) :
  has_post P m R -> (forall x, has_post (R x) (f x) Q) -> has_post P (m ≫= f) Q.
Proof. intros Hm Hf s y s' HP (x & s1 & H1 & H2)%st_bind_inv. eapply Hf; [|exact H2]. by eapply Hm. Qed.

Lemma post_weaken {A} P P' (m : st S A) (Q Q' : A -> S -> Prop) :
  has_post P' m Q' -> (forall s, P s -> P' s) -> (forall x s, Q' x s -> Q x s) -> has_post P m Q.
Proof. intros H H1 H2 s x s' HP Hm. eapply H2, H; [by apply H1|done]. Qed.

Lemma post_gets {A} P (f : S -> A) (Q : A -> S -> Prop) : (forall s, P s -> Q (f s) s) -> has_post P (st_gets f) Q.
Proof. intros H s x s' HP [= <- <-]. by apply H. Qed.

Lemma post_modify P (f : S -> S) (Q : unit -> S -> Prop) : (forall s, P s -> Q tt (f s)) -> has_post P (st_modify f) Q.
Proof. intros H s x s' HP [= <- <-]. by apply H. Qed.

Lemma post_if {A} P (b : bool) (m n : st S A) Q :
  (b = true -> has_post P m Q) -> (b = false -> has_post P n Q) -> has_post P (if b then m else n) Q.
Proof. destruct b; auto. Qed.

End HasPost.

(** [m] started where [P] holds does not fail, and ends where [Q] holds of its
    result. *)
Definition st_safe {S A} (P : S -> Prop) (m : st S A) (Q : A -> S -> Prop) : Prop :=
  forall s, P s -> exists x s', m s = Some (x, s') /\ Q x s'.

Section StSafe.
Context {S : Type}.
Implicit Types P : S -> Prop.

Lemma safe_ret {A} P (x : A) (Q : A -> S -> Prop) : (forall s, P s -> Q x s) -> st_safe P (mret x) Q.
Proof. intros H s HP. exists x, s. split; [done|by apply H]. Qed.

Lemma safe_bind {A B} P (m : st S A) (f : A -> st S B) (R : A -> S -> Prop) (Q : B -> S -> Prop) :
  st_safe P m R -> (forall x, st_safe (R x) (f x) Q) -> st_safe P (m ≫= f) Q.
Proof.
  intros Hm Hf s HP. destruct (Hm s HP) as (x & s1 & E & HR). rewrite (st_bind_some f m s x s1 E). by apply Hf.
Qed.

(** The state is read: its value stays known. *)
Lemma safe_read {A B} P (g : S -> A) (f : A -> st S B) (Q : B -> S -> Prop) :
  (forall x, st_safe (fun s => P s /\ g s = x) (f x) Q) -> st_safe P (st_gets g ≫= f) Q.
Proof. intros H s HP. rewrite st_bind_gets. by apply (H (g s)). Qed.

Lemma safe_modify P (f : S -> S) (Q : unit -> S -> Prop) : (forall s, P s -> Q tt (f s)) -> st_safe P (st_modify f) Q.
Proof. intros H s HP. exists tt, (f s). split; [done|by apply H]. Qed.

Lemma safe_write {B} P (g : S -> S) (f : unit -> st S B) R (Q : B -> S -> Prop) :
  (forall s, P s -> R (g s)) -> st_safe R (f tt) Q -> st_safe P (st_modify g ≫= f) Q.
Proof. intros Hg Hf s HP. rewrite st_bind_modify. by apply Hf, Hg. Qed.

(** A value that is there is loaded. *)
Lemma safe_load {A} P (o : option A) (Q : A -> S -> Prop) :
  (forall s, P s -> exists x, o = Some x /\ Q x s) -> st_safe P (st_load o) Q.
Proof. intros H s HP. destruct (H s HP) as (x & -> & HQ). by exists x, s. Qed.

(** A computation on a part of the state. *)
Lemma safe_zoom {T A} (get : S -> T) (put : T -> S -> S) P (m : st T A) (Q : A -> S -> Prop) :
  (forall s0, st_safe (fun t => P s0 /\ t = get s0) m (fun x t => Q x (put t s0))) -> st_safe P (st_zoom get put m) Q.
Proof.
  intros H s HP. destruct (H s (get s) (conj HP eq_refl)) as (x & t & E & HQ).
  exists x, (put t s). unfold st_zoom. by rewrite E.
Qed.

Lemma safe_if {A} P (b : bool) (m n : st S A) Q :
  (b = true -> st_safe P m Q) -> (b = false -> st_safe P n Q) -> st_safe P (if b then m else n) Q.
Proof. destruct b; auto. Qed.

Lemma safe_weaken {A} P P' (m : st S A) (Q Q' : A -> S -> Prop) :
  st_safe P' m Q' -> (forall s, P s -> P' s) -> (forall x s, Q' x s -> Q x s) -> st_safe P m Q.
Proof. intros H H1 H2 s HP. destruct (H s (H1 s HP)) as (x & s' & E & HQ). eauto. Qed.

End StSafe.

(** Every run of [m] relates the states before and after it by [R]. *)
Definition st_rel {S A} (R : S -> S -> Prop) (m : st S A) : Prop :=
  forall s x s', m s = Some (x, s') -> R s s'.

Section StRel.
Context {S : Type} (R : S -> S -> Prop) `{!PreOrder R}.

Lemma rel_ret {A} (x : A) : st_rel R (mret x).
Proof. by intros s y s' [= <- <-]. Qed.

Lemma rel_bind {A B} (m : st S A) (f : A -> st S B) :
  st_rel R m -> (forall x, st_rel R (f x)) -> st_rel R (m ≫= f).
Proof. intros Hm Hf s y s' (x & s1 & H1 & H2)%st_bind_inv. by etrans; [eapply Hm|eapply Hf]. Qed.

Lemma rel_gets {A} (f : S -> A) : st_rel R (st_gets f).
Proof. by intros s y s' [= <- <-]. Qed.

Lemma rel_modify (f : S -> S) : (forall s, R s (f s)) -> st_rel R (st_modify f).
Proof. by intros H s y s' [= <- <-]. Qed.

Lemma rel_if {A} (b : bool) (m n : st S A) : st_rel R m -> st_rel R n -> st_rel R (if b then m else n).
Proof. by destruct b. Qed.

Lemma rel_load {A} (o : option A) : st_rel R (st_load o).
Proof. by intros s y s' [_ ->]%st_load_inv. Qed.

Lemma rel_fail {A} : st_rel R (fun _ => None : option (A * S)).
Proof. by intros s y s' H. Qed.

End StRel.

(** One step through a body; calls are left to the caller. *)
Ltac st_walk1 :=
  lazymatch goal with
  | |- st_rel _ (mbind _ _) => apply rel_bind; [apply _| |intros ?]
  | |- st_rel _ (mret _) => apply rel_ret; apply _
  | |- st_rel _ (match ?x with _ => _ end) => first [apply rel_if | destruct x]
  | |- st_rel _ (st_gets _) => apply rel_gets; apply _
  | |- st_rel _ (st_load _) => apply rel_load; apply _
  | |- st_rel _ (st_modify _) => apply rel_modify; intros ?
  end.

Lemma rel_mono {S A} (R R' : S -> S -> Prop) (m : st S A) : (forall s s', R s s' -> R' s s') -> st_rel R m -> st_rel R' m.
Proof. intros H Hm s x s' E. by eapply H, Hm. Qed.

Lemma rel_post {S A} (P : S -> Prop) (m : st S A) : st_rel (fun s s' => P s -> P s') m -> has_post P m (fun _ => P).
Proof. intros H s x s' HP E. by eapply H. Qed.

(** ** Byte strings

    C strings and buffers are lists of byte values.  [bs "..."] is the byte
    string of a literal. *)

Abbreviation bytes := (list Z).

Definition ascii_code (c : Ascii.ascii) : Z := Z.of_N (Ascii.N_of_ascii c).

Fixpoint bs (s : string) : bytes :=
  match s with
  | EmptyString => []
  | String c s => ascii_code c :: bs s
  end.

Definition is_byte (b : Z) : Prop := in_u 8 b.

#[global] Instance is_byte_dec b : Decision (is_byte b).
Proof. unfold is_byte. apply _. Defined.

(** [l] read at a [Z] index: [None] when the index is out of the array, which
    is undefined behaviour in C. *)
Definition zget {A} (l : list A) (i : Z) : option A :=
  if i <? 0 then None else l !! Z.to_nat i.

Definition zlen {A} (l : list A) : Z := Z.of_nat (length l).
Definition ztake {A} (n : Z) (l : list A) : list A := take (Z.to_nat n) l.
Definition zdrop {A} (n : Z) (l : list A) : list A := drop (Z.to_nat n) l.

Lemma zlen_nonneg {A} (l : list A) : 0 <= zlen l.
Proof. unfold zlen. lia. Qed.

Lemma zlen_nil {A} : zlen (@nil A) = 0.
Proof. done. Qed.

Lemma zlen_cons {A} (x : A) l : zlen (x :: l) = 1 + zlen l.
Proof. unfold zlen. cbn [length]. lia. Qed.

Lemma zlen_app {A} (l k : list A) : zlen (l ++ k) = zlen l + zlen k.
Proof. unfold zlen. rewrite length_app. lia. Qed.

Lemma zlen_snoc {A} (l : list A) x : zlen (l ++ [x]) = zlen l + 1.
Proof. by rewrite zlen_app. Qed.

Lemma zlen_replicate {A} n (x : A) : zlen (replicate n x) = Z.of_nat n.
Proof. unfold zlen. by rewrite length_replicate. Qed.

Lemma zlen_zdrop {A} n (l : list A) : 0 <= n <= zlen l -> zlen (zdrop n l) = zlen l - n.
Proof. unfold zlen, zdrop. intros H. rewrite length_drop. lia. Qed.

Lemma zget_is_Some {A} (l : list A) i : is_Some (zget l i) <-> 0 <= i < zlen l.
Proof.
  unfold zget, zlen. destruct (Z.ltb_spec i 0).
  - split; [by intros [? ?]|lia].
  - rewrite lookup_lt_is_Some. lia.
Qed.

Lemma zget_app_l {A} (l k : list A) i : i < zlen l -> zget (l ++ k) i = zget l i.
Proof.
  unfold zget, zlen. intros. destruct (i <? 0) eqn:E; [done|].
  rewrite lookup_app_l; [done|]. apply Z.ltb_ge in E. lia.
Qed.

Lemma zget_app_r {A} (l k : list A) i :
  zlen l <= i -> zget (l ++ k) i = zget k (i - zlen l).
Proof.
  unfold zget, zlen. intros.
  destruct (Z.ltb_spec i 0); destruct (Z.ltb_spec (i - Z.of_nat (length l)) 0); try lia.
  rewrite lookup_app_r by lia. f_equal. lia.
Qed.

Lemma zdrop_app {A} (l k : list A) n : n = zlen l -> zdrop n (l ++ k) = k.
Proof. unfold zdrop, zlen. intros ->. by rewrite Nat2Z.id, drop_app_length. Qed.

Lemma ztake_app {A} (l k : list A) n : n = zlen l -> ztake n (l ++ k) = l.
Proof. unfold ztake, zlen. intros ->. by rewrite Nat2Z.id, take_app_length. Qed.

(** A loop over an array that may update the state and each element. *)
Fixpoint map_st {A S} (f : A -> S -> S * A) (l : list A) (s : S) : S * list A :=
  match l with
  | [] => (s, [])
  | x :: l => let '(s, x) := f x s in let '(s, l) := map_st f l s in (s, x :: l)
  end.

(** What every step preserves, the loop preserves. *)
Lemma map_st_inv {A S} (f : A -> S -> S * A) (P : S -> Prop) l s :
  (forall x s, P s -> P (fst (f x s))) -> P s -> P (fst (map_st f l s)).
Proof.
  intros Hf. revert s. induction l as [|x l IH]; intros s Hs; [done|]. cbn [map_st].
  specialize (Hf x s Hs) as Hx. destruct (f x s) as [s' x']. cbn in Hx.
  specialize (IH s' Hx). by destruct (map_st f l s').
Qed.

(** A field of the state that no step changes. *)
Lemma map_st_field {A S B} (f : A -> S -> S * A) (g : S -> B) l s :
  (forall x s, g (fst (f x s)) = g s) -> g (fst (map_st f l s)) = g s.
Proof.
  intros Hf. apply (map_st_inv f (fun s' => g s' = g s)); [|done].
  intros x s' <-. apply Hf.
Qed.

(** What every step establishes of its element holds of all of them. *)
Lemma map_st_Forall {A S} (f : A -> S -> S * A) (P : A -> Prop) l s :
  (forall x s, P (snd (f x s))) -> Forall P (snd (map_st f l s)).
Proof.
  intros Hf. revert s. induction l as [|x l IH]; intros s; [constructor|]. cbn [map_st].
  specialize (Hf x s) as Hx. destruct (f x s) as [s' x']. specialize (IH s').
  destruct (map_st f l s'). by constructor.
Qed.

Create HintDb gl discriminated.
#[export] Hint Resolve zlen_nonneg submask_0 submask_refl : gl.
Create Rewrite HintDb zlen.
#[export] Hint Rewrite @zlen_nil @zlen_cons @zlen_app @zlen_replicate : zlen.

(** ** Automation *)

(** Case analysis on every boolean comparison of the goal. *)
Ltac zbool :=
  repeat match goal with
  | |- context [?a <? ?b] => destruct (Z.ltb_spec a b)
  | |- context [?a <=? ?b] => destruct (Z.leb_spec a b)
  | |- context [?a =? ?b] => destruct (Z.eqb_spec a b)
  end.

(** Turn boolean hypotheses into propositions. *)
Ltac zprop :=
  repeat match goal with
  | H : (_ <? _) = true |- _ => apply Z.ltb_lt in H
  | H : (_ <? _) = false |- _ => apply Z.ltb_ge in H
  | H : (_ <=? _) = true |- _ => apply Z.leb_le in H
  | H : (_ <=? _) = false |- _ => apply Z.leb_gt in H
  | H : (_ =? _) = true |- _ => apply Z.eqb_eq in H
  | H : (_ =? _) = false |- _ => apply Z.eqb_neq in H
  | H : negb _ = true |- _ => apply negb_true_iff in H
  | H : negb _ = false |- _ => apply negb_false_iff in H
  | H : _ && _ = true |- _ => apply andb_true_iff in H; destruct H
  | H : _ || _ = false |- _ => apply orb_false_iff in H; destruct H
  end.

(** Split the innermost [match] of the goal or of a hypothesis. *)
Ltac split_match :=
  match goal with
  | |- context [match ?x with _ => _ end] =>
      lazymatch x with
      | context [match _ with _ => _ end] => fail
      | _ => let E := fresh "E" in destruct x eqn:E
      end
  end.
Ltac split_match_in H :=
  match type of H with
  | context [match ?x with _ => _ end] =>
      lazymatch x with
      | context [match _ with _ => _ end] => fail
      | _ => let E := fresh "E" in destruct x eqn:E
      end
  end.
