(* ===== verification/CLib.v ===== *)
(** * The part of the C standard library the modelled code calls

    C strings are byte lists without the terminating NUL.  A [char *] cursor
    into a string is the suffix it points at, and [option bytes] where the
    code lets it become [NULL]; two cursors into the same string are equal
    exactly when their suffixes have the same length ([endp_eqb]).  [long] is
    64 bits wide, as on the device's aarch64. *)

From S2P Require Import Prelude.

(** ** Error numbers *)

Definition EPERM : Z := 1.
Definition ENOENT : Z := 2.
Definition EIO : Z := 5.
Definition ENXIO : Z := 6.
Definition EAGAIN : Z := 11.
Definition ENOMEM : Z := 12.
Definition EFAULT : Z := 14.
Definition EBUSY : Z := 16.
Definition ENODEV : Z := 19.
Definition EINVAL : Z := 22.
Definition EFBIG : Z := 27.
Definition ENETDOWN : Z := 100.
Definition ETIMEDOUT : Z := 110.

(** ** Character classes *)

(** [isspace] in the C locale. *)
Definition isspace (c : Z) : bool := (c =? 32) || ((9 <=? c) && (c <=? 13)).

Definition isdigit (c : Z) : bool := (48 <=? c) && (c <=? 57).

(** Value of [c] as a digit in a base up to 36. *)
Definition digit_val (c : Z) : option Z :=
  if isdigit c then Some (c - 48)
  else if (97 <=? c) && (c <=? 122) then Some (c - 87)
  else if (65 <=? c) && (c <=? 90) then Some (c - 55)
  else None.

Definition base_digit (base c : Z) : option Z :=
  match digit_val c with
  | Some d => if d <? base then Some d else None
  | None => None
  end.

(** ** Searching and cutting *)

(** [strchr s c] for [c <> 0]: the suffix starting at the first [c]. *)
Fixpoint strchr (s : bytes) (c : Z) : option bytes :=
  match s with
  | [] => None
  | x :: r => if x =? c then Some s else strchr r c
  end.

(** Everything before the first [d], and what follows that [d] if there is one. *)
Fixpoint cut (d : Z) (s : bytes) : bytes * option bytes :=
  match s with
  | [] => ([], None)
  | x :: r => if x =? d then ([], Some r)
              else let '(p, q) := cut d r in (x :: p, q)
  end.

(** [strsep(&p, "d")] with a one-character delimiter: the token returned and
    the new value of [p]. *)
Definition strsep (p : option bytes) (d : Z) : option bytes * option bytes :=
  match p with
  | None => (None, None)
  | Some s => let '(t, r) := cut d s in (Some t, r)
  end.

Fixpoint skip_while (f : Z -> bool) (s : bytes) : bytes :=
  match s with
  | x :: r => if f x then skip_while f r else s
  | [] => []
  end.

(** [strtok_r(s, "d", &save)]: the next token and the new [save], or [None]
    when only delimiters are left. *)
Definition strtok_r (s : bytes) (d : Z) : option (bytes * bytes) :=
  match skip_while (fun c => c =? d) s with
  | [] => None
  | s' => let '(t, r) := cut d s' in Some (t, default [] r)
  end.

(** [endp == s] for two cursors into the same string. *)
Definition endp_eqb (endp s : bytes) : bool := Nat.eqb (length endp) (length s).

(** ** Numbers *)

(** Longest run of digits: their value accumulated on [acc], the rest, and
    whether there was at least one. *)
Fixpoint scan_digits (base : Z) (s : bytes) (acc : Z) (any : bool) : Z * bytes * bool :=
  match s with
  | [] => (acc, [], any)
  | c :: r => match base_digit base c with
              | Some d => scan_digits base r (acc * base + d) true
              | None => (acc, s, any)
              end
  end.

(** The optional [0x] and octal prefixes of [strtol]: effective base and the
    digits to scan.  [0x] counts only when a hexadecimal digit follows. *)
Definition num_prefix (base : Z) (s : bytes) : Z * bytes :=
  match s with
  | 48 :: x :: h :: r =>
      if ((base =? 0) || (base =? 16)) && ((x =? 120) || (x =? 88))
         && bool_decide (is_Some (base_digit 16 h))
      then (16, h :: r)
      else (if base =? 0 then 8 else base, s)
  | 48 :: _ => (if base =? 0 then 8 else base, s)
  | _ => (if base =? 0 then 10 else base, s)
  end.

Definition num_sign (s : bytes) : bool * bytes :=
  match s with
  | 45 :: r => (true, r)
  | 43 :: r => (false, r)
  | _ => (false, s)
  end.

(** Sign, magnitude and end pointer shared by [strtol] and [strtoul]; no
    conversion leaves the end pointer at the start of the string. *)
Definition num_scan (base : Z) (s : bytes) : bool * Z * bytes :=
  let '(neg, s2) := num_sign (skip_while isspace s) in
  let '(b, s3) := num_prefix base s2 in
  let '(mag, rest, any) := scan_digits b s3 0 false in
  if any then (neg, mag, rest) else (false, 0, s).

Record num_res := NumRes { num_val : Z; num_end : bytes; num_erange : bool }.

Definition ULONG_MAX : Z := 2 ^ 64 - 1.
Definition LONG_MAX : Z := 2 ^ 63 - 1.
Definition LONG_MIN : Z := - 2 ^ 63.

Definition strtoul (base : Z) (s : bytes) : num_res :=
  let '(neg, mag, rest) := num_scan base s in
  if ULONG_MAX <? mag then NumRes ULONG_MAX rest true
  else NumRes (if neg : bool then u64 (- mag) else mag) rest false.

Definition strtol (base : Z) (s : bytes) : num_res :=
  let '(neg, mag, rest) := num_scan base s in
  if (neg : bool)
  then (if - LONG_MIN <? mag then NumRes LONG_MIN rest true else NumRes (- mag) rest false)
  else (if LONG_MAX <? mag then NumRes LONG_MAX rest true else NumRes mag rest false).

(** ** Lemmas *)

Lemma cut_no_delim d s : d ∉ s -> cut d s = (s, None).
Proof.
  induction s as [|x s IH]; [done|]. intros H. cbn [cut].
  destruct (Z.eqb_spec x d) as [->|]; [exfalso; apply H; left|].
  rewrite IH; [done|]. intros ?. apply H. by right.
Qed.

Lemma cut_delim d p s : d ∉ p -> cut d (p ++ d :: s) = (p, Some s).
Proof.
  induction p as [|x p IH]; intros H; cbn [cut app].
  - by rewrite Z.eqb_refl.
  - destruct (Z.eqb_spec x d) as [->|]; [exfalso; apply H; left|].
    rewrite IH; [done|]. intros ?. apply H. by right.
Qed.

Lemma cut_spec d s p r :
  cut d s = (p, r) ->
  d ∉ p /\ s = p ++ (match r with Some q => d :: q | None => [] end).
Proof.
  revert p r. induction s as [|x s IH]; intros p r; cbn [cut].
  - intros [= <- <-]. split; [by apply not_elem_of_nil|done].
  - destruct (Z.eqb_spec x d) as [->|Hx].
    + intros [= <- <-]. split; [by apply not_elem_of_nil|done].
    + destruct (cut d s) as [p' r'] eqn:E. intros [= <- <-].
      destruct (IH _ _ eq_refl) as [Hp ->]. split; [|done].
      rewrite not_elem_of_cons. split; [done|done].
Qed.

Lemma cut_rest_length d s p r : cut d s = (p, Some r) -> (length r < length s)%nat.
Proof.
  intros H. apply cut_spec in H as [_ ->]. rewrite length_app. cbn [length]. lia.
Qed.

Lemma strchr_cut d s :
  strchr s d = match (cut d s).2 with Some r => Some (d :: r) | None => None end.
Proof.
  induction s as [|x s IH]; [done|]. cbn [strchr cut].
  destruct (Z.eqb_spec x d) as [->|]; [done|].
  rewrite IH. by destruct (cut d s).
Qed.

Lemma skip_while_length f s : (length (skip_while f s) <= length s)%nat.
Proof. induction s as [|x s IH]; cbn; [lia|]. destruct (f x); cbn; lia. Qed.

Lemma skip_while_suffix f s : exists p, s = p ++ skip_while f s /\ Forall (fun c => f c = true) p.
Proof.
  induction s as [|x s [p [IH Hp]]]; cbn; [by exists []|].
  destruct (f x) eqn:E; [|by exists []].
  exists (x :: p). split; [by rewrite IH at 1|by constructor].
Qed.

Lemma skip_while_none f x s : f x = false -> skip_while f (x :: s) = x :: s.
Proof. intros H. cbn. by rewrite H. Qed.

Lemma strtok_r_length s d t r :
  strtok_r s d = Some (t, r) -> (length r < length s)%nat.
Proof.
  unfold strtok_r. pose proof (skip_while_length (fun c => c =? d) s) as Hl.
  destruct (skip_while _ s) as [|x s'] eqn:E; [done|].
  destruct (cut d (x :: s')) as [t' [r'|]] eqn:Ec; intros [= <- <-].
  - apply cut_rest_length in Ec. cbn in *. lia.
  - cbn in *. lia.
Qed.

(** *** Decimal digits *)

Definition is_dec (c : Z) : Prop := 48 <= c <= 57.

#[global] Instance is_dec_dec c : Decision (is_dec c).
Proof. unfold is_dec. apply _. Defined.

Lemma base_digit_dec base c : 10 <= base -> is_dec c -> base_digit base c = Some (c - 48).
Proof.
  unfold is_dec, base_digit, digit_val, isdigit. intros.
  rewrite (proj2 (Z.leb_le 48 c)), (proj2 (Z.leb_le c 57)) by lia. cbn.
  by rewrite (proj2 (Z.ltb_lt (c - 48) base)) by lia.
Qed.

(** Value of a string of decimal digits. *)
Definition dec_val (s : bytes) : Z := fold_left (fun a c => a * 10 + (c - 48)) s 0.

Lemma scan_digits_dec s r acc any :
  Forall is_dec s -> (forall c q, r = c :: q -> base_digit 10 c = None) ->
  scan_digits 10 (s ++ r) acc any =
    (fold_left (fun a c => a * 10 + (c - 48)) s acc, r, any || negb (bool_decide (s = []))).
Proof.
  intros Hs Hr. revert acc any. induction Hs as [|c s Hc Hs IH]; intros acc any; cbn [app].
  - rewrite bool_decide_eq_true_2 by done. cbn. rewrite orb_false_r.
    destruct r as [|c q]; [done|]. cbn. by rewrite (Hr c q eq_refl).
  - cbn [scan_digits]. rewrite base_digit_dec by (done || lia).
    rewrite IH. cbn. rewrite orb_true_r. done.
Qed.

Lemma isspace_dec c : is_dec c -> isspace c = false.
Proof. unfold is_dec, isspace. intros. zbool; cbn; lia || done. Qed.

Lemma num_prefix_10 s : num_prefix 10 s = (10, s).
Proof. unfold num_prefix. repeat (split_match; try done). Qed.

Lemma num_sign_none c s : c <> 45 -> c <> 43 -> num_sign (c :: s) = (false, c :: s).
Proof. intros H1 H2. unfold num_sign. repeat (split_match; try done). Qed.

Lemma dec_val_nonneg_acc s acc :
  Forall is_dec s -> 0 <= acc -> 0 <= fold_left (fun a c => a * 10 + (c - 48)) s acc.
Proof.
  intros Hs. revert acc. induction Hs as [|c s Hc Hs IH]; intros acc Ha; cbn; [done|].
  apply IH. unfold is_dec in Hc. lia.
Qed.

Lemma dec_val_nonneg s : Forall is_dec s -> 0 <= dec_val s.
Proof. intros. by apply dec_val_nonneg_acc. Qed.

(** Scanning a number that starts with a decimal digit and is followed by a
    character that is not a digit. *)
Lemma num_scan_dec s r :
  Forall is_dec s -> s <> [] -> (forall c q, r = c :: q -> base_digit 10 c = None) ->
  num_scan 10 (s ++ r) = (false, dec_val s, r).
Proof.
  intros Hs Hne Hr. unfold num_scan. destruct s as [|c s]; [done|].
  pose proof (Forall_inv Hs) as Hc. cbn [app].
  rewrite skip_while_none by (by apply isspace_dec).
  rewrite num_sign_none by (unfold is_dec in Hc; lia).
  rewrite num_prefix_10, app_comm_cons, scan_digits_dec by done.
  by rewrite bool_decide_eq_false_2 by done.
Qed.

Lemma strtol_dec s r :
  Forall is_dec s -> s <> [] -> (forall c q, r = c :: q -> base_digit 10 c = None) ->
  strtol 10 (s ++ r) = NumRes (Z.min (dec_val s) LONG_MAX) r (LONG_MAX <? dec_val s).
Proof.
  intros Hs Hne Hr. unfold strtol. rewrite num_scan_dec by done.
  destruct (Z.ltb_spec LONG_MAX (dec_val s)); f_equal; lia.
Qed.
