(* ===== verification/Mwan3Ct.v ===== *)
(** * mwan3ct: the conntrack flush helper (net/mwan3-nft/src/mwan3ct.c)

    [id2mask] spreads the bits of an interface id over the set bits of the
    firewall mark mask; [flush_any_marked] uses it to flush every mark value of
    the mask.  libnetfilter_conntrack is a parameter ([nfct]): what each filter
    creation and each query of the run returns. *)

From S2P Require Import Prelude CLib.

(** ** Definitions *)

Definition EXIT_SUCCESS : Z := 0.
Definition EXIT_FAILURE : Z := 1.

(** The loop [for (m = mask; m; m &= m - 1)] of [id2mask].  [None]: the fuel
    ran out; [id2mask_total] shows that 33 is always enough. *)
Fixpoint id2mask_loop (fuel : nat) (id m bit result : Z) : option Z :=
  match fuel with
  | O => None
  | S fuel =>
      if m =? 0 then Some result
      else
        let result := if negb (Z.land id bit =? 0)
                      then Z.lor result (Z.land m (u32 (- m))) else result in
        let bit := u32 (Z.shiftl bit 1) in
        id2mask_loop fuel id (Z.land m (u32 (m - 1))) bit result
  end.

Definition id2mask (id mask : Z) : option Z := id2mask_loop 33 id mask 1 0.

(** [rank m n]: how many of the bits [0 .. n-1] of [m] are set. *)
Fixpoint rank (m : Z) (n : nat) : Z :=
  match n with
  | O => 0
  | S k => rank m k + Z.b2z (Z.testbit m (Z.of_nat k))
  end.

(** [__builtin_popcount] of an unsigned 32-bit integer. *)
Definition popcount (m : Z) : Z := rank m 32.
#[global] Strategy expand [popcount].

(** [struct nfct_filter_dump]: the value/mask pairs set on it. *)
Record filter := Filter { f_mark : option (Z * Z); f_status : option (Z * Z) }.

#[global] Instance filter_eq_dec : EqDecision filter.
Proof. solve_decision. Defined.

(** The library: result of the [n]-th [nfct_filter_dump_create] ([None]: it
    succeeded, [Some e]: it returned NULL with errno [e]), and of the [n]-th
    [nfct_query] (return value and errno). *)
Record nfct := Nfct {
  nf_create : nat -> option Z;
  nf_query : nat -> filter -> Z * Z;
}.

(** What the helper has done so far: filters created, queries sent (oldest
    first), errno. *)
Record ct_state := CtState { creates : nat; queries : list filter; errno : Z }.

Definition flush_filtered (h : nfct) (mark_val mark_mask status_val status_mask : Z)
    (have_mark have_status : bool) (st : ct_state) : Z * ct_state :=
  match nf_create h (creates st) with
  | Some e => (-1, CtState (S (creates st)) (queries st) e)
  | None =>
      let filter := Filter (if have_mark then Some (mark_val, mark_mask) else None)
                           (if have_status then Some (status_val, status_mask) else None) in
      let '(ret, e) := nf_query h (length (queries st)) filter in
      let errno' := if ret =? -1 then e else errno st in
      let st' := CtState (S (creates st)) (queries st ++ [filter]) errno' in
      if (ret =? -1) && negb (errno' =? ENOENT) then (-1, st') else (0, st')
  end.

(** Body of the [for (id = 1; id <= max_id; id++)] loop, over the ids left. *)
Fixpoint flush_ids (h : nfct) (mask status_val status_mask : Z) (have_status : bool)
    (ids : list Z) (st : ct_state) : option (Z * ct_state) :=
  match ids with
  | [] => Some (0, st)
  | id :: ids =>
      match id2mask id mask with
      | None => None
      | Some mark_val =>
          let '(ret, st) := flush_filtered h mark_val mask status_val status_mask
                              true have_status st in
          if ret <? 0 then Some (ret, st)
          else flush_ids h mask status_val status_mask have_status ids st
      end
  end.

Definition flush_any_marked (h : nfct) (mask status_val status_mask : Z)
    (have_status : bool) (st : ct_state) : option (Z * ct_state) :=
  let bitcount := popcount mask in
  if 16 <? bitcount then Some (-1, CtState (creates st) (queries st) EINVAL)
  else
    let max_id := u32 (Z.shiftl 1 bitcount - 1) in
    flush_ids h mask status_val status_mask have_status (seqZ 1 max_id) st.

(** [parse_u32 s]: the value and [*endp], or [None] for a return of -1. *)
Definition parse_u32 (s : bytes) : option (Z * bytes) :=
  match s with
  | 45 :: _ => None
  | _ =>
      let tmp := strtoul 0 s in
      if endp_eqb (num_end tmp) s || num_erange tmp then None
      else if negb (u32 (num_val tmp) =? num_val tmp) then None
      else Some (u32 (num_val tmp), num_end tmp)
  end.

Definition parse_val_mask (arg : bytes) : option (Z * Z) :=
  match parse_u32 arg with
  | None => None
  | Some (val, end_) =>
      match end_ with
      | 47 :: end1 =>
          match parse_u32 end1 with
          | Some (mask, []) => Some (val, mask)
          | _ => None
          end
      | [] => Some (val, val)
      | _ => None
      end
  end.

(** The local variables of [main] that the option loop fills in. *)
Record opts := Opts {
  o_mark_val : Z; o_mark_mask : Z; o_status_val : Z; o_status_mask : Z;
  o_have_mark : bool; o_have_mark_any : bool; o_have_status : bool;
}.

Definition opts0 : opts := Opts 0 0 0 0 false false false.

(** [for (int i = 2; i < argc; i++)]: [None] is an early [return EXIT_FAILURE]. *)
Fixpoint parse_args (args : list bytes) (o : opts) : option opts :=
  match args with
  | [] => Some o
  | a :: rest =>
      if bool_decide (a = bs "--mark") then
        match rest with
        | [] => None
        | v :: rest =>
            if o_have_mark o then None
            else match parse_val_mask v with
                 | None => None
                 | Some (val, mask) =>
                     parse_args rest (Opts val mask (o_status_val o) (o_status_mask o)
                                        true (o_have_mark_any o) (o_have_status o))
                 end
        end
      else if bool_decide (a = bs "--mark-any") then
        match rest with
        | [] => None
        | v :: rest =>
            if o_have_mark_any o then None
            else match parse_u32 v with
                 | Some (mask, []) =>
                     if mask =? 0 then None
                     else parse_args rest (Opts (o_mark_val o) mask (o_status_val o) (o_status_mask o)
                                             (o_have_mark o) true (o_have_status o))
                 | _ => None
                 end
        end
      else if bool_decide (a = bs "--status") then
        match rest with
        | [] => None
        | v :: rest =>
            if o_have_status o then None
            else match parse_val_mask v with
                 | None => None
                 | Some (val, mask) =>
                     parse_args rest (Opts (o_mark_val o) (o_mark_mask o) val mask
                                        (o_have_mark o) (o_have_mark_any o) true)
                 end
        end
      else None
  end.

(** The checks [main] makes between the option loop and [nfct_open]. *)
Definition opts_valid (o : opts) : bool :=
  negb (o_have_mark o && o_have_mark_any o)
  && (o_have_mark o || o_have_mark_any o || o_have_status o)
  && negb (o_have_mark o && (o_mark_mask o =? 0))
  && negb (o_have_mark o && negb (Z.ldiff (o_mark_val o) (o_mark_mask o) =? 0))
  && negb (o_have_status o && (o_status_mask o =? 0))
  && negb (o_have_status o && negb (Z.ldiff (o_status_val o) (o_status_mask o) =? 0)).

(** [main]: [open_ok] is whether [nfct_open] succeeds; [argv] starts with the
    program name.  The result is the exit status and the final state. *)
Definition main (h : nfct) (open_ok : bool) (argv : list bytes) (st : ct_state)
  : option (Z * ct_state) :=
  match argv with
  | _ :: cmd :: args =>
      if bool_decide (cmd = bs "--help") || bool_decide (cmd = bs "-h") then Some (EXIT_SUCCESS, st)
      else if negb (bool_decide (cmd = bs "flush")) then Some (EXIT_FAILURE, st)
      else
        match parse_args args opts0 with
        | None => Some (EXIT_FAILURE, st)
        | Some o =>
            if negb (opts_valid o) then Some (EXIT_FAILURE, st)
            else if negb open_ok then Some (EXIT_FAILURE, st)
            else
              let res :=
                if o_have_mark_any o
                then flush_any_marked h (o_mark_mask o) (o_status_val o) (o_status_mask o)
                       (o_have_status o) st
                else Some (flush_filtered h (o_mark_val o) (o_mark_mask o) (o_status_val o)
                             (o_status_mask o) (o_have_mark o) (o_have_status o) st) in
              match res with
              | None => None
              | Some (ret, st') => Some (if ret <? 0 then EXIT_FAILURE else EXIT_SUCCESS, st')
              end
        end
  | _ => Some (EXIT_FAILURE, st)
  end.

(** ** The lowest set bit *)

Section Lowbit.
Context (m p : Z) (Hp : 0 <= p) (Hbit : Z.testbit m p = true)
        (Hlow : forall j, 0 <= j < p -> Z.testbit m j = false).

Lemma pred_testbit i :
  0 <= i -> Z.testbit (m - 1) i =
    if i <? p then true else if i =? p then false else Z.testbit m i.
Proof using Hp Hbit Hlow.
  intros Hi. set (m' := Z.clearbit m p).
  assert (Hm' : forall j, 0 <= j -> Z.testbit m' j = Z.testbit m j && negb (p =? j)).
  { intros j Hj. subst m'. by rewrite Z.clearbit_eqb. }
  assert (Z.land m' (2 ^ p) = 0) as E1.
  { apply land_zero_testbit. intros j Hj. rewrite Hm', Z.pow2_bits_eqb by lia.
    destruct (p =? j); by rewrite ?andb_false_r. }
  assert (Z.land m' (Z.ones p) = 0) as E2.
  { apply land_zero_testbit. intros j Hj. rewrite Hm' by lia.
    destruct (Z.lt_ge_cases j p).
    - by rewrite Hlow by lia.
    - by rewrite Z.ones_spec_high, andb_false_r by lia. }
  assert (m = m' + 2 ^ p) as Em.
  { rewrite Z.add_nocarry_lxor, Z.lxor_lor by done. apply Z.bits_inj'. intros j Hj.
    rewrite Z.lor_spec, Hm', Z.pow2_bits_eqb by lia.
    destruct (Z.eqb_spec p j) as [->|]; [by rewrite Hbit, orb_true_r|].
    by rewrite andb_true_r, orb_false_r. }
  replace (m - 1) with (m' + Z.ones p) by (rewrite Z.ones_equiv; lia).
  rewrite Z.add_nocarry_lxor, Z.lxor_lor, Z.lor_spec, Hm' by done.
  destruct (Z.ltb_spec i p).
  { by rewrite Z.ones_spec_low, orb_true_r by lia. }
  rewrite Z.ones_spec_high, orb_false_r by lia.
  rewrite (Z.eqb_sym i p). destruct (p =? i); by rewrite ?andb_false_r, ?andb_true_r.
Qed.

Lemma opp_testbit i :
  0 <= i -> Z.testbit (- m) i =
    if i <? p then false else if i =? p then true else negb (Z.testbit m i).
Proof using Hp Hbit Hlow.
  intros Hi. replace (- m) with (Z.lnot (m - 1)) by (unfold Z.lnot; lia).
  rewrite Z.lnot_spec, pred_testbit by lia.
  by destruct (i <? p), (i =? p).
Qed.

(** [m & -m] is the lowest set bit alone; [m & (m - 1)] clears it. *)
Lemma isolate_low : p < 32 -> Z.land m (u32 (- m)) = 2 ^ p.
Proof using Hp Hbit Hlow.
  intros H32. apply Z.bits_inj'. intros i Hi.
  rewrite Z.land_spec, wrap_testbit, opp_testbit, Z.pow2_bits_eqb by lia.
  rewrite (Z.eqb_sym i p).
  destruct (Z.ltb_spec i 32), (Z.ltb_spec i p), (Z.eqb_spec p i) as [->|]; cbn;
    rewrite ?andb_false_r, ?Hbit; try lia; try done.
  by destruct (Z.testbit m i).
Qed.

Lemma clear_low_testbit i :
  in_u 32 m -> 0 <= i ->
  Z.testbit (Z.land m (u32 (m - 1))) i = Z.testbit m i && negb (i =? p).
Proof using Hp Hbit Hlow.
  intros Hm Hi. rewrite Z.land_spec, wrap_testbit, pred_testbit by lia.
  destruct (Z.ltb_spec i 32); [|by rewrite (in_u_testbit 32) by (done || lia)].
  destruct (Z.ltb_spec i p); [by rewrite Hlow by lia|].
  destruct (i =? p); cbn; by destruct (Z.testbit m i).
Qed.
End Lowbit.

(** A non-zero [w]-bit number has a lowest set bit. *)
Lemma low_bit_exists m w :
  in_u (Z.of_nat w) m -> m <> 0 ->
  exists p, 0 <= p < Z.of_nat w /\ Z.testbit m p = true
            /\ forall j, 0 <= j < p -> Z.testbit m j = false.
Proof.
  intros Hm Hne.
  assert (forall n, (forall i, 0 <= i < Z.of_nat n -> Z.testbit m i = false)
    \/ exists p, 0 <= p < Z.of_nat n /\ Z.testbit m p = true
                 /\ forall j, 0 <= j < p -> Z.testbit m j = false) as Hs.
  { induction n as [|n [IH|(p & ? & ? & ?)]]; [left; lia| |right; exists p; intuition lia].
    destruct (Z.testbit m (Z.of_nat n)) eqn:E; [right; exists (Z.of_nat n); intuition lia|left].
    intros i Hi. destruct (Z.eq_dec i (Z.of_nat n)) as [->|]; [done|]. apply IH. lia. }
  destruct (Hs w) as [H0|]; [|done]. destruct Hne. apply Z.bits_inj'. intros i Hi.
  rewrite Z.testbit_0_l. destruct (Z.lt_ge_cases i (Z.of_nat w)); [by apply H0|].
  apply (in_u_testbit (Z.of_nat w)); [lia|done].
Qed.

(** ** Rank *)

Lemma rank_bounds m n : 0 <= rank m n <= Z.of_nat n.
Proof. induction n; cbn [rank]; [lia|]. destruct (Z.testbit m _); cbn; lia. Qed.

Lemma rank_mono m n k : (n <= k)%nat -> rank m n <= rank m k.
Proof.
  induction 1; [lia|]. cbn [rank]. destruct (Z.testbit m _); cbn; lia.
Qed.

Lemma rank_lt m i n : (i < n)%nat -> Z.testbit m (Z.of_nat i) = true -> rank m i < rank m n.
Proof.
  intros Hi Hb. pose proof (rank_mono m (S i) n Hi) as H. cbn [rank] in H. rewrite Hb in H.
  cbn in H. lia.
Qed.

Lemma rank_ext m m' n :
  (forall i, 0 <= i < Z.of_nat n -> Z.testbit m i = Z.testbit m' i) -> rank m n = rank m' n.
Proof.
  induction n as [|n IH]; intros H; [done|]. cbn [rank].
  rewrite IH, H by (intros; try apply H; lia). done.
Qed.

Lemma rank_surj m n k : 0 <= k < rank m n ->
  exists i, (i < n)%nat /\ Z.testbit m (Z.of_nat i) = true /\ rank m i = k.
Proof.
  induction n as [|n IH]; cbn [rank]; intros H; [lia|].
  destruct (Z.lt_ge_cases k (rank m n)) as [Hk|Hk].
  - destruct IH as (i & ? & ? & ?); [lia|]. exists i. eauto with lia.
  - exists n. destruct (Z.testbit m (Z.of_nat n)); cbn in H; [|lia]. eauto with lia.
Qed.

(** Clearing the lowest set bit [p] lowers every rank above [p] by one. *)
Lemma rank_clear_low m m' p n :
  0 <= p -> Z.testbit m p = true -> (forall j, 0 <= j < p -> Z.testbit m j = false) ->
  (forall i, 0 <= i -> Z.testbit m' i = Z.testbit m i && negb (i =? p)) ->
  rank m n = rank m' n + Z.b2z (p <? Z.of_nat n).
Proof.
  intros Hp Hb Hlow Hm'. induction n as [|n IH]; cbn [rank].
  { destruct (Z.ltb_spec p (Z.of_nat 0)); cbn; lia. }
  rewrite IH, Hm' by lia.
  destruct (Z.eqb_spec (Z.of_nat n) p) as [<-|].
  - rewrite Hb. zbool; cbn; lia.
  - rewrite andb_true_r. zbool; cbn; lia.
Qed.

Lemma rank_before_low m p n :
  (forall j, 0 <= j < p -> Z.testbit m j = false) -> Z.of_nat n <= p -> rank m n = 0.
Proof.
  intros Hlow. induction n as [|n IH]; intros; [done|]. cbn [rank].
  rewrite IH, Hlow by lia. done.
Qed.

(** ** id2mask *)

Lemma land_pow2 x k : 0 <= k -> Z.land x (2 ^ k) = if Z.testbit x k then 2 ^ k else 0.
Proof.
  intros Hk. apply Z.bits_inj'. intros i Hi. rewrite Z.land_spec, Z.pow2_bits_eqb by lia.
  destruct (Z.testbit x k) eqn:E.
  - rewrite Z.pow2_bits_eqb by lia.
    destruct (Z.eqb_spec k i) as [<-|]; [by rewrite E|by rewrite andb_false_r].
  - rewrite Z.testbit_0_l.
    destruct (Z.eqb_spec k i) as [<-|]; [by rewrite E|by rewrite andb_false_r].
Qed.

Lemma land_pow2_nonzero x k : 0 <= k -> negb (Z.land x (2 ^ k) =? 0) = Z.testbit x k.
Proof.
  intros Hk. rewrite land_pow2 by done. destruct (Z.testbit x k); [|done].
  pose proof (Z.pow_pos_nonneg 2 k). zbool; cbn; lia || done.
Qed.

Lemma id2mask_loop_spec fuel id m k result :
  in_u 32 m -> 0 <= k -> k + rank m 32 <= 32 -> rank m 32 < Z.of_nat fuel ->
  exists r, id2mask_loop fuel id m (u32 (2 ^ k)) result = Some r /\
    forall i, 0 <= i ->
      Z.testbit r i = Z.testbit result i || (Z.testbit m i && Z.testbit id (k + rank m (Z.to_nat i))).
Proof.
  revert m k result. induction fuel as [|fuel IH]; intros m k result Hm Hk Hk32 Hf.
  { pose proof (rank_bounds m 32). lia. }
  cbn [id2mask_loop]. destruct (Z.eqb_spec m 0) as [->|Hne].
  { exists result. split; [done|]. intros i Hi. by rewrite Z.testbit_0_l, orb_false_r. }
  destruct (low_bit_exists m 32 Hm Hne) as (p & Hp & Hb & Hlow).
  set (m' := Z.land m (u32 (m - 1))).
  assert (Hm' : forall i, 0 <= i -> Z.testbit m' i = Z.testbit m i && negb (i =? p)).
  { intros. apply clear_low_testbit; done || lia. }
  pose proof (rank_clear_low m m' p 32 (proj1 Hp) Hb Hlow Hm') as Hr.
  rewrite (proj2 (Z.ltb_lt p (Z.of_nat 32))) in Hr by lia. change (Z.b2z true) with 1 in Hr.
  pose proof (rank_bounds m' 32).
  rewrite (isolate_low m p (proj1 Hp) Hb Hlow) by lia.
  assert (u32 (2 ^ k) = 2 ^ k) as Ek.
  { apply wrap_small. split; [lia|]. apply Z.pow_lt_mono_r; lia. }
  rewrite Ek, land_pow2_nonzero, Z.shiftl_mul_pow2 by lia.
  rewrite <- (Z.pow_add_r 2 k 1) by lia.
  assert (in_u 32 m') as Hmu.
  { apply testbit_in_u; [lia| |].
    - subst m'. apply Z.land_nonneg. left. apply Hm.
    - intros i Hi. rewrite Hm', (in_u_testbit 32 m) by (done || lia). done. }
  edestruct (IH m' (k + 1)) as (r & -> & Hrr); [done|lia|lia|lia|].
  exists r. split; [done|]. intros i Hi. rewrite Hrr, Hm' by done.
  assert (Z.testbit (if Z.testbit id k then Z.lor result (2 ^ p) else result) i
          = Z.testbit result i || (Z.testbit id k && (p =? i))) as ->.
  { destruct (Z.testbit id k); [|by rewrite orb_false_r].
    by rewrite Z.lor_spec, Z.pow2_bits_eqb by lia. }
  rewrite (Z.eqb_sym p i).
  destruct (Z.eqb_spec i p) as [->|Hip]; cbn.
  - rewrite Hb, (rank_before_low m p), Z.add_0_r, andb_false_r, andb_true_r, orb_false_r; [done|done|lia].
  - rewrite andb_false_r, andb_true_r, orb_false_r.
    destruct (Z.testbit m i) eqn:Emi; [|done].
    rewrite (rank_clear_low m m' p (Z.to_nat i)) by (done || lia).
    assert (p < i) as Hpi. { destruct (Z.lt_ge_cases p i); [done|]. rewrite Hlow in Emi by lia. done. }
    rewrite (proj2 (Z.ltb_lt p (Z.of_nat (Z.to_nat i)))) by lia. cbn [Z.b2z andb orb].
    do 2 f_equal. lia.
Qed.

Lemma id2mask_testbit id mask :
  in_u 32 mask ->
  exists r, id2mask id mask = Some r /\
    forall i, 0 <= i -> Z.testbit r i = Z.testbit mask i && Z.testbit id (rank mask (Z.to_nat i)).
Proof.
  intros Hm. pose proof (rank_bounds mask 32).
  destruct (id2mask_loop_spec 33 id mask 0 0) as (r & E & Hr); [done|lia|lia|lia|].
  exists r. split; [exact E|]. intros i Hi. by rewrite Hr, Z.testbit_0_l.
Qed.

Lemma testbit_nonneg x w : (forall i, w <= i -> Z.testbit x i = false) -> 0 <= x.
Proof.
  intros H. destruct (Z.lt_ge_cases x 0) as [Hn|]; [|done].
  apply Z.bits_iff_neg_ex in Hn as [k Hk].
  specialize (H (Z.max w (k + 1)) ltac:(lia)). rewrite Hk in H by lia. done.
Qed.

Lemma id2mask_ok id mask r :
  in_u 32 mask -> id2mask id mask = Some r -> in_u 32 r /\ submask r mask.
Proof.
  intros Hm Hr. destruct (id2mask_testbit id mask Hm) as (r' & E & Hb).
  rewrite E in Hr. injection Hr as <-.
  assert (forall i, 32 <= i -> Z.testbit r' i = false) as Hhi.
  { intros i Hi. by rewrite Hb, (in_u_testbit 32 mask) by (done || lia). }
  split.
  - apply testbit_in_u; [lia|by eapply testbit_nonneg|done].
  - intros i Hi Hri. rewrite Hb in Hri by done. by apply andb_true_iff in Hri as [? _].
Qed.

(** The inverse of [id2mask]: collect the bits of [v] at the set positions of [mask]. *)
Fixpoint gather (v mask : Z) (n : nat) : Z :=
  match n with
  | O => 0
  | S k => gather v mask k
           + Z.b2z (Z.testbit mask (Z.of_nat k) && Z.testbit v (Z.of_nat k)) * 2 ^ rank mask k
  end.

Lemma gather_bound v mask n : in_u (rank mask n) (gather v mask n).
Proof.
  induction n as [|n IH]; cbn [gather rank]; [unfold in_u; cbn; lia|].
  pose proof (rank_bounds mask n). unfold in_u in *.
  destruct (Z.testbit mask (Z.of_nat n)), (Z.testbit v (Z.of_nat n)); cbn;
    rewrite ?Z.add_0_r, ?Z.pow_add_r by lia; lia.
Qed.

Lemma gather_popcount v mask : in_u (popcount mask) (gather v mask 32).
Proof. exact (gather_bound v mask 32). Qed.

Lemma testbit_add_high a b k i :
  0 <= k -> in_u k a -> 0 <= i ->
  Z.testbit (a + Z.b2z b * 2 ^ k) i = if i =? k then b else Z.testbit a i && (i <? k).
Proof.
  intros Hk Ha Hi.
  assert (Z.land a (Z.b2z b * 2 ^ k) = 0) as H0.
  { apply land_zero_testbit. intros j Hj.
    destruct (Z.lt_ge_cases j k); [|by rewrite (in_u_testbit k) by (done || lia)].
    by rewrite Z.mul_pow2_bits_low, andb_false_r by lia. }
  rewrite Z.add_nocarry_lxor, Z.lxor_lor, Z.lor_spec by done.
  destruct (Z.eqb_spec i k) as [->|Hne].
  - rewrite (in_u_testbit k), Z.mul_pow2_bits, Z.sub_diag by (done || lia). by destruct b.
  - destruct (Z.ltb_spec i k).
    + by rewrite Z.mul_pow2_bits_low, orb_false_r, andb_true_r by lia.
    + rewrite (in_u_testbit k), Z.mul_pow2_bits by (done || lia). cbn.
      destruct b; cbn; [|apply Z.testbit_0_l].
      apply (Z.bits_above_log2 1); cbn; lia.
Qed.

Lemma gather_testbit v mask n i :
  (i < n)%nat -> Z.testbit mask (Z.of_nat i) = true ->
  Z.testbit (gather v mask n) (rank mask i) = Z.testbit v (Z.of_nat i).
Proof.
  intros Hi Hb. induction n as [|n IH]; [lia|]. cbn [gather].
  pose proof (rank_bounds mask i). pose proof (rank_bounds mask n).
  rewrite testbit_add_high by (apply gather_bound || lia).
  destruct (decide (i = n)) as [->|Hne].
  - by rewrite Z.eqb_refl, Hb.
  - pose proof (rank_lt mask i n ltac:(lia) Hb).
    destruct (Z.eqb_spec (rank mask i) (rank mask n)); [lia|].
    rewrite IH by lia. rewrite (proj2 (Z.ltb_lt _ _)) by lia. by rewrite andb_true_r.
Qed.

Lemma id2mask_gather v mask :
  in_u 32 mask -> submask v mask -> id2mask (gather v mask 32) mask = Some v.
Proof.
  intros Hm Hv. destruct (id2mask_testbit (gather v mask 32) mask Hm) as (r & -> & Hb).
  f_equal. apply Z.bits_inj'. intros i Hi. rewrite Hb by done.
  destruct (Z.testbit mask i) eqn:E.
  - assert (i < 32). { destruct (Z.lt_ge_cases i 32); [done|].
      rewrite (in_u_testbit 32) in E by (done || lia). done. }
    pose proof (gather_testbit v mask 32 (Z.to_nat i) ltac:(lia)) as Hg.
    rewrite Z2Nat.id in Hg by lia. by rewrite Hg.
  - destruct (Z.testbit v i) eqn:Ev; [|done]. rewrite (Hv i Hi Ev) in E. done.
Qed.

Lemma rank_bits_inj a b mask n :
  in_u (rank mask n) a -> in_u (rank mask n) b ->
  (forall i, (i < n)%nat -> Z.testbit mask (Z.of_nat i) = true ->
     Z.testbit a (rank mask i) = Z.testbit b (rank mask i)) -> a = b.
Proof.
  intros Ha Hb H. pose proof (rank_bounds mask n).
  apply Z.bits_inj'. intros k Hk. destruct (Z.lt_ge_cases k (rank mask n)) as [Hlt|Hge].
  - destruct (rank_surj mask n k ltac:(lia)) as (i & ? & ? & <-). by apply H.
  - by rewrite !(in_u_testbit (rank mask n)) by (done || lia).
Qed.

Lemma id2mask_inj a b mask :
  in_u 32 mask -> in_u (popcount mask) a -> in_u (popcount mask) b ->
  id2mask a mask = id2mask b mask -> a = b.
Proof.
  intros Hm Ha Hb Heq.
  destruct (id2mask_testbit a mask Hm) as (ra & Ea & Hra).
  destruct (id2mask_testbit b mask Hm) as (rb & Eb & Hrb).
  rewrite Ea, Eb in Heq. injection Heq as <-.
  unfold popcount in Ha, Hb. apply (rank_bits_inj a b mask 32 Ha Hb). intros i _ Hbit.
  pose proof (Hra (Z.of_nat i) ltac:(lia)) as H1. pose proof (Hrb (Z.of_nat i) ltac:(lia)) as H2.
  rewrite Nat2Z.id, Hbit in H1, H2. cbn [andb] in H1, H2. congruence.
Qed.

(** ** Flushing *)

(** The filter sent for the mark value [v] of [mask]. *)
Definition mark_filter (mask status_val status_mask : Z) (have_status : bool) (v : Z) : filter :=
  Filter (Some (v, mask)) (if have_status then Some (status_val, status_mask) else None).

Lemma mark_filter_inj mask sv sm hs a b :
  mark_filter mask sv sm hs a = mark_filter mask sv sm hs b -> a = b.
Proof. unfold mark_filter. by intros [= ->]. Qed.

#[local] Opaque id2mask.

Lemma flush_filtered_queries h mv mm sv sm hm hs st ret st' :
  flush_filtered h mv mm sv sm hm hs st = (ret, st') ->
  (ret = 0 \/ ret = -1) /\
  exists qs, queries st' = queries st ++ qs /\
    let f := Filter (if hm then Some (mv, mm) else None) (if hs then Some (sv, sm) else None) in
    (qs = [f] \/ (qs = [] /\ ret = -1)).
Proof.
  unfold flush_filtered. destruct (nf_create h _).
  - intros [= <- <-]. split; [by right|]. exists []. rewrite app_nil_r. auto.
  - destruct (nf_query h _ _) as [r e]. destruct (_ && _); intros [= <- <-]; cbn; eauto 10.
Qed.

Lemma flush_filtered_ok h mv mm sv sm hm hs st :
  (forall n, nf_create h n = None) ->
  (forall n f, (nf_query h n f).1 = -1 -> (nf_query h n f).2 = ENOENT) ->
  (flush_filtered h mv mm sv sm hm hs st).1 = 0.
Proof.
  intros Hc Hq. unfold flush_filtered. rewrite Hc.
  specialize (Hq (length (queries st))
    (Filter (if hm then Some (mv, mm) else None) (if hs then Some (sv, sm) else None))).
  destruct (nf_query h _ _) as [r e]. cbn in *.
  destruct (Z.eqb_spec r (-1)); [|done]. by rewrite Hq.
Qed.

Section Flush.
Context (h : nfct) (mask sv sm : Z) (hs : bool) (Hmask : in_u 32 mask).
Let f_of id := mark_filter mask sv sm hs (default 0 (id2mask id mask)).

Lemma flush_ids_queries ids st :
  exists ret st' n, flush_ids h mask sv sm hs ids st = Some (ret, st') /\
    queries st' = queries st ++ map f_of (take n ids) /\
    (ret = 0 -> (length ids <= n)%nat).
Proof using Hmask.
  revert st. induction ids as [|id ids IH]; intros st; cbn [flush_ids].
  { exists 0, st, O. by rewrite app_nil_r. }
  destruct (id2mask_testbit id mask Hmask) as (v & Ev & _). rewrite Ev.
  destruct (flush_filtered h v mask sv sm true hs st) as [ret st1] eqn:E.
  apply flush_filtered_queries in E as [Hret (qs & Hq & Hqs)].
  assert (f_of id = mark_filter mask sv sm hs v) as Hf by (unfold f_of; by rewrite Ev).
  destruct Hret as [-> | ->]; cbn.
  - destruct Hqs as [-> | [? ?]]; [|done].
    destruct (IH st1) as (ret & st' & n & -> & Hn & Hr).
    exists ret, st', (S n). split; [done|]. split; [|lia].
    rewrite Hn, Hq, <- app_assoc. cbn. by rewrite Hf.
  - exists (-1), st1, (match qs with [] => O | _ => 1%nat end).
    split; [done|]. split; [|done]. rewrite Hq.
    destruct Hqs as [-> | [-> ?]]; cbn; by rewrite ?Hf.
Qed.

Lemma flush_ids_ok ids st :
  (forall n, nf_create h n = None) ->
  (forall n f, (nf_query h n f).1 = -1 -> (nf_query h n f).2 = ENOENT) ->
  exists st', flush_ids h mask sv sm hs ids st = Some (0, st').
Proof using Hmask.
  intros Hc Hq. revert st. induction ids as [|id ids IH]; intros st; cbn [flush_ids]; [eauto|].
  destruct (id2mask_testbit id mask Hmask) as (v & -> & _).
  pose proof (flush_filtered_ok h v mask sv sm true hs st Hc Hq) as H0.
  destruct (flush_filtered _ _ _ _ _ _ _ st) as [ret st1]. cbn in H0. subst. cbn. apply IH.
Qed.

(** The ids of the loop and the non-zero values of the mask correspond one to one. *)
Lemma f_of_ids v :
  (exists id, 1 <= id < 2 ^ popcount mask /\ f_of id = mark_filter mask sv sm hs v)
  <-> v <> 0 /\ submask v mask.
Proof using Hmask.
  split.
  - intros (id & Hid & Hf). apply mark_filter_inj in Hf.
    destruct (id2mask_testbit id mask Hmask) as (r & Er & _). rewrite Er in Hf. cbn in Hf. subst r.
    split; [|by eapply id2mask_ok]. intros ->.
    assert (id = gather 0 mask 32) as Hg.
    { apply (id2mask_inj _ _ mask Hmask); [unfold in_u; lia|apply gather_popcount|].
      rewrite Er, id2mask_gather by auto with gl. done. }
    assert (0 = gather 0 mask 32) as Hg0.
    { clear. generalize 32%nat. intros n. induction n as [|n IH]; cbn [gather]; [done|].
      by rewrite <- IH, Z.testbit_0_l, andb_false_r. }
    lia.
  - intros [Hv Hsub]. exists (gather v mask 32).
    pose proof (gather_popcount v mask) as Hb.
    pose proof (id2mask_gather v mask Hmask Hsub) as Hg.
    unfold f_of. rewrite Hg. split; [|done]. split; [|apply Hb].
    destruct (Z.eq_dec (gather v mask 32) 0) as [E|]; [|unfold in_u in Hb; lia].
    exfalso. apply Hv.
    destruct (id2mask_testbit 0 mask Hmask) as (r & Er & Hr). rewrite E, Er in Hg. injection Hg as ->.
    apply Z.bits_inj'. intros i Hi. by rewrite Hr, !Z.testbit_0_l, andb_false_r.
Qed.

Lemma f_of_inj a b :
  in_u (popcount mask) a -> in_u (popcount mask) b -> f_of a = f_of b -> a = b.
Proof using Hmask.
  intros Ha Hb Hab%mark_filter_inj. apply (id2mask_inj _ _ mask Hmask Ha Hb).
  destruct (id2mask_testbit a mask Hmask) as (ra & Ea & _).
  destruct (id2mask_testbit b mask Hmask) as (rb & Eb & _).
  rewrite Ea, Eb in *. by cbn in Hab; subst.
Qed.
End Flush.

Lemma max_id_eq mask :
  popcount mask <= 16 -> u32 (Z.shiftl 1 (popcount mask) - 1) = 2 ^ popcount mask - 1.
Proof.
  intros H. pose proof (rank_bounds mask 32). unfold popcount in *.
  rewrite Z.shiftl_1_l. apply wrap_small.
  pose proof (Z.pow_pos_nonneg 2 (rank mask 32)).
  assert (2 ^ rank mask 32 <= 2 ^ 16) by (apply Z.pow_le_mono_r; lia).
  unfold in_u. lia.
Qed.

Lemma NoDup_map_seqZ {A} (f : Z -> A) k :
  (forall a b, 1 <= a <= k -> 1 <= b <= k -> f a = f b -> a = b) -> NoDup (map f (seqZ 1 k)).
Proof.
  intros Hf. apply NoDup_fmap_2_strong; [|apply NoDup_seqZ].
  intros a b Ha Hb. rewrite elem_of_seqZ in Ha, Hb. apply Hf; lia.
Qed.

(** ** Command line *)

Lemma parse_u32_range s v r : parse_u32 s = Some (v, r) -> in_u 32 v.
Proof.
  unfold parse_u32. intros H.
  repeat (split_match_in H; try done); injection H as <- <-; apply wrap_in_u; lia.
Qed.

Lemma parse_val_mask_range s v m : parse_val_mask s = Some (v, m) -> in_u 32 v /\ in_u 32 m.
Proof.
  unfold parse_val_mask. intros H.
  destruct (parse_u32 s) as [[v1 r1]|] eqn:E1; [|done]. apply parse_u32_range in E1.
  repeat (split_match_in H; try done); injection H as <- <-; split; try done;
    match goal with E : parse_u32 _ = _ |- _ => by apply parse_u32_range in E end.
Qed.

(** What the option loop guarantees about the variables it fills in. *)
Definition opts_inv (o : opts) : Prop :=
  in_u 32 (o_mark_mask o) /\
  (o_have_mark_any o = true -> o_have_mark o = false -> o_mark_mask o <> 0).

Lemma parse_args_inv args o o' :
  opts_inv o -> parse_args args o = Some o' -> opts_inv o'.
Proof.
  revert o. induction args as [args IH] using (induction_ltof1 _ (@length _)).
  unfold ltof in IH. intros o Ho H. destruct args as [|a rest]; cbn [parse_args] in H.
  { by injection H as <-. }
  repeat (split_match_in H; try done);
    (refine (IH _ _ _ _ H); [cbn; lia|]); clear IH H; unfold opts_inv in *; cbn;
    repeat match goal with
    | E : parse_val_mask _ = _ |- _ => apply parse_val_mask_range in E
    | E : parse_u32 _ = _ |- _ => apply parse_u32_range in E
    end; zprop; destruct Ho; split; try done; try tauto; intros; congruence || tauto.
Qed.

(** A filter that selects by at least one criterion, each with a non-zero mask
    and a value inside it. *)
Definition good_filter (f : filter) : Prop :=
  (is_Some (f_mark f) \/ is_Some (f_status f)) /\
  forall v m, f_mark f = Some (v, m) \/ f_status f = Some (v, m) -> m <> 0 /\ submask v m.

Lemma opts_valid_status o :
  opts_valid o = true -> o_have_status o = true ->
  o_status_mask o <> 0 /\ submask (o_status_val o) (o_status_mask o).
Proof.
  unfold opts_valid. intros H Hs. rewrite Hs in H. cbn in H. zprop.
  split; [done|]. apply submask_ldiff. done.
Qed.

Lemma opts_valid_mark o :
  opts_valid o = true -> o_have_mark o = true ->
  o_mark_mask o <> 0 /\ submask (o_mark_val o) (o_mark_mask o).
Proof.
  unfold opts_valid. intros H Hs. rewrite Hs in H. cbn in H. zprop.
  split; [done|]. apply submask_ldiff. done.
Qed.

(** The dispatch of [main] after its checks. *)
Definition run_opts (h : nfct) (o : opts) (st : ct_state) : option (Z * ct_state) :=
  if o_have_mark_any o
  then flush_any_marked h (o_mark_mask o) (o_status_val o) (o_status_mask o) (o_have_status o) st
  else Some (flush_filtered h (o_mark_val o) (o_mark_mask o) (o_status_val o)
               (o_status_mask o) (o_have_mark o) (o_have_status o) st).

Lemma run_opts_good h o st :
  opts_inv o -> opts_valid o = true ->
  exists ret st', run_opts h o st = Some (ret, st') /\
    forall f, f ∈ queries st' -> f ∈ queries st \/ good_filter f.
Proof.
  intros [Hmask Hany] Hval. unfold run_opts.
  pose proof (opts_valid_status o Hval) as Hst. pose proof (opts_valid_mark o Hval) as Hmk.
  assert (forall v, o_have_mark_any o = true -> submask v (o_mark_mask o) -> good_filter
    (mark_filter (o_mark_mask o) (o_status_val o) (o_status_mask o) (o_have_status o) v)) as Hgood.
  { intros v Ha Hv. split; [left; eauto|]. cbn. intros v' m' [[= <- <-]|H].
    - split; [|done]. apply Hany; [done|]. destruct (o_have_mark o) eqn:E; [|done].
      unfold opts_valid in Hval. by rewrite Ha, E in Hval.
    - destruct (o_have_status o); [|done]. injection H as <- <-. auto. }
  destruct (o_have_mark_any o) eqn:Ea.
  - unfold flush_any_marked. destruct (16 <? _) eqn:E; [eexists _, _; cbn; eauto|].
    destruct (flush_ids_queries h (o_mark_mask o) (o_status_val o) (o_status_mask o)
      (o_have_status o) Hmask (seqZ 1 (u32 (Z.shiftl 1 (popcount (o_mark_mask o)) - 1))) st)
      as (ret & st' & n & -> & Hq & _).
    exists ret, st'. split; [done|]. intros f Hf. rewrite Hq in Hf.
    apply elem_of_app in Hf as [Hf|Hf]; [by left|right].
    apply list_elem_of_fmap in Hf as (id & -> & _). apply Hgood; [done|].
    destruct (id2mask_testbit id (o_mark_mask o) Hmask) as (r & Er & _). rewrite Er.
    by apply (id2mask_ok id).
  - destruct (flush_filtered _ _ _ _ _ _ _ _) as [ret st'] eqn:E.
    exists ret, st'. split; [done|]. intros f Hf.
    apply flush_filtered_queries in E as [_ (qs & Hq & Hqs)]. rewrite Hq in Hf.
    apply elem_of_app in Hf as [Hf|Hf]; [by left|right].
    destruct Hqs as [-> | [-> _]]; [|by apply elem_of_nil in Hf].
    apply list_elem_of_singleton in Hf as ->. unfold good_filter. cbn.
    unfold opts_valid in Hval. rewrite Ea in Hval. clear Hgood Hany.
    destruct (o_have_mark o), (o_have_status o); cbn in Hval; try done;
      (split; [eauto|]); intros v m [H|H]; try done; injection H as <- <-; auto.
Qed.

(** ** Claims *)

(** [id2mask] terminates on every 32-bit mask and computes the bit deposit
    its comment promises: bit [i] of the result is set exactly when bit [i] of
    the mask is set and the id has the bit whose index is the number of mask
    bits below [i]. *)
Theorem id2mask_deposit (id mask : Z) (Hmask : in_u 32 mask) :
  exists r, id2mask id mask = Some r /\ in_u 32 r /\
    forall i, 0 <= i -> Z.testbit r i = Z.testbit mask i && Z.testbit id (rank mask (Z.to_nat i)).
Proof.
  destruct (id2mask_testbit id mask Hmask) as (r & Er & Hr).
  exists r. split; [done|]. split; [|done]. by eapply id2mask_ok.
Qed.

Lemma id2mask_deposit_witness :
  id2mask 5 0x3F00 = Some 0x500 /\
  exists r, id2mask 5 0x3F00 = Some r /\ in_u 32 r /\
    forall i, 0 <= i -> Z.testbit r i = Z.testbit 0x3F00 i && Z.testbit 5 (rank 0x3F00 (Z.to_nat i)).
Proof. split; [vm_compute; reflexivity|]. apply (id2mask_deposit 5 0x3F00). unfold in_u. lia. Defined.

(** when no creation or query fails other than with ENOENT, flushing "any
    mark" of a mask of at most 16 bits succeeds and sends exactly one query for
    each non-zero value inside the mask: none is missed, none is repeated, and
    no other query is sent. *)
Theorem flush_any_marked_exact (h : nfct) (mask sv sm : Z) (hs : bool) (st : ct_state)
    (Hmask : in_u 32 mask) (Hbits : popcount mask <= 16)
    (Hcreate : forall n, nf_create h n = None)
    (Hquery : forall n f, (nf_query h n f).1 = -1 -> (nf_query h n f).2 = ENOENT) :
  exists st' qs, flush_any_marked h mask sv sm hs st = Some (0, st') /\
    queries st' = queries st ++ qs /\ NoDup qs /\
    forall f, f ∈ qs <-> exists v, f = mark_filter mask sv sm hs v /\ v <> 0 /\ submask v mask.
Proof.
  unfold flush_any_marked. rewrite (proj2 (Z.ltb_ge 16 (popcount mask))), max_id_eq by lia.
  assert (Hnd : NoDup (map (fun id => mark_filter mask sv sm hs (default 0 (id2mask id mask)))
                         (seqZ 1 (2 ^ popcount mask - 1)))).
  { apply NoDup_map_seqZ. intros a b Ha Hb. apply f_of_inj; unfold in_u; lia || done. }
  assert (Hids : forall id, id ∈ seqZ 1 (2 ^ popcount mask - 1) <-> 1 <= id < 2 ^ popcount mask).
  { intros id. rewrite elem_of_seqZ. lia. }
  revert Hnd Hids. generalize (seqZ 1 (2 ^ popcount mask - 1)). intros ids Hnd Hids.
  destruct (flush_ids_ok h mask sv sm hs Hmask ids st Hcreate Hquery) as (st' & Hok).
  destruct (flush_ids_queries h mask sv sm hs Hmask ids st) as (ret & st1 & n & E & Hq & Hn).
  rewrite Hok in E. injection E as <- <-. rewrite take_ge in Hq by auto.
  exists st'. eexists. split; [done|]. split; [exact Hq|]. split; [exact Hnd|].
  intros f. split.
  - intros (id & -> & Hid%Hids)%list_elem_of_fmap. eexists. split; [done|].
    apply (f_of_ids mask sv sm hs Hmask). eauto.
  - intros (v & -> & Hv). apply (f_of_ids mask sv sm hs Hmask) in Hv as (id & Hid & Hf).
    apply list_elem_of_fmap. exists id. split; [done|]. by apply Hids.
Qed.

(** A library on which every flush finds nothing to delete. *)
Definition empty_table : nfct := Nfct (fun _ => None) (fun _ _ => (-1, ENOENT)).

Lemma flush_any_marked_exact_witness :
  exists st' qs, flush_any_marked empty_table 0x300 8 8 true (CtState 0 [] 0) = Some (0, st') /\
    queries st' = [] ++ qs /\ NoDup qs /\
    forall f, f ∈ qs <-> exists v, f = mark_filter 0x300 8 8 true v /\ v <> 0 /\ submask v 0x300.
Proof.
  apply (flush_any_marked_exact empty_table 0x300 8 8 true (CtState 0 [] 0)).
  - unfold in_u. lia.
  - vm_compute. discriminate.
  - reflexivity.
  - intros. reflexivity.
Defined.

(** whatever its arguments and whatever the library answers, [main]
    returns, and it never asks for an unselective deletion: every query it
    sends selects by mark or by status, with a non-zero mask and a value inside
    that mask. *)
Theorem main_queries_selective (h : nfct) (open_ok : bool) (argv : list bytes) (st : ct_state) :
  exists code st', main h open_ok argv st = Some (code, st') /\
    forall f, f ∈ queries st' -> f ∈ queries st \/ good_filter f.
Proof.
  unfold main. destruct argv as [|a0 [|cmd args]]; [eauto..|].
  destruct (_ || _); [eauto|]. destruct (negb _); [eauto|].
  destruct (parse_args args opts0) as [o|] eqn:Ep; [|eauto].
  destruct (opts_valid o) eqn:Ev; cbn [negb]; [|eauto]. destruct open_ok; cbn [negb]; [|eauto].
  apply parse_args_inv in Ep; [|split; [unfold in_u; cbn; lia|done]].
  destruct (run_opts_good h o st Ep Ev) as (ret & st' & Hr & Hg).
  unfold run_opts in Hr. rewrite Hr. eauto.
Qed.

(** the comment of [parse_u32] says that negative values are rejected, but
    the test looks at the first character only: with a leading space a negative
    number is accepted and wraps around to a positive one. *)
Theorem parse_u32_accepts_negative :
  parse_u32 (bs " -18446744073709551615") = Some (1, []) /\
  parse_u32 (bs "-1") = None.
Proof. split; vm_compute; reflexivity. Qed.
