(* ===== verification/Mwan3IpCheck.v ===== *)
(** * mwan3ipcheck: address classifier (net/mwan3-nft/src/mwan3ipcheck.c)

    [inet_pton] is a parameter: [pton4 s] and [pton6 s] say whether
    [inet_pton(AF_INET, s, _)] and [inet_pton(AF_INET6, s, _)] return 1. *)

From S2P Require Import Prelude CLib.

(** ** Definitions *)

Definition AF_INET : Z := 2.
Definition AF_INET6 : Z := 10.

(** What the loop decides, seen as a fold over the families of the tokens. *)
Fixpoint decide_family (fams : list Z) (common : Z) : Z :=
  match fams with
  | [] => common
  | f :: fs => if f =? 0 then 0
               else if common =? 0 then decide_family fs f
               else if negb (f =? common) then -1
               else decide_family fs common
  end.

(** With a non-zero common family [c] so far: the result is [c] exactly when
    every remaining family is [c]. *)
Lemma decide_family_common fams c :
  c <> 0 -> c <> -1 ->
  (decide_family fams c = c <-> Forall (fun f => f = c) fams).
Proof.
  intros H0 H1. induction fams as [|f fs IH]; cbn.
  - split; intros _; [constructor|done].
  - rewrite Forall_cons. zbool; cbn; (rewrite IH || idtac); intuition congruence.
Qed.

Lemma decide_family_total fams c :
  Forall (fun f => f <> -1) fams -> c <> -1 -> c <> 0 ->
  decide_family fams c = c \/ decide_family fams c = 0 \/ decide_family fams c = -1.
Proof.
  intros Hf. revert c. induction Hf as [|f fs H Hf IH]; intros c Hc Hc0; cbn; [auto|].
  zbool; cbn; auto; congruence.
Qed.

Section Check.
Context (pton4 pton6 : bytes -> bool).

(** The prefix-length test of [classify], for a non-empty [pfxstr]. *)
Definition prefix_ok (family : Z) (pfxstr : bytes) : bool :=
  let max_pfx := if family =? AF_INET then 32 else 128 in
  match pfxstr with
  | 48 :: _ :: _ => false
  | _ =>
      let pfx := strtol 10 pfxstr in
      if negb (bool_decide (num_end pfx = [])) || endp_eqb (num_end pfx) pfxstr then false
      else negb ((num_val pfx <? 0) || (max_pfx <? num_val pfx))
  end.

Definition classify (arg : bytes) : Z :=
  let len := zlen arg in
  if (len =? 0) || (64 <=? len) then 0
  else
    let '(buf, slash) := cut 47 arg in
    if bool_decide (slash = Some []) then 0
    else
      let family := if pton4 buf then AF_INET else if pton6 buf then AF_INET6 else 0 in
      if family =? 0 then 0
      else match slash with
           | None => family
           | Some pfxstr => if prefix_ok family pfxstr then family else 0
           end.

(** The two [isspace] loops: leading, then trailing white space of a token. *)
Definition trim (token : bytes) : bytes :=
  reverse (skip_while isspace (reverse (skip_while isspace token))).

(** The [strtok_r] loop.  [None] is out of fuel; the length of the argument
    is always enough ([classify_list_total]). *)
Fixpoint list_loop (fuel : nat) (buf : bytes) (common_family : Z) : option Z :=
  match fuel with
  | O => None
  | S fuel =>
      match strtok_r buf 44 with
      | None => Some common_family
      | Some (token, saveptr) =>
          let token := trim token in
          if bool_decide (token = []) then list_loop fuel saveptr common_family
          else
            let family := classify token in
            if family =? 0 then Some 0
            else if common_family =? 0 then list_loop fuel saveptr family
            else if negb (family =? common_family) then Some (-1)
            else list_loop fuel saveptr common_family
      end
  end.

Definition classify_list (arg : bytes) : option Z :=
  let len := zlen arg in
  if (len =? 0) || (512 <=? len) then Some 0
  else list_loop (S (length arg)) arg 0.

(** [main]: the line printed and the exit status. *)
Definition ipcheck_main (argv : list bytes) : option (bytes * Z) :=
  let result := match argv with [_; a] => classify_list a | _ => Some 0 end in
  match result with
  | None => None
  | Some r =>
      Some (if r =? AF_INET then (bs "ipv4", 0)
            else if r =? AF_INET6 then (bs "ipv6", 0)
            else if r =? -1 then (bs "mixed", 1)
            else (bs "invalid", 1))
  end.

(** ** The comma-separated list as a list of tokens *)

(** The non-empty trimmed tokens, in order. *)
Fixpoint tokens (fuel : nat) (buf : bytes) : list bytes :=
  match fuel with
  | O => []
  | S fuel =>
      match strtok_r buf 44 with
      | None => []
      | Some (t, r) => if bool_decide (trim t = []) then tokens fuel r
                       else trim t :: tokens fuel r
      end
  end.

Lemma list_loop_tokens fuel buf common :
  (length buf < fuel)%nat ->
  list_loop fuel buf common = Some (decide_family (map classify (tokens fuel buf)) common).
Proof using Type.
  revert buf common. induction fuel as [|fuel IH]; intros buf common Hf; [lia|].
  cbn [list_loop tokens]. destruct (strtok_r buf 44) as [[t r]|] eqn:E; [|done].
  apply strtok_r_length in E.
  destruct (bool_decide (trim t = [])) eqn:Et; [apply IH; lia|].
  cbn [map decide_family]. destruct (classify (trim t) =? 0) eqn:E0; [done|].
  destruct (common =? 0) eqn:Ec; [apply IH; lia|].
  destruct (negb _); [done|]. apply IH. lia.
Qed.

Lemma classify_range a : classify a = 0 \/ classify a = AF_INET \/ classify a = AF_INET6.
Proof using Type.
  unfold classify. destruct (_ || _); [auto|]. destruct (cut 47 a) as [b s].
  destruct (bool_decide _); [auto|].
  destruct (pton4 b), (pton6 b); cbn; destruct s as [p|]; try destruct (prefix_ok _ p); auto.
Qed.

End Check.

(** ** Claims *)

(** the list classifier always returns, and it answers a family [fam]
    (IPv4 or IPv6) exactly when the argument has an acceptable length, has at
    least one non-blank token, and every non-blank token classifies as [fam]. *)
Theorem classify_list_family (pton4 pton6 : bytes -> bool) (arg : bytes) (fam : Z)
    (Hfam : fam = AF_INET \/ fam = AF_INET6) :
  exists r, classify_list pton4 pton6 arg = Some r /\
    (r = fam <-> (0 < zlen arg < 512 /\
                  tokens (S (length arg)) arg <> [] /\
                  Forall (fun t => classify pton4 pton6 t = fam) (tokens (S (length arg)) arg))).
Proof.
  unfold classify_list.
  assert (fam <> 0 /\ fam <> -1) as [Hf0 Hf1] by (destruct Hfam; subst; done).
  destruct ((zlen arg =? 0) || (512 <=? zlen arg)) eqn:El.
  { exists 0. split; [done|]. apply orb_true_iff in El as [El|El]; zprop;
      (split; [congruence|lia]). }
  zprop. rewrite list_loop_tokens by lia. eexists. split; [done|].
  pose proof (zlen_nonneg arg). generalize (tokens (S (length arg)) arg). intros ts.
  destruct ts as [|t ts]; cbn [map decide_family].
  { split; [congruence|]. by intros (_ & ? & _). }
  destruct (Z.eqb_spec (classify pton4 pton6 t) 0) as [E|E].
  { split; [congruence|]. intros (_ & _ & [? _]%Forall_cons). congruence. }
  cbn [Z.eqb]. rewrite Forall_cons. split.
  - intros Hd.
    assert (classify pton4 pton6 t = fam) as Ht.
    { destruct (decide_family_total (map (classify pton4 pton6) ts) (classify pton4 pton6 t))
        as [?|[?|?]]; try congruence.
      - apply Forall_fmap, Forall_true. intros x. unfold compose.
        destruct (classify_range pton4 pton6 x) as [->|[->| ->]]; done.
      - destruct (classify_range pton4 pton6 t) as [->|[->| ->]]; done. }
    split; [lia|]. split; [done|]. split; [done|].
    rewrite Ht in Hd. apply decide_family_common in Hd; [|done..].
    by apply Forall_fmap in Hd.
  - intros (_ & _ & Ht & Hts). rewrite Ht. apply decide_family_common; [done..|].
    by apply Forall_fmap.
Qed.

(** An [inet_pton] that knows two addresses. *)
Definition ex_pton4 (s : bytes) : bool := bool_decide (s = bs "10.0.0.1") || bool_decide (s = bs "10.0.0.2").
Definition ex_pton6 (s : bytes) : bool := bool_decide (s = bs "fe80::1").

Lemma classify_list_family_witness :
  classify_list ex_pton4 ex_pton6 (bs "10.0.0.1/8, 10.0.0.2") = Some AF_INET /\
  exists r, classify_list ex_pton4 ex_pton6 (bs "10.0.0.1/8, 10.0.0.2") = Some r /\
    (r = AF_INET <-> (0 < zlen (bs "10.0.0.1/8, 10.0.0.2") < 512 /\
       tokens (S (length (bs "10.0.0.1/8, 10.0.0.2"))) (bs "10.0.0.1/8, 10.0.0.2") <> [] /\
       Forall (fun t => classify ex_pton4 ex_pton6 t = AF_INET)
         (tokens (S (length (bs "10.0.0.1/8, 10.0.0.2"))) (bs "10.0.0.1/8, 10.0.0.2")))).
Proof.
  split; [vm_compute; reflexivity|].
  apply (classify_list_family ex_pton4 ex_pton6 (bs "10.0.0.1/8, 10.0.0.2") AF_INET). left. reflexivity.
Defined.

(** [prefix_ok] on a canonical decimal number. *)
Lemma prefix_ok_dec fam p :
  Forall is_dec p -> p <> [] -> (forall q, p = 48 :: q -> q = []) ->
  prefix_ok fam p = (dec_val p <=? (if fam =? AF_INET then 32 else 128)).
Proof.
  intros Hd Hne Hz. unfold prefix_ok. set (mx := if fam =? AF_INET then 32 else 128).
  assert (mx <= 128) by (subst mx; destruct (fam =? AF_INET); lia).
  pose proof (dec_val_nonneg p Hd) as H0.
  pose proof (strtol_dec p [] Hd Hne ltac:(done)) as Hs. rewrite app_nil_r in Hs.
  transitivity (let pfx := strtol 10 p in
    if negb (bool_decide (num_end pfx = [])) || endp_eqb (num_end pfx) p then false
    else negb ((num_val pfx <? 0) || (mx <? num_val pfx))).
  { destruct p as [|c p]; [done|]. destruct p as [|c2 p].
    - repeat (split_match; try done).
    - assert (c <> 48) by (intros ->; specialize (Hz _ eq_refl); done).
      repeat (split_match; try done). }
  cbv zeta. rewrite Hs. cbn [num_end num_val]. rewrite bool_decide_eq_true_2 by done.
  unfold endp_eqb. destruct p as [|c p]; [done|]. cbn [length Nat.eqb negb orb].
  unfold LONG_MAX in *. zbool; cbn; lia || done.
Qed.

(** on an address followed by a prefix length in canonical decimal form,
    [classify] answers the address's family exactly when the length is at most
    32 (IPv4) or 128 (IPv6), and "invalid" otherwise. *)
Theorem classify_cidr (pton4 pton6 : bytes -> bool) (addr pfx : bytes)
    (Haddr : 47 ∉ addr) (Hlen : zlen (addr ++ 47 :: pfx) < 64)
    (Hdig : Forall is_dec pfx) (Hne : pfx <> []) (Hcanon : forall q, pfx = 48 :: q -> q = []) :
  classify pton4 pton6 (addr ++ 47 :: pfx) =
    if pton4 addr then (if dec_val pfx <=? 32 then AF_INET else 0)
    else if pton6 addr then (if dec_val pfx <=? 128 then AF_INET6 else 0) else 0.
Proof.
  unfold classify. pose proof (zlen_nonneg addr). pose proof (zlen_nonneg pfx).
  autorewrite with zlen in *. rewrite (proj2 (Z.eqb_neq _ 0)), (proj2 (Z.leb_gt 64 _)) by lia.
  cbn [orb]. rewrite cut_delim by done. rewrite bool_decide_eq_false_2 by congruence.
  destruct (pton4 addr), (pton6 addr); cbn; rewrite ?prefix_ok_dec by done; done.
Qed.

Lemma classify_cidr_witness :
  classify ex_pton4 ex_pton6 (bs "10.0.0.1" ++ 47 :: bs "24") = AF_INET.
Proof.
  rewrite (classify_cidr ex_pton4 ex_pton6 (bs "10.0.0.1") (bs "24")); try (vm_compute; reflexivity).
  - apply (bool_decide_unpack _). vm_compute. exact I.
  - apply (bool_decide_unpack _). vm_compute. exact I.
  - discriminate.
  - intros q H. vm_compute in H. discriminate H.
Defined.

(** the prefix length goes through [strtol] unfiltered, so forms that are
    not CIDR notation are accepted too: a sign, leading blanks, and leading
    zeros behind them. *)
Theorem classify_accepts_loose_prefix :
  classify ex_pton4 ex_pton6 (bs "10.0.0.1/+24") = AF_INET /\
  classify ex_pton4 ex_pton6 (bs "10.0.0.1/ 024") = AF_INET /\
  classify ex_pton4 ex_pton6 (bs "10.0.0.1/-0") = AF_INET /\
  classify ex_pton4 ex_pton6 (bs "10.0.0.1/024") = 0.
Proof. repeat split; vm_compute; reflexivity. Qed.
