(* ===== verification/HwInfo.v ===== *)
(** * gl-hw-info: the /proc/gl-hw-info files (kernel/gl-hw-info/src/gl-hw-info.c)

    The kernel heap is a finite map from addresses to buffers, so that the
    life of each value ([memdup_user_nul] ... [kfree_sensitive]) is visible.
    What can fail outside the module is an argument: the result of
    [memdup_user_nul], of [proc_mkdir] and of each [proc_create_data]. *)

From S2P Require Import Prelude CLib.

(** ** Definitions *)

Definition GL_HW_INFO_MAX : Z := 8192.

Record gl_hw_entry := Entry { e_name : bytes; e_mode : Z; e_value : option nat; e_len : Z }.

Definition entry0 (name : string) (mode : Z) : gl_hw_entry := Entry (bs name) mode None 0.

(** 0644 and 0600. *)
Definition m644 : Z := 0x1A4.
Definition m600 : Z := 0x180.

Definition entries0 : list gl_hw_entry :=
  [ entry0 "model" m644; entry0 "wan" m644; entry0 "lan" m644;
    entry0 "build-in-modem" m644; entry0 "pcie-bus" m644; entry0 "usb-port" m644;
    entry0 "modem-reset" m644; entry0 "fan" m644; entry0 "flash_size" m644;
    entry0 "temperature" m644; entry0 "reset-button" m644; entry0 "radio" m644;
    entry0 "mcu" m644; entry0 "cfg-partition" m644; entry0 "dfs" m644;
    entry0 "sim" m644; entry0 "device_mac" m644; entry0 "device_ddns" m644;
    entry0 "device_sn" m644; entry0 "device_sn_bak" m644; entry0 "country_code" m644;
    entry0 "firmware_type" m644; entry0 "device_cert" m644; entry0 "device_key" m600 ].

(** The module's data: the table, the heap buffers it owns, and the proc
    directory: for each file its name, its mode and the index of its entry. *)
Record hw_state := HwState {
  hw_entries : list gl_hw_entry;
  hw_heap : gmap nat bytes;
  hw_dir : option (list (bytes * Z * nat));
}.

Definition hw_state0 : hw_state := HwState entries0 ∅ None.

(** [kfree_sensitive(p)]: [None] is a free of an address that is not allocated. *)
Definition kfree_sensitive (p : option nat) (heap : gmap nat bytes) : option (gmap nat bytes) :=
  match p with
  | None => Some heap
  | Some a => match heap !! a with
              | Some _ => Some (delete a heap)
              | None => None
              end
  end.

(** [gl_hw_show] for entry [i]: what reading the file gives; [None] is a read
    through a dangling pointer or of an entry that does not exist. *)
Definition gl_hw_show (i : nat) (s : hw_state) : option bytes :=
  match hw_entries s !! i with
  | None => None
  | Some e => match e_value e with
              | None => Some []
              | Some a => match hw_heap s !! a with
                          | Some v => Some (ztake (e_len e) v)
                          | None => None
                          end
              end
  end.

(** [gl_hw_write] to entry [i] of the [count] bytes [buf] of the user buffer.
    [fault]: the errno with which [memdup_user_nul] fails, if it does.  [None]
    is a bad free or an entry that does not exist. *)
Definition gl_hw_write (i : nat) (buf : bytes) (fault : option Z) (s : hw_state)
  : option (Z * hw_state) :=
  let count := zlen buf in
  match hw_entries s !! i with
  | None => None
  | Some e =>
      if GL_HW_INFO_MAX <? count then Some (- EFBIG, s)
      else match fault with
           | Some err => Some (- err, s)
           | None =>
               let value := fresh (dom (hw_heap s)) in
               let heap := <[value := buf ++ [0]]> (hw_heap s) in
               match kfree_sensitive (e_value e) heap with
               | None => None
               | Some heap =>
                   let e' := Entry (e_name e) (e_mode e) (Some value) count in
                   Some (count, HwState (<[i := e']> (hw_entries s)) heap (hw_dir s))
               end
           end
  end.

(** The [proc_create_data] loop of the init function, from entry [i] on. *)
Fixpoint create_files (create_ok : nat -> bool) (i : nat) (es : list gl_hw_entry)
    (acc : list (bytes * Z * nat)) : option (list (bytes * Z * nat)) :=
  match es with
  | [] => Some acc
  | e :: es => if create_ok i then create_files create_ok (S i) es (acc ++ [(e_name e, e_mode e, i)])
               else None
  end.

Definition gl_hw_info_init (mkdir_ok : bool) (create_ok : nat -> bool) (s : hw_state)
  : Z * hw_state :=
  if negb mkdir_ok then (- ENOMEM, s)
  else match create_files create_ok 0 (hw_entries s) [] with
       | None => (- ENOMEM, HwState (hw_entries s) (hw_heap s) None)
       | Some fs => (0, HwState (hw_entries s) (hw_heap s) (Some fs))
       end.

(** The [kfree_sensitive] loop of the exit function. *)
Fixpoint free_values (es : list gl_hw_entry) (heap : gmap nat bytes) : option (gmap nat bytes) :=
  match es with
  | [] => Some heap
  | e :: es => match kfree_sensitive (e_value e) heap with
               | None => None
               | Some heap => free_values es heap
               end
  end.

Definition gl_hw_info_exit (s : hw_state) : option hw_state :=
  match free_values (hw_entries s) (hw_heap s) with
  | None => None
  | Some heap => Some (HwState (hw_entries s) heap None)
  end.

(** A run of the module: the writes its users make between init and exit. *)
Record hw_write := HwWrite { w_entry : nat; w_buf : bytes; w_fault : option Z }.

Fixpoint run_writes (ws : list hw_write) (s : hw_state) : option hw_state :=
  match ws with
  | [] => Some s
  | w :: ws => match gl_hw_write (w_entry w) (w_buf w) (w_fault w) s with
               | None => None
               | Some (_, s) => run_writes ws s
               end
  end.

(** ** The ownership invariant: the heap holds exactly one buffer per set entry *)

Definition owned (es : list gl_hw_entry) : list nat := omap e_value es.

Record hw_inv (s : hw_state) : Prop := {
  inv_nodup : NoDup (owned (hw_entries s));
  inv_dom : forall a, a ∈ owned (hw_entries s) <-> is_Some (hw_heap s !! a);
  inv_len : forall i e a v, hw_entries s !! i = Some e -> e_value e = Some a ->
              hw_heap s !! a = Some v -> 0 <= e_len e <= zlen v;
}.

Lemma owned_lookup es i e a : es !! i = Some e -> e_value e = Some a -> a ∈ owned es.
Proof.
  intros Hi Ha. apply list_elem_of_omap. exists e. split; [|done]. by eapply list_elem_of_lookup_2.
Qed.

Lemma owned_split es i e :
  es !! i = Some e ->
  owned es = owned (take i es) ++ option_list (e_value e) ++ owned (drop (S i) es).
Proof.
  intros Hi. rewrite <- (take_drop_middle es i e Hi) at 1. unfold owned.
  rewrite omap_app. cbn. by destruct (e_value e).
Qed.

Lemma owned_insert es i e e' :
  es !! i = Some e ->
  owned (<[i := e']> es) = owned (take i es) ++ option_list (e_value e') ++ owned (drop (S i) es).
Proof.
  intros Hi. rewrite (owned_split _ i e').
  - by rewrite take_insert_ge, drop_insert_lt by lia.
  - apply list_lookup_insert_eq. by eapply lookup_lt_Some.
Qed.

Lemma hw_inv0 : hw_inv hw_state0.
Proof.
  split; cbn.
  - constructor.
  - intros a. rewrite lookup_empty. split; [by intros ?%elem_of_nil|by intros [? ?]].
  - intros i e a v _ _ H. by rewrite lookup_empty in H.
Qed.

(** Replacing the value of entry [i] and freeing the old one. *)
Lemma replace_value s i e buf :
  hw_inv s -> hw_entries s !! i = Some e ->
  let a := fresh (dom (hw_heap s)) in
  exists heap, kfree_sensitive (e_value e) (<[a := buf]> (hw_heap s)) = Some heap /\
    heap !! a = Some buf /\
    (forall b, b <> a -> e_value e <> Some b -> heap !! b = hw_heap s !! b) /\
    (forall b, e_value e = Some b -> b <> a /\ heap !! b = None).
Proof.
  intros Hinv Hi a. pose proof (is_fresh (dom (hw_heap s))) as Hf. fold a in Hf.
  apply not_elem_of_dom in Hf. destruct (e_value e) as [b|] eqn:Ev; cbn.
  - assert (is_Some (hw_heap s !! b)) as [v Hv].
    { apply (inv_dom s Hinv). by eapply owned_lookup. }
    assert (b <> a) by congruence. rewrite lookup_insert_ne, Hv by done.
    eexists. split; [done|]. split; [|split].
    + by rewrite lookup_delete_ne, lookup_insert_eq by done.
    + intros c ? ?. by rewrite lookup_delete_ne, lookup_insert_ne by congruence.
    + intros c [= <-]. split; [done|]. apply lookup_delete_eq.
  - eexists. split; [done|]. split; [apply lookup_insert_eq|]. split; [|done].
    intros c ? _. by rewrite lookup_insert_ne by done.
Qed.

Lemma gl_hw_write_ok s i buf fault :
  hw_inv s -> is_Some (hw_entries s !! i) ->
  exists ret s', gl_hw_write i buf fault s = Some (ret, s') /\ hw_inv s' /\
    length (hw_entries s') = length (hw_entries s).
Proof.
  intros Hinv [e Hi]. unfold gl_hw_write. rewrite Hi.
  destruct (GL_HW_INFO_MAX <? zlen buf); [eauto|]. destruct fault as [err|]; [eauto|].
  destruct (replace_value s i e (buf ++ [0]) Hinv Hi) as (heap & -> & Ha & Hoth & Hold).
  set (a := fresh (dom (hw_heap s))) in *. eexists _, _. split; [done|].
  split; [|cbn; by rewrite length_insert].
  assert (Hfr : a ∉ owned (hw_entries s)).
  { intros H%(inv_dom s Hinv). pose proof (is_fresh (dom (hw_heap s))) as Hf. fold a in Hf.
    by apply not_elem_of_dom, eq_None_not_Some in Hf. }
  pose proof (inv_nodup s Hinv) as Hnd. pose proof (inv_dom s Hinv) as Hd.
  rewrite (owned_split _ _ _ Hi) in Hfr, Hnd, Hd.
  set (l1 := owned (take i (hw_entries s))) in *. set (l2 := owned (drop (S i) (hw_entries s))) in *.
  split; cbn [hw_entries hw_heap].
  - rewrite (owned_insert _ _ e) by done. fold l1 l2. cbn.
    apply NoDup_app in Hnd as (H1 & H12 & H2). apply NoDup_app in H2 as (_ & _ & H2).
    apply NoDup_app. split; [done|]. split.
    + intros x Hx. rewrite not_elem_of_cons. split; [set_solver|].
      intros ?. apply (H12 x Hx). set_solver.
    + constructor; [set_solver|done].
  - intros b. rewrite (owned_insert _ _ e) by done. fold l1 l2. cbn.
    destruct (decide (b = a)) as [->|Hba]; [rewrite Ha; set_solver by eauto|].
    destruct (decide (e_value e = Some b)) as [Eb|Eb].
    + destruct (Hold b Eb) as [_ ->]. rewrite Eb in Hnd. split; [|by intros [? ?]].
      apply NoDup_app in Hnd as (_ & H12 & H2). cbn in *. apply NoDup_cons in H2 as [H2 _].
      specialize (H12 b). set_solver.
    + rewrite Hoth, <- Hd by done. destruct (e_value e) as [c|]; set_solver.
  - intros j e' b v. rewrite list_lookup_insert. case_decide as Hj.
    + intros [= <-] [= <-]. rewrite Ha. intros [= <-]. cbn. autorewrite with zlen.
      pose proof (zlen_nonneg buf). lia.
    + intros Hj' Hv Hb.
      assert (b ∈ owned (hw_entries s)) as Hown by (by eapply owned_lookup).
      assert (b <> a) by (rewrite (owned_split _ _ _ Hi) in Hown; set_solver).
      destruct (decide (e_value e = Some b)) as [Eb|Eb].
      { destruct (Hold b Eb) as [_ Hn]. congruence. }
      rewrite Hoth in Hb by done. by eapply (inv_len s Hinv).
Qed.

Lemma gl_hw_write_entries s i buf fault ret s' :
  gl_hw_write i buf fault s = Some (ret, s') -> (i < length (hw_entries s))%nat.
Proof.
  unfold gl_hw_write. destruct (hw_entries s !! i) eqn:E; [|done]. intros _. by eapply lookup_lt_Some.
Qed.

Lemma run_writes_inv ws s :
  hw_inv s -> Forall (fun w => (w_entry w < length (hw_entries s))%nat) ws ->
  exists s', run_writes ws s = Some s' /\ hw_inv s'.
Proof.
  intros Hs Hw. revert s Hs Hw. induction ws as [|w ws IH]; intros s Hs Hw; cbn; [eauto|].
  apply Forall_cons in Hw as [Hw1 Hw].
  destruct (gl_hw_write_ok s (w_entry w) (w_buf w) (w_fault w) Hs) as (ret & s' & -> & Hs' & Hl).
  { by apply lookup_lt_is_Some. }
  apply IH; [done|]. by rewrite Hl.
Qed.

Lemma free_values_all es heap :
  NoDup (owned es) -> (forall a, a ∈ owned es <-> is_Some (heap !! a)) ->
  free_values es heap = Some ∅.
Proof.
  revert heap. induction es as [|e es IH]; intros heap Hnd Hd; cbn.
  { f_equal. apply map_eq. intros a. rewrite lookup_empty. apply eq_None_not_Some.
    rewrite <- Hd. cbn. by apply not_elem_of_nil. }
  unfold owned in *. cbn in Hnd, Hd. destruct (e_value e) as [a|]; cbn; [|by apply IH].
  apply NoDup_cons in Hnd as [Ha Hnd].
  destruct (proj1 (Hd a)) as [v ->]; [set_solver|].
  apply IH; [done|]. intros b. destruct (decide (b = a)) as [->|].
  - rewrite lookup_delete_eq. split; [done|by intros [? ?]].
  - rewrite lookup_delete_ne, <- Hd by done. set_solver.
Qed.

(** ** Claims *)

(** writing at most 8192 bytes to an existing entry, with memory available,
    returns the number of bytes written; a later read of that entry gives
    exactly those bytes and a read of any other entry gives what it gave before. *)
Theorem hw_write_show (s : hw_state) (i : nat) (buf : bytes)
    (Hinv : hw_inv s) (Hi : is_Some (hw_entries s !! i)) (Hlen : zlen buf <= GL_HW_INFO_MAX) :
  exists s', gl_hw_write i buf None s = Some (zlen buf, s') /\
    gl_hw_show i s' = Some buf /\
    forall j, j <> i -> gl_hw_show j s' = gl_hw_show j s.
Proof.
  destruct Hi as [e Hi]. unfold gl_hw_write. rewrite Hi.
  rewrite (proj2 (Z.ltb_ge _ _)) by lia.
  destruct (replace_value s i e (buf ++ [0]) Hinv Hi) as (heap & -> & Ha & Hoth & Hold).
  eexists. split; [done|]. unfold gl_hw_show. cbn [hw_entries hw_heap]. split.
  - rewrite list_lookup_insert_eq by (by eapply lookup_lt_Some). cbn. rewrite Ha.
    f_equal. by apply ztake_app.
  - intros j Hj. rewrite list_lookup_insert_ne by done.
    destruct (hw_entries s !! j) as [ej|] eqn:Ej; [|done].
    destruct (e_value ej) as [b|] eqn:Eb; [|done].
    assert (b ∈ owned (hw_entries s)) as Hown by (by eapply owned_lookup).
    rewrite Hoth; [done| |].
    + intros ->. apply (inv_dom s Hinv) in Hown.
      pose proof (is_fresh (dom (hw_heap s))) as Hf. by apply not_elem_of_dom, eq_None_not_Some in Hf.
    + intros Ee. pose proof (inv_nodup s Hinv) as Hnd. rewrite (owned_split _ _ _ Hi), Ee in Hnd.
      apply NoDup_app in Hnd as (_ & H12 & H2). apply NoDup_cons in H2 as [H2 _].
      destruct (decide (j < i)%nat).
      * apply (H12 b); [|cbn; left]. apply (owned_lookup _ j ej); [|done].
        by rewrite lookup_take_lt by lia.
      * apply H2. cbn. apply (owned_lookup _ (j - S i) ej); [|done].
        rewrite lookup_drop. by replace (S i + (j - S i))%nat with j by lia.
Qed.

Lemma hw_write_show_witness :
  exists s', gl_hw_write 18 (bs "XE3000SN") None hw_state0 = Some (8, s') /\
    gl_hw_show 18 s' = Some (bs "XE3000SN") /\
    forall j, j <> 18%nat -> gl_hw_show j s' = gl_hw_show j hw_state0.
Proof.
  apply (hw_write_show hw_state0 18 (bs "XE3000SN") hw_inv0).
  - eexists. vm_compute. reflexivity.
  - vm_compute. discriminate.
Defined.

(** no sequence of writes to existing entries, failed ones included, frees
    a buffer twice or loses one, and unloading the module afterwards frees
    every buffer that is still allocated. *)
Theorem hw_no_leak (ws : list hw_write)
    (Hws : Forall (fun w => (w_entry w < length entries0)%nat) ws) :
  exists s s', run_writes ws hw_state0 = Some s /\ gl_hw_info_exit s = Some s' /\ hw_heap s' = ∅.
Proof.
  destruct (run_writes_inv ws hw_state0 hw_inv0 Hws) as (s & Hr & Hs).
  exists s. unfold gl_hw_info_exit.
  rewrite (free_values_all _ _ (inv_nodup s Hs) (inv_dom s Hs)). eauto.
Qed.

Lemma hw_no_leak_witness :
  exists s s', run_writes [HwWrite 0 (bs "xe3000") None; HwWrite 0 (bs "gl") None;
                           HwWrite 23 (bs "key") (Some ENOMEM)] hw_state0 = Some s /\
    gl_hw_info_exit s = Some s' /\ hw_heap s' = ∅.
Proof. apply hw_no_leak. apply (bool_decide_unpack _). vm_compute. exact I. Defined.

(** the access rights the file's comment promises hold of the files the
    init function creates: every one is writable by root only and device_key is
    also readable by root only; when a creation fails the directory is gone. *)
Theorem hw_init_modes (mkdir_ok : bool) (create_ok : nat -> bool) :
  match gl_hw_info_init mkdir_ok create_ok hw_state0 with
  | (0, s') => exists fs, hw_dir s' = Some fs /\ length fs = 24%nat /\
      Forall (fun f => Z.land f.1.2 0x92 = 0x80 /\
                       (f.1.1 = bs "device_key" -> Z.land f.1.2 0x24 = 0)) fs
  | (ret, s') => ret = - ENOMEM /\ hw_dir s' = None
  end.
Proof.
  unfold gl_hw_info_init. destruct mkdir_ok; cbn [negb]; [|done].
  cbn [create_files hw_entries hw_state0 entries0].
  repeat (match goal with |- context [create_ok ?n] => destruct (create_ok n) end; [|done]).
  eexists. split; [reflexivity|]. split; [reflexivity|].
  cbn. repeat constructor; intros H; vm_compute in H; discriminate H.
Qed.
