(* ===== verification/Wifidog.v ===== *)
(** * wifidog-ng: the captive portal netfilter module

    Models src/gl-feed/net/gl-portal/src/wifidog-ng.c: the per-namespace
    configuration [wifidog_net], the /proc configuration parser
    [proc_config_write] with [update_gw_interface], the pre-routing hook
    [wifidog_hook] with [wd_nat_setup_info] and the ipset queries, and the
    namespace constructor and destructor.

    The kernel services the module calls are fields of [kernel]: the device
    tables, [simple_strtol], the ipset core and [nf_nat_setup_info].  The
    32-bit and 16-bit network-order fields hold the value a little-endian
    host reads from them, so that [htons] swaps bytes. *)

From S2P Require Import Prelude CLib.

Definition IFNAMSIZ : Z := 16.
Definition IPSET_MAXNAMELEN : Z := 32.
Definition NF_DROP : Z := 0.
Definition NF_ACCEPT : Z := 1.
Definition PACKET_BROADCAST : Z := 1.
Definition PACKET_MULTICAST : Z := 2.
Definition IPPROTO_TCP : Z := 6.
Definition IPPROTO_UDP : Z := 17.
Definition IP_CT_NEW : Z := 2.
Definition IPS_DST_NAT_DONE : Z := 2 ^ 8.

(** [ct->status] is an [unsigned long]; [(1 << 31)] is a negative [int], which
    the conversion sign-extends to bits 31 to 63. *)
Definition IPS_HIJACKED : Z := u64 (s32 (Z.shiftl 1 31)).
Definition IPS_ALLOWED : Z := u64 (s32 (Z.shiftl 1 30)).

Definition htons (x : Z) : Z :=
  Z.lor (Z.shiftl (Z.land x 0xFF) 8) (Z.land (Z.shiftr x 8) 0xFF).

(** The first address of an interface: local address, mask, broadcast. *)
Record in_ifaddr := IfAddr { ifa_local : Z; ifa_mask : Z; ifa_broadcast : Z }.

Record wifidog_net := WdNet {
  enabled : Z;
  interface : bytes;
  interface_ifindex : Z;
  interface_ipaddr : Z;
  interface_mask : Z;
  interface_broadcast : Z;
  port : Z;
  ssl_port : Z }.

(** The packet as the hook reads it.  [sk_ct] is the conntrack entry's status
    and the direction [ctinfo], when the packet has one. *)
Record sk_buff := SkBuff {
  in_ifindex : Z; pkt_type : Z; saddr : Z; daddr : Z; protocol : Z; dest : Z }.

Record nat_range := NatRange { nat_ip : Z; nat_port : Z }.

Record kernel := Kernel {
  dev_get_by_name : bytes -> option Z;
  inetdev_by_index : Z -> option (list in_ifaddr);
  simple_strtol : bytes -> Z;
  ip_set_get_byname : bytes -> option Z;
  ip_set_test : Z -> sk_buff -> Z;
  nf_nat_setup_info : Z -> nat_range -> Z * Z }.

(** ** Configuration *)

(** Returns the code, the configuration and the change of the device's
    reference count. *)
Definition update_gw_interface (k : kernel) (wd : wifidog_net) : Z * wifidog_net * Z :=
  match dev_get_by_name k (interface wd) with
  | None => (- ENOENT, wd, 0)
  | Some ifindex =>
      let refs := 1 in
      let wd := WdNet (enabled wd) (interface wd) ifindex (interface_ipaddr wd)
                      (interface_mask wd) (interface_broadcast wd) (port wd) (ssl_port wd) in
      let '(ret, wd) :=
        match inetdev_by_index k ifindex with
        | None => (- ENOENT, wd)
        | Some [] => (0, wd)
        | Some (ifa :: _) =>
            (0, WdNet (enabled wd) (interface wd) ifindex (ifa_local ifa) (ifa_mask ifa)
                      (ifa_broadcast ifa) (port wd) (ssl_port wd))
        end in
      (ret, wd, refs - 1)
  end.

(** One [key=value] assignment and whether it asks for an interface update;
    [strscpy] keeps at most [IFNAMSIZ - 1] bytes. *)
Definition config_assign (k : kernel) (key value : bytes) (wd : wifidog_net) (update : bool)
  : wifidog_net * bool :=
  if bool_decide (key = bs "enabled") then
    let e := s32 (simple_strtol k value) in
    (WdNet e (interface wd) (interface_ifindex wd) (interface_ipaddr wd) (interface_mask wd)
           (interface_broadcast wd) (port wd) (ssl_port wd),
     if negb (e =? 0) then true else update)
  else if bool_decide (key = bs "interface") then
    (WdNet (enabled wd) (ztake (IFNAMSIZ - 1) value) (interface_ifindex wd) (interface_ipaddr wd)
           (interface_mask wd) (interface_broadcast wd) (port wd) (ssl_port wd), true)
  else if bool_decide (key = bs "port") then
    (WdNet (enabled wd) (interface wd) (interface_ifindex wd) (interface_ipaddr wd)
           (interface_mask wd) (interface_broadcast wd) (htons (u16 (simple_strtol k value)))
           (ssl_port wd), update)
  else if bool_decide (key = bs "ssl_port") then
    (WdNet (enabled wd) (interface wd) (interface_ifindex wd) (interface_ipaddr wd)
           (interface_mask wd) (interface_broadcast wd) (port wd)
           (htons (u16 (simple_strtol k value))), update)
  else (wd, update).

(** The [while (key && *key)] loop over the NUL-terminated buffer. *)
Fixpoint config_loop (fuel : nat) (k : kernel) (key : option bytes) (wd : wifidog_net)
    (update : bool) : option (wifidog_net * bool) :=
  match fuel with
  | O => None
  | S fuel =>
      match key with
      | None | Some [] => Some (wd, update)
      | Some s =>
          let s := skip_while (fun c => c =? 32) s in
          match cut 61 s with
          | (_, None) => Some (wd, update)
          | (name, Some rest) =>
              let '(value, delim) := cut 10 rest in
              let '(wd, update) := config_assign k name value wd update in
              config_loop fuel k delim wd update
          end
      end
  end.

(** [size] is the length of [buf]; [copy_ok] is the success of
    [copy_from_user].  Returns the code, the configuration and the change of
    device references; [None] only when the loop runs out of its 129 turns. *)
Definition proc_config_write (k : kernel) (buf : bytes) (copy_ok : bool) (wd : wifidog_net)
  : option (Z * wifidog_net * Z) :=
  if zlen buf =? 0 then Some (- EINVAL, wd, 0)
  else
    let size := if 128 <? zlen buf then 128 else zlen buf in
    if negb copy_ok then Some (- EFAULT, wd, 0)
    else
      let data := fst (cut 0 (ztake size buf)) in
      match config_loop 129 k (Some data) wd false with
      | None => None
      | Some (wd, true) => let '(_, wd, refs) := update_gw_interface k wd in Some (size, wd, refs)
      | Some (wd, false) => Some (size, wd, 0)
      end.

(** ** The hook *)

(** What the hook can change: the conntrack status, whether the entry was
    detached and killed, and the references held on ipsets. *)
Record hook_out := HookOut {
  verdict : Z; ct_status : Z; ct_killed : bool; set_refs : Z; nat : option nat_range }.

(** From Linux 6.12 on the name travels in an attribute of bounded size. *)
Definition wd_ip_set_get_byname (k : kernel) (name : bytes) : option Z :=
  if IPSET_MAXNAMELEN <=? zlen name then None else ip_set_get_byname k name.

(** The answer and the reference the test leaves on the set. *)
Definition wd_ip_set_test (k : kernel) (name : bytes) (skb : sk_buff) : Z * Z :=
  match wd_ip_set_get_byname k name with
  | None => (0, 0)
  | Some index => let refs := 1 in (ip_set_test k index skb, refs - 1)
  end.

Definition is_allowed_mac (k : kernel) (skb : sk_buff) : Z * Z :=
  wd_ip_set_test k (bs "wifidog-ng-mac") skb.
Definition is_allowed_dest_ip (k : kernel) (skb : sk_buff) : Z * Z :=
  wd_ip_set_test k (bs "wifidog-ng-ip") skb.

Definition wd_nat_setup_info (k : kernel) (wd : wifidog_net) (skb : sk_buff) (status refs : Z)
  : hook_out :=
  let p := if dest skb =? htons 80 then port wd else ssl_port wd in
  let range := NatRange (interface_ipaddr wd) p in
  let status := Z.lor status IPS_HIJACKED in
  let '(v, status) := nf_nat_setup_info k status range in
  HookOut v status false refs (Some range).

(** The part of the hook after the redirect label. *)
Definition hook_redirect (k : kernel) (wd : wifidog_net) (skb : sk_buff) (status ctinfo refs : Z)
  : hook_out :=
  if negb (ctinfo =? IP_CT_NEW) || negb (Z.land status IPS_DST_NAT_DONE =? 0)
  then HookOut NF_DROP status false refs None
  else wd_nat_setup_info k wd skb status refs.

(** The protocol switch. *)
Definition hook_proto (k : kernel) (wd : wifidog_net) (skb : sk_buff) (status ctinfo refs : Z)
  : hook_out :=
  let allow := HookOut NF_ACCEPT (Z.lor status IPS_ALLOWED) false refs None in
  if protocol skb =? IPPROTO_TCP then
    if (dest skb =? htons 53) || (dest skb =? htons 67) then allow
    else if (dest skb =? htons 80) || (dest skb =? htons 443)
    then hook_redirect k wd skb status ctinfo refs
    else HookOut NF_DROP status false refs None
  else if protocol skb =? IPPROTO_UDP then
    if (dest skb =? htons 53) || (dest skb =? htons 67) then allow
    else HookOut NF_DROP status false refs None
  else allow.

Definition wifidog_hook (k : kernel) (wd : wifidog_net) (skb : sk_buff) (ct : option (Z * Z))
  : hook_out :=
  let st0 := match ct with Some (s, _) => s | None => 0 end in
  let accept := HookOut NF_ACCEPT st0 false 0 None in
  if enabled wd =? 0 then accept
  else if negb (in_ifindex skb =? interface_ifindex wd) then accept
  else if (pkt_type skb =? PACKET_BROADCAST) || (pkt_type skb =? PACKET_MULTICAST) then accept
  else if Z.lor (daddr skb) (u32 (Z.lnot (interface_mask wd))) =? interface_broadcast wd then accept
  else
    match ct with
    | None => accept
    | Some (status, ctinfo) =>
        if negb (Z.land status IPS_ALLOWED =? 0) then accept
        else if negb (Z.land status IPS_HIJACKED =? 0) then
          let '(mac, refs) := is_allowed_mac k skb in
          HookOut NF_ACCEPT status (negb (mac =? 0)) refs None
        else if ctinfo =? IP_CT_NEW then
          let '(ip, refs) := is_allowed_dest_ip k skb in
          if negb (ip =? 0) then HookOut NF_ACCEPT (Z.lor status IPS_ALLOWED) false refs None
          else
            let '(mac, refs') := is_allowed_mac k skb in
            if negb (mac =? 0)
            then HookOut NF_ACCEPT (Z.lor status IPS_ALLOWED) false (refs + refs') None
            else hook_proto k wd skb status ctinfo (refs + refs')
        else hook_proto k wd skb status ctinfo 0
    end.

(** ** Namespace set-up *)

(** What the module has registered in the namespace. *)
Record wd_sys := WdSys { has_dir : bool; has_config : bool; has_hook : bool }.

Definition wd_net_init (mkdir_ok create_ok : bool) (hook_ret : Z) (wd : wifidog_net) (sys : wd_sys)
  : Z * wifidog_net * wd_sys :=
  let wd := WdNet (enabled wd) (bs "br-lan") (-1) (interface_ipaddr wd) (interface_mask wd)
                  (interface_broadcast wd) (htons 2060) (htons 8443) in
  if negb mkdir_ok then (- ENODEV, wd, sys)
  else
    let sys := WdSys true (has_config sys) (has_hook sys) in
    let remove sys := WdSys false (has_config sys) (has_hook sys) in
    if negb create_ok then (- EINVAL, wd, remove sys)
    else
      let sys := WdSys (has_dir sys) true (has_hook sys) in
      let remove_config sys := WdSys (has_dir sys) false (has_hook sys) in
      if hook_ret <? 0 then (hook_ret, wd, remove (remove_config sys))
      else (0, wd, WdSys (has_dir sys) (has_config sys) true).

Definition wd_net_exit (sys : wd_sys) : wd_sys :=
  let sys := WdSys (has_dir sys) false (has_hook sys) in
  let sys := WdSys false (has_config sys) (has_hook sys) in
  WdSys (has_dir sys) (has_config sys) false.

(** ** Specification *)

(** The configuration text for a list of assignments. *)
Definition render (kvs : list (bytes * bytes)) : bytes :=
  concat (map (fun kv => fst kv ++ 61 :: snd kv ++ [10]) kvs).

(** A pair the parser can separate again. *)
Definition good_pair (kv : bytes * bytes) : Prop :=
  61 ∉ fst kv /\ 10 ∉ snd kv /\ 0 ∉ fst kv /\ 0 ∉ snd kv /\ head (fst kv) <> Some 32.

#[global] Instance good_pair_dec kv : Decision (good_pair kv).
Proof. unfold good_pair. apply _. Defined.

Definition assign_all (k : kernel) (kvs : list (bytes * bytes)) (st : wifidog_net * bool)
  : wifidog_net * bool :=
  fold_left (fun st kv => config_assign k (fst kv) (snd kv) (fst st) (snd st)) kvs st.

(** The packets the portal looks at. *)
Definition intercepted (wd : wifidog_net) (skb : sk_buff) : bool :=
  negb (enabled wd =? 0) && (in_ifindex skb =? interface_ifindex wd)
  && negb ((pkt_type skb =? PACKET_BROADCAST) || (pkt_type skb =? PACKET_MULTICAST))
  && negb (Z.lor (daddr skb) (u32 (Z.lnot (interface_mask wd))) =? interface_broadcast wd).

Inductive action := Pass | Redirect (p : Z) | Block.

(** What the portal does with a new flow of an unknown client. *)
Definition policy (wd : wifidog_net) (skb : sk_buff) : action :=
  let svc := (dest skb =? htons 53) || (dest skb =? htons 67) in
  if protocol skb =? IPPROTO_TCP then
    if svc then Pass
    else if dest skb =? htons 80 then Redirect (port wd)
    else if dest skb =? htons 443 then Redirect (ssl_port wd)
    else Block
  else if protocol skb =? IPPROTO_UDP then (if svc then Pass else Block)
  else Pass.

Definition allowed (status : Z) : bool := negb (Z.land status IPS_ALLOWED =? 0).
Definition hijacked (status : Z) : bool := negb (Z.land status IPS_HIJACKED =? 0).
Definition known (k : kernel) (skb : sk_buff) : bool :=
  negb (fst (is_allowed_mac k skb) =? 0) || negb (fst (is_allowed_dest_ip k skb) =? 0).

(** Documented behaviour of [nf_nat_setup_info]: of the status word it only
    sets bits of the kernel's own, which are below bit 17. *)
Definition nat_ok (k : kernel) : Prop :=
  forall status range i, 17 <= i ->
    Z.testbit (snd (nf_nat_setup_info k status range)) i = Z.testbit status i.

(** The packets of one connection: each is processed under the configuration
    and the sets of its moment, until the entry is killed. *)
Record arrival := Arrival { a_kernel : kernel; a_wd : wifidog_net; a_skb : sk_buff; a_info : Z }.

Fixpoint run_flow (ps : list arrival) (status : Z) : Z :=
  match ps with
  | [] => status
  | p :: ps =>
      let o := wifidog_hook (a_kernel p) (a_wd p) (a_skb p) (Some (status, a_info p)) in
      if ct_killed o then ct_status o else run_flow ps (ct_status o)
  end.

(** ** Configuration parser *)

Lemma update_gw_refs k wd : snd (update_gw_interface k wd) = 0.
Proof. unfold update_gw_interface. repeat split_match; done. Qed.

Lemma config_loop_total fuel k s wd u :
  (length s < fuel)%nat -> is_Some (config_loop fuel k (Some s) wd u).
Proof.
  revert s wd u. induction fuel as [|fuel IH]; intros s wd u Hf; [lia|]. cbn [config_loop].
  destruct s as [|c s]; [by eexists|].
  pose proof (skip_while_length (fun c => c =? 32) (c :: s)) as Hsk.
  destruct (cut 61 _) as [name [rest|]] eqn:E; [|by eexists].
  destruct (cut 10 rest) as [value delim] eqn:E2.
  destruct (config_assign k name value wd u) as [wd' u'].
  apply cut_rest_length in E. destruct delim as [d|].
  - apply IH. apply cut_rest_length in E2. lia.
  - destruct fuel; [cbn in *; lia|]. by eexists.
Qed.

Lemma config_loop_render kvs : forall fuel k wd u,
  Forall good_pair kvs -> (length (render kvs) < fuel)%nat ->
  config_loop fuel k (Some (render kvs)) wd u = Some (assign_all k kvs (wd, u)).
Proof.
  induction kvs as [|[n v] kvs IH]; intros fuel k wd u Hg Hf.
  { destruct fuel; [cbn in Hf; lia|done]. }
  destruct fuel as [|fuel]; [lia|].
  apply Forall_cons in Hg as [(Hn & Hv & _ & _ & Hsp) Hg]. cbn [fst snd] in *.
  assert (Hr : render ((n, v) :: kvs) = n ++ 61 :: v ++ 10 :: render kvs).
  { unfold render. cbn [map concat fst snd]. by rewrite <- !app_assoc, <- app_comm_cons, <- app_assoc. }
  assert (Hs : skip_while (fun c => c =? 32) (render ((n, v) :: kvs)) = render ((n, v) :: kvs)).
  { rewrite Hr. destruct n as [|c n]; [done|]. apply skip_while_none.
    apply Z.eqb_neq. intros ->. by apply Hsp. }
  destruct (render ((n, v) :: kvs)) as [|c s] eqn:Hc; [by destruct n|].
  cbn [config_loop]. rewrite Hs. rewrite Hr in *.
  rewrite cut_delim by done. rewrite cut_delim by done.
  change (assign_all k ((n, v) :: kvs) (wd, u)) with (assign_all k kvs (config_assign k n v wd u)).
  destruct (config_assign k n v wd u) as [wd' u'] eqn:E.
  apply IH; [done|]. rewrite !length_app in Hf. cbn [length] in Hf.
  rewrite length_app in Hf. cbn [length] in Hf. lia.
Qed.

(** ** The hook *)

Lemma set_test_refs k name skb : snd (wd_ip_set_test k name skb) = 0.
Proof. unfold wd_ip_set_test. by split_match. Qed.

Lemma allowed_lor status : allowed (Z.lor status IPS_ALLOWED) = true.
Proof.
  unfold allowed. apply negb_true_iff, Z.eqb_neq. intros H.
  apply (f_equal (fun z => Z.testbit z 30)) in H.
  rewrite Z.land_spec, Z.lor_spec in H. change (Z.testbit IPS_ALLOWED 30) with true in H.
  by rewrite orb_true_r in H.
Qed.

Lemma IPS_ALLOWED_bits i : 0 <= i -> Z.testbit IPS_ALLOWED i = (i =? 30).
Proof. intros. change IPS_ALLOWED with (2 ^ 30). rewrite Z.pow2_bits_eqb by lia. apply Z.eqb_sym. Qed.

Lemma IPS_HIJACKED_bits i :
  0 <= i -> Z.testbit IPS_HIJACKED i = (31 <=? i) && (i <? 64).
Proof.
  intros Hi. change IPS_HIJACKED with (Z.shiftl (Z.ones 33) 31).
  rewrite Z.shiftl_spec by lia. zbool; cbn [andb];
    first [apply Z.ones_spec_low; lia | apply Z.ones_spec_high; lia | apply Z.testbit_neg_r; lia].
Qed.

Lemma allowed_testbit status : allowed status = Z.testbit status 30.
Proof.
  unfold allowed. destruct (Z.testbit status 30) eqn:E.
  - apply negb_true_iff, Z.eqb_neq. intros H.
    apply (f_equal (fun z => Z.testbit z 30)) in H.
    by rewrite Z.land_spec, IPS_ALLOWED_bits, E in H by lia.
  - apply negb_false_iff, Z.eqb_eq, land_zero_testbit. intros i Hi.
    rewrite IPS_ALLOWED_bits by done. destruct (Z.eqb_spec i 30) as [->|]; [by rewrite E|apply andb_false_r].
Qed.

(** The flow is hijacked exactly when one of the sign-extension bits is set. *)
Lemma hijacked_false status :
  hijacked status = false <-> (forall i, 31 <= i < 64 -> Z.testbit status i = false).
Proof.
  unfold hijacked. rewrite negb_false_iff, Z.eqb_eq, land_zero_testbit. split.
  - intros H i Hi. specialize (H i ltac:(lia)). rewrite IPS_HIJACKED_bits in H by lia.
    destruct (Z.leb_spec 31 i), (Z.ltb_spec i 64); try lia. by rewrite andb_true_r in H.
  - intros H i Hi. rewrite IPS_HIJACKED_bits by lia.
    destruct (Z.leb_spec 31 i), (Z.ltb_spec i 64); cbn; rewrite ?andb_false_r; try done.
    by rewrite H by lia.
Qed.

Lemma hijacked_lor status : hijacked (Z.lor status IPS_HIJACKED) = true.
Proof.
  destruct (hijacked _) eqn:E; [done|]. rewrite hijacked_false in E.
  specialize (E 31 ltac:(lia)). rewrite Z.lor_spec in E.
  change (Z.testbit IPS_HIJACKED 31) with true in E. by rewrite orb_true_r in E.
Qed.

Lemma hijacked_ext s s' :
  (forall i, 17 <= i -> Z.testbit s i = Z.testbit s' i) -> hijacked s = hijacked s'.
Proof.
  intros H. destruct (hijacked s') eqn:E'.
  - destruct (hijacked s) eqn:E; [done|]. rewrite <- E'. symmetry.
    rewrite hijacked_false in *. intros i Hi. rewrite <- H by lia. auto.
  - rewrite hijacked_false in *. intros i Hi. rewrite H by lia. auto.
Qed.

Lemma hijacked_lor_allowed s : hijacked (Z.lor s IPS_ALLOWED) = hijacked s.
Proof.
  destruct (hijacked s) eqn:E.
  - destruct (hijacked (Z.lor s IPS_ALLOWED)) eqn:E'; [done|]. rewrite <- E. symmetry.
    rewrite hijacked_false in *. intros i Hi. specialize (E' i Hi).
    rewrite Z.lor_spec in E'. by apply orb_false_iff in E' as [-> _].
  - rewrite hijacked_false in *. intros i Hi. rewrite Z.lor_spec, IPS_ALLOWED_bits by lia.
    rewrite E by lia. cbn. apply Z.eqb_neq. lia.
Qed.

Lemma allowed_lor_hijacked s : allowed (Z.lor s IPS_HIJACKED) = allowed s.
Proof. rewrite !allowed_testbit, Z.lor_spec, IPS_HIJACKED_bits by lia. apply orb_false_r. Qed.

(** The unmarked packets the hook looks at reach the set tests, then the
    protocol switch. *)
Lemma hook_unmarked k wd skb status ctinfo :
  intercepted wd skb = true -> allowed status = false -> hijacked status = false ->
  wifidog_hook k wd skb (Some (status, ctinfo)) =
    if (ctinfo =? IP_CT_NEW) && known k skb
    then HookOut NF_ACCEPT (Z.lor status IPS_ALLOWED) false 0 None
    else hook_proto k wd skb status ctinfo 0.
Proof.
  unfold intercepted, allowed, hijacked, known, wifidog_hook. intros Hi Ha Hh. zprop.
  rewrite Ha, Hh. repeat match goal with H : ?b = _ |- context [if negb ?b then _ else _] => rewrite H end.
  repeat match goal with H : _ |- _ => rewrite (proj2 (Z.eqb_neq _ _) H) || rewrite (proj2 (Z.eqb_eq _ _) H) end.
  cbn [negb]. 
  repeat match goal with H : ?b = false |- context [if ?b then _ else _] => rewrite H end.
  unfold is_allowed_mac, is_allowed_dest_ip.
  pose proof (set_test_refs k (bs "wifidog-ng-mac") skb) as Hm.
  pose proof (set_test_refs k (bs "wifidog-ng-ip") skb) as Hp.
  destruct (wd_ip_set_test k (bs "wifidog-ng-mac") skb) as [mac r1].
  destruct (wd_ip_set_test k (bs "wifidog-ng-ip") skb) as [ip r2].
  cbn [fst snd] in *. subst. 
  destruct (ctinfo =? IP_CT_NEW); cbn [andb]; [|done].
  destruct (ip =? 0), (mac =? 0); done.
Qed.

(** The marks after a hook run, against the marks before it. *)
Definition marks_ok (icpt : bool) (status : Z) (o : hook_out) : Prop :=
  (allowed status = true -> ct_status o = status /\ verdict o = NF_ACCEPT) /\
  (allowed (ct_status o) && hijacked (ct_status o) = true ->
   allowed status && hijacked status = true) /\
  (icpt = true -> verdict o = NF_ACCEPT -> allowed (ct_status o) || hijacked (ct_status o) = true).

Lemma hook_proto_cases k wd skb status ctinfo refs :
  let o := hook_proto k wd skb status ctinfo refs in
  o = HookOut NF_ACCEPT (Z.lor status IPS_ALLOWED) false refs None \/
  o = HookOut NF_DROP status false refs None \/
  o = wd_nat_setup_info k wd skb status refs.
Proof. unfold hook_proto, hook_redirect. cbn zeta. repeat split_match; eauto. Qed.

Lemma nat_marks k wd skb status refs :
  nat_ok k -> allowed status = false ->
  let o := wd_nat_setup_info k wd skb status refs in
  allowed (ct_status o) = false /\ hijacked (ct_status o) = true.
Proof.
  intros Hk Ha. unfold wd_nat_setup_info. cbn zeta.
  destruct (nf_nat_setup_info k _ _) as [v s'] eqn:E. cbn [ct_status].
  pose proof (Hk (Z.lor status IPS_HIJACKED)
    (NatRange (interface_ipaddr wd) (if dest skb =? htons 80 then port wd else ssl_port wd))) as Hb.
  rewrite E in Hb. cbn [snd] in Hb. split.
  - by rewrite allowed_testbit, Hb, <- allowed_testbit, allowed_lor_hijacked by lia.
  - rewrite (hijacked_ext s' _ Hb). apply hijacked_lor.
Qed.

Lemma hook_marks k wd skb status ctinfo :
  nat_ok k ->
  marks_ok (intercepted wd skb) status (wifidog_hook k wd skb (Some (status, ctinfo))).
Proof.
  intros Hk. unfold marks_ok. destruct (intercepted wd skb) eqn:Hi.
  2:{ replace (wifidog_hook k wd skb (Some (status, ctinfo)))
        with (HookOut NF_ACCEPT status false 0 None); [done|].
      revert Hi. unfold intercepted, wifidog_hook.
      destruct (enabled wd =? 0); [done|].
      destruct (in_ifindex skb =? interface_ifindex wd); [|done].
      destruct (_ || _); [done|]. by destruct (_ =? interface_broadcast wd). }
  destruct (allowed status) eqn:Ha; [|destruct (hijacked status) eqn:Hh].
  - replace (wifidog_hook k wd skb (Some (status, ctinfo)))
      with (HookOut NF_ACCEPT status false 0 None); [cbn; by rewrite Ha|].
    revert Ha. unfold allowed, wifidog_hook. intros ->. by repeat split_match.
  - replace (ct_status (wifidog_hook k wd skb (Some (status, ctinfo)))) with status;
      [by rewrite Ha, Hh|].
    revert Ha Hh. unfold allowed, hijacked, wifidog_hook. intros -> ->.
    destruct (is_allowed_mac k skb). by repeat split_match.
  - rewrite hook_unmarked by done. destruct (_ && known k skb).
    { cbn. by rewrite allowed_lor, hijacked_lor_allowed, Hh. }
    destruct (hook_proto_cases k wd skb status ctinfo 0) as [->|[->| ->]].
    + cbn. by rewrite allowed_lor, hijacked_lor_allowed, Hh.
    + cbn. by rewrite Ha, Hh.
    + destruct (nat_marks k wd skb status 0 Hk Ha) as [-> ->]. done.
Qed.

(** ** Theorems *)

(** Writing the text of any list of [key=value] assignments that fits the
    128-byte buffer applies exactly those assignments in order, refreshes the
    gateway interface when one of them asks for it, reports all bytes as
    written and keeps no device reference. *)
Theorem config_write_assigns k kvs wd :
  Forall good_pair kvs -> kvs <> [] -> zlen (render kvs) <= 128 ->
  proc_config_write k (render kvs) true wd =
    let '(wd', update) := assign_all k kvs (wd, false) in
    Some (zlen (render kvs), if update : bool then snd (fst (update_gw_interface k wd')) else wd', 0).
Proof.
  intros Hg Hne Hlen. unfold proc_config_write.
  assert (Hpos : 0 < zlen (render kvs)).
  { destruct kvs as [|[n v] kvs]; [done|]. unfold render. cbn [map concat fst snd].
    autorewrite with zlen. pose proof (zlen_nonneg n). pose proof (zlen_nonneg v).
    pose proof (zlen_nonneg (concat (map (fun kv : bytes * bytes => kv.1 ++ 61 :: kv.2 ++ [10]) kvs))).
    lia. }
  rewrite (proj2 (Z.eqb_neq _ _)) by lia. rewrite (proj2 (Z.ltb_ge _ _)) by lia. cbn [negb].
  assert (Hcut : cut 0 (ztake (zlen (render kvs)) (render kvs)) = (render kvs, None)).
  { rewrite <- (app_nil_r (render kvs)) at 2. rewrite ztake_app by done. apply cut_no_delim.
    clear -Hg. induction Hg as [|[n v] kvs (_ & _ & Hn & Hv & _) _ IH]; [by apply not_elem_of_nil|].
    unfold render in *. cbn [map concat fst snd] in *.
    rewrite !elem_of_app, elem_of_cons, elem_of_app, list_elem_of_singleton. naive_solver. }
  rewrite Hcut. cbn [fst]. rewrite config_loop_render; [|done|unfold zlen in *; lia].
  destruct (assign_all k kvs (wd, false)) as [wd' []]; [|done].
  pose proof (update_gw_refs k wd') as Hr.
  destruct (update_gw_interface k wd') as [[? ?] ?]. cbn in *. by subst.
Qed.

Definition ex_kernel : kernel := Kernel
  (fun n => if bool_decide (n = bs "br-guest") then Some 7 else None)
  (fun _ => Some [IfAddr 0x0109A8C0 0x00FFFFFF 0xFF09A8C0])
  (fun v => num_val (strtol 0 v))
  (fun n => if bool_decide (n = bs "wifidog-ng-mac") then Some 1 else None)
  (fun _ skb => if saddr skb =? 5 then 1 else 0)
  (fun status _ => (NF_ACCEPT, Z.lor status (2 ^ 5 + 2 ^ 8))).
Definition ex_wd0 : wifidog_net := WdNet 0 (bs "br-lan") (-1) 0 0 0 (htons 2060) (htons 8443).
Definition ex_wd1 : wifidog_net :=
  WdNet 1 (bs "br-guest") 7 0x0109A8C0 0x00FFFFFF 0xFF09A8C0 (htons 2062) (htons 8443).
Definition ex_kvs : list (bytes * bytes) :=
  [(bs "enabled", bs "1"); (bs "interface", bs "br-guest"); (bs "port", bs "2062")].

Lemma config_write_assigns_witness :
  proc_config_write ex_kernel (render ex_kvs) true ex_wd0 = Some (39, ex_wd1, 0).
Proof.
  rewrite config_write_assigns.
  - vm_compute. reflexivity.
  - apply (bool_decide_unpack _). vm_compute. exact I.
  - discriminate.
  - vm_compute. discriminate.
Defined.

(** A write to the configuration file always terminates, never keeps a
    device reference, and changes the configuration only when it reports
    success; the reported size is at most 128. *)
Theorem config_write_total k buf copy_ok wd :
  exists ret wd', proc_config_write k buf copy_ok wd = Some (ret, wd', 0) /\
    ret <= 128 /\ (ret < 0 -> wd' = wd).
Proof.
  unfold proc_config_write. pose proof (zlen_nonneg buf).
  destruct (zlen buf =? 0) eqn:E0; [do 2 eexists; split_and!; [done|unfold EINVAL; lia|done]|].
  destruct copy_ok; cbn [negb]; [|do 2 eexists; split_and!; [done|unfold EFAULT; lia|done]].
  set (size := if 128 <? zlen buf then 128 else zlen buf). zprop.
  assert (Hsz : 0 < size <= 128) by (subst size; zbool; lia).
  destruct (config_loop_total 129 k (fst (cut 0 (ztake size buf))) wd false) as [[wd' u] Hl].
  { destruct (cut 0 (ztake size buf)) as [p r] eqn:E. cbn [fst]. apply cut_spec in E as [_ E].
    apply (f_equal length) in E. unfold ztake in E. rewrite length_app, length_take in E. lia. }
  rewrite Hl. pose proof (update_gw_refs k wd') as Hr. destruct u.
  - destruct (update_gw_interface k wd') as [[? ?] ?]. cbn in Hr. subst.
    do 2 eexists; split_and!; [done|lia|lia].
  - do 2 eexists; split_and!; [done|lia|lia].
Qed.

(** C18. The portal's policy: a new flow of an unknown client to a foreign
    unicast address is let through and marked allowed when it is DNS, DHCP or
    neither TCP nor UDP; an HTTP or HTTPS flow is handed to NAT towards the
    gateway's own address and the port configured for its scheme; anything
    else is dropped.  No ipset reference is kept. *)
Theorem hook_policy k wd skb status :
  intercepted wd skb = true -> allowed status = false -> hijacked status = false ->
  known k skb = false -> Z.land status IPS_DST_NAT_DONE = 0 ->
  wifidog_hook k wd skb (Some (status, IP_CT_NEW)) =
    match policy wd skb with
    | Pass => HookOut NF_ACCEPT (Z.lor status IPS_ALLOWED) false 0 None
    | Block => HookOut NF_DROP status false 0 None
    | Redirect p =>
        let r := NatRange (interface_ipaddr wd) p in
        let '(v, status') := nf_nat_setup_info k (Z.lor status IPS_HIJACKED) r in
        HookOut v status' false 0 (Some r)
    end.
Proof.
  intros Hi Ha Hh Hk Hd. rewrite hook_unmarked, Hk, andb_false_r by done.
  unfold hook_proto, policy, hook_redirect, wd_nat_setup_info. rewrite Hd. cbn [negb orb].
  destruct (protocol skb =? IPPROTO_TCP); [|by repeat split_match].
  destruct (_ || _); [done|].
  destruct (dest skb =? htons 80); [done|]. by destruct (dest skb =? htons 443).
Qed.

Definition ex_http : sk_buff := SkBuff 7 0 9 0x08080808 IPPROTO_TCP (htons 80).

Lemma hook_policy_witness :
  wifidog_hook ex_kernel ex_wd1 ex_http (Some (0, IP_CT_NEW)) =
    HookOut NF_ACCEPT (2 ^ 64 - 2 ^ 31 + 2 ^ 5 + 2 ^ 8) false 0
            (Some (NatRange 0x0109A8C0 (htons 2062))).
Proof. rewrite hook_policy; vm_compute; reflexivity. Defined.



(** Setting up a namespace is all or nothing: it either succeeds with the
    directory, the configuration file and the hook registered, or fails with
    none of them left; the hook of a fresh namespace accepts every packet. *)
Theorem net_init_all_or_nothing mkdir_ok create_ok hook_ret wd :
  let '(ret, wd', sys) := wd_net_init mkdir_ok create_ok hook_ret wd (WdSys false false false) in
  (ret = 0 /\ sys = WdSys true true true \/ ret < 0 /\ sys = WdSys false false false) /\
  wd_net_exit sys = WdSys false false false /\
  (forall k skb ct, enabled wd = 0 -> verdict (wifidog_hook k wd' skb ct) = NF_ACCEPT).
Proof.
  assert (Ha : forall i ip m b p sp k skb ct,
    verdict (wifidog_hook k (WdNet 0 (bs "br-lan") i ip m b p sp) skb ct) = NF_ACCEPT) by done.
  unfold wd_net_init. destruct mkdir_ok, create_ok; cbn [negb];
    [destruct (Z.ltb_spec hook_ret 0)|..]; (split_and!; [|done|intros ? ? ? ->; apply Ha]);
    ((left; by split) || (right; split; [unfold ENODEV, EINVAL; lia|done])).
Qed.
