(* ===== verification/MhiReg.v ===== *)
(** * MHI registers and ring element encodings

    Models the register accessors and doorbells of
    src/gl-feed/kernel/pcie_mhi/src/core/mhi_main.c (lines 23-217) and the
    element encodings of core/mhi_internal.h (lines 596-660).

    The device's registers are a store of 32-bit words: a write changes the
    word, a read returns it, and every write is logged in order.  Theorems
    quantify over the store, so that the device may have changed it in any way
    before the call.  [link_down] is the answer of the controller's
    [link_status] callback. *)

From S2P Require Import Prelude CLib.

Definition U32_MAX : Z := 2 ^ 32 - 1.

Record mmio := Mmio { regs : gmap Z Z; wlog : list (Z * Z); link_down : bool }.

Definition readl (m : mmio) (a : Z) : Z := default 0 (regs m !! a).
Definition writel (m : mmio) (v a : Z) : mmio :=
  Mmio (<[a := v]> (regs m)) (wlog m ++ [(a, v)]) (link_down m).

Definition PCI_INVALID_READ (v : Z) : bool := v =? U32_MAX.

Definition MISC_OFFSET : Z := 0x24.
Definition MISC_CAP_MASK : Z := 0xFFFFFFFF.
Definition MISC_CAP_SHIFT : Z := 0.
Definition CAP_CAPID_MASK : Z := 0xFF000000.
Definition CAP_CAPID_SHIFT : Z := 24.
Definition CAP_NEXT_CAP_MASK : Z := 0x00FFF000.
Definition CAP_NEXT_CAP_SHIFT : Z := 12.
Definition MHICTRL : Z := 0x38.
Definition MHICTRL_MHISTATE_MASK : Z := 0x0000FF00.
Definition MHICTRL_MHISTATE_SHIFT : Z := 8.
Definition MHICTRL_RESET_MASK : Z := 0x2.
Definition MHICTRL_RESET_SHIFT : Z := 1.
Definition MHISTATUS : Z := 0x48.
Definition MHISTATUS_MHISTATE_MASK : Z := 0x0000FF00.
Definition MHISTATUS_MHISTATE_SHIFT : Z := 8.
Definition BHI_EXECENV : Z := 0x28.
Definition MHI_EE_MAX : Z := 9.
Definition MHI_STATE_MAX : Z := 0x100.

(** ** Register access *)

Definition mhi_read_reg (m : mmio) (base offset : Z) : res Z :=
  let tmp := readl m (base + offset) in
  if PCI_INVALID_READ tmp && link_down m then Err (- EIO) else Ok tmp.

Definition mhi_read_reg_field (m : mmio) (base offset mask shift : Z) : res Z :=
  let? tmp := mhi_read_reg m base offset in
  Ok (Z.shiftr (Z.land tmp mask) shift).

Definition mhi_write_reg (m : mmio) (base offset val : Z) : mmio := writel m val (base + offset).

Definition mhi_write_reg_field (m : mmio) (base offset mask shift val : Z) : mmio :=
  match mhi_read_reg m base offset with
  | Err _ => m
  | Ok tmp =>
      let tmp := Z.land tmp (u32 (Z.lnot mask)) in
      let tmp := Z.lor tmp (u32 (Z.shiftl val shift)) in
      mhi_write_reg m base offset tmp
  end.

(** The [do ... while (next_offset)] walk over the capability list; [None]
    when the fuel is exhausted before the list ends. *)
Fixpoint cap_walk (fuel : nat) (m : mmio) (base capability offset : Z) : option (res Z) :=
  match fuel with
  | O => None
  | S fuel =>
      match mhi_read_reg_field m base offset CAP_CAPID_MASK CAP_CAPID_SHIFT with
      | Err e => Some (Err e)
      | Ok cur_cap =>
          if cur_cap =? capability then Some (Ok offset)
          else
            match mhi_read_reg_field m base offset CAP_NEXT_CAP_MASK CAP_NEXT_CAP_SHIFT with
            | Err e => Some (Err e)
            | Ok next_offset =>
                if next_offset =? 0 then Some (Err (- ENXIO))
                else cap_walk fuel m base capability (u32 (offset + next_offset))
            end
      end
  end.

Definition mhi_get_capability_offset (fuel : nat) (m : mmio) (base capability : Z)
  : option (res Z) :=
  match mhi_read_reg_field m base MISC_OFFSET MISC_CAP_MASK MISC_CAP_SHIFT with
  | Err e => Some (Err e)
  | Ok offset =>
      if 0x1000 <=? offset then Some (Err (- ENXIO)) else cap_walk fuel m base capability offset
  end.

Definition mhi_get_exec_env (m : mmio) (bhi : Z) : Z :=
  match mhi_read_reg m bhi BHI_EXECENV with Ok exec => exec | Err _ => MHI_EE_MAX end.

Definition mhi_get_mhi_state (m : mmio) (base : Z) : Z :=
  match mhi_read_reg_field m base MHISTATUS MHISTATUS_MHISTATE_MASK MHISTATUS_MHISTATE_SHIFT with
  | Ok state => state
  | Err _ => MHI_STATE_MAX
  end.

(** ** Doorbells *)

Definition upper_32_bits (x : Z) : Z := u32 (Z.shiftr x 32).
Definition lower_32_bits (x : Z) : Z := u32 x.

Definition mhi_write_db (m : mmio) (db_addr wp : Z) : mmio :=
  let m := mhi_write_reg m db_addr 4 (upper_32_bits wp) in
  mhi_write_reg m db_addr 0 (lower_32_bits wp).

(** [process_db] is [mhi_db_brstmode] or [mhi_db_brstmode_disable]. *)
Record db_cfg := DbCfg { db_mode : bool; db_val : Z; db_burst : bool }.

Definition mhi_db_brstmode (m : mmio) (c : db_cfg) (db_addr wp : Z) : mmio * db_cfg :=
  if db_mode c then (mhi_write_db m db_addr wp, DbCfg false wp (db_burst c)) else (m, c).

Definition mhi_db_brstmode_disable (m : mmio) (c : db_cfg) (db_addr wp : Z) : mmio * db_cfg :=
  (mhi_write_db m db_addr wp, DbCfg (db_mode c) wp (db_burst c)).

Definition process_db (m : mmio) (c : db_cfg) (db_addr wp : Z) : mmio * db_cfg :=
  if db_burst c then mhi_db_brstmode m c db_addr wp else mhi_db_brstmode_disable m c db_addr wp.

(** ** Ring elements *)

Record mhi_tre := Tre { tre_ptr : Z; dword0 : Z; dword1 : Z }.

#[global] Instance mhi_tre_eq_dec : EqDecision mhi_tre.
Proof. solve_decision. Defined.

Definition MHI_CMD_TYPE_NOP : Z := 1.
Definition MHI_CMD_TYPE_RESET : Z := 16.
Definition MHI_CMD_TYPE_STOP : Z := 17.
Definition MHI_CMD_TYPE_START : Z := 18.
Definition MHI_CMD_TYPE_TSYNC : Z := 24.
Definition MHI_PKT_TYPE_COALESCING : Z := 8.
Definition MHI_PKT_TYPE_STATE_CHANGE_EVENT : Z := 0x20.
Definition MHI_PKT_TYPE_CMD_COMPLETION_EVENT : Z := 0x21.
Definition MHI_PKT_TYPE_TX_EVENT : Z := 0x22.
Definition MHI_PKT_TYPE_RSC_TX_EVENT : Z := 0x28.
Definition MHI_PKT_TYPE_EE_EVENT : Z := 0x40.
Definition MHI_PKT_TYPE_TSYNC_EVENT : Z := 0x48.
Definition MHI_PKT_TYPE_STALE_EVENT : Z := 0x49.
Definition MHI_MAX_MTU : Z := 0xffff.

(** The command elements of reset, stop, start and time-sync: [id] is the
    channel, or the event ring for time-sync. *)
Definition MHI_TRE_CMD_DWORD1 (id type : Z) : Z :=
  Z.lor (u32 (Z.shiftl id 24)) (u32 (Z.shiftl type 16)).
Definition cmd_tre (id type : Z) : mhi_tre := Tre 0 0 (MHI_TRE_CMD_DWORD1 id type).

Definition MHI_TRE_GET_CMD_CHID (t : mhi_tre) : Z := Z.land (Z.shiftr (dword1 t) 24) 0xFF.
Definition MHI_TRE_GET_CMD_TYPE (t : mhi_tre) : Z := Z.land (Z.shiftr (dword1 t) 16) 0xFF.

Definition MHI_TRE_EV_DWORD0 (code len : Z) : Z := Z.lor (u32 (Z.shiftl code 24)) len.
Definition MHI_TRE_EV_DWORD1 (chid type : Z) : Z :=
  Z.lor (u32 (Z.shiftl chid 24)) (u32 (Z.shiftl type 16)).
Definition MHI_TRE_GET_EV_PTR (t : mhi_tre) : Z := tre_ptr t.
Definition MHI_TRE_GET_EV_CODE (t : mhi_tre) : Z := Z.land (Z.shiftr (dword0 t) 24) 0xFF.
Definition MHI_TRE_GET_EV_LEN (t : mhi_tre) : Z := Z.land (dword0 t) 0xFFFF.
Definition MHI_TRE_GET_EV_CHID (t : mhi_tre) : Z := Z.land (Z.shiftr (dword1 t) 24) 0xFF.
Definition MHI_TRE_GET_EV_TYPE (t : mhi_tre) : Z := Z.land (Z.shiftr (dword1 t) 16) 0xFF.
Definition MHI_TRE_GET_EV_STATE (t : mhi_tre) : Z := Z.land (Z.shiftr (dword0 t) 24) 0xFF.
Definition MHI_TRE_GET_EV_EXECENV (t : mhi_tre) : Z := Z.land (Z.shiftr (dword0 t) 24) 0xFF.
Definition MHI_TRE_GET_EV_COOKIE (t : mhi_tre) : Z := lower_32_bits (tre_ptr t).

Definition MHI_TRE_DATA_DWORD0 (len : Z) : Z := Z.land len MHI_MAX_MTU.
Definition MHI_TRE_DATA_DWORD1 (bei ieot ieob chain : bool) : Z :=
  Z.lor (Z.lor (Z.lor (Z.lor (Z.shiftl 2 16) (Z.shiftl (Z.b2z bei) 10))
                      (Z.shiftl (Z.b2z ieot) 9)) (Z.shiftl (Z.b2z ieob) 8)) (Z.b2z chain).

Definition MHI_RSCTRE_DATA_PTR (ptr len : Z) : Z := Z.lor (u64 (Z.shiftl len 48)) ptr.
Definition MHI_RSCTRE_DATA_DWORD0 (cookie : Z) : Z := cookie.
Definition MHI_RSCTRE_DATA_DWORD1 : Z := Z.shiftl MHI_PKT_TYPE_COALESCING 16.

(** ** Lemmas *)

(** Reading a field of [w] bits at [s] out of a word whose bits there are
    those of [v]. *)
Lemma field_read x v s w :
  0 <= s -> 0 <= w -> in_u w v ->
  (forall i, 0 <= i < w -> Z.testbit x (i + s) = Z.testbit v i) ->
  Z.shiftr (Z.land x (field_mask s w)) s = v.
Proof.
  intros Hs Hw Hv H. apply Z.bits_inj'. intros i Hi.
  rewrite Z.shiftr_spec, Z.land_spec, field_mask_testbit by lia.
  destruct (Z.ltb_spec i w).
  - rewrite H by lia. destruct (Z.leb_spec s (i + s)), (Z.ltb_spec (i + s) (s + w)); try lia.
    apply andb_true_r.
  - rewrite (in_u_testbit w v i) by (done || lia).
    destruct (Z.ltb_spec (i + s) (s + w)); [lia|]. by rewrite !andb_false_r.
Qed.

(** The same for the accessors that shift before masking. *)
Lemma field_get x v s w :
  0 <= s -> 0 <= w -> in_u w v ->
  (forall i, 0 <= i < w -> Z.testbit x (i + s) = Z.testbit v i) ->
  Z.land (Z.shiftr x s) (Z.ones w) = v.
Proof.
  intros Hs Hw Hv H. rewrite <- (field_read x v s w) by done.
  apply Z.bits_inj'. intros i Hi.
  rewrite Z.land_spec, !Z.shiftr_spec, Z.land_spec, field_mask_testbit by lia.
  f_equal. destruct (Z.ltb_spec i w).
  - rewrite Z.ones_spec_low by lia. zbool; (done || lia).
  - rewrite Z.ones_spec_high by lia. zbool; (done || lia).
Qed.

(** The bits of a word that is put together from shifted parts. *)
Lemma shl_testbit w x s i :
  0 <= w -> 0 <= i -> Z.testbit (wrap w (Z.shiftl x s)) i = (i <? w) && Z.testbit x (i - s).
Proof. intros. by rewrite wrap_testbit, Z.shiftl_spec by lia. Qed.

Lemma read_reg_up m base offset :
  link_down m = false -> mhi_read_reg m base offset = Ok (readl m (base + offset)).
Proof. intros H. unfold mhi_read_reg. by rewrite H, andb_false_r. Qed.

Lemma readl_writel m v a b : readl (writel m v a) b = if b =? a then v else readl m b.
Proof.
  unfold readl, writel. cbn. destruct (Z.eqb_spec b a) as [->|].
  - by rewrite lookup_insert_eq.
  - by rewrite lookup_insert_ne by done.
Qed.

(** The word [mhi_write_reg_field] leaves, bit by bit. *)
Lemma field_word_testbit tmp s w v i :
  0 <= s -> 0 <= w -> s + w <= 32 -> in_u w v -> 0 <= i ->
  Z.testbit (Z.lor (Z.land tmp (u32 (Z.lnot (field_mask s w)))) (u32 (Z.shiftl v s))) i =
  (i <? 32) && (if (s <=? i) && (i <? s + w) then Z.testbit v (i - s) else Z.testbit tmp i).
Proof.
  intros Hs Hw Hsw Hv Hi.
  rewrite Z.lor_spec, Z.land_spec, shl_testbit, wrap_testbit, Z.lnot_spec, field_mask_testbit by lia.
  destruct (Z.ltb_spec i 32); cbn [andb]; [|by rewrite andb_false_r].
  destruct (Z.leb_spec s i), (Z.ltb_spec i (s + w)); cbn [andb negb];
    rewrite ?andb_false_r, ?andb_true_r; cbn [orb]; try done;
    first [rewrite (in_u_testbit w v) by (done || lia) | rewrite (Z.testbit_neg_r v) by lia];
    apply orb_false_r.
Qed.

(** ** Theorems *)

(** Register fields: with the link up, writing a value that fits a field
    and reading the field back gives the value; every field of the register
    that does not overlap it, and every other register, reads as before. *)
Theorem reg_field_roundtrip m base offset s w v :
  link_down m = false -> 0 <= s -> 0 <= w -> s + w <= 32 -> in_u w v ->
  in_u 32 (readl m (base + offset)) ->
  let m' := mhi_write_reg_field m base offset (field_mask s w) s v in
  mhi_read_reg_field m' base offset (field_mask s w) s = Ok v /\
  (forall s' w', 0 <= s' -> 0 <= w' -> s' + w' <= s \/ s + w <= s' ->
     mhi_read_reg_field m' base offset (field_mask s' w') s' =
     mhi_read_reg_field m base offset (field_mask s' w') s') /\
  (forall offset', offset' <> offset -> readl m' (base + offset') = readl m (base + offset')).
Proof.
  intros Hl Hs Hw Hsw Hv Hr m'.
  set (tmp := readl m (base + offset)) in *.
  set (word := Z.lor (Z.land tmp (u32 (Z.lnot (field_mask s w)))) (u32 (Z.shiftl v s))).
  assert (Hm : m' = writel m word (base + offset)).
  { subst m'. unfold mhi_write_reg_field, mhi_write_reg. by rewrite read_reg_up. }
  assert (Hrd : forall s' w', mhi_read_reg_field m' base offset (field_mask s' w') s' =
                              Ok (Z.shiftr (Z.land word (field_mask s' w')) s')).
  { intros. rewrite Hm. unfold mhi_read_reg_field. rewrite read_reg_up by done. cbn.
    by rewrite readl_writel, Z.eqb_refl. }
  split_and!.
  - rewrite Hrd. f_equal. apply field_read; try done. intros i Hi. subst word.
    rewrite field_word_testbit by (done || lia). replace (i + s - s) with i by lia.
    zbool; (done || lia).
  - intros s' w' Hs' Hw' Hd. rewrite Hrd. unfold mhi_read_reg_field.
    rewrite read_reg_up by done. cbn [res_bind]. fold tmp. do 2 f_equal.
    apply Z.bits_inj'. intros i Hi. rewrite !Z.land_spec, field_mask_testbit by lia.
    destruct (Z.leb_spec s' i), (Z.ltb_spec i (s' + w')); cbn [andb]; rewrite ?andb_false_r; try done.
    rewrite !andb_true_r. subst word. rewrite field_word_testbit by (done || lia).
    destruct (Z.ltb_spec i 32); cbn [andb].
    + zbool; cbn [andb]; (done || lia).
    + symmetry. by apply (in_u_testbit 32); [lia|].
  - intros o Ho. rewrite Hm, readl_writel. destruct (Z.eqb_spec (base + o) (base + offset)); [lia|done].
Qed.

(** Requesting state M3 and reading the reset bit of the control register. *)
Lemma reg_field_roundtrip_witness :
  let m := Mmio {[ MHICTRL := 0x0202 ]} [] false in
  let m' := mhi_write_reg_field m 0 MHICTRL (field_mask 8 8) 8 5 in
  mhi_read_reg_field m' 0 MHICTRL MHICTRL_MHISTATE_MASK MHICTRL_MHISTATE_SHIFT = Ok 5 /\
  mhi_read_reg_field m' 0 MHICTRL MHICTRL_RESET_MASK MHICTRL_RESET_SHIFT = Ok 1.
Proof.
  destruct (reg_field_roundtrip (Mmio {[ MHICTRL := 0x0202 ]} [] false) 0 MHICTRL 8 8 5)
    as (H1 & H2 & _); [reflexivity|lia|lia|lia|in_u| |].
  { apply (bool_decide_unpack _). vm_compute. exact I. }
  split; [exact H1|]. specialize (H2 1 1 ltac:(lia) ltac:(lia) ltac:(lia)).
  change MHICTRL_RESET_MASK with (field_mask 1 1). change MHICTRL_RESET_SHIFT with 1.
  rewrite H2. vm_compute. reflexivity.
Defined.

(** The type byte of an event's or command's second word. *)
Lemma dword1_type chid type :
  in_u 8 type -> Z.land (Z.shiftr (MHI_TRE_EV_DWORD1 chid type) 16) 0xFF = type.
Proof.
  intros Hty. change 0xFF with (Z.ones 8). apply field_get; [lia|lia|done|]. intros i Hi.
  unfold MHI_TRE_EV_DWORD1. rewrite Z.lor_spec, !shl_testbit by lia.
  rewrite (Z.testbit_neg_r chid) by lia.
  replace (i + 16 - 16) with i by lia. zbool; [done|lia].
Qed.

(** Ring elements: the channel and the type of a command or event
    element, and the code and the length of an event, are read back from the
    words they were packed into; a transfer element carries the length modulo
    64 KiB and each flag in its own bit. *)
Theorem tre_roundtrip ptr chid type code len :
  in_u 8 chid -> in_u 8 type -> in_u 8 code -> in_u 16 len ->
  let cmd := cmd_tre chid type in
  let ev := Tre ptr (MHI_TRE_EV_DWORD0 code len) (MHI_TRE_EV_DWORD1 chid type) in
  MHI_TRE_GET_CMD_CHID cmd = chid /\ MHI_TRE_GET_CMD_TYPE cmd = type /\
  MHI_TRE_GET_EV_CHID ev = chid /\ MHI_TRE_GET_EV_TYPE ev = type /\
  MHI_TRE_GET_EV_CODE ev = code /\ MHI_TRE_GET_EV_LEN ev = len /\
  MHI_TRE_GET_EV_LEN (Tre ptr (MHI_TRE_DATA_DWORD0 len) 0) = len.
Proof.
  intros Hch Hty Hco Hle cmd ev.
  assert (H1 : forall i, 0 <= i < 8 -> Z.testbit (MHI_TRE_EV_DWORD1 chid type) (i + 24) = Z.testbit chid i).
  { intros i Hi. unfold MHI_TRE_EV_DWORD1. rewrite Z.lor_spec, !shl_testbit by lia.
    rewrite (in_u_testbit 8 type (i + 24 - 16)) by (done || lia).
    replace (i + 24 - 24) with i by lia. zbool; [|lia]. by rewrite orb_false_r. }
  assert (H3 : forall i, 0 <= i < 8 -> Z.testbit (MHI_TRE_EV_DWORD0 code len) (i + 24) = Z.testbit code i).
  { intros i Hi. unfold MHI_TRE_EV_DWORD0. rewrite Z.lor_spec, shl_testbit by lia.
    rewrite (in_u_testbit 16 len) by (done || lia).
    replace (i + 24 - 24) with i by lia. zbool; [|lia]. by rewrite orb_false_r. }
  assert (H4 : forall i, 0 <= i < 16 -> Z.testbit (MHI_TRE_EV_DWORD0 code len) (i + 0) = Z.testbit len i).
  { intros i Hi. unfold MHI_TRE_EV_DWORD0. rewrite Z.lor_spec, shl_testbit by lia.
    rewrite (Z.testbit_neg_r code) by lia. replace (i + 0) with i by lia. by rewrite andb_false_r. }
  pose proof (field_get _ chid 24 8 ltac:(lia) ltac:(lia) Hch H1) as G1.
  pose proof (dword1_type chid type Hty) as G2.
  pose proof (field_get _ code 24 8 ltac:(lia) ltac:(lia) Hco H3) as G3.
  change (Z.ones 8) with 0xFF in *. change (Z.ones 16) with 0xFFFF in *.
  split_and!; [exact G1|exact G2|exact G1|exact G2|exact G3| |].
  - rewrite <- (field_get _ len 0 16 ltac:(lia) ltac:(lia) Hle H4). by rewrite Z.shiftr_0_r.
  - unfold MHI_TRE_GET_EV_LEN, MHI_TRE_DATA_DWORD0, MHI_MAX_MTU. cbn [dword0].
    rewrite <- Z.land_assoc, Z.land_diag. change 0xffff with (Z.ones 16).
    rewrite Z.land_ones by lia. by apply (wrap_small 16).
Qed.

Lemma tre_roundtrip_witness : MHI_TRE_GET_CMD_TYPE (cmd_tre 100 MHI_CMD_TYPE_START) = 18.
Proof.
  apply (tre_roundtrip 0 100 MHI_CMD_TYPE_START 2 1500); apply (bool_decide_unpack _); vm_compute; exact I.
Defined.

(** The capability list a device publishes from [offset] on: identifiers and
    the distances to the next entry, the last of which is 0. *)
Fixpoint caps_at (m : mmio) (base offset : Z) (caps : list (Z * Z)) : Prop :=
  match caps with
  | [] => False
  | (id, next) :: rest =>
      mhi_read_reg_field m base offset CAP_CAPID_MASK CAP_CAPID_SHIFT = Ok id /\
      mhi_read_reg_field m base offset CAP_NEXT_CAP_MASK CAP_NEXT_CAP_SHIFT = Ok next /\
      match rest with
      | [] => next = 0
      | _ => next <> 0 /\ caps_at m base (u32 (offset + next)) rest
      end
  end.

(** Offset of the first entry with the identifier. *)
Fixpoint find_cap (caps : list (Z * Z)) (capability offset : Z) : option Z :=
  match caps with
  | [] => None
  | (id, next) :: rest =>
      if id =? capability then Some offset else find_cap rest capability (u32 (offset + next))
  end.

Lemma cap_walk_list m base capability caps : forall offset,
  caps_at m base offset caps ->
  cap_walk (length caps) m base capability offset =
    Some (match find_cap caps capability offset with Some o => Ok o | None => Err (- ENXIO) end).
Proof.
  induction caps as [|[id next] rest IH]; intros offset H; [done|].
  cbn [caps_at length cap_walk find_cap] in *. destruct H as (-> & -> & H).
  destruct (id =? capability); [done|]. destruct rest as [|c rest].
  - subst. done.
  - destruct H as [Hn H]. rewrite (proj2 (Z.eqb_neq _ _) Hn). by apply IH.
Qed.

(** The search for a capability visits each entry of the list once: it
    answers with the offset of the first entry that has the identifier and
    with [-ENXIO] when no entry has it, in as many steps as there are
    entries. *)
Theorem capability_search m base capability offset caps :
  mhi_read_reg_field m base MISC_OFFSET MISC_CAP_MASK MISC_CAP_SHIFT = Ok offset ->
  offset < 0x1000 -> caps_at m base offset caps ->
  mhi_get_capability_offset (length caps) m base capability =
    Some (match find_cap caps capability offset with Some o => Ok o | None => Err (- ENXIO) end).
Proof.
  intros Hm Ho Hc. unfold mhi_get_capability_offset. rewrite Hm.
  rewrite (proj2 (Z.leb_gt _ _)) by lia. by apply cap_walk_list.
Qed.

(** Two entries: identifier 1 at 0x100, then the time-sync capability 2. *)
Lemma capability_search_witness :
  let m := Mmio (<[0x24 := 0x100]> (<[0x100 := 0x01040000]> (<[0x140 := 0x02000000]> ∅))) [] false in
  mhi_get_capability_offset 2 m 0 2 = Some (Ok 0x140).
Proof.
  apply (capability_search _ 0 2 0x100 [(1, 0x40); (2, 0)]);
    [vm_compute; reflexivity|lia|]. cbn. split_and!; try (vm_compute; reflexivity); lia.
Defined.

(** The doorbell's two words, high first, recombine to the address. *)
Lemma write_db_log m db_addr wp :
  in_u 64 wp ->
  let m' := mhi_write_db m db_addr wp in
  wlog m' = wlog m ++ [(db_addr + 4, Z.shiftr wp 32); (db_addr + 0, wp mod 2 ^ 32)] /\
  Z.lor (Z.shiftl (readl m' (db_addr + 4)) 32) (readl m' (db_addr + 0)) = wp.
Proof.
  intros Hwp m'. subst m'. unfold mhi_write_db, mhi_write_reg, upper_32_bits, lower_32_bits.
  assert (Hu : u32 (Z.shiftr wp 32) = Z.shiftr wp 32).
  { apply wrap_small. unfold in_u in *. rewrite Z.shiftr_div_pow2 by lia. split.
    - apply Z.div_pos; lia.
    - apply Z.div_lt_upper_bound; [lia|]. rewrite <- Z.pow_add_r by lia. cbn [Z.add]. lia. }
  rewrite Hu. split.
  - cbn. by rewrite <- app_assoc.
  - rewrite !readl_writel, Z.eqb_refl.
    destruct (Z.eqb_spec (db_addr + 4) (db_addr + 0)); [lia|]. rewrite Z.eqb_refl.
    apply Z.bits_inj'. intros i Hi. rewrite Z.lor_spec, Z.shiftl_spec, wrap_testbit by lia.
    destruct (Z.ltb_spec i 32); cbn [andb].
    + rewrite Z.testbit_neg_r by lia. done.
    + rewrite Z.shiftr_spec by lia. replace (i - 32 + 32) with i by lia. apply orb_false_r.
Qed.
