(* ===== verification/MhiRing.v ===== *)
(** * MHI rings

    Models struct mhi_ring of src/gl-feed/kernel/pcie_mhi/src/core/mhi_internal.h
    (lines 893-906) and its operations in core/mhi_main.c (lines 160-200 and
    237-341).  A ring is a circular array of [elements] slots of [el_size]
    bytes; [rp] and [wp] are addresses, and a ring with [wp = rp] is empty, so
    that one slot always stays free.  [*ctxt_wp] is the field [ctxt_wp].

    The second half states what a ring promises to its users as the interface
    [BoundedQueue] and proves that a ring together with the memory of its
    slots implements it. *)

From S2P Require Import Prelude CLib MhiReg.

Record mhi_ring := MhiRing {
  iommu_base : Z;
  base : Z;
  rp : Z;
  wp : Z;
  el_size : Z;
  len : Z;
  elements : Z;
  ctxt_wp : Z;
  db_addr : Z }.

#[global] Instance mhi_ring_eq_dec : EqDecision mhi_ring.
Proof. solve_decision. Defined.

Definition set_wp (r : mhi_ring) (p : Z) : mhi_ring :=
  MhiRing (iommu_base r) (base r) (rp r) p (el_size r) (len r) (elements r) (ctxt_wp r) (db_addr r).
Definition set_rp (r : mhi_ring) (p : Z) : mhi_ring :=
  MhiRing (iommu_base r) (base r) p (wp r) (el_size r) (len r) (elements r) (ctxt_wp r) (db_addr r).
Definition set_ctxt_wp (r : mhi_ring) (a : Z) : mhi_ring :=
  MhiRing (iommu_base r) (base r) (rp r) (wp r) (el_size r) (len r) (elements r) a (db_addr r).

Definition mhi_add_ring_element (r : mhi_ring) : mhi_ring :=
  let p := wp r + el_size r in
  let p := if base r + len r <=? p then base r else p in
  set_wp r p.

Definition mhi_del_ring_element (r : mhi_ring) : mhi_ring :=
  let p := rp r + el_size r in
  let p := if base r + len r <=? p then base r else p in
  set_rp r p.

(** Divisions are of [size_t]; the result is an [int]. *)
Definition get_nr_avail_ring_elements (r : mhi_ring) : Z :=
  if wp r <? rp r then s32 (u64 ((rp r - wp r) / el_size r - 1))
  else
    let nr_el := s32 ((rp r - base r) / el_size r) in
    s32 (u64 (nr_el + ((base r + len r - wp r) / el_size r - 1))).

Definition sizeof_mhi_tre : Z := 16.

Definition get_used_ring_elements (rp wp el_num : Z) : Z :=
  if rp <=? wp then u32 ((wp - rp) / sizeof_mhi_tre)
  else u32 (el_num - u32 ((rp - wp) / sizeof_mhi_tre)).

Definition mhi_to_virtual (r : mhi_ring) (addr : Z) : Z := u64 (u64 (addr - iommu_base r) + base r).
Definition mhi_to_physical (r : mhi_ring) (addr : Z) : Z := u64 ((addr - base r) + iommu_base r).

Definition mhi_recycle_ev_ring_element (r : mhi_ring) : mhi_ring :=
  let w := wp r + el_size r in
  let w := if base r + len r <=? w then base r else w in
  let r := set_wp r w in
  let r := set_ctxt_wp r (u64 (iommu_base r + (w - base r))) in
  let p := rp r + el_size r in
  let p := if base r + len r <=? p then base r else p in
  set_rp r p.

Definition mhi_is_ring_full (r : mhi_ring) : bool :=
  let tmp := wp r + el_size r in
  let tmp := if base r + len r <=? tmp then base r else tmp in
  tmp =? rp r.

(** ** Doorbells *)

Definition mhi_ring_er_db (m : mmio) (c : db_cfg) (r : mhi_ring) : mmio * db_cfg :=
  process_db m c (db_addr r) (ctxt_wp r).

Definition mhi_ring_cmd_db (m : mmio) (r : mhi_ring) : mmio * mhi_ring :=
  let db := u64 (iommu_base r + (wp r - base r)) in
  let r := set_ctxt_wp r db in
  (mhi_write_db m (db_addr r) db, r).

Definition mhi_ring_chan_db (m : mmio) (c : db_cfg) (r : mhi_ring) : mmio * db_cfg * mhi_ring :=
  let db := u64 (iommu_base r + (wp r - base r)) in
  let r := set_ctxt_wp r db in
  let '(m, c) := process_db m c (db_addr r) db in
  (m, c, r).

(** ** Invariant *)

(** [ring_at r i j]: the ring is well formed, its read pointer is at slot [i]
    and its write pointer at slot [j]. *)
Record ring_at (r : mhi_ring) (i j : Z) : Prop := {
  ra_el : 0 < el_size r;
  ra_n : 0 < elements r < 2 ^ 31;
  ra_len : len r = elements r * el_size r;
  ra_base : 0 <= base r /\ base r + len r < 2 ^ 64;
  ra_iommu : 0 <= iommu_base r /\ iommu_base r + len r < 2 ^ 64;
  ra_i : 0 <= i < elements r;
  ra_j : 0 <= j < elements r;
  ra_rp : rp r = base r + i * el_size r;
  ra_wp : wp r = base r + j * el_size r }.

Definition ring_ok (r : mhi_ring) : Prop := exists i j, ring_at r i j.

(** Number of occupied slots between slot [i] and slot [j]. *)
Definition used (r : mhi_ring) (i j : Z) : Z := (j - i) mod elements r.

Definition slot (r : mhi_ring) (i : Z) : Z := base r + i * el_size r.

(** ** Lemmas on slots *)

Lemma next_slot r i :
  0 < el_size r -> len r = elements r * el_size r -> 0 <= i < elements r ->
  (if base r + len r <=? slot r i + el_size r then base r else slot r i + el_size r)
  = slot r ((i + 1) mod elements r).
Proof.
  intros He Hl Hi. unfold slot. rewrite Hl.
  destruct (Z.eq_dec (i + 1) (elements r)) as [E|E].
  - rewrite E, Z.mod_same by lia. rewrite <- E. destruct (Z.leb_spec (base r + (i + 1) * el_size r) (base r + i * el_size r + el_size r)); nia.
  - rewrite Z.mod_small by lia.
    destruct (Z.leb_spec (base r + elements r * el_size r) (base r + i * el_size r + el_size r)); nia.
Qed.

Lemma slot_inj r i j : 0 < el_size r -> slot r i = slot r j -> i = j.
Proof. unfold slot. intros. nia. Qed.

Lemma used_succ n i j : 0 < n -> (j - i) mod n < n - 1 -> ((j + 1) mod n - i) mod n = (j - i) mod n + 1.
Proof.
  intros Hn Hlt. rewrite Zminus_mod_idemp_l. replace (j + 1 - i) with (j - i + 1) by lia.
  rewrite <- Z.add_mod_idemp_l by lia. pose proof (Z.mod_pos_bound (j - i) n Hn).
  apply Z.mod_small. lia.
Qed.

Lemma used_pred n i j : 0 < n -> 0 < (j - i) mod n -> (j - (i + 1) mod n) mod n = (j - i) mod n - 1.
Proof.
  intros Hn Hlt. rewrite Zminus_mod_idemp_r. replace (j - (i + 1)) with (j - i + -1) by lia.
  rewrite <- Z.add_mod_idemp_l by lia. pose proof (Z.mod_pos_bound (j - i) n Hn).
  apply Z.mod_small. lia.
Qed.

Lemma succ_eq_iff n i j :
  0 <= i < n -> 0 <= j < n -> (j + 1) mod n = i <-> (j - i) mod n = n - 1.
Proof.
  intros Hi Hj. destruct (Z.eq_dec (j + 1) n) as [E|E].
  - rewrite E, Z.mod_same by lia. split.
    + intros <-. rewrite Z.mod_small; lia.
    + intros H. destruct (Z.eq_dec i 0); [lia|]. rewrite Z.mod_small in H; lia.
  - rewrite Z.mod_small by lia. split.
    + intros <-. replace (j - (j + 1)) with (n - 1 + (-1) * n) by lia.
      rewrite Z.mod_add by lia. apply Z.mod_small. lia.
    + intros H. destruct (Z.le_gt_cases i j).
      * rewrite Z.mod_small in H by lia. lia.
      * replace (j - i) with (n + j - i + (-1) * n) in H by lia.
        rewrite Z.mod_add in H by lia. rewrite Z.mod_small in H by lia. lia.
Qed.

(** ** The operations on slots *)

Section Slots.
Context (r : mhi_ring) (i j : Z) (H : ring_at r i j).

Lemma add_at : ring_at (mhi_add_ring_element r) i ((j + 1) mod elements r).
Proof using H.
  destruct H as [He Hn Hl Hb Hio Hi Hj Hrp Hwp]. unfold mhi_add_ring_element.
  rewrite Hwp. fold (slot r j). rewrite next_slot by done.
  split; cbn; try done. apply Z.mod_pos_bound. lia.
Qed.

Lemma del_at : ring_at (mhi_del_ring_element r) ((i + 1) mod elements r) j.
Proof using H.
  destruct H as [He Hn Hl Hb Hio Hi Hj Hrp Hwp]. unfold mhi_del_ring_element.
  rewrite Hrp. fold (slot r i). rewrite next_slot by done.
  split; cbn; try done. apply Z.mod_pos_bound. lia.
Qed.

Lemma full_at : mhi_is_ring_full r = bool_decide (used r i j = elements r - 1).
Proof using H.
  destruct H as [He Hn Hl Hb Hio Hi Hj Hrp Hwp]. unfold mhi_is_ring_full.
  rewrite Hwp, Hrp. fold (slot r j) (slot r i). rewrite next_slot by done.
  destruct (succ_eq_iff (elements r) i j Hi Hj) as [H1 H2]. unfold used.
  case_bool_decide as E.
  - apply Z.eqb_eq. by rewrite (H2 E).
  - apply Z.eqb_neq. intros Hs. by apply E, H1, (slot_inj r).
Qed.

Lemma avail_at : get_nr_avail_ring_elements r = elements r - 1 - used r i j.
Proof using H.
  destruct H as [He Hn Hl Hb Hio Hi Hj Hrp Hwp]. unfold get_nr_avail_ring_elements, used.
  assert (Hs : forall x, 0 <= x < 2 ^ 31 -> s32 x = x).
  { intros x Hx. unfold swrap, wrap. rewrite Z.mod_small by lia. cbn [Z.sub Z.pos_sub].
    change (2 ^ (32 - 1)) with (2 ^ 31). destruct (Z.ltb_spec x (2 ^ 31)); lia. }
  rewrite Hwp, Hrp, Hl.
  destruct (Z.ltb_spec (base r + j * el_size r) (base r + i * el_size r)).
  - assert (j < i) by nia.
    replace (base r + i * el_size r - (base r + j * el_size r)) with ((i - j) * el_size r) by lia.
    rewrite Z.div_mul by lia. rewrite (wrap_small 64) by (unfold in_u; lia). rewrite Hs by lia.
    replace (j - i) with (elements r + (j - i) + (-1) * elements r) by lia.
    rewrite Z.mod_add, Z.mod_small by lia. lia.
  - assert (i <= j) by nia.
    replace (base r + i * el_size r - base r) with (i * el_size r) by lia.
    replace (base r + elements r * el_size r - (base r + j * el_size r))
      with ((elements r - j) * el_size r) by lia.
    rewrite !Z.div_mul by lia. rewrite (Hs i) by lia.
    rewrite (wrap_small 64) by (unfold in_u; lia). rewrite Hs by lia.
    rewrite Z.mod_small by lia. lia.
Qed.

Lemma recycle_at :
  let r' := mhi_recycle_ev_ring_element r in
  ring_at r' ((i + 1) mod elements r) ((j + 1) mod elements r) /\
  ctxt_wp r' = mhi_to_physical r' (wp r').
Proof using H.
  destruct H as [He Hn Hl Hb Hio Hi Hj Hrp Hwp]. unfold mhi_recycle_ev_ring_element.
  rewrite Hwp. fold (slot r j). rewrite next_slot by done. cbn [rp set_ctxt_wp set_wp base el_size len].
  rewrite Hrp. fold (slot r i). rewrite next_slot by done. split.
  - split; cbn; try done; apply Z.mod_pos_bound; lia.
  - unfold mhi_to_physical. cbn. f_equal. lia.
Qed.

(** An address inside the ring survives the trip to the device and back. *)
Lemma phys_virt p :
  base r <= p < base r + len r ->
  mhi_to_physical r p = iommu_base r + (p - base r) /\ mhi_to_virtual r (mhi_to_physical r p) = p.
Proof using H.
  destruct H as [He Hn Hl Hb Hio Hi Hj Hrp Hwp]. intros Hp.
  unfold mhi_to_physical, mhi_to_virtual.
  rewrite (wrap_small 64 (p - base r + iommu_base r)) by (unfold in_u; lia). split; [lia|].
  rewrite (wrap_small 64 (p - base r + iommu_base r - iommu_base r)) by (unfold in_u; lia).
  rewrite wrap_small by (unfold in_u; lia). lia.
Qed.

End Slots.

Lemma slot_in_ring r i :
  0 < el_size r -> len r = elements r * el_size r -> 0 <= i < elements r ->
  base r <= slot r i < base r + len r.
Proof. unfold slot. intros He -> Hi. nia. Qed.

(** Retired elements between two read pointers of a transfer ring. *)
Lemma used_elements_at r i i' j :
  ring_at r i j -> el_size r = sizeof_mhi_tre -> 0 <= i' < elements r ->
  get_used_ring_elements (slot r i) (slot r i') (elements r) = (i' - i) mod elements r.
Proof.
  intros [He Hn Hl Hb Hio Hi Hj Hrp Hwp] Hs Hi'. unfold get_used_ring_elements, slot.
  rewrite Hs in *. replace (base r + i' * sizeof_mhi_tre - (base r + i * sizeof_mhi_tre))
    with ((i' - i) * sizeof_mhi_tre) by lia.
  replace (base r + i * sizeof_mhi_tre - (base r + i' * sizeof_mhi_tre))
    with ((i - i') * sizeof_mhi_tre) by lia.
  rewrite !Z.div_mul by done. unfold sizeof_mhi_tre in *.
  destruct (Z.leb_spec (base r + i * 16) (base r + i' * 16)).
  - rewrite Z.mod_small by lia. apply wrap_small. unfold in_u. lia.
  - rewrite (wrap_small 32 (i - i')) by (unfold in_u; lia).
    rewrite wrap_small by (unfold in_u; lia).
    replace (i' - i) with (elements r + (i' - i) + (-1) * elements r) by lia.
    rewrite Z.mod_add, Z.mod_small by lia. lia.
Qed.

(** ** The ring as a bounded queue *)

(** What a ring promises: a first-in first-out queue of bounded capacity. *)
Class BoundedQueue (Q A : Type) := {
  bq_rep : Q -> list A -> Prop;
  bq_cap : Q -> Z;
  bq_full : Q -> bool;
  bq_push : Q -> A -> Q;
  bq_pop : Q -> option (A * Q);
  bq_bound : forall q l, bq_rep q l -> zlen l <= bq_cap q;
  bq_full_iff : forall q l, bq_rep q l -> bq_full q = bool_decide (zlen l = bq_cap q);
  bq_push_rep : forall q l x, bq_rep q l -> bq_full q = false ->
    bq_rep (bq_push q x) (l ++ [x]) /\ bq_cap (bq_push q x) = bq_cap q;
  bq_pop_rep : forall q l x, bq_rep q (x :: l) ->
    exists q', bq_pop q = Some (x, q') /\ bq_rep q' l /\ bq_cap q' = bq_cap q }.

(** A ring with the contents of its slots, by address. *)
Record mem_ring (A : Type) := MemRing { mr_ring : mhi_ring; mr_mem : gmap Z A }.
#[global] Arguments MemRing {A}.
#[global] Arguments mr_ring {A}.
#[global] Arguments mr_mem {A}.

Section MemRing.
Context {A : Type}.

(** The element at the write pointer is filled in, then the pointer moves. *)
Definition ring_push (q : mem_ring A) (x : A) : mem_ring A :=
  MemRing (mhi_add_ring_element (mr_ring q)) (<[wp (mr_ring q) := x]> (mr_mem q)).

(** The element at the read pointer is read, then the pointer moves. *)
Definition ring_pop (q : mem_ring A) : option (A * mem_ring A) :=
  match mr_mem q !! rp (mr_ring q) with
  | Some x => Some (x, MemRing (mhi_del_ring_element (mr_ring q)) (mr_mem q))
  | None => None
  end.

(** The slots from [i] on hold [l], and then the write pointer comes. *)
Definition ring_holds (q : mem_ring A) (i : Z) (l : list A) : Prop :=
  let r := mr_ring q in
  ring_at r i ((i + zlen l) mod elements r) /\ zlen l < elements r /\
  forall k x, zget l k = Some x -> mr_mem q !! slot r ((i + k) mod elements r) = Some x.

Definition ring_rep (q : mem_ring A) (l : list A) : Prop := exists i, ring_holds q i l.

Definition ring_cap (q : mem_ring A) : Z := elements (mr_ring q) - 1.
Definition ring_full (q : mem_ring A) : bool := mhi_is_ring_full (mr_ring q).

Lemma used_holds n i k : 0 <= k < n -> ((i + k) mod n - i) mod n = k.
Proof.
  intros. rewrite Zminus_mod_idemp_l. replace (i + k - i) with k by lia. apply Z.mod_small. lia.
Qed.

Lemma mod_inj n i k k' :
  0 <= k < n -> 0 <= k' < n -> (i + k) mod n = (i + k') mod n -> k = k'.
Proof. intros Hk Hk' E. rewrite <- (used_holds n i k Hk), E. by apply used_holds. Qed.

Lemma zget_Some_range (l : list A) k x : zget l k = Some x -> 0 <= k < zlen l.
Proof. intros E. apply zget_is_Some. by eexists. Qed.

Lemma ring_push_holds q i l x :
  ring_holds q i l -> ring_full q = false -> ring_holds (ring_push q x) i (l ++ [x]).
Proof.
  intros (Hat & Hlt & Hmem) Hf. unfold ring_full in Hf.
  rewrite (full_at _ _ _ Hat) in Hf. apply bool_decide_eq_false in Hf.
  pose proof (zlen_nonneg l) as Hnn. unfold used in Hf. rewrite used_holds in Hf by lia.
  pose proof (add_at _ _ _ Hat) as Hadd. rewrite Zplus_mod_idemp_l in Hadd.
  unfold ring_push, ring_holds. cbn [mr_ring mr_mem].
  change (elements (mhi_add_ring_element (mr_ring q))) with (elements (mr_ring q)).
  rewrite zlen_snoc, Z.add_assoc. split_and!; [done|lia|].
  intros k y Hy. change (slot (mhi_add_ring_element (mr_ring q))) with (slot (mr_ring q)).
  rewrite (ra_wp _ _ _ Hat). fold (slot (mr_ring q) ((i + zlen l) mod elements (mr_ring q))).
  pose proof (zget_Some_range _ _ _ Hy) as Hk. rewrite zlen_snoc in Hk.
  destruct (Z.eq_dec k (zlen l)) as [->|Hne].
  - rewrite zget_app_r, Z.sub_diag in Hy by lia. rewrite lookup_insert_eq. done.
  - rewrite zget_app_l in Hy by lia. rewrite lookup_insert_ne; [auto|].
    intros E. apply slot_inj in E; [|apply (ra_el _ _ _ Hat)].
    apply mod_inj in E; lia.
Qed.

Lemma ring_pop_holds q i l x :
  ring_holds q i (x :: l) ->
  exists q', ring_pop q = Some (x, q') /\ ring_holds q' ((i + 1) mod elements (mr_ring q)) l /\
             mr_ring q' = mhi_del_ring_element (mr_ring q) /\ mr_mem q' = mr_mem q.
Proof.
  intros (Hat & Hlt & Hmem). rewrite zlen_cons in *. pose proof (zlen_nonneg l) as Hnn.
  pose proof (ra_i _ _ _ Hat) as Hi.
  assert (H0 : mr_mem q !! rp (mr_ring q) = Some x).
  { rewrite (ra_rp _ _ _ Hat). specialize (Hmem 0 x eq_refl).
    rewrite Z.add_0_r, Z.mod_small in Hmem by done. exact Hmem. }
  unfold ring_pop. rewrite H0. eexists. split; [done|]. split; [|done].
  pose proof (del_at _ _ _ Hat) as Hdel.
  unfold ring_holds. cbn [mr_ring mr_mem].
  change (elements (mhi_del_ring_element (mr_ring q))) with (elements (mr_ring q)).
  change (slot (mhi_del_ring_element (mr_ring q))) with (slot (mr_ring q)).
  rewrite Zplus_mod_idemp_l. rewrite <- Z.add_assoc. split_and!; [done|lia|].
  intros k y Hy. rewrite Zplus_mod_idemp_l, <- Z.add_assoc. apply Hmem.
  pose proof (zget_Some_range _ _ _ Hy). change (x :: l) with ([x] ++ l).
  change (zlen [x]) with 1 in *.
  rewrite zget_app_r by (change (zlen [x]) with 1; lia).
  change (zlen [x]) with 1. by replace (1 + k - 1) with k by lia.
Qed.

#[export] Program Instance ring_bounded_queue : BoundedQueue (mem_ring A) A := {
  bq_rep := ring_rep;
  bq_cap := ring_cap;
  bq_full := ring_full;
  bq_push := ring_push;
  bq_pop := ring_pop }.
Next Obligation. intros q l [i (Hat & Hlt & _)]. unfold ring_cap. lia. Qed.
Next Obligation.
  intros q l [i (Hat & Hlt & _)]. unfold ring_full, ring_cap. rewrite (full_at _ _ _ Hat).
  unfold used. pose proof (zlen_nonneg l). by rewrite used_holds by lia.
Qed.
Next Obligation. intros q l x [i Hh] Hf. split; [exists i; by apply ring_push_holds|done]. Qed.
Next Obligation.
  intros q l x [i Hh]. destruct (ring_pop_holds q i l x Hh) as (q' & Hp & Hh' & Hr & _).
  exists q'. split_and!; [done|by eexists|]. unfold ring_cap. by rewrite Hr.
Qed.

End MemRing.

(** ** Abstract queue *)

(** The queue the ring implements: a list with a capacity. *)
Inductive qop (A : Type) := QPush (x : A) | QPop.
#[global] Arguments QPush {A}.
#[global] Arguments QPop {A}.

(** The abstract queue: a push on a full queue and a pop of an empty one are
    refused; a pop gives the oldest element. *)
Definition spec_step {A} (cap : Z) (l : list A) (o : qop A) : list A * option A :=
  match o, l with
  | QPush x, _ => if bool_decide (zlen l = cap) then (l, None) else (l ++ [x], Some x)
  | QPop, [] => ([], None)
  | QPop, x :: l => (l, Some x)
  end.

(** The ring used the way the driver does: the full test before a push, the
    comparison of the two pointers before a pop. *)
Definition ring_step {A} (q : mem_ring A) (o : qop A) : mem_ring A * option A :=
  match o with
  | QPush x => if ring_full q then (q, None) else (ring_push q x, Some x)
  | QPop =>
      if rp (mr_ring q) =? wp (mr_ring q) then (q, None)
      else match ring_pop q with Some (x, q) => (q, Some x) | None => (q, None) end
  end.

Fixpoint spec_run {A} (cap : Z) (l : list A) (os : list (qop A)) : list A * list (option A) :=
  match os with
  | [] => (l, [])
  | o :: os => let '(l, a) := spec_step cap l o in
               let '(l, rest) := spec_run cap l os in (l, a :: rest)
  end.

Fixpoint ring_run {A} (q : mem_ring A) (os : list (qop A)) : mem_ring A * list (option A) :=
  match os with
  | [] => (q, [])
  | o :: os => let '(q, a) := ring_step q o in
               let '(q, rest) := ring_run q os in (q, a :: rest)
  end.

Lemma empty_iff {A} (q : mem_ring A) i l :
  ring_holds q i l -> (rp (mr_ring q) =? wp (mr_ring q)) = bool_decide (l = []).
Proof.
  intros (Hat & Hlt & _). rewrite (ra_rp _ _ _ Hat), (ra_wp _ _ _ Hat).
  pose proof (zlen_nonneg l). pose proof (ra_i _ _ _ Hat).
  case_bool_decide as E.
  - subst. rewrite zlen_nil, Z.add_0_r, Z.mod_small by done. apply Z.eqb_refl.
  - apply Z.eqb_neq. intros Hs. apply (slot_inj (mr_ring q)) in Hs; [|apply (ra_el _ _ _ Hat)].
    rewrite <- (Z.mod_small i (elements (mr_ring q))) in Hs at 1 by done.
    rewrite <- (Z.add_0_r i) in Hs at 1. apply mod_inj in Hs; [|lia..].
    destruct l; [done|]. rewrite zlen_cons in Hs. pose proof (zlen_nonneg l). lia.
Qed.

Lemma ring_step_spec {A} (q : mem_ring A) l o :
  ring_rep q l ->
  let '(q', a) := ring_step q o in
  let '(l', a') := spec_step (ring_cap q) l o in
  a = a' /\ ring_rep q' l' /\ ring_cap q' = ring_cap q.
Proof.
  intros [i Hh]. destruct o as [x|]; cbn [ring_step spec_step].
  - pose proof (bq_full_iff q l (ex_intro _ i Hh)) as Hf. cbn in Hf. rewrite Hf.
    case_bool_decide as E; [split_and!; [done|by exists i|done]|].
    split_and!; [done| |done]. exists i. by apply ring_push_holds.
  - rewrite (empty_iff q i l Hh). case_bool_decide as E.
    + subst. split_and!; [done|by exists i|done].
    + destruct l as [|x l]; [done|].
      assert (Hq : bq_rep q (x :: l)) by by exists i.
      destruct (bq_pop_rep q l x Hq) as (q' & Hp & Hr & Hc). cbn in Hp, Hr, Hc. by rewrite Hp.
Qed.

(** C1. A ring refines the abstract queue: for every sequence of pushes and
    pops, with any contents, the ring and a list of capacity [elements - 1]
    give the same answers, and the ring keeps holding exactly the list. *)
Theorem ring_refines_queue {A} (os : list (qop A)) (q : mem_ring A) l :
  ring_rep q l ->
  snd (ring_run q os) = snd (spec_run (ring_cap q) l os) /\
  ring_rep (fst (ring_run q os)) (fst (spec_run (ring_cap q) l os)).
Proof.
  revert q l. induction os as [|o os IH]; intros q l Hr; [done|]. cbn [ring_run spec_run].
  pose proof (ring_step_spec q l o Hr) as Hs.
  destruct (ring_step q o) as [q' a], (spec_step (ring_cap q) l o) as [l' a'].
  destruct Hs as (-> & Hr' & Hc). specialize (IH q' l' Hr'). rewrite Hc in IH.
  destruct (ring_run q' os), (spec_run (ring_cap q) l' os). cbn in *. by destruct IH as [-> ?].
Qed.

Definition ex_ring : mhi_ring := MhiRing 0x80000 0x1000 0x1020 0x1020 16 64 4 0 0.

Lemma ex_ring_at : ring_at ex_ring 2 2.
Proof. split; cbn; lia. Qed.

Lemma ex_ring_rep : ring_rep (MemRing ex_ring (∅ : gmap Z Z)) [].
Proof.
  exists 2. split_and!; [exact ex_ring_at|done|].
  intros k x Hk. apply zget_Some_range in Hk. change (zlen (@nil Z)) with 0 in Hk. lia.
Qed.

Lemma ring_refines_queue_witness :
  snd (ring_run (MemRing ex_ring ∅) [QPush 7; QPush 8; QPush 9; QPush 10; QPop; QPush 11; QPop])
  = [Some 7; Some 8; Some 9; None; Some 7; Some 11; Some 8].
Proof.
  destruct (ring_refines_queue [QPush 7; QPush 8; QPush 9; QPush 10; QPop; QPush 11; QPop]
              (MemRing ex_ring ∅) [] ex_ring_rep) as [-> _].
  vm_compute. reflexivity.
Defined.

(** The arithmetic of a well-formed ring: the number of free elements the
    driver computes is the capacity less the occupied slots and is never
    negative, the full test says exactly that it is zero, and the count of
    retired elements between two read pointers is their distance around the
    ring, without wrap-around of the machine integers. *)
Theorem ring_counts r i j i' :
  ring_at r i j -> 0 <= i' < elements r ->
  get_nr_avail_ring_elements r = elements r - 1 - (j - i) mod elements r /\
  0 <= get_nr_avail_ring_elements r < elements r /\
  (mhi_is_ring_full r = true <-> get_nr_avail_ring_elements r = 0) /\
  (el_size r = sizeof_mhi_tre ->
   get_used_ring_elements (rp r) (slot r i') (elements r) = (i' - i) mod elements r).
Proof.
  intros Hat Hi'. rewrite (avail_at r i j Hat), (full_at r i j Hat). unfold used.
  pose proof (ra_n _ _ _ Hat). pose proof (Z.mod_pos_bound (j - i) (elements r) ltac:(lia)).
  split_and!; [done|lia|lia|rewrite bool_decide_eq_true; lia|].
  intros Hs. rewrite (ra_rp _ _ _ Hat). by apply (used_elements_at r i i' j).
Qed.

Lemma ring_counts_witness : get_nr_avail_ring_elements ex_ring = 3.
Proof. apply (ring_counts ex_ring 2 2 0 ex_ring_at). cbn. lia. Defined.

(** Ringing a channel's doorbell publishes the write pointer as an address
    of the device inside the ring: the context word and, unless burst mode
    holds the doorbell back, the last two register writes, high word before
    low word, are that address, which translates back to the write pointer. *)
Theorem chan_db_publishes_wp m c r i j :
  ring_at r i j ->
  let '(m', c', r') := mhi_ring_chan_db m c r in
  let db := iommu_base r + (wp r - base r) in
  ctxt_wp r' = db /\ iommu_base r <= db < iommu_base r + len r /\
  mhi_to_virtual r' (ctxt_wp r') = wp r' /\ ring_at r' i j /\
  (if db_burst c && negb (db_mode c) then m' = m /\ c' = c
   else wlog m' = wlog m ++ [(db_addr r + 4, Z.shiftr db 32); (db_addr r + 0, db mod 2 ^ 32)] /\
        db_val c' = db).
Proof.
  intros Hat. unfold mhi_ring_chan_db.
  pose proof (slot_in_ring r j (ra_el _ _ _ Hat) (ra_len _ _ _ Hat) (ra_j _ _ _ Hat)) as Hin.
  unfold slot in Hin. rewrite <- (ra_wp _ _ _ Hat) in Hin.
  destruct (phys_virt r i j Hat (wp r) Hin) as [Hp Hv].
  rewrite Hp in Hv.
  pose proof (ra_iommu _ _ _ Hat).
  assert (Hu : in_u 64 (iommu_base r + (wp r - base r)) /\
    iommu_base r <= iommu_base r + (wp r - base r) < iommu_base r + len r) by (unfold in_u; lia).
  rewrite (wrap_small 64) by apply Hu. set (db := iommu_base r + (wp r - base r)) in *. destruct Hu as [Hu Hrange].
  assert (Hr : ring_at (set_ctxt_wp r db) i j) by (destruct Hat; by split).
  destruct (write_db_log m (db_addr r) db Hu) as [Hlog _].
  cbn [db_addr set_ctxt_wp]. unfold process_db, mhi_db_brstmode, mhi_db_brstmode_disable.
  destruct (db_burst c), (db_mode c); cbn [andb negb]; split_and!; try done; try lia; exact Hv.
Qed.

Lemma chan_db_publishes_wp_witness :
  ctxt_wp (snd (mhi_ring_chan_db (Mmio ∅ [] false) (DbCfg true 0 true) ex_ring)) = 0x80020.
Proof.
  destruct (chan_db_publishes_wp (Mmio ∅ [] false) (DbCfg true 0 true) ex_ring 2 2 ex_ring_at) as [H _].
  exact H.
Defined.
