(* ===== verification/MhiCtrl.v ===== *)
(** * The MHI controller state

    Models the data of src/gl-feed/kernel/pcie_mhi/src/core/mhi_internal.h and
    core/mhi.h that the power-management and transfer code works on: the power
    states and their predicates (mhi_internal.h 738-786), event rings, channels
    with their two rings, and the controller, with the primitives shared by
    core/mhi_pm.c and core/mhi_main.c: [mhi_set_mhi_state],
    [mhi_assert_dev_wake], [mhi_deassert_dev_wake] and [mhi_tryset_pm_state].

    Calls that leave the modelled code (callbacks of the bus master and of the
    clients, work queues, device creation, DMA unmapping) are recorded in order
    in the trace [c_log].  Locks are not represented: every function is a
    transaction of the state, and where the code sleeps ([wait_event_timeout],
    [wait_for_completion_timeout]) the rest of the system runs as an explicit
    argument. *)

From S2P Require Import Prelude CLib MhiReg MhiRing.

(** ** Constants *)

Definition ENOTCONN : Z := 107.
Definition EOVERFLOW : Z := 75.

Definition MHI_STATE_RESET : Z := 0x0.
Definition MHI_STATE_READY : Z := 0x1.
Definition MHI_STATE_M0 : Z := 0x2.
Definition MHI_STATE_M1 : Z := 0x3.
Definition MHI_STATE_M2 : Z := 0x4.
Definition MHI_STATE_M3 : Z := 0x5.
Definition MHI_STATE_SYS_ERR : Z := 0xFF.

Definition MHI_EE_PBL : Z := 0.
Definition MHI_EE_SBL : Z := 1.
Definition MHI_EE_AMSS : Z := 2.
Definition MHI_EE_RDDM : Z := 3.
Definition MHI_EE_WFW : Z := 4.
Definition MHI_EE_PTHRU : Z := 5.
Definition MHI_EE_EDL : Z := 6.
Definition MHI_EE_FP : Z := 7.
Definition MHI_EE_DISABLE_TRANSITION : Z := 8.

Definition MHI_IN_PBL (ee : Z) : bool :=
  (ee =? MHI_EE_PBL) || (ee =? MHI_EE_PTHRU) || (ee =? MHI_EE_EDL).
Definition MHI_IN_MISSION_MODE (ee : Z) : bool := (ee =? MHI_EE_AMSS) || (ee =? MHI_EE_WFW).

Definition BIT (n : Z) : Z := Z.shiftl 1 n.

Definition MHI_PM_DISABLE : Z := BIT 0.
Definition MHI_PM_POR : Z := BIT 1.
Definition MHI_PM_M0 : Z := BIT 2.
Definition MHI_PM_M2 : Z := BIT 3.
Definition MHI_PM_M3_ENTER : Z := BIT 4.
Definition MHI_PM_M3 : Z := BIT 5.
Definition MHI_PM_M3_EXIT : Z := BIT 6.
Definition MHI_PM_FW_DL_ERR : Z := BIT 7.
Definition MHI_PM_SYS_ERR_DETECT : Z := BIT 8.
Definition MHI_PM_SYS_ERR_PROCESS : Z := BIT 9.
Definition MHI_PM_SHUTDOWN_PROCESS : Z := BIT 10.
Definition MHI_PM_LD_ERR_FATAL_DETECT : Z := BIT 11.

(** [a | b | ...] of power states. *)
Definition lors (l : list Z) : Z := fold_right Z.lor 0 l.

Definition MHI_REG_ACCESS_VALID (pm : Z) : bool :=
  negb (Z.land pm (lors [MHI_PM_POR; MHI_PM_M0; MHI_PM_M2; MHI_PM_M3_ENTER; MHI_PM_M3_EXIT;
    MHI_PM_SYS_ERR_DETECT; MHI_PM_SYS_ERR_PROCESS; MHI_PM_SHUTDOWN_PROCESS; MHI_PM_FW_DL_ERR]) =? 0).
Definition MHI_PM_IN_ERROR_STATE (pm : Z) : bool := MHI_PM_FW_DL_ERR <=? pm.
Definition MHI_PM_IN_FATAL_STATE (pm : Z) : bool := pm =? MHI_PM_LD_ERR_FATAL_DETECT.
Definition MHI_DB_ACCESS_VALID (pm : Z) : bool := negb (Z.land pm MHI_PM_M0 =? 0).
Definition MHI_EVENT_ACCESS_INVALID (pm : Z) : bool :=
  (pm =? MHI_PM_DISABLE) || MHI_PM_IN_ERROR_STATE pm.
Definition MHI_PM_IN_SUSPEND_STATE (pm : Z) : bool :=
  negb (Z.land pm (lors [MHI_PM_M3_ENTER; MHI_PM_M3]) =? 0).

Definition MHI_CH_STATE_DISABLED : Z := 0.
Definition MHI_CH_STATE_ENABLED : Z := 1.

Definition MHI_EV_CC_SUCCESS : Z := 1.
Definition MHI_EV_CC_EOT : Z := 2.
Definition MHI_EV_CC_OVERFLOW : Z := 3.
Definition MHI_EV_CC_EOB : Z := 4.
Definition MHI_EV_CC_OOB : Z := 5.
Definition MHI_EV_CC_DB_MODE : Z := 6.
Definition MHI_EV_CC_BAD_TRE : Z := 0x11.

Definition MHI_EOB : Z := 0.
Definition MHI_EOT : Z := 1.
Definition MHI_CHAIN : Z := 2.

Inductive MHI_ST_TRANSITION :=
| MHI_ST_TRANSITION_PBL
| MHI_ST_TRANSITION_READY
| MHI_ST_TRANSITION_SBL
| MHI_ST_TRANSITION_MISSION_MODE
| MHI_ST_TRANSITION_FP.

Inductive MHI_CB :=
| MHI_CB_IDLE
| MHI_CB_LPM_ENTER
| MHI_CB_LPM_EXIT
| MHI_CB_EE_RDDM
| MHI_CB_EE_MISSION_MODE
| MHI_CB_SYS_ERROR
| MHI_CB_FATAL_ERROR.

Inductive mhi_work := syserr_worker | st_worker | ready_worker.

(** ** Data *)

(** What a client is told about a completed buffer; the direction is [None]
    where the code leaves the member unset. *)
Record mhi_result := MhiResult {
  buf_addr : Z; res_to_device : option bool; bytes_xferd : Z; transaction_status : Z }.

(** Everything that leaves the modelled code, in order. *)
Inductive note :=
| NStatusCb (cb : MHI_CB)
| NNotify (chan : Z) (cb : MHI_CB)
| NWakeUpAll
| NSchedule (w : mhi_work)
| NCreateDevices
| NDestroyDevices
| NInitTimesync
| NDestroyTimesync
| NRuntimeGet
| NRuntimePut
| NXferCb (chan : Z) (r : mhi_result)
| NUnmap (chan addr : Z)
| NFree (chan addr : Z)
| NComplete (chan : Z) (code : Z)
| NAssert (msg : string).

Record mhi_buf_info := BufInfo {
  b_p_addr : Z; b_v_addr : Z; b_wp : Z; b_len : Z; b_cb_buf : Z;
  b_used : bool; b_pre_mapped : bool }.

#[global] Instance mhi_buf_info_eq_dec : EqDecision mhi_buf_info.
Proof. solve_decision. Defined.

(** An event ring: [er_q] holds the elements the device wrote, [er_ctxt_rp]
    is the device's own pointer in the shared event context. *)
Record mhi_event := MhiEvent {
  er_q : mem_ring mhi_tre;
  er_db_cfg : db_cfg;
  er_offload : bool;
  er_hw_ring : bool;
  er_ctxt_rp : Z;
  er_used_elements : Z }.

Definition set_er_q (e : mhi_event) (x : mem_ring mhi_tre) : mhi_event :=
  MhiEvent x (er_db_cfg e) (er_offload e) (er_hw_ring e) (er_ctxt_rp e) (er_used_elements e).
Definition set_er_db_cfg (e : mhi_event) (x : db_cfg) : mhi_event :=
  MhiEvent (er_q e) x (er_offload e) (er_hw_ring e) (er_ctxt_rp e) (er_used_elements e).
Definition set_er_offload (e : mhi_event) (x : bool) : mhi_event :=
  MhiEvent (er_q e) (er_db_cfg e) x (er_hw_ring e) (er_ctxt_rp e) (er_used_elements e).
Definition set_er_hw_ring (e : mhi_event) (x : bool) : mhi_event :=
  MhiEvent (er_q e) (er_db_cfg e) (er_offload e) x (er_ctxt_rp e) (er_used_elements e).
Definition set_er_ctxt_rp (e : mhi_event) (x : Z) : mhi_event :=
  MhiEvent (er_q e) (er_db_cfg e) (er_offload e) (er_hw_ring e) x (er_used_elements e).
Definition set_er_used_elements (e : mhi_event) (x : Z) : mhi_event :=
  MhiEvent (er_q e) (er_db_cfg e) (er_offload e) (er_hw_ring e) (er_ctxt_rp e) x.

(** A channel: [to_device] is [dir == DMA_TO_DEVICE] (else the channel is
    inbound), [rsc_dma] is [xfer_type == MHI_XFER_RSC_DMA]. *)
Record mhi_chan := MhiChan {
  chan : Z;
  buf_ring : mem_ring mhi_buf_info;
  tre_ring : mem_ring mhi_tre;
  ch_db_cfg : db_cfg;
  reset_req : bool;
  ch_state : Z;
  to_device : bool;
  rsc_dma : bool;
  er_index : Z;
  intmod : Z;
  ee_mask : Z;
  pre_alloc : bool;
  offload_ch : bool;
  ccs : Z;
  used_events : gmap Z Z;
  ch_used_elements : Z }.

Definition set_chan (h : mhi_chan) (x : Z) : mhi_chan :=
  MhiChan x (buf_ring h) (tre_ring h) (ch_db_cfg h) (reset_req h) (ch_state h) (to_device h) (rsc_dma h) (er_index h) (intmod h) (ee_mask h) (pre_alloc h) (offload_ch h) (ccs h) (used_events h) (ch_used_elements h).
Definition set_buf_ring (h : mhi_chan) (x : mem_ring mhi_buf_info) : mhi_chan :=
  MhiChan (chan h) x (tre_ring h) (ch_db_cfg h) (reset_req h) (ch_state h) (to_device h) (rsc_dma h) (er_index h) (intmod h) (ee_mask h) (pre_alloc h) (offload_ch h) (ccs h) (used_events h) (ch_used_elements h).
Definition set_tre_ring (h : mhi_chan) (x : mem_ring mhi_tre) : mhi_chan :=
  MhiChan (chan h) (buf_ring h) x (ch_db_cfg h) (reset_req h) (ch_state h) (to_device h) (rsc_dma h) (er_index h) (intmod h) (ee_mask h) (pre_alloc h) (offload_ch h) (ccs h) (used_events h) (ch_used_elements h).
Definition set_ch_db_cfg (h : mhi_chan) (x : db_cfg) : mhi_chan :=
  MhiChan (chan h) (buf_ring h) (tre_ring h) x (reset_req h) (ch_state h) (to_device h) (rsc_dma h) (er_index h) (intmod h) (ee_mask h) (pre_alloc h) (offload_ch h) (ccs h) (used_events h) (ch_used_elements h).
Definition set_reset_req (h : mhi_chan) (x : bool) : mhi_chan :=
  MhiChan (chan h) (buf_ring h) (tre_ring h) (ch_db_cfg h) x (ch_state h) (to_device h) (rsc_dma h) (er_index h) (intmod h) (ee_mask h) (pre_alloc h) (offload_ch h) (ccs h) (used_events h) (ch_used_elements h).
Definition set_ch_state (h : mhi_chan) (x : Z) : mhi_chan :=
  MhiChan (chan h) (buf_ring h) (tre_ring h) (ch_db_cfg h) (reset_req h) x (to_device h) (rsc_dma h) (er_index h) (intmod h) (ee_mask h) (pre_alloc h) (offload_ch h) (ccs h) (used_events h) (ch_used_elements h).
Definition set_to_device (h : mhi_chan) (x : bool) : mhi_chan :=
  MhiChan (chan h) (buf_ring h) (tre_ring h) (ch_db_cfg h) (reset_req h) (ch_state h) x (rsc_dma h) (er_index h) (intmod h) (ee_mask h) (pre_alloc h) (offload_ch h) (ccs h) (used_events h) (ch_used_elements h).
Definition set_rsc_dma (h : mhi_chan) (x : bool) : mhi_chan :=
  MhiChan (chan h) (buf_ring h) (tre_ring h) (ch_db_cfg h) (reset_req h) (ch_state h) (to_device h) x (er_index h) (intmod h) (ee_mask h) (pre_alloc h) (offload_ch h) (ccs h) (used_events h) (ch_used_elements h).
Definition set_er_index (h : mhi_chan) (x : Z) : mhi_chan :=
  MhiChan (chan h) (buf_ring h) (tre_ring h) (ch_db_cfg h) (reset_req h) (ch_state h) (to_device h) (rsc_dma h) x (intmod h) (ee_mask h) (pre_alloc h) (offload_ch h) (ccs h) (used_events h) (ch_used_elements h).
Definition set_intmod (h : mhi_chan) (x : Z) : mhi_chan :=
  MhiChan (chan h) (buf_ring h) (tre_ring h) (ch_db_cfg h) (reset_req h) (ch_state h) (to_device h) (rsc_dma h) (er_index h) x (ee_mask h) (pre_alloc h) (offload_ch h) (ccs h) (used_events h) (ch_used_elements h).
Definition set_ee_mask (h : mhi_chan) (x : Z) : mhi_chan :=
  MhiChan (chan h) (buf_ring h) (tre_ring h) (ch_db_cfg h) (reset_req h) (ch_state h) (to_device h) (rsc_dma h) (er_index h) (intmod h) x (pre_alloc h) (offload_ch h) (ccs h) (used_events h) (ch_used_elements h).
Definition set_pre_alloc (h : mhi_chan) (x : bool) : mhi_chan :=
  MhiChan (chan h) (buf_ring h) (tre_ring h) (ch_db_cfg h) (reset_req h) (ch_state h) (to_device h) (rsc_dma h) (er_index h) (intmod h) (ee_mask h) x (offload_ch h) (ccs h) (used_events h) (ch_used_elements h).
Definition set_offload_ch (h : mhi_chan) (x : bool) : mhi_chan :=
  MhiChan (chan h) (buf_ring h) (tre_ring h) (ch_db_cfg h) (reset_req h) (ch_state h) (to_device h) (rsc_dma h) (er_index h) (intmod h) (ee_mask h) (pre_alloc h) x (ccs h) (used_events h) (ch_used_elements h).
Definition set_ccs (h : mhi_chan) (x : Z) : mhi_chan :=
  MhiChan (chan h) (buf_ring h) (tre_ring h) (ch_db_cfg h) (reset_req h) (ch_state h) (to_device h) (rsc_dma h) (er_index h) (intmod h) (ee_mask h) (pre_alloc h) (offload_ch h) x (used_events h) (ch_used_elements h).
Definition set_used_events (h : mhi_chan) (x : gmap Z Z) : mhi_chan :=
  MhiChan (chan h) (buf_ring h) (tre_ring h) (ch_db_cfg h) (reset_req h) (ch_state h) (to_device h) (rsc_dma h) (er_index h) (intmod h) (ee_mask h) (pre_alloc h) (offload_ch h) (ccs h) x (ch_used_elements h).
Definition set_ch_used_elements (h : mhi_chan) (x : Z) : mhi_chan :=
  MhiChan (chan h) (buf_ring h) (tre_ring h) (ch_db_cfg h) (reset_req h) (ch_state h) (to_device h) (rsc_dma h) (er_index h) (intmod h) (ee_mask h) (pre_alloc h) (offload_ch h) (ccs h) (used_events h) x.

(** The controller.  [c_M0], [c_M2] and [c_M3] count the power transitions,
    [c_tsync] is the event ring of the time-sync object when there is one. *)
Record ctrl := Ctrl {
  pm_state : Z;
  dev_state : Z;
  ee : Z;
  io : mmio;
  c_bhi : Z;
  wake_db : Z;
  c_M0 : Z;
  c_M2 : Z;
  c_M3 : Z;
  dev_wake : Z;
  pending_pkts : Z;
  xfer_paths : Z;
  events : list mhi_event;
  cmd : mem_ring mhi_tre;
  chans : list mhi_chan;
  transition_list : list MHI_ST_TRANSITION;
  c_tsync : option Z;
  c_log : list note }.

Definition set_pm_state (c : ctrl) (x : Z) : ctrl :=
  Ctrl x (dev_state c) (ee c) (io c) (c_bhi c) (wake_db c) (c_M0 c) (c_M2 c) (c_M3 c) (dev_wake c) (pending_pkts c) (xfer_paths c) (events c) (cmd c) (chans c) (transition_list c) (c_tsync c) (c_log c).
Definition set_dev_state (c : ctrl) (x : Z) : ctrl :=
  Ctrl (pm_state c) x (ee c) (io c) (c_bhi c) (wake_db c) (c_M0 c) (c_M2 c) (c_M3 c) (dev_wake c) (pending_pkts c) (xfer_paths c) (events c) (cmd c) (chans c) (transition_list c) (c_tsync c) (c_log c).
Definition set_ee (c : ctrl) (x : Z) : ctrl :=
  Ctrl (pm_state c) (dev_state c) x (io c) (c_bhi c) (wake_db c) (c_M0 c) (c_M2 c) (c_M3 c) (dev_wake c) (pending_pkts c) (xfer_paths c) (events c) (cmd c) (chans c) (transition_list c) (c_tsync c) (c_log c).
Definition set_io (c : ctrl) (x : mmio) : ctrl :=
  Ctrl (pm_state c) (dev_state c) (ee c) x (c_bhi c) (wake_db c) (c_M0 c) (c_M2 c) (c_M3 c) (dev_wake c) (pending_pkts c) (xfer_paths c) (events c) (cmd c) (chans c) (transition_list c) (c_tsync c) (c_log c).
Definition set_c_bhi (c : ctrl) (x : Z) : ctrl :=
  Ctrl (pm_state c) (dev_state c) (ee c) (io c) x (wake_db c) (c_M0 c) (c_M2 c) (c_M3 c) (dev_wake c) (pending_pkts c) (xfer_paths c) (events c) (cmd c) (chans c) (transition_list c) (c_tsync c) (c_log c).
Definition set_wake_db (c : ctrl) (x : Z) : ctrl :=
  Ctrl (pm_state c) (dev_state c) (ee c) (io c) (c_bhi c) x (c_M0 c) (c_M2 c) (c_M3 c) (dev_wake c) (pending_pkts c) (xfer_paths c) (events c) (cmd c) (chans c) (transition_list c) (c_tsync c) (c_log c).
Definition set_c_M0 (c : ctrl) (x : Z) : ctrl :=
  Ctrl (pm_state c) (dev_state c) (ee c) (io c) (c_bhi c) (wake_db c) x (c_M2 c) (c_M3 c) (dev_wake c) (pending_pkts c) (xfer_paths c) (events c) (cmd c) (chans c) (transition_list c) (c_tsync c) (c_log c).
Definition set_c_M2 (c : ctrl) (x : Z) : ctrl :=
  Ctrl (pm_state c) (dev_state c) (ee c) (io c) (c_bhi c) (wake_db c) (c_M0 c) x (c_M3 c) (dev_wake c) (pending_pkts c) (xfer_paths c) (events c) (cmd c) (chans c) (transition_list c) (c_tsync c) (c_log c).
Definition set_c_M3 (c : ctrl) (x : Z) : ctrl :=
  Ctrl (pm_state c) (dev_state c) (ee c) (io c) (c_bhi c) (wake_db c) (c_M0 c) (c_M2 c) x (dev_wake c) (pending_pkts c) (xfer_paths c) (events c) (cmd c) (chans c) (transition_list c) (c_tsync c) (c_log c).
Definition set_dev_wake (c : ctrl) (x : Z) : ctrl :=
  Ctrl (pm_state c) (dev_state c) (ee c) (io c) (c_bhi c) (wake_db c) (c_M0 c) (c_M2 c) (c_M3 c) x (pending_pkts c) (xfer_paths c) (events c) (cmd c) (chans c) (transition_list c) (c_tsync c) (c_log c).
Definition set_pending_pkts (c : ctrl) (x : Z) : ctrl :=
  Ctrl (pm_state c) (dev_state c) (ee c) (io c) (c_bhi c) (wake_db c) (c_M0 c) (c_M2 c) (c_M3 c) (dev_wake c) x (xfer_paths c) (events c) (cmd c) (chans c) (transition_list c) (c_tsync c) (c_log c).
Definition set_xfer_paths (c : ctrl) (x : Z) : ctrl :=
  Ctrl (pm_state c) (dev_state c) (ee c) (io c) (c_bhi c) (wake_db c) (c_M0 c) (c_M2 c) (c_M3 c) (dev_wake c) (pending_pkts c) x (events c) (cmd c) (chans c) (transition_list c) (c_tsync c) (c_log c).
Definition set_events (c : ctrl) (x : list mhi_event) : ctrl :=
  Ctrl (pm_state c) (dev_state c) (ee c) (io c) (c_bhi c) (wake_db c) (c_M0 c) (c_M2 c) (c_M3 c) (dev_wake c) (pending_pkts c) (xfer_paths c) x (cmd c) (chans c) (transition_list c) (c_tsync c) (c_log c).
Definition set_cmd (c : ctrl) (x : mem_ring mhi_tre) : ctrl :=
  Ctrl (pm_state c) (dev_state c) (ee c) (io c) (c_bhi c) (wake_db c) (c_M0 c) (c_M2 c) (c_M3 c) (dev_wake c) (pending_pkts c) (xfer_paths c) (events c) x (chans c) (transition_list c) (c_tsync c) (c_log c).
Definition set_chans (c : ctrl) (x : list mhi_chan) : ctrl :=
  Ctrl (pm_state c) (dev_state c) (ee c) (io c) (c_bhi c) (wake_db c) (c_M0 c) (c_M2 c) (c_M3 c) (dev_wake c) (pending_pkts c) (xfer_paths c) (events c) (cmd c) x (transition_list c) (c_tsync c) (c_log c).
Definition set_transition_list (c : ctrl) (x : list MHI_ST_TRANSITION) : ctrl :=
  Ctrl (pm_state c) (dev_state c) (ee c) (io c) (c_bhi c) (wake_db c) (c_M0 c) (c_M2 c) (c_M3 c) (dev_wake c) (pending_pkts c) (xfer_paths c) (events c) (cmd c) (chans c) x (c_tsync c) (c_log c).
Definition set_c_tsync (c : ctrl) (x : option Z) : ctrl :=
  Ctrl (pm_state c) (dev_state c) (ee c) (io c) (c_bhi c) (wake_db c) (c_M0 c) (c_M2 c) (c_M3 c) (dev_wake c) (pending_pkts c) (xfer_paths c) (events c) (cmd c) (chans c) (transition_list c) x (c_log c).
Definition set_c_log (c : ctrl) (x : list note) : ctrl :=
  Ctrl (pm_state c) (dev_state c) (ee c) (io c) (c_bhi c) (wake_db c) (c_M0 c) (c_M2 c) (c_M3 c) (dev_wake c) (pending_pkts c) (xfer_paths c) (events c) (cmd c) (chans c) (transition_list c) (c_tsync c) x.

(** Controller configuration that does not change. *)
Record ctrl_cfg := CtrlCfg {
  c_regs : Z;
  msi_irq_base : Z;
  msi_allocated : Z;
  chan_ctxt_addr : Z;
  er_ctxt_addr : Z;
  cmd_ctxt_addr : Z;
  ctrl_seg_addr : Z;
  ctrl_seg_size : Z;
  iova_start : Z;
  iova_stop : Z;
  lpm_chans : list Z;
  pre_init : bool;
  buffer_len : Z }.

Definition emit (n : note) (c : ctrl) : ctrl := set_c_log c (c_log c ++ [n]).
Definition emits (ns : list note) (c : ctrl) : ctrl := set_c_log c (c_log c ++ ns).

(** ** Power-state transitions *)

(** [mhi_state_transitions]: the state and the set of states it may enter. *)
Definition mhi_state_transitions : list (Z * Z) := [
  (MHI_PM_DISABLE, MHI_PM_POR);
  (MHI_PM_POR, lors [MHI_PM_POR; MHI_PM_DISABLE; MHI_PM_M0; MHI_PM_SYS_ERR_DETECT;
     MHI_PM_SHUTDOWN_PROCESS; MHI_PM_LD_ERR_FATAL_DETECT; MHI_PM_FW_DL_ERR]);
  (MHI_PM_M0, lors [MHI_PM_M2; MHI_PM_M3_ENTER; MHI_PM_SYS_ERR_DETECT;
     MHI_PM_SHUTDOWN_PROCESS; MHI_PM_LD_ERR_FATAL_DETECT; MHI_PM_FW_DL_ERR]);
  (MHI_PM_M2, lors [MHI_PM_M0; MHI_PM_SYS_ERR_DETECT; MHI_PM_SHUTDOWN_PROCESS;
     MHI_PM_LD_ERR_FATAL_DETECT]);
  (MHI_PM_M3_ENTER, lors [MHI_PM_M3; MHI_PM_SYS_ERR_DETECT; MHI_PM_SHUTDOWN_PROCESS;
     MHI_PM_LD_ERR_FATAL_DETECT]);
  (MHI_PM_M3, lors [MHI_PM_M3_EXIT; MHI_PM_SYS_ERR_DETECT; MHI_PM_SHUTDOWN_PROCESS;
     MHI_PM_LD_ERR_FATAL_DETECT]);
  (MHI_PM_M3_EXIT, lors [MHI_PM_M0; MHI_PM_SYS_ERR_DETECT; MHI_PM_SHUTDOWN_PROCESS;
     MHI_PM_LD_ERR_FATAL_DETECT]);
  (MHI_PM_FW_DL_ERR, lors [MHI_PM_FW_DL_ERR; MHI_PM_SYS_ERR_DETECT; MHI_PM_SHUTDOWN_PROCESS;
     MHI_PM_LD_ERR_FATAL_DETECT]);
  (MHI_PM_SYS_ERR_DETECT, lors [MHI_PM_SYS_ERR_PROCESS; MHI_PM_SHUTDOWN_PROCESS;
     MHI_PM_LD_ERR_FATAL_DETECT]);
  (MHI_PM_SYS_ERR_PROCESS, lors [MHI_PM_POR; MHI_PM_SHUTDOWN_PROCESS;
     MHI_PM_LD_ERR_FATAL_DETECT]);
  (MHI_PM_SHUTDOWN_PROCESS, lors [MHI_PM_DISABLE; MHI_PM_LD_ERR_FATAL_DETECT]);
  (MHI_PM_LD_ERR_FATAL_DETECT, lors [MHI_PM_LD_ERR_FATAL_DETECT; MHI_PM_SHUTDOWN_PROCESS]) ].

(** [find_last_bit(&x, 32)]: the highest set bit, 32 when there is none. *)
Definition find_last_bit (x : Z) : Z := if x =? 0 then 32 else Z.log2 x.

(** The state after asking for [state] in [cur]. *)
Definition tryset (cur state : Z) : Z :=
  match zget mhi_state_transitions (find_last_bit cur) with
  | None => cur
  | Some (from_state, to_states) =>
      if negb (from_state =? cur) then cur
      else if Z.land to_states state =? 0 then cur
      else state
  end.

(** The new state is also the value returned. *)
Definition mhi_tryset_pm_state (c : ctrl) (state : Z) : ctrl * Z :=
  let cur := tryset (pm_state c) state in (set_pm_state c cur, cur).

(** ** Shared primitives *)

Definition mhi_set_mhi_state (k : ctrl_cfg) (state : Z) (c : ctrl) : ctrl :=
  if state =? MHI_STATE_RESET
  then set_io c (mhi_write_reg_field (io c) (c_regs k) MHICTRL MHICTRL_RESET_MASK MHICTRL_RESET_SHIFT 1)
  else set_io c (mhi_write_reg_field (io c) (c_regs k) MHICTRL MHICTRL_MHISTATE_MASK
                   MHICTRL_MHISTATE_SHIFT state).

(** The code after the first [return] is unreachable: only the M2 doorbell is
    left of the wake protocol, and the count [dev_wake] never moves. *)
Definition mhi_assert_dev_wake (c : ctrl) : ctrl :=
  if dev_state c =? MHI_STATE_M2 then set_io c (mhi_write_db (io c) (wake_db c) 1) else c.

Definition mhi_deassert_dev_wake (c : ctrl) : ctrl := c.

(** Ringing the doorbell of an event ring, of the command ring, of a channel. *)
Definition ring_er_db (e : mhi_event) (c : ctrl) : ctrl * mhi_event :=
  let '(m, d) := mhi_ring_er_db (io c) (er_db_cfg e) (mr_ring (er_q e)) in
  (set_io c m, set_er_db_cfg e d).

Definition ring_cmd_db (c : ctrl) : ctrl :=
  let '(m, r) := mhi_ring_cmd_db (io c) (mr_ring (cmd c)) in
  set_io (set_cmd c (MemRing r (mr_mem (cmd c)))) m.

Definition ring_chan_db (h : mhi_chan) (c : ctrl) : ctrl * mhi_chan :=
  let '(m, d, r) := mhi_ring_chan_db (io c) (ch_db_cfg h) (mr_ring (tre_ring h)) in
  (set_io c m, set_tre_ring (set_ch_db_cfg h d) (MemRing r (mr_mem (tre_ring h)))).

#[global] Arguments mhi_set_mhi_state : simpl never.
#[global] Arguments mhi_assert_dev_wake : simpl never.
#[global] Arguments ring_er_db : simpl never.
#[global] Arguments ring_cmd_db : simpl never.
#[global] Arguments ring_chan_db : simpl never.
