(* ===== verification/MhiPm.v ===== *)
(** * MHI power management

    Models src/gl-feed/kernel/pcie_mhi/src/core/mhi_pm.c: the state
    transitions of ready, M0, M1/M2, M3, mission mode and shutdown, the
    workers, power up and down, suspend and resume, the device votes, and the
    register set-up [mhi_init_mmio] of core/mhi_init.c and the interrupt
    handler [mhi_intvec_threaded_handlr] of core/mhi_main.c.

    Where the code sleeps, the rest of the system runs as the argument [w]:
    [wait_event] evaluates the condition, and if it does not hold lets [w]
    run and evaluates it again, which is also what a time-out does. *)

From S2P Require Import Prelude CLib MhiReg MhiRing MhiCtrl.

Definition CHDBOFF : Z := 0x18.
Definition ERDBOFF : Z := 0x20.
Definition BHIOFF : Z := 0x28.
Definition BHIEOFF : Z := 0x2C.
Definition MHICFG : Z := 0x10.
Definition MHICFG_NHWER_MASK : Z := 0xFF000000.
Definition MHICFG_NHWER_SHIFT : Z := 24.
Definition MHICFG_NER_MASK : Z := 0xFF0000.
Definition MHICFG_NER_SHIFT : Z := 16.
Definition MHISTATUS_READY_MASK : Z := 0x1.
Definition MHISTATUS_READY_SHIFT : Z := 0.
Definition CCABAP_LOWER : Z := 0x58.
Definition CCABAP_HIGHER : Z := 0x5C.
Definition ECABAP_LOWER : Z := 0x60.
Definition ECABAP_HIGHER : Z := 0x64.
Definition CRCBAP_LOWER : Z := 0x68.
Definition CRCBAP_HIGHER : Z := 0x6C.
Definition CRDB_LOWER : Z := 0x70.
Definition MHICTRLBASE_LOWER : Z := 0x80.
Definition MHICTRLBASE_HIGHER : Z := 0x84.
Definition MHICTRLLIMIT_LOWER : Z := 0x88.
Definition MHICTRLLIMIT_HIGHER : Z := 0x8C.
Definition MHIDATABASE_LOWER : Z := 0x98.
Definition MHIDATABASE_HIGHER : Z := 0x9C.
Definition MHIDATALIMIT_LOWER : Z := 0xA0.
Definition MHIDATALIMIT_HIGHER : Z := 0xA4.
Definition BHI_INTVEC : Z := 0x20.
Definition MHI_DEV_WAKE_DB : Z := 127.
Definition NUM_MHI_EVT_RINGS : Z := 3.
Definition NUM_MHI_HW_EVT_RINGS : Z := 4.

(** ** Waiting *)

Definition wait_event (cond : ctrl -> bool) (w : ctrl -> ctrl) (c : ctrl) : bool * ctrl :=
  if cond c then (true, c) else let c := w c in (cond c, c).

(** ** Register set-up *)

Definition set_db_addr (r : mhi_ring) (a : Z) : mhi_ring :=
  MhiRing (iommu_base r) (base r) (rp r) (wp r) (el_size r) (len r) (elements r) (ctxt_wp r) a.

(** Doorbell registers are eight bytes apart. *)
Fixpoint chan_db_addrs (base val : Z) (hs : list mhi_chan) : list mhi_chan :=
  match hs with
  | [] => []
  | h :: hs =>
      set_tre_ring h (MemRing (set_db_addr (mr_ring (tre_ring h)) (base + val)) (mr_mem (tre_ring h)))
      :: chan_db_addrs base (u32 (val + 8)) hs
  end.

Fixpoint event_db_addrs (base val : Z) (es : list mhi_event) : list mhi_event :=
  match es with
  | [] => []
  | e :: es =>
      (if er_offload e then e
       else set_er_q e (MemRing (set_db_addr (mr_ring (er_q e)) (base + val)) (mr_mem (er_q e))))
      :: event_db_addrs base (u32 (val + 8)) es
  end.

(** The table [reg_info]: offset and value, all with a full mask. *)
Definition reg_info (k : ctrl_cfg) : list (Z * Z) := [
  (CCABAP_HIGHER, upper_32_bits (chan_ctxt_addr k));
  (CCABAP_LOWER, lower_32_bits (chan_ctxt_addr k));
  (ECABAP_HIGHER, upper_32_bits (er_ctxt_addr k));
  (ECABAP_LOWER, lower_32_bits (er_ctxt_addr k));
  (CRCBAP_HIGHER, upper_32_bits (cmd_ctxt_addr k));
  (CRCBAP_LOWER, lower_32_bits (cmd_ctxt_addr k));
  (MHICTRLBASE_HIGHER, upper_32_bits (ctrl_seg_addr k));
  (MHICTRLBASE_LOWER, lower_32_bits (ctrl_seg_addr k));
  (MHIDATABASE_HIGHER, upper_32_bits (iova_start k));
  (MHIDATABASE_LOWER, lower_32_bits (iova_start k));
  (MHICTRLLIMIT_HIGHER, upper_32_bits (u64 (ctrl_seg_addr k + ctrl_seg_size k)));
  (MHICTRLLIMIT_LOWER, lower_32_bits (u64 (ctrl_seg_addr k + ctrl_seg_size k)));
  (MHIDATALIMIT_HIGHER, upper_32_bits (iova_stop k));
  (MHIDATALIMIT_LOWER, lower_32_bits (iova_stop k)) ].

Definition write_regs (base : Z) (l : list (Z * Z)) (m : mmio) : mmio :=
  fold_left (fun m ov => mhi_write_reg_field m base (fst ov) U32_MAX 0 (snd ov)) l m.

Definition mhi_init_mmio (k : ctrl_cfg) (c : ctrl) : Z * ctrl :=
  let base := c_regs k in
  match mhi_read_reg_field (io c) base CHDBOFF U32_MAX 0 with
  | Err _ => (- EIO, c)
  | Ok val =>
      let c := set_wake_db c (base + val + 8 * MHI_DEV_WAKE_DB) in
      let c := set_chans c (chan_db_addrs base val (chans c)) in
      match mhi_read_reg_field (io c) base ERDBOFF U32_MAX 0 with
      | Err _ => (- EIO, c)
      | Ok val =>
          let c := set_events c (event_db_addrs base val (events c)) in
          let c := set_cmd c (MemRing (set_db_addr (mr_ring (cmd c)) (base + CRDB_LOWER))
                                      (mr_mem (cmd c))) in
          (0, set_io c (write_regs base (reg_info k) (io c)))
      end
  end.

(** ** Ready *)

(** The wait for RESET to clear and READY to appear, with its two output
    variables, which a failed read leaves as they were. *)
Definition ready_cond (k : ctrl_cfg) (reset ready : Z) (c : ctrl) : bool * Z * Z :=
  if MHI_PM_IN_FATAL_STATE (pm_state c) then (true, reset, ready)
  else
    match mhi_read_reg_field (io c) (c_regs k) MHICTRL MHICTRL_RESET_MASK MHICTRL_RESET_SHIFT with
    | Err _ => (true, reset, ready)
    | Ok reset =>
        match mhi_read_reg_field (io c) (c_regs k) MHISTATUS MHISTATUS_READY_MASK
                MHISTATUS_READY_SHIFT with
        | Err _ => (true, reset, ready)
        | Ok ready => ((reset =? 0) && negb (ready =? 0), reset, ready)
        end
    end.

(** [obs] are the controller's states each time the sleeping thread looks
    again; the last one is the time-out's. *)
Fixpoint ready_poll (k : ctrl_cfg) (obs : list ctrl) (reset ready : Z) (c : ctrl) : Z * Z * ctrl :=
  let '(ok, reset, ready) := ready_cond k reset ready c in
  match ok, obs with
  | false, o :: obs => ready_poll k obs reset ready o
  | _, _ => (reset, ready, c)
  end.

(** All elements of an event ring but one are handed to the device. *)
Definition fill_ring (r : mhi_ring) : mhi_ring :=
  set_ctxt_wp (set_wp r (base r + len r - el_size r)) (u64 (iommu_base r + len r - el_size r)).

Definition fill_event (e : mhi_event) : mhi_event :=
  set_er_q e (MemRing (fill_ring (mr_ring (er_q e))) (mr_mem (er_q e))).

Definition ready_event (e : mhi_event) (c : ctrl) : ctrl * mhi_event :=
  if er_offload e || er_hw_ring e then (c, e) else ring_er_db (fill_event e) c.

Definition over_events (f : mhi_event -> ctrl -> ctrl * mhi_event) (c : ctrl) : ctrl :=
  let '(c, es) := map_st f (events c) c in set_events c es.

Definition over_chans (f : mhi_chan -> ctrl -> ctrl * mhi_chan) (c : ctrl) : ctrl :=
  let '(c, hs) := map_st f (chans c) c in set_chans c hs.

#[global] Arguments over_events : simpl never.
#[global] Arguments over_chans : simpl never.

Definition mhi_ready_state_transition (k : ctrl_cfg) (w : ctrl -> list ctrl) (c : ctrl) : Z * ctrl :=
  let '(reset, ready, c) := ready_poll k (w c) 1 0 c in
  if MHI_PM_IN_FATAL_STATE (pm_state c) then (- EIO, c)
  else if negb (reset =? 0) || (ready =? 0) then (- ETIMEDOUT, c)
  else
    let '(c, cur_state) := mhi_tryset_pm_state c MHI_PM_POR in
    let c := set_dev_state c MHI_STATE_READY in
    if negb (cur_state =? MHI_PM_POR) then (- EIO, c)
    else if negb (MHI_REG_ACCESS_VALID (pm_state c)) then (- EIO, c)
    else
      let '(ret, c) := mhi_init_mmio k c in
      if negb (ret =? 0) then (- EIO, c)
      else
        let c := over_events ready_event c in
        (0, mhi_set_mhi_state k MHI_STATE_M0 c).

(** ** M0, M2 and M3 *)

Definition m0_event (e : mhi_event) (c : ctrl) : ctrl * mhi_event :=
  if er_offload e then (c, e) else ring_er_db e c.

Definition m0_chan (h : mhi_chan) (c : ctrl) : ctrl * mhi_chan :=
  let h := if reset_req h
           then set_ch_db_cfg h (DbCfg true (db_val (ch_db_cfg h)) (db_burst (ch_db_cfg h))) else h in
  let r := mr_ring (tre_ring h) in
  if negb (base r =? 0) && negb (wp r =? rp r) then ring_chan_db h c else (c, h).

Definition mhi_pm_m0_transition (c : ctrl) : Z * ctrl :=
  let c := set_dev_state c MHI_STATE_M0 in
  let '(c, cur_state) := mhi_tryset_pm_state c MHI_PM_M0 in
  if negb (cur_state =? MHI_PM_M0) then (- EIO, c)
  else
    let c := set_c_M0 c (u32 (c_M0 c + 1)) in
    let c := mhi_assert_dev_wake c in
    let c :=
      if MHI_IN_MISSION_MODE (ee c) then
        let c := over_events m0_event c in
        let r := mr_ring (cmd c) in
        if negb (rp r =? wp r) then ring_cmd_db c else c
      else c in
    let c := over_chans m0_chan c in
    let c := mhi_deassert_dev_wake c in
    (0, emit NWakeUpAll c).

Definition mhi_pm_m1_transition (k : ctrl_cfg) (c : ctrl) : ctrl :=
  let '(c, state) := mhi_tryset_pm_state c MHI_PM_M2 in
  if state =? MHI_PM_M2 then
    let c := mhi_set_mhi_state k MHI_STATE_M2 c in
    let c := set_dev_state c MHI_STATE_M2 in
    let c := set_c_M2 c (u32 (c_M2 c + 1)) in
    let c := emit NWakeUpAll c in
    if negb (dev_wake c =? 0) then mhi_deassert_dev_wake (mhi_assert_dev_wake c)
    else emit (NStatusCb MHI_CB_IDLE) c
  else c.

Definition mhi_pm_m3_transition (c : ctrl) : Z * ctrl :=
  let c := set_dev_state c MHI_STATE_M3 in
  let '(c, state) := mhi_tryset_pm_state c MHI_PM_M3 in
  if negb (state =? MHI_PM_M3) then (- EIO, c)
  else
    let c := emit NWakeUpAll c in
    (0, set_c_M3 c (u32 (c_M3 c + 1))).

(** ** Votes *)

Definition mhi_device_get_sync_ctrl (w : ctrl -> ctrl) (c : ctrl) : Z * ctrl :=
  let c := mhi_assert_dev_wake c in
  let c := if MHI_PM_IN_SUSPEND_STATE (pm_state c) then emits [NRuntimeGet; NRuntimePut] c else c in
  let '(ret, c) := wait_event (fun c => (pm_state c =? MHI_PM_M0)
                                        || MHI_PM_IN_ERROR_STATE (pm_state c)) w c in
  if negb ret || MHI_PM_IN_ERROR_STATE (pm_state c)
  then (- EIO, mhi_deassert_dev_wake c)
  else (0, c).

(** [mhi_dev->dev_wake] of the device is the extra component. *)
Definition mhi_device_get (c : ctrl) (wake : Z) : ctrl * Z := (mhi_assert_dev_wake c, wake + 1).

Definition mhi_device_get_sync (w : ctrl -> ctrl) (c : ctrl) (wake : Z) : Z * ctrl * Z :=
  let '(ret, c) := mhi_device_get_sync_ctrl w c in
  (ret, c, if ret =? 0 then wake + 1 else wake).

Definition mhi_device_put (c : ctrl) (wake : Z) : ctrl * Z := (mhi_deassert_dev_wake c, wake - 1).

(** ** Mission mode *)

Definition mission_event (e : mhi_event) (c : ctrl) : ctrl * mhi_event :=
  if er_offload e || negb (er_hw_ring e) then (c, e)
  else
    let e := fill_event e in
    if MHI_DB_ACCESS_VALID (pm_state c) then ring_er_db e c else (c, e).

Definition mhi_pm_mission_mode_transition (k : ctrl_cfg) (w : ctrl -> ctrl) (c : ctrl) : Z * ctrl :=
  let c := emit (NStatusCb MHI_CB_EE_MISSION_MODE) c in
  let '(ret, c) := mhi_device_get_sync_ctrl w c in
  if negb (ret =? 0) then (ret, c)
  else
    let c := if MHI_REG_ACCESS_VALID (pm_state c)
             then set_ee c (mhi_get_exec_env (io c) (c_bhi c)) else c in
    if negb (MHI_IN_MISSION_MODE (ee c)) then (- EIO, mhi_deassert_dev_wake c)
    else
      let c := emit NWakeUpAll c in
      if MHI_PM_IN_ERROR_STATE (pm_state c) then (- EIO, mhi_deassert_dev_wake c)
      else
        let c := over_events mission_event c in
        let c := emit NInitTimesync c in
        let c := emit NCreateDevices c in
        (0, mhi_deassert_dev_wake c).

(** ** Queue of state transitions *)

Definition mhi_queue_state_transition (alloc_ok : bool) (st : MHI_ST_TRANSITION) (c : ctrl) : Z * ctrl :=
  if negb alloc_ok then (- ENOMEM, c)
  else
    let c := set_transition_list c (transition_list c ++ [st]) in
    (0, emit (NSchedule st_worker) c).

(** ** System error and shutdown *)

(** What runs while the shutdown sleeps: the wait for the reset bit, the
    removal of the client devices and the flush of the workers, and the wait
    for ready. *)
Record disable_env := DisableEnv {
  de_reset : ctrl -> ctrl; de_clients : ctrl -> ctrl; de_ready : ctrl -> list ctrl }.

Definition reset_ring (r : mhi_ring) : mhi_ring :=
  set_ctxt_wp (set_wp (set_rp r (base r)) (base r)) (iommu_base r).

Definition reset_event (e : mhi_event) : mhi_event :=
  if er_offload e then e
  else
    let r := reset_ring (mr_ring (er_q e)) in
    set_er_ctxt_rp (set_er_q e (MemRing r (mr_mem (er_q e)))) (iommu_base r).

(** [in_reset] keeps its last non-zero value when the register cannot be read. *)
Definition in_reset (k : ctrl_cfg) (c : ctrl) : res Z :=
  mhi_read_reg_field (io c) (c_regs k) MHICTRL MHICTRL_RESET_MASK MHICTRL_RESET_SHIFT.
Definition reset_cleared (k : ctrl_cfg) (c : ctrl) : bool :=
  match in_reset k c with Err _ => true | Ok v => v =? 0 end.

(** The reset handshake; [false] when the recovery has to be given up. *)
Definition trigger_reset (k : ctrl_cfg) (w : ctrl -> ctrl) (syserr : bool) (c : ctrl) : bool * ctrl :=
  let c := mhi_set_mhi_state k MHI_STATE_RESET c in
  let '(ret, c) := wait_event (reset_cleared k) w c in
  let still := match in_reset k c with Ok v => negb (v =? 0) | Err _ => true end in
  if (negb ret || still) && syserr then (false, c)
  else
    let m := mhi_write_reg_field (io c) (c_regs k) MHICFG MHICFG_NER_MASK MHICFG_NER_SHIFT
               NUM_MHI_EVT_RINGS in
    let m := mhi_write_reg_field m (c_regs k) MHICFG MHICFG_NHWER_MASK MHICFG_NHWER_SHIFT
               NUM_MHI_HW_EVT_RINGS in
    let m := mhi_write_reg m (c_bhi c) BHI_INTVEC (msi_irq_base k) in
    (true, set_io c m).

Definition mhi_destroy_timesync (c : ctrl) : ctrl :=
  match c_tsync c with
  | Some _ => set_c_tsync (emit NDestroyTimesync c) None
  | None => c
  end.

Definition mhi_pm_disable_transition (k : ctrl_cfg) (env : disable_env) (transition_state : Z)
    (c : ctrl) : ctrl :=
  let syserr := transition_state =? MHI_PM_SYS_ERR_PROCESS in
  let c := if syserr then emit (NStatusCb MHI_CB_SYS_ERROR) c else c in
  let prev_state := pm_state c in
  let '(c, cur_state) := mhi_tryset_pm_state c transition_state in
  let c := if cur_state =? transition_state
           then set_dev_state (set_ee c MHI_EE_DISABLE_TRANSITION) MHI_STATE_RESET else c in
  let c := emit NWakeUpAll c in
  if negb (cur_state =? transition_state) then c
  else
    let '(go, c) := if MHI_REG_ACCESS_VALID prev_state
                    then trigger_reset k (de_reset env) syserr c else (true, c) in
    if negb go then c
    else
      let c := emit NDestroyDevices c in
      let c := emit NWakeUpAll (de_clients env c) in
      let c := if negb (dev_wake c =? 0) then emit (NAssert "dev_wake != 0") c else c in
      let c := set_cmd c (MemRing (reset_ring (mr_ring (cmd c))) (mr_mem (cmd c))) in
      let c := set_events c (map reset_event (events c)) in
      let c := mhi_destroy_timesync c in
      if syserr then
        if (mhi_get_exec_env (io c) (c_bhi c) =? MHI_EE_EDL)
           && (mhi_get_mhi_state (io c) (c_regs k) =? MHI_STATE_RESET)
        then fst (mhi_tryset_pm_state (set_ee c MHI_EE_EDL) MHI_PM_POR)
        else snd (mhi_ready_state_transition k (de_ready env) c)
      else fst (mhi_tryset_pm_state c MHI_PM_DISABLE).

Definition mhi_pm_sys_err_worker (k : ctrl_cfg) (env : disable_env) (c : ctrl) : ctrl :=
  mhi_pm_disable_transition k env MHI_PM_SYS_ERR_PROCESS c.

Definition mhi_debugfs_trigger_reset (w : ctrl -> ctrl) (c : ctrl) : Z * ctrl :=
  let c := emits [NRuntimeGet; NRuntimePut] c in
  let '(ret, c) := wait_event (fun c => (dev_state c =? MHI_STATE_M0)
                                        || MHI_PM_IN_ERROR_STATE (pm_state c)) w c in
  if negb ret || MHI_PM_IN_ERROR_STATE (pm_state c) then (- EIO, c)
  else
    let '(c, cur_state) := mhi_tryset_pm_state c MHI_PM_SYS_ERR_DETECT in
    (0, if cur_state =? MHI_PM_SYS_ERR_DETECT then emit (NSchedule syserr_worker) c else c).

(** ** Workers *)

Definition mhi_pm_ready_worker (alloc_ok : bool) (c : ctrl) : ctrl :=
  if negb (dev_state c =? MHI_STATE_RESET) then c
  else
    let e := if MHI_REG_ACCESS_VALID (pm_state c)
             then mhi_get_exec_env (io c) (c_bhi c) else MHI_EE_MAX in
    if e =? MHI_EE_PTHRU then emit (NSchedule ready_worker) c
    else if (e =? MHI_EE_AMSS) || (e =? MHI_EE_SBL)
    then snd (mhi_queue_state_transition alloc_ok MHI_ST_TRANSITION_READY c)
    else if e =? MHI_EE_EDL
    then snd (mhi_queue_state_transition alloc_ok MHI_ST_TRANSITION_PBL c)
    else c.

(** What runs while a transition of the worker sleeps. *)
Record st_env := StEnv { se_wait : ctrl -> ctrl; se_ready : ctrl -> list ctrl }.

Definition st_one (k : ctrl_cfg) (env : st_env) (st : MHI_ST_TRANSITION) (c : ctrl) : ctrl :=
  match st with
  | MHI_ST_TRANSITION_PBL =>
      let c := if MHI_REG_ACCESS_VALID (pm_state c)
               then set_ee c (mhi_get_exec_env (io c) (c_bhi c)) else c in
      if MHI_IN_PBL (ee c) then emit NWakeUpAll c else c
  | MHI_ST_TRANSITION_SBL => emits [NWakeUpAll; NCreateDevices] (set_ee c MHI_EE_SBL)
  | MHI_ST_TRANSITION_MISSION_MODE => snd (mhi_pm_mission_mode_transition k (se_wait env) c)
  | MHI_ST_TRANSITION_READY => snd (mhi_ready_state_transition k (se_ready env) c)
  | MHI_ST_TRANSITION_FP => emits [NWakeUpAll; NCreateDevices] (set_ee c MHI_EE_FP)
  end.

Definition mhi_pm_st_worker (k : ctrl_cfg) (env : st_env) (c : ctrl) : ctrl :=
  let head := transition_list c in
  fold_left (fun c st => st_one k env st c) head (set_transition_list c []).

(** ** Interrupt *)

Definition mhi_intvec_threaded_handlr (k : ctrl_cfg) (c : ctrl) : ctrl :=
  let '(state, e) :=
    if MHI_REG_ACCESS_VALID (pm_state c)
    then (mhi_get_mhi_state (io c) (c_regs k), mhi_get_exec_env (io c) (c_bhi c))
    else (MHI_STATE_MAX, MHI_EE_MAX) in
  let '(c, pm) :=
    if (state =? MHI_STATE_SYS_ERR) && negb (pm_state c =? MHI_PM_SYS_ERR_DETECT)
    then mhi_tryset_pm_state c MHI_PM_SYS_ERR_DETECT else (c, 0) in
  let c :=
    if pm =? MHI_PM_SYS_ERR_DETECT then
      let c := emit NWakeUpAll c in
      if negb (ee c =? e) then emit (NSchedule syserr_worker) c
      else if MHI_IN_PBL e then emit (NStatusCb MHI_CB_FATAL_ERROR) c
      else emit (NSchedule syserr_worker) c
    else c in
  if pm =? MHI_PM_POR then emit NWakeUpAll c else c.

(** ** Power up and down *)

(** What power up gets from outside: the results of setting up the device
    context and the interrupts, and the stack garbage in [regVal] when the
    configuration register cannot be read. *)
Record powerup_env := PowerupEnv {
  pe_dev_ctxt : ctrl -> Z * ctrl; pe_irq : Z; pe_garbage : Z; pe_sleep : ctrl -> ctrl;
  pe_alloc : bool }.

Definition MHI_WRITE_REG_FIELD (var mask shift val : Z) : Z :=
  Z.lor (Z.land var (u32 (Z.lnot mask))) (u32 (Z.shiftl val shift)).

Definition mhi_async_power_up (k : ctrl_cfg) (env : powerup_env) (c : ctrl) : Z * ctrl :=
  let c := if MHI_STATE_M0 <=? mhi_get_mhi_state (io c) (c_regs k)
           then pe_sleep env (mhi_set_mhi_state k MHI_STATE_RESET c) else c in
  let regVal := match mhi_read_reg (io c) (c_regs k) MHICFG with
                | Ok v => v | Err _ => pe_garbage env end in
  let regVal := MHI_WRITE_REG_FIELD regVal MHICFG_NER_MASK MHICFG_NER_SHIFT NUM_MHI_EVT_RINGS in
  let regVal := MHI_WRITE_REG_FIELD regVal MHICFG_NHWER_MASK MHICFG_NHWER_SHIFT NUM_MHI_HW_EVT_RINGS in
  let c := set_io c (mhi_write_reg (io c) (c_regs k) MHICFG regVal) in
  let c := set_dev_state (set_pm_state c MHI_PM_DISABLE) MHI_STATE_RESET in
  let '(ret, c) := if pre_init k then (0, c) else pe_dev_ctxt env c in
  if negb (ret =? 0) then (ret, c)
  else
    let ret := if pre_init k then 0 else pe_irq env in
    if negb (ret =? 0) then (ret, c)
    else
      match mhi_read_reg (io c) (c_regs k) BHIOFF with
      | Err e => (e, c)
      | Ok val =>
          let c := set_c_bhi c (c_regs k + val) in
          match mhi_read_reg (io c) (c_regs k) BHIEOFF with
          | Err e => (e, c)
          | Ok _ =>
              let c := set_io c (mhi_write_reg (io c) (c_bhi c) BHI_INTVEC (msi_irq_base k)) in
              let c := set_ee (set_pm_state c MHI_PM_POR) MHI_EE_MAX in
              let current_ee := mhi_get_exec_env (io c) (c_bhi c) in
              if MHI_IN_PBL current_ee then (0, emit (NSchedule ready_worker) c)
              else (0, snd (mhi_queue_state_transition (pe_alloc env) MHI_ST_TRANSITION_READY c))
          end
      end.

Definition mhi_sync_power_up (k : ctrl_cfg) (env : powerup_env) (w : ctrl -> ctrl) (c : ctrl)
  : Z * ctrl :=
  let '(ret, c) := mhi_async_power_up k env c in
  if negb (ret =? 0) then (ret, c)
  else
    let '(_, c) := wait_event (fun c => MHI_IN_MISSION_MODE (ee c)
                                        || MHI_PM_IN_ERROR_STATE (pm_state c)) w c in
    (if MHI_IN_MISSION_MODE (ee c) then 0 else - EIO, c).

Definition mhi_power_down (k : ctrl_cfg) (env : disable_env) (graceful : bool) (c : ctrl) : ctrl :=
  let c := if graceful then c else fst (mhi_tryset_pm_state c MHI_PM_LD_ERR_FATAL_DETECT) in
  mhi_pm_disable_transition k env MHI_PM_SHUTDOWN_PROCESS c.

(** ** Suspend and resume *)

Definition notify_lpm (k : ctrl_cfg) (cb : MHI_CB) (c : ctrl) : ctrl :=
  emits (map (fun ch => NNotify ch cb) (lpm_chans k)) c.

Definition mhi_pm_suspend (k : ctrl_cfg) (w1 w2 : ctrl -> ctrl) (c : ctrl) : Z * ctrl :=
  if pm_state c =? MHI_PM_DISABLE then (- EINVAL, c)
  else if MHI_PM_IN_ERROR_STATE (pm_state c) then (- EIO, c)
  else if negb (dev_wake c =? 0) then (- EBUSY, c)
  else if negb (xfer_paths c =? 0) then (- EBUSY, c)
  else
    let c := mhi_assert_dev_wake c in
    let '(ret, c) := wait_event (fun c => (dev_state c =? MHI_STATE_M0)
                       || (dev_state c =? MHI_STATE_M1)
                       || MHI_PM_IN_ERROR_STATE (pm_state c)) w1 c in
    if negb ret || MHI_PM_IN_ERROR_STATE (pm_state c) then (- EIO, mhi_deassert_dev_wake c)
    else if 1 <? dev_wake c then (- EBUSY, mhi_deassert_dev_wake c)
    else
      let '(c, new_state) := mhi_tryset_pm_state c MHI_PM_M3_ENTER in
      if negb (new_state =? MHI_PM_M3_ENTER) then (- EIO, mhi_deassert_dev_wake c)
      else
        let c := mhi_deassert_dev_wake (mhi_set_mhi_state k MHI_STATE_M3 c) in
        let '(ret, c) := wait_event (fun c => (dev_state c =? MHI_STATE_M3)
                           || MHI_PM_IN_ERROR_STATE (pm_state c)) w2 c in
        if negb ret || MHI_PM_IN_ERROR_STATE (pm_state c) then (- EIO, c)
        else (0, notify_lpm k MHI_CB_LPM_ENTER c).

Definition mhi_pm_resume (k : ctrl_cfg) (w : ctrl -> ctrl) (c : ctrl) : Z * ctrl :=
  if pm_state c =? MHI_PM_DISABLE then (0, c)
  else if MHI_PM_IN_ERROR_STATE (pm_state c) then (- EIO, c)
  else
    let c := if negb (pm_state c =? MHI_PM_M3) then emit (NAssert "mhi_pm_state != M3") c else c in
    let c := notify_lpm k MHI_CB_LPM_EXIT c in
    let '(c, cur_state) := mhi_tryset_pm_state c MHI_PM_M3_EXIT in
    if negb (cur_state =? MHI_PM_M3_EXIT) then (- EIO, c)
    else
      let c := mhi_set_mhi_state k MHI_STATE_M0 (mhi_assert_dev_wake c) in
      let '(ret, c) := wait_event (fun c => (dev_state c =? MHI_STATE_M0)
                                            || MHI_PM_IN_ERROR_STATE (pm_state c)) w c in
      let c := mhi_deassert_dev_wake c in
      if negb ret || MHI_PM_IN_ERROR_STATE (pm_state c)
      then (- EIO, mhi_intvec_threaded_handlr k c)
      else (0, c).

Definition mhi_force_rddm_mode (k : ctrl_cfg) (w : ctrl -> ctrl) (c : ctrl) : Z * ctrl :=
  let c := mhi_set_mhi_state k MHI_STATE_SYS_ERR c in
  let '(ret, c) := wait_event (fun c => ee c =? MHI_EE_RDDM) w c in
  (if ret then 0 else - EIO, c).

(** ** Specification of the power states *)

Definition pm_states : list Z :=
  [MHI_PM_DISABLE; MHI_PM_POR; MHI_PM_M0; MHI_PM_M2; MHI_PM_M3_ENTER; MHI_PM_M3; MHI_PM_M3_EXIT;
   MHI_PM_FW_DL_ERR; MHI_PM_SYS_ERR_DETECT; MHI_PM_SYS_ERR_PROCESS; MHI_PM_SHUTDOWN_PROCESS;
   MHI_PM_LD_ERR_FATAL_DETECT].

(** The priority levels of the comment above the table. *)
Definition pm_level (s : Z) : Z :=
  if s =? MHI_PM_LD_ERR_FATAL_DETECT then 3
  else if s =? MHI_PM_SHUTDOWN_PROCESS then 2
  else if (s =? MHI_PM_SYS_ERR_DETECT) || (s =? MHI_PM_SYS_ERR_PROCESS) then 1
  else 0.

(** The transitions the comment lists one by one. *)
Definition doc_listed : list (Z * Z) :=
  [(MHI_PM_DISABLE, MHI_PM_POR); (MHI_PM_POR, MHI_PM_DISABLE); (MHI_PM_POR, MHI_PM_POR);
   (MHI_PM_POR, MHI_PM_M0); (MHI_PM_M0, MHI_PM_M2); (MHI_PM_M2, MHI_PM_M0);
   (MHI_PM_POR, MHI_PM_FW_DL_ERR); (MHI_PM_FW_DL_ERR, MHI_PM_FW_DL_ERR);
   (MHI_PM_M0, MHI_PM_FW_DL_ERR); (MHI_PM_M0, MHI_PM_M3_ENTER); (MHI_PM_M3_ENTER, MHI_PM_M3);
   (MHI_PM_M3, MHI_PM_M3_EXIT); (MHI_PM_M3_EXIT, MHI_PM_M0);
   (MHI_PM_SYS_ERR_DETECT, MHI_PM_SYS_ERR_PROCESS); (MHI_PM_SYS_ERR_PROCESS, MHI_PM_POR);
   (MHI_PM_SHUTDOWN_PROCESS, MHI_PM_DISABLE);
   (MHI_PM_LD_ERR_FATAL_DETECT, MHI_PM_LD_ERR_FATAL_DETECT);
   (MHI_PM_LD_ERR_FATAL_DETECT, MHI_PM_SHUTDOWN_PROCESS)].

(** From any state but DISABLE, the start state of a higher level. *)
Definition doc_priority (s t : Z) : bool :=
  negb (s =? MHI_PM_DISABLE) && (pm_level s <? pm_level t)
  && ((t =? MHI_PM_SYS_ERR_DETECT) || (t =? MHI_PM_SHUTDOWN_PROCESS)
      || (t =? MHI_PM_LD_ERR_FATAL_DETECT)).

Definition doc_edge (s t : Z) : bool := bool_decide ((s, t) ∈ doc_listed) || doc_priority s t.

(** A walk through the power states: the states visited after [s]. *)
Inductive pm_path : Z -> list Z -> Z -> Prop :=
| path_nil s : pm_path s [] s
| path_step s t l u : doc_edge s t = true -> pm_path t l u -> pm_path s (t :: l) u.

Definition walks (s t : Z) : Prop := exists l, pm_path s l t.
Definition moves (c c' : ctrl) : Prop := walks (pm_state c) (pm_state c').

#[global] Instance walks_refl : Reflexive walks.
Proof. intros s. exists []. constructor. Qed.

#[global] Instance walks_trans : Transitive walks.
Proof.
  intros s t u [l H1] [l' H2]. exists (l ++ l'). induction H1; [done|]. cbn. by econstructor; eauto.
Qed.

#[global] Instance moves_refl : Reflexive moves.
Proof. intros c. unfold moves. reflexivity. Qed.

#[global] Instance moves_trans : Transitive moves.
Proof. intros a b c. apply walks_trans. Qed.

(** Anything that leaves the power state alone moves nowhere. *)
Lemma moves_same c c' : pm_state c' = pm_state c -> moves c c'.
Proof. intros E. unfold moves. by rewrite E. Qed.

(** ** The table and the comment *)

Lemma tryset_table : forall s t, s ∈ pm_states -> t ∈ pm_states ->
  tryset s t = if doc_edge s t then t else s.
Proof.
  intros s t Hs Ht.
  assert (H : forallb (fun s => forallb (fun t =>
      tryset s t =? (if doc_edge s t then t else s)) pm_states) pm_states = true)
    by (vm_compute; reflexivity).
  rewrite forallb_forall in H. apply list_elem_of_In in Hs, Ht.
  specialize (H s Hs). rewrite forallb_forall in H. apply Z.eqb_eq, (H t Ht).
Qed.

Lemma tryset_invalid s t : s ∉ pm_states -> tryset s t = s.
Proof.
  intros Hs. unfold tryset. destruct (zget mhi_state_transitions (find_last_bit s)) as [[f ts]|] eqn:E; [|done].
  destruct (Z.eqb_spec f s) as [->|]; [|done]. exfalso. apply Hs.
  unfold zget in E. destruct (find_last_bit s <? 0); [done|].
  apply list_elem_of_lookup_2, (list_elem_of_fmap_2 fst) in E. exact E.
Qed.

Lemma tryset_walks s t : t ∈ pm_states -> walks s (tryset s t).
Proof.
  intros Ht. destruct (decide (s ∈ pm_states)) as [Hs|Hs].
  - rewrite tryset_table by done. destruct (doc_edge s t) eqn:E; [|reflexivity].
    exists [t]. econstructor; [done|constructor].
  - by rewrite tryset_invalid.
Qed.

Ltac in_states := apply (bool_decide_unpack _); vm_compute; exact I.

Lemma tryset_moves c t : t ∈ pm_states -> moves c (fst (mhi_tryset_pm_state c t)).
Proof. intros. unfold moves. by apply tryset_walks. Qed.

(** The valid states are closed under walking. *)
Lemma walks_valid s t : walks s t -> s ∈ pm_states -> t ∈ pm_states.
Proof.
  intros [l H]. induction H as [|s t l u He _ IH]; [done|]. intros Hs. apply IH.
  assert (H : forallb (fun p => bool_decide (snd p ∈ pm_states)) doc_listed = true)
    by (vm_compute; reflexivity).
  unfold doc_edge in He. apply orb_true_iff in He as [He|He].
  - apply bool_decide_eq_true, list_elem_of_In in He. rewrite forallb_forall in H.
    specialize (H _ He). by apply bool_decide_eq_true in H.
  - unfold doc_priority in He. apply andb_true_iff in He as [_ He].
    rewrite !orb_true_iff, !Z.eqb_eq in He. destruct He as [[-> | ->] | ->]; in_states.
Qed.

(** Out of the fatal state there is no way but through DISABLE. *)
Lemma fatal_closed s t :
  s ∈ [MHI_PM_LD_ERR_FATAL_DETECT; MHI_PM_SHUTDOWN_PROCESS] -> doc_edge s t = true ->
  t = MHI_PM_DISABLE \/ t ∈ [MHI_PM_LD_ERR_FATAL_DETECT; MHI_PM_SHUTDOWN_PROCESS].
Proof.
  intros Hs He. destruct (decide (t ∈ pm_states)) as [Ht|Ht].
  - assert (H : forallb (fun s => forallb (fun t => negb (doc_edge s t) || (t =? MHI_PM_DISABLE)
        || bool_decide (t ∈ [MHI_PM_LD_ERR_FATAL_DETECT; MHI_PM_SHUTDOWN_PROCESS])) pm_states)
        [MHI_PM_LD_ERR_FATAL_DETECT; MHI_PM_SHUTDOWN_PROCESS] = true) by (vm_compute; reflexivity).
    rewrite forallb_forall in H. apply list_elem_of_In in Hs, Ht. specialize (H s Hs).
    rewrite forallb_forall in H. specialize (H t Ht). rewrite He in H. cbn [negb orb] in H.
    apply orb_true_iff in H as [H|H]; [left; by apply Z.eqb_eq|right; by apply bool_decide_eq_true in H].
  - exfalso. apply Ht. apply (walks_valid s); [exists [t]; econstructor; [done|constructor]|].
    set_unfold in Hs. destruct Hs as [-> |[-> |[]]]; in_states.
Qed.

Lemma fatal_path s l t :
  pm_path s l t -> s ∈ [MHI_PM_LD_ERR_FATAL_DETECT; MHI_PM_SHUTDOWN_PROCESS] ->
  MHI_PM_DISABLE ∈ l \/ t ∈ [MHI_PM_LD_ERR_FATAL_DETECT; MHI_PM_SHUTDOWN_PROCESS].
Proof.
  induction 1 as [|s t l u He _ IH]; intros Hs; [by right|].
  destruct (fatal_closed s t Hs He) as [-> |Ht]; [left; left|].
  destruct (IH Ht); [left; by right|by right].
Qed.

(** ** What each handler does to the power state *)

Lemma pm_emit n c : pm_state (emit n c) = pm_state c.
Proof. done. Qed.

Lemma pm_emits ns c : pm_state (emits ns c) = pm_state c.
Proof. done. Qed.

Lemma pm_ring_er_db e c : pm_state (fst (ring_er_db e c)) = pm_state c.
Proof. unfold ring_er_db. by destruct (mhi_ring_er_db _ _ _). Qed.

Lemma pm_ring_chan_db h c : pm_state (fst (ring_chan_db h c)) = pm_state c.
Proof. unfold ring_chan_db. by destruct (mhi_ring_chan_db _ _ _) as [[? ?] ?]. Qed.

Lemma pm_ring_cmd_db c : pm_state (ring_cmd_db c) = pm_state c.
Proof. unfold ring_cmd_db. by destruct (mhi_ring_cmd_db _ _). Qed.

(** A field of the controller that the body of a loop leaves alone. *)
Lemma over_events_field {B} (g : ctrl -> B) f c :
  (forall c es, g (set_events c es) = g c) -> (forall e c, g (fst (f e c)) = g c) ->
  g (over_events f c) = g c.
Proof.
  intros Hs Hf. unfold over_events. pose proof (map_st_field f g (events c) c Hf) as H.
  destruct (map_st f (events c) c). by rewrite Hs.
Qed.

Lemma over_chans_field {B} (g : ctrl -> B) f c :
  (forall c hs, g (set_chans c hs) = g c) -> (forall h c, g (fst (f h c)) = g c) ->
  g (over_chans f c) = g c.
Proof.
  intros Hs Hf. unfold over_chans. pose proof (map_st_field f g (chans c) c Hf) as H.
  destruct (map_st f (chans c) c). by rewrite Hs.
Qed.

Lemma pm_over_events f c :
  (forall e c, pm_state (fst (f e c)) = pm_state c) -> pm_state (over_events f c) = pm_state c.
Proof. by apply over_events_field. Qed.

Lemma pm_over_chans f c :
  (forall h c, pm_state (fst (f h c)) = pm_state c) -> pm_state (over_chans f c) = pm_state c.
Proof. by apply over_chans_field. Qed.

Lemma pm_ready_event e c : pm_state (fst (ready_event e c)) = pm_state c.
Proof. unfold ready_event. split_match; [done|apply pm_ring_er_db]. Qed.

Lemma pm_m0_event e c : pm_state (fst (m0_event e c)) = pm_state c.
Proof. unfold m0_event. split_match; [done|apply pm_ring_er_db]. Qed.

Lemma pm_mission_event e c : pm_state (fst (mission_event e c)) = pm_state c.
Proof. unfold mission_event. repeat split_match; try done. apply pm_ring_er_db. Qed.

Lemma pm_m0_chan h c : pm_state (fst (m0_chan h c)) = pm_state c.
Proof.
  unfold m0_chan. destruct (negb _ && negb _); [apply pm_ring_chan_db|done].
Qed.

Lemma pm_assert_wake c : pm_state (mhi_assert_dev_wake c) = pm_state c.
Proof. unfold mhi_assert_dev_wake. by split_match. Qed.

Lemma pm_set_mhi_state k s c : pm_state (mhi_set_mhi_state k s c) = pm_state c.
Proof. unfold mhi_set_mhi_state. by split_match. Qed.

Lemma pm_init_mmio k c : pm_state (snd (mhi_init_mmio k c)) = pm_state c.
Proof. unfold mhi_init_mmio. by repeat split_match. Qed.

Lemma pm_destroy_timesync c : pm_state (mhi_destroy_timesync c) = pm_state c.
Proof. unfold mhi_destroy_timesync. by split_match. Qed.

Lemma pm_queue_transition ok st c : pm_state (snd (mhi_queue_state_transition ok st c)) = pm_state c.
Proof. unfold mhi_queue_state_transition. by split_match. Qed.

Create HintDb pm discriminated.
Create Rewrite HintDb pm.
#[export] Hint Rewrite pm_assert_wake pm_set_mhi_state pm_init_mmio pm_destroy_timesync
  pm_queue_transition pm_ring_cmd_db : pm.
#[export] Hint Resolve pm_ready_event pm_m0_event pm_mission_event pm_m0_chan moves_same : pm.

(** While a handler sleeps, the rest of the system only moves along the table. *)
Definition rely (w : ctrl -> ctrl) : Prop := forall c, moves c (w c).

Fixpoint rely_obs (c : ctrl) (obs : list ctrl) : Prop :=
  match obs with [] => True | o :: obs => moves c o /\ rely_obs o obs end.

Lemma wait_event_moves cond w c : rely w -> moves c (snd (wait_event cond w c)).
Proof. intros Hw. unfold wait_event. split_match; [reflexivity|apply Hw]. Qed.

Lemma ready_poll_moves k obs reset ready c :
  rely_obs c obs -> moves c (snd (ready_poll k obs reset ready c)).
Proof.
  revert reset ready c. induction obs as [|o obs IH]; intros reset ready c H; cbn [ready_poll];
    destruct (ready_cond k reset ready c) as [[ok r] y]; destruct ok; cbn; try reflexivity.
  destruct H as [Hm H]. etransitivity; [exact Hm|]. by apply IH.
Qed.

Lemma ready_moves k w c :
  rely_obs c (w c) -> moves c (snd (mhi_ready_state_transition k w c)).
Proof.
  intros Hw. unfold mhi_ready_state_transition.
  pose proof (ready_poll_moves k (w c) 1 0 c Hw) as Hp.
  destruct (ready_poll k (w c) 1 0 c) as [[reset ready] c1]. cbn [snd] in Hp.
  split_match; [exact Hp|]. split_match; [exact Hp|].
  etransitivity; [exact Hp|]. clear Hp.
  pose proof (tryset_moves c1 MHI_PM_POR ltac:(in_states)) as Ht.
  destruct (mhi_tryset_pm_state c1 MHI_PM_POR) as [c2 cur]. cbn [fst] in Ht.
  etransitivity; [exact Ht|]. clear Ht. apply moves_same.
  split_match; [done|]. split_match; [done|].
  destruct (mhi_init_mmio k _) as [ret c3] eqn:Hi.
  apply (f_equal (fun p => pm_state (snd p))) in Hi. rewrite pm_init_mmio in Hi.
  cbn in Hi. split_match; cbn [snd]; [done|].
  rewrite pm_set_mhi_state, pm_over_events by apply pm_ready_event. done.
Qed.

Lemma m0_moves c : moves c (snd (mhi_pm_m0_transition c)).
Proof.
  unfold mhi_pm_m0_transition.
  pose proof (tryset_moves (set_dev_state c MHI_STATE_M0) MHI_PM_M0 ltac:(in_states)) as Ht.
  destruct (mhi_tryset_pm_state _ _) as [c2 cur]. cbn [fst] in Ht.
  etransitivity; [exact Ht|]. apply moves_same. unfold mhi_deassert_dev_wake.
  split_match; [done|]. cbn [snd].
  rewrite pm_emit, pm_over_chans by apply pm_m0_chan. split_match; [|by rewrite pm_assert_wake].
  split_match; rewrite ?pm_ring_cmd_db, pm_over_events by apply pm_m0_event; by rewrite pm_assert_wake.
Qed.

Lemma m1_moves k c : moves c (mhi_pm_m1_transition k c).
Proof.
  unfold mhi_pm_m1_transition.
  pose proof (tryset_moves c MHI_PM_M2 ltac:(in_states)) as Ht.
  destruct (mhi_tryset_pm_state _ _) as [c2 cur]. cbn [fst] in Ht.
  etransitivity; [exact Ht|]. apply moves_same. split_match; [|done].
  split_match; [unfold mhi_deassert_dev_wake; rewrite pm_assert_wake|]; cbn; by rewrite pm_set_mhi_state.
Qed.

Lemma m3_moves c : moves c (snd (mhi_pm_m3_transition c)).
Proof.
  unfold mhi_pm_m3_transition.
  pose proof (tryset_moves (set_dev_state c MHI_STATE_M3) MHI_PM_M3 ltac:(in_states)) as Ht.
  destruct (mhi_tryset_pm_state _ _) as [c2 cur]. cbn [fst] in Ht.
  etransitivity; [exact Ht|]. apply moves_same. by split_match.
Qed.

Lemma get_sync_moves w c : rely w -> moves c (snd (mhi_device_get_sync_ctrl w c)).
Proof.
  intros Hw. unfold mhi_device_get_sync_ctrl.
  set (c1 := if MHI_PM_IN_SUSPEND_STATE _ then _ else _).
  assert (H1 : pm_state c1 = pm_state c).
  { subst c1. split_match; cbn; by rewrite pm_assert_wake. }
  match goal with |- context [wait_event ?cond w c1] =>
    pose proof (wait_event_moves cond w c1 Hw) as Hm; destruct (wait_event cond w c1) as [ret c2] end.
  cbn [snd] in Hm. transitivity c1; [by apply moves_same|]. by split_match.
Qed.

Lemma mission_moves k w c : rely w -> moves c (snd (mhi_pm_mission_mode_transition k w c)).
Proof.
  intros Hw. unfold mhi_pm_mission_mode_transition.
  pose proof (get_sync_moves w (emit (NStatusCb MHI_CB_EE_MISSION_MODE) c) Hw) as Hm.
  destruct (mhi_device_get_sync_ctrl w _) as [ret c1]. cbn [snd] in Hm.
  etransitivity; [exact Hm|]. split_match; [reflexivity|]. apply moves_same.
  set (c2 := if MHI_REG_ACCESS_VALID _ then _ else _).
  assert (H2 : pm_state c2 = pm_state c1) by (subst c2; by split_match).
  unfold mhi_deassert_dev_wake. split_match; [done|]. split_match; [done|]. cbn [snd].
  rewrite !pm_emit, pm_over_events by apply pm_mission_event. done.
Qed.

Lemma ready_worker_moves ok c : moves c (mhi_pm_ready_worker ok c).
Proof.
  apply moves_same. unfold mhi_pm_ready_worker. cbn zeta.
  repeat (split_match; try done); by rewrite ?pm_queue_transition.
Qed.

Lemma intvec_moves k c : moves c (mhi_intvec_threaded_handlr k c).
Proof.
  unfold mhi_intvec_threaded_handlr.
  destruct (if MHI_REG_ACCESS_VALID (pm_state c) then _ else _) as [state e].
  pose proof (tryset_moves c MHI_PM_SYS_ERR_DETECT ltac:(in_states)) as Ht.
  destruct (_ && _).
  - destruct (mhi_tryset_pm_state c MHI_PM_SYS_ERR_DETECT) as [c1 pm]. cbn [fst] in Ht.
    etransitivity; [exact Ht|]. apply moves_same. by repeat split_match.
  - apply moves_same. by repeat split_match.
Qed.

Lemma suspend_moves k w1 w2 c : rely w1 -> rely w2 -> moves c (snd (mhi_pm_suspend k w1 w2 c)).
Proof.
  intros Hw1 Hw2. unfold mhi_pm_suspend, mhi_deassert_dev_wake.
  do 4 (split_match; [reflexivity|]).
  match goal with |- context [wait_event ?cond w1 ?c0] =>
    pose proof (wait_event_moves cond w1 c0 Hw1) as Hm; destruct (wait_event cond w1 c0) as [ret c1] end.
  cbn [snd] in Hm. transitivity (mhi_assert_dev_wake c); [apply moves_same, pm_assert_wake|].
  etransitivity; [exact Hm|]. do 2 (split_match; [reflexivity|]).
  pose proof (tryset_moves c1 MHI_PM_M3_ENTER ltac:(in_states)) as Ht.
  destruct (mhi_tryset_pm_state c1 MHI_PM_M3_ENTER) as [c2 cur]. cbn [fst] in Ht.
  etransitivity; [exact Ht|]. split_match; [reflexivity|].
  match goal with |- context [wait_event ?cond w2 ?c0] =>
    pose proof (wait_event_moves cond w2 c0 Hw2) as Hm2;
    destruct (wait_event cond w2 c0) as [ret2 c3] end. cbn [snd] in Hm2.
  transitivity (mhi_set_mhi_state k MHI_STATE_M3 c2); [apply moves_same, pm_set_mhi_state|].
  by split_match.
Qed.

Lemma resume_moves k w c : rely w -> moves c (snd (mhi_pm_resume k w c)).
Proof.
  intros Hw. unfold mhi_pm_resume, mhi_deassert_dev_wake. do 2 (split_match; [reflexivity|]).
  set (c0 := notify_lpm k _ _).
  assert (H0 : pm_state c0 = pm_state c) by (subst c0; cbn; by split_match).
  pose proof (tryset_moves c0 MHI_PM_M3_EXIT ltac:(in_states)) as Ht.
  destruct (mhi_tryset_pm_state c0 MHI_PM_M3_EXIT) as [c2 cur]. cbn [fst] in Ht.
  transitivity c0; [by apply moves_same|]. etransitivity; [exact Ht|]. split_match; [reflexivity|].
  match goal with |- context [wait_event ?cond w ?c0] =>
    pose proof (wait_event_moves cond w c0 Hw) as Hm; destruct (wait_event cond w c0) as [ret c3] end.
  cbn [snd] in Hm. etransitivity; [|etransitivity; [exact Hm|]].
  - apply moves_same. by rewrite pm_set_mhi_state, pm_assert_wake.
  - split_match; [apply intvec_moves|reflexivity].
Qed.

Lemma trigger_reset_moves k w syserr c : rely w -> moves c (snd (trigger_reset k w syserr c)).
Proof.
  intros Hw. unfold trigger_reset.
  match goal with |- context [wait_event ?cond w ?c0] =>
    pose proof (wait_event_moves cond w c0 Hw) as Hm; destruct (wait_event cond w c0) as [ret c1] end.
  cbn [snd] in Hm. transitivity (mhi_set_mhi_state k MHI_STATE_RESET c);
    [apply moves_same, pm_set_mhi_state|]. etransitivity; [exact Hm|].
  apply moves_same. by repeat split_match.
Qed.

(** The rely condition of a shutdown: each of its three sleeps. *)
Definition rely_disable (env : disable_env) : Prop :=
  rely (de_reset env) /\ rely (de_clients env) /\ forall c, rely_obs c (de_ready env c).

Lemma disable_moves k env ts c :
  ts ∈ pm_states -> rely_disable env -> moves c (mhi_pm_disable_transition k env ts c).
Proof.
  intros Hts (Hr & Hc & Hy). unfold mhi_pm_disable_transition.
  set (c0 := if ts =? MHI_PM_SYS_ERR_PROCESS then _ else _).
  transitivity c0; [apply moves_same; subst c0; by split_match|].
  pose proof (tryset_moves c0 ts Hts) as Ht.
  destruct (mhi_tryset_pm_state c0 ts) as [c1 cur]. cbn [fst] in Ht.
  etransitivity; [exact Ht|]. set (c2 := if cur =? ts then _ else _).
  transitivity (emit NWakeUpAll c2); [apply moves_same; subst c2; by split_match|].
  split_match; [reflexivity|].
  match goal with |- context [let '(go, c) := ?e in _] => set (tr := e) end.
  assert (Htr : moves (emit NWakeUpAll c2) (snd tr)).
  { subst tr. split_match; [by apply trigger_reset_moves|reflexivity]. }
  destruct tr as [go c3]. cbn [snd] in Htr. etransitivity; [exact Htr|].
  split_match; [reflexivity|].
  transitivity (de_clients env (emit NDestroyDevices c3)); [apply (Hc (emit NDestroyDevices c3))|].
  set (c4 := de_clients env _).
  match goal with |- context [mhi_destroy_timesync ?x] => set (c5 := mhi_destroy_timesync x) end.
  transitivity c5.
  { apply moves_same. subst c5. rewrite pm_destroy_timesync. cbn. by split_match. }
  split_match; [|by apply tryset_moves; in_states].
  split_match; [|apply ready_moves, Hy].
  apply (tryset_moves (set_ee c5 MHI_EE_EDL)). in_states.
Qed.

Lemma power_down_moves k env graceful c :
  rely_disable env -> moves c (mhi_power_down k env graceful c).
Proof.
  intros He. unfold mhi_power_down. etransitivity; [|apply disable_moves; [in_states|done]].
  destruct graceful; [reflexivity|apply tryset_moves; in_states].
Qed.

Lemma debugfs_reset_moves w c : rely w -> moves c (snd (mhi_debugfs_trigger_reset w c)).
Proof.
  intros Hw. unfold mhi_debugfs_trigger_reset.
  match goal with |- context [wait_event ?cond w ?c0] =>
    pose proof (wait_event_moves cond w c0 Hw) as Hm; destruct (wait_event cond w c0) as [ret c1] end.
  cbn [snd] in Hm. transitivity c1; [exact Hm|]. split_match; [reflexivity|].
  pose proof (tryset_moves c1 MHI_PM_SYS_ERR_DETECT ltac:(in_states)) as Ht.
  destruct (mhi_tryset_pm_state _ _) as [c2 cur]. cbn [fst snd] in *.
  etransitivity; [exact Ht|]. apply moves_same. by split_match.
Qed.

Definition rely_st (env : st_env) : Prop :=
  rely (se_wait env) /\ forall c, rely_obs c (se_ready env c).

Lemma st_one_moves k env st c : rely_st env -> moves c (st_one k env st c).
Proof.
  intros [Hw Hy]. destruct st; cbn [st_one].
  - apply moves_same. by repeat split_match.
  - apply ready_moves, Hy.
  - by apply moves_same.
  - by apply mission_moves.
  - by apply moves_same.
Qed.

Lemma st_worker_moves k env c : rely_st env -> moves c (mhi_pm_st_worker k env c).
Proof.
  intros He. unfold mhi_pm_st_worker. transitivity (set_transition_list c []); [by apply moves_same|].
  generalize (set_transition_list c []). induction (transition_list c) as [|st l IH]; intros c'; [reflexivity|].
  cbn [fold_left]. etransitivity; [by apply st_one_moves|apply IH].
Qed.

(** ** Runs of handlers *)

(** One handler run from beginning to end, in any order and with any
    behaviour of the rest of the system while it sleeps. *)
Inductive handler_run (k : ctrl_cfg) : ctrl -> ctrl -> Prop :=
| hr_ready w c : rely_obs c (w c) -> handler_run k c (snd (mhi_ready_state_transition k w c))
| hr_m0 c : handler_run k c (snd (mhi_pm_m0_transition c))
| hr_m1 c : handler_run k c (mhi_pm_m1_transition k c)
| hr_m3 c : handler_run k c (snd (mhi_pm_m3_transition c))
| hr_mission w c : rely w -> handler_run k c (snd (mhi_pm_mission_mode_transition k w c))
| hr_syserr env c : rely_disable env -> handler_run k c (mhi_pm_sys_err_worker k env c)
| hr_power_down env graceful c : rely_disable env -> handler_run k c (mhi_power_down k env graceful c)
| hr_debugfs w c : rely w -> handler_run k c (snd (mhi_debugfs_trigger_reset w c))
| hr_queue ok st c : handler_run k c (snd (mhi_queue_state_transition ok st c))
| hr_ready_worker ok c : handler_run k c (mhi_pm_ready_worker ok c)
| hr_st_worker env c : rely_st env -> handler_run k c (mhi_pm_st_worker k env c)
| hr_intvec c : handler_run k c (mhi_intvec_threaded_handlr k c)
| hr_suspend w1 w2 c : rely w1 -> rely w2 -> handler_run k c (snd (mhi_pm_suspend k w1 w2 c))
| hr_resume w c : rely w -> handler_run k c (snd (mhi_pm_resume k w c))
| hr_get w c : rely w -> handler_run k c (snd (mhi_device_get_sync_ctrl w c))
| hr_rddm w c : rely w -> handler_run k c (snd (mhi_force_rddm_mode k w c)).

Lemma handler_run_moves k c c' : handler_run k c c' -> moves c c'.
Proof.
  destruct 1; eauto using ready_moves, m0_moves, m1_moves, m3_moves, mission_moves,
    power_down_moves, debugfs_reset_moves, ready_worker_moves, st_worker_moves, intvec_moves,
    suspend_moves, resume_moves, get_sync_moves.
  - apply disable_moves; [in_states|done].
  - apply moves_same, pm_queue_transition.
  - unfold mhi_force_rddm_mode.
    match goal with |- context [wait_event ?cond w ?c0] =>
      pose proof (wait_event_moves cond w c0 H) as Hm; destruct (wait_event cond w c0) as [ret c1] end.
    etransitivity; [|exact Hm]. apply moves_same, pm_set_mhi_state.
Qed.

Lemma handler_runs_moves k c c' : rtc (handler_run k) c c' -> moves c c'.
Proof.
  induction 1 as [|c c1 c2 H1 _ IH]; [reflexivity|].
  etransitivity; [by eapply handler_run_moves|exact IH].
Qed.

Lemma tryset_doc s t :
  t ∈ pm_states ->
  tryset s t = if bool_decide (s ∈ pm_states) && doc_edge s t then t else s.
Proof.
  intros Ht. case_bool_decide as Hs; cbn [andb].
  - by apply tryset_table.
  - by apply tryset_invalid.
Qed.

(** ** Theorems *)

(** C4. The transition table is the comment: from a valid power state a request
    for a valid state is granted exactly when the comment lists the transition
    or it goes up to the start state of a higher priority level; a refused
    request, and any request in a corrupted state, changes nothing. *)
Theorem tryset_is_documented s t :
  t ∈ pm_states ->
  tryset s t = if bool_decide (s ∈ pm_states) && doc_edge s t then t else s.
Proof. apply tryset_doc. Qed.

Lemma tryset_is_documented_witness :
  tryset MHI_PM_M3 MHI_PM_M3_EXIT = MHI_PM_M3_EXIT /\ tryset MHI_PM_M3 MHI_PM_M0 = MHI_PM_M3.
Proof.
  split; rewrite tryset_is_documented; try (vm_compute; reflexivity); in_states.
Defined.


Definition ex_tring (a : Z) : mhi_ring := MhiRing (0x80000 + a) (0x1000 + a) (0x1000 + a) (0x1000 + a) 16 64 4 0 (0x300 + a).
Definition ex_event : mhi_event :=
  MhiEvent (MemRing (ex_tring 0x100) ∅) (DbCfg true 0 false) false false 0x80100 0.
Definition ex_chan : mhi_chan :=
  MhiChan 0 (MemRing (ex_tring 0x200) ∅)
    (MemRing (mhi_add_ring_element (ex_tring 0x300)) {[ 0x1300 := Tre 5 6 7 ]})
    (DbCfg true 0 true) true MHI_CH_STATE_ENABLED true false 0 0 4 false false 0 ∅ 0.
Definition ex_ctrl (pm dev : Z) : ctrl :=
  Ctrl pm dev MHI_EE_AMSS (Mmio {[ MHICTRL := 0x200 ]} [] false) 0x2000 0x3f8 0 0 0 0 0 0
       [ex_event] (MemRing (ex_tring 0x400) ∅) [ex_chan] [] None [].
Definition ex_cfg : ctrl_cfg := CtrlCfg 0 0 1 0 0 0 0 0 0 0 [100] false 4096.


(** A request that ends in the state asked for was granted, or it was already there. *)
Lemma tryset_reached s t :
  t ∈ pm_states -> tryset s t = t -> s = t \/ s ∈ pm_states /\ doc_edge s t = true.
Proof.
  intros Ht H. rewrite tryset_doc in H by done.
  destruct (bool_decide (s ∈ pm_states) && doc_edge s t) eqn:E; [|by left].
  apply andb_true_iff in E as [E1 E2]. apply bool_decide_eq_true in E1. auto.
Qed.

Lemma m3_enter_from s : tryset s MHI_PM_M3_ENTER = MHI_PM_M3_ENTER ->
  s = MHI_PM_M0 \/ s = MHI_PM_M3_ENTER.
Proof.
  intros H. apply tryset_reached in H as [H|[Hs He]]; [by right| |in_states]. left.
  assert (Hall : forallb (fun s => negb (doc_edge s MHI_PM_M3_ENTER) || (s =? MHI_PM_M0)) pm_states = true)
    by (vm_compute; reflexivity).
  rewrite forallb_forall in Hall. apply list_elem_of_In in Hs. specialize (Hall s Hs).
  rewrite He in Hall. by apply Z.eqb_eq.
Qed.

(** Suspending: outside DISABLE and the error states, a device with a wake
    vote or with a started transfer path is refused with [-EBUSY] and nothing
    changes; a suspend that succeeds had neither, found the controller in M0
    (or already entering M3), asked the device for M3 from there, and ends with
    the device in M3 and no error, the clients notified last. *)
Theorem suspend_outcomes k w1 w2 c :
  let '(ret, c') := mhi_pm_suspend k w1 w2 c in
  (pm_state c <> MHI_PM_DISABLE -> MHI_PM_IN_ERROR_STATE (pm_state c) = false ->
   dev_wake c <> 0 \/ xfer_paths c <> 0 -> ret = - EBUSY /\ c' = c) /\
  (ret = 0 ->
   dev_wake c = 0 /\ xfer_paths c = 0 /\ dev_state c' = MHI_STATE_M3 /\
   MHI_PM_IN_ERROR_STATE (pm_state c') = false /\
   exists c1 c3, (pm_state c1 = MHI_PM_M0 \/ pm_state c1 = MHI_PM_M3_ENTER) /\
     (dev_state c1 = MHI_STATE_M0 \/ dev_state c1 = MHI_STATE_M1) /\
     c3 = snd (wait_event (fun c => (dev_state c =? MHI_STATE_M3) || MHI_PM_IN_ERROR_STATE (pm_state c))
                 w2 (mhi_set_mhi_state k MHI_STATE_M3 (set_pm_state c1 MHI_PM_M3_ENTER))) /\
     c' = notify_lpm k MHI_CB_LPM_ENTER c3).
Proof.
  unfold mhi_pm_suspend, mhi_deassert_dev_wake.
  destruct (Z.eqb_spec (pm_state c) MHI_PM_DISABLE); [done|].
  destruct (MHI_PM_IN_ERROR_STATE (pm_state c)) eqn:Eerr; [done|].
  destruct (Z.eqb_spec (dev_wake c) 0) as [Hdw|Hdw]; cbn [negb]; [|done].
  destruct (Z.eqb_spec (xfer_paths c) 0) as [Hxp|Hxp]; cbn [negb]; [|done].
  match goal with |- context [wait_event ?cond w1 ?c0] =>
    assert (Hc1 : fst (wait_event cond w1 c0) = cond (snd (wait_event cond w1 c0)))
      by (unfold wait_event; by destruct (cond c0) eqn:?);
    destruct (wait_event cond w1 c0) as [ret c1] end. cbn [fst snd] in Hc1.
  assert (Hbusy : forall P : Prop, dev_wake c <> 0 \/ xfer_paths c <> 0 -> P) by (intros P [?|?]; done).
  destruct ret; cbn [negb orb]; [|split; [intros _ _; apply Hbusy|done]].
  destruct (MHI_PM_IN_ERROR_STATE (pm_state c1)) eqn:E1; [split; [intros _ _; apply Hbusy|done]|].
  symmetry in Hc1. rewrite orb_false_r, orb_true_iff, !Z.eqb_eq in Hc1.
  destruct (1 <? dev_wake c1); [split; [intros _ _; apply Hbusy|done]|].
  unfold mhi_tryset_pm_state.
  destruct (Z.eqb_spec (tryset (pm_state c1) MHI_PM_M3_ENTER) MHI_PM_M3_ENTER) as [Et|Et]; cbn [negb];
    [|split; [intros _ _; apply Hbusy|done]]. rewrite Et.
  match goal with |- context [wait_event ?cond w2 ?c0] =>
    assert (Hc3 : fst (wait_event cond w2 c0) = cond (snd (wait_event cond w2 c0)))
      by (unfold wait_event; by destruct (cond c0) eqn:?);
    destruct (wait_event cond w2 c0) as [ret c3] eqn:Hw end. cbn [fst snd] in Hc3.
  destruct ret; cbn [negb orb]; [|split; [intros _ _; apply Hbusy|done]].
  destruct (MHI_PM_IN_ERROR_STATE (pm_state c3)) eqn:E3; [split; [intros _ _; apply Hbusy|done]|].
  symmetry in Hc3. rewrite orb_false_r, Z.eqb_eq in Hc3.
  split; [intros _ _; apply Hbusy|]. intros _. split_and!; try done. exists c1, c3.
  split_and!; [by apply m3_enter_from|done|by rewrite Hw|done].
Qed.

(** ** Suspend and resume of a well-behaved device *)

(** The queue a channel keeps: everything but the published write pointer and
    the doorbell mode. *)
Definition chan_queue (h : mhi_chan) : mem_ring mhi_buf_info * gmap Z mhi_tre * (Z * Z * Z) :=
  let r := mr_ring (tre_ring h) in (buf_ring h, mr_mem (tre_ring h), (base r, rp r, wp r)).

(** The device knows about every element that is queued. *)
Definition published (h : mhi_chan) : Prop :=
  let r := mr_ring (tre_ring h) in
  base r <> 0 -> wp r <> rp r -> ctxt_wp r = mhi_to_physical r (wp r).

Lemma m0_chan_queue h c :
  chan_queue (snd (m0_chan h c)) = chan_queue h /\ published (snd (m0_chan h c)).
Proof.
  unfold m0_chan. set (h' := if reset_req h then _ else h).
  assert (Hq : chan_queue h' = chan_queue h) by (subst h'; by split_match).
  assert (Hr : tre_ring h' = tre_ring h) by (subst h'; by split_match).
  destruct (negb _ && negb _) eqn:E.
  - unfold ring_chan_db, mhi_ring_chan_db.
    destruct (process_db _ _ _ _) as [m d]. split; [exact Hq|].
    intros _ _. cbn. unfold mhi_to_physical. cbn. f_equal. lia.
  - split; [done|]. intros Hb Hw. apply andb_false_iff in E as [E|E]; zprop; done.
Qed.

Lemma over_chans_m0 c :
  map chan_queue (chans (over_chans m0_chan c)) = map chan_queue (chans c) /\
  Forall published (chans (over_chans m0_chan c)).
Proof.
  unfold over_chans.
  assert (H : forall l c, let '(_, l') := map_st m0_chan l c in
            map chan_queue l' = map chan_queue l /\ Forall published l').
  { induction l as [|h l IH]; intros c0; cbn [map_st]; [by split|].
    destruct (m0_chan_queue h c0) as [Hq Hp]. destruct (m0_chan h c0) as [c1 h']. cbn [snd] in *.
    specialize (IH c1). destruct (map_st m0_chan l c1) as [c2 l']. destruct IH as [IH1 IH2].
    cbn [map]. split; [by rewrite Hq, IH1|by constructor]. }
  specialize (H (chans c) c). destruct (map_st m0_chan (chans c) c). exact H.
Qed.

Lemma m0_event_io e c : exists m, fst (m0_event e c) = set_io c m.
Proof.
  unfold m0_event, ring_er_db. split_match; [exists (io c); by destruct c|].
  destruct (mhi_ring_er_db _ _ _) as [m d]. by exists m.
Qed.

Lemma m0_chan_io h c : exists m, fst (m0_chan h c) = set_io c m.
Proof.
  unfold m0_chan, ring_chan_db. destruct (negb _ && negb _); [|exists (io c); by destruct c].
  destruct (mhi_ring_chan_db _ _ _) as [[m d] r]. by exists m.
Qed.

Lemma m0_transition_ok c :
  tryset (pm_state c) MHI_PM_M0 = MHI_PM_M0 ->
  let '(ret, c') := mhi_pm_m0_transition c in
  ret = 0 /\ pm_state c' = MHI_PM_M0 /\ dev_state c' = MHI_STATE_M0 /\
  map chan_queue (chans c') = map chan_queue (chans c) /\ Forall published (chans c').
Proof.
  intros Ht.
  assert (Hev : forall B (g : ctrl -> B), (forall c m, g (set_io c m) = g c) ->
            forall e c, g (fst (m0_event e c)) = g c).
  { intros B g Hg e c0. destruct (m0_event_io e c0) as [m ->]. apply Hg. }
  assert (Hch : forall B (g : ctrl -> B), (forall c m, g (set_io c m) = g c) ->
            forall h c, g (fst (m0_chan h c)) = g c).
  { intros B g Hg h c0. destruct (m0_chan_io h c0) as [m ->]. apply Hg. }
  unfold mhi_pm_m0_transition, mhi_tryset_pm_state, mhi_deassert_dev_wake. cbn [pm_state set_dev_state].
  rewrite Ht. cbn [Z.eqb negb].
  set (c1 := mhi_assert_dev_wake _).
  assert (H1 : pm_state c1 = MHI_PM_M0 /\ dev_state c1 = MHI_STATE_M0 /\ chans c1 = chans c)
    by (subst c1; unfold mhi_assert_dev_wake; by split_match).
  set (c2 := if MHI_IN_MISSION_MODE (ee c1) then _ else c1).
  assert (H2 : pm_state c2 = MHI_PM_M0 /\ dev_state c2 = MHI_STATE_M0 /\ chans c2 = chans c).
  { destruct H1 as (H1p & H1d & H1c). subst c2. split_match; [|done].
    assert (He : pm_state (over_events m0_event c1) = MHI_PM_M0 /\
                 dev_state (over_events m0_event c1) = MHI_STATE_M0 /\
                 chans (over_events m0_event c1) = chans c).
    { rewrite !over_events_field by (done || by apply Hev). done. }
    split_match; [|done]. unfold ring_cmd_db. by destruct (mhi_ring_cmd_db _ _). }
  destruct H2 as (H2p & H2d & H2c). destruct (over_chans_m0 c2) as [Hq Hp].
  rewrite H2c in Hq. change (MHI_PM_M0 =? MHI_PM_M0) with true. cbn [negb].
  split_and!; [done| | |exact Hq|exact Hp].
  - change (pm_state (over_chans m0_chan c2) = MHI_PM_M0).
    by rewrite over_chans_field by (done || by apply Hch).
  - change (dev_state (over_chans m0_chan c2) = MHI_STATE_M0).
    by rewrite over_chans_field by (done || by apply Hch).
Qed.

(** Suspend followed by resume, with a device that answers each request by
    the event the driver waits for: both succeed, the controller is in M3 in
    between and back in M0 afterwards, no queued transfer of any channel is
    lost or reordered, and every channel with queued elements has published
    its write pointer to the device again. *)
Theorem suspend_resume_roundtrip k c :
  pm_state c = MHI_PM_M0 -> dev_state c = MHI_STATE_M0 -> dev_wake c = 0 -> xfer_paths c = 0 ->
  let '(r1, c1) := mhi_pm_suspend k (fun c => c) (fun c => snd (mhi_pm_m3_transition c)) c in
  let '(r2, c2) := mhi_pm_resume k (fun c => snd (mhi_pm_m0_transition c)) c1 in
  r1 = 0 /\ pm_state c1 = MHI_PM_M3 /\ dev_state c1 = MHI_STATE_M3 /\
  r2 = 0 /\ pm_state c2 = MHI_PM_M0 /\ dev_state c2 = MHI_STATE_M0 /\
  map chan_queue (chans c2) = map chan_queue (chans c) /\ Forall published (chans c2).
Proof.
  intros Hpm Hdev Hw Hx.
  assert (Hs : exists c1, mhi_pm_suspend k (fun c => c) (fun c => snd (mhi_pm_m3_transition c)) c = (0, c1) /\
     pm_state c1 = MHI_PM_M3 /\ dev_state c1 = MHI_STATE_M3 /\ chans c1 = chans c).
  { assert (Ha : mhi_assert_dev_wake c = c) by (unfold mhi_assert_dev_wake; by rewrite Hdev).
    unfold mhi_pm_suspend, mhi_deassert_dev_wake. rewrite Ha, Hpm, Hw, Hx.
    unfold wait_event at 1. rewrite Hdev.
    change (MHI_STATE_M0 =? MHI_STATE_M0) with true. cbn [orb negb]. rewrite Hpm, Hw.
    change (MHI_PM_M0 =? MHI_PM_DISABLE) with false. change (MHI_PM_IN_ERROR_STATE MHI_PM_M0) with false.
    change (0 =? 0) with true. cbn [negb orb]. change (1 <? 0) with false.
    unfold mhi_tryset_pm_state at 1. rewrite Hpm.
    change (tryset MHI_PM_M0 MHI_PM_M3_ENTER) with MHI_PM_M3_ENTER.
    set (c0 := mhi_set_mhi_state k MHI_STATE_M3 (set_pm_state c MHI_PM_M3_ENTER)).
    assert (H0 : pm_state c0 = MHI_PM_M3_ENTER /\ dev_state c0 = MHI_STATE_M0 /\ chans c0 = chans c)
      by (subst c0; unfold mhi_set_mhi_state; by split_match).
    destruct H0 as (H0p & H0d & H0c). change (MHI_PM_M3_ENTER =? MHI_PM_M3_ENTER) with true.
    cbn [negb]. unfold wait_event. rewrite H0p, H0d.
    change ((MHI_STATE_M0 =? MHI_STATE_M3) || MHI_PM_IN_ERROR_STATE MHI_PM_M3_ENTER) with false.
    unfold mhi_pm_m3_transition, mhi_tryset_pm_state. cbn [pm_state set_dev_state]. rewrite H0p.
    change (tryset MHI_PM_M3_ENTER MHI_PM_M3) with MHI_PM_M3. cbn. eexists. split_and!; [done|done|done|exact H0c]. }
  destruct Hs as (c1 & -> & H1p & H1d & H1c).
  unfold mhi_pm_resume, mhi_deassert_dev_wake. rewrite H1p. cbn [Z.eqb negb].
  change (MHI_PM_M3 =? MHI_PM_DISABLE) with false. change (MHI_PM_IN_ERROR_STATE MHI_PM_M3) with false.
  change (MHI_PM_M3 =? MHI_PM_M3) with true. cbn [negb].
  unfold mhi_tryset_pm_state at 1.
  change (pm_state (notify_lpm k MHI_CB_LPM_EXIT c1)) with (pm_state c1). rewrite H1p.
  change (tryset MHI_PM_M3 MHI_PM_M3_EXIT) with MHI_PM_M3_EXIT.
  change (MHI_PM_M3_EXIT =? MHI_PM_M3_EXIT) with true. cbn [negb].
  set (c0 := mhi_set_mhi_state k MHI_STATE_M0 _).
  assert (H0 : pm_state c0 = MHI_PM_M3_EXIT /\ dev_state c0 = MHI_STATE_M3 /\ chans c0 = chans c).
  { subst c0. unfold mhi_set_mhi_state, mhi_assert_dev_wake. cbn. rewrite H1d. by cbn. }
  destruct H0 as (H0p & H0d & H0c). unfold wait_event. rewrite H0d, H0p.
  change ((MHI_STATE_M3 =? MHI_STATE_M0) || MHI_PM_IN_ERROR_STATE MHI_PM_M3_EXIT) with false.
  pose proof (m0_transition_ok c0) as Hm. rewrite H0p in Hm. specialize (Hm eq_refl).
  destruct (mhi_pm_m0_transition c0) as [ret c2]. destruct Hm as (-> & H2p & H2d & H2q & H2b).
  cbn [snd]. rewrite H2d, H2p. cbn. rewrite <- H0c. by split_and!.
Qed.

Lemma suspend_resume_roundtrip_witness :
  let '(r1, c1) := mhi_pm_suspend ex_cfg (fun c => c) (fun c => snd (mhi_pm_m3_transition c))
                     (ex_ctrl MHI_PM_M0 MHI_STATE_M0) in
  pm_state c1 = MHI_PM_M3 /\
  let '(r2, c2) := mhi_pm_resume ex_cfg (fun c => snd (mhi_pm_m0_transition c)) c1 in
  r2 = 0 /\ Forall published (chans c2) /\ wlog (io c2) <> [].
Proof.
  pose proof (suspend_resume_roundtrip ex_cfg (ex_ctrl MHI_PM_M0 MHI_STATE_M0)
                eq_refl eq_refl eq_refl eq_refl) as H.
  destruct (mhi_pm_suspend ex_cfg _ _ _) as [r1 c1] eqn:E1.
  destruct (mhi_pm_resume ex_cfg _ c1) as [r2 c2] eqn:E2.
  destruct H as (_ & H1 & _ & H2 & _ & _ & _ & H3). split; [exact H1|]. split; [exact H2|].
  split; [exact H3|].
  vm_compute in E1. injection E1 as <- <-. vm_compute in E2. injection E2 as <- <-. discriminate.
Defined.

(** ** Ready *)

(** A software event ring handed over in full: every element but one is the
    device's, and the context says so. *)
Definition handed_over (e : mhi_event) : Prop :=
  let r := mr_ring (er_q e) in
  er_offload e = false -> er_hw_ring e = false ->
  wp r = base r + len r - el_size r /\ ctxt_wp r = mhi_to_physical r (wp r) /\
  (rp r = base r -> mhi_is_ring_full r = true).

Lemma ready_event_handed e c : handed_over (snd (ready_event e c)).
Proof.
  unfold ready_event. destruct (er_offload e || er_hw_ring e) eqn:E.
  - intros Ho Hh. cbn in *. by rewrite Ho, Hh in E.
  - unfold ring_er_db. destruct (mhi_ring_er_db _ _ _) as [m d]. intros _ _. cbn. split_and!.
    + done.
    + unfold mhi_to_physical. cbn. f_equal. lia.
    + intros Hrp. unfold mhi_is_ring_full. cbn.
      destruct (Z.leb_spec (base (mr_ring (er_q e)) + len (mr_ring (er_q e)))
        (base (mr_ring (er_q e)) + len (mr_ring (er_q e)) - el_size (mr_ring (er_q e))
         + el_size (mr_ring (er_q e)))); [|lia]. apply Z.eqb_eq. done.
Qed.

Lemma ready_event_io e c : exists m, fst (ready_event e c) = set_io c m.
Proof.
  unfold ready_event, ring_er_db. split_match; [exists (io c); by destruct c|].
  destruct (mhi_ring_er_db _ _ _) as [m d]. by exists m.
Qed.

(** A ready transition that succeeds leaves the controller in POR with the
    device READY, has handed every software event ring to the device in full
    with its context and doorbell updated, and as its last act asks the device
    for M0. *)
Theorem ready_hands_over_rings k w c :
  let '(ret, c') := mhi_ready_state_transition k w c in
  ret = 0 ->
  pm_state c' = MHI_PM_POR /\ dev_state c' = MHI_STATE_READY /\ Forall handed_over (events c') /\
  exists c2, c' = mhi_set_mhi_state k MHI_STATE_M0 c2 /\ events c2 = events c'.
Proof.
  unfold mhi_ready_state_transition. destruct (ready_poll k (w c) 1 0 c) as [[reset ready] c1].
  split_match; [done|]. split_match; [done|].
  unfold mhi_tryset_pm_state. destruct (Z.eqb_spec (tryset (pm_state c1) MHI_PM_POR) MHI_PM_POR) as [Et|];
    cbn [negb]; [|done]. rewrite Et. cbn [pm_state set_dev_state set_pm_state].
  change (MHI_REG_ACCESS_VALID MHI_PM_POR) with true. cbn [negb].
  set (c2 := set_dev_state _ _).
  assert (Hi : pm_state (snd (mhi_init_mmio k c2)) = MHI_PM_POR /\
               dev_state (snd (mhi_init_mmio k c2)) = MHI_STATE_READY).
  { rewrite pm_init_mmio. split; [done|]. unfold mhi_init_mmio. by repeat split_match. }
  destruct (mhi_init_mmio k c2) as [ret c3]. cbn [snd] in Hi. destruct Hi as [Hp Hd].
  split_match; [done|]. intros _.
  assert (Hf : forall B (g : ctrl -> B), (forall c m, g (set_io c m) = g c) ->
            forall e c, g (fst (ready_event e c)) = g c).
  { intros B g Hg e c0. destruct (ready_event_io e c0) as [m ->]. apply Hg. }
  set (c4 := over_events ready_event c3).
  assert (H4 : pm_state c4 = MHI_PM_POR /\ dev_state c4 = MHI_STATE_READY /\ Forall handed_over (events c4)).
  { subst c4. rewrite !over_events_field by (done || by apply Hf). split_and!; [done|done|].
    unfold over_events. pose proof (map_st_Forall ready_event handed_over (events c3) c3 ready_event_handed).
    by destruct (map_st ready_event (events c3) c3). }
  assert (Hs : forall s, pm_state (mhi_set_mhi_state k s c4) = pm_state c4 /\
    dev_state (mhi_set_mhi_state k s c4) = dev_state c4 /\ events (mhi_set_mhi_state k s c4) = events c4).
  { intros s. unfold mhi_set_mhi_state. by split_match. }
  destruct (Hs MHI_STATE_M0) as (-> & -> & ->). destruct H4 as (? & ? & ?). split_and!; try done.
  by exists c4.
Qed.

(** ** Shutdown *)

(** Other threads that leave the power state and the rings' owner alone while
    the shutdown waits. *)
Definition quiet (w : ctrl -> ctrl) : Prop :=
  forall c, pm_state (w c) = pm_state c /\ dev_state (w c) = dev_state c /\ ee (w c) = ee c.

Definition emptied (r : mhi_ring) : Prop := rp r = base r /\ wp r = base r /\ ctxt_wp r = iommu_base r.

Lemma shutdown_from s : s ∈ pm_states -> s <> MHI_PM_DISABLE ->
  tryset s MHI_PM_SHUTDOWN_PROCESS = MHI_PM_SHUTDOWN_PROCESS /\
  tryset s MHI_PM_LD_ERR_FATAL_DETECT = MHI_PM_LD_ERR_FATAL_DETECT.
Proof.
  intros Hs Hne.
  assert (H : forallb (fun s => (s =? MHI_PM_DISABLE)
    || (tryset s MHI_PM_SHUTDOWN_PROCESS =? MHI_PM_SHUTDOWN_PROCESS)
       && (tryset s MHI_PM_LD_ERR_FATAL_DETECT =? MHI_PM_LD_ERR_FATAL_DETECT)) pm_states = true)
    by (vm_compute; reflexivity).
  rewrite forallb_forall in H. apply list_elem_of_In in Hs. specialize (H s Hs).
  apply orb_true_iff in H as [H|H]; zprop; done.
Qed.

Lemma trigger_reset_shutdown k w c :
  quiet w -> let '(go, c') := trigger_reset k w false c in
  go = true /\ pm_state c' = pm_state c /\ dev_state c' = dev_state c /\ ee c' = ee c.
Proof.
  intros Hw. unfold trigger_reset. set (c0 := mhi_set_mhi_state k MHI_STATE_RESET c).
  assert (H0 : pm_state c0 = pm_state c /\ dev_state c0 = dev_state c /\ ee c0 = ee c)
    by (subst c0; unfold mhi_set_mhi_state; by split_match).
  unfold wait_event. destruct (Hw c0) as (Hp & Hd & He). destruct H0 as (? & ? & ?).
  destruct (reset_cleared k c0); cbn zeta iota; rewrite andb_false_r; cbn; split_and!; congruence.
Qed.

(** The shutdown's last state: some state [c5] left by the clients, with the
    rings reset, time sync removed and the power state DISABLE. *)
Lemma shutdown_result k env c0 :
  tryset (pm_state c0) MHI_PM_SHUTDOWN_PROCESS = MHI_PM_SHUTDOWN_PROCESS ->
  quiet (de_reset env) -> quiet (de_clients env) ->
  exists c5 lg, dev_state c5 = MHI_STATE_RESET /\ ee c5 = MHI_EE_DISABLE_TRANSITION /\
    mhi_pm_disable_transition k env MHI_PM_SHUTDOWN_PROCESS c0 =
      set_pm_state (set_c_tsync (set_c_log (set_events
        (set_cmd c5 (MemRing (reset_ring (mr_ring (cmd c5))) (mr_mem (cmd c5))))
        (map reset_event (events c5))) lg) None) MHI_PM_DISABLE.
Proof.
  intros H0 Hqr Hqc. unfold mhi_pm_disable_transition.
  change (MHI_PM_SHUTDOWN_PROCESS =? MHI_PM_SYS_ERR_PROCESS) with false. cbn iota.
  unfold mhi_tryset_pm_state at 1. rewrite H0.
  change (MHI_PM_SHUTDOWN_PROCESS =? MHI_PM_SHUTDOWN_PROCESS) with true. cbn [negb].
  set (c1 := emit NWakeUpAll _).
  match goal with |- context [let '(go, c) := ?e in _] => set (tr := e) end.
  assert (Htr : fst tr = true /\ pm_state (snd tr) = MHI_PM_SHUTDOWN_PROCESS /\
                dev_state (snd tr) = MHI_STATE_RESET /\ ee (snd tr) = MHI_EE_DISABLE_TRANSITION).
  { subst tr. split_match; [|done]. pose proof (trigger_reset_shutdown k (de_reset env) c1 Hqr) as Ht.
    by destruct (trigger_reset k (de_reset env) false c1). }
  destruct tr as [go c3]. cbn [fst snd] in Htr. destruct Htr as (-> & H3p & H3d & H3e). cbn [negb].
  destruct (Hqc (emit NDestroyDevices c3)) as (H4p & H4d & H4e).
  set (c4 := de_clients env (emit NDestroyDevices c3)) in *. cbn in H4p, H4d, H4e.
  set (c5 := if negb (dev_wake (emit NWakeUpAll c4) =? 0) then _ else _).
  assert (H5 : pm_state c5 = MHI_PM_SHUTDOWN_PROCESS /\ dev_state c5 = MHI_STATE_RESET /\
               ee c5 = MHI_EE_DISABLE_TRANSITION).
  { subst c5. split_match; cbn; split_and!; congruence. }
  clearbody c5. destruct H5 as (H5p & H5d & H5e).
  match goal with |- context [mhi_destroy_timesync ?x] => set (c6 := x) end.
  assert (H6 : exists lg, mhi_destroy_timesync c6 = set_c_tsync (set_c_log c6 lg) None).
  { unfold mhi_destroy_timesync. destruct (c_tsync c6) eqn:E; [by eexists|].
    exists (c_log c6). destruct c6; cbn in *. by subst. }
  destruct H6 as [lg ->]. exists c5, lg. split_and!; [done|done|].
  unfold mhi_tryset_pm_state. cbn [fst].
  change (pm_state (set_c_tsync (set_c_log c6 lg) None)) with (pm_state c5). by rewrite H5p.
Qed.

(** Powering down: from any valid power state, gracefully or not, with
    clients and device left to do nothing but leave, the controller ends in
    DISABLE; unless it was there already, the device is out of every execution
    environment, the command ring and all event rings the driver owns are
    empty and at their start on both sides, and time sync is gone. *)
Theorem power_down_disables k env graceful c :
  pm_state c ∈ pm_states -> quiet (de_reset env) -> quiet (de_clients env) ->
  let c' := mhi_power_down k env graceful c in
  pm_state c' = MHI_PM_DISABLE /\
  (pm_state c <> MHI_PM_DISABLE ->
   dev_state c' = MHI_STATE_RESET /\ ee c' = MHI_EE_DISABLE_TRANSITION /\
   emptied (mr_ring (cmd c')) /\ c_tsync c' = None /\
   Forall (fun e => er_offload e = false ->
     emptied (mr_ring (er_q e)) /\ er_ctxt_rp e = iommu_base (mr_ring (er_q e))) (events c')).
Proof.
  intros Hv Hqr Hqc c'. subst c'. unfold mhi_power_down.
  set (c0 := if graceful then c else _).
  destruct (decide (pm_state c = MHI_PM_DISABLE)) as [Hd|Hd].
  { split; [|done].
    assert (H0 : pm_state c0 = MHI_PM_DISABLE).
    { subst c0. destruct graceful; [done|]. unfold mhi_tryset_pm_state. by rewrite Hd. }
    clearbody c0. unfold mhi_pm_disable_transition.
    change (MHI_PM_SHUTDOWN_PROCESS =? MHI_PM_SYS_ERR_PROCESS) with false. cbn iota.
    unfold mhi_tryset_pm_state at 1. rewrite H0. done. }
  destruct (shutdown_from _ Hv Hd) as [Hs Hl].
  destruct (shutdown_result k env c0) as (c5 & lg & H5d & H5e & ->); [|done|done|].
  { subst c0. destruct graceful; [done|]. cbn [mhi_tryset_pm_state fst pm_state set_pm_state].
    by rewrite Hl. }
  cbn [pm_state dev_state ee cmd c_tsync events set_pm_state set_c_tsync set_c_log set_events set_cmd
       mr_ring]. split; [done|]. intros _. split_and!; try done.
  induction (events c5) as [|e es IH]; [by constructor|]. constructor; [|exact IH].
  unfold reset_event. destruct (er_offload e) eqn:E; cbn; [by rewrite E|done].
Qed.

Lemma power_down_disables_witness :
  let c' := mhi_power_down ex_cfg (DisableEnv (fun c => c) (fun c => c) (fun _ => [])) false
              (ex_ctrl MHI_PM_M0 MHI_STATE_M0) in
  pm_state c' = MHI_PM_DISABLE /\ emptied (mr_ring (cmd c')).
Proof.
  assert (Hq : quiet (fun c => c)) by (intros c; split_and!; reflexivity).
  destruct (power_down_disables ex_cfg (DisableEnv (fun c => c) (fun c => c) (fun _ => [])) false
              (ex_ctrl MHI_PM_M0 MHI_STATE_M0)) as [H1 H2]; [in_states|exact Hq|exact Hq|].
  split; [exact H1|]. apply H2. cbn. discriminate.
Defined.
