(* ===== verification/MhiXfer.v ===== *)
(** * MHI transfers

    Models the transfer path of src/gl-feed/kernel/pcie_mhi/src/core/mhi_main.c:
    queueing buffers ([mhi_queue_skb], [mhi_queue_dma], [mhi_gen_tre],
    [mhi_queue_buf]), completions ([parse_xfer_event], [parse_rsc_event],
    [mhi_process_cmd_completion]), the data event ring, commands, starting,
    stopping and resetting channels, and the driver-core removal of
    core/mhi_init.c.

    A function that works on one channel takes it apart from the controller
    and returns both; a client's callback is an entry of the trace, and what the
    client queues in answer is a later operation.  [map_single] is the
    controller's mapping callback: it returns a code and the device address. *)

From S2P Require Import Prelude CLib MhiReg MhiRing MhiCtrl MhiPm.

(** The buffer-ring slot at the write pointer as the last user left it; the
    ring is allocated zeroed. *)
Definition buf_slot (h : mhi_chan) : mhi_buf_info :=
  default (BufInfo 0 0 0 0 0 false false) (mr_mem (buf_ring h) !! wp (mr_ring (buf_ring h))).

Definition put_buf (h : mhi_chan) (b : mhi_buf_info) : mhi_chan :=
  set_buf_ring h (MemRing (mr_ring (buf_ring h)) (<[wp (mr_ring (buf_ring h)) := b]> (mr_mem (buf_ring h)))).

Definition put_tre (h : mhi_chan) (t : mhi_tre) : mhi_chan :=
  set_tre_ring h (MemRing (mr_ring (tre_ring h)) (<[wp (mr_ring (tre_ring h)) := t]> (mr_mem (tre_ring h)))).

(** Both write pointers move, the transfer ring's first. *)
Definition add_elements (h : mhi_chan) : mhi_chan :=
  let h := set_tre_ring h (MemRing (mhi_add_ring_element (mr_ring (tre_ring h))) (mr_mem (tre_ring h))) in
  set_buf_ring h (MemRing (mhi_add_ring_element (mr_ring (buf_ring h))) (mr_mem (buf_ring h))).

(** Both read pointers move, the buffer ring's first. *)
Definition del_elements (h : mhi_chan) : mhi_chan :=
  let h := set_buf_ring h (MemRing (mhi_del_ring_element (mr_ring (buf_ring h))) (mr_mem (buf_ring h))) in
  set_tre_ring h (MemRing (mhi_del_ring_element (mr_ring (tre_ring h))) (mr_mem (tre_ring h))).

(** ** Queueing *)

(** An outbound transfer is pending until its completion; the first one takes
    a runtime vote, the last one releases it. *)
Definition pending_inc (h : mhi_chan) (c : ctrl) : ctrl :=
  if to_device h then
    let c := set_pending_pkts c (pending_pkts c + 1) in
    if pending_pkts c =? 1 then emit NRuntimeGet c else c
  else c.

Definition pending_dec (h : mhi_chan) (c : ctrl) : ctrl :=
  if to_device h then
    let c := set_pending_pkts c (pending_pkts c - 1) in
    if pending_pkts c =? 0 then emit NRuntimePut c else c
  else c.

Definition resume_if_suspended (c : ctrl) : ctrl :=
  if MHI_PM_IN_SUSPEND_STATE (pm_state c) then emits [NRuntimeGet; NRuntimePut] c else c.

Definition needs_wake (h : mhi_chan) (c : ctrl) : bool :=
  to_device h || (negb (to_device h) && negb (pm_state c =? MHI_PM_M0)).

Definition db_if_valid (h : mhi_chan) (c : ctrl) : ctrl * mhi_chan :=
  if MHI_DB_ACCESS_VALID (pm_state c) then ring_chan_db h c else (c, h).

Definition wake_put_inbound (h : mhi_chan) (assert_wake : bool) (c : ctrl) : ctrl :=
  if negb (to_device h) && assert_wake then mhi_deassert_dev_wake c else c.

Definition mhi_queue_skb (map_single : mhi_buf_info -> Z * Z) (skb data len : Z) (h : mhi_chan) (c : ctrl)
  : Z * ctrl * mhi_chan :=
  if mhi_is_ring_full (mr_ring (tre_ring h)) then (- ENOMEM, c, h)
  else if MHI_PM_IN_ERROR_STATE (pm_state c) then (- EIO, c, h)
  else
    let c := resume_if_suspended c in
    let assert_wake := needs_wake h c in
    let c := if assert_wake then mhi_assert_dev_wake c else c in
    let old := buf_slot h in
    let b := BufInfo (b_p_addr old) data (wp (mr_ring (tre_ring h))) len skb (b_used old)
                     (b_pre_mapped old) in
    let '(ret, p) := map_single b in
    let b := BufInfo p (b_v_addr b) (b_wp b) (b_len b) (b_cb_buf b) (b_used b) (b_pre_mapped b) in
    let h := put_buf h b in
    if negb (ret =? 0) then
      (ret, if assert_wake then mhi_deassert_dev_wake c else c, h)
    else
      let h := put_tre h (Tre (b_p_addr b) (MHI_TRE_DATA_DWORD0 (b_len b))
                              (MHI_TRE_DATA_DWORD1 true true false false)) in
      let c := pending_inc h c in
      let h := add_elements h in
      let '(c, h) := db_if_valid h c in
      (0, wake_put_inbound h assert_wake c, h).

(** [mhi_buf] is the client's buffer, already mapped at [dma_addr]. *)
Definition mhi_queue_dma (mhi_buf dma_addr len : Z) (h : mhi_chan) (c : ctrl) : Z * ctrl * mhi_chan :=
  if mhi_is_ring_full (mr_ring (tre_ring h)) then (- ENOMEM, c, h)
  else if MHI_PM_IN_ERROR_STATE (pm_state c) then (- EIO, c, h)
  else
    let c := resume_if_suspended c in
    let assert_wake := needs_wake h c in
    let c := if assert_wake then mhi_assert_dev_wake c else c in
    let old := buf_slot h in
    let c := if b_used old then emit (NAssert "TRE Not Freed") c else c in
    let b := BufInfo dma_addr (b_v_addr old) (wp (mr_ring (tre_ring h))) len mhi_buf
                     (if rsc_dma h then true else b_used old) true in
    let t :=
      if rsc_dma h
      then Tre (MHI_RSCTRE_DATA_PTR (b_p_addr b) (b_len b))
               (u32 (MHI_RSCTRE_DATA_DWORD0 (wp (mr_ring (buf_ring h)) - base (mr_ring (buf_ring h)))))
               MHI_RSCTRE_DATA_DWORD1
      else Tre (b_p_addr b) (MHI_TRE_DATA_DWORD0 (b_len b)) (MHI_TRE_DATA_DWORD1 true true false false) in
    let h := put_tre (put_buf h b) t in
    let c := pending_inc h c in
    let h := add_elements h in
    let '(c, h) := db_if_valid h c in
    (0, wake_put_inbound h assert_wake c, h).

Definition mhi_gen_tre (map_single : mhi_buf_info -> Z * Z) (buf cb buf_len flags : Z) (h : mhi_chan)
  : Z * mhi_chan :=
  let old := buf_slot h in
  let b := BufInfo (b_p_addr old) buf (wp (mr_ring (tre_ring h))) buf_len cb (b_used old)
                   (b_pre_mapped old) in
  let '(ret, p) := map_single b in
  let b := BufInfo p (b_v_addr b) (b_wp b) (b_len b) (b_cb_buf b) (b_used b) (b_pre_mapped b) in
  let h := put_buf h b in
  if negb (ret =? 0) then (ret, h)
  else
    let eob := negb (Z.land flags MHI_EOB =? 0) in
    let eot := negb (Z.land flags MHI_EOT =? 0) in
    let chain := negb (Z.land flags MHI_CHAIN =? 0) in
    let bei := negb (intmod h =? 0) in
    let h := put_tre h (Tre (b_p_addr b) (MHI_TRE_DATA_DWORD0 buf_len)
                            (MHI_TRE_DATA_DWORD1 bei eot eob chain)) in
    (0, add_elements h).

Definition mhi_queue_buf (map_single : mhi_buf_info -> Z * Z) (buf len mflags : Z) (h : mhi_chan) (c : ctrl)
  : Z * ctrl * mhi_chan :=
  if MHI_PM_IN_ERROR_STATE (pm_state c) then (- EIO, c, h)
  else if mhi_is_ring_full (mr_ring (tre_ring h)) then (- ENOMEM, c, h)
  else
    let '(ret, h) := mhi_gen_tre map_single buf buf len mflags h in
    if negb (ret =? 0) then (ret, c, h)
    else
      let c := resume_if_suspended c in
      let assert_wake := needs_wake h c in
      let c := if assert_wake then mhi_assert_dev_wake c else c in
      let c := pending_inc h c in
      let '(c, h) := db_if_valid h c in
      (0, wake_put_inbound h assert_wake c, h).

(** ** Completions *)

(** The buffer at the read pointer of the buffer ring. *)
Definition buf_head (h : mhi_chan) : mhi_buf_info :=
  default (BufInfo 0 0 0 0 0 false false) (mr_mem (buf_ring h) !! rp (mr_ring (buf_ring h))).

(** One turn of the completion loop: the oldest buffer goes back to the client. *)
Definition complete_one (map_single : mhi_buf_info -> Z * Z) (status xfer_len : Z) (h : mhi_chan) (c : ctrl)
  : ctrl * mhi_chan :=
  let b := buf_head h in
  let c := if b_pre_mapped b then c else emit (NUnmap (chan h) (b_p_addr b)) c in
  let h := del_elements h in
  let c := emit (NXferCb (chan h) (MhiResult (b_cb_buf b) (Some (to_device h)) xfer_len status)) c in
  let c := pending_dec h c in
  let c := if to_device h then mhi_deassert_dev_wake c else c in
  if pre_alloc h then
    let '(ret, c, h) := mhi_queue_buf map_single (b_cb_buf b) (b_len b) MHI_EOT h c in
    (if negb (ret =? 0) then emit (NFree (chan h) (b_cb_buf b)) c else c, h)
  else (c, h).

(** [while (local_rp != dev_rp)]; [None] when the fuel runs out. *)
Fixpoint complete_until (fuel : nat) (map_single : mhi_buf_info -> Z * Z) (dev_rp status xfer_len : Z)
    (h : mhi_chan) (c : ctrl) : option (ctrl * mhi_chan) :=
  if rp (mr_ring (tre_ring h)) =? dev_rp then Some (c, h)
  else
    match fuel with
    | O => None
    | S fuel => let '(c, h) := complete_one map_single status xfer_len h c in
                complete_until fuel map_single dev_rp status xfer_len h c
    end.

Definition count_event (h : mhi_chan) (code : Z) : mhi_chan :=
  set_used_events h (<[code := u32 (default 0 (used_events h !! code) + 1)]> (used_events h)).

(** The device's read pointer after the element an event names. *)
Definition dev_rp_after (r : mhi_ring) (ptr : Z) : Z :=
  let p := mhi_to_virtual r ptr + sizeof_mhi_tre in
  if base r + len r <=? p then base r else p.

Definition parse_xfer_event (map_single : mhi_buf_info -> Z * Z) (event : mhi_tre) (h : mhi_chan) (c : ctrl)
  : option (ctrl * mhi_chan) :=
  let ev_code := MHI_TRE_GET_EV_CODE event in
  let status := if ev_code =? MHI_EV_CC_OVERFLOW then - EOVERFLOW else 0 in
  if negb (ch_state h =? MHI_CH_STATE_ENABLED) then Some (c, h)
  else if (ev_code =? MHI_EV_CC_OVERFLOW) || (ev_code =? MHI_EV_CC_EOB) || (ev_code =? MHI_EV_CC_EOT) then
    let dev_rp := dev_rp_after (mr_ring (tre_ring h)) (MHI_TRE_GET_EV_PTR event) in
    let h := count_event h ev_code in
    complete_until (Z.to_nat (elements (mr_ring (tre_ring h)))) map_single dev_rp status
                   (MHI_TRE_GET_EV_LEN event) h c
  else if (ev_code =? MHI_EV_CC_OOB) || (ev_code =? MHI_EV_CC_DB_MODE) then
    let h := count_event h ev_code in
    let h := set_ch_db_cfg h (DbCfg true (db_val (ch_db_cfg h)) (db_burst (ch_db_cfg h))) in
    let r := mr_ring (tre_ring h) in
    if negb (wp r =? rp r) && MHI_DB_ACCESS_VALID (pm_state c)
    then Some (ring_chan_db h c) else Some (c, h)
  else if ev_code =? MHI_EV_CC_BAD_TRE then
    Some (emit (NAssert "Received BAD TRE event for ring") c, h)
  else Some (c, h).

(** The cookie of a coalesced event is the offset of its buffer in the buffer
    ring; the read pointer of the transfer ring moves whatever it names.
    [None] when the cookie is outside the ring, where the code reads on. *)
Definition parse_rsc_event (event : mhi_tre) (h : mhi_chan) (c : ctrl) : option (ctrl * mhi_chan) :=
  let r := mr_ring (buf_ring h) in
  let cookie := MHI_TRE_GET_EV_COOKIE event in
  let status := if MHI_TRE_GET_EV_CODE event =? MHI_EV_CC_OVERFLOW then - EOVERFLOW else 0 in
  if len r <=? cookie then None
  else
    let b := default (BufInfo 0 0 0 0 0 false false) (mr_mem (buf_ring h) !! (base r + cookie)) in
    if negb (ch_state h =? MHI_CH_STATE_ENABLED) then Some (c, h)
    else
      let c := if negb (b_used b) then emit (NAssert "TRE already Freed") c else c in
      let c := emit (NXferCb (chan h) (MhiResult (b_cb_buf b) (Some (to_device h))
                       (MHI_TRE_GET_EV_LEN event) status)) c in
      let h := set_tre_ring h (MemRing (mhi_del_ring_element (mr_ring (tre_ring h)))
                                       (mr_mem (tre_ring h))) in
      let b := BufInfo (b_p_addr b) (b_v_addr b) (b_wp b) (b_len b) (b_cb_buf b) false
                       (b_pre_mapped b) in
      Some (c, set_buf_ring h (MemRing r (<[base r + cookie := b]> (mr_mem (buf_ring h))))).

(** ** Commands *)

Inductive MHI_CMD := MHI_CMD_RESET_CHAN | MHI_CMD_START_CHAN | MHI_CMD_TIMSYNC_CFG.

(** The element of a command; [er] is the time-sync object's event ring. *)
Definition cmd_element (cmd : MHI_CMD) (chan er : Z) : mhi_tre :=
  match cmd with
  | MHI_CMD_RESET_CHAN => cmd_tre chan MHI_CMD_TYPE_RESET
  | MHI_CMD_START_CHAN => cmd_tre chan MHI_CMD_TYPE_START
  | MHI_CMD_TIMSYNC_CFG => cmd_tre er MHI_CMD_TYPE_TSYNC
  end.

Definition mhi_send_cmd (ch : option Z) (k : MHI_CMD) (c : ctrl) : Z * ctrl :=
  let chan := default 0 ch in
  let q := cmd c in
  if get_nr_avail_ring_elements (mr_ring q) =? 0 then (- ENOMEM, c)
  else
    let c := set_cmd c (ring_push q (cmd_element k chan (default 0 (c_tsync c)))) in
    (0, if MHI_DB_ACCESS_VALID (pm_state c) then ring_cmd_db c else c).

Definition chan_at (c : ctrl) (i : Z) : option mhi_chan := zget (chans c) i.
Definition put_chan (c : ctrl) (i : Z) (h : mhi_chan) : ctrl :=
  set_chans c (<[Z.to_nat i := h]> (chans c)).

(** The completion of a command: the channel it names gets the code and its
    waiter is released; [None] when the channel is outside the array. *)
Definition mhi_process_cmd_completion (tre : mhi_tre) (c : ctrl) : option ctrl :=
  let q := cmd c in
  let cmd_pkt := mhi_to_virtual (mr_ring q) (MHI_TRE_GET_EV_PTR tre) in
  let c := if negb (cmd_pkt =? rp (mr_ring q)) then emit (NAssert "Out of order cmd completion") c else c in
  let t := default (Tre 0 0 0) (mr_mem q !! cmd_pkt) in
  let del c := set_cmd c (MemRing (mhi_del_ring_element (mr_ring q)) (mr_mem q)) in
  if MHI_TRE_GET_CMD_TYPE t =? MHI_CMD_TYPE_TSYNC
  then Some (del (emit (NComplete (-1) (MHI_TRE_GET_EV_CODE tre)) c))
  else
    let i := MHI_TRE_GET_CMD_CHID t in
    match chan_at c i with
    | None => None
    | Some h => Some (del (emit (NComplete i (MHI_TRE_GET_EV_CODE tre))
                                (put_chan c i (set_ccs h (MHI_TRE_GET_EV_CODE tre)))))
    end.

(** ** Event rings *)

Definition ev_at (e : mhi_event) : mhi_tre :=
  default (Tre 0 0 0) (mr_mem (er_q e) !! rp (mr_ring (er_q e))).

Definition recycle (e : mhi_event) : mhi_event :=
  set_er_q e (MemRing (mhi_recycle_ev_ring_element (mr_ring (er_q e))) (mr_mem (er_q e))).

(** A transfer event of the data or control ring: the channel it names;
    [None] when the channel is outside the array. *)
Definition dispatch_xfer (map_single : mhi_buf_info -> Z * Z) (t : mhi_tre) (c : ctrl) : option ctrl :=
  let i := MHI_TRE_GET_EV_CHID t in
  match chan_at c i with
  | None => None
  | Some h =>
      let type := MHI_TRE_GET_EV_TYPE t in
      if type =? MHI_PKT_TYPE_TX_EVENT then
        match parse_xfer_event map_single t h c with
        | Some (c, h) => Some (put_chan c i h) | None => None end
      else if type =? MHI_PKT_TYPE_RSC_TX_EVENT then
        match parse_rsc_event t h c with
        | Some (c, h) => Some (put_chan c i h) | None => None end
      else Some c
  end.

Definition is_xfer (t : mhi_tre) : bool :=
  (MHI_TRE_GET_EV_TYPE t =? MHI_PKT_TYPE_TX_EVENT) || (MHI_TRE_GET_EV_TYPE t =? MHI_PKT_TYPE_RSC_TX_EVENT).

(** The loop over the data event ring.  [dev_rp] is the pointer last read from
    the shared context; it is read again when the ring has been drained up to
    it or the quota is used up, and the device may have moved it by then, which
    is the argument [dev].  Returns the ring, the controller and the count. *)
Fixpoint data_loop (fuel : nat) (map_single : mhi_buf_info -> Z * Z) (dev : nat -> Z) (dev_rp quota : Z)
    (chan_count count : Z) (e : mhi_event) (c : ctrl) : option (mhi_event * ctrl * Z) :=
  let local_rp := rp (mr_ring (er_q e)) in
  if negb (dev_rp =? local_rp) && (0 <? quota) then
    match fuel with
    | O => None
    | S fuel =>
        let t := ev_at e in
        let i := MHI_TRE_GET_EV_CHID t in
        let before := from_option (fun h => rp (mr_ring (tre_ring h))) 0 (chan_at c i) in
        match dispatch_xfer map_single t c with
        | None => None
        | Some c =>
            let quota := if is_xfer t then quota - 1 else quota in
            let n := match chan_at c i with
                     | Some h => get_used_ring_elements before (rp (mr_ring (tre_ring h)))
                                   (elements (mr_ring (tre_ring h)))
                     | None => 0 end in
            let chan_count := u32 (chan_count + n) in
            let e := recycle e in
            let local_rp := rp (mr_ring (er_q e)) in
            if (local_rp =? dev_rp) || (quota =? 0) then
              let c := match chan_at c i with
                       | Some h => if ch_used_elements h <? chan_count
                                   then put_chan c i (set_ch_used_elements h chan_count) else c
                       | None => c end in
              data_loop fuel map_single dev (mhi_to_virtual (mr_ring (er_q e)) (dev fuel)) quota 0
                        (count + 1) e c
            else data_loop fuel map_single dev dev_rp quota chan_count (count + 1) e c
        end
    end
  else Some (e, c, count).

Definition mhi_process_data_event_ring (fuel : nat) (map_single : mhi_buf_info -> Z * Z) (dev : nat -> Z)
    (event_quota : Z) (e : mhi_event) (c : ctrl) : option (Z * mhi_event * ctrl) :=
  if MHI_EVENT_ACCESS_INVALID (pm_state c) then Some (- EIO, e, c)
  else
    match data_loop fuel map_single dev (mhi_to_virtual (mr_ring (er_q e)) (er_ctxt_rp e)) event_quota
            0 0 e c with
    | None => None
    | Some (e, c, count) =>
        let e := if er_used_elements e <? count then set_er_used_elements e count else e in
        if MHI_DB_ACCESS_VALID (pm_state c)
        then let '(c, e) := ring_er_db e c in Some (count, e, c)
        else Some (count, e, c)
    end.

(** ** Starting and stopping channels *)

(** What [__mhi_prepare_channel] gets from outside: the memory of the buffer
    ring, the rest of the system while it waits for the command's completion,
    and the buffers allocated for a pre-allocated channel. *)
Record prep_env := PrepEnv {
  pr_base : Z;
  pr_ring : Z * Z;
  pr_wait : ctrl -> bool * ctrl;
  pr_bufs : list (option Z);
  pr_map : mhi_buf_info -> Z * Z }.

Definition sizeof_mhi_buf_info : Z := 56.

(** The rings of a channel at their start: the transfer ring at its place in
    the control segment, the buffer ring in fresh zeroed memory. *)
Definition mhi_init_chan_ctxt (env : prep_env) (h : mhi_chan) : Z * mhi_chan :=
  let t := mr_ring (tre_ring h) in
  let b := mr_ring (buf_ring h) in
  let '(v, p) := pr_ring env in
  let tlen := sizeof_mhi_tre * elements t in
  if pr_base env =? 0 then
    (- ENOMEM,
     set_buf_ring
       (set_tre_ring h (MemRing (MhiRing p v (rp t) (wp t) sizeof_mhi_tre tlen (elements t) (ctxt_wp t)
                                         (db_addr t)) (mr_mem (tre_ring h))))
       (MemRing (MhiRing (iommu_base b) 0 (rp b) (wp b) sizeof_mhi_buf_info
                         (sizeof_mhi_buf_info * elements b) (elements b) (ctxt_wp b) (db_addr b)) ∅))
  else
    let t := MhiRing p v v v sizeof_mhi_tre tlen (elements t) p (db_addr t) in
    let b := MhiRing (iommu_base b) (pr_base env) (pr_base env) (pr_base env) sizeof_mhi_buf_info
                     (sizeof_mhi_buf_info * elements b) (elements b) (ctxt_wp b) (db_addr b) in
    let h := set_buf_ring (set_tre_ring h (MemRing t (mr_mem (tre_ring h)))) (MemRing b ∅) in
    (0, set_ch_db_cfg h (DbCfg true (db_val (ch_db_cfg h)) (db_burst (ch_db_cfg h)))).

Definition set_base (r : mhi_ring) (a : Z) : mhi_ring :=
  MhiRing (iommu_base r) a (rp r) (wp r) (el_size r) (len r) (elements r) (ctxt_wp r) (db_addr r).

Definition mhi_deinit_chan_ctxt (h : mhi_chan) : mhi_chan :=
  let h := set_buf_ring h (MemRing (set_base (mr_ring (buf_ring h)) 0) ∅) in
  set_tre_ring h (MemRing (set_base (mr_ring (tre_ring h)) 0) (mr_mem (tre_ring h))).

(** [mhi_mark_stale_events]: the pending transfer events of the channel get the
    internal type STALE. *)
Fixpoint mark_loop (fuel : nat) (r : mhi_ring) (ch dev_rp local_rp : Z) (mem : gmap Z mhi_tre)
  : option (gmap Z mhi_tre) :=
  if dev_rp =? local_rp then Some mem
  else
    match fuel with
    | O => None
    | S fuel =>
        let t := default (Tre 0 0 0) (mem !! local_rp) in
        let mem := if (MHI_TRE_GET_EV_TYPE t =? MHI_PKT_TYPE_TX_EVENT) && (ch =? MHI_TRE_GET_EV_CHID t)
                   then <[local_rp := Tre (tre_ptr t) (dword0 t)
                            (MHI_TRE_EV_DWORD1 ch MHI_PKT_TYPE_STALE_EVENT)]> mem
                   else mem in
        let local_rp := local_rp + sizeof_mhi_tre in
        let local_rp := if local_rp =? base r + len r then base r else local_rp in
        mark_loop fuel r ch dev_rp local_rp mem
    end.

Definition mhi_mark_stale_events (ch : Z) (e : mhi_event) : option mhi_event :=
  let r := mr_ring (er_q e) in
  match mark_loop (Z.to_nat (elements r)) r ch (mhi_to_virtual r (er_ctxt_rp e)) (rp r) (mr_mem (er_q e)) with
  | Some mem => Some (set_er_q e (MemRing r mem))
  | None => None
  end.

(** One turn of the drain: the oldest buffer is handed back with [-ENOTCONN],
    or freed when the driver allocated it.  The code does not set [result.dir]
    here, which is the [None]. *)
Definition drain_one (h : mhi_chan) (c : ctrl) : ctrl * mhi_chan :=
  let b := buf_head h in
  let c := pending_dec h c in
  let c := if to_device h then mhi_deassert_dev_wake c else c in
  let c := if b_pre_mapped b then c else emit (NUnmap (chan h) (b_p_addr b)) c in
  let h := del_elements h in
  let c := if pre_alloc h then emit (NFree (chan h) (b_cb_buf b)) c
           else emit (NXferCb (chan h) (MhiResult (b_cb_buf b) None 0 (- ENOTCONN))) c in
  (c, h).

Fixpoint mhi_reset_data_chan (fuel : nat) (h : mhi_chan) (c : ctrl) : option (ctrl * mhi_chan) :=
  if rp (mr_ring (tre_ring h)) =? wp (mr_ring (tre_ring h)) then Some (c, h)
  else
    match fuel with
    | O => None
    | S fuel => let '(c, h) := drain_one h c in mhi_reset_data_chan fuel h c
    end.

(** The walk over all slots of the buffer ring of a coalesced channel. *)
Fixpoint rsc_loop (fuel : nat) (p : Z) (h : mhi_chan) (c : ctrl) : ctrl * mhi_chan :=
  let r := mr_ring (buf_ring h) in
  match fuel with
  | O => (c, h)
  | S fuel =>
      if base r + len r <=? p then (c, h)
      else
        let b := default (BufInfo 0 0 0 0 0 false false) (mr_mem (buf_ring h) !! p) in
        if negb (b_used b) then rsc_loop fuel (p + sizeof_mhi_buf_info) h c
        else
          let c := emit (NXferCb (chan h) (MhiResult (b_cb_buf b) None 0 (- ENOTCONN))) c in
          let b := BufInfo (b_p_addr b) (b_v_addr b) (b_wp b) (b_len b) (b_cb_buf b) false (b_pre_mapped b) in
          let h := set_buf_ring h (MemRing r (<[p := b]> (mr_mem (buf_ring h)))) in
          rsc_loop fuel (p + sizeof_mhi_buf_info) h c
  end.

Definition mhi_reset_rsc_chan (h : mhi_chan) (c : ctrl) : ctrl * mhi_chan :=
  rsc_loop (Z.to_nat (elements (mr_ring (buf_ring h)))) (base (mr_ring (buf_ring h))) h c.

Definition mhi_reset_chan (h : mhi_chan) (c : ctrl) : option (ctrl * mhi_chan) :=
  if offload_ch h then Some (c, h)
  else
    match zget (events c) (er_index h) with
    | None => None
    | Some e =>
        match mhi_mark_stale_events (chan h) e with
        | None => None
        | Some e =>
            let c := set_events c (<[Z.to_nat (er_index h) := e]> (events c)) in
            if rsc_dma h then Some (mhi_reset_rsc_chan h c)
            else mhi_reset_data_chan (Z.to_nat (elements (mr_ring (tre_ring h)))) h c
        end
    end.

(** [__mhi_unprepare_channel] on channel [i]; [w] is the rest of the system
    while the reset command is outstanding. *)
Definition mhi_unprepare_channel (w : ctrl -> ctrl) (i : Z) (c : ctrl) : option ctrl :=
  match chan_at c i with
  | None => None
  | Some h =>
      if negb (ch_state h =? MHI_CH_STATE_ENABLED) then Some c
      else
        let c := put_chan c i (set_ch_state h MHI_CH_STATE_DISABLED) in
        let c :=
          if MHI_PM_IN_ERROR_STATE (pm_state c) then c
          else
            let c := mhi_assert_dev_wake c in
            let c := emit NRuntimeGet c in
            let '(ret, c) := mhi_send_cmd (Some (chan h)) MHI_CMD_RESET_CHAN c in
            let c := if ret =? 0 then w c else c in
            mhi_deassert_dev_wake (emit NRuntimePut c) in
        if offload_ch h then Some c
        else
          match chan_at c i with
          | None => None
          | Some h =>
              match mhi_reset_chan h c with
              | Some (c, h) => Some (put_chan c i (mhi_deinit_chan_ctxt h))
              | None => None
              end
          end
  end.

(** Pre-allocation: one buffer for every free element; stops at the first
    failure with its code. *)
Fixpoint prealloc_loop (map_single : mhi_buf_info -> Z * Z) (blen : Z) (nr_el : nat)
    (bufs : list (option Z)) (h : mhi_chan) (c : ctrl) : Z * ctrl * mhi_chan :=
  match nr_el with
  | O => (0, c, h)
  | S nr_el =>
      match bufs with
      | Some buf :: bufs =>
          let '(ret, h) := mhi_gen_tre map_single buf buf blen MHI_EOT h in
          if negb (ret =? 0) then (ret, emit (NFree (chan h) buf) c, h)
          else prealloc_loop map_single blen nr_el bufs h c
      | _ => (- ENOMEM, c, h)
      end
  end.

(** [__mhi_prepare_channel] on channel [i]; [w] is for the clean-up. *)
Definition mhi_prepare_channel (k : ctrl_cfg) (env : prep_env) (w : ctrl -> ctrl) (i : Z) (c : ctrl)
  : option (Z * ctrl) :=
  match chan_at c i with
  | None => None
  | Some h =>
      if Z.land (BIT (ee c)) (ee_mask h) =? 0 then Some (- ENOTCONN, c)
      else if negb (ch_state h =? MHI_CH_STATE_DISABLED) then Some (- EIO, c)
      else
        let '(ret, h) := if offload_ch h then (0, h) else mhi_init_chan_ctxt env h in
        let c := put_chan c i h in
        let error_pm_state c :=
          match chan_at c i with
          | Some h => if offload_ch h then c else put_chan c i (mhi_deinit_chan_ctxt h)
          | None => c
          end in
        if negb (ret =? 0) then Some (ret, c)
        else if MHI_PM_IN_ERROR_STATE (pm_state c) then Some (- EIO, error_pm_state c)
        else
          let c := emit NRuntimeGet (mhi_assert_dev_wake c) in
          let error_send_cmd c := error_pm_state (mhi_deassert_dev_wake (emit NRuntimePut c)) in
          let '(ret, c) := mhi_send_cmd (Some (chan h)) MHI_CMD_START_CHAN c in
          if negb (ret =? 0) then Some (ret, error_send_cmd c)
          else
            let '(done, c) := pr_wait env c in
            match chan_at c i with
            | None => None
            | Some h =>
                if negb done || negb (ccs h =? MHI_EV_CC_SUCCESS) then Some (- EIO, error_send_cmd c)
                else
                  let c := emit NRuntimePut c in
                  let h := set_ch_state h MHI_CH_STATE_ENABLED in
                  if pre_alloc h then
                    let nr_el := Z.to_nat (get_nr_avail_ring_elements (mr_ring (tre_ring h))) in
                    let '(ret, c, h) := prealloc_loop (pr_map env) (buffer_len k) nr_el (pr_bufs env) h c in
                    if negb (ret =? 0) then
                      match mhi_unprepare_channel w i (mhi_deassert_dev_wake (put_chan c i h)) with
                      | Some c => Some (ret, c) | None => None end
                    else
                      let '(c, h) := db_if_valid h c in
                      Some (0, mhi_deassert_dev_wake (put_chan c i h))
                  else Some (0, mhi_deassert_dev_wake (put_chan c i h))
            end
  end.

(** A client device: its outbound and inbound channels. *)
Record mhi_device := MhiDevice { ul_chan : option Z; dl_chan : option Z }.

Definition mhi_unprepare_opt (w : ctrl -> ctrl) (ch : option Z) (c : ctrl) : option ctrl :=
  match ch with None => Some c | Some i => mhi_unprepare_channel w i c end.

Definition path_started (c : ctrl) : option (Z * ctrl) := Some (0, set_xfer_paths c (xfer_paths c + 1)).

(** The inbound channel; a failure undoes the outbound one. *)
Definition prepare_inbound (k : ctrl_cfg) (ed : prep_env) (w : ctrl -> ctrl) (d : mhi_device) (c : ctrl)
  : option (Z * ctrl) :=
  match dl_chan d with
  | None => path_started c
  | Some i =>
      match mhi_prepare_channel k ed w i c with
      | None => None
      | Some (ret, c) =>
          if negb (ret =? 0) then
            match mhi_unprepare_opt w (ul_chan d) c with Some c => Some (ret, c) | None => None end
          else path_started c
      end
  end.

(** Outbound first, then inbound unless it is the same channel. *)
Definition mhi_prepare_for_transfer (k : ctrl_cfg) (eu ed : prep_env) (w : ctrl -> ctrl) (d : mhi_device)
    (c : ctrl) : option (Z * ctrl) :=
  match ul_chan d with
  | None => prepare_inbound k ed w d c
  | Some i =>
      match mhi_prepare_channel k eu w i c with
      | None => None
      | Some (ret, c) =>
          if negb (ret =? 0) then Some (ret, c)
          else if bool_decide (dl_chan d = ul_chan d) then path_started c
          else prepare_inbound k ed w d c
      end
  end.

(** [atomic_dec_if_positive]. *)
Definition mhi_unprepare_from_transfer (w : ctrl -> ctrl) (d : mhi_device) (c : ctrl) : option ctrl :=
  let dec c := Some (if 0 <? xfer_paths c then set_xfer_paths c (xfer_paths c - 1) else c) in
  match mhi_unprepare_opt w (dl_chan d) c with
  | None => None
  | Some c =>
      if bool_decide (dl_chan d = ul_chan d) && bool_decide (is_Some (dl_chan d)) then dec c
      else match mhi_unprepare_opt w (ul_chan d) c with Some c => dec c | None => None end
  end.

Definition mhi_get_no_free_descriptors (d : mhi_device) (to_dev : bool) (c : ctrl) : option Z :=
  match (if to_dev then ul_chan d else dl_chan d) with
  | None => None
  | Some i =>
      match chan_at c i with
      | None => None
      | Some h => if offload_ch h then Some 0
                  else Some (get_nr_avail_ring_elements (mr_ring (tre_ring h)))
      end
  end.

(** ** Removal by the driver core *)

Definition MHI_CH_STATE_SUSPENDED : Z := 3.
Definition MHI_EV_CC_INVALID : Z := 0.

(** First pass over one channel: waiters are released, the channel is
    suspended and reset.  Returns the state it had. *)
Definition remove_reset (ch : option Z) (c : ctrl) : option (Z * ctrl) :=
  match ch with
  | None => Some (MHI_CH_STATE_DISABLED, c)
  | Some i =>
      match chan_at c i with
      | None => None
      | Some h =>
          let c := emit (NComplete i MHI_EV_CC_INVALID) c in
          let old := ch_state h in
          let h := set_ch_state (set_ccs h MHI_EV_CC_INVALID) MHI_CH_STATE_SUSPENDED in
          if offload_ch h then Some (old, put_chan c i h)
          else match mhi_reset_chan h c with
               | Some (c, h) => Some (old, put_chan c i h)
               | None => None
               end
      end
  end.

(** Second pass: the rings of a channel that was enabled are given up. *)
Definition remove_deinit (ch : option Z) (old : Z) (c : ctrl) : option ctrl :=
  match ch with
  | None => Some c
  | Some i =>
      match chan_at c i with
      | None => None
      | Some h =>
          let h := if (old =? MHI_CH_STATE_ENABLED) && negb (offload_ch h) then mhi_deinit_chan_ctxt h else h in
          Some (put_chan c i (set_ch_state h MHI_CH_STATE_DISABLED))
      end
  end.

(** [client] is the driver's own [remove] callback. *)
Definition mhi_driver_remove (client : ctrl -> ctrl) (d : mhi_device) (c : ctrl) : option ctrl :=
  match remove_reset (dl_chan d) c with
  | None => None
  | Some (old_dl, c) =>
      match remove_reset (ul_chan d) c with
      | None => None
      | Some (old_ul, c) =>
          let c := client c in
          match remove_deinit (dl_chan d) old_dl c with
          | None => None
          | Some c => remove_deinit (ul_chan d) old_ul c
          end
      end
  end.

(** ** Invariant of a channel *)

(** The channel holds the transfers [l], oldest first: the elements in the
    transfer ring from slot [i] on and their buffers in the buffer ring. *)
Definition chan_holds_at (h : mhi_chan) (i : Z) (l : list (mhi_tre * mhi_buf_info)) : Prop :=
  ring_holds (tre_ring h) i (map fst l) /\
  (exists j, ring_holds (buf_ring h) j (map snd l)) /\
  elements (mr_ring (tre_ring h)) <= elements (mr_ring (buf_ring h)).

Definition chan_holds (h : mhi_chan) (l : list (mhi_tre * mhi_buf_info)) : Prop :=
  exists i, chan_holds_at h i l.

(** The results handed to the clients, in order. *)
Definition xfer_cbs (log : list note) : list mhi_result :=
  omap (fun n => match n with NXferCb _ r => Some r | _ => None end) log.

Lemma xfer_cbs_app l k : xfer_cbs (l ++ k) = xfer_cbs l ++ xfer_cbs k.
Proof. apply omap_app. Qed.

(** Two states that differ only in what the clients do not see. *)
Definition same_cbs (c c' : ctrl) : Prop := xfer_cbs (c_log c') = xfer_cbs (c_log c).

Lemma cbs_emit n c :
  xfer_cbs (c_log (emit n c)) =
  xfer_cbs (c_log c) ++ match n with NXferCb _ r => [r] | _ => [] end.
Proof. unfold emit. cbn. rewrite xfer_cbs_app. by destruct n. Qed.

Lemma zlen_map {A B} (f : A -> B) l : zlen (map f l) = zlen l.
Proof. unfold zlen. by rewrite length_map. Qed.

(** A write to the free slot at the write pointer does not show. *)
Lemma ring_holds_free {A} (q : mem_ring A) i l x :
  ring_holds q i l -> ring_holds (MemRing (mr_ring q) (<[wp (mr_ring q) := x]> (mr_mem q))) i l.
Proof.
  intros (Hat & Hlt & Hmem). unfold ring_holds. cbn. split_and!; [done|done|].
  intros k y Hy. rewrite (ra_wp _ _ _ Hat). fold (slot (mr_ring q) ((i + zlen l) mod elements (mr_ring q))).
  pose proof (zget_Some_range _ _ _ Hy). rewrite lookup_insert_ne; [by apply Hmem|].
  intros E. apply slot_inj in E; [|apply (ra_el _ _ _ Hat)]. apply mod_inj in E; lia.
Qed.

Lemma ring_holds_ctxt {A} (q : mem_ring A) i l a :
  ring_holds q i l -> ring_holds (MemRing (set_ctxt_wp (mr_ring q) a) (mr_mem q)) i l.
Proof. intros (Hat & Hlt & Hmem). split_and!; [|done|done]. destruct Hat. by split. Qed.

Lemma holds_len {A} (q : mem_ring A) i l : ring_holds q i l -> ring_full q = bool_decide (zlen l = ring_cap q).
Proof.
  intros H. assert (Hr : bq_rep q l) by by exists i. exact (bq_full_iff q l Hr).
Qed.

Lemma put_buf_holds h b i l : chan_holds_at h i l -> chan_holds_at (put_buf h b) i l.
Proof. intros (Ht & [j Hb] & He). split_and!; [done| |done]. exists j. by apply ring_holds_free. Qed.

Lemma db_if_valid_holds h c i l :
  chan_holds_at h i l -> chan_holds_at (snd (db_if_valid h c)) i l.
Proof.
  intros (Ht & Hb & He). unfold db_if_valid, ring_chan_db, mhi_ring_chan_db.
  split_match; [|done]. destruct (process_db _ _ _ _). cbn. split_and!; [|done|done].
  by apply ring_holds_ctxt.
Qed.

(** Filling the two slots and moving the two pointers queues the transfer. *)
Lemma add_elements_holds h t b i l :
  chan_holds_at h i l -> mhi_is_ring_full (mr_ring (tre_ring h)) = false ->
  chan_holds_at (add_elements (put_tre (put_buf h b) t)) i (l ++ [(t, b)]).
Proof.
  intros (Ht & [j Hb] & He) Hf. unfold chan_holds_at. rewrite !map_app. cbn [map fst snd].
  split_and!; [|exists j|done].
  - apply (ring_push_holds (tre_ring h)); [done|exact Hf].
  - apply (ring_push_holds (buf_ring h)); [done|].
    pose proof (holds_len _ _ _ Ht) as H1. unfold ring_full in H1 at 1. rewrite Hf in H1.
    symmetry in H1. apply bool_decide_eq_false in H1.
    rewrite (holds_len _ _ _ Hb). apply bool_decide_eq_false. unfold ring_cap in *.
    rewrite zlen_map in H1. rewrite zlen_map. destruct Ht as (_ & Hlt & _). rewrite zlen_map in Hlt. lia.
Qed.

(** What a change of the controller's bookkeeping can touch. *)
Lemma pending_inc_cbs h c : same_cbs c (pending_inc h c).
Proof.
  unfold same_cbs, pending_inc. split_match; [|done]. split_match; [|done].
  rewrite cbs_emit. by rewrite app_nil_r.
Qed.

Lemma pending_dec_cbs h c : same_cbs c (pending_dec h c).
Proof.
  unfold same_cbs, pending_dec. split_match; [|done]. split_match; [|done].
  rewrite cbs_emit. by rewrite app_nil_r.
Qed.

(** The part of a channel that queueing and completing never change. *)
Definition chan_fixed (h : mhi_chan) : Z * bool * bool * Z * Z :=
  (ch_state h, to_device h, pre_alloc h, el_size (mr_ring (tre_ring h)), elements (mr_ring (tre_ring h))).

Definition next_ix (h : mhi_chan) (i : Z) : Z := (i + 1) mod elements (mr_ring (tre_ring h)).

Lemma buf_head_holds h i t b l : chan_holds_at h i ((t, b) :: l) -> buf_head h = b.
Proof.
  intros (_ & [j Hb] & _). cbn [map snd] in Hb.
  destruct (ring_pop_holds _ _ _ _ Hb) as (q' & Hp & _). unfold ring_pop in Hp. unfold buf_head.
  destruct (mr_mem (buf_ring h) !! rp (mr_ring (buf_ring h))); [by injection Hp as -> _|done].
Qed.

Lemma del_elements_holds h i x l :
  chan_holds_at h i (x :: l) -> chan_holds_at (del_elements h) (next_ix h i) l.
Proof.
  intros (Ht & [j Hb] & He). cbn [map] in *.
  destruct (ring_pop_holds _ _ _ _ Ht) as ([r m] & _ & Ht' & Hr & Hm). cbn in Hr, Hm. subst.
  destruct (ring_pop_holds _ _ _ _ Hb) as ([r m] & _ & Hb' & Hr & Hm). cbn in Hr, Hm. subst.
  split_and!; [exact Ht'|eexists; exact Hb'|done].
Qed.
