(* ===== verification/MhiFifo.v ===== *)
(** * MHI transfers over time

    Theorems on sequences of operations of one channel of the MHI core
    (src/gl-feed/kernel/pcie_mhi/src/core/mhi_main.c, modelled in MhiXfer):
    clients queueing through any of the three entry points, the device
    completing transfers, and the driver draining the channel.  They show that
    buffers come back in the order in which they were queued and exactly once,
    that the runtime vote is held exactly while packets are pending, and that a
    reset leaves neither a buffer nor a live event behind. *)

From S2P Require Import Prelude CLib MhiReg MhiRing MhiCtrl MhiPm MhiXfer.

(** ** Accounting of the runtime votes *)

Definition vote_of (n : note) : Z :=
  match n with NRuntimeGet => 1 | NRuntimePut => -1 | _ => 0 end.

(** Votes held on the bus: those taken less those released. *)
Definition votes (log : list note) : Z := foldr Z.add 0 (map vote_of log).

Lemma votes_app l k : votes (l ++ k) = votes l + votes k.
Proof. unfold votes. induction l as [|n l IH]; cbn in *; lia. Qed.

Lemma votes_emit n c : votes (c_log (emit n c)) = votes (c_log c) + vote_of n.
Proof. unfold emit. cbn [c_log set_c_log]. rewrite votes_app. cbn. lia. Qed.

(** One vote is held exactly while a packet is pending. *)
Definition vote_ok (c : ctrl) : Prop :=
  0 <= pending_pkts c /\ votes (c_log c) = if 0 <? pending_pkts c then 1 else 0.

(** A step that neither a client nor the bus votes see. *)
Definition quiet (c c' : ctrl) : Prop :=
  same_cbs c c' /\ pending_pkts c' = pending_pkts c /\ votes (c_log c') = votes (c_log c).

#[global] Instance quiet_po : PreOrder quiet.
Proof.
  split; [by intros c|]. intros a b c (A1 & A2 & A3) (B1 & B2 & B3). unfold quiet, same_cbs in *.
  split_and!; congruence.
Qed.

Lemma quiet_vote_ok c c' : quiet c c' -> vote_ok c -> vote_ok c'.
Proof. intros (_ & Hp & Hv) [? ?]. unfold vote_ok. by rewrite Hp, Hv. Qed.

Lemma quiet_emit n c :
  vote_of n = 0 -> (forall ch r, n <> NXferCb ch r) -> quiet c (emit n c).
Proof.
  intros Hv Hn. unfold quiet, same_cbs. rewrite cbs_emit, votes_emit, Hv. split_and!; [|done|lia].
  destruct n; try apply app_nil_r. by destruct (Hn chan r).
Qed.

Lemma quiet_wake c : quiet c (mhi_assert_dev_wake c).
Proof. unfold mhi_assert_dev_wake. by repeat split_match. Qed.

Lemma quiet_resume c : quiet c (resume_if_suspended c).
Proof.
  unfold resume_if_suspended. split_match; [|done]. unfold quiet, same_cbs, emits.
  cbn [c_log set_c_log pending_pkts]. rewrite xfer_cbs_app, votes_app. cbn.
  split_and!; [apply app_nil_r|done|lia].
Qed.

Lemma quiet_db h c : quiet c (fst (db_if_valid h c)).
Proof.
  unfold db_if_valid, ring_chan_db. split_match; [|done]. unfold mhi_ring_chan_db.
  by destruct (process_db _ _ _ _).
Qed.

Lemma db_fixed h c : chan_fixed (snd (db_if_valid h c)) = chan_fixed h.
Proof.
  unfold db_if_valid, ring_chan_db. split_match; [|done]. unfold mhi_ring_chan_db.
  by destruct (process_db _ _ _ _).
Qed.

Create HintDb quiet.
#[export] Hint Resolve quiet_emit quiet_wake quiet_resume quiet_db : quiet.

(** Packets an operation on [h] puts on the pending count. *)
Definition weight (h : mhi_chan) (n : Z) : Z := if to_device h then n else 0.

Lemma pending_inc_ok h c :
  same_cbs c (pending_inc h c) /\ pending_pkts (pending_inc h c) = pending_pkts c + weight h 1 /\
  (vote_ok c -> vote_ok (pending_inc h c)).
Proof.
  split; [apply pending_inc_cbs|]. unfold pending_inc, weight. destruct (to_device h); [|split; [lia|done]].
  unfold vote_ok. cbn [pending_pkts set_pending_pkts].
  destruct (Z.eqb_spec (pending_pkts c + 1) 1); cbn [pending_pkts emit set_c_log set_pending_pkts];
    (split; [done|]); intros [? Hv]; [rewrite votes_emit|]; cbn [c_log set_pending_pkts vote_of];
    rewrite Hv; (split; [lia|]); repeat case_match; lia.
Qed.

Lemma pending_dec_ok h c : 0 <= pending_pkts c + weight h (-1) ->
  same_cbs c (pending_dec h c) /\ pending_pkts (pending_dec h c) = pending_pkts c + weight h (-1) /\
  (vote_ok c -> vote_ok (pending_dec h c)).
Proof.
  intros Hp. split; [apply pending_dec_cbs|]. revert Hp.
  unfold pending_dec, weight. destruct (to_device h); [|split; [lia|done]].
  unfold vote_ok. cbn [pending_pkts set_pending_pkts]. intros Hp.
  destruct (Z.eqb_spec (pending_pkts c - 1) 0); cbn [pending_pkts emit set_c_log set_pending_pkts];
    (split; [done|]); intros [? Hv]; [rewrite votes_emit|]; cbn [c_log set_pending_pkts vote_of];
    rewrite Hv; (split; [lia|]); repeat case_match; lia.
Qed.

(** [n] transfers of [h] leave the pending count, with the vote kept right. *)
Definition settles (h : mhi_chan) (n : Z) (c c' : ctrl) : Prop :=
  weight h n <= pending_pkts c ->
  pending_pkts c' = pending_pkts c - weight h n /\ (vote_ok c -> vote_ok c').

Lemma settles_quiet h c c' : quiet c c' -> settles h 0 c c'.
Proof.
  intros Hq _. split; [|by apply quiet_vote_ok]. pose proof Hq as (_ & -> & _). unfold weight. split_match; lia.
Qed.

Lemma settles_trans h h' n m c c1 c2 :
  to_device h' = to_device h -> 0 <= n -> 0 <= m ->
  settles h n c c1 -> settles h' m c1 c2 -> settles h (n + m) c c2.
Proof.
  unfold settles, weight. intros -> Hn Hm H1 H2 Hp. split_match.
  - destruct H1 as [E1 V1]; [lia|]. destruct H2 as [E2 V2]; [lia|]. split; [lia|auto].
  - destruct H1 as [E1 V1]; [lia|]. destruct H2 as [E2 V2]; [lia|]. split; [lia|auto].
Qed.

Lemma pending_dec_settles h c : settles h 1 c (pending_dec h c).
Proof.
  intros Hw. destruct (pending_dec_ok h c) as (_ & -> & ?); unfold weight in *; split_match; try split; done || lia.
Qed.

(** ** Queueing *)

(** What every entry point promises: on success the buffer is the channel's
    newest transfer and one more packet is pending, on failure nothing shows. *)
Definition queued (h : mhi_chan) (c : ctrl) (i : Z) (l : list (mhi_tre * mhi_buf_info)) (buf : Z)
    (r : Z * ctrl * mhi_chan) : Prop :=
  let '(ret, c', h') := r in
  same_cbs c c' /\ chan_fixed h' = chan_fixed h /\ (vote_ok c -> vote_ok c') /\
  (ret = 0 -> pending_pkts c' = pending_pkts c + weight h 1 /\
              exists t b, chan_holds_at h' i (l ++ [(t, b)]) /\ b_cb_buf b = buf) /\
  (ret <> 0 -> pending_pkts c' = pending_pkts c /\ chan_holds_at h' i l).

Lemma queued_refused h c c' h' i l buf ret :
  ret <> 0 -> quiet c c' -> chan_fixed h' = chan_fixed h -> chan_holds_at h' i l ->
  queued h c i l buf (ret, c', h').
Proof.
  intros Hr Hq Hf Hh. pose proof Hq as (? & ? & ?).
  split_and!; [done|done|by apply quiet_vote_ok|by intros|done].
Qed.

(** The common tail: the packet is counted and the doorbell rung. *)
Lemma queued_tail h c c0 h1 i l buf t b wake :
  quiet c c0 -> chan_fixed h1 = chan_fixed h -> chan_holds_at h1 i (l ++ [(t, b)]) -> b_cb_buf b = buf ->
  queued h c i l buf
    (let '(c2, h2) := db_if_valid h1 (pending_inc h1 c0) in (0, wake_put_inbound h2 wake c2, h2)).
Proof.
  intros Hq Hf Hh Hb. destruct (pending_inc_ok h1 c0) as (P1 & P2 & P3).
  pose proof (quiet_db h1 (pending_inc h1 c0)) as Hd. pose proof (db_fixed h1 (pending_inc h1 c0)) as Hdf.
  pose proof (db_if_valid_holds h1 (pending_inc h1 c0) i _ Hh) as Hh2.
  destruct (db_if_valid h1 (pending_inc h1 c0)) as [c2 h2]. cbn [fst snd] in *.
  assert (Hw : wake_put_inbound h2 wake c2 = c2).
  { unfold wake_put_inbound, mhi_deassert_dev_wake. by destruct (_ && _). }
  pose proof Hq as (Q1 & Q2 & Q3). pose proof Hd as (D1 & D2 & D3). unfold queued. rewrite Hw.
  unfold same_cbs in *.
  split_and!; [congruence|congruence| | |done].
  - intros Hv. eapply quiet_vote_ok; [exact Hd|]. apply P3. by eapply quiet_vote_ok.
  - intros _. split; [|by exists t, b]. rewrite D2, P2, Q2. injection Hf as _ Hdir _ _ _.
    unfold weight. by rewrite Hdir.
Qed.

Lemma queue_skb_queued map_single skb data blen h c i l :
  chan_holds_at h i l -> queued h c i l skb (mhi_queue_skb map_single skb data blen h c).
Proof.
  intros Hh. unfold mhi_queue_skb, mhi_deassert_dev_wake.
  destruct (mhi_is_ring_full (mr_ring (tre_ring h))) eqn:Hfull; [by apply queued_refused|].
  split_match; [by apply queued_refused|].
  set (c0 := resume_if_suspended c).
  assert (Hw : quiet c (if needs_wake h c0 then mhi_assert_dev_wake c0 else c0)).
  { transitivity c0; [apply quiet_resume|]. split_match; [apply quiet_wake|done]. }
  destruct (map_single _) as [ret p]. destruct (Z.eqb_spec ret 0) as [->|Hne]; cbn [negb].
  - set (c1 := if needs_wake h c0 then _ else _) in *.
    match goal with |- context [add_elements (put_tre (put_buf h ?b) ?t)] => set (B := b); set (T := t) end.
    refine (queued_tail h c c1 (add_elements (put_tre (put_buf h B) T)) i l skb T B _ Hw eq_refl _ eq_refl).
    by apply add_elements_holds.
  - apply queued_refused; [done| |done|by apply put_buf_holds].
    replace (if needs_wake h c0 then _ else _) with (if needs_wake h c0 then mhi_assert_dev_wake c0 else c0);
      [done|by destruct (needs_wake h c0)].
Qed.

Lemma queue_dma_queued buf dma blen h c i l :
  chan_holds_at h i l -> queued h c i l buf (mhi_queue_dma buf dma blen h c).
Proof.
  intros Hh. unfold mhi_queue_dma.
  destruct (mhi_is_ring_full (mr_ring (tre_ring h))) eqn:Hfull; [by apply queued_refused|].
  split_match; [by apply queued_refused|].
  set (c0 := resume_if_suspended c). set (c1 := if needs_wake h c0 then _ else _).
  assert (Hw : quiet c (if b_used (buf_slot h) then emit (NAssert "TRE Not Freed") c1 else c1)).
  { transitivity c0; [apply quiet_resume|]. transitivity c1; [subst c1; split_match; [apply quiet_wake|done]|].
    split_match; [|done]. by apply quiet_emit. }
  match goal with |- context [add_elements (put_tre (put_buf h ?b) ?t)] => set (B := b); set (T := t) end.
  refine (queued_tail h c _ (add_elements (put_tre (put_buf h B) T)) i l buf T B _ Hw eq_refl _ eq_refl).
  by apply add_elements_holds.
Qed.

Lemma queue_buf_queued map_single buf blen flags h c i l :
  chan_holds_at h i l -> queued h c i l buf (mhi_queue_buf map_single buf blen flags h c).
Proof.
  intros Hh. unfold mhi_queue_buf, mhi_gen_tre.
  split_match; [by apply queued_refused|].
  destruct (mhi_is_ring_full (mr_ring (tre_ring h))) eqn:Hfull; [by apply queued_refused|].
  destruct (map_single _) as [ret p]. destruct (Z.eqb_spec ret 0) as [->|Hne]; cbn [negb Z.eqb].
  - match goal with |- context [add_elements (put_tre (put_buf h ?b) ?t)] => set (B := b); set (T := t) end.
    set (h1 := add_elements _). set (c0 := resume_if_suspended c).
    assert (Hw : quiet c (if needs_wake h1 c0 then mhi_assert_dev_wake c0 else c0)).
    { transitivity c0; [apply quiet_resume|]. split_match; [apply quiet_wake|done]. }
    refine (queued_tail h c _ h1 i l buf T B _ Hw eq_refl _ eq_refl). by apply add_elements_holds.
  - rewrite (proj2 (Z.eqb_neq ret 0) Hne). cbn [negb].
    apply queued_refused; [done|done|done|by apply put_buf_holds].
Qed.

(** ** Completions and drains *)

(** One completed transfer: the oldest buffer goes back. *)
Lemma complete_one_holds map_single status xlen h c i t b l :
  chan_holds_at h i ((t, b) :: l) -> pre_alloc h = false ->
  let '(c', h') := complete_one map_single status xlen h c in
  chan_holds_at h' (next_ix h i) l /\ chan_fixed h' = chan_fixed h /\ settles h 1 c c' /\
  xfer_cbs (c_log c') = xfer_cbs (c_log c) ++ [MhiResult (b_cb_buf b) (Some (to_device h)) xlen status].
Proof.
  intros Hh Hpre. unfold complete_one, mhi_deassert_dev_wake. rewrite (buf_head_holds h i t b l Hh).
  change (pre_alloc (del_elements h)) with (pre_alloc h). rewrite Hpre.
  assert (Hd : forall (b : bool) (x : ctrl), (if b then x else x) = x) by (by intros []).
  rewrite Hd. set (c1 := if b_pre_mapped b then c else _). set (c2 := emit _ c1).
  assert (Hc1 : quiet c c1) by (subst c1; split_match; [done|by apply quiet_emit]).
  split_and!; [by eapply del_elements_holds|done| |].
  - intros Hp. pose proof Hc1 as (_ & E1 & V1).
    assert (E2 : pending_pkts c2 = pending_pkts c) by exact E1.
    assert (V2 : votes (c_log c2) = votes (c_log c)).
    { subst c2. rewrite votes_emit. cbn [vote_of]. lia. }
    destruct (pending_dec_settles (del_elements h) c2) as [E3 V3].
    { unfold weight in *. change (to_device (del_elements h)) with (to_device h). by rewrite E2. }
    rewrite E3, E2. split; [done|]. intros [? ?]. apply V3. unfold vote_ok. rewrite E2, V2. done.
  - rewrite pending_dec_cbs. subst c2. rewrite cbs_emit. f_equal. apply Hc1.
Qed.

(** The element a completion event names, [k] places after the oldest. *)
Definition element_ptr (h : mhi_chan) (i k : Z) : Z :=
  let r := mr_ring (tre_ring h) in mhi_to_physical r (slot r ((i + k) mod elements r)).

Lemma dev_rp_element h i l k :
  chan_holds_at h i l -> el_size (mr_ring (tre_ring h)) = sizeof_mhi_tre -> 0 <= k < zlen l ->
  dev_rp_after (mr_ring (tre_ring h)) (element_ptr h i k) =
  slot (mr_ring (tre_ring h)) ((i + k + 1) mod elements (mr_ring (tre_ring h))).
Proof.
  intros ((Hat & Hlt & _) & _) Hel Hk. unfold dev_rp_after, element_ptr. set (r := mr_ring (tre_ring h)) in *.
  pose proof (Z.mod_pos_bound (i + k) (elements r) ltac:(pose proof (ra_n _ _ _ Hat); lia)) as Hm.
  pose proof (slot_in_ring r _ (ra_el _ _ _ Hat) (ra_len _ _ _ Hat) Hm) as Hin.
  destruct (phys_virt r _ _ Hat _ Hin) as [_ ->]. rewrite <- Hel.
  rewrite (next_slot r _ (ra_el _ _ _ Hat) (ra_len _ _ _ Hat) Hm). by rewrite Zplus_mod_idemp_l.
Qed.

(** The completion loop returns exactly the transfers up to the one named. *)
Lemma complete_until_holds map_single status xlen done rest : forall fuel h c i,
  chan_holds_at h i (done ++ rest) -> pre_alloc h = false -> (length done <= fuel)%nat ->
  exists c' h',
    complete_until fuel map_single
      (slot (mr_ring (tre_ring h)) ((i + zlen done) mod elements (mr_ring (tre_ring h)))) status xlen h c
      = Some (c', h') /\
    chan_holds_at h' ((i + zlen done) mod elements (mr_ring (tre_ring h))) rest /\
    chan_fixed h' = chan_fixed h /\ settles h (zlen done) c c' /\
    xfer_cbs (c_log c') = xfer_cbs (c_log c) ++
      map (fun x => MhiResult (b_cb_buf (snd x)) (Some (to_device h)) xlen status) done.
Proof.
  induction done as [|[t b] done IH]; intros fuel h c i Hh Hpre Hf.
  - assert (Hat : ring_at (mr_ring (tre_ring h)) i
      ((i + zlen (map fst rest)) mod elements (mr_ring (tre_ring h)))) by apply Hh.
    pose proof (ra_i _ _ _ Hat) as Hi. change (zlen (@nil (mhi_tre * mhi_buf_info))) with 0.
    rewrite Z.add_0_r, (Z.mod_small i) by done. exists c, h. split_and!; [|done|done|by apply settles_quiet|by rewrite app_nil_r].
    unfold slot. rewrite <- (ra_rp _ _ _ Hat). destruct fuel; cbn; by rewrite Z.eqb_refl.
  - destruct fuel as [|fuel]; [cbn in Hf; lia|]. cbn [app] in Hh. cbn [length] in Hf.
    set (r := mr_ring (tre_ring h)) in *. set (N := elements r) in *.
    assert (Hne : (rp r =? slot r ((i + zlen ((t, b) :: done)) mod N)) = false).
    { destruct Hh as ((Hat & Hlt & _) & _). fold r N in Hat, Hlt. rewrite (ra_rp _ _ _ Hat). fold (slot r i).
      pose proof (ra_i _ _ _ Hat) as Hi. fold N in Hi. apply Z.eqb_neq. intros E.
      apply slot_inj in E; [|apply (ra_el _ _ _ Hat)].
      rewrite <- (Z.mod_small i N) in E at 1 by done. rewrite <- (Z.add_0_r i) in E at 1.
      rewrite zlen_map in Hlt. cbn [map] in Hlt. rewrite !zlen_cons, zlen_app in *.
      pose proof (zlen_nonneg done). pose proof (zlen_nonneg rest). apply mod_inj in E; lia. }
    cbn [complete_until]. fold r. rewrite Hne.
    pose proof (complete_one_holds map_single status xlen h c i t b (done ++ rest) Hh Hpre) as H1.
    destruct (complete_one map_single status xlen h c) as [c1 h1] eqn:E1.
    destruct H1 as (Hh1 & Hfix & Hset & Hcb).
    assert (Hr1 : slot (mr_ring (tre_ring h1)) = slot r /\ elements (mr_ring (tre_ring h1)) = N).
    { unfold complete_one in E1. change (pre_alloc (del_elements h)) with (pre_alloc h) in E1.
      rewrite Hpre in E1. injection E1 as _ <-. done. }
    destruct Hr1 as [Hs1 Hn1]. pose proof Hfix as Hfix0. unfold chan_fixed in Hfix.
    injection Hfix as F1 F2 F3 F4 F5.
    destruct (IH fuel h1 c1 (next_ix h i)) as (c' & h' & Hrun & Hh' & Hfix' & Hset' & Hcb');
      [done|congruence|lia|].
    rewrite Hs1, Hn1 in *.
    assert (Hix : (next_ix h i + zlen done) mod N = (i + zlen ((t, b) :: done)) mod N).
    { unfold next_ix. fold r N. rewrite Zplus_mod_idemp_l, zlen_cons. f_equal. lia. }
    rewrite Hix in *. exists c', h'. split_and!; [done|done| | |].
    + by rewrite Hfix', Hfix0.
    + rewrite zlen_cons. eapply settles_trans; [exact F2|lia|apply zlen_nonneg|done|done].
    + rewrite Hcb', Hcb, <- app_assoc, F2. done.
Qed.

(** Draining a channel hands back everything it holds. *)
Lemma drain_one_holds h c i t b l :
  chan_holds_at h i ((t, b) :: l) -> pre_alloc h = false ->
  let '(c', h') := drain_one h c in
  chan_holds_at h' (next_ix h i) l /\ chan_fixed h' = chan_fixed h /\ settles h 1 c c' /\
  xfer_cbs (c_log c') = xfer_cbs (c_log c) ++ [MhiResult (b_cb_buf b) None 0 (- ENOTCONN)].
Proof.
  intros Hh Hpre. unfold drain_one, mhi_deassert_dev_wake. rewrite (buf_head_holds h i t b l Hh).
  change (pre_alloc (del_elements h)) with (pre_alloc h). rewrite Hpre.
  assert (Hd : forall (b : bool) (x : ctrl), (if b then x else x) = x) by (by intros []). rewrite Hd.
  set (c1 := if b_pre_mapped b then _ else _).
  assert (Hc1 : quiet (pending_dec h c) c1) by (subst c1; split_match; [done|by apply quiet_emit]).
  pose proof Hc1 as (C1 & E1 & V1).
  split_and!; [by eapply del_elements_holds|done| |].
  - intros Hp. destruct (pending_dec_settles h c Hp) as [E V]. unfold vote_ok. rewrite votes_emit.
    cbn [vote_of pending_pkts emit set_c_log]. rewrite E1, V1, Z.add_0_r. done.
  - rewrite cbs_emit. f_equal. rewrite C1. apply pending_dec_cbs.
Qed.

Lemma drain_holds l : forall fuel h c i,
  chan_holds_at h i l -> pre_alloc h = false -> (length l <= fuel)%nat ->
  exists c' h', mhi_reset_data_chan fuel h c = Some (c', h') /\
    chan_holds h' [] /\ chan_fixed h' = chan_fixed h /\ settles h (zlen l) c c' /\
    xfer_cbs (c_log c') = xfer_cbs (c_log c) ++
      map (fun x => MhiResult (b_cb_buf (snd x)) None 0 (- ENOTCONN)) l.
Proof.
  induction l as [|[t b] l IH]; intros fuel h c i Hh Hpre Hf.
  - pose proof Hh as (Ht & _). pose proof (empty_iff _ _ _ Ht) as He.
    exists c, h. split_and!; [|by exists i|done|by apply settles_quiet|by rewrite app_nil_r].
    destruct fuel; cbn [mhi_reset_data_chan]; by rewrite He.
  - destruct fuel as [|fuel]; [cbn in Hf; lia|].
    pose proof Hh as (Ht & _). pose proof (empty_iff _ _ _ Ht) as He. cbn [mhi_reset_data_chan].
    rewrite He. pose proof (drain_one_holds h c i t b l Hh Hpre) as H1.
    destruct (drain_one h c) as [c1 h1]. destruct H1 as (Hh1 & Hfix & Hset & Hcb).
    pose proof Hfix as Hfix0. injection Hfix as F1 F2 F3 F4 F5.
    destruct (IH fuel h1 c1 _ Hh1) as (c' & h' & Hr & Hh' & Hf' & Hset' & Hcb');
      [congruence|cbn in Hf; lia|].
    exists c', h'. split_and!; [done|done|by rewrite Hf', Hfix0| |].
    { rewrite zlen_cons. eapply settles_trans; [exact F2|lia|apply zlen_nonneg|done|done]. }
    rewrite Hcb', Hcb, <- app_assoc. done.
Qed.

(** The ring positions determine where the transfers start. *)
Lemma holds_position h i l i' j' :
  chan_holds_at h i l -> ring_at (mr_ring (tre_ring h)) i' j' ->
  i' = i /\ used (mr_ring (tre_ring h)) i' j' = zlen l.
Proof.
  intros ((Hat & Hlt & _) & _) Hat'. rewrite zlen_map in *.
  assert (Hi : i' = i).
  { apply (slot_inj (mr_ring (tre_ring h))); [apply (ra_el _ _ _ Hat)|].
    unfold slot. rewrite <- (ra_rp _ _ _ Hat). symmetry. apply (ra_rp _ _ _ Hat'). }
  assert (Hj : j' = (i + zlen l) mod elements (mr_ring (tre_ring h))).
  { apply (slot_inj (mr_ring (tre_ring h))); [apply (ra_el _ _ _ Hat)|].
    unfold slot. rewrite <- (ra_wp _ _ _ Hat). symmetry. apply (ra_wp _ _ _ Hat'). }
  subst. split; [done|]. unfold used. pose proof (zlen_nonneg l). by rewrite used_holds by lia.
Qed.

(** A completion code of a transfer. *)
Definition transfer_code (code : Z) : bool :=
  (code =? MHI_EV_CC_OVERFLOW) || (code =? MHI_EV_CC_EOB) || (code =? MHI_EV_CC_EOT).
Definition transfer_status (code : Z) : Z := if code =? MHI_EV_CC_OVERFLOW then - EOVERFLOW else 0.

Lemma parse_transfer map_single event h c i done rest :
  chan_holds_at h i (done ++ rest) -> done <> [] ->
  el_size (mr_ring (tre_ring h)) = sizeof_mhi_tre -> pre_alloc h = false ->
  ch_state h = MHI_CH_STATE_ENABLED -> transfer_code (MHI_TRE_GET_EV_CODE event) = true ->
  MHI_TRE_GET_EV_PTR event = element_ptr h i (zlen done - 1) ->
  exists c' h', parse_xfer_event map_single event h c = Some (c', h') /\
    chan_holds h' rest /\ chan_fixed h' = chan_fixed h /\ settles h (zlen done) c c' /\
    xfer_cbs (c_log c') = xfer_cbs (c_log c) ++
      map (fun x => MhiResult (b_cb_buf (snd x)) (Some (to_device h)) (MHI_TRE_GET_EV_LEN event)
                              (transfer_status (MHI_TRE_GET_EV_CODE event))) done.
Proof.
  intros Hh Hne Hel Hpre Hst Hcode Hptr. unfold parse_xfer_event. rewrite Hst, Z.eqb_refl. cbn [negb].
  unfold transfer_code in Hcode. rewrite Hcode, Hptr.
  pose proof (zlen_nonneg done). pose proof (zlen_nonneg rest).
  assert (Hpos : 0 < zlen done) by (destruct done; [done|rewrite zlen_cons; pose proof (zlen_nonneg done); lia]).
  rewrite (dev_rp_element h i (done ++ rest)) by (done || (rewrite zlen_app; lia)).
  replace (i + (zlen done - 1) + 1) with (i + zlen done) by lia.
  destruct (complete_until_holds map_single (transfer_status (MHI_TRE_GET_EV_CODE event))
    (MHI_TRE_GET_EV_LEN event) done rest
    (Z.to_nat (elements (mr_ring (tre_ring (count_event h (MHI_TRE_GET_EV_CODE event))))))
    (count_event h (MHI_TRE_GET_EV_CODE event)) c i) as (c' & h' & Hr & Hh' & Hf & Hs & Hcb).
  - exact Hh.
  - exact Hpre.
  - destruct Hh as ((_ & Hlt & _) & _). rewrite zlen_map, zlen_app in Hlt. cbn. unfold zlen in *. lia.
  - exists c', h'. split_and!; [exact Hr|by eexists|exact Hf|exact Hs|exact Hcb].
Qed.

(** ** Runs of a channel *)

Section Run.
Context (map_single : mhi_buf_info -> Z * Z).

(** One operation on a channel with the buffers it accepts: a client queues
    through one of the three entry points, the device completes transfers up
    to the one [k] places after the oldest, or the driver drains the channel. *)
Inductive xstep : ctrl * mhi_chan -> list Z -> ctrl * mhi_chan -> Prop :=
| xs_buf buf blen flags c h ret c' h' :
    mhi_queue_buf map_single buf blen flags h c = (ret, c', h') ->
    xstep (c, h) (if ret =? 0 then [buf] else []) (c', h')
| xs_skb skb data blen c h ret c' h' :
    mhi_queue_skb map_single skb data blen h c = (ret, c', h') ->
    xstep (c, h) (if ret =? 0 then [skb] else []) (c', h')
| xs_dma buf dma blen c h ret c' h' :
    mhi_queue_dma buf dma blen h c = (ret, c', h') ->
    xstep (c, h) (if ret =? 0 then [buf] else []) (c', h')
| xs_complete event i j k c h c' h' :
    ring_at (mr_ring (tre_ring h)) i j -> 0 <= k < used (mr_ring (tre_ring h)) i j ->
    MHI_TRE_GET_EV_PTR event = element_ptr h i k -> transfer_code (MHI_TRE_GET_EV_CODE event) = true ->
    parse_xfer_event map_single event h c = Some (c', h') ->
    xstep (c, h) [] (c', h')
| xs_drain c h c' h' :
    mhi_reset_data_chan (Z.to_nat (elements (mr_ring (tre_ring h)))) h c = Some (c', h') ->
    xstep (c, h) [] (c', h').

Inductive xrun : ctrl * mhi_chan -> list Z -> ctrl * mhi_chan -> Prop :=
| xr_refl s : xrun s [] s
| xr_step s acc s1 a s2 : xrun s acc s1 -> xstep s1 a s2 -> xrun s (acc ++ a) s2.

(** Buffers handed back so far, and buffers still with the device. *)
Definition returned (s : ctrl * mhi_chan) : list Z := map buf_addr (xfer_cbs (c_log (fst s))).
Definition outstanding (l : list (mhi_tre * mhi_buf_info)) : list Z := map (fun x => b_cb_buf (snd x)) l.

(** The channel serves its client: it holds [l], is enabled, does not allocate
    its own buffers, and [others] packets are pending elsewhere. *)
Definition serving (others : Z) (s : ctrl * mhi_chan) (l : list (mhi_tre * mhi_buf_info)) : Prop :=
  chan_holds (snd s) l /\ el_size (mr_ring (tre_ring (snd s))) = sizeof_mhi_tre /\
  pre_alloc (snd s) = false /\ ch_state (snd s) = MHI_CH_STATE_ENABLED /\ 0 <= others /\
  pending_pkts (fst s) = others + weight (snd s) (zlen l) /\ vote_ok (fst s).

Lemma serving_queued others c h l buf r ret c' h' :
  serving others (c, h) l -> (forall i, chan_holds_at h i l -> queued h c i l buf r) -> r = (ret, c', h') ->
  exists l', serving others (c', h') l' /\
    returned (c', h') ++ outstanding l' =
    (returned (c, h) ++ outstanding l) ++ (if ret =? 0 then [buf] else []).
Proof.
  intros ([i Hh] & He & Hp & Hs & Ho & Hn & Hv) Hq ->. cbn [fst snd] in *.
  destruct (Hq i Hh) as (Hcb & Hf & Hvo & Hok & Hbad). injection Hf as F1 F2 F3 F4 F5.
  unfold returned, serving. cbn [fst snd]. rewrite Hcb.
  destruct (Z.eqb_spec ret 0) as [->|Hne].
  - destruct (Hok eq_refl) as (Hn' & t & b & Hh' & Hb). exists (l ++ [(t, b)]).
    unfold outstanding. rewrite map_app. cbn [map snd]. rewrite Hb, app_assoc.
    split_and!; try done; [by exists i|congruence|congruence|congruence| |auto].
    rewrite Hn', Hn, zlen_snoc. unfold weight. rewrite F2. split_match; lia.
  - destruct (Hbad Hne) as (Hn' & Hh'). exists l. rewrite app_nil_r.
    split_and!; try done; [by exists i|congruence|congruence|congruence| |auto].
    rewrite Hn', Hn. unfold weight. by rewrite F2.
Qed.

(** Retiring the oldest [done] transfers moves them from the outstanding to
    the returned ones. *)
Lemma serving_retired others c h done rest c' h' f :
  serving others (c, h) (done ++ rest) -> chan_holds h' rest -> chan_fixed h' = chan_fixed h ->
  settles h (zlen done) c c' -> xfer_cbs (c_log c') = xfer_cbs (c_log c) ++ map f done ->
  (forall x, buf_addr (f x) = b_cb_buf (snd x)) ->
  serving others (c', h') rest /\ returned (c', h') ++ outstanding rest = returned (c, h) ++ outstanding (done ++ rest).
Proof.
  intros (_ & He & Hp & Hs & Ho & Hn & Hv) Hh' Hf Hset Hcb Hfb. cbn [fst snd] in *.
  injection Hf as F1 F2 F3 F4 F5. pose proof (zlen_nonneg done). pose proof (zlen_nonneg rest).
  destruct Hset as [Hn' Hv']; [rewrite Hn, zlen_app; unfold weight; split_match; lia|].
  unfold serving, returned, outstanding. cbn [fst snd]. split.
  - split_and!; try done; try congruence; [|by auto].
    rewrite Hn', Hn, zlen_app. unfold weight. rewrite F2. split_match; lia.
  - rewrite Hcb, !map_app, map_map, <- !app_assoc. do 2 f_equal. by apply map_ext.
Qed.

Lemma xstep_serving others s a s' l :
  xstep s a s' -> serving others s l ->
  exists l', serving others s' l' /\ returned s' ++ outstanding l' = (returned s ++ outstanding l) ++ a.
Proof.
  destruct 1 as [buf blen flags c h ret c' h' E|skb data blen c h ret c' h' E|buf dma blen c h ret c' h' E
    |event i j k c h c' h' Hat Hk Hptr Hcode E|c h c' h' E]; intros Hs.
  - eapply serving_queued; [done| |exact E]. intros; by apply queue_buf_queued.
  - eapply serving_queued; [done| |exact E]. intros; by apply queue_skb_queued.
  - eapply serving_queued; [done| |exact E]. intros; by apply queue_dma_queued.
  - pose proof Hs as ([i0 Hh] & He & Hp & Hst & _). cbn [fst snd] in *.
    destruct (holds_position h i0 l i j Hh Hat) as [-> Hu]. rewrite Hu in Hk.
    assert (Hl : l = take (Z.to_nat (k + 1)) l ++ drop (Z.to_nat (k + 1)) l) by (by rewrite take_drop).
    assert (Hz : zlen (take (Z.to_nat (k + 1)) l) = k + 1).
    { unfold zlen in *. rewrite length_take. lia. }
    revert Hl Hz. generalize (take (Z.to_nat (k + 1)) l) (drop (Z.to_nat (k + 1)) l).
    intros done rest -> Hz.
    destruct (parse_transfer map_single event h c i0 done rest) as (c1 & h1 & E1 & Hh1 & Hf & Hset & Hcb);
      [done|intros ->; change (zlen (@nil (mhi_tre * mhi_buf_info))) with 0 in Hz; lia|done|done|done|done|by replace (zlen done - 1) with k by lia|].
    rewrite E in E1. injection E1 as <- <-. exists rest. rewrite app_nil_r.
    eapply serving_retired; [done|done|done|done|exact Hcb|done].
  - pose proof Hs as ([i0 Hh] & He & Hp & Hst & _). cbn [fst snd] in *.
    destruct (drain_holds l (Z.to_nat (elements (mr_ring (tre_ring h)))) h c i0 Hh Hp)
      as (c1 & h1 & E1 & Hh1 & Hf & Hset & Hcb).
    { destruct Hh as ((_ & Hlt & _) & _). rewrite zlen_map in Hlt. unfold zlen in Hlt. lia. }
    rewrite E in E1. injection E1 as <- <-. exists [].
    rewrite <- (app_nil_r l) in Hs. rewrite (app_nil_r (_ ++ _)). rewrite <- (app_nil_r l) at 1.
    by eapply serving_retired.
Qed.

Lemma xrun_serving others s acc s' l :
  xrun s acc s' -> serving others s l ->
  exists l', serving others s' l' /\ returned s' ++ outstanding l' = (returned s ++ outstanding l) ++ acc.
Proof.
  induction 1 as [s|s acc s1 a s2 _ IH Hx]; intros Hs.
  - exists l. by rewrite app_nil_r.
  - destruct (IH Hs) as (l1 & H1 & E1). destruct (xstep_serving _ _ _ _ _ Hx H1) as (l2 & H2 & E2).
    exists l2. split; [done|]. by rewrite E2, E1, app_assoc.
Qed.

End Run.

(** ** Theorems *)

(** A completion event returns to the client exactly the transfers up to
    and including the element it names, oldest first, each once, with the
    event's length and [-EOVERFLOW] for an overflow; the rest stay queued. *)
Theorem completion_returns_buffers map_single event h c i done rest :
  chan_holds_at h i (done ++ rest) -> done <> [] ->
  el_size (mr_ring (tre_ring h)) = sizeof_mhi_tre -> pre_alloc h = false ->
  ch_state h = MHI_CH_STATE_ENABLED -> transfer_code (MHI_TRE_GET_EV_CODE event) = true ->
  MHI_TRE_GET_EV_PTR event = element_ptr h i (zlen done - 1) ->
  exists c' h', parse_xfer_event map_single event h c = Some (c', h') /\ chan_holds h' rest /\
    xfer_cbs (c_log c') = xfer_cbs (c_log c) ++
      map (fun x => MhiResult (b_cb_buf (snd x)) (Some (to_device h)) (MHI_TRE_GET_EV_LEN event)
                              (transfer_status (MHI_TRE_GET_EV_CODE event))) done.
Proof.
  intros. destruct (parse_transfer map_single event h c i done rest)
    as (c' & h' & ? & ? & _ & _ & ?); [done..|]. by exists c', h'.
Qed.

Definition ex_xchan : mhi_chan :=
  MhiChan 2 (MemRing (MhiRing 0 0x5000 0x5000 0x5000 56 224 4 0 0) ∅)
    (MemRing (MhiRing 0x80000 0x1000 0x1020 0x1020 16 64 4 0 0x300) ∅)
    (DbCfg true 0 false) false MHI_CH_STATE_ENABLED true false 0 0 4 false false 0 ∅ 0.
Definition ex_map (b : mhi_buf_info) : Z * Z := (0, b_v_addr b + 0x100000).

Lemma ex_xchan_holds : chan_holds_at ex_xchan 2 [].
Proof.
  assert (Hnil : forall (A : Type) k (x : A), zget [] k = Some x -> False).
  { intros A k x Hk. apply zget_Some_range in Hk. change (zlen (@nil A)) with 0 in Hk. lia. }
  split_and!; [|exists 0|by cbn].
  - split_and!; [split; vm_compute; intuition congruence|done|]. intros k x Hk. by apply Hnil in Hk.
  - split_and!; [split; vm_compute; intuition congruence|done|]. intros k x Hk. by apply Hnil in Hk.
Qed.

(** Three buffers queued around the end of the ring. *)
Definition ex_q1 := mhi_queue_buf ex_map 11 100 MHI_EOT ex_xchan (ex_ctrl MHI_PM_M0 MHI_STATE_M0).
Definition ex_q2 := mhi_queue_buf ex_map 22 100 MHI_EOT (snd ex_q1) (snd (fst ex_q1)).
Definition ex_q3 := mhi_queue_buf ex_map 33 100 MHI_EOT (snd ex_q2) (snd (fst ex_q2)).
Definition ex_c3 : ctrl := snd (fst ex_q3).
Definition ex_h3 : mhi_chan := snd ex_q3.

Lemma queue_buf_ok map_single buf blen flags h c i l :
  chan_holds_at h i l -> fst (fst (mhi_queue_buf map_single buf blen flags h c)) = 0 ->
  exists t b, chan_holds_at (snd (mhi_queue_buf map_single buf blen flags h c)) i (l ++ [(t, b)]) /\
              b_cb_buf b = buf.
Proof.
  intros Hh Hr. pose proof (queue_buf_queued map_single buf blen flags h c i l Hh) as H.
  destruct (mhi_queue_buf map_single buf blen flags h c) as [[ret c'] h']. cbn in *. by apply H in Hr as [_ ?].
Qed.

Lemma ex_h3_holds : exists x y z, chan_holds_at ex_h3 2 ([x; y] ++ [z]) /\
  b_cb_buf (snd x) = 11 /\ b_cb_buf (snd y) = 22 /\ b_cb_buf (snd z) = 33.
Proof.
  destruct (queue_buf_ok ex_map 11 100 MHI_EOT ex_xchan (ex_ctrl MHI_PM_M0 MHI_STATE_M0) 2 [] ex_xchan_holds)
    as (t1 & b1 & H1 & E1); [vm_compute; reflexivity|].
  destruct (queue_buf_ok ex_map 22 100 MHI_EOT (snd ex_q1) (snd (fst ex_q1)) 2 _ H1)
    as (t2 & b2 & H2 & E2); [vm_compute; reflexivity|].
  destruct (queue_buf_ok ex_map 33 100 MHI_EOT (snd ex_q2) (snd (fst ex_q2)) 2 _ H2)
    as (t3 & b3 & H3 & E3); [vm_compute; reflexivity|].
  by exists (t1, b1), (t2, b2), (t3, b3).
Qed.

Definition ex_event2 : mhi_tre := Tre (element_ptr ex_h3 2 1) (MHI_TRE_EV_DWORD0 MHI_EV_CC_EOT 64) 0.

Lemma completion_returns_buffers_witness :
  exists c' h', parse_xfer_event ex_map ex_event2 ex_h3 ex_c3 = Some (c', h') /\
    xfer_cbs (c_log c') = [MhiResult 11 (Some true) 64 0; MhiResult 22 (Some true) 64 0].
Proof.
  destruct ex_h3_holds as (x & y & z & Hh & Hx & Hy & Hz).
  destruct (completion_returns_buffers ex_map ex_event2 ex_h3 ex_c3 2 [x; y] [z] Hh)
    as (c' & h' & Hp & _ & Hcb); try (vm_compute; reflexivity); [discriminate|].
  exists c', h'. split; [exact Hp|]. rewrite Hcb. cbn [map]. rewrite Hx, Hy. vm_compute. reflexivity.
Defined.


Lemma ex_serving : serving 0 (ex_ctrl MHI_PM_M0 MHI_STATE_M0, ex_xchan) [].
Proof. split; [exists 2; exact ex_xchan_holds|]. split_and!; vm_compute; intuition congruence. Qed.

Lemma ex_run3 : xrun ex_map (ex_ctrl MHI_PM_M0 MHI_STATE_M0, ex_xchan) [11; 22; 33] (ex_c3, ex_h3).
Proof.
  change [11; 22; 33] with ((([] ++ [11]) ++ [22]) ++ [33]).
  eapply xr_step; [eapply xr_step; [eapply xr_step; [apply xr_refl|]|]|].
  - apply (xs_buf ex_map 11 100 MHI_EOT (ex_ctrl MHI_PM_M0 MHI_STATE_M0) ex_xchan 0
             (snd (fst ex_q1)) (snd ex_q1)). vm_compute. reflexivity.
  - apply (xs_buf ex_map 22 100 MHI_EOT (snd (fst ex_q1)) (snd ex_q1) 0
             (snd (fst ex_q2)) (snd ex_q2)). vm_compute. reflexivity.
  - apply (xs_buf ex_map 33 100 MHI_EOT (snd (fst ex_q2)) (snd ex_q2) 0 ex_c3 ex_h3). vm_compute. reflexivity.
Qed.

Lemma ex_run : exists s, parse_xfer_event ex_map ex_event2 ex_h3 ex_c3 = Some s /\
  xrun ex_map (ex_ctrl MHI_PM_M0 MHI_STATE_M0, ex_xchan) [11; 22; 33] s.
Proof.
  destruct (parse_xfer_event ex_map ex_event2 ex_h3 ex_c3) as [[c h]|] eqn:E;
    [|exfalso; revert E; vm_compute; discriminate].
  exists (c, h). split; [done|]. change [11; 22; 33] with ([11; 22; 33] ++ []).
  eapply xr_step; [exact ex_run3|]. apply (xs_complete ex_map ex_event2 2 1 1 ex_c3 ex_h3 c h).
  - split; vm_compute; intuition congruence.
  - vm_compute. intuition congruence.
  - vm_compute. reflexivity.
  - vm_compute. reflexivity.
  - exact E.
Qed.


(** ** Stale events *)

(** What the reset makes of one pending event. *)
Definition stale (ch : Z) (t : mhi_tre) : mhi_tre :=
  if (MHI_TRE_GET_EV_TYPE t =? MHI_PKT_TYPE_TX_EVENT) && (ch =? MHI_TRE_GET_EV_CHID t)
  then Tre (tre_ptr t) (dword0 t) (MHI_TRE_EV_DWORD1 ch MHI_PKT_TYPE_STALE_EVENT) else t.

Lemma stale_not_tx ch t :
  MHI_TRE_GET_EV_TYPE (stale ch t) = MHI_PKT_TYPE_TX_EVENT -> MHI_TRE_GET_EV_CHID (stale ch t) <> ch.
Proof.
  unfold stale. destruct (_ && _) eqn:E.
  - unfold MHI_TRE_GET_EV_TYPE. cbn [dword1]. rewrite dword1_type by (split; vm_compute; congruence). discriminate.
  - intros Ht. apply andb_false_iff in E as [E|E]; apply Z.eqb_neq in E; [done|]. congruence.
Qed.

Lemma mark_loop_spec r ch :
  el_size r = sizeof_mhi_tre -> len r = elements r * el_size r -> forall n fuel i mem,
  0 <= i < elements r -> Z.of_nat n < elements r -> (n <= fuel)%nat ->
  exists mem', mark_loop fuel r ch (slot r ((i + Z.of_nat n) mod elements r)) (slot r i) mem = Some mem' /\
    (forall k, 0 <= k < Z.of_nat n ->
       mem' !! slot r ((i + k) mod elements r) = stale ch <$> mem !! slot r ((i + k) mod elements r)) /\
    (forall a, (forall k, 0 <= k < Z.of_nat n -> a <> slot r ((i + k) mod elements r)) -> mem' !! a = mem !! a).
Proof.
  intros He Hl. assert (Hpos : 0 < el_size r) by (rewrite He; reflexivity).
  induction n as [|n IH]; intros fuel i mem Hi Hn Hf.
  - rewrite Z.add_0_r, (Z.mod_small i) by done. exists mem.
    split; [destruct fuel; cbn [mark_loop]; by rewrite Z.eqb_refl|]. split; [intros; lia|done].
  - destruct fuel as [|fuel]; [lia|]. cbn [mark_loop].
    assert (Hinj : forall k k', 0 <= k < elements r -> 0 <= k' < elements r ->
      slot r ((i + k) mod elements r) = slot r ((i + k') mod elements r) -> k = k').
    { intros k k' Hk Hk' E. apply slot_inj in E; [|done]. by eapply mod_inj. }
    assert (Hi0 : slot r i = slot r ((i + 0) mod elements r)) by (rewrite Z.add_0_r, (Z.mod_small i); done).
    destruct (Z.eqb_spec (slot r ((i + Z.of_nat (S n)) mod elements r)) (slot r i)) as [E|_].
    { rewrite Hi0 in E. apply Hinj in E; lia. }
    set (mem1 := if _ && _ then _ else mem).
    assert (Hm0 : mem1 !! slot r i = stale ch <$> mem !! slot r i).
    { subst mem1. unfold stale. destruct (mem !! slot r i) as [t|] eqn:E; cbn [default from_option].
      - cbn. unfold stale. destruct (_ && _); [by rewrite lookup_insert_eq|done].
      - cbn. done. }
    assert (Hm1 : forall a, a <> slot r i -> mem1 !! a = mem !! a).
    { intros a Ha. subst mem1. split_match; [by rewrite lookup_insert_ne|done]. }
    assert (Hnext : (if slot r i + sizeof_mhi_tre =? base r + len r then base r else slot r i + sizeof_mhi_tre)
                    = slot r ((i + 1) mod elements r)).
    { rewrite <- He, <- (next_slot r i) by done. pose proof (slot_in_ring r i Hpos Hl Hi). unfold slot in *.
      repeat case_match; try done; nia. }
    rewrite Hnext. set (i1 := (i + 1) mod elements r).
    assert (Hix : forall k, (i1 + k) mod elements r = (i + (k + 1)) mod elements r).
    { intros k. subst i1. rewrite Zplus_mod_idemp_l. f_equal. lia. }
    destruct (IH fuel i1 mem1) as (mem' & Hr & Hin & Hout); [apply Z.mod_pos_bound; lia|lia|lia|].
    rewrite Hix in Hr. replace (Z.of_nat n + 1) with (Z.of_nat (S n)) in Hr by lia.
    exists mem'. split_and!; [done| |].
    + intros k Hk. destruct (Z.eq_dec k 0) as [->|Hk0].
      * rewrite <- Hi0, Hout, Hm0; [done|]. intros k' Hk' E. rewrite Hix, Hi0 in E. apply Hinj in E; lia.
      * specialize (Hin (k - 1)). rewrite Hix in Hin. replace (k - 1 + 1) with k in Hin by lia.
        rewrite Hin, Hm1; [done| |lia]. rewrite Hi0. intros E. apply Hinj in E; lia.
    + intros a Ha. rewrite Hout, Hm1; [done| |].
      * rewrite Hi0. apply Ha. lia.
      * intros k Hk. rewrite Hix. apply Ha. lia.
Qed.

Lemma drain_one_events h c : events (fst (drain_one h c)) = events c.
Proof.
  unfold drain_one, mhi_deassert_dev_wake, pending_dec. cbn [fst].
  by repeat split_match.
Qed.

Lemma drain_events fuel : forall h c c' h',
  mhi_reset_data_chan fuel h c = Some (c', h') -> events c' = events c.
Proof.
  induction fuel as [|fuel IH]; intros h c c' h'; cbn [mhi_reset_data_chan]; split_match; try congruence.
  pose proof (drain_one_events h c) as He. destruct (drain_one h c) as [c1 h1]. intros Hr.
  rewrite (IH _ _ _ _ Hr). exact He.
Qed.


(** An event ring with one undelivered completion of channel 2. *)
Definition ex_live : mhi_event :=
  MhiEvent (MemRing (ex_tring 0x100)
              {[ 0x1100 := Tre 0x80020 (MHI_TRE_EV_DWORD0 MHI_EV_CC_EOT 64)
                               (MHI_TRE_EV_DWORD1 2 MHI_PKT_TYPE_TX_EVENT) ]})
           (DbCfg true 0 false) false false 0x80110 0.

Lemma serving_events others c h l es : serving others (c, h) l -> serving others (set_events c es, h) l.
Proof. done. Qed.

