(* ===== verification/MhiPaths.v ===== *)
(** * Started transfer paths

    The count [xfer_paths] of struct mhi_controller ties
    [mhi_prepare_for_transfer] and [mhi_unprepare_from_transfer]
    (src/gl-feed/kernel/pcie_mhi/src/core/mhi_main.c) to [mhi_pm_suspend]
    (core/mhi_pm.c): while a path is started the bus is not suspended.  The
    theorems show that contract for MhiXfer's operations, and what the removal
    of a client driver (core/mhi_init.c) does to the count. *)

From S2P Require Import Prelude CLib MhiReg MhiRing MhiCtrl MhiPm MhiXfer.

(** ** What leaves the count alone *)

Lemma paths_emit n c : xfer_paths (emit n c) = xfer_paths c.
Proof. done. Qed.

Lemma paths_put_chan c i h : xfer_paths (put_chan c i h) = xfer_paths c.
Proof. done. Qed.

Lemma paths_events c es : xfer_paths (set_events c es) = xfer_paths c.
Proof. done. Qed.

Lemma paths_wake c : xfer_paths (mhi_assert_dev_wake c) = xfer_paths c.
Proof. unfold mhi_assert_dev_wake. by split_match. Qed.

Lemma paths_send_cmd ch k c : xfer_paths (snd (mhi_send_cmd ch k c)) = xfer_paths c.
Proof.
  unfold mhi_send_cmd. split_match; [done|]. cbn [snd]. split_match; [|done].
  unfold ring_cmd_db. by destruct (mhi_ring_cmd_db _ _).
Qed.

Lemma paths_db h c : xfer_paths (fst (db_if_valid h c)) = xfer_paths c.
Proof.
  unfold db_if_valid, ring_chan_db. split_match; [|done]. by destruct (mhi_ring_chan_db _ _ _) as [[m d] r].
Qed.

Lemma paths_drain_one h c : xfer_paths (fst (drain_one h c)) = xfer_paths c.
Proof. unfold drain_one, mhi_deassert_dev_wake, pending_dec. cbn [fst]. by repeat split_match. Qed.

Lemma paths_drain fuel : forall h c c' h',
  mhi_reset_data_chan fuel h c = Some (c', h') -> xfer_paths c' = xfer_paths c.
Proof.
  induction fuel as [|fuel IH]; intros h c c' h'; cbn [mhi_reset_data_chan]; split_match; try congruence.
  pose proof (paths_drain_one h c) as He. destruct (drain_one h c) as [c1 h1]. intros Hr.
  by rewrite (IH _ _ _ _ Hr).
Qed.

Lemma paths_rsc fuel : forall p h c, xfer_paths (fst (rsc_loop fuel p h c)) = xfer_paths c.
Proof.
  induction fuel as [|fuel IH]; intros p h c; cbn [rsc_loop]; [done|].
  split_match; [done|]. split_match; by rewrite IH.
Qed.

Lemma paths_reset_chan h c c' h' : mhi_reset_chan h c = Some (c', h') -> xfer_paths c' = xfer_paths c.
Proof.
  unfold mhi_reset_chan. split_match; [congruence|]. do 2 (split_match; [|done]).
  split_match; [|intros Hr; by rewrite (paths_drain _ _ _ _ _ Hr)].
  unfold mhi_reset_rsc_chan. intros Hr. pose proof (paths_rsc (Z.to_nat (elements (mr_ring (buf_ring h))))
    (base (mr_ring (buf_ring h))) h (set_events c (<[Z.to_nat (er_index h):=m0]> (events c)))) as Hp.
  injection Hr as Hr. rewrite Hr in Hp. exact Hp.
Qed.

Lemma paths_prealloc ms bl n : forall bufs h c,
  xfer_paths (snd (fst (prealloc_loop ms bl n bufs h c))) = xfer_paths c.
Proof.
  induction n as [|n IH]; intros bufs h c; cbn [prealloc_loop]; [done|].
  destruct bufs as [|[b|] bufs]; [done| |done].
  destruct (mhi_gen_tre ms b b bl MHI_EOT h) as [ret h1]. split_match; [done|apply IH].
Qed.

Create Rewrite HintDb paths.
#[export] Hint Rewrite paths_emit paths_put_chan paths_events paths_wake : paths.
Ltac paths := autorewrite with paths in *; try congruence.

(** ** Channels *)

Section Paths.
(** While a command is outstanding the rest of the system starts and stops no
    path. *)
Context (w : ctrl -> ctrl) (Hw : forall c, xfer_paths (w c) = xfer_paths c).

Lemma paths_unprepare i c c' : mhi_unprepare_channel w i c = Some c' -> xfer_paths c' = xfer_paths c.
Proof using Hw.
  unfold mhi_unprepare_channel, mhi_deassert_dev_wake. split_match; [|done]. split_match; [congruence|].
  set (c1 := if MHI_PM_IN_ERROR_STATE _ then _ else _).
  assert (H1 : xfer_paths c1 = xfer_paths c).
  { subst c1. split_match; [done|]. set (c2 := emit NRuntimeGet _).
    assert (H2 : xfer_paths c2 = xfer_paths c) by (subst c2; paths).
    pose proof (paths_send_cmd (Some (chan m)) MHI_CMD_RESET_CHAN c2) as H3.
    destruct (mhi_send_cmd _ _ c2) as [ret c3]. cbn [snd] in H3. rewrite paths_emit. split_match; rewrite ?Hw; congruence. }
  clearbody c1. split_match; [congruence|]. split_match; [|done]. split_match; [|done].
  destruct p as [c3 h3]. intros [= <-]. rewrite paths_put_chan. by erewrite paths_reset_chan.
Qed.

Lemma paths_unprepare_opt ch c c' : mhi_unprepare_opt w ch c = Some c' -> xfer_paths c' = xfer_paths c.
Proof using Hw. destruct ch; cbn; [apply paths_unprepare|congruence]. Qed.

Definition env_keeps (e : prep_env) : Prop := forall c, xfer_paths (snd (pr_wait e c)) = xfer_paths c.

(** The clean-up of a failed start. *)
Lemma paths_error_pm i c :
  xfer_paths (match chan_at c i with
              | Some h => if offload_ch h then c else put_chan c i (mhi_deinit_chan_ctxt h)
              | None => c end) = xfer_paths c.
Proof using. by repeat split_match. Qed.

Lemma paths_prepare k e i c ret c' :
  env_keeps e -> mhi_prepare_channel k e w i c = Some (ret, c') -> xfer_paths c' = xfer_paths c.
Proof using Hw.
  intros He. unfold mhi_prepare_channel, mhi_deassert_dev_wake. destruct (chan_at c i) as [h|]; [|done].
  split_match; [congruence|]. split_match; [congruence|].
  destruct (if offload_ch h then _ else _) as [r1 h1].
  split_match; [by intros [= <- <-]|]. split_match; [intros [= <- <-]; by rewrite paths_error_pm|].
  set (c1 := emit NRuntimeGet _).
  assert (H1 : xfer_paths c1 = xfer_paths c) by (subst c1; paths). clearbody c1.
  pose proof (paths_send_cmd (Some (chan h1)) MHI_CMD_START_CHAN c1) as H2.
  destruct (mhi_send_cmd _ _ c1) as [r2 c2]. cbn [snd] in H2.
  split_match; [intros [= <- <-]; rewrite paths_error_pm; paths|].
  pose proof (He c2) as H3. destruct (pr_wait e c2) as [dn c3]. cbn [snd] in H3.
  destruct (chan_at c3 i) as [h3|]; [|done].
  split_match; [intros [= <- <-]; rewrite paths_error_pm; paths|].
  split_match; [|intros [= <- <-]; paths].
  set (n := Z.to_nat _). set (c4 := emit NRuntimePut c3).
  pose proof (paths_prealloc (pr_map e) (buffer_len k) n (pr_bufs e) (set_ch_state h3 MHI_CH_STATE_ENABLED) c4) as H4.
  destruct (prealloc_loop _ _ _ _ _ _) as [[r4 c5] h5]. cbn [fst snd] in H4.
  assert (H5 : xfer_paths c5 = xfer_paths c) by (subst c4; paths). clearbody c4.
  split_match.
  - destruct (mhi_unprepare_channel w i (put_chan c5 i h5)) as [c6|] eqn:Hu; [|done].
    intros [= <- <-]. apply paths_unprepare in Hu. paths.
  - pose proof (paths_db h5 c5) as H6. destruct (db_if_valid h5 c5) as [c6 h6]. cbn [fst] in H6.
    intros [= <- <-]. paths.
Qed.

Lemma paths_prepare_for k eu ed d c ret c' :
  env_keeps eu -> env_keeps ed -> mhi_prepare_for_transfer k eu ed w d c = Some (ret, c') ->
  xfer_paths c' = xfer_paths c + (if ret =? 0 then 1 else 0).
Proof using Hw.
  intros Hu Hd. unfold mhi_prepare_for_transfer.
  assert (H2 : forall c1, prepare_inbound k ed w d c1 = Some (ret, c') -> xfer_paths c1 = xfer_paths c ->
    xfer_paths c' = xfer_paths c + (if ret =? 0 then 1 else 0)).
  { intros c1 H2 Hc1. unfold prepare_inbound, path_started in H2. destruct (dl_chan d) as [i|].
    - destruct (mhi_prepare_channel k ed w i c1) as [[r2 c2]|] eqn:Ep; [|done].
      apply paths_prepare in Ep; [|done]. destruct (Z.eqb_spec r2 0) as [->|Hr]; cbn [negb] in H2.
      + injection H2 as <- <-. cbn. lia.
      + destruct (mhi_unprepare_opt w (ul_chan d) c2) as [c3|] eqn:Eu; [|done].
        apply paths_unprepare_opt in Eu. injection H2 as <- <-.
        rewrite (proj2 (Z.eqb_neq _ _) Hr). lia.
    - injection H2 as <- <-. cbn. lia. }
  unfold path_started. destruct (ul_chan d) as [i|]; [|intros; by eapply H2].
  destruct (mhi_prepare_channel k eu w i c) as [[r1 c1]|] eqn:Ep; [|done].
  apply paths_prepare in Ep; [|done]. destruct (Z.eqb_spec r1 0) as [->|Hr]; cbn [negb].
  - split_match; [intros [= <- <-]; cbn; lia|]. intros; by eapply H2.
  - intros [= <- <-]. rewrite (proj2 (Z.eqb_neq _ _) Hr). lia.
Qed.

Lemma paths_unprepare_from d c c' :
  0 < xfer_paths c -> mhi_unprepare_from_transfer w d c = Some c' -> xfer_paths c' = xfer_paths c - 1.
Proof using Hw.
  intros Hp. unfold mhi_unprepare_from_transfer.
  destruct (mhi_unprepare_opt w (dl_chan d) c) as [c1|] eqn:E1; [|done]. apply paths_unprepare_opt in E1.
  split_match.
  - intros [= <-]. destruct (Z.ltb_spec 0 (xfer_paths c1)); cbn; lia.
  - destruct (mhi_unprepare_opt w (ul_chan d) c1) as [c2|] eqn:E2; [|done]. apply paths_unprepare_opt in E2.
    intros [= <-]. destruct (Z.ltb_spec 0 (xfer_paths c2)); cbn; lia.
Qed.

End Paths.

Lemma suspend_refused k w1 w2 c : xfer_paths c <> 0 ->
  fst (mhi_pm_suspend k w1 w2 c) < 0 /\ snd (mhi_pm_suspend k w1 w2 c) = c.
Proof.
  intros Hp. unfold mhi_pm_suspend. split_match; [done|]. split_match; [done|]. split_match; [done|].
  apply Z.eqb_neq in Hp. rewrite Hp. done.
Qed.

Lemma paths_remove_reset ch c old c' : remove_reset ch c = Some (old, c') -> xfer_paths c' = xfer_paths c.
Proof.
  unfold remove_reset. destruct ch as [i|]; [|by intros [= <- <-]].
  destruct (chan_at c i) as [h|]; [|done]. split_match; [by intros [= <- <-]|].
  destruct (mhi_reset_chan _ _) as [[c1 h1]|] eqn:Er; [|done].
  intros [= <- <-]. apply paths_reset_chan in Er. by paths.
Qed.

Lemma paths_remove_deinit ch old c c' : remove_deinit ch old c = Some c' -> xfer_paths c' = xfer_paths c.
Proof.
  unfold remove_deinit. destruct ch as [i|]; [|by intros [= <-]].
  destruct (chan_at c i) as [h|]; [|done]. by intros [= <-].
Qed.

(** ** Theorems *)

(** C11. A started path keeps the bus up: a successful
    [mhi_prepare_for_transfer] adds one to the count; from then on, as long as
    the count stands, a suspend is refused with an error and changes nothing;
    the matching [mhi_unprepare_from_transfer] takes exactly that one off. *)
Theorem started_path_blocks_suspend k eu ed w d c c' :
  (forall c, xfer_paths (w c) = xfer_paths c) -> env_keeps eu -> env_keeps ed -> 0 <= xfer_paths c ->
  mhi_prepare_for_transfer k eu ed w d c = Some (0, c') ->
  xfer_paths c' = xfer_paths c + 1 /\
  (forall w1 w2 c1, xfer_paths c1 = xfer_paths c' ->
     fst (mhi_pm_suspend k w1 w2 c1) < 0 /\ snd (mhi_pm_suspend k w1 w2 c1) = c1) /\
  (forall c1 c2, xfer_paths c1 = xfer_paths c' -> mhi_unprepare_from_transfer w d c1 = Some c2 ->
     xfer_paths c2 = xfer_paths c).
Proof.
  intros Hw Hu Hd Hp Hr. pose proof (paths_prepare_for w Hw k eu ed d c 0 c' Hu Hd Hr) as E.
  change (0 =? 0) with true in E. cbn iota in E. split_and!; [done| |].
  - intros w1 w2 c1 H1. apply suspend_refused. lia.
  - intros c1 c2 H1 H2. apply (paths_unprepare_from w Hw) in H2; lia.
Qed.

(** A device on channel 0 whose start command the device completes. *)
Definition ex_idle : ctrl :=
  set_chans (ex_ctrl MHI_PM_M0 MHI_STATE_M0) [set_ch_state ex_chan MHI_CH_STATE_DISABLED].
Definition ex_wait (c : ctrl) : bool * ctrl :=
  (true, put_chan c 0 (set_ccs (default ex_chan (chan_at c 0)) MHI_EV_CC_SUCCESS)).
Definition ex_prep : prep_env := PrepEnv 0x7000 (0x1300, 0x80300) ex_wait [] (fun _ => (0, 0)).
Definition ex_dev : mhi_device := MhiDevice (Some 0) None.

Lemma started_path_blocks_suspend_witness : exists c',
  mhi_prepare_for_transfer ex_cfg ex_prep ex_prep (fun c => c) ex_dev ex_idle = Some (0, c') /\
  xfer_paths c' = 1 /\ fst (mhi_pm_suspend ex_cfg (fun c => c) (fun c => c) c') < 0.
Proof.
  destruct (mhi_prepare_for_transfer ex_cfg ex_prep ex_prep (fun c => c) ex_dev ex_idle) as [[r c']|] eqn:E;
    [|exfalso; revert E; vm_compute; discriminate].
  assert (Hr : r = 0).
  { assert (H : option_map fst (mhi_prepare_for_transfer ex_cfg ex_prep ex_prep (fun c => c) ex_dev ex_idle)
                = Some 0) by (vm_compute; reflexivity).
    rewrite E in H. by injection H. }
  subst r. exists c'.
  destruct (started_path_blocks_suspend ex_cfg ex_prep ex_prep (fun c => c) ex_dev ex_idle c')
    as (H1 & H2 & _); [done|done|done|vm_compute; congruence|exact E|].
  split_and!; [done|exact H1|]. apply H2. reflexivity.
Defined.

(** Removal by the driver core never takes a path off the count: unless
    the client's own remove callback stops its path, the count it started with
    stands after the device is gone, and the bus is never suspended again. *)
Theorem driver_remove_keeps_paths k client d c c' :
  (forall c, xfer_paths (client c) = xfer_paths c) -> mhi_driver_remove client d c = Some c' ->
  xfer_paths c' = xfer_paths c /\
  (0 < xfer_paths c -> forall w1 w2, fst (mhi_pm_suspend k w1 w2 c') < 0).
Proof.
  intros Hc. unfold mhi_driver_remove.
  destruct (remove_reset (dl_chan d) c) as [[o1 c1]|] eqn:E1; [|done]. apply paths_remove_reset in E1.
  destruct (remove_reset (ul_chan d) c1) as [[o2 c2]|] eqn:E2; [|done]. apply paths_remove_reset in E2.
  destruct (remove_deinit (dl_chan d) o1 (client c2)) as [c3|] eqn:E3; [|done]. apply paths_remove_deinit in E3.
  intros E4. apply paths_remove_deinit in E4. rewrite Hc in E3.
  split; [congruence|]. intros Hp w1 w2. apply suspend_refused. lia.
Qed.

Lemma driver_remove_keeps_paths_witness : exists c',
  mhi_driver_remove (fun c => c) ex_dev (set_xfer_paths (ex_ctrl MHI_PM_M0 MHI_STATE_M0) 1) = Some c' /\
  fst (mhi_pm_suspend ex_cfg (fun c => c) (fun c => c) c') < 0.
Proof.
  destruct (mhi_driver_remove (fun c => c) ex_dev (set_xfer_paths (ex_ctrl MHI_PM_M0 MHI_STATE_M0) 1))
    as [c'|] eqn:E; [|exfalso; revert E; vm_compute; discriminate].
  exists c'. destruct (driver_remove_keeps_paths ex_cfg (fun c => c) ex_dev _ c' (fun _ => eq_refl) E) as [_ H].
  split; [done|]. apply H. reflexivity.
Defined.
