(* ===== verification/MhiEvents.v ===== *)
(** * The control event ring: core/mhi_main.c

    [mhi_process_ctrl_ev_ring] with the handlers its events run,
    [mhi_ctrl_ev_task], the choice the interrupt handlers make, and
    [mhi_process_tsync_event_ring] with the lock it takes.  The ring is the
    element [i] of the controller's event rings, since the transition to M0 rings
    the doorbells of all of them, this one included.  [dev] is what the device
    has stored in the shared context by the time the pointer is read again. *)

From S2P Require Import Prelude CLib MhiReg MhiRing MhiCtrl MhiPm MhiXfer.

(** ** Events of the control ring *)

Definition sys_err_event (c : ctrl) : ctrl :=
  let '(c, new_state) := mhi_tryset_pm_state c MHI_PM_SYS_ERR_DETECT in
  if new_state =? MHI_PM_SYS_ERR_DETECT then emit (NSchedule syserr_worker) c else c.

Definition state_event (k : ctrl_cfg) (new_state : Z) (c : ctrl) : ctrl :=
  if new_state =? MHI_STATE_M0 then snd (mhi_pm_m0_transition c)
  else if new_state =? MHI_STATE_M1 then mhi_pm_m1_transition k c
  else if new_state =? MHI_STATE_M3 then snd (mhi_pm_m3_transition c)
  else if new_state =? MHI_STATE_SYS_ERR then sys_err_event c
  else c.

(** [alloc_ok]: the item of the transition list could be allocated. *)
Definition ee_event (alloc_ok : bool) (event : Z) (c : ctrl) : ctrl :=
  let queue st := snd (mhi_queue_state_transition alloc_ok st c) in
  if event =? MHI_EE_SBL then queue MHI_ST_TRANSITION_SBL
  else if event =? MHI_EE_FP then queue MHI_ST_TRANSITION_FP
  else if (event =? MHI_EE_WFW) || (event =? MHI_EE_AMSS) then queue MHI_ST_TRANSITION_MISSION_MODE
  else if event =? MHI_EE_RDDM then emit NWakeUpAll (set_ee (emit (NStatusCb MHI_CB_EE_RDDM) c) event)
  else c.

(** One event; [None] where the code leaves an array. *)
Definition handle_ctrl_event (k : ctrl_cfg) (map_single : mhi_buf_info -> Z * Z) (alloc_ok : bool) (t : mhi_tre)
    (c : ctrl) : option ctrl :=
  let type := MHI_TRE_GET_EV_TYPE t in
  if type =? MHI_PKT_TYPE_STATE_CHANGE_EVENT then Some (state_event k (MHI_TRE_GET_EV_STATE t) c)
  else if type =? MHI_PKT_TYPE_CMD_COMPLETION_EVENT then mhi_process_cmd_completion t c
  else if type =? MHI_PKT_TYPE_EE_EVENT then Some (ee_event alloc_ok (MHI_TRE_GET_EV_EXECENV t) c)
  else if is_xfer t then dispatch_xfer map_single t c
  else Some (emit (NAssert "Unsupported ev type") c).

Definition event_at (c : ctrl) (i : Z) : option mhi_event := zget (events c) i.
Definition put_event (c : ctrl) (i : Z) (e : mhi_event) : ctrl := set_events c (<[Z.to_nat i := e]> (events c)).

(** The handler and [mhi_recycle_ev_ring_element]. *)
Definition ctrl_turn (k : ctrl_cfg) (map_single : mhi_buf_info -> Z * Z) (alloc_ok : bool) (i : Z) (t : mhi_tre)
    (c : ctrl) : option ctrl :=
  c ← handle_ctrl_event k map_single alloc_ok t c;
  e ← event_at c i;
  Some (put_event c i (recycle e)).

Fixpoint ctrl_loop (fuel : nat) (k : ctrl_cfg) (map_single : mhi_buf_info -> Z * Z) (alloc_ok : bool) (dev : nat -> Z)
    (i dev_rp count : Z) (c : ctrl) : option (ctrl * Z) :=
  e ← event_at c i;
  if dev_rp =? rp (mr_ring (er_q e)) then Some (c, count)
  else
    match fuel with
    | O => None
    | S fuel =>
        c ← ctrl_turn k map_single alloc_ok i (ev_at e) c;
        e ← event_at c i;
        ctrl_loop fuel k map_single alloc_ok dev i (mhi_to_virtual (mr_ring (er_q e)) (dev fuel)) (count + 1) c
    end.

(** After the loop: the statistics and the doorbell of the ring. *)
Definition ctrl_finish (i count : Z) (c : ctrl) : option (Z * ctrl) :=
  e ← event_at c i;
  let e := if er_used_elements e <? count then set_er_used_elements e count else e in
  let c := put_event c i e in
  if MHI_DB_ACCESS_VALID (pm_state c)
  then let '(c, e) := ring_er_db e c in Some (count, put_event c i e)
  else Some (count, c).

Definition mhi_process_ctrl_ev_ring (fuel : nat) (k : ctrl_cfg) (map_single : mhi_buf_info -> Z * Z) (alloc_ok : bool)
    (dev : nat -> Z) (i : Z) (c : ctrl) : option (Z * ctrl) :=
  if MHI_EVENT_ACCESS_INVALID (pm_state c) then Some (- EIO, c)
  else
    e ← event_at c i;
    '(c, count) ← ctrl_loop fuel k map_single alloc_ok dev i (mhi_to_virtual (mr_ring (er_q e)) (er_ctxt_rp e)) 0 c;
    ctrl_finish i count c.

(** An interrupt without events may be a system error. *)
Definition mhi_ctrl_ev_task (fuel : nat) (k : ctrl_cfg) (map_single : mhi_buf_info -> Z * Z) (alloc_ok : bool)
    (dev : nat -> Z) (i : Z) (c : ctrl) : option ctrl :=
  if negb (MHI_REG_ACCESS_VALID (pm_state c)) then Some c
  else
    '(ret, c) ← mhi_process_ctrl_ev_ring fuel k map_single alloc_ok dev i c;
    if (ret =? 0) && (mhi_get_mhi_state (io c) (c_regs k) =? MHI_STATE_SYS_ERR) then Some (sys_err_event c)
    else Some c.

(** ** Interrupts *)

(** What [mhi_msi_handlr] does for a ring: nothing, tell the client that manages
    it (if it has a device), or schedule the ring's task. *)
Inductive irq_action := IrqNone | IrqNotify | IrqTask.

Definition mhi_msi_handlr (cl_manage has_dev : bool) (e : mhi_event) : irq_action :=
  let r := mr_ring (er_q e) in
  if rp r =? mhi_to_virtual r (er_ctxt_rp e) then IrqNone
  else if cl_manage then if has_dev then IrqNotify else IrqNone
  else IrqTask.

(** One interrupt for all rings: the rings with events, or the state. *)
Definition mhi_one_msi_handlr (k : ctrl_cfg) (managed : list (bool * bool)) (c : ctrl) : list irq_action * ctrl :=
  let pending := filter (fun p => rp (mr_ring (er_q (snd p))) <> mhi_to_virtual (mr_ring (er_q (snd p))) (er_ctxt_rp (snd p)))
                   (zip managed (events c)) in
  (map (fun p => mhi_msi_handlr (fst (fst p)) (snd (fst p)) (snd p)) pending,
   if pending then mhi_intvec_threaded_handlr k c else c).

(** ** Time synchronisation *)

(** A pending request and the callbacks run; [ts_locked]: the lock is held. *)
Record tsync := Tsync { ts_head : list (Z * Z); ts_locked : bool; ts_calls : list (Z * Z * Z) }.

Definition MHI_TRE_GET_EV_SEQ (t : mhi_tre) : Z := dword0 t.
Definition MHI_TRE_GET_EV_TIME (t : mhi_tre) : Z := tre_ptr t.

(** The inner loop: every pending request is dropped, the one of the event is
    told.  It ends by [break] with the lock taken.  [None]: the lock is taken
    twice. *)
Definition tsync_drain (sequence remote_time : Z) (s : tsync) : option tsync :=
  if ts_locked s then None
  else Some (Tsync [] true (ts_calls s ++ map (fun n => (sequence, snd n, remote_time))
                                            (filter (fun n => fst n = sequence) (ts_head s)))).

Fixpoint tsync_events (ts : list mhi_tre) (s : tsync) : option tsync :=
  match ts with
  | [] => Some s
  | t :: ts => s ← tsync_drain (MHI_TRE_GET_EV_SEQ t) (MHI_TRE_GET_EV_TIME t) s; tsync_events ts s
  end.

(** ** What handlers leave alone *)

Definition queues (c : ctrl) : list (mem_ring mhi_tre) := map er_q (events c).

(** Neither the power state nor the contents of an event ring. *)
Definition keeps (c c' : ctrl) : Prop := pm_state c' = pm_state c /\ queues c' = queues c.

#[global] Instance keeps_po : PreOrder keeps.
Proof. split; [done|]. intros a b c [A1 A2] [B1 B2]. split; congruence. Qed.

Create HintDb keeps discriminated.

Lemma keeps_emit n c : keeps c (emit n c). Proof. done. Qed.
Lemma keeps_put_chan c i h : keeps c (put_chan c i h). Proof. done. Qed.
Lemma keeps_assert_wake c : keeps c (mhi_assert_dev_wake c).
Proof. unfold mhi_assert_dev_wake. by split_match. Qed.
Lemma keeps_deassert_wake c : keeps c (mhi_deassert_dev_wake c).
Proof. unfold mhi_deassert_dev_wake. by repeat split_match. Qed.
Lemma keeps_chan_db h c : keeps c (fst (ring_chan_db h c)).
Proof. unfold ring_chan_db. by destruct (mhi_ring_chan_db _ _ _) as [[? ?] ?]. Qed.
Lemma keeps_cmd_db c : keeps c (ring_cmd_db c).
Proof. unfold ring_cmd_db. by destruct (mhi_ring_cmd_db _ _). Qed.
Lemma keeps_set_state k s c : keeps c (mhi_set_mhi_state k s c).
Proof. unfold mhi_set_mhi_state. by split_match. Qed.
Lemma keeps_resume c : keeps c (resume_if_suspended c).
Proof. unfold resume_if_suspended. by split_match. Qed.
Lemma keeps_pending_inc h c : keeps c (pending_inc h c).
Proof. unfold pending_inc. by repeat split_match. Qed.
Lemma keeps_pending_dec h c : keeps c (pending_dec h c).
Proof. unfold pending_dec. by repeat split_match. Qed.
Lemma keeps_db_if_valid h c : keeps c (fst (db_if_valid h c)).
Proof. unfold db_if_valid. split_match; [apply keeps_chan_db|done]. Qed.
Lemma keeps_wake_put h a c : keeps c (wake_put_inbound h a c).
Proof. unfold wake_put_inbound. split_match; [apply keeps_deassert_wake|done]. Qed.

#[export] Hint Resolve keeps_emit keeps_put_chan keeps_assert_wake keeps_deassert_wake keeps_chan_db keeps_cmd_db
  keeps_set_state keeps_resume keeps_pending_inc keeps_pending_dec keeps_db_if_valid keeps_wake_put : keeps.

Lemma keeps_queue_buf m b l f h c : keeps c (snd (fst (mhi_queue_buf m b l f h c))).
Proof.
  unfold mhi_queue_buf. destruct (MHI_PM_IN_ERROR_STATE _); [done|]. destruct (mhi_is_ring_full _); [done|].
  destruct (mhi_gen_tre _ _ _ _ _ h) as [ret h1]. destruct (negb (ret =? 0)); [done|].
  set (c1 := resume_if_suspended c). set (c2 := if needs_wake h1 c1 then _ else c1).
  pose proof (keeps_db_if_valid h1 (pending_inc h1 c2)) as Hd. destruct (db_if_valid h1 _) as [c3 h2]. cbn [fst snd] in *.
  transitivity c1; [apply keeps_resume|]. transitivity c2; [unfold c2; split_match; [apply keeps_assert_wake|done]|].
  transitivity (pending_inc h1 c2); [apply keeps_pending_inc|]. transitivity c3; [done|apply keeps_wake_put].
Qed.

Lemma keeps_complete_one m s x h c : keeps c (fst (complete_one m s x h c)).
Proof.
  unfold complete_one. set (b := buf_head h). set (h1 := del_elements h).
  set (c1 := if b_pre_mapped b then c else _). set (c2 := pending_dec h1 _).
  set (c3 := if to_device h1 then _ else c2).
  assert (H3 : keeps c c3).
  { transitivity c1; [by unfold c1; split_match|]. transitivity c2; [unfold c2; etransitivity; [|apply keeps_pending_dec]; done|].
    unfold c3. split_match; [apply keeps_deassert_wake|done]. }
  destruct (pre_alloc h1); [|done].
  pose proof (keeps_queue_buf m (b_cb_buf b) (b_len b) MHI_EOT h1 c3) as Hq.
  destruct (mhi_queue_buf _ _ _ _ _ c3) as [[ret c4] h2]. cbn [fst snd] in *.
  transitivity c3; [done|]. transitivity c4; [done|]. by split_match.
Qed.

Lemma keeps_complete_until n m d s x h c c' h' : complete_until n m d s x h c = Some (c', h') -> keeps c c'.
Proof.
  revert h c. induction n as [|n IH]; intros h c; cbn [complete_until]; destruct (_ =? d); try done; try (by intros [= <- <-]).
  pose proof (keeps_complete_one m s x h c) as H1. destruct (complete_one m s x h c) as [c1 h1]. cbn [fst] in H1.
  intros H%IH. by transitivity c1.
Qed.

Lemma keeps_xfer_event m t h c c' h' : parse_xfer_event m t h c = Some (c', h') -> keeps c c'.
Proof.
  unfold parse_xfer_event. destruct (negb (ch_state h =? _)); [by intros [= <- <-]|].
  destruct (_ || _ || _); [by intros H%keeps_complete_until|]. destruct (_ || _).
  - set (h1 := set_ch_db_cfg _ _). destruct (negb _ && _); [|by intros [= <- <-]].
    pose proof (keeps_chan_db h1 c) as Hd. intros [= E]. by rewrite E in Hd.
  - by destruct (_ =? MHI_EV_CC_BAD_TRE); intros [= <- <-].
Qed.

Lemma keeps_rsc_event t h c c' h' : parse_rsc_event t h c = Some (c', h') -> keeps c c'.
Proof. unfold parse_rsc_event. intros H. repeat (split_match_in H; try done); injection H as <- <-; done. Qed.

Lemma keeps_dispatch m t c c' : dispatch_xfer m t c = Some c' -> keeps c c'.
Proof.
  unfold dispatch_xfer. destruct (chan_at c _) as [h|]; [|done].
  destruct (_ =? MHI_PKT_TYPE_TX_EVENT).
  { destruct (parse_xfer_event m t h c) as [[c1 h1]|] eqn:E; [|done]. intros [= <-].
    apply keeps_xfer_event in E. by transitivity c1. }
  destruct (_ =? MHI_PKT_TYPE_RSC_TX_EVENT); [|by intros [= <-]].
  destruct (parse_rsc_event t h c) as [[c1 h1]|] eqn:E; [|done]. intros [= <-].
  apply keeps_rsc_event in E. by transitivity c1.
Qed.

Lemma keeps_cmd_completion t c c' : mhi_process_cmd_completion t c = Some c' -> keeps c c'.
Proof.
  unfold mhi_process_cmd_completion. intros H. repeat (split_match_in H; try done); injection H as <-; done.
Qed.

Lemma map_st_snd {S A B} (f : A -> S -> S * A) (g : A -> B) l s :
  (forall x s, g (snd (f x s)) = g x) -> map g (snd (map_st f l s)) = map g l.
Proof.
  intros Hf. revert s. induction l as [|x l IH]; intros s; cbn; [done|].
  specialize (Hf x s). destruct (f x s) as [s1 y]. specialize (IH s1). destruct (map_st f l s1) as [s2 ys]. cbn in *.
  by rewrite Hf, IH.
Qed.

Lemma queues_over_events f c :
  (forall e c, er_q (snd (f e c)) = er_q e) -> queues (over_events f c) = queues c.
Proof.
  intros Hf. unfold over_events. pose proof (map_st_snd f er_q (events c) c Hf) as H.
  by destruct (map_st f (events c) c).
Qed.

Lemma m0_event_q e c : er_q (snd (m0_event e c)) = er_q e.
Proof. unfold m0_event. split_match; [done|]. unfold ring_er_db. by destruct (mhi_ring_er_db _ _ _). Qed.

Lemma m0_chan_queues h c : queues (fst (m0_chan h c)) = queues c.
Proof. unfold m0_chan. destruct (negb _ && negb _); [apply keeps_chan_db|done]. Qed.

Lemma queues_m0 c : queues (snd (mhi_pm_m0_transition c)) = queues c.
Proof.
  unfold mhi_pm_m0_transition, mhi_tryset_pm_state. destruct (negb (_ =? MHI_PM_M0)); [done|].
  set (c1 := mhi_assert_dev_wake _). assert (E1 : queues c1 = queues c) by (unfold c1; by rewrite (proj2 (keeps_assert_wake _))).
  cbn [snd]. set (c2 := if MHI_IN_MISSION_MODE (ee c1) then _ else c1).
  assert (E2 : queues c2 = queues c1).
  { unfold c2. split_match; [|done].
    assert (E0 : queues (over_events m0_event c1) = queues c1) by (apply queues_over_events, m0_event_q).
    split_match; [|done]. by rewrite (proj2 (keeps_cmd_db _)). }
  rewrite <- E1, <- E2. 
  etransitivity; [apply (proj2 (keeps_deassert_wake _))|].
  apply (over_chans_field queues); [done|apply m0_chan_queues].
Qed.

Lemma queues_m1 k c : queues (mhi_pm_m1_transition k c) = queues c.
Proof.
  unfold mhi_pm_m1_transition, mhi_tryset_pm_state. destruct (_ =? MHI_PM_M2); [|done].
  set (c1 := mhi_set_mhi_state k MHI_STATE_M2 _).
  assert (E : queues c1 = queues c) by (etransitivity; [apply keeps_set_state|done]).
  destruct (negb _); [|exact E]. etransitivity; [apply keeps_deassert_wake|].
  etransitivity; [apply keeps_assert_wake|exact E].
Qed.

Lemma handle_ctrl_inv k m ok t c c' :
  handle_ctrl_event k m ok t c = Some c' -> moves c c' /\ queues c' = queues c.
Proof.
  assert (Hk : forall c c', keeps c c' -> moves c c' /\ queues c' = queues c).
  { intros ? ? [E1 E2]. split; [by apply moves_same|done]. }
  unfold handle_ctrl_event. destruct (_ =? MHI_PKT_TYPE_STATE_CHANGE_EVENT).
  { intros [= <-]. unfold state_event. repeat split_match; try done.
    - split; [apply m0_moves|apply queues_m0].
    - split; [apply m1_moves|apply queues_m1].
    - split; [apply m3_moves|]. unfold mhi_pm_m3_transition, mhi_tryset_pm_state. by split_match.
    - unfold sys_err_event, mhi_tryset_pm_state. pose proof (tryset_moves c MHI_PM_SYS_ERR_DETECT ltac:(in_states)) as Ht.
      split; [|by split_match]. by split_match. }
  destruct (_ =? MHI_PKT_TYPE_CMD_COMPLETION_EVENT); [intros H; by apply Hk, (keeps_cmd_completion t)|].
  destruct (_ =? MHI_PKT_TYPE_EE_EVENT).
  { intros [= <-]. apply Hk. unfold ee_event, mhi_queue_state_transition. by repeat split_match. }
  destruct (is_xfer t); [intros H; by apply Hk, (keeps_dispatch m t)|]. intros [= <-]. by apply Hk.
Qed.

(** ** The loop *)

(** The elements the device wrote from slot [a] on. *)
Definition elems (r : mhi_ring) (mem : gmap Z mhi_tre) (a : Z) (n : nat) : list mhi_tre :=
  map (fun x => default (Tre 0 0 0) (mem !! slot r ((a + Z.of_nat x) mod elements r))) (seq 0 n).

(** Events handled one after the other, the ring recycled after each. *)
Fixpoint handle_all (k : ctrl_cfg) (m : mhi_buf_info -> Z * Z) (ok : bool) (i : Z) (ts : list mhi_tre) (c : ctrl) : option ctrl :=
  match ts with
  | [] => Some c
  | t :: ts => c ← ctrl_turn k m ok i t c; handle_all k m ok i ts c
  end.

Lemma event_at_queues c c' i e :
  queues c' = queues c -> event_at c i = Some e -> exists e', event_at c' i = Some e' /\ er_q e' = er_q e.
Proof.
  unfold event_at, zget, queues. destruct (i <? 0); [done|]. intros Eq He.
  assert (H : map er_q (events c') !! Z.to_nat i = Some (er_q e)) by (rewrite Eq, list_lookup_fmap, He; done).
  rewrite list_lookup_fmap in H. destruct (events c' !! Z.to_nat i) as [e'|]; [|done]. injection H as H. eauto.
Qed.

Lemma event_at_put c i e e0 : event_at c i = Some e0 -> event_at (put_event c i e) i = Some e.
Proof.
  unfold event_at, zget, put_event. destruct (i <? 0); [done|]. intros H. cbn.
  apply list_lookup_insert_eq. by eapply lookup_lt_Some.
Qed.

(** A turn recycles the ring and leaves its contents alone. *)
Lemma ctrl_turn_inv k m ok i t c c' e :
  event_at c i = Some e -> ctrl_turn k m ok i t c = Some c' ->
  moves c c' /\ exists e', event_at c' i = Some e' /\
    er_q e' = MemRing (mhi_recycle_ev_ring_element (mr_ring (er_q e))) (mr_mem (er_q e)).
Proof.
  intros He. unfold ctrl_turn. destruct (handle_ctrl_event k m ok t c) as [c1|] eqn:E; [|done]. cbn [mbind option_bind].
  apply handle_ctrl_inv in E as [Hm Hq]. destruct (event_at_queues c c1 i e Hq He) as (e1 & He1 & Eq1).
  rewrite He1. cbn [mbind option_bind]. intros [= <-]. split; [exact Hm|]. exists (recycle e1).
  split; [by apply (event_at_put _ _ _ e1)|]. cbn. by rewrite Eq1.
Qed.

Lemma recycle_fixed r :
  let r' := mhi_recycle_ev_ring_element r in
  base r' = base r /\ iommu_base r' = iommu_base r /\ elements r' = elements r /\ el_size r' = el_size r.
Proof. done. Qed.

Lemma elems_cons r r' mem a n :
  base r' = base r -> elements r' = elements r -> el_size r' = el_size r -> 0 < elements r ->
  elems r mem a (S n) =
  default (Tre 0 0 0) (mem !! slot r (a mod elements r)) :: elems r' mem ((a + 1) mod elements r) n.
Proof.
  intros E1 E2 E3 Hn. unfold elems. cbn [seq map]. rewrite Z.add_0_r, <- seq_shift, map_map. f_equal.
  apply map_ext. intros x. unfold slot. rewrite E1, E2, E3, Z.add_mod_idemp_l by lia.
  by replace (a + 1 + Z.of_nat x) with (a + Z.of_nat (S x)) by lia.
Qed.

Lemma ctrl_loop_drains k m ok i p n : forall fuel a b c e count,
  event_at c i = Some e -> ring_at (mr_ring (er_q e)) a b -> Z.of_nat n < elements (mr_ring (er_q e)) -> (n <= fuel)%nat ->
  mhi_to_virtual (mr_ring (er_q e)) p = slot (mr_ring (er_q e)) ((a + Z.of_nat n) mod elements (mr_ring (er_q e))) ->
  ctrl_loop fuel k m ok (fun _ => p) i (mhi_to_virtual (mr_ring (er_q e)) p) count c =
    ((fun c' => (c', count + Z.of_nat n)) <$> handle_all k m ok i (elems (mr_ring (er_q e)) (mr_mem (er_q e)) a n) c).
Proof.
  induction n as [|n IH]; intros fuel a b c e count He Hr Hn Hf Hp; set (r := mr_ring (er_q e)) in *.
  - rewrite Hp. pose proof Hr as [_ _ _ _ _ Hi _ Erp _].
    assert (E : slot r ((a + Z.of_nat 0) mod elements r) = rp r)
      by (unfold slot; rewrite Z.add_0_r, Z.mod_small by lia; by rewrite Erp).
    rewrite E. cbn [Z.of_nat]. rewrite Z.add_0_r.
    destruct fuel; cbn [ctrl_loop]; rewrite He; cbn [mbind option_bind]; fold r; by rewrite Z.eqb_refl.
  - destruct fuel as [|fuel]; [lia|]. pose proof Hr as [Hel Hn2 Hlen _ _ Hi _ Erp _].
    cbn [ctrl_loop]. rewrite He. cbn [mbind option_bind]. fold r.
    rewrite (proj2 (Z.eqb_neq _ _)).
    2: { rewrite Hp, Erp. fold (slot r a). intros Hs%slot_inj; [|done]. revert Hs.
         rewrite <- (Z.mod_small a (elements r)) at 2 by lia. intros Hs.
         assert (Hd : (a + Z.of_nat (S n) - a) mod elements r = 0) by (rewrite Zminus_mod, Hs, Z.sub_diag; done).
         replace (a + Z.of_nat (S n) - a) with (Z.of_nat (S n)) in Hd by lia. rewrite Z.mod_small in Hd by lia. lia. }
    destruct (recycle_fixed r) as (F1 & F2 & F3 & F4).
    rewrite (elems_cons r (mhi_recycle_ev_ring_element r)) by (done || lia). cbn [handle_all].
    assert (Ht : ev_at e = default (Tre 0 0 0) (mr_mem (er_q e) !! slot r (a mod elements r))).
    { unfold ev_at. fold r. rewrite Erp, Z.mod_small by lia. done. }
    rewrite <- Ht. destruct (ctrl_turn k m ok i (ev_at e) c) as [c1|] eqn:Ec; [|done]. cbn [mbind option_bind].
    destruct (ctrl_turn_inv k m ok i _ c c1 e He Ec) as (_ & e1 & He1 & Eq1). rewrite He1. cbn [mbind option_bind].
    assert (Er : mr_ring (er_q e1) = mhi_recycle_ev_ring_element r) by (rewrite Eq1; done).
    assert (Em : mr_mem (er_q e1) = mr_mem (er_q e)) by (rewrite Eq1; done).
    destruct (recycle_at r a b Hr) as [Hr' _].
    specialize (IH fuel ((a + 1) mod elements r) ((b + 1) mod elements r) c1 e1 (count + 1)).
    rewrite Er, Em, F3 in IH. rewrite Er.
    rewrite IH; [|done|done|lia|lia|].
    + replace (count + 1 + Z.of_nat n) with (count + Z.of_nat (S n)) by lia. done.
    + assert (Ev : mhi_to_virtual (mhi_recycle_ev_ring_element r) p = mhi_to_virtual r p) by done.
      rewrite Ev, Hp. unfold slot. rewrite F1, F4, Z.add_mod_idemp_l by lia.
      by replace (a + 1 + Z.of_nat n) with (a + Z.of_nat (S n)) by lia.
Qed.

(** Where the ring stands after a turn, wherever it stood. *)
Lemma ctrl_turn_ok k m ok i t c c' e :
  event_at c i = Some e -> ring_ok (mr_ring (er_q e)) -> ctrl_turn k m ok i t c = Some c' ->
  moves c c' /\ exists e', event_at c' i = Some e' /\ ring_ok (mr_ring (er_q e')).
Proof.
  intros He (a & b & Hr) Ht. destruct (ctrl_turn_inv k m ok i t c c' e He Ht) as (Hm & e' & He' & Eq).
  split; [done|]. exists e'. split; [done|]. rewrite Eq. destruct (recycle_at _ a b Hr) as [Hr' _]. by eexists _, _.
Qed.

Lemma ctrl_loop_ok k m ok dev i : forall fuel p count c e c' count',
  event_at c i = Some e -> ring_ok (mr_ring (er_q e)) -> ctrl_loop fuel k m ok dev i p count c = Some (c', count') ->
  moves c c' /\ exists e', event_at c' i = Some e' /\ ring_ok (mr_ring (er_q e')).
Proof.
  induction fuel as [|fuel IH]; intros p count c e c' count' He Hr; cbn [ctrl_loop]; rewrite He; cbn [mbind option_bind];
    (destruct (p =? _); [intros [= <- <-]; split; [done|by exists e]|]); [done|].
  destruct (ctrl_turn k m ok i (ev_at e) c) as [c1|] eqn:Ec; [|done]. cbn [mbind option_bind].
  destruct (ctrl_turn_ok k m ok i _ c c1 e He Hr Ec) as (Hm & e1 & He1 & Hr1). rewrite He1. cbn [mbind option_bind].
  intros H. destruct (IH _ _ c1 e1 c' count' He1 Hr1 H) as [Hm' He']. split; [by transitivity c1|done].
Qed.

Lemma ctrl_finish_ok i count c ret c' e :
  event_at c i = Some e -> ring_ok (mr_ring (er_q e)) -> ctrl_finish i count c = Some (ret, c') ->
  ret = count /\ pm_state c' = pm_state c /\ exists e', event_at c' i = Some e' /\ ring_ok (mr_ring (er_q e')).
Proof.
  intros He Hr. unfold ctrl_finish. rewrite He. cbn [mbind option_bind].
  set (e1 := if _ <? _ then _ else e). assert (Eq : er_q e1 = er_q e) by (unfold e1; by split_match).
  set (c1 := put_event c i e1). assert (He1 : event_at c1 i = Some e1) by (by apply (event_at_put _ _ _ e)).
  destruct (MHI_DB_ACCESS_VALID _); [|intros [= <- <-]; split_and!; [done..|]; exists e1; by rewrite Eq].
  unfold ring_er_db. destruct (mhi_ring_er_db _ _ _) as [m' d']. intros [= <- <-]. split_and!; [done..|].
  eexists. split; [by apply (event_at_put _ _ _ e1)|]. cbn. by rewrite Eq.
Qed.

Lemma ctrl_ring_ok fuel k m ok dev i c e ret c' :
  event_at c i = Some e -> ring_ok (mr_ring (er_q e)) ->
  mhi_process_ctrl_ev_ring fuel k m ok dev i c = Some (ret, c') ->
  moves c c' /\ exists e', event_at c' i = Some e' /\ ring_ok (mr_ring (er_q e')).
Proof.
  intros He Hr. unfold mhi_process_ctrl_ev_ring. destruct (MHI_EVENT_ACCESS_INVALID _).
  { intros [= <- <-]. split; [done|by exists e]. }
  rewrite He. cbn [mbind option_bind]. destruct (ctrl_loop _ _ _ _ _ _ _ _ _) as [[c1 count]|] eqn:El; [|done].
  destruct (ctrl_loop_ok k m ok dev i fuel _ _ c e c1 count He Hr El) as (Hm & e1 & He1 & Hr1). cbn [mbind option_bind].
  intros (_ & Ep & Hx)%(ctrl_finish_ok i count c1 ret c' e1 He1 Hr1). split; [|done].
  transitivity c1; [done|by apply moves_same].
Qed.

(** ** Theorems *)


(** Two events, a change to M0 in the last slot and the mission mode in the first. *)
Definition ex_ctrl_ring : mem_ring mhi_tre :=
  MemRing (MhiRing 0x80100 0x1100 0x1130 0x1120 16 64 4 0 0x300)
          {[ 0x1130 := Tre 0 (MHI_STATE_M0 * 2 ^ 24) (MHI_PKT_TYPE_STATE_CHANGE_EVENT * 2 ^ 16);
             0x1100 := Tre 0 (MHI_EE_AMSS * 2 ^ 24) (MHI_PKT_TYPE_EE_EVENT * 2 ^ 16) ]}.
Definition ex_ctrl_event : mhi_event := MhiEvent ex_ctrl_ring (DbCfg true 0 false) false false 0x80110 0.
Definition ex_events_ctrl : ctrl := set_events (ex_ctrl MHI_PM_POR MHI_STATE_READY) [ex_ctrl_event].

Lemma ex_ctrl_ring_at : ring_at (mr_ring ex_ctrl_ring) 3 2.
Proof. split; cbn; lia. Qed.




(** The lock of the time-sync list is still held when an event has been handled, so
    the next event, of this run or of a later one, waits for it for ever. *)
Theorem tsync_second_event_hangs t1 t2 s :
  ts_locked s = false -> is_Some (tsync_events [t1] s) /\ tsync_events [t1; t2] s = None.
Proof. intros Hl. cbn [tsync_events]. unfold tsync_drain. rewrite Hl. cbn. split; [by eexists|done]. Qed.
