(* ===== verification/MhiQueue.v ===== *)
(** * The queueing interface of the MHI clients

    What the clients of the MHI core (core/mhi_dtr.c, devices/mhi_uci.c) are
    promised by [mhi_queue_transfer], [mhi_get_no_free_descriptors] and the
    transfer callbacks on the two channels of their device, as the class
    [TransferQueue]; the channels of MhiXfer are an instance of it. *)

From S2P Require Import Prelude CLib MhiReg MhiRing MhiCtrl MhiPm MhiXfer MhiFifo.

(** [true] is the direction to the device.  [tq_held d q l]: the channel holds the
    client's buffers [l], oldest first.  A transfer that is accepted is the newest;
    a completion gives the oldest back, with a status and a length; a reset gives
    all of them back. *)
Class TransferQueue (Q : Type) := {
  tq_put : bool -> Z -> Z -> Z -> Q -> Z * Q;
  tq_room : bool -> Q -> Z;
  tq_count : bool -> Q -> nat;
  tq_done : bool -> Z -> Z -> Q -> option (Z * Q);
  tq_drain : bool -> Q -> list Z * Q;
  tq_held : bool -> Q -> list Z -> Prop;
  tq_put_same d buf len flags q l :
    tq_held d q l ->
    tq_held d (snd (tq_put d buf len flags q)) (if fst (tq_put d buf len flags q) =? 0 then l ++ [buf] else l);
  tq_put_other d d' buf len flags q l :
    d' <> d -> tq_held d' q l -> tq_held d' (snd (tq_put d buf len flags q)) l;
  tq_count_held d q l : tq_held d q l -> tq_count d q = length l;
  tq_done_same d st n q l :
    tq_held d q l ->
    match l with
    | [] => tq_done d st n q = None
    | buf :: l => exists q', tq_done d st n q = Some (buf, q') /\ tq_held d q' l
    end;
  tq_done_other d d' st n q buf q' l :
    d' <> d -> tq_held d' q l -> tq_done d st n q = Some (buf, q') -> tq_held d' q' l;
  tq_drain_same d q l : tq_held d q l -> fst (tq_drain d q) = l /\ tq_held d (snd (tq_drain d q)) [];
  tq_drain_other d d' q l : d' <> d -> tq_held d' q l -> tq_held d' (snd (tq_drain d q)) l }.

(** ** The channels of a device *)

(** The outbound and the inbound channel of a device under its controller. *)
Definition chan_pair : Type := ctrl * mhi_chan * mhi_chan.

Definition pair_chan (d : bool) (q : chan_pair) : mhi_chan := if d then snd (fst q) else snd q.
Definition pair_set (d : bool) (q : chan_pair) (c : ctrl) (x : mhi_chan) : chan_pair :=
  if d then (c, x, snd q) else (c, snd (fst q), x).

Definition pair_put (m : mhi_buf_info -> Z * Z) (d : bool) (buf len flags : Z) (q : chan_pair) : Z * chan_pair :=
  let '(ret, c, x) := mhi_queue_buf m buf len flags (pair_chan d q) (fst (fst q)) in
  (ret, pair_set d q c x).

Definition pair_count (d : bool) (q : chan_pair) : nat :=
  let r := mr_ring (tre_ring (pair_chan d q)) in Z.to_nat (elements r - 1 - get_nr_avail_ring_elements r).

(** The results handed to the client between two states of the controller. *)
Definition new_cbs (c c' : ctrl) : list Z :=
  map buf_addr (drop (length (xfer_cbs (c_log c))) (xfer_cbs (c_log c'))).

Definition pair_done (m : mhi_buf_info -> Z * Z) (d : bool) (status xfer_len : Z) (q : chan_pair) : option (Z * chan_pair) :=
  let h := pair_chan d q in
  if rp (mr_ring (tre_ring h)) =? wp (mr_ring (tre_ring h)) then None
  else let '(c, x) := complete_one m status xfer_len h (fst (fst q)) in Some (b_cb_buf (buf_head h), pair_set d q c x).

Definition pair_drain (d : bool) (q : chan_pair) : list Z * chan_pair :=
  let h := pair_chan d q in
  match mhi_reset_data_chan (Z.to_nat (elements (mr_ring (tre_ring h)))) h (fst (fst q)) with
  | Some (c, x) => (new_cbs (fst (fst q)) c, pair_set d q c x)
  | None => ([], q)
  end.

Definition pair_held (d : bool) (q : chan_pair) (l : list Z) : Prop :=
  pre_alloc (pair_chan d q) = false /\ exists ts, chan_holds (pair_chan d q) ts /\ outstanding ts = l.

Lemma pair_set_same d q c x : pair_chan d (pair_set d q c x) = x.
Proof. by destruct d. Qed.
Lemma pair_set_other d d' q c x : d' <> d -> pair_chan d' (pair_set d q c x) = pair_chan d' q.
Proof. by destruct d, d'. Qed.

Lemma pair_held_other d d' q c x l : d' <> d -> pair_held d' q l -> pair_held d' (pair_set d q c x) l.
Proof. intros Hd. unfold pair_held. by rewrite pair_set_other. Qed.

Lemma fixed_pre h h' : chan_fixed h' = chan_fixed h -> pre_alloc h' = pre_alloc h.
Proof. by intros [= _ _ ? _ _]. Qed.

Lemma queue_buf_held m buf blen flags h c ts ret c' h' :
  chan_holds h ts -> mhi_queue_buf m buf blen flags h c = (ret, c', h') ->
  pre_alloc h' = pre_alloc h /\
  exists ts', chan_holds h' ts' /\ outstanding ts' = if ret =? 0 then outstanding ts ++ [buf] else outstanding ts.
Proof.
  intros [i Hh] E. pose proof (queue_buf_queued m buf blen flags h c i ts Hh) as Hq. rewrite E in Hq.
  destruct Hq as (_ & Hf & _ & Hok & Hbad). split; [by apply fixed_pre|]. destruct (Z.eqb_spec ret 0) as [Hz|Hz].
  - destruct (Hok Hz) as (_ & t & b & Hb & Eb). exists (ts ++ [(t, b)]). split; [by exists i|].
    unfold outstanding. rewrite map_app. cbn. by rewrite Eb.
  - destruct (Hbad Hz) as (_ & Hb). exists ts. split; [by exists i|done].
Qed.

Lemma put_held m d buf blen flags q l :
  pair_held d q l ->
  pair_held d (snd (pair_put m d buf blen flags q)) (if fst (pair_put m d buf blen flags q) =? 0 then l ++ [buf] else l).
Proof.
  intros (Hp & ts & Hh & <-). unfold pair_put, pair_held. destruct (mhi_queue_buf _ _ _ _ _ _) as [[ret c] x] eqn:E.
  cbn [fst snd]. rewrite pair_set_same. destruct (queue_buf_held _ _ _ _ _ _ _ _ _ _ Hh E) as [-> He]. done.
Qed.

Lemma count_held d q l : pair_held d q l -> pair_count d q = length l.
Proof.
  intros (_ & ts & [i Hh] & <-). unfold pair_count, outstanding. rewrite length_map.
  destruct (Hh) as ((Hat & _) & _). rewrite (avail_at _ _ _ Hat).
  destruct (holds_position _ _ _ _ _ Hh Hat) as [_ ->]. unfold zlen. lia.
Qed.

Lemma done_held m d st n q l :
  pair_held d q l ->
  match l with
  | [] => pair_done m d st n q = None
  | buf :: l => exists q', pair_done m d st n q = Some (buf, q') /\ pair_held d q' l
  end.
Proof.
  intros (Hp & ts & [i Hh] & <-). unfold pair_done. pose proof Hh as (Ht & _). rewrite (empty_iff _ _ _ Ht).
  destruct ts as [|[t b] ts]; [done|]. rewrite bool_decide_false by done. cbn [outstanding map snd].
  pose proof (complete_one_holds m st n _ (fst (fst q)) i t b ts Hh Hp) as H1. rewrite (buf_head_holds _ _ _ _ _ Hh).
  destruct (complete_one _ _ _ _ _) as [c x]. destruct H1 as (Hx & Hf & _). eexists. split; [done|].
  unfold pair_held. rewrite pair_set_same. split; [by rewrite (fixed_pre _ _ Hf)|]. exists ts. split; [by eexists|done].
Qed.

Lemma drain_held d q l : pair_held d q l -> fst (pair_drain d q) = l /\ pair_held d (snd (pair_drain d q)) [].
Proof.
  intros (Hp & ts & [i Hh] & <-). unfold pair_drain.
  destruct (drain_holds ts (Z.to_nat (elements (mr_ring (tre_ring (pair_chan d q))))) _ (fst (fst q)) i Hh Hp)
    as (c & x & -> & Hx & Hf & _ & Hcb).
  { destruct Hh as ((_ & Hlt & _) & _). rewrite zlen_map in Hlt. unfold zlen in Hlt. lia. }
  cbn [fst snd]. unfold new_cbs. rewrite Hcb, drop_app_length, map_map. cbn [buf_addr]. split; [done|].
  unfold pair_held. rewrite pair_set_same. split; [by rewrite (fixed_pre _ _ Hf)|]. by exists [].
Qed.

#[export] Instance chan_pair_queue (m : mhi_buf_info -> Z * Z) : TransferQueue chan_pair.
Proof.
  refine {| tq_put := pair_put m;
            tq_room d q := get_nr_avail_ring_elements (mr_ring (tre_ring (pair_chan d q)));
            tq_count := pair_count;
            tq_done := pair_done m;
            tq_drain := pair_drain;
            tq_held := pair_held |}.
  - intros. by apply put_held.
  - intros. unfold pair_put. destruct (mhi_queue_buf _ _ _ _ _ _) as [[ret c] x]. by apply pair_held_other.
  - intros. by apply count_held.
  - intros. by apply done_held.
  - intros * Hd Hh. unfold pair_done. split_match; [done|]. destruct (complete_one _ _ _ _ _) as [c x].
    intros [= _ <-]. by apply pair_held_other.
  - intros. by apply drain_held.
  - intros. unfold pair_drain. split_match; [|done]. destruct p as [c x]. by apply pair_held_other.
Defined.

(** The channels of the examples: empty, with room for three transfers. *)
Definition ex_queue : TransferQueue chan_pair := chan_pair_queue ex_map.
Definition ex_pair : chan_pair := (ex_ctrl MHI_PM_M0 MHI_STATE_M0, ex_xchan, ex_xchan).

Lemma ex_pair_held d : @tq_held _ ex_queue d ex_pair [].
Proof. by destruct d; (split; [|exists []; split; [exists 2; apply ex_xchan_holds|]]). Qed.
