(* ===== verification/MhiDtr.v ===== *)
(** * Modem control lines: core/mhi_dtr.c

    The client of the control channel that carries the lines of the modem's
    serial ports: DTR and RTS from the host, CD, DSR and RI from the modem.  It
    works through the queueing interface of MhiQueue. *)

From S2P Require Import Prelude CLib MhiReg MhiRing MhiCtrl MhiPm MhiXfer MhiFifo MhiQueue.

(** ** Messages and lines *)

Record dtr_ctrl_msg := DtrMsg { preamble : Z; msg_id : Z; dest_id : Z; size : Z; msg : Z }.

#[global] Instance dtr_ctrl_msg_eq_dec : EqDecision dtr_ctrl_msg.
Proof. solve_decision. Defined.

Definition sizeof_dtr_msg : Z := 20.
Definition CTRL_MAGIC : Z := 0x4C525443.
Definition CTRL_MSG_DTR : Z := 1.
Definition CTRL_MSG_RTS : Z := 2.
Definition CTRL_MSG_DCD : Z := 1.
Definition CTRL_MSG_DSR : Z := 2.
Definition CTRL_MSG_RI : Z := 8.
Definition CTRL_HOST_STATE : Z := 0x10.
Definition CTRL_GET_CHID (m : dtr_ctrl_msg) : Z := Z.land (dest_id m) 0xFF.

Definition TIOCM_DTR : Z := 0x002.
Definition TIOCM_RTS : Z := 0x004.
Definition TIOCM_CD : Z := 0x040.
Definition TIOCM_RI : Z := 0x080.
Definition TIOCM_DSR : Z := 0x100.

Definition host_mask : Z := Z.lor TIOCM_DTR TIOCM_RTS.
Definition modem_mask : Z := Z.lor (Z.lor TIOCM_CD TIOCM_DSR) TIOCM_RI.

(** [flags & bit] as a condition. *)
Definition has (flags bit : Z) : bool := negb (Z.land flags bit =? 0).
Definition bit_if (b : bool) (x : Z) : Z := if b then x else 0.

(** A device with lines; several channels may lead to it. *)
Record line_dev := LineDev { ul_chan_id : Z; tiocm : Z }.
Definition set_tiocm (d : line_dev) (x : Z) : line_dev := LineDev (ul_chan_id d) x.

(** [chan_dev]: the device of each of the [max_chan] channels. *)
Record dtr {Q : Type} := Dtr {
  d_q : Q;
  d_mtu : Z;
  dtr_dev : bool;
  d_devs : list line_dev;
  chan_dev : list (option nat);
  d_sent : list (Z * dtr_ctrl_msg);
  d_freed : list Z }.
Arguments dtr : clear implicits.
Arguments Dtr {Q}.

Section Dtr.
Context {Q : Type} `{TransferQueue Q}.

Definition set_q (s : dtr Q) (q : Q) : dtr Q := Dtr q (d_mtu s) (dtr_dev s) (d_devs s) (chan_dev s) (d_sent s) (d_freed s).
Definition set_dtr_dev (s : dtr Q) (b : bool) : dtr Q :=
  Dtr (d_q s) (d_mtu s) b (d_devs s) (chan_dev s) (d_sent s) (d_freed s).
Definition set_mtu (s : dtr Q) (x : Z) : dtr Q :=
  Dtr (d_q s) x (dtr_dev s) (d_devs s) (chan_dev s) (d_sent s) (d_freed s).
Definition put_dev (s : dtr Q) (i : nat) (d : line_dev) : dtr Q :=
  Dtr (d_q s) (d_mtu s) (dtr_dev s) (<[i := d]> (d_devs s)) (chan_dev s) (d_sent s) (d_freed s).
Definition sent (s : dtr Q) (buf : Z) (m : dtr_ctrl_msg) : dtr Q :=
  Dtr (d_q s) (d_mtu s) (dtr_dev s) (d_devs s) (chan_dev s) (d_sent s ++ [(buf, m)]) (d_freed s).
Definition kfree (s : dtr Q) (buf : Z) : dtr Q :=
  Dtr (d_q s) (d_mtu s) (dtr_dev s) (d_devs s) (chan_dev s) (d_sent s) (d_freed s ++ [buf]).

Definition modem_lines (m : dtr_ctrl_msg) (old : Z) : Z :=
  let t := Z.ldiff old modem_mask in
  let t := Z.lor t (bit_if (has (msg m) CTRL_MSG_DCD) TIOCM_CD) in
  let t := Z.lor t (bit_if (has (msg m) CTRL_MSG_DSR) TIOCM_DSR) in
  Z.lor t (bit_if (has (msg m) CTRL_MSG_RI) TIOCM_RI).

(** The device a message is for. *)
Definition dest_dev (m : dtr_ctrl_msg) (s : dtr Q) : option nat :=
  match chan_dev s !! Z.to_nat (CTRL_GET_CHID m) with Some (Some i) => Some i | _ => None end.

Definition apply_msg (m : dtr_ctrl_msg) (s : dtr Q) : dtr Q :=
  match dest_dev m s with
  | None => s
  | Some i => match d_devs s !! i with Some d => put_dev s i (set_tiocm d (modem_lines m (tiocm d))) | None => s end
  end.

(** [buf] holds [m]; the buffer goes back to the queue unless the transfer failed
    or the length is not that of a message. *)
Definition mhi_dtr_dl_xfer_cb (buf transaction_status bytes_xferd : Z) (m : dtr_ctrl_msg) (s : dtr Q) : dtr Q :=
  if transaction_status =? - ENOTCONN then kfree s buf
  else if negb (bytes_xferd =? sizeof_dtr_msg) then s
  else
    let s := apply_msg m s in
    set_q s (snd (tq_put false buf (d_mtu s) MHI_EOT (d_q s))).

(** A message handed to the callback. *)
Record inbound := Inbound { in_buf : Z; in_status : Z; in_bytes : Z; in_msg : dtr_ctrl_msg }.
Definition receive (s : dtr Q) (e : inbound) : dtr Q := mhi_dtr_dl_xfer_cb (in_buf e) (in_status e) (in_bytes e) (in_msg e) s.

Definition host_msg (d : line_dev) (lines : Z) : dtr_ctrl_msg :=
  DtrMsg CTRL_MAGIC CTRL_HOST_STATE (ul_chan_id d) 4
    (Z.lor (bit_if (has lines TIOCM_DTR) CTRL_MSG_DTR) (bit_if (has lines TIOCM_RTS) CTRL_MSG_RTS)).

(** [alloc]: the buffer the message gets; [meanwhile]: what the modem says while
    the call waits for the transfer callback; [completed]: the callback comes in
    time.  [None]: no such device. *)
Definition mhi_dtr_tiocmset (alloc : option Z) (meanwhile : list inbound) (completed : bool) (i : nat) (lines : Z) (s : dtr Q) : option (Z * dtr Q) :=
  d ← d_devs s !! i;
  let cur_tiocm := Z.ldiff (tiocm d) modem_mask in
  let lines := Z.land lines host_mask in
  if cur_tiocm =? lines then Some (0, s)
  else
    match alloc with
    | None => Some (- ENOMEM, s)
    | Some buf =>
        let m := host_msg d lines in
        let '(ret, q) := tq_put true buf sizeof_dtr_msg MHI_EOT (d_q s) in
        let s := set_q s q in
        if negb (ret =? 0) then Some (ret, kfree s buf)
        else
          let s := foldl receive (sent s buf m) meanwhile in
          if negb completed then Some (- EIO, kfree s buf)
          else
            d ← d_devs s !! i;
            let s := put_dev s i (set_tiocm d (Z.lor (Z.ldiff (tiocm d) host_mask) lines)) in
            Some (0, kfree s buf)
    end.

Inductive ioctl_cmd := TIOCMGET | TIOCMSET (arg : option Z) | OtherCmd.

(** [arg] of [TIOCMSET] is [None] when the user's pointer cannot be read. *)
Definition mhi_ioctl (alloc : option Z) (meanwhile : list inbound) (completed : bool) (i : nat) (cmd : ioctl_cmd) (s : dtr Q) : option (Z * dtr Q) :=
  if negb (dtr_dev s) then Some (- EIO, s)
  else
    match cmd with
    | TIOCMGET => d ← d_devs s !! i; Some (tiocm d, s)
    | TIOCMSET None => Some (- EFAULT, s)
    | TIOCMSET (Some lines) => mhi_dtr_tiocmset alloc meanwhile completed i lines s
    | OtherCmd => Some (- EINVAL, s)
    end.

(** [allocs]: what [kmalloc] gives for each free descriptor. *)
Fixpoint inbound_loop (allocs : list (option Z)) (ret : Z) (s : dtr Q) : Z * dtr Q :=
  match allocs with
  | [] => (ret, s)
  | None :: _ => (- ENOMEM, s)
  | Some buf :: allocs =>
      let '(ret, q) := tq_put false buf (d_mtu s) MHI_EOT (d_q s) in
      let s := set_q s q in
      if negb (ret =? 0) then (ret, kfree s buf) else inbound_loop allocs ret s
  end.

Definition mhi_dtr_queue_inbound (alloc : nat -> option Z) (s : dtr Q) : Z * dtr Q :=
  inbound_loop (map alloc (seq 0 (Z.to_nat (tq_room false (d_q s))))) (- EIO) s.

(** Whether [mhi_dtr_tiocmset] is woken. *)
Definition mhi_dtr_ul_xfer_cb (transaction_status : Z) : bool := transaction_status =? 0.

Definition mhi_dtr_remove (s : dtr Q) : dtr Q := set_dtr_dev s false.

(** [prepare]: [mhi_prepare_for_transfer] of the device. *)
Definition mhi_dtr_probe (prepare : Q -> Z * Q) (alloc : nat -> option Z) (s : dtr Q) : Z * dtr Q :=
  let s := set_mtu s (Z.min sizeof_dtr_msg (d_mtu s)) in
  let '(ret, q) := prepare (d_q s) in
  let s := set_q s q in
  if negb (ret =? 0) then (ret, s)
  else mhi_dtr_queue_inbound alloc (set_dtr_dev s true).

End Dtr.

(** ** The lines as a client sees them *)

Record lines := Lines { l_dtr : bool; l_rts : bool; l_cd : bool; l_dsr : bool; l_ri : bool }.

Definition encode (l : lines) : Z :=
  Z.lor (Z.lor (Z.lor (bit_if (l_dtr l) TIOCM_DTR) (bit_if (l_rts l) TIOCM_RTS)) (bit_if (l_cd l) TIOCM_CD))
        (Z.lor (bit_if (l_dsr l) TIOCM_DSR) (bit_if (l_ri l) TIOCM_RI)).

(** The host sets its two lines of a device, or the modem its three. *)
Inductive line_event := HostSets (i : nat) (lines : Z) | ModemSets (i : nat) (flags : Z).

Definition host_sets (x : Z) (l : lines) : lines := Lines (has x TIOCM_DTR) (has x TIOCM_RTS) (l_cd l) (l_dsr l) (l_ri l).
Definition modem_sets (x : Z) (l : lines) : lines :=
  Lines (l_dtr l) (l_rts l) (has x CTRL_MSG_DCD) (has x CTRL_MSG_DSR) (has x CTRL_MSG_RI).

Definition line_step (ls : list lines) (e : line_event) : list lines :=
  match e with
  | HostSets i x => alter (host_sets x) i ls
  | ModemSets i x => alter (modem_sets x) i ls
  end.

Section Runs.
Context {Q : Type} `{TransferQueue Q}.

(** What a received buffer says of the lines. *)
Definition said (s : dtr Q) (e : inbound) : list line_event :=
  if (in_status e =? - ENOTCONN) || negb (in_bytes e =? sizeof_dtr_msg) then []
  else match dest_dev (in_msg e) s with Some i => [ModemSets i (msg (in_msg e))] | None => [] end.

Inductive dtr_op :=
| OpSet (alloc : option Z) (meanwhile : list inbound) (completed : bool) (i : nat) (x : Z)
| OpReceive (e : inbound).

(** A call that sent a message handled the modem's while it waited; one that
    returned 0 has set the lines. *)
Definition set_events_of (s s' : dtr Q) (meanwhile : list inbound) (i : nat) (x ret : Z) : list line_event :=
  (if bool_decide (d_sent s' = d_sent s) then [] else flat_map (said s) meanwhile) ++ (if ret =? 0 then [HostSets i x] else []).

Definition dtr_step (o : dtr_op) (s : dtr Q) : option (list line_event * dtr Q) :=
  match o with
  | OpSet alloc meanwhile completed i x =>
      '(ret, s') ← mhi_dtr_tiocmset alloc meanwhile completed i x s;
      Some (set_events_of s s' meanwhile i x ret, s')
  | OpReceive e => Some (said s e, receive s e)
  end.

Fixpoint dtr_run (os : list dtr_op) (s : dtr Q) : option (list line_event * dtr Q) :=
  match os with
  | [] => Some ([], s)
  | o :: os => '(e, s) ← dtr_step o s; '(es, s) ← dtr_run os s; Some (e ++ es, s)
  end.

(** The devices carry the lines [ls]. *)
Definition carries (s : dtr Q) (ls : list lines) : Prop := map tiocm (d_devs s) = map encode ls.

Lemma host_part x : Z.land x host_mask = Z.lor (bit_if (has x TIOCM_DTR) TIOCM_DTR) (bit_if (has x TIOCM_RTS) TIOCM_RTS).
Proof.
  assert (Hr : forall k, Z.land k 7 = k -> Z.land x k = Z.land (x mod 8) k).
  { intros k Hk. change 8 with (2 ^ 3). rewrite <- Z.land_ones by lia. change (Z.ones 3) with 7.
    rewrite <- Z.land_assoc, (Z.land_comm 7 k). by rewrite Hk. }
  unfold has. rewrite !Hr by done. pose proof (Z.mod_pos_bound x 8 ltac:(lia)) as Hb. revert Hb.
  generalize (x mod 8). intros y Hy.
  assert (y = 0 \/ y = 1 \/ y = 2 \/ y = 3 \/ y = 4 \/ y = 5 \/ y = 6 \/ y = 7) as Hc by lia.
  by repeat (destruct Hc as [->|Hc]; [done|]); subst.
Qed.

Lemma host_encode x l :
  Z.lor (Z.ldiff (encode l) host_mask) (Z.land x host_mask) = encode (host_sets x l).
Proof.
  rewrite host_part. unfold host_sets. destruct (has x TIOCM_DTR), (has x TIOCM_RTS), l as [[] [] [] [] []]; done.
Qed.

Lemma modem_encode m l : modem_lines m (encode l) = encode (modem_sets (msg m) l).
Proof.
  unfold modem_lines, modem_sets.
  destruct (has (msg m) CTRL_MSG_DCD), (has (msg m) CTRL_MSG_DSR), (has (msg m) CTRL_MSG_RI), l as [[] [] [] [] []]; done.
Qed.

(** The shortcut of [mhi_dtr_tiocmset]: the lines are already the ones asked for. *)
Lemma shortcut_encode x l : Z.ldiff (encode l) modem_mask = Z.land x host_mask -> host_sets x l = l.
Proof.
  rewrite host_part. unfold host_sets. destruct (has x TIOCM_DTR), (has x TIOCM_RTS), l as [[] [] [] [] []]; done.
Qed.

Lemma carries_lookup s ls i d : carries s ls -> d_devs s !! i = Some d -> exists l, ls !! i = Some l /\ tiocm d = encode l.
Proof.
  intros Hc Hd. assert (E : map tiocm (d_devs s) !! i = Some (tiocm d)) by (rewrite list_lookup_fmap, Hd; done).
  rewrite Hc, list_lookup_fmap in E. destruct (ls !! i) as [l|]; [|done]. injection E as E. eauto.
Qed.

Lemma carries_put s ls i d l f :
  carries s ls -> d_devs s !! i = Some d -> ls !! i = Some l ->
  carries (put_dev s i (set_tiocm d (encode (f l)))) (alter f i ls).
Proof.
  intros Hc Hd Hl. unfold carries, put_dev in *. cbn [d_devs].
  assert (Ha : alter f i ls = <[i := f l]> ls).
  { apply list_eq. intros k. destruct (decide (k = i)) as [->|Hk].
    - rewrite list_lookup_alter_eq, Hl, list_lookup_insert_eq; [done|]. by eapply lookup_lt_Some.
    - by rewrite list_lookup_alter_ne, list_lookup_insert_ne by done. }
  rewrite Ha. change (map tiocm) with (fmap (M:=list) tiocm) in *. change (map encode) with (fmap (M:=list) encode) in *.
  by rewrite !list_fmap_insert, Hc.
Qed.

(** Receiving changes neither the map of channels nor what was sent. *)
Lemma receive_fixed s e : chan_dev (receive s e) = chan_dev s /\ d_sent (receive s e) = d_sent s.
Proof. unfold receive, mhi_dtr_dl_xfer_cb, apply_msg. by repeat split_match. Qed.

Lemma receive_carries s e ls : carries s ls -> carries (receive s e) (foldl line_step ls (said s e)).
Proof.
  intros Hc. unfold receive, mhi_dtr_dl_xfer_cb, said. destruct (in_status e =? _); [done|].
  destruct (negb _); [done|]. cbn [orb]. unfold apply_msg. destruct (dest_dev (in_msg e) s) as [i|]; [|done].
  destruct (d_devs s !! i) as [d|] eqn:Hd.
  - destruct (carries_lookup s ls i d Hc Hd) as (l & Hl & El). cbn [foldl line_step]. rewrite El, modem_encode.
    apply (carries_put s ls i d l (modem_sets (msg (in_msg e))) Hc Hd Hl).
  - cbn [foldl line_step]. assert (Hn : ls !! i = None).
    { apply lookup_ge_None in Hd. apply lookup_ge_None. unfold carries in Hc. apply (f_equal length) in Hc.
      rewrite !length_map in Hc. lia. }
    unfold carries in *. cbn [d_devs set_q].
    replace (alter (modem_sets (msg (in_msg e))) i ls) with ls; [done|].
    apply list_eq. intros k. destruct (decide (k = i)) as [->|Hk];
      [rewrite list_lookup_alter_eq, Hn; done|by rewrite list_lookup_alter_ne].
Qed.

Lemma said_fixed s s' e : chan_dev s' = chan_dev s -> said s' e = said s e.
Proof. intros E. unfold said, dest_dev. by rewrite E. Qed.

Lemma receives_carry es : forall s s0 ls,
  chan_dev s = chan_dev s0 -> carries s ls ->
  carries (foldl receive s es) (foldl line_step ls (flat_map (said s0) es)) /\
  chan_dev (foldl receive s es) = chan_dev s0 /\ d_sent (foldl receive s es) = d_sent s.
Proof.
  induction es as [|e es IH]; intros s s0 ls Hf Hc; [done|]. cbn [foldl flat_map]. rewrite foldl_app.
  destruct (receive_fixed s e) as [F1 F2].
  destruct (IH (receive s e) s0 (foldl line_step ls (said s e))) as (A & B & C);
    [congruence|by apply receive_carries|]. rewrite <- (said_fixed s0 s e Hf). split_and!; [done|done|congruence].
Qed.

Lemma sent_grows {A} (l : list A) x : l ++ [x] <> l.
Proof. intros E. apply (f_equal length) in E. rewrite length_app in E. cbn in E. lia. Qed.

Lemma set_carries alloc meanwhile completed i x s ret s' ls :
  carries s ls -> mhi_dtr_tiocmset alloc meanwhile completed i x s = Some (ret, s') ->
  carries s' (foldl line_step ls (set_events_of s s' meanwhile i x ret)) /\ chan_dev s' = chan_dev s.
Proof.
  intros Hc. unfold mhi_dtr_tiocmset. destruct (d_devs s !! i) as [d|] eqn:Hd; [|done]. cbn [mbind option_bind].
  destruct (carries_lookup s ls i d Hc Hd) as (l & Hl & El). unfold set_events_of.
  destruct (Z.eqb_spec (Z.ldiff (tiocm d) modem_mask) (Z.land x host_mask)) as [Eq|_].
  { intros [= <- <-]. rewrite bool_decide_true by done. cbn [app Z.eqb foldl line_step]. split; [|done].
    rewrite El in Eq. apply shortcut_encode in Eq.
    replace (alter (host_sets x) i ls) with ls; [done|]. apply list_eq. intros k.
    destruct (decide (k = i)) as [->|Hk]; [rewrite list_lookup_alter_eq, Hl; cbn; by rewrite Eq|by rewrite list_lookup_alter_ne]. }
  destruct alloc as [buf|]; [|intros [= <- <-]; rewrite bool_decide_true by done; done].
  destruct (tq_put true buf sizeof_dtr_msg MHI_EOT (d_q s)) as [r q]. destruct (Z.eqb_spec r 0) as [->|Hr]; cbn [negb].
  2: { intros [= <- <-]. cbn [kfree set_q d_sent]. rewrite bool_decide_true by done.
       rewrite (proj2 (Z.eqb_neq r 0) Hr). done. }
  set (s1 := sent (set_q s q) buf _). destruct (receives_carry meanwhile s1 s ls eq_refl Hc) as (A & B & C).
  set (s2 := foldl receive s1 meanwhile) in *.
  assert (Hne : d_sent s2 <> d_sent s) by (rewrite C; apply sent_grows).
  destruct completed; cbn [negb].
  - destruct (d_devs s2 !! i) as [d2|] eqn:Hd2; [|done]. cbn [mbind option_bind]. intros [= <- <-].
    cbn [kfree put_dev d_sent chan_dev]. rewrite bool_decide_false by done. rewrite foldl_app. cbn [Z.eqb foldl line_step].
    destruct (carries_lookup s2 _ i d2 A Hd2) as (l2 & Hl2 & El2). rewrite El2, host_encode.
    split; [apply (carries_put s2 _ i d2 l2 (host_sets x) A Hd2 Hl2)|done].
  - intros [= <- <-]. cbn [kfree d_sent chan_dev]. rewrite bool_decide_false by done. rewrite foldl_app. done.
Qed.

(** ** What the modem knows *)

(** The modem's view of the host's lines on the channel [ch]. *)
Definition told (ch : Z) (ms : list (Z * dtr_ctrl_msg)) : Z :=
  default 0 (msg <$> last (filter (fun m => dest_id m = ch) (map snd ms))).

(** The flags a message carries for the host's lines. *)
Definition flags (l : lines) : Z := Z.lor (bit_if (l_dtr l) CTRL_MSG_DTR) (bit_if (l_rts l) CTRL_MSG_RTS).

(** Every device's own lines are what the modem was last told of them. *)
Definition in_step (s : dtr Q) (ls : list lines) : Prop :=
  forall i d l, d_devs s !! i = Some d -> ls !! i = Some l -> told (ul_chan_id d) (d_sent s) = flags l.

Definition ids (s : dtr Q) : list Z := map ul_chan_id (d_devs s).

Lemma told_snoc ch ms buf m :
  told ch (ms ++ [(buf, m)]) = if decide (dest_id m = ch) then msg m else told ch ms.
Proof.
  unfold told. rewrite map_app, filter_app. cbn [map snd filter list_filter]. unfold filter at 2. cbn.
  destruct (decide (dest_id m = ch)); [by rewrite last_snoc|by rewrite app_nil_r].
Qed.


Lemma ids_put s i d t : d_devs s !! i = Some d -> ids (put_dev s i (set_tiocm d t)) = ids s.
Proof.
  intros Hd. unfold ids, put_dev. cbn [d_devs]. change (map ul_chan_id) with (fmap (M:=list) ul_chan_id).
  rewrite list_fmap_insert. apply list_insert_id. by rewrite list_lookup_fmap, Hd.
Qed.

Lemma receive_ids s e : ids (receive s e) = ids s.
Proof.
  unfold receive, mhi_dtr_dl_xfer_cb, apply_msg. repeat (split_match; [done|]).
  destruct (dest_dev _ s) as [i|]; [|done]. destruct (d_devs s !! i) as [d|] eqn:Hd; [|done]. by apply (ids_put s i d).
Qed.

Lemma receives_ids es : forall s, ids (foldl receive s es) = ids s.
Proof. induction es as [|e es IH]; intros s; [done|]. cbn [foldl]. by rewrite IH, receive_ids. Qed.

Lemma flags_alter f i ls :
  map flags (alter f i ls) = match ls !! i with Some l => <[i := flags (f l)]> (map flags ls) | None => map flags ls end.
Proof.
  apply list_eq. intros k. change (map flags) with (fmap (M:=list) flags). rewrite list_lookup_fmap.
  destruct (decide (k = i)) as [->|Hk].
  - rewrite list_lookup_alter_eq. destruct (ls !! i) as [l|] eqn:E; cbn; [|by rewrite list_lookup_fmap, E].
    rewrite list_lookup_insert_eq; [done|]. rewrite length_fmap. by eapply lookup_lt_Some.
  - rewrite list_lookup_alter_ne by done. destruct (ls !! i); [by rewrite list_lookup_insert_ne, list_lookup_fmap|].
    by rewrite list_lookup_fmap.
Qed.

(** The modem's messages do not touch the host's lines. *)
Lemma said_flags es : forall s ls, map flags (foldl line_step ls (flat_map (said s) es)) = map flags ls.
Proof.
  induction es as [|e es IH]; intros s ls; [done|]. cbn [flat_map]. rewrite foldl_app, IH. unfold said.
  destruct (_ || _); [done|]. destruct (dest_dev _ s) as [i|]; [|done]. cbn [foldl line_step]. rewrite flags_alter.
  destruct (ls !! i) as [l|] eqn:E; [|done]. apply list_insert_id.
  change (map flags) with (fmap (M:=list) flags). by rewrite list_lookup_fmap, E.
Qed.

Lemma in_step_flags s ls :
  in_step s ls <-> forall i ch f, ids s !! i = Some ch -> map flags ls !! i = Some f -> told ch (d_sent s) = f.
Proof.
  unfold in_step, ids. change (map flags) with (fmap (M:=list) flags). change (map ul_chan_id) with (fmap (M:=list) ul_chan_id).
  split.
  - intros H0 i ch f. rewrite !list_lookup_fmap. destruct (d_devs s !! i) as [d|] eqn:Hd; [|done].
    destruct (ls !! i) as [l|] eqn:Hl; [|done]. intros [= <-] [= <-]. by apply (H0 i).
  - intros H0 i d l Hd Hl. apply (H0 i); by rewrite list_lookup_fmap, ?Hd, ?Hl.
Qed.

Lemma in_step_ext s ls s' ls' :
  ids s' = ids s -> d_sent s' = d_sent s -> map flags ls' = map flags ls -> in_step s ls -> in_step s' ls'.
Proof. rewrite !in_step_flags. intros -> -> ->. done. Qed.

Lemma host_msg_flags d x l : msg (host_msg d (Z.land x host_mask)) = flags (host_sets x l).
Proof. unfold host_msg, flags, host_sets. cbn [msg l_dtr l_rts]. rewrite host_part. by destruct (has x TIOCM_DTR), (has x TIOCM_RTS). Qed.

Lemma in_step_told s ls s' ls' i d x l buf :
  NoDup (ids s) -> d_devs s !! i = Some d -> ls !! i = Some l ->
  ids s' = ids s -> d_sent s' = d_sent s ++ [(buf, host_msg d (Z.land x host_mask))] ->
  map flags ls' = <[i := flags (host_sets x l)]> (map flags ls) -> in_step s ls -> in_step s' ls'.
Proof.
  intros Hnd Hd Hl Ei Es Ef. rewrite !in_step_flags, Ei, Es, Ef. intros H0 k ch f Hk. rewrite told_snoc.
  assert (Hi : ids s !! i = Some (ul_chan_id d)).
  { unfold ids. change (map ul_chan_id) with (fmap (M:=list) ul_chan_id). by rewrite list_lookup_fmap, Hd. }
  destruct (decide (k = i)) as [->|Hne].
  - rewrite Hi in Hk. injection Hk as <-. rewrite list_lookup_insert_eq
      by (rewrite length_map; by eapply lookup_lt_Some). intros [= <-].
    rewrite decide_True by done. apply host_msg_flags.
  - rewrite list_lookup_insert_ne by done. intros Hf. rewrite decide_False; [by apply (H0 k)|].
    cbn [host_msg dest_id]. intros E. apply Hne. apply (NoDup_lookup (ids s) k i ch); [done|done|]. by rewrite Hi, E.
Qed.

Lemma set_in_step alloc meanwhile i x s ret s' ls :
  NoDup (ids s) -> carries s ls -> in_step s ls -> mhi_dtr_tiocmset alloc meanwhile true i x s = Some (ret, s') ->
  in_step s' (foldl line_step ls (set_events_of s s' meanwhile i x ret)) /\ ids s' = ids s.
Proof.
  intros Hnd Hc Hin. unfold mhi_dtr_tiocmset. destruct (d_devs s !! i) as [d|] eqn:Hd; [|done]. cbn [mbind option_bind].
  destruct (carries_lookup s ls i d Hc Hd) as (l & Hl & El). unfold set_events_of.
  destruct (Z.eqb_spec (Z.ldiff (tiocm d) modem_mask) (Z.land x host_mask)) as [Eq|_].
  { intros [= <- <-]. rewrite bool_decide_true by done. cbn [app Z.eqb foldl line_step]. split; [|done].
    rewrite El in Eq. apply shortcut_encode in Eq. apply (in_step_ext s ls); try done. rewrite flags_alter, Hl, Eq.
    apply list_insert_id. change (map flags) with (fmap (M:=list) flags). by rewrite list_lookup_fmap, Hl. }
  destruct alloc as [buf|]; [|intros [= <- <-]; rewrite bool_decide_true by done; done].
  destruct (tq_put true buf sizeof_dtr_msg MHI_EOT (d_q s)) as [r q]. destruct (Z.eqb_spec r 0) as [->|Hr]; cbn [negb].
  2: { intros [= <- <-]. cbn [kfree set_q d_sent]. rewrite bool_decide_true by done.
       rewrite (proj2 (Z.eqb_neq r 0) Hr). done. }
  set (s1 := sent (set_q s q) buf _). destruct (receives_carry meanwhile s1 s ls eq_refl Hc) as (A & _ & C).
  pose proof (receives_ids meanwhile s1) as D. set (s2 := foldl receive s1 meanwhile) in *.
  assert (Hne : d_sent s2 <> d_sent s) by (rewrite C; apply sent_grows).
  destruct (d_devs s2 !! i) as [d2|] eqn:Hd2; [|done]. cbn [mbind option_bind]. intros [= <- <-].
  pose proof (ids_put s2 i d2 (Z.lor (Z.ldiff (tiocm d2) host_mask) (Z.land x host_mask)) Hd2) as Hp.
  set (s3 := put_dev s2 i _) in *. change (d_sent (kfree s3 buf)) with (d_sent s2).
  rewrite bool_decide_false by done. rewrite foldl_app. cbn [Z.eqb foldl line_step].
  destruct (carries_lookup s2 _ i d2 A Hd2) as (l2 & Hl2 & _).
  assert (Ei : ids (kfree s3 buf) = ids s) by (change (ids (kfree s3 buf)) with (ids s3); rewrite Hp; exact D).
  split; [|exact Ei]. apply (in_step_told s ls _ _ i d x l buf); try done.
  rewrite flags_alter, Hl2, said_flags. done.
Qed.

Definition in_time (o : dtr_op) : Prop := match o with OpSet _ _ completed _ _ => completed = true | OpReceive _ => True end.

Lemma step_carries o s es s' ls :
  carries s ls -> dtr_step o s = Some (es, s') -> carries s' (foldl line_step ls es).
Proof.
  intros Hc. destruct o as [alloc mw completed i x|e]; cbn [dtr_step].
  - destruct (mhi_dtr_tiocmset _ _ _ _ _ s) as [[ret s1]|] eqn:E; [|done]. intros [= <- <-].
    by apply (set_carries alloc mw completed i x s ret s1 ls).
  - intros [= <- <-]. by apply receive_carries.
Qed.

Lemma step_in_step o s es s' ls :
  NoDup (ids s) -> carries s ls -> in_step s ls -> in_time o -> dtr_step o s = Some (es, s') ->
  in_step s' (foldl line_step ls es) /\ ids s' = ids s.
Proof.
  intros Hnd Hc Hin Ht. destruct o as [alloc mw completed i x|e]; cbn [dtr_step].
  - cbn in Ht. subst completed. destruct (mhi_dtr_tiocmset _ _ _ _ _ s) as [[ret s1]|] eqn:E; [|done]. intros [= <- <-].
    by apply (set_in_step alloc mw i x s ret s1 ls).
  - intros [= <- <-]. split; [|apply receive_ids].
    apply (in_step_ext s ls); [apply receive_ids|apply receive_fixed| |done].
    pose proof (said_flags [e] s ls) as Hf. cbn [flat_map] in Hf. by rewrite app_nil_r in Hf.
Qed.

Lemma run_in_step os : forall s es s' ls,
  NoDup (ids s) -> carries s ls -> in_step s ls -> Forall in_time os -> dtr_run os s = Some (es, s') ->
  carries s' (foldl line_step ls es) /\ in_step s' (foldl line_step ls es).
Proof.
  induction os as [|o os IH]; intros s es s' ls Hnd Hc Hin Ht; cbn [dtr_run]; [by intros [= <- <-]|].
  destruct (dtr_step o s) as [[e1 s1]|] eqn:E1; [|done]. cbn [mbind option_bind].
  destruct (dtr_run os s1) as [[e2 s2]|] eqn:E2; [|done]. intros [= <- <-]. rewrite foldl_app.
  apply Forall_cons in Ht as [Ho Hos]. destruct (step_in_step o s e1 s1 ls Hnd Hc Hin Ho E1) as [A B].
  apply (IH s1 e2 s2); try done; [by rewrite B|by apply (step_carries o s)].
Qed.

(** ** Theorems *)

(** C36. In any run of line settings and messages from the modem, whatever
    allocations and queueing answer and whatever arrives while a setting waits, a
    device's modem status word is exactly its five lines: DTR and RTS as the last
    setting that returned 0 left them, CD, DSR and RI as the last well-formed
    message for a channel of the device said. *)
Theorem dtr_lines_refine os s es s' ls :
  carries s ls -> dtr_run os s = Some (es, s') -> carries s' (foldl line_step ls es).
Proof.
  revert s es ls. induction os as [|o os IH]; intros s es ls Hc; cbn [dtr_run]; [by intros [= <- <-]|].
  destruct (dtr_step o s) as [[e1 s1]|] eqn:E1; [|done]. cbn [mbind option_bind].
  destruct (dtr_run os s1) as [[e2 s2]|] eqn:E2; [|done]. intros [= <- <-]. rewrite foldl_app.
  apply (IH s1); [by apply (step_carries o s)|done].
Qed.

(** The modem is kept in step: as long as no setting times out, the last
    message sent for a device's channel carries the DTR and RTS its status
    word shows, although a setting that changes nothing sends nothing. *)
Theorem dtr_modem_in_step os s es s' ls :
  NoDup (ids s) -> carries s ls -> in_step s ls -> Forall in_time os -> dtr_run os s = Some (es, s') ->
  in_step s' (foldl line_step ls es).
Proof. intros Hnd Hc Hin Ht Hr. by apply (run_in_step os s es s' ls). Qed.

(** A setting that times out frees its message while the channel still holds it. *)
Theorem timeout_frees_queued i x s d buf l :
  d_devs s !! i = Some d -> Z.ldiff (tiocm d) modem_mask <> Z.land x host_mask ->
  tq_held true (d_q s) l -> fst (tq_put true buf sizeof_dtr_msg MHI_EOT (d_q s)) = 0 ->
  exists s', mhi_dtr_tiocmset (Some buf) [] false i x s = Some (- EIO, s') /\
    tq_held true (d_q s') (l ++ [buf]) /\ d_freed s' = d_freed s ++ [buf].
Proof.
  intros Hd Hne Hh H0. unfold mhi_dtr_tiocmset. rewrite Hd. cbn [mbind option_bind].
  rewrite (proj2 (Z.eqb_neq _ _) Hne). pose proof (tq_put_same true buf sizeof_dtr_msg MHI_EOT (d_q s) l Hh) as Hp.
  destruct (tq_put true buf sizeof_dtr_msg MHI_EOT (d_q s)) as [r q]. cbn [fst snd] in *. subst r.
  eexists. split; [reflexivity|]. by split.
Qed.

(** A message of another length costs the channel its buffer: it is neither queued
    again nor freed. *)
Theorem odd_message_loses_buffer e s :
  in_status e <> - ENOTCONN -> in_bytes e <> sizeof_dtr_msg -> receive s e = s.
Proof.
  intros H1 H2. unfold receive, mhi_dtr_dl_xfer_cb.
  by rewrite (proj2 (Z.eqb_neq _ _) H1), (proj2 (Z.eqb_neq _ _) H2).
Qed.

(** The channel keeps the buffers of its good messages: receiving one hands the
    buffer back to the queue, behind those already there, unless the queue refuses. *)
Theorem good_message_requeues e s l :
  in_status e <> - ENOTCONN -> in_bytes e = sizeof_dtr_msg -> tq_held false (d_q s) l ->
  tq_held false (d_q (receive s e)) (if fst (tq_put false (in_buf e) (d_mtu s) MHI_EOT (d_q s)) =? 0 then l ++ [in_buf e] else l).
Proof.
  intros H1 H2 Hh. unfold receive, mhi_dtr_dl_xfer_cb.
  rewrite (proj2 (Z.eqb_neq _ _) H1), H2. change (negb (sizeof_dtr_msg =? sizeof_dtr_msg)) with false. cbn match.
  assert (E : d_q (apply_msg (in_msg e) s) = d_q s /\ d_mtu (apply_msg (in_msg e) s) = d_mtu s)
    by (unfold apply_msg; by repeat split_match).
  destruct E as [E1 E2]. rewrite E1, E2. cbn [set_q d_q]. by apply tq_put_same.
Qed.

(** A probe that fails while filling its channel leaves the device registered. *)
Theorem failed_probe_stays prepare alloc (s : dtr Q) :
  fst (prepare (d_q s)) = 0 -> tq_room false (snd (prepare (d_q s))) = 0 ->
  exists s', mhi_dtr_probe prepare alloc s = (- EIO, s') /\ dtr_dev s' = true.
Proof.
  intros Hp Hr. unfold mhi_dtr_probe. cbn [set_mtu d_q]. destruct (prepare (d_q s)) as [r q]. cbn [fst snd] in *. subst r.
  cbn [negb Z.eqb]. unfold mhi_dtr_queue_inbound. cbn [set_q set_dtr_dev d_q]. rewrite Hr. cbn. by eexists.
Qed.

End Runs.

(** Two devices over real channels: DTR raised, CD reported for the second by its
    inbound channel, then a setting that changes nothing. *)
Definition ex_dtr : dtr chan_pair :=
  Dtr ex_pair 20 true [LineDev 1 0; LineDev 3 0]
      [None; Some 0%nat; None; Some 1%nat; Some 1%nat] [] [].
Definition ex_dtr_ops : list dtr_op :=
  [OpSet (Some 7) [] true 0 TIOCM_DTR; OpReceive (Inbound 9 0 20 (DtrMsg CTRL_MAGIC 0x11 4 4 CTRL_MSG_DCD));
   OpSet (Some 8) [] true 0 TIOCM_DTR].
Definition no_lines : lines := Lines false false false false false.

Lemma dtr_lines_refine_witness :
  exists es s', @dtr_run _ ex_queue ex_dtr_ops ex_dtr = Some (es, s') /\ map tiocm (d_devs s') = [TIOCM_DTR; TIOCM_CD].
Proof.
  destruct (@dtr_run _ ex_queue ex_dtr_ops ex_dtr) as [[es s']|] eqn:E; [|vm_compute in E; discriminate].
  exists es, s'. split; [reflexivity|].
  rewrite (@dtr_lines_refine _ ex_queue ex_dtr_ops ex_dtr es s' [no_lines; no_lines] eq_refl E).
  assert (Ees : es = [HostSets 0 2; ModemSets 1 1; HostSets 0 2]) by (vm_compute in E; by injection E as <- _).
  rewrite Ees. reflexivity.
Defined.
