(* ===== verification/MhiUci.v ===== *)
(** * Character devices of the modem's channels: devices/mhi_uci.c

    A node of /dev for each of the modem's byte channels (DIAG, QMI, MBIM, DUN,
    SAHARA, ...): opening it starts the channels and fills the inbound one with
    buffers, reading hands out the packets received, writing cuts the caller's
    bytes into transfers.

    One device is a [uci]; code that leaves its objects (a freed device, a freed
    or uninitialised buffer, a page or a block freed twice) is a failure of the
    [st] monad.  The events that interleave with a call while it has dropped the
    lock or sleeps are arguments of the call: transfer callbacks and the removal
    of the device.  [u_log] records the packets put on the pending list and the
    bytes handed to readers and to the outbound channel. *)

From S2P Require Import Prelude CLib MhiReg MhiRing MhiCtrl MhiPm MhiXfer MhiFifo MhiQueue.

Create HintDb uci.

Definition ERESTARTSYS : Z := 512.
Definition ENOSPC : Z := 28.

Definition MHI_CLIENT_MBIM_IN : Z := 13.
Definition MHI_CLIENT_QMI_IN : Z := 15.
Definition MHI_CLIENT_DUN_IN : Z := 33.

Definition POLLIN : Z := 0x001.
Definition POLLOUT : Z := 0x004.
Definition POLLERR : Z := 0x008.
Definition POLLHUP : Z := 0x010.
Definition POLLRDNORM : Z := 0x040.
Definition POLLWRNORM : Z := 0x100.

(** ** State *)

(** A buffer of the inbound channel; [data] is the address of its page. *)
Record uci_buf := UciBuf { page : option Z; data : Z; ub_len : Z; ub_nr_trb : nat }.

(** The array of buffers: not allocated, allocated (an element is [None] until it
    is initialised), or freed with the pointer still set. *)
Inductive buf_ptr := Null | Live (l : list (option uci_buf)) | Dangling.

(** A member of the pending list: a buffer of the array, or a copy made of one
    ([page] is NULL and the bytes follow the structure). *)
Inductive rx_entry := Slot (i : nat) | Copy (d : bytes).

Inductive uci_note := Rx (p : bytes) | Rd (count : nat) (d : bytes) | Wr (flags : Z) (d : bytes).

(** [u_pages], [u_kbufs]: the allocated pages and the allocated blocks of the
    writers with their contents; [u_freed]: the device structure is freed. *)
Record uci {Q : Type} := Uci {
  u_q : Q;
  u_mtu : Z;
  u_dl_id : Z;
  u_has_ul : bool;
  ref_count : Z;
  enabled : bool;
  rx_error : Z;
  nr_trb : nat;
  nr_trbs : nat;
  u_buf : buf_ptr;
  pending : list rx_entry;
  cur_buf : option rx_entry;
  rx_size : Z;
  u_bytes_xferd : Z;
  u_termios : bytes;
  u_pages : gmap Z bytes;
  u_kbufs : gmap Z bytes;
  u_freed : bool;
  u_log : list uci_note }.
Arguments uci : clear implicits.
Arguments Uci {Q}.

Section Setters.
Context {Q : Type}.
Definition set_uq (x : Q) (s : uci Q) : uci Q :=
  Uci x (u_mtu s) (u_dl_id s) (u_has_ul s) (ref_count s) (enabled s) (rx_error s) (nr_trb s) (nr_trbs s) (u_buf s) (pending s) (cur_buf s) (rx_size s) (u_bytes_xferd s) (u_termios s) (u_pages s) (u_kbufs s) (u_freed s) (u_log s).
Definition set_ref (x : Z) (s : uci Q) : uci Q :=
  Uci (u_q s) (u_mtu s) (u_dl_id s) (u_has_ul s) x (enabled s) (rx_error s) (nr_trb s) (nr_trbs s) (u_buf s) (pending s) (cur_buf s) (rx_size s) (u_bytes_xferd s) (u_termios s) (u_pages s) (u_kbufs s) (u_freed s) (u_log s).
Definition set_enabled (x : bool) (s : uci Q) : uci Q :=
  Uci (u_q s) (u_mtu s) (u_dl_id s) (u_has_ul s) (ref_count s) x (rx_error s) (nr_trb s) (nr_trbs s) (u_buf s) (pending s) (cur_buf s) (rx_size s) (u_bytes_xferd s) (u_termios s) (u_pages s) (u_kbufs s) (u_freed s) (u_log s).
Definition set_rx_error (x : Z) (s : uci Q) : uci Q :=
  Uci (u_q s) (u_mtu s) (u_dl_id s) (u_has_ul s) (ref_count s) (enabled s) x (nr_trb s) (nr_trbs s) (u_buf s) (pending s) (cur_buf s) (rx_size s) (u_bytes_xferd s) (u_termios s) (u_pages s) (u_kbufs s) (u_freed s) (u_log s).
Definition set_nr_trb (x : nat) (s : uci Q) : uci Q :=
  Uci (u_q s) (u_mtu s) (u_dl_id s) (u_has_ul s) (ref_count s) (enabled s) (rx_error s) x (nr_trbs s) (u_buf s) (pending s) (cur_buf s) (rx_size s) (u_bytes_xferd s) (u_termios s) (u_pages s) (u_kbufs s) (u_freed s) (u_log s).
Definition set_nr_trbs (x : nat) (s : uci Q) : uci Q :=
  Uci (u_q s) (u_mtu s) (u_dl_id s) (u_has_ul s) (ref_count s) (enabled s) (rx_error s) (nr_trb s) x (u_buf s) (pending s) (cur_buf s) (rx_size s) (u_bytes_xferd s) (u_termios s) (u_pages s) (u_kbufs s) (u_freed s) (u_log s).
Definition set_buf (x : buf_ptr) (s : uci Q) : uci Q :=
  Uci (u_q s) (u_mtu s) (u_dl_id s) (u_has_ul s) (ref_count s) (enabled s) (rx_error s) (nr_trb s) (nr_trbs s) x (pending s) (cur_buf s) (rx_size s) (u_bytes_xferd s) (u_termios s) (u_pages s) (u_kbufs s) (u_freed s) (u_log s).
Definition set_pending (x : list rx_entry) (s : uci Q) : uci Q :=
  Uci (u_q s) (u_mtu s) (u_dl_id s) (u_has_ul s) (ref_count s) (enabled s) (rx_error s) (nr_trb s) (nr_trbs s) (u_buf s) x (cur_buf s) (rx_size s) (u_bytes_xferd s) (u_termios s) (u_pages s) (u_kbufs s) (u_freed s) (u_log s).
Definition set_cur (x : option rx_entry) (s : uci Q) : uci Q :=
  Uci (u_q s) (u_mtu s) (u_dl_id s) (u_has_ul s) (ref_count s) (enabled s) (rx_error s) (nr_trb s) (nr_trbs s) (u_buf s) (pending s) x (rx_size s) (u_bytes_xferd s) (u_termios s) (u_pages s) (u_kbufs s) (u_freed s) (u_log s).
Definition set_rx_size (x : Z) (s : uci Q) : uci Q :=
  Uci (u_q s) (u_mtu s) (u_dl_id s) (u_has_ul s) (ref_count s) (enabled s) (rx_error s) (nr_trb s) (nr_trbs s) (u_buf s) (pending s) (cur_buf s) x (u_bytes_xferd s) (u_termios s) (u_pages s) (u_kbufs s) (u_freed s) (u_log s).
Definition set_bytes_xferd (x : Z) (s : uci Q) : uci Q :=
  Uci (u_q s) (u_mtu s) (u_dl_id s) (u_has_ul s) (ref_count s) (enabled s) (rx_error s) (nr_trb s) (nr_trbs s) (u_buf s) (pending s) (cur_buf s) (rx_size s) x (u_termios s) (u_pages s) (u_kbufs s) (u_freed s) (u_log s).
Definition set_termios (x : bytes) (s : uci Q) : uci Q :=
  Uci (u_q s) (u_mtu s) (u_dl_id s) (u_has_ul s) (ref_count s) (enabled s) (rx_error s) (nr_trb s) (nr_trbs s) (u_buf s) (pending s) (cur_buf s) (rx_size s) (u_bytes_xferd s) x (u_pages s) (u_kbufs s) (u_freed s) (u_log s).
Definition set_pages (x : gmap Z bytes) (s : uci Q) : uci Q :=
  Uci (u_q s) (u_mtu s) (u_dl_id s) (u_has_ul s) (ref_count s) (enabled s) (rx_error s) (nr_trb s) (nr_trbs s) (u_buf s) (pending s) (cur_buf s) (rx_size s) (u_bytes_xferd s) (u_termios s) x (u_kbufs s) (u_freed s) (u_log s).
Definition set_kbufs (x : gmap Z bytes) (s : uci Q) : uci Q :=
  Uci (u_q s) (u_mtu s) (u_dl_id s) (u_has_ul s) (ref_count s) (enabled s) (rx_error s) (nr_trb s) (nr_trbs s) (u_buf s) (pending s) (cur_buf s) (rx_size s) (u_bytes_xferd s) (u_termios s) (u_pages s) x (u_freed s) (u_log s).
Definition set_freed (x : bool) (s : uci Q) : uci Q :=
  Uci (u_q s) (u_mtu s) (u_dl_id s) (u_has_ul s) (ref_count s) (enabled s) (rx_error s) (nr_trb s) (nr_trbs s) (u_buf s) (pending s) (cur_buf s) (rx_size s) (u_bytes_xferd s) (u_termios s) (u_pages s) (u_kbufs s) x (u_log s).
Definition set_log (x : list uci_note) (s : uci Q) : uci Q :=
  Uci (u_q s) (u_mtu s) (u_dl_id s) (u_has_ul s) (ref_count s) (enabled s) (rx_error s) (nr_trb s) (nr_trbs s) (u_buf s) (pending s) (cur_buf s) (rx_size s) (u_bytes_xferd s) (u_termios s) (u_pages s) (u_kbufs s) (u_freed s) x.
End Setters.

Section Uci.
Context {Q : Type} {tq : TransferQueue Q}.
#[local] Abbreviation act := (st (uci Q)).

(** ** Memory *)

(** The array of buffers; using it when it is not allocated is a failure. *)
Definition bufs : act (list (option uci_buf)) :=
  p ← st_gets u_buf; st_load (match p with Live l => Some l | _ => None end).

Definition slot_at (i : nat) : act uci_buf :=
  l ← bufs; st_load (match l !! i with Some (Some b) => Some b | _ => None end).

Definition put_slot (i : nat) (b : uci_buf) : act unit :=
  l ← bufs; st_modify (set_buf (Live (<[i := Some b]> l))).

(** [alloc_pages]: [want] is the page it finds; one that is in use is none. *)
Definition alloc_pages (want : option Z) : act (option Z) := fun s =>
  match want with
  | Some a => match u_pages s !! a with
              | None => Some (Some a, set_pages (<[a := []]> (u_pages s)) s)
              | Some _ => Some (None, s) end
  | None => Some (None, s)
  end.

Definition free_pages (a : Z) : act unit :=
  _ ← (m ← st_gets u_pages; st_load (m !! a)); st_modify (fun s => set_pages (delete a (u_pages s)) s).

(** [kmalloc] of a writer's block. *)
Definition kmalloc (want : option Z) : act (option Z) := fun s =>
  match want with
  | Some a => match u_kbufs s !! a with
              | None => Some (Some a, set_kbufs (<[a := []]> (u_kbufs s)) s)
              | Some _ => Some (None, s) end
  | None => Some (None, s)
  end.

Definition kfree (a : Z) : act unit :=
  _ ← (m ← st_gets u_kbufs; st_load (m !! a)); st_modify (fun s => set_kbufs (delete a (u_kbufs s)) s).

(** A store of the device into a buffer it was given. *)
Definition dma_write (a : Z) (p : bytes) : act unit :=
  old ← (m ← st_gets u_pages; st_load (m !! a));
  st_modify (fun s => set_pages (<[a := p ++ drop (length p) old]> (u_pages s)) s).

(** [memcpy] and [copy_to_user] out of a page. *)
Definition page_bytes (a : Z) (off n : nat) : act bytes :=
  m ← st_gets u_pages; d ← st_load (m !! a); mret (take n (drop off d)).

Definition note (x : uci_note) : act unit := st_modify (fun s => set_log (u_log s ++ [x]) s).

Definition live : act unit := f ← st_gets u_freed; st_load (if (f : bool) then None else Some tt).

Definition mhi_queue_transfer (d : bool) (buf len flags : Z) : act Z := fun s =>
  let '(ret, q) := tq_put d buf len flags (u_q s) in Some (ret, set_uq q s).

(** The buffer whose address follows in the ring when buffer [i] is used up. *)
Definition prev_slot (i nr : nat) : nat := match i with O => (nr - 1)%nat | S i => i end.

Definition recycle_slot (i : nat) : act Z :=
  nr ← st_gets nr_trbs;
  b ← slot_at (prev_slot i nr);
  mtu ← st_gets u_mtu;
  mhi_queue_transfer false (data b) mtu MHI_EOT.

(** ** Transfer callbacks *)

Definition mhi_ul_xfer_cb (buf_addr : Z) : act unit := kfree buf_addr.

Definition copies (dl_id : Z) : bool :=
  (dl_id =? MHI_CLIENT_DUN_IN) || (dl_id =? MHI_CLIENT_QMI_IN) || (dl_id =? MHI_CLIENT_MBIM_IN).

(** The packet of [xferd] bytes in [buf] is copied unless nobody has the device
    open, and the buffer's predecessor goes back to the ring. *)
Definition deliver_copy (atomic : bool) (buf : uci_buf) (xferd : Z) : act unit :=
  ref ← st_gets ref_count;
  d ← (if negb (ref =? 1) && atomic then d ← page_bytes (data buf) 0 (Z.to_nat xferd); mret (Some d) else mret None);
  _ ← recycle_slot (ub_nr_trb buf);
  match d with
  | Some d => _ ← note (Rx d); st_modify (fun s => set_pending (pending s ++ [Copy d]) s)
  | None => mret tt
  end.

Definition deliver_slot (nr : nat) (buf : uci_buf) (xferd : Z) : act unit :=
  d ← page_bytes (data buf) 0 (Z.to_nat xferd);
  _ ← note (Rx d);
  st_modify (fun s => set_pending (pending s ++ [Slot nr]) s).

(** The part of the callback under the lock. *)
Definition deliver (atomic : bool) (nr : nat) (buf : uci_buf) (xferd : Z) : act unit :=
  _ ← put_slot nr (UciBuf (page buf) (data buf) xferd (ub_nr_trb buf));
  id ← st_gets u_dl_id;
  if copies id then deliver_copy atomic buf xferd else deliver_slot nr buf xferd.

(** [atomic]: the allocation of the copy succeeds. *)
Definition mhi_dl_xfer_cb (atomic : bool) (buf_addr status xferd : Z) : act unit :=
  _ ← live;
  p ← st_gets u_buf;
  nr ← st_gets nr_trb;
  if (match p with Null => true | _ => false end) && (nr =? 0)%nat then mret tt
  else
    buf ← slot_at nr;
    if negb ((ub_nr_trb buf =? nr)%nat && (data buf =? buf_addr)) then
      st_modify (fun s => set_rx_error (u32 (rx_error s + 1)) s)
    else
      _ ← st_modify (fun s => set_nr_trb (if (S nr =? nr_trbs s)%nat then O else S nr) s);
      if status =? - ENOTCONN then mret tt
      else
        mtu ← st_gets u_mtu;
        if (mtu <? xferd) || (xferd <=? 0) then mret tt
        else
          _ ← st_modify (fun s => if u_bytes_xferd s <? xferd then set_bytes_xferd xferd s else s);
          deliver atomic nr buf xferd.

Fixpoint each {A} (f : A -> act unit) (l : list A) : act unit :=
  match l with [] => mret tt | x :: l => _ ← f x; each f l end.

(** Both channels are reset, inbound first: the clients' buffers come back. *)
Definition reset_channels : act unit :=
  dl ← (fun s => let '(l, q) := tq_drain false (u_q s) in Some (l, set_uq q s));
  _ ← each (fun b => mhi_dl_xfer_cb true b (- ENOTCONN) 0) dl;
  ul ← (fun s => let '(l, q) := tq_drain true (u_q s) in Some (l, set_uq q s));
  each mhi_ul_xfer_cb ul.

(** ** Removal *)

(** The driver's part; the structure goes when no file holds it. *)
Definition mhi_uci_remove : act unit :=
  _ ← live;
  _ ← st_modify (set_enabled false);
  _ ← st_modify (fun s => if 0 <? ref_count s then set_ref (ref_count s - 1) s else s);
  ref ← st_gets ref_count;
  if ref =? 0 then st_modify (set_freed true) else mret tt.

(** ** Events between the steps of a call *)

(** A completed inbound transfer, [p] what the device stored and as long as it
    says; a completed outbound transfer; the removal of the device by the driver core,
    which resets the channels first. *)
Inductive uci_event :=
| EvDl (atomic : bool) (status : Z) (p : bytes)
| EvUl (status xferd : Z)
| EvRemove.

Definition completion (d : bool) (status xferd : Z) : act (option Z) := fun s =>
  match tq_done d status xferd (u_q s) with
  | Some (b, q) => Some (Some b, set_uq q s)
  | None => Some (None, s)
  end.

Definition event (e : uci_event) : act unit :=
  match e with
  | EvDl atomic status p =>
      b ← completion false status (Z.of_nat (length p));
      match b with
      | Some b => _ ← dma_write b p; mhi_dl_xfer_cb atomic b status (Z.of_nat (length p))
      | None => mret tt
      end
  | EvUl status xferd =>
      b ← completion true status xferd;
      match b with Some b => mhi_ul_xfer_cb b | None => mret tt end
  | EvRemove =>
      en ← st_gets enabled;
      if (en : bool) then _ ← reset_channels; mhi_uci_remove else mret tt
  end.

Definition events : list uci_event -> act unit := each event.

(** ** Opening and closing *)

(** [array], [pages]: the answers of the allocator. *)
Fixpoint init_bufs (pages : nat -> option Z) (i n : nat) : act Z :=
  match n with
  | O => mret 0
  | S n =>
      a ← alloc_pages (pages i);
      match a with
      | None => mret (- ENOMEM)
      | Some a => _ ← put_slot i (UciBuf (Some a) a 0 i); init_bufs pages (S i) n
      end
  end.

Fixpoint queue_bufs (i n : nat) (ret : Z) : act Z :=
  match n with
  | O => mret ret
  | S n =>
      b ← slot_at i;
      mtu ← st_gets u_mtu;
      ret ← mhi_queue_transfer false (data b) mtu MHI_EOT;
      if negb (ret =? 0) then mret ret else queue_bufs (S i) n ret
  end.

Definition mhi_queue_inbound (array : bool) (pages : nat -> option Z) : act Z :=
  nr ← st_gets (fun s => Z.to_nat (tq_room false (u_q s)));
  p ← st_gets u_buf;
  ret ← match p with
        | Null =>
            _ ← st_modify (fun s => set_nr_trbs (S nr) (set_nr_trb O s));
            if array then
              _ ← st_modify (set_buf (Live (replicate (S nr) None)));
              init_bufs pages 0 (S nr)
            else mret (- ENOMEM)
        | _ => mret 0
        end;
  if negb (ret =? 0) then mret ret else queue_bufs 0 nr (- EIO).

Fixpoint free_loop (i n : nat) : act unit :=
  match n with
  | O => mret tt
  | S n =>
      b ← slot_at i;
      _ ← match page b with Some a => free_pages a | None => mret tt end;
      free_loop (S i) n
  end.

(** The pointer is not reset. *)
Definition free_bufs : act unit :=
  p ← st_gets u_buf;
  match p with
  | Null => mret tt
  | _ => nr ← st_gets nr_trbs; _ ← free_loop 0 nr; st_modify (set_buf Dangling)
  end.

(** [start] is [mhi_prepare_for_transfer] of the device's channels. *)
Definition mhi_uci_open (start : Q -> Z * Q) (array : bool) (pages : nat -> option Z) : act Z :=
  _ ← live;
  en ← st_gets enabled;
  if negb en then mret (- EIO)
  else
    _ ← st_modify (fun s => set_ref (ref_count s + 1) s);
    ref ← st_gets ref_count;
    if ref =? 1 then
      ret ← (fun s => let '(ret, q) := start (u_q s) in Some (ret, set_uq q s));
      if negb (ret =? 0) then
        _ ← st_modify (fun s => set_ref (ref_count s - 1) s); mret ret
      else
        ret ← mhi_queue_inbound array pages;
        if negb (ret =? 0) then _ ← reset_channels; _ ← free_bufs; mret ret
        else _ ← st_modify (fun s => set_ref (ref_count s + 1) s); mret 0
    else mret 0.

Definition mhi_uci_release : act Z :=
  _ ← live;
  _ ← st_modify (fun s => set_ref (ref_count s - 1) s);
  ref ← st_gets ref_count;
  if ref =? 0 then
    en ← st_gets enabled;
    _ ← (if (en : bool) then reset_channels else mret tt);
    _ ← free_bufs;
    _ ← st_modify (set_cur None);
    if (en : bool) then mret 0 else _ ← st_modify (set_freed true); mret 0
  else mret 0.

(** ** Polling, control *)

Definition mhi_uci_poll : act Z :=
  _ ← live;
  en ← st_gets enabled;
  readable ← st_gets (fun s => match pending s, cur_buf s with [], None => false | _, _ => true end);
  let mask := if negb en then POLLERR else if (readable : bool) then Z.lor POLLIN POLLRDNORM else 0 in
  ul ← st_gets u_has_ul;
  if (ul : bool) then
    room ← st_gets (fun s => tq_room true (u_q s));
    err ← st_gets rx_error;
    let mask := if negb en then Z.lor mask POLLERR
                else if 0 <? room then Z.lor mask (Z.lor POLLOUT POLLWRNORM) else mask in
    let mask := if negb en then Z.lor mask POLLHUP else mask in
    mret (if negb (err =? 0) then Z.lor mask POLLERR else mask)
  else mret mask.

Inductive uci_cmd := TCGETS (rest : Z) | TCSETS (user : bytes) (rest : Z) | TCFLSH | OtherIoctl.

(** [core]: the answer of [mhi_ioctl]; [rest]: the bytes the copy to or from the
    user leaves out.  Returns the code and what the user's structure holds. *)
Definition mhi_uci_ioctl (core : Z) (cmd : uci_cmd) : act (Z * option bytes) :=
  _ ← live;
  en ← st_gets enabled;
  if negb en then mret (- ERESTARTSYS, None)
  else
    match cmd with
    | TCGETS rest => t ← st_gets u_termios; mret (rest, if rest =? 0 then Some t else None)
    | TCSETS user rest => _ ← (if rest =? 0 then st_modify (set_termios user) else mret tt); mret (rest, None)
    | TCFLSH => mret (0, None)
    | OtherIoctl => mret (core, None)
    end.

(** ** Writing and reading *)

(** [Done n]: the call returns [n]; [Waits]: it sleeps on. *)
Inductive io_result := Done (n : Z) | Waits.

(** What one turn of the write loop meets: events while it may sleep, a signal,
    the allocator's answer, the bytes [copy_from_user] leaves out, and events
    until the lock is held again. *)
Record write_turn := WriteTurn {
  t_wait : list uci_event; t_signal : bool; t_alloc : option Z; t_fault : Z; t_lock : list uci_event }.

Definition to_dev_room : act Z := st_gets (fun s => tq_room true (u_q s)).

(** [fuel] bounds the turns; every turn sends at least a byte. *)
Fixpoint write_loop (fuel : nat) (nonblock : bool) (turns : nat -> write_turn) (buf : bytes) (xfered : nat)
  : act io_result :=
  match buf with
  | [] => mret (Done (Z.of_nat xfered))
  | _ =>
      match fuel with
      | O => mret Waits
      | S fuel =>
          let t := turns fuel in
          avail ← to_dev_room;
          if (avail =? 0) && nonblock then mret (Done (- EAGAIN))
          else
            _ ← events (t_wait t);
            en ← st_gets enabled;
            avail ← to_dev_room;
            if en && negb (0 <? avail) && negb (t_signal t) then mret Waits
            else if negb en || negb (0 <? avail) then mret (Done (- ERESTARTSYS))
            else
              mtu ← st_gets u_mtu;
              let size := Nat.min (length buf) (Z.to_nat mtu) in
              kbuf ← kmalloc (t_alloc t);
              match kbuf with
              | None => mret (Done (- ENOMEM))
              | Some kbuf =>
                  if negb (t_fault t =? 0) then _ ← kfree kbuf; mret (Done (t_fault t))
                  else
                    let chunk := take size buf in
                    _ ← st_modify (fun s => set_kbufs (<[kbuf := chunk]> (u_kbufs s)) s);
                    _ ← events (t_lock t);
                    let flags := if (1 <? avail) && negb (length buf - size =? 0)%nat then MHI_CHAIN else MHI_EOT in
                    en ← st_gets enabled;
                    ret ← (if (en : bool) then mhi_queue_transfer true kbuf (Z.of_nat size) flags else mret (- ERESTARTSYS));
                    if negb (ret =? 0) then _ ← kfree kbuf; mret (Done ret)
                    else _ ← note (Wr flags chunk); write_loop fuel nonblock turns (drop size buf) (xfered + size)
              end
      end
  end.

(** [buf] is [None] for a NULL pointer. *)
Definition mhi_uci_write (nonblock : bool) (turns : nat -> write_turn) (buf : option bytes) : act io_result :=
  _ ← live;
  err ← st_gets rx_error;
  match buf with
  | None | Some [] => mret (Done (- EINVAL))
  | Some buf =>
      if negb (err =? 0) then mret (Done (- EINVAL))
      else
        en ← st_gets enabled;
        if negb en then mret (Done (- ERESTARTSYS))
        else write_loop (length buf) nonblock turns buf 0
  end.

(** What a read meets: events while it may sleep, a signal, events once it
    has dropped the lock to copy, the bytes [copy_to_user] leaves out. *)
Record read_turn := ReadTurn { r_wait : list uci_event; r_signal : bool; r_copy : list uci_event; r_fault : Z }.

Definition entry_len (e : rx_entry) : act Z :=
  match e with Slot i => b ← slot_at i; mret (ub_len b) | Copy d => mret (Z.of_nat (length d)) end.

Definition entry_bytes (e : rx_entry) (off n : nat) : act bytes :=
  match e with
  | Slot i => b ← slot_at i; page_bytes (data b) off n
  | Copy d => mret (take n (drop off d))
  end.

Definition has_pending (s : uci Q) : bool := match pending s with [] => false | _ => true end.

(** The packet a read works on: the current one, or the next of the list. *)
Definition pick_packet : act (option rx_entry) :=
  cur ← st_gets cur_buf;
  match cur with
  | Some e => mret (Some e)
  | None =>
      l ← st_gets pending;
      match l with
      | [] => mret None
      | e :: l =>
          _ ← st_modify (set_pending l);
          n ← entry_len e;
          _ ← st_modify (fun s => set_rx_size n (set_cur (Some e) s));
          mret (Some e)
      end
  end.

(** A packet is read to its end: its buffer is used up. *)
Definition finish_packet (e : rx_entry) : act Z :=
  _ ← st_modify (set_cur None);
  en ← st_gets enabled;
  if (en : bool) then
    match e with
    | Slot i => b ← slot_at i; recycle_slot (ub_nr_trb b)
    | Copy _ => mret 0
    end
  else mret (- ERESTARTSYS).

(** [count] bytes at most, out of the packet [e]. *)
Definition copy_packet (fault : Z) (count : nat) (e : rx_entry) : act io_result :=
  size ← st_gets rx_size;
  n ← entry_len e;
  let to_copy := Nat.min count (Z.to_nat size) in
  d ← entry_bytes e (Z.to_nat (n - size)) to_copy;
  if negb (fault =? 0) then mret (Done fault)
  else
    _ ← note (Rd count d);
    _ ← st_modify (fun s => set_rx_size (rx_size s - Z.of_nat to_copy) s);
    size ← st_gets rx_size;
    if size =? 0 then
      ret ← finish_packet e;
      if negb (ret =? 0) then mret (Done ret) else mret (Done (Z.of_nat to_copy))
    else mret (Done (Z.of_nat to_copy)).

(** The part after the wait. *)
Definition read_packet (t : read_turn) (count : nat) : act io_result :=
  e ← pick_packet;
  match e with
  | None => mret (Done (- EIO))
  | Some e => _ ← events (r_copy t); copy_packet (r_fault t) count e
  end.

(** [valid]: the caller's pointer is not NULL. *)
Definition mhi_uci_read (nonblock valid : bool) (t : read_turn) (count : nat) : act io_result :=
  _ ← live;
  err ← st_gets rx_error;
  if negb valid || negb (err =? 0) then mret (Done (- EINVAL))
  else
    en ← st_gets enabled;
    if negb en then mret (Done (- ERESTARTSYS))
    else
      idle ← st_gets (fun s => match cur_buf s with None => negb (has_pending s) | Some _ => false end);
      if (idle : bool) then
        if nonblock then mret (Done (- EAGAIN))
        else
          _ ← events (r_wait t);
          en ← st_gets enabled;
          ready ← st_gets has_pending;
          if en && negb ready then mret (if r_signal t then Done (- ERESTARTSYS) else Waits)
          else if negb en then mret (Done (- ERESTARTSYS))
          else read_packet t count
      else read_packet t count.

(** The entries of the file operations: one reader and one writer at a time;
    [interrupted]: a signal comes while the call waits for its turn.  The result
    passes through an [int]. *)
Definition as_int (r : io_result) : io_result := match r with Done n => Done (s32 n) | Waits => Waits end.

Definition mhi_uci_write_mutex (interrupted nonblock : bool) (turns : nat -> write_turn) (buf : option bytes) : act io_result :=
  if interrupted then mret (Done (- ERESTARTSYS))
  else ret ← mhi_uci_write nonblock turns buf; mret (as_int ret).

Definition mhi_uci_read_mutex (interrupted nonblock valid : bool) (t : read_turn) (count : nat) : act io_result :=
  if interrupted then mret (Done (- ERESTARTSYS))
  else ret ← mhi_uci_read nonblock valid t count; mret (as_int ret).
End Uci.

(** ** The driver's list of devices *)

Definition MAX_UCI_DEVICES : nat := 64.

(** [drv_head]: the registered devices, newest first; [drv_objs]: the allocated
    devices with their minor numbers; [drv_minors]: the bits set. *)
Record mhi_uci_drv {Q : Type} := Drv {
  drv_head : list nat; drv_objs : gmap nat (nat * uci Q); drv_minors : gset nat }.
Arguments mhi_uci_drv : clear implicits.
Arguments Drv {Q}.

Definition find_first_zero_bit (m : gset nat) (n : nat) : nat :=
  default n (head (filter (fun i => i ∉ m) (seq 0 n))).

Section Driver.
Context {Q : Type} {tq : TransferQueue Q}.

(** The device after a call: a removed one is off the list, a freed one gives its
    minor number back. *)
Definition put_obj (id minor : nat) (u : uci Q) (D : mhi_uci_drv Q) : mhi_uci_drv Q :=
  let head := if enabled u then drv_head D else filter (fun x => x <> id) (drv_head D) in
  if u_freed u then Drv head (delete id (drv_objs D)) (drv_minors D ∖ {[minor]})
  else Drv head (<[id := (minor, u)]> (drv_objs D)) (drv_minors D).

(** [std]: [tty_std_termios]. *)
Definition new_uci (q : Q) (mtu dl_id : Z) (has_ul : bool) (std : bytes) : uci Q :=
  Uci q mtu dl_id has_ul 0 true 0 0 0 Null [] None 0 0 std ∅ ∅ false [].

(** [alloc]: the structure [kzalloc] gives; one that is in use is none. *)
Definition mhi_uci_probe (alloc : option nat) (q : Q) (driver_data dev_mtu dl_id : Z) (has_ul : bool) (std : bytes)
    (D : mhi_uci_drv Q) : Z * mhi_uci_drv Q :=
  match alloc with
  | None => (- ENOMEM, D)
  | Some id =>
      if bool_decide (is_Some (drv_objs D !! id)) then (- ENOMEM, D)
      else
        let minor := find_first_zero_bit (drv_minors D) MAX_UCI_DEVICES in
        if (MAX_UCI_DEVICES <=? minor)%nat then (- ENOSPC, D)
        else
          (0, Drv (id :: drv_head D)
                  (<[id := (minor, new_uci q (Z.min driver_data dev_mtu) dl_id has_ul std)]> (drv_objs D))
                  (drv_minors D ∪ {[minor]}))
  end.

(** The device of a minor number among the registered ones. *)
Definition drv_find (minor : nat) (D : mhi_uci_drv Q) : option nat :=
  head (filter (fun id => fst <$> drv_objs D !! id = Some minor) (drv_head D)).

Definition drv_open (start : Q -> Z * Q) (array : bool) (pages : nat -> option Z) (minor : nat) (D : mhi_uci_drv Q)
  : option (Z * mhi_uci_drv Q) :=
  match drv_find minor D with
  | None => Some (- EIO, D)
  | Some id =>
      '(m, u) ← drv_objs D !! id;
      '(ret, u) ← mhi_uci_open start array pages u;
      Some (ret, put_obj id m u D)
  end.

(** A call on a device: one of the file operations, or an event. *)
Definition drv_call {A} (id : nat) (m : st (uci Q) A) (D : mhi_uci_drv Q) : option (A * mhi_uci_drv Q) :=
  '(minor, u) ← drv_objs D !! id;
  '(x, u) ← m u;
  Some (x, put_obj id minor u D).
End Driver.
