(* ===== verification/UciStream.v ===== *)
(** * Reading from a character device

    The inbound side of MhiUci as a queue of packets: the buffers travel round
    the ring in the order of the array, so that each completion finds the buffer
    it expects, and what readers get is what the device sent, in order and packet
    by packet, for as long as no buffer is lost. *)

From S2P Require Import Prelude CLib MhiReg MhiRing MhiCtrl MhiPm MhiXfer MhiFifo MhiQueue MhiUci.

(** ** Indices round a ring *)

Definition cyc (M b n : nat) : list nat := map (fun j => (b + j) mod M)%nat (seq 0 n).

Lemma cyc_cons M b n : cyc M b (S n) = (b mod M)%nat :: cyc M (S b) n.
Proof.
  unfold cyc. cbn [seq map]. rewrite Nat.add_0_r. f_equal. rewrite <- seq_shift, map_map. apply map_ext.
  intros j. f_equal. lia.
Qed.

Lemma cyc_snoc M b n : cyc M b (S n) = cyc M b n ++ [((b + n) mod M)%nat].
Proof. unfold cyc. by rewrite seq_S, map_app. Qed.

Lemma cyc_length M b n : length (cyc M b n) = n.
Proof. unfold cyc. by rewrite length_map, length_seq. Qed.

Lemma cyc_lt M b n i : (0 < M)%nat -> i ∈ cyc M b n -> (i < M)%nat.
Proof. intros HM (j & -> & _)%list_elem_of_fmap. by apply Nat.mod_upper_bound; lia. Qed.

Lemma mod_inj_nat M b j k : (j < M)%nat -> (k < M)%nat -> ((b + j) mod M = (b + k) mod M)%nat -> j = k.
Proof.
  intros Hj Hk E. apply (f_equal Z.of_nat) in E. rewrite !Nat2Z.inj_mod, !Nat2Z.inj_add in E.
  apply mod_inj in E; lia.
Qed.

Lemma cyc_NoDup M b n : (n <= M)%nat -> NoDup (cyc M b n).
Proof.
  intros Hn. induction n as [|n IH]; [by apply NoDup_nil|]. rewrite cyc_snoc. apply NoDup_app. split_and!.
  - apply IH. lia.
  - intros i (j & -> & Hj)%list_elem_of_fmap E%list_elem_of_singleton. apply elem_of_seq in Hj.
    apply mod_inj_nat in E; lia.
  - by apply NoDup_singleton.
Qed.

Lemma prev_slot_mod M b : (0 < M)%nat -> prev_slot (b mod M) M = ((b + (M - 1)) mod M)%nat.
Proof.
  intros HM. pose proof (Nat.mod_upper_bound b M ltac:(lia)) as Hb.
  rewrite <- (Nat.Div0.add_mod_idemp_l b (M - 1) M).
  destruct (b mod M)%nat as [|k]; cbn [prev_slot].
  - rewrite Nat.mod_small by lia. lia.
  - replace (S k + (M - 1))%nat with (k + 1 * M)%nat by lia. rewrite Nat.Div0.mod_add, Nat.mod_small by lia. done.
Qed.

(** One buffer leaves at the front and its predecessor joins at the back. *)
Lemma cyc_turn M b i l :
  i :: l = cyc M b (M - 1) -> l ++ [prev_slot i M] = cyc M (S b) (M - 1) /\ i = (b mod M)%nat.
Proof.
  intros E. destruct (M - 1)%nat as [|n] eqn:HM; [done|]. rewrite cyc_cons in E. injection E as -> ->. split; [|done].
  rewrite prev_slot_mod by lia. rewrite cyc_snoc. rewrite HM. do 3 f_equal. lia.
Qed.

Lemma next_trb M b p : (0 < M)%nat ->
  (if (S ((b + p) mod M) =? M)%nat then O else S ((b + p) mod M)) = ((b + S p) mod M)%nat.
Proof.
  intros HM. pose proof (Nat.mod_upper_bound (b + p) M ltac:(lia)) as Hb.
  replace (b + S p)%nat with (S (b + p)) by lia.
  rewrite <- (Nat.add_1_r (b + p)), <- (Nat.Div0.add_mod_idemp_l (b + p) 1 M).
  destruct (Nat.eqb_spec (S ((b + p) mod M)) M) as [E|E].
  - rewrite Nat.add_1_r, E. by rewrite Nat.Div0.mod_same.
  - rewrite (Nat.mod_small ((b + p) mod M + 1)) by lia. lia.
Qed.

(** ** A queue of packets *)

(** A packet arrives whole; a read takes what it asks for out of the oldest packet
    and never crosses into the next one. *)
Definition packet_step (ps : list bytes) (x : uci_note) : option (list bytes) :=
  match x with
  | Rx p => Some (ps ++ [p])
  | Rd n d =>
      match ps with
      | [] => None
      | p :: r => if bool_decide (d = take n p) then Some (if (length p <=? n)%nat then r else drop n p :: r) else None
      end
  | Wr _ _ => Some ps
  end.

Fixpoint packet_run (ps : list bytes) (log : list uci_note) : option (list bytes) :=
  match log with [] => Some ps | x :: log => ps ← packet_step ps x; packet_run ps log end.

Lemma packet_run_snoc log x : forall ps,
  packet_run ps (log ++ [x]) = (ps ← packet_run ps log; packet_step ps x).
Proof.
  induction log as [|y log IH]; intros ps; cbn [app packet_run].
  - cbn [mbind option_bind]. by destruct (packet_step ps x).
  - destruct (packet_step ps y) as [ps'|]; [|done]. apply IH.
Qed.

(** The bytes that arrived and the bytes read. *)
Definition arrived (log : list uci_note) : bytes := flat_map (fun x => match x with Rx p => p | _ => [] end) log.
Definition was_read (log : list uci_note) : bytes := flat_map (fun x => match x with Rd _ d => d | _ => [] end) log.

Lemma packet_step_bytes ps x ps' :
  packet_step ps x = Some ps' -> was_read [x] ++ concat ps' = concat ps ++ arrived [x].
Proof.
  unfold was_read, arrived. cbn [flat_map]. rewrite !app_nil_r. destruct x as [p|n d|f d]; cbn [packet_step].
  - intros [= <-]. rewrite concat_app. cbn. by rewrite app_nil_r.
  - destruct ps as [|p r]; [done|]. case_bool_decide as Hd; [|done]. subst d. intros [= <-].
    rewrite app_nil_r. destruct (Nat.leb_spec (length p) n).
    + by rewrite take_ge by lia.
    + cbn [concat]. by rewrite app_assoc, take_drop.
  - intros [= <-]. by rewrite app_nil_r.
Qed.

Lemma packet_run_bytes log : forall ps ps',
  packet_run ps log = Some ps' -> was_read log ++ concat ps' = concat ps ++ arrived log.
Proof.
  induction log as [|x log IH]; intros ps ps'; cbn [packet_run]; [intros [= <-]; by rewrite app_nil_r|].
  destruct (packet_step ps x) as [ps1|] eqn:E; [|done]. intros Hr%IH. apply packet_step_bytes in E.
  unfold was_read, arrived in *. cbn [flat_map] in *. rewrite !app_nil_r in E.
  rewrite <- app_assoc, Hr, app_assoc, E. by rewrite app_assoc.
Qed.

Section Stream.
Context {Q : Type} {tq : TransferQueue Q}.
Implicit Types s : uci Q.

(** ** Running the pieces on a device whose buffers are initialised *)

Lemma slot_at_eq s bs i x : u_buf s = Live (map Some bs) -> bs !! i = Some x -> slot_at i s = Some (x, s).
Proof.
  intros Hb Hx. unfold slot_at, bufs. rewrite st_bind_assoc, st_bind_gets, Hb. cbn.
  unfold mbind, st_bind. cbn. by rewrite list_lookup_fmap, Hx.
Qed.

Lemma slot_at_inv s bs i x s' :
  u_buf s = Live (map Some bs) -> slot_at i s = Some (x, s') -> bs !! i = Some x /\ s' = s.
Proof.
  intros Hb. unfold slot_at, bufs. rewrite st_bind_assoc, st_bind_gets, Hb. cbn. unfold mbind, st_bind. cbn.
  rewrite list_lookup_fmap. destruct (bs !! i); [|done]. by intros [= -> <-].
Qed.

Lemma put_slot_eq s bs i x :
  u_buf s = Live (map Some bs) -> put_slot i x s = Some (tt, set_buf (Live (map Some (<[i := x]> bs))) s).
Proof.
  intros Hb. unfold put_slot, bufs. rewrite st_bind_assoc, st_bind_gets, Hb. cbn.
  unfold mbind, st_bind. cbn. change (map Some) with (fmap (M:=list) (@Some uci_buf)). by rewrite list_fmap_insert.
Qed.

Lemma page_bytes_eq s a off n d : u_pages s !! a = Some d -> page_bytes a off n s = Some (take n (drop off d), s).
Proof. intros H. unfold page_bytes. rewrite st_bind_gets, H. done. Qed.

Lemma dma_write_eq s a p old :
  u_pages s !! a = Some old -> dma_write a p s = Some (tt, set_pages (<[a := p ++ drop (length p) old]> (u_pages s)) s).
Proof. intros H. unfold dma_write. rewrite st_bind_assoc, st_bind_gets. unfold mbind, st_bind, st_load. by rewrite H. Qed.

Lemma recycle_eq s bs i x :
  u_buf s = Live (map Some bs) -> bs !! prev_slot i (nr_trbs s) = Some x ->
  recycle_slot i s = Some (fst (tq_put false (data x) (u_mtu s) MHI_EOT (u_q s)),
                           set_uq (snd (tq_put false (data x) (u_mtu s) MHI_EOT (u_q s))) s).
Proof.
  intros Hb Hx. unfold recycle_slot. rewrite st_bind_gets, (st_bind_some _ _ _ _ _ (slot_at_eq s bs _ x Hb Hx)).
  rewrite st_bind_gets. unfold mhi_queue_transfer. by destruct (tq_put _ _ _ _ _).
Qed.

(** ** The invariant *)

Definition slots : list rx_entry -> list nat := omap (fun e => match e with Slot i => Some i | Copy _ => None end).
Definition entries (s : uci Q) : list rx_entry := option_list (cur_buf s) ++ pending s.
Definition addr (bs : list uci_buf) (i : nat) : Z := from_option data 0 (bs !! i).

(** The packet a pending entry stands for. *)
Definition entry_is (bs : list uci_buf) (pages : gmap Z bytes) (e : rx_entry) (d : bytes) : Prop :=
  d <> [] /\
  match e with
  | Slot i => exists x c, bs !! i = Some x /\ pages !! data x = Some c /\
                take (length d) c = d /\ ub_len x = Z.of_nat (length d)
  | Copy d' => d' = d
  end.

(** What of the packets is left when the first is being read. *)
Definition unread (s : uci Q) (full : list bytes) : list bytes :=
  match cur_buf s, full with
  | Some _, d :: r => drop (length d - Z.to_nat (rx_size s)) d :: r
  | _, _ => full
  end.

(** The array of [M] buffers [bs]; the entries waiting for a reader and then the
    buffers [idx] in the ring are the array's order from [b] on, one buffer being
    left out, and the next completion is of the first buffer in the ring.  [held]
    is [idx] but for a buffer whose callback is running. *)
Record ring_ok (M : nat) (s : uci Q) (bs : list uci_buf) (b : nat) (idx held : list nat) : Prop := {
  ro_buf : u_buf s = Live (map Some bs);
  ro_nr : nr_trbs s = M;
  ro_len : length bs = M;
  ro_pos : (0 < M)%nat;
  ro_slot i x : bs !! i = Some x -> ub_nr_trb x = i /\ page x = Some (data x);
  ro_nodup : NoDup (map data bs);
  ro_pages i x : bs !! i = Some x -> is_Some (u_pages s !! data x);
  ro_held : tq_held false (u_q s) (map (addr bs) held);
  ro_cyc : slots (entries s) ++ idx = cyc M b (M - 1);
  ro_trb : nr_trb s = ((b + length (slots (entries s))) mod M)%nat;
  ro_copy : copies (u_dl_id s) = true -> slots (entries s) = [];
  ro_err : rx_error s = 0 }.

Record packets_ok (s : uci Q) (bs : list uci_buf) (full : list bytes) : Prop := {
  po_full : Forall2 (entry_is bs (u_pages s)) (entries s) full;
  po_cur : match cur_buf s, full with Some _, d :: _ => 0 < rx_size s <= Z.of_nat (length d) | _, _ => True end }.

(** The device implements the queue of packets its log describes. *)
Definition streams (M : nat) (s : uci Q) : Prop :=
  exists bs b idx full, ring_ok M s bs b idx idx /\ packets_ok s bs full /\ packet_run [] (u_log s) = Some (unread s full).

(** [k] buffers are on their way from the ring to the list or back, and one is
    missing. *)
Definition short (M k : nat) (s : uci Q) : Prop :=
  exists l, tq_held false (u_q s) l /\ (length l + length (slots (entries s)) + k < M - 1)%nat.

(** A buffer is lost or the device removed; nothing brings it back. *)
Definition spent (M : nat) (s : uci Q) : Prop := enabled s = false \/ short M 0 s.

Definition keeps {A} (M : nat) (m : st (uci Q) A) : Prop :=
  forall s x s', streams M s -> m s = Some (x, s') -> streams M s' \/ spent M s'.

Definition stays_spent {A} (M : nat) (m : st (uci Q) A) : Prop := has_post (spent M) m (fun _ => spent M).

Lemma keeps_bind {A B} M (m : st (uci Q) A) (f : A -> st (uci Q) B) :
  keeps M m -> (forall x, keeps M (f x)) -> (forall x, stays_spent M (f x)) -> keeps M (m ≫= f).
Proof.
  intros Hm Hf Hs s y s' Hi (x & s1 & H1 & H2)%st_bind_inv.
  destruct (Hm s x s1 Hi H1) as [H|H]; [by eapply Hf|]. right. by eapply Hs.
Qed.

Lemma addr_at bs i x : bs !! i = Some x -> addr bs i = data x.
Proof. intros H. unfold addr. by rewrite H. Qed.

Lemma slots_app l k : slots (l ++ k) = slots l ++ slots k.
Proof. apply omap_app. Qed.

(** The first buffer in the ring. *)
Lemma ring_head M s bs b i idx held :
  ring_ok M s bs b (i :: idx) held ->
  (i < M)%nat /\ i = nr_trb s /\ i ∉ slots (entries s) /\ i ∉ idx.
Proof.
  intros H. pose proof (ro_cyc _ _ _ _ _ _ H) as Hc. pose proof (ro_pos _ _ _ _ _ _ H) as HM.
  assert (Hnd : NoDup (slots (entries s) ++ i :: idx)) by (rewrite Hc; apply cyc_NoDup; lia).
  apply NoDup_app in Hnd as (_ & Hd & Hnd). apply NoDup_cons in Hnd as [Hni _].
  assert (Hi : i ∈ cyc M b (M - 1)) by (rewrite <- Hc; set_solver).
  split_and!; [by eapply cyc_lt| |intros Hin; apply (Hd i); set_solver|done].
  rewrite (ro_trb _ _ _ _ _ _ H). assert (Hl : (slots (entries s) ++ i :: idx) !! length (slots (entries s)) = Some i).
  { rewrite lookup_app_r by lia. by rewrite Nat.sub_diag. }
  rewrite Hc in Hl. unfold cyc in Hl. change (map (fun j => ((b + j) mod M)%nat)) with (fmap (M:=list) (fun j => ((b + j) mod M)%nat)) in Hl.
  rewrite list_lookup_fmap in Hl. destruct (seq 0 (M - 1) !! _) as [j|] eqn:E; [|done].
  apply lookup_seq in E as [-> _]. by injection Hl as <-.
Qed.

(** ** Completions *)

Lemma entry_frame bs pages e d i x x' v :
  NoDup (map data bs) -> bs !! i = Some x -> i ∉ slots [e] ->
  entry_is bs pages e d -> entry_is (<[i := x']> bs) (<[data x := v]> pages) e d.
Proof.
  intros Hnd Hx Hi [Hd He]. split; [done|]. destruct e as [j|]; [|done].
  destruct He as (y & c & Hy & Hc & Ht & Hl). assert (Hij : i <> j) by set_solver.
  exists y, c. rewrite list_lookup_insert_ne by done. split_and!; try done.
  rewrite lookup_insert_ne; [done|]. intros E. apply Hij. apply (NoDup_lookup (map data bs) i j (data x)); [done| |];
  change (map data) with (fmap (M:=list) data); rewrite list_lookup_fmap, ?Hx, ?Hy; cbn; congruence.
Qed.

Lemma entries_frame bs pages l full i x x' v :
  NoDup (map data bs) -> bs !! i = Some x -> i ∉ slots l ->
  Forall2 (entry_is bs pages) l full -> Forall2 (entry_is (<[i := x']> bs) (<[data x := v]> pages)) l full.
Proof.
  intros Hnd Hx Hi H. induction H as [|e d l full He _ IH]; [constructor|].
  change (e :: l) with ([e] ++ l) in Hi. rewrite slots_app in Hi. constructor.
  - apply entry_frame; [done|done|set_solver|done].
  - apply IH. set_solver.
Qed.

(** What the callback writes into the array. *)
Lemma ring_set_slot M s bs b idx held i x len :
  ring_ok M s bs b idx held -> bs !! i = Some x ->
  ring_ok M (set_buf (Live (map Some (<[i := UciBuf (page x) (data x) len (ub_nr_trb x)]> bs))) s)
    (<[i := UciBuf (page x) (data x) len (ub_nr_trb x)]> bs) b idx held.
Proof.
  intros H Hx. set (x' := UciBuf _ _ len _).
  assert (Hdata : map data (<[i := x']> bs) = map data bs).
  { change (map data) with (fmap (M:=list) data). rewrite list_fmap_insert. apply list_insert_id.
    by rewrite list_lookup_fmap, Hx. }
  assert (Hall : forall j y, <[i := x']> bs !! j = Some y -> exists y0, bs !! j = Some y0 /\
    data y = data y0 /\ page y = page y0 /\ ub_nr_trb y = ub_nr_trb y0).
  { intros j y Hy. destruct (decide (i = j)) as [<-|Hij].
    - rewrite list_lookup_insert_eq in Hy by (by eapply lookup_lt_Some). injection Hy as <-. by exists x.
    - rewrite list_lookup_insert_ne in Hy by done. by exists y. }
  assert (Haddr : forall l, map (addr (<[i := x']> bs)) l = map (addr bs) l).
  { intros l. apply map_ext. intros j. unfold addr. destruct (decide (i = j)) as [<-|Hij].
    - by rewrite list_lookup_insert_eq, Hx by (by eapply lookup_lt_Some).
    - by rewrite list_lookup_insert_ne by done. }
  destruct H. constructor; cbn; try done.
  - by rewrite length_insert.
  - intros j y (y0 & Hy0 & -> & -> & ->)%Hall. by apply ro_slot0.
  - by rewrite Hdata.
  - intros j y (y0 & Hy0 & -> & _)%Hall. by eapply ro_pages0.
  - by rewrite Haddr.
Qed.

(** A change of the device that leaves the inbound side alone. *)
Definition inbound (s : uci Q) :=
  (u_buf s, nr_trbs s, nr_trb s, u_pages s, u_dl_id s, (pending s, cur_buf s, rx_size s), rx_error s).

Lemma ring_same M s s' bs b idx held :
  inbound s' = inbound s -> tq_held false (u_q s') (map (addr bs) held) -> ring_ok M s bs b idx held -> ring_ok M s' bs b idx held.
Proof.
  intros [= E1 E2 E3 E4 E5 E6 E7 E8 E9] Hh []. unfold entries in *. constructor; unfold entries; rewrite ?E1, ?E2, ?E3, ?E4, ?E5, ?E6, ?E7, ?E9; done.
Qed.

Lemma packets_same s s' bs full : inbound s' = inbound s -> packets_ok s bs full -> packets_ok s' bs full.
Proof.
  intros [= E1 E2 E3 E4 E5 E6 E7 E8 E9] []. unfold entries in *.
  constructor; unfold entries; rewrite ?E4, ?E6, ?E7, ?E8; done.
Qed.

(** The packet of the callback joins the queue. *)
Lemma streams_arrival M s bs b idx full e d :
  ring_ok M (set_pending (pending s ++ [e]) s) bs b idx idx -> packets_ok s bs full ->
  packet_run [] (u_log s) = Some (unread s full) -> entry_is bs (u_pages s) e d ->
  streams M (set_pending (pending s ++ [e]) (set_log (u_log s ++ [Rx d]) s)).
Proof.
  intros Hr [Hf Hc] Hl He. exists bs, b, idx, (full ++ [d]). split_and!.
  - by apply (ring_same M (set_pending (pending s ++ [e]) s)); [done|apply Hr|].
  - constructor; cbn [set_pending set_log u_pages cur_buf rx_size].
    + unfold entries in *. cbn [set_pending set_log cur_buf pending]. rewrite app_assoc. apply Forall2_app; [done|by constructor].
    + unfold entries in Hf. destruct (cur_buf s); [|done]. destruct full as [|y full]; [by apply Forall2_nil_inv_r in Hf|done].
  - cbn [set_pending set_log u_log]. rewrite packet_run_snoc, Hl. cbn [mbind option_bind packet_step]. f_equal.
    unfold unread, entries in *. cbn [set_pending set_log cur_buf rx_size]. destruct (cur_buf s); [|done].
    destruct full as [|y full]; [by apply Forall2_nil_inv_r in Hf|done].
Qed.

Lemma live_inv s u s' : live s = Some (u, s') -> s' = s /\ u_freed s = false.
Proof.
  intros (f & s1 & [-> ->]%st_gets_inv & H)%st_bind_inv. destruct (u_freed s); [done|].
  by apply st_load_inv in H as [_ ->].
Qed.

(** The callback of buffer [i] has moved on to the next one. *)
Definition arriving (M : nat) (s : uci Q) (bs : list uci_buf) (b i : nat) (idx : list nat) : Prop :=
  nr_trb s = (if (S i =? M)%nat then O else S i) /\ ring_ok M (set_nr_trb i s) bs b (i :: idx) idx.

Lemma arriving_same M s s' bs b i idx :
  inbound s' = inbound s -> tq_held false (u_q s') (map (addr bs) idx) ->
  arriving M s bs b i idx -> arriving M s' bs b i idx.
Proof.
  intros E Hq [Hn Hr]. pose proof E as E'. injection E' as E1 E2 E3 E4 E5 E6 E7 E8 E9. split; [by rewrite E3|].
  apply (ring_same M (set_nr_trb i s)); [|done|done]. unfold inbound. cbn. congruence.
Qed.

Lemma arriving_spent M s bs b i idx l :
  arriving M s bs b i idx -> tq_held false (u_q s) l -> length l = length idx -> spent M s.
Proof.
  intros [_ H] Hl El. right. exists l. split; [done|].
  pose proof (f_equal length (ro_cyc _ _ _ _ _ _ H)) as E. rewrite cyc_length, length_app in E. cbn in E.
  change (entries (set_nr_trb i s)) with (entries s) in E. lia.
Qed.

(** The completed buffer waits for its reader. *)
Lemma ring_push M s bs b i idx :
  arriving M s bs b i idx -> copies (u_dl_id s) = false -> ring_ok M (set_pending (pending s ++ [Slot i]) s) bs b idx idx.
Proof.
  intros [Hn H] Hc. destruct (ring_head _ _ _ _ _ _ _ H) as (_ & Hnr & _). destruct H.
  assert (Es : slots (entries (set_pending (pending s ++ [Slot i]) s)) = slots (entries (set_nr_trb i s)) ++ [i]).
  { unfold entries. cbn [set_nr_trb set_pending pending cur_buf]. by rewrite app_assoc, slots_app. }
  constructor; try done; rewrite ?Es.
  - by rewrite <- app_assoc.
  - cbn [set_pending nr_trb]. rewrite length_app, Nat.add_1_r, Hn, <- next_trb by done.
    rewrite <- ro_trb0. by rewrite <- Hnr.
  - cbn. congruence.
Qed.

(** The completed buffer is copied and its predecessor goes into the ring. *)
Lemma ring_turn M s bs b i idx q :
  arriving M s bs b i idx -> slots (entries s) = [] ->
  tq_held false q (map (addr bs) (idx ++ [prev_slot i M])) ->
  ring_ok M (set_uq q s) bs (S b) (idx ++ [prev_slot i M]) (idx ++ [prev_slot i M]).
Proof.
  intros [Hn H] Hs Hq. destruct (ring_head _ _ _ _ _ _ _ H) as (_ & Hnr & _). destruct H.
  change (entries (set_nr_trb i s)) with (entries s) in *.
  assert (Es : slots (entries (set_uq q s)) = []) by done.
  rewrite Hs in *. cbn [app length] in *. rewrite Nat.add_0_r in *.
  constructor; try done; rewrite ?Es.
  - by apply cyc_turn in ro_cyc0 as [-> _].
  - cbn [set_uq nr_trb length]. rewrite Hn, Hnr, ro_trb0.
    replace (S b + 0)%nat with (b + 1)%nat by lia. rewrite <- next_trb by done. by rewrite Nat.add_0_r.
Qed.

Lemma ring_copy M s bs b idx held l :
  ring_ok M s bs b idx held -> slots l = [] -> ring_ok M (set_pending (pending s ++ l) s) bs b idx held.
Proof.
  intros H Hl. assert (Es : slots (entries (set_pending (pending s ++ l) s)) = slots (entries s)).
  { unfold entries. cbn [set_pending cur_buf pending]. by rewrite app_assoc, slots_app, Hl, app_nil_r. }
  destruct H. constructor; try done; by rewrite Es.
Qed.

Lemma entry_new bs pages i x c p :
  bs !! i = Some x -> pages !! data x = Some (p ++ c) -> p <> [] -> ub_len x = Z.of_nat (length p) ->
  entry_is bs pages (Slot i) p.
Proof. intros Hx Hp Hn Hl. split; [done|]. exists x, (p ++ c). split_and!; try done. by rewrite take_app_length. Qed.

Lemma page_prefix s a p c :
  u_pages s !! a = Some (p ++ c) -> page_bytes a 0 (Z.to_nat (Z.of_nat (length p))) s = Some (p, s).
Proof. intros H. by rewrite (page_bytes_eq s a 0 _ _ H), Nat2Z.id, drop_0, take_app_length. Qed.

(** The state when the callback hands its packet [p] on. *)
Definition delivering (M : nat) (s : uci Q) (bs : list uci_buf) (b i : nat) (idx : list nat) (full : list bytes)
    (x : uci_buf) (p : bytes) : Prop :=
  arriving M s bs b i idx /\ packets_ok s bs full /\ packet_run [] (u_log s) = Some (unread s full) /\
  bs !! i = Some x /\ p <> [] /\ exists c, u_pages s !! data x = Some (p ++ c).

Lemma deliver_slot_keeps M s bs b i idx full x p u s' :
  delivering M s bs b i idx full x p -> copies (u_dl_id s) = false -> ub_len x = Z.of_nat (length p) ->
  deliver_slot i x (Z.of_nat (length p)) s = Some (u, s') -> streams M s'.
Proof.
  intros (Ha & Hp & Hl & Hx & Hne & c & Hc) Hcp Hlen H. unfold deliver_slot in H.
  rewrite (st_bind_some _ _ _ _ _ (page_prefix s _ p c Hc)) in H. st_run H. injection H as _ <-.
  apply (streams_arrival M s bs b idx full); [by apply ring_push|done|done|by eapply entry_new].
Qed.

Lemma deliver_copy_keeps M s bs b i idx full x p atomic u s' :
  delivering M s bs b i idx full x p -> copies (u_dl_id s) = true ->
  deliver_copy atomic x (Z.of_nat (length p)) s = Some (u, s') -> streams M s' \/ spent M s'.
Proof.
  intros (Ha & Hp & Hl & Hx & Hne & c & Hc) Hcp H. pose proof Ha as [_ Hr].
  destruct (ring_head _ _ _ _ _ _ _ Hr) as (HiM & _).
  pose proof (ro_copy _ _ _ _ _ _ Hr Hcp) as Hs. change (entries (set_nr_trb i s)) with (entries s) in Hs.
  destruct (lookup_lt_is_Some_2 bs (prev_slot i M)) as [y Hy].
  { rewrite (ro_len _ _ _ _ _ _ Hr). destruct i; cbn; lia. }
  pose proof (tq_put_same false (data y) (u_mtu s) MHI_EOT (u_q s) _ (ro_held _ _ _ _ _ _ Hr)) as Hput.
  pose proof (recycle_eq s bs (ub_nr_trb x) y (ro_buf _ _ _ _ _ _ Hr)) as Hre.
  rewrite (proj1 (ro_slot _ _ _ _ _ _ Hr i x Hx)) in Hre.
  change (nr_trbs s) with (nr_trbs (set_nr_trb i s)) in Hre. rewrite (ro_nr _ _ _ _ _ _ Hr) in Hre. specialize (Hre Hy).
  destruct (tq_put false (data y) (u_mtu s) MHI_EOT (u_q s)) as [ret q]. cbn [fst snd] in Hput, Hre.
  assert (Hcase : ring_ok M (set_uq q s) bs (S b) (idx ++ [prev_slot i M]) (idx ++ [prev_slot i M]) \/
                  tq_held false q (map (addr bs) idx)).
  { destruct (Z.eqb_spec ret 0) as [->|Hz]; [left|by right].
    apply ring_turn; [done|done|]. rewrite map_app. cbn [map]. by rewrite (addr_at _ _ _ Hy). }
  assert (Hsp : tq_held false q (map (addr bs) idx) -> forall l, slots l = [] -> spent M (set_pending (pending s ++ l) (set_uq q s))).
  { intros Hq l Hsl. right. exists (map (addr bs) idx). split; [done|]. rewrite length_map. unfold entries in *.
    cbn [set_pending set_uq cur_buf pending]. rewrite app_assoc, slots_app, Hs, Hsl.
    pose proof (f_equal length (ro_cyc _ _ _ _ _ _ Hr)) as E. rewrite cyc_length, length_app in E. cbn in E. cbn. lia. }
  unfold deliver_copy in H. st_run H. rewrite (proj1 (ro_slot _ _ _ _ _ _ Hr i x Hx)) in H.
  destruct (_ && atomic).
  - rewrite (st_bind_some _ _ _ _ _ (page_prefix s _ p c Hc)) in H. st_run H.
    rewrite (st_bind_some _ _ _ _ _ Hre) in H. unfold note in H. st_run H. injection H as _ <-.
    destruct Hcase as [Hr'|Hq]; [left|right; by apply (Hsp Hq [Copy p])].
    apply (streams_arrival M (set_uq q s) bs (S b) (idx ++ [prev_slot i M]) full (Copy p) p); try done.
    + by apply ring_copy.
    + by apply (packets_same s).
  - st_run H. rewrite (st_bind_some _ _ _ _ _ Hre) in H. apply st_ret_inv in H as [_ ->].
    destruct Hcase as [Hr'|Hq].
    + left. exists bs, (S b), (idx ++ [prev_slot i M]), full. split_and!; [done|by apply (packets_same s)|done].
    + right. specialize (Hsp Hq [] eq_refl). rewrite app_nil_r in Hsp. exact Hsp.
Qed.

Lemma deliver_keeps M s bs b i idx full x p atomic u s' :
  delivering M s bs b i idx full x p -> i ∉ slots (entries s) ->
  deliver atomic i x (Z.of_nat (length p)) s = Some (u, s') -> streams M s' \/ spent M s'.
Proof.
  intros (Ha & Hp & Hl & Hx & Hne & c & Hc) Hns H. unfold deliver in H. pose proof Ha as [Hn Hr].
  rewrite (st_bind_some _ _ _ _ _ (put_slot_eq s bs i _ (ro_buf _ _ _ _ _ _ Hr))) in H. st_run H.
  pose proof (ring_set_slot M _ bs b _ _ i x (Z.of_nat (length p)) Hr Hx) as Hr'.
  set (x' := UciBuf _ _ _ _) in *. set (bs' := <[i := x']> bs) in *. set (s1 := set_buf _ s) in *.
  assert (Hd : delivering M s1 bs' b i idx full x' p).
  { refine (conj (conj Hn Hr') (conj _ (conj Hl (conj _ (conj Hne (ex_intro _ c Hc)))))).
    - destruct Hp as [P1 P2]. constructor; [|exact P2]. change (entries s1) with (entries s). cbn [s1 set_buf u_pages].
      rewrite <- (insert_id (u_pages s) (data x) (p ++ c)) by done. apply entries_frame; [apply Hr|done|done|done].
    - unfold bs'. rewrite list_lookup_insert_eq; [done|]. by eapply lookup_lt_Some. }
  destruct (copies (u_dl_id s1)) eqn:Hcp.
  - by apply (deliver_copy_keeps M s1 bs' b i idx full x' p atomic u s').
  - left. by apply (deliver_slot_keeps M s1 bs' b i idx full x' p u s').
Qed.

Lemma dl_cb_keeps M s bs b i idx full x c atomic status p u s' :
  ring_ok M s bs b (i :: idx) idx -> packets_ok s bs full -> packet_run [] (u_log s) = Some (unread s full) ->
  bs !! i = Some x -> u_pages s !! data x = Some (p ++ c) ->
  mhi_dl_xfer_cb atomic (data x) status (Z.of_nat (length p)) s = Some (u, s') -> streams M s' \/ spent M s'.
Proof.
  intros Hr Hp Hl Hx Hpage H. destruct (ring_head _ _ _ _ _ _ _ Hr) as (HiM & Hnr & Hns & _).
  unfold mhi_dl_xfer_cb in H. apply st_bind_inv in H as ([] & s0 & [-> _]%live_inv & H). st_run H.
  rewrite (ro_buf _ _ _ _ _ _ Hr), <- Hnr in H. cbn [andb] in H.
  rewrite (st_bind_some _ _ _ _ _ (slot_at_eq s bs i x (ro_buf _ _ _ _ _ _ Hr) Hx)) in H.
  rewrite (proj1 (ro_slot _ _ _ _ _ _ Hr i x Hx)), Nat.eqb_refl, Z.eqb_refl in H. cbn [andb negb] in H. st_run H.
  rewrite (ro_nr _ _ _ _ _ _ Hr) in H. set (s1 := set_nr_trb _ s) in H.
  assert (Ha : arriving M s1 bs b i idx).
  { split; [done|]. apply (ring_same M s); [|apply Hr|done]. unfold inbound. cbn. by rewrite Hnr. }
  assert (Hsp : spent M s1) by (eapply arriving_spent; [done|apply Hr|by rewrite length_map]).
  destruct (status =? - ENOTCONN); [right; apply st_ret_inv in H as [_ ->]; done|]. st_run H.
  destruct ((u_mtu s1 <? Z.of_nat (length p)) || (Z.of_nat (length p) <=? 0)) eqn:Hlen;
    [right; apply st_ret_inv in H as [_ ->]; done|].
  assert (Hne : p <> []) by (intros ->; apply orb_false_iff in Hlen as [_ Hlen]; done).
  st_run H. set (s2 := if u_bytes_xferd s1 <? _ then _ else _) in H.
  assert (E2 : inbound s2 = inbound s1 /\ u_q s2 = u_q s /\ u_log s2 = u_log s) by (unfold s2; by split_match).
  destruct E2 as (Ein & Eq & Elog). pose proof Ein as Ein'. injection Ein' as F1 F2 F3 F4 F5 F6 F7 F8 F9.
  apply (deliver_keeps M s2 bs b i idx full x p atomic u s'); [refine (conj _ (conj _ (conj _ (conj Hx (conj Hne (ex_intro _ c _))))))| |done].
  - apply (arriving_same M s1); [done|rewrite Eq; apply Hr|done].
  - apply (packets_same s1); [done|]. destruct Hp. by constructor.
  - rewrite Elog, Hl. unfold unread. by rewrite F7, F8.
  - by rewrite F4.
  - unfold entries. by rewrite F6, F7.
Qed.

Lemma event_dl_keeps M atomic status p : keeps M (event (EvDl atomic status p)).
Proof.
  intros s u s' (bs & b & idx & full & Hr & Hp & Hl) H. cbn [event] in H.
  apply st_bind_inv in H as (o & s1 & H1 & H). unfold completion in H1.
  pose proof (tq_done_same false status (Z.of_nat (length p)) (u_q s) _ (ro_held _ _ _ _ _ _ Hr)) as Hd.
  destruct idx as [|i idx]; cbn [map] in Hd.
  { rewrite Hd in H1. injection H1 as <- <-. apply st_ret_inv in H as [_ ->]. left. by exists bs, b, [], full. }
  destruct Hd as (q & Hd & Hh). rewrite Hd in H1. injection H1 as <- <-.
  destruct (ring_head _ _ _ _ _ _ _ Hr) as (HiM & Hnr & Hns & _).
  destruct (lookup_lt_is_Some_2 bs i) as [x Hx]; [by rewrite (ro_len _ _ _ _ _ _ Hr)|].
  rewrite (addr_at _ _ _ Hx) in H. destruct (ro_pages _ _ _ _ _ _ Hr i x Hx) as [old Hold].
  rewrite (st_bind_some _ _ _ _ _ (dma_write_eq (set_uq q s) (data x) p old Hold)) in H.
  set (s1 := set_pages _ _) in H.
  apply (dl_cb_keeps M s1 bs b i idx full x (drop (length p) old) atomic status p u s'); try done.
  - destruct Hr. constructor; try done. intros j y Hy. unfold s1. cbn [set_pages u_pages set_uq].
    destruct (decide (data y = data x)) as [->|Hne]; [by rewrite lookup_insert_eq|].
    rewrite lookup_insert_ne by done. by eapply ro_pages0.
  - destruct Hp as [P1 P2]. constructor; [|exact P2]. change (entries s1) with (entries s). unfold s1.
    cbn [set_pages u_pages set_uq]. rewrite <- (list_insert_id bs i x Hx).
    apply entries_frame; [apply Hr|done|done|done].
  - unfold s1. cbn [set_pages u_pages set_uq]. by rewrite lookup_insert_eq.
Qed.

(** ** What leaves the inbound side alone *)

Definition calm (s s' : uci Q) : Prop :=
  inbound s' = inbound s /\ (enabled s', ref_count s') = (enabled s, ref_count s) /\
  (forall ps, packet_run [] (u_log s) = Some ps -> packet_run [] (u_log s') = Some ps) /\
  (forall l, tq_held false (u_q s) l -> tq_held false (u_q s') l).

#[global] Instance calm_preorder : PreOrder calm.
Proof.
  split; [by intros s|]. intros s1 s2 s3 (A1 & B1 & C1 & D1) (A2 & B2 & C2 & D2).
  split_and!; [congruence|congruence|auto|auto].
Qed.

Lemma calm_streams M s s' : calm s s' -> streams M s -> streams M s'.
Proof.
  intros (E & _ & Hl & Hh) (bs & b & idx & full & Hr & Hp & Hk). exists bs, b, idx, full. split_and!.
  - apply (ring_same M s); [done|by apply Hh, Hr|done].
  - by apply (packets_same s).
  - apply Hl. rewrite Hk. unfold unread. by injection E as _ _ _ _ _ _ -> -> _.
Qed.

Definition tame (s s' : uci Q) : Prop :=
  pending s' = pending s /\ cur_buf s' = cur_buf s /\ rx_size s' = rx_size s /\ enabled s' = enabled s /\
  ref_count s' = ref_count s /\ (forall l, tq_held false (u_q s) l -> tq_held false (u_q s') l).

#[global] Instance tame_preorder : PreOrder tame.
Proof.
  split; [by intros s|]. intros s1 s2 s3 (A1 & B1 & C1 & D1 & E1 & F1) (A2 & B2 & C2 & D2 & E2 & F2).
  split_and!; [congruence..|auto].
Qed.

Lemma calm_tame s s' : calm s s' -> tame s s'.
Proof. intros (E & E0 & _ & ?). injection E as _ _ _ _ _ E1 E2 E3 _. injection E0 as E4 E5. by split_and!. Qed.

Lemma tame_short M k s s' : tame s s' -> short M k s -> short M k s'.
Proof. intros (E1 & E2 & _ & _ & _ & Hh) (l & Hl & Hlt). exists l. unfold entries in *. rewrite E1, E2. auto. Qed.

Lemma short_less M k j s : short M k s -> (j <= k)%nat -> short M j s.
Proof. intros (l & Hl & Hlt) Hj. exists l. split; [done|lia]. Qed.

Lemma short_skip {A B} M k (m : st (uci Q) A) (f : A -> st (uci Q) B) P :
  st_rel tame m -> (forall x, has_post (short M k) (f x) P) -> has_post (short M k) (m ≫= f) P.
Proof. intros Hm Hf. eapply post_bind; [|exact Hf]. intros s x s' Hs E. eapply tame_short; [by eapply Hm|done]. Qed.

Lemma short_ret {A} M k j (x : A) : (j <= k)%nat -> has_post (short M k) (mret x : st (uci Q) A) (fun _ => short M j).
Proof. intros Hj s y s' Hs [_ ->]%st_ret_inv. by eapply short_less. Qed.

Lemma short_modify M k j f : (forall s, short M k s -> short M j (f s)) ->
  has_post (short M k) (st_modify f) (fun _ => short M j).
Proof. intros Hf s y s' Hs ->%st_modify_inv. auto. Qed.

(** The pieces of the operations. *)
Lemma calm_slot_at i : st_rel calm (slot_at i).
Proof. unfold slot_at, bufs. repeat st_walk1. Qed.
Lemma calm_page_bytes a off n : st_rel calm (page_bytes a off n).
Proof. unfold page_bytes. repeat st_walk1. Qed.
Lemma calm_live : st_rel calm live.
Proof. intros s u s' [-> _]%live_inv. reflexivity. Qed.
Lemma calm_kfree a : st_rel calm (kfree a).
Proof. unfold kfree. repeat st_walk1. by split_and!. Qed.
Lemma calm_kmalloc a : st_rel calm (kmalloc a).
Proof.
  intros s x s'. unfold kmalloc. destruct a as [a|]; [destruct (u_kbufs s !! a)|]; intros [= <- <-]; [reflexivity|by split_and!|reflexivity].
Qed.
Lemma calm_put_ul buf len flags : st_rel calm (mhi_queue_transfer true buf len flags).
Proof.
  intros s x s'. unfold mhi_queue_transfer. pose proof (fun l => tq_put_other true false buf len flags (u_q s) l) as Ho.
  destruct (tq_put true buf len flags (u_q s)) as [r q]. intros [= <- <-]. split_and!; [done|done|done|]. intros l. by apply Ho.
Qed.
Lemma calm_wr flags d : st_rel calm (note (Wr flags d)).
Proof.
  unfold note. st_walk1. split_and!; [done|done| |done]. intros ps Hps. cbn. by rewrite packet_run_snoc, Hps.
Qed.
Lemma calm_done_ul st n : st_rel calm (completion true st n).
Proof.
  intros s x s'. unfold completion. destruct (tq_done true st n (u_q s)) as [[b q]|] eqn:E; intros [= <- <-]; [|reflexivity].
  split_and!; [done|done|done|]. intros l Hl. by eapply (tq_done_other true false).
Qed.

Lemma rel_tame {A} (m : st (uci Q) A) : st_rel calm m -> st_rel tame m.
Proof. apply rel_mono, calm_tame. Qed.

Lemma tame_put_slot i x : st_rel tame (put_slot i x).
Proof. unfold put_slot, bufs. repeat st_walk1. by split_and!. Qed.
Lemma tame_dma a p : st_rel tame (dma_write a p).
Proof. unfold dma_write. repeat st_walk1. by split_and!. Qed.
Lemma tame_note x : st_rel tame (note x).
Proof. unfold note. repeat st_walk1. by split_and!. Qed.

#[local] Hint Resolve calm_slot_at calm_page_bytes calm_live calm_kfree calm_kmalloc calm_put_ul calm_wr calm_done_ul : uci.
#[local] Hint Resolve rel_tame tame_put_slot tame_dma tame_note : uci.

Ltac rel_piece := first [solve [auto with uci] | solve [repeat st_walk1; done]].

(** One step of a proof that a missing buffer stays missing. *)
Ltac short1 :=
  lazymatch goal with
  | |- has_post (short _ _) (mbind _ _) _ => apply short_skip; [rel_piece|intros ?]
  | |- has_post _ (mret _) _ => apply short_ret; lia
  | |- has_post _ (match ?x with _ => _ end) _ => destruct x
  end.

Lemma short_recycle M i : has_post (short M 1) (recycle_slot i) (fun _ => short M 0).
Proof.
  unfold recycle_slot. do 3 short1. intros s y s' (l & Hl & Hlt). unfold mhi_queue_transfer.
  pose proof (tq_put_same false (data x0) x1 MHI_EOT (u_q s) l Hl) as Hp.
  destruct (tq_put false (data x0) x1 MHI_EOT (u_q s)) as [r q]. intros [= <- <-]. cbn [fst snd] in Hp.
  eexists. split; [exact Hp|]. change (entries (set_uq q s)) with (entries s).
  destruct (r =? 0); [rewrite length_app; cbn; lia|lia].
Qed.

Lemma short_pend M k e : has_post (short M (k + length (slots [e]))) (st_modify (fun s => set_pending (pending s ++ [e]) s))
  (fun _ => short M k).
Proof.
  apply short_modify. intros s (l & Hl & Hlt). exists l. split; [done|]. unfold entries in *.
  cbn [set_pending cur_buf pending]. rewrite app_assoc, slots_app, length_app. lia.
Qed.

Lemma short_dl_cb M atomic b st n : has_post (short M 1) (mhi_dl_xfer_cb atomic b st n) (fun _ => short M 0).
Proof.
  unfold mhi_dl_xfer_cb, deliver, deliver_copy, deliver_slot. do 3 short1. short1; [short1|]. short1. short1.
  { apply short_modify. intros s Hs. apply (tame_short M 0 s); [done|]. by eapply short_less; [|lia]. }
  short1. short1; [short1|]. short1. short1; [short1|].
  apply short_skip; [st_walk1; by split_match|]. intros _. do 3 short1.
  - short1. apply (post_bind _ _ _ (fun _ => short M 1)).
    { short1; [short1; short1; lia|short1; lia]. }
    intros o. apply (post_bind _ _ _ (fun _ => short M 0)); [apply short_recycle|]. intros _.
    destruct o as [d|]; [|short1]. short1. exact (short_pend M 0 (Copy d)).
  - do 2 short1. exact (short_pend M 0 (Slot _)).
Qed.

(** The removal is for good, nobody else opens or closes the device, and the
    packet being read is left alone. *)
Definition stays_off (s s' : uci Q) : Prop := enabled s' = true -> enabled s = true /\ ref_count s' = ref_count s.
Definition steady (s s' : uci Q) : Prop := stays_off s s' /\ cur_buf s' = cur_buf s /\ rx_size s' = rx_size s.

#[global] Instance stays_off_preorder : PreOrder stays_off.
Proof. split; [by intros s H|]. intros s1 s2 s3 H1 H2 H. destruct (H2 H) as [H3 ->]. by apply H1. Qed.
#[global] Instance steady_preorder : PreOrder steady.
Proof.
  split; [intros s; by split|]. intros s1 s2 s3 (A1 & B1 & C1) (A2 & B2 & C2).
  split; [by etrans|split; congruence].
Qed.

Lemma tame_steady s s' : tame s s' -> steady s s'.
Proof. intros (_ & E1 & E2 & E3 & E4 & _). split; [|by split]. intros H. by rewrite <- E3. Qed.
Lemma rel_steady {A} (m : st (uci Q) A) : st_rel tame m -> st_rel steady m.
Proof. apply rel_mono, tame_steady. Qed.
Lemma rel_off {A} (m : st (uci Q) A) : st_rel steady m -> st_rel stays_off m.
Proof. apply rel_mono. by intros s s' []. Qed.
#[local] Hint Resolve rel_steady rel_off : uci.

Lemma off_false s s' : stays_off s s' -> enabled s = false -> enabled s' = false.
Proof. intros H E. destruct (enabled s') eqn:E'; [|done]. destruct (H E') as [E2 _]. congruence. Qed.

Ltac is_steady := split; [let H := fresh in intros H; split; [exact H | reflexivity]|split; reflexivity].

Lemma steady_recycle i : st_rel steady (recycle_slot i).
Proof.
  unfold recycle_slot. do 3 (st_walk1; [rel_piece|]). intros s y s'. unfold mhi_queue_transfer.
  destruct (tq_put _ _ _ _ _) as [r q]. intros [= <- <-]; is_steady.
Qed.

Lemma steady_each {A} (f : A -> st (uci Q) unit) l : (forall x, st_rel steady (f x)) -> st_rel steady (each f l).
Proof. intros Hf. induction l as [|x l IH]; cbn [each]; st_walk1; auto. Qed.

Ltac steady1 :=
  first [solve [auto with uci] | apply steady_recycle | st_walk1 | solve [repeat split_match; is_steady]].

Lemma steady_dl_cb atomic b st n : st_rel steady (mhi_dl_xfer_cb atomic b st n).
Proof.
  unfold mhi_dl_xfer_cb, deliver, deliver_copy, deliver_slot. repeat steady1.
Qed.

Lemma steady_drain d : st_rel steady (fun s => let '(l, q) := tq_drain d (u_q s) in Some (l, set_uq q s)).
Proof. intros s y s'. destruct (tq_drain d (u_q s)) as [l q]. intros [= <- <-]; is_steady. Qed.

Lemma steady_reset : st_rel steady reset_channels.
Proof.
  unfold reset_channels, mhi_ul_xfer_cb. repeat first [apply steady_drain | apply steady_each; intros ? | apply steady_dl_cb | steady1].
Qed.

Lemma remove_off s u s' : mhi_uci_remove s = Some (u, s') -> enabled s' = false.
Proof.
  unfold mhi_uci_remove. intros (u0 & s0 & _ & H)%st_bind_inv. st_run H. destruct (_ =? 0); injection H as _ <-;
  cbn; by split_match.
Qed.

Lemma event_remove_off s u s' : event EvRemove s = Some (u, s') -> enabled s' = false.
Proof.
  cbn [event]. intros H. st_run H. destruct (enabled s) eqn:E; [|by apply st_ret_inv in H as [_ ->]].
  apply st_bind_inv in H as (u1 & s1 & _ & H). by eapply remove_off.
Qed.

Lemma remove_cur s u s' : event EvRemove s = Some (u, s') -> cur_buf s' = cur_buf s /\ rx_size s' = rx_size s.
Proof.
  cbn [event]. intros H. st_run H. destruct (enabled s) eqn:E; [|by apply st_ret_inv in H as [_ ->]].
  apply st_bind_inv in H as (u1 & s1 & H1 & H). apply steady_reset in H1 as (_ & <- & <-).
  unfold mhi_uci_remove in H. apply st_bind_inv in H as (u0 & s0 & [-> _]%live_inv & H). st_run H.
  destruct (_ =? 0); injection H as _ <-; cbn; by split_match.
Qed.

Lemma steady_event e : st_rel steady (event e).
Proof.
  destruct e as [atomic st p|st n|]; cbn [event].
  - st_walk1.
    + intros s o s'. unfold completion. destruct (tq_done _ _ _ _) as [[b q]|]; intros [= <- <-]; is_steady.
    + repeat first [apply steady_dl_cb | steady1].
  - unfold mhi_ul_xfer_cb. repeat steady1.
  - intros s u s' H. split; [intros E|by eapply remove_cur]. apply event_remove_off in H. congruence.
Qed.

(** ** Events *)

Lemma event_keeps M e : keeps M (event e).
Proof.
  destruct e as [atomic st p|st n|]; [apply event_dl_keeps| |].
  - intros s u s' Hs H. left. eapply calm_streams; [|done]. revert H. cbn [event]. intros H.
    assert (Hc : st_rel calm (event (EvUl st n))) by (cbn [event]; unfold mhi_ul_xfer_cb; repeat first [solve [auto with uci]|st_walk1]).
    by eapply Hc.
  - intros s u s' _ H. right. left. by eapply event_remove_off.
Qed.

Lemma event_spent M e : stays_spent M (event e).
Proof.
  intros s u s' [Hoff|Hs] H; [left; by eapply off_false, Hoff; eapply (rel_off _ (steady_event e))|].
  destruct e as [atomic st p|st n|]; [right| |left; by eapply event_remove_off].
  - assert (Hp : has_post (short M 0) (event (EvDl atomic st p)) (fun _ => short M 0)).
    { cbn [event]. apply (post_bind _ _ _ (fun o => short M (match o with Some _ => 1 | None => 0 end))).
      - intros s1 o s2 (l & Hl & Hlt). unfold completion.
        pose proof (tq_done_same false st (Z.of_nat (length p)) (u_q s1) l Hl) as Hd.
        destruct l as [|b l]; [rewrite Hd; intros [= <- <-]; by exists []|].
        destruct Hd as (q & -> & Hq). intros [= <- <-]. exists l. split; [done|].
        change (entries (set_uq q s1)) with (entries s1). cbn in Hlt. lia.
      - intros [b|]; [|short1]. short1. apply short_dl_cb. }
    by apply (Hp s u s').
  - right. assert (Hc : st_rel tame (event (EvUl st n))) by (cbn [event]; unfold mhi_ul_xfer_cb; repeat first [solve [auto with uci]|st_walk1]).
    apply (tame_short M 0 s s'); [by eapply Hc|done].
Qed.

Lemma events_keep M es : keeps M (events es) /\ stays_spent M (events es).
Proof.
  unfold events. induction es as [|e es [IH1 IH2]]; cbn [each].
  - split; [intros s u s' Hs [_ ->]%st_ret_inv; by left|by intros s u s' Hs [_ ->]%st_ret_inv].
  - split; [apply keeps_bind; [apply event_keeps|done|done]|].
    eapply post_bind; [apply event_spent|done].
Qed.

(** ** Reading *)

Lemma entry_len_eq s bs e d :
  u_buf s = Live (map Some bs) -> entry_is bs (u_pages s) e d -> entry_len e s = Some (Z.of_nat (length d), s).
Proof.
  intros Hb [_ He]. destruct e as [i|d']; cbn [entry_len].
  - destruct He as (x & c & Hx & _ & _ & <-). by rewrite (st_bind_some _ _ _ _ _ (slot_at_eq s bs i x Hb Hx)).
  - by subst.
Qed.

Lemma take_within {A} (c d : list A) off n :
  take (length d) c = d -> (off + n <= length d)%nat -> take n (drop off c) = take n (drop off d).
Proof.
  intros <- Hn. rewrite length_take in Hn. rewrite <- (take_drop (length d) c) at 1.
  rewrite drop_app_le by (rewrite length_take; lia). rewrite take_app_le; [done|].
  rewrite length_drop, length_take. lia.
Qed.

Lemma entry_bytes_eq s bs e d off n :
  u_buf s = Live (map Some bs) -> entry_is bs (u_pages s) e d -> (off + n <= length d)%nat ->
  entry_bytes e off n s = Some (take n (drop off d), s).
Proof.
  intros Hb [_ He] Hn. destruct e as [i|d']; cbn [entry_bytes].
  - destruct He as (x & c & Hx & Hc & Ht & _). rewrite (st_bind_some _ _ _ _ _ (slot_at_eq s bs i x Hb Hx)).
    rewrite (page_bytes_eq s (data x) off n c Hc). by rewrite (take_within c d).
  - by subst.
Qed.

Lemma ring_entries M s s' bs b idx :
  (u_buf s', nr_trbs s', nr_trb s', u_pages s', u_dl_id s', rx_error s', u_q s') =
  (u_buf s, nr_trbs s, nr_trb s, u_pages s, u_dl_id s, rx_error s, u_q s) ->
  slots (entries s') = slots (entries s) -> ring_ok M s bs b idx idx -> ring_ok M s' bs b idx idx.
Proof.
  intros [= E1 E2 E3 E4 E5 E6 E7] Es []. constructor; rewrite ?E1, ?E2, ?E3, ?E4, ?E5, ?E6, ?E7, ?Es; done.
Qed.

Lemma pick_streams M s o s' :
  streams M s -> pick_packet s = Some (o, s') ->
  streams M s' /\ match o with Some e => cur_buf s' = Some e | None => True end.
Proof.
  intros Hs H. pose proof Hs as (bs & b & idx & full & Hr & Hp & Hl). unfold pick_packet in H. st_run H.
  destruct (cur_buf s) as [e|] eqn:Ec; [apply st_ret_inv in H as [-> ->]; done|]. st_run H.
  destruct (pending s) as [|e l] eqn:El; [by apply st_ret_inv in H as [-> ->]|]. st_run H.
  pose proof Hp as [Hf _]. unfold entries in Hf. rewrite Ec, El in Hf. cbn [option_list app] in Hf.
  apply Forall2_cons_inv_l in Hf as (d & r & He & Hf & ->).
  rewrite (st_bind_some _ _ _ _ _ (entry_len_eq (set_pending l s) bs e d (ro_buf _ _ _ _ _ _ Hr) He)) in H.
  st_run H. injection H as <- <-. split; [|done]. exists bs, b, idx, (d :: r).
  set (s1 := set_rx_size _ _). assert (Een : entries s1 = entries s).
  { unfold entries. rewrite Ec, El. done. }
  split_and!.
  - apply (ring_entries M s); [done|by rewrite Een|done].
  - constructor; [rewrite Een; apply Hp|]. cbn. destruct He as [Hd _]. destruct d; [done|]. cbn. lia.
  - cbn [s1 set_rx_size set_cur set_pending u_log]. rewrite Hl. unfold unread. rewrite Ec.
    cbn [s1 set_rx_size set_cur cur_buf rx_size]. by rewrite Nat2Z.id, Nat.sub_diag, drop_0.
Qed.

(** The packet being read is the first one and its buffer the oldest. *)
Lemma cur_streams M s e :
  streams M s -> cur_buf s = Some e ->
  exists bs b idx d full, ring_ok M s bs b idx idx /\ entry_is bs (u_pages s) e d /\
    Forall2 (entry_is bs (u_pages s)) (pending s) full /\ 0 < rx_size s <= Z.of_nat (length d) /\
    packet_run [] (u_log s) = Some (drop (length d - Z.to_nat (rx_size s)) d :: full).
Proof.
  intros (bs & b & idx & full & Hr & [Hf Hc] & Hl) Ec. unfold entries, unread in *. rewrite Ec in *.
  cbn [option_list app] in Hf. apply Forall2_cons_inv_l in Hf as (d & r & He & Hf & ->).
  by exists bs, b, idx, d, r.
Qed.

Lemma ring_finish M s bs b idx i q :
  ring_ok M s bs b idx idx -> cur_buf s = Some (Slot i) ->
  tq_held false q (map (addr bs) (idx ++ [prev_slot i M])) ->
  ring_ok M (set_uq q (set_cur None s)) bs (S b) (idx ++ [prev_slot i M]) (idx ++ [prev_slot i M]).
Proof.
  intros [] Ec Hq. assert (E : slots (entries s) = i :: slots (pending s)) by (unfold entries; by rewrite Ec).
  assert (E' : slots (entries (set_uq q (set_cur None s))) = slots (pending s)) by done.
  rewrite E in *. constructor; try done; rewrite E'.
  - rewrite app_assoc. by apply (cyc_turn M b i (slots (pending s) ++ idx)) in ro_cyc0 as [-> _].
  - cbn [set_uq set_cur nr_trb]. rewrite ro_trb0. f_equal. cbn [length]. lia.
  - intros Hcp. by specialize (ro_copy0 Hcp).
Qed.

Lemma finish_keeps M s bs b idx e full r s' :
  ring_ok M s bs b idx idx -> cur_buf s = Some e -> (exists d, entry_is bs (u_pages s) e d) ->
  Forall2 (entry_is bs (u_pages s)) (pending s) full ->
  packet_run [] (u_log s) = Some full -> finish_packet e s = Some (r, s') -> streams M s' \/ spent M s'.
Proof.
  intros Hr Ec (d & He) Hf Hl H. unfold finish_packet in H. st_run H.
  change (enabled (set_cur None s)) with (enabled s) in H.
  destruct (enabled s) eqn:En; [|apply st_ret_inv in H as [_ ->]; right; left; exact En].
  destruct e as [i|d'].
  - destruct He as (_ & x & c & Hx & _). set (s1 := set_cur None s) in *.
    rewrite (st_bind_some _ _ _ _ _ (slot_at_eq s1 bs i x (ro_buf _ _ _ _ _ _ Hr) Hx)) in H.
    rewrite (proj1 (ro_slot _ _ _ _ _ _ Hr i x Hx)) in H.
    destruct (lookup_lt_is_Some_2 bs (prev_slot i M)) as [y Hy].
    { apply lookup_lt_Some in Hx. pose proof (ro_len _ _ _ _ _ _ Hr). destruct i; cbn; lia. }
    pose proof (ro_nr _ _ _ _ _ _ Hr) as Hnr. rewrite <- Hnr in Hy.
    rewrite (recycle_eq s1 bs i y (ro_buf _ _ _ _ _ _ Hr) Hy) in H. rewrite Hnr in Hy.
    change (u_q s1) with (u_q s) in H. change (u_mtu s1) with (u_mtu s) in H.
    pose proof (tq_put_same false (data y) (u_mtu s) MHI_EOT (u_q s) _ (ro_held _ _ _ _ _ _ Hr)) as Hput.
    destruct (tq_put false (data y) (u_mtu s) MHI_EOT (u_q s)) as [ret q]. cbn [fst snd] in *. injection H as _ <-.
    destruct (ret =? 0).
    + left. exists bs, (S b), (idx ++ [prev_slot i M]), full. split_and!; [|by constructor|done].
      apply ring_finish; [done|done|]. rewrite map_app. cbn [map]. by rewrite (addr_at _ _ _ Hy).
    + right. right. eexists. split; [exact Hput|]. pose proof (f_equal length (ro_cyc _ _ _ _ _ _ Hr)) as E.
      assert (Ee : slots (entries s) = i :: slots (pending s)) by (unfold entries; by rewrite Ec).
      rewrite cyc_length, length_app, Ee in E. cbn [length] in E.
      change (slots (entries (set_uq q s1))) with (slots (pending s)). rewrite length_map. lia.
  - apply st_ret_inv in H as [_ ->]. left. exists bs, b, idx, full. split_and!; [|by constructor|done].
    apply (ring_entries M s); [done| |done]. unfold entries. by rewrite Ec.
Qed.

Lemma copy_keeps M fault count e s r s' :
  streams M s -> cur_buf s = Some e -> copy_packet fault count e s = Some (r, s') -> streams M s' \/ spent M s'.
Proof.
  intros Hs Ec H. pose proof (cur_streams M s e Hs Ec) as (bs & b & idx & d & full & Hr & He & Hf & Hsz & Hl).
  unfold copy_packet in H. st_run H. pose proof (ro_buf _ _ _ _ _ _ Hr) as Hb.
  rewrite (st_bind_some _ _ _ _ _ (entry_len_eq s bs e d Hb He)) in H. st_run H.
  set (n := Nat.min count (Z.to_nat (rx_size s))) in *.
  replace (Z.to_nat (Z.of_nat (length d) - rx_size s)) with (length d - Z.to_nat (rx_size s))%nat in H by lia.
  rewrite (st_bind_some _ _ _ _ _ (entry_bytes_eq s bs e d (length d - Z.to_nat (rx_size s)) n Hb He ltac:(lia))) in H.
  set (p := drop (length d - Z.to_nat (rx_size s)) d) in *.
  assert (Hlp : length p = Z.to_nat (rx_size s)) by (unfold p; rewrite length_drop; lia).
  destruct (fault =? 0); cbn [negb] in H; [|apply st_ret_inv in H as [_ ->]; by left]. unfold note in H. st_run H.
  set (s1 := set_rx_size _ _) in H. change (rx_size s1) with (rx_size s - Z.of_nat n) in H.
  assert (Hl1 : packet_run [] (u_log s1) = Some (if (length p <=? count)%nat then full else drop count p :: full)).
  { cbn [s1 set_rx_size set_log u_log]. rewrite packet_run_snoc, Hl. cbn [mbind option_bind packet_step].
    rewrite bool_decide_true; [done|]. destruct (Nat.le_gt_cases (length p) count).
    - rewrite !take_ge by lia. done.
    - f_equal. lia. }
  assert (Hr1 : ring_ok M s1 bs b idx idx) by (apply (ring_entries M s); [done|done|done]).
  destruct (Z.eqb_spec (rx_size s - Z.of_nat n) 0) as [Hz|Hz].
  - apply st_bind_inv in H as (r1 & s2 & H2 & H). assert (s' = s2) as -> by (destruct (r1 =? 0); by injection H).
    rewrite (proj2 (Nat.leb_le (length p) count)) in Hl1 by lia.
    apply (finish_keeps M s1 bs b idx e full r1 s2); try done. by exists d.
  - apply st_ret_inv in H as [_ ->]. left. rewrite (proj2 (Nat.leb_gt (length p) count)) in Hl1 by lia.
    exists bs, b, idx, (d :: full). split_and!; [done| |].
    + constructor; unfold entries; cbn [s1 set_rx_size set_log cur_buf pending u_pages rx_size]; rewrite Ec.
      * cbn [option_list app]. by constructor.
      * lia.
    + rewrite Hl1. unfold unread. cbn [s1 set_rx_size set_log cur_buf rx_size]. rewrite Ec. do 2 f_equal.
      unfold p. rewrite drop_drop. f_equal. lia.
Qed.

(** ** Operations *)

Definition sound {A} (M : nat) (m : st (uci Q) A) : Prop := keeps M m /\ stays_spent M m /\ st_rel stays_off m.

Lemma sound_bind {A B} M (m : st (uci Q) A) (f : A -> st (uci Q) B) :
  sound M m -> (forall x, sound M (f x)) -> sound M (m ≫= f).
Proof.
  intros (H1 & H2 & H3) Hf. split_and!.
  - apply keeps_bind; [done| |]; intros x; apply Hf.
  - eapply post_bind; [exact H2|]. intros x. apply Hf.
  - apply rel_bind; [apply _|done|]. intros x. apply Hf.
Qed.

Lemma sound_calm {A} M (m : st (uci Q) A) : st_rel calm m -> sound M m.
Proof.
  intros H. split_and!; [| |by auto with uci].
  - intros s x s' Hs E. left. eapply calm_streams; [by eapply H|done].
  - intros s x s' [Ho|Hs] E; [left|right].
    + apply H in E as (_ & [= -> _] & _). done.
    + eapply tame_short; [eapply calm_tame, H, E|done].
Qed.

Lemma sound_if {A} M (b : bool) (m n : st (uci Q) A) : sound M m -> sound M n -> sound M (if b then m else n).
Proof. by destruct b. Qed.

Lemma sound_events M es : sound M (events es).
Proof.
  destruct (events_keep M es) as [H1 H2]. split_and!; [done|done|].
  apply rel_off, steady_each. intros e. apply steady_event.
Qed.

Lemma calm_entry_len e : st_rel calm (entry_len e).
Proof. destruct e; cbn [entry_len]; repeat first [solve [auto with uci] | st_walk1]. Qed.
Lemma calm_entry_bytes e off n : st_rel calm (entry_bytes e off n).
Proof. destruct e; cbn [entry_bytes]; repeat first [solve [auto with uci] | st_walk1]. Qed.
#[local] Hint Resolve calm_entry_len calm_entry_bytes : uci.

Lemma off_pick : st_rel stays_off pick_packet.
Proof. unfold pick_packet. repeat first [solve [auto with uci] | st_walk1 | solve [intros H; by split]]. Qed.

Lemma off_copy fault count e : st_rel stays_off (copy_packet fault count e).
Proof.
  unfold copy_packet, finish_packet.
  repeat first [solve [auto with uci] | apply rel_off, steady_recycle | st_walk1 | solve [intros H; by split]].
Qed.

Lemma pick_spent M s o s' :
  spent M s -> pick_packet s = Some (o, s') ->
  spent M s' /\ match o with Some e => cur_buf s' = Some e | None => True end.
Proof.
  intros Hs H. assert (Ho : stays_off s s') by (by eapply off_pick). split.
  - destruct Hs as [Hs|Hs]; [left; by eapply off_false|right]. unfold pick_packet in H. st_run H.
    destruct (cur_buf s) as [e|] eqn:Ec; [by apply st_ret_inv in H as [_ ->]|]. st_run H.
    destruct (pending s) as [|e l] eqn:El; [by apply st_ret_inv in H as [_ ->]|]. st_run H.
    apply st_bind_inv in H as (n & s1 & H1 & H). st_run H. injection H as _ <-.
    apply calm_entry_len, calm_tame in H1 as (E1 & E2 & _ & _ & _ & Hh). destruct Hs as (h & Hh0 & Hlt).
    exists h. split; [by apply Hh|]. unfold entries in *. cbn [set_rx_size set_cur cur_buf pending option_list app].
    rewrite E1. rewrite Ec, El in Hlt. exact Hlt.
  - unfold pick_packet in H. st_run H. destruct (cur_buf s) as [e|] eqn:Ec; [by apply st_ret_inv in H as [-> ->]|]. st_run H.
    destruct (pending s) as [|e l] eqn:El; [by apply st_ret_inv in H as [-> ->]|]. st_run H.
    apply st_bind_inv in H as (n & s1 & _ & H). st_run H. by injection H as <- <-.
Qed.

Lemma finish_spent M s e r s' : short M 0 s -> cur_buf s = Some e -> finish_packet e s = Some (r, s') -> short M 0 s'.
Proof.
  intros (l & Hl & Hlt) Ec H. unfold finish_packet in H. st_run H.
  assert (Hs : short M (length (slots [e])) (set_cur None s)).
  { exists l. split; [done|]. unfold entries in *. rewrite Ec in Hlt. change (option_list (Some e)) with [e] in Hlt. rewrite slots_app, length_app in Hlt.
    change (option_list (cur_buf (set_cur None s)) ++ pending (set_cur None s)) with (pending s). lia. }
  destruct (enabled _); [|apply st_ret_inv in H as [_ ->]; by eapply short_less; [|lia]].
  destruct e as [i|d]; [|by apply st_ret_inv in H as [_ ->]].
  apply st_bind_inv in H as (x & s1 & H1 & H). eapply short_recycle; [|exact H].
  eapply tame_short; [eapply calm_tame, calm_slot_at, H1|done].
Qed.

Lemma copy_spent M fault count e s r s' :
  spent M s -> cur_buf s = Some e -> copy_packet fault count e s = Some (r, s') -> spent M s'.
Proof.
  intros [Ho|Hs] Ec H; [left; eapply off_false; [by eapply off_copy|done]|]. right. unfold copy_packet in H. st_run H.
  apply st_bind_inv in H as (n & s1 & H1 & H). apply calm_entry_len, calm_tame in H1.
  apply st_bind_inv in H as (d & s2 & H2 & H). apply calm_entry_bytes, calm_tame in H2.
  assert (Ht : tame s s2) by (by etrans). clear H1 H2.
  destruct (fault =? 0); cbn [negb] in H; [|apply st_ret_inv in H as [_ ->]; by eapply tame_short].
  unfold note in H. st_run H. set (s3 := set_rx_size _ _) in H.
  assert (Hs3 : short M 0 s3) by (exact (tame_short M 0 s s2 Ht Hs)).
  destruct (_ =? 0); [|by apply st_ret_inv in H as [_ ->]].
  apply st_bind_inv in H as (r1 & s4 & H4 & H). assert (s' = s4) as -> by (destruct (r1 =? 0); by injection H).
  eapply finish_spent; [exact Hs3| |exact H4]. destruct Ht as (_ & E & _). cbn. by rewrite E.
Qed.

Lemma read_packet_sound M t count : sound M (read_packet t count).
Proof.
  unfold read_packet. split_and!.
  - intros s r s' Hs (o & s1 & H1 & H)%st_bind_inv. apply (pick_streams M) in H1 as [Hs1 Ho]; [|done].
    destruct o as [e|]; [|apply st_ret_inv in H as [_ ->]; by left].
    apply st_bind_inv in H as (u & s2 & H2 & H).
    assert (Ec : cur_buf s2 = Some e) by (rewrite <- Ho; by eapply (steady_each _ _ steady_event)).
    destruct (sound_events M (r_copy t)) as (Hk & _). destruct (Hk _ _ _ Hs1 H2) as [Hs2|Hs2].
    + by eapply copy_keeps.
    + right. by eapply copy_spent.
  - intros s r s' Hs (o & s1 & H1 & H)%st_bind_inv. apply (pick_spent M) in H1 as [Hs1 Ho]; [|done].
    destruct o as [e|]; [|by apply st_ret_inv in H as [_ ->]].
    apply st_bind_inv in H as (u & s2 & H2 & H).
    assert (Ec : cur_buf s2 = Some e) by (rewrite <- Ho; by eapply (steady_each _ _ steady_event)).
    eapply copy_spent; [|done|done]. by eapply (sound_events M (r_copy t)).
  - st_walk1; [apply off_pick|]. st_walk1; [|st_walk1]. st_walk1; [apply (sound_events M)|apply off_copy].
Qed.

Ltac sound1 :=
  lazymatch goal with
  | |- sound _ (mbind _ _) => apply sound_bind; [|intros ?]
  | |- sound _ (events _) => apply sound_events
  | |- sound _ (read_packet _ _) => apply read_packet_sound
  | |- sound _ (match ?x with _ => _ end) => first [apply sound_if | destruct x]
  | |- sound _ _ => apply sound_calm; first [solve [auto with uci] | solve [repeat st_walk1; by split_and!]]
  end.

Lemma read_sound M nonblock valid t count : sound M (mhi_uci_read nonblock valid t count).
Proof. unfold mhi_uci_read. repeat sound1. Qed.

Lemma write_loop_sound M nonblock turns fuel : forall buf n, sound M (write_loop fuel nonblock turns buf n).
Proof.
  induction fuel as [|fuel IH]; intros [|z buf] n; cbn [write_loop]; [sound1|sound1|sound1|].
  unfold to_dev_room. cbv zeta. repeat first [apply IH | sound1].
Qed.

Lemma write_sound M nonblock turns buf : sound M (mhi_uci_write nonblock turns buf).
Proof. unfold mhi_uci_write. repeat first [apply write_loop_sound | sound1]. Qed.

Lemma read_mutex_sound M intr nonblock valid t count : sound M (mhi_uci_read_mutex intr nonblock valid t count).
Proof. unfold mhi_uci_read_mutex. repeat first [apply read_sound | sound1]. Qed.

Lemma write_mutex_sound M intr nonblock turns buf : sound M (mhi_uci_write_mutex intr nonblock turns buf).
Proof. unfold mhi_uci_write_mutex. repeat first [apply write_sound | sound1]. Qed.

Lemma poll_sound M : sound M mhi_uci_poll.
Proof. unfold mhi_uci_poll. repeat sound1. Qed.

Lemma ioctl_sound M core cmd : sound M (mhi_uci_ioctl core cmd).
Proof. unfold mhi_uci_ioctl. repeat sound1. Qed.

Lemma event_sound M e : sound M (event e).
Proof. split_and!; [apply event_keeps|apply event_spent|apply rel_off, steady_event]. Qed.

End Stream.

#[export] Hint Resolve calm_slot_at calm_page_bytes calm_live calm_kfree calm_kmalloc calm_put_ul calm_wr calm_done_ul : uci.
#[export] Hint Resolve rel_tame tame_put_slot tame_dma tame_note rel_steady rel_off : uci.

(** ** Runs *)

Inductive uci_op :=
| OpOpen (array : bool) (pages : nat -> option Z)
| OpRelease
| OpRead (interrupted nonblock valid : bool) (t : read_turn) (count : nat)
| OpWrite (interrupted nonblock : bool) (turns : nat -> write_turn) (buf : option bytes)
| OpPoll
| OpIoctl (core : Z) (cmd : uci_cmd)
| OpEvent (e : uci_event).

Section Runs.
Context {Q : Type} {tq : TransferQueue Q}.
Implicit Types s : uci Q.

(** [files] files are open on the device.  A device that is removed is off the
    driver's list, so that nobody finds it. *)
Definition uci_step (start : Q -> Z * Q) (o : uci_op) (x : uci Q * nat) : option (uci Q * nat) :=
  let '(s, files) := x in
  match o with
  | OpOpen array pages =>
      if enabled s then
        '(ret, s) ← mhi_uci_open start array pages s; Some (s, if ret =? 0 then S files else files)
      else Some x
  | OpEvent e => '(_, s) ← event e s; Some (s, files)
  | _ =>
      match files with
      | O => Some x
      | S n =>
          match o with
          | OpRelease => '(_, s) ← mhi_uci_release s; Some (s, n)
          | OpRead intr nonblock valid t count => '(_, s) ← mhi_uci_read_mutex intr nonblock valid t count s; Some (s, files)
          | OpWrite intr nonblock turns buf => '(_, s) ← mhi_uci_write_mutex intr nonblock turns buf s; Some (s, files)
          | OpIoctl core cmd => '(_, s) ← mhi_uci_ioctl core cmd s; Some (s, files)
          | _ => '(_, s) ← mhi_uci_poll s; Some (s, files)
          end
      end
  end.

Fixpoint uci_run (start : Q -> Z * Q) (os : list uci_op) (x : uci Q * nat) : option (uci Q * nat) :=
  match os with [] => Some x | o :: os => x ← uci_step start o x; uci_run start os x end.

(** While the device is there it holds itself open once. *)
Definition counted (x : uci Q * nat) : Prop := enabled (fst x) = true -> ref_count (fst x) = Z.of_nat (snd x) + 1.

Lemma counted_off s s' files : counted (s, files) -> stays_off s s' -> counted (s', files).
Proof. intros Hc Ho E. destruct (Ho E) as [E1 E2]. cbn [fst snd] in *. rewrite E2. by apply Hc. Qed.

Definition on_course (M : nat) (x : uci Q * nat) : Prop := counted x /\ (streams M (fst x) \/ spent M (fst x)).

Lemma sound_step {A} M (m : st (uci Q) A) s files r s' :
  sound M m -> on_course M (s, files) -> m s = Some (r, s') -> on_course M (s', files).
Proof.
  intros (H1 & H2 & H3) [Hc Hs] E. split; [eapply counted_off; [done|by eapply H3]|].
  destruct Hs as [Hs|Hs]; [by eapply H1|right; by eapply H2].
Qed.

Lemma open_again start array pages s r s' :
  enabled s = true -> 1 <= ref_count s -> mhi_uci_open start array pages s = Some (r, s') ->
  r = 0 /\ s' = set_ref (ref_count s + 1) s.
Proof.
  intros En Hr (u & s0 & [-> _]%live_inv & H)%st_bind_inv. st_run H. rewrite En in H. cbn [negb] in H. st_run H.
  change (ref_count (set_ref (ref_count s + 1) s)) with (ref_count s + 1) in H.
  rewrite (proj2 (Z.eqb_neq (ref_count s + 1) 1)) in H by lia. by apply st_ret_inv in H.
Qed.

Lemma release_shared s r s' :
  ref_count s <> 1 -> mhi_uci_release s = Some (r, s') -> s' = set_ref (ref_count s - 1) s.
Proof.
  intros Hr (u & s0 & [-> _]%live_inv & H)%st_bind_inv. st_run H.
  change (ref_count (set_ref (ref_count s - 1) s)) with (ref_count s - 1) in H.
  rewrite (proj2 (Z.eqb_neq (ref_count s - 1) 0)) in H by lia. by apply st_ret_inv in H as [_ ->].
Qed.

Lemma off_free_loop n : forall i, st_rel stays_off (free_loop (Q := Q) i n).
Proof.
  induction n as [|n IH]; intros i; cbn [free_loop]; [by apply rel_ret, _|].
  apply rel_bind; [apply _|by apply rel_off, rel_steady, rel_tame, calm_slot_at|]. intros x.
  apply rel_bind; [apply _| |done]. destruct (page x) as [a|]; [|by apply rel_ret, _].
  unfold free_pages. repeat st_walk1. intros E; by split.
Qed.

Lemma off_free : st_rel stays_off (free_bufs (Q := Q)).
Proof.
  unfold free_bufs. st_walk1; [st_walk1|]. destruct x; repeat first [apply off_free_loop | st_walk1]; intros E; by split.
Qed.

Lemma off_release s r s' : enabled s = false -> mhi_uci_release s = Some (r, s') -> enabled s' = false.
Proof.
  intros En (u & s0 & [-> _]%live_inv & H)%st_bind_inv. st_run H. destruct (_ =? 0); [|by apply st_ret_inv in H as [_ ->]].
  st_run H. change (enabled (set_ref (ref_count s - 1) s)) with (enabled s) in H. rewrite En in H. cbn match in H. st_run H.
  apply st_bind_inv in H as (u1 & s1 & H1 & H). st_run H. injection H as _ <-. cbn [set_freed set_cur enabled].
  eapply off_false; [by eapply off_free|done].
Qed.


Lemma streams_ref M s n : streams M s -> streams M (set_ref n s).
Proof.
  intros (bs & b & idx & full & Hr & Hp & Hl). exists bs, b, idx, full.
  split_and!; [by apply (ring_same M s); [|apply Hr|]|by apply (packets_same s)|done].
Qed.

Lemma step_on_course M start o x x' : on_course M x -> uci_step start o x = Some x' -> on_course M x'.
Proof.
  destruct x as [s files]. intros Hx. pose proof Hx as [Hc Hs]. unfold counted in Hc. cbn [fst snd] in *.
  destruct o as [array pages| |i nb v t n|i nb turns buf| |core cmd|e]; cbn [uci_step].
  - destruct (enabled s) eqn:En; [|by intros [= <-]]. specialize (Hc eq_refl).
    destruct (mhi_uci_open start array pages s) as [[r s1]|] eqn:E; [|done]. intros [= <-].
    apply open_again in E as [-> ->]; [|done|lia]. split; [intros _; cbn; lia|].
    destruct Hs as [Hs|Hs]; [left; by apply streams_ref|right; exact Hs].
  - destruct files as [|n]; [by intros [= <-]|]. destruct (mhi_uci_release s) as [[r s1]|] eqn:E; [|done]. intros [= <-].
    destruct (enabled s) eqn:En.
    + specialize (Hc eq_refl). apply release_shared in E as ->; [|lia]. split; [intros _; cbn; lia|].
      destruct Hs as [Hs|Hs]; [left; by apply streams_ref|right; exact Hs].
    + pose proof (off_release _ _ _ En E) as En'. split; [intros E2; cbn in E2; congruence|]. right. by left.
  - destruct files as [|k]; [by intros [= <-]|]. destruct (mhi_uci_read_mutex i nb v t n s) as [[r s1]|] eqn:E; [|done].
    intros [= <-]. eapply sound_step; [apply read_mutex_sound|done|done].
  - destruct files as [|k]; [by intros [= <-]|]. destruct (mhi_uci_write_mutex i nb turns buf s) as [[r s1]|] eqn:E; [|done].
    intros [= <-]. eapply sound_step; [apply write_mutex_sound|done|done].
  - destruct files as [|k]; [by intros [= <-]|]. destruct (mhi_uci_poll s) as [[r s1]|] eqn:E; [|done].
    intros [= <-]. eapply sound_step; [apply poll_sound|done|done].
  - destruct files as [|k]; [by intros [= <-]|]. destruct (mhi_uci_ioctl core cmd s) as [[r s1]|] eqn:E; [|done].
    intros [= <-]. eapply sound_step; [apply ioctl_sound|done|done].
  - destruct (event e s) as [[r s1]|] eqn:E; [|done]. intros [= <-]. eapply sound_step; [apply event_sound|done|done].
Qed.

Lemma run_on_course M start os : forall x x', on_course M x -> uci_run start os x = Some x' -> on_course M x'.
Proof.
  induction os as [|o os IH]; intros x x' Hx; cbn [uci_run]; [by intros [= <-]|].
  destruct (uci_step start o x) as [x1|] eqn:E; [|done]. apply IH. by eapply step_on_course.
Qed.

(** ** The first open *)

Definition filled (s : uci Q) (bs : list uci_buf) : Prop :=
  (forall i x, bs !! i = Some x -> ub_nr_trb x = i /\ page x = Some (data x)) /\
  NoDup (map data bs) /\ (forall i x, bs !! i = Some x -> is_Some (u_pages s !! data x)).

Lemma filled_snoc s bs a :
  filled s bs -> u_pages s !! a = None ->
  filled (set_pages (<[a := []]> (u_pages s)) s) (bs ++ [UciBuf (Some a) a 0 (length bs)]).
Proof.
  intros (H1 & H2 & H3) Ha. assert (Hold : forall i x, bs !! i = Some x -> data x <> a).
  { intros i x Hx E. destruct (H3 i x Hx) as [d Hd]. congruence. }
  assert (Hcase : forall i x, (bs ++ [UciBuf (Some a) a 0 (length bs)]) !! i = Some x ->
    bs !! i = Some x \/ (i = length bs /\ x = UciBuf (Some a) a 0 (length bs))).
  { intros i x. rewrite lookup_app. destruct (bs !! i) eqn:E; [intros [= <-]; by left|].
    intros Hx. right. apply list_lookup_singleton_Some in Hx as [Hi <-]. apply lookup_ge_None in E. split; [lia|done]. }
  split_and!.
  - intros i x [Hx|[-> ->]]%Hcase; [by apply H1|done].
  - rewrite map_app. apply NoDup_app. split_and!; [done| |by apply NoDup_singleton].
    intros y (x & -> & Hx)%list_elem_of_fmap Hy%list_elem_of_singleton. apply list_elem_of_lookup in Hx as [i Hx].
    by apply (Hold i x).
  - intros i x Hx%Hcase. cbn [set_pages u_pages]. destruct Hx as [Hx|[-> ->]]; [|cbn; by rewrite lookup_insert_eq].
    rewrite lookup_insert_ne by (intros E; by apply (Hold i x)). by eapply H3.
Qed.

Lemma init_fills pages n : forall bs s s',
  u_buf s = Live (map Some bs ++ replicate n None) -> filled s bs ->
  init_bufs pages (length bs) n s = Some (0, s') ->
  exists bs' pg, length bs' = n /\ s' = set_pages pg (set_buf (Live (map Some (bs ++ bs'))) s) /\ filled s' (bs ++ bs') /\
    dom pg = dom (u_pages s) ∪ list_to_set (map data bs').
Proof.
  induction n as [|n IH]; intros bs s s' Hb Hf H; cbn [init_bufs] in H.
  { apply st_ret_inv in H as [_ ->]. cbn [replicate] in Hb. rewrite app_nil_r in Hb.
    exists [], (u_pages s). rewrite app_nil_r, <- Hb. split; [done|]. split; [by destruct s|]. split; [done|].
    cbn. by rewrite union_empty_r_L. }
  apply st_bind_inv in H as (o & s1 & H1 & H). unfold alloc_pages in H1.
  assert (Ho : (exists a, o = Some a /\ u_pages s !! a = None /\ s1 = set_pages (<[a := []]> (u_pages s)) s) \/ (o = None)).
  { destruct (pages (length bs)) as [a|]; [|injection H1 as <- <-; by right].
    destruct (u_pages s !! a) eqn:Ea; injection H1 as <- <-; [by right|left; by exists a]. }
  destruct Ho as [(a & -> & Ha & ->)| -> ]; [|apply st_ret_inv in H as [E _]; discriminate].
  set (x := UciBuf (Some a) a 0 (length bs)) in *. set (s1 := set_pages _ s) in *.
  assert (Hput : put_slot (length bs) x s1 = Some (tt, set_buf (Live (map Some (bs ++ [x]) ++ replicate n None)) s1)).
  { unfold put_slot, bufs. rewrite st_bind_assoc, st_bind_gets. change (u_buf s1) with (u_buf s). rewrite Hb.
    cbn. unfold mbind, st_bind. cbn. do 4 f_equal. rewrite insert_app_r_alt by (by rewrite length_map).
    rewrite length_map, Nat.sub_diag. cbn. by rewrite map_app, <- app_assoc. }
  rewrite (st_bind_some _ _ _ _ _ Hput) in H. set (s2 := set_buf _ s1) in *.
  replace (S (length bs)) with (length (bs ++ [x])) in H by (rewrite length_app; cbn; lia).
  destruct (IH (bs ++ [x]) s2 s' eq_refl (filled_snoc s bs a Hf Ha) H) as (bs' & pg & Hn & -> & Hf' & Hd).
  exists (x :: bs'), pg. rewrite <- app_assoc in *. split; [by cbn; rewrite Hn|]. split; [done|]. split; [done|].
  rewrite Hd. cbn. rewrite dom_insert_L. set_solver.
Qed.

Lemma queue_fills n : forall i s bs l r s',
  u_buf s = Live (map Some bs) -> (i + n <= length bs)%nat -> tq_held false (u_q s) l ->
  queue_bufs i n r s = Some (0, s') -> exists q, s' = set_uq q s /\ tq_held false q (l ++ map (addr bs) (seq i n)) /\
    (forall k, tq_held true (u_q s) k -> tq_held true q k).
Proof.
  induction n as [|n IH]; intros i s bs l r s' Hb Hi Hl H; cbn [queue_bufs] in H.
  { apply st_ret_inv in H as [_ ->]. exists (u_q s). cbn [seq map]. rewrite app_nil_r. split_and!; [by destruct s|done|done]. }
  destruct (lookup_lt_is_Some_2 bs i ltac:(lia)) as [x Hx].
  rewrite (st_bind_some _ _ _ _ _ (slot_at_eq s bs i x Hb Hx)) in H. st_run H.
  apply st_bind_inv in H as (r1 & s1 & H1 & H). unfold mhi_queue_transfer in H1.
  pose proof (tq_put_same false (data x) (u_mtu s) MHI_EOT (u_q s) l Hl) as Hp.
  pose proof (fun k => tq_put_other false true (data x) (u_mtu s) MHI_EOT (u_q s) k ltac:(done)) as Ho.
  destruct (tq_put false (data x) (u_mtu s) MHI_EOT (u_q s)) as [r2 q]. injection H1 as <- <-. cbn [fst snd] in Hp, Ho.
  destruct (Z.eqb_spec r2 0) as [->|Hr]; cbn [negb] in H; [|apply st_ret_inv in H as [E _]; congruence].
  destruct (IH (S i) (set_uq q s) bs _ 0 s' Hb ltac:(lia) Hp H) as (q' & -> & Hq & Ht). exists q'.
  split_and!; [done| |intros k Hk; by apply Ht, Ho]. cbn [seq map]. rewrite (addr_at _ _ _ Hx). by rewrite <- app_assoc in Hq.
Qed.

Lemma cyc_start M : cyc M 0 (M - 1) = seq 0 (M - 1).
Proof.
  unfold cyc. rewrite <- (map_id (seq 0 (M - 1))) at 2. apply map_ext_in. intros j Hj%in_seq.
  cbn. apply Nat.mod_small. lia.
Qed.

(** What a successful fill leaves: one buffer more than the ring has room for,
    all initialised, all but the last queued in order. *)
Lemma inbound_shape array pages s s' :
  u_buf s = Null -> tq_held false (u_q s) [] -> mhi_queue_inbound array pages s = Some (0, s') ->
  exists bs pg q n, length bs = S n /\
    s' = set_uq q (set_pages pg (set_buf (Live (map Some bs)) (set_nr_trbs (S n) (set_nr_trb 0 s)))) /\
    filled s' bs /\ tq_held false q (map (addr bs) (seq 0 n)) /\ dom pg = dom (u_pages s) ∪ list_to_set (map data bs) /\
    (forall k, tq_held true (u_q s) k -> tq_held true q k).
Proof.
  intros Hb Hq H. unfold mhi_queue_inbound in H. st_run H. rewrite Hb in H.
  set (n := Z.to_nat (tq_room false (u_q s))) in H. st_run H.
  destruct array; [|st_run H; cbn [negb Z.eqb Z.opp ENOMEM] in H; apply st_ret_inv in H as [E _]; discriminate].
  st_run H. set (s1 := set_buf _ _) in H. apply st_bind_inv in H as (r1 & s2 & H1 & H).
  destruct (Z.eqb_spec r1 0) as [->|Hr]; cbn [negb] in H; [|apply st_ret_inv in H as [E _]; congruence].
  destruct (init_fills pages (S n) [] s1 s2 eq_refl) as (bs & pg & Hn & -> & Hf & Hd); [|done|].
  { split_and!; [done|by apply NoDup_nil|done]. }
  cbn [app] in *.
  destruct (queue_fills n 0 (set_pages pg (set_buf (Live (map Some bs)) s1)) bs [] _ _ eq_refl ltac:(lia) Hq H) as (q' & -> & Hq' & Ht).
  exists bs, pg, q', n. do 3 (split; [done|]). by split_and!.
Qed.

Lemma inbound_fills array pages q0 q mtu id ul std s' r :
  let s := set_uq q (set_ref 1 (new_uci q0 mtu id ul std)) in
  tq_held false q [] -> mhi_queue_inbound array pages s = Some (r, s') -> r = 0 ->
  streams (nr_trbs s') s' /\ ref_count s' = 1 /\ enabled s' = true.
Proof.
  intros s Hq H ->. destruct (inbound_shape array pages s s' eq_refl Hq H) as (bs & pg & q' & n & Hn & -> & (H2 & H3 & H4) & Hq' & _).
  set (s3 := set_uq _ _). change (nr_trbs s3) with (S n). split; [|done].
  exists bs, 0%nat, (seq 0 n), []. split_and!; [|constructor; [constructor|done]|done].
  constructor; try done; change (slots (entries s3)) with (@nil nat); [lia| |].
  - rewrite cyc_start. by replace (S n - 1)%nat with n by lia.
  - cbn [length]. by rewrite Nat.add_0_r, Nat.Div0.mod_0_l.
Qed.

Lemma open_first start array pages q mtu id ul std s' :
  tq_held false (snd (start q)) [] ->
  mhi_uci_open start array pages (new_uci q mtu id ul std) = Some (0, s') ->
  on_course (nr_trbs s') (s', 1%nat).
Proof.
  intros Hq (u & s0 & [-> _]%live_inv & H)%st_bind_inv. st_run H. change (enabled (new_uci q mtu id ul std)) with true in H.
  cbn [negb] in H. st_run H. change (ref_count (set_ref _ _) =? 1) with true in H. cbn match in H.
  apply st_bind_inv in H as (r & s1 & H1 & H). change (u_q (set_ref _ _)) with q in H1.
  destruct (start q) as [r0 q']. injection H1 as <- <-. cbn [snd] in Hq.
  destruct (Z.eqb_spec r0 0) as [->|Hr]; cbn [negb] in H.
  2: { st_run H. injection H as E _. congruence. }
  apply st_bind_inv in H as (r1 & s2 & H2 & H).
  destruct (Z.eqb_spec r1 0) as [->|Hr]; cbn [negb] in H.
  2: { apply st_bind_inv in H as (u1 & s3 & _ & H). apply st_bind_inv in H as (u2 & s4 & _ & H).
       apply st_ret_inv in H as [E _]. congruence. }
  st_run H. injection H as <-. apply (inbound_fills array pages q q' mtu id ul std s2 0 Hq) in H2 as (Hs & Hc & He); [|done].
  split; [intros _; cbn; lia|]. left. by apply streams_ref.
Qed.

(** ** A read at rest *)

Definition quiet_read : read_turn := ReadTurn [] false [] 0.

Lemma pick_some M s e l :
  streams M s -> entries s = e :: l ->
  exists s1, pick_packet s = Some (Some e, s1) /\ u_log s1 = u_log s /\ enabled s1 = enabled s.
Proof.
  intros (bs & b & idx & full & Hr & [Hf _] & _) He. unfold pick_packet. rewrite st_bind_gets. unfold entries in *.
  destruct (cur_buf s) as [e'|] eqn:Ec; [injection He as -> _; by exists s|].
  rewrite st_bind_gets. change (option_list None ++ pending s) with (pending s) in *. rewrite He in Hf |- *.
  apply Forall2_cons_inv_l in Hf as (d & r & Hd & _). rewrite st_bind_modify.
  rewrite (st_bind_some _ _ _ _ _ (entry_len_eq (set_pending l s) bs e d (ro_buf _ _ _ _ _ _ Hr) Hd)).
  by eexists.
Qed.

Lemma finish_some M s bs b idx e d :
  ring_ok M s bs b idx idx -> entry_is bs (u_pages s) e d -> enabled s = true ->
  exists r s1, finish_packet e s = Some (r, s1) /\ u_log s1 = u_log s.
Proof.
  intros Hr He En. unfold finish_packet. rewrite st_bind_modify, st_bind_gets.
  change (enabled (set_cur None s)) with (enabled s). rewrite En. destruct e as [i|d']; [|by eexists _, _].
  destruct He as (_ & x & c & Hx & _). pose proof (ro_buf _ _ _ _ _ _ Hr) as Hb.
  rewrite (st_bind_some _ _ _ _ _ (slot_at_eq (set_cur None s) bs i x Hb Hx)), (proj1 (ro_slot _ _ _ _ _ _ Hr i x Hx)).
  destruct (lookup_lt_is_Some_2 bs (prev_slot i (nr_trbs s))) as [y Hy].
  { apply lookup_lt_Some in Hx. rewrite (ro_nr _ _ _ _ _ _ Hr). pose proof (ro_len _ _ _ _ _ _ Hr). destruct i; cbn; lia. }
  rewrite (recycle_eq (set_cur None s) bs i y Hb Hy). by eexists _, _.
Qed.

(** A read that finds a packet takes [count] bytes of it and returns their
    number, or the code with which the channel refuses the used-up buffer. *)
Lemma copy_some M s e count ps :
  streams M s -> cur_buf s = Some e -> enabled s = true -> packet_run [] (u_log s) = Some ps ->
  exists p r s' x, ps = p :: r /\ copy_packet 0 count e s = Some (Done x, s') /\
    u_log s' = u_log s ++ [Rd count (take count p)] /\
    (x = Z.of_nat (length (take count p)) \/ (length p <= count)%nat).
Proof.
  intros Hs Ec En Hps. destruct (cur_streams M s e Hs Ec) as (bs & b & idx & d & full & Hr & He & Hf & Hsz & Hl).
  rewrite Hl in Hps. injection Hps as <-. set (p := drop _ d). exists p, full. pose proof (ro_buf _ _ _ _ _ _ Hr) as Hb.
  assert (Hlp : length p = Z.to_nat (rx_size s)) by (unfold p; rewrite length_drop; lia).
  unfold copy_packet. rewrite st_bind_gets, (st_bind_some _ _ _ _ _ (entry_len_eq s bs e d Hb He)).
  replace (Z.to_nat (Z.of_nat (length d) - rx_size s)) with (length d - Z.to_nat (rx_size s))%nat by lia.
  set (n := Nat.min count (Z.to_nat (rx_size s))).
  rewrite (st_bind_some _ _ _ _ _ (entry_bytes_eq s bs e d (length d - Z.to_nat (rx_size s)) n Hb He ltac:(lia))).
  fold p. change (0 =? 0) with true. cbn [negb]. unfold note. rewrite !st_bind_modify, st_bind_gets.
  assert (Ht : take n p = take count p).
  { destruct (Nat.le_gt_cases (length p) count); [by rewrite !take_ge by lia|f_equal; lia]. }
  rewrite Ht. set (s1 := set_rx_size _ _). change (rx_size s1) with (rx_size s - Z.of_nat n).
  destruct (Z.eqb_spec (rx_size s - Z.of_nat n) 0) as [Hz|Hz].
  - assert (Hr1 : ring_ok M s1 bs b idx idx) by (by apply (ring_entries M s)).
    destruct (finish_some M s1 bs b idx e d Hr1 He En) as (r & s2 & H2 & E2).
    rewrite (st_bind_some _ _ _ _ _ H2). exists s2. destruct (r =? 0); cbn [negb]; eexists; (split; [done|]);
      (split; [reflexivity|]); (split; [by rewrite E2|]); right; lia.
  - exists s1, (Z.of_nat n). split_and!; [done|done|done|]. left. rewrite length_take. f_equal. lia.
Qed.

(** ** Theorems *)

(** C16. The node is a faithful packet queue: from the first open on, whatever
    mix of opens, closes, reads of any sizes, writes, polls, callbacks and
    events in the middle of calls follows, as long as the device is there and none
    of its receive buffers was lost, no completion finds the wrong buffer, and the
    packets that arrived and the bytes that readers got are a run of a queue of
    packets: each read gets the front of the oldest packet and never crosses into
    the next; bytes read followed by bytes unread are the bytes that arrived. *)
Theorem uci_packet_stream start array pages q mtu id ul std os s1 s2 files :
  tq_held false (snd (start q)) [] ->
  mhi_uci_open start array pages (new_uci q mtu id ul std) = Some (0, s1) ->
  uci_run start os (s1, 1%nat) = Some (s2, files) ->
  enabled s2 = true -> (tq_count false (u_q s2) + length (slots (entries s2)) = nr_trbs s1 - 1)%nat ->
  rx_error s2 = 0 /\
  exists ps, packet_run [] (u_log s2) = Some ps /\ was_read (u_log s2) ++ concat ps = arrived (u_log s2).
Proof.
  intros Hq Ho Hr En Hc. pose proof (open_first _ _ _ _ _ _ _ _ _ Hq Ho) as Hx.
  destruct (run_on_course _ _ _ _ _ Hx Hr) as [_ [(bs & b & idx & full & Hro & _ & Hl)|[E|(l & Hl & Hlt)]]]; cbn [fst] in *.
  - split; [apply Hro|]. eexists. split; [exact Hl|]. by rewrite (packet_run_bytes _ _ _ Hl).
  - congruence.
  - rewrite (tq_count_held _ _ _ Hl) in Hc. lia.
Qed.

(** A read that does not meet events: without a packet it does not block a
    non-blocking caller; with packets it hands out the front of the oldest, at
    most [count] bytes of it, and returns how many, or the code with which the
    channel refuses the buffer it has used up. *)
Theorem uci_read_delivers M s count ps :
  streams M s -> u_freed s = false -> enabled s = true -> packet_run [] (u_log s) = Some ps ->
  match ps with
  | [] => mhi_uci_read true true quiet_read count s = Some (Done (- EAGAIN), s)
  | p :: _ => exists x s', mhi_uci_read true true quiet_read count s = Some (Done x, s') /\
      u_log s' = u_log s ++ [Rd count (take count p)] /\
      (x = Z.of_nat (length (take count p)) \/ (length p <= count)%nat)
  end.
Proof.
  intros Hs Hf En Hps. pose proof Hs as (bs & b & idx & full & Hr & [P1 P2] & Hl). rewrite Hps in Hl. injection Hl as ->.
  assert (Hlive : live s = Some (tt, s)) by (unfold live; rewrite st_bind_gets, Hf; done).
  assert (Hread : mhi_uci_read true true quiet_read count s =
    match entries s with [] => Some (Done (- EAGAIN), s) | _ => read_packet quiet_read count s end).
  { unfold mhi_uci_read. rewrite (st_bind_some _ _ _ _ _ Hlive), st_bind_gets, (ro_err _ _ _ _ _ _ Hr).
    cbn [negb orb Z.eqb]. rewrite st_bind_gets, En. cbn [negb]. rewrite st_bind_gets. unfold entries, has_pending.
    destruct (cur_buf s); [done|]. cbn. by destruct (pending s). }
  rewrite Hread. destruct (entries s) as [|e l] eqn:El.
  - apply Forall2_nil_inv_l in P1 as ->. unfold entries in El. unfold unread. by destruct (cur_buf s).
  - apply Forall2_cons_inv_l in P1 as (d & r & Hd & _ & ->).
    destruct (pick_some M s e l Hs El) as (s1 & H1 & L1 & En1). rewrite <- En1 in En.
    destruct (pick_streams M s _ s1 Hs H1) as [Hs1 Hc1].
    rewrite <- L1 in Hps. destruct (copy_some M s1 e count _ Hs1 Hc1 En Hps) as (p & r' & s2 & x & Ep & H2 & L2 & Hx).
    rewrite Ep. exists x, s2. unfold read_packet. rewrite (st_bind_some _ _ _ _ _ H1). cbn match. rewrite L2, L1. done.
Qed.
End Runs.

(** ** Examples over real channels *)

#[local] Existing Instance ex_queue.
Definition ex_start (q : chan_pair) : Z * chan_pair := (0, q).
Definition ex_pages (i : nat) : option Z := Some (Z.of_nat i * 0x1000 + 0x1000).
Definition ex_new (id : Z) : uci chan_pair := new_uci ex_pair 0x1000 id true [].
Definition ex_dl (p : bytes) : uci_op := OpEvent (EvDl true 0 p).
Definition ex_read (n : nat) : uci_op := OpRead false true true quiet_read n.

(** Opened, then a run of operations. *)
Definition ex_life (id : Z) (pages : nat -> option Z) (os : list uci_op) : option (uci chan_pair * nat) :=
  '(_, s) ← mhi_uci_open ex_start true pages (ex_new id); uci_run ex_start os (s, 1%nat).

(** Packets read in pieces, one arriving in the middle of a read, while the ring
    of three descriptors turns. *)
Definition ex_ops : list uci_op :=
  [ex_dl [1; 2; 3]; ex_read 2; ex_dl [4; 5]; ex_read 9; ex_read 9; ex_dl [6]; ex_dl [7; 8];
   OpRead false false true (ReadTurn [] false [EvDl true 0 [9]] 0) 1; OpOpen true ex_pages; ex_read 1; OpRelease; OpPoll].

Lemma uci_packet_stream_witness : exists s1 s2 ps,
  mhi_uci_open ex_start true ex_pages (ex_new 5) = Some (0, s1) /\ uci_run ex_start ex_ops (s1, 1%nat) = Some (s2, 1%nat) /\
  packet_run [] (u_log s2) = Some ps /\ was_read (u_log s2) = [1; 2; 3; 4; 5; 6; 7] /\ arrived (u_log s2) = [1; 2; 3; 4; 5; 6; 7; 8; 9].
Proof.
  destruct (mhi_uci_open ex_start true ex_pages (ex_new 5)) as [[r s1]|] eqn:E1; [|vm_compute in E1; discriminate].
  assert (Er : r = 0) by (vm_compute in E1; by injection E1). subst r.
  destruct (uci_run ex_start ex_ops (s1, 1%nat)) as [[s2 f]|] eqn:E2;
    [|vm_compute in E1; injection E1 as <-; vm_compute in E2; discriminate].
  assert (Hs2 : f = 1%nat /\ enabled s2 = true /\ (tq_count false (u_q s2) + length (slots (entries s2)) = nr_trbs s1 - 1)%nat /\
    was_read (u_log s2) = [1; 2; 3; 4; 5; 6; 7] /\ arrived (u_log s2) = [1; 2; 3; 4; 5; 6; 7; 8; 9]).
  { vm_compute in E1. injection E1 as <-. vm_compute in E2. injection E2 as <- <-. vm_compute. done. }
  destruct Hs2 as (-> & Hen & Hc & Hw & Ha).
  destruct (uci_packet_stream ex_start true ex_pages ex_pair 0x1000 5 true [] ex_ops s1 s2 1 (ex_pair_held false) E1 E2 Hen Hc)
    as (_ & ps & Hps & _).
  exists s1, s2, ps. exact (conj eq_refl (conj E2 (conj Hps (conj Hw Ha)))).
Defined.

(** One transfer that carries no bytes costs the node its service: its buffer is
    neither handed out nor queued again, the addresses in the ring run out of step
    with the array, and after one more round every read and write of the node is
    refused until the device is removed. *)
Theorem empty_transfer_wedges :
  option_map (fun '(s, _) => (rx_error s, fst <$> mhi_uci_read true true quiet_read 9 s,
                              fst <$> mhi_uci_write true (fun _ => WriteTurn [] false (Some 1) 0 []) (Some [1]) s))
    (ex_life 33 ex_pages [ex_dl []; ex_dl [1]; ex_read 9; ex_dl [2]; ex_read 9; ex_dl [3]]) =
  Some (1, Some (Done (- EINVAL)), Some (Done (- EINVAL))).
Proof. vm_compute. reflexivity. Qed.

(** A page that cannot be allocated leaves the rest of the array uninitialised,
    and the clean-up of the open reads it. *)
Theorem failed_allocation_undefined :
  mhi_uci_open ex_start true (fun i => if (i =? 1)%nat then None else ex_pages i) (ex_new 5) = None.
Proof. vm_compute. reflexivity. Qed.

(** A removal of a device that was opened and closed frees the device and leaves
    its four pages allocated. *)
Theorem removal_leaks_pages :
  option_map (fun '(s, files) => (files, u_freed s, size (u_pages s)))
    (ex_life 5 ex_pages [OpRelease; OpEvent EvRemove]) = Some (0%nat, true, 4%nat).
Proof. vm_compute. reflexivity. Qed.

(** A first open that fails for want of descriptors leaves the device counted as
    open: the next open succeeds without starting the channels, and the array it
    would use is freed. *)
Theorem failed_open_counts :
  option_map (fun '(r1, r2, s) => (r1, r2, ref_count s, u_buf s))
    ('(r1, s) ← mhi_uci_open (fun '(c, u, h) => (0, (ex_ctrl MHI_PM_SYS_ERR_DETECT MHI_STATE_SYS_ERR, u, h))) true ex_pages (ex_new 5);
     '(r2, s) ← mhi_uci_open ex_start true ex_pages s; Some (r1, r2, s)) = Some (- EIO, 0, 2, Dangling).
Proof. vm_compute. reflexivity. Qed.
