(* ===== verification/UciLife.v ===== *)
(** * The life of a character device

    Memory safety of MhiUci over whole lives of a device: from its registration
    through opens, closes, reads, writes and callbacks in any order and
    interleaving to the removal and the last close, no freed or uninitialised
    memory is used and nothing is freed twice, and the blocks of the writers are
    all given back; what a write hands to the channel; and the minor numbers. *)

From S2P Require Import Prelude CLib MhiReg MhiRing MhiCtrl MhiPm MhiXfer MhiFifo MhiQueue MhiUci UciStream.

Section Life.
Context {Q : Type} {tq : TransferQueue Q}.
Implicit Types s : uci Q.

(** ** The invariant of an opened device *)

(** The buffers: initialised, at distinct pages, exactly the pages allocated; the
    ring holds buffers of the array and the reader works on buffers of the array. *)
Definition bufs_ok (s : uci Q) : Prop :=
  exists bs l, u_buf s = Live (map Some bs) /\ filled s bs /\ nr_trbs s = length bs /\ (nr_trb s < length bs)%nat /\
    tq_held false (u_q s) l /\ (forall a, a ∈ l -> a ∈ map data bs) /\
    (forall i, i ∈ slots (entries s) -> (i < length bs)%nat) /\ dom (u_pages s) = list_to_set (map data bs).

(** The writers' blocks: those the channel holds, and [extra]. *)
Definition blocks_ok (extra : list Z) (s : uci Q) : Prop :=
  exists l, tq_held true (u_q s) l /\ NoDup (extra ++ l) /\ forall a, a ∈ extra ++ l <-> is_Some (u_kbufs s !! a).

(** The count: one for each open file, and one the device holds until removed;
    [en] is whether it is there, and once it is not its channels are empty. *)
Definition refs_ok (files : nat) (en : bool) (s : uci Q) : Prop :=
  u_freed s = false /\ enabled s = en /\ ref_count s = Z.of_nat files + (if en then 1 else 0) /\
  (en = false -> forall d, tq_held d (u_q s) []).

Record opened (extra : list Z) (files : nat) (en : bool) (s : uci Q) : Prop := {
  op_bufs : bufs_ok s;
  op_blocks : blocks_ok extra s;
  op_refs : refs_ok files en s }.

Lemma bufs_slot s i : bufs_ok s -> (i < nr_trbs s)%nat ->
  exists x, slot_at i s = Some (x, s) /\ ub_nr_trb x = i /\ is_Some (u_pages s !! data x).
Proof.
  intros (bs & l & Hb & (H1 & _ & H3) & Hn & _) Hi. rewrite Hn in Hi.
  destruct (lookup_lt_is_Some_2 bs i Hi) as [x Hx]. exists x. split_and!; [by apply (slot_at_eq s bs)|by apply H1|by eapply H3].
Qed.

Lemma live_opened extra files en s : opened extra files en s -> live s = Some (tt, s).
Proof. intros [_ _ [Hf _]]. unfold live. by rewrite st_bind_gets, Hf. Qed.

Lemma safe_live {B} extra files en (f : unit -> st (uci Q) B) R :
  st_safe (opened extra files en) (f tt) R -> st_safe (opened extra files en) (live ≫= f) R.
Proof. intros Hf s Hs. rewrite (st_bind_some _ _ _ _ _ (live_opened _ _ _ _ Hs)). by apply Hf. Qed.

(** *** Changes that keep it *)

Lemma bufs_same s s' :
  (u_buf s', nr_trbs s', nr_trb s', u_pages s', u_q s') = (u_buf s, nr_trbs s, nr_trb s, u_pages s, u_q s) ->
  (forall i, i ∈ slots (entries s') -> (i < nr_trbs s)%nat) -> bufs_ok s -> bufs_ok s'.
Proof.
  intros [= E1 E2 E3 E4 E5] Hs (bs & l & Hb & (F1 & F2 & F3) & Hn & Ht & Hl & Ha & _ & Hd). exists bs, l. unfold filled in *.
  rewrite E1, E2, E3, E4, E5. split_and!; try done. intros i Hi. rewrite <- Hn. by apply Hs.
Qed.

Lemma bufs_slots s : bufs_ok s -> forall i, i ∈ slots (entries s) -> (i < nr_trbs s)%nat.
Proof. intros (bs & l & _ & _ & Hn & _ & _ & _ & Hs & _). by rewrite Hn. Qed.

Lemma opened_buf extra files en s s' :
  opened extra files en s -> bufs_ok s' ->
  (u_q s', u_kbufs s', u_freed s', ref_count s', enabled s') = (u_q s, u_kbufs s, u_freed s, ref_count s, enabled s) ->
  opened extra files en s'.
Proof.
  intros [_ H2 H3] Hb [= E1 E2 E3 E4 E5]. split; [done| |].
  - unfold blocks_ok. by rewrite E1, E2.
  - unfold refs_ok. by rewrite E1, E3, E4, E5.
Qed.

(** The list of packets changes, but not to packets in other buffers. *)
Lemma opened_entries extra files en s s' :
  (u_buf s', nr_trbs s', nr_trb s', u_pages s', u_q s') = (u_buf s, nr_trbs s, nr_trb s, u_pages s, u_q s) ->
  (u_kbufs s', u_freed s', ref_count s', enabled s') = (u_kbufs s, u_freed s, ref_count s, enabled s) ->
  (forall i, i ∈ slots (entries s') -> (i < nr_trbs s)%nat) -> opened extra files en s -> opened extra files en s'.
Proof.
  intros E E' Hs H. apply (opened_buf extra files en s); [done|by apply (bufs_same s); [..|apply H]|].
  by injection E as _ _ _ _ ->; injection E' as -> -> -> ->.
Qed.

Lemma opened_trb extra files en s n : (n < nr_trbs s)%nat -> opened extra files en s -> opened extra files en (set_nr_trb n s).
Proof.
  intros Hn H. apply (opened_buf extra files en s); [done| |done].
  destruct (op_bufs _ _ _ _ H) as (bs & l & Hb & Hf & Hnr & _ & Hl). exists bs, l.
  do 3 (split; [done|]). split; [by rewrite <- Hnr|done].
Qed.

Lemma opened_put_slot extra files en s i x len :
  opened extra files en s -> slot_at i s = Some (x, s) ->
  exists s', put_slot i (UciBuf (page x) (data x) len (ub_nr_trb x)) s = Some (tt, s') /\ opened extra files en s' /\
    nr_trbs s' = nr_trbs s /\ u_pages s' = u_pages s.
Proof.
  intros H Hx. pose proof (op_bufs _ _ _ _ H) as (bs & l & Hb & (H1 & H2 & H3) & Hn & Ht & Hl & Ha & Hs & Hd).
  destruct (slot_at_inv s bs i x s Hb Hx) as [Hx' _].
  rewrite (put_slot_eq s bs i _ Hb). eexists. split; [done|]. split; [|done].
  set (x' := UciBuf _ _ len _). set (bs' := <[i := x']> bs).
  assert (Hdata : map data bs' = map data bs).
  { unfold bs'. change (map data) with (fmap (M:=list) data). rewrite list_fmap_insert. apply list_insert_id.
    by rewrite list_lookup_fmap, Hx'. }
  assert (Hall : forall j y, bs' !! j = Some y -> exists y0, bs !! j = Some y0 /\
    data y = data y0 /\ page y = page y0 /\ ub_nr_trb y = ub_nr_trb y0).
  { intros j y Hy. unfold bs' in Hy. destruct (decide (i = j)) as [<-|Hij].
    - rewrite list_lookup_insert_eq in Hy by (by eapply lookup_lt_Some). injection Hy as <-. by exists x.
    - rewrite list_lookup_insert_ne in Hy by done. by exists y. }
  apply (opened_buf extra files en s); [done| |done]. exists bs', l. rewrite Hdata.
  assert (Hlen : length bs' = length bs) by apply length_insert. rewrite Hlen. split; [done|]. split; [|done]. split_and!; [|by rewrite Hdata|].
  - intros j y (y0 & Hy0 & -> & -> & ->)%Hall. by apply H1.
  - intros j y (y0 & Hy0 & -> & _)%Hall. by eapply H3.
Qed.

(** *** Transfers *)

(** A buffer of the array goes to the ring, if it is accepted. *)
Lemma opened_recycle extra files i s :
  opened extra files true s -> (i < nr_trbs s)%nat ->
  exists r s', recycle_slot i s = Some (r, s') /\ opened extra files true s' /\ u_pages s' = u_pages s /\ nr_trbs s' = nr_trbs s.
Proof.
  intros H Hi. pose proof (op_bufs _ _ _ _ H) as (bs & l & Hb & Hf & Hn & Ht & Hl & Ha & Hs & Hd).
  destruct (lookup_lt_is_Some_2 bs (prev_slot i (nr_trbs s))) as [y Hy]; [rewrite <- Hn; destruct i; cbn; lia|].
  rewrite (recycle_eq s bs i y Hb Hy).
  pose proof (tq_put_same false (data y) (u_mtu s) MHI_EOT (u_q s) l Hl) as Hp.
  pose proof (fun k => tq_put_other false true (data y) (u_mtu s) MHI_EOT (u_q s) k ltac:(done)) as Ho.
  destruct (tq_put false (data y) (u_mtu s) MHI_EOT (u_q s)) as [r q]. cbn [fst snd] in *.
  eexists _, _. split; [done|]. split; [|done]. destruct H as [_ (k & Hk & Hk2) (R1 & R2 & R3 & _)]. split; [| |by split_and!].
  - exists bs, (if r =? 0 then l ++ [data y] else l). do 4 (split; [done|]). split; [exact Hp|]. split; [|done].
    intros a Hin. destruct (r =? 0); [|by apply Ha]. apply elem_of_app in Hin as [Hin|Hin]; [by apply Ha|].
    apply list_elem_of_singleton in Hin as ->. apply list_elem_of_fmap_2. by eapply list_elem_of_lookup_2.
  - exists k. split; [by apply Ho|done].
Qed.

Lemma opened_pend extra files en e s :
  opened extra files en s -> (forall i, i ∈ slots [e] -> (i < nr_trbs s)%nat) ->
  opened extra files en (set_pending (pending s ++ [e]) s).
Proof.
  intros H Hi. apply (opened_entries extra files en s); [done|done| |done]. unfold entries. cbn [set_pending cur_buf pending].
  intros i. rewrite app_assoc, slots_app. intros [Hin|Hin]%elem_of_app; [|by apply Hi].
  by eapply bufs_slots; [apply H|].
Qed.

Lemma opened_log extra files en n s : opened extra files en s -> opened extra files en (set_log n s).
Proof. intros H. apply (opened_entries extra files en s); [done|done| |done]. apply bufs_slots, H. Qed.

Lemma safe_deliver extra files atomic i x n s :
  opened extra files true s -> (i < nr_trbs s)%nat -> slot_at i s = Some (x, s) -> ub_nr_trb x = i -> is_Some (u_pages s !! data x) ->
  exists s', deliver atomic i x n s = Some (tt, s') /\ opened extra files true s'.
Proof.
  intros H Hi Hx Hxi [c Hc]. unfold deliver.
  destruct (opened_put_slot extra files true s i x n H Hx) as (s1 & E1 & H1 & N1 & P1).
  rewrite (st_bind_some _ _ _ _ _ E1), st_bind_gets. rewrite <- N1 in Hi. rewrite <- P1 in Hc. clear H Hx E1 N1 P1 s.
  destruct (copies (u_dl_id s1)).
  - unfold deliver_copy. rewrite st_bind_gets, Hxi. set (b := _ && atomic).
    destruct (opened_recycle extra files i s1 H1 Hi) as (r & s2 & E2 & H2 & _).
    assert (Ed : exists d, (if b then page_bytes (data x) 0 (Z.to_nat n) ≫= (fun d => mret (Some d)) else mret None) s1 = Some (d, s1)).
    { destruct b; [|by eexists]. rewrite (st_bind_some _ _ _ _ _ (page_bytes_eq s1 _ 0 _ c Hc)). by eexists. }
    destruct Ed as [d Ed]. rewrite (st_bind_some _ _ _ _ _ Ed), (st_bind_some _ _ _ _ _ E2).
    destruct d as [d|]; [|by exists s2]. unfold note. rewrite st_bind_modify. eexists. split; [done|].
    apply (opened_pend extra files true (Copy d) (set_log (u_log s2 ++ [Rx d]) s2)); [by apply opened_log|].
    intros j Hj. by apply elem_of_nil in Hj.
  - unfold deliver_slot, note. rewrite (st_bind_some _ _ _ _ _ (page_bytes_eq s1 _ 0 _ c Hc)), st_bind_modify.
    eexists. split; [done|]. apply (opened_pend extra files true (Slot i) (set_log (u_log s1 ++ [Rx _]) s1)); [by apply opened_log|].
    intros j Hj. by apply list_elem_of_singleton in Hj as ->.
Qed.

Lemma safe_dl_cb extra files atomic a st n :
  st_safe (opened extra files true) (mhi_dl_xfer_cb atomic a st n) (fun _ => opened extra files true).
Proof.
  unfold mhi_dl_xfer_cb. apply safe_live. intros s H. rewrite !st_bind_gets.
  pose proof (op_bufs _ _ _ _ H) as (bs & l & Hb & _ & Hn & Ht & _). rewrite Hb. cbn [andb]. rewrite <- Hn in Ht.
  destruct (bufs_slot s (nr_trb s) (op_bufs _ _ _ _ H) Ht) as (x & Ex & Hxi & Hpg).
  rewrite (st_bind_some _ _ _ _ _ Ex). destruct (_ && _); cbn [negb].
  2: { eexists _, _. split; [done|]. apply (opened_entries extra files true s); [done|done| |done]. apply bufs_slots, H. }
  rewrite st_bind_modify. set (k := if (S (nr_trb s) =? nr_trbs s)%nat then O else S (nr_trb s)).
  assert (Hk : (k < nr_trbs s)%nat) by (unfold k; destruct (Nat.eqb_spec (S (nr_trb s)) (nr_trbs s)); lia).
  pose proof (opened_trb extra files true s k Hk H) as H1. set (s1 := set_nr_trb k s) in *.
  destruct (st =? - ENOTCONN); [by eexists _, _|]. rewrite st_bind_gets. destruct (_ || _); [by eexists _, _|].
  rewrite st_bind_modify. set (s2 := if u_bytes_xferd s1 <? n then _ else _).
  assert (H2 : opened extra files true s2).
  { unfold s2. split_match; [|done]. apply (opened_entries extra files true s1); [done|done| |done]. apply bufs_slots, H1. }
  assert (E2 : nr_trbs s2 = nr_trbs s /\ u_pages s2 = u_pages s /\ u_buf s2 = u_buf s) by (unfold s2; by split_match).
  destruct E2 as (N2 & P2 & B2).
  destruct (safe_deliver extra files atomic (nr_trb s) x n s2 H2) as (s3 & E3 & H3); [by rewrite N2| |done|by rewrite P2|].
  - destruct (bufs_slot s2 (nr_trb s) (op_bufs _ _ _ _ H2) ltac:(by rewrite N2)) as (x2 & E2 & _).
    destruct (slot_at_inv s bs _ x s Hb Ex) as [Hx _]. rewrite <- B2 in Hb.
    destruct (slot_at_inv s2 bs _ x2 s2 Hb E2) as [Hx2 _]. congruence.
  - by exists tt, s3.
Qed.

Lemma safe_ul_cb extra files en a s :
  opened (a :: extra) files en s -> exists s', mhi_ul_xfer_cb a s = Some (tt, s') /\ opened extra files en s' /\ u_q s' = u_q s.
Proof.
  intros [H1 (l & Hl & Hnd & Hk) H3]. unfold mhi_ul_xfer_cb, kfree. destruct (proj1 (Hk a)) as [c Hc]; [by left|].
  rewrite st_bind_assoc, st_bind_gets. unfold mbind, st_bind, st_load, st_modify. rewrite Hc. eexists. split; [done|].
  split; [|done]. apply NoDup_cons in Hnd as [Hna Hnd]. split; [exact H1| |exact H3]. exists l. split; [done|]. split; [done|].
  intros b. cbn [set_kbufs u_kbufs]. destruct (decide (a = b)) as [<-|Hab].
  - rewrite lookup_delete_eq. split; [done|]. by intros [].
  - rewrite lookup_delete_ne by done. rewrite <- Hk. cbn. rewrite elem_of_cons. split; [by right|]. by intros [->|].
Qed.

(** *** Events *)

Lemma slot_at_same i s x s' : slot_at i s = Some (x, s') -> s' = s.
Proof.
  unfold slot_at, bufs. intros (l & s1 & H1 & H)%st_bind_inv. apply st_bind_inv in H1 as (p & s2 & [-> ->]%st_gets_inv & H1).
  apply st_load_inv in H1 as [_ ->]. by apply st_load_inv in H as [_ ->].
Qed.

Lemma flush_q atomic a n s x s' : mhi_dl_xfer_cb atomic a (- ENOTCONN) n s = Some (x, s') -> u_q s' = u_q s.
Proof.
  intros H. unfold mhi_dl_xfer_cb in H. apply st_bind_inv in H as (u & s0 & [-> _]%live_inv & H). st_run H.
  destruct (_ && _); [by apply st_ret_inv in H as [_ ->]|]. apply st_bind_inv in H as (b & s1 & H1 & H).
  apply slot_at_same in H1. subst s1.
  rewrite st_if in H. destruct (negb _); st_run H; [by injection H as _ <-|].
  change (- ENOTCONN =? - ENOTCONN) with true in H. by injection H as _ <-.
Qed.

Lemma safe_each {A} (P : uci Q -> Prop) (f : A -> st (uci Q) unit) l :
  (forall x, st_safe P (f x) (fun _ => P)) -> st_safe P (each f l) (fun _ => P).
Proof.
  intros Hf. induction l as [|x l IH]; cbn [each]; [by apply safe_ret|]. eapply safe_bind; [apply Hf|]. intros []. exact IH.
Qed.

Lemma flush_safe extra files q l :
  st_safe (fun s => opened extra files true s /\ u_q s = q)
    (each (fun b => mhi_dl_xfer_cb true b (- ENOTCONN) 0) l) (fun _ s => opened extra files true s /\ u_q s = q).
Proof.
  apply safe_each. intros a s [H <-]. destruct (safe_dl_cb extra files true a (- ENOTCONN) 0 s H) as ([] & s' & E & H').
  exists tt, s'. split; [done|]. split; [done|]. by eapply flush_q.
Qed.

Lemma free_blocks_safe extra files en l : forall s,
  opened (l ++ extra) files en s ->
  exists s', each mhi_ul_xfer_cb l s = Some (tt, s') /\ opened extra files en s' /\ u_q s' = u_q s.
Proof.
  induction l as [|a l IH]; intros s H; cbn [each]; [by exists s|].
  destruct (safe_ul_cb (l ++ extra) files en a s H) as (s1 & E1 & H1 & Q1). rewrite (st_bind_some _ _ _ _ _ E1).
  destruct (IH s1 H1) as (s2 & E2 & H2 & Q2). exists s2. split_and!; [done|done|congruence].
Qed.

Lemma reset_safe extra files s :
  opened extra files true s ->
  exists s', reset_channels s = Some (tt, s') /\ opened extra files true s' /\ forall d, tq_held d (u_q s') [].
Proof.
  intros H. unfold reset_channels. pose proof H as [(bs & l & Hb & Hf & Hn & Ht & Hl & Hr) (k & Hk & Hnd & Hkb) Hre].
  destruct (tq_drain_same false (u_q s) l Hl) as [El Hl1]. pose proof (tq_drain_other false true (u_q s) k ltac:(done) Hk) as Hk1.
  destruct (tq_drain false (u_q s)) as [l0 q1] eqn:Ed. cbn [fst snd] in *. subst l0.
  assert (E1 : (fun s => let '(l, q) := tq_drain false (u_q s) in Some (l, set_uq q s)) s = Some (l, set_uq q1 s)) by (by rewrite Ed).
  rewrite (st_bind_some _ _ _ _ _ E1). clear E1.
  assert (H1 : opened extra files true (set_uq q1 s)).
  { destruct Hre as (R1 & R2 & R3 & _). split; [|by exists k|by split_and!].
    exists bs, []. do 4 (split; [done|]). split; [exact Hl1|]. split; [|apply Hr]. intros a Ha. by apply elem_of_nil in Ha. }
  destruct (flush_safe extra files q1 l _ (conj H1 eq_refl)) as ([] & s2 & E2 & H2 & Q2).
  rewrite (st_bind_some _ _ _ _ _ E2). clear H Hb Hf Hn Ht Hr Hkb Hre H1 E2.
  destruct (tq_drain_same true q1 k Hk1) as [Ek Hk2]. pose proof (tq_drain_other true false q1 [] ltac:(done) Hl1) as Hl2.
  destruct (tq_drain true q1) as [k0 q3] eqn:Ed2. cbn [fst snd] in *. subst k0.
  assert (E3 : (fun s => let '(l, q) := tq_drain true (u_q s) in Some (l, set_uq q s)) s2 = Some (k, set_uq q3 s2)) by (by rewrite Q2, Ed2).
  rewrite (st_bind_some _ _ _ _ _ E3). clear E3.
  assert (H3 : opened (k ++ extra) files true (set_uq q3 s2)).
  { destruct H2 as [(bs' & l' & Hb & Hf & Hn & Ht & Hl' & Hr) (k' & Hk' & Hnd' & Hkb') (R1 & R2 & R3 & _)].
    rewrite Q2 in Hk'. pose proof (tq_drain_same true q1 k' Hk') as [Ek' _]. rewrite Ed2 in Ek'. cbn in Ek'. subst k'.
    split; [|exists []; split; [done|]|by split_and!].
    - exists bs', []. do 4 (split; [done|]). split; [exact Hl2|]. split; [|apply Hr]. intros a Ha. by apply elem_of_nil in Ha.
    - rewrite app_nil_r. split; [by rewrite (Permutation_app_comm k extra)|]. intros a. rewrite <- (Hkb' a).
      cbn. rewrite !elem_of_app. tauto. }
  destruct (free_blocks_safe extra files true k _ H3) as (s4 & E4 & H4 & Q4).
  exists s4. split_and!; [done|done|]. intros d. rewrite Q4. by destruct d.
Qed.

(** The end of a device: its structure is freed, nothing is in its channels and
    no writer's block is left. *)
Definition gone (s : uci Q) : Prop :=
  u_freed s = true /\ enabled s = false /\ (forall d, tq_held d (u_q s) []) /\ u_kbufs s = ∅.

Lemma no_blocks s : blocks_ok [] s -> tq_held true (u_q s) [] -> u_kbufs s = ∅.
Proof.
  intros (l & Hl & _ & Hk) H0. apply tq_count_held in Hl, H0. rewrite Hl in H0. destruct l; [|done].
  apply map_empty. intros a. apply eq_None_not_Some. intros Ha. apply Hk in Ha. by apply elem_of_nil in Ha.
Qed.

Lemma event_remove_safe extra files s :
  opened extra files true s ->
  exists s', event EvRemove s = Some (tt, s') /\
    match files with O => extra = [] -> gone s' | S _ => opened extra files false s' end.
Proof.
  intros H. cbn [event]. rewrite st_bind_gets. pose proof (op_refs _ _ _ _ H) as (_ & -> & _).
  destruct (reset_safe extra files s H) as (s1 & E1 & H1 & Hh). rewrite (st_bind_some _ _ _ _ _ E1).
  unfold mhi_uci_remove. rewrite (st_bind_some _ _ _ _ _ (live_opened _ _ _ _ H1)), !st_bind_modify, st_bind_gets.
  destruct H1 as [Hb Hk (R1 & R2 & R3 & _)]. cbn [set_enabled ref_count]. rewrite R3.
  rewrite (proj2 (Z.ltb_lt 0 _)) by lia. cbn [set_ref ref_count]. replace (Z.of_nat files + 1 - 1) with (Z.of_nat files) by lia.
  destruct files as [|n].
  - eexists. split; [done|]. intros ->. split_and!; [done|done|exact Hh|]. by apply no_blocks; [|apply Hh].
  - rewrite (proj2 (Z.eqb_neq _ 0)) by lia. eexists. split; [done|].
    split; [|exact Hk|]; [|split_and!; [done|done|cbn; lia|done]].
    apply (bufs_same s1); [done| |done]. exact (bufs_slots s1 Hb).
Qed.

Lemma event_dl_safe extra files atomic st p s en :
  opened extra files en s ->
  exists s' en', event (EvDl atomic st p) s = Some (tt, s') /\ opened extra files en' s' /\ (en' = false -> en = false).
Proof.
  intros H.
  cbn [event]. unfold completion. pose proof (op_bufs _ _ _ _ H) as (bs & l & Hb & Hfi & Hn & Ht & Hl & Hr).
  pose proof (tq_done_same false st (Z.of_nat (length p)) (u_q s) l Hl) as Hd.
  destruct l as [|a l]; [exists s, en; rewrite (st_bind_some _ _ s None s) by (by rewrite Hd); by auto|].
  destruct Hd as (q & Hd & Hq). destruct H as [_ (k & Hk & Hk2) (R1 & R2 & R3 & R4)].
  destruct en; [|apply tq_count_held in Hl; specialize (R4 eq_refl false); apply tq_count_held in R4; rewrite R4 in Hl; done].
  rewrite (st_bind_some _ _ s (Some a) (set_uq q s)) by (by rewrite Hd).
  destruct Hr as (Ha & Hs & Hdom). assert (Hpa : is_Some (u_pages s !! a)).
  { apply elem_of_dom. rewrite Hdom, elem_of_list_to_set. apply Ha. by left. }
  destruct Hpa as [old Hold]. rewrite (st_bind_some _ _ _ _ _ (dma_write_eq (set_uq q s) a p old Hold)).
  set (s1 := set_pages _ _). assert (H1 : opened extra files true s1).
  { split; [|exists k; split; [|done]; by eapply (tq_done_other false true)|by split_and!].
    exists bs, l. split; [done|]. split; [|do 2 (split; [done|]); split; [exact Hq|]; split; [|split; [done|]]].
    - destruct Hfi as (F1 & F2 & F3). split_and!; [done|done|]. intros i x Hx. unfold s1. cbn [set_pages u_pages set_uq].
      destruct (decide (data x = a)) as [->|Hne]; [by rewrite lookup_insert_eq|]. rewrite lookup_insert_ne by done. by eapply F3.
    - intros b Hin. apply Ha. by right.
    - unfold s1. cbn [set_pages u_pages set_uq]. rewrite dom_insert_L, Hdom.
      assert (a ∈ (list_to_set (map data bs) : gset Z)) by (rewrite elem_of_list_to_set; apply Ha; by left). set_solver. }
  destruct (safe_dl_cb extra files atomic a st (Z.of_nat (length p)) s1 H1) as ([] & s2 & E2 & H2).
  exists s2, true. by split_and!.
Qed.

Lemma event_ul_safe extra files st n s en :
  opened extra files en s ->
  exists s' en', event (EvUl st n) s = Some (tt, s') /\ opened extra files en' s' /\ (en' = false -> en = false).
Proof.
  intros H.
  cbn [event]. unfold completion. destruct H as [Hb (k & Hk & Hnd & Hkb) (R1 & R2 & R3 & R4)].
  pose proof (tq_done_same true st n (u_q s) k Hk) as Hd.
  destruct k as [|a k].
  { exists s, en. rewrite (st_bind_some _ _ s None s) by (by rewrite Hd). split_and!; [done| |done].
    split; [done|by exists []|by split_and!]. }
  destruct Hd as (q & Hd & Hq). rewrite (st_bind_some _ _ s (Some a) (set_uq q s)) by (by rewrite Hd).
  destruct en; [|apply tq_count_held in Hk; specialize (R4 eq_refl true); apply tq_count_held in R4; rewrite R4 in Hk; done].
  destruct (safe_ul_cb extra files true a (set_uq q s)) as (s1 & E1 & H1 & _).
  { destruct Hb as (bs & l & B1 & B2 & B3 & B4 & B5 & B6). split; [|exists k; split; [done|]|by split_and!].
    - exists bs, l. do 4 (split; [done|]). split; [|done]. by eapply (tq_done_other true false).
    - split; [by rewrite <- Permutation_middle in Hnd|]. intros b. rewrite <- (Hkb b). rewrite !elem_of_app, !elem_of_cons. tauto. }
  exists s1, true. by split_and!.
Qed.

Lemma event_safe extra files e s en :
  opened extra files en s -> (0 < files)%nat \/ e <> EvRemove ->
  exists s' en', event e s = Some (tt, s') /\ opened extra files en' s' /\ (en' = false -> en = false \/ e = EvRemove).
Proof.
  intros H Hf. destruct e as [atomic st p|st n|].
  - destruct (event_dl_safe extra files atomic st p s en H) as (s' & en' & E & H' & He). exists s', en'. by auto.
  - destruct (event_ul_safe extra files st n s en H) as (s' & en' & E & H' & He). exists s', en'. by auto.
  - destruct Hf as [Hf|]; [|done]. destruct en.
    + destruct (event_remove_safe extra files s H) as (s1 & E1 & H1). destruct files; [lia|].
      exists s1, false. split_and!; [done|done|by right].
    + exists s, false. cbn [event]. rewrite st_bind_gets. pose proof (op_refs _ _ _ _ H) as (_ & -> & _). by auto.
Qed.

(** *** Calls of an open file *)

Definition alive (extra : list Z) (files : nat) (s : uci Q) : Prop := exists en, opened extra files en s.

Lemma events_safe extra files es : (0 < files)%nat -> forall s, alive extra files s ->
  exists s', events es s = Some (tt, s') /\ alive extra files s'.
Proof.
  intros Hf. unfold events. induction es as [|e es IH]; intros s [en H]; cbn [each]; [by exists s; split; [|exists en]|].
  destruct (event_safe extra files e s en H) as (s1 & en1 & E1 & H1 & _); [by left|].
  rewrite (st_bind_some _ _ _ _ _ E1). apply IH. by exists en1.
Qed.

Lemma opened_pending s extra files en l c n :
  opened extra files en s -> (forall i, i ∈ slots (option_list c ++ l) -> i ∈ slots (entries s)) ->
  opened extra files en (set_rx_size n (set_cur c (set_pending l s))).
Proof.
  intros H Hi. apply (opened_entries extra files en s); [done|done| |done]. intros i Hin.
  eapply bufs_slots; [apply H|]. by apply Hi.
Qed.

Lemma entry_safe extra files en e off n s :
  opened extra files en s -> (forall i, i ∈ slots [e] -> (i < nr_trbs s)%nat) ->
  (exists len, entry_len e s = Some (len, s)) /\ (exists d, entry_bytes e off n s = Some (d, s)).
Proof.
  intros H Hi. destruct e as [i|d]; cbn [entry_len entry_bytes]; [|split; by eexists].
  destruct (bufs_slot s i (op_bufs _ _ _ _ H)) as (x & Ex & _ & c & Hc); [apply Hi; by left|].
  rewrite !(st_bind_some _ _ _ _ _ Ex), (page_bytes_eq s _ _ _ c Hc). split; by eexists.
Qed.

Lemma pick_safe extra files s : alive extra files s ->
  exists o s', pick_packet s = Some (o, s') /\ alive extra files s' /\ match o with Some e => cur_buf s' = Some e | None => True end.
Proof.
  intros [en H]. unfold pick_packet. rewrite st_bind_gets.
  destruct (cur_buf s) as [e|] eqn:Ec; [exists (Some e), s; split_and!; [done|by exists en|done]|]. rewrite st_bind_gets.
  destruct (pending s) as [|e l] eqn:El; [exists None, s; split_and!; [done|by exists en|done]|]. rewrite st_bind_modify.
  assert (Een : entries s = e :: l) by (unfold entries; by rewrite Ec, El).
  assert (H1 : opened extra files en (set_pending l s)).
  { apply (opened_entries extra files en s); [done|done| |done]. intros i Hin. eapply bufs_slots; [apply H|].
    rewrite Een. change (e :: l) with ([e] ++ l). rewrite slots_app. apply elem_of_app. right. unfold entries in Hin.
    cbn [set_pending cur_buf pending] in Hin. by rewrite Ec in Hin. }
  assert (Hi : forall i, i ∈ slots [e] -> (i < nr_trbs s)%nat).
  { intros i Hin. eapply bufs_slots; [apply H|]. rewrite Een. change (e :: l) with ([e] ++ l). rewrite slots_app. set_solver. }
  destruct (entry_safe extra files en e 0 0 _ H1 Hi) as [[len E1] _]. rewrite (st_bind_some _ _ _ _ _ E1), st_bind_modify.
  eexists _, _. split; [done|]. split; [exists en|done].
  apply (opened_pending s extra files en l (Some e) len); [done|]. intros i. by rewrite Een.
Qed.

Lemma finish_safe extra files e s : alive extra files s -> cur_buf s = Some e ->
  exists r s', finish_packet e s = Some (r, s') /\ alive extra files s'.
Proof.
  intros [en H] Ec. unfold finish_packet. rewrite st_bind_modify, st_bind_gets.
  assert (Een : entries s = [e] ++ pending s) by (unfold entries; by rewrite Ec).
  assert (H1 : opened extra files en (set_cur None s)).
  { apply (opened_entries extra files en s); [done|done| |done]. intros i Hin. eapply bufs_slots; [apply H|].
    rewrite Een, slots_app. apply elem_of_app. by right. }
  pose proof (op_refs _ _ _ _ H1) as (_ & -> & _). destruct en; [|eexists _, _; split; [done|by exists false]].
  destruct e as [i|d]; [|eexists _, _; split; [done|by exists true]].
  assert (Hi : (i < nr_trbs s)%nat).
  { eapply bufs_slots; [apply H|]. rewrite Een, slots_app. apply elem_of_app. left. by left. }
  destruct (bufs_slot _ i (op_bufs _ _ _ _ H1) Hi) as (x & Ex & Hxi & _). rewrite (st_bind_some _ _ _ _ _ Ex), Hxi.
  destruct (opened_recycle extra files i _ H1 Hi) as (r & s2 & E2 & H2 & _). exists r, s2. split; [done|by exists true].
Qed.

Lemma opened_rx extra files en n s : opened extra files en s -> opened extra files en (set_rx_size n s).
Proof. intros H. apply (opened_entries extra files en s); [done|done| |done]. apply bufs_slots, H. Qed.

Lemma copy_safe extra files fault count e s : alive extra files s -> cur_buf s = Some e ->
  exists r s', copy_packet fault count e s = Some (r, s') /\ alive extra files s'.
Proof.
  intros [en H] Ec. unfold copy_packet. rewrite st_bind_gets.
  assert (Hi : forall i, i ∈ slots [e] -> (i < nr_trbs s)%nat).
  { intros i Hin. eapply bufs_slots; [apply H|]. unfold entries. rewrite Ec, slots_app. apply elem_of_app. by left. }
  destruct (entry_safe extra files en e 0 0 s H Hi) as [[len E1] _]. rewrite (st_bind_some _ _ _ _ _ E1).
  cbv zeta. set (n := Nat.min count _). set (off := Z.to_nat (len - rx_size s)).
  destruct (entry_safe extra files en e off n s H Hi) as [_ [d E2]]. rewrite (st_bind_some _ _ _ _ _ E2).
  destruct (negb _); [eexists _, _; split; [done|by exists en]|]. unfold note. rewrite !st_bind_modify, st_bind_gets.
  set (s1 := set_rx_size _ _). assert (H1 : alive extra files s1) by (exists en; by apply opened_rx, opened_log).
  destruct (_ =? 0); [|by eexists _, _].
  destruct (finish_safe extra files e s1 H1 Ec) as (r & s2 & E3 & H2). rewrite (st_bind_some _ _ _ _ _ E3).
  destruct (negb _); by eexists _, _.
Qed.

Lemma read_packet_safe extra files t count s : (0 < files)%nat -> alive extra files s ->
  exists r s', read_packet t count s = Some (r, s') /\ alive extra files s'.
Proof.
  intros Hf H. unfold read_packet. destruct (pick_safe extra files s H) as (o & s1 & E1 & H1 & Ho).
  rewrite (st_bind_some _ _ _ _ _ E1). destruct o as [e|]; [|by eexists _, _].
  destruct (events_safe extra files (r_copy t) Hf s1 H1) as (s2 & E2 & H2). rewrite (st_bind_some _ _ _ _ _ E2).
  apply copy_safe; [done|]. rewrite <- Ho. by eapply (steady_each _ _ steady_event).
Qed.

Lemma alive_live extra files s : alive extra files s -> live s = Some (tt, s).
Proof. intros [en H]. by eapply live_opened. Qed.

Lemma read_safe extra files nonblock valid t count s : (0 < files)%nat -> alive extra files s ->
  exists r s', mhi_uci_read nonblock valid t count s = Some (r, s') /\ alive extra files s'.
Proof.
  intros Hf H. unfold mhi_uci_read. rewrite (st_bind_some _ _ _ _ _ (alive_live _ _ _ H)), st_bind_gets.
  destruct (_ || _); [by eexists _, _|]. rewrite st_bind_gets. destruct (negb _); [by eexists _, _|]. rewrite st_bind_gets.
  destruct (match cur_buf s with Some _ => _ | None => _ end); [|by apply read_packet_safe].
  destruct nonblock; [by eexists _, _|].
  destruct (events_safe extra files (r_wait t) Hf s H) as (s1 & E1 & H1). rewrite (st_bind_some _ _ _ _ _ E1), !st_bind_gets.
  destruct (_ && _); [by eexists _, _|]. destruct (negb _); [by eexists _, _|]. by apply read_packet_safe.
Qed.

(** A writer's block between its allocation and its transfer. *)
Lemma kmalloc_safe files want s : alive [] files s ->
  exists o s', kmalloc want s = Some (o, s') /\ match o with Some k => alive [k] files s' | None => alive [] files s' end.
Proof.
  intros [en H]. unfold kmalloc. destruct want as [a|]; [|eexists _, _; split; [done|by exists en]].
  destruct (u_kbufs s !! a) eqn:Ea; [eexists _, _; split; [done|by exists en]|]. eexists _, _. split; [done|]. exists en.
  destruct H as [Hb (l & Hl & Hnd & Hk) Hr]. split; [exact Hb| |exact Hr]. exists l. split; [done|]. split.
  - apply NoDup_cons. split; [|done]. intros Ha%Hk. rewrite Ea in Ha. by destruct Ha.
  - intros b. cbn [set_kbufs u_kbufs app]. rewrite elem_of_cons, (Hk b). destruct (decide (a = b)) as [<-|Hab].
    + rewrite lookup_insert_eq. by split; [|left].
    + rewrite lookup_insert_ne by done. split; [by intros [->|]|by right].
Qed.

Lemma fill_block files k chunk s : alive [k] files s -> alive [k] files (set_kbufs (<[k := chunk]> (u_kbufs s)) s).
Proof.
  intros [en [Hb (l & Hl & Hnd & Hk) Hr]]. exists en. split; [exact Hb| |exact Hr]. exists l. do 2 (split; [done|]).
  intros a. cbn [set_kbufs u_kbufs]. rewrite (Hk a). destruct (decide (k = a)) as [<-|Hka].
  - rewrite lookup_insert_eq. split; [done|]. intros _. apply Hk. by left.
  - by rewrite lookup_insert_ne.
Qed.

Lemma kfree_safe files k s : alive [k] files s -> exists s', kfree k s = Some (tt, s') /\ alive [] files s'.
Proof. intros [en H]. destruct (safe_ul_cb [] files en k s H) as (s' & E & H' & _). exists s'. split; [done|by exists en]. Qed.

Lemma put_ul_safe files k len flags s : opened [k] files true s ->
  exists r s', mhi_queue_transfer true k len flags s = Some (r, s') /\ if r =? 0 then alive [] files s' else alive [k] files s'.
Proof.
  intros [(bs & dl & B1 & B2 & B3 & B4 & B5 & B6) (l & Hl & Hnd & Hk) (R1 & R2 & R3 & _)]. unfold mhi_queue_transfer.
  pose proof (tq_put_same true k len flags (u_q s) l Hl) as Hp.
  pose proof (tq_put_other true false k len flags (u_q s) dl ltac:(done) B5) as Ho.
  destruct (tq_put true k len flags (u_q s)) as [r q]. cbn [fst snd] in *. eexists _, _. split; [done|].
  assert (Hb : bufs_ok (set_uq q s)) by (exists bs, dl; by do 4 (split; [done|])).
  destruct (r =? 0); exists true; (split; [done| |by split_and!]).
  - exists (l ++ [k]). split; [done|]. cbn [app] in *. split; [by rewrite Permutation_app_comm|].
    intros a. rewrite <- (Hk a). set_solver.
  - by exists l.
Qed.

Lemma write_loop_safe files nonblock turns : (0 < files)%nat -> forall fuel buf n s, alive [] files s ->
  exists r s', write_loop fuel nonblock turns buf n s = Some (r, s') /\ alive [] files s'.
Proof.
  intros Hf. induction fuel as [|fuel IH]; intros [|z buf] n s H; cbn [write_loop]; try by eexists _, _.
  unfold to_dev_room. rewrite st_bind_gets. destruct (_ && _); [by eexists _, _|].
  destruct (events_safe [] files (t_wait (turns fuel)) Hf s H) as (s1 & E1 & H1).
  rewrite (st_bind_some _ _ _ _ _ E1), !st_bind_gets. destruct (_ && _); [by eexists _, _|].
  destruct (_ || _); [by eexists _, _|]. rewrite st_bind_gets. set (size := Nat.min _ _).
  destruct (kmalloc_safe files (t_alloc (turns fuel)) s1 H1) as (o & s2 & E2 & H2). rewrite (st_bind_some _ _ _ _ _ E2).
  destruct o as [k|]; [|by eexists _, _]. destruct (negb _).
  { destruct (kfree_safe files k s2 H2) as (s3 & E3 & H3). rewrite (st_bind_some _ _ _ _ _ E3). by eexists _, _. }
  rewrite st_bind_modify. pose proof (fill_block files k (take size (z :: buf)) s2 H2) as H3.
  destruct (events_safe [k] files (t_lock (turns fuel)) Hf _ H3) as (s4 & E4 & [en H4]).
  rewrite (st_bind_some _ _ _ _ _ E4), st_bind_gets. pose proof (op_refs _ _ _ _ H4) as (_ & -> & _).
  set (flags := if (_ : bool) then MHI_CHAIN else MHI_EOT).
  assert (Hput : exists (r : Z) (s5 : uci Q), (if en then mhi_queue_transfer true k (Z.of_nat size) flags else mret (- ERESTARTSYS)) s4 = Some (r, s5) /\
    if r =? 0 then alive [] files s5 else alive [k] files s5).
  { destruct en; [by apply put_ul_safe|]. eexists _, _. split; [done|]. by exists false. }
  destruct Hput as (r & s5 & E5 & H5). rewrite (st_bind_some _ _ _ _ _ E5). destruct (r =? 0); cbn [negb].
  - unfold note. rewrite st_bind_modify. apply IH. destruct H5 as [en' H5]. exists en'. by apply opened_log.
  - destruct (kfree_safe files k s5 H5) as (s6 & E6 & H6). rewrite (st_bind_some _ _ _ _ _ E6). by eexists _, _.
Qed.

Lemma write_safe files nonblock turns buf s : (0 < files)%nat -> alive [] files s ->
  exists r s', mhi_uci_write nonblock turns buf s = Some (r, s') /\ alive [] files s'.
Proof.
  intros Hf H. unfold mhi_uci_write. rewrite (st_bind_some _ _ _ _ _ (alive_live _ _ _ H)), st_bind_gets.
  destruct buf as [[|z buf]|]; [by eexists _, _| |by eexists _, _]. destruct (negb _); [by eexists _, _|]. rewrite st_bind_gets.
  destruct (negb _); [by eexists _, _|]. by apply write_loop_safe.
Qed.

Lemma read_mutex_safe extra files intr nonblock valid t count s : (0 < files)%nat -> alive extra files s ->
  exists r s', mhi_uci_read_mutex intr nonblock valid t count s = Some (r, s') /\ alive extra files s'.
Proof.
  intros Hf H. unfold mhi_uci_read_mutex. destruct intr; [by eexists _, _|].
  destruct (read_safe extra files nonblock valid t count s Hf H) as (r & s' & E & H'). rewrite (st_bind_some _ _ _ _ _ E). by eexists _, _.
Qed.

Lemma write_mutex_safe files intr nonblock turns buf s : (0 < files)%nat -> alive [] files s ->
  exists r s', mhi_uci_write_mutex intr nonblock turns buf s = Some (r, s') /\ alive [] files s'.
Proof.
  intros Hf H. unfold mhi_uci_write_mutex. destruct intr; [by eexists _, _|].
  destruct (write_safe files nonblock turns buf s Hf H) as (r & s' & E & H'). rewrite (st_bind_some _ _ _ _ _ E). by eexists _, _.
Qed.

Lemma poll_safe extra files s : alive extra files s -> exists r, mhi_uci_poll s = Some (r, s).
Proof.
  intros H. unfold mhi_uci_poll. rewrite (st_bind_some _ _ _ _ _ (alive_live _ _ _ H)), !st_bind_gets.
  destruct (u_has_ul s); [rewrite !st_bind_gets|]; by eexists.
Qed.

Lemma ioctl_safe extra files core cmd s : alive extra files s ->
  exists r s', mhi_uci_ioctl core cmd s = Some (r, s') /\ alive extra files s'.
Proof.
  intros H. unfold mhi_uci_ioctl. rewrite (st_bind_some _ _ _ _ _ (alive_live _ _ _ H)), st_bind_gets.
  destruct (negb _); [by eexists _, _|]. destruct cmd as [rest|user rest| |]; try (rewrite ?st_bind_gets; by eexists _, _).
  rewrite st_bind_if. destruct (rest =? 0); [|by eexists _, _]. rewrite st_bind_modify. eexists _, _. split; [done|].
  destruct H as [en H]. exists en. apply (opened_entries extra files en s); [done|done| |done]. apply bufs_slots, H.
Qed.

(** ** From registration to the last close *)

(** Never opened, or only tried to. *)
Definition fresh (s : uci Q) : Prop :=
  u_freed s = false /\ enabled s = true /\ ref_count s = 0 /\ u_buf s = Null /\ entries s = [] /\
  u_pages s = ∅ /\ u_kbufs s = ∅ /\ forall d, tq_held d (u_q s) [].

Definition life (x : uci Q * nat) : Prop :=
  let '(s, files) := x in
  (fresh s /\ files = O) \/ (exists en, opened [] files en s /\ (en = false -> (0 < files)%nat)) \/ (gone s /\ files = O).

Lemma opened_first files s1 s' array pages :
  fresh (set_ref 0 s1) -> ref_count s1 = 1 -> mhi_queue_inbound array pages s1 = Some (0, s') -> files = 1%nat ->
  opened [] files true (set_ref (ref_count s' + 1) s').
Proof.
  intros (F1 & F2 & _ & F4 & F5 & F6 & F7 & F8) Hr H ->.
  destruct (inbound_shape array pages s1 s' F4 (F8 false) H) as (bs & pg & q & n & Hn & -> & Hf & Hq & Hd & Ht).
  assert (Ha : forall a, a ∈ map (addr bs) (seq 0 n) -> a ∈ map data bs).
  { intros a (j & -> & Hj)%list_elem_of_fmap. apply elem_of_seq in Hj.
    destruct (lookup_lt_is_Some_2 bs j ltac:(lia)) as [x Hx]. rewrite (addr_at _ _ _ Hx).
    apply list_elem_of_fmap_2. by eapply list_elem_of_lookup_2. }
  split; [| |split_and!; [exact F1|exact F2|cbn; lia|done]].
  - exists bs, (map (addr bs) (seq 0 n)). split; [done|]. split; [exact Hf|]. cbn [set_ref nr_trbs nr_trb set_uq set_pages set_buf set_nr_trbs set_nr_trb u_q u_pages].
    split; [done|]. split; [lia|]. split; [exact Hq|]. split; [done|]. split; [|rewrite Hd; change (u_pages s1) with (u_pages (set_ref 0 s1)); rewrite F6; set_solver].
    change (entries (set_ref _ _)) with (entries (set_ref 0 s1)). rewrite F5. intros i Hi. by apply elem_of_nil in Hi.
  - exists []. split; [exact (Ht [] (F8 true))|]. split; [by apply NoDup_nil|]. intros a. change (u_kbufs (set_ref _ _)) with (u_kbufs (set_ref 0 s1)).
    rewrite F7, lookup_empty. split; [by intros ?%elem_of_nil|by intros []].
Qed.

(** The fill of a first open succeeds. *)
Definition fills (start : Q -> Z * Q) (o : uci_op) (s : uci Q) : Prop :=
  match o with
  | OpOpen array pages =>
      enabled s = true -> ref_count s = 0 -> fst (start (u_q s)) = 0 ->
      exists s', mhi_queue_inbound array pages (set_uq (snd (start (u_q s))) (set_ref 1 s)) = Some (0, s')
  | _ => True
  end.

Lemma open_life start array pages s files :
  (forall q, (forall d, tq_held d q []) -> forall d, tq_held d (snd (start q)) []) ->
  life (s, files) -> enabled s = true -> fills start (OpOpen array pages) s ->
  exists r s', mhi_uci_open start array pages s = Some (r, s') /\ life (s', if r =? 0 then S files else files).
Proof.
  intros Hst Hl En Hfill. cbn [life] in Hl. destruct Hl as [[Hf ->]|[(en & H & Hen)|[(_ & Hg & _) _]]]; [| |congruence].
  - pose proof Hf as (F1 & _ & F3 & F4 & F5 & F6 & F7 & F8). unfold mhi_uci_open.
    assert (Hlive : live s = Some (tt, s)) by (unfold live; by rewrite st_bind_gets, F1).
    rewrite (st_bind_some _ _ _ _ _ Hlive), st_bind_gets, En. cbn [negb]. rewrite st_bind_modify, st_bind_gets.
    cbn [set_ref ref_count]. rewrite F3. change (0 + 1 =? 1) with true. cbn match.
    specialize (Hfill En F3). pose proof (Hst (u_q s) F8) as Hq.
    set (s1 := set_ref (0 + 1) s). destruct (start (u_q s)) as [r q] eqn:Es. cbn [fst snd] in *.
    assert (E1 : (fun s => let '(ret, q) := start (u_q s) in Some (ret, set_uq q s)) s1 = Some (r, set_uq q s1))
      by (change (u_q s1) with (u_q s); by rewrite Es).
    rewrite (st_bind_some _ _ _ _ _ E1). destruct (Z.eqb_spec r 0) as [->|Hr]; cbn [negb].
    + destruct (Hfill eq_refl) as [s2 H2]. change (set_ref 1 s) with s1 in H2. rewrite (st_bind_some _ _ _ _ _ H2).
      cbn [Z.eqb negb]. rewrite st_bind_modify. eexists _, _. split; [done|]. right. left. exists true. split; [|done].
      by apply (opened_first 1 (set_uq q s1) s2 array pages); [|..|].
    + rewrite st_bind_modify. eexists _, _. split; [done|]. rewrite (proj2 (Z.eqb_neq r 0) Hr). by left.
  - pose proof (op_refs _ _ _ _ H) as (_ & R2 & R3 & _). rewrite En in R2. subst en.
    unfold mhi_uci_open. rewrite (st_bind_some _ _ _ _ _ (live_opened _ _ _ _ H)), st_bind_gets, En. cbn [negb].
    rewrite st_bind_modify, st_bind_gets. cbn [set_ref ref_count]. rewrite R3.
    rewrite (proj2 (Z.eqb_neq (Z.of_nat files + 1 + 1) 1)) by lia. eexists _, _. split; [done|]. cbn [Z.eqb].
    right. left. exists true. split; [|done]. destruct H as [Hb Hk (Q1 & Q2 & Q3 & _)].
    split; [|exact Hk|split_and!; [done|done|cbn; lia|done]]. apply (bufs_same s); [done| |done]. exact (bufs_slots s Hb).
Qed.

Lemma free_loop_safe n : forall i s bs,
  u_buf s = Live (map Some bs) -> (i + n = length bs)%nat -> NoDup (map data bs) ->
  (forall j x, bs !! j = Some x -> page x = Some (data x) /\ ((i <= j)%nat -> is_Some (u_pages s !! data x))) ->
  exists pg, free_loop i n s = Some (tt, set_pages pg s).
Proof.
  induction n as [|n IH]; intros i s bs Hb Hi Hnd Hp; cbn [free_loop]; [exists (u_pages s); by destruct s|].
  destruct (lookup_lt_is_Some_2 bs i ltac:(lia)) as [x Hx]. rewrite (st_bind_some _ _ _ _ _ (slot_at_eq s bs i x Hb Hx)).
  destruct (Hp i x Hx) as [Hpg Hc]. destruct (Hc ltac:(lia)) as [c Hc']. rewrite Hpg.
  assert (E : free_pages (data x) s = Some (tt, set_pages (delete (data x) (u_pages s)) s)).
  { unfold free_pages. rewrite st_bind_assoc, st_bind_gets. unfold mbind, st_bind, st_load. by rewrite Hc'. }
  rewrite (st_bind_some _ _ _ _ _ E). destruct (IH (S i) (set_pages (delete (data x) (u_pages s)) s) bs Hb ltac:(lia) Hnd) as [pg ->]; [|by exists pg].
  intros j y Hy. destruct (Hp j y Hy) as [Hy1 Hy2]. split; [done|]. intros Hij. cbn [set_pages u_pages].
  rewrite lookup_delete_ne; [apply Hy2; lia|]. intros E'. assert (i = j); [|lia].
  apply (NoDup_lookup (map data bs) i j (data x)); [done| |]; change (map data) with (fmap (M:=list) data); rewrite list_lookup_fmap, ?Hx, ?Hy; cbn; congruence.
Qed.

Lemma release_life s n : life (s, S n) -> exists r s', mhi_uci_release s = Some (r, s') /\ life (s', n).
Proof.
  intros [[_ ?]|[(en & H & _)|[_ ?]]]; [done| |done]. unfold mhi_uci_release.
  rewrite (st_bind_some _ _ _ _ _ (live_opened _ _ _ _ H)), st_bind_modify, st_bind_gets. cbn [set_ref ref_count].
  pose proof (op_refs _ _ _ _ H) as (R1 & R2 & R3 & R4). rewrite R3.
  replace (Z.of_nat (S n) + (if en then 1 else 0) - 1) with (Z.of_nat n + (if en then 1 else 0)) by lia.
  destruct H as [Hb Hk _]. set (s1 := set_ref _ s).
  assert (Hb1 : bufs_ok s1) by (apply (bufs_same s); [done| |done]; exact (bufs_slots s Hb)).
  destruct (Z.eqb_spec (Z.of_nat n + (if en then 1 else 0)) 0) as [Hz|Hz].
  - assert (en = false /\ n = O) as [-> ->] by (destruct en; lia). rewrite st_bind_gets. change (enabled s1) with (enabled s).
    rewrite R2. cbn match. rewrite st_bind_ret. destruct Hb1 as (bs & l & B1 & (B2 & B3 & B4) & B5 & _).
    destruct (free_loop_safe (length bs) 0 s1 bs B1 eq_refl B3) as [pg Efr].
    { intros j x Hx. split; [exact (proj2 (B2 j x Hx))|]. intros _. by eapply B4. }
    assert (E : free_bufs s1 = Some (tt, set_buf Dangling (set_pages pg s1))).
    { unfold free_bufs. rewrite st_bind_gets, B1, st_bind_gets, B5. by rewrite (st_bind_some _ _ _ _ _ Efr). }
    rewrite (st_bind_some _ _ _ _ _ E), !st_bind_modify. eexists _, _. split; [done|]. right. right. split; [|done].
    split_and!; [done|exact R2|exact (R4 eq_refl)|]. apply no_blocks; [exact Hk|exact (R4 eq_refl true)].
  - eexists _, _. split; [done|]. right. left. exists en. split; [|intros ->; lia].
    split; [done|exact Hk|split_and!; [done|done|done|done]].
Qed.

Lemma remove_fresh s : fresh s -> exists s', event EvRemove s = Some (tt, s') /\ gone s'.
Proof.
  intros (F1 & F2 & F3 & _ & _ & _ & F7 & F8). cbn [event]. rewrite st_bind_gets, F2.
  destruct (tq_drain_same false (u_q s) [] (F8 false)) as [El Hl]. pose proof (tq_drain_other false true (u_q s) [] ltac:(done) (F8 true)) as Hk.
  destruct (tq_drain false (u_q s)) as [l q1] eqn:E1. cbn [fst snd] in *. subst l.
  destruct (tq_drain_same true q1 [] Hk) as [Ek Hk2]. pose proof (tq_drain_other true false q1 [] ltac:(done) Hl) as Hl2.
  destruct (tq_drain true q1) as [k q2] eqn:E2. cbn [fst snd] in *. subst k.
  set (s1 := set_uq q2 (set_uq q1 s)). assert (Er : reset_channels s = Some (tt, s1)).
  { unfold reset_channels. unfold mbind, st_bind. rewrite E1. cbn [each]. unfold mret, st_ret. cbn [set_uq u_q]. by rewrite E2. }
  rewrite (st_bind_some _ _ _ _ _ Er). unfold mhi_uci_remove.
  assert (Hlive : live s1 = Some (tt, s1)) by (unfold live; rewrite st_bind_gets; cbn; by rewrite F1).
  rewrite (st_bind_some _ _ _ _ _ Hlive), !st_bind_modify, st_bind_gets. cbn [set_enabled ref_count set_uq s1]. rewrite F3.
  cbn [Z.ltb Z.compare set_enabled ref_count set_uq s1]. rewrite ?F3. cbn [Z.eqb]. eexists. split; [done|].
  split_and!; [done|done| |exact F7]. intros d. by destruct d.
Qed.

Lemma completion_idle d st n s : tq_held d (u_q s) [] -> completion d st n s = Some (None, s).
Proof. intros Hq. unfold completion. pose proof (tq_done_same d st n (u_q s) [] Hq) as ->. done. Qed.

(** Nothing happens to a device whose channels are empty but its removal. *)
Lemma event_idle e s : (forall d, tq_held d (u_q s) []) -> e <> EvRemove -> event e s = Some (tt, s).
Proof.
  intros Hq Hne. destruct e as [at_ st p|st n|]; cbn [event]; [| |done].
  - by rewrite (st_bind_some _ _ _ _ _ (completion_idle false st _ s (Hq false))).
  - by rewrite (st_bind_some _ _ _ _ _ (completion_idle true st n s (Hq true))).
Qed.

Lemma event_life s files e : life (s, files) -> exists s', event e s = Some (tt, s') /\ life (s', files).
Proof.
  assert (He : e = EvRemove \/ e <> EvRemove) by (destruct e; [right|right|left]; done).
  intros [[Hf ->]|[(en & H & Hen)|[Hg ->]]].
  - destruct He as [->|Hne].
    + destruct (remove_fresh s Hf) as (s' & E & Hg). exists s'. split; [done|]. right. by right.
    + exists s. rewrite event_idle by (done || apply Hf). split; [done|by left].
  - destruct files as [|n].
    + destruct en; [|specialize (Hen eq_refl); lia]. destruct He as [->|Hne].
      * destruct (event_remove_safe [] 0 s H) as (s' & E & Hg). exists s'. split; [done|]. right. right. split; [by apply Hg|done].
      * destruct (event_safe [] 0 e s true H) as (s' & en' & E & H' & Hen'); [by right|]. exists s'. split; [done|].
        right. left. exists en'. split; [done|]. intros ->. by destruct (Hen' eq_refl).
    + destruct (event_safe [] (S n) e s en H) as (s' & en' & E & H' & _); [left; lia|]. exists s'. split; [done|].
      right. left. exists en'. split; [done|]. lia.
  - exists s. split; [|by right; right]. destruct He as [->|Hne]; [|by apply event_idle; [apply Hg|]].
    cbn [event]. rewrite st_bind_gets. destruct Hg as (_ & -> & _). done.
Qed.

Lemma life_files s n : life (s, S n) -> alive [] (S n) s.
Proof. intros [[_ ?]|[(en & H & _)|[_ ?]]]; [done|by exists en|done]. Qed.

Lemma alive_life s n : alive [] (S n) s -> life (s, S n).
Proof. intros [en H]. right. left. exists en. split; [done|]. lia. Qed.

Lemma step_life start o x :
  (forall q, (forall d, tq_held d q []) -> forall d, tq_held d (snd (start q)) []) ->
  life x -> fills start o (fst x) -> exists x', uci_step start o x = Some x' /\ life x'.
Proof.
  intros Hst Hl Hf. destruct x as [s files]. cbn [fst] in Hf.
  destruct o as [array pages| |i nb v t n|i nb turns buf| |core cmd|e]; cbn [uci_step].
  - destruct (enabled s) eqn:En; [|by eexists].
    destruct (open_life start array pages s files Hst Hl En Hf) as (r & s' & -> & H). by eexists.
  - destruct files as [|k]; [by eexists|]. destruct (release_life s k Hl) as (r & s' & -> & H). by eexists.
  - destruct files as [|k]; [by eexists|]. apply life_files in Hl.
    destruct (read_mutex_safe [] (S k) i nb v t n s ltac:(lia) Hl) as (r & s' & -> & H). eexists. split; [done|by apply alive_life].
  - destruct files as [|k]; [by eexists|]. apply life_files in Hl.
    destruct (write_mutex_safe (S k) i nb turns buf s ltac:(lia) Hl) as (r & s' & -> & H). eexists. split; [done|by apply alive_life].
  - destruct files as [|k]; [by eexists|]. pose proof (life_files _ _ Hl) as Ha.
    destruct (poll_safe [] (S k) s Ha) as (r & ->). by eexists.
  - destruct files as [|k]; [by eexists|]. apply life_files in Hl.
    destruct (ioctl_safe [] (S k) core cmd s Hl) as (r & s' & -> & H). eexists. split; [done|by apply alive_life].
  - destruct (event_life s files e Hl) as (s' & -> & H). by eexists.
Qed.

(** Every first open of a run fills its ring. *)
Fixpoint run_fills (start : Q -> Z * Q) (os : list uci_op) (x : uci Q * nat) : Prop :=
  match os with
  | [] => True
  | o :: os => fills start o (fst x) /\ forall x', uci_step start o x = Some x' -> run_fills start os x'
  end.

(** C17. A character device is memory safe over its whole life: from its
    registration on, whatever opens, closes, reads, writes, polls, control calls,
    callbacks and removal come, in any order, with events in the middle of calls and
    every failure of the writers' allocations, copies and transfers, the code never
    uses a freed device, a freed or uninitialised buffer or a page it does not own
    and frees nothing twice, provided the first open can fill its ring; and a device
    that is freed is freed with no file open and no writer's block left. *)
Theorem uci_memory_safe start os q mtu id ul std :
  (forall q, (forall d, tq_held d q []) -> forall d, tq_held d (snd (start q)) []) ->
  (forall d, tq_held d q []) -> run_fills start os (new_uci q mtu id ul std, O) ->
  exists s files, uci_run start os (new_uci q mtu id ul std, O) = Some (s, files) /\
    (u_freed s = true -> files = O /\ u_kbufs s = ∅).
Proof.
  intros Hst Hq Hf. assert (Hl : life (new_uci q mtu id ul std, O)) by (left; by repeat split).
  revert Hf Hl. generalize (new_uci q mtu id ul std, O). clear Hq. induction os as [|o os IH]; intros x Hf Hl; cbn [uci_run].
  - destruct x as [s files]. exists s, files. split; [done|]. intros Hfr.
    destruct Hl as [[(F & _) _]|[(en & [_ _ (F & _)] & _)|[(_ & _ & _ & Hk) ->]]]; [congruence|congruence|done].
  - destruct Hf as [Hf1 Hf2]. destruct (step_life start o x Hst Hl Hf1) as (x1 & E1 & H1). rewrite E1. cbn [mbind option_bind].
    by apply IH; [apply Hf2|].
Qed.
End Life.

#[local] Existing Instance ex_queue.

(** A life: opened, written to with a removal in the middle of the write, closed. *)
Definition ex_life_ops : list uci_op :=
  [OpOpen true ex_pages; ex_dl [1; 2]; ex_read 1;
   OpWrite false true (fun _ => WriteTurn [] false (Some 7) 0 [EvUl 0 4]) (Some [1; 2; 3]);
   OpWrite false true (fun _ => WriteTurn [] false (Some 9) 0 [EvRemove]) (Some [4]); OpRelease; ex_dl [3]].

Lemma ex_life_fills : run_fills ex_start ex_life_ops (ex_new 5, O).
Proof.
  cbn [run_fills ex_life_ops]. split.
  { intros _ _ _. destruct (mhi_queue_inbound true ex_pages _) as [[r s']|] eqn:E; [|vm_compute in E; discriminate].
    exists s'. assert (r = 0) as -> by (vm_compute in E; by injection E). done. }
  repeat (intros ? _; split; [exact I|]). done.
Qed.

Lemma uci_memory_safe_witness : exists s,
  uci_run ex_start ex_life_ops (ex_new 5, O) = Some (s, O) /\ u_freed s = true /\ u_kbufs s = ∅.
Proof.
  destruct (uci_memory_safe ex_start ex_life_ops ex_pair 0x1000 5 true [] (fun q Hq d => Hq d) ex_pair_held ex_life_fills)
    as (s & files & E & H).
  assert (Hf : u_freed s = true).
  { change (new_uci ex_pair 0x1000 5 true []) with (ex_new 5) in E. vm_compute in E. injection E as <- _. reflexivity. }
  destruct (H Hf) as [-> Hk]. exists s. exact (conj E (conj Hf Hk)).
Defined.

(** ** Writing *)

Definition written (log : list uci_note) : list (Z * bytes) :=
  omap (fun x => match x with Wr f d => Some (f, d) | _ => None end) log.

(** [buf] is cut into transfers of [mtu] bytes, the last one shorter and the end
    of its chain; [rest] is what was not sent. *)
Inductive cut (mtu : nat) : list (Z * bytes) -> bytes -> bytes -> Prop :=
| cut_stop buf : cut mtu [] buf buf
| cut_more f ws buf rest :
    buf <> [] -> f = MHI_EOT \/ f = MHI_CHAIN -> (drop mtu buf = [] -> f = MHI_EOT) ->
    cut mtu ws (drop mtu buf) rest -> cut mtu ((f, take mtu buf) :: ws) buf rest.

Lemma cut_bytes mtu ws buf rest : cut mtu ws buf rest -> concat (map snd ws) ++ rest = buf.
Proof.
  induction 1 as [|f ws buf rest _ _ _ _ IH]; [done|]. cbn [map concat snd]. by rewrite <- app_assoc, IH, take_drop.
Qed.

Section Writing.
Context {Q : Type} {tq : TransferQueue Q}.
Implicit Types s : uci Q.

(** What a writer relies on while it has dropped the lock. *)
Definition unsent (s s' : uci Q) : Prop := u_mtu s' = u_mtu s /\ written (u_log s') = written (u_log s).

#[global] Instance unsent_preorder : PreOrder unsent.
Proof. split; [by intros s|]. intros s1 s2 s3 [A1 B1] [A2 B2]. split; congruence. Qed.

Ltac unsent1 := first [st_walk1 | solve [repeat split_match; by split]].

Lemma unsent_slot_at i : st_rel unsent (slot_at i).
Proof. unfold slot_at, bufs. repeat unsent1. Qed.
Lemma unsent_live : st_rel unsent live.
Proof. intros s u s' [-> _]%live_inv. done. Qed.
Lemma unsent_kfree a : st_rel unsent (kfree a).
Proof. unfold kfree. repeat unsent1. Qed.
Lemma unsent_put d b n f : st_rel unsent (mhi_queue_transfer (Q := Q) d b n f).
Proof. intros s x s'. unfold mhi_queue_transfer. destruct (tq_put d b n f (u_q s)). by intros [= <- <-]. Qed.
Lemma unsent_rx d : st_rel unsent (note (Rx d)).
Proof. unfold note. st_walk1. split; [done|]. cbn. unfold written. rewrite omap_app. cbn. by rewrite app_nil_r. Qed.
#[local] Hint Resolve unsent_slot_at unsent_live unsent_kfree unsent_put unsent_rx : uci.

Lemma unsent_dl_cb atomic a st n : st_rel unsent (mhi_dl_xfer_cb atomic a st n).
Proof.
  unfold mhi_dl_xfer_cb, deliver, deliver_copy, deliver_slot, recycle_slot, put_slot, page_bytes, bufs.
  repeat first [solve [auto with uci] | unsent1].
Qed.

Lemma unsent_each {A} (f : A -> st (uci Q) unit) l : (forall x, st_rel unsent (f x)) -> st_rel unsent (each f l).
Proof. intros Hf. induction l as [|x l IH]; cbn [each]; st_walk1; auto. Qed.

Lemma unsent_drain d : st_rel unsent (fun s : uci Q => let '(l, q) := tq_drain d (u_q s) in Some (l, set_uq q s)).
Proof. intros s y s'. destruct (tq_drain d (u_q s)). by intros [= <- <-]. Qed.

Lemma unsent_completion d st n : st_rel unsent (completion (Q := Q) d st n).
Proof. intros s o s'. unfold completion. destruct (tq_done d st n (u_q s)) as [[b q]|]; by intros [= <- <-]. Qed.

Lemma unsent_event e : st_rel unsent (event e).
Proof.
  destruct e; cbn [event]; unfold dma_write, reset_channels, mhi_uci_remove, mhi_ul_xfer_cb;
  repeat first [apply unsent_completion | apply unsent_dl_cb | apply unsent_drain | apply unsent_each; intros ?
               | solve [auto with uci] | unsent1].
Qed.

Lemma unsent_events es s u s' : events es s = Some (u, s') -> unsent s s'.
Proof. apply unsent_each, unsent_event. Qed.

Lemma kmalloc_unsent a s o s' : kmalloc a s = Some (o, s') -> unsent s s'.
Proof. unfold kmalloc. destruct a as [a|]; [destruct (u_kbufs s !! a)|]; by intros [= <- <-]. Qed.

(** [mhi_queue_transfer] returns 0 or a negative code. *)
Definition put_codes : Prop := forall d b l f q, fst (tq_put (Q := Q) d b l f q) <= 0.

(** A turn that does not send: it sleeps, or returns an error. *)
Definition stopped (t : write_turn) (s : uci Q) (r : io_result) (s' : uci Q) : Prop :=
  unsent s s' /\ match r with Waits => t_signal t = false | Done x => t_fault t = 0 -> put_codes -> x < 0 end.

Definition sent_next (nonblock : bool) (turns : nat -> write_turn) (fuel : nat) (buf : bytes) (n : nat) (s : uci Q)
    (r : io_result) (s' : uci Q) : Prop :=
  let mtu := Z.to_nat (u_mtu s) in
  exists f s1, (f = MHI_EOT \/ f = MHI_CHAIN) /\ (drop mtu buf = [] -> f = MHI_EOT) /\ u_mtu s1 = u_mtu s /\
    written (u_log s1) = written (u_log s) ++ [(f, take mtu buf)] /\
    write_loop fuel nonblock turns (drop mtu buf) (n + Nat.min (length buf) mtu) s1 = Some (r, s').

Lemma min_take {A} (l : list A) m : take (Nat.min (length l) m) l = take m l /\ drop (Nat.min (length l) m) l = drop m l.
Proof.
  destruct (Nat.le_gt_cases (length l) m).
  - rewrite !take_ge, !drop_ge by lia. done.
  - rewrite Nat.min_r by lia. done.
Qed.

(** The part of a turn that has a block. *)
Lemma send_cases nonblock turns fuel buf n s s1 s2 kbuf avail r s' :
  unsent s s2 -> u_mtu s1 = u_mtu s ->
  (let t := turns fuel in let size := Nat.min (length buf) (Z.to_nat (u_mtu s1)) in
   if negb (t_fault t =? 0) then kfree kbuf ≫= (fun _ => mret (Done (t_fault t)))
   else
     let chunk := take size buf in
     _ ← st_modify (fun s => set_kbufs (<[kbuf := chunk]> (u_kbufs s)) s);
     _ ← events (t_lock t);
     let flags := if (1 <? avail) && negb (length buf - size =? 0)%nat then MHI_CHAIN else MHI_EOT in
     en ← st_gets enabled;
     ret ← (if (en : bool) then mhi_queue_transfer true kbuf (Z.of_nat size) flags else mret (- ERESTARTSYS));
     if negb (ret =? 0) then kfree kbuf ≫= (fun _ => mret (Done ret))
     else _ ← note (Wr flags chunk); write_loop fuel nonblock turns (drop size buf) (n + size)) s2 = Some (r, s') ->
  stopped (turns fuel) s r s' \/ sent_next nonblock turns fuel buf n s r s'.
Proof.
  intros Hu Hm H. cbv zeta in H. destruct (min_take buf (Z.to_nat (u_mtu s1))) as [Et Ed]. rewrite Et, Ed in H. rewrite Hm in *.
  set (mtu := Z.to_nat (u_mtu s)) in *. set (size := Nat.min (length buf) mtu) in *.
  destruct (Z.eqb_spec (t_fault (turns fuel)) 0) as [Ef|Ef]; cbn [negb] in H.
  2: { left. apply st_bind_inv in H as (u & s3 & H3%unsent_kfree & H). apply st_ret_inv in H as [-> ->]. split; [by etrans|done]. }
  rewrite st_bind_modify in H. apply st_bind_inv in H as (u & s4 & H4%unsent_events & H).
  rewrite st_bind_gets in H. cbn beta in H. assert (H4' : unsent s s4) by (etrans; [exact Hu|exact H4]). clear H4.
  set (f := if _ : bool then MHI_CHAIN else MHI_EOT) in H. apply st_bind_inv in H as (ret & s5 & H5 & H).
  assert (Hp : unsent s s5 /\ (put_codes -> ret <= 0)).
  { destruct (enabled s4); [|apply st_ret_inv in H5 as [-> ->]; split; [done|intros _; done]].
    split; [etrans; [exact H4'|by eapply unsent_put]|]. intros Hc. unfold mhi_queue_transfer in H5.
    specialize (Hc true kbuf (Z.of_nat size) f (u_q s4)). destruct (tq_put _ _ _ _ _). injection H5 as <- _. exact Hc. }
  destruct Hp as [Hu5 Hc]. destruct (Z.eqb_spec ret 0) as [->|Hr]; cbn [negb] in H.
  - right. unfold note in H. st_run H. destruct Hu5 as [M5 W5]. exists f. eexists. split_and!; [| | | |exact H].
    + unfold f. destruct (_ && _); [by right|by left].
    + intros Hd. apply (f_equal length) in Hd. rewrite length_drop in Hd. cbn in Hd. unfold f, size.
      rewrite (proj2 (Nat.eqb_eq (length buf - Nat.min (length buf) mtu) 0)) by lia. by rewrite andb_false_r.
    + exact M5.
    + cbn. unfold written in *. rewrite omap_app, W5. done.
  - left. apply st_bind_inv in H as (u2 & s6 & H6%unsent_kfree & H). apply st_ret_inv in H as [-> ->].
    split; [by etrans|]. intros _ Hpc. specialize (Hc Hpc). lia.
Qed.

Lemma write_turn_cases nonblock turns fuel buf n s r s' :
  buf <> [] -> write_loop (S fuel) nonblock turns buf n s = Some (r, s') ->
  stopped (turns fuel) s r s' \/ sent_next nonblock turns fuel buf n s r s'.
Proof.
  intros Hne H. destruct buf as [|z buf]; [done|]. cbn [write_loop] in H. unfold to_dev_room in H. st_run H.
  destruct (_ && nonblock); [apply st_ret_inv in H as [-> ->]; left; by split|].
  apply st_bind_inv in H as (u & s1 & E1%unsent_events & H). st_run H.
  destruct (enabled s1 && negb (0 <? tq_room true (u_q s1)) && _) eqn:Ew.
  { apply st_ret_inv in H as [-> ->]. left. split; [done|]. by destruct (t_signal (turns fuel)); [rewrite andb_false_r in Ew|]. }
  destruct (_ || _); [apply st_ret_inv in H as [-> ->]; left; by split|]. st_run H.
  apply st_bind_inv in H as (o & s2 & E2%kmalloc_unsent & H). assert (E12 : unsent s s2) by (by etrans).
  destruct o as [kbuf|]; [|apply st_ret_inv in H as [-> ->]; left; by split].
  by apply (send_cases nonblock turns fuel (z :: buf) n s s1 s2 kbuf (tq_room true (u_q s1))); [|apply E1|].
Qed.

Lemma write_loop_cut nonblock turns fuel : forall buf n s r s',
  0 < u_mtu s -> (length buf <= fuel)%nat -> write_loop fuel nonblock turns buf n s = Some (r, s') ->
  exists ws rest, written (u_log s') = written (u_log s) ++ ws /\ cut (Z.to_nat (u_mtu s)) ws buf rest /\
    match r with
    | Waits => exists i, t_signal (turns i) = false
    | Done x => (forall i, t_fault (turns i) = 0) -> put_codes -> x < 0 \/ (rest = [] /\ x = Z.of_nat (n + length buf))
    end.
Proof.
  induction fuel as [|fuel IH]; intros buf n s r s' Hm Hf H.
  all: destruct buf as [|z buf]; [apply st_ret_inv in H as [-> ->]; exists [], []; rewrite app_nil_r;
         split_and!; [done|constructor|intros _ _; right; split; [done|cbn; lia]]|].
  { cbn in Hf. lia. }
  apply write_turn_cases in H; [|done]. destruct H as [[[Hmt Hw] Hr]|(f & s1 & Hf1 & Hf2 & Hm1 & Hw1 & H)].
  - exists [], (z :: buf). rewrite app_nil_r. split_and!; [done|constructor|].
    destruct r as [x|]; [intros Hz Hp; left; by apply Hr|by eexists].
  - rewrite <- Hm1 in Hm. apply IH in H as (ws & rest & Hw & Hc & Hr); [|done|rewrite length_drop; cbn in *; lia].
    exists ((f, take (Z.to_nat (u_mtu s)) (z :: buf)) :: ws), rest. rewrite Hm1 in *. split_and!.
    + rewrite Hw, Hw1, <- app_assoc. done.
    + by constructor.
    + destruct r as [x|]; [|done]. intros Hz Hp. destruct (Hr Hz Hp) as [|[Hre Hx]]; [by left|right]. split; [done|].
      rewrite Hx, length_drop. f_equal. lia.
Qed.

(** A write hands the caller's bytes to the outbound channel in order and in
    transfers of the device's size, the last one ending its chain; whichever way it
    ends, what was handed over is a prefix of the caller's bytes; a call that meets
    no fault and returns a non-negative number has handed over all of them and
    returns how many there were; and it only sleeps on when no signal comes. *)
Theorem uci_write_cut nonblock turns buf s r s' :
  0 < u_mtu s -> mhi_uci_write nonblock turns (Some buf) s = Some (r, s') ->
  exists ws rest, written (u_log s') = written (u_log s) ++ ws /\ cut (Z.to_nat (u_mtu s)) ws buf rest /\
    concat (map snd ws) ++ rest = buf /\
    match r with
    | Waits => exists i, t_signal (turns i) = false
    | Done x => (forall i, t_fault (turns i) = 0) -> put_codes -> x < 0 \/ (rest = [] /\ x = Z.of_nat (length buf))
    end.
Proof.
  intros Hm H. unfold mhi_uci_write in H. apply st_bind_inv in H as (u & s0 & [-> _]%live_inv & H). st_run H.
  assert (Hstop : forall x, x < 0 -> exists ws rest, written (u_log s) = written (u_log s) ++ ws /\
    cut (Z.to_nat (u_mtu s)) ws buf rest /\ concat (map snd ws) ++ rest = buf /\
    ((forall i, t_fault (turns i) = 0) -> put_codes -> x < 0 \/ (rest = [] /\ x = Z.of_nat (length buf)))).
  { intros x Hx. exists [], buf. rewrite app_nil_r. split_and!; [done|constructor|done|by left]. }
  destruct buf as [|z buf]; [apply st_ret_inv in H as [-> ->]; by apply Hstop|].
  destruct (negb _); [apply st_ret_inv in H as [-> ->]; by apply Hstop|]. st_run H.
  destruct (negb _); [apply st_ret_inv in H as [-> ->]; by apply Hstop|].
  apply write_loop_cut in H as (ws & rest & Hw & Hc & Hr); [|done|done]. exists ws, rest.
  split_and!; [done|done|by eapply cut_bytes|done].
Qed.
End Writing.

(** A device with transfers of two bytes. *)
Definition ex_small : uci chan_pair :=
  from_option snd (new_uci ex_pair 2 5 true []) (mhi_uci_open ex_start true ex_pages (new_uci ex_pair 2 5 true [])).
Definition ex_turns (i : nat) : write_turn := WriteTurn [] true (Some (Z.of_nat i)) 0 [].

Lemma ex_codes : put_codes (Q := chan_pair).
Proof.
  intros d b l f q. change (fst (pair_put ex_map d b l f q) <= 0). unfold pair_put, mhi_queue_buf, mhi_gen_tre.
  split_match; [done|]. split_match; [done|]. cbn. by destruct (db_if_valid _ _).
Qed.

Lemma uci_write_cut_witness : exists s' ws,
  mhi_uci_write false ex_turns (Some [1; 2; 3]) ex_small = Some (Done 3, s') /\ written (u_log s') = ws /\
  cut 2 ws [1; 2; 3] [] /\ concat (map snd ws) = [1; 2; 3].
Proof.
  destruct (mhi_uci_write false ex_turns (Some [1; 2; 3]) ex_small) as [[r s']|] eqn:E; [|vm_compute in E; discriminate].
  assert (Er : r = Done 3) by (vm_compute in E; by injection E). subst r.
  destruct (uci_write_cut false ex_turns [1; 2; 3] ex_small (Done 3) s' eq_refl E) as (ws & rest & Hw & Hc & Hb & Hr).
  destruct (Hr (fun _ => eq_refl) ex_codes) as [Hx|[-> _]]; [discriminate Hx|]. rewrite app_nil_r in Hb.
  exists s', ws. split; [reflexivity|]. split; [exact Hw|]. split; [exact Hc|exact Hb].
Defined.

(** A fault of the caller's memory in the second transfer: the call returns the
    number of bytes it could not copy as if it had written them, and the first
    transfer stays in the ring with its chain open. *)
Theorem write_fault_opens_chain :
  option_map (fun '(r, s) => (r, written (u_log s)))
    (mhi_uci_write false (fun i => if (i =? 3)%nat then ex_turns i else WriteTurn [] true (Some 9) 2 []) (Some [1; 2; 3; 4]) ex_small) =
  Some (Done 2, [(MHI_CHAIN, [1; 2])]).
Proof. vm_compute. reflexivity. Qed.

(** A write that cannot wait returns [-EAGAIN] although its first three transfers
    are in the ring. *)
Theorem short_write_unreported :
  option_map (fun '(r, s) => (r, concat (map snd (written (u_log s)))))
    (mhi_uci_write true ex_turns (Some [1; 2; 3; 4; 5; 6; 7]) ex_small) = Some (Done (- EAGAIN), [1; 2; 3; 4; 5; 6]).
Proof. vm_compute. reflexivity. Qed.

(** ** Minor numbers *)

Section Minors.
Context {Q : Type} {tq : TransferQueue Q}.
Implicit Types D : mhi_uci_drv Q.

(** The bits set are the minor numbers of the allocated devices, each of one. *)
Definition minors_ok (D : mhi_uci_drv Q) : Prop :=
  (forall m, m ∈ drv_minors D <-> exists id u, drv_objs D !! id = Some (m, u)) /\
  (forall id id' m u u', drv_objs D !! id = Some (m, u) -> drv_objs D !! id' = Some (m, u') -> id = id').

Lemma first_zero_free (m : gset nat) n : (find_first_zero_bit m n < n)%nat -> find_first_zero_bit m n ∉ m.
Proof.
  unfold find_first_zero_bit. destruct (filter (fun i => i ∉ m) (seq 0 n)) as [|i l] eqn:E; cbn; [lia|]. intros _.
  assert (Hi : i ∈ filter (fun i => i ∉ m) (seq 0 n)) by (rewrite E; by left).
  by apply list_elem_of_filter in Hi as [Hi _].
Qed.

Lemma put_obj_ok id m u0 u D : minors_ok D -> drv_objs D !! id = Some (m, u0) -> minors_ok (put_obj id m u D).
Proof.
  intros [H1 H2] Hid. unfold put_obj. destruct (u_freed u); split; cbn [drv_minors drv_objs].
  - intros k. rewrite elem_of_difference, H1, elem_of_singleton. split.
    + intros [(j & v & Hj) Hk]. exists j, v. rewrite lookup_delete_ne; [done|]. intros ->. congruence.
    + intros (j & v & Hj). apply lookup_delete_Some in Hj as [Hne Hj]. split; [by exists j, v|]. intros ->. apply Hne. by eapply H2.
  - intros i j k v v' [_ Hi]%lookup_delete_Some [_ Hj]%lookup_delete_Some. by eapply H2.
  - intros k. rewrite H1. split.
    + intros (j & v & Hj). destruct (decide (j = id)) as [->|Hne].
      * exists id, u. rewrite lookup_insert_eq. congruence.
      * exists j, v. by rewrite lookup_insert_ne.
    + intros (j & v & Hj). apply lookup_insert_Some in Hj as [[_ Ej]|[_ Hj]]; [injection Ej as <- _; by exists id, u0|by exists j, v].
  - intros i j k v v' Hi Hj. apply lookup_insert_Some in Hi, Hj.
    destruct Hi as [[<- Ei]|[Hni Hi]], Hj as [[<- Ej]|[Hnj Hj]]; [done|injection Ei as <- _|injection Ej as <- _|]; by eapply H2.
Qed.

(** A registration gives the device a minor number nobody has, or fails and leaves
    everything as it was; a call on a device, an open by its number included, keeps
    the numbers exact, so that the number of a freed device is free again. *)
Theorem uci_minors_exact D :
  minors_ok D ->
  (forall alloc q dd mtu id ul std,
     let '(ret, D') := mhi_uci_probe alloc q dd mtu id ul std D in
     minors_ok D' /\ (ret <> 0 -> D' = D) /\
     (ret = 0 -> exists i m u, alloc = Some i /\ drv_objs D !! i = None /\ drv_objs D' !! i = Some (m, u) /\
                               m ∉ drv_minors D /\ (m < MAX_UCI_DEVICES)%nat)) /\
  (forall A id (m : st (uci Q) A) x D', drv_call id m D = Some (x, D') -> minors_ok D') /\
  (forall start array pages minor r D', drv_open start array pages minor D = Some (r, D') -> minors_ok D').
Proof.
  intros HD. split_and!.
  - intros alloc q dd mtu id ul std. unfold mhi_uci_probe. destruct alloc as [i|]; [|by split_and!].
    case_bool_decide as Hi; [by split_and!|]. destruct (Nat.leb_spec MAX_UCI_DEVICES (find_first_zero_bit (drv_minors D) MAX_UCI_DEVICES)) as [Hge|Hlt];
      [by split_and!|]. set (m := find_first_zero_bit _ _) in *. apply eq_None_not_Some in Hi.
    pose proof (first_zero_free (drv_minors D) MAX_UCI_DEVICES Hlt) as Hm. fold m in Hm. destruct HD as [H1 H2]. split_and!; [|done|].
    + split; cbn [drv_minors drv_objs].
      * intros k. rewrite elem_of_union, elem_of_singleton, H1. split.
        -- intros [(j & v & Hj)| -> ]; [exists j, v; rewrite lookup_insert_ne; [done|congruence]|].
           exists i. eexists. by rewrite lookup_insert_eq.
        -- intros (j & v & Hj). apply lookup_insert_Some in Hj as [[_ [= <- _]]|[_ Hj]]; [by right|left; by exists j, v].
      * intros a b k v v' Ha Hb. apply lookup_insert_Some in Ha, Hb.
        destruct Ha as [[<- Ea]|[_ Ha]], Hb as [[<- Eb]|[_ Hb]]; [done|..].
        -- injection Ea as <- _. exfalso. apply Hm. rewrite H1. by exists b, v'.
        -- injection Eb as <- _. exfalso. apply Hm. rewrite H1. by exists a, v.
        -- by eapply H2.
    + intros _. eexists i, m, _. split_and!; [done|done|cbn; by rewrite lookup_insert_eq|done|done].
  - intros A id m x D' H. unfold drv_call in H. destruct (drv_objs D !! id) as [[k u]|] eqn:E; [|done]. cbn in H.
    destruct (m u) as [[y u']|]; [|done]. injection H as _ <-. by eapply put_obj_ok.
  - intros start array pages minor r D' H. unfold drv_open in H. destruct (drv_find minor D) as [id|]; [|by injection H as _ <-].
    destruct (drv_objs D !! id) as [[k u]|] eqn:E; [|done]. cbn in H.
    destruct (mhi_uci_open start array pages u) as [[y u']|]; [|done]. injection H as _ <-. by eapply put_obj_ok.
Qed.
End Minors.
