(* ===== verification/MhiMem.v ===== *)
(** * Kernel memory of the MHI core: coherent blocks and heap objects

    The allocations the controller shares with the modem
    (core/mhi_internal.h: mhi_alloc_coherent, mhi_free_coherent) and the
    structures on the kernel heap that describe them.

    A coherent block has a kernel address, a bus address and bytes; the device
    reaches it by the bus address, the driver by the kernel address.  What the
    allocators answer is an argument of each call: an address that is in use is
    the same as no memory.  Leaving a block, using memory that is not allocated,
    freeing it twice or with another size is a failure of the [st] monad.

    [held m0 l m] says that [m] is the memory [m0] with the blocks [l] on top:
    the allocations of a component are described by its list of blocks, and
    everything else is as it was. *)

From S2P Require Import Prelude CLib.

(** The members of [struct mhi_buf] the core uses; a zeroed one is [mhi_buf0]. *)
Record mhi_buf := MhiBuf { mb_buf : Z; mb_dma : Z; mb_len : Z }.
Definition mhi_buf0 : mhi_buf := MhiBuf 0 0 0.

(** [mhi_buf], [bhi_vec] and [entries]. *)
Record image_info := ImageInfo { ii_bufs : Z; ii_vec : Z; ii_entries : Z }.

(** [ctrl_seg], its bus address. *)
Record mhi_ctxt := MhiCtxt { mc_ctrl_seg : Z; mc_ctrl_seg_addr : Z }.

(** The objects on the heap. *)
Inductive kobj := KInfo (i : image_info) | KBufs (l : list mhi_buf) | KCtxt (c : mhi_ctxt).

(** [k_coh]: the bytes of the coherent blocks by kernel address; [k_iova]: the
    kernel address of a bus address; [k_alloc_size]: the driver's count of the
    bytes it has allocated, an [int]. *)
Record kmem := Kmem {
  k_coh : gmap Z bytes;
  k_iova : gmap Z Z;
  k_heap : gmap Z kobj;
  k_alloc_size : Z }.

Definition set_coh (m : kmem) (x : gmap Z bytes) : kmem := Kmem x (k_iova m) (k_heap m) (k_alloc_size m).
Definition set_heap (m : kmem) (x : gmap Z kobj) : kmem := Kmem (k_coh m) (k_iova m) x (k_alloc_size m).
Definition set_alloc_size (m : kmem) (x : Z) : kmem := Kmem (k_coh m) (k_iova m) (k_heap m) x.

(** ** Operations *)

#[local] Abbreviation act := (st kmem).

Definition add_block (b : mhi_buf) (m : kmem) : kmem :=
  Kmem (<[mb_buf b := replicate (Z.to_nat (mb_len b)) 0]> (k_coh m)) (<[mb_dma b := mb_buf b]> (k_iova m)) (k_heap m)
    (s32 (k_alloc_size m + mb_len b)).

Definition del_block (b : mhi_buf) (m : kmem) : kmem :=
  Kmem (delete (mb_buf b) (k_coh m)) (delete (mb_dma b) (k_iova m)) (k_heap m) (s32 (k_alloc_size m - mb_len b)).

(** [want]: the kernel and the bus address of the memory that is found, if any;
    the block is zeroed. *)
Definition mhi_alloc_coherent (want : option (Z * Z)) (size : Z) : act (option (Z * Z)) := fun m =>
  match want with
  | Some (buf, dma) =>
      if bool_decide (k_coh m !! buf = None /\ k_iova m !! dma = None)
      then Some (Some (buf, dma), add_block (MhiBuf buf dma size) m) else Some (None, m)
  | None => Some (None, m)
  end.

Definition mhi_free_coherent (size vaddr dma_handle : Z) : act unit := fun m =>
  match k_coh m !! vaddr with
  | Some d =>
      if bool_decide (zlen d = size /\ k_iova m !! dma_handle = Some vaddr)
      then Some (tt, del_block (MhiBuf vaddr dma_handle size) m) else None
  | None => None
  end.

(** Storing [v] at the offset [off] of a block. *)
Definition patch (d : bytes) (off : Z) (v : bytes) : bytes := ztake off d ++ v ++ zdrop (off + zlen v) d.

Definition coh_write (buf off : Z) (v : bytes) : act unit := fun m =>
  match k_coh m !! buf with
  | Some d =>
      if (0 <=? off) && (off + zlen v <=? zlen d)
      then Some (tt, set_coh m (<[buf := patch d off v]> (k_coh m))) else None
  | None => None
  end.

(** [kzalloc], [kcalloc]: [want] is the address that is found. *)
Definition kalloc (want : option Z) (o : kobj) : act (option Z) := fun m =>
  match want with
  | Some a => match k_heap m !! a with
              | None => Some (Some a, set_heap m (<[a := o]> (k_heap m)))
              | Some _ => Some (None, m) end
  | None => Some (None, m)
  end.

Definition kfree (a : Z) : act unit := fun m =>
  match k_heap m !! a with Some _ => Some (tt, set_heap m (delete a (k_heap m))) | None => None end.

Definition info_at (a : Z) : act image_info :=
  h ← st_gets k_heap; st_load (match h !! a with Some (KInfo i) => Some i | _ => None end).
Definition bufs_at (a : Z) : act (list mhi_buf) :=
  h ← st_gets k_heap; st_load (match h !! a with Some (KBufs l) => Some l | _ => None end).
Definition ctxt_at (a : Z) : act mhi_ctxt :=
  h ← st_gets k_heap; st_load (match h !! a with Some (KCtxt c) => Some c | _ => None end).
Definition put_obj (a : Z) (o : kobj) : act unit := st_modify (fun m => set_heap m (<[a := o]> (k_heap m))).

(** [p[i]] of an array of [struct mhi_buf] at [a], [i] as the code computes it. *)
Definition buf_at (a i : Z) : act mhi_buf := l ← bufs_at a; st_load (zget l i).
Definition put_buf (a i : Z) (b : mhi_buf) : act unit :=
  l ← bufs_at a; _ ← st_load (zget l i); put_obj a (KBufs (<[Z.to_nat i := b]> l)).

(** ** Little-endian words *)

Fixpoint le_bytes (n : nat) (x : Z) : bytes :=
  match n with O => [] | S n => x mod 256 :: le_bytes n (x / 256) end.
Fixpoint le_val (l : bytes) : Z := match l with [] => 0 | b :: l => b + 256 * le_val l end.
Definition le64 (x : Z) : bytes := le_bytes 8 x.
#[global] Arguments le64 : simpl never.

Lemma le_bytes_length n x : length (le_bytes n x) = n.
Proof. revert x. induction n as [|n IH]; intros x; cbn; [done|by rewrite IH]. Qed.

Lemma le_val_bytes n x : le_val (le_bytes n x) = x mod 2 ^ (8 * Z.of_nat n).
Proof.
  revert x. induction n as [|n IH]; intros x; [cbn; by rewrite Z.mod_1_r|].
  cbn [le_bytes le_val]. rewrite IH.
  replace (8 * Z.of_nat (S n)) with (8 + 8 * Z.of_nat n) by lia. rewrite Z.pow_add_r by lia.
  change (2 ^ 8) with 256.
  rewrite Z.rem_mul_r by (try apply Z.pow_pos_nonneg; lia). lia.
Qed.

Lemma le64_length x : length (le64 x) = 8%nat.
Proof. apply le_bytes_length. Qed.

Lemma le64_val x : in_u 64 x -> le_val (le64 x) = x.
Proof. intros H. unfold le64. rewrite le_val_bytes. by apply wrap_small. Qed.

(** ** Blocks on top of a memory *)

Definition sizes (l : list mhi_buf) : Z := foldr (fun b n => mb_len b + n) 0 l.

Record held (m0 : kmem) (l : list mhi_buf) (m : kmem) : Prop := {
  h_blk : forall b, b ∈ l -> exists d, k_coh m !! mb_buf b = Some d /\ zlen d = mb_len b;
  h_map : forall b, b ∈ l -> k_iova m !! mb_dma b = Some (mb_buf b);
  h_bufs : NoDup (mb_buf <$> l);
  h_dmas : NoDup (mb_dma <$> l);
  h_coh : forall a, if decide (a ∈ mb_buf <$> l) then k_coh m0 !! a = None else k_coh m !! a = k_coh m0 !! a;
  h_iova : forall a, if decide (a ∈ mb_dma <$> l) then k_iova m0 !! a = None else k_iova m !! a = k_iova m0 !! a;
  h_size : k_alloc_size m = s32 (k_alloc_size m0 + sizes l) }.

(** The count is an [int]. *)
Definition kmem_ok (m : kmem) : Prop := s32 (k_alloc_size m) = k_alloc_size m.

(** Equal but for the heap. *)
Definition same_blocks (m m' : kmem) : Prop :=
  k_coh m' = k_coh m /\ k_iova m' = k_iova m /\ k_alloc_size m' = k_alloc_size m.

Lemma s32_add a b : s32 (s32 a + b) = s32 (a + b).
Proof.
  unfold swrap, wrap. assert (E : forall x, (s32 x + b) mod 2 ^ 32 = (x + b) mod 2 ^ 32); [|by rewrite <- (E a)].
  intros x. unfold swrap, wrap. destruct (_ <? _).
  - by rewrite Z.add_mod_idemp_l by lia.
  - replace (x mod 2 ^ 32 - 2 ^ 32 + b) with (x mod 2 ^ 32 + b + (-1) * 2 ^ 32) by lia.
    by rewrite Z.mod_add, Z.add_mod_idemp_l by lia.
Qed.

Lemma s32_idemp a : s32 (s32 a) = s32 a.
Proof. pose proof (s32_add a 0) as H. by rewrite !Z.add_0_r in H. Qed.

Lemma sizes_app l k : sizes (l ++ k) = sizes l + sizes k.
Proof. unfold sizes. induction l as [|b l IH]; cbn; lia. Qed.

Lemma sizes_perm l k : l ≡ₚ k -> sizes l = sizes k.
Proof. unfold sizes. intros H. induction H; cbn; lia. Qed.

Lemma held_nil m : kmem_ok m -> held m [] m.
Proof.
  intros H. split; [set_solver|set_solver|constructor|constructor|intros a|intros a|].
  - by rewrite decide_False by set_solver.
  - by rewrite decide_False by set_solver.
  - cbn. by rewrite Z.add_0_r, H.
Qed.

Lemma held_nil_inv m0 m : kmem_ok m0 -> held m0 [] m -> same_blocks m0 m.
Proof.
  intros Hok [_ _ _ _ Hc Hi Hs]. split; [|split].
  - apply map_eq. intros a. specialize (Hc a). rewrite decide_False in Hc by set_solver. done.
  - apply map_eq. intros a. specialize (Hi a). rewrite decide_False in Hi by set_solver. done.
  - rewrite Hs. cbn. by rewrite Z.add_0_r.
Qed.

Lemma held_perm m0 l k m : l ≡ₚ k -> held m0 l m -> held m0 k m.
Proof.
  intros HP [H1 H2 H3 H4 H5 H6 H7]. split.
  - intros b Hb. apply H1. by rewrite HP.
  - intros b Hb. apply H2. by rewrite HP.
  - by rewrite <- HP.
  - by rewrite <- HP.
  - intros a. specialize (H5 a). destruct (decide (a ∈ mb_buf <$> k)) as [Ha|Ha]; rewrite <- HP in Ha.
    + by rewrite decide_True in H5.
    + by rewrite decide_False in H5.
  - intros a. specialize (H6 a). destruct (decide (a ∈ mb_dma <$> k)) as [Ha|Ha]; rewrite <- HP in Ha.
    + by rewrite decide_True in H6.
    + by rewrite decide_False in H6.
  - rewrite H7. by rewrite (sizes_perm _ _ HP).
Qed.

(** Only the blocks matter. *)
Lemma held_same m0 l m m' : same_blocks m m' -> held m0 l m -> held m0 l m'.
Proof. intros (E1 & E2 & E3) [H1 H2 H3 H4 H5 H6 H7]. split; rewrite ?E1, ?E2, ?E3; auto. Qed.

Lemma held_base m0 m0' l m : same_blocks m0 m0' -> held m0 l m -> held m0' l m.
Proof. intros (E1 & E2 & E3) [H1 H2 H3 H4 H5 H6 H7]. split; rewrite ?E1, ?E2, ?E3; auto. Qed.

Lemma same_blocks_heap m h : same_blocks m (set_heap m h).
Proof. done. Qed.

Lemma same_blocks_refl m : same_blocks m m.
Proof. done. Qed.

Lemma held_add m0 l m b :
  held m0 l m -> 0 <= mb_len b -> k_coh m !! mb_buf b = None -> k_iova m !! mb_dma b = None ->
  held m0 (l ++ [b]) (add_block b m).
Proof.
  intros [H1 H2 H3 H4 H5 H6 H7] Hlen Ec Ei.
  assert (Nb : mb_buf b ∉ mb_buf <$> l).
  { intros (b' & E & Hb)%list_elem_of_fmap. destruct (H1 _ Hb) as (d & Ed & _). congruence. }
  assert (Nd : mb_dma b ∉ mb_dma <$> l).
  { intros (b' & E & Hb)%list_elem_of_fmap. specialize (H2 _ Hb). congruence. }
  split.
  - intros x [Hx| ->%list_elem_of_singleton]%elem_of_app; cbn.
    + rewrite lookup_insert_ne; [by apply H1|]. intros E. apply Nb. rewrite E. by apply list_elem_of_fmap_2.
    + rewrite lookup_insert_eq. eexists. split; [done|]. rewrite zlen_replicate. lia.
  - intros x [Hx| ->%list_elem_of_singleton]%elem_of_app; cbn.
    + rewrite lookup_insert_ne; [by apply H2|]. intros E. apply Nd. rewrite E. by apply list_elem_of_fmap_2.
    + by rewrite lookup_insert_eq.
  - rewrite fmap_app. apply NoDup_app. split_and!; [done|set_solver|apply NoDup_singleton].
  - rewrite fmap_app. apply NoDup_app. split_and!; [done|set_solver|apply NoDup_singleton].
  - intros a. specialize (H5 a). rewrite fmap_app. cbn. destruct (decide (a = mb_buf b)) as [->|Na].
    + rewrite decide_True by set_solver. rewrite decide_False in H5 by done. congruence.
    + rewrite lookup_insert_ne by done. destruct (decide (a ∈ mb_buf <$> l)).
      * by rewrite decide_True by set_solver.
      * by rewrite decide_False by set_solver.
  - intros a. specialize (H6 a). rewrite fmap_app. cbn. destruct (decide (a = mb_dma b)) as [->|Na].
    + rewrite decide_True by set_solver. rewrite decide_False in H6 by done. congruence.
    + rewrite lookup_insert_ne by done. destruct (decide (a ∈ mb_dma <$> l)).
      * by rewrite decide_True by set_solver.
      * by rewrite decide_False by set_solver.
  - cbn. rewrite H7, s32_add, sizes_app. cbn. f_equal. lia.
Qed.

Lemma held_del m0 b l m : held m0 (b :: l) m -> held m0 l (del_block b m).
Proof.
  intros [H1 H2 H3 H4 H5 H6 H7]. cbn in H3, H4. apply NoDup_cons in H3 as [Nb H3], H4 as [Nd H4]. split.
  - intros x Hx. cbn. rewrite lookup_delete_ne; [apply H1; set_solver|].
    intros E. apply Nb. rewrite E. by apply list_elem_of_fmap_2.
  - intros x Hx. cbn. rewrite lookup_delete_ne; [apply H2; set_solver|].
    intros E. apply Nd. rewrite E. by apply list_elem_of_fmap_2.
  - done.
  - done.
  - intros a. specialize (H5 a). cbn in H5 |- *. destruct (decide (a = mb_buf b)) as [->|Na].
    + rewrite decide_True in H5 by set_solver. rewrite decide_False by done. by rewrite lookup_delete_eq.
    + rewrite lookup_delete_ne by done. destruct (decide (a ∈ mb_buf <$> l)).
      * by rewrite decide_True in H5 by set_solver.
      * by rewrite decide_False in H5 by set_solver.
  - intros a. specialize (H6 a). cbn in H6 |- *. destruct (decide (a = mb_dma b)) as [->|Na].
    + rewrite decide_True in H6 by set_solver. rewrite decide_False by done. by rewrite lookup_delete_eq.
    + rewrite lookup_delete_ne by done. destruct (decide (a ∈ mb_dma <$> l)).
      * by rewrite decide_True in H6 by set_solver.
      * by rewrite decide_False in H6 by set_solver.
  - change (sizes (b :: l)) with (mb_len b + sizes l) in H7. cbn. rewrite H7. unfold Z.sub. rewrite s32_add. f_equal. lia.
Qed.

Lemma patch_len d off v : 0 <= off -> off + zlen v <= zlen d -> zlen (patch d off v) = zlen d.
Proof.
  intros H1 H2. pose proof (zlen_nonneg v). unfold patch. rewrite !zlen_app, zlen_zdrop by lia.
  unfold ztake, zlen in *. rewrite length_take. lia.
Qed.

Lemma held_write m0 l m b off v :
  held m0 l m -> b ∈ l -> 0 <= off -> off + zlen v <= mb_len b ->
  exists d, k_coh m !! mb_buf b = Some d /\ zlen d = mb_len b /\
    let m' := set_coh m (<[mb_buf b := patch d off v]> (k_coh m)) in
    coh_write (mb_buf b) off v m = Some (tt, m') /\ held m0 l m'.
Proof.
  intros [H1 H2 H3 H4 H5 H6 H7] Hb Hoff Hlen. destruct (H1 b Hb) as (d & Ed & Ld). exists d.
  split; [done|]. split; [done|]. split.
  - unfold coh_write. rewrite Ed, Ld.
    by rewrite (proj2 (Z.leb_le 0 off) Hoff), (proj2 (Z.leb_le (off + zlen v) (mb_len b)) Hlen).
  - split; try done.
    + intros x Hx. cbn. destruct (decide (mb_buf b = mb_buf x)) as [E|N].
      * rewrite E, lookup_insert_eq. eexists. split; [done|]. rewrite patch_len by lia.
        destruct (H1 x Hx) as (d' & Ed' & Ld'). congruence.
      * rewrite lookup_insert_ne by done. by apply H1.
    + intros a. specialize (H5 a). cbn. destruct (decide (a ∈ mb_buf <$> l)) as [|N]; [done|].
      rewrite lookup_insert_ne; [done|]. intros <-. apply N. by apply list_elem_of_fmap_2.
Qed.

(** The allocator either has no memory or adds a block. *)
Lemma alloc_coherent_held m0 l m want size :
  held m0 l m -> 0 <= size ->
  (mhi_alloc_coherent want size m = Some (None, m)) \/
  (exists buf dma, want = Some (buf, dma) /\
     mhi_alloc_coherent want size m = Some (Some (buf, dma), add_block (MhiBuf buf dma size) m) /\
     held m0 (l ++ [MhiBuf buf dma size]) (add_block (MhiBuf buf dma size) m)).
Proof.
  intros Hh Hs. unfold mhi_alloc_coherent. destruct want as [[buf dma]|]; [|by left].
  case_bool_decide as E; [right|by left]. exists buf, dma. split; [done|]. split; [done|].
  destruct E. by apply held_add.
Qed.

(** A block that is held can be freed. *)
Lemma free_coherent_held m0 l k m b :
  held m0 l m -> l ≡ₚ b :: k ->
  mhi_free_coherent (mb_len b) (mb_buf b) (mb_dma b) m = Some (tt, del_block b m) /\ held m0 k (del_block b m).
Proof.
  intros Hh HP. apply (held_perm _ _ _ _ HP) in Hh. split; [|by apply held_del].
  destruct Hh as [H1 H2 _ _ _ _ _]. destruct (H1 b) as (d & Ed & Ld); [set_solver|].
  unfold mhi_free_coherent. rewrite Ed. rewrite bool_decide_eq_true_2; [by destruct b|].
  split; [done|]. apply H2. set_solver.
Qed.
