(* ===== verification/MhiBoot.v ===== *)
(** * Firmware download and RAM dump: core/mhi_boot.c

    The driver boots a modem without its own storage: the secondary boot loader
    goes through the BHI registers from one buffer, the firmware through BHIe as
    a table of segments, and a crashed modem writes its RAM into such a table.

    The state is the controller ([ctrl]), the kernel memory ([kmem]) and the
    driver's image pointers.  While the code sleeps the controller is what the
    environment makes of it: a wait has the states that its condition sees as an
    argument.  The other threads do not touch the images meanwhile: the only
    code that frees one waits for the worker first (mhi_pm.c:600).
    A local variable that is read before it is set is a failure. *)

From S2P Require Import Prelude CLib MhiReg MhiRing MhiCtrl MhiPm MhiMem.

Definition BHI_BHIVERSION_MINOR : Z := 0x00.
Definition BHI_BHIVERSION_MAJOR : Z := 0x04.
Definition BHI_IMGADDR_LOW : Z := 0x08.
Definition BHI_IMGADDR_HIGH : Z := 0x0C.
Definition BHI_IMGSIZE : Z := 0x10.
Definition BHI_RSVD1 : Z := 0x14.
Definition BHI_IMGTXDB : Z := 0x18.
Definition BHI_RSVD2 : Z := 0x1C.
Definition BHI_RSVD3 : Z := 0x24.
Definition BHI_STATUS : Z := 0x2C.
Definition BHI_ERRCODE : Z := 0x30.
Definition BHI_ERRDBG1 : Z := 0x34.
Definition BHI_ERRDBG2 : Z := 0x38.
Definition BHI_ERRDBG3 : Z := 0x3C.
Definition BHI_SERIALNU : Z := 0x40.
Definition BHI_SBLANTIROLLVER : Z := 0x44.
Definition BHI_NUMSEG : Z := 0x48.
Definition BHI_MSMHWID (n : Z) : Z := 0x4C + 0x4 * n.
Definition BHI_OEMPKHASH (n : Z) : Z := 0x64 + 0x4 * n.
Definition BHI_RSVD5 : Z := 0xC4.
Definition BHI_STATUS_MASK : Z := 0xC0000000.
Definition BHI_STATUS_SHIFT : Z := 30.
Definition BHI_STATUS_ERROR : Z := 3.
Definition BHI_STATUS_SUCCESS : Z := 2.

Definition BHIE_TXVECADDR_LOW_OFFS : Z := 0x002C.
Definition BHIE_TXVECADDR_HIGH_OFFS : Z := 0x0030.
Definition BHIE_TXVECSIZE_OFFS : Z := 0x0034.
Definition BHIE_TXVECDB_OFFS : Z := 0x003C.
Definition BHIE_TXVECSTATUS_OFFS : Z := 0x0044.
Definition BHIE_RXVECADDR_LOW_OFFS : Z := 0x0060.
Definition BHIE_RXVECADDR_HIGH_OFFS : Z := 0x0064.
Definition BHIE_RXVECSIZE_OFFS : Z := 0x0068.
Definition BHIE_RXVECDB_OFFS : Z := 0x0070.
Definition BHIE_RXVECSTATUS_OFFS : Z := 0x0078.
(** The [SEQNUM] and [STATUS] fields of the TX and RX registers. *)
Definition BHIE_SEQNUM_BMSK : Z := 0x3FFFFFFF.
Definition BHIE_SEQNUM_SHFT : Z := 0.
Definition BHIE_STATUS_BMSK : Z := 0xC0000000.
Definition BHIE_STATUS_SHFT : Z := 30.
Definition BHIE_STATUS_XFER_COMPL : Z := 0x02.

Definition MHI_SOC_RESET_REQ_OFFSET : Z := 0xB0.
Definition MHI_SOC_RESET_REQ : Z := BIT 0.

Definition MSMHWID_NUMDWORDS : nat := 6.
Definition OEMPKHASH_NUMDWORDS : nat := 48.

(** ** State *)

(** The owner of an interrupt: the controller or an event ring. *)
Inductive irq_dev := IrqCtrl | IrqEvent (i : nat).

(** [d_fw] counts the firmware images the driver holds; [d_ctxt] and [d_irqs]
    are the device context and the interrupts it has. *)
Record drv := Drv {
  d_ctrl : ctrl;
  d_mem : kmem;
  d_fbc : option Z;
  d_rddm : option Z;
  d_seq : Z;
  d_fw : nat;
  d_ctxt : option Z;
  d_irqs : list (Z * irq_dev);
  d_pre_init : bool }.

Definition set_ctrl (x : ctrl) (s : drv) : drv := Drv x (d_mem s) (d_fbc s) (d_rddm s) (d_seq s) (d_fw s) (d_ctxt s) (d_irqs s) (d_pre_init s).
Definition set_mem (x : kmem) (s : drv) : drv := Drv (d_ctrl s) x (d_fbc s) (d_rddm s) (d_seq s) (d_fw s) (d_ctxt s) (d_irqs s) (d_pre_init s).
Definition set_fbc (x : option Z) (s : drv) : drv := Drv (d_ctrl s) (d_mem s) x (d_rddm s) (d_seq s) (d_fw s) (d_ctxt s) (d_irqs s) (d_pre_init s).
Definition set_rddm (x : option Z) (s : drv) : drv := Drv (d_ctrl s) (d_mem s) (d_fbc s) x (d_seq s) (d_fw s) (d_ctxt s) (d_irqs s) (d_pre_init s).
Definition set_seq (x : Z) (s : drv) : drv := Drv (d_ctrl s) (d_mem s) (d_fbc s) (d_rddm s) x (d_fw s) (d_ctxt s) (d_irqs s) (d_pre_init s).
Definition set_fw (x : nat) (s : drv) : drv := Drv (d_ctrl s) (d_mem s) (d_fbc s) (d_rddm s) (d_seq s) x (d_ctxt s) (d_irqs s) (d_pre_init s).
Definition set_ctxt (x : option Z) (s : drv) : drv := Drv (d_ctrl s) (d_mem s) (d_fbc s) (d_rddm s) (d_seq s) (d_fw s) x (d_irqs s) (d_pre_init s).
Definition set_irqs (x : list (Z * irq_dev)) (s : drv) : drv := Drv (d_ctrl s) (d_mem s) (d_fbc s) (d_rddm s) (d_seq s) (d_fw s) (d_ctxt s) x (d_pre_init s).
Definition set_pre_init (x : bool) (s : drv) : drv := Drv (d_ctrl s) (d_mem s) (d_fbc s) (d_rddm s) (d_seq s) (d_fw s) (d_ctxt s) (d_irqs s) x.

(** The controller's configuration: the registers, the images' names and sizes. *)
Record boot_cfg := BootCfg {
  bc_k : ctrl_cfg;
  bc_bhie : Z;
  fw_image : option bytes;
  edl_image : option bytes;
  fbc_download : bool;
  sbl_size : Z;
  seg_len : Z;
  rddm_size : Z;
  timeout_ms : Z }.

#[global] Abbreviation dact := (st drv).

Definition mem {A} (m : st kmem A) : dact A := st_zoom d_mem set_mem m.
Definition wr_io (f : ctrl -> mmio) : dact unit := st_modify (fun s => set_ctrl (set_io (d_ctrl s) (f (d_ctrl s))) s).
Definition cstate : dact ctrl := st_gets d_ctrl.
Definition fail {A} : dact A := st_load None.

(** [release_firmware]. *)
Definition release_firmware : dact unit :=
  n ← st_gets d_fw; match n with O => fail | S n => st_modify (set_fw n) end.

(** [wait_event_timeout] on a condition of the controller: whether it held. *)
Definition wait_for (cond : ctrl -> bool) (w : ctrl -> ctrl) : dact bool := fun s =>
  let '(ok, c) := wait_event cond w (d_ctrl s) in Some (ok, set_ctrl c s).

(** The condition of the waits for a status register: an error state, a read that
    fails or a status that is not zero.  [st] is the variable the register is
    read into, [None] before the first read. *)
Definition status_cond (m_base offset mask shift : Z) (st : option Z) (c : ctrl) : bool * option Z :=
  if MHI_PM_IN_ERROR_STATE (pm_state c) then (true, st)
  else match mhi_read_reg_field (io c) m_base offset mask shift with
       | Err _ => (true, st)
       | Ok v => (negb (v =? 0), Some v)
       end.

(** [obs]: the states when the thread looks again, the last at the time-out. *)
Fixpoint status_poll (m_base offset mask shift : Z) (obs : list ctrl) (st : option Z) (c : ctrl) : option Z * ctrl :=
  let '(ok, st) := status_cond m_base offset mask shift st c in
  match ok, obs with
  | false, o :: obs => status_poll m_base offset mask shift obs st o
  | _, _ => (st, c)
  end.

(** [w] gives the states from the first look on; with none the first look sees
    the state as it is. *)
Definition wait_status (m_base offset mask shift : Z) (w : ctrl -> list ctrl) : dact (option Z) := fun s =>
  let '(st, c) := match w (d_ctrl s) with
                  | o :: obs => status_poll m_base offset mask shift obs None o
                  | [] => status_poll m_base offset mask shift [] None (d_ctrl s)
                  end in
  Some (st, set_ctrl c s).

(** ** Image tables *)

Definition SIZEOF_VEC_ENTRY : Z := 16.

(** [bhi_vec[i] = { dma, size }] at the kernel address [vec]. *)
Definition put_vec (vec i dma size : Z) : st kmem unit :=
  _ ← coh_write vec (SIZEOF_VEC_ENTRY * i) (le64 dma); coh_write vec (SIZEOF_VEC_ENTRY * i + 8) (le64 size).

(** What the allocators answer to [mhi_alloc_bhie_table]. *)
Record table_env := TableEnv { te_info : option Z; te_array : option Z; te_seg : nat -> option (Z * Z) }.

(** Frees the blocks of [p[i-1]] down to [p[0]]. *)
Fixpoint free_back (p : Z) (i : nat) : st kmem unit :=
  match i with
  | O => mret tt
  | S i => b ← buf_at p (Z.of_nat i); _ ← mhi_free_coherent (mb_len b) (mb_buf b) (mb_dma b); free_back p i
  end.

(** The loop over the segments from [i] on, [n] of them left. *)
Fixpoint alloc_segs (te : table_env) (p seg_size segments : Z) (i n : nat) : st kmem Z :=
  match n with
  | O => mret 0
  | S n =>
      let vec_size := if Z.of_nat i =? segments - 1 then u64 (SIZEOF_VEC_ENTRY * Z.of_nat i) else seg_size in
      b ← buf_at p (Z.of_nat i);
      _ ← put_buf p (Z.of_nat i) (MhiBuf (mb_buf b) (mb_dma b) vec_size);
      a ← mhi_alloc_coherent (te_seg te i) vec_size;
      match a with
      | Some (buf, dma) => _ ← put_buf p (Z.of_nat i) (MhiBuf buf dma vec_size); alloc_segs te p seg_size segments (S i) n
      | None => _ ← free_back p i; mret (- ENOMEM)
      end
  end.

(** [DIV_ROUND_UP(alloc_size, seg_size) + 1] in an [int]. *)
Definition segments_of (alloc_size seg_size : Z) : Z := s32 (u64 (u64 (alloc_size + seg_size - 1) / seg_size + 1)).

(** The error code, and the table when it is 0. *)
Definition mhi_alloc_bhie_table (te : table_env) (seg_size alloc_size : Z) : st kmem (Z * option Z) :=
  _ ← st_load (if seg_size =? 0 then None else Some tt);
  let segments := segments_of alloc_size seg_size in
  a ← kalloc (te_info te) (KInfo (ImageInfo 0 0 0));
  match a with
  | None => mret (- ENOMEM, None)
  | Some img_info =>
      a ← (if segments <? 0 then mret None else kalloc (te_array te) (KBufs (replicate (Z.to_nat segments) mhi_buf0)));
      match a with
      | None => _ ← kfree img_info; mret (- ENOMEM, None)
      | Some p =>
          ret ← alloc_segs te p seg_size segments 0 (Z.to_nat segments);
          if negb (ret =? 0) then _ ← kfree img_info; mret (ret, None)
          else
            last ← buf_at p (segments - 1);
            _ ← put_obj img_info (KInfo (ImageInfo p (mb_buf last) (u32 segments)));
            mret (0, Some img_info)
      end
  end.

(** The blocks of [p[i]] and the following, [n] of them. *)
Fixpoint free_fwd (p : Z) (i n : nat) : st kmem unit :=
  match n with
  | O => mret tt
  | S n => b ← buf_at p (Z.of_nat i); _ ← mhi_free_coherent (mb_len b) (mb_buf b) (mb_dma b); free_fwd p (S i) n
  end.

Definition mhi_free_bhie_table (image_info : Z) : st kmem unit :=
  i ← info_at image_info;
  _ ← free_fwd (ii_bufs i) 0 (Z.to_nat (ii_entries i));
  _ ← kfree (ii_bufs i);
  kfree image_info.

(** The copy from segment [i] on, [n] segments before the assertion fails. *)
Fixpoint copy_loop (p vec : Z) (i n : nat) (buf : bytes) : st kmem unit :=
  match buf with
  | [] => mret tt
  | _ =>
      match n with
      | O => st_load None
      | S n =>
          b ← buf_at p (Z.of_nat i);
          let to_cpy := Z.min (zlen buf) (mb_len b) in
          _ ← coh_write (mb_buf b) 0 (ztake to_cpy buf);
          _ ← put_vec vec (Z.of_nat i) (mb_dma b) to_cpy;
          copy_loop p vec (S i) n (zdrop to_cpy buf)
      end
  end.

Definition mhi_firmware_copy (firmware : bytes) (img_info : Z) : st kmem unit :=
  i ← info_at img_info;
  copy_loop (ii_bufs i) (ii_vec i) 0 (Z.to_nat (ii_entries i)) firmware.

Fixpoint rddm_vecs (p vec : Z) (i n : nat) : st kmem unit :=
  match n with
  | O => mret tt
  | S n => b ← buf_at p (Z.of_nat i); _ ← put_vec vec (Z.of_nat i) (mb_dma b) (mb_len b); rddm_vecs p vec (S i) n
  end.

(** [i < entries - 1] compares unsigned. *)
Definition mhi_rddm_prepare (img_info : Z) : st kmem unit :=
  i ← info_at img_info;
  rddm_vecs (ii_bufs i) (ii_vec i) 0 (Z.to_nat (u32 (ii_entries i - 1))).

(** The block of the table itself: [mhi_buf[entries - 1]]. *)
Definition table_buf (img_info : Z) : st kmem mhi_buf :=
  i ← info_at img_info; buf_at (ii_bufs i) (u32 (ii_entries i - 1)).

(** ** Downloads *)

Section Boot.
Context (k : boot_cfg).
Abbreviation regs_base := (c_regs (bc_k k)).

Definition bhi_write (offset val : Z) : dact unit := wr_io (fun c => mhi_write_reg (io c) (c_bhi c) offset val).
Definition bhie_write (offset val : Z) : dact unit := wr_io (fun c => mhi_write_reg (io c) (bc_bhie k) offset val).
Definition bhie_write_field (offset mask shift val : Z) : dact unit :=
  wr_io (fun c => mhi_write_reg_field (io c) (bc_bhie k) offset mask shift val).

(** Programming a vector: address, size, then the doorbell with the sequence
    number. *)
Definition program_vec (high low size db : Z) (b : mhi_buf) (sequence_id : Z) : dact unit :=
  _ ← bhie_write high (upper_32_bits (mb_dma b));
  _ ← bhie_write low (lower_32_bits (mb_dma b));
  _ ← bhie_write size (u32 (mb_len b));
  bhie_write_field db BHIE_SEQNUM_BMSK BHIE_SEQNUM_SHFT sequence_id.

Definition program_rx : mhi_buf -> Z -> dact unit :=
  program_vec BHIE_RXVECADDR_HIGH_OFFS BHIE_RXVECADDR_LOW_OFFS BHIE_RXVECSIZE_OFFS BHIE_RXVECDB_OFFS.
Definition program_tx : mhi_buf -> Z -> dact unit :=
  program_vec BHIE_TXVECADDR_HIGH_OFFS BHIE_TXVECADDR_LOW_OFFS BHIE_TXVECSIZE_OFFS BHIE_TXVECDB_OFFS.

(** [random]: the random word; [w]: the wait for the completion. *)
Definition mhi_fw_load_amss (random : Z) (w : ctrl -> list ctrl) (b : mhi_buf) : dact Z :=
  c ← cstate;
  if negb (MHI_REG_ACCESS_VALID (pm_state c)) then mret (- EIO)
  else
    let sequence_id := Z.land random BHIE_SEQNUM_BMSK in
    _ ← st_modify (set_seq sequence_id);
    _ ← program_tx b sequence_id;
    tx_status ← wait_status (bc_bhie k) BHIE_TXVECSTATUS_OFFS BHIE_STATUS_BMSK BHIE_STATUS_SHFT w;
    c ← cstate;
    if MHI_PM_IN_ERROR_STATE (pm_state c) then mret (- EIO)
    else
      tx_status ← st_load tx_status;
      mret (if tx_status =? BHIE_STATUS_XFER_COMPL then 0 else - EIO).

Definition program_sbl (dma_addr size : Z) : dact unit :=
  _ ← bhi_write BHI_STATUS 0;
  _ ← bhi_write BHI_IMGADDR_HIGH (upper_32_bits dma_addr);
  _ ← bhi_write BHI_IMGADDR_LOW (lower_32_bits dma_addr);
  _ ← bhi_write BHI_IMGSIZE (u32 size);
  _ ← wr_io (fun c => mhi_write_reg_field (io c) regs_base MHICFG MHICFG_NER_MASK MHICFG_NER_SHIFT NUM_MHI_EVT_RINGS);
  _ ← wr_io (fun c => mhi_write_reg_field (io c) regs_base MHICFG MHICFG_NHWER_MASK MHICFG_NHWER_SHIFT NUM_MHI_HW_EVT_RINGS);
  _ ← bhi_write BHI_INTVEC (msi_irq_base (bc_k k));
  bhi_write BHI_IMGTXDB 0x1.

(** The error registers are only read for the log. *)
Definition mhi_fw_load_sbl (w : ctrl -> list ctrl) (dma_addr size : Z) : dact Z :=
  c ← cstate;
  if negb (MHI_REG_ACCESS_VALID (pm_state c)) then mret (- EIO)
  else
    _ ← program_sbl dma_addr size;
    tx_status ← wait_status (c_bhi c) BHI_STATUS BHI_STATUS_MASK BHI_STATUS_SHIFT w;
    c ← cstate;
    if MHI_PM_IN_ERROR_STATE (pm_state c) then mret (- EIO)
    else
      tx_status ← st_load tx_status;
      if tx_status =? BHI_STATUS_ERROR then mret (- EIO)
      else mret (if tx_status =? BHI_STATUS_SUCCESS then 0 else - ETIMEDOUT).

(** ** The firmware worker *)

(** What the worker meets: the waits, [request_firmware] on a name, the
    allocations, the random word. *)
Record fw_env := FwEnv {
  fe_pbl : ctrl -> ctrl;
  fe_firmware : bytes -> res bytes;
  fe_buf : option (Z * Z);
  fe_sbl : ctrl -> list ctrl;
  fe_table : table_env;
  fe_ready : ctrl -> list ctrl;
  fe_bhie : ctrl -> ctrl;
  fe_random : Z;
  fe_amss : ctrl -> list ctrl }.

(** [RESET -> READY] of mhi_pm.c. *)
Definition ready_transition (w : ctrl -> list ctrl) : dact Z := fun s =>
  let '(ret, c) := mhi_ready_state_transition (bc_k k) w (d_ctrl s) in Some (ret, set_ctrl c s).

Definition set_reset : dact unit := st_modify (fun s => set_ctrl (set_dev_state (d_ctrl s) MHI_STATE_RESET) s).

Definition in_error : dact bool := st_gets (fun s => MHI_PM_IN_ERROR_STATE (pm_state (d_ctrl s))).

(** The boot loader: the first [size] bytes through a buffer of their own. *)
Definition load_sbl (env : fw_env) (firmware : bytes) : dact (option Z) :=
  let size := if fbc_download k then sbl_size k else zlen firmware in
  let size := if zlen firmware <? size then zlen firmware else size in
  a ← mem (mhi_alloc_coherent (fe_buf env) size);
  match a with
  | None => mret None
  | Some (buf, dma_addr) =>
      _ ← mem (coh_write buf 0 (ztake size firmware));
      ret ← mhi_fw_load_sbl (fe_sbl env) dma_addr size;
      _ ← mem (mhi_free_coherent size buf dma_addr);
      mret (Some ret)
  end.

(** [*image_info] is only written on success. *)
Definition alloc_fbc (env : fw_env) (firmware : bytes) : dact Z :=
  r ← mem (mhi_alloc_bhie_table (fe_table env) (seg_len k) (zlen firmware));
  _ ← match snd r with Some p => st_modify (set_fbc (Some p)) | None => mret tt end;
  mret (fst r).

(** [mhi_free_bhie_table(mhi_cntrl->fbc_image)]. *)
Definition free_fbc : dact unit :=
  p ← st_gets d_fbc; p ← st_load p; _ ← mem (mhi_free_bhie_table p); st_modify (set_fbc None).

Definition fbc_image : dact Z := p ← st_gets d_fbc; st_load p.

(** From the table to the end of the download; every way out releases the
    firmware, [error_read] frees the table. *)
Definition load_fbc (env : fw_env) (firmware : bytes) : dact unit :=
  ret ← (if fbc_download k then alloc_fbc env firmware else mret 0);
  if negb (ret =? 0) then release_firmware
  else
    _ ← (if fbc_download k then p ← fbc_image; mem (mhi_firmware_copy firmware p) else mret tt);
    ret ← ready_transition (fe_ready env);
    if negb (fbc_download k) then release_firmware
    else if negb (ret =? 0) then _ ← free_fbc; release_firmware
    else
      ok ← wait_for (fun c => (ee c =? MHI_EE_SBL) || MHI_PM_IN_ERROR_STATE (pm_state c)) (fe_bhie env);
      err ← in_error;
      if negb ok || err then _ ← free_fbc; release_firmware
      else
        p ← fbc_image;
        b ← mem (table_buf p);
        _ ← mhi_fw_load_amss (fe_random env) (fe_amss env) b;
        release_firmware.

Definition mhi_fw_load_worker (env : fw_env) : dact unit :=
  ok ← wait_for (fun c => MHI_IN_PBL (ee c) || MHI_PM_IN_ERROR_STATE (pm_state c)) (fe_pbl env);
  err ← in_error;
  if negb ok || err then mret tt
  else
    c ← cstate;
    if ee c =? MHI_EE_PTHRU then mret tt
    else
      let fw_name := if ee c =? MHI_EE_EDL then edl_image k else fw_image k in
      match fw_name with
      | None => mret tt
      | Some fw_name =>
          if fbc_download k && ((sbl_size k =? 0) || (seg_len k =? 0)) then mret tt
          else
            match fe_firmware env fw_name with
            | Err _ => mret tt
            | Ok firmware =>
                _ ← st_modify (fun s => set_fw (S (d_fw s)) s);
                ret ← load_sbl env firmware;
                c ← cstate;
                match ret with
                | None => release_firmware
                | Some ret =>
                    if negb (ret =? 0) || (ee c =? MHI_EE_EDL) then release_firmware
                    else _ ← set_reset; load_fbc env firmware
                end
            end
      end.

(** ** RAM dump *)

Definition exec_env : dact Z := st_gets (fun s => mhi_get_exec_env (io (d_ctrl s)) (c_bhi (d_ctrl s))).

(** [udelay]: what the device does meanwhile. *)
Definition udelay (w : ctrl -> ctrl) : dact unit := st_modify (fun s => set_ctrl (w (d_ctrl s)) s).

(** [while (rddm_retry--)]: the value of [rddm_retry] after the loop. *)
Fixpoint rddm_enter (w : nat -> ctrl -> ctrl) (rddm_retry : nat) : dact Z :=
  match rddm_retry with
  | O => mret (-1)
  | S n =>
      ee ← exec_env;
      if ee =? MHI_EE_RDDM then mret (Z.of_nat n) else _ ← udelay (w n); rddm_enter w n
  end.

(** [while (retry--)]: the code returned from inside the loop, or [None]. *)
Fixpoint rddm_collect (w : nat -> ctrl -> ctrl) (retry : nat) : dact (option Z) :=
  match retry with
  | O => mret None
  | S n =>
      c ← cstate;
      match mhi_read_reg_field (io c) (bc_bhie k) BHIE_RXVECSTATUS_OFFS BHIE_STATUS_BMSK BHIE_STATUS_SHFT with
      | Err _ => mret (Some (- EIO))
      | Ok rx_status =>
          if rx_status =? BHIE_STATUS_XFER_COMPL then mret (Some 0) else _ ← udelay (w n); rddm_collect w n
      end
  end.

Definition delayus : Z := 2000.
Definition rddm_timeout_us : Z := 200000.
Definition panic_retries : Z := u32 (timeout_ms k * 1000) / delayus.

(** The environment of a dump: the random word, the waits. *)
Record rddm_env := RddmEnv {
  re_random : Z;
  re_enter : nat -> ctrl -> ctrl;
  re_reset : ctrl -> ctrl;
  re_collect : nat -> ctrl -> ctrl;
  re_rddm : ctrl -> ctrl;
  re_status : ctrl -> list ctrl }.

Definition __mhi_download_rddm_in_panic (env : rddm_env) (rddm_image : Z) : dact Z :=
  _ ← st_modify (fun s => set_ctrl (set_pm_state (d_ctrl s) MHI_PM_LD_ERR_FATAL_DETECT) s);
  _ ← mem (mhi_rddm_prepare rddm_image);
  b ← mem (table_buf rddm_image);
  let sequence_id := Z.land (re_random env) BHIE_SEQNUM_BMSK in
  let sequence_id := if sequence_id =? 0 then 1 else sequence_id in
  _ ← program_rx b sequence_id;
  _ ← st_modify (fun s => set_ctrl (mhi_set_mhi_state (bc_k k) MHI_STATE_SYS_ERR (d_ctrl s)) s);
  rddm_retry ← rddm_enter (re_enter env) (Z.to_nat (rddm_timeout_us / delayus));
  _ ← (if rddm_retry <=? 0 then
         _ ← wr_io (fun c => mhi_write_reg (io c) regs_base MHI_SOC_RESET_REQ_OFFSET MHI_SOC_RESET_REQ);
         udelay (re_reset env)
       else mret tt);
  r ← rddm_collect (re_collect env) (Z.to_nat panic_retries);
  mret (default (- EIO) r).

Definition mhi_download_rddm_img (env : rddm_env) (in_panic : bool) : dact Z :=
  rddm_image ← st_gets d_rddm;
  match rddm_image with
  | None => mret (- ENOMEM)
  | Some rddm_image =>
      if in_panic then __mhi_download_rddm_in_panic env rddm_image
      else
        ok ← wait_for (fun c => (ee c =? MHI_EE_RDDM) || MHI_PM_IN_ERROR_STATE (pm_state c)) (re_rddm env);
        err ← in_error;
        if negb ok || err then mret (- EIO)
        else
          _ ← mem (mhi_rddm_prepare rddm_image);
          b ← mem (table_buf rddm_image);
          c ← cstate;
          if negb (MHI_REG_ACCESS_VALID (pm_state c)) then mret (- EIO)
          else
            _ ← program_rx b (Z.land (re_random env) BHIE_SEQNUM_BMSK);
            rx_status ← wait_status (bc_bhie k) BHIE_RXVECSTATUS_OFFS BHIE_STATUS_BMSK BHIE_STATUS_SHFT (re_status env);
            err ← in_error;
            if (err : bool) then mret (- EIO)
            else
              rx_status ← st_load rx_status;
              mret (if rx_status =? BHIE_STATUS_XFER_COMPL then 0 else - EIO)
  end.

(** ** The BHI control device *)

(** [offset] is not used: the register read is always BHI_EXECENV. *)
Definition bhi_read_reg (c : ctrl) (offset : Z) : Z :=
  match mhi_read_reg (io c) (c_bhi c) BHI_EXECENV with Ok out => out | Err _ => 0 end.

(** The offsets that are asked for, in the order of the members of
    [BHI_INFO_TYPE]; the major version with the minor's. *)
Definition bhi_offsets : list Z :=
  [BHI_BHIVERSION_MINOR; BHI_BHIVERSION_MINOR; BHI_IMGADDR_LOW; BHI_IMGADDR_HIGH; BHI_IMGSIZE; BHI_RSVD1; BHI_IMGTXDB;
   BHI_RSVD2; BHI_INTVEC; BHI_RSVD3; BHI_EXECENV; BHI_STATUS; BHI_ERRCODE; BHI_ERRDBG1; BHI_ERRDBG2; BHI_ERRDBG3;
   BHI_SERIALNU; BHI_SBLANTIROLLVER; BHI_NUMSEG]
  ++ ((fun n => BHI_MSMHWID (Z.of_nat n)) <$> seq 0 MSMHWID_NUMDWORDS)
  ++ ((fun n => BHI_OEMPKHASH (Z.of_nat n)) <$> seq 0 OEMPKHASH_NUMDWORDS)
  ++ [BHI_RSVD5].

(** The words of [bhi_info]. *)
Definition BhiRead (c : ctrl) : list Z := bhi_read_reg c <$> bhi_offsets.

(** [left]: the bytes [copy_to_user] could not copy.  The result and the words
    the caller gets. *)
Definition bhi_get_dev_info (left : Z) : dact (Z * list Z) :=
  c ← cstate; mret (left, BhiRead c).

(** What the user's memory and the device do to [BhiWrite]: the bytes that could
    not be copied, the bytes that could. *)
Record bhi_env := BhiEnv {
  be_buf : option (Z * Z);
  be_left : Z;
  be_user : bytes;
  be_sbl : ctrl -> list ctrl;
  be_ready : ctrl -> list ctrl;
  be_fp : ctrl -> ctrl;
  be_jiffies : Z }.

(** The result of the last wait, 0 or the jiffies that were left, is what
    [error_state] returns. *)
Definition BhiWrite (env : bhi_env) (size : Z) : dact Z :=
  c ← cstate;
  if negb (ee c =? MHI_EE_EDL) then mret (- EINVAL)
  else
    a ← mem (mhi_alloc_coherent (be_buf env) size);
    match a with
    | None => mret (- ENOMEM)
    | Some (dma_buf, dma_addr) =>
        _ ← mem (coh_write dma_buf 0 (ztake (size - be_left env) (be_user env)));
        let ret := s32 (be_left env) in
        if negb (ret =? 0) then _ ← mem (mhi_free_coherent size dma_buf dma_addr); mret ret
        else
          ret ← mhi_fw_load_sbl (be_sbl env) dma_addr size;
          _ ← mem (mhi_free_coherent size dma_buf dma_addr);
          if negb (ret =? 0) then mret ret
          else
            _ ← set_reset;
            ret ← ready_transition (be_ready env);
            if negb (ret =? 0) then mret ret
            else
              ok ← wait_for (fun c => (ee c =? MHI_EE_FP) || MHI_PM_IN_ERROR_STATE (pm_state c)) (be_fp env);
              err ← in_error;
              if negb ok then mret 0
              else if (err : bool) then mret (s32 (be_jiffies env))
              else mret 0
    end.

(** [size_left]: the bytes of the size that could not be copied; [size] the
    value that could. *)
Definition bhi_write_image (env : bhi_env) (size_left size : Z) : dact Z :=
  if negb (size_left =? 0) then mret size_left
  else if size =? 0 then mret (- EINVAL)
  else BhiWrite env size.

End Boot.
