(* ===== verification/BootImage.v ===== *)
(** * The image tables and the firmware worker, proved

    For the tables of mhi_boot.c: allocation is all or nothing for the blocks,
    freeing undoes it, and the device that walks the table from the BHIe
    registers reads exactly the firmware.  For the worker: on every path it
    releases the firmware, and it leaves either the complete image or no block.
    The last section has what the code does that it does not mean to do. *)

From S2P Require Import Prelude CLib MhiReg MhiRing MhiCtrl MhiPm MhiMem MhiBoot.

(** ** Heap lookups *)

Lemma bufs_at_eq p l m : k_heap m !! p = Some (KBufs l) -> bufs_at p m = Some (l, m).
Proof. intros H. unfold bufs_at. rewrite st_bind_gets. cbn beta. by rewrite H. Qed.

Lemma info_at_eq p i m : k_heap m !! p = Some (KInfo i) -> info_at p m = Some (i, m).
Proof. intros H. unfold info_at. rewrite st_bind_gets. cbn beta. by rewrite H. Qed.

Lemma zget_nat {A} (l : list A) (i : nat) : zget l (Z.of_nat i) = l !! i.
Proof. unfold zget. destruct (Z.ltb_spec (Z.of_nat i) 0); [lia|]. by rewrite Nat2Z.id. Qed.

Lemma buf_at_eq p l i b m :
  k_heap m !! p = Some (KBufs l) -> l !! i = Some b -> buf_at p (Z.of_nat i) m = Some (b, m).
Proof. intros H E. unfold buf_at. rewrite (st_bind_some _ _ _ _ _ (bufs_at_eq _ _ _ H)). by rewrite zget_nat, E. Qed.

Lemma put_buf_eq p l i b b' m :
  k_heap m !! p = Some (KBufs l) -> l !! i = Some b' ->
  put_buf p (Z.of_nat i) b m = Some (tt, set_heap m (<[p := KBufs (<[i := b]> l)]> (k_heap m))).
Proof.
  intros H E. unfold put_buf. rewrite (st_bind_some _ _ _ _ _ (bufs_at_eq _ _ _ H)).
  by rewrite zget_nat, E, Nat2Z.id.
Qed.

Lemma kfree_eq a o m : k_heap m !! a = Some o -> kfree a m = Some (tt, set_heap m (delete a (k_heap m))).
Proof. intros H. unfold kfree. by rewrite H. Qed.

(** A step that is known. *)
Ltac st_do H := rewrite (st_bind_some _ _ _ _ _ H); cbn beta.

(** ** Freeing *)

Lemma free_back_ok m0 p l junk m :
  kmem_ok m0 -> held m0 l m -> k_heap m !! p = Some (KBufs (l ++ junk)) ->
  exists m', free_back p (length l) m = Some (tt, m') /\ same_blocks m0 m' /\ k_heap m' = k_heap m.
Proof.
  intros Hok. revert junk m. induction l as [|b l IH] using rev_ind; intros junk m Hh Hp.
  { exists m. split; [done|]. split; [by apply held_nil_inv|done]. }
  rewrite length_app, Nat.add_1_r. cbn [free_back].
  rewrite <- app_assoc in Hp. change ([b] ++ junk) with (b :: junk) in Hp.
  assert (E : (l ++ b :: junk) !! length l = Some b) by (by rewrite list_lookup_middle).
  st_do (buf_at_eq _ _ _ _ _ Hp E).
  destruct (free_coherent_held m0 (l ++ [b]) l m b Hh) as [Ef Hh']; [symmetry; apply Permutation_cons_append|].
  st_do Ef. destruct (IH (b :: junk) (del_block b m) Hh' Hp) as (m' & E1 & E2 & E3). by exists m'.
Qed.

Lemma free_fwd_ok m0 p pre l m :
  kmem_ok m0 -> held m0 l m -> k_heap m !! p = Some (KBufs (pre ++ l)) ->
  exists m', free_fwd p (length pre) (length l) m = Some (tt, m') /\ same_blocks m0 m' /\ k_heap m' = k_heap m.
Proof.
  intros Hok. revert pre m. induction l as [|b l IH]; intros pre m Hh Hp.
  { exists m. split; [done|]. split; [by apply held_nil_inv|done]. }
  cbn [free_fwd length]. assert (E : (pre ++ b :: l) !! length pre = Some b) by (by rewrite list_lookup_middle).
  st_do (buf_at_eq _ _ _ _ _ Hp E).
  destruct (free_coherent_held m0 (b :: l) l m b Hh) as [Ef Hh']; [done|].
  st_do Ef. destruct (IH (pre ++ [b]) (del_block b m) Hh') as (m' & E1 & E2 & E3).
  { by rewrite <- app_assoc. }
  rewrite length_app, Nat.add_1_r in E1. by exists m'.
Qed.

(** ** Allocation of a table *)

Section Alloc.
Context (te : table_env) (seg_size segments : Z).

(** The length of entry [i]. *)
Definition entry_len (i : nat) : Z :=
  if Z.of_nat i =? segments - 1 then u64 (SIZEOF_VEC_ENTRY * Z.of_nat i) else seg_size.

(** [b] is entry [i]: of its length, where the allocator put it. *)
Definition is_entry (i : nat) (b : mhi_buf) : Prop :=
  mb_len b = entry_len i /\ te_seg te i = Some (mb_buf b, mb_dma b).

Lemma entry_len_nonneg i : 0 <= seg_size -> 0 <= entry_len i.
Proof. intros H. unfold entry_len. destruct (_ =? _); [|done]. apply (wrap_in_u 64). lia. Qed.

(** Either all the entries from the [length l]-th on are there, or every block
    is given back; the rest of the heap is as it was. *)
Lemma alloc_segs_ok m0 p n l tail m :
  kmem_ok m0 -> 0 <= seg_size -> held m0 l m -> k_heap m !! p = Some (KBufs (l ++ tail)) -> length tail = n ->
  exists r m', alloc_segs te p seg_size segments (length l) n m = Some (r, m') /\
    ((r = 0 /\ exists l', length l' = n /\ held m0 (l ++ l') m' /\
        k_heap m' = <[p := KBufs (l ++ l')]> (k_heap m) /\
        forall j b, l' !! j = Some b -> is_entry (length l + j) b) \/
     (r = - ENOMEM /\ same_blocks m0 m' /\ exists junk, k_heap m' = <[p := KBufs junk]> (k_heap m))).
Proof.
  intros Hok Hseg. revert l tail m. induction n as [|n IH]; intros l tail m Hh Hp Hn.
  { destruct tail; [|done]. exists 0, m. split; [done|]. left. split; [done|]. exists [].
    rewrite app_nil_r in *. split; [done|]. split; [done|]. split; [by rewrite insert_id|done]. }
  destruct tail as [|x tail]; [done|]. injection Hn as Hn.
  cbn [alloc_segs]. fold (entry_len (length l)).
  assert (Ex : (l ++ x :: tail) !! length l = Some x) by (by rewrite list_lookup_middle).
  st_do (buf_at_eq _ _ _ _ _ Hp Ex). st_do (put_buf_eq _ _ _ (MhiBuf (mb_buf x) (mb_dma x) (entry_len (length l))) _ _ Hp Ex).
  set (x1 := MhiBuf _ _ _). set (m1 := set_heap m _).
  assert (Hh1 : held m0 l m1) by (by apply (held_same _ _ _ _ (same_blocks_heap m _))).
  assert (Hp1 : k_heap m1 !! p = Some (KBufs (l ++ x1 :: tail))).
  { subst m1. cbn. rewrite (insert_app_r_alt l (x :: tail) (length l) x1), Nat.sub_diag by lia. by rewrite lookup_insert_eq. }
  assert (E1 : (l ++ x1 :: tail) !! length l = Some x1) by (by rewrite list_lookup_middle).
  pose proof (entry_len_nonneg (length l) Hseg) as Hlen.
  destruct (alloc_coherent_held m0 l m1 (te_seg te (length l)) (entry_len (length l)) Hh1 Hlen)
    as [Ea|(buf & dma & Ew & Ea & Hh2)].
  - st_do Ea. destruct (free_back_ok m0 p l (x1 :: tail) m1 Hok Hh1 Hp1) as (m' & Ef & Hs & Ek).
    st_do Ef. exists (- ENOMEM), m'. split; [done|]. right. split; [done|]. split; [done|].
    eexists. rewrite Ek. subst m1. cbn. reflexivity.
  - st_do Ea. set (b := MhiBuf buf dma _) in *.
    st_do (put_buf_eq p (l ++ x1 :: tail) (length l) b x1 (add_block b m1) Hp1 E1).
    rewrite (insert_app_r_alt l (x1 :: tail) (length l) b), Nat.sub_diag by lia. cbn [insert list_insert].
    set (m2 := set_heap _ _).
    assert (Ep2 : k_heap m2 !! p = Some (KBufs ((l ++ [b]) ++ tail))).
    { subst m2. cbn. by rewrite lookup_insert_eq, <- app_assoc. }
    assert (Hh3 : held m0 (l ++ [b]) m2) by (apply (held_same _ _ _ _ (same_blocks_heap _ _) Hh2)).
    destruct (IH (l ++ [b]) tail m2 Hh3 Ep2 Hn) as (r & m' & Er & H).
    rewrite length_app, Nat.add_1_r in Er. exists r, m'. split; [exact Er|].
    assert (Eh : forall o, <[p := o]> (k_heap m2) = <[p := o]> (k_heap m)).
    { intros o. subst m2 m1. cbn. by rewrite !insert_insert_eq. }
    destruct H as [(-> & l' & Hl & Hh' & Ek & Hent)|(-> & Hs & junk & Ek)].
    + left. split; [done|]. exists (b :: l'). split; [cbn; by rewrite Hl|].
      rewrite <- app_assoc in Hh', Ek. split; [done|]. split; [by rewrite Ek, Eh|].
      intros [|j] b' Hj; cbn in Hj.
      * injection Hj as <-. rewrite Nat.add_0_r. by split.
      * specialize (Hent j b' Hj). rewrite length_app, Nat.add_1_r in Hent. by rewrite <- plus_n_Sm.
    + right. split; [done|]. split; [done|]. exists junk. by rewrite Ek, Eh.
Qed.

End Alloc.

(** The sizes the driver can describe: the number of entries is an [int]. *)
Definition seg_count (alloc_size seg_size : Z) : Z := (alloc_size + seg_size - 1) / seg_size.
Definition fits (alloc_size seg_size : Z) : Prop :=
  0 < seg_size < 2 ^ 64 /\ 0 <= alloc_size /\ alloc_size + seg_size - 1 < 2 ^ 64 /\ seg_count alloc_size seg_size + 1 < 2 ^ 31.

Lemma seg_count_nonneg a g : fits a g -> 0 <= seg_count a g.
Proof. intros (H1 & H2 & _). apply Z.div_pos; lia. Qed.

Lemma segments_of_fits a g : fits a g -> segments_of a g = seg_count a g + 1.
Proof.
  intros Hf. pose proof (seg_count_nonneg a g Hf) as H0. destruct Hf as (H1 & H2 & H3 & H4).
  unfold segments_of. rewrite (wrap_small 64 (a + g - 1)) by in_u. fold (seg_count a g).
  rewrite (wrap_small 64) by in_u. unfold swrap. rewrite (wrap_small 32) by in_u.
  change (2 ^ (32 - 1)) with (2 ^ 31). by rewrite (proj2 (Z.ltb_lt _ _) H4).
Qed.

(** Bus addresses are 64 bits wide. *)
Definition bus_ok (te : table_env) : Prop := forall i a d, te_seg te i = Some (a, d) -> in_u 64 d.

(** [m] is [m0] with one image of [size] bytes more: the structure at [q], the
    array at [p], the segments and the table. *)
Record image (seg_size size : Z) (m0 m : kmem) (q p : Z) (segs : list mhi_buf) (tab : mhi_buf) : Prop := {
  im_count : Z.of_nat (length segs) = seg_count size seg_size;
  im_info : k_heap m !! q = Some (KInfo (ImageInfo p (mb_buf tab) (seg_count size seg_size + 1)));
  im_bufs : k_heap m !! p = Some (KBufs (segs ++ [tab]));
  im_held : held m0 (segs ++ [tab]) m;
  im_segs : Forall (fun b => mb_len b = seg_size /\ in_u 64 (mb_dma b)) segs;
  im_tab : mb_len tab = SIZEOF_VEC_ENTRY * Z.of_nat (length segs) /\ in_u 64 (mb_dma tab);
  im_fresh : k_heap m0 !! q = None /\ k_heap m0 !! p = None /\ q <> p;
  im_heap : delete q (delete p (k_heap m)) = k_heap m0 }.

(** What a failed allocation leaves behind. *)
Definition leak (te : table_env) (m0 m : kmem) : Prop :=
  same_blocks m0 m /\
  (k_heap m = k_heap m0 \/
   exists p junk, te_array te = Some p /\ k_heap m0 !! p = None /\ k_heap m = <[p := KBufs junk]> (k_heap m0)).

Lemma kalloc_cases want o m :
  (kalloc want o m = Some (None, m)) \/
  (exists a, want = Some a /\ k_heap m !! a = None /\ kalloc want o m = Some (Some a, set_heap m (<[a := o]> (k_heap m)))).
Proof.
  unfold kalloc. destruct want as [a|]; [|by left]. destruct (k_heap m !! a) eqn:E; [by left|right]. by exists a.
Qed.

Lemma entries_split te seg_size size l :
  fits size seg_size -> Z.of_nat (length l) = seg_count size seg_size + 1 -> bus_ok te ->
  (forall j b, l !! j = Some b -> is_entry te seg_size (seg_count size seg_size + 1) j b) ->
  exists segs tab, l = segs ++ [tab] /\ Z.of_nat (length segs) = seg_count size seg_size /\
    Forall (fun b => mb_len b = seg_size /\ in_u 64 (mb_dma b)) segs /\
    mb_len tab = SIZEOF_VEC_ENTRY * Z.of_nat (length segs) /\ in_u 64 (mb_dma tab).
Proof.
  intros Hf Hl Hb Hent. pose proof (seg_count_nonneg _ _ Hf). destruct Hf as (_ & _ & _ & Hmax).
  destruct l as [|tab segs _] using rev_ind; [cbn in Hl; lia|].
  rewrite length_app in Hl; cbn in Hl. exists segs, tab. split; [done|]. split; [lia|]. split.
  - apply Forall_lookup. intros i b Hi. pose proof (lookup_lt_Some _ _ _ Hi).
    destruct (Hent i b) as [E1 E2]; [by rewrite lookup_app_l|]. split; [|by eapply Hb].
    rewrite E1. unfold entry_len. by rewrite (proj2 (Z.eqb_neq _ _)) by lia.
  - destruct (Hent (length segs) tab) as [E1 E2]; [by rewrite list_lookup_middle|]. split; [|by eapply Hb].
    rewrite E1. unfold entry_len. rewrite (proj2 (Z.eqb_eq _ _)) by lia. apply wrap_small.
    unfold SIZEOF_VEC_ENTRY. in_u.
Qed.

Lemma delete_two {A} (h : gmap Z A) q p x y z :
  h !! q = None -> h !! p = None -> delete q (delete p (<[q := x]> (<[p := y]> (<[q := z]> h)))) = h.
Proof.
  intros Hq Hp. apply map_eq. intros a. rewrite !lookup_delete.
  destruct (decide (q = a)) as [->|N1]; [done|]. destruct (decide (p = a)) as [->|N2]; [done|].
  by rewrite !lookup_insert_ne.
Qed.

(** The whole operation: the image is there, or no block is. *)
Lemma alloc_bhie_table_ok te seg_size size m :
  kmem_ok m -> fits size seg_size -> bus_ok te ->
  exists r m', mhi_alloc_bhie_table te seg_size size m = Some (r, m') /\
    ((exists q p segs tab, r = (0, Some q) /\ image seg_size size m m' q p segs tab) \/
     (r = (- ENOMEM, None) /\ leak te m m')).
Proof.
  intros Hok Hf Hb. pose proof (seg_count_nonneg _ _ Hf) as Hn. pose proof (segments_of_fits _ _ Hf) as Hs.
  assert (Hseg : 0 < seg_size) by apply Hf.
  unfold mhi_alloc_bhie_table. rewrite (proj2 (Z.eqb_neq seg_size 0)) by lia.
  st_do (eq_refl : st_load (Some tt) m = Some (tt, m)). cbv zeta. rewrite Hs. set (n := seg_count size seg_size) in *.
  destruct (kalloc_cases (te_info te) (KInfo (ImageInfo 0 0 0)) m) as [E|(q & Eq & Fq & E)]; st_do E.
  { eexists _, m. split; [done|]. right. split; [done|]. split; [done|by left]. }
  rewrite (proj2 (Z.ltb_ge _ _)) by lia.
  destruct (kalloc_cases (te_array te) (KBufs (replicate (Z.to_nat (n + 1)) mhi_buf0)) (set_heap m (<[q:=KInfo (ImageInfo 0 0 0)]> (k_heap m))))
    as [E1|(p & Ep & Fp & E1)]; st_do E1.
  { st_do (kfree_eq q (KInfo (ImageInfo 0 0 0)) (set_heap m (<[q:=KInfo (ImageInfo 0 0 0)]> (k_heap m))) (lookup_insert_eq _ _ _)).
    eexists _, _. split; [done|]. right. split; [done|]. split; [done|left]. cbn. by rewrite delete_insert_id. }
  set (m1 := set_heap m _). cbn in Fp. apply lookup_insert_None in Fp as [Fp Nqp].
  set (m2 := set_heap m1 _).
  assert (Hp2 : k_heap m2 !! p = Some (KBufs (replicate (Z.to_nat (n + 1)) mhi_buf0))) by apply lookup_insert_eq.
  destruct (alloc_segs_ok te seg_size (n + 1) m p (Z.to_nat (n + 1)) [] (replicate (Z.to_nat (n + 1)) mhi_buf0) m2 Hok)
    as (r & m3 & Er & H); [lia|by apply (held_same _ _ m), held_nil|done|by rewrite length_replicate|].
  cbn [length] in Er. st_do Er.
  assert (Eh2 : forall o, <[p := o]> (k_heap m2) = <[p := o]> (<[q := KInfo (ImageInfo 0 0 0)]> (k_heap m))).
  { intros o. subst m2 m1. cbn. by rewrite insert_insert_eq. }
  destruct H as [(-> & l & Hl & Hh & Ek & Hent)|(-> & Hsm & junk & Ek)].
  - cbn [app] in Hh, Ek. cbn [Z.eqb negb].
    destruct (entries_split te seg_size size l Hf) as (segs & tab & -> & Hc & Hsegs & Htab); [lia|done|exact Hent|].
    fold n in Hc. assert (Hp3 : k_heap m3 !! p = Some (KBufs (segs ++ [tab]))) by (by rewrite Ek, lookup_insert_eq).
    replace (n + 1 - 1) with (Z.of_nat (length segs)) by lia.
    assert (El : (segs ++ [tab]) !! length segs = Some tab) by (by rewrite list_lookup_middle).
    st_do (buf_at_eq _ _ _ _ _ Hp3 El).
    eexists _, _. split; [reflexivity|]. left. exists q, p, segs, tab. split; [done|].
    destruct Hf as (_ & _ & _ & Hmax). fold n in Hmax.
    split; [done| | | |done|done|by split_and!|].
    + cbn. rewrite lookup_insert_eq. fold n. rewrite wrap_small by in_u. done.
    + cbn. by rewrite lookup_insert_ne.
    + by apply (held_same _ _ m3).
    + cbn. rewrite Ek, Eh2. by apply delete_two.
  - change (negb (- ENOMEM =? 0)) with true. cbv iota.
    assert (Hq3 : k_heap m3 !! q = Some (KInfo (ImageInfo 0 0 0))).
    { rewrite Ek, Eh2, lookup_insert_ne by done. apply lookup_insert_eq. }
    st_do (kfree_eq _ _ _ Hq3). eexists _, _. split; [reflexivity|]. right. split; [done|]. split; [done|right].
    exists p, junk. split; [done|]. split; [done|]. cbn. rewrite Ek, Eh2, delete_insert_ne by done.
    by rewrite delete_insert_id.
Qed.

Lemma kmem_eq m m' : same_blocks m m' -> k_heap m' = k_heap m -> m' = m.
Proof. destruct m, m'. unfold same_blocks. cbn. by intros (-> & -> & ->) ->. Qed.

Section Image.
Context {seg_size size : Z} {m0 : kmem} {q p : Z} {segs : list mhi_buf} {tab : mhi_buf}.
#[local] Abbreviation img := (fun m => image seg_size size m0 m q p segs tab).

Lemma im_entries m : img m -> Z.to_nat (seg_count size seg_size + 1) = length (segs ++ [tab]).
Proof. intros H. rewrite length_app, <- (im_count _ _ _ _ _ _ _ _ H). cbn. lia. Qed.

Lemma free_bhie_table_ok m : kmem_ok m0 -> img m -> mhi_free_bhie_table q m = Some (tt, m0).
Proof.
  intros Hok H. unfold mhi_free_bhie_table. st_do (info_at_eq _ _ _ (im_info _ _ _ _ _ _ _ _ H)). cbn [ii_bufs ii_entries].
  rewrite (im_entries m H).
  destruct (free_fwd_ok m0 p [] (segs ++ [tab]) m Hok (im_held _ _ _ _ _ _ _ _ H) (im_bufs _ _ _ _ _ _ _ _ H))
    as (m1 & E1 & Hs & Ek).
  cbn [length] in E1. st_do E1.
  assert (Hp : k_heap m1 !! p = Some (KBufs (segs ++ [tab]))) by (rewrite Ek; apply H).
  st_do (kfree_eq _ _ _ Hp). destruct (im_fresh _ _ _ _ _ _ _ _ H) as (_ & _ & N).
  rewrite (kfree_eq q (KInfo (ImageInfo p (mb_buf tab) (seg_count size seg_size + 1)))).
  - f_equal. f_equal. apply kmem_eq; [exact Hs|]. cbn. rewrite Ek. apply H.
  - cbn. rewrite lookup_delete_ne by done. rewrite Ek. apply H.
Qed.

(** An image is one whatever its blocks hold. *)
Lemma image_change m m' :
  img m -> held m0 (segs ++ [tab]) m' -> k_heap m' = k_heap m -> img m'.
Proof. intros [H1 H2 H3 H4 H5 H6 H7 H8] Hh Ek. split; rewrite ?Ek; done. Qed.

Lemma table_buf_ok m : fits size seg_size -> img m -> table_buf q m = Some (tab, m).
Proof.
  intros Hf H. pose proof (seg_count_nonneg _ _ Hf). destruct Hf as (_ & _ & _ & Hmax).
  unfold table_buf. st_do (info_at_eq _ _ _ (im_info _ _ _ _ _ _ _ _ H)). cbn [ii_bufs ii_entries].
  rewrite wrap_small by in_u. replace (seg_count size seg_size + 1 - 1) with (Z.of_nat (length segs)).
  - eapply buf_at_eq; [apply H|]. by rewrite list_lookup_middle.
  - rewrite (im_count _ _ _ _ _ _ _ _ H). lia.
Qed.

End Image.

(** ** What the device reads *)

(** The entries of a table, from its bytes. *)
Fixpoint vec_decode (n : nat) (d : bytes) : list (Z * Z) :=
  match n with
  | O => []
  | S n => (le_val (take 8 d), le_val (take 8 (drop 8 d))) :: vec_decode n (drop 16 d)
  end.

(** The block at a bus address. *)
Definition dma_block (m : kmem) (dma : Z) : option bytes := a ← k_iova m !! dma; k_coh m !! a.

Definition fetch_entry (m : kmem) (e : Z * Z) : option bytes :=
  d ← dma_block m (fst e); if snd e <=? zlen d then Some (ztake (snd e) d) else None.

(** The bytes of all the segments of the table of [size] bytes at [dma]. *)
Definition device_fetch (m : kmem) (dma size : Z) : option bytes :=
  d ← dma_block m dma;
  if zlen d <? size then None
  else (@concat Z) <$> mapM (fetch_entry m) (vec_decode (Z.to_nat (size / SIZEOF_VEC_ENTRY)) d).

(** The table the TX registers describe. *)
Definition device_tx_image (k : boot_cfg) (s : drv) : option bytes :=
  let rd off := readl (io (d_ctrl s)) (bc_bhie k + off) in
  device_fetch (d_mem s) (Z.lor (Z.shiftl (rd BHIE_TXVECADDR_HIGH_OFFS) 32) (rd BHIE_TXVECADDR_LOW_OFFS))
    (rd BHIE_TXVECSIZE_OFFS).

Lemma vec_decode_cons n dma sz r :
  in_u 64 dma -> in_u 64 sz -> vec_decode (S n) (le64 dma ++ le64 sz ++ r) = (dma, sz) :: vec_decode n r.
Proof.
  intros H1 H2. cbn [vec_decode].
  rewrite (take_app_length' (le64 dma)), (drop_app_length' (le64 dma)), (take_app_length' (le64 sz)), !le64_val by done.
  done.
Qed.

(** Two words written side by side. *)
Lemma patch2 d off u v :
  0 <= off -> length u = 8%nat -> length v = 8%nat -> off + 16 <= zlen d ->
  patch (patch d off u) (off + 8) v = ztake off d ++ u ++ v ++ zdrop (off + 16) d.
Proof.
  intros H Hu Hv Hd. unfold zlen in *.
  assert (L : length (ztake off d) = Z.to_nat off) by (unfold ztake; rewrite length_take; lia).
  unfold patch at 1. unfold zlen. rewrite Hv.
  replace (patch d off u) with ((ztake off d ++ u) ++ zdrop (off + 8) d)
    by (unfold patch, zlen; rewrite Hu; by rewrite <- app_assoc).
  set (t := ztake off d) in *.
  assert (E1 : ztake (off + 8) ((t ++ u) ++ zdrop (off + 8) d) = t ++ u).
  { unfold ztake. apply take_app_length'. rewrite length_app. lia. }
  assert (E2 : zdrop (off + 8 + Z.of_nat 8) ((t ++ u) ++ zdrop (off + 8) d) = zdrop (off + 16) d).
  { unfold zdrop at 1. rewrite drop_app_ge by (rewrite length_app; lia). unfold zdrop. rewrite drop_drop.
    f_equal. rewrite length_app, L, Hu. lia. }
  by rewrite E1, E2, <- app_assoc.
Qed.

Lemma held_inj m0 l m i j b c :
  held m0 l m -> l !! i = Some b -> l !! j = Some c -> mb_buf b = mb_buf c -> i = j.
Proof.
  intros H Hi Hj E. eapply NoDup_lookup; [apply (h_bufs _ _ _ H)|rewrite list_lookup_fmap, Hi; done|].
  by rewrite list_lookup_fmap, Hj, E.
Qed.

(** One entry of a table is written. *)
Lemma put_vec_ok m0 l m tab i dma sz d :
  held m0 l m -> tab ∈ l -> k_coh m !! mb_buf tab = Some d -> SIZEOF_VEC_ENTRY * Z.of_nat (S i) <= mb_len tab ->
  let off := SIZEOF_VEC_ENTRY * Z.of_nat i in
  let d' := ztake off d ++ le64 dma ++ le64 sz ++ zdrop (off + 16) d in
  let m' := set_coh m (<[mb_buf tab := d']> (k_coh m)) in
  put_vec (mb_buf tab) (Z.of_nat i) dma sz m = Some (tt, m') /\ held m0 l m'.
Proof.
  intros Hh Ht Ed Hlen off d' m'. unfold SIZEOF_VEC_ENTRY in *. subst off. unfold put_vec.
  destruct (held_write m0 l m tab (16 * Z.of_nat i) (le64 dma) Hh Ht) as (d1 & E1 & L1 & W1 & Hh1);
    [lia|change (zlen (le64 dma)) with 8; lia|]. simplify_eq. st_do W1.
  set (m1 := set_coh m (<[mb_buf tab := patch d (16 * Z.of_nat i) (le64 dma)]> (k_coh m))) in *.
  destruct (held_write m0 l m1 tab (16 * Z.of_nat i + 8) (le64 sz) Hh1 Ht) as (d2 & E2 & L2 & W2 & Hh2);
    [lia|change (zlen (le64 sz)) with 8; lia|].
  assert (d2 = patch d (16 * Z.of_nat i) (le64 dma)) as ->.
  { subst m1. cbn in E2. rewrite lookup_insert_eq in E2. congruence. }
  rewrite patch2 in W2, Hh2 by (done || lia). fold d' in W2, Hh2.
  assert (Em : set_coh m1 (<[mb_buf tab := d']> (k_coh m1)) = m').
  { subst m1 m'. unfold set_coh. cbn. by rewrite insert_insert_eq. }
  rewrite Em in W2, Hh2. by split.
Qed.

(** The rest of the table after one more entry. *)
Lemma vec_decode_step r i d d' dma sz :
  in_u 64 dma -> in_u 64 sz -> SIZEOF_VEC_ENTRY * Z.of_nat (S i) <= zlen d ->
  ztake (SIZEOF_VEC_ENTRY * Z.of_nat (S i)) d' =
    ztake (SIZEOF_VEC_ENTRY * Z.of_nat (S i))
      (ztake (SIZEOF_VEC_ENTRY * Z.of_nat i) d ++ le64 dma ++ le64 sz ++ zdrop (SIZEOF_VEC_ENTRY * Z.of_nat i + 16) d) ->
  vec_decode (S r) (zdrop (SIZEOF_VEC_ENTRY * Z.of_nat i) d')
    = (dma, sz) :: vec_decode r (zdrop (SIZEOF_VEC_ENTRY * Z.of_nat (S i)) d').
Proof.
  intros H1 H2 Hd E. unfold SIZEOF_VEC_ENTRY in *.
  assert (L : length (ztake (16 * Z.of_nat i) d) = Z.to_nat (16 * Z.of_nat i)).
  { unfold ztake, zlen in *. rewrite length_take. lia. }
  assert (E' : ztake (16 * Z.of_nat (S i)) d' = ztake (16 * Z.of_nat i) d ++ le64 dma ++ le64 sz).
  { rewrite E. rewrite !app_assoc. apply ztake_app. unfold zlen. rewrite !length_app, L, !le64_length. lia. }
  rewrite <- (take_drop (Z.to_nat (16 * Z.of_nat (S i))) d') at 1.
  change (take (Z.to_nat (16 * Z.of_nat (S i))) d') with (ztake (16 * Z.of_nat (S i)) d'). rewrite E'.
  rewrite <- !app_assoc, zdrop_app by (unfold zlen; lia).
  by rewrite vec_decode_cons.
Qed.

Section Copy.
Context (m0 : kmem) (p seg_size : Z) (segs : list mhi_buf) (tab : mhi_buf).
Hypothesis Hpos : 0 < seg_size.
Hypothesis Hsegs : Forall (fun b => mb_len b = seg_size /\ in_u 64 (mb_dma b)) segs.
Hypothesis Htab : mb_len tab = SIZEOF_VEC_ENTRY * Z.of_nat (length segs).

(** [m'] is [m] but for the table from entry [i] on and the segments from [i] on. *)
Record copied (i : nat) (m m' : kmem) (d d' : bytes) : Prop := {
  cp_held : held m0 (segs ++ [tab]) m';
  cp_heap : k_heap m' = k_heap m;
  cp_iova : k_iova m' = k_iova m;
  cp_tab : k_coh m' !! mb_buf tab = Some d';
  cp_done : ztake (SIZEOF_VEC_ENTRY * Z.of_nat i) d' = ztake (SIZEOF_VEC_ENTRY * Z.of_nat i) d;
  cp_segs : forall j b, (j < i)%nat -> segs !! j = Some b -> k_coh m' !! mb_buf b = k_coh m !! mb_buf b }.

(** A segment with its entry. *)
Lemma copy_step i b chunk m d :
  held m0 (segs ++ [tab]) m -> k_coh m !! mb_buf tab = Some d -> segs !! i = Some b ->
  zlen chunk <= seg_size ->
  let d' := ztake (SIZEOF_VEC_ENTRY * Z.of_nat i) d ++ le64 (mb_dma b) ++ le64 (zlen chunk)
            ++ zdrop (SIZEOF_VEC_ENTRY * Z.of_nat i + 16) d in
  exists m' rest, (_ ← coh_write (mb_buf b) 0 chunk; put_vec (mb_buf tab) (Z.of_nat i) (mb_dma b) (zlen chunk)) m = Some (tt, m') /\
    copied i m m' d d' /\ k_coh m' !! mb_buf b = Some (chunk ++ rest).
Proof.
  intros Hh Ed Hb Hc d'. pose proof (lookup_lt_Some _ _ _ Hb) as Hi.
  assert (Hbl : (segs ++ [tab]) !! i = Some b) by (by rewrite lookup_app_l).
  assert (Htl : (segs ++ [tab]) !! length segs = Some tab) by (by rewrite list_lookup_middle).
  assert (Nbt : mb_buf b <> mb_buf tab).
  { intros E. pose proof (held_inj _ _ _ _ _ _ _ Hh Hbl Htl E). lia. }
  pose proof (Forall_lookup_1 _ _ _ _ Hsegs Hb) as [Lb _].
  destruct (held_write m0 _ m b 0 chunk Hh (list_elem_of_lookup_2 _ _ _ Hbl)) as (db & Eb & Ldb & W & Hh1); [lia..|].
  st_do W. set (m1 := set_coh m _) in *.
  assert (Et1 : k_coh m1 !! mb_buf tab = Some d) by (subst m1; cbn; by rewrite lookup_insert_ne).
  destruct (put_vec_ok m0 _ m1 tab i (mb_dma b) (zlen chunk) d Hh1 (list_elem_of_lookup_2 _ _ _ Htl) Et1) as [Ev Hh2].
  { rewrite Htab. unfold SIZEOF_VEC_ENTRY. lia. }
  fold d' in Ev, Hh2. eexists _, (zdrop (zlen chunk) db). split; [exact Ev|]. split.
  - split; [exact Hh2|done|done|cbn; apply lookup_insert_eq| |].
    + subst d'. destruct (h_blk _ _ _ Hh tab (list_elem_of_lookup_2 _ _ _ Htl)) as (dt & Edt & Ldt).
      assert (dt = d) as -> by congruence. apply ztake_app. rewrite Htab in Ldt. unfold SIZEOF_VEC_ENTRY, ztake, zlen in *.
      rewrite length_take. lia.
    + intros j c Hj Hjc. assert (Hcl : (segs ++ [tab]) !! j = Some c) by (rewrite lookup_app_l; [done|lia]).
      cbn. rewrite lookup_insert_ne; [subst m1; cbn; rewrite lookup_insert_ne; [done|]|].
      * intros E. pose proof (held_inj _ _ _ _ _ _ _ Hh Hbl Hcl E). lia.
      * intros E. pose proof (held_inj _ _ _ _ _ _ _ Hh Htl Hcl E). lia.
  - cbn. rewrite lookup_insert_ne by done. subst m1. cbn. by rewrite lookup_insert_eq.
Qed.

Lemma copied_refl i m d : held m0 (segs ++ [tab]) m -> k_coh m !! mb_buf tab = Some d -> copied i m m d d.
Proof. by split. Qed.

Lemma copied_trans i m m1 m2 d d1 d2 : copied i m m1 d d1 -> copied (S i) m1 m2 d1 d2 -> copied i m m2 d d2.
Proof.
  intros [A1 A2 A3 A4 A5 A6] [B1 B2 B3 B4 B5 B6]. split; [done|congruence|congruence|done| |].
  - rewrite <- A5. unfold ztake, SIZEOF_VEC_ENTRY in *.
    assert (E : forall x : bytes, take (Z.to_nat (16 * Z.of_nat i)) x =
      take (Z.to_nat (16 * Z.of_nat i)) (take (Z.to_nat (16 * Z.of_nat (S i))) x)).
    { intros x. rewrite take_take. f_equal. lia. }
    by rewrite (E d2), (E d1), B5.
  - intros j b Hj Hb. rewrite (B6 j b) by (done || lia). by apply (A6 j).
Qed.

Lemma copy_loop_ok r : forall i n buf m d,
  held m0 (segs ++ [tab]) m -> k_heap m !! p = Some (KBufs (segs ++ [tab])) -> k_coh m !! mb_buf tab = Some d ->
  (i + r = length segs)%nat -> (r <= n)%nat ->
  (Z.of_nat r - 1) * seg_size < zlen buf <= Z.of_nat r * seg_size -> in_u 64 seg_size ->
  exists m' d' chunks, copy_loop p (mb_buf tab) i n buf m = Some (tt, m') /\ copied i m m' d d' /\
    mapM (fetch_entry m') (vec_decode r (zdrop (SIZEOF_VEC_ENTRY * Z.of_nat i) d')) = Some chunks /\ concat chunks = buf.
Proof.
  induction r as [|r IH]; intros i n buf m d Hh Hp Ed Hi Hn Hbuf H64.
  { assert (buf = []) as -> by (destruct buf; [done|rewrite zlen_cons in Hbuf; pose proof (zlen_nonneg buf); lia]).
    exists m, d, []. split; [by destruct n|]. split; [by apply copied_refl|done]. }
  destruct n as [|n]; [lia|]. destruct buf as [|x buf]; [rewrite zlen_nil in Hbuf; nia|].
  cbn [copy_loop]. set (b0 := x :: buf) in *.
  destruct (lookup_lt_is_Some_2 segs i) as [b Hb]; [lia|].
  assert (Hbl : (segs ++ [tab]) !! i = Some b) by (rewrite lookup_app_l; [done|lia]).
  st_do (buf_at_eq _ _ _ _ _ Hp Hbl). cbv zeta.
  pose proof (Forall_lookup_1 _ _ _ _ Hsegs Hb) as [Lb Ub]. rewrite Lb.
  set (n0 := Z.min (zlen b0) seg_size). set (chunk := ztake n0 b0).
  assert (Lc : zlen chunk = n0) by (unfold chunk, ztake, zlen in *; rewrite length_take; lia).
  destruct (copy_step i b chunk m d Hh Ed Hb) as (m1 & rest & E1 & C1 & Eb1); [lia|].
  rewrite Lc in E1, C1. set (d1 := ztake _ d ++ _) in *.
  assert (E1' : forall f, ((_ ← coh_write (mb_buf b) 0 chunk; _ ← put_vec (mb_buf tab) (Z.of_nat i) (mb_dma b) n0; f) : st kmem unit) m = f m1).
  { intros f. rewrite <- st_bind_assoc. by rewrite (st_bind_some _ _ _ _ _ E1). }
  rewrite E1'.
  assert (Lr : zlen (zdrop n0 b0) = zlen b0 - n0) by (apply zlen_zdrop; lia).
  destruct (IH (S i) n (zdrop n0 b0) m1 d1) as (m2 & d2 & chunks & E2 & C2 & Em & Ec);
    [apply C1|rewrite (cp_heap _ _ _ _ _ C1); exact Hp|apply C1|lia|lia|nia|done|].
  exists m2, d2, (chunk :: chunks). split; [exact E2|]. split; [by eapply copied_trans|]. split.
  - assert (Ld : zlen d = SIZEOF_VEC_ENTRY * Z.of_nat (length segs)).
    { destruct (h_blk _ _ _ Hh tab) as (dt & Edt & Ldt); [set_solver|]. congruence. }
    rewrite (vec_decode_step r i d d2 (mb_dma b) n0); [|done|in_u|unfold SIZEOF_VEC_ENTRY in *; lia|apply C2].
    cbn [mapM]. assert (Ef : fetch_entry m2 (mb_dma b, n0) = Some chunk).
    { unfold fetch_entry, dma_block. cbn [fst snd].
      rewrite (h_map _ _ _ (cp_held _ _ _ _ _ C2) b) by (by eapply list_elem_of_lookup_2). cbn.
      rewrite (cp_segs _ _ _ _ _ C2 i b), Eb1 by (done || lia). cbn.
      rewrite zlen_app. pose proof (zlen_nonneg rest). rewrite (proj2 (Z.leb_le _ _)) by lia. by rewrite ztake_app. }
    rewrite Ef. cbn. by rewrite Em.
  - cbn. rewrite Ec. apply take_drop.
Qed.

End Copy.

(** ** The image and the registers *)

Lemma seg_count_bounds a g : fits a g -> (seg_count a g - 1) * g < a <= seg_count a g * g.
Proof.
  intros (H1 & H2 & _). unfold seg_count.
  pose proof (Z.div_mod (a + g - 1) g). pose proof (Z.mod_pos_bound (a + g - 1) g). nia.
Qed.

Lemma firmware_copy_ok seg_size fw m0 m q p segs tab :
  fits (zlen fw) seg_size -> image seg_size (zlen fw) m0 m q p segs tab ->
  exists m', mhi_firmware_copy fw q m = Some (tt, m') /\ image seg_size (zlen fw) m0 m' q p segs tab /\
    device_fetch m' (mb_dma tab) (mb_len tab) = Some fw.
Proof.
  intros Hf Hi. pose proof (seg_count_bounds _ _ Hf) as Hb. pose proof (im_entries m Hi) as Hn.
  unfold mhi_firmware_copy. st_do (info_at_eq _ _ _ (im_info _ _ _ _ _ _ _ _ Hi)). cbn [ii_bufs ii_vec ii_entries].
  rewrite Hn, length_app, Nat.add_1_r. pose proof (im_count _ _ _ _ _ _ _ _ Hi) as Hc.
  assert (Ht : tab ∈ segs ++ [tab]) by set_solver.
  destruct (h_blk _ _ _ (im_held _ _ _ _ _ _ _ _ Hi) tab Ht) as (d & Ed & Ld).
  assert (Hg : 0 < seg_size < 2 ^ 64) by apply Hf.
  destruct (copy_loop_ok m0 p seg_size segs tab (proj1 Hg) (im_segs _ _ _ _ _ _ _ _ Hi) (proj1 (im_tab _ _ _ _ _ _ _ _ Hi)) (length segs) 0 (S (length segs)) fw m d)
    as (m' & d' & chunks & E & C & Em & Ec);
    [apply Hi|apply Hi|done|lia|lia|rewrite Hc; lia|in_u|].
  exists m'. split; [exact E|]. split; [eapply image_change; [exact Hi|apply C|apply C]|].
  pose proof (cp_held _ _ _ _ _ _ _ _ C) as Hh'.
  destruct (h_blk _ _ _ Hh' tab Ht) as (d2 & Ed2 & Ld2). pose proof (cp_tab _ _ _ _ _ _ _ _ C) as Ed'.
  assert (d2 = d') as -> by congruence.
  unfold device_fetch, dma_block. rewrite (h_map _ _ _ Hh' tab Ht). cbn. rewrite Ed'. cbn.
  rewrite Ld2, Z.ltb_irrefl, (proj1 (im_tab _ _ _ _ _ _ _ _ Hi)).
  rewrite (Z.mul_comm SIZEOF_VEC_ENTRY), Z.div_mul, Nat2Z.id by done.
  change (zdrop (SIZEOF_VEC_ENTRY * Z.of_nat 0) d') with d' in Em. rewrite Em. cbn. by rewrite Ec.
Qed.

Lemma readl_same m v a : readl (writel m v a) a = v.
Proof. by rewrite readl_writel, Z.eqb_refl. Qed.

Lemma readl_other m v a b : a <> b -> readl (writel m v a) b = readl m b.
Proof. intros N. rewrite readl_writel. by destruct (Z.eqb_spec b a). Qed.

Lemma readl_field m b off mask shift v a : b + off <> a -> readl (mhi_write_reg_field m b off mask shift v) a = readl m a.
Proof. intros N. unfold mhi_write_reg_field. destruct (mhi_read_reg _ _ _); [|done]. by apply readl_other. Qed.

Lemma join_halves x : in_u 64 x -> Z.lor (Z.shiftl (upper_32_bits x) 32) (lower_32_bits x) = x.
Proof.
  intros H. apply Z.bits_inj'. intros i Hi. unfold upper_32_bits, lower_32_bits.
  rewrite Z.lor_spec, Z.shiftl_spec, (wrap_testbit 32 x i) by lia.
  destruct (Z.ltb_spec i 32) as [L|L]; cbn.
  - by rewrite (Z.testbit_neg_r _ (i - 32)) by lia.
  - rewrite wrap_testbit, Z.shiftr_spec by lia. replace (i - 32 + 32) with i by lia. rewrite orb_false_r.
    destruct (Z.ltb_spec (i - 32) 32); [done|]. cbn. symmetry. by apply (in_u_testbit 64); [lia|].
Qed.

(** After the TX registers are programmed the device sees the table [b]. *)
Lemma program_tx_sees k b seq s :
  in_u 64 (mb_dma b) -> in_u 32 (mb_len b) ->
  exists s', program_tx k b seq s = Some (tt, s') /\ d_mem s' = d_mem s /\ d_fbc s' = d_fbc s /\ d_fw s' = d_fw s /\
    device_tx_image k s' = device_fetch (d_mem s) (mb_dma b) (mb_len b).
Proof.
  intros H1 H2. eexists. split; [reflexivity|]. do 3 (split; [reflexivity|]).
  unfold device_tx_image. cbn [d_mem d_ctrl set_ctrl io set_io].
  unfold mhi_write_reg. rewrite !readl_field by (unfold BHIE_TXVECDB_OFFS, BHIE_TXVECADDR_HIGH_OFFS, BHIE_TXVECADDR_LOW_OFFS, BHIE_TXVECSIZE_OFFS; lia).
  rewrite readl_same.
  repeat first [rewrite readl_same | rewrite readl_other by (unfold BHIE_TXVECADDR_HIGH_OFFS, BHIE_TXVECADDR_LOW_OFFS, BHIE_TXVECSIZE_OFFS; lia)].
  rewrite join_halves by done. by rewrite wrap_small.
Qed.

(** ** The worker *)

(** The link is up: reads do not fail. *)
Definition up (c : ctrl) : Prop := link_down (io c) = false.

(** All of the state but the controller and the sequence number. *)
Definition rest (s : drv) : kmem * option Z * option Z * nat * option Z * list (Z * irq_dev) * bool :=
  (d_mem s, d_fbc s, d_rddm s, d_fw s, d_ctxt s, d_irqs s, d_pre_init s).

(** [m] from [s] ends, changes the controller and the sequence number at most and
    leaves the link up. *)
Definition quiet {A} (m : dact A) (s : drv) : Prop :=
  exists x s', m s = Some (x, s') /\ rest s' = rest s /\ up (d_ctrl s').

Lemma read_field_up m b off mask shift : link_down m = false -> exists v, mhi_read_reg_field m b off mask shift = Ok v.
Proof.
  intros H. unfold mhi_read_reg_field, mhi_read_reg. rewrite H, andb_false_r. cbn. eauto.
Qed.

Lemma field_up m b off mask shift v : link_down (mhi_write_reg_field m b off mask shift v) = link_down m.
Proof. unfold mhi_write_reg_field. by destruct (mhi_read_reg _ _ _). Qed.

Lemma status_poll_ends base off mask shift obs : forall st c,
  up c -> Forall up obs ->
  let '(st', c') := status_poll base off mask shift obs st c in
  up c' /\ (MHI_PM_IN_ERROR_STATE (pm_state c') = true \/ is_Some st').
Proof.
  induction obs as [|o obs IH]; intros st c Hc Ho; cbn; unfold status_cond;
    destruct (MHI_PM_IN_ERROR_STATE (pm_state c)) eqn:Ee; [by split; [|left]| |by split; [|left]|];
    destruct (read_field_up (io c) base off mask shift Hc) as [v ->].
  - destruct (v =? 0); cbn; (split; [done|right; by eexists]).
  - destruct (v =? 0); cbn; [|split; [done|right; by eexists]].
    inversion Ho; subst. by apply IH.
Qed.

Lemma wait_status_ends base off mask shift w s :
  up (d_ctrl s) -> Forall up (w (d_ctrl s)) ->
  exists st s', wait_status base off mask shift w s = Some (st, s') /\ rest s' = rest s /\ up (d_ctrl s') /\
    (MHI_PM_IN_ERROR_STATE (pm_state (d_ctrl s')) = true \/ is_Some st).
Proof.
  intros Hc Ho. unfold wait_status.
  destruct (w (d_ctrl s)) as [|o obs]; [|apply Forall_cons in Ho as [H1 Ho]].
  - pose proof (status_poll_ends base off mask shift [] None (d_ctrl s) Hc Ho) as H.
    destruct (status_poll _ _ _ _ _ _ _) as [st c']. exists st, (set_ctrl c' s). by destruct H.
  - pose proof (status_poll_ends base off mask shift obs None o H1 Ho) as H.
    destruct (status_poll _ _ _ _ _ _ _) as [st c']. exists st, (set_ctrl c' s). by destruct H.
Qed.

Lemma wait_for_ends cond w s :
  up (d_ctrl s) -> up (w (d_ctrl s)) -> quiet (wait_for cond w) s.
Proof.
  intros H1 H2. unfold quiet, wait_for, wait_event. destruct (cond (d_ctrl s)); eexists _, _; split; done.
Qed.

Section Worker.
Context (k : boot_cfg).

Lemma program_sbl_ends dma size s : up (d_ctrl s) -> quiet (program_sbl k dma size) s.
Proof.
  intros H. eexists _, _. split; [reflexivity|]. split; [reflexivity|]. unfold up. cbn. by rewrite !field_up.
Qed.

Lemma program_tx_ends b seq s : up (d_ctrl s) -> quiet (program_tx k b seq) s.
Proof.
  intros H. eexists _, _. split; [reflexivity|]. split; [reflexivity|]. unfold up. cbn. by rewrite !field_up.
Qed.

Lemma load_sbl_reg_ends w dma size s :
  up (d_ctrl s) -> (forall c, Forall up (w c)) -> quiet (mhi_fw_load_sbl k w dma size) s.
Proof.
  intros H Hw. unfold quiet, mhi_fw_load_sbl, cstate. rewrite st_bind_gets. cbn beta.
  destruct (negb _); [by eexists _, s|].
  destruct (program_sbl_ends dma size s H) as ([] & s1 & E1 & R1 & U1). st_do E1.
  destruct (wait_status_ends (c_bhi (d_ctrl s)) BHI_STATUS BHI_STATUS_MASK BHI_STATUS_SHIFT w s1 U1 (Hw _))
    as (st & s2 & E2 & R2 & U2 & Hst).
  st_do E2. rewrite st_bind_gets. cbn beta.
  assert (R : rest s2 = rest s) by congruence.
  destruct (MHI_PM_IN_ERROR_STATE _) eqn:Ee; [by eexists _, s2|]. destruct Hst as [?|[v ->]]; [done|].
  rewrite (st_bind_some _ _ _ v s2) by done. destruct (v =? BHI_STATUS_ERROR); by eexists _, s2.
Qed.

Lemma load_amss_ends random w b s :
  up (d_ctrl s) -> (forall c, Forall up (w c)) -> quiet (mhi_fw_load_amss k random w b) s.
Proof.
  intros H Hw. unfold quiet, mhi_fw_load_amss, cstate. rewrite st_bind_gets. cbn beta.
  destruct (negb _); [by eexists _, s|]. rewrite st_bind_modify. cbn beta zeta.
  destruct (program_tx_ends b (Z.land random BHIE_SEQNUM_BMSK) (set_seq (Z.land random BHIE_SEQNUM_BMSK) s) H)
    as ([] & s1 & E1 & R1 & U1). st_do E1.
  destruct (wait_status_ends (bc_bhie k) BHIE_TXVECSTATUS_OFFS BHIE_STATUS_BMSK BHIE_STATUS_SHFT w s1 U1 (Hw _))
    as (st & s2 & E2 & R2 & U2 & Hst).
  st_do E2. rewrite st_bind_gets. cbn beta.
  assert (R : rest s2 = rest s) by (rewrite R2, R1; done).
  destruct (MHI_PM_IN_ERROR_STATE _) eqn:Ee; [by eexists _, s2|]. destruct Hst as [?|[v ->]]; [done|].
  rewrite (st_bind_some _ _ _ v s2) by done. by eexists _, s2.
Qed.

(** [RESET -> READY] writes registers only where the link stays as it is. *)
Lemma ready_poll_up kc obs : forall reset ready c,
  up c -> Forall up obs -> up (snd (ready_poll kc obs reset ready c)).
Proof.
  induction obs as [|o obs IH]; intros reset ready c Hc Ho; cbn; destruct (ready_cond kc reset ready c) as [[ok rs] rd];
    destruct ok; try done. inversion Ho; subst. by apply IH.
Qed.

Lemma write_regs_up b l : forall m, link_down (write_regs b l m) = link_down m.
Proof. induction l as [|x l IH]; intros m; [done|]. cbn. unfold write_regs in IH. rewrite IH. apply field_up. Qed.

Lemma init_mmio_up kc c : up c -> up (snd (mhi_init_mmio kc c)).
Proof.
  intros H. unfold mhi_init_mmio, up in *.
  destruct (mhi_read_reg_field _ _ CHDBOFF _ _); [|done]. cbv zeta.
  destruct (mhi_read_reg_field _ _ ERDBOFF _ _); [|done]. cbn [snd io set_io set_cmd set_events set_chans set_wake_db].
  by rewrite write_regs_up.
Qed.

Lemma ready_event_up e c : link_down (io (fst (ready_event e c))) = link_down (io c).
Proof.
  unfold ready_event. destruct (_ || _); [done|]. unfold ring_er_db, mhi_ring_er_db, process_db, mhi_db_brstmode, mhi_db_brstmode_disable.
  by repeat case_match; simplify_eq.
Qed.

Lemma ready_up kc w c : up c -> Forall up (w c) -> up (snd (mhi_ready_state_transition kc w c)).
Proof.
  intros Hc Hw. unfold mhi_ready_state_transition. pose proof (ready_poll_up kc (w c) 1 0 c Hc Hw) as H1.
  destruct (ready_poll kc (w c) 1 0 c) as [[reset ready] c1]. cbn [snd] in H1.
  destruct (MHI_PM_IN_FATAL_STATE _); [done|]. destruct (_ || _); [done|].
  unfold mhi_tryset_pm_state. destruct (negb (_ =? MHI_PM_POR)); [done|]. destruct (negb (MHI_REG_ACCESS_VALID _)); [done|].
  set (c2 := set_dev_state _ _). assert (H2 : up c2) by done. pose proof (init_mmio_up kc c2 H2) as H3.
  destruct (mhi_init_mmio kc c2) as [ret c3]. cbn [snd] in H3. destruct (negb (ret =? 0)); [done|]. cbn [snd].
  unfold mhi_set_mhi_state, up. cbn. rewrite field_up.
  rewrite (over_events_field (fun c => link_down (io c)) ready_event c3); [exact H3|done|].
  intros e c'. apply ready_event_up.
Qed.

Lemma ready_transition_ends w s :
  up (d_ctrl s) -> (forall c, Forall up (w c)) -> quiet (ready_transition k w) s.
Proof.
  intros H Hw. unfold quiet, ready_transition. pose proof (ready_up (bc_k k) w (d_ctrl s) H (Hw _)) as Hu.
  destruct (mhi_ready_state_transition _ _ _) as [ret c]. by eexists _, (set_ctrl c s).
Qed.

Lemma mem_eq {A} (m : st kmem A) s x m' : m (d_mem s) = Some (x, m') -> mem m s = Some (x, set_mem m' s).
Proof. intros H. unfold mem, st_zoom. by rewrite H. Qed.

Lemma set_mem_id s : set_mem (d_mem s) s = s.
Proof. by destruct s. Qed.

(** The boot loader's buffer is given back whatever happens. *)
Lemma load_sbl_ends env fw s :
  kmem_ok (d_mem s) -> 0 <= sbl_size k -> up (d_ctrl s) -> (forall c, Forall up (fe_sbl env c)) ->
  quiet (load_sbl k env fw) s.
Proof.
  intros Hok Hsbl Hu Hw. unfold quiet, load_sbl. cbv zeta.
  set (size := if zlen fw <? _ then _ else _).
  pose proof (zlen_nonneg fw) as Hz.
  assert (Hsize : 0 <= size <= zlen fw).
  { subst size. destruct (Z.ltb_spec (zlen fw) (if fbc_download k then sbl_size k else zlen fw)); destruct (fbc_download k); lia. }
  clearbody size.
  assert (Lt : zlen (ztake size fw) = size) by (unfold ztake, zlen in *; rewrite length_take; lia).
  destruct (alloc_coherent_held (d_mem s) [] (d_mem s) (fe_buf env) size (held_nil _ Hok)) as [E|(buf & dma & _ & E & Hh)]; [lia| |].
  - st_do (mem_eq _ s _ _ E). rewrite set_mem_id. by eexists _, s.
  - set (b := MhiBuf buf dma size) in *. set (m1 := add_block b (d_mem s)) in *.
    st_do (mem_eq _ s _ _ E). cbn [app] in Hh.
    destruct (held_write (d_mem s) [b] m1 b 0 (ztake size fw) Hh) as (d & Ed & Ld & W & Hh2); [set_solver|lia|cbn; lia|].
    set (m2 := set_coh m1 _) in *. cbn [mb_buf b] in W.
    st_do (mem_eq _ (set_mem m1 s) _ _ W). change (set_mem m2 (set_mem m1 s)) with (set_mem m2 s).
    destruct (load_sbl_reg_ends (fe_sbl env) dma size (set_mem m2 s) Hu Hw) as (ret & s3 & E3 & R3 & U3). st_do E3.
    assert (Em : d_mem s3 = m2) by (by injection R3).
    destruct (free_coherent_held (d_mem s) [b] [] m2 b Hh2) as [F Hh3]; [done|]. cbn [mb_len mb_buf mb_dma b] in F.
    rewrite <- Em in F. st_do (mem_eq _ s3 _ _ F). rewrite Em. eexists _, _. split; [reflexivity|]. split; [|done].
    assert (del_block b m2 = d_mem s) as -> by (apply kmem_eq; [by apply held_nil_inv|done]).
    unfold rest in *. cbn in R3 |- *. congruence.
Qed.

(** What the code for the images does not touch. *)
Definition others (s : drv) : option Z * option Z * list (Z * irq_dev) * bool := (d_rddm s, d_ctxt s, d_irqs s, d_pre_init s).

(** Where a download of [fw] ends that started with the memory [m0]: the image of
    [fw] on top of it, or no block more. *)
Definition outcome (env : fw_env) (fw : bytes) (m0 : kmem) (s : drv) : Prop :=
  (d_fbc s = None /\ leak (fe_table env) m0 (d_mem s)) \/
  (exists q p segs tab, d_fbc s = Some q /\ image (seg_len k) (zlen fw) m0 (d_mem s) q p segs tab /\
     device_fetch (d_mem s) (mb_dma tab) (mb_len tab) = Some fw).

Lemma outcome_rest env fw m0 s s' : rest s' = rest s -> outcome env fw m0 s -> outcome env fw m0 s'.
Proof. intros R. unfold rest in R. injection R as E1 E2 E3 E4 E5 E6 E7. unfold outcome. by rewrite E1, E2. Qed.

Lemma others_rest s s' : rest s' = rest s -> others s' = others s /\ d_fw s' = d_fw s.
Proof. intros R. unfold rest in R. injection R as E1 E2 E3 E4 E5 E6 E7. unfold others. by rewrite E3, E4, E5, E6, E7. Qed.

Lemma leak_refl te m : leak te m m.
Proof. split; [done|by left]. Qed.

Lemma fbc_image_eq s q : d_fbc s = Some q -> fbc_image s = Some (q, s).
Proof. intros H. unfold fbc_image. rewrite st_bind_gets. cbn beta. by rewrite H. Qed.

Lemma release_eq s n : d_fw s = S n -> release_firmware s = Some (tt, set_fw n s).
Proof. intros H. unfold release_firmware. rewrite st_bind_gets. cbn beta. by rewrite H. Qed.

(** The waits of the environment leave the link up. *)
Record env_up (env : fw_env) : Prop := {
  eu_pbl : forall c, up (fe_pbl env c);
  eu_sbl : forall c, Forall up (fe_sbl env c);
  eu_ready : forall c, Forall up (fe_ready env c);
  eu_bhie : forall c, up (fe_bhie env c);
  eu_amss : forall c, Forall up (fe_amss env c) }.

(** The last part with the image in place. *)
Lemma load_image_ends env fw m0 q p segs tab n s :
  env_up env -> kmem_ok m0 -> fits (zlen fw) (seg_len k) -> up (d_ctrl s) -> d_fw s = S n -> d_fbc s = Some q ->
  image (seg_len k) (zlen fw) m0 (d_mem s) q p segs tab -> device_fetch (d_mem s) (mb_dma tab) (mb_len tab) = Some fw ->
  exists s', (ret ← ready_transition k (fe_ready env);
    if negb (ret =? 0) then _ ← free_fbc; release_firmware
    else
      ok ← wait_for (fun c => (ee c =? MHI_EE_SBL) || MHI_PM_IN_ERROR_STATE (pm_state c)) (fe_bhie env);
      err ← in_error;
      if negb ok || err then _ ← free_fbc; release_firmware
      else
        p ← fbc_image;
        b ← mem (table_buf p);
        _ ← mhi_fw_load_amss k (fe_random env) (fe_amss env) b;
        release_firmware) s = Some (tt, s') /\
    d_fw s' = n /\ others s' = others s /\ outcome env fw m0 s'.
Proof.
  intros He Hok Hf Hu Hn Hq Hi Hd.
  assert (Hfree : forall s1, rest s1 = rest s -> exists s', (_ ← free_fbc; release_firmware) s1 = Some (tt, s') /\
    d_fw s' = n /\ others s' = others s /\ outcome env fw m0 s').
  { intros s1 R. destruct (others_rest _ _ R) as [Ro Rf]. unfold rest in R. injection R as E1 E2 E3 E4 E5 E6 E7.
    rewrite <- E1 in Hi. pose proof (free_bhie_table_ok _ Hok Hi) as Ef.
    assert (Ef' : free_fbc s1 = Some (tt, set_fbc None (set_mem m0 s1))).
    { unfold free_fbc. rewrite st_bind_gets. cbn beta. rewrite E2, Hq, (st_bind_some _ _ _ q s1) by done.
      by st_do (mem_eq _ s1 _ _ Ef). }
    st_do Ef'. rewrite (release_eq _ n) by (cbn; congruence). eexists. split; [done|]. split; [done|]. split; [done|].
    left. split; [done|apply leak_refl]. }
  destruct (ready_transition_ends (fe_ready env) s Hu (eu_ready _ He)) as (ret & s1 & E1 & R1 & U1). st_do E1.
  destruct (negb (ret =? 0)); [by apply Hfree|].
  destruct (wait_for_ends (fun c => (ee c =? MHI_EE_SBL) || MHI_PM_IN_ERROR_STATE (pm_state c)) (fe_bhie env) s1 U1 (eu_bhie _ He _))
    as (ok & s2 & E2 & R2 & U2). st_do E2. unfold in_error. rewrite st_bind_gets. cbn beta.
  assert (R : rest s2 = rest s) by congruence.
  destruct (negb ok || _); [by apply Hfree|].
  unfold rest in R. injection R as F1 F2 F3 F4 F5 F6 F7. rewrite <- F2 in Hq. st_do (fbc_image_eq s2 q Hq).
  rewrite <- F1 in Hi. st_do (mem_eq _ s2 _ _ (table_buf_ok _ Hf Hi)). rewrite set_mem_id.
  destruct (load_amss_ends (fe_random env) (fe_amss env) tab s2 U2 (eu_amss _ He)) as (r & s3 & E3 & R3 & U3). st_do E3.
  destruct (others_rest _ _ R3) as [Ro Rf]. rewrite (release_eq _ n) by congruence.
  eexists. split; [done|]. split; [done|]. split; [unfold others in *; cbn; congruence|].
  apply (outcome_rest env fw m0 (set_fw n s2)); [unfold rest in *; cbn in *; congruence|].
  right. exists q, p, segs, tab. split; [cbn; congruence|]. split; [done|]. cbn. by rewrite F1.
Qed.

Lemma load_fbc_ends env fw n s :
  env_up env -> kmem_ok (d_mem s) -> bus_ok (fe_table env) -> (fbc_download k = true -> fits (zlen fw) (seg_len k)) ->
  up (d_ctrl s) -> d_fw s = S n -> d_fbc s = None ->
  exists s', load_fbc k env fw s = Some (tt, s') /\ d_fw s' = n /\ others s' = others s /\ outcome env fw (d_mem s) s'.
Proof.
  intros He Hok Hb Hf Hu Hn Hq. unfold load_fbc. destruct (fbc_download k).
  - specialize (Hf eq_refl).
    destruct (alloc_bhie_table_ok (fe_table env) (seg_len k) (zlen fw) (d_mem s) Hok Hf Hb) as (r & m1 & E1 & H).
    unfold alloc_fbc. rewrite st_bind_assoc. st_do (mem_eq _ s _ _ E1).
    destruct H as [(q & p & segs & tab & -> & Hi)|(-> & Hl)]; cbn [fst snd].
    + rewrite st_bind_assoc, st_bind_modify, st_bind_ret. cbn beta. cbn [Z.eqb negb].
      set (s1 := set_fbc (Some q) (set_mem m1 s)).
      destruct (firmware_copy_ok (seg_len k) fw (d_mem s) m1 q p segs tab Hf Hi) as (m2 & E2 & Hi2 & Hd).
      cbv iota. rewrite st_bind_assoc. st_do (fbc_image_eq s1 q eq_refl). st_do (mem_eq _ s1 _ _ E2).
      destruct (load_image_ends env fw (d_mem s) q p segs tab n (set_mem m2 s1) He Hok Hf) as (s' & E' & Hs'); [done..|].
      exists s'. split; [exact E'|]. exact Hs'.
    + rewrite st_bind_assoc, !st_bind_ret. change (negb (- ENOMEM =? 0)) with true. cbv iota.
      rewrite (release_eq _ n) by done. eexists. split; [done|]. split; [done|]. split; [done|]. left. by split.
  - rewrite st_bind_ret. cbn beta. cbn [Z.eqb negb]. rewrite st_bind_ret. cbn beta.
    destruct (ready_transition_ends (fe_ready env) s Hu (eu_ready _ He)) as (ret & s1 & E1 & R1 & U1). st_do E1.
    destruct (others_rest _ _ R1) as [Ro Rf]. rewrite (release_eq _ n) by congruence.
    eexists. split; [done|]. split; [done|]. split; [exact Ro|].
    left. unfold rest in R1. injection R1 as F1 F2 F3 F4 F5 F6 F7. cbn. rewrite F1, F2. split; [done|apply leak_refl].
Qed.

End Worker.

(** What the worker may meet: addresses of 64 bits, firmware files the sizes can
    describe, a link that stays up. *)
Record fw_env_ok (k : boot_cfg) (env : fw_env) : Prop := {
  fo_up : env_up env;
  fo_bus : bus_ok (fe_table env);
  fo_sbl : 0 <= sbl_size k;
  fo_fits : forall name fw, fe_firmware env name = Ok fw -> fbc_download k = true -> fits (zlen fw) (seg_len k) }.

(** Where the worker ends that started with the memory [m0]: no image and no
    block more, or the image of the firmware file. *)
Definition worker_end (k : boot_cfg) (env : fw_env) (m0 : kmem) (s : drv) : Prop :=
  d_fbc s = None /\ leak (fe_table env) m0 (d_mem s) \/
  exists name fw q p segs tab, fe_firmware env name = Ok fw /\ d_fbc s = Some q /\
    image (seg_len k) (zlen fw) m0 (d_mem s) q p segs tab /\
    device_fetch (d_mem s) (mb_dma tab) (mb_len tab) = Some fw.

(** Nothing but the controller has changed. *)
Lemma worker_end_same k env s s1 :
  d_fbc s = None -> rest s1 = rest s -> d_fw s1 = d_fw s /\ others s1 = others s /\ worker_end k env (d_mem s) s1.
Proof.
  intros Hq R. destruct (others_rest _ _ R) as [Ro Rf]. unfold rest in R. injection R as F1 F2 F3 F4 F5 F6 F7.
  split; [done|]. split; [done|]. left. rewrite F1, F2. split; [done|apply leak_refl].
Qed.

(** The worker from its start to its end. *)
Lemma fw_worker_run k env s :
  fw_env_ok k env -> kmem_ok (d_mem s) -> up (d_ctrl s) -> d_fbc s = None ->
  exists s', mhi_fw_load_worker k env s = Some (tt, s') /\ d_fw s' = d_fw s /\ others s' = others s /\
    worker_end k env (d_mem s) s'.
Proof.
  intros [He Hb Hsbl Hfit] Hok Hu Hq.
  assert (Hend : forall s1, rest s1 = rest s -> exists s', (mret tt : dact unit) s1 = Some (tt, s') /\ d_fw s' = d_fw s /\
    others s' = others s /\ worker_end k env (d_mem s) s').
  { intros s1 R. exists s1. split; [done|]. by apply worker_end_same. }
  unfold mhi_fw_load_worker.
  destruct (wait_for_ends (fun c => MHI_IN_PBL (ee c) || MHI_PM_IN_ERROR_STATE (pm_state c)) (fe_pbl env) s Hu (eu_pbl _ He _))
    as (ok & s1 & E1 & R1 & U1). st_do E1. unfold in_error, cstate. rewrite st_bind_gets. cbn beta.
  destruct (negb ok || _); [by apply Hend|]. rewrite st_bind_gets. cbn beta.
  destruct (ee (d_ctrl s1) =? MHI_EE_PTHRU); [by apply Hend|]. cbv zeta.
  destruct (if ee (d_ctrl s1) =? MHI_EE_EDL then _ else _) as [name|]; [|by apply Hend].
  destruct (fbc_download k && _); [by apply Hend|].
  destruct (fe_firmware env name) as [fw|e] eqn:Efw; [|by apply Hend]. rewrite st_bind_modify. cbn beta.
  set (s2 := set_fw _ s1). assert (Em : d_mem s2 = d_mem s) by (by injection R1).
  destruct (load_sbl_ends k env fw s2) as (ret & s3 & E3 & R3 & U3); [by rewrite Em|done|done|apply He|]. st_do E3.
  rewrite st_bind_gets. cbn beta.
  assert (Hn : d_fw s3 = S (d_fw s)).
  { destruct (others_rest _ _ R3) as [_ ->]. subst s2. cbn. by destruct (others_rest _ _ R1) as [_ ->]. }
  assert (R : forall n, rest (set_fw n s3) = rest (set_fw n s)) by (intros n; unfold rest in *; cbn in *; congruence).
  assert (Hrel : exists s', release_firmware s3 = Some (tt, s') /\ rest s' = rest s).
  { exists (set_fw (d_fw s) s3). rewrite (release_eq _ (d_fw s)) by done. split; [done|]. rewrite R. by destruct s. }
  destruct Hrel as (s' & Er & R'). pose proof (worker_end_same k env s s' Hq R') as Hs'.
  destruct ret as [ret|]; [|by exists s']. destruct (negb (ret =? 0) || _); [by exists s'|].
  unfold set_reset. rewrite st_bind_modify. cbn beta. set (s4 := set_ctrl _ s3).
  specialize (R (d_fw s)). unfold rest in R; cbn in R. injection R as G1 G2 G3 G4 G5 G6.
  destruct (load_fbc_ends k env fw (d_fw s) s4) as (s5 & E5 & F5 & O5 & Out5);
    [done|subst s4; cbn; by rewrite G1|done|by eapply Hfit|done|done|subst s4; cbn; congruence|].
  exists s5. split; [exact E5|]. split; [done|]. split; [rewrite O5; unfold others; subst s4; cbn; congruence|].
  subst s4. cbn [d_mem set_ctrl] in Out5. rewrite G1 in Out5. destruct Out5 as [Out|(q & p & segs & tab & O1 & O2 & O3)]; [by left|right].
  by exists name, fw, q, p, segs, tab.
Qed.


(** C12. What the driver stages the device fetches: for every firmware file, segment
    size and answer of the allocators, the table is either not allocated, and no
    block with it, or after the copy and the programming of the BHIe registers a
    device that follows TXVECADDR and TXVECSIZE, reads the little-endian entries
    and concatenates the segments gets exactly the bytes of the file. *)
Theorem fw_image_reaches_device k te fw seq s :
  kmem_ok (d_mem s) -> bus_ok te -> fits (zlen fw) (seg_len k) ->
  SIZEOF_VEC_ENTRY * seg_count (zlen fw) (seg_len k) < 2 ^ 32 ->
  exists staged s', (r ← mem (mhi_alloc_bhie_table te (seg_len k) (zlen fw));
      match snd r with
      | Some q => _ ← mem (mhi_firmware_copy fw q); b ← mem (table_buf q); _ ← program_tx k b seq; mret true
      | None => mret false
      end) s = Some (staged, s') /\
    if (staged : bool) then device_tx_image k s' = Some fw else leak te (d_mem s) (d_mem s').
Proof.
  intros Hok Hb Hf H32. pose proof (seg_count_nonneg _ _ Hf) as Hn.
  destruct (alloc_bhie_table_ok te (seg_len k) (zlen fw) (d_mem s) Hok Hf Hb) as (r & m1 & E1 & H). st_do (mem_eq _ s _ _ E1).
  destruct H as [(q & p & segs & tab & -> & Hi)|(-> & Hl)]; cbn [snd]; [|by exists false, (set_mem m1 s)].
  destruct (firmware_copy_ok (seg_len k) fw (d_mem s) m1 q p segs tab Hf Hi) as (m2 & E2 & Hi2 & Hd).
  st_do (mem_eq _ (set_mem m1 s) _ _ E2). st_do (mem_eq _ (set_mem m2 (set_mem m1 s)) _ _ (table_buf_ok _ Hf Hi2)).
  destruct (im_tab _ _ _ _ _ _ _ _ Hi2) as [Lt Ut]. pose proof (im_count _ _ _ _ _ _ _ _ Hi2) as Hc.
  destruct (program_tx_sees k tab seq (set_mem m2 (set_mem m2 (set_mem m1 s)))) as (s' & E3 & M3 & _ & _ & I3);
    [done|rewrite Lt, Hc; unfold SIZEOF_VEC_ENTRY in *; in_u|].
  st_do E3. exists true, s'. split; [done|]. by rewrite I3.
Qed.

(** Freeing a table undoes its allocation. *)
Theorem bhie_table_roundtrip te seg_size size m :
  kmem_ok m -> bus_ok te -> fits size seg_size ->
  exists r m', mhi_alloc_bhie_table te seg_size size m = Some (r, m') /\
    match r with
    | (ret, Some q) => ret = 0 /\ mhi_free_bhie_table q m' = Some (tt, m)
    | (ret, None) => ret = - ENOMEM /\ leak te m m'
    end.
Proof.
  intros Hok Hb Hf. destruct (alloc_bhie_table_ok te seg_size size m Hok Hf Hb) as (r & m' & E & H).
  exists r, m'. split; [done|]. destruct H as [(q & p & segs & tab & -> & Hi)|(-> & Hl)]; [|done].
  split; [done|]. by eapply free_bhie_table_ok.
Qed.

(** ** RAM dump *)

Section Rddm.
Context (m0 : kmem) (p seg_size : Z) (segs : list mhi_buf) (tab : mhi_buf).
Hypothesis Hpos : 0 < seg_size < 2 ^ 64.
Hypothesis Hsegs : Forall (fun b => mb_len b = seg_size /\ in_u 64 (mb_dma b)) segs.
Hypothesis Htab : mb_len tab = SIZEOF_VEC_ENTRY * Z.of_nat (length segs).

Lemma rddm_vecs_ok r : forall i m d,
  held m0 (segs ++ [tab]) m -> k_heap m !! p = Some (KBufs (segs ++ [tab])) -> k_coh m !! mb_buf tab = Some d ->
  (i + r = length segs)%nat ->
  exists m' d', rddm_vecs p (mb_buf tab) i r m = Some (tt, m') /\ copied m0 segs tab i m m' d d' /\
    vec_decode r (zdrop (SIZEOF_VEC_ENTRY * Z.of_nat i) d') = (fun b => (mb_dma b, mb_len b)) <$> drop i segs.
Proof.
  induction r as [|r IH]; intros i m d Hh Hp Ed Hi.
  { exists m, d. split; [done|]. split; [by apply copied_refl|]. by rewrite drop_ge by lia. }
  cbn [rddm_vecs]. destruct (lookup_lt_is_Some_2 segs i) as [b Hb]; [lia|].
  assert (Hbl : (segs ++ [tab]) !! i = Some b) by (rewrite lookup_app_l; [done|lia]).
  assert (Htl : (segs ++ [tab]) !! length segs = Some tab) by (by rewrite list_lookup_middle).
  st_do (buf_at_eq _ _ _ _ _ Hp Hbl). pose proof (Forall_lookup_1 _ _ _ _ Hsegs Hb) as [Lb Ub].
  destruct (put_vec_ok m0 _ m tab i (mb_dma b) (mb_len b) d Hh (list_elem_of_lookup_2 _ _ _ Htl) Ed) as [Ev Hh1].
  { rewrite Htab. unfold SIZEOF_VEC_ENTRY. lia. }
  st_do Ev. set (d1 := ztake _ d ++ _) in *. set (m1 := set_coh m _) in *.
  assert (Et1 : k_coh m1 !! mb_buf tab = Some d1) by apply lookup_insert_eq.
  destruct (IH (S i) m1 d1 Hh1 Hp Et1) as (m2 & d2 & E2 & C2 & V2); [lia|].
  assert (Ld : zlen d = SIZEOF_VEC_ENTRY * Z.of_nat (length segs)).
  { destruct (h_blk _ _ _ Hh tab) as (dt & Edt & Ldt); [set_solver|]. congruence. }
  exists m2, d2. split; [exact E2|]. split.
  - eapply copied_trans; [|exact C2]. split; [exact Hh1|done|done|done| |].
    + subst d1. apply ztake_app. unfold SIZEOF_VEC_ENTRY, ztake, zlen in *. rewrite length_take. lia.
    + intros j c Hj Hc. assert (Hcl : (segs ++ [tab]) !! j = Some c) by (rewrite lookup_app_l; [done|lia]).
      subst m1. cbn. rewrite lookup_insert_ne; [done|]. intros E.
      pose proof (held_inj _ _ _ _ _ _ _ Hh Htl Hcl E). lia.
  - rewrite (vec_decode_step r i d d2 (mb_dma b) (mb_len b));
      [|done|rewrite Lb; in_u|unfold SIZEOF_VEC_ENTRY in *; lia|apply C2].
    by rewrite V2, (drop_S _ _ _ Hb).
Qed.

End Rddm.

(** The table a RAM dump goes to lists every segment once, at its bus address and
    with its length, and together they hold the size that was asked for. *)
Theorem rddm_table_covers seg_size size m0 m q p segs tab :
  fits size seg_size -> image seg_size size m0 m q p segs tab ->
  exists m' d, mhi_rddm_prepare q m = Some (tt, m') /\ image seg_size size m0 m' q p segs tab /\
    dma_block m' (mb_dma tab) = Some d /\
    vec_decode (Z.to_nat (mb_len tab / SIZEOF_VEC_ENTRY)) d = (fun b => (mb_dma b, mb_len b)) <$> segs /\
    size <= sizes segs.
Proof.
  intros Hf Hi. pose proof (seg_count_nonneg _ _ Hf) as H0. pose proof (seg_count_bounds _ _ Hf) as Hb.
  assert (Hg : 0 < seg_size < 2 ^ 64) by apply Hf. assert (Hmax : seg_count size seg_size + 1 < 2 ^ 31) by apply Hf.
  destruct (im_tab _ _ _ _ _ _ _ _ Hi) as [Lt _]. pose proof (im_count _ _ _ _ _ _ _ _ Hi) as Hc.
  unfold mhi_rddm_prepare. st_do (info_at_eq _ _ _ (im_info _ _ _ _ _ _ _ _ Hi)). cbn [ii_bufs ii_vec ii_entries].
  rewrite wrap_small by in_u. replace (Z.to_nat (seg_count size seg_size + 1 - 1)) with (length segs) by lia.
  assert (Ht : tab ∈ segs ++ [tab]) by set_solver.
  destruct (h_blk _ _ _ (im_held _ _ _ _ _ _ _ _ Hi) tab Ht) as (d & Ed & Ld).
  destruct (rddm_vecs_ok m0 p seg_size segs tab Hg (im_segs _ _ _ _ _ _ _ _ Hi) Lt (length segs) 0 m d)
    as (m' & d' & E & C & V); [apply Hi|apply Hi|done|lia|].
  exists m', d'. split; [exact E|]. split; [eapply image_change; [exact Hi|apply C|apply C]|]. split; [|split].
  - unfold dma_block. rewrite (h_map _ _ _ (cp_held _ _ _ _ _ _ _ _ C) tab Ht). apply C.
  - rewrite Lt, (Z.mul_comm SIZEOF_VEC_ENTRY), Z.div_mul, Nat2Z.id by done. exact V.
  - assert (Hsz : sizes segs = Z.of_nat (length segs) * seg_size); [|lia].
    pose proof (im_segs _ _ _ _ _ _ _ _ Hi) as Hs. clear -Hs. unfold sizes.
    induction Hs as [|b l [Hb _] _ IH]; cbn [foldr length]; [done|]. rewrite Hb, IH. lia.
Qed.

(** ** A boot of a modem *)

(** A controller in PBL; the device's answers are register values that appear
    while the driver waits. *)
Definition poke (a v : Z) (c : ctrl) : ctrl := set_io c (Mmio (<[a := v]> (regs (io c))) (wlog (io c)) false).
Definition ex_boot_cfg : boot_cfg := BootCfg ex_cfg 0x4000 (Some (bs "amss.bin")) None true 2 4 9 1000.
Definition ex_boot_ctrl : ctrl := set_ee (poke 0 0 (ex_ctrl MHI_PM_POR MHI_STATE_RESET)) MHI_EE_PBL.
Definition ex_drv : drv := Drv ex_boot_ctrl (Kmem ∅ ∅ ∅ 0) None None 0 0 None [] false.
Definition ex_fw : bytes := [1; 2; 3; 4; 5; 6; 7; 8; 9; 10].
Definition ex_seg (i : nat) : option (Z * Z) :=
  [(0x10000, 0x70000); (0x11000, 0x71000); (0x12000, 0x72000); (0x13000, 0x73000)] !! i.
Definition ex_table : table_env := TableEnv (Some 0x8000) (Some 0x9000) ex_seg.
Definition ex_ready (c : ctrl) : list ctrl := [poke MHISTATUS 1 (poke MHICTRL 0 c)].
Definition ex_fw_env (te : table_env) : fw_env :=
  FwEnv (fun c => poke 0 0 c) (fun _ => Ok ex_fw) (Some (0x20000, 0x30000))
    (fun c => [poke (c_bhi c + BHI_STATUS) 0x80000000 c]) te ex_ready
    (fun c => set_ee (poke 0 0 c) MHI_EE_SBL) 5 (fun c => [poke (0x4000 + BHIE_TXVECSTATUS_OFFS) 0x80000000 c]).

Lemma ex_bus_ok : bus_ok ex_table.
Proof.
  intros i a d E. cbn [te_seg ex_table] in E. unfold ex_seg in E.
  do 4 (destruct i as [|i]; [injection E as <- <-; in_u|]). done.
Qed.

Lemma ex_env_ok te : bus_ok te -> fw_env_ok ex_boot_cfg (ex_fw_env te).
Proof.
  intros Hb. split; [split; intros c; cbn; unfold ex_ready; rewrite ?Forall_singleton; reflexivity|done|done|].
  intros name fw [= <-] _. vm_compute. split_and!; done.
Qed.


Lemma fw_image_reaches_device_witness :
  exists s', device_tx_image ex_boot_cfg s' = Some ex_fw /\ d_mem s' <> d_mem ex_drv.
Proof.
  destruct (fw_image_reaches_device ex_boot_cfg ex_table ex_fw 7 ex_drv) as (st & s' & E & H);
    [reflexivity|apply ex_bus_ok|vm_compute; split_and!; done|vm_compute; done|].
  assert (R : option_map (fun r => (fst r, k_alloc_size (d_mem (snd r))))
    ((r ← mem (mhi_alloc_bhie_table ex_table (seg_len ex_boot_cfg) (zlen ex_fw));
      match snd r with
      | Some q => _ ← mem (mhi_firmware_copy ex_fw q); b ← mem (table_buf q); _ ← program_tx ex_boot_cfg b 7; mret true
      | None => mret false
      end) ex_drv) = Some (true, 60)) by (vm_compute; reflexivity).
  rewrite E in R. cbn in R. injection R as -> R. exists s'. split; [exact H|]. intros Em. rewrite Em in R. discriminate R.
Defined.

(** ** What the code does not mean to do *)

(** Every member the control device reports is the execution environment: the
    offset is not used (mhi_boot.c:87). *)
Theorem bhi_info_is_exec_env c :
  BhiRead c = replicate 74 (bhi_read_reg c BHI_EXECENV).
Proof. reflexivity. Qed.

(** A table allocation that fails at a segment keeps its array of descriptors:
    the blocks are freed, the array is not (mhi_boot.c:549). *)
Theorem failed_table_leaks :
  exists te s', bus_ok te /\ mhi_fw_load_worker ex_boot_cfg (ex_fw_env te) ex_drv = Some (tt, s') /\
    d_fbc s' = None /\ k_coh (d_mem s') = ∅ /\ is_Some (k_heap (d_mem s') !! 0x9000).
Proof.
  set (te := TableEnv (Some 0x8000) (Some 0x9000) (fun i => if (i <? 2)%nat then ex_seg i else None)).
  assert (Hb : bus_ok te).
  { intros i a d E. cbn [te_seg te] in E. destruct (i <? 2)%nat; [|done]. by apply (ex_bus_ok i a d). }
  destruct (mhi_fw_load_worker ex_boot_cfg (ex_fw_env te) ex_drv) as [[[] s']|] eqn:E; [|vm_compute in E; discriminate].
  exists te, s'. split; [exact Hb|]. split; [exact E|]. vm_compute in E. injection E as <-.
  split; [reflexivity|]. split; [reflexivity|]. vm_compute. by eexists.
Qed.

(** A link that fails before the first look at the status ends the wait with the
    status not set, and its value decides the result (mhi_boot.c:449-476). *)
Theorem lost_link_reads_unset_status k s :
  MHI_REG_ACCESS_VALID (pm_state (d_ctrl s)) = true -> MHI_PM_IN_ERROR_STATE (pm_state (d_ctrl s)) = false ->
  mhi_fw_load_sbl k (fun c => [set_io c (Mmio (<[c_bhi c + BHI_STATUS := U32_MAX]> (regs (io c))) (wlog (io c)) true)]) 0 0 s = None.
Proof.
  intros H1 H2. unfold mhi_fw_load_sbl, cstate. rewrite st_bind_gets. cbn beta. rewrite H1. cbn [negb].
  assert (Hp : exists s1, program_sbl k 0 0 s = Some (tt, s1) /\ pm_state (d_ctrl s1) = pm_state (d_ctrl s) /\
    c_bhi (d_ctrl s1) = c_bhi (d_ctrl s)) by (eexists; split; [reflexivity|split; reflexivity]).
  destruct Hp as (s1 & E1 & Ep & Eb). st_do E1. rewrite <- Eb.
  set (o := set_io (d_ctrl s1) (Mmio (<[c_bhi (d_ctrl s1) + BHI_STATUS := U32_MAX]> (regs (io (d_ctrl s1)))) (wlog (io (d_ctrl s1))) true)).
  assert (Ho : status_poll (c_bhi (d_ctrl s1)) BHI_STATUS BHI_STATUS_MASK BHI_STATUS_SHIFT [] None o = (None, o)).
  { cbn [status_poll]. unfold status_cond. change (pm_state o) with (pm_state (d_ctrl s1)). rewrite Ep, H2.
    assert (E : readl (io o) (c_bhi (d_ctrl s1) + BHI_STATUS) = U32_MAX) by (unfold readl; cbn; by rewrite lookup_insert_eq).
    unfold mhi_read_reg_field, mhi_read_reg. by rewrite E. }
  assert (Ew : wait_status (c_bhi (d_ctrl s1)) BHI_STATUS BHI_STATUS_MASK BHI_STATUS_SHIFT
    (fun c => [set_io c (Mmio (<[c_bhi c + BHI_STATUS := U32_MAX]> (regs (io c))) (wlog (io c)) true)]) s1 = Some (None, set_ctrl o s1)).
  { unfold wait_status. fold o. by rewrite Ho. }
  st_do Ew. rewrite st_bind_gets. cbn beta. change (pm_state (d_ctrl (set_ctrl o s1))) with (pm_state (d_ctrl s1)).
  by rewrite Ep, H2.
Qed.

(** The device enters RDDM at the last look: the driver resets it all the same,
    as the count is 0 after the last look whether it succeeded or not
    (mhi_boot.c:223-236). *)
Theorem rddm_last_look_resets :
  exists env s r s', mhi_download_rddm_img ex_boot_cfg env true s = Some (r, s') /\
    (forall n c, n <> 1%nat -> re_enter env n c = c) /\
    (forall c, mhi_get_exec_env (io (re_enter env 1%nat c)) (c_bhi c) = MHI_EE_RDDM) /\
    (MHI_SOC_RESET_REQ_OFFSET, MHI_SOC_RESET_REQ) ∈ wlog (io (d_ctrl s')).
Proof.
  set (env := RddmEnv 5 (fun n c => if (n =? 1)%nat then poke (c_bhi c + BHI_EXECENV) MHI_EE_RDDM c else c)
    (fun c => c) (fun _ c => c) (fun c => c) (fun _ => [])).
  destruct (mem (mhi_alloc_bhie_table ex_table 4 9) ex_drv) as [[[ret [q|]] s1]|] eqn:E1;
    [|vm_compute in E1; discriminate..].
  set (s := set_rddm (Some q) s1).
  destruct (mhi_download_rddm_img ex_boot_cfg env true s) as [[r s']|] eqn:E2.
  - exists env, s, r, s'. split; [exact E2|]. split; [|split].
    + intros n c N. cbn. by rewrite (proj2 (Nat.eqb_neq n 1)).
    + intros c. cbn. unfold mhi_get_exec_env, mhi_read_reg, readl, poke. cbn. rewrite lookup_insert_eq. reflexivity.
    + subst s. vm_compute in E1. injection E1 as <- <- <-. vm_compute in E2. injection E2 as <- <-.
      apply (bool_decide_unpack _). vm_compute. reflexivity.
  - subst s. vm_compute in E1. injection E1 as <- <- <-. vm_compute in E2. discriminate.
Qed.

(** A flash programmer that never starts is reported as success: the wait's 0 is
    what [BhiWrite] returns (mhi_boot.c:806-822). *)
Theorem bhi_write_timeout_is_success :
  exists env s s', BhiWrite ex_boot_cfg env 4 s = Some (0, s') /\ ee (d_ctrl s') = MHI_EE_EDL.
Proof.
  set (env := BhiEnv (Some (0x20000, 0x30000)) 0 [1; 2; 3; 4] (fun c => [poke (c_bhi c + BHI_STATUS) 0x80000000 c]) ex_ready (fun c => c) 0).
  set (s := set_ctrl (set_ee ex_boot_ctrl MHI_EE_EDL) ex_drv).
  destruct (BhiWrite ex_boot_cfg env 4 s) as [[r s']|] eqn:E; [|vm_compute in E; discriminate].
  exists env, s, s'. vm_compute in E. injection E as <- <-. split; vm_compute; reflexivity.
Qed.
