(* ===== verification/MhiLayout.v ===== *)
(** * Channel and event ring configuration, and the control segment

    The static tables of core/mhi_init.c (chan_cfg, of_parse_ch_cfg,
    of_parse_ev_cfg, in the build without ENABLE_IP_SW0, ENABLE_ADPL and
    ENABLE_QDSS), the layout of [struct mhi_ctrl_seg] of core/mhi_internal.h, and
    the rings that mhi_init_dev_ctxt and mhi_init_chan_ctxt put into it.

    The theorems show that the configuration fits: all rings lie in the segment,
    no two of them overlap, every ring starts well formed, which is what the
    theorems on rings and transfers assume, and channels and event rings agree. *)

From S2P Require Import Prelude CLib MhiReg MhiRing MhiCtrl MhiPm MhiXfer.

Definition NUM_MHI_XFER_RINGS : Z := 128.
Definition NUM_MHI_IPA_IN_RING_ELEMENTS : Z := 512.
Definition NUM_MHI_IPA_OUT_RING_ELEMENTS : Z := 512.
Definition NUM_MHI_DIAG_IN_RING_ELEMENTS : Z := 128.
Definition NUM_MHI_CHAN_RING_ELEMENTS : Z := 32.
Definition NUM_MHI_EVT_RING_ELEMENTS : Z := NUM_MHI_IPA_IN_RING_ELEMENTS * 2.
Definition NR_OF_CMD_RINGS : Z := 1.
Definition CMD_EL_PER_RING : Z := 128.
Definition MHI_MAX_CHANNELS : nat := 128.

Definition PRIMARY_EVENT_RING : Z := 0.
Definition IPA_OUT_EVENT_RING : Z := 1.
Definition IPA_IN_EVENT_RING : Z := 2.

Definition MHI_CLIENT_LOOPBACK_OUT : Z := 0.
Definition MHI_CLIENT_LOOPBACK_IN : Z := 1.
Definition MHI_CLIENT_SAHARA_OUT : Z := 2.
Definition MHI_CLIENT_SAHARA_IN : Z := 3.
Definition MHI_CLIENT_DIAG_OUT : Z := 4.
Definition MHI_CLIENT_DIAG_IN : Z := 5.
Definition MHI_CLIENT_EFS_OUT : Z := 10.
Definition MHI_CLIENT_EFS_IN : Z := 11.
Definition MHI_CLIENT_MBIM_OUT : Z := 12.
Definition MHI_CLIENT_MBIM_IN : Z := 13.
Definition MHI_CLIENT_QMI_OUT : Z := 14.
Definition MHI_CLIENT_QMI_IN : Z := 15.
Definition MHI_CLIENT_IP_CTRL_1_OUT : Z := 18.
Definition MHI_CLIENT_IP_CTRL_1_IN : Z := 19.
Definition MHI_CLIENT_BOOT_LOG_IN : Z := 25.
Definition MHI_CLIENT_DUN_OUT : Z := 32.
Definition MHI_CLIENT_DUN_IN : Z := 33.
Definition MHI_CLIENT_EDL_OUT : Z := 34.
Definition MHI_CLIENT_EDL_IN : Z := 35.
Definition MHI_CLIENT_IP_SW_0_OUT : Z := 46.
Definition MHI_CLIENT_IP_SW_0_IN : Z := 47.
Definition MHI_CLIENT_IP_HW_0_OUT : Z := 100.
Definition MHI_CLIENT_IP_HW_0_IN : Z := 101.

Definition CHAN_INBOUND (x : Z) : bool := negb (x mod 2 =? 0).
Definition CHAN_SBL (x : Z) : bool :=
  (x =? MHI_CLIENT_SAHARA_OUT) || (x =? MHI_CLIENT_SAHARA_IN) || (x =? MHI_CLIENT_BOOT_LOG_IN).
Definition CHAN_EDL (x : Z) : bool := (x =? MHI_CLIENT_EDL_OUT) || (x =? MHI_CLIENT_EDL_IN).

Definition DMA_BIDIRECTIONAL : Z := 0.
Definition DMA_TO_DEVICE : Z := 1.
Definition DMA_FROM_DEVICE : Z := 2.
Definition DMA_NONE : Z := 3.

Inductive MHI_XFER_TYPE := MHI_XFER_BUFFER | MHI_XFER_SKB | MHI_XFER_SCLIST | MHI_XFER_NOP | MHI_XFER_DMA | MHI_XFER_RSC_DMA.
#[global] Instance xfer_type_eq_dec : EqDecision MHI_XFER_TYPE.
Proof. solve_decision. Defined.

Inductive mhi_er_data_type := MHI_ER_DATA_ELEMENT_TYPE | MHI_ER_CTRL_ELEMENT_TYPE | MHI_ER_TSYNC_ELEMENT_TYPE.
#[global] Instance er_data_type_eq_dec : EqDecision mhi_er_data_type.
Proof. solve_decision. Defined.

(** ** Channels *)

Record chan_cfg_t := ChanCfg { chan_name : bytes; chan_id : Z; cfg_elements : Z }.

Definition chan_cfg : list chan_cfg_t := [
  ChanCfg (bs "LOOPBACK") MHI_CLIENT_LOOPBACK_OUT NUM_MHI_CHAN_RING_ELEMENTS;
  ChanCfg (bs "LOOPBACK") MHI_CLIENT_LOOPBACK_IN NUM_MHI_CHAN_RING_ELEMENTS;
  ChanCfg (bs "SAHARA") MHI_CLIENT_SAHARA_OUT NUM_MHI_CHAN_RING_ELEMENTS;
  ChanCfg (bs "SAHARA") MHI_CLIENT_SAHARA_IN NUM_MHI_CHAN_RING_ELEMENTS;
  ChanCfg (bs "DIAG") MHI_CLIENT_DIAG_OUT NUM_MHI_CHAN_RING_ELEMENTS;
  ChanCfg (bs "DIAG") MHI_CLIENT_DIAG_IN NUM_MHI_DIAG_IN_RING_ELEMENTS;
  ChanCfg (bs "EFS") MHI_CLIENT_EFS_OUT NUM_MHI_CHAN_RING_ELEMENTS;
  ChanCfg (bs "EFS") MHI_CLIENT_EFS_IN NUM_MHI_CHAN_RING_ELEMENTS;
  ChanCfg (bs "MBIM") MHI_CLIENT_MBIM_OUT NUM_MHI_CHAN_RING_ELEMENTS;
  ChanCfg (bs "MBIM") MHI_CLIENT_MBIM_IN NUM_MHI_CHAN_RING_ELEMENTS;
  ChanCfg (bs "QMI0") MHI_CLIENT_QMI_OUT NUM_MHI_CHAN_RING_ELEMENTS;
  ChanCfg (bs "QMI0") MHI_CLIENT_QMI_IN NUM_MHI_CHAN_RING_ELEMENTS;
  ChanCfg (bs "IP_CTRL") MHI_CLIENT_IP_CTRL_1_OUT NUM_MHI_CHAN_RING_ELEMENTS;
  ChanCfg (bs "IP_CTRL") MHI_CLIENT_IP_CTRL_1_IN NUM_MHI_CHAN_RING_ELEMENTS;
  ChanCfg (bs "DUN") MHI_CLIENT_DUN_OUT NUM_MHI_CHAN_RING_ELEMENTS;
  ChanCfg (bs "DUN") MHI_CLIENT_DUN_IN NUM_MHI_CHAN_RING_ELEMENTS;
  ChanCfg (bs "EDL") MHI_CLIENT_EDL_OUT NUM_MHI_CHAN_RING_ELEMENTS;
  ChanCfg (bs "EDL") MHI_CLIENT_EDL_IN NUM_MHI_CHAN_RING_ELEMENTS;
  ChanCfg (bs "IP_HW0") MHI_CLIENT_IP_HW_0_OUT NUM_MHI_IPA_OUT_RING_ELEMENTS;
  ChanCfg (bs "IP_HW0") MHI_CLIENT_IP_HW_0_IN NUM_MHI_IPA_IN_RING_ELEMENTS ].

(** A channel as it is configured: the members of [struct mhi_chan] that do not
    change and the channel itself. *)
Record chan_conf := ChanConf {
  cc_name : bytes;
  cc_ring : Z;
  cc_dir : Z;
  cc_type : Z;
  cc_xfer : MHI_XFER_TYPE;
  cc_configured : bool;
  cc_h : mhi_chan }.

(** A ring with nothing but its number of elements. *)
Definition bare_ring (n : Z) : mhi_ring := MhiRing 0 0 0 0 0 0 n 0 0.

(** A zeroed channel. *)
Definition chan0 : chan_conf :=
  ChanConf [] 0 DMA_BIDIRECTIONAL 0 MHI_XFER_BUFFER false
    (MhiChan 0 (MemRing (bare_ring 0) ∅) (MemRing (bare_ring 0) ∅) (DbCfg false 0 false) false MHI_CH_STATE_DISABLED
       false false 0 0 0 false false 0 ∅ 0).

(** The channels with an array of their own in the control segment. *)
Definition own_ring (chan : Z) : bool :=
  (chan =? MHI_CLIENT_IP_HW_0_OUT) || (chan =? MHI_CLIENT_IP_HW_0_IN) || (chan =? MHI_CLIENT_DIAG_IN)
  || (chan =? MHI_CLIENT_IP_SW_0_OUT) || (chan =? MHI_CLIENT_IP_SW_0_IN).

Definition xfer_type_of (use_dma : bool) (chan : Z) : MHI_XFER_TYPE :=
  if (chan =? MHI_CLIENT_IP_HW_0_OUT) || (chan =? MHI_CLIENT_IP_SW_0_OUT) then MHI_XFER_SKB
  else if chan =? MHI_CLIENT_IP_HW_0_IN then if use_dma then MHI_XFER_DMA else MHI_XFER_SKB
  else if chan =? MHI_CLIENT_IP_SW_0_IN then MHI_XFER_SKB
  else MHI_XFER_BUFFER.

(** One entry of the table; [ring] is the next free element of the shared array.
    The checks for a bad transfer type, a pre-allocated channel and a bad burst
    mode cannot fire: the values they test are set just before. *)
Definition parse_chan (use_dma : bool) (c : chan_cfg_t) (ring : Z) : res (chan_conf * Z) :=
  let chan := chan_id c in
  let n := cfg_elements c in
  let '(at_, ring) := if own_ring chan then (0, ring) else (ring, u32 (ring + n)) in
  let er_index := if chan =? MHI_CLIENT_IP_HW_0_OUT then IPA_OUT_EVENT_RING
                  else if chan =? MHI_CLIENT_IP_HW_0_IN then IPA_IN_EVENT_RING else PRIMARY_EVENT_RING in
  let dir := if CHAN_INBOUND chan then DMA_FROM_DEVICE else DMA_TO_DEVICE in
  let type := dir in
  let ee_mask := if CHAN_SBL chan then BIT MHI_EE_SBL else if CHAN_EDL chan then BIT MHI_EE_FP else BIT MHI_EE_AMSS in
  let xfer := if n =? 0 then MHI_XFER_NOP else xfer_type_of use_dma chan in
  let dir := if n =? 0 then DMA_BIDIRECTIONAL else dir in
  let offload := n =? 0 in
  if ((dir =? DMA_BIDIRECTIONAL) || (dir =? DMA_NONE)) && negb offload then Err (- EINVAL)
  else
    let burst := negb offload && ((chan =? MHI_CLIENT_IP_HW_0_OUT) || (chan =? MHI_CLIENT_IP_HW_0_IN)) in
    Ok (ChanConf (chan_name c) at_ dir type xfer true
          (MhiChan chan (MemRing (bare_ring n) ∅) (MemRing (bare_ring n) ∅) (DbCfg false 0 burst) false
             MHI_CH_STATE_DISABLED (dir =? DMA_TO_DEVICE) (bool_decide (xfer = MHI_XFER_RSC_DMA)) er_index 0 ee_mask false
             offload 0 ∅ 0), ring).

(** [strncmp(name, prefix, n) == 0]. *)
Definition has_prefix (p s : bytes) : bool := bool_decide (take (length p) s = p).

Definition skipped (mbim : bool) (c : chan_cfg_t) : bool :=
  if has_prefix (bs "MBIM") (chan_name c) then negb mbim
  else if has_prefix (bs "QMI") (chan_name c) then mbim
  else false.

Fixpoint parse_chans (mbim use_dma : bool) (l : list chan_cfg_t) (ring : Z) (chans : list chan_conf)
  : res (list chan_conf) :=
  match l with
  | [] => Ok chans
  | c :: l =>
      if skipped mbim c then parse_chans mbim use_dma l ring chans
      else let? r := parse_chan use_dma c ring in
           parse_chans mbim use_dma l (snd r) (<[Z.to_nat (chan_id c) := fst r]> chans)
  end.

(** [mbim]: mhi_netdev_mbin_enabled(); [use_dma]: mhi_netdev_use_xfer_type_dma();
    [alloc]: the array is allocated. *)
Definition of_parse_ch_cfg (alloc mbim use_dma : bool) : res (list chan_conf) :=
  if negb alloc then Err (- ENOMEM)
  else parse_chans mbim use_dma chan_cfg 0 (replicate MHI_MAX_CHANNELS chan0).

(** ** Event rings *)

Record ev_conf := EvConf {
  ec_er_index : Z;
  ec_intmod : Z;
  ec_msi : Z;
  ec_chan : Z;
  ec_priority : Z;
  ec_data_type : mhi_er_data_type;
  ec_cl_manage : bool;
  ec_e : mhi_event }.

Definition parse_ev (msi_irq_base : Z) (chans : list chan_conf) (i : Z) : option ev_conf :=
  let elements := if i =? PRIMARY_EVENT_RING then 256 else NUM_MHI_EVT_RING_ELEMENTS in
  let ipa := (i =? IPA_IN_EVENT_RING) || (i =? IPA_OUT_EVENT_RING) in
  let intmod := if ipa then 5 else 1 in
  let chan := if i =? IPA_OUT_EVENT_RING then MHI_CLIENT_IP_HW_0_OUT
              else if i =? IPA_IN_EVENT_RING then MHI_CLIENT_IP_HW_0_IN else 0 in
  mhi_chan ← zget chans chan;
  let burst := negb (chan =? 0) && db_burst (ch_db_cfg (cc_h mhi_chan)) in
  Some (EvConf i intmod (1 + i + msi_irq_base) chan 1
          (if ipa then MHI_ER_DATA_ELEMENT_TYPE else MHI_ER_CTRL_ELEMENT_TYPE)
          ((chan =? MHI_CLIENT_IP_HW_0_IN) || (chan =? MHI_CLIENT_IP_SW_0_IN))
          (MhiEvent (MemRing (bare_ring elements) ∅) (DbCfg false 0 burst) false ipa 0 0)).

(** The rings, and the number of interrupts that are needed. *)
Definition of_parse_ev_cfg (alloc : bool) (chans : list chan_conf) : res (option (list ev_conf * Z)) :=
  if negb alloc then Err (- ENOMEM)
  else Ok (l ← mapM (fun n => parse_ev 0 chans (Z.of_nat n)) (seq 0 (Z.to_nat NUM_MHI_EVT_RINGS));
           Some (l, NUM_MHI_EVT_RINGS + 1 + 0)).

(** ** The control segment *)

Definition align_up (a x : Z) : Z := (x + a - 1) / a * a.

Definition SIZEOF_CTXT : Z := 44.

(** Size and alignment of the members of [struct mhi_ctrl_seg], in order. *)
Definition ctrl_seg_members : list (Z * Z) := [
  (NUM_MHI_IPA_IN_RING_ELEMENTS * 16, NUM_MHI_IPA_IN_RING_ELEMENTS * 16);
  (NUM_MHI_IPA_OUT_RING_ELEMENTS * 16, NUM_MHI_IPA_OUT_RING_ELEMENTS * 16);
  (NUM_MHI_DIAG_IN_RING_ELEMENTS * 16, NUM_MHI_IPA_OUT_RING_ELEMENTS * 16);
  (NUM_MHI_CHAN_RING_ELEMENTS * 2 * 12 * 16, NUM_MHI_CHAN_RING_ELEMENTS * 16);
  (NUM_MHI_EVT_RINGS * NUM_MHI_EVT_RING_ELEMENTS * 16, NUM_MHI_EVT_RING_ELEMENTS * 16);
  (NR_OF_CMD_RINGS * CMD_EL_PER_RING * 16, CMD_EL_PER_RING * 16);
  (NUM_MHI_XFER_RINGS * SIZEOF_CTXT, 128);
  (NUM_MHI_EVT_RINGS * SIZEOF_CTXT, 128);
  (NR_OF_CMD_RINGS * SIZEOF_CTXT, 128) ].

(** The offsets of the members, and the end of the last one. *)
Fixpoint offsets (l : list (Z * Z)) (at_ : Z) : list Z * Z :=
  match l with
  | [] => ([], at_)
  | (size, al) :: l => let off := align_up al at_ in let '(r, e) := offsets l (off + size) in (off :: r, e)
  end.

Definition member_off (n : nat) : Z := default 0 (fst (offsets ctrl_seg_members 0) !! n).
Definition off_hw_in_chan_ring : Z := member_off 0.
Definition off_hw_out_chan_ring : Z := member_off 1.
Definition off_diag_in_chan_ring : Z := member_off 2.
Definition off_chan_ring : Z := member_off 3.
Definition off_event_ring : Z := member_off 4.
Definition off_cmd_ring : Z := member_off 5.
Definition off_chan_ctxt : Z := member_off 6.
Definition off_er_ctxt : Z := member_off 7.
Definition off_cmd_ctxt : Z := member_off 8.

(** The largest alignment of a member, and 4096 of the structure. *)
Definition SIZEOF_CTRL_SEG : Z := align_up (NUM_MHI_EVT_RING_ELEMENTS * 16) (snd (offsets ctrl_seg_members 0)).

(** The place of a channel's transfer ring. *)
Definition chan_ring_off (c : chan_conf) : Z :=
  sizeof_mhi_tre * cc_ring c +
  (if chan (cc_h c) =? MHI_CLIENT_IP_HW_0_IN then off_hw_in_chan_ring
   else if chan (cc_h c) =? MHI_CLIENT_IP_HW_0_OUT then off_hw_out_chan_ring
   else if chan (cc_h c) =? MHI_CLIENT_DIAG_IN then off_diag_in_chan_ring
   else off_chan_ring).

(** Kernel and bus address of it in the segment at [seg], [seg_addr]. *)
Definition chan_place (seg seg_addr : Z) (c : chan_conf) : Z * Z := (seg + chan_ring_off c, seg_addr + chan_ring_off c).

Definition event_ring_off (i : nat) : Z := off_event_ring + Z.of_nat i * (NUM_MHI_EVT_RING_ELEMENTS * 16).

(** [roundup_pow_of_two]. *)
Definition roundup_pow_of_two (n : Z) : Z := 2 ^ Z.log2_up n.

(** Whether the check is silent. *)
Definition mhi_ring_aligned_check (rbase rlen : Z) : bool :=
  rbase =? rbase / roundup_pow_of_two rlen * roundup_pow_of_two rlen.

(** ** Contexts and rings of the device context *)

(** The members the two sides share; [rp] and [wp] of an event ring's context are
    [er_ctxt_rp] and [ctxt_wp] of the ring. *)
Record er_ctxt := ErCtxt { xe_intmodc : Z; xe_intmodt : Z; xe_ertype : Z; xe_msivec : Z; xe_rbase : Z; xe_rlen : Z }.
Record ch_ctxt := ChCtxt { xc_chstate : Z; xc_brstmode : Z; xc_pollcfg : Z; xc_chtype : Z; xc_erindex : Z }.

(** [memset(ring->base, 0xCC, ring->len)]. *)
Definition tre_cc : mhi_tre := Tre 0xCCCCCCCCCCCCCCCC 0xCCCCCCCC 0xCCCCCCCC.
Definition cc_fill (b n : Z) : gmap Z mhi_tre :=
  list_to_map ((fun i => (b + sizeof_mhi_tre * Z.of_nat i, tre_cc)) <$> seq 0 (Z.to_nat n)).

(** An empty ring of [n] elements of 16 bytes. *)
Definition fresh_ring (v p n db : Z) : mhi_ring := MhiRing p v v v sizeof_mhi_tre (sizeof_mhi_tre * n) n p db.

(** Event ring [i]; [one_msi]: all the rings share an interrupt. *)
Definition init_event (one_msi : bool) (seg seg_addr : Z) (i : nat) (e : ev_conf) : ev_conf * option er_ctxt :=
  if er_offload (ec_e e) then (e, None)
  else
    let msi := if one_msi then 0 else ec_msi e in
    let r := mr_ring (er_q (ec_e e)) in
    let v := seg + event_ring_off i in
    let p := seg_addr + event_ring_off i in
    let d := er_db_cfg (ec_e e) in
    let q := MhiEvent (MemRing (fresh_ring v p (elements r) (db_addr r)) (cc_fill v (elements r)))
               (DbCfg true (db_val d) (db_burst d)) (er_offload (ec_e e)) (er_hw_ring (ec_e e)) p (er_used_elements (ec_e e)) in
    (EvConf (ec_er_index e) (ec_intmod e) msi (ec_chan e) (ec_priority e) (ec_data_type e) (ec_cl_manage e) q,
     Some (ErCtxt 0 (u16 (ec_intmod e)) 1 msi p (sizeof_mhi_tre * elements r))).

Fixpoint init_events (one_msi : bool) (seg seg_addr : Z) (i : nat) (l : list ev_conf) : list (ev_conf * option er_ctxt) :=
  match l with [] => [] | e :: l => init_event one_msi seg seg_addr i e :: init_events one_msi seg seg_addr (S i) l end.

(** The channel is disabled, its doorbell points at its context's [wp] for now. *)
Definition init_chan (seg : Z) (i : nat) (c : chan_conf) : chan_conf * option ch_ctxt :=
  let h := cc_h c in
  if offload_ch h then (c, None)
  else
    let r := mr_ring (tre_ring h) in
    let h' := set_tre_ring (set_ch_state h MHI_CH_STATE_DISABLED)
                (MemRing (set_db_addr r (seg + off_chan_ctxt + SIZEOF_CTXT * Z.of_nat i + 36)) (mr_mem (tre_ring h))) in
    (ChanConf (cc_name c) (cc_ring c) (cc_dir c) (cc_type c) (cc_xfer c) (cc_configured c) h',
     Some (ChCtxt MHI_CH_STATE_DISABLED (if negb (cc_configured c) then 0 else if db_burst (ch_db_cfg h) then 3 else 2) 0 (cc_type c) (er_index h))).

Definition init_cmd (seg seg_addr : Z) (r : mhi_ring) : mhi_ring :=
  fresh_ring (seg + off_cmd_ring) (seg_addr + off_cmd_ring) CMD_EL_PER_RING (db_addr r).

(** ** The rings fit *)

(** The transfer ring of a channel that is started with its buffer ring at
    [buf]: mhi_init_chan_ctxt at the channel's place in the segment. *)
Definition chan_ring_of (buf seg seg_addr : Z) (c : chan_conf) : mhi_ring :=
  mr_ring (tre_ring (snd (mhi_init_chan_ctxt
    (PrepEnv buf (chan_place seg seg_addr c) (fun c => (true, c)) [] (fun _ => (0, 0))) (cc_h c)))).

(** All the rings of a controller: event rings, command ring, transfer rings of
    the configured channels. *)
Definition all_rings (one_msi : bool) (buf seg seg_addr : Z) (chans : list chan_conf) (evs : list ev_conf) (cmd : mhi_ring)
  : list mhi_ring :=
  ((fun e => mr_ring (er_q (ec_e (fst e)))) <$> init_events one_msi seg seg_addr 0 evs)
  ++ init_cmd seg seg_addr cmd :: (chan_ring_of buf seg seg_addr <$> filter (fun c => cc_configured c = true) chans).

(** Offset and number of elements of each of them. *)
Fixpoint event_spans (i : nat) (l : list ev_conf) : list (Z * Z) :=
  match l with [] => [] | e :: l => (event_ring_off i, elements (mr_ring (er_q (ec_e e)))) :: event_spans (S i) l end.
Definition all_spans (chans : list chan_conf) (evs : list ev_conf) : list (Z * Z) :=
  event_spans 0 evs ++ (off_cmd_ring, CMD_EL_PER_RING)
  :: ((fun c => (chan_ring_off c, elements (mr_ring (tre_ring (cc_h c))))) <$> filter (fun c => cc_configured c = true) chans).

Definition is_ring (seg seg_addr : Z) (s : Z * Z) (r : mhi_ring) : Prop :=
  exists db, r = fresh_ring (seg + fst s) (seg_addr + fst s) (snd s) db.

Lemma all_rings_spans one_msi buf seg seg_addr chans evs cmd :
  buf <> 0 -> Forall (fun e => er_offload (ec_e e) = false) evs ->
  Forall2 (is_ring seg seg_addr) (all_spans chans evs) (all_rings one_msi buf seg seg_addr chans evs cmd).
Proof.
  intros Hb He. unfold all_spans, all_rings. apply Forall2_app; [|constructor].
  - generalize 0%nat. induction He as [|e l H _ IH]; intros i; [constructor|]. cbn. constructor; [|apply IH].
    unfold init_event. rewrite H. by eexists.
  - by eexists.
  - apply Forall2_fmap, Forall_Forall2_diag, Forall_true. intros c. unfold chan_ring_of, mhi_init_chan_ctxt.
    cbn. rewrite (proj2 (Z.eqb_neq buf 0) Hb). by eexists.
Qed.

(** A decidable check of the spans. *)
Definition span_in (s : Z * Z) : bool :=
  (0 <=? fst s) && (fst s + 16 * snd s <=? off_chan_ctxt) && (0 <? snd s) && (snd s <? 2 ^ 31).
Definition span_apart (s t : Z * Z) : bool := (fst s + 16 * snd s <=? fst t) || (fst t + 16 * snd t <=? fst s).
Definition span_aligned (s : Z * Z) : bool :=
  let a := roundup_pow_of_two (16 * snd s) in (0 <? a) && (fst s mod a =? 0) && (131072 mod a =? 0).
Fixpoint spans_ok (l : list (Z * Z)) : bool :=
  match l with [] => true | s :: l => span_in s && span_aligned s && forallb (span_apart s) l && spans_ok l end.

Lemma all_spans_ok mbim use_dma :
  exists chans evs, of_parse_ch_cfg true mbim use_dma = Ok chans /\ of_parse_ev_cfg true chans = Ok (Some (evs, 4)) /\
    Forall (fun e => er_offload (ec_e e) = false) evs /\ spans_ok (all_spans chans evs) = true.
Proof.
  destruct (of_parse_ch_cfg true mbim use_dma) as [chans|] eqn:Ec; [|destruct mbim, use_dma; vm_compute in Ec; discriminate].
  destruct (of_parse_ev_cfg true chans) as [[[evs n]|]|] eqn:Ee;
    [|destruct mbim, use_dma; vm_compute in Ec; injection Ec as <-; vm_compute in Ee; discriminate..].
  exists chans, evs. split; [done|].
  destruct mbim, use_dma; vm_compute in Ec; injection Ec as <-; vm_compute in Ee; injection Ee as <- <-;
    (split; [done|]; split; [repeat constructor|vm_compute; reflexivity]).
Qed.

Lemma spans_ok_in l i s : spans_ok l = true -> l !! i = Some s -> span_in s = true /\ span_aligned s = true.
Proof.
  revert i. induction l as [|t l IH]; intros [|i] H E; cbn in *; try done; zprop.
  - injection E as <-. by split.
  - by eapply IH.
Qed.

Lemma span_apart_sym s t : span_apart s t = span_apart t s.
Proof. unfold span_apart. apply orb_comm. Qed.

Lemma spans_ok_apart l i j s t :
  spans_ok l = true -> l !! i = Some s -> l !! j = Some t -> i <> j -> span_apart s t = true.
Proof.
  revert i j s t. induction l as [|u l IH]; intros i j s t H Ei Ej N; [done|]. cbn [spans_ok] in H.
  apply andb_prop in H as [H Hl]. apply andb_prop in H as [_ Ha]. rewrite forallb_forall in Ha.
  assert (Hu : forall k v, l !! k = Some v -> span_apart u v = true).
  { intros k v Hv. apply Ha, list_elem_of_In. by eapply list_elem_of_lookup_2. }
  destruct i as [|i], j as [|j]; cbn in Ei, Ej; simplify_eq.
  - by eapply Hu.
  - rewrite span_apart_sym. by eapply Hu.
  - eapply (IH i j); auto.
Qed.

Lemma fresh_ring_at v p n db :
  0 < n < 2 ^ 31 -> 0 <= v -> v + 16 * n < 2 ^ 64 -> 0 <= p -> p + 16 * n < 2 ^ 64 -> ring_at (fresh_ring v p n db) 0 0.
Proof. intros. split; cbn; unfold sizeof_mhi_tre; lia. Qed.

(** A bus address that is a multiple of what the ring length rounds up to. *)
Lemma aligned_check_ok off n p :
  span_aligned (off, n) = true -> (131072 | p) -> mhi_ring_aligned_check (p + off) (sizeof_mhi_tre * n) = true.
Proof.
  unfold span_aligned, mhi_ring_aligned_check, sizeof_mhi_tre. cbn [fst snd]. set (a := roundup_pow_of_two _).
  intros H [q ->]. apply andb_prop in H as [H H2]. apply andb_prop in H as [H0 H1]. zprop. apply Z.eqb_eq.
  apply Z.mod_divide in H1 as [x ->]; [|lia]. apply Z.mod_divide in H2 as [y Hy]; [|lia]. rewrite Hy.
  replace (q * (y * a) + x * a) with ((q * y + x) * a) by lia. by rewrite Z.div_mul by lia.
Qed.

(** C14. The rings fit: for both protocols and transfer types the tables parse, and
    in a control segment anywhere in memory every event ring, the command ring
    and the transfer ring of every configured channel starts empty and well
    formed ([ring_at]), lies before the contexts, overlaps no other ring, and has
    its bus address at the same distance as its kernel address; with the
    alignment the DMA allocator documents for the segment's size, every ring is
    aligned to its length as the device requires. *)
Theorem rings_established mbim use_dma :
  exists chans evs, of_parse_ch_cfg true mbim use_dma = Ok chans /\ of_parse_ev_cfg true chans = Ok (Some (evs, 4)) /\
    forall one_msi buf seg seg_addr cmd,
      let rings := all_rings one_msi buf seg seg_addr chans evs cmd in
      buf <> 0 -> 0 <= seg -> seg + SIZEOF_CTRL_SEG < 2 ^ 64 -> 0 <= seg_addr -> seg_addr + SIZEOF_CTRL_SEG < 2 ^ 64 ->
      (forall i r, rings !! i = Some r -> ring_at r 0 0 /\ seg <= base r /\ base r + len r <= seg + off_chan_ctxt /\
         iommu_base r - seg_addr = base r - seg /\
         ((131072 | seg_addr) -> mhi_ring_aligned_check (iommu_base r) (len r) = true)) /\
      (forall i j r r', rings !! i = Some r -> rings !! j = Some r' -> i <> j ->
         base r + len r <= base r' \/ base r' + len r' <= base r).
Proof.
  destruct (all_spans_ok mbim use_dma) as (chans & evs & Ec & Ee & Ho & Hs). exists chans, evs.
  split; [done|]. split; [done|]. intros one_msi buf seg seg_addr cmd rings Hb H1 H2 H3 H4.
  pose proof (all_rings_spans one_msi buf seg seg_addr chans evs cmd Hb Ho) as HF. fold rings in HF.
  assert (Hsz : off_chan_ctxt <= SIZEOF_CTRL_SEG) by (vm_compute; discriminate).
  split.
  - intros i r Hr. destruct (Forall2_lookup_r _ _ _ _ _ HF Hr) as ([off n] & Es & db & ->).
    destruct (spans_ok_in _ _ _ Hs Es) as [Hin Hal]. unfold span_in in Hin. cbn [fst snd] in *. zprop.
    split; [apply fresh_ring_at; lia|]. unfold fresh_ring. cbn [base len iommu_base]. unfold sizeof_mhi_tre. split; [lia|]. split; [lia|]. split; [lia|].
    by apply aligned_check_ok.
  - intros i j r r' Hr Hr' N. destruct (Forall2_lookup_r _ _ _ _ _ HF Hr) as ([off n] & Es & db & ->).
    destruct (Forall2_lookup_r _ _ _ _ _ HF Hr') as ([off' n'] & Es' & db' & ->).
    pose proof (spans_ok_apart _ _ _ _ _ Hs Es Es' N) as Ha. unfold span_apart in Ha. cbn [fst snd] in Ha.
    unfold fresh_ring. cbn [base len fst snd]. unfold sizeof_mhi_tre. apply orb_prop in Ha as [?|?]; zprop; lia.
Qed.

(** The rings of a segment at 0x100000, at bus address 0x8000000. *)
Lemma rings_established_witness :
  exists chans evs, of_parse_ch_cfg true true false = Ok chans /\
    length (all_rings false 0x9000 0x100000 0x8000000 chans evs (bare_ring 0)) = 22%nat /\
    (forall i r, all_rings false 0x9000 0x100000 0x8000000 chans evs (bare_ring 0) !! i = Some r ->
       ring_at r 0 0 /\ mhi_ring_aligned_check (iommu_base r) (len r) = true).
Proof.
  destruct (rings_established true false) as (chans & evs & Ec & Ee & H). exists chans, evs. split; [exact Ec|].
  destruct (H false 0x9000 0x100000 0x8000000 (bare_ring 0)) as [H1 _]; [done|done|vm_compute; reflexivity|done|vm_compute; reflexivity|].
  split.
  - assert (R : match of_parse_ch_cfg true true false with
                | Ok chans => match of_parse_ev_cfg true chans with
                              | Ok (Some (evs, _)) => length (all_rings false 0x9000 0x100000 0x8000000 chans evs (bare_ring 0))
                              | _ => 0%nat end
                | _ => 0%nat end = 22%nat) by (vm_compute; reflexivity).
    rewrite Ec, Ee in R. exact R.
  - intros i r Hr. destruct (H1 i r Hr) as (A & _ & _ & _ & B). split; [exact A|]. apply B. by exists 1024.
Defined.

(** A configured channel and the event ring it reports to: the index is in range,
    a ring with a channel of its own has this one and the same doorbell mode, and
    outbound channels are the even ones. *)
Definition agrees (evs : list ev_conf) (c : chan_conf) : bool :=
  let h := cc_h c in
  match zget evs (er_index h) with
  | Some e => ((ec_chan e =? 0) && negb (er_hw_ring (ec_e e))
               || (ec_chan e =? chan h) && eqb (db_burst (er_db_cfg (ec_e e))) (db_burst (ch_db_cfg h)))
              && eqb (to_device h) (negb (CHAN_INBOUND (chan h))) && negb (offload_ch h)
  | None => false
  end.

(** Every configured channel agrees with its event ring, the interrupts of the
    event rings differ, and one more is left for the device itself. *)
Theorem channels_agree mbim use_dma :
  exists chans evs, of_parse_ch_cfg true mbim use_dma = Ok chans /\ of_parse_ev_cfg true chans = Ok (Some (evs, 4)) /\
    Forall (fun c => agrees evs c = true) (filter (fun c => cc_configured c = true) chans) /\
    ec_msi <$> evs = [1; 2; 3].
Proof.
  destruct (all_spans_ok mbim use_dma) as (chans & evs & Ec & Ee & _). exists chans, evs. split; [done|]. split; [done|].
  split.
  - apply Forall_forall. intros c Hc.
    assert (R : forallb (agrees evs) (filter (fun c => cc_configured c = true) chans) = true).
    { destruct mbim, use_dma; vm_compute in Ec; injection Ec as <-; vm_compute in Ee; injection Ee as <-; vm_compute; reflexivity. }
    rewrite forallb_forall in R. by apply R, list_elem_of_In.
  - destruct mbim, use_dma; vm_compute in Ec; injection Ec as <-; vm_compute in Ee; injection Ee as <-; vm_compute; reflexivity.
Qed.
