(* ===== verification/MhiInit.v ===== *)
(** * Bringing a controller up and down: core/mhi_init.c

    The interrupts, the device context, the preparation of a controller for
    power-up with its RAM dump table and the way back, the table of controllers
    and the control device that passes images on.

    [dev_ctxt] structures are written to the bytes of the control segment as the
    device reads them; the rings of the model ([ctrl]) get their places. *)

From S2P Require Import Prelude CLib MhiReg MhiRing MhiCtrl MhiPm MhiXfer MhiMem MhiBoot BootImage MhiLayout.

#[global] Instance irq_dev_eq_dec : EqDecision irq_dev.
Proof. solve_decision. Defined.

(** [l] without its first [x]. *)
Fixpoint take_out {A} `{EqDecision A} (x : A) (l : list A) : option (list A) :=
  match l with
  | [] => None
  | y :: l => if decide (x = y) then Some l else l ← take_out x l; Some (y :: l)
  end.

(** What does not change: the registers and sizes, the interrupt numbers of the
    MSI vectors, the parsed tables. *)
Record init_cfg := InitCfg { ic_k : boot_cfg; ic_irq : list Z; ic_chans : list chan_conf; ic_evs : list ev_conf }.

(** What the system answers to [mhi_prepare_for_power_up]: allocations and the
    results of the interrupt requests. *)
Record prep_answers := PrepAnswers {
  pa_ctxt : option Z;
  pa_seg : option (Z * Z);
  pa_irq : Z;
  pa_irqs : nat -> Z;
  pa_table : table_env }.

Section Init.
Context (k : init_cfg).
Abbreviation cc := (bc_k (ic_k k)).

Definition one_msi : bool := msi_allocated cc =? 1.
Definition ev_msi (e : ev_conf) : Z := if one_msi then 0 else ec_msi e.

(** ** Interrupts *)

Definition irq_of (i : Z) : dact Z := st_load (zget (ic_irq k) i).

(** [ret]: what the kernel answers. *)
Definition request_irq (ret irq : Z) (dev : irq_dev) : dact Z :=
  _ ← (if ret =? 0 then st_modify (fun s => set_irqs ((irq, dev) :: d_irqs s) s) else mret tt); mret ret.

(** Freeing an interrupt that is not held is a failure. *)
Definition free_irq (irq : Z) (dev : irq_dev) : dact unit :=
  l ← st_gets d_irqs; l ← st_load (take_out (irq, dev) l); st_modify (set_irqs l).

(** The interrupts of the event rings [i], [i-1], ... down to 0 of [l], reversed. *)
Fixpoint free_irqs_back (l : list ev_conf) : dact unit :=
  match l with
  | [] => mret tt
  | e :: l =>
      _ ← (if er_offload (ec_e e) then mret tt else irq ← irq_of (ev_msi e); free_irq irq (IrqEvent (length l)));
      free_irqs_back l
  end.

(** From event ring [length done] on; [done] is reversed. *)
Fixpoint request_irqs (ans : nat -> Z) (done l : list ev_conf) : dact Z :=
  match l with
  | [] => mret 0
  | e :: l =>
      if er_offload (ec_e e) then request_irqs ans (e :: done) l
      else
        irq ← irq_of (ev_msi e);
        ret ← request_irq (ans (length done)) irq (IrqEvent (length done));
        if negb (ret =? 0) then
          _ ← free_irqs_back done;
          irq ← irq_of 0;
          _ ← free_irq irq IrqCtrl;
          mret ret
        else request_irqs ans (e :: done) l
  end.

Definition mhi_init_irq_setup (a : prep_answers) : dact Z :=
  if one_msi then irq ← irq_of 0; request_irq (pa_irq a) irq IrqCtrl
  else
    irq ← irq_of (msi_irq_base cc);
    ret ← request_irq (pa_irq a) irq IrqCtrl;
    if negb (ret =? 0) then mret ret else request_irqs (pa_irqs a) [] (ic_evs k).

Fixpoint free_irqs (i : nat) (l : list ev_conf) : dact unit :=
  match l with
  | [] => mret tt
  | e :: l =>
      _ ← (if er_offload (ec_e e) then mret tt else irq ← irq_of (ev_msi e); free_irq irq (IrqEvent i));
      free_irqs (S i) l
  end.

Definition mhi_deinit_free_irq : dact unit :=
  _ ← (if one_msi then mret tt else free_irqs 0 (ic_evs k));
  irq ← irq_of (msi_irq_base cc); free_irq irq IrqCtrl.

(** ** The device context *)

(** The bytes the device context writes to the control segment: contexts of the
    channels, contexts of the event rings and their pattern, command context. *)
Definition chan_ctxt_write (i : nat) (x : option ch_ctxt) : list (Z * bytes) :=
  match x with
  | None => []
  | Some x =>
      [(off_chan_ctxt + SIZEOF_CTXT * Z.of_nat i,
        le_bytes 4 (xc_chstate x + 2 ^ 8 * xc_brstmode x + 2 ^ 10 * xc_pollcfg x) ++ le_bytes 4 (xc_chtype x)
        ++ le_bytes 4 (xc_erindex x))]
  end.

Definition er_ctxt_write (i : nat) (x : option er_ctxt) : list (Z * bytes) :=
  match x with
  | None => []
  | Some x =>
      [(off_er_ctxt + SIZEOF_CTXT * Z.of_nat i,
        le_bytes 4 (2 ^ 8 * xe_intmodc x + 2 ^ 16 * xe_intmodt x) ++ le_bytes 4 (xe_ertype x) ++ le_bytes 4 (xe_msivec x)
        ++ le64 (xe_rbase x) ++ le64 (xe_rlen x) ++ le64 (xe_rbase x) ++ le64 (xe_rbase x));
       (event_ring_off i, replicate (Z.to_nat (xe_rlen x)) 0xCC)]
  end.

Definition cmd_ctxt_write (seg_addr : Z) : list (Z * bytes) :=
  let p := seg_addr + off_cmd_ring in
  [(off_cmd_ctxt + 12, le64 p ++ le64 (sizeof_mhi_tre * CMD_EL_PER_RING) ++ le64 p ++ le64 p)].

Fixpoint coh_writes (buf : Z) (l : list (Z * bytes)) : st kmem unit :=
  match l with [] => mret tt | (off, v) :: l => _ ← coh_write buf off v; coh_writes buf l end.

Definition ev_with (x : ev_conf) (e : mhi_event) : ev_conf :=
  EvConf (ec_er_index x) (ec_intmod x) (ec_msi x) (ec_chan x) (ec_priority x) (ec_data_type x) (ec_cl_manage x) e.
Definition cc_with (x : chan_conf) (h : mhi_chan) : chan_conf :=
  ChanConf (cc_name x) (cc_ring x) (cc_dir x) (cc_type x) (cc_xfer x) (cc_configured x) h.

(** The controller's channels and event rings with their configuration. *)
Definition ctrl_evs (c : ctrl) : list ev_conf := zip_with ev_with (ic_evs k) (events c).
Definition ctrl_chans (c : ctrl) : list chan_conf := zip_with cc_with (ic_chans k) (chans c).

Definition ctxt_writes (seg seg_addr : Z) (c : ctrl) : list (Z * bytes) :=
  concat (imap (fun i x => chan_ctxt_write i (snd (init_chan seg i x))) (ctrl_chans c))
  ++ concat (imap (fun i x => er_ctxt_write i (snd (init_event one_msi seg seg_addr i x))) (ctrl_evs c))
  ++ cmd_ctxt_write seg_addr.

(** The rings and channels of the controller. *)
Definition ctxt_rings (seg seg_addr : Z) (c : ctrl) : ctrl :=
  let c := set_chans c (imap (fun i x => cc_h (fst (init_chan seg i x))) (ctrl_chans c)) in
  let c := set_events c (imap (fun i x => ec_e (fst (init_event one_msi seg seg_addr i x))) (ctrl_evs c)) in
  set_cmd c (MemRing (init_cmd seg seg_addr (mr_ring (cmd c))) (mr_mem (cmd c))).

Definition mhi_init_dev_ctxt (a : prep_answers) : dact Z :=
  _ ← st_modify (fun s => set_ctrl (set_pending_pkts (set_dev_wake (d_ctrl s) 0) 0) s);
  _ ← st_modify (fun s => set_mem (set_alloc_size (d_mem s) 0) s);
  p ← mem (kalloc (pa_ctxt a) (KCtxt (MhiCtxt 0 0)));
  match p with
  | None => mret (- ENOMEM)
  | Some mhi_ctxt =>
      b ← mem (mhi_alloc_coherent (pa_seg a) SIZEOF_CTRL_SEG);
      match b with
      | None => _ ← mem (kfree mhi_ctxt); mret (- ENOMEM)
      | Some (seg, seg_addr) =>
          if negb (Z.land seg (4096 - 1) =? 0) then
            _ ← mem (mhi_free_coherent SIZEOF_CTRL_SEG seg seg_addr);
            _ ← mem (kfree mhi_ctxt);
            mret (- ENOMEM)
          else
            _ ← mem (put_obj mhi_ctxt (KCtxt (MhiCtxt seg seg_addr)));
            c ← cstate;
            _ ← mem (coh_writes seg (ctxt_writes seg seg_addr c));
            _ ← st_modify (set_ctrl (ctxt_rings seg seg_addr c));
            _ ← st_modify (set_ctxt (Some mhi_ctxt));
            mret 0
      end
  end.

(** [ring->base = NULL], [ring->iommu_base = 0]. *)
Definition no_base (r : mhi_ring) : mhi_ring :=
  MhiRing 0 0 (rp r) (wp r) (el_size r) (len r) (elements r) (ctxt_wp r) (db_addr r).

Definition deinit_rings (c : ctrl) : ctrl :=
  let c := set_cmd c (MemRing (no_base (mr_ring (cmd c))) (mr_mem (cmd c))) in
  set_events c ((fun e => if er_offload e then e
                          else set_er_q e (MemRing (no_base (mr_ring (er_q e))) (mr_mem (er_q e)))) <$> events c).

Definition mhi_deinit_dev_ctxt : dact unit :=
  p ← st_gets d_ctxt;
  mhi_ctxt ← st_load p;
  _ ← st_modify (fun s => set_ctrl (deinit_rings (d_ctrl s)) s);
  x ← mem (ctxt_at mhi_ctxt);
  _ ← mem (mhi_free_coherent SIZEOF_CTRL_SEG (mc_ctrl_seg x) (mc_ctrl_seg_addr x));
  _ ← mem (kfree mhi_ctxt);
  st_modify (set_ctxt None).

(** ** Power-up *)

(** [mhi_free_bhie_table(mhi_cntrl->rddm_image)] when there is one. *)
Definition free_rddm : dact unit :=
  p ← st_gets d_rddm;
  match p with Some p => _ ← mem (mhi_free_bhie_table p); st_modify (set_rddm None) | None => mret tt end.

Definition free_fbc_any : dact unit :=
  p ← st_gets d_fbc;
  match p with Some p => _ ← mem (mhi_free_bhie_table p); st_modify (set_fbc None) | None => mret tt end.

(** [memset_io] over the RX registers, a word at a time. *)
Definition clear_rxvec (bhie_off : Z) (m : mmio) : mmio :=
  fold_left (fun m i => writel m 0 (c_regs cc + bhie_off + BHIE_RXVECADDR_LOW_OFFS + 4 * Z.of_nat i))
    (seq 0 (Z.to_nat ((BHIE_RXVECSTATUS_OFFS - BHIE_RXVECADDR_LOW_OFFS + 4) / 4))) m.

Definition prepare_rddm (a : prep_answers) : dact Z :=
  if rddm_size (ic_k k) =? 0 then mret 0
  else
    r ← mem (mhi_alloc_bhie_table (pa_table a) (seg_len (ic_k k)) (rddm_size (ic_k k)));
    _ ← match snd r with Some p => st_modify (set_rddm (Some p)) | None => mret tt end;
    c ← cstate;
    match mhi_read_reg (io c) (c_regs cc) BHIEOFF with
    | Err e => mret e
    | Ok bhie_off => _ ← wr_io (fun c => clear_rxvec bhie_off (io c)); mret 0
    end.

Definition mhi_prepare_for_power_up (a : prep_answers) : dact Z :=
  ret ← mhi_init_dev_ctxt a;
  if negb (ret =? 0) then mret ret
  else
    ret ← mhi_init_irq_setup a;
    if negb (ret =? 0) then _ ← mhi_deinit_dev_ctxt; mret ret
    else
      ret ← prepare_rddm a;
      if negb (ret =? 0) then
        _ ← free_rddm;
        _ ← mhi_deinit_free_irq;
        _ ← mhi_deinit_dev_ctxt;
        mret ret
      else _ ← st_modify (set_pre_init true); mret 0.

Definition mhi_unprepare_after_power_down : dact unit :=
  _ ← free_fbc_any;
  _ ← free_rddm;
  _ ← mhi_deinit_free_irq;
  _ ← mhi_deinit_dev_ctxt;
  st_modify (set_pre_init false).

End Init.
