(* ===== verification/InitProofs.v ===== *)
(** * Power-up and power-down undo each other

    For mhi_init.c: requesting the interrupts is all or nothing, the device
    context and the RAM dump table are given back on every error path, and
    preparing a controller, booting the modem through it and taking it down again
    leaves no interrupt, no coherent block and no structure behind but the
    descriptor arrays that failed table allocations leak. *)

From S2P Require Import Prelude CLib MhiReg MhiRing MhiCtrl MhiPm MhiXfer MhiMem MhiBoot BootImage MhiLayout MhiInit.

(** ** Interrupts *)

Lemma take_out_perm {A} `{EqDecision A} (x : A) l k : l ≡ₚ x :: k -> exists l', take_out x l = Some l' /\ l' ≡ₚ k.
Proof.
  revert k. induction l as [|y l IH]; intros k H.
  { by apply Permutation_nil_cons in H. }
  cbn. destruct (decide (x = y)) as [->|N].
  - exists l. split; [done|]. by apply Permutation_cons_inv in H.
  - assert (Hy : y ∈ k). { assert (Hy : y ∈ x :: k) by (rewrite <- H; left). apply elem_of_cons in Hy as [->|?]; done. }
    apply elem_of_Permutation in Hy as [k' Hk]. rewrite Hk, Permutation_swap in H. apply Permutation_cons_inv in H.
    destruct (IH k' H) as (l' & E & P). exists (y :: l'). rewrite E. split; [done|]. by rewrite P, Hk.
Qed.

Section Irqs.
Context (k : init_cfg) (i0 : Z).
Hypothesis Hi0 : zget (ic_irq k) 0 = Some i0.
Hypothesis Hbase : msi_irq_base (bc_k (ic_k k)) = 0.

(** The interrupt of an event ring. *)
Definition ev_irq (i : nat) (e : ev_conf) : list (Z * irq_dev) :=
  if er_offload (ec_e e) then [] else [(default 0 (zget (ic_irq k) (ev_msi k e)), IrqEvent i)].
Definition irq_ok (e : ev_conf) : Prop := er_offload (ec_e e) = true \/ is_Some (zget (ic_irq k) (ev_msi k e)).

Fixpoint irqs_from (i : nat) (l : list ev_conf) : list (Z * irq_dev) :=
  match l with [] => [] | e :: l => ev_irq i e ++ irqs_from (S i) l end.
Fixpoint irqs_back (l : list ev_conf) : list (Z * irq_dev) :=
  match l with [] => [] | e :: l => ev_irq (length l) e ++ irqs_back l end.

Lemma irqs_back_rev l : forall d, irqs_back (rev l ++ d) ≡ₚ irqs_from (length d) l ++ irqs_back d.
Proof.
  induction l as [|e l IH]; intros d; [done|]. cbn [rev irqs_from]. rewrite <- app_assoc. cbn [app].
  rewrite IH. cbn [irqs_back length]. rewrite !(assoc_L (++)). apply Permutation_app_tail. apply Permutation_app_comm.
Qed.

Lemma free_irq_ok irq dev r s : d_irqs s ≡ₚ (irq, dev) :: r -> exists l, free_irq irq dev s = Some (tt, set_irqs l s) /\ l ≡ₚ r.
Proof.
  intros H. destruct (take_out_perm _ _ _ H) as (l & E & P). exists l. split; [|done].
  unfold free_irq. rewrite st_bind_gets. cbn beta. by rewrite E.
Qed.

Lemma irq_of_eq i x s : zget (ic_irq k) i = Some x -> irq_of k i s = Some (x, s).
Proof. intros H. unfold irq_of. by rewrite H. Qed.

(** The interrupt of one event ring is freed. *)
Lemma free_ev_ok i e r s :
  irq_ok e -> d_irqs s ≡ₚ ev_irq i e ++ r ->
  exists l, (if er_offload (ec_e e) then mret tt else irq ← irq_of k (ev_msi k e); free_irq irq (IrqEvent i)) s
            = Some (tt, set_irqs l s) /\ l ≡ₚ r.
Proof.
  unfold irq_ok, ev_irq. intros Hok H. destruct (er_offload (ec_e e)).
  - exists (d_irqs s). split; [by destruct s|done].
  - destruct Hok as [?|[x Hx]]; [done|]. rewrite Hx in H. st_do (irq_of_eq _ _ s Hx). by apply free_irq_ok.
Qed.

Lemma free_irqs_back_ok l : forall r s,
  Forall irq_ok l -> d_irqs s ≡ₚ irqs_back l ++ r -> exists l', free_irqs_back k l s = Some (tt, set_irqs l' s) /\ l' ≡ₚ r.
Proof.
  induction l as [|e l IH]; intros r s Hok H.
  - exists (d_irqs s). split; [by destruct s|done].
  - apply Forall_cons in Hok as [He Hok]. cbn [irqs_back] in H. rewrite <- app_assoc in H. cbn [free_irqs_back].
    destruct (free_ev_ok _ _ _ s He H) as (l1 & E1 & P1). st_do E1. by apply (IH r (set_irqs l1 s)).
Qed.

Lemma free_irqs_ok l : forall i r s,
  Forall irq_ok l -> d_irqs s ≡ₚ irqs_from i l ++ r -> exists l', free_irqs k i l s = Some (tt, set_irqs l' s) /\ l' ≡ₚ r.
Proof.
  induction l as [|e l IH]; intros i r s Hok H.
  - exists (d_irqs s). split; [by destruct s|done].
  - apply Forall_cons in Hok as [He Hok]. cbn [irqs_from] in H. rewrite <- app_assoc in H. cbn [free_irqs].
    destruct (free_ev_ok _ _ _ s He H) as (l1 & E1 & P1). st_do E1. by apply (IH (S i) r (set_irqs l1 s)).
Qed.

Lemma request_irqs_ok ans l : forall d r s,
  Forall irq_ok d -> Forall irq_ok l -> d_irqs s ≡ₚ irqs_back d ++ (i0, IrqCtrl) :: r ->
  exists ret l', request_irqs k ans d l s = Some (ret, set_irqs l' s) /\
    (ret = 0 /\ l' ≡ₚ irqs_back (rev l ++ d) ++ (i0, IrqCtrl) :: r \/ ret <> 0 /\ l' ≡ₚ r).
Proof.
  induction l as [|e l IH]; intros d r s Hd Hl H.
  { exists 0, (d_irqs s). split; [by destruct s|]. by left. }
  apply Forall_cons in Hl as [He Hl]. cbn [request_irqs rev]. rewrite <- app_assoc. cbn [app].
  assert (Hd' : Forall irq_ok (e :: d)) by (by constructor).
  destruct (er_offload (ec_e e)) eqn:Eo.
  { apply IH; [done|done|]. cbn [irqs_back]. unfold ev_irq. by rewrite Eo. }
  destruct He as [?|[x Hx]]; [congruence|]. st_do (irq_of_eq _ _ s Hx).
  unfold request_irq. rewrite st_bind_assoc. destruct (ans (length d) =? 0) eqn:Ea.
  - rewrite st_bind_modify, st_bind_ret. cbn beta. rewrite Ea. cbn [negb].
    apply (IH (e :: d) r (set_irqs ((x, IrqEvent (length d)) :: d_irqs s) s)); [done|done|].
    cbn [irqs_back]. unfold ev_irq. rewrite Eo, Hx. cbn. by rewrite H.
  - rewrite st_bind_ret, st_bind_ret. cbn beta. rewrite Ea. cbn [negb].
    destruct (free_irqs_back_ok d _ s Hd H) as (l1 & E1 & P1). st_do E1. st_do (irq_of_eq 0 i0 (set_irqs l1 s) Hi0).
    destruct (free_irq_ok i0 IrqCtrl r (set_irqs l1 s) P1) as (l2 & E2 & P2). st_do E2.
    exists (ans (length d)), l2. split; [done|]. right. split; [lia|done].
Qed.

(** All the interrupts of the controller. *)
Definition all_irqs : list (Z * irq_dev) :=
  (if one_msi k then [] else irqs_from 0 (ic_evs k)) ++ [(i0, IrqCtrl)].

Lemma irq_setup_ok a s :
  Forall irq_ok (ic_evs k) ->
  exists ret l, mhi_init_irq_setup k a s = Some (ret, set_irqs l s) /\
    (ret = 0 /\ l ≡ₚ all_irqs ++ d_irqs s \/ ret <> 0 /\ l ≡ₚ d_irqs s).
Proof.
  intros Hok. unfold mhi_init_irq_setup, all_irqs.
  assert (Hreq : exists l, request_irq (pa_irq a) i0 IrqCtrl s = Some (pa_irq a, set_irqs l s) /\
    (pa_irq a = 0 /\ l = (i0, IrqCtrl) :: d_irqs s \/ pa_irq a <> 0 /\ l = d_irqs s)).
  { unfold request_irq. destruct (pa_irq a =? 0) eqn:E.
    - eexists. split; [done|]. left. split; [lia|done].
    - exists (d_irqs s). split; [by destruct s|]. right. split; [lia|done]. }
  destruct Hreq as (l & E & H). destruct (one_msi k).
  - st_do (irq_of_eq 0 i0 s Hi0). rewrite E. exists (pa_irq a), l. split; [done|].
    destruct H as [[-> ->]|[N ->]]; [by left|by right].
  - rewrite Hbase. st_do (irq_of_eq 0 i0 s Hi0). st_do E.
    destruct H as [[Ez ->]|[N ->]].
    + rewrite Ez. cbn [Z.eqb negb].
      destruct (request_irqs_ok (pa_irqs a) (ic_evs k) [] (d_irqs s) (set_irqs ((i0, IrqCtrl) :: d_irqs s) s)) as (ret & l & E2 & H2);
        [constructor|done|done|].
      exists ret, l. split; [exact E2|]. destruct H2 as [[-> P]|[N P]]; [left|right; done]. split; [done|].
      rewrite P, irqs_back_rev. cbn. by rewrite app_nil_r, <- app_assoc.
    + rewrite (proj2 (Z.eqb_neq _ _) N). cbn [negb]. eexists _, _. split; [done|]. by right.
Qed.

Lemma free_irq_all_ok r s :
  Forall irq_ok (ic_evs k) -> d_irqs s ≡ₚ all_irqs ++ r ->
  exists l, mhi_deinit_free_irq k s = Some (tt, set_irqs l s) /\ l ≡ₚ r.
Proof.
  intros Hok H. unfold mhi_deinit_free_irq, all_irqs in *. rewrite <- app_assoc in H. rewrite Hbase. destruct (one_msi k).
  - rewrite st_bind_ret. cbn beta. st_do (irq_of_eq 0 i0 s Hi0). by apply free_irq_ok.
  - destruct (free_irqs_ok (ic_evs k) 0 _ s Hok H) as (l1 & E1 & P1). st_do E1.
    st_do (irq_of_eq 0 i0 (set_irqs l1 s) Hi0). by apply (free_irq_ok i0 IrqCtrl r (set_irqs l1 s)).
Qed.

End Irqs.

(** ** Leaks *)

(** Memory with at most one descriptor array more. *)
Definition leak1 (m m' : kmem) : Prop :=
  same_blocks m m' /\
  (k_heap m' = k_heap m \/ exists p junk, k_heap m !! p = None /\ k_heap m' = <[p := KBufs junk]> (k_heap m)).

(** Nothing but such arrays on top of [m]. *)
Definition leaks : relation kmem := rtc leak1.

Lemma leak_leak1 te m m' : leak te m m' -> leak1 m m'.
Proof. intros [H1 [H2|(p & junk & _ & H2)]]; split; eauto. Qed.

Lemma leaks_one te m m' : leak te m m' -> leaks m m'.
Proof. intros H. by eapply rtc_once, leak_leak1. Qed.

(** A property of a memory on top of another that survives one leak survives all. *)
Lemma leaks_lift (R : kmem -> kmem -> Prop) :
  (forall m0 m1 m2, leak1 m1 m2 -> R m0 m1 -> exists m0', leak1 m0 m0' /\ R m0' m2) ->
  forall m0 m1 m2, leaks m1 m2 -> R m0 m1 -> exists m0', leaks m0 m0' /\ R m0' m2.
Proof.
  intros Hs m0 m1 m2 H. revert m0. induction H as [m|m1 m m2 H _ IH]; intros m0 HR; [by exists m0|].
  destruct (Hs _ _ _ H HR) as (m0' & L & HR'). destruct (IH _ HR') as (m0'' & L' & HR''). exists m0''.
  split; [by eapply rtc_l|done].
Qed.

(** An image on top of a memory survives a leak, which moves below it. *)
Lemma image_leak1 seg_size size q p segs tab m0 m1 m2 :
  leak1 m1 m2 -> image seg_size size m0 m1 q p segs tab ->
  exists m0', leak1 m0 m0' /\ image seg_size size m0' m2 q p segs tab.
Proof.
  intros [Hs Hh] [H1 H2 H3 H4 H5 H6 H7 H8]. destruct Hh as [Hh|(j & junk & Fj & Hh)].
  { exists m0. split; [split; [done|by left]|]. split; rewrite ?Hh; try done. by eapply held_same. }
  assert (Nq : q <> j) by congruence. assert (Np : p <> j) by congruence. destruct H7 as (Fq & Fp & Nqp).
  assert (Fj0 : k_heap m0 !! j = None) by (rewrite <- H8; by rewrite !lookup_delete_ne).
  exists (set_heap m0 (<[j := KBufs junk]> (k_heap m0))).
  split; [split; [done|]; right; by exists j, junk|]. split; rewrite ?Hh.
  - done.
  - by rewrite lookup_insert_ne.
  - by rewrite lookup_insert_ne.
  - eapply held_base; [|by eapply held_same]. done.
  - done.
  - done.
  - cbn. by rewrite !lookup_insert_ne.
  - cbn. rewrite !delete_insert_ne by done. by rewrite H8.
Qed.

(** ** The device context *)

(** [m] is [m0] with the structure at [x] and the control segment more. *)
Record with_ctxt (x seg seg_addr : Z) (m0 m : kmem) : Prop := {
  wc_held : held m0 [MhiBuf seg seg_addr SIZEOF_CTRL_SEG] m;
  wc_heap : k_heap m = <[x := KCtxt (MhiCtxt seg seg_addr)]> (k_heap m0);
  wc_fresh : k_heap m0 !! x = None }.

Lemma with_ctxt_leak1 x seg seg_addr m0 m1 m2 :
  leak1 m1 m2 -> with_ctxt x seg seg_addr m0 m1 -> exists m0', leak1 m0 m0' /\ with_ctxt x seg seg_addr m0' m2.
Proof.
  intros [Hs Hh] [H1 H2 H3]. destruct Hh as [Hh|(j & junk & Fj & Hh)].
  { exists m0. split; [split; [done|by left]|]. split; rewrite ?Hh; try done. by eapply held_same. }
  rewrite H2 in Fj. apply lookup_insert_None in Fj as [Fj N].
  exists (set_heap m0 (<[j := KBufs junk]> (k_heap m0))). split; [split; [done|]; right; by exists j, junk|]. split.
  - eapply held_base; [|by eapply held_same]. done.
  - cbn. rewrite Hh, H2. by apply insert_insert_ne.
  - cbn. by rewrite lookup_insert_ne.
Qed.

Lemma coh_writes_ok m0 l b ws : forall m,
  held m0 l m -> b ∈ l -> Forall (fun w => 0 <= fst w /\ fst w + zlen (snd w) <= mb_len b) ws ->
  exists m', coh_writes (mb_buf b) ws m = Some (tt, m') /\ held m0 l m' /\ k_heap m' = k_heap m.
Proof.
  induction ws as [|[off v] ws IH]; intros m Hh Hb Hw; [by exists m|].
  apply Forall_cons in Hw as [[H1 H2] Hw]. cbn [fst snd] in *.
  destruct (held_write m0 l m b off v Hh Hb H1 H2) as (d & _ & _ & E & Hh'). cbn [coh_writes]. st_do E.
  destruct (IH _ Hh' Hb Hw) as (m' & E' & H' & K'). by exists m'.
Qed.

Lemma Forall_concat_imap {A B} (P : B -> Prop) (f : nat -> A -> list B) l :
  (forall i x, l !! i = Some x -> Forall P (f i x)) -> Forall P (concat (imap f l)).
Proof.
  intros H. apply Forall_concat, Forall_lookup. intros i y Hy. rewrite list_lookup_imap in Hy.
  apply fmap_Some in Hy as (x & Hx & ->). by apply H.
Qed.

(** The tables fit the control segment. *)
Record tables_fit (k : init_cfg) (c : ctrl) : Prop := {
  tf_chans : (length (ic_chans k) <= MHI_MAX_CHANNELS)%nat;
  tf_evs : (length (ic_evs k) <= Z.to_nat NUM_MHI_EVT_RINGS)%nat;
  tf_el : Forall (fun e => 0 <= elements (mr_ring (er_q e)) <= NUM_MHI_EVT_RING_ELEMENTS) (events c) }.

Lemma le_bytes_zlen n x : zlen (le_bytes n x) = Z.of_nat n.
Proof. unfold zlen. by rewrite le_bytes_length. Qed.
Lemma le64_zlen x : zlen (le64 x) = 8.
Proof. apply le_bytes_zlen. Qed.

Lemma ctxt_writes_in k seg seg_addr c :
  tables_fit k c -> Forall (fun w => 0 <= fst w /\ fst w + zlen (snd w) <= SIZEOF_CTRL_SEG) (ctxt_writes k seg seg_addr c).
Proof.
  intros [Hc He Hel]. unfold ctxt_writes, MHI_MAX_CHANNELS, NUM_MHI_EVT_RINGS in *.
  assert (O1 : off_chan_ctxt = 83968) by reflexivity. assert (O2 : off_er_ctxt = 89600) by reflexivity.
  assert (O3 : off_cmd_ctxt = 89856) by reflexivity. assert (O4 : SIZEOF_CTRL_SEG = 98304) by reflexivity.
  assert (O5 : forall i, event_ring_off i = 32768 + Z.of_nat i * 16384) by reflexivity.
  unfold SIZEOF_CTXT, NUM_MHI_EVT_RING_ELEMENTS, NUM_MHI_IPA_IN_RING_ELEMENTS in *.
  apply Forall_app. split; [|apply Forall_app; split].
  - apply Forall_concat_imap. intros i x Hx. apply lookup_lt_Some in Hx. unfold ctrl_chans in Hx. rewrite length_zip_with in Hx.
    unfold chan_ctxt_write. destruct (snd _); [|constructor]. constructor; [|constructor]. cbn [fst snd].
    rewrite !zlen_app, !le_bytes_zlen. unfold SIZEOF_CTXT. lia.
  - apply Forall_concat_imap. intros i x Hx. pose proof (lookup_lt_Some _ _ _ Hx) as Hi. unfold ctrl_evs in Hi, Hx.
    rewrite length_zip_with in Hi. apply lookup_zip_with_Some in Hx as (y & e & -> & _ & Hev).
    pose proof (Forall_lookup_1 _ _ _ _ Hel Hev) as Hn. cbn beta in Hn.
    unfold er_ctxt_write, init_event. cbn [ec_e ev_with]. destruct (er_offload e); cbn [snd]; [constructor|].
    cbn [xe_rlen]. unfold sizeof_mhi_tre.
    constructor; [|constructor; [|constructor]]; cbn [fst snd].
    + rewrite !zlen_app, !le_bytes_zlen, !le64_zlen. unfold SIZEOF_CTXT. lia.
    + rewrite zlen_replicate, O5. lia.
  - constructor; [|constructor]. cbn [fst snd]. rewrite !zlen_app, !le64_zlen. lia.
Qed.

Lemma ctxt_at_eq x c m : k_heap m !! x = Some (KCtxt c) -> ctxt_at x m = Some (c, m).
Proof. intros H. unfold ctxt_at. rewrite st_bind_gets. cbn beta. by rewrite H. Qed.

(** The context is there, or memory is as it was. *)
Lemma init_dev_ctxt_ok k a s :
  tables_fit k (d_ctrl s) ->
  let m := set_alloc_size (d_mem s) 0 in
  exists ret c' m' o, mhi_init_dev_ctxt k a s = Some (ret, set_ctxt o (set_ctrl c' (set_mem m' s))) /\
    (ret = 0 /\ (exists x seg seg_addr, o = Some x /\ with_ctxt x seg seg_addr m m') \/
     ret <> 0 /\ m' = m /\ o = d_ctxt s).
Proof.
  intros Hf m. assert (Hok : kmem_ok m) by reflexivity. unfold mhi_init_dev_ctxt. rewrite !st_bind_modify. cbn beta.
  set (c1 := set_pending_pkts _ 0). set (s1 := set_mem (set_alloc_size (d_mem (set_ctrl c1 s)) 0) (set_ctrl c1 s)).
  assert (Hf1 : tables_fit k c1) by (by destruct Hf; split).
  assert (Em : d_mem s1 = m) by done.
  destruct (kalloc_cases (pa_ctxt a) (KCtxt (MhiCtxt 0 0)) m) as [E|(x & _ & Fx & E)]; st_do (mem_eq _ s1 _ _ E).
  { exists (- ENOMEM), c1, m, (d_ctxt s). split; [by destruct s|]. by right. }
  set (m1 := set_heap m _). assert (Hx1 : k_heap m1 !! x = Some (KCtxt (MhiCtxt 0 0))) by apply lookup_insert_eq.
  assert (Hd1 : set_heap m1 (delete x (k_heap m1)) = m).
  { apply kmem_eq; [done|]. cbn. by apply delete_insert_id. }
  assert (Hh0 : held m [] m1) by (by apply (held_same _ _ m), held_nil).
  destruct (alloc_coherent_held m [] m1 (pa_seg a) SIZEOF_CTRL_SEG Hh0) as [E1|(seg & seg_addr & _ & E1 & Hh1)]; [done| |];
    st_do (mem_eq _ (set_mem m1 s1) _ _ E1).
  { st_do (mem_eq _ (set_mem m1 (set_mem m1 s1)) _ _ (kfree_eq _ _ _ Hx1)). exists (- ENOMEM), c1, m, (d_ctxt s).
    rewrite Hd1. split; [by destruct s|]. by right. }
  set (b := MhiBuf seg seg_addr SIZEOF_CTRL_SEG) in *. set (m2 := add_block b m1) in *. cbn [app] in Hh1.
  destruct (negb (Z.land seg (4096 - 1) =? 0)).
  - destruct (free_coherent_held m [b] [] m2 b Hh1) as [F Hh2]; [done|]. cbn [mb_len mb_buf mb_dma b] in F.
    st_do (mem_eq _ (set_mem m2 (set_mem m1 s1)) _ _ F).
    assert (Hx2 : k_heap (del_block b m2) !! x = Some (KCtxt (MhiCtxt 0 0))) by done.
    st_do (mem_eq _ (set_mem (del_block b m2) (set_mem m2 (set_mem m1 s1))) _ _ (kfree_eq _ _ _ Hx2)).
    exists (- ENOMEM), c1, m, (d_ctxt s).
    assert (set_heap (del_block b m2) (delete x (k_heap (del_block b m2))) = m) as ->.
    { apply kmem_eq; [exact (held_nil_inv _ _ Hok Hh2)|]. cbn. by apply delete_insert_id. }
    split; [by destruct s|]. by right.
  - set (m3 := set_heap m2 (<[x := KCtxt (MhiCtxt seg seg_addr)]> (k_heap m2))).
    st_do (mem_eq (put_obj x (KCtxt (MhiCtxt seg seg_addr))) (set_mem m2 (set_mem m1 s1)) tt m3 eq_refl).
    unfold cstate. rewrite st_bind_gets. cbn beta.
    change (d_ctrl (set_mem m3 (set_mem m2 (set_mem m1 s1)))) with c1.
    destruct (coh_writes_ok m [b] b (ctxt_writes k seg seg_addr c1) m3) as (m4 & E4 & Hh4 & K4);
      [by apply (held_same _ _ m2)|set_solver|by apply ctxt_writes_in|]. cbn [mb_buf b] in E4.
    st_do (mem_eq _ (set_mem m3 (set_mem m2 (set_mem m1 s1))) _ _ E4). rewrite !st_bind_modify. cbn beta.
    eexists _, _, m4, _. split; [reflexivity|]. left. split; [done|]. exists x, seg, seg_addr. split; [done|].
    split; [done| |done]. rewrite K4. cbn. by rewrite insert_insert_eq.
Qed.

Lemma deinit_dev_ctxt_ok x seg seg_addr m0 s :
  kmem_ok m0 -> d_ctxt s = Some x -> with_ctxt x seg seg_addr m0 (d_mem s) ->
  exists c', mhi_deinit_dev_ctxt s = Some (tt, set_ctxt None (set_ctrl c' (set_mem m0 s))).
Proof.
  intros Hok Hx [Hh Hk Fx]. unfold mhi_deinit_dev_ctxt. rewrite st_bind_gets. cbn beta. rewrite Hx.
  rewrite (st_bind_some _ _ _ x s) by done. rewrite st_bind_modify. cbn beta. set (s1 := set_ctrl _ s).
  assert (E1 : k_heap (d_mem s1) !! x = Some (KCtxt (MhiCtxt seg seg_addr))) by (subst s1; cbn; rewrite Hk; apply lookup_insert_eq).
  st_do (mem_eq _ s1 _ _ (ctxt_at_eq _ _ _ E1)). cbn [mc_ctrl_seg mc_ctrl_seg_addr].
  set (b := MhiBuf seg seg_addr SIZEOF_CTRL_SEG) in *.
  destruct (free_coherent_held m0 [b] [] (d_mem s1) b Hh) as [F Hh2]; [done|]. cbn [mb_len mb_buf mb_dma b] in F.
  st_do (mem_eq _ (set_mem (d_mem s1) s1) _ _ F).
  st_do (mem_eq _ (set_mem (del_block b (d_mem s1)) (set_mem (d_mem s1) s1)) _ _ (kfree_eq x _ (del_block b (d_mem s1)) E1)).
  assert (set_heap (del_block b (d_mem s1)) (delete x (k_heap (del_block b (d_mem s1)))) = m0) as ->.
  { apply kmem_eq; [exact (held_nil_inv _ _ Hok Hh2)|]. cbn. rewrite Hk. by apply delete_insert_id. }
  eexists. reflexivity.
Qed.

(** Three steps that are known, and what follows them. *)
Lemma st_bind3 {S B} (a b c : st S unit) (f : st S B) s s' :
  (_ ← a; _ ← b; c) s = Some (tt, s') -> (_ ← a; _ ← b; _ ← c; f) s = f s'.
Proof.
  intros ([] & s1 & H1 & ([] & s2 & H2 & H3)%st_bind_inv)%st_bind_inv. st_do H1. st_do H2. by st_do H3.
Qed.

(** ** Preparation and the way back *)

Section Power.
Context (k : init_cfg) (i0 : Z).
Hypothesis Hi0 : zget (ic_irq k) 0 = Some i0.
Hypothesis Hbase : msi_irq_base (bc_k (ic_k k)) = 0.
Hypothesis Hirqs : Forall (irq_ok k) (ic_evs k).
Hypothesis Hrddm : rddm_size (ic_k k) <> 0 -> fits (rddm_size (ic_k k)) (seg_len (ic_k k)).

(** The RAM dump table on top of [m1], if there is one. *)
Definition rddm_on (m1 : kmem) (p : option Z) (m : kmem) : Prop :=
  match p with
  | None => m = m1
  | Some q => exists p segs tab, image (seg_len (ic_k k)) (rddm_size (ic_k k)) m1 m q p segs tab
  end.

(** A controller that is prepared, on top of the memory [m0] and the interrupts [irqs0]. *)
Definition prepared (m0 : kmem) (irqs0 : list (Z * irq_dev)) (s : drv) : Prop :=
  exists x seg seg_addr m1, d_ctxt s = Some x /\ with_ctxt x seg seg_addr m0 m1 /\
    d_irqs s ≡ₚ all_irqs k i0 ++ irqs0 /\ rddm_on m1 (d_rddm s) (d_mem s).

Lemma prepared_leak m0 irqs0 s m2 :
  prepared m0 irqs0 s -> leaks (d_mem s) m2 -> exists m0', leaks m0 m0' /\ prepared m0' irqs0 (set_mem m2 s).
Proof.
  intros (x & seg & sa & m1 & Ex & Hc & Hi & Hr) L.
  assert (H1 : exists m1', leaks m1 m1' /\ rddm_on m1' (d_rddm s) m2).
  { unfold rddm_on in *. destruct (d_rddm s) as [q|].
    - destruct Hr as (p & segs & tab & Hr).
      destruct (leaks_lift (fun m0 m => image (seg_len (ic_k k)) (rddm_size (ic_k k)) m0 m q p segs tab)
        (image_leak1 _ _ q p segs tab) _ _ _ L Hr) as (m1' & L1 & H1). eauto 10.
    - rewrite Hr in L. eauto. }
  destruct H1 as (m1' & L1 & H1).
  destruct (leaks_lift (with_ctxt x seg sa) (with_ctxt_leak1 x seg sa) _ _ _ L1 Hc) as (m0' & L0 & H0).
  exists m0'. split; [done|]. by exists x, seg, sa, m1'.
Qed.

Lemma held_kmem_ok m0 l m : held m0 l m -> kmem_ok m.
Proof. intros H. unfold kmem_ok. rewrite (h_size _ _ _ H). apply s32_idemp. Qed.

(** The steps common to the error path and the way down. *)
Lemma teardown_ok m0 irqs0 s :
  kmem_ok m0 -> prepared m0 irqs0 s ->
  exists c' l, (_ ← free_rddm; _ ← mhi_deinit_free_irq k; mhi_deinit_dev_ctxt) s
    = Some (tt, set_ctxt None (set_ctrl c' (set_mem m0 (set_irqs l (set_rddm None s))))) /\ l ≡ₚ irqs0.
Proof.
  intros Hok (x & seg & sa & m1 & Ex & Hc & Hi & Hr).
  assert (Hok1 : kmem_ok m1) by (eapply held_kmem_ok, Hc).
  assert (E1 : free_rddm s = Some (tt, set_rddm None (set_mem m1 s))).
  { unfold free_rddm, rddm_on in *. rewrite st_bind_gets. cbn beta. destruct (d_rddm s) as [q|] eqn:Eq.
    - destruct Hr as (p & segs & tab & Hr). by st_do (mem_eq _ s _ _ (free_bhie_table_ok _ Hok1 Hr)).
    - rewrite <- Hr, set_mem_id. destruct s; cbn in *. by subst. }
  st_do E1. set (s1 := set_rddm None (set_mem m1 s)).
  destruct (free_irq_all_ok k i0 Hi0 Hbase irqs0 s1 Hirqs Hi) as (l & E2 & P). st_do E2.
  destruct (deinit_dev_ctxt_ok x seg sa m0 (set_irqs l s1) Hok Ex Hc) as (c' & E3). rewrite E3.
  exists c', l. by split.
Qed.

(** The RAM dump table: it is there, or nothing is but a leak; the registers may
    fail after either. *)
Lemma prepare_rddm_ok a irqs0 m0 s :
  bus_ok (pa_table a) -> prepared m0 irqs0 s -> d_rddm s = None ->
  exists ret s' m0', prepare_rddm k a s = Some (ret, s') /\ leaks m0 m0' /\ prepared m0' irqs0 s' /\
    d_fbc s' = d_fbc s /\ d_fw s' = d_fw s /\ d_pre_init s' = d_pre_init s.
Proof.
  intros Hb Hp Hn. unfold prepare_rddm. destruct (rddm_size (ic_k k) =? 0) eqn:Ez.
  { exists 0, s, m0. split; [done|]. split; [apply rtc_refl|]. by split. }
  specialize (Hrddm (proj1 (Z.eqb_neq _ _) Ez)).
  destruct Hp as (x & seg & sa & m1 & Ex & Hc & Hi & Hr). unfold rddm_on in Hr. rewrite Hn in Hr.
  assert (Hok : kmem_ok (d_mem s)) by (rewrite Hr; eapply held_kmem_ok, Hc).
  destruct (alloc_bhie_table_ok (pa_table a) _ _ (d_mem s) Hok Hrddm Hb) as (r & m2 & E & H). st_do (mem_eq _ s _ _ E).
  assert (Hs : exists s1 m0', match snd r with Some p => st_modify (set_rddm (Some p)) | None => mret tt end (set_mem m2 s) = Some (tt, s1) /\
    leaks m0 m0' /\ prepared m0' irqs0 s1 /\ d_fbc s1 = d_fbc s /\ d_fw s1 = d_fw s /\ d_pre_init s1 = d_pre_init s).
  { destruct H as [(q & p & segs & tab & -> & Hi2)|(-> & Hl)]; cbn [snd].
    - eexists _, m0. split; [done|]. split; [apply rtc_refl|]. split; [|done].
      exists x, seg, sa, m1. rewrite Hr in Hi2. split; [done|]. split; [done|]. split; [done|]. by exists p, segs, tab.
    - destruct (prepared_leak m0 irqs0 s m2) as (m0' & L & Hp); [|by eapply leaks_one|].
      + exists x, seg, sa, m1. unfold rddm_on. by rewrite Hn.
      + eexists _, m0'. split; [done|]. by split. }
  destruct Hs as (s1 & m0' & E1 & L & Hp & F1 & F2 & F3). st_do E1. unfold cstate. rewrite st_bind_gets. cbn beta.
  destruct (mhi_read_reg _ _ _) as [off|e].
  - eexists _, _, m0'. split; [reflexivity|]. by split.
  - exists e, s1, m0'. split; [done|]. by split.
Qed.

(** Nothing is left of the controller but leaked descriptor arrays. *)
Definition clean (s s' : drv) : Prop :=
  leaks (set_alloc_size (d_mem s) 0) (d_mem s') /\ d_irqs s' ≡ₚ d_irqs s /\
  d_ctxt s' = None /\ d_rddm s' = None /\ d_fbc s' = None /\ d_fw s' = d_fw s.

Lemma leaks_kmem_ok m m' : leaks m m' -> kmem_ok m -> kmem_ok m'.
Proof. intros H. induction H as [|m m1 m2 [(_ & _ & E) _] _ IH]; [done|]. intros Hm. apply IH. unfold kmem_ok. by rewrite E. Qed.

Lemma prepare_ok a s :
  tables_fit k (d_ctrl s) -> bus_ok (pa_table a) -> d_ctxt s = None -> d_rddm s = None -> d_fbc s = None ->
  exists ret s', mhi_prepare_for_power_up k a s = Some (ret, s') /\
    (ret = 0 /\ d_pre_init s' = true /\ d_fbc s' = None /\ d_fw s' = d_fw s /\
       (exists m0, leaks (set_alloc_size (d_mem s) 0) m0 /\ prepared m0 (d_irqs s) s') \/
     ret <> 0 /\ d_pre_init s' = d_pre_init s /\ clean s s').
Proof.
  intros Hf Hb Hx Hn Hq. set (m := set_alloc_size (d_mem s) 0). assert (Hok : kmem_ok m) by reflexivity.
  unfold mhi_prepare_for_power_up. destruct (init_dev_ctxt_ok k a s Hf) as (ret & c1 & m1 & o & E1 & H1). st_do E1. fold m in H1.
  destruct H1 as [[-> (x & seg & sa & -> & Hc)]|(N & -> & ->)].
  2:{ rewrite (proj2 (Z.eqb_neq _ _) N). cbn [negb]. eexists _, _. split; [done|]. right. split; [done|]. split; [done|].
      split; [apply rtc_refl|]. by split_and!. }
  cbn [Z.eqb negb]. set (s1 := set_ctxt (Some x) (set_ctrl c1 (set_mem m1 s))).
  destruct (irq_setup_ok k i0 Hi0 Hbase a s1 Hirqs) as (ret & l & E2 & H2). st_do E2.
  destruct H2 as [[-> P]|[N P]].
  2:{ rewrite (proj2 (Z.eqb_neq _ _) N). cbn [negb].
      destruct (deinit_dev_ctxt_ok x seg sa m (set_irqs l s1) Hok eq_refl Hc) as (c' & E3). st_do E3.
      eexists _, _. split; [done|]. right. split; [done|]. split; [done|]. split; [apply rtc_refl|]. by split_and!. }
  cbn [Z.eqb negb].
  assert (Hp : prepared m (d_irqs s) (set_irqs l s1)).
  { exists x, seg, sa, m1. split; [done|]. split; [done|]. split; [done|]. unfold rddm_on. cbn. by rewrite Hn. }
  destruct (prepare_rddm_ok a (d_irqs s) m (set_irqs l s1) Hb Hp Hn) as (ret & s2 & m0 & E3 & L & Hp2 & F1 & F2 & F3). st_do E3.
  destruct (ret =? 0) eqn:Er; cbn [negb].
  - rewrite st_bind_modify. cbn beta. eexists _, _. split; [done|]. left. split; [done|]. split; [done|].
    split; [cbn; by rewrite F1|]. split; [done|]. exists m0. by split.
  - destruct (teardown_ok m0 (d_irqs s) s2 (leaks_kmem_ok _ _ L Hok) Hp2) as (c' & l' & E4 & P4).
    rewrite (st_bind3 _ _ _ _ _ _ E4). eexists _, _. split; [done|]. right. split; [lia|]. split; [done|]. split; [done|]. split; [done|].
    split; [done|]. split; [done|]. split; [cbn; by rewrite F1|done].
Qed.

Lemma unprepare_ok m0 irqs0 s :
  kmem_ok m0 -> prepared m0 irqs0 s -> d_fbc s = None ->
  exists c' l, mhi_unprepare_after_power_down k s
    = Some (tt, set_pre_init false (set_ctxt None (set_ctrl c' (set_mem m0 (set_irqs l (set_rddm None s)))))) /\ l ≡ₚ irqs0.
Proof.
  intros Hok Hp Hq. destruct (teardown_ok m0 irqs0 s Hok Hp) as (c' & l & E & P). exists c', l. split; [|done].
  unfold mhi_unprepare_after_power_down.
  assert (E0 : free_fbc_any s = Some (tt, s)) by (unfold free_fbc_any; rewrite st_bind_gets; cbn beta; by rewrite Hq).
  st_do E0. by rewrite (st_bind3 _ _ _ _ _ _ E).
Qed.

(** The firmware image is freed first. *)
Lemma unprepare_image seg_size size q p segs tab m1 s :
  kmem_ok m1 -> d_fbc s = Some q -> image seg_size size m1 (d_mem s) q p segs tab ->
  mhi_unprepare_after_power_down k s = mhi_unprepare_after_power_down k (set_fbc None (set_mem m1 s)).
Proof.
  intros Hok Hq Hi. unfold mhi_unprepare_after_power_down.
  assert (E1 : free_fbc_any s = Some (tt, set_fbc None (set_mem m1 s))).
  { unfold free_fbc_any. rewrite st_bind_gets. cbn beta. rewrite Hq. by st_do (mem_eq _ s _ _ (free_bhie_table_ok _ Hok Hi)). }
  by st_do E1.
Qed.

(** A life of the controller: prepare it; if that works, let it power up ([w1]),
    run the firmware worker, use the modem ([w2]) and take it down. *)
Definition power_cycle (a : prep_answers) (w1 : ctrl -> ctrl) (env : fw_env) (w2 : ctrl -> ctrl) : dact Z :=
  ret ← mhi_prepare_for_power_up k a;
  if negb (ret =? 0) then mret ret
  else
    _ ← st_modify (fun s => set_ctrl (w1 (d_ctrl s)) s);
    _ ← mhi_fw_load_worker (ic_k k) env;
    _ ← st_modify (fun s => set_ctrl (w2 (d_ctrl s)) s);
    _ ← mhi_unprepare_after_power_down k;
    mret 0.

Lemma prepared_frame m0 irqs0 s s' :
  d_ctxt s' = d_ctxt s -> d_irqs s' = d_irqs s -> d_rddm s' = d_rddm s -> d_mem s' = d_mem s ->
  prepared m0 irqs0 s -> prepared m0 irqs0 s'.
Proof. unfold prepared. by intros -> -> -> ->. Qed.

Lemma prepared_kmem_ok m0 irqs0 s : prepared m0 irqs0 s -> kmem_ok (d_mem s).
Proof.
  intros (x & seg & sa & m1 & _ & Hc & _ & Hr). unfold rddm_on in Hr. destruct (d_rddm s).
  - destruct Hr as (p & segs & tab & Hr). eapply held_kmem_ok, Hr.
  - rewrite Hr. eapply held_kmem_ok, Hc.
Qed.

(** After the worker the way down is open, whatever the worker left. *)
Lemma unprepare_after_worker env m m0 irqs0 s s2 :
  kmem_ok m0 -> leaks m m0 -> prepared m0 irqs0 s -> others s2 = others s -> worker_end (ic_k k) env (d_mem s) s2 ->
  exists s3, mhi_unprepare_after_power_down k s2 = Some (tt, s3) /\ leaks m (d_mem s3) /\ d_irqs s3 ≡ₚ irqs0 /\
    d_ctxt s3 = None /\ d_rddm s3 = None /\ d_fbc s3 = None /\ d_fw s3 = d_fw s2.
Proof.
  intros Hok L Hp Ho Hw. unfold others in Ho. injection Ho as O1 O2 O3 _.
  assert (Hend : forall m0' s', kmem_ok m0' -> leaks m m0' -> prepared m0' irqs0 s' -> d_fbc s' = None ->
    exists s3, mhi_unprepare_after_power_down k s' = Some (tt, s3) /\ leaks m (d_mem s3) /\ d_irqs s3 ≡ₚ irqs0 /\
      d_ctxt s3 = None /\ d_rddm s3 = None /\ d_fbc s3 = None /\ d_fw s3 = d_fw s').
  { intros m0' s' Hok' L' Hp' Hq'. destruct (unprepare_ok m0' irqs0 s' Hok' Hp' Hq') as (c' & l & E & P).
    eexists. split; [exact E|]. split; [done|]. by split_and!. }
  destruct Hw as [[Hq Hl]|(name & fw & q & p & segs & tab & _ & Hq & Hi & _)].
  - destruct (prepared_leak m0 irqs0 s (d_mem s2) Hp (leaks_one _ _ _ Hl)) as (m0' & L' & Hp').
    apply (Hend m0'); [by eapply leaks_kmem_ok|by etrans| |done]. by eapply (prepared_frame _ _ (set_mem (d_mem s2) s)).
  - rewrite (unprepare_image _ _ _ _ _ _ _ _ (prepared_kmem_ok _ _ _ Hp) Hq Hi).
    apply (Hend m0 (set_fbc None (set_mem (d_mem s) s2))); [done|done| |done]. by eapply (prepared_frame _ _ s).
Qed.


End Power.

(** ** A controller's life *)

Definition ex_init_k : boot_cfg :=
  BootCfg (CtrlCfg 0 0 4 0 0 0 0 0 0 0 [100] false 4096) 0x4000 (Some (bs "amss.bin")) None true 2 4 9 1000.
Definition ex_chans : list chan_conf := match of_parse_ch_cfg true false false with Ok l => l | Err _ => [] end.
Definition ex_evs : list ev_conf := match of_parse_ev_cfg true ex_chans with Ok (Some (l, _)) => l | _ => [] end.
Definition ex_init : init_cfg := InitCfg ex_init_k [30; 31; 32; 33] ex_chans ex_evs.
Definition ex_rddm_seg (i : nat) : option (Z * Z) :=
  [(0x40000, 0xA0000); (0x41000, 0xA1000); (0x42000, 0xA2000); (0x43000, 0xA3000)] !! i.
Definition ex_answers (ret : Z) : prep_answers :=
  PrepAnswers (Some 0x5000) (Some (0x200000, 0x800000)) 0 (fun i => if (i =? 2)%nat then ret else 0)
    (TableEnv (Some 0x6000) (Some 0x7000) ex_rddm_seg).

Lemma ex_answers_bus ret : bus_ok (pa_table (ex_answers ret)).
Proof.
  intros i a d E. cbn [te_seg pa_table ex_answers] in E. unfold ex_rddm_seg in E.
  do 4 (destruct i as [|i]; [injection E as <- <-; in_u|]). done.
Qed.

Lemma ex_tables_fit : tables_fit ex_init (d_ctrl ex_drv).
Proof. split; [vm_compute; lia|vm_compute; lia|]. repeat constructor; vm_compute; discriminate. Qed.

Lemma ex_irqs_ok : Forall (irq_ok ex_init) (ic_evs ex_init).
Proof.
  assert (R : forallb (fun e => bool_decide (is_Some (zget (ic_irq ex_init) (ev_msi ex_init e)))) (ic_evs ex_init) = true)
    by (vm_compute; reflexivity).
  apply Forall_forall. intros e He. rewrite forallb_forall in R. right.
  by apply (bool_decide_eq_true_1 _), R, list_elem_of_In.
Qed.


(** The third interrupt is refused: the first ones, the context and its segment
    are given back. *)
Example refused_interrupt :
  option_map (fun r => (fst r, d_irqs (snd r), k_alloc_size (d_mem (snd r)), d_ctxt (snd r)))
    (mhi_prepare_for_power_up ex_init (ex_answers (-16)) ex_drv) = Some (-16, [], 0, None).
Proof. vm_compute. reflexivity. Qed.
