(* ===== verification/MhiBus.v ===== *)
(** * Registering controllers: the table of minors, the bus list, the control device

    of_register_mhi_controller, mhi_unregister_mhi_controller and the control
    device's open and ioctl of core/mhi_init.c.  A controller is known by its
    address; the structures that belong to it are named by their part. *)

From S2P Require Import Prelude CLib MhiReg MhiRing MhiCtrl MhiPm MhiMem MhiBoot.

(** dev_id, domain, bus, slot. *)
Definition pci_pos : Type := (Z * Z * Z * Z)%type.
Definition no_pos : pci_pos := (0, 0, 0, 0).

Record controller_map := ControllerMap { cm_pos : pci_pos; cm_cntrl : option Z }.
Definition MAX_MHI_CONTROLLER : nat := 16.

(** The structures that registration allocates for a controller. *)
Inductive reg_part := PChan | PEvent | PCmd | PDev.
#[global] Instance reg_part_eq_dec : EqDecision reg_part.
Proof. solve_decision. Defined.

(** [r_list]: the bus list, controllers with their [cntrl_idx]; [r_heap]: what is
    allocated; [r_nodes]: the device nodes. *)
Record registry := Registry {
  r_minors : list controller_map;
  r_list : list (Z * nat);
  r_heap : list (Z * reg_part);
  r_nodes : list nat }.

Definition set_minors (x : list controller_map) (s : registry) : registry := Registry x (r_list s) (r_heap s) (r_nodes s).
Definition set_list (x : list (Z * nat)) (s : registry) : registry := Registry (r_minors s) x (r_heap s) (r_nodes s).
Definition set_rheap (x : list (Z * reg_part)) (s : registry) : registry := Registry (r_minors s) (r_list s) x (r_nodes s).
Definition set_nodes (x : list nat) (s : registry) : registry := Registry (r_minors s) (r_list s) (r_heap s) x.

Definition registry0 : registry := Registry (replicate MAX_MHI_CONTROLLER (ControllerMap no_pos None)) [] [] [].

(** The loop over the table: the index, and the table with a new entry. *)
Fixpoint find_minor (pos : pci_pos) (cntrl : Z) (l : list controller_map) : option (nat * list controller_map) :=
  match l with
  | [] => None
  | m :: l =>
      if bool_decide (cm_pos m = pos) then Some (O, m :: l)
      else if bool_decide (cm_pos m = no_pos) then Some (O, ControllerMap pos (Some cntrl) :: l)
      else '(i, l) ← find_minor pos cntrl l; Some (S i, m :: l)
  end.

(** What registration is given: the callbacks are set; the allocations and
    [device_add] succeed; a node is made. *)
Record reg_env := RegEnv {
  re_callbacks : bool; re_chan : bool; re_event : bool; re_cmd : bool; re_dev : bool; re_add : Z; re_node : bool }.

Definition kadd (cntrl : Z) (p : reg_part) (s : registry) : registry := set_rheap ((cntrl, p) :: r_heap s) s.
Definition kdel (cntrl : Z) (p : reg_part) (s : registry) : registry :=
  set_rheap (filter (fun x => x <> (cntrl, p)) (r_heap s)) s.

(** of_parse_dt: channels, then event rings. *)
Definition of_parse_dt (env : reg_env) (cntrl : Z) (s : registry) : Z * registry :=
  if negb (re_chan env) then (- ENOMEM, s)
  else
    let s := kadd cntrl PChan s in
    if negb (re_event env) then (- ENOMEM, kdel cntrl PChan s) else (0, kadd cntrl PEvent s).

Definition of_register_mhi_controller (env : reg_env) (pos : pci_pos) (cntrl : Z) (s : registry) : Z * registry :=
  match find_minor pos cntrl (r_minors s) with
  | None => (- EINVAL, s)
  | Some (idx, minors) =>
      let s := set_minors minors s in
      if negb (re_callbacks env) then (- EINVAL, s)
      else
        let '(ret, s) := of_parse_dt env cntrl s in
        if negb (ret =? 0) then (- EINVAL, s)
        else
          let undo s := kdel cntrl PEvent (kdel cntrl PChan s) in
          if negb (re_cmd env) then (- ENOMEM, undo s)
          else
            let s := kadd cntrl PCmd s in
            if negb (re_dev env) then (- ENOMEM, undo (kdel cntrl PCmd s))
            else
              let s := kadd cntrl PDev s in
              if negb (re_add env =? 0) then (re_add env, undo (kdel cntrl PCmd (kdel cntrl PDev s)))
              else
                let s := if re_node env then set_nodes (idx :: r_nodes s) s else s in
                (0, set_list (r_list s ++ [(cntrl, idx)]) s)
  end.

(** [idx]: the controller's [cntrl_idx]; [node]: [cntrl_dev] is set. *)
Definition mhi_unregister_mhi_controller (cntrl : Z) (idx : nat) (node : bool) (s : registry) : registry :=
  let s := kdel cntrl PChan (kdel cntrl PEvent (kdel cntrl PCmd s)) in
  let s := if node then set_nodes (filter (fun n => n <> idx) (r_nodes s)) s else s in
  let s := kdel cntrl PDev s in
  set_list (filter (fun x => fst x <> cntrl) (r_list s)) s.

(** ** The control device *)

(** The controller of a minor, kept in [private_data]. *)
Definition mhi_cntrl_open (minor : nat) (s : registry) : res Z :=
  match List.find (fun x => bool_decide (minor = snd x)) (r_list s) with Some x => Ok (fst x) | None => Err (- ENODEV) end.

Definition IOCTL_BHI_GETDEVINFO : Z := 0x8BE0 + 1.
Definition IOCTL_BHI_WRITEIMAGE : Z := 0x8BE0 + 2.

(** What the call meets in mhi_boot.c. *)
Record ioctl_env := IoctlEnv { io_left : Z; io_bhi : bhi_env; io_size_left : Z; io_size : Z }.

(** [private_data] is the controller's address; the driver state is that of the
    controller found. *)
Definition mhi_cntrl_ioctl (k : boot_cfg) (env : ioctl_env) (private_data cmd : Z) (reg : registry) : dact Z :=
  if negb (existsb (fun x => fst x =? private_data) (r_list reg)) then mret (- ENODEV)
  else if cmd =? IOCTL_BHI_GETDEVINFO then r ← bhi_get_dev_info (io_left env); mret (fst r)
  else if cmd =? IOCTL_BHI_WRITEIMAGE then bhi_write_image k (io_bhi env) (io_size_left env) (io_size env)
  else mret (- EINVAL).

(** ** Minors *)

(** Positions in use come first and differ. *)
Definition minors_ok (l : list controller_map) : Prop :=
  exists used, l = used ++ replicate (MAX_MHI_CONTROLLER - length used) (ControllerMap no_pos None) /\
    (length used <= MAX_MHI_CONTROLLER)%nat /\ NoDup (cm_pos <$> used) /\ no_pos ∉ cm_pos <$> used.

Lemma find_minor_used pos cntrl used tail i m :
  pos ∉ cm_pos <$> take i used -> no_pos ∉ cm_pos <$> take i used -> used !! i = Some m -> cm_pos m = pos ->
  find_minor pos cntrl (used ++ tail) = Some (i, used ++ tail).
Proof.
  revert i. induction used as [|u used IH]; intros i H1 H2 Hi Em; [done|]. destruct i as [|i]; cbn in *.
  - injection Hi as ->. by rewrite bool_decide_eq_true_2.
  - rewrite bool_decide_eq_false_2 by set_solver. rewrite bool_decide_eq_false_2 by set_solver.
    rewrite (IH i); [done|set_solver|set_solver|done|done].
Qed.

Lemma find_minor_new pos cntrl used tail :
  pos ∉ cm_pos <$> used -> no_pos ∉ cm_pos <$> used ->
  find_minor pos cntrl (used ++ tail) =
    '(i, l) ← find_minor pos cntrl tail; Some ((length used + i)%nat, used ++ l).
Proof.
  intros H1 H2. induction used as [|u used IH]; cbn in *; [by destruct (find_minor _ _ _) as [[]|]|].
  rewrite bool_decide_eq_false_2 by set_solver. rewrite bool_decide_eq_false_2 by set_solver.
  rewrite IH by set_solver. by destruct (find_minor pos cntrl tail) as [[]|].
Qed.

(** A position keeps its number for good: it is given the number it has, or the
    first free one, and no other position's number changes; without a number the
    sixteen are taken by others. *)
Theorem minor_is_stable pos cntrl l :
  pos <> no_pos -> minors_ok l ->
  match find_minor pos cntrl l with
  | Some (i, l') => minors_ok l' /\ cm_pos <$> l' !! i = Some pos /\
      (forall j m, l !! j = Some m -> cm_pos m <> no_pos -> l' !! j = Some m) /\
      (forall j m, l !! j = Some m -> cm_pos m = pos -> j = i)
  | None => pos ∉ cm_pos <$> l /\ no_pos ∉ cm_pos <$> l
  end.
Proof.
  intros Hp (used & -> & Hlen & Hnd & Hno). set (n := (MAX_MHI_CONTROLLER - length used)%nat).
  assert (Htail : forall j m, (used ++ replicate n (ControllerMap no_pos None)) !! j = Some m -> cm_pos m <> no_pos -> used !! j = Some m).
  { intros j m Hj Nm. apply lookup_app_Some in Hj as [?|[_ Hj]]; [done|]. apply lookup_replicate in Hj as [-> _]. done. }
  destruct (decide (pos ∈ cm_pos <$> used)) as [Hin|Hout].
  - apply list_elem_of_fmap in Hin as (m & -> & (i & Hi)%list_elem_of_lookup).
    assert (Hfst : cm_pos m ∉ cm_pos <$> take i used).
    { intros (m' & E & (j & Hj)%list_elem_of_lookup)%list_elem_of_fmap. apply lookup_take_Some in Hj as [Hj Lj].
      assert (i = j); [|lia]. eapply NoDup_lookup; [exact Hnd|by rewrite list_lookup_fmap, Hi|by rewrite list_lookup_fmap, Hj, E]. }
    assert (Hout0 : forall k, no_pos ∉ cm_pos <$> take k used).
    { intros k (m' & E & (j & Hj)%list_elem_of_lookup)%list_elem_of_fmap. apply lookup_take_Some in Hj as [Hj _].
      apply Hno. rewrite E. apply list_elem_of_fmap_2. by eapply list_elem_of_lookup_2. }
    rewrite (find_minor_used _ _ used _ i m Hfst); [|exact (Hout0 i)|done|done].
    split; [by exists used|]. split; [by rewrite lookup_app_l, Hi by (by eapply lookup_lt_Some)|]. split; [done|].
    intros j m' Hj E. apply Htail in Hj; [|congruence].
    eapply NoDup_lookup; [exact Hnd|by rewrite list_lookup_fmap, Hj|by rewrite list_lookup_fmap, Hi, E].
  - rewrite find_minor_new by done. destruct n as [|n'] eqn:En; cbn.
    + rewrite app_nil_r. split; done.
    + rewrite bool_decide_eq_false_2 by done. rewrite bool_decide_eq_true_2 by done. cbn. rewrite Nat.add_0_r.
      split; [|split; [|split]].
      * exists (used ++ [ControllerMap pos (Some cntrl)]). rewrite length_app. change (length [_]) with 1%nat. unfold n in En. split; [|split; [lia|split]].
        -- rewrite <- app_assoc. cbn [app]. do 3 f_equal. lia.
        -- rewrite fmap_app. apply NoDup_app. split_and!; [done|set_solver|apply NoDup_singleton].
        -- rewrite fmap_app. set_solver.
      * by rewrite list_lookup_middle.
      * intros j m Hj Nm. apply Htail in Hj; [|done]. by apply lookup_app_l_Some.
      * intros j m Hj Em. apply Htail in Hj; [|congruence]. exfalso. apply Hout. rewrite <- Em. apply list_elem_of_fmap_2. by eapply list_elem_of_lookup_2.
Qed.

(** ** Registration *)

Lemma kdel_kadd cntrl p s : (cntrl, p) ∉ r_heap s -> kdel cntrl p (kadd cntrl p s) = s.
Proof.
  intros H. destruct s as [a b h d]. unfold kdel, kadd, set_rheap. cbn [r_minors r_list r_heap r_nodes] in *. f_equal.
  rewrite filter_cons_False by naive_solver.
  induction h as [|x h IH]; [done|]. rewrite filter_cons_True by set_solver. f_equal. apply IH. set_solver.
Qed.

Lemma kdel_comm cntrl p q s : kdel cntrl p (kdel cntrl q s) = kdel cntrl q (kdel cntrl p s).
Proof.
  destruct s as [a b h d]. unfold kdel, set_rheap. cbn [r_minors r_list r_heap r_nodes]. f_equal. rewrite !list_filter_filter. apply list_filter_iff. naive_solver.
Qed.

(** The controller has no structures yet. *)
Definition fresh (cntrl : Z) (s : registry) : Prop := forall p, (cntrl, p) ∉ r_heap s.

Lemma fresh_kadd cntrl p q s : p <> q -> fresh cntrl s -> (cntrl, p) ∉ r_heap (kadd cntrl q s).
Proof. intros Hn Hf. cbn. specialize (Hf p). set_solver. Qed.

(** A registration that fails leaves the number it took and nothing else. *)

Theorem registration_all_or_nothing env pos cntrl s :
  fresh cntrl s ->
  let '(ret, s') := of_register_mhi_controller env pos cntrl s in
  ret <> 0 -> s' = set_minors (from_option snd (r_minors s) (find_minor pos cntrl (r_minors s))) s.
Proof.
  intros Hf. unfold of_register_mhi_controller. destruct (find_minor pos cntrl (r_minors s)) as [[idx minors]|]; cbn [from_option snd]; [|by destruct s].
  set (s0 := set_minors minors s). assert (Hf0 : fresh cntrl s0) by exact Hf.
  destruct (re_callbacks env); cbn [negb]; [|done]. unfold of_parse_dt.
  destruct (re_chan env); cbn [negb]; [|done]. destruct (re_event env); cbn [negb]; [|by rewrite kdel_kadd by apply Hf0].
  change (0 =? 0) with true. cbn [negb].
  assert (Hu : kdel cntrl PEvent (kdel cntrl PChan (kadd cntrl PEvent (kadd cntrl PChan s0))) = s0).
  { rewrite kdel_comm, kdel_kadd by (by apply fresh_kadd). by apply kdel_kadd. }
  set (s1 := kadd cntrl PEvent (kadd cntrl PChan s0)) in *.
  assert (Hc : (cntrl, PCmd) ∉ r_heap s1) by (cbn; pose proof (Hf0 PCmd); set_solver).
  destruct (re_cmd env); cbn [negb]; [|done]. destruct (re_dev env); cbn [negb]; [|by rewrite kdel_kadd by done].
  assert (Hd : (cntrl, PDev) ∉ r_heap (kadd cntrl PCmd s1)) by (cbn; pose proof (Hf0 PDev); set_solver).
  destruct (re_add env =? 0) eqn:E; cbn [negb]; [done|]. by rewrite kdel_kadd, kdel_kadd by done.
Qed.
