(* ===== verification/Netdev.v ===== *)
(** * The network device of the modem

    Models the state of src/gl-feed/kernel/pcie_mhi/src/devices/mhi_netdev_quectel.c
    and everything that starts and stops its transmit queues: the modem's QMAP
    flow control with its bounded stop (lines 781-958), the virtual interfaces
    and the parent interface (open, transmit, completion of a transmission,
    channel reset, removal) and the link-state attribute.

    The configuration modelled is the one the makefile builds: one parent
    interface with up to eight virtual ones ([MHI_NETDEV_ONE_CARD_MODE] and
    [CONFIG_USE_RMNET_DATA_FOR_SKIP_MEMCPY] off), bridge mode compiled in.  What
    the code calls in the kernel or in the MHI core is an argument (the result
    of a queueing, the number of free descriptors) or an entry of the trace
    [n_log].  Each operation is one atomic step. *)

From S2P Require Import Prelude CLib.

Definition QUECTEL_QMAP_MUX_ID : Z := 0x81.
Definition ETH_P_IP : Z := 0x0800.
Definition ETH_P_IPV6 : Z := 0x86DD.
Definition ETH_P_ARP : Z := 0x0806.
Definition ETH_HLEN : Z := 14.
Definition default_modem_addr : list Z := [0x02; 0x50; 0xf3; 0x00; 0x00; 0x00].

(** ** Data *)

Inductive mhi_net_type := MHI_NET_UNKNOW | MHI_NET_RMNET | MHI_NET_MBIM | MHI_NET_ETHER.

#[global] Instance mhi_net_type_eq_dec : EqDecision mhi_net_type.
Proof. solve_decision. Defined.

(** A packet handed to the network stack: the virtual interface, the protocol,
    the Ethernet header in front of the data where the interface has one. *)
Record rx_pkt := RxPkt { rx_net : Z; rx_proto : Z; rx_eth : option (list Z); rx_data : list Z }.

Inductive nd_note :=
| NdAck (bytes : list Z)
| NdReceive (p : rx_pkt)
| NdGro (p : rx_pkt) (csum_unnecessary : bool)
| NdArpReply (sip tip sha : list Z)
| NdParent (bytes : list Z)
| NdQueue (bytes : list Z)
| NdFree (bytes : list Z)
| NdPmGet
| NdPmPut.

(** A virtual interface with its private part. *)
Record vnd := Vnd {
  v_mtu : Z;
  v_ether : bool;
  v_addr : list Z;
  v_mux_id : Z;
  v_version : Z;
  v_bridge : bool;
  v_bridge_ipv4 : Z;
  v_bridge_mac : list Z;
  v_stopped : bool;
  v_carrier : bool;
  v_fraglist : bool;
  v_rx_packets : Z;
  v_rx_bytes : Z;
  v_tx_packets : Z;
  v_tx_bytes : Z;
  v_tx_errors : Z }.

Definition set_v_mtu (v : vnd) (x : Z) : vnd :=
  Vnd x (v_ether v) (v_addr v) (v_mux_id v) (v_version v) (v_bridge v) (v_bridge_ipv4 v) (v_bridge_mac v) (v_stopped v) (v_carrier v) (v_fraglist v) (v_rx_packets v) (v_rx_bytes v) (v_tx_packets v) (v_tx_bytes v) (v_tx_errors v).
Definition set_v_ether (v : vnd) (x : bool) : vnd :=
  Vnd (v_mtu v) x (v_addr v) (v_mux_id v) (v_version v) (v_bridge v) (v_bridge_ipv4 v) (v_bridge_mac v) (v_stopped v) (v_carrier v) (v_fraglist v) (v_rx_packets v) (v_rx_bytes v) (v_tx_packets v) (v_tx_bytes v) (v_tx_errors v).
Definition set_v_addr (v : vnd) (x : list Z) : vnd :=
  Vnd (v_mtu v) (v_ether v) x (v_mux_id v) (v_version v) (v_bridge v) (v_bridge_ipv4 v) (v_bridge_mac v) (v_stopped v) (v_carrier v) (v_fraglist v) (v_rx_packets v) (v_rx_bytes v) (v_tx_packets v) (v_tx_bytes v) (v_tx_errors v).
Definition set_v_mux_id (v : vnd) (x : Z) : vnd :=
  Vnd (v_mtu v) (v_ether v) (v_addr v) x (v_version v) (v_bridge v) (v_bridge_ipv4 v) (v_bridge_mac v) (v_stopped v) (v_carrier v) (v_fraglist v) (v_rx_packets v) (v_rx_bytes v) (v_tx_packets v) (v_tx_bytes v) (v_tx_errors v).
Definition set_v_version (v : vnd) (x : Z) : vnd :=
  Vnd (v_mtu v) (v_ether v) (v_addr v) (v_mux_id v) x (v_bridge v) (v_bridge_ipv4 v) (v_bridge_mac v) (v_stopped v) (v_carrier v) (v_fraglist v) (v_rx_packets v) (v_rx_bytes v) (v_tx_packets v) (v_tx_bytes v) (v_tx_errors v).
Definition set_v_bridge (v : vnd) (x : bool) : vnd :=
  Vnd (v_mtu v) (v_ether v) (v_addr v) (v_mux_id v) (v_version v) x (v_bridge_ipv4 v) (v_bridge_mac v) (v_stopped v) (v_carrier v) (v_fraglist v) (v_rx_packets v) (v_rx_bytes v) (v_tx_packets v) (v_tx_bytes v) (v_tx_errors v).
Definition set_v_bridge_ipv4 (v : vnd) (x : Z) : vnd :=
  Vnd (v_mtu v) (v_ether v) (v_addr v) (v_mux_id v) (v_version v) (v_bridge v) x (v_bridge_mac v) (v_stopped v) (v_carrier v) (v_fraglist v) (v_rx_packets v) (v_rx_bytes v) (v_tx_packets v) (v_tx_bytes v) (v_tx_errors v).
Definition set_v_bridge_mac (v : vnd) (x : list Z) : vnd :=
  Vnd (v_mtu v) (v_ether v) (v_addr v) (v_mux_id v) (v_version v) (v_bridge v) (v_bridge_ipv4 v) x (v_stopped v) (v_carrier v) (v_fraglist v) (v_rx_packets v) (v_rx_bytes v) (v_tx_packets v) (v_tx_bytes v) (v_tx_errors v).
Definition set_v_stopped (v : vnd) (x : bool) : vnd :=
  Vnd (v_mtu v) (v_ether v) (v_addr v) (v_mux_id v) (v_version v) (v_bridge v) (v_bridge_ipv4 v) (v_bridge_mac v) x (v_carrier v) (v_fraglist v) (v_rx_packets v) (v_rx_bytes v) (v_tx_packets v) (v_tx_bytes v) (v_tx_errors v).
Definition set_v_carrier (v : vnd) (x : bool) : vnd :=
  Vnd (v_mtu v) (v_ether v) (v_addr v) (v_mux_id v) (v_version v) (v_bridge v) (v_bridge_ipv4 v) (v_bridge_mac v) (v_stopped v) x (v_fraglist v) (v_rx_packets v) (v_rx_bytes v) (v_tx_packets v) (v_tx_bytes v) (v_tx_errors v).
Definition set_v_fraglist (v : vnd) (x : bool) : vnd :=
  Vnd (v_mtu v) (v_ether v) (v_addr v) (v_mux_id v) (v_version v) (v_bridge v) (v_bridge_ipv4 v) (v_bridge_mac v) (v_stopped v) (v_carrier v) x (v_rx_packets v) (v_rx_bytes v) (v_tx_packets v) (v_tx_bytes v) (v_tx_errors v).
Definition set_v_rx_packets (v : vnd) (x : Z) : vnd :=
  Vnd (v_mtu v) (v_ether v) (v_addr v) (v_mux_id v) (v_version v) (v_bridge v) (v_bridge_ipv4 v) (v_bridge_mac v) (v_stopped v) (v_carrier v) (v_fraglist v) x (v_rx_bytes v) (v_tx_packets v) (v_tx_bytes v) (v_tx_errors v).
Definition set_v_rx_bytes (v : vnd) (x : Z) : vnd :=
  Vnd (v_mtu v) (v_ether v) (v_addr v) (v_mux_id v) (v_version v) (v_bridge v) (v_bridge_ipv4 v) (v_bridge_mac v) (v_stopped v) (v_carrier v) (v_fraglist v) (v_rx_packets v) x (v_tx_packets v) (v_tx_bytes v) (v_tx_errors v).
Definition set_v_tx_packets (v : vnd) (x : Z) : vnd :=
  Vnd (v_mtu v) (v_ether v) (v_addr v) (v_mux_id v) (v_version v) (v_bridge v) (v_bridge_ipv4 v) (v_bridge_mac v) (v_stopped v) (v_carrier v) (v_fraglist v) (v_rx_packets v) (v_rx_bytes v) x (v_tx_bytes v) (v_tx_errors v).
Definition set_v_tx_bytes (v : vnd) (x : Z) : vnd :=
  Vnd (v_mtu v) (v_ether v) (v_addr v) (v_mux_id v) (v_version v) (v_bridge v) (v_bridge_ipv4 v) (v_bridge_mac v) (v_stopped v) (v_carrier v) (v_fraglist v) (v_rx_packets v) (v_rx_bytes v) (v_tx_packets v) x (v_tx_errors v).
Definition set_v_tx_errors (v : vnd) (x : Z) : vnd :=
  Vnd (v_mtu v) (v_ether v) (v_addr v) (v_mux_id v) (v_version v) (v_bridge v) (v_bridge_ipv4 v) (v_bridge_mac v) (v_stopped v) (v_carrier v) (v_fraglist v) (v_rx_packets v) (v_rx_bytes v) (v_tx_packets v) (v_tx_bytes v) x.

(** The device.  [n_fc_armed] says that [fc_work] is queued, [n_stopped] that the
    queue of the parent interface is stopped. *)
Record mhi_netdev := MhiNetdev {
  n_type : mhi_net_type;
  n_enabled : bool;
  n_ul_chan : bool;
  n_vnds : list (option vnd);
  n_qmap_mode : Z;
  n_qmap_version : Z;
  n_link_state : Z;
  n_flow_control : Z;
  n_dl_padding : Z;
  n_fc_pending : Z;
  n_fc_armed : bool;
  n_stopped : bool;
  n_carrier : bool;
  n_pm_ref_held : bool;
  n_tx_seq : Z;
  n_rx_seq : Z;
  n_rx_max : Z;
  n_mbim_mux_id : Z;
  n_alloc_failed : Z;
  n_tx_errors : Z;
  n_cmd_stats : gmap Z Z;
  n_log : list nd_note }.

Definition set_n_type (n : mhi_netdev) (x : mhi_net_type) : mhi_netdev :=
  MhiNetdev x (n_enabled n) (n_ul_chan n) (n_vnds n) (n_qmap_mode n) (n_qmap_version n) (n_link_state n) (n_flow_control n) (n_dl_padding n) (n_fc_pending n) (n_fc_armed n) (n_stopped n) (n_carrier n) (n_pm_ref_held n) (n_tx_seq n) (n_rx_seq n) (n_rx_max n) (n_mbim_mux_id n) (n_alloc_failed n) (n_tx_errors n) (n_cmd_stats n) (n_log n).
Definition set_n_enabled (n : mhi_netdev) (x : bool) : mhi_netdev :=
  MhiNetdev (n_type n) x (n_ul_chan n) (n_vnds n) (n_qmap_mode n) (n_qmap_version n) (n_link_state n) (n_flow_control n) (n_dl_padding n) (n_fc_pending n) (n_fc_armed n) (n_stopped n) (n_carrier n) (n_pm_ref_held n) (n_tx_seq n) (n_rx_seq n) (n_rx_max n) (n_mbim_mux_id n) (n_alloc_failed n) (n_tx_errors n) (n_cmd_stats n) (n_log n).
Definition set_n_ul_chan (n : mhi_netdev) (x : bool) : mhi_netdev :=
  MhiNetdev (n_type n) (n_enabled n) x (n_vnds n) (n_qmap_mode n) (n_qmap_version n) (n_link_state n) (n_flow_control n) (n_dl_padding n) (n_fc_pending n) (n_fc_armed n) (n_stopped n) (n_carrier n) (n_pm_ref_held n) (n_tx_seq n) (n_rx_seq n) (n_rx_max n) (n_mbim_mux_id n) (n_alloc_failed n) (n_tx_errors n) (n_cmd_stats n) (n_log n).
Definition set_n_vnds (n : mhi_netdev) (x : list (option vnd)) : mhi_netdev :=
  MhiNetdev (n_type n) (n_enabled n) (n_ul_chan n) x (n_qmap_mode n) (n_qmap_version n) (n_link_state n) (n_flow_control n) (n_dl_padding n) (n_fc_pending n) (n_fc_armed n) (n_stopped n) (n_carrier n) (n_pm_ref_held n) (n_tx_seq n) (n_rx_seq n) (n_rx_max n) (n_mbim_mux_id n) (n_alloc_failed n) (n_tx_errors n) (n_cmd_stats n) (n_log n).
Definition set_n_qmap_mode (n : mhi_netdev) (x : Z) : mhi_netdev :=
  MhiNetdev (n_type n) (n_enabled n) (n_ul_chan n) (n_vnds n) x (n_qmap_version n) (n_link_state n) (n_flow_control n) (n_dl_padding n) (n_fc_pending n) (n_fc_armed n) (n_stopped n) (n_carrier n) (n_pm_ref_held n) (n_tx_seq n) (n_rx_seq n) (n_rx_max n) (n_mbim_mux_id n) (n_alloc_failed n) (n_tx_errors n) (n_cmd_stats n) (n_log n).
Definition set_n_qmap_version (n : mhi_netdev) (x : Z) : mhi_netdev :=
  MhiNetdev (n_type n) (n_enabled n) (n_ul_chan n) (n_vnds n) (n_qmap_mode n) x (n_link_state n) (n_flow_control n) (n_dl_padding n) (n_fc_pending n) (n_fc_armed n) (n_stopped n) (n_carrier n) (n_pm_ref_held n) (n_tx_seq n) (n_rx_seq n) (n_rx_max n) (n_mbim_mux_id n) (n_alloc_failed n) (n_tx_errors n) (n_cmd_stats n) (n_log n).
Definition set_n_link_state (n : mhi_netdev) (x : Z) : mhi_netdev :=
  MhiNetdev (n_type n) (n_enabled n) (n_ul_chan n) (n_vnds n) (n_qmap_mode n) (n_qmap_version n) x (n_flow_control n) (n_dl_padding n) (n_fc_pending n) (n_fc_armed n) (n_stopped n) (n_carrier n) (n_pm_ref_held n) (n_tx_seq n) (n_rx_seq n) (n_rx_max n) (n_mbim_mux_id n) (n_alloc_failed n) (n_tx_errors n) (n_cmd_stats n) (n_log n).
Definition set_n_flow_control (n : mhi_netdev) (x : Z) : mhi_netdev :=
  MhiNetdev (n_type n) (n_enabled n) (n_ul_chan n) (n_vnds n) (n_qmap_mode n) (n_qmap_version n) (n_link_state n) x (n_dl_padding n) (n_fc_pending n) (n_fc_armed n) (n_stopped n) (n_carrier n) (n_pm_ref_held n) (n_tx_seq n) (n_rx_seq n) (n_rx_max n) (n_mbim_mux_id n) (n_alloc_failed n) (n_tx_errors n) (n_cmd_stats n) (n_log n).
Definition set_n_dl_padding (n : mhi_netdev) (x : Z) : mhi_netdev :=
  MhiNetdev (n_type n) (n_enabled n) (n_ul_chan n) (n_vnds n) (n_qmap_mode n) (n_qmap_version n) (n_link_state n) (n_flow_control n) x (n_fc_pending n) (n_fc_armed n) (n_stopped n) (n_carrier n) (n_pm_ref_held n) (n_tx_seq n) (n_rx_seq n) (n_rx_max n) (n_mbim_mux_id n) (n_alloc_failed n) (n_tx_errors n) (n_cmd_stats n) (n_log n).
Definition set_n_fc_pending (n : mhi_netdev) (x : Z) : mhi_netdev :=
  MhiNetdev (n_type n) (n_enabled n) (n_ul_chan n) (n_vnds n) (n_qmap_mode n) (n_qmap_version n) (n_link_state n) (n_flow_control n) (n_dl_padding n) x (n_fc_armed n) (n_stopped n) (n_carrier n) (n_pm_ref_held n) (n_tx_seq n) (n_rx_seq n) (n_rx_max n) (n_mbim_mux_id n) (n_alloc_failed n) (n_tx_errors n) (n_cmd_stats n) (n_log n).
Definition set_n_fc_armed (n : mhi_netdev) (x : bool) : mhi_netdev :=
  MhiNetdev (n_type n) (n_enabled n) (n_ul_chan n) (n_vnds n) (n_qmap_mode n) (n_qmap_version n) (n_link_state n) (n_flow_control n) (n_dl_padding n) (n_fc_pending n) x (n_stopped n) (n_carrier n) (n_pm_ref_held n) (n_tx_seq n) (n_rx_seq n) (n_rx_max n) (n_mbim_mux_id n) (n_alloc_failed n) (n_tx_errors n) (n_cmd_stats n) (n_log n).
Definition set_n_stopped (n : mhi_netdev) (x : bool) : mhi_netdev :=
  MhiNetdev (n_type n) (n_enabled n) (n_ul_chan n) (n_vnds n) (n_qmap_mode n) (n_qmap_version n) (n_link_state n) (n_flow_control n) (n_dl_padding n) (n_fc_pending n) (n_fc_armed n) x (n_carrier n) (n_pm_ref_held n) (n_tx_seq n) (n_rx_seq n) (n_rx_max n) (n_mbim_mux_id n) (n_alloc_failed n) (n_tx_errors n) (n_cmd_stats n) (n_log n).
Definition set_n_carrier (n : mhi_netdev) (x : bool) : mhi_netdev :=
  MhiNetdev (n_type n) (n_enabled n) (n_ul_chan n) (n_vnds n) (n_qmap_mode n) (n_qmap_version n) (n_link_state n) (n_flow_control n) (n_dl_padding n) (n_fc_pending n) (n_fc_armed n) (n_stopped n) x (n_pm_ref_held n) (n_tx_seq n) (n_rx_seq n) (n_rx_max n) (n_mbim_mux_id n) (n_alloc_failed n) (n_tx_errors n) (n_cmd_stats n) (n_log n).
Definition set_n_pm_ref_held (n : mhi_netdev) (x : bool) : mhi_netdev :=
  MhiNetdev (n_type n) (n_enabled n) (n_ul_chan n) (n_vnds n) (n_qmap_mode n) (n_qmap_version n) (n_link_state n) (n_flow_control n) (n_dl_padding n) (n_fc_pending n) (n_fc_armed n) (n_stopped n) (n_carrier n) x (n_tx_seq n) (n_rx_seq n) (n_rx_max n) (n_mbim_mux_id n) (n_alloc_failed n) (n_tx_errors n) (n_cmd_stats n) (n_log n).
Definition set_n_tx_seq (n : mhi_netdev) (x : Z) : mhi_netdev :=
  MhiNetdev (n_type n) (n_enabled n) (n_ul_chan n) (n_vnds n) (n_qmap_mode n) (n_qmap_version n) (n_link_state n) (n_flow_control n) (n_dl_padding n) (n_fc_pending n) (n_fc_armed n) (n_stopped n) (n_carrier n) (n_pm_ref_held n) x (n_rx_seq n) (n_rx_max n) (n_mbim_mux_id n) (n_alloc_failed n) (n_tx_errors n) (n_cmd_stats n) (n_log n).
Definition set_n_rx_seq (n : mhi_netdev) (x : Z) : mhi_netdev :=
  MhiNetdev (n_type n) (n_enabled n) (n_ul_chan n) (n_vnds n) (n_qmap_mode n) (n_qmap_version n) (n_link_state n) (n_flow_control n) (n_dl_padding n) (n_fc_pending n) (n_fc_armed n) (n_stopped n) (n_carrier n) (n_pm_ref_held n) (n_tx_seq n) x (n_rx_max n) (n_mbim_mux_id n) (n_alloc_failed n) (n_tx_errors n) (n_cmd_stats n) (n_log n).
Definition set_n_rx_max (n : mhi_netdev) (x : Z) : mhi_netdev :=
  MhiNetdev (n_type n) (n_enabled n) (n_ul_chan n) (n_vnds n) (n_qmap_mode n) (n_qmap_version n) (n_link_state n) (n_flow_control n) (n_dl_padding n) (n_fc_pending n) (n_fc_armed n) (n_stopped n) (n_carrier n) (n_pm_ref_held n) (n_tx_seq n) (n_rx_seq n) x (n_mbim_mux_id n) (n_alloc_failed n) (n_tx_errors n) (n_cmd_stats n) (n_log n).
Definition set_n_mbim_mux_id (n : mhi_netdev) (x : Z) : mhi_netdev :=
  MhiNetdev (n_type n) (n_enabled n) (n_ul_chan n) (n_vnds n) (n_qmap_mode n) (n_qmap_version n) (n_link_state n) (n_flow_control n) (n_dl_padding n) (n_fc_pending n) (n_fc_armed n) (n_stopped n) (n_carrier n) (n_pm_ref_held n) (n_tx_seq n) (n_rx_seq n) (n_rx_max n) x (n_alloc_failed n) (n_tx_errors n) (n_cmd_stats n) (n_log n).
Definition set_n_alloc_failed (n : mhi_netdev) (x : Z) : mhi_netdev :=
  MhiNetdev (n_type n) (n_enabled n) (n_ul_chan n) (n_vnds n) (n_qmap_mode n) (n_qmap_version n) (n_link_state n) (n_flow_control n) (n_dl_padding n) (n_fc_pending n) (n_fc_armed n) (n_stopped n) (n_carrier n) (n_pm_ref_held n) (n_tx_seq n) (n_rx_seq n) (n_rx_max n) (n_mbim_mux_id n) x (n_tx_errors n) (n_cmd_stats n) (n_log n).
Definition set_n_tx_errors (n : mhi_netdev) (x : Z) : mhi_netdev :=
  MhiNetdev (n_type n) (n_enabled n) (n_ul_chan n) (n_vnds n) (n_qmap_mode n) (n_qmap_version n) (n_link_state n) (n_flow_control n) (n_dl_padding n) (n_fc_pending n) (n_fc_armed n) (n_stopped n) (n_carrier n) (n_pm_ref_held n) (n_tx_seq n) (n_rx_seq n) (n_rx_max n) (n_mbim_mux_id n) (n_alloc_failed n) x (n_cmd_stats n) (n_log n).
Definition set_n_cmd_stats (n : mhi_netdev) (x : gmap Z Z) : mhi_netdev :=
  MhiNetdev (n_type n) (n_enabled n) (n_ul_chan n) (n_vnds n) (n_qmap_mode n) (n_qmap_version n) (n_link_state n) (n_flow_control n) (n_dl_padding n) (n_fc_pending n) (n_fc_armed n) (n_stopped n) (n_carrier n) (n_pm_ref_held n) (n_tx_seq n) (n_rx_seq n) (n_rx_max n) (n_mbim_mux_id n) (n_alloc_failed n) (n_tx_errors n) x (n_log n).
Definition set_n_log (n : mhi_netdev) (x : list nd_note) : mhi_netdev :=
  MhiNetdev (n_type n) (n_enabled n) (n_ul_chan n) (n_vnds n) (n_qmap_mode n) (n_qmap_version n) (n_link_state n) (n_flow_control n) (n_dl_padding n) (n_fc_pending n) (n_fc_armed n) (n_stopped n) (n_carrier n) (n_pm_ref_held n) (n_tx_seq n) (n_rx_seq n) (n_rx_max n) (n_mbim_mux_id n) (n_alloc_failed n) (n_tx_errors n) (n_cmd_stats n) x.

Definition nd_emit (x : nd_note) (n : mhi_netdev) : mhi_netdev := set_n_log n (n_log n ++ [x]).

(** A socket buffer: the room in front, the data, the bytes behind it. *)
Record sk_buff := Skb { headroom : Z; skb_data : list Z; skb_tail : list Z }.

(** [skb_push] of the given header; [None] is the kernel's panic. *)
Definition skb_push (s : sk_buff) (hdr : list Z) : option sk_buff :=
  if headroom s <? zlen hdr then None
  else Some (Skb (headroom s - zlen hdr) (hdr ++ skb_data s) (skb_tail s)).

(** [__skb_put]: the bytes behind the data become data as they are. *)
Definition skb_put (s : sk_buff) (k : Z) : sk_buff :=
  Skb (headroom s) (skb_data s ++ ztake k (skb_tail s)) (zdrop k (skb_tail s)).

(** [skb_pull]: nothing happens when the data is shorter. *)
Definition skb_pull (d : list Z) (k : Z) : list Z := if zlen d <? k then d else zdrop k d.

Definition byte (d : list Z) (i : Z) : Z := default 0 (zget d i).
Definition be16 (x : Z) : list Z := [Z.land (Z.shiftr x 8) 0xFF; Z.land x 0xFF].
Definition get_be16 (hi lo : Z) : Z := Z.lor (Z.shiftl hi 8) lo.

(** ** Virtual interfaces *)

Definition vnd_at (n : mhi_netdev) (i : Z) : option (option vnd) := zget (n_vnds n) i.
Definition put_vnd (n : mhi_netdev) (i : Z) (v : vnd) : mhi_netdev :=
  set_n_vnds n (<[Z.to_nat i := Some v]> (n_vnds n)).

(** [for (i = 0; i < qmap_mode; i++)] over the interfaces that exist; the
    array has eight entries and [qmap_mode] is at most that. *)
Definition over_vnds (f : Z -> vnd -> vnd) (n : mhi_netdev) : mhi_netdev :=
  set_n_vnds n (imap (fun i o => if Z.of_nat i <? n_qmap_mode n then f (Z.of_nat i) <$> o else o) (n_vnds n)).

Definition stop_vnd (v : vnd) : vnd := set_v_stopped v true.
Definition wake_vnd (v : vnd) : vnd := set_v_stopped v false.

Definition held (fc i : Z) : bool := negb (Z.land fc (Z.shiftl 1 i) =? 0).

(** ** Flow control *)

Definition RMNET_MAP_COMMAND_FLOW_DISABLE : Z := 1.
Definition RMNET_MAP_COMMAND_FLOW_ENABLE : Z := 2.
Definition RMNET_MAP_COMMAND_UNKNOWN : Z := 9.
Definition RMNET_MAP_COMMAND_ENUM_LENGTH : Z := 10.
Definition RMNET_MAP_COMMAND_ACK : Z := 1.
Definition RMNET_MAP_COMMAND_UNSUPPORTED : Z := 2.
Definition sizeof_rmnet_map_header : Z := 4.
Definition sizeof_rmnet_map_control_command : Z := 16.
Definition sizeof_map_command : Z := sizeof_rmnet_map_header + sizeof_rmnet_map_control_command.

(** The copy of the command with its type changed; [alloc] is the outcome of
    the allocation.  [None] when the copy runs past the received data. *)
Definition rmnet_map_send_ack (alloc : bool) (type : Z) (d : list Z) (n : mhi_netdev) : option mhi_netdev :=
  if negb alloc then Some n
  else if zlen d <? sizeof_map_command then None
  else
    let type_byte := Z.lor (Z.land (byte d 5) 0xFC) (Z.land type 0x03) in
    Some (nd_emit (NdAck (<[5%nat := type_byte]> (ztake sizeof_map_command d))) n).

(** The deferred work: whatever is still held is let go. *)
Definition mhi_netdev_fc_timeout (n : mhi_netdev) : mhi_netdev :=
  let fc := n_flow_control n in
  let n := set_n_fc_armed (set_n_fc_pending (set_n_flow_control n 0) 0) false in
  if negb (n_enabled n) then n
  else over_vnds (fun i v => if held fc i then wake_vnd v else v) n.

Definition rmnet_data_vnd_do_flow_control (v : vnd) (enable : bool) : vnd :=
  if enable then wake_vnd v else stop_vnd v.

(** The deadline is armed while any flow is held. *)
Definition fc_arm (n : mhi_netdev) : mhi_netdev :=
  if negb (n_flow_control n =? 0) then
    if (n_fc_pending n =? 0) && n_enabled n then set_n_fc_armed (set_n_fc_pending n 1) true else n
  else if negb (n_fc_pending n =? 0) then set_n_fc_armed (set_n_fc_pending n 0) false
  else n.

(** [d] starts at the map header; the reads of the command's members need the
    whole command. *)
Definition rmnet_map_do_flow_control (d : list Z) (enable : bool) (n : mhi_netdev) : option (Z * mhi_netdev) :=
  let mux_id := u8 (byte d 1 - QUECTEL_QMAP_MUX_ID) in
  if n_qmap_mode n <=? mux_id then Some (RMNET_MAP_COMMAND_UNSUPPORTED, n)
  else
    match vnd_at n mux_id with
    | None => None
    | Some None => Some (RMNET_MAP_COMMAND_UNSUPPORTED, n)
    | Some (Some v) =>
        if zlen d <? sizeof_map_command then None
        else
          let bit := Z.shiftl 1 mux_id in
          let fc := if enable then Z.land (n_flow_control n) (Z.lnot bit) else Z.lor (n_flow_control n) bit in
          let n := fc_arm (set_n_flow_control n fc) in
          Some (RMNET_MAP_COMMAND_ACK, put_vnd n mux_id (rmnet_data_vnd_do_flow_control v enable))
    end.

Definition count_cmd (k : Z) (n : mhi_netdev) : mhi_netdev :=
  set_n_cmd_stats n (<[k := u32 (default 0 (n_cmd_stats n !! k) + 1)]> (n_cmd_stats n)).

Definition rmnet_data_map_command (alloc : bool) (d : list Z) (n : mhi_netdev) : option mhi_netdev :=
  let command_name := byte d 4 in
  let n := if command_name <? RMNET_MAP_COMMAND_ENUM_LENGTH then count_cmd command_name n else n in
  let r :=
    if command_name =? RMNET_MAP_COMMAND_FLOW_ENABLE then rmnet_map_do_flow_control d true n
    else if command_name =? RMNET_MAP_COMMAND_FLOW_DISABLE then rmnet_map_do_flow_control d false n
    else Some (RMNET_MAP_COMMAND_UNSUPPORTED, count_cmd RMNET_MAP_COMMAND_UNKNOWN n) in
  match r with
  | None => None
  | Some (rc, n) => if rc =? RMNET_MAP_COMMAND_ACK then rmnet_map_send_ack alloc rc d n else Some n
  end.
