(* ===== verification/Qmap.v ===== *)
(** * QMAP framing

    Models the QMAP headers and the receive handler of
    src/gl-feed/kernel/pcie_mhi/src/devices/mhi_netdev_quectel.c: [add_qhdr]
    (720-741), [add_qhdr_v5] (743-779), [rmnet_qmi_rx_handler] (1525-1675) and
    the delivery to the stack ([bridge_mode_rx_fixup], [qmap_rx_deliver]).  A
    frame of the modem is a list of bytes that aggregates packets, each behind
    a four-byte header and, in version 5 of the protocol, a checksum header. *)

From S2P Require Import Prelude CLib Netdev.

(** ** Headers of transmitted packets *)

Definition RMNET_MAP_HEADER_TYPE_CSUM_OFFLOAD : Z := 0x2.

(** Bytes needed to reach a multiple of four; given up when there is no room
    behind the data. *)
Definition qmap_pad (s : sk_buff) : Z :=
  let pad := zlen (skb_data s) mod 4 in
  if pad =? 0 then 0
  else let pad := 4 - pad in if zlen (skb_tail s) <? pad then 0 else pad.

Definition add_qhdr (s : sk_buff) (mux_id : Z) : option sk_buff :=
  let pad := qmap_pad s in
  let s := skb_put s pad in
  skb_push s ([pad; mux_id] ++ be16 (u16 (zlen (skb_data s)))).

(** The first byte has the padding in its low six bits and [next_hdr] in bit 6;
    the type of the checksum header is in the upper seven bits of its byte. *)
Definition add_qhdr_v5 (s : sk_buff) (mux_id : Z) : option sk_buff :=
  let map_datalen := zlen (skb_data s) in
  let padding := qmap_pad s in
  let s := skb_put s padding in
  skb_push s ([Z.lor (Z.land padding 0x3F) 0x40; mux_id] ++ be16 (u16 (map_datalen + padding)) ++
              [Z.shiftl RMNET_MAP_HEADER_TYPE_CSUM_OFFLOAD 1; 0; 0; 0]).

(** ** Delivery *)

(** The module parameters of the receive path. *)
Record rx_params := RxParams { rx_gro : bool; rx_csum_trust : bool; rx_gro_fraglist : bool }.

Definition rmnet_vnd_upate_rx_stats (v : vnd) (packets bytes : Z) : vnd :=
  set_v_rx_bytes (set_v_rx_packets v (u64 (v_rx_packets v + packets))) (u64 (v_rx_bytes v + bytes)).

(** The destination of the Ethernet header in bridge mode. *)
Definition bridge_mode_rx_fixup (v : vnd) (eth : list Z) : list Z :=
  if v_bridge v then v_bridge_mac v ++ zdrop 6 eth else eth.

(** The Ethernet header built in front of a received packet. *)
Definition rx_header (v : vnd) (protocol : Z) : option (list Z) :=
  if v_ether v
  then Some (bridge_mode_rx_fixup v (v_addr v ++ default_modem_addr ++ be16 protocol))
  else None.

Definition qmap_rx_deliver (k : rx_params) (n : mhi_netdev) (p : rx_pkt) : mhi_netdev :=
  match vnd_at n (rx_net p) with
  | Some (Some v) =>
      if rx_gro k then
        let n := put_vnd n (rx_net p) (set_v_fraglist v (rx_gro_fraglist k)) in
        nd_emit (NdGro p (rx_csum_trust k)) n
      else nd_emit (NdReceive p) n
  | _ => nd_emit (NdReceive p) n
  end.

Definition deliver_all (k : rx_params) (n : mhi_netdev) (chain : list rx_pkt) : mhi_netdev :=
  foldl (qmap_rx_deliver k) n chain.

(** ** The receive handler *)

(** What one pass over a frame comes to: the packets collected, an access
    outside the frame or the interfaces, or no end within the fuel. *)
Inductive rx_result :=
| RxDone (n : mhi_netdev) (chain : list rx_pkt)
| RxOverread
| RxNoFuel.

Definition ip_protocol (b : Z) : option Z :=
  let v := Z.land b 0xF0 in
  if v =? 0x40 then Some ETH_P_IP else if v =? 0x60 then Some ETH_P_IPV6 else None.

(** The members of the header at the front of [d]. *)
Record map_hdr := MapHdr { m_pad : Z; m_next : bool; m_cd : bool; m_mux : Z; m_pkt_len : Z }.

Definition read_hdr (d : list Z) : map_hdr :=
  MapHdr (Z.land (byte d 0) 0x3F) (Z.testbit (byte d 0) 6) (Z.testbit (byte d 0) 7)
         (byte d 1) (get_be16 (byte d 2) (byte d 3)).

Definition m_hdr_size (h : map_hdr) : Z := if m_next h then 8 else 4.

(** What happens with the packet at the front of [d]: the loop ends
    ([error_pkt]), goes on behind the packet ([skip_pkt]), or read past the end. *)
Inductive pkt_result :=
| PktError (n : mhi_netdev)
| PktSkip (n : mhi_netdev) (p : option rx_pkt) (used : nat)
| PktOverread.

(** One turn of the loop.  [alloc k] is the outcome of the [k]-th allocation;
    [PktSkip] says how many were made. *)
Definition qmi_packet (alloc : nat -> bool) (k : nat) (dl_padding : Z) (n : mhi_netdev) (d : list Z)
  : pkt_result :=
  let h := read_hdr d in
  let hdr_size := m_hdr_size h in
  let pkt_len := m_pkt_len h in
  let skb_len := s32 (pkt_len - m_pad h - dl_padding) in
  let mux_id := m_mux h - QUECTEL_QMAP_MUX_ID in
  if n_qmap_mode n <=? u32 mux_id then PktError n
  else
    match vnd_at n (Z.abs mux_id) with
    | None => PktOverread
    | Some None => PktSkip n None k
    | Some (Some v) =>
        if v_mtu v <? u32 skb_len then PktError n
        else if zlen d <? pkt_len + hdr_size then PktError n
        else if m_cd h then
          match rmnet_data_map_command (alloc k) d n with
          | None => PktOverread
          | Some n => PktSkip n None (S k)
          end
        else
          match zget d hdr_size with
          | None => PktOverread
          | Some b =>
              match ip_protocol b with
              | None => PktError n
              | Some protocol =>
                  if alloc k then
                    PktSkip (put_vnd n (Z.abs mux_id) (rmnet_vnd_upate_rx_stats v 1 skb_len))
                            (Some (RxPkt (Z.abs mux_id) protocol (rx_header v protocol)
                                         (ztake skb_len (zdrop hdr_size d)))) (S k)
                  else PktError (set_n_alloc_failed n (u32 (n_alloc_failed n + 1)))
              end
          end
    end.

Definition opt_list {A} (o : option A) : list A := match o with Some x => [x] | None => [] end.

Fixpoint qmi_loop (fuel : nat) (alloc : nat -> bool) (k : nat) (dl_padding : Z) (n : mhi_netdev)
    (chain : list rx_pkt) (d : list Z) : rx_result :=
  if zlen d <=? sizeof_rmnet_map_header then RxDone n chain
  else
    match fuel with
    | O => RxNoFuel
    | S fuel =>
        match qmi_packet alloc k dl_padding n d with
        | PktError n => RxDone n chain
        | PktOverread => RxOverread
        | PktSkip n p k =>
            let h := read_hdr d in
            qmi_loop fuel alloc k dl_padding n (chain ++ opt_list p)
                     (skb_pull d (m_pkt_len h + m_hdr_size h))
        end
    end.

Definition rx_padding (n : mhi_netdev) : Z := if n_qmap_version n =? 9 then n_dl_padding n else 0.

(** The handler: the packets collected are delivered however the loop ended. *)
Definition rmnet_qmi_rx_handler (fuel : nat) (alloc : nat -> bool) (k : rx_params) (n : mhi_netdev)
    (d : list Z) : rx_result :=
  match qmi_loop fuel alloc 0 (rx_padding n) n [] d with
  | RxDone n chain => RxDone (deliver_all k n chain) chain
  | r => r
  end.

(** ** Bytes *)

Lemma be16_read x : in_u 16 x -> get_be16 (byte (be16 x) 0) (byte (be16 x) 1) = x.
Proof.
  intros Hx. change (byte (be16 x) 0) with (Z.land (Z.shiftr x 8) (Z.ones 8)).
  change (byte (be16 x) 1) with (Z.land x (Z.ones 8)). unfold get_be16.
  apply Z.bits_inj'. intros i Hi.
  rewrite Z.lor_spec, Z.shiftl_spec, !Z.land_spec by lia.
  destruct (Z.lt_ge_cases i 8).
  - rewrite (Z.testbit_neg_r _ (i - 8)), (Z.ones_spec_low 8 i), andb_true_r by lia. done.
  - rewrite Z.shiftr_spec by lia. replace (i - 8 + 8) with i by lia.
    rewrite (Z.ones_spec_high 8 i), andb_false_r, orb_false_r by lia.
    destruct (Z.lt_ge_cases i 16).
    + rewrite (Z.ones_spec_low 8 (i - 8)), andb_true_r by lia. done.
    + rewrite (in_u_testbit 16 x i) by (done || lia). done.
Qed.

Lemma get_be16_range hi lo : in_u 8 hi -> in_u 8 lo -> in_u 16 (get_be16 hi lo).
Proof.
  intros H1 H2. unfold get_be16. split.
  - apply Z.lor_nonneg. split; [apply Z.shiftl_nonneg|]; unfold in_u in *; lia.
  - assert (Hs : Z.shiftl hi 8 = hi * 2 ^ 8) by (apply Z.shiftl_mul_pow2; lia).
    assert (Hd : Z.land (Z.shiftl hi 8) lo = 0).
    { apply land_zero_testbit. intros i Hi. rewrite Z.shiftl_spec by lia.
      destruct (Z.lt_ge_cases i 8); [by rewrite Z.testbit_neg_r by lia|].
      rewrite (in_u_testbit 8 lo i) by (done || lia). apply andb_false_r. }
    rewrite <- Z.lxor_lor, <- Z.add_nocarry_lxor by done. unfold in_u in *. lia.
Qed.

Lemma byte_range d i : Forall (in_u 8) d -> in_u 8 (byte d i).
Proof.
  intros H. unfold byte. destruct (zget d i) as [b|] eqn:E; [|by split].
  unfold zget in E. split_match_in E; [done|]. by eapply Forall_lookup_1 in E.
Qed.

Lemma zlen_ztake {A} n (l : list A) : 0 <= n <= zlen l -> zlen (ztake n l) = n.
Proof. unfold zlen, ztake. intros H. rewrite length_take. lia. Qed.

(** ** What receiving never changes *)

(** The part of an interface that decides where packets go. *)
Definition v_config (v : vnd) : Z * bool * list Z * bool * list Z :=
  (v_mtu v, v_ether v, v_addr v, v_bridge v, v_bridge_mac v).

Definition if_config (n : mhi_netdev) (i : Z) := option_map (option_map v_config) (vnd_at n i).

Definition same_ifs (n n' : mhi_netdev) : Prop :=
  n_qmap_mode n' = n_qmap_mode n /\ forall i, if_config n' i = if_config n i.

#[global] Instance same_ifs_po : PreOrder same_ifs.
Proof.
  split; [by intros n|]. intros a b c [A1 A2] [B1 B2]. split; [congruence|]. intros i. by rewrite B2.
Qed.

Lemma same_ifs_put n i v v' :
  vnd_at n i = Some (Some v) -> v_config v' = v_config v -> same_ifs n (put_vnd n i v').
Proof.
  intros Hv Hc. split; [done|]. intros j. unfold if_config, vnd_at in *. cbn [n_vnds put_vnd set_n_vnds].
  unfold zget in *. destruct (j <? 0) eqn:Ej; [done|]. destruct (i <? 0) eqn:Ei; [done|].
  destruct (decide (j = i)) as [->|Hne].
  - rewrite list_lookup_insert_eq by (by eapply lookup_lt_Some). rewrite Hv. cbn. by rewrite Hc.
  - rewrite list_lookup_insert_ne; [done|]. lia.
Qed.

(** Two devices that differ in nothing but counters and flow control. *)
Lemma same_ifs_vnds n n' :
  n_vnds n' = n_vnds n -> n_qmap_mode n' = n_qmap_mode n -> same_ifs n n'.
Proof. intros H1 H2. split; [done|]. intros i. unfold if_config, vnd_at. by rewrite H1. Qed.

Lemma if_config_Some n n' i v :
  same_ifs n n' -> vnd_at n i = Some (Some v) ->
  exists v', vnd_at n' i = Some (Some v') /\ v_config v' = v_config v.
Proof.
  intros [_ H] Hv. specialize (H i). unfold if_config in H. rewrite Hv in H. cbn in H.
  destruct (vnd_at n' i) as [[v'|]|]; cbn in H; try done. exists v'. split; [done|congruence].
Qed.

Lemma fc_arm_keeps n : n_vnds (fc_arm n) = n_vnds n /\ n_qmap_mode (fc_arm n) = n_qmap_mode n.
Proof. unfold fc_arm. by repeat split_match. Qed.

Lemma flow_control_ifs d en n rc n' :
  rmnet_map_do_flow_control d en n = Some (rc, n') -> same_ifs n n'.
Proof.
  unfold rmnet_map_do_flow_control. split_match; [by intros [= <- <-]|].
  destruct (vnd_at n _) as [[v|]|] eqn:Hv; [|by intros [= <- <-]|done].
  split_match; [done|]. intros [= <- <-].
  set (n1 := fc_arm _). assert (H1 : n_vnds n1 = n_vnds n /\ n_qmap_mode n1 = n_qmap_mode n)
    by exact (fc_arm_keeps (set_n_flow_control n _)).
  transitivity n1; [apply same_ifs_vnds; apply H1|].
  apply (same_ifs_put _ _ v); [unfold vnd_at in *; by rewrite (proj1 H1)|]. by destruct en.
Qed.

Lemma map_command_ifs alloc d n n' : rmnet_data_map_command alloc d n = Some n' -> same_ifs n n'.
Proof.
  unfold rmnet_data_map_command. set (n1 := if _ <? _ then _ else n).
  assert (H1 : same_ifs n n1) by (subst n1; split_match; by apply same_ifs_vnds). clearbody n1.
  set (r := if _ =? _ then _ else _).
  assert (H2 : forall rc n2, r = Some (rc, n2) -> same_ifs n1 n2).
  { intros rc n2. subst r. repeat split_match; [apply flow_control_ifs..|]. intros [= <- <-]. by apply same_ifs_vnds. }
  destruct r as [[rc n2]|]; [|done]. specialize (H2 rc n2 eq_refl).
  split_match; [|intros [= <-]; by etransitivity]. unfold rmnet_map_send_ack.
  repeat split_match; try done; intros [= <-]; [by etransitivity|].
  transitivity n2; [by etransitivity|]. by apply same_ifs_vnds.
Qed.

(** ** Reading a header back *)

Lemma pad_cases s : qmap_pad s = 0 \/ qmap_pad s = 1 \/ qmap_pad s = 2 \/ qmap_pad s = 3.
Proof.
  unfold qmap_pad. pose proof (Z.mod_pos_bound (zlen (skb_data s)) 4 ltac:(lia)).
  destruct (Z.eqb_spec (zlen (skb_data s) mod 4) 0); [lia|]. split_match; lia.
Qed.

Lemma pad_room s : qmap_pad s <= zlen (skb_tail s).
Proof.
  unfold qmap_pad. pose proof (zlen_nonneg (skb_tail s)). split_match; [lia|].
  destruct (Z.ltb_spec (zlen (skb_tail s)) (4 - zlen (skb_data s) mod 4)); lia.
Qed.

(** The header bytes of either version. *)
Definition hdr_bytes (v5 : bool) (pad mux_id len : Z) : list Z :=
  [(if v5 then Z.lor (Z.land pad 0x3F) 0x40 else pad); mux_id] ++ be16 len ++
  (if v5 then [Z.shiftl RMNET_MAP_HEADER_TYPE_CSUM_OFFLOAD 1; 0; 0; 0] else []).

Lemma read_hdr_bytes v5 pad mux_id len rest :
  pad = 0 \/ pad = 1 \/ pad = 2 \/ pad = 3 -> in_u 16 len ->
  read_hdr (hdr_bytes v5 pad mux_id len ++ rest) = MapHdr pad v5 false mux_id len.
Proof.
  intros Hp Hl. unfold read_hdr.
  assert (H0 : byte (hdr_bytes v5 pad mux_id len ++ rest) 0 = (if v5 then Z.lor (Z.land pad 0x3F) 0x40 else pad))
    by reflexivity.
  change (byte (hdr_bytes v5 pad mux_id len ++ rest) 1) with mux_id.
  change (byte (hdr_bytes v5 pad mux_id len ++ rest) 2) with (byte (be16 len) 0).
  change (byte (hdr_bytes v5 pad mux_id len ++ rest) 3) with (byte (be16 len) 1).
  rewrite H0, be16_read by done. by destruct Hp as [->|[->|[->| ->]]]; destruct v5.
Qed.

(** A packet for transmission: the version of the header, the index of the
    interface, the buffer. *)
Record tx_pkt := TxPkt { t_v5 : bool; t_if : Z; t_skb : sk_buff }.

Definition tx_frame (t : tx_pkt) : option sk_buff :=
  if t_v5 t then add_qhdr_v5 (t_skb t) (QUECTEL_QMAP_MUX_ID + t_if t)
  else add_qhdr (t_skb t) (QUECTEL_QMAP_MUX_ID + t_if t).

Definition hdr_len (v5 : bool) : Z := if v5 then 8 else 4.

Lemma tx_frame_bytes t :
  hdr_len (t_v5 t) <= headroom (t_skb t) -> zlen (skb_data (t_skb t)) + 3 < 2 ^ 16 ->
  exists s' pb, tx_frame t = Some s' /\ zlen pb = qmap_pad (t_skb t) /\
    skb_data s' = hdr_bytes (t_v5 t) (qmap_pad (t_skb t)) (QUECTEL_QMAP_MUX_ID + t_if t)
                    (zlen (skb_data (t_skb t)) + qmap_pad (t_skb t)) ++ skb_data (t_skb t) ++ pb.
Proof.
  destruct t as [v5 i s]. unfold tx_frame, add_qhdr, add_qhdr_v5, hdr_len. cbn [t_v5 t_if t_skb]. intros Hr Hl.
  pose proof (pad_cases s) as Hp. pose proof (pad_room s) as Hpr.
  pose proof (zlen_nonneg (skb_data s)).
  assert (Hpb : zlen (ztake (qmap_pad s) (skb_tail s)) = qmap_pad s) by (apply zlen_ztake; lia).
  assert (Hlen : zlen (skb_data (skb_put s (qmap_pad s))) = zlen (skb_data s) + qmap_pad s).
  { cbn [skb_put skb_data]. rewrite zlen_app. lia. }
  assert (Hu : in_u 16 (zlen (skb_data s) + qmap_pad s)) by (unfold in_u; lia).
  destruct v5; unfold skb_push; cbn [headroom skb_put skb_data].
  - destruct (Z.ltb_spec (headroom s) (zlen ([Z.lor (Z.land (qmap_pad s) 0x3F) 0x40; QUECTEL_QMAP_MUX_ID + i] ++
      be16 (u16 (zlen (skb_data s) + qmap_pad s)) ++ [Z.shiftl RMNET_MAP_HEADER_TYPE_CSUM_OFFLOAD 1; 0; 0; 0])))
      as [Hlt|_]; [exfalso; change (headroom s < 8) in Hlt; lia|].
    do 2 eexists. split_and!; [done|exact Hpb|]. cbn [skb_data]. by rewrite (wrap_small 16) by done.
  - cbn [skb_put skb_data] in Hlen. rewrite Hlen.
    destruct (Z.ltb_spec (headroom s) (zlen ([qmap_pad s; QUECTEL_QMAP_MUX_ID + i] ++
      be16 (u16 (zlen (skb_data s) + qmap_pad s))))) as [Hlt|_]; [exfalso; change (headroom s < 4) in Hlt; lia|].
    do 2 eexists. split_and!; [done|exact Hpb|]. cbn [skb_data]. by rewrite (wrap_small 16) by done.
Qed.

(** ** One packet *)

(** Packet [t] fits the device [n]: its interface exists and takes it. *)
Definition tx_fits (n : mhi_netdev) (t : tx_pkt) (p : rx_pkt) : Prop :=
  exists v proto,
    0 <= t_if t < n_qmap_mode n /\ t_if t < 127 /\ vnd_at n (t_if t) = Some (Some v) /\
    0 < zlen (skb_data (t_skb t)) <= v_mtu v /\ zlen (skb_data (t_skb t)) + 3 < 2 ^ 16 /\
    hdr_len (t_v5 t) <= headroom (t_skb t) /\ ip_protocol (byte (skb_data (t_skb t)) 0) = Some proto /\
    p = RxPkt (t_if t) proto (rx_header v proto) (skb_data (t_skb t)).

Lemma tx_fits_same n n' t p : same_ifs n n' -> tx_fits n t p -> tx_fits n' t p.
Proof.
  intros Hs (v & proto & Hi & Hi2 & Hv & Hl & Hl2 & Hr & Hpr & ->).
  destruct (if_config_Some n n' _ _ Hs Hv) as (v' & Hv' & Hc). injection Hc as C1 C2 C3 C4 C5.
  exists v', proto. rewrite (proj1 Hs), C1. split_and!; try done || lia.
  unfold rx_header, bridge_mode_rx_fixup. by rewrite C2, C3, C4, C5.
Qed.

Lemma hdr_bytes_len v5 pad mux len : zlen (hdr_bytes v5 pad mux len) = hdr_len v5.
Proof. by destruct v5. Qed.

Lemma qmi_packet_frame alloc k n t p s' rest :
  tx_fits n t p -> tx_frame t = Some s' -> alloc k = true ->
  let d := skb_data s' ++ rest in
  exists n', qmi_packet alloc k 0 n d = PktSkip n' (Some p) (S k) /\ same_ifs n n' /\ n_log n' = n_log n /\
    sizeof_rmnet_map_header < zlen d /\ skb_pull d (m_pkt_len (read_hdr d) + m_hdr_size (read_hdr d)) = rest.
Proof.
  intros (v & proto & Hi & Hi2 & Hv & Hl & Hl2 & Hr & Hpr & ->) Hf Ha d.
  destruct (tx_frame_bytes t Hr Hl2) as (s1 & pb & Hf1 & Hpb & Hd). rewrite Hf in Hf1. injection Hf1 as <-.
  set (data := skb_data (t_skb t)) in *. set (pad := qmap_pad (t_skb t)) in *. set (mux := t_if t) in *.
  pose proof (pad_cases (t_skb t)) as Hp. fold pad in Hp. set (L := zlen data) in *.
  assert (Hdd : d = hdr_bytes (t_v5 t) pad (QUECTEL_QMAP_MUX_ID + mux) (L + pad) ++ (data ++ pb) ++ rest).
  { subst d. by rewrite Hd, <- app_assoc. }
  assert (Hu : in_u 16 (L + pad)) by (unfold in_u; lia).
  assert (Hh : read_hdr d = MapHdr pad (t_v5 t) false (QUECTEL_QMAP_MUX_ID + mux) (L + pad)).
  { rewrite Hdd. by apply read_hdr_bytes. }
  pose proof (zlen_nonneg rest) as Hrest.
  assert (Hlen : zlen d = hdr_len (t_v5 t) + (L + pad) + zlen rest).
  { rewrite Hdd, !zlen_app, hdr_bytes_len. fold L. lia. }
  assert (Hdrop : zdrop (hdr_len (t_v5 t)) d = (data ++ pb) ++ rest).
  { rewrite Hdd. apply zdrop_app. by rewrite hdr_bytes_len. }
  unfold qmi_packet. rewrite Hh.
  assert (Hsz : m_hdr_size (MapHdr pad (t_v5 t) false (QUECTEL_QMAP_MUX_ID + mux) (L + pad)) = hdr_len (t_v5 t))
    by done.
  rewrite Hsz. cbn [m_pad m_mux m_pkt_len m_cd].
  replace (QUECTEL_QMAP_MUX_ID + mux - QUECTEL_QMAP_MUX_ID) with mux by lia.
  rewrite (wrap_small 32) by (unfold in_u; lia). rewrite Z.abs_eq by lia.
  destruct (Z.leb_spec (n_qmap_mode n) mux); [lia|]. rewrite Hv.
  assert (Hs32 : s32 (L + pad - pad - 0) = L).
  { replace (L + pad - pad - 0) with L by lia. unfold swrap. rewrite (wrap_small 32) by (unfold in_u; lia).
    change (32 - 1) with 31. destruct (Z.ltb_spec L (2 ^ 31)); lia. }
  rewrite Hs32. rewrite (wrap_small 32) by (unfold in_u; lia).
  destruct (Z.ltb_spec (v_mtu v) L); [lia|].
  destruct (Z.ltb_spec (zlen d) (L + pad + hdr_len (t_v5 t))); [lia|].
  assert (Hb : zget d (hdr_len (t_v5 t)) = Some (byte data 0)).
  { rewrite Hdd. rewrite zget_app_r by (rewrite hdr_bytes_len; lia).
    rewrite hdr_bytes_len. replace (hdr_len (t_v5 t) - hdr_len (t_v5 t)) with 0 by lia.
    rewrite <- app_assoc, zget_app_l by (fold L; lia). unfold byte.
    destruct (zget data 0) as [b|] eqn:E; [done|]. exfalso.
    assert (Hsome : is_Some (zget data 0)) by (apply zget_is_Some; fold L; lia).
    rewrite E in Hsome. by destruct Hsome. }
  rewrite Hb, Hpr, Ha. eexists. split_and!.
  - rewrite Hdrop, <- app_assoc, ztake_app by done. reflexivity.
  - by apply (same_ifs_put _ _ v).
  - reflexivity.
  - rewrite Hlen. unfold sizeof_rmnet_map_header, hdr_len. split_match; lia.
  - unfold skb_pull. cbn [m_pkt_len]. rewrite Hlen.
    destruct (Z.ltb_spec (hdr_len (t_v5 t) + (L + pad) + zlen rest) (L + pad + hdr_len (t_v5 t))); [lia|].
    rewrite Hdd, app_assoc. apply zdrop_app. rewrite !zlen_app, hdr_bytes_len. fold L. lia.
Qed.

(** A frame that aggregates transmitted packets comes apart again. *)
Lemma qmi_loop_frames alloc : (forall k, alloc k = true) -> forall ts ps ss fuel k n chain,
  Forall2 (tx_fits n) ts ps -> Forall2 (fun t s => tx_frame t = Some s) ts ss -> (length ts <= fuel)%nat ->
  exists n', qmi_loop fuel alloc k 0 n chain (concat (map skb_data ss)) = RxDone n' (chain ++ ps) /\
    same_ifs n n' /\ n_log n' = n_log n.
Proof.
  intros Ha. induction ts as [|t ts IH]; intros ps ss fuel k n chain Hps Hss Hf.
  - apply Forall2_nil_inv_l in Hps as ->. apply Forall2_nil_inv_l in Hss as ->. exists n.
    rewrite app_nil_r. by destruct fuel.
  - apply Forall2_cons_inv_l in Hps as (p & ps' & Hp & Hps & ->).
    apply Forall2_cons_inv_l in Hss as (s & ss' & Hs & Hss & ->).
    destruct fuel as [|fuel]; [cbn in Hf; lia|]. cbn [map concat].
    destruct (qmi_packet_frame alloc k n t p s (concat (map skb_data ss')) Hp Hs (Ha k))
      as (n1 & Hq & Hsame & Hlog & Hlen & Hpull).
    cbn [qmi_loop]. destruct (Z.leb_spec (zlen (skb_data s ++ concat (map skb_data ss'))) sizeof_rmnet_map_header);
      [lia|]. rewrite Hq, Hpull. cbn [opt_list].
    destruct (IH ps' ss' fuel (S k) n1 (chain ++ [p])) as (n' & Hr & Hs' & Hl'); [|done|cbn in Hf; lia|].
    { eapply Forall2_impl; [done|]. intros t' p'. by apply tx_fits_same. }
    exists n'. rewrite Hr, <- app_assoc. split_and!; [done|by etransitivity|congruence].
Qed.

(** ** Delivery *)

Definition stack_event (k : rx_params) (p : rx_pkt) : nd_note :=
  if rx_gro k then NdGro p (rx_csum_trust k) else NdReceive p.

Definition if_exists (n : mhi_netdev) (p : rx_pkt) : Prop := exists v, vnd_at n (rx_net p) = Some (Some v).

Lemma if_exists_same n n' p : same_ifs n n' -> if_exists n p -> if_exists n' p.
Proof. intros Hs [v Hv]. destruct (if_config_Some _ _ _ _ Hs Hv) as (v' & ? & _). by exists v'. Qed.

Lemma deliver_one k n p : if_exists n p ->
  n_log (qmap_rx_deliver k n p) = n_log n ++ [stack_event k p] /\ same_ifs n (qmap_rx_deliver k n p).
Proof.
  intros [v Hv]. unfold qmap_rx_deliver, stack_event. rewrite Hv. split_match; (split; [done|]).
  - transitivity (put_vnd n (rx_net p) (set_v_fraglist v (rx_gro_fraglist k))); [|by apply same_ifs_vnds].
    by apply (same_ifs_put _ _ v).
  - by apply same_ifs_vnds.
Qed.

Lemma deliver_all_log k ps : forall n, Forall (if_exists n) ps ->
  n_log (deliver_all k n ps) = n_log n ++ map (stack_event k) ps.
Proof.
  unfold deliver_all. induction ps as [|p ps IH]; intros n Hps; cbn [foldl map]; [by rewrite app_nil_r|].
  apply Forall_cons in Hps as [Hp Hps]. destruct (deliver_one k n p Hp) as [Hl Hs].
  rewrite IH, Hl, <- app_assoc; [done|]. eapply Forall_impl; [done|]. intros q. by apply if_exists_same.
Qed.

(** ** Arbitrary frames *)

(** The device as [mhi_netdev_probe] sets it up: at most eight interfaces, all
    of them there, and lengths that fit a frame. *)
Definition dev_ok (n : mhi_netdev) : Prop :=
  0 <= n_qmap_mode n <= 8 /\
  forall i, 0 <= i < n_qmap_mode n -> exists v, vnd_at n i = Some (Some v) /\ 0 <= v_mtu v < 2 ^ 16.

Lemma dev_ok_same n n' : same_ifs n n' -> dev_ok n -> dev_ok n'.
Proof.
  intros Hs [Hm Hi]. unfold dev_ok. rewrite (proj1 Hs). split; [done|]. intros i Hr.
  destruct (Hi i Hr) as (v & Hv & Hmtu). destruct (if_config_Some _ _ _ _ Hs Hv) as (v' & Hv' & Hc).
  exists v'. injection Hc as C1 _ _ _ _. by rewrite C1.
Qed.

(** A delivered packet: part of the frame, for an interface that takes it. *)
Definition pkt_sound (n : mhi_netdev) (d : list Z) (p : rx_pkt) : Prop :=
  exists v a b, vnd_at n (rx_net p) = Some (Some v) /\ 0 <= rx_net p < n_qmap_mode n /\
    d = a ++ rx_data p ++ b /\ zlen (rx_data p) <= v_mtu v /\
    (rx_proto p = ETH_P_IP \/ rx_proto p = ETH_P_IPV6) /\ rx_eth p = rx_header v (rx_proto p).

Lemma pkt_sound_same n n' d p : same_ifs n n' -> pkt_sound n' d p -> pkt_sound n d p.
Proof.
  intros Hs (v & a & b & Hv & Hr & Hd & Hl & Hp & He). pose proof Hs as [Hm Hc]. specialize (Hc (rx_net p)).
  unfold if_config in Hc. rewrite Hv in Hc. cbn in Hc.
  destruct (vnd_at n (rx_net p)) as [[v'|]|] eqn:Hv'; cbn in Hc; try done.
  injection Hc as C1 C2 C3 C4 C5. exists v', a, b. rewrite <- Hm. split_and!; try done || lia.
  rewrite He. unfold rx_header, bridge_mode_rx_fixup. by rewrite C2, C3, C4, C5.
Qed.

Lemma pkt_sound_suffix n a d p : pkt_sound n d p -> pkt_sound n (a ++ d) p.
Proof.
  intros (v & a' & b & Hv & Hr & -> & Hl & Hp & He). exists v, (a ++ a'), b.
  split_and!; try done || lia. by rewrite <- app_assoc.
Qed.

Lemma ip_protocol_cases b p : ip_protocol b = Some p -> p = ETH_P_IP \/ p = ETH_P_IPV6.
Proof. unfold ip_protocol. repeat split_match; intros [= <-]; auto. Qed.

Lemma skb_len_range l pad mtu dl :
  in_u 16 l -> 0 <= pad < 64 -> 0 <= dl < 2 ^ 16 -> 0 <= mtu < 2 ^ 16 -> u32 (s32 (l - pad - dl)) <= mtu ->
  s32 (l - pad - dl) = l - pad - dl /\ 0 <= l - pad - dl.
Proof.
  unfold in_u, swrap, wrap. intros. change (32 - 1) with 31 in *.
  destruct (Z.lt_ge_cases (l - pad - dl) 0) as [Hneg|Hpos].
  - assert (E : (l - pad - dl) mod 2 ^ 32 = l - pad - dl + 2 ^ 32).
    { symmetry. apply (Z.mod_unique_pos _ _ (-1)); lia. }
    rewrite E in *. destruct (Z.ltb_spec (l - pad - dl + 2 ^ 32) (2 ^ 31)); [lia|].
    replace (l - pad - dl + 2 ^ 32 - 2 ^ 32) with (l - pad - dl) in * by lia. rewrite E in *. lia.
  - rewrite (Z.mod_small (l - pad - dl)) in * by lia.
    destruct (Z.ltb_spec (l - pad - dl) (2 ^ 31)); lia.
Qed.

Lemma land_3F_range b : in_u 8 b -> 0 <= Z.land b 0x3F < 64.
Proof. intros Hb. change 0x3F with (Z.ones 6). rewrite Z.land_ones by lia. apply Z.mod_pos_bound. lia. Qed.

Lemma qmi_packet_sound alloc k dl n d :
  dev_ok n -> Forall (in_u 8) d -> 0 <= dl < 2 ^ 16 ->
  match qmi_packet alloc k dl n d with
  | PktSkip n' p _ =>
      same_ifs n n' /\ (forall q, p = Some q -> pkt_sound n d q) /\
      4 <= m_pkt_len (read_hdr d) + m_hdr_size (read_hdr d) <= zlen d
  | _ => True
  end.
Proof.
  intros [Hm Hok] Hd Hdl. unfold qmi_packet. set (h := read_hdr d).
  assert (Hl : in_u 16 (m_pkt_len h)) by (apply get_be16_range; by apply byte_range).
  assert (Hp : 0 <= m_pad h < 64) by (by apply land_3F_range, byte_range).
  assert (Hmux : in_u 8 (m_mux h)) by by apply byte_range.
  assert (Hsz : 4 <= m_hdr_size h) by (unfold m_hdr_size; split_match; lia). clearbody h.
  destruct (Z.leb_spec (n_qmap_mode n) (u32 (m_mux h - QUECTEL_QMAP_MUX_ID))) as [|Hlt]; [done|].
  assert (Hi : 0 <= m_mux h - QUECTEL_QMAP_MUX_ID < n_qmap_mode n).
  { unfold wrap, QUECTEL_QMAP_MUX_ID, in_u in *. destruct (Z.lt_ge_cases (m_mux h - 0x81) 0).
    - replace ((m_mux h - 0x81) mod 2 ^ 32) with (m_mux h - 0x81 + 2 ^ 32) in Hlt; [lia|].
      apply (Z.mod_unique_pos _ _ (-1)); lia.
    - rewrite Z.mod_small in Hlt; lia. }
  set (i := m_mux h - QUECTEL_QMAP_MUX_ID) in *. rewrite (Z.abs_eq i) by lia.
  destruct (Hok i Hi) as (v & Hv & Hmtu). rewrite Hv.
  destruct (Z.ltb_spec (v_mtu v) (u32 (s32 (m_pkt_len h - m_pad h - dl)))) as [|Hle]; [done|].
  destruct (skb_len_range _ _ _ _ Hl Hp Hdl Hmtu Hle) as [Es Hpos]. rewrite Es.
  destruct (Z.ltb_spec (zlen d) (m_pkt_len h + m_hdr_size h)); [done|].
  assert (Hrange : 4 <= m_pkt_len h + m_hdr_size h <= zlen d) by (unfold in_u in Hl; lia).
  destruct (m_cd h).
  { destruct (rmnet_data_map_command (alloc k) d n) as [n'|] eqn:Ec; [|done].
    apply map_command_ifs in Ec. split_and!; done || lia. }
  destruct (zget d (m_hdr_size h)) as [b|]; [|done].
  destruct (ip_protocol b) as [proto|] eqn:Eip; [|done]. apply ip_protocol_cases in Eip.
  split_match; [|done]. split_and!; [by apply (same_ifs_put _ _ v)| |lia|lia].
  intros q [= <-]. exists v, (ztake (m_hdr_size h) d), (zdrop (m_pkt_len h - m_pad h - dl) (zdrop (m_hdr_size h) d)).
  cbn [rx_net rx_data rx_proto rx_eth]. split_and!; try done || lia.
  - unfold ztake, zdrop. by rewrite !take_drop.
  - unfold in_u in Hl. rewrite zlen_ztake; [|rewrite zlen_zdrop by lia; lia].
    rewrite Es in Hle. rewrite (wrap_small 32) in Hle; [done|]. unfold in_u in *. lia.
Qed.

Lemma qmi_loop_sound alloc dl : 0 <= dl < 2 ^ 16 -> forall fuel k n chain d,
  dev_ok n -> Forall (in_u 8) d -> (length d <= fuel)%nat ->
  match qmi_loop fuel alloc k dl n chain d with
  | RxDone n' chain' => exists new, chain' = chain ++ new /\ Forall (pkt_sound n d) new
  | RxOverread => True
  | RxNoFuel => False
  end.
Proof.
  intros Hdl. induction fuel as [|fuel IH]; intros k n chain d Hok Hd Hf; cbn [qmi_loop].
  { destruct d; [|cbn in Hf; lia]. cbn. exists []. by rewrite app_nil_r. }
  destruct (Z.leb_spec (zlen d) sizeof_rmnet_map_header) as [|Hlen]; [exists []; by rewrite app_nil_r|].
  pose proof (qmi_packet_sound alloc k dl n d Hok Hd Hdl) as Hq.
  destruct (qmi_packet alloc k dl n d) as [n'|n' p k'|]; [exists []; by rewrite app_nil_r| |done].
  destruct Hq as (Hs & Hp & Hr). set (len := m_pkt_len (read_hdr d) + m_hdr_size (read_hdr d)) in *.
  unfold skb_pull. destruct (Z.ltb_spec (zlen d) len); [lia|].
  assert (Hsplit : d = ztake len d ++ zdrop len d) by (unfold ztake, zdrop; by rewrite take_drop).
  assert (Hd' : Forall (in_u 8) (zdrop len d)) by (unfold zdrop; by apply Forall_drop).
  specialize (IH k' n' (chain ++ opt_list p) (zdrop len d) (dev_ok_same _ _ Hs Hok) Hd').
  destruct (qmi_loop fuel alloc k' dl n' (chain ++ opt_list p) (zdrop len d)) as [n2 chain2| |];
    [|done|apply IH; unfold zdrop, zlen in *; rewrite length_drop; lia].
  destruct IH as (new & -> & Hnew); [unfold zdrop, zlen in *; rewrite length_drop; lia|].
  exists (opt_list p ++ new). split; [by rewrite <- app_assoc|]. apply Forall_app. split.
  - destruct p as [q|]; [|done]. by apply Forall_singleton, Hp.
  - eapply Forall_impl; [done|]. intros q Hq. apply (pkt_sound_same n n'); [done|].
    rewrite Hsplit. by apply pkt_sound_suffix.
Qed.

(** ** Theorems *)

(** C6. Aggregation round trip: packets framed by [add_qhdr] or [add_qhdr_v5],
    in any mix and for any existing interfaces, put behind one another and fed
    to the receive handler come out as they went in, in order, on the interface
    they were sent from, and are handed to the stack in that order. *)
Theorem qmap_roundtrip alloc k n ts ps ss :
  (forall i, alloc i = true) -> rx_padding n = 0 -> Forall2 (tx_fits n) ts ps ->
  Forall2 (fun t s => tx_frame t = Some s) ts ss ->
  exists n', rmnet_qmi_rx_handler (length ts) alloc k n (concat (map skb_data ss)) = RxDone n' ps /\
    n_log n' = n_log n ++ map (stack_event k) ps.
Proof.
  intros Ha Hpad Hps Hss. unfold rmnet_qmi_rx_handler. rewrite Hpad.
  destruct (qmi_loop_frames alloc Ha ts ps ss (length ts) 0 n [] Hps Hss) as (n1 & -> & Hs & Hl); [done|].
  eexists. split; [done|]. rewrite deliver_all_log, Hl; [done|].
  eapply Forall_impl; [|intros p; apply (if_exists_same n); done].
  eapply Forall2_Forall_r; [exact Hps|]. apply Forall_forall. intros t _ p.
  intros (v & proto & _ & _ & Hv & _ & _ & _ & _ & ->). by exists v.
Qed.

(** Two interfaces, the second one with an Ethernet header and bridged. *)
Definition ex_vnd (ether : bool) (mux : Z) : vnd :=
  Vnd 1500 ether [2; 0x50; 0xf4; 0; 0; mux] (QUECTEL_QMAP_MUX_ID + mux) 5 ether 0 [1; 2; 3; 4; 5; 6]
      false true false 0 0 0 0 0.
Definition ex_nd (v0 v1 : option vnd) : mhi_netdev :=
  MhiNetdev MHI_NET_RMNET true true [v0; v1; None; None; None; None; None; None] 2 5 0 0 0 0 false false true
            true 0 0 32768 0 0 0 ∅ [].
Definition ex_nd2 : mhi_netdev := ex_nd (Some (ex_vnd false 0)) (Some (ex_vnd true 1)).
Definition ex_params : rx_params := RxParams false true false.

Definition ex_t1 : tx_pkt := TxPkt false 0 (Skb 16 [0x45; 1; 2; 3; 4] [0xEE; 0xEE; 0xEE; 0xEE]).
Definition ex_t2 : tx_pkt := TxPkt true 1 (Skb 16 [0x60; 9; 9] []).
Definition ex_p1 : rx_pkt := RxPkt 0 ETH_P_IP None [0x45; 1; 2; 3; 4].
Definition ex_p2 : rx_pkt :=
  RxPkt 1 ETH_P_IPV6 (Some [1; 2; 3; 4; 5; 6; 2; 0x50; 0xf3; 0; 0; 0; 0x86; 0xDD]) [0x60; 9; 9].

Lemma qmap_roundtrip_witness : exists n',
  rmnet_qmi_rx_handler 2 (fun _ => true) ex_params ex_nd2
    ([3; 0x81; 0; 8; 0x45; 1; 2; 3; 4; 0xEE; 0xEE; 0xEE] ++ [0x40; 0x82; 0; 3; 4; 0; 0; 0; 0x60; 9; 9])
  = RxDone n' [ex_p1; ex_p2] /\ n_log n' = [NdReceive ex_p1; NdReceive ex_p2].
Proof.
  apply (qmap_roundtrip (fun _ => true) ex_params ex_nd2 [ex_t1; ex_t2] [ex_p1; ex_p2]
    [Skb 12 [3; 0x81; 0; 8; 0x45; 1; 2; 3; 4; 0xEE; 0xEE; 0xEE] [0xEE];
     Skb 8 [0x40; 0x82; 0; 3; 4; 0; 0; 0; 0x60; 9; 9] []]).
  - done.
  - reflexivity.
  - repeat constructor.
    + exists (ex_vnd false 0), ETH_P_IP. vm_compute. intuition congruence.
    + exists (ex_vnd true 1), ETH_P_IPV6. vm_compute. intuition congruence.
  - repeat constructor.
Defined.


Lemma ex_nd2_ok : dev_ok ex_nd2.
Proof.
  split; [vm_compute; intuition congruence|]. intros i Hi. change (n_qmap_mode ex_nd2) with 2 in Hi.
  assert (i = 0 \/ i = 1) as [-> | ->] by lia.
  - exists (ex_vnd false 0). vm_compute. intuition congruence.
  - exists (ex_vnd true 1). vm_compute. intuition congruence.
Qed.


(** Without its interface a packet is skipped before its length is checked:
    when it claims to be longer than the frame, the pull does nothing and the
    handler never ends, however long it runs. *)
Theorem qmi_rx_missing_if_diverges alloc k n d :
  let h := read_hdr d in
  let i := m_mux h - QUECTEL_QMAP_MUX_ID in
  0 <= i < n_qmap_mode n -> i < 2 ^ 32 -> vnd_at n i = Some None ->
  sizeof_rmnet_map_header < zlen d < m_pkt_len h + m_hdr_size h ->
  forall fuel, rmnet_qmi_rx_handler fuel alloc k n d = RxNoFuel.
Proof.
  intros h i Hi Hi2 Hv Hlen fuel. unfold rmnet_qmi_rx_handler.
  assert (H : forall fuel k, qmi_loop fuel alloc k (rx_padding n) n [] d = RxNoFuel).
  { assert (Hgo : (zlen d <=? sizeof_rmnet_map_header) = false) by (apply Z.leb_gt; lia).
    intros m. induction m as [|m IH]; intros k'; cbn [qmi_loop]; rewrite Hgo; [reflexivity|].
    unfold qmi_packet. fold h. fold i. rewrite (wrap_small 32) by (unfold in_u; lia).
    destruct (Z.leb_spec (n_qmap_mode n) i); [lia|]. rewrite Z.abs_eq, Hv by lia.
    unfold skb_pull. destruct (Z.ltb_spec (zlen d) (m_pkt_len h + m_hdr_size h)); [|lia].
    apply IH. }
  by rewrite H.
Qed.

Lemma qmi_rx_missing_if_diverges_witness :
  rmnet_qmi_rx_handler 1000 (fun _ => true) ex_params (ex_nd (Some (ex_vnd false 0)) None) [0; 0x82; 1; 0; 0x45]
  = RxNoFuel.
Proof.
  apply (qmi_rx_missing_if_diverges (fun _ => true) ex_params (ex_nd (Some (ex_vnd false 0)) None)
           [0; 0x82; 1; 0; 0x45]); vm_compute; intuition congruence.
Defined.

(** Two short frames make the handler read past their end: a version 5
    header with no packet behind it, and a flow-control command of one byte. *)
Theorem qmi_rx_overreads alloc k n v :
  0 < n_qmap_mode n -> vnd_at n 0 = Some (Some v) -> 0 <= v_mtu v -> rx_padding n = 0 ->
  rmnet_qmi_rx_handler 1 alloc k n [0x40; 0x81; 0; 0; 4; 0; 0; 0] = RxOverread /\
  (1 <= v_mtu v -> rmnet_qmi_rx_handler 1 alloc k n [0x80; 0x81; 0; 1; 1] = RxOverread).
Proof.
  intros Hm Hv Hmtu Hp. unfold rmnet_qmi_rx_handler. rewrite Hp.
  split; [|intros Hmtu1]; cbn [qmi_loop]; rewrite (proj2 (Z.leb_gt _ _)) by (vm_compute; reflexivity).
  - unfold qmi_packet.
    change (read_hdr [0x40; 0x81; 0; 0; 4; 0; 0; 0]) with (MapHdr 0 true false 0x81 0).
    cbn [m_mux m_pad m_pkt_len m_cd]. change (u32 (0x81 - QUECTEL_QMAP_MUX_ID)) with 0.
    change (Z.abs (0x81 - QUECTEL_QMAP_MUX_ID)) with 0. rewrite Hv.
    destruct (Z.leb_spec (n_qmap_mode n) 0); [lia|]. change (u32 (s32 (0 - 0 - 0))) with 0.
    destruct (Z.ltb_spec (v_mtu v) 0); [lia|]. reflexivity.
  - unfold qmi_packet.
    change (read_hdr [0x80; 0x81; 0; 1; 1]) with (MapHdr 0 false true 0x81 1).
    cbn [m_mux m_pad m_pkt_len m_cd]. change (u32 (0x81 - QUECTEL_QMAP_MUX_ID)) with 0.
    change (Z.abs (0x81 - QUECTEL_QMAP_MUX_ID)) with 0. rewrite Hv.
    destruct (Z.leb_spec (n_qmap_mode n) 0); [lia|]. change (u32 (s32 (1 - 0 - 0))) with 1.
    destruct (Z.ltb_spec (v_mtu v) 1); [lia|].
    rewrite (proj2 (Z.ltb_ge _ _)) by (vm_compute; congruence).
    unfold rmnet_data_map_command. change (byte [0x80; 0x81; 0; 1; 1] 4) with 1.
    change (1 =? RMNET_MAP_COMMAND_FLOW_ENABLE) with false. change (1 =? RMNET_MAP_COMMAND_FLOW_DISABLE) with true.
    change (1 <? RMNET_MAP_COMMAND_ENUM_LENGTH) with true. unfold rmnet_map_do_flow_control.
    change (u8 (byte [0x80; 0x81; 0; 1; 1] 1 - QUECTEL_QMAP_MUX_ID)) with 0.
    change (n_qmap_mode (count_cmd 1 n)) with (n_qmap_mode n).
    change (vnd_at (count_cmd 1 n) 0) with (vnd_at n 0). rewrite Hv.
    destruct (Z.leb_spec (n_qmap_mode n) 0); [lia|]. reflexivity.
Qed.

Lemma qmi_rx_overreads_witness :
  rmnet_qmi_rx_handler 1 (fun _ => true) ex_params ex_nd2 [0x40; 0x81; 0; 0; 4; 0; 0; 0] = RxOverread.
Proof.
  apply (qmi_rx_overreads (fun _ => true) ex_params ex_nd2 (ex_vnd false 0)); vm_compute; congruence.
Defined.
