(* ===== verification/Mbim.v ===== *)
(** * MBIM framing

    Models the MBIM headers and the receive handler of
    src/gl-feed/kernel/pcie_mhi/src/devices/mhi_netdev_quectel.c: [add_mbim_hdr]
    (662-718) and [rmnet_mbim_rx_handler] (1370-1523).  A frame is a transfer
    header, a chain of datagram tables and the datagrams they point to, all
    integers little-endian.  [qmode] is the module parameter [qmap_mode]. *)

From S2P Require Import Prelude CLib Netdev Qmap.

Definition USB_CDC_NCM_NTH16_SIGN : Z := 0x484D434E.
Definition USB_CDC_MBIM_NDP16_IPS_SIGN : Z := 0x00535049.
Definition USB_CDC_MBIM_NDP16_DSS_SIGN : Z := 0x00535344.
Definition sizeof_nth16 : Z := 12.
Definition sizeof_ndp16 : Z := 8.
Definition sizeof_dpe16 : Z := 4.
Definition sizeof_mhi_mbim_hdr : Z := 28.

Definition le16 (x : Z) : list Z := [Z.land x 0xFF; Z.land (Z.shiftr x 8) 0xFF].
Definition le32 (x : Z) : list Z := le16 (Z.land x 0xFFFF) ++ le16 (Z.land (Z.shiftr x 16) 0xFFFF).
Definition get_le16 (d : list Z) (i : Z) : Z := get_be16 (byte d (i + 1)) (byte d i).
Definition get_le32 (d : list Z) (i : Z) : Z := Z.lor (Z.shiftl (get_le16 d (i + 2)) 16) (get_le16 d i).

(** ** The header of a transmitted packet *)

(** The session of an interface: with several interfaces the first is session 1. *)
Definition mbim_tci (qmode mux_id : Z) : Z := u16 (mux_id + (if 1 <? qmode then 1 else 0)).

(** [seq] are the two bytes that were in the place of the sequence number,
    which is filled in later by [mhi_netdev_xmit]. *)
Definition mbim_hdr (qmode mux_id len : Z) (seq : list Z) : list Z :=
  le32 USB_CDC_NCM_NTH16_SIGN ++ le16 sizeof_nth16 ++ seq ++ le16 (u16 (len + sizeof_mhi_mbim_hdr)) ++
  le16 sizeof_nth16 ++
  ztake 3 (le32 USB_CDC_MBIM_NDP16_IPS_SIGN) ++ [u8 (mbim_tci qmode mux_id)] ++
  le16 (sizeof_ndp16 + sizeof_dpe16 * 2) ++ le16 0 ++
  le16 sizeof_mhi_mbim_hdr ++ le16 (u16 len) ++ le16 0 ++ le16 0.

Definition add_mbim_hdr (qmode : Z) (seq : list Z) (s : sk_buff) (mux_id : Z) : option sk_buff :=
  if headroom s <? sizeof_mhi_mbim_hdr then None
  else skb_push s (mbim_hdr qmode mux_id (zlen (skb_data s)) seq).

(** ** The receive handler *)

(** A table of datagrams: the loop goes on with the next table, ends
    ([error]), or accessed memory outside the frame. *)
Inductive dpe_result :=
| DpeNext (n : mhi_netdev) (chain : list rx_pkt) (k : nat)
| DpeError (n : mhi_netdev) (chain : list rx_pkt)
| DpeOverread.

(** [x] datagrams are left, the entry of the next one is at [at_]; the packets
    go to interface [i]. *)
Fixpoint dpe_loop (x : nat) (at_ : Z) (alloc : nat -> bool) (k : nat) (i : Z) (d : list Z)
    (n : mhi_netdev) (chain : list rx_pkt) : dpe_result :=
  match x with
  | O => DpeNext n chain k
  | S x =>
      if zlen d <? at_ + sizeof_dpe16 then DpeOverread
      else
        let offset := get_le16 d at_ in
        let skb_len := get_le16 d (at_ + 2) in
        if (offset =? 0) || (skb_len =? 0) then DpeNext n chain k
        else if (zlen d <? offset + skb_len) || (n_rx_max n <? skb_len) then DpeError n chain
        else if negb (alloc k) then DpeError (set_n_alloc_failed n (u32 (n_alloc_failed n + 1))) chain
        else
          match ip_protocol (byte d offset) with
          | None => DpeError n chain
          | Some protocol =>
              match vnd_at n i with
              | Some (Some v) =>
                  let p := RxPkt i protocol (rx_header v protocol) (ztake skb_len (zdrop offset d)) in
                  dpe_loop x (at_ + sizeof_dpe16) alloc (S k) i d
                           (put_vnd n i (rmnet_vnd_upate_rx_stats v 1 skb_len)) (chain ++ [p])
              | _ => DpeOverread
              end
          end
  end.

(** The session of a datagram table. *)
Definition ndp_tci (d : list Z) (o : Z) : option Z :=
  let sign := Z.land (get_le32 d o) 0x00FFFFFF in
  if sign =? USB_CDC_MBIM_NDP16_IPS_SIGN then Some (byte d (o + 3))
  else if sign =? USB_CDC_MBIM_NDP16_DSS_SIGN then Some (byte d (o + 3) + 256)
  else None.

(** The index of the session's interface in the table, or no such session. *)
Definition mbim_if (qmode tci mux : Z) : option Z :=
  if ((qmode =? 1) && negb (tci =? mux)) || ((1 <? qmode) && (qmode <? u32 (tci - mux))) then None
  else Some (if qmode =? 1 then 0 else u32 (tci - 1 - mux)).

(** [while (ndpoffset > 0)]. *)
Fixpoint ndp_loop (fuel : nat) (qmode : Z) (alloc : nat -> bool) (k : nat) (d : list Z) (ndpoffset : Z)
    (n : mhi_netdev) (chain : list rx_pkt) : rx_result :=
  if ndpoffset <=? 0 then RxDone n chain
  else
    match fuel with
    | O => RxNoFuel
    | S fuel =>
        if zlen d <? ndpoffset + sizeof_ndp16 then RxDone n chain
        else
          let wLength := get_le16 d (ndpoffset + 4) in
          if wLength <? 0x10 then RxDone n chain
          else
            let nframes := (wLength - sizeof_ndp16) / sizeof_dpe16 in
            if zlen d <? sizeof_ndp16 + nframes * sizeof_dpe16 then RxDone n chain
            else
              match ndp_tci d ndpoffset with
              | None => RxDone n chain
              | Some tci =>
                  match mbim_if qmode tci (n_mbim_mux_id n) with
                  | None => RxDone n chain
                  | Some i =>
                      match vnd_at n i with
                      | None => RxOverread
                      | Some _ =>
                          match dpe_loop (Z.to_nat nframes) (ndpoffset + sizeof_ndp16) alloc k i d n chain with
                          | DpeNext n chain k =>
                              ndp_loop fuel qmode alloc k d (get_le16 d (ndpoffset + 6)) n chain
                          | DpeError n chain => RxDone n chain
                          | DpeOverread => RxOverread
                          end
                      end
                  end
              end
    end.

Definition rmnet_mbim_rx_handler (fuel : nat) (qmode : Z) (alloc : nat -> bool) (k : rx_params)
    (n : mhi_netdev) (d : list Z) : rx_result :=
  let r :=
    if zlen d <? sizeof_nth16 + sizeof_ndp16 then RxDone n []
    else if negb (get_le32 d 0 =? USB_CDC_NCM_NTH16_SIGN) then RxDone n []
    else if n_rx_max n <? get_le16 d 8 then RxDone n []
    else
      let n := set_n_rx_seq n (u16 (get_le16 d 6 + 1)) in
      ndp_loop fuel qmode alloc 0 d (get_le16 d 10) n [] in
  match r with
  | RxDone n chain => RxDone (deliver_all k n chain) chain
  | r => r
  end.

(** ** Reading the header back *)

Lemma sign_ips t : in_u 8 t ->
  Z.land (Z.lor (Z.shiftl (get_be16 t 0x53) 16) (get_be16 0x50 0x49)) 0x00FFFFFF = USB_CDC_MBIM_NDP16_IPS_SIGN.
Proof.
  intros Ht.
  assert (Hall : forallb (fun t => Z.land (Z.lor (Z.shiftl (get_be16 t 0x53) 16) (get_be16 0x50 0x49)) 0x00FFFFFF
                                   =? USB_CDC_MBIM_NDP16_IPS_SIGN) (seqZ 0 256) = true) by (vm_compute; reflexivity).
  rewrite forallb_forall in Hall. apply Z.eqb_eq, Hall, list_elem_of_In, elem_of_seqZ. unfold in_u in Ht. lia.
Qed.

Lemma ztake_all {A} (l : list A) : ztake (zlen l) l = l.
Proof. unfold ztake, zlen. rewrite Nat2Z.id. apply firstn_all. Qed.

Section Header.
Context (qmode mux_id : Z) (a b : Z) (data : list Z).
Context (Hlen : 0 < zlen data) (Hmax : zlen data + sizeof_mhi_mbim_hdr < 2 ^ 16).
Let t := u8 (mbim_tci qmode mux_id).
Let d := mbim_hdr qmode mux_id (zlen data) [a; b] ++ data.

Lemma hdr_total : zlen d = sizeof_mhi_mbim_hdr + zlen data.
Proof using. subst d. rewrite zlen_app. reflexivity. Qed.

Lemma hdr_block : get_le16 d 8 = zlen data + sizeof_mhi_mbim_hdr.
Proof using Hlen Hmax.
  rewrite <- (wrap_small 16 (zlen data + sizeof_mhi_mbim_hdr)) by (unfold in_u, sizeof_mhi_mbim_hdr in *; lia).
  rewrite <- (be16_read (u16 (zlen data + sizeof_mhi_mbim_hdr))) by (apply wrap_in_u; lia). reflexivity.
Qed.

Lemma hdr_datagram : get_le16 d 22 = zlen data.
Proof using Hlen Hmax.
  rewrite <- (wrap_small 16 (zlen data)) by (unfold in_u, sizeof_mhi_mbim_hdr in *; lia).
  rewrite <- (be16_read (u16 (zlen data))) by (apply wrap_in_u; lia). reflexivity.
Qed.

Lemma hdr_tci : ndp_tci d 12 = Some t.
Proof using.
  unfold ndp_tci.
  change (get_le32 d 12) with (Z.lor (Z.shiftl (get_be16 t 0x53) 16) (get_be16 0x50 0x49)).
  rewrite sign_ips by (apply wrap_in_u; lia). reflexivity.
Qed.

Lemma hdr_payload : zdrop 28 d = data.
Proof using. subst d. by apply zdrop_app. Qed.

Lemma hdr_first : byte d 28 = byte data 0.
Proof using. unfold byte. subst d. by rewrite zget_app_r. Qed.

End Header.

(** The session of interface [i] leads back to it. *)
Lemma mbim_if_tci qmode mux i :
  1 <= qmode -> 0 <= i < qmode -> 0 <= mux -> mux + i + 1 < 256 ->
  mbim_if qmode (u8 (mbim_tci qmode (mux + i))) mux = Some i.
Proof.
  intros Hq Hi Hm Hb. unfold mbim_if, mbim_tci.
  assert (Hu : forall x, 0 <= x < 256 -> u8 (u16 x) = x).
  { intros x Hx. rewrite (wrap_small 16) by (unfold in_u; lia). apply wrap_small. unfold in_u. lia. }
  destruct (Z.ltb_spec 1 qmode).
  - rewrite Hu by lia. replace (mux + i + 1 - mux) with (i + 1) by lia.
    replace (mux + i + 1 - 1 - mux) with i by lia. rewrite !(wrap_small 32) by (unfold in_u; lia).
    destruct (Z.eqb_spec qmode 1); [lia|]. destruct (Z.ltb_spec qmode (i + 1)); [lia|done].
  - assert (qmode = 1) as -> by lia. assert (i = 0) as -> by lia.
    rewrite !Z.add_0_r, Hu by lia. rewrite (Z.eqb_refl mux). reflexivity.
Qed.

(** ** Theorems *)

(** C38. Round trip: a packet of any existing interface framed by
    [add_mbim_hdr] and fed to the receive handler comes out as it went in, on
    the same interface, and is the only one; the sequence number expected next
    is the one received plus one. *)
Theorem mbim_roundtrip qmode alloc k n i v proto a b s s' :
  let data := skb_data s in
  1 <= qmode -> 0 <= i < qmode -> 0 <= n_mbim_mux_id n -> n_mbim_mux_id n + i + 1 < 256 ->
  vnd_at n i = Some (Some v) -> 0 < zlen data -> zlen data + sizeof_mhi_mbim_hdr < 2 ^ 16 ->
  zlen data + sizeof_mhi_mbim_hdr <= n_rx_max n -> ip_protocol (byte data 0) = Some proto -> alloc O = true ->
  add_mbim_hdr qmode [a; b] s (n_mbim_mux_id n + i) = Some s' ->
  exists n', rmnet_mbim_rx_handler 1 qmode alloc k n (skb_data s') =
      RxDone n' [RxPkt i proto (rx_header v proto) data] /\
    n_log n' = n_log n ++ [stack_event k (RxPkt i proto (rx_header v proto) data)] /\
    n_rx_seq n' = u16 (get_be16 b a + 1).
Proof.
  intros data Hq Hi Hm Hb Hv Hl Hmax Hrx Hip Ha. unfold add_mbim_hdr, skb_push.
  destruct (headroom s <? sizeof_mhi_mbim_hdr); [done|]. split_match; [done|].
  intros Hs. set (mux := n_mbim_mux_id n + i) in *.
  assert (Hd : skb_data s' = mbim_hdr qmode mux (zlen data) [a; b] ++ data) by (by injection Hs as <-).
  rewrite Hd. clear Hs Hd. set (d := mbim_hdr qmode mux (zlen data) [a; b] ++ data).
  pose proof (hdr_total qmode mux a b data) as Htot. fold d in Htot.
  unfold rmnet_mbim_rx_handler. unfold sizeof_mhi_mbim_hdr in *.
  rewrite (proj2 (Z.ltb_ge (zlen d) (sizeof_nth16 + sizeof_ndp16)))
    by (rewrite Htot; unfold sizeof_nth16, sizeof_ndp16; lia).
  change (get_le32 d 0 =? USB_CDC_NCM_NTH16_SIGN) with true. cbn [negb].
  pose proof (hdr_block qmode mux a b data Hl Hmax) as Hblk. fold d in Hblk. rewrite Hblk.
  rewrite (proj2 (Z.ltb_ge (n_rx_max n) _)) by (unfold sizeof_mhi_mbim_hdr; lia).
  change (get_le16 d 6) with (get_be16 b a). change (get_le16 d 10) with 12.
  set (n1 := set_n_rx_seq n _).
  cbn [ndp_loop]. change (12 <=? 0) with false. cbn iota.
  rewrite (proj2 (Z.ltb_ge (zlen d) (12 + sizeof_ndp16))) by (rewrite Htot; unfold sizeof_ndp16; lia).
  change (get_le16 d (12 + 4)) with 16. change (16 <? 0x10) with false. cbn iota.
  change ((16 - sizeof_ndp16) / sizeof_dpe16) with 2.
  rewrite (proj2 (Z.ltb_ge (zlen d) (sizeof_ndp16 + 2 * sizeof_dpe16)))
    by (rewrite Htot; unfold sizeof_ndp16, sizeof_dpe16; lia).
  pose proof (hdr_tci qmode mux a b data) as Htci. fold d in Htci. rewrite Htci.
  change (n_mbim_mux_id n1) with (n_mbim_mux_id n). subst mux. rewrite mbim_if_tci by done.
  change (vnd_at n1 i) with (vnd_at n i). rewrite Hv.
  change (Z.to_nat 2) with 2%nat. cbn [dpe_loop].
  rewrite (proj2 (Z.ltb_ge (zlen d) (12 + sizeof_ndp16 + sizeof_dpe16)))
    by (rewrite Htot; unfold sizeof_ndp16, sizeof_dpe16; lia).
  change (get_le16 d (12 + sizeof_ndp16)) with 28.
  change (12 + sizeof_ndp16 + 2) with 22.
  pose proof (hdr_datagram qmode (n_mbim_mux_id n + i) a b data Hl Hmax) as Hdg. fold d in Hdg. rewrite Hdg.
  change (28 =? 0) with false. rewrite (proj2 (Z.eqb_neq (zlen data) 0)) by lia. cbn [orb].
  rewrite (proj2 (Z.ltb_ge (zlen d) (28 + zlen data))) by lia.
  change (n_rx_max n1) with (n_rx_max n). rewrite (proj2 (Z.ltb_ge (n_rx_max n) (zlen data))) by lia.
  cbn [orb]. rewrite Ha. cbn [negb].
  pose proof (hdr_first qmode (n_mbim_mux_id n + i) a b data) as Hfst. fold d in Hfst. rewrite Hfst, Hip.
  change (vnd_at n1 i) with (vnd_at n i). rewrite Hv.
  rewrite (proj2 (Z.ltb_ge (zlen d) (12 + sizeof_ndp16 + sizeof_dpe16 + sizeof_dpe16)))
    by (rewrite Htot; unfold sizeof_ndp16, sizeof_dpe16; lia).
  change (get_le16 d (12 + sizeof_ndp16 + sizeof_dpe16)) with 0. cbn [Z.eqb orb].
  change (get_le16 d (12 + 6)) with 0. cbn [Z.leb Z.compare].
  pose proof (hdr_payload qmode (n_mbim_mux_id n + i) a b data) as Hpay. fold d in Hpay. rewrite Hpay.
  rewrite (ztake_all data). cbn [app]. set (p := RxPkt i proto _ _).
  eexists. split; [reflexivity|]. unfold deliver_all. cbn [foldl].
  assert (Hex : if_exists (put_vnd n1 i (rmnet_vnd_upate_rx_stats v 1 (zlen data))) p).
  { apply (if_exists_same n1); [by apply (same_ifs_put _ _ v)|]. by exists v. }
  destruct (deliver_one k _ _ Hex) as [Hlog _]. split; [exact Hlog|].
  unfold qmap_rx_deliver. by repeat split_match.
Qed.

Definition ex_mbim : sk_buff := Skb 32 [0x45; 0; 0; 4] [].

Lemma mbim_roundtrip_witness : exists s' n',
  add_mbim_hdr 2 [7; 0] ex_mbim 1 = Some s' /\
  rmnet_mbim_rx_handler 1 2 (fun _ => true) ex_params ex_nd2 (skb_data s') =
    RxDone n' [RxPkt 1 ETH_P_IP (Some [1; 2; 3; 4; 5; 6; 2; 0x50; 0xf3; 0; 0; 0; 0x08; 0x00]) [0x45; 0; 0; 4]] /\
  n_rx_seq n' = 8.
Proof.
  destruct (add_mbim_hdr 2 [7; 0] ex_mbim 1) as [s'|] eqn:E; [|exfalso; revert E; vm_compute; discriminate].
  apply (mbim_roundtrip 2 (fun _ => true) ex_params ex_nd2 1 (ex_vnd true 1) ETH_P_IP 7 0 ex_mbim s') in E as H;
    [|lia|lia|vm_compute; congruence|vm_compute; reflexivity|reflexivity|reflexivity|reflexivity
     |vm_compute; congruence|reflexivity|reflexivity].
  destruct H as (n' & H & _ & Hs). exists s', n'. split_and!; [reflexivity|exact H|exact Hs].
Defined.

(** A frame of 28 bytes: one table with no datagrams whose successor is the
    table itself. *)
Definition mbim_loop_frame (session : Z) : list Z :=
  le32 USB_CDC_NCM_NTH16_SIGN ++ le16 12 ++ le16 0 ++ le16 28 ++ le16 12 ++
  ztake 3 (le32 USB_CDC_MBIM_NDP16_IPS_SIGN) ++ [session] ++ le16 16 ++ le16 12 ++
  le16 0 ++ le16 0 ++ le16 0 ++ le16 0.

(** A datagram table that names itself as its successor keeps the handler
    busy for ever: nothing counts the tables of a frame. *)
Theorem mbim_rx_diverges qmode alloc k n i :
  in_u 8 (n_mbim_mux_id n + i) -> mbim_if qmode (n_mbim_mux_id n + i) (n_mbim_mux_id n) = Some 0 ->
  is_Some (vnd_at n 0) -> 28 <= n_rx_max n ->
  forall fuel, rmnet_mbim_rx_handler fuel qmode alloc k n (mbim_loop_frame (n_mbim_mux_id n + i)) = RxNoFuel.
Proof.
  intros Hu Hif [o Hv] Hrx fuel. unfold rmnet_mbim_rx_handler.
  set (t := n_mbim_mux_id n + i) in *. set (d := mbim_loop_frame t).
  change (zlen d <? sizeof_nth16 + sizeof_ndp16) with false.
  change (get_le32 d 0 =? USB_CDC_NCM_NTH16_SIGN) with true. cbn [negb].
  change (get_le16 d 8) with 28. rewrite (proj2 (Z.ltb_ge (n_rx_max n) 28)) by lia.
  change (get_le16 d 10) with 12. set (n1 := set_n_rx_seq n _).
  assert (H : forall m k, ndp_loop m qmode alloc k d 12 n1 [] = RxNoFuel).
  { intros m. induction m as [|m IH]; intros k'; cbn [ndp_loop]; change (12 <=? 0) with false; cbn iota; [done|].
    change (zlen d <? 12 + sizeof_ndp16) with false. change (get_le16 d (12 + 4)) with 16.
    change (16 <? 0x10) with false. change ((16 - sizeof_ndp16) / sizeof_dpe16) with 2.
    change (zlen d <? sizeof_ndp16 + 2 * sizeof_dpe16) with false. cbn iota.
    assert (Ht : ndp_tci d 12 = Some t).
    { unfold ndp_tci. change (get_le32 d 12) with (Z.lor (Z.shiftl (get_be16 t 0x53) 16) (get_be16 0x50 0x49)).
      rewrite sign_ips by done. reflexivity. }
    rewrite Ht. change (n_mbim_mux_id n1) with (n_mbim_mux_id n). rewrite Hif.
    change (vnd_at n1 0) with (vnd_at n 0). rewrite Hv. change (Z.to_nat 2) with 2%nat. cbn [dpe_loop].
    change (zlen d <? 12 + sizeof_ndp16 + sizeof_dpe16) with false.
    change (get_le16 d (12 + sizeof_ndp16)) with 0. cbn [Z.eqb orb]. change (get_le16 d (12 + 6)) with 12.
    apply IH. }
  by rewrite H.
Qed.

Lemma mbim_rx_diverges_witness :
  rmnet_mbim_rx_handler 1000 2 (fun _ => true) ex_params ex_nd2 (mbim_loop_frame 1) = RxNoFuel.
Proof.
  apply (mbim_rx_diverges 2 (fun _ => true) ex_params ex_nd2 1);
    [vm_compute; intuition congruence|reflexivity|by eexists|vm_compute; congruence].
Defined.

(** With several interfaces session 0 passes the check of the session
    number, and its interface is looked up outside the table. *)
Theorem mbim_session_0_outside fuel qmode alloc k n :
  1 < qmode < 2 ^ 32 -> n_mbim_mux_id n = 0 -> zlen (n_vnds n) = 8 -> 28 <= n_rx_max n ->
  mbim_if qmode 0 0 = Some (2 ^ 32 - 1) /\
  rmnet_mbim_rx_handler (S fuel) qmode alloc k n (mbim_loop_frame 0) = RxOverread.
Proof.
  intros Hq Hm Hl Hrx.
  assert (Hif : mbim_if qmode 0 0 = Some (2 ^ 32 - 1)).
  { unfold mbim_if. destruct (Z.eqb_spec qmode 1); [lia|]. change (u32 (0 - 0)) with 0.
    destruct (Z.ltb_spec qmode 0); [lia|]. rewrite !andb_false_r. reflexivity. }
  split; [done|]. unfold rmnet_mbim_rx_handler. set (d := mbim_loop_frame 0).
  change (zlen d <? sizeof_nth16 + sizeof_ndp16) with false.
  change (get_le32 d 0 =? USB_CDC_NCM_NTH16_SIGN) with true. cbn [negb].
  change (get_le16 d 8) with 28. rewrite (proj2 (Z.ltb_ge (n_rx_max n) 28)) by lia.
  change (get_le16 d 10) with 12. set (n1 := set_n_rx_seq n _). cbn [ndp_loop].
  change (12 <=? 0) with false. change (zlen d <? 12 + sizeof_ndp16) with false.
  change (get_le16 d (12 + 4)) with 16. change (16 <? 0x10) with false.
  change ((16 - sizeof_ndp16) / sizeof_dpe16) with 2.
  change (zlen d <? sizeof_ndp16 + 2 * sizeof_dpe16) with false. cbn iota.
  change (ndp_tci d 12) with (Some 0). change (n_mbim_mux_id n1) with (n_mbim_mux_id n). rewrite Hm, Hif.
  assert (Hv : vnd_at n1 (2 ^ 32 - 1) = None).
  { change (vnd_at n1 (2 ^ 32 - 1)) with (vnd_at n (2 ^ 32 - 1)). unfold vnd_at.
    destruct (zget (n_vnds n) (2 ^ 32 - 1)) eqn:E; [|done].
    assert (Hs : is_Some (zget (n_vnds n) (2 ^ 32 - 1))) by by eexists. apply zget_is_Some in Hs. lia. }
  by rewrite Hv.
Qed.

Lemma mbim_session_0_outside_witness :
  rmnet_mbim_rx_handler 1 2 (fun _ => true) ex_params ex_nd2 (mbim_loop_frame 0) = RxOverread.
Proof.
  apply (mbim_session_0_outside 0 2 (fun _ => true) ex_params ex_nd2); vm_compute; intuition congruence.
Defined.
