(* ===== verification/NetFlow.v ===== *)
(** * Transmit queues and flow control

    Models the transmit side of
    src/gl-feed/kernel/pcie_mhi/src/devices/mhi_netdev_quectel.c: the virtual
    interface ([rmnet_vnd_start_xmit] with the bridge-mode fix-up), the parent
    interface ([mhi_netdev_open], [mhi_netdev_xmit], [mhi_netdev_xfer_ul_cb]),
    the channel reset, the removal and the link-state attribute.  The theorems
    are about everything that stops and wakes a queue, in any order: the
    modem's flow control, the full ring, completions, the deadline, a reset. *)

From S2P Require Import Prelude CLib Netdev Qmap Mbim.

Definition NETDEV_TX_OK : Z := 0.
Definition NETDEV_TX_BUSY : Z := 0x10.

(** ** Bridge mode *)

Definition slice (d : list Z) (at_ len : Z) : list Z := ztake len (zdrop at_ d).

Definition ipv4_bytes (x : Z) : list Z :=
  [Z.land (Z.shiftr x 24) 0xFF; Z.land (Z.shiftr x 16) 0xFF; Z.land (Z.shiftr x 8) 0xFF; Z.land x 0xFF].

(** The ARP packet is at offset 14; [None] when it is cut short.  [arp_ok] is
    the outcome of [arp_create]. *)
Definition bridge_arp_reply (arp_ok : bool) (d : list Z) (bridge_ipv4 : Z) (n : mhi_netdev) : option mhi_netdev :=
  if zlen d <? 22 then None
  else if bool_decide (slice d 14 8 = [0; 1; 8; 0; 6; 4; 0; 1]) then
    if zlen d <? 42 then None
    else
      let sha := slice d 22 6 in
      let sip := slice d 28 4 in
      let tip := slice d 38 4 in
      let ipv4 := ipv4_bytes bridge_ipv4 in
      if (byte tip 0 =? byte ipv4 0) && (byte tip 1 =? byte ipv4 1)
         && (Z.land (byte tip 2) 0xFC =? Z.land (byte ipv4 2) 0xFC) && negb (byte tip 3 =? byte ipv4 3) && arp_ok
      then Some (nd_emit (NdArpReply sip tip sha) n) else Some n
  else Some n.

(** The device and whether the packet goes on; a DHCP request teaches the
    interface the address of the bridged host. *)
Definition bridge_mode_tx_fixup (arp_ok : bool) (i : Z) (v : vnd) (d : list Z) (n : mhi_netdev)
  : option (mhi_netdev * bool) :=
  if zlen d <? ETH_HLEN then None
  else
    let h_source := slice d 6 6 in
    let h_proto := get_be16 (byte d 12) (byte d 13) in
    if h_proto =? ETH_P_ARP then
      if negb (v_bridge_ipv4 v =? 0)
      then option_map (fun n => (n, false)) (bridge_arp_reply arp_ok d (v_bridge_ipv4 v) n)
      else Some (n, false)
    else if (h_proto =? ETH_P_IP) && (zlen d <? 34) then None
    else
      let dhcp := (h_proto =? ETH_P_IP) && (byte d 23 =? 17) && bool_decide (slice d 26 4 = [0; 0; 0; 0])
                  && bool_decide (slice d 30 4 = [0xFF; 0xFF; 0xFF; 0xFF]) in
      let v := if dhcp then set_v_bridge_mac v h_source else v in
      Some (put_vnd n i v, bool_decide (h_source = v_bridge_mac v)).

(** ** The virtual interface *)

Definition rmnet_vnd_upate_tx_stats (v : vnd) (packets bytes : Z) : vnd :=
  set_v_tx_bytes (set_v_tx_packets v (u64 (v_tx_packets v + packets))) (u64 (v_tx_bytes v + bytes)).

Definition upd_vnd (f : vnd -> vnd) (i : Z) (n : mhi_netdev) : mhi_netdev :=
  match vnd_at n i with Some (Some v) => put_vnd n i (f v) | _ => n end.

(** The header for the device's protocol: [Some None] drops the packet, [None]
    is the panic of [skb_push]. *)
Definition vnd_header (qmode : Z) (seq : list Z) (n : mhi_netdev) (v : vnd) (s : sk_buff)
  : option (option sk_buff) :=
  if bool_decide (n_type n = MHI_NET_MBIM) then Some (add_mbim_hdr qmode seq s (v_mux_id v))
  else if v_version v =? 5 then option_map Some (add_qhdr s (v_mux_id v))
  else if v_version v =? 9 then option_map Some (add_qhdr_v5 s (v_mux_id v))
  else Some None.

(** What the environment answers during a transmission. *)
Record tx_env := TxEnv { tx_arp_ok : bool; tx_seq_bytes : list Z; tx_result : Z }.

(** The packet after the Ethernet header has been dealt with: [None] inside
    means it is dropped. *)
Definition vnd_strip (e : tx_env) (i : Z) (v : vnd) (s : sk_buff) (n : mhi_netdev)
  : option (mhi_netdev * option sk_buff) :=
  if v_ether v then
    let r := if v_bridge v then bridge_mode_tx_fixup (tx_arp_ok e) i v (skb_data s) n else Some (n, true) in
    match r with
    | None => None
    | Some (n, false) => Some (n, None)
    | Some (n, true) =>
        if zlen (skb_data s) <? ETH_HLEN then Some (n, None)
        else Some (n, Some (Skb (headroom s + ETH_HLEN) (zdrop ETH_HLEN (skb_data s)) (skb_tail s)))
    end
  else Some (n, Some s).

Definition rmnet_vnd_start_xmit (qmode : Z) (e : tx_env) (i : Z) (s : sk_buff) (n : mhi_netdev)
  : option (Z * mhi_netdev) :=
  match vnd_at n i with
  | Some (Some v) =>
      if n_stopped n then Some (NETDEV_TX_BUSY, upd_vnd stop_vnd i n)
      else
        match vnd_strip e i v s n with
        | None => None
        | Some (n, None) => Some (NETDEV_TX_OK, nd_emit (NdFree (skb_data s)) n)
        | Some (n, Some s1) =>
            match vnd_header qmode (tx_seq_bytes e) n v s1 with
            | None => None
            | Some None => Some (NETDEV_TX_OK, nd_emit (NdFree (skb_data s)) n)
            | Some (Some s2) =>
                let n := nd_emit (NdParent (skb_data s2)) n in
                let f v := if tx_result e =? 0 then rmnet_vnd_upate_tx_stats v 1 (zlen (skb_data s))
                           else set_v_tx_errors v (v_tx_errors v + 1) in
                Some (tx_result e, upd_vnd f i n)
            end
        end
  | _ => None
  end.

Definition rmnet_vnd_open (up : bool) (i : Z) (n : mhi_netdev) : Z * mhi_netdev :=
  if negb up then (- ENETDOWN, n)
  else (0, if n_carrier n then upd_vnd (fun v => set_v_carrier v true) i n else n).

Definition rmnet_vnd_stop (i : Z) (n : mhi_netdev) : Z * mhi_netdev :=
  (0, upd_vnd (fun v => set_v_carrier v false) i n).

(** ** The parent interface *)

Definition mhi_netdev_open (n : mhi_netdev) : mhi_netdev := set_n_stopped n (negb (n_ul_chan n)).

(** [free] is the number of free descriptors, [res] the result of queueing;
    [map] says that the packet carries the protocol ETH_P_MAP. *)
Definition mhi_netdev_xmit (map : bool) (d : list Z) (free res : Z) (n : mhi_netdev) : mhi_netdev :=
  if (bool_decide (n_type n = MHI_NET_RMNET) || bool_decide (n_type n = MHI_NET_MBIM)) && negb map
  then nd_emit (NdFree d) n
  else
    let mbim := bool_decide (n_type n = MHI_NET_MBIM) in
    let d := if mbim then ztake 6 d ++ le16 (n_tx_seq n) ++ zdrop 8 d else d in
    let n := if mbim then set_n_tx_seq n (u16 (n_tx_seq n + 1)) else n in
    let n := if free <? 16 then set_n_stopped (over_vnds (fun _ => stop_vnd) n) true else n in
    if negb (res =? 0) then set_n_tx_errors (nd_emit (NdFree d) n) (n_tx_errors n + 1)
    else nd_emit (NdQueue d) n.

(** [bound]: the buffer belongs to this device. *)
Definition mhi_netdev_xfer_ul_cb (bound : bool) (status free : Z) (d : list Z) (n : mhi_netdev) : mhi_netdev :=
  if negb bound then n
  else
    let n :=
      if (status =? 0) && n_stopped n && n_enabled n && (32 <? free)
      then over_vnds (fun i v => if held (n_flow_control n) i then v else if v_stopped v then wake_vnd v else v)
                     (set_n_stopped n false)
      else n in
    nd_emit (NdFree d) n.

(** ** Reset, removal, link state *)

Definition mhi_netdev_pm_hold (n : mhi_netdev) : mhi_netdev :=
  if n_pm_ref_held n then n else set_n_pm_ref_held (nd_emit NdPmGet n) true.

Definition mhi_netdev_pm_release (n : mhi_netdev) : mhi_netdev :=
  if n_pm_ref_held n then nd_emit NdPmPut (set_n_pm_ref_held n false) else n.

(** [ret] is the result of starting the channels again. *)
Definition mhi_netdev_debugfs_trigger_reset (ret : Z) (n : mhi_netdev) : Z * mhi_netdev :=
  let n := mhi_netdev_pm_release (set_n_enabled n false) in
  let n := set_n_fc_pending (set_n_flow_control (set_n_fc_armed n false) 0) 0 in
  if negb (ret =? 0) then (ret, n)
  else
    let n := mhi_netdev_pm_hold (set_n_enabled n true) in
    (0, over_vnds (fun _ => wake_vnd) (set_n_stopped n false)).

Definition mhi_netdev_remove (n : mhi_netdev) : mhi_netdev :=
  let n := mhi_netdev_pm_release (set_n_enabled n false) in
  let n := set_n_fc_armed n false in
  set_n_vnds n (imap (fun i o => if Z.of_nat i <? n_qmap_mode n then None else o) (n_vnds n)).

(** The value written to the attribute: [k] sets and [0x80 + k] clears the
    link of interface [k - 1]; with one interface any value but 0 sets it. *)
Definition link_state_store (link_state : Z) (n : mhi_netdev) : mhi_netdev :=
  let old_link := n_link_state n in
  let many := 1 <? n_qmap_mode n in
  let offset_id := if many then u32 (Z.land link_state 0xF - 1) else 0 in
  let new_link :=
    if many then
      if (0 <? link_state) && (link_state <=? n_qmap_mode n) then Z.lor old_link (Z.shiftl 1 offset_id)
      else if (0x80 <? link_state) && (link_state <=? 0x80 + n_qmap_mode n)
      then Z.land old_link (Z.lnot (Z.shiftl 1 offset_id))
      else old_link
    else if link_state =? 0 then 0 else 1 in
  let n := set_n_link_state n new_link in
  if old_link =? new_link then n
  else
    let n := set_n_carrier n (negb (new_link =? 0)) in
    upd_vnd (fun v => set_v_carrier v (held new_link offset_id)) offset_id n.

(** ** Lookups *)

Lemma held_testbit fc i : 0 <= i -> held fc i = Z.testbit fc i.
Proof.
  intros Hi. unfold held. rewrite Z.shiftl_1_l. destruct (Z.testbit fc i) eqn:E.
  - destruct (Z.eqb_spec (Z.land fc (2 ^ i)) 0) as [H|]; [|done].
    rewrite land_zero_testbit in H. specialize (H i Hi). by rewrite E, Z.pow2_bits_true in H.
  - rewrite (proj2 (Z.eqb_eq _ _)); [done|]. apply land_zero_testbit. intros j Hj.
    destruct (Z.eq_dec j i) as [->|]; [by rewrite E|]. rewrite Z.pow2_bits_false by lia. apply andb_false_r.
Qed.

Lemma held_set fc m i : 0 <= i -> 0 <= m -> held (Z.lor fc (Z.shiftl 1 m)) i = held fc i || (i =? m).
Proof.
  intros Hi Hm. rewrite !held_testbit, Z.lor_spec, Z.shiftl_1_l by done. f_equal.
  destruct (Z.eqb_spec i m) as [->|]; [by apply Z.pow2_bits_true|]. apply Z.pow2_bits_false. lia.
Qed.

Lemma held_clear fc m i :
  0 <= i -> 0 <= m -> held (Z.land fc (Z.lnot (Z.shiftl 1 m))) i = held fc i && negb (i =? m).
Proof.
  intros Hi Hm. rewrite !held_testbit, Z.land_spec, Z.lnot_spec, Z.shiftl_1_l by done. f_equal. f_equal.
  destruct (Z.eqb_spec i m) as [->|]; [by apply Z.pow2_bits_true|]. apply Z.pow2_bits_false. lia.
Qed.

Lemma held_0 i : 0 <= i -> held 0 i = false.
Proof. intros. by rewrite held_testbit, Z.testbit_0_l. Qed.

Lemma vnd_at_nonneg n i o : vnd_at n i = Some o -> 0 <= i.
Proof. unfold vnd_at, zget. destruct (Z.ltb_spec i 0); [done|]. intros. done. Qed.

Lemma vnd_at_over f n i :
  vnd_at (over_vnds f n) i =
  option_map (fun o => if i <? n_qmap_mode n then f i <$> o else o) (vnd_at n i).
Proof.
  unfold vnd_at, over_vnds, zget. cbn [n_vnds set_n_vnds]. destruct (Z.ltb_spec i 0); [done|].
  rewrite list_lookup_imap. rewrite Z2Nat.id by done. by destruct (n_vnds n !! Z.to_nat i).
Qed.

Lemma vnd_at_put n i v j : is_Some (vnd_at n i) ->
  vnd_at (put_vnd n i v) j = if j =? i then Some (Some v) else vnd_at n j.
Proof.
  intros [o Ho]. unfold vnd_at, put_vnd in *. cbn [n_vnds set_n_vnds]. unfold zget in *.
  destruct (Z.ltb_spec i 0); [done|]. apply lookup_lt_Some in Ho.
  destruct (Z.eqb_spec j i) as [->|Hne].
  - destruct (Z.ltb_spec i 0); [lia|]. by rewrite list_lookup_insert_eq.
  - destruct (Z.ltb_spec j 0); [done|]. rewrite list_lookup_insert_ne by lia. done.
Qed.

(** ** The invariant *)

(** Interface [i] of the device. *)
Definition vnd_is (n : mhi_netdev) (i : Z) (v : vnd) : Prop :=
  i < n_qmap_mode n /\ vnd_at n i = Some (Some v).

Record fc_ok (n : mhi_netdev) : Prop := {
  fo_armed : n_fc_armed n = negb (n_fc_pending n =? 0);
  fo_deadline : n_enabled n = true -> n_flow_control n <> 0 -> n_fc_pending n <> 0;
  fo_held : forall i v, vnd_is n i v -> held (n_flow_control n) i = true -> v_stopped v = true;
  fo_parent : n_enabled n = true -> forall i v, vnd_is n i v -> v_stopped v = true ->
    held (n_flow_control n) i = false -> n_stopped n = true }.

(** What the invariant looks at. *)
Definition fc_view (n : mhi_netdev) : bool * bool * Z * Z * bool * Z :=
  (n_fc_armed n, n_enabled n, n_flow_control n, n_fc_pending n, n_stopped n, n_qmap_mode n).

Definition same_stops (n n' : mhi_netdev) : Prop :=
  forall i v', vnd_at n' i = Some (Some v') -> exists v, vnd_at n i = Some (Some v) /\ v_stopped v = v_stopped v'.

(** A step that touches no queue and no flow keeps the invariant. *)
Lemma fc_ok_same n n' : fc_view n' = fc_view n -> same_stops n n' -> fc_ok n -> fc_ok n'.
Proof.
  intros Hv Hs [H1 H2 H3 H4]. injection Hv as V1 V2 V3 V4 V5 V6. split; rewrite ?V1, ?V2, ?V3, ?V4, ?V5; try done.
  - intros i v' [Hi Hv'] Hh. destruct (Hs i v' Hv') as (v & Hvv & <-). apply (H3 i v); [|done].
    split; [lia|done].
  - intros He i v' [Hi Hv'] Hst Hh. destruct (Hs i v' Hv') as (v & Hvv & E). apply (H4 He i v); [|congruence|done].
    split; [lia|done].
Qed.

Lemma same_stops_refl n n' : n_vnds n' = n_vnds n -> same_stops n n'.
Proof. intros E i v' Hv. exists v'. unfold vnd_at in *. rewrite <- E. done. Qed.

Lemma same_stops_trans a b c : same_stops a b -> same_stops b c -> same_stops a c.
Proof.
  intros H1 H2 i v Hv. destruct (H2 i v Hv) as (v1 & Hv1 & E1). destruct (H1 i v1 Hv1) as (v2 & Hv2 & E2).
  exists v2. split; [done|congruence].
Qed.

Lemma same_stops_put n i v v' :
  vnd_at n i = Some (Some v) -> v_stopped v' = v_stopped v -> same_stops n (put_vnd n i v').
Proof.
  intros Hv Hs j w Hw. rewrite vnd_at_put in Hw by (by eexists).
  destruct (Z.eqb_spec j i) as [->|]; [|by exists w]. injection Hw as <-. by exists v.
Qed.

Lemma same_stops_upd f i n : (forall v, v_stopped (f v) = v_stopped v) -> same_stops n (upd_vnd f i n).
Proof.
  intros Hf. unfold upd_vnd. destruct (vnd_at n i) as [[v|]|] eqn:E; try (by apply same_stops_refl).
  by apply (same_stops_put _ _ v).
Qed.

Lemma upd_view f i n : fc_view (upd_vnd f i n) = fc_view n.
Proof. unfold upd_vnd. by repeat split_match. Qed.

Lemma vnd_is_emit x n i v : vnd_is (nd_emit x n) i v -> vnd_is n i v.
Proof. done. Qed.

(** ** Every operation keeps it *)

Lemma over_inv f n i v' : vnd_is (over_vnds f n) i v' ->
  exists v, vnd_is n i v /\ v' = f i v.
Proof.
  intros [Hi Hv]. change (n_qmap_mode (over_vnds f n)) with (n_qmap_mode n) in Hi. rewrite vnd_at_over in Hv.
  destruct (vnd_at n i) as [[v|]|] eqn:E; cbn in Hv; try done;
    (destruct (Z.ltb_spec i (n_qmap_mode n)); [|lia]); [|done].
  injection Hv as <-. by exists v.
Qed.

Lemma timeout_ok n : fc_ok n -> fc_ok (mhi_netdev_fc_timeout n).
Proof.
  intros [H1 H2 H3 H4]. unfold mhi_netdev_fc_timeout.
  set (n0 := set_n_fc_armed _ false). change (n_enabled n0) with (n_enabled n).
  destruct (n_enabled n) eqn:He; cbn [negb].
  - split; [done|done| |].
    + intros i v Hv Hh. destruct (over_inv _ _ _ _ Hv) as (w & [_ Hw] & _).
      apply vnd_at_nonneg in Hw. change (held 0 i = true) in Hh. by rewrite held_0 in Hh.
    + intros _ i v Hv Hst _. destruct (over_inv _ _ _ _ Hv) as (w & Hw & ->).
      change (n_stopped n = true). destruct (held (n_flow_control n) i) eqn:Eh; [done|].
      by apply (H4 eq_refl i w).
  - split; [done|done| |].
    + intros i v [_ Hv] Hh. apply vnd_at_nonneg in Hv. change (held 0 i = true) in Hh. by rewrite held_0 in Hh.
    + intros E. change (n_enabled n = true) in E. congruence.
Qed.

Lemma fc_arm_spec n : n_fc_armed n = negb (n_fc_pending n =? 0) ->
  let n' := fc_arm n in
  n_fc_armed n' = negb (n_fc_pending n' =? 0) /\
  (n_enabled n = true -> n_flow_control n <> 0 -> n_fc_pending n' <> 0) /\
  n_enabled n' = n_enabled n /\ n_flow_control n' = n_flow_control n /\ n_stopped n' = n_stopped n /\
  n_qmap_mode n' = n_qmap_mode n /\ n_vnds n' = n_vnds n.
Proof.
  intros Ha. unfold fc_arm. destruct (n_flow_control n =? 0) eqn:Ef; cbn [negb].
  - apply Z.eqb_eq in Ef. destruct (n_fc_pending n =? 0) eqn:Ep; cbn [negb]; split_and!; try done. by rewrite Ep.
  - destruct (n_fc_pending n =? 0) eqn:Ep; cbn [andb].
    + destruct (n_enabled n) eqn:He; split_and!; try done. by rewrite Ep.
    + apply Z.eqb_neq in Ep as Ep'. split_and!; try done. by rewrite Ep.
Qed.

Lemma flow_control_ok d en n rc n' :
  rmnet_map_do_flow_control d en n = Some (rc, n') -> fc_ok n -> fc_ok n'.
Proof.
  unfold rmnet_map_do_flow_control. set (m := u8 _). intros Hr [H1 H2 H3 H4]. revert Hr.
  destruct (Z.leb_spec (n_qmap_mode n) m); [by intros [= <- <-]|].
  destruct (vnd_at n m) as [[w|]|] eqn:Hw; [|by intros [= <- <-]|done].
  split_match; [done|]. intros [= <- <-].
  set (fc := if en then _ else _). set (n0 := set_n_flow_control n fc).
  destruct (fc_arm_spec n0 H1) as (A1 & A2 & A3 & A4 & A5 & A6 & A7). set (n1 := fc_arm n0) in *.
  pose proof (vnd_at_nonneg _ _ _ Hw) as Hm.
  assert (Hfc : forall i, 0 <= i -> held fc i = if en then held (n_flow_control n) i && negb (i =? m)
                                                 else held (n_flow_control n) i || (i =? m)).
  { intros i Hi. subst fc. destruct en; [by apply held_clear|by apply held_set]. }
  assert (Hat : forall i, vnd_at n1 i = vnd_at n i) by (intros i; unfold vnd_at; by rewrite A7).
  assert (Hput : forall i v, vnd_is (put_vnd n1 m (rmnet_data_vnd_do_flow_control w en)) i v ->
    0 <= i /\ ((i = m /\ v_stopped v = negb en) \/ (i <> m /\ vnd_is n i v))).
  { intros i v [Hi Hv]. split; [by eapply vnd_at_nonneg|].
    change (n_qmap_mode (put_vnd n1 m _)) with (n_qmap_mode n1) in Hi. rewrite A6 in Hi.
    rewrite vnd_at_put in Hv by (rewrite Hat, Hw; by eexists).
    destruct (Z.eqb_spec i m) as [->|]; [left|right; split; [done|split; [done|by rewrite <- Hat]]].
    injection Hv as <-. by destruct en. }
  split.
  - exact A1.
  - intros He Hne. apply A2; [by rewrite <- A3|]. rewrite <- A4. exact Hne.
  - intros i v Hv Hh. change (held (n_flow_control n1) i = true) in Hh. rewrite A4 in Hh.
    destruct (Hput i v Hv) as [Hi [[-> Hs]|[Hne Hn]]]; rewrite Hfc in Hh by done.
    + destruct en; [|done]. rewrite Z.eqb_refl, andb_false_r in Hh. done.
    + rewrite (proj2 (Z.eqb_neq i m) Hne) in Hh. apply (H3 i v Hn). destruct en; cbn in Hh;
      [by rewrite andb_true_r in Hh|by rewrite orb_false_r in Hh].
  - intros He i v Hv Hs Hh. change (n_enabled n1 = true) in He. rewrite A3 in He.
    change (n_stopped n1 = true). rewrite A5.
    change (held (n_flow_control n1) i = false) in Hh. rewrite A4 in Hh.
    destruct (Hput i v Hv) as [Hi [[-> Hs']|[Hne Hn]]]; rewrite Hfc in Hh by done.
    + rewrite Hs in Hs'. destruct en; [done|]. by rewrite Z.eqb_refl, orb_true_r in Hh.
    + rewrite (proj2 (Z.eqb_neq i m) Hne) in Hh. apply (H4 He i v Hn Hs). destruct en; cbn in Hh;
      [by rewrite andb_true_r in Hh|by rewrite orb_false_r in Hh].
Qed.

Lemma command_ok alloc d n n' : rmnet_data_map_command alloc d n = Some n' -> fc_ok n -> fc_ok n'.
Proof.
  unfold rmnet_data_map_command. intros Hr Hok. revert Hr. set (n1 := if _ <? _ then _ else n).
  assert (H1 : fc_ok n1).
  { subst n1. split_match; [|done]. apply (fc_ok_same n); [done|by apply same_stops_refl|done]. }
  clearbody n1. set (r := if _ =? _ then _ else _).
  assert (H2 : forall rc n2, r = Some (rc, n2) -> fc_ok n2).
  { intros rc n2. subst r. repeat split_match; intros E2; [by eapply flow_control_ok..|].
    injection E2 as <- <-. apply (fc_ok_same n1); [done|by apply same_stops_refl|done]. }
  destruct r as [[rc n2]|]; [|done]. specialize (H2 rc n2 eq_refl).
  split_match; [|congruence]. unfold rmnet_map_send_ack.
  repeat split_match; try congruence. intros [= <-].
  apply (fc_ok_same n2); [done|by apply same_stops_refl|done].
Qed.

Lemma strip_same e i v s n n' o :
  vnd_at n i = Some (Some v) -> vnd_strip e i v s n = Some (n', o) ->
  fc_view n' = fc_view n /\ same_stops n n'.
Proof.
  intros Hv. unfold vnd_strip. destruct (v_ether v); [|intros [= <- <-]; split; [done|by apply same_stops_refl]].
  set (r := if v_bridge v then _ else _).
  assert (Hr : forall n1 k, r = Some (n1, k) -> fc_view n1 = fc_view n /\ same_stops n n1).
  { intros n1 k. subst r. destruct (v_bridge v); [|intros [= <- <-]; split; [done|by apply same_stops_refl]].
    unfold bridge_mode_tx_fixup. split_match; [done|]. split_match.
    - split_match; [|intros [= <- <-]; split; [done|by apply same_stops_refl]].
      unfold bridge_arp_reply. repeat split_match; cbn [option_map]; try done; intros [= <- <-];
        (split; [done|by apply same_stops_refl]).
    - split_match; [done|]. intros [= <- <-]. split; [done|].
      apply (same_stops_put _ _ v); [done|]. by split_match. }
  destruct r as [[n1 [|]]|]; [| |done]; specialize (Hr _ _ eq_refl).
  - split_match; by intros [= <- <-].
  - by intros [= <- <-].
Qed.

Lemma emit_ok x n : fc_ok n -> fc_ok (nd_emit x n).
Proof. intros. apply (fc_ok_same n); [done|by apply same_stops_refl|done]. Qed.

Lemma vnd_xmit_ok qmode e i s n ret n' :
  rmnet_vnd_start_xmit qmode e i s n = Some (ret, n') -> fc_ok n -> fc_ok n'.
Proof.
  unfold rmnet_vnd_start_xmit. intros Hr Hok. revert Hr.
  destruct (vnd_at n i) as [[v|]|] eqn:Hv; [|done|done].
  destruct (n_stopped n) eqn:Est.
  - intros [= <- <-]. unfold upd_vnd. rewrite Hv. destruct Hok as [H1 H2 H3 H4].
    split; [exact H1|exact H2| |intros _ j w _ _ _; exact Est].
    intros j w [Hj Hw] Hh. rewrite vnd_at_put in Hw by (by eexists).
    destruct (Z.eqb_spec j i) as [->|]; [by injection Hw as <-|by apply (H3 j w)].
  - destruct (vnd_strip e i v s n) as [[n1 o]|] eqn:Es; [|done].
    destruct (strip_same _ _ _ _ _ _ _ Hv Es) as [V1 S1].
    assert (Hok1 : fc_ok n1) by (by apply (fc_ok_same n)).
    destruct o as [s1|]; [|intros [= <- <-]; by apply emit_ok].
    destruct (vnd_header _ _ _ _ _) as [[s2|]|]; [|intros [= <- <-]; by apply emit_ok|done].
    intros [= <- <-]. set (n2 := nd_emit _ n1). apply (fc_ok_same n2); [apply upd_view| |by apply emit_ok].
    apply same_stops_upd. intros w. by split_match.
Qed.

Lemma stop_all_ok n : fc_ok n -> fc_ok (set_n_stopped (over_vnds (fun _ => stop_vnd) n) true).
Proof.
  intros [H1 H2 H3 H4]. split; [exact H1|exact H2| |done].
  intros i v Hv _. destruct (over_inv (fun _ => stop_vnd) n i v Hv) as (w & _ & ->). done.
Qed.

Lemma xmit_ok map d free res n : fc_ok n -> fc_ok (mhi_netdev_xmit map d free res n).
Proof.
  intros Hok. unfold mhi_netdev_xmit. split_match; [by apply emit_ok|].
  set (n1 := if bool_decide (n_type n = MHI_NET_MBIM) then set_n_tx_seq n _ else n).
  assert (H1 : fc_ok n1).
  { subst n1. split_match; [|done]. apply (fc_ok_same n); [done|by apply same_stops_refl|done]. }
  clearbody n1. set (n2 := if free <? 16 then _ else _).
  assert (H2 : fc_ok n2) by (subst n2; split_match; [by apply stop_all_ok|done]). clearbody n2.
  split_match; [|by apply emit_ok].
  apply (fc_ok_same (nd_emit (NdFree (if bool_decide (n_type n = MHI_NET_MBIM)
    then ztake 6 d ++ le16 (n_tx_seq n) ++ zdrop 8 d else d)) n2)); [done|by apply same_stops_refl|by apply emit_ok].
Qed.

Lemma wake_unheld_ok n : n_enabled n = true -> fc_ok n ->
  fc_ok (over_vnds (fun i v => if held (n_flow_control n) i then v else if v_stopped v then wake_vnd v else v)
                   (set_n_stopped n false)).
Proof.
  intros He [H1 H2 H3 H4]. split; [exact H1|exact H2| |].
  - intros i v Hv Hh. destruct (over_inv _ _ _ _ Hv) as (w & Hw & ->). change (held (n_flow_control n) i = true) in Hh.
    rewrite Hh. by apply (H3 i w).
  - intros _ i v Hv Hs Hh. destruct (over_inv _ _ _ _ Hv) as (w & Hw & ->).
    change (held (n_flow_control n) i = false) in Hh. rewrite Hh in Hs.
    destruct (v_stopped w) eqn:E; [done|congruence].
Qed.

Lemma ul_cb_ok bound status free d n : fc_ok n -> fc_ok (mhi_netdev_xfer_ul_cb bound status free d n).
Proof.
  intros Hok. unfold mhi_netdev_xfer_ul_cb. split_match; [done|]. apply emit_ok. split_match; [|done].
  apply wake_unheld_ok; [|done]. by zprop.
Qed.

Lemma reset_ok ret n : fc_ok (snd (mhi_netdev_debugfs_trigger_reset ret n)).
Proof.
  unfold mhi_netdev_debugfs_trigger_reset. set (n1 := set_n_fc_pending _ 0).
  assert (Hfields : n_fc_armed n1 = false /\ n_fc_pending n1 = 0 /\ n_flow_control n1 = 0 /\ n_enabled n1 = false).
  { subst n1. unfold mhi_netdev_pm_release. cbn [n_pm_ref_held set_n_enabled]. by split_match. }
  destruct Hfields as (F1 & F2 & F3 & F4). clearbody n1. split_match; cbn [snd].
  - split; rewrite ?F1, ?F2, ?F3, ?F4; [done|done| |done].
    intros i v [_ Hv] Hh. apply vnd_at_nonneg in Hv. by rewrite held_0 in Hh.
  - set (n2 := mhi_netdev_pm_hold (set_n_enabled n1 true)).
    assert (G : n_fc_armed n2 = false /\ n_fc_pending n2 = 0 /\ n_flow_control n2 = 0).
    { subst n2. unfold mhi_netdev_pm_hold. by split_match. }
    destruct G as (G1 & G2 & G3). clearbody n2.
    split.
    + change (n_fc_armed n2 = negb (n_fc_pending n2 =? 0)). by rewrite G1, G2.
    + intros _ Hne. change (n_flow_control n2 <> 0) in Hne. congruence.
    + intros i v [_ Hv] Hh. apply vnd_at_nonneg in Hv. change (held (n_flow_control n2) i = true) in Hh.
      rewrite G3 in Hh. by rewrite held_0 in Hh.
    + intros _ i v Hv Hs. destruct (over_inv _ _ _ _ Hv) as (w & _ & ->). done.
Qed.

(** ** Runs *)

(** What happens to a device's queues, one operation at a time. *)
Inductive fstep : mhi_netdev -> mhi_netdev -> Prop :=
| fs_command alloc d n n' : rmnet_data_map_command alloc d n = Some n' -> fstep n n'
| fs_timeout n : n_fc_armed n = true -> fstep n (mhi_netdev_fc_timeout n)
| fs_vnd_xmit qmode e i s n ret n' : rmnet_vnd_start_xmit qmode e i s n = Some (ret, n') -> fstep n n'
| fs_xmit map d free res n : fstep n (mhi_netdev_xmit map d free res n)
| fs_ul_cb bound status free d n : fstep n (mhi_netdev_xfer_ul_cb bound status free d n)
| fs_link v n : fstep n (link_state_store v n)
| fs_vnd_open up i n : fstep n (snd (rmnet_vnd_open up i n))
| fs_vnd_stop i n : fstep n (snd (rmnet_vnd_stop i n))
| fs_reset ret n : fstep n (snd (mhi_netdev_debugfs_trigger_reset ret n)).

Lemma fstep_ok n n' : fstep n n' -> fc_ok n -> fc_ok n'.
Proof.
  destruct 1; intros Hok.
  - by eapply command_ok.
  - by apply timeout_ok.
  - by eapply vnd_xmit_ok.
  - by apply xmit_ok.
  - by apply ul_cb_ok.
  - unfold link_state_store. set (n1 := set_n_link_state n _).
    assert (H1 : fc_ok n1) by (apply (fc_ok_same n); [done|by apply same_stops_refl|done]). clearbody n1.
    match goal with |- fc_ok (if ?b then _ else _) => destruct b end; [done|]. set (n2 := set_n_carrier n1 _).
    assert (H2 : fc_ok n2) by (apply (fc_ok_same n1); [done|by apply same_stops_refl|done]). clearbody n2.
    apply (fc_ok_same n2); [apply upd_view|by apply same_stops_upd|done].
  - unfold rmnet_vnd_open. repeat split_match; cbn [snd]; try done.
    apply (fc_ok_same n); [apply upd_view|by apply same_stops_upd|done].
  - apply (fc_ok_same n); [apply upd_view|by apply same_stops_upd|done].
  - apply reset_ok.
Qed.

Lemma frun_ok n n' : rtc fstep n n' -> fc_ok n -> fc_ok n'.
Proof. induction 1 as [|n n1 n2 Hs _ IH]; [done|]. intros Hok. apply IH. by eapply fstep_ok. Qed.

(** ** Theorems *)

(** C8. Flow control over time.  From a good state, whatever commands,
    transmissions, completions, deadlines and resets follow: an interface the
    modem holds is stopped; while anything is held on an enabled device the
    deadline is armed; an interface stopped for another reason has the parent
    stopped too, so a completion that finds room wakes the parent and every
    interface that is not held; and when the deadline fires nothing is held. *)
Theorem flow_control_safe n n' :
  fc_ok n -> rtc fstep n n' ->
  (forall i v, vnd_is n' i v -> held (n_flow_control n') i = true -> v_stopped v = true) /\
  (n_enabled n' = true -> n_flow_control n' <> 0 -> n_fc_armed n' = true) /\
  (n_enabled n' = true -> forall free d i v, 32 < free ->
     vnd_is (mhi_netdev_xfer_ul_cb true 0 free d n') i v -> held (n_flow_control n') i = false ->
     v_stopped v = false /\ n_stopped (mhi_netdev_xfer_ul_cb true 0 free d n') = false) /\
  (n_enabled n' = true -> n_flow_control (mhi_netdev_fc_timeout n') = 0 /\
     forall i v, vnd_is (mhi_netdev_fc_timeout n') i v -> v_stopped v = true -> n_stopped n' = true).
Proof.
  intros Hok Hr. apply frun_ok in Hr as Hok'; [|done]. destruct Hok' as [H1 H2 H3 H4]. split_and!.
  - exact H3.
  - intros He Hne. rewrite H1. apply negb_true_iff, Z.eqb_neq. by apply H2.
  - intros He free d i v Hf. unfold mhi_netdev_xfer_ul_cb. cbn [negb]. change (0 =? 0) with true.
    rewrite He, (proj2 (Z.ltb_lt 32 free) Hf). cbn [andb]. rewrite !andb_true_r.
    destruct (n_stopped n') eqn:Es; intros Hv%vnd_is_emit Hh.
    + destruct (over_inv _ _ _ _ Hv) as (w & Hw & ->). rewrite Hh. split; [|done].
      by destruct (v_stopped w) eqn:E.
    + split; [|done]. destruct (v_stopped v) eqn:E; [|done]. exfalso.
      assert (false = true); [|done]. by apply (H4 He i v).
  - intros He. split; [unfold mhi_netdev_fc_timeout; by split_match|].
    intros i v. unfold mhi_netdev_fc_timeout. set (n0 := set_n_fc_armed _ false).
    change (n_enabled n0) with (n_enabled n'). rewrite He. cbn [negb].
    intros Hv Hs. destruct (over_inv _ _ _ _ Hv) as (w & Hw & ->).
    destruct (held (n_flow_control n') i) eqn:Eh; [done|]. by apply (H4 He i w).
Qed.

Lemma ex_nd2_fc : fc_ok ex_nd2.
Proof.
  split; [done|done| |].
  - intros i v [_ Hv] Hh. apply vnd_at_nonneg in Hv. change (held 0 i = true) in Hh. by rewrite held_0 in Hh.
  - intros _ i v [Hi Hv] Hs. change (n_qmap_mode ex_nd2) with 2 in Hi. apply vnd_at_nonneg in Hv as Hn.
    assert (i = 0 \/ i = 1) as [-> | ->] by lia; injection Hv as <-; done.
Qed.

(** The modem stops interface 1. *)
Definition ex_stop_cmd : list Z := [0x80; 0x82; 0; 16; 1; 0; 0; 0; 0; 0; 0; 7; 0; 0; 0; 1; 0; 0; 0; 0].

Lemma flow_control_safe_witness : exists n',
  rmnet_data_map_command true ex_stop_cmd ex_nd2 = Some n' /\ n_flow_control n' = 2 /\ n_fc_armed n' = true.
Proof.
  destruct (rmnet_data_map_command true ex_stop_cmd ex_nd2) as [n'|] eqn:E;
    [|exfalso; revert E; vm_compute; discriminate].
  destruct (flow_control_safe ex_nd2 n' ex_nd2_fc) as (_ & H & _).
  { apply rtc_once. by apply (fs_command true ex_stop_cmd). }
  assert (Hv : option_map (fun n => (n_enabled n, n_flow_control n)) (rmnet_data_map_command true ex_stop_cmd ex_nd2)
               = Some (true, 2)) by (vm_compute; reflexivity).
  rewrite E in Hv. injection Hv as He Hfc. exists n'. split_and!; [done|done|]. apply H; [done|]. by rewrite Hfc.
Defined.
