(* ===== verification/NetRx.v ===== *)
(** * The receive side of the network device

    Receive buffers of devices/mhi_netdev_quectel.c: filling the inbound ring
    (mhi_netdev_alloc_skb, mhi_netdev_alloc_work), completions
    (mhi_netdev_xfer_dl_cb), the NAPI poll with the handler that takes frames
    apart, starting, resetting and removing the interface.  The channel is known
    by the classes [TransferQueue] and [RoomyQueue]; MhiXfer's channel with
    mhi_queue_skb is an instance of both.

    A buffer is known by its address; [x_skbs] are the buffers that are allocated,
    and using or freeing another address is a failure.  What the kernel answers
    (memory, the stack's clones, the frames the device has written) is an argument
    of each operation. *)

From S2P Require Import Prelude CLib MhiReg MhiRing MhiCtrl MhiPm MhiXfer MhiFifo MhiQueue Netdev Qmap Mbim NetFlow.

(** ** The channel *)

(** A transfer that is accepted takes one of the free descriptors. *)
Class RoomyQueue (Q : Type) `{TransferQueue Q} := {
  tq_room_pos d q l : tq_held d q l -> 0 <= tq_room d q;
  tq_room_put d buf len flags q l :
    tq_held d q l ->
    tq_room d (snd (tq_put d buf len flags q)) = if fst (tq_put d buf len flags q) =? 0 then tq_room d q - 1 else tq_room d q }.

(** [data]: the address of a buffer's bytes. *)
Definition skb_put_pair (m : mhi_buf_info -> Z * Z) (data : Z -> Z) (d : bool) (buf len flags : Z) (q : chan_pair) : Z * chan_pair :=
  let '(ret, c, x) := mhi_queue_skb m buf (data buf) len (pair_chan d q) (fst (fst q)) in
  (ret, pair_set d q c x).

Lemma queue_skb_held m buf data blen h c ts ret c' h' :
  chan_holds h ts -> mhi_queue_skb m buf data blen h c = (ret, c', h') ->
  chan_fixed h' = chan_fixed h /\
  exists ts', chan_holds h' ts' /\ outstanding ts' = if ret =? 0 then outstanding ts ++ [buf] else outstanding ts.
Proof.
  intros [i Hh] E. pose proof (queue_skb_queued m buf data blen h c i ts Hh) as Hq. rewrite E in Hq.
  destruct Hq as (_ & Hf & _ & Hok & Hbad). split; [done|]. destruct (Z.eqb_spec ret 0) as [Hz|Hz].
  - destruct (Hok Hz) as (_ & t & b & Hb & Eb). exists (ts ++ [(t, b)]). split; [by exists i|].
    unfold outstanding. rewrite map_app. cbn. by rewrite Eb.
  - destruct (Hbad Hz) as (_ & Hb). exists ts. split; [by exists i|done].
Qed.

Lemma skb_put_held m data d buf blen flags q l :
  pair_held d q l ->
  pair_held d (snd (skb_put_pair m data d buf blen flags q))
    (if fst (skb_put_pair m data d buf blen flags q) =? 0 then l ++ [buf] else l) /\
  chan_fixed (pair_chan d (snd (skb_put_pair m data d buf blen flags q))) = chan_fixed (pair_chan d q).
Proof.
  intros (Hp & ts & Hh & <-). unfold skb_put_pair, pair_held. destruct (mhi_queue_skb _ _ _ _ _ _) as [[ret c] x] eqn:E.
  cbn [fst snd]. rewrite pair_set_same. destruct (queue_skb_held _ _ _ _ _ _ _ _ _ _ Hh E) as [Hf He].
  by rewrite (fixed_pre _ _ Hf).
Qed.

(** The free descriptors of a channel that holds [l]. *)
Lemma room_held d q l :
  pair_held d q l ->
  get_nr_avail_ring_elements (mr_ring (tre_ring (pair_chan d q))) = elements (mr_ring (tre_ring (pair_chan d q))) - 1 - zlen l /\
  zlen l < elements (mr_ring (tre_ring (pair_chan d q))).
Proof.
  intros (_ & ts & [i Hh] & <-). destruct (Hh) as ((Hat & Hlt & _) & _). rewrite (avail_at _ _ _ Hat).
  destruct (holds_position _ _ _ _ _ Hh Hat) as [_ ->]. rewrite zlen_map in Hlt. unfold outstanding. by rewrite zlen_map.
Qed.

#[export] Instance skb_pair_queue (m : mhi_buf_info -> Z * Z) (data : Z -> Z) : TransferQueue chan_pair.
Proof.
  refine {| tq_put := skb_put_pair m data;
            tq_room d q := get_nr_avail_ring_elements (mr_ring (tre_ring (pair_chan d q)));
            tq_count := pair_count;
            tq_done := pair_done m;
            tq_drain := pair_drain;
            tq_held := pair_held |}.
  - intros. by apply skb_put_held.
  - intros. unfold skb_put_pair. destruct (mhi_queue_skb _ _ _ _ _ _) as [[ret c] x]. by apply pair_held_other.
  - intros. by apply count_held.
  - intros. by apply done_held.
  - intros * Hd Hh. unfold pair_done. split_match; [done|]. destruct (complete_one _ _ _ _ _) as [c x].
    intros [= _ <-]. by apply pair_held_other.
  - intros. by apply drain_held.
  - intros. unfold pair_drain. split_match; [|done]. destruct p as [c x]. by apply pair_held_other.
Defined.

#[export] Instance skb_pair_roomy (m : mhi_buf_info -> Z * Z) (data : Z -> Z) : @RoomyQueue chan_pair (skb_pair_queue m data).
Proof.
  split.
  - intros d q l Hh. destruct (room_held d q l Hh) as [E Hl]. cbn [tq_room skb_pair_queue]. unfold zlen in *. lia.
  - intros d buf blen flags q l Hh. cbn [tq_room tq_put skb_pair_queue].
    destruct (skb_put_held m data d buf blen flags q l Hh) as [Hp Hf].
    destruct (room_held _ _ _ Hh) as [-> _]. destruct (room_held _ _ _ Hp) as [-> _]. injection Hf as _ _ _ _ ->.
    destruct (_ =? 0); [|lia]. rewrite zlen_app. change (zlen [buf]) with 1. lia.
Qed.

(** ** State *)

(** [rb_bound]: [bind_netdev] is set; [rb_data]: the bytes of the frame in it. *)
Record rx_buf := RxBuf { rb_bound : bool; rb_data : bytes }.

(** [x_work]: the delay with which the refill worker is queued; [x_napi]: polling
    is enabled, [x_sched] and asked for; [x_ndev]: the interface is registered,
    [x_handler] with its receive handler; [x_stack]: the frames handed over, in
    order. *)
Record rx (Q : Type) := Rx {
  x_q : Q;
  x_n : mhi_netdev;
  x_skbs : gmap Z rx_buf;
  x_allocated : list Z;
  x_chain : list Z;
  x_work : option Z;
  x_retry : Z;
  x_napi : bool;
  x_sched : bool;
  x_ndev : bool;
  x_handler : bool;
  x_stack : list bytes;
  x_rx_int : Z }.
Arguments Rx {Q}.
Arguments x_q {Q}.
Arguments x_n {Q}.
Arguments x_skbs {Q}.
Arguments x_allocated {Q}.
Arguments x_chain {Q}.
Arguments x_work {Q}.
Arguments x_retry {Q}.
Arguments x_napi {Q}.
Arguments x_sched {Q}.
Arguments x_ndev {Q}.
Arguments x_handler {Q}.
Arguments x_stack {Q}.
Arguments x_rx_int {Q}.

Definition setx_q {Q} (x : Q) (s : rx Q) : rx Q :=
  Rx x (x_n s) (x_skbs s) (x_allocated s) (x_chain s) (x_work s) (x_retry s) (x_napi s) (x_sched s) (x_ndev s) (x_handler s) (x_stack s) (x_rx_int s).
Definition setx_n {Q} (x : mhi_netdev) (s : rx Q) : rx Q :=
  Rx (x_q s) x (x_skbs s) (x_allocated s) (x_chain s) (x_work s) (x_retry s) (x_napi s) (x_sched s) (x_ndev s) (x_handler s) (x_stack s) (x_rx_int s).
Definition setx_skbs {Q} (x : gmap Z rx_buf) (s : rx Q) : rx Q :=
  Rx (x_q s) (x_n s) x (x_allocated s) (x_chain s) (x_work s) (x_retry s) (x_napi s) (x_sched s) (x_ndev s) (x_handler s) (x_stack s) (x_rx_int s).
Definition setx_allocated {Q} (x : list Z) (s : rx Q) : rx Q :=
  Rx (x_q s) (x_n s) (x_skbs s) x (x_chain s) (x_work s) (x_retry s) (x_napi s) (x_sched s) (x_ndev s) (x_handler s) (x_stack s) (x_rx_int s).
Definition setx_chain {Q} (x : list Z) (s : rx Q) : rx Q :=
  Rx (x_q s) (x_n s) (x_skbs s) (x_allocated s) x (x_work s) (x_retry s) (x_napi s) (x_sched s) (x_ndev s) (x_handler s) (x_stack s) (x_rx_int s).
Definition setx_work {Q} (x : option Z) (s : rx Q) : rx Q :=
  Rx (x_q s) (x_n s) (x_skbs s) (x_allocated s) (x_chain s) x (x_retry s) (x_napi s) (x_sched s) (x_ndev s) (x_handler s) (x_stack s) (x_rx_int s).
Definition setx_retry {Q} (x : Z) (s : rx Q) : rx Q :=
  Rx (x_q s) (x_n s) (x_skbs s) (x_allocated s) (x_chain s) (x_work s) x (x_napi s) (x_sched s) (x_ndev s) (x_handler s) (x_stack s) (x_rx_int s).
Definition setx_napi {Q} (x : bool) (s : rx Q) : rx Q :=
  Rx (x_q s) (x_n s) (x_skbs s) (x_allocated s) (x_chain s) (x_work s) (x_retry s) x (x_sched s) (x_ndev s) (x_handler s) (x_stack s) (x_rx_int s).
Definition setx_sched {Q} (x : bool) (s : rx Q) : rx Q :=
  Rx (x_q s) (x_n s) (x_skbs s) (x_allocated s) (x_chain s) (x_work s) (x_retry s) (x_napi s) x (x_ndev s) (x_handler s) (x_stack s) (x_rx_int s).
Definition setx_ndev {Q} (x : bool) (s : rx Q) : rx Q :=
  Rx (x_q s) (x_n s) (x_skbs s) (x_allocated s) (x_chain s) (x_work s) (x_retry s) (x_napi s) (x_sched s) x (x_handler s) (x_stack s) (x_rx_int s).
Definition setx_handler {Q} (x : bool) (s : rx Q) : rx Q :=
  Rx (x_q s) (x_n s) (x_skbs s) (x_allocated s) (x_chain s) (x_work s) (x_retry s) (x_napi s) (x_sched s) (x_ndev s) x (x_stack s) (x_rx_int s).
Definition setx_stack {Q} (x : list bytes) (s : rx Q) : rx Q :=
  Rx (x_q s) (x_n s) (x_skbs s) (x_allocated s) (x_chain s) (x_work s) (x_retry s) (x_napi s) (x_sched s) (x_ndev s) (x_handler s) x (x_rx_int s).
Definition setx_rx_int {Q} (x : Z) (s : rx Q) : rx Q :=
  Rx (x_q s) (x_n s) (x_skbs s) (x_allocated s) (x_chain s) (x_work s) (x_retry s) (x_napi s) (x_sched s) (x_ndev s) (x_handler s) (x_stack s) x.

Section Rx.
Context {Q : Type} `{TransferQueue Q}.
(** The size of a receive buffer, the result of probing. *)
Context (mru : Z).
Abbreviation act := (st (rx Q)).

(** ** Buffers *)

Definition skb_at (p : Z) : act rx_buf := m ← st_gets x_skbs; st_load (m !! p).
Definition skb_set (p : Z) (b : rx_buf) : act unit :=
  _ ← skb_at p; st_modify (fun s => setx_skbs (<[p := b]> (x_skbs s)) s).
Definition kfree_skb (p : Z) : act unit := _ ← skb_at p; st_modify (fun s => setx_skbs (delete p (x_skbs s)) s).

(** [want]: the memory that is found; an address in use is none. *)
Definition alloc_skb (want : option Z) : act (option Z) :=
  m ← st_gets x_skbs;
  match want with
  | Some p => if bool_decide (m !! p = None)
              then _ ← st_modify (fun s => setx_skbs (<[p := RxBuf false []]> (x_skbs s)) s); mret (Some p) else mret None
  | None => mret None
  end.

Definition skb_dequeue (get : rx Q -> list Z) (set : list Z -> rx Q -> rx Q) : act (option Z) :=
  l ← st_gets get;
  match l with [] => mret None | p :: l => _ ← st_modify (set l); mret (Some p) end.

(** Nothing happens to work that is queued already. *)
Definition schedule_work (ms : Z) : act unit :=
  st_modify (fun s => match x_work s with Some _ => s | None => setx_work (Some ms) s end).

Definition queue_transfer (p : Z) : act Z := fun s =>
  let '(ret, q) := tq_put false p mru MHI_EOT (x_q s) in Some (ret, setx_q q s).

(** ** Filling the ring *)

(** A buffer that was used before, or a new one. *)
Definition take_buf (want : option Z) : act (option Z) :=
  skb ← skb_dequeue x_allocated setx_allocated;
  match skb with Some p => mret (Some p) | None => alloc_skb want end.

(** [n] descriptors are left; [i] counts the requests for memory. *)
Fixpoint alloc_loop (want : nat -> option Z) (i n : nat) : act Z :=
  match n with
  | O => mret 0
  | S n =>
      skb ← take_buf (want i);
      match skb with
      | None => mret (- ENOMEM)
      | Some p =>
          enabled ← st_gets (fun s => n_enabled (x_n s));
          if negb enabled then _ ← kfree_skb p; mret (- EIO)
          else
            b ← skb_at p;
            _ ← skb_set p (RxBuf true (rb_data b));
            ret ← queue_transfer p;
            if negb (ret =? 0) then
              _ ← skb_set p (RxBuf false (rb_data b));
              _ ← kfree_skb p;
              mret (- EIO)
            else alloc_loop want (S i) n
      end
  end.

Definition mhi_netdev_alloc_skb (want : nat -> option Z) : act Z :=
  no_tre ← st_gets (fun s => tq_room false (x_q s));
  alloc_loop want 0 (Z.to_nat no_tre).

(** The delay doubles from 20 ms up to 640 ms. *)
Definition delay_ms (retry : Z) : Z := Z.shiftl 20 (Z.min retry 5).

Definition mhi_netdev_alloc_work (want : nat -> option Z) : act unit :=
  _ ← st_modify (setx_work None);
  ret ← mhi_netdev_alloc_skb want;
  if ret =? 0 then st_modify (setx_retry 0)
  else
    enabled ← st_gets (fun s => n_enabled (x_n s));
    if negb enabled then mret tt
    else
      retry ← st_gets x_retry;
      _ ← st_modify (setx_retry (u32 (retry + 1)));
      schedule_work (delay_ms retry).

Fixpoint free_all (l : list Z) : act unit :=
  match l with [] => mret tt | p :: l => _ ← kfree_skb p; free_all l end.

Definition mhi_netdev_dealloc : act unit :=
  l ← st_gets x_allocated; _ ← st_modify (setx_allocated []); free_all l.

(** ** Completions *)

(** The successful end of a completion; more than the buffer holds is the panic
    of [skb_put]. *)
Definition dl_deliver (p : Z) (frame : bytes) : act unit :=
  b ← skb_at p;
  _ ← st_load (if zlen (rb_data b ++ frame) <=? mru then Some tt else None);
  _ ← skb_set p (RxBuf false (rb_data b ++ frame));
  st_modify (fun s => setx_chain (x_chain s ++ [p]) s).

Definition mhi_netdev_xfer_dl_cb (p status : Z) (frame : bytes) : act unit :=
  b ← skb_at p;
  if negb (rb_bound b) then mret tt
  else if negb (status =? 0) then _ ← skb_set p (RxBuf false (rb_data b)); kfree_skb p
  else dl_deliver p frame.

(** One transfer the device has finished; the core hands over no more bytes than
    were queued.  Nothing can be finished that is not queued. *)
Definition complete1 (e : Z * bytes) : act unit := fun s =>
  match tq_done false (fst e) (zlen (snd e)) (x_q s) with
  | Some (p, q) => mhi_netdev_xfer_dl_cb p (fst e) (ztake mru (snd e)) (setx_q q s)
  | None => Some (tt, s)
  end.

Fixpoint complete_all (l : list (Z * bytes)) : act unit :=
  match l with [] => mret tt | e :: l => _ ← complete1 e; complete_all l end.

(** ** Polling *)

(** What a frame meets: memory for its packets, the stack's settings, the fuel of
    the MBIM handler, and whether somebody holds a clone of the buffer. *)
Record frame_env := FrameEnv {
  fe_alloc : nat -> bool;
  fe_params : rx_params;
  fe_mbim_fuel : nat;
  fe_qmap_mode : Z;
  fe_cloned : bool }.

(** [false]: the handler reads outside the frame or does not end. *)
Definition rmnet_rx_handler (env : frame_env) (p : Z) : act bool :=
  b ← skb_at p;
  n ← st_gets x_n;
  let d := rb_data b in
  let r := if bool_decide (n_type n = MHI_NET_MBIM)
           then rmnet_mbim_rx_handler (fe_mbim_fuel env) (fe_qmap_mode env) (fe_alloc env) (fe_params env) n d
           else rmnet_qmi_rx_handler (length d) (fe_alloc env) (fe_params env) n d in
  match r with
  | RxDone n' _ =>
      _ ← st_modify (setx_n n');
      l ← st_gets x_allocated;
      if negb (fe_cloned env) && (length l <? 128)%nat then
        _ ← skb_set p (RxBuf false []);
        _ ← st_modify (fun s => setx_allocated (x_allocated s ++ [p]) s);
        mret true
      else _ ← kfree_skb p; mret true
  | _ => mret false
  end.

(** [netif_receive_skb]: the handler of the interface, or the stack, which keeps
    the buffer. *)
Definition receive (env : frame_env) (p : Z) : act bool :=
  b ← skb_at p;
  _ ← st_modify (fun s => setx_stack (x_stack s ++ [rb_data b]) s);
  h ← st_gets x_handler;
  if (h : bool) then rmnet_rx_handler env p else _ ← kfree_skb p; mret true.

(** The loop over [qmap_chain]; nothing is added to it meanwhile, so that its
    length is enough fuel. *)
Fixpoint drain_chain (env : nat -> frame_env) (i n : nat) : act bool :=
  match n with
  | O => mret true
  | S n =>
      skb ← skb_dequeue x_chain setx_chain;
      match skb with
      | None => mret true
      | Some p => ok ← receive (env i) p; if negb ok then mret false else drain_chain env (S i) n
      end
  end.

(** [pe_events]: the events on the ring, each with the transfers it completes, or
    the error of mhi_poll, which has looked at none then. *)
Record poll_env := PollEnv {
  pe_events : res (list (list (Z * bytes)));
  pe_frame : nat -> frame_env;
  pe_want : nat -> option Z }.

Definition napi_complete : act unit := st_modify (setx_sched false).

(** [None]: a frame is never done with. *)
Definition mhi_netdev_poll (env : poll_env) (budget : nat) : act (option Z) :=
  match pe_events env with
  | Err _ => _ ← napi_complete; mret (Some 0)
  | Ok evs =>
      let evs := take budget evs in
      _ ← complete_all (concat evs);
      type ← st_gets (fun s => n_type (x_n s));
      chain ← st_gets x_chain;
      ok ← (if bool_decide (type = MHI_NET_UNKNOW) then mret true else drain_chain (pe_frame env) 0 (length chain));
      if negb ok then mret None
      else
        work ← st_gets x_work;
        _ ← match work with
            | Some _ => mret tt
            | None =>
                ret ← mhi_netdev_alloc_skb (pe_want env);
                if ret =? 0 then mret tt
                else
                  _ ← st_modify (fun s => setx_n (set_n_alloc_failed (x_n s) (n_alloc_failed (x_n s) + 1)) s);
                  schedule_work 20
            end;
        _ ← (if (length evs <? budget)%nat then napi_complete else mret tt);
        mret (Some (Z.of_nat (length evs)))
  end.

(** [pending]: the reason is MHI_CB_PENDING_DATA. *)
Definition mhi_netdev_status_cb (pending : bool) : act unit :=
  napi ← st_gets x_napi;
  sched ← st_gets x_sched;
  if pending && napi && negb sched
  then st_modify (fun s => setx_rx_int (x_rx_int s + 1) (setx_sched true s)) else mret tt.

(** ** Starting, resetting, removing *)

(** Stopping the channels: the inbound buffers come back with -ENOTCONN. *)
Fixpoint drop_all (l : list Z) : act unit :=
  match l with [] => mret tt | p :: l => _ ← mhi_netdev_xfer_dl_cb p (- ENOTCONN) []; drop_all l end.

Definition reset_inbound : act unit := fun s =>
  let '(l, q) := tq_drain false (x_q s) in drop_all l (setx_q q s).

(** [mhi_prepare_for_transfer], [alloc_netdev], [register_netdev], memory. *)
Record enable_env := EnableEnv { ee_prepare : Z; ee_netdev : bool; ee_register : Z; ee_want : nat -> option Z }.

(** Enabling twice is a BUG of the kernel. *)
Definition napi_enable : act unit :=
  on ← st_gets x_napi; if (on : bool) then st_load None else st_modify (fun s => setx_napi true (setx_sched false s)).

Definition mhi_netdev_enable_iface (env : enable_env) : act Z :=
  if negb (ee_prepare env =? 0) then mret (ee_prepare env)
  else
    ndev ← st_gets x_ndev;
    let ret := if (ndev : bool) then 0 else if negb (ee_netdev env) then - ENOMEM else ee_register env in
    if negb (ret =? 0) then _ ← reset_inbound; mret ret
    else
      _ ← (if (ndev : bool) then mret tt else st_modify (fun s => setx_ndev true (setx_n (set_n_carrier (x_n s) false) s)));
      _ ← st_modify (fun s => setx_n (mhi_netdev_pm_hold (set_n_enabled (x_n s) true)) s);
      ret ← mhi_netdev_alloc_skb (ee_want env);
      _ ← (if ret =? 0 then mret tt else schedule_work 20);
      _ ← napi_enable;
      mret 0.

(** [false]: disabling what is disabled already waits for ever. *)
Definition napi_disable : act bool :=
  on ← st_gets x_napi; _ ← st_modify (setx_napi false); mret on.

(** [None] when it never ends. *)
Definition reset_iface (env : enable_env) : act (option Z) :=
  _ ← st_modify (fun s => setx_n (mhi_netdev_pm_release (set_n_enabled (x_n s) false)) s);
  ok ← napi_disable;
  if negb ok then mret None
  else
    _ ← st_modify (fun s => setx_n (set_n_fc_pending (set_n_flow_control (set_n_fc_armed (x_n s) false) 0) 0) s);
    _ ← reset_inbound;
    _ ← mhi_netdev_dealloc;
    ret ← mhi_netdev_enable_iface env;
    if negb (ret =? 0) then mret (Some ret)
    else
      _ ← st_modify (fun s => setx_n (over_vnds (fun _ => wake_vnd) (set_n_stopped (x_n s) false)) s);
      mret (Some 0).

(** The worker is run if it is queued. *)
Definition flush_work (want : nat -> option Z) : act unit :=
  w ← st_gets x_work; match w with Some _ => mhi_netdev_alloc_work want | None => mret tt end.

Definition remove_iface (want : nat -> option Z) : act bool :=
  _ ← st_modify (fun s => setx_handler false (setx_n (mhi_netdev_remove (x_n s)) s));
  l ← st_gets x_chain;
  _ ← st_modify (setx_chain []);
  _ ← free_all l;
  _ ← mhi_netdev_dealloc;
  ok ← napi_disable;
  if negb ok then mret false
  else
    _ ← mhi_netdev_dealloc;
    _ ← st_modify (setx_ndev false);
    _ ← flush_work want;
    mret true.

End Rx.
