(* ===== verification/RxProofs.v ===== *)
(** * The receive side: buffers, frames and supply

    Theorems on the operations of NetRx over any channel with the laws of
    [TransferQueue] and [RoomyQueue]: every buffer has exactly one place, frames
    are handed over in order, and a ring with free descriptors has its worker
    queued. *)

From S2P Require Import Prelude CLib MhiReg MhiRing MhiCtrl MhiPm MhiXfer MhiFifo MhiQueue Netdev Qmap Mbim NetFlow NetRx.

(** ** Where the buffers are

    [h]: in the hands of the running code; [l]: in the ring; [ch]: on the chain;
    [al]: waiting to be used again. *)

Definition live (ps : list Z) (m : gmap Z rx_buf) : Prop := ps ≡ₚ stdpp.base.elements (dom m).

(** The state of the buffers by their place. *)
Definition parts (l ch al : list Z) (m : gmap Z rx_buf) : Prop :=
  Forall (fun p => m !! p = Some (RxBuf true [])) l /\
  Forall (fun p => exists d, m !! p = Some (RxBuf false d)) ch /\
  Forall (fun p => m !! p = Some (RxBuf false [])) al.

Definition bufs (h l ch al : list Z) (m : gmap Z rx_buf) : Prop := live (h ++ l ++ ch ++ al) m /\ parts l ch al m.

Lemma live_some ps m p : live ps m -> p ∈ ps <-> is_Some (m !! p).
Proof. intros Hl. unfold live in Hl. rewrite Hl, elem_of_elements, elem_of_dom. done. Qed.

Lemma live_nodup ps m : live ps m -> NoDup ps.
Proof. intros Hl. unfold live in Hl. rewrite Hl. apply NoDup_elements. Qed.

Lemma live_new p b ps m : m !! p = None -> live ps m -> live (p :: ps) (<[p := b]> m).
Proof.
  intros Hp Hl. unfold live. rewrite dom_insert_L, elements_union_singleton; [by constructor|]. by apply not_elem_of_dom.
Qed.

Lemma live_update p b ps m : is_Some (m !! p) -> live ps m -> live ps (<[p := b]> m).
Proof. intros Hp Hl. unfold live. rewrite dom_insert_lookup_L by done. done. Qed.

Lemma live_delete p ps m : live (p :: ps) m -> live ps (delete p m).
Proof.
  intros Hl. unfold live. rewrite dom_delete_L. apply (Permutation_cons_inv (a := p)).
  rewrite <- elements_union_singleton by set_solver. rewrite <- union_difference_L; [done|].
  apply singleton_subseteq_l, elem_of_dom. apply (live_some _ _ p Hl). apply elem_of_cons. by left.
Qed.

(** Changing [p] leaves the others as they are. *)
Lemma parts_others p l ch al m m' :
  p ∉ l ++ ch ++ al -> (forall q, q <> p -> m' !! q = m !! q) -> parts l ch al m -> parts l ch al m'.
Proof.
  intros Hp He (F1 & F2 & F3). rewrite !not_elem_of_app in Hp. destruct Hp as (H1 & H2 & H3).
  split_and!; rewrite Forall_forall in *; intros q Hq; (rewrite He; [by auto|by intros ->]).
Qed.

Lemma hand_apart p h l ch al m : live ((p :: h) ++ l ++ ch ++ al) m -> p ∉ l ++ ch ++ al /\ is_Some (m !! p).
Proof.
  intros Hl. split.
  - pose proof (live_nodup _ _ Hl) as Hn. apply NoDup_cons in Hn as [Hn _]. intros Hp. apply Hn. apply elem_of_app. by right.
  - apply (live_some _ _ p Hl), elem_of_cons. by left.
Qed.

Lemma bufs_new p h l ch al m : m !! p = None -> bufs h l ch al m -> bufs (p :: h) l ch al (<[p := RxBuf false []]> m).
Proof.
  intros Hp [Hl Hr]. pose proof (live_new p (RxBuf false []) _ _ Hp Hl) as Hl'. split; [exact Hl'|].
  eapply (parts_others p); [by apply (hand_apart p h _ _ _ _ Hl')|intros q Hq; by rewrite lookup_insert_ne|done].
Qed.

Lemma bufs_set p b h l ch al m : bufs (p :: h) l ch al m -> bufs (p :: h) l ch al (<[p := b]> m).
Proof.
  intros [Hl Hr]. destruct (hand_apart _ _ _ _ _ _ Hl) as [Hn Hp]. split; [by apply live_update|].
  eapply (parts_others p); [done|intros q Hq; by rewrite lookup_insert_ne|done].
Qed.

Lemma bufs_free p h l ch al m : bufs (p :: h) l ch al m -> bufs h l ch al (delete p m).
Proof.
  intros [Hl Hr]. destruct (hand_apart _ _ _ _ _ _ Hl) as [Hn Hp]. split; [by apply live_delete|].
  eapply (parts_others p); [done|intros q Hq; by rewrite lookup_delete_ne|done].
Qed.

(** The moves between the places. *)
Lemma live_perm ps ps' m : ps ≡ₚ ps' -> live ps m -> live ps' m.
Proof. intros E Hl. unfold live in *. by rewrite <- E. Qed.

Lemma to_ring p l ch al m :
  bufs [p] l ch al m -> m !! p = Some (RxBuf true []) -> bufs [] (l ++ [p]) ch al m.
Proof.
  intros [Hl (F1 & F2 & F3)] Hp. split; [|split_and!; [apply Forall_app_2; by repeat constructor|done|done]].
  eapply live_perm; [|exact Hl]. cbn. rewrite <- app_assoc. cbn. apply Permutation_middle.
Qed.

Lemma from_ring p l ch al m : bufs [] (p :: l) ch al m -> bufs [p] l ch al m /\ m !! p = Some (RxBuf true []).
Proof. intros [Hl (F1 & F2 & F3)]. apply Forall_cons in F1 as [Hp F1]. split; [by split|done]. Qed.

Lemma to_chain p d l ch al m :
  bufs [p] l ch al m -> m !! p = Some (RxBuf false d) -> bufs [] l (ch ++ [p]) al m.
Proof.
  intros [Hl (F1 & F2 & F3)] Hp. split; [|split_and!; [done|apply Forall_app_2; [done|repeat constructor; by exists d]|done]].
  eapply live_perm; [|exact Hl]. cbn. rewrite <- app_assoc. cbn. rewrite !(app_assoc l). apply Permutation_middle.
Qed.

Lemma from_chain p l ch al m : bufs [] l (p :: ch) al m -> bufs [p] l ch al m.
Proof.
  intros [Hl (F1 & F2 & F3)]. apply Forall_cons in F2 as [Hp F2]. split; [|done].
  eapply live_perm; [|exact Hl]. cbn. symmetry. apply Permutation_middle.
Qed.

Lemma to_alloc p l ch al m :
  bufs [p] l ch al m -> m !! p = Some (RxBuf false []) -> bufs [] l ch (al ++ [p]) m.
Proof.
  intros [Hl (F1 & F2 & F3)] Hp. split; [|split_and!; [done|done|apply Forall_app_2; by repeat constructor]].
  eapply live_perm; [|exact Hl]. cbn. rewrite !app_assoc. apply Permutation_cons_append.
Qed.

Lemma from_alloc p l ch al m : bufs [] l ch (p :: al) m -> bufs [p] l ch al m /\ m !! p = Some (RxBuf false []).
Proof.
  intros [Hl (F1 & F2 & F3)]. apply Forall_cons in F3 as [Hp F3]. split; [|done]. split; [|done].
  eapply live_perm; [|exact Hl]. cbn. rewrite !(app_assoc l). symmetry. apply Permutation_middle.
Qed.

Section RxProofs.
Context {Q : Type} `{RoomyQueue Q} (mru : Z) (Hmru : 0 <= mru).
Implicit Types s : rx Q.

(** The ring holds [l], and [h] is in hand. *)
Definition rx_at (h l : list Z) s : Prop :=
  tq_held false (x_q s) l /\ bufs h l (x_chain s) (x_allocated s) (x_skbs s) /\ (length (x_allocated s) <= 128)%nat.

(** Only ring, buffers and the list of buffers to use again differ. *)
Definition fills s s' : Prop := s' = setx_allocated (x_allocated s') (setx_skbs (x_skbs s') (setx_q (x_q s') s)).

#[local] Instance fills_pre : PreOrder fills.
Proof.
  split; [by intros []|]. intros [] [] []. unfold fills. cbn. intros [= <- <- <- <- <- <- <- <- <- <-] [= <- <- <- <- <- <- <- <- <- <-]. done.
Qed.

Lemma skb_at_eq p b s : x_skbs s !! p = Some b -> skb_at p s = Some (b, s).
Proof. intros E. unfold skb_at. rewrite st_bind_gets. unfold st_load. by rewrite E. Qed.

Lemma skb_set_eq p b b' s : x_skbs s !! p = Some b -> skb_set p b' s = Some (tt, setx_skbs (<[p := b']> (x_skbs s)) s).
Proof. intros E. unfold skb_set. by rewrite (st_bind_some _ _ _ _ _ (skb_at_eq _ _ _ E)). Qed.

Lemma kfree_skb_eq p b s : x_skbs s !! p = Some b -> kfree_skb p s = Some (tt, setx_skbs (delete p (x_skbs s)) s).
Proof. intros E. unfold kfree_skb. by rewrite (st_bind_some _ _ _ _ _ (skb_at_eq _ _ _ E)). Qed.

Lemma rx_hand p h l s : rx_at (p :: h) l s -> exists b, x_skbs s !! p = Some b.
Proof. intros (_ & [Hl _] & _). destruct (hand_apart _ _ _ _ _ _ Hl) as [_ [b Hb]]. by exists b. Qed.

(** Freeing and changing what is in hand. *)
Lemma free_hand p h l s :
  rx_at (p :: h) l s -> exists s', kfree_skb p s = Some (tt, s') /\ rx_at h l s' /\ fills s s' /\ x_q s' = x_q s.
Proof.
  intros Hr. destruct (rx_hand _ _ _ _ Hr) as [b Hb]. destruct Hr as (Hh & Hbu & Hc). eexists. split; [by eapply kfree_skb_eq|].
  split; [split_and!; [done|by apply bufs_free|done]|]. by destruct s.
Qed.

Lemma set_hand p b h l s :
  rx_at (p :: h) l s ->
  exists s', skb_set p b s = Some (tt, s') /\ rx_at (p :: h) l s' /\ fills s s' /\ x_q s' = x_q s /\ x_skbs s' !! p = Some b.
Proof.
  intros Hr. destruct (rx_hand _ _ _ _ Hr) as [b' Hb]. destruct Hr as (Hh & Hbu & Hc). eexists. split; [by eapply skb_set_eq|].
  split; [split_and!; [done|by apply bufs_set|done]|]. split; [by destruct s|]. split; [done|]. apply lookup_insert_eq.
Qed.

Definition frame_of (m : gmap Z rx_buf) (p : Z) : bytes := default [] (rb_data <$> m !! p).

(** What was handed to the stack, and what is on its way. *)
Definition frames s : list bytes := x_stack s ++ (frame_of (x_skbs s) <$> x_chain s).

Lemma frame_of_others p (ch : list Z) (m m' : gmap Z rx_buf) :
  p ∉ ch -> (forall q, q <> p -> m' !! q = m !! q) -> frame_of m' <$> ch = frame_of m <$> ch.
Proof.
  intros Hp He. apply list_fmap_ext. intros i q Hq. unfold frame_of. rewrite He; [done|].
  intros ->. apply Hp. by eapply list_elem_of_lookup_2.
Qed.

Lemma hand_not_chain p h l s : rx_at (p :: h) l s -> p ∉ x_chain s.
Proof. intros (_ & [Hl _] & _). destruct (hand_apart _ _ _ _ _ _ Hl) as [Hn _]. set_solver. Qed.

Lemma take_buf_ok want l s :
  rx_at [] l s ->
  exists o s', take_buf want s = Some (o, s') /\ fills s s' /\ x_q s' = x_q s /\ frames s' = frames s /\
    match o with None => rx_at [] l s' | Some p => rx_at [p] l s' /\ x_skbs s' !! p = Some (RxBuf false []) end.
Proof.
  intros (Hh & Hb & Hc). unfold take_buf, skb_dequeue. destruct (x_allocated s) as [|p al] eqn:Ea.
  - unfold mbind, st_bind, st_gets. rewrite Ea. cbn [mret st_ret]. unfold alloc_skb, mbind, st_bind, st_gets.
    destruct want as [p|]; [|exists None, s; split_and!; [done|done|done|done|split_and!; [done|by rewrite Ea|rewrite Ea; cbn; lia]]].
    case_bool_decide as Hp; [|exists None, s; split_and!; [done|done|done|done|split_and!; [done|by rewrite Ea|rewrite Ea; cbn; lia]]].
    unfold st_modify, mret, st_ret. eexists _, _. split; [done|]. split; [by destruct s|]. split; [done|].
    assert (Hn : rx_at [p] l (setx_skbs (<[p := RxBuf false []]> (x_skbs s)) s)).
    { split_and!; [done|cbn; rewrite Ea; by apply bufs_new|cbn; rewrite Ea; cbn; lia]. }
    split; [|split; [done|apply lookup_insert_eq]]. unfold frames. cbn. f_equal. apply (frame_of_others p); [by apply (hand_not_chain _ _ _ _ Hn)|].
    intros q Hq. by rewrite lookup_insert_ne.
  - unfold mbind, st_bind, st_gets. rewrite Ea. unfold st_modify, mret, st_ret. eexists _, _. split; [done|].
    destruct (from_alloc _ _ _ _ _ Hb) as [Hb' Hp]. cbn in Hc.
    split; [by destruct s|]. split; [done|]. split; [done|]. split; [|done]. split_and!; [done|done|cbn; lia].
Qed.

Lemma fills_n s s' : fills s s' -> x_n s' = x_n s /\ x_chain s' = x_chain s /\ x_work s' = x_work s /\ x_stack s' = x_stack s.
Proof. intros ->. by destruct s. Qed.

(** Queueing what is in hand. *)
Lemma queue_hand p l s :
  rx_at [p] l s -> x_skbs s !! p = Some (RxBuf true []) ->
  exists ret s', queue_transfer mru p s = Some (ret, s') /\ fills s s' /\ frames s' = frames s /\
    (ret = 0 -> rx_at [] (l ++ [p]) s' /\ tq_room false (x_q s') = tq_room false (x_q s) - 1) /\
    (ret <> 0 -> rx_at [p] l s').
Proof.
  intros (Hh & Hb & Hc) Hp. unfold queue_transfer. pose proof (tq_put_same false p mru MHI_EOT _ _ Hh) as Hs.
  pose proof (tq_room_put false p mru MHI_EOT _ _ Hh) as Hr. destruct (tq_put _ _ _ _ _) as [ret q]. cbn [fst snd] in *.
  eexists _, _. split; [done|]. split; [by destruct s|]. split; [done|]. split; intros E.
  - rewrite E in Hs, Hr. split; [|done]. split_and!; [done|by apply to_ring|done].
  - rewrite (proj2 (Z.eqb_neq ret 0) E) in Hs. by split_and!.
Qed.

(** Only ring, buffers and the chain differ. *)
Definition completes s s' : Prop := s' = setx_chain (x_chain s') (setx_skbs (x_skbs s') (setx_q (x_q s') s)).

#[local] Instance completes_pre : PreOrder completes.
Proof.
  split; [by intros []|]. intros [] [] []. unfold completes. cbn. intros [= <- <- <- <- <- <- <- <- <- <-] [= <- <- <- <- <- <- <- <- <- <-]. done.
Qed.

Lemma free_hand_frames p h l s s' : rx_at (p :: h) l s -> kfree_skb p s = Some (tt, s') -> frames s' = frames s /\ completes s s'.
Proof.
  intros Hr E. destruct (rx_hand _ _ _ _ Hr) as [b Hb]. rewrite (kfree_skb_eq _ _ _ Hb) in E. injection E as <-.
  split; [|by destruct s]. unfold frames. cbn. f_equal. apply (frame_of_others p); [by eapply hand_not_chain|].
  intros q Hq. by rewrite lookup_delete_ne.
Qed.

Lemma set_hand_frames p b h l s s' : rx_at (p :: h) l s -> skb_set p b s = Some (tt, s') -> frames s' = frames s /\ completes s s'.
Proof.
  intros Hr E. destruct (rx_hand _ _ _ _ Hr) as [b' Hb]. rewrite (skb_set_eq _ _ _ _ Hb) in E. injection E as <-.
  split; [|by destruct s]. unfold frames. cbn. f_equal. apply (frame_of_others p); [by eapply hand_not_chain|].
  intros q Hq. by rewrite lookup_insert_ne.
Qed.

(** Filling [n] free descriptors: buffers are only moved, and after success none
    is free. *)
Lemma alloc_loop_ok want n : forall i l s,
  rx_at [] l s -> tq_room false (x_q s) = Z.of_nat n ->
  exists ret l' s', alloc_loop mru want i n s = Some (ret, s') /\ rx_at [] l' s' /\ fills s s' /\ frames s' = frames s /\
    (ret = 0 -> tq_room false (x_q s') = 0).
Proof.
  induction n as [|n IH]; intros i l s Hr Hn; cbn [alloc_loop].
  { exists 0, l, s. split_and!; [done|done|done|done|]. intros _. by rewrite Hn. }
  destruct (take_buf_ok (want i) l s Hr) as (o & s1 & E1 & F1 & Q1 & G1 & H1). rewrite (st_bind_some _ _ _ _ _ E1).
  destruct o as [p|]; [|exists (- ENOMEM), l, s1; by split_and!]. destruct H1 as [H1 Hp]. rewrite st_bind_gets.
  destruct (n_enabled (x_n s1)); cbn [negb].
  - rewrite (st_bind_some _ _ _ _ _ (skb_at_eq _ _ _ Hp)). cbn [rb_data].
    destruct (set_hand p (RxBuf true []) _ _ _ H1) as (s2 & E2 & H2 & F2 & Q2 & P2). rewrite (st_bind_some _ _ _ _ _ E2).
    destruct (set_hand_frames _ _ _ _ _ _ H1 E2) as [G2 _].
    destruct (queue_hand p l s2 H2 P2) as (ret & s3 & E3 & F3 & G3 & Hok & Hbad). rewrite (st_bind_some _ _ _ _ _ E3).
    destruct (Z.eqb_spec ret 0) as [Hz|Hz]; cbn [negb].
    + destruct (Hok Hz) as [H3 R3]. destruct (IH (S i) _ _ H3) as (ret' & l' & s' & E' & H' & F' & G' & R'); [rewrite R3, Q2, Q1; lia|].
      exists ret', l', s'. split_and!; [done|done|by do 3 (etrans; [eassumption|])|congruence|done].
    + destruct (set_hand p (RxBuf false []) _ _ _ (Hbad Hz)) as (s4 & E4 & H4 & F4 & _). rewrite (st_bind_some _ _ _ _ _ E4).
      destruct (set_hand_frames _ _ _ _ _ _ (Hbad Hz) E4) as [G4 _].
      destruct (free_hand _ _ _ _ H4) as (s5 & E5 & H5 & F5 & _). rewrite (st_bind_some _ _ _ _ _ E5).
      destruct (free_hand_frames _ _ _ _ _ H4 E5) as [G5 _].
      exists (- EIO), l, s5. split_and!; [done|done|by do 4 (etrans; [eassumption|])|congruence|done].
  - destruct (free_hand _ _ _ _ H1) as (s2 & E2 & H2 & F2 & _). rewrite (st_bind_some _ _ _ _ _ E2).
    destruct (free_hand_frames _ _ _ _ _ H1 E2) as [G2 _]. exists (- EIO), l, s2. split_and!; [done|done|by etrans|congruence|done].
Qed.

Lemma alloc_skb_ok want l s :
  rx_at [] l s ->
  exists ret l' s', mhi_netdev_alloc_skb mru want s = Some (ret, s') /\ rx_at [] l' s' /\ fills s s' /\ frames s' = frames s /\
    (ret = 0 -> tq_room false (x_q s') = 0).
Proof.
  intros Hr. unfold mhi_netdev_alloc_skb. rewrite st_bind_gets. apply (alloc_loop_ok _ _ _ l); [done|].
  destruct Hr as (Hh & _). pose proof (tq_room_pos _ _ _ Hh). lia.
Qed.

(** The callback for a buffer that has just left the ring. *)
Lemma dl_cb_ok p status frame l s :
  rx_at [p] l s -> x_skbs s !! p = Some (RxBuf true []) -> zlen frame <= mru ->
  exists s', mhi_netdev_xfer_dl_cb mru p status frame s = Some (tt, s') /\ rx_at [] l s' /\ completes s s' /\ x_q s' = x_q s /\
    frames s' = frames s ++ (if status =? 0 then [frame] else []).
Proof.
  intros Hr Hp Hf. unfold mhi_netdev_xfer_dl_cb. rewrite (st_bind_some _ _ _ _ _ (skb_at_eq _ _ _ Hp)). cbn [rb_bound negb rb_data].
  destruct (status =? 0); cbn [negb].
  - unfold dl_deliver. rewrite (st_bind_some _ _ _ _ _ (skb_at_eq _ _ _ Hp)). cbn [rb_data app].
    rewrite (proj2 (Z.leb_le _ _) Hf). rewrite (st_bind_some _ (st_load (Some tt)) s tt s eq_refl).
    destruct (set_hand p (RxBuf false frame) _ _ _ Hr) as (s1 & E1 & H1 & F1 & Q1 & P1). rewrite (st_bind_some _ _ _ _ _ E1).
    destruct (set_hand_frames _ _ _ _ _ _ Hr E1) as [G1 C1]. rewrite st_modify_eq. eexists. split; [done|].
    destruct H1 as (Hh & Hb & Hc). split; [split_and!; [done|by eapply to_chain|done]|]. split; [etrans; [exact C1|by destruct s1]|].
    split; [done|]. rewrite <- G1. unfold frames. cbn. rewrite fmap_app, app_assoc. f_equal. change (frame_of (x_skbs s1) <$> [p]) with [frame_of (x_skbs s1) p]. unfold frame_of. by rewrite P1.
  - destruct (set_hand p (RxBuf false []) _ _ _ Hr) as (s1 & E1 & H1 & F1 & Q1 & P1). rewrite (st_bind_some _ _ _ _ _ E1).
    destruct (set_hand_frames _ _ _ _ _ _ Hr E1) as [G1 C1].
    destruct (free_hand _ _ _ _ H1) as (s2 & E2 & H2 & F2 & Q2). destruct (free_hand_frames _ _ _ _ _ H1 E2) as [G2 C2].
    exists s2. split_and!; [done|done|by etrans|by rewrite Q2, Q1|by rewrite G2, G1, app_nil_r].
Qed.

(** The frames of the transfers [evs] that a ring with [n] buffers completes. *)
Definition good (n : nat) (evs : list (Z * bytes)) : list bytes :=
  (fun e => ztake mru (snd e)) <$> filter (fun e => fst e = 0) (take n evs).

Lemma complete1_ok e l s :
  rx_at [] l s ->
  exists s', complete1 mru e s = Some (tt, s') /\ rx_at [] (tail l) s' /\ completes s s' /\
    frames s' = frames s ++ good (length l) [e].
Proof.
  intros (Hh & Hb & Hc). unfold complete1. pose proof (tq_done_same false (fst e) (zlen (snd e)) _ _ Hh) as Hd.
  destruct l as [|p l].
  - rewrite Hd. exists s. split_and!; [done|by split_and!|done|by rewrite app_nil_r].
  - destruct Hd as (q & -> & Hq). destruct (from_ring _ _ _ _ _ Hb) as [Hb' Hp].
    destruct (dl_cb_ok p (fst e) (ztake mru (snd e)) l (setx_q q s)) as (s' & E & Hr & C & _ & F).
    { by split_and!. }
    { done. }
    { unfold zlen, ztake. rewrite length_take. lia. }
    exists s'. split_and!; [done|done|etrans; [|exact C]; by destruct s|]. rewrite F. unfold good. cbn [length take].
    destruct (Z.eqb_spec (fst e) 0); [rewrite filter_cons_True by done|rewrite filter_cons_False by done]; by destruct (length l).
Qed.

Lemma good_cons e evs n : good (S n) (e :: evs) = good 1 [e] ++ good n evs.
Proof. unfold good. cbn [take]. destruct (decide (fst e = 0)) as [E|E]; [rewrite !filter_cons_True by done|rewrite !filter_cons_False by done]; done. Qed.

Lemma good_nil n : good n [] = [].
Proof. unfold good. by rewrite take_nil. Qed.

Lemma complete_all_ok evs : forall l s,
  rx_at [] l s ->
  exists l' s', complete_all mru evs s = Some (tt, s') /\ rx_at [] l' s' /\ completes s s' /\
    frames s' = frames s ++ good (length l) evs.
Proof.
  induction evs as [|e evs IH]; intros l s Hr; cbn [complete_all].
  { exists l, s. split_and!; [done|done|done|]. by rewrite good_nil, app_nil_r. }
  destruct (complete1_ok e l s Hr) as (s1 & E1 & H1 & C1 & F1). rewrite (st_bind_some _ _ _ _ _ E1).
  destruct (IH _ _ H1) as (l' & s' & E' & H' & C' & F'). exists l', s'. split_and!; [done|done|by etrans|].
  rewrite F', F1, <- app_assoc. f_equal. destruct l as [|p l]; [done|].
  cbn [length tail]. rewrite (good_cons e evs), (good_cons e [] (length l)), good_nil. by rewrite app_nil_r.
Qed.

(** ** The chain *)

(** Ring, worker and polling are as they were. *)
Definition drains s s' : Prop :=
  s' = setx_stack (x_stack s') (setx_n (x_n s') (setx_allocated (x_allocated s') (setx_chain (x_chain s') (setx_skbs (x_skbs s') s)))).

#[local] Instance drains_pre : PreOrder drains.
Proof. split; [by intros []|]. intros [] [] []. unfold drains. cbn. intros [= <- <- <- <- <- <- <- <-] [= <- <- <- <- <- <- <- <-]. done. Qed.

Lemma drains_same s s' : drains s s' -> x_q s' = x_q s /\ x_work s' = x_work s /\ x_retry s' = x_retry s.
Proof. intros ->. by destruct s. Qed.

Lemma rx_at_n n h l s : rx_at h l (setx_n n s) <-> rx_at h l s.
Proof. done. Qed.

Lemma rx_handler_ok env p l s :
  rx_at [p] l s ->
  exists ok s', rmnet_rx_handler env p s = Some (ok, s') /\ drains s s' /\ (ok = true -> rx_at [] l s' /\ frames s' = frames s) /\
    x_chain s' = x_chain s.
Proof.
  intros Hr. destruct (rx_hand _ _ _ _ Hr) as [b Hb]. unfold rmnet_rx_handler.
  rewrite (st_bind_some _ _ _ _ _ (skb_at_eq _ _ _ Hb)), st_bind_gets.
  destruct (if bool_decide _ then _ else _) as [n' pkts| |]; [|by exists false, s..].
  rewrite st_bind_modify. set (s1 := setx_n n' s). assert (H1 : rx_at [p] l s1) by exact Hr. rewrite st_bind_gets.
  assert (D1 : drains s s1) by (by destruct s). assert (G1 : frames s1 = frames s) by done.
  destruct (negb (fe_cloned env) && (length (x_allocated s1) <? 128)%nat) eqn:Ec.
  - destruct (set_hand p (RxBuf false []) _ _ _ H1) as (s2 & E2 & H2 & _ & Q2 & P2). rewrite (st_bind_some _ _ _ _ _ E2).
    destruct (set_hand_frames _ _ _ _ _ _ H1 E2) as [G2 _]. rewrite (skb_set_eq _ b) in E2 by exact Hb. injection E2 as <-.
    rewrite st_bind_modify. eexists true, _. split; [done|]. apply andb_prop in Ec as [_ Hl%Nat.ltb_lt].
    split; [by destruct s|]. split; [|done]. intros _. destruct H2 as (Hh & Hbu & Hc). split; [|done].
    split_and!; [done|by apply to_alloc|cbn in *; rewrite length_app; cbn; lia].
  - destruct (free_hand _ _ _ _ H1) as (s2 & E2 & H2 & _). rewrite (st_bind_some _ _ _ _ _ E2).
    destruct (free_hand_frames _ _ _ _ _ H1 E2) as [G2 _]. rewrite (kfree_skb_eq _ b) in E2 by exact Hb. injection E2 as <-.
    eexists true, _. split; [done|]. split; [by destruct s|]. split; [|done]. intros _. by split.
Qed.

(** A frame that is taken from the chain is handed over. *)
Lemma receive_ok env p ch l s :
  rx_at [] l s -> x_chain s = p :: ch ->
  exists ok s', receive env p (setx_chain ch s) = Some (ok, s') /\ drains s s' /\ x_chain s' = ch /\
    (ok = true -> rx_at [] l s' /\ frames s' = frames s).
Proof.
  intros (Hh & Hb & Hc) Ech. rewrite Ech in Hb. set (s0 := setx_chain ch s).
  assert (Hs0 : rx_at [p] l s0) by (split_and!; [done|by apply from_chain|done]).
  destruct (rx_hand _ _ _ _ Hs0) as [b Eb]. unfold receive. rewrite (st_bind_some _ _ _ _ _ (skb_at_eq _ _ _ Eb)), st_bind_modify, st_bind_gets.
  set (s1 := setx_stack (x_stack s0 ++ [rb_data b]) s0). assert (H1 : rx_at [p] l s1) by exact Hs0.
  assert (G1 : frames s1 = frames s).
  { unfold frames, s1, s0 in *. cbn in *. rewrite Ech, fmap_cons, <- app_assoc. cbn. do 2 f_equal. unfold frame_of. by rewrite Eb. }
  assert (D1 : drains s s1) by (by destruct s). destruct (x_handler s1).
  - destruct (rx_handler_ok env p l s1 H1) as (ok & s' & E & D & Hok & Hch). exists ok, s'. split_and!; [done|by etrans|by rewrite Hch|].
    intros E0. destruct (Hok E0). split; [done|congruence].
  - destruct (free_hand _ _ _ _ H1) as (s2 & E2 & H2 & _). rewrite (st_bind_some _ _ _ _ _ E2).
    destruct (free_hand_frames _ _ _ _ _ H1 E2) as [G2 _]. rewrite (kfree_skb_eq _ b) in E2 by exact Eb. injection E2 as <-.
    eexists true, _. split; [done|]. split; [by destruct s|]. split; [done|]. intros _. split; [done|congruence].
Qed.

Lemma drain_chain_ok env n : forall i l s,
  rx_at [] l s -> length (x_chain s) = n ->
  exists ok s', drain_chain env i n s = Some (ok, s') /\ drains s s' /\
    (ok = true -> rx_at [] l s' /\ frames s' = frames s /\ x_chain s' = []).
Proof.
  induction n as [|n IH]; intros i l s Hr Hn; cbn [drain_chain].
  { exists true, s. split_and!; [done|done|]. intros _. split_and!; [done|done|by apply nil_length_inv]. }
  destruct (x_chain s) as [|p ch] eqn:Ech; [done|]. injection Hn as Hn. unfold skb_dequeue, mbind at 1, st_bind at 1, mbind at 1, st_bind at 1.
  unfold st_gets at 1. rewrite Ech, st_bind_modify. unfold mret at 1, st_ret at 1.
  destruct (receive_ok (env i) p ch l s Hr Ech) as (ok & s1 & E1 & D1 & C1 & H1). rewrite (st_bind_some _ _ _ _ _ E1).
  destruct ok; cbn [negb]; [|by exists false, s1]. destruct (H1 eq_refl) as [H1' G1].
  destruct (IH (S i) l s1 H1') as (ok & s' & E' & D' & H'); [by rewrite C1|].
  exists ok, s'. split_and!; [done|by etrans|]. intros E. destruct (H' E) as (? & ? & ?). split_and!; [done|congruence|done].
Qed.

(** ** Supply *)

(** An enabled interface whose ring has free descriptors has its worker queued,
    with a delay between 20 and 640 ms. *)
Definition supplied s : Prop :=
  (n_enabled (x_n s) = true -> 0 < tq_room false (x_q s) -> x_work s <> None) /\
  (forall d, x_work s = Some d -> 20 <= d <= 640) /\ 0 <= x_retry s.

Definition rx_inv s : Prop := (exists l, rx_at [] l s) /\ supplied s.

Lemma delay_bounds r : 0 <= r -> 20 <= delay_ms r <= 640.
Proof.
  intros Hr. unfold delay_ms. rewrite Z.shiftl_mul_pow2 by lia.
  assert (1 <= 2 ^ Z.min r 5); [|assert (2 ^ Z.min r 5 <= 2 ^ 5); [|lia]].
  - apply (Z.pow_le_mono_r 2 0); lia.
  - apply Z.pow_le_mono_r; lia.
Qed.

(** Work that is queued or was queued anyway. *)
Definition queued_work (d : Z) s : rx Q := match x_work s with Some _ => s | None => setx_work (Some d) s end.

Lemma queued_work_at d h l s : rx_at h l (queued_work d s) <-> rx_at h l s.
Proof. unfold queued_work. by destruct (x_work s). Qed.

Lemma queued_work_supplied d s :
  20 <= d <= 640 -> (forall x, x_work s = Some x -> 20 <= x <= 640) -> 0 <= x_retry s -> supplied (queued_work d s).
Proof.
  intros Hd Hw Hr. unfold queued_work. destruct (x_work s) as [w|] eqn:E.
  - split; [intros _ _; by rewrite E|]. split; [|done]. intros x Ex. apply Hw. congruence.
  - split; [by cbn|]. split; [|done]. by intros x [= <-].
Qed.

Lemma queued_work_frames d s : frames (queued_work d s) = frames s.
Proof. unfold queued_work. by destruct (x_work s). Qed.

Lemma fills_rest s s' : fills s s' -> x_n s' = x_n s /\ x_work s' = x_work s /\ x_retry s' = x_retry s /\ x_napi s' = x_napi s.
Proof. intros ->. by destruct s. Qed.

(** The refill at the end of a poll. *)
Lemma poll_refill_ok want l s :
  rx_at [] l s -> (forall d, x_work s = Some d -> 20 <= d <= 640) -> 0 <= x_retry s -> x_work s = None ->
  exists s', (ret ← mhi_netdev_alloc_skb mru want;
      if ret =? 0 then mret tt
      else
        _ ← st_modify (fun s => setx_n (set_n_alloc_failed (x_n s) (n_alloc_failed (x_n s) + 1)) s);
        schedule_work 20) s = Some (tt, s') /\ rx_inv s' /\ frames s' = frames s /\ x_napi s' = x_napi s.
Proof.
  intros Hr Hw Hre Hn. destruct (alloc_skb_ok want l s Hr) as (ret & l' & s1 & E1 & H1 & F1 & G1 & R1).
  rewrite (st_bind_some _ _ _ _ _ E1). destruct (fills_rest _ _ F1) as (N1 & W1 & T1 & P1).
  destruct (Z.eqb_spec ret 0) as [Hz|Hz].
  - exists s1. split_and!; [done| |done|done]. split; [by exists l'|]. split_and!; [|by rewrite W1|by rewrite T1].
    intros _ Hp. rewrite (R1 Hz) in Hp. lia.
  - rewrite st_bind_modify. set (s2 := setx_n _ s1). eexists. split; [reflexivity|].
    change (match x_work s2 with Some _ => s2 | None => setx_work (Some 20) s2 end) with (queued_work 20 s2).
    split_and!.
    + split; [exists l'; by apply queued_work_at|]. apply queued_work_supplied; [lia|intros x; cbn; rewrite W1; apply Hw|cbn; by rewrite T1].
    + rewrite queued_work_frames. done.
    + unfold queued_work. by destruct (x_work s2).
Qed.

(** The frames of a poll. *)
Definition poll_frames (n : nat) (env : poll_env) (budget : nat) : list bytes :=
  match pe_events env with Ok evs => good n (concat (take budget evs)) | Err _ => [] end.

Lemma poll_ok env budget l s :
  rx_at [] l s -> supplied s ->
  exists r s', mhi_netdev_poll mru env budget s = Some (r, s') /\
    (is_Some r -> rx_inv s' /\ frames s' = frames s ++ poll_frames (length l) env budget /\ x_napi s' = x_napi s).
Proof.
  intros Hr Hs. unfold mhi_netdev_poll, poll_frames. destruct (pe_events env) as [evs|e].
  2: { unfold napi_complete. rewrite st_bind_modify. eexists _, _. split; [done|]. intros _.
       split; [split; [by exists l|done]|]. split; [by rewrite app_nil_r|done]. }
  destruct (complete_all_ok (concat (take budget evs)) l s Hr) as (l1 & s1 & E1 & H1 & C1 & G1).
  rewrite (st_bind_some _ _ _ _ _ E1), !st_bind_gets.
  assert (S1 : x_work s1 = x_work s /\ x_retry s1 = x_retry s /\ x_napi s1 = x_napi s) by (rewrite C1; by destruct s).
  assert (Hd : exists ok s2, (if bool_decide (n_type (x_n s1) = MHI_NET_UNKNOW) then mret true
                              else drain_chain (pe_frame env) 0 (length (x_chain s1))) s1 = Some (ok, s2) /\ drains s1 s2 /\
                 (ok = true -> rx_at [] l1 s2 /\ frames s2 = frames s1)).
  { case_bool_decide as Hu; [by exists true, s1|]. destruct (drain_chain_ok (pe_frame env) _ 0%nat l1 s1 H1 eq_refl) as (ok & s2 & E2 & D2 & H2).
    exists ok, s2. split_and!; [done|done|]. intros E. by destruct (H2 E) as (? & ? & _). }
  destruct Hd as (ok & s2 & E2 & D2 & H2). rewrite (st_bind_some _ _ _ _ _ E2).
  destruct ok; cbn [negb]; [|exists None, s2; split; [done|intros [? ?]; done]]. destruct (H2 eq_refl) as [H2' G2].
  rewrite st_bind_gets. destruct (drains_same _ _ D2) as (_ & W2 & T2). assert (P2 : x_napi s2 = x_napi s1) by (rewrite D2; by destruct s1).
  destruct Hs as (_ & Hw & Hre). destruct S1 as (W1 & T1 & P1).
  assert (Hf : exists s3, match x_work s2 with
            | Some _ => mret tt
            | None => ret ← mhi_netdev_alloc_skb mru (pe_want env);
                if ret =? 0 then mret tt
                else _ ← st_modify (fun s => setx_n (set_n_alloc_failed (x_n s) (n_alloc_failed (x_n s) + 1)) s); schedule_work 20
            end s2 = Some (tt, s3) /\ rx_inv s3 /\ frames s3 = frames s2 /\ x_napi s3 = x_napi s2).
  { destruct (x_work s2) as [d|] eqn:Ew.
    - exists s2. split_and!; [done| |done|done]. split; [by exists l1|].
      split; [intros _ _; by rewrite Ew|]. split; [|congruence]. intros x Ex. apply Hw. congruence.
    - apply (poll_refill_ok _ l1); [done|by rewrite Ew|congruence|done]. }
  destruct Hf as (s3 & E3 & H3 & G3 & P3). rewrite (st_bind_some _ _ _ _ _ E3).
  destruct (length (take budget evs) <? budget)%nat.
  - unfold napi_complete. rewrite st_bind_modify. eexists _, _. split; [done|]. intros _.
    split; [exact H3|]. split; [|cbn; congruence]. change (frames (setx_sched false s3)) with (frames s3). congruence.
  - rewrite (st_bind_some _ (mret tt) s3 tt s3 eq_refl). eexists _, _. split; [done|]. intros _. split; [done|split; congruence].
Qed.

Lemma work_ok want s :
  rx_inv s ->
  exists s', mhi_netdev_alloc_work mru want s = Some (tt, s') /\ rx_inv s' /\ frames s' = frames s /\
    (x_work s' <> None \/ n_enabled (x_n s') = false \/ (tq_room false (x_q s') = 0 /\ x_retry s' = 0)).
Proof.
  intros ([l Hr] & _ & Hw & Hre). unfold mhi_netdev_alloc_work. rewrite st_bind_modify.
  destruct (alloc_skb_ok want l (setx_work None s) Hr) as (ret & l' & s1 & E1 & H1 & F1 & G1 & R1).
  rewrite (st_bind_some _ _ _ _ _ E1). destruct (fills_rest _ _ F1) as (N1 & W1 & T1 & P1). cbn in W1, T1.
  destruct (Z.eqb_spec ret 0) as [Hz|Hz].
  - rewrite st_modify_eq. eexists. split; [done|]. split; [|split; [done|by right; right; split; [apply R1|]]].
    split; [by exists l'|]. split; [|by split; [cbn; rewrite W1|]]. intros _ Hp. cbn in Hp. rewrite (R1 Hz) in Hp. lia.
  - rewrite st_bind_gets. destruct (n_enabled (x_n s1)) eqn:En; cbn [negb].
    + rewrite st_bind_gets, st_bind_modify. set (s2 := setx_retry _ s1). eexists. split; [reflexivity|].
      change (match x_work s2 with Some _ => s2 | None => setx_work (Some (delay_ms (x_retry s1))) s2 end)
        with (queued_work (delay_ms (x_retry s1)) s2).
      assert (Hs : supplied (queued_work (delay_ms (x_retry s1)) s2)).
      { apply queued_work_supplied; [apply delay_bounds; by rewrite T1|intros x; cbn; by rewrite W1|]. cbn. apply Z.mod_pos_bound. lia. }
      split_and!; [split; [exists l'; by apply queued_work_at|done]|by rewrite queued_work_frames|].
      left. unfold queued_work. cbn. by rewrite W1.
    + exists s1. split_and!; [done| |done|by right; left]. split; [by exists l'|]. split_and!; [by rewrite En|by rewrite W1|by rewrite T1].
Qed.

(** Freeing everything in hand. *)
Lemma free_all_ok h : forall l s,
  rx_at h l s -> exists s', free_all h s = Some (tt, s') /\ rx_at [] l s' /\ s' = setx_skbs (x_skbs s') s /\ frames s' = frames s.
Proof.
  induction h as [|p h IH]; intros l s Hr; cbn [free_all]; [exists s; split_and!; [done|done|by destruct s|done]|].
  destruct (free_hand _ _ _ _ Hr) as (s1 & E1 & H1 & _). destruct (free_hand_frames _ _ _ _ _ Hr E1) as [G1 _].
  destruct (rx_hand _ _ _ _ Hr) as [b Hb]. rewrite (st_bind_some _ _ _ _ _ E1). rewrite (kfree_skb_eq _ b) in E1 by exact Hb.
  injection E1 as <-. destruct (IH l _ H1) as (s' & E' & H' & D' & G'). exists s'. split_and!; [done|done| |congruence].
  rewrite D'. by destruct s.
Qed.

Lemma dealloc_ok l s :
  rx_at [] l s ->
  exists s', mhi_netdev_dealloc s = Some (tt, s') /\ rx_at [] l s' /\ s' = setx_skbs (x_skbs s') (setx_allocated [] s) /\
    frames s' = frames s.
Proof.
  intros (Hh & [Hl (F1 & F2 & F3)] & Hc). unfold mhi_netdev_dealloc. rewrite st_bind_gets, st_bind_modify.
  destruct (free_all_ok (x_allocated s) l (setx_allocated [] s)) as (s' & E & H' & D & G).
  { split_and!; [done| |cbn; lia]. split; [|by split_and!]. eapply live_perm; [|exact Hl]. cbn. rewrite app_nil_r, app_assoc.
    apply Permutation_app_comm. }
  exists s'. by split_and!.
Qed.

(** A reset of the inbound channel drops what the ring holds. *)
Lemma drop_all_ok h : forall l s,
  rx_at h l s -> Forall (fun p => x_skbs s !! p = Some (RxBuf true [])) h ->
  exists s', drop_all mru h s = Some (tt, s') /\ rx_at [] l s' /\ s' = setx_skbs (x_skbs s') s /\ frames s' = frames s.
Proof.
  induction h as [|p h IH]; intros l s Hr Hf; cbn [drop_all]; [exists s; split_and!; [done|done|by destruct s|done]|].
  apply Forall_cons in Hf as [Hp Hf]. set (s1 := setx_skbs (delete p (x_skbs s)) s).
  destruct (set_hand p (RxBuf false []) _ _ _ Hr) as (s0 & E0 & H0' & _). destruct (set_hand_frames _ _ _ _ _ _ Hr E0) as [G0 _].
  destruct (free_hand _ _ _ _ H0') as (s2 & E2 & H2 & _). destruct (free_hand_frames _ _ _ _ _ H0' E2) as [G2 _].
  assert (E : mhi_netdev_xfer_dl_cb mru p (- ENOTCONN) [] s = Some (tt, s1) /\ s2 = s1).
  { unfold mhi_netdev_xfer_dl_cb. rewrite (st_bind_some _ _ _ _ _ (skb_at_eq _ _ _ Hp)). cbn [rb_bound negb rb_data].
    change (- ENOTCONN =? 0) with false. cbn [negb]. rewrite (st_bind_some _ _ _ _ _ E0), E2.
    rewrite (skb_set_eq _ _ _ _ Hp) in E0. injection E0 as <-. rewrite (kfree_skb_eq _ (RxBuf false [])) in E2 by apply lookup_insert_eq.
    injection E2 as <-. unfold s1. cbn. rewrite delete_insert_eq. by split. }
  destruct E as [E ->]. rewrite (st_bind_some _ _ _ _ _ E).
  destruct (IH l s1 H2) as (s' & E' & H' & D' & G').
  { rewrite Forall_forall in *. intros q Hq. cbn. rewrite lookup_delete_ne; [by apply Hf|]. intros <-.
    destruct Hr as (_ & [Hl _] & _). apply live_nodup in Hl. apply NoDup_cons in Hl as [Hl _]. apply Hl, elem_of_app. by left. }
  exists s'. split_and!; [done|done|rewrite D'; by destruct s|congruence].
Qed.

Lemma reset_inbound_ok l s :
  rx_at [] l s ->
  exists s', reset_inbound mru s = Some (tt, s') /\ rx_at [] [] s' /\ s' = setx_skbs (x_skbs s') (setx_q (x_q s') s) /\
    frames s' = frames s.
Proof.
  intros (Hh & [Hl (F1 & F2 & F3)] & Hc). unfold reset_inbound. destruct (tq_drain_same false _ _ Hh) as [Ed Hd].
  destruct (tq_drain false (x_q s)) as [l' q]. cbn [fst snd] in *. subst l'.
  destruct (drop_all_ok l [] (setx_q q s)) as (s' & E & H' & D & G); [by split_and!|done|].
  exists s'. split_and!; [done|done| |done]. rewrite D. by destruct s.
Qed.

(** ** Starting and resetting *)

Lemma napi_enable_eq s : x_napi s = false -> napi_enable s = Some (tt, setx_napi true (setx_sched false s)).
Proof. intros E. unfold napi_enable. rewrite st_bind_gets. by rewrite E. Qed.

(** The device after a start. *)
Definition enabled_n s : mhi_netdev :=
  mhi_netdev_pm_hold (set_n_enabled (if x_ndev s then x_n s else set_n_carrier (x_n s) false) true).

Lemma enable_ok env l s :
  rx_at [] l s -> n_enabled (x_n s) = false -> (forall d, x_work s = Some d -> 20 <= d <= 640) -> 0 <= x_retry s -> x_napi s = false ->
  exists ret s', mhi_netdev_enable_iface mru env s = Some (ret, s') /\ rx_inv s' /\ frames s' = frames s /\
    (ret = 0 -> x_n s' = enabled_n s /\ x_napi s' = true) /\ (ret <> 0 -> x_napi s' = false).
Proof.
  intros Hr He Hw Hre Hn. assert (Hs : supplied s) by (split_and!; [by rewrite He|done|done]). unfold mhi_netdev_enable_iface.
  destruct (Z.eqb_spec (ee_prepare env) 0) as [Hz|Hz]; cbn [negb].
  2: { exists (ee_prepare env), s. split_and!; [done|by split; [exists l|]|done|done|done]. }
  rewrite st_bind_gets. set (ret := if x_ndev s then 0 else _). destruct (Z.eqb_spec ret 0) as [Hz'|Hz']; cbn [negb].
  2: { destruct (reset_inbound_ok l s Hr) as (s1 & E1 & H1 & D1 & G1). rewrite (st_bind_some _ _ _ _ _ E1). exists ret, s1.
       assert (Hk : x_n s1 = x_n s /\ x_work s1 = x_work s /\ x_retry s1 = x_retry s /\ x_napi s1 = x_napi s) by (rewrite D1; by destruct s).
       destruct Hk as (N & W & T & P). split_and!; [done| |done|done|congruence]. split; [by exists []|].
       split; [intros Hx; congruence|]. split; [by rewrite W|by rewrite T]. }
  set (s0 := if x_ndev s then s else setx_ndev true (setx_n (set_n_carrier (x_n s) false) s)).
  assert (E0 : (if x_ndev s then mret tt else st_modify (fun s => setx_ndev true (setx_n (set_n_carrier (x_n s) false) s))) s = Some (tt, s0))
    by (unfold s0; by destruct (x_ndev s)).
  rewrite (st_bind_some _ _ _ _ _ E0), st_bind_modify. set (s1 := setx_n _ s0).
  assert (K : rx_at [] l s1 /\ x_work s1 = x_work s /\ x_retry s1 = x_retry s /\ x_napi s1 = false /\ frames s1 = frames s /\ x_n s1 = enabled_n s).
  { unfold s1, s0, enabled_n. destruct (x_ndev s); by split_and!. }
  destruct K as (H1 & W1 & T1 & P1 & G1 & N1).
  destruct (alloc_skb_ok (ee_want env) l s1 H1) as (r & l' & s2 & E2 & H2 & F2 & G2 & R2).
  rewrite (st_bind_some _ _ _ _ _ E2). destruct (fills_rest _ _ F2) as (N2 & W2 & T2 & P2).
  set (s3 := if r =? 0 then s2 else queued_work 20 s2).
  assert (E3 : (if r =? 0 then mret tt else schedule_work 20) s2 = Some (tt, s3)) by (unfold s3; by destruct (r =? 0)).
  assert (H3 : rx_inv s3 /\ x_napi s3 = false /\ frames s3 = frames s /\ x_n s3 = enabled_n s).
  { unfold s3. destruct (Z.eqb_spec r 0) as [Hr0|Hr0].
    - split_and!; [|congruence|congruence|congruence]. split; [by exists l'|]. split; [|split; [rewrite W2, W1; exact Hw|congruence]].
      intros _ Hp. rewrite (R2 Hr0) in Hp. lia.
    - split_and!; [|unfold queued_work; split_match; cbn; congruence|rewrite queued_work_frames; congruence|unfold queued_work; split_match; cbn; congruence].
      split; [exists l'; by apply queued_work_at|]. apply queued_work_supplied; [lia|rewrite W2, W1; exact Hw|congruence]. }
  destruct H3 as (H3 & P3 & G3 & N3). rewrite (st_bind_some _ _ _ _ _ E3), (st_bind_some _ _ _ _ _ (napi_enable_eq _ P3)).
  eexists 0, _. split; [done|]. split_and!; [exact H3|done|done|done].
Qed.

Lemma release_disabled n : n_enabled (mhi_netdev_pm_release (set_n_enabled n false)) = false.
Proof. unfold mhi_netdev_pm_release. by split_match. Qed.

Lemma reset_iface_ok env s :
  rx_inv s ->
  exists r s', reset_iface mru env s = Some (r, s') /\ (is_Some r -> rx_inv s' /\ frames s' = frames s) /\
    (x_napi s = true -> is_Some r).
Proof.
  intros ([l Hr] & _ & Hw & Hre). unfold reset_iface, napi_disable. rewrite st_bind_modify. unfold mbind at 1, st_bind at 1.
  rewrite st_bind_gets, st_bind_modify. cbn [x_napi setx_n]. unfold mret at 1, st_ret at 1.
  destruct (x_napi s) eqn:En; cbn [negb]; [|eexists None, _; split; [done|split; [intros [? ?]; done|done]]].
  rewrite st_bind_modify. set (s1 := setx_n _ (setx_napi false _)).
  assert (N1 : n_enabled (x_n s1) = false) by (cbn; apply release_disabled).
  assert (H1 : rx_at [] l s1) by exact Hr. destruct (reset_inbound_ok l s1 H1) as (s2 & E2 & H2 & D2 & G2).
  rewrite (st_bind_some _ _ _ _ _ E2). destruct (dealloc_ok [] s2 H2) as (s3 & E3 & H3 & D3 & G3).
  rewrite (st_bind_some _ _ _ _ _ E3).
  assert (K : x_n s3 = x_n s1 /\ x_work s3 = x_work s /\ x_retry s3 = x_retry s /\ x_napi s3 = false).
  { rewrite D3. cbn. rewrite D2. cbn. done. }
  destruct K as (N3 & W3 & T3 & P3).
  destruct (enable_ok env [] s3 H3) as (ret & s4 & E4 & H4 & G4 & Hok & _); [congruence|rewrite W3; exact Hw|congruence|done|].
  rewrite (st_bind_some _ _ _ _ _ E4). assert (F4 : frames s4 = frames s) by (rewrite G4, G3, G2; done).
  destruct (Z.eqb_spec ret 0) as [Hz|Hz]; cbn [negb].
  - rewrite st_bind_modify. eexists (Some 0), _. split; [done|]. split; [|done]. intros _. split; [exact H4|exact F4].
  - exists (Some ret), s4. by split_and!.
Qed.

Lemma status_cb_ok pending s :
  rx_inv s -> exists s', mhi_netdev_status_cb pending s = Some (tt, s') /\ rx_inv s' /\ frames s' = frames s.
Proof. intros Hr. unfold mhi_netdev_status_cb. rewrite !st_bind_gets. destruct (_ && _ && _); by eexists. Qed.

(** ** Removal *)

Lemma live_nil m : live [] m -> m = ∅.
Proof. intros Hl. apply map_empty. intros p. apply eq_None_not_Some. intros Hp%(live_some _ _ p Hl). set_solver. Qed.

Lemma netdev_remove_disabled n : n_enabled (mhi_netdev_remove n) = false.
Proof. unfold mhi_netdev_remove. cbn. apply release_disabled. Qed.

(** A disabled interface takes no buffer. *)
Lemma alloc_disabled want i n s :
  n_enabled (x_n s) = false -> x_allocated s = [] -> exists ret, alloc_loop mru want i n s = Some (ret, s).
Proof.
  intros Hn Ha. destruct n as [|n]; cbn [alloc_loop]; [by exists 0|].
  assert (T : exists o s1, take_buf (want i) s = Some (o, s1) /\
            match o with None => s1 = s | Some p => s1 = setx_skbs (<[p := RxBuf false []]> (x_skbs s)) s /\ x_skbs s !! p = None end).
  { unfold take_buf, skb_dequeue, mbind, st_bind, st_gets. rewrite Ha. cbn [mret st_ret]. unfold alloc_skb, mbind, st_bind, st_gets.
    destruct (want i) as [p|]; [|by exists None, s]. case_bool_decide as Hp; [|by exists None, s]. by eexists (Some p), _. }
  destruct T as (o & s1 & E & T). rewrite (st_bind_some _ _ _ _ _ E). destruct o as [p|]; [|subst s1; by eexists].
  destruct T as [-> Hp]. rewrite st_bind_gets. cbn [x_n setx_skbs]. rewrite Hn. cbn [negb].
  rewrite (st_bind_some _ _ _ _ _ (kfree_skb_eq p (RxBuf false []) (setx_skbs (<[p := RxBuf false []]> (x_skbs s)) s) (lookup_insert_eq _ _ _))).
  eexists. cbn. rewrite delete_insert_id by done. by destruct s.
Qed.

Lemma work_disabled want s :
  n_enabled (x_n s) = false -> x_allocated s = [] ->
  exists r, mhi_netdev_alloc_work mru want s = Some (tt, setx_retry r (setx_work None s)).
Proof.
  intros Hn Ha. unfold mhi_netdev_alloc_work, mhi_netdev_alloc_skb. rewrite st_bind_modify.
  destruct (alloc_disabled want 0 (Z.to_nat (tq_room false (x_q s))) (setx_work None s) Hn Ha) as [ret E].
  unfold mbind at 1, st_bind at 1. rewrite st_bind_gets. cbn [x_q setx_work]. rewrite E. destruct (ret =? 0); [by exists 0|].
  rewrite st_bind_gets. cbn [x_n setx_work]. rewrite Hn. cbn [negb]. exists (x_retry s). by destruct s.
Qed.

(** After the removal the core resets the channel, and no buffer is left. *)
Lemma remove_iface_ok want s :
  rx_inv s -> x_napi s = true ->
  exists s' s'', remove_iface mru want s = Some (true, s') /\ n_enabled (x_n s') = false /\ x_work s' = None /\
    reset_inbound mru s' = Some (tt, s'') /\ x_skbs s'' = ∅ /\ x_stack s'' = x_stack s.
Proof.
  intros ([l Hr] & _ & Hw & Hre) Hn. unfold remove_iface. rewrite st_bind_modify, st_bind_gets, st_bind_modify.
  set (s1 := setx_chain [] _). assert (H1 : rx_at (x_chain s) l s1).
  { destruct Hr as (Hh & [Hl (F1 & F2 & F3)] & Hc). split_and!; [done| |done]. split; [|by split_and!]. eapply live_perm; [|exact Hl].
    cbn. rewrite !app_assoc. apply Permutation_app_tail, Permutation_app_comm. }
  cbn [x_chain setx_handler setx_n]. destruct (free_all_ok _ l s1 H1) as (s2 & E2 & H2 & D2 & G2). rewrite (st_bind_some _ _ _ _ _ E2).
  destruct (dealloc_ok l s2 H2) as (s3 & E3 & H3 & D3 & G3). rewrite (st_bind_some _ _ _ _ _ E3).
  assert (K3 : x_napi s3 = true /\ x_chain s3 = [] /\ x_work s3 = x_work s /\ x_retry s3 = x_retry s /\ n_enabled (x_n s3) = false /\ x_stack s3 = x_stack s).
  { rewrite D3, D2. cbn. split_and!; try done. apply netdev_remove_disabled. }
  destruct K3 as (P3 & C3 & W3 & T3 & N3 & X3). unfold napi_disable, mbind at 1, st_bind at 1. rewrite st_bind_gets, st_bind_modify, P3.
  unfold mret at 1, st_ret at 1. cbn [negb]. set (s4 := setx_napi false s3).
  destruct (dealloc_ok l s4 H3) as (s5 & E5 & H5 & D5 & G5). rewrite (st_bind_some _ _ _ _ _ E5), st_bind_modify.
  set (s6 := setx_ndev false s5).
  assert (K6 : x_chain s6 = [] /\ x_work s6 = x_work s /\ x_retry s6 = x_retry s /\ n_enabled (x_n s6) = false /\ x_stack s6 = x_stack s /\ x_allocated s6 = []).
  { unfold s6. cbn. rewrite D5. cbn. done. }
  destruct K6 as (C6 & W6 & T6 & N6 & X6 & A6).
  assert (Hf : exists l' s7, flush_work mru want s6 = Some (tt, s7) /\ rx_at [] l' s7 /\ x_work s7 = None /\ n_enabled (x_n s7) = false /\
      x_chain s7 = [] /\ x_stack s7 = x_stack s /\ x_allocated s7 = []).
  { unfold flush_work. rewrite st_bind_gets. destruct (x_work s6) eqn:Ew; [|by exists l, s6].
    destruct (work_disabled want s6 N6 A6) as (r & ->). exists l. eexists. split; [done|]. by split_and!. }
  destruct Hf as (l' & s7 & E7 & (Hh & Hb & Hc) & W7 & N7 & C7 & X7 & A7). rewrite (st_bind_some _ _ _ _ _ E7).
  destruct (reset_inbound_ok l' s7 ltac:(by split_and!)) as (s8 & E8 & H8 & D8 & G8). exists s7, s8. split_and!; try done.
  - destruct H8 as (_ & [Hl _] & _). assert (x_chain s8 = [] /\ x_allocated s8 = []) as [C8 A8] by (rewrite D8; cbn; done).
    rewrite C8, A8 in Hl. by apply live_nil.
  - rewrite D8. cbn. congruence.
Qed.

(** ** Runs *)

Inductive rx_op :=
| OpPoll (env : poll_env) (budget : nat)
| OpWork (want : nat -> option Z)
| OpStatus (pending : bool)
| OpReset (env : enable_env)
| OpRegister.

(** [false]: the operation does not end.  A poll needs polling to be enabled and
    asked for, the worker to be queued. *)
Definition do_op (op : rx_op) : st (rx Q) bool :=
  match op with
  | OpPoll env budget =>
      napi ← st_gets x_napi; sched ← st_gets x_sched;
      if napi && sched then r ← mhi_netdev_poll mru env budget; mret (bool_decide (is_Some r)) else mret true
  | OpWork want => w ← st_gets x_work; match w with Some _ => _ ← mhi_netdev_alloc_work mru want; mret true | None => mret true end
  | OpStatus pending => _ ← mhi_netdev_status_cb pending; mret true
  | OpReset env => r ← reset_iface mru env; mret (bool_decide (is_Some r))
  | OpRegister => _ ← st_modify (setx_handler true); mret true
  end.

(** The frames the device completes with success during an operation. *)
Definition op_due (op : rx_op) s : list bytes :=
  match op with
  | OpPoll env budget => if x_napi s && x_sched s then poll_frames (tq_count false (x_q s)) env budget else []
  | _ => []
  end.

(** The frames due, in order; [None] when an operation does not end. *)
Fixpoint rx_run (ops : list rx_op) (due : list bytes) : st (rx Q) (option (list bytes)) :=
  match ops with
  | [] => mret (Some due)
  | op :: ops =>
      d ← st_gets (op_due op);
      ok ← do_op op;
      if negb ok then mret None else rx_run ops (due ++ d)
  end.

Lemma do_op_ok op s :
  rx_inv s ->
  exists ok s', do_op op s = Some (ok, s') /\ (ok = true -> rx_inv s' /\ frames s' = frames s ++ op_due op s).
Proof.
  intros Hi. destruct op as [env budget|want|pending|env|]; cbn [do_op op_due].
  - rewrite !st_bind_gets. destruct (x_napi s && x_sched s); [|exists true, s; split; [done|by rewrite app_nil_r]].
    destruct Hi as ([l Hr] & Hs). destruct (poll_ok env budget l s Hr Hs) as (r & s' & E & H'). rewrite (st_bind_some _ _ _ _ _ E).
    destruct Hr as (Hh & _). rewrite (tq_count_held _ _ _ Hh).
    eexists _, s'. split; [done|]. intros Hok%bool_decide_eq_true. by destruct (H' Hok) as (? & ? & _).
  - rewrite st_bind_gets. destruct (x_work s); [|exists true, s; split; [done|by rewrite app_nil_r]].
    destruct (work_ok want s Hi) as (s' & E & H' & G & _). rewrite (st_bind_some _ _ _ _ _ E). exists true, s'. by rewrite app_nil_r.
  - destruct (status_cb_ok pending s Hi) as (s' & E & H' & G). rewrite (st_bind_some _ _ _ _ _ E). exists true, s'. by rewrite app_nil_r.
  - destruct (reset_iface_ok env s Hi) as (r & s' & E & H' & _). rewrite (st_bind_some _ _ _ _ _ E). eexists _, s'. split; [done|].
    rewrite app_nil_r. by intros Hok%bool_decide_eq_true%H'.
  - rewrite st_bind_modify. eexists true, _. split; [done|]. intros _. by rewrite app_nil_r.
Qed.

Lemma rx_run_ok ops : forall due s,
  rx_inv s ->
  exists r s', rx_run ops due s = Some (r, s') /\
    (forall due', r = Some due' -> rx_inv s' /\ exists new, due' = due ++ new /\ frames s' = frames s ++ new).
Proof.
  induction ops as [|op ops IH]; intros due s Hi; cbn [rx_run].
  { exists (Some due), s. split; [done|]. intros ? [= <-]. split; [done|]. exists []. by rewrite !app_nil_r. }
  rewrite st_bind_gets. destruct (do_op_ok op s Hi) as (ok & s1 & E1 & H1). rewrite (st_bind_some _ _ _ _ _ E1).
  destruct ok; cbn [negb]; [|by exists None, s1]. destruct (H1 eq_refl) as [Hi1 G1].
  destruct (IH (due ++ op_due op s) s1 Hi1) as (r & s' & E' & H'). exists r, s'. split; [done|]. intros due' Er.
  destruct (H' due' Er) as (Hi' & new & -> & G'). split; [done|]. exists (op_due op s ++ new).
  split; [by rewrite app_assoc|by rewrite G', G1, app_assoc].
Qed.

(** A device that has been probed. *)
Definition rx0 (q : Q) (n : mhi_netdev) : rx Q := Rx q n ∅ [] [] None 0 false false false false [] 0.

Lemma rx0_at q n : tq_held false q [] -> rx_at [] [] (rx0 q n).
Proof. intros Hq. split_and!; [done| |cbn; lia]. split; [unfold live; cbn; by rewrite dom_empty_L|by split_and!]. Qed.

(** A device that is started and has run. *)
Definition started (q : Q) (n : mhi_netdev) (env : enable_env) (ops : list rx_op) (due : list bytes) s : Prop :=
  exists s1, mhi_netdev_enable_iface mru env (rx0 q n) = Some (0, s1) /\ rx_run ops [] s1 = Some (Some due, s).

Lemma started_inv q n env ops due s :
  tq_held false q [] -> n_enabled n = false -> started q n env ops due s -> rx_inv s /\ frames s = due.
Proof.
  intros Hq Hn (s1 & E1 & E2).
  destruct (enable_ok env [] (rx0 q n) (rx0_at q n Hq) Hn) as (ret & s1' & E1' & H1 & G1 & _); [done|cbn; lia|done|].
  rewrite E1 in E1'. injection E1' as <- <-. destruct (rx_run_ok ops [] s1 H1) as (r & s' & E' & H'). rewrite E2 in E'. injection E' as <- <-.
  destruct (H' due eq_refl) as (Hi & new & -> & G). split; [done|]. by rewrite G, G1.
Qed.

(** C9. The receive ring never runs dry unattended: starting the interface and any
    sequence of polls, worker runs, notifications and resets, with memory failing
    and transfers refused at any point, touches no freed buffer; whenever the
    interface is enabled and a receive descriptor is free, the refill worker is
    queued with a delay of 20 to 640 ms; and whenever the worker runs it leaves a
    full ring, or is queued again, or the interface is disabled. *)
Theorem rx_never_starves q n env ops :
  tq_held false q [] -> n_enabled n = false ->
  exists ret s1 r s, mhi_netdev_enable_iface mru env (rx0 q n) = Some (ret, s1) /\ rx_run ops [] s1 = Some (r, s) /\
    (is_Some r -> n_enabled (x_n s) = true -> 0 < tq_room false (x_q s) -> exists d, x_work s = Some d /\ 20 <= d <= 640) /\
    (is_Some r -> forall want, exists s', mhi_netdev_alloc_work mru want s = Some (tt, s') /\
       (x_work s' <> None \/ n_enabled (x_n s') = false \/ tq_room false (x_q s') = 0)).
Proof.
  intros Hq Hn. destruct (enable_ok env [] (rx0 q n) (rx0_at q n Hq) Hn) as (ret & s1 & E1 & H1 & _); [done|cbn; lia|done|].
  destruct (rx_run_ok ops [] s1 H1) as (r & s & E & H'). exists ret, s1, r, s. split_and!; [done|done| |].
  - intros [due Hd] Hen Hroom. destruct (H' due Hd) as ((_ & Hs & Hw & _) & _). specialize (Hs Hen Hroom).
    destruct (x_work s) as [d|] eqn:Ed; [|done]. exists d. split; [done|by apply Hw].
  - intros [due Hd] want. destruct (H' due Hd) as (Hi & _). destruct (work_ok want s Hi) as (s' & E' & _ & _ & Ht).
    exists s'. split; [done|]. destruct Ht as [?|[?|[? _]]]; auto.
Qed.


End RxProofs.

(** ** Examples *)

Definition ex_skb_queue : TransferQueue chan_pair := skb_pair_queue ex_map (fun p => p).
Definition ex_skb_roomy : @RoomyQueue chan_pair ex_skb_queue := skb_pair_roomy ex_map (fun p => p).
Definition ex_rx_n : mhi_netdev := set_n_enabled ex_nd2 false.
Definition ex_want (i : nat) : option Z := Some (4096 + 64 * Z.of_nat i).
Definition ex_enable : enable_env := EnableEnv 0 true 0 ex_want.
Definition ex_frame : bytes := [3; 0x81; 0; 8; 0x45; 1; 2; 3; 4; 0xEE; 0xEE; 0xEE].

(** The device completes a frame and an error; nothing is found for a new buffer. *)
Definition ex_ops : list rx_op :=
  [OpRegister; OpStatus true;
   OpPoll (PollEnv (Ok [[(0, ex_frame)]; [(- EOVERFLOW, ex_frame)]])
             (fun _ => FrameEnv (fun _ => true) ex_params 0 1 false) (fun _ => None)) 64].

Lemma ex_rx_held : @tq_held _ ex_skb_queue false ex_pair [].
Proof. exact (ex_pair_held false). Qed.

Definition ex_up : option (Z * rx chan_pair) := @mhi_netdev_enable_iface _ ex_skb_queue 64 ex_enable (rx0 ex_pair ex_rx_n).
Definition ex_s1 : rx chan_pair := from_option snd (rx0 ex_pair ex_rx_n) ex_up.
Definition ex_s2 : rx chan_pair := from_option snd ex_s1 (@rx_run _ ex_skb_queue 64 ex_ops [] ex_s1).

Lemma ex_up_eq : ex_up = Some (0, ex_s1).
Proof. vm_compute. reflexivity. Qed.

Lemma ex_started : @started _ ex_skb_queue 64 ex_pair ex_rx_n ex_enable ex_ops [ex_frame] ex_s2.
Proof. exists ex_s1. split; [exact ex_up_eq|vm_compute; reflexivity]. Qed.

(** The frame is handed over and its buffer queued again, the error freed; no
    memory is found for the third descriptor, and the worker comes in 20 ms. *)
Example ex_after_poll :
  x_napi ex_s2 = true /\ x_work ex_s2 = Some 20 /\ x_stack ex_s2 = [ex_frame] /\ size (x_skbs ex_s2) = 2%nat.
Proof. split_and!; vm_compute; reflexivity. Qed.

Lemma rx_never_starves_witness :
  exists ret s1 r s, @mhi_netdev_enable_iface _ ex_skb_queue 64 ex_enable (rx0 ex_pair ex_rx_n) = Some (ret, s1) /\
    @rx_run _ ex_skb_queue 64 ex_ops [] s1 = Some (r, s) /\
    (is_Some r -> n_enabled (x_n s) = true -> 0 < @tq_room _ ex_skb_queue false (x_q s) -> exists d, x_work s = Some d /\ 20 <= d <= 640) /\
    (is_Some r -> forall want, exists s', @mhi_netdev_alloc_work _ ex_skb_queue 64 want s = Some (tt, s') /\
       (x_work s' <> None \/ n_enabled (x_n s') = false \/ @tq_room _ ex_skb_queue false (x_q s') = 0)).
Proof. apply (@rx_never_starves _ ex_skb_queue ex_skb_roomy 64 ltac:(lia) ex_pair ex_rx_n ex_enable ex_ops ex_rx_held eq_refl). Defined.


(** A reset whose restart fails leaves polling disabled: the removal of the device
    then waits for ever. *)
Definition ex_failed : option (option Z * rx chan_pair) := @reset_iface _ ex_skb_queue 64 (EnableEnv (- EIO) true 0 ex_want) ex_s1.

Example failed_restart_blocks_removal :
  fst <$> ex_failed = Some (Some (- EIO)) /\
  (fst <$> (r ← ex_failed; @remove_iface _ ex_skb_queue 64 ex_want (snd r))) = Some false.
Proof. split; vm_compute; reflexivity. Qed.
