(* ===== verification/NetProbe.v ===== *)
(** * Probing the network device

    mhi_netdev_probe and rmnet_vnd_register_device of
    devices/mhi_netdev_quectel.c: the configuration of the device for its channel
    and modem, the start of the interface and the registration of the virtual
    interfaces.  A device that is probed has what the theorems on the receive
    handler, on flow control and on receive buffers assume. *)

From S2P Require Import Prelude CLib MhiReg MhiRing MhiCtrl MhiPm MhiXfer MhiFifo MhiQueue Netdev Qmap Mbim NetFlow NetRx RxProofs.

Definition QCUSB_MRECEIVE_MAX_BUFFER_SIZE : Z := 1024 * 32.
Definition MBIM_MUX_ID_SDX7X : Z := 112.
Definition node_id : list Z := [0x02; 0x50; 0xf4; 0; 0; 0].
Definition sizeof_rmnet_map_v5_csum_header : Z := 4.

(** ** Configuration *)

(** The receive size and the largest MTU of a type of device. *)
Definition probe_mru (t : mhi_net_type) : Z :=
  match t with MHI_NET_MBIM => QCUSB_MRECEIVE_MAX_BUFFER_SIZE | MHI_NET_ETHER => 8 * 1024 | _ => 15 * 1024 end.
Definition probe_max_mtu (t : mhi_net_type) : Z :=
  match t with
  | MHI_NET_MBIM => probe_mru t - sizeof_mhi_mbim_hdr
  | MHI_NET_ETHER => probe_mru t
  | _ => probe_mru t - (sizeof_rmnet_map_v5_csum_header + sizeof_rmnet_map_header)
  end.

(** The modems that speak version 5 of the protocol. *)
Definition qmap_v5_modems : list (Z * Z) :=
  [(0x17cb, 0x0306); (0x17cb, 0x0308); (0x1eac, 0x1004); (0x17cb, 0x011a); (0x1eac, 0x100b); (0x17cb, 0x0309)].

Definition probe_version (vendor dev_id : Z) : Z := if bool_decide ((vendor, dev_id) ∈ qmap_v5_modems) then 9 else 5.

(** The type for the channel's name. *)
Definition probe_type (mhi_mbim_enabled : bool) (chan : bytes) : option mhi_net_type :=
  if bool_decide (chan = bs "IP_HW0") then Some (if mhi_mbim_enabled then MHI_NET_MBIM else MHI_NET_RMNET)
  else if bool_decide (chan = bs "IP_SW0") then Some MHI_NET_ETHER
  else None.

(** The zeroed device with what probing sets. *)
Definition probe_netdev (t : mhi_net_type) (vendor dev_id qmap_mode : Z) : mhi_netdev :=
  let ether := bool_decide (t = MHI_NET_ETHER) in
  MhiNetdev t false true (replicate 8 None)
    (if ether then 1 else qmap_mode) (if ether then 0 else probe_version vendor dev_id)
    0 0 0 0 false false false false 0 0
    (if bool_decide (t = MHI_NET_MBIM) then probe_mru t else 0)
    (if (vendor =? 0x17cb) && (dev_id =? 0x0309) then MBIM_MUX_ID_SDX7X else 0)
    0 0 ∅ [].

(** ** Virtual interfaces *)

(** What the kernel answers: memory, statistics, GRO cells, registration. *)
Record vnd_env := VndEnv { ve_alloc : bool; ve_stats : bool; ve_gro : bool; ve_register : Z }.

(** A pointer to an interface; the error path returns the one it has freed. *)
Inductive vnd_ptr := VNull | VFreed | VDev (v : vnd).

(** [nss]: the offload driver is present. *)
Definition rmnet_vnd_register_device (env : vnd_env) (nss : bool) (bridge_mode qmap_version : Z) (offset_id mux_id : Z) : vnd_ptr :=
  if negb (ve_alloc env) then VNull
  else
    let bridge := Z.testbit bridge_mode offset_id in
    let use_qca_nss := nss && negb bridge in
    if negb (ve_stats env) || negb (ve_gro env) || (ve_register env <? 0) then VFreed
    else VDev (Vnd 1500 (negb use_qca_nss) (take 5 node_id ++ [offset_id + 1]) mux_id qmap_version bridge 0
                 (replicate 6 0) false false false 0 0 0 0 0).

(** The loop over the virtual interfaces, [k] left: reading the name of a freed
    interface and an index outside the array of eight are failures. *)
Fixpoint vnd_loop (env : nat -> vnd_env) (nss mbim : bool) (bridge_mode : Z) (i k : nat) (n : mhi_netdev) : option mhi_netdev :=
  match k with
  | O => Some n
  | S k =>
      let mux_id := u8 ((if mbim then n_mbim_mux_id n else QUECTEL_QMAP_MUX_ID) + Z.of_nat i) in
      if (8 <=? i)%nat then None
      else
        match rmnet_vnd_register_device (env i) nss bridge_mode (n_qmap_version n) (Z.of_nat i) mux_id with
        | VFreed => None
        | VNull => vnd_loop env nss mbim bridge_mode (S i) k n
        | VDev v => vnd_loop env nss mbim bridge_mode (S i) k (put_vnd n (Z.of_nat i) v)
        end
  end.

(** ** Probing *)

(** The module's parameters, the modem, and what the kernel answers. *)
Record probe_env := ProbeEnv {
  pb_alloc : bool;
  pb_stats : bool;
  pb_mbim : bool;
  pb_vendor : Z;
  pb_dev_id : Z;
  pb_qmap_mode : Z;
  pb_bridge_mode : Z;
  pb_nss : bool;
  pb_enable : enable_env;
  pb_vnd : nat -> vnd_env }.

Section Probe.
Context {Q : Type} `{TransferQueue Q}.

(** The result and the device; [None] for a failure of the code.  The channel of
    the Ethernet type is not configured in this build; its entry, a pointer to the
    parent interface, is left out. *)
Definition mhi_netdev_probe (env : probe_env) (chan : bytes) (q : Q) : option (Z * option (rx Q)) :=
  if negb (pb_alloc env) then Some (- ENOMEM, None)
  else
    match probe_type (pb_mbim env) chan with
    | None => Some (- EINVAL, None)
    | Some t =>
        if negb (pb_stats env) then Some (- ENOMEM, None)
        else
          '(ret, s) ← mhi_netdev_enable_iface (probe_mru t) (pb_enable env)
                        (rx0 q (probe_netdev t (pb_vendor env) (pb_dev_id env) (pb_qmap_mode env)));
          if negb (ret =? 0) then Some (ret, Some s)
          else if bool_decide (t = MHI_NET_ETHER) then Some (0, Some (setx_n (set_n_carrier (x_n s) true) s))
          else
            n ← vnd_loop (pb_vnd env) (pb_nss env) (pb_mbim env) (pb_bridge_mode env) 0 (Z.to_nat (n_qmap_mode (x_n s))) (x_n s);
            Some (0, Some (setx_handler true (setx_n n s)))
    end.

End Probe.

(** ** The size of packets *)

Definition rmnet_vnd_change_mtu (t : mhi_net_type) (new_mtu i : Z) (n : mhi_netdev) : Z * mhi_netdev :=
  if new_mtu <? 0 then (- EINVAL, n)
  else if probe_max_mtu t <? new_mtu then (- EINVAL, n)
  else (0, upd_vnd (fun v => set_v_mtu v new_mtu) i n).

Lemma probe_mru_pos t : 0 <= probe_mru t.
Proof. by destruct t. Qed.

Lemma max_mtu_16 t : 0 < probe_max_mtu t < 2 ^ 16.
Proof. destruct t; vm_compute; done. Qed.

(** Every size that is accepted keeps what the receive handler relies on. *)
Lemma change_mtu_dev_ok t new_mtu i n : dev_ok n -> dev_ok (snd (rmnet_vnd_change_mtu t new_mtu i n)).
Proof.
  intros Hd. unfold rmnet_vnd_change_mtu. destruct (Z.ltb_spec new_mtu 0); [done|]. pose proof (max_mtu_16 t) as Hm.
  destruct (Z.ltb_spec (probe_max_mtu t) new_mtu); [done|]. cbn [snd]. unfold upd_vnd.
  destruct (vnd_at n i) as [[v|]|] eqn:Ev; [|done..]. destruct Hd as [Hq Hi]. split; [done|]. intros j Hj.
  destruct (Hi j Hj) as (w & Hw & Hwm). unfold vnd_at, put_vnd in *. cbn.
  assert (Hr : 0 <= i < zlen (n_vnds n)) by (apply zget_is_Some; by eexists). unfold zget, zlen in *.
  destruct (Z.ltb_spec j 0); [lia|]. destruct (decide (i = j)) as [->|Hne].
  - rewrite list_lookup_insert_eq by lia. eexists. split; [done|]. cbn. lia.
  - rewrite list_lookup_insert_ne by lia. by exists w.
Qed.

(** ** A probed device *)

Definition vnd_good (e : vnd_env) : Prop := ve_alloc e = true /\ ve_stats e = true /\ ve_gro e = true /\ ve_register e = 0.

(** The interface [i] of a device. *)
Definition probed_vnd (nss mbim : bool) (bridge_mode : Z) (n : mhi_netdev) (i : nat) : vnd :=
  Vnd 1500 (negb (nss && negb (Z.testbit bridge_mode (Z.of_nat i)))) (take 5 node_id ++ [Z.of_nat i + 1])
    (u8 ((if mbim then n_mbim_mux_id n else QUECTEL_QMAP_MUX_ID) + Z.of_nat i)) (n_qmap_version n)
    (Z.testbit bridge_mode (Z.of_nat i)) 0 (replicate 6 0) false false false 0 0 0 0 0.

Lemma vnd_loop_ok env nss mbim bm k : forall i n,
  (forall j, vnd_good (env j)) -> (i + k <= 8)%nat -> length (n_vnds n) = 8%nat ->
  exists vs, vnd_loop env nss mbim bm i k n = Some (set_n_vnds n vs) /\ length vs = 8%nat /\
    forall j, vs !! j = if decide (i <= j < i + k)%nat then Some (Some (probed_vnd nss mbim bm n j)) else n_vnds n !! j.
Proof.
  induction k as [|k IH]; intros i n He Hk Hl; cbn [vnd_loop].
  { exists (n_vnds n). split; [by destruct n|]. split; [done|]. intros j. by rewrite decide_False by lia. }
  destruct (Nat.leb_spec 8 i); [lia|]. destruct (He i) as (E1 & E2 & E3 & E4). unfold rmnet_vnd_register_device. rewrite E1, E2, E3, E4.
  cbn [negb orb Z.ltb Z.compare]. fold (probed_vnd nss mbim bm n i).
  destruct (IH (S i) (put_vnd n (Z.of_nat i) (probed_vnd nss mbim bm n i)) He) as (vs & Ev & Hv & Hj);
    [lia|unfold put_vnd; cbn; by rewrite length_insert|].
  exists vs. split; [by rewrite Ev|]. split; [done|]. intros j. rewrite Hj. unfold put_vnd. cbn. rewrite Nat2Z.id.
  destruct (decide (j = i)) as [->|Hne].
  - rewrite decide_False, decide_True by lia. by rewrite list_lookup_insert_eq by lia.
  - rewrite list_lookup_insert_ne by done. repeat case_decide; try lia; reflexivity.
Qed.

Section Probed.
Context {Q : Type} `{RoomyQueue Q}.

(** Everything the kernel is asked for is there. *)
Record probe_good (env : probe_env) : Prop := {
  pg_alloc : pb_alloc env = true;
  pg_stats : pb_stats env = true;
  pg_mode : 0 <= pb_qmap_mode env <= 8;
  pg_prepare : ee_prepare (pb_enable env) = 0;
  pg_netdev : ee_netdev (pb_enable env) = true;
  pg_register : ee_register (pb_enable env) = 0;
  pg_vnd : forall j, vnd_good (pb_vnd env j) }.

Lemma probed_fc_ok n vs :
  n_flow_control n = 0 -> n_fc_pending n = 0 -> n_fc_armed n = false ->
  (forall (j : nat) v, vs !! j = Some (Some v) -> v_stopped v = false) -> fc_ok (set_n_vnds n vs).
Proof.
  intros Hf Hp Ha Hv. assert (Hs : forall i v, vnd_is (set_n_vnds n vs) i v -> v_stopped v = false).
  { intros i v [_ Hi]. unfold vnd_at, zget in Hi. cbn in Hi. destruct (Z.ltb_spec i 0); [done|]. by eapply Hv. }
  split.
  - cbn. by rewrite Hp, Ha.
  - cbn. by rewrite Hf.
  - intros i v Hi. cbn. rewrite Hf. unfold held. by rewrite Z.land_0_l.
  - intros _ i v Hi Hst. rewrite (Hs i v Hi) in Hst. done.
Qed.

(** Probing gives the others what they build on: the interfaces of the receive
    handler, consistent flow control, accounted receive buffers with a supply, and
    multiplexer numbers in order. *)
Theorem probed_device_ready env q :
  probe_good env -> tq_held false q [] ->
  exists s, mhi_netdev_probe env (bs "IP_HW0") q = Some (0, Some s) /\
    dev_ok (x_n s) /\ fc_ok (x_n s) /\ rx_inv s /\ n_enabled (x_n s) = true /\ x_napi s = true /\ x_handler s = true /\
    forall i, (Z.of_nat i < pb_qmap_mode env) -> exists v, vnd_at (x_n s) (Z.of_nat i) = Some (Some v) /\
      v_mux_id v = u8 ((if pb_mbim env then n_mbim_mux_id (x_n s) else QUECTEL_QMAP_MUX_ID) + Z.of_nat i).
Proof.
  intros [Ha Hst Hm Hp Hd Hr Hv] Hq. unfold mhi_netdev_probe. rewrite Ha, Hst. cbn [negb].
  set (t := if pb_mbim env then MHI_NET_MBIM else MHI_NET_RMNET).
  assert (Et : probe_type (pb_mbim env) (bs "IP_HW0") = Some t) by done. rewrite Et.
  set (n0 := probe_netdev t (pb_vendor env) (pb_dev_id env) (pb_qmap_mode env)).
  assert (Hne : bool_decide (t = MHI_NET_ETHER) = false) by (unfold t; by destruct (pb_mbim env)).
  destruct (enable_ok (probe_mru t) (probe_mru_pos t) (pb_enable env) [] (rx0 q n0) (rx0_at q n0 Hq)) as (ret & s1 & E1 & H1 & _ & Hok & _);
    [done|done|cbn; lia|done|]. rewrite E1. cbn [mbind option_bind].
  assert (ret = 0) as ->.
  { revert E1. unfold mhi_netdev_enable_iface. rewrite Hp, Hd, Hr. cbn [negb Z.eqb]. rewrite st_bind_gets. cbn [x_ndev rx0].
    intros E. cbn [negb] in E. repeat (apply st_bind_inv in E as (? & ? & _ & E)). by apply st_ret_inv in E as [-> _]. }
  destruct (Hok eq_refl) as [En Pn]. cbn [Z.eqb negb]. rewrite Hne.
  assert (Hn1 : n_qmap_mode (x_n s1) = pb_qmap_mode env /\ n_vnds (x_n s1) = replicate 8 None /\ n_flow_control (x_n s1) = 0 /\
    n_fc_pending (x_n s1) = 0 /\ n_fc_armed (x_n s1) = false /\ n_enabled (x_n s1) = true).
  { rewrite En. unfold enabled_n, n0, probe_netdev. rewrite Hne. by cbn. }
  destruct Hn1 as (M1 & V1 & F1 & P1 & A1 & B1).
  destruct (vnd_loop_ok (pb_vnd env) (pb_nss env) (pb_mbim env) (pb_bridge_mode env) (Z.to_nat (n_qmap_mode (x_n s1))) 0 (x_n s1) Hv)
    as (vs & Ev & Hl & Hj); [lia|by rewrite V1|]. rewrite Ev. cbn [mbind option_bind].
  assert (Hat : forall i, Z.of_nat i < pb_qmap_mode env -> vs !! i = Some (Some (probed_vnd (pb_nss env) (pb_mbim env) (pb_bridge_mode env) (x_n s1) i))).
  { intros i Hi. rewrite Hj, decide_True by lia. done. }
  eexists. split; [done|]. split_and!; cbn.
  - split; [cbn; lia|]. intros i Hi. cbn in Hi. rewrite M1 in Hi. unfold vnd_at, zget. cbn. destruct (Z.ltb_spec i 0); [lia|].
    eexists. split; [apply Hat; lia|]. done.
  - apply probed_fc_ok; [done|done|done|]. intros j v Hjv. rewrite Hj in Hjv. case_decide; [by injection Hjv as <-|].
    rewrite V1 in Hjv. by apply lookup_replicate_1 in Hjv as [? _].
  - destruct H1 as [[l Hl'] Hs]. split; [by exists l|]. exact Hs.
  - done.
  - done.
  - done.
  - intros i Hi. unfold vnd_at, zget. cbn. destruct (Z.ltb_spec (Z.of_nat i) 0); [lia|]. rewrite Nat2Z.id. eexists. split; [by apply Hat|done].
Qed.

End Probed.

(** ** Failures *)

Definition ex_vnd_ok : vnd_env := VndEnv true true true 0.
Definition ex_probe (vnd : nat -> vnd_env) (qmap_mode : Z) : probe_env :=
  ProbeEnv true true false 0x17cb 0x0306 qmap_mode 0 false ex_enable vnd.

(** The first interface cannot be registered: its name is read after it is freed. *)
Example failed_vnd_is_used :
  @mhi_netdev_probe _ ex_skb_queue (ex_probe (fun _ => VndEnv true true true (- ENOMEM)) 1) (bs "IP_HW0") ex_pair = None.
Proof. vm_compute. reflexivity. Qed.

(** The parameter asks for nine interfaces: the ninth is stored behind the array. *)
Example ninth_vnd_outside :
  @mhi_netdev_probe _ ex_skb_queue (ex_probe (fun _ => ex_vnd_ok) 9) (bs "IP_HW0") ex_pair = None.
Proof. vm_compute. reflexivity. Qed.

(** Two interfaces of a modem that speaks version 5. *)
Example probe_two :
  exists s, @mhi_netdev_probe _ ex_skb_queue (ex_probe (fun _ => ex_vnd_ok) 2) (bs "IP_HW0") ex_pair = Some (0, Some s) /\
    dev_ok (x_n s) /\ fc_ok (x_n s).
Proof.
  destruct (@probed_device_ready _ ex_skb_queue ex_skb_roomy (ex_probe (fun _ => ex_vnd_ok) 2) ex_pair) as (s & E & Hd & Hf & _).
  - split; [reflexivity|reflexivity|cbn; lia|reflexivity|reflexivity|reflexivity|intros j; repeat split].
  - exact ex_rx_held.
  - exists s. exact (conj E (conj Hd Hf)).
Qed.
