(* ===== verification/AtTok.v ===== *)
(** * Tokenising AT responses: [at_tok.c] of the connection manager

    A cursor [char *] into the response is the suffix it points at, [None] for
    [NULL].  [strsep] writes NUL over the separator it found, which lies before
    the cursor it leaves, so the tokens already handed out and the suffix still
    to be read do not interfere.  The strings [at_tok_scanf] hands out point
    into its one static buffer: they are its values until the next call. *)

From S2P Require Import Prelude CLib.

(** ** The cursor *)

Definition at_tok_start (p_cur : option bytes) : Z * option bytes :=
  match p_cur with
  | None => (-1, None)
  | Some s => match strchr s 58 with
              | None => (-1, None)
              | Some s => (0, Some (tail s))
              end
  end.

Definition skipWhiteSpace (p_cur : option bytes) : option bytes :=
  match p_cur with None => None | Some s => Some (skip_while isspace s) end.

Definition skipNextComma (p_cur : option bytes) : option bytes :=
  match p_cur with
  | None => None
  | Some s =>
      let s := skip_while (fun c => negb (c =? 44)) s in
      Some (match s with c :: r => if c =? 44 then r else s | [] => s end)
  end.

(** The token and the new cursor. *)
Definition nextTok (p_cur : option bytes) : option bytes * option bytes :=
  match skipWhiteSpace p_cur with
  | None => (None, None)
  | Some s =>
      if bool_decide (head s = Some 34) then
        let '(ret, p_cur) := strsep (Some (tail s)) 34 in (ret, skipNextComma p_cur)
      else strsep (Some s) 44
  end.

(** ** Typed tokens

    Each returns the code's result, what it stored through [p_out] ([None] when
    it stored nothing) and the new cursor. *)

Definition at_tok_nextint_base (p_cur : option bytes) (base : Z) (uns : bool) : Z * option Z * option bytes :=
  match p_cur with
  | None => (-1, None, None)
  | Some _ =>
      let '(ret, p_cur) := nextTok p_cur in
      match ret with
      | None => (-1, None, p_cur)
      | Some ret =>
          let r := if uns then strtoul base ret else strtol base ret in
          let l := if uns then s64 (num_val r) else num_val r in
          (if endp_eqb (num_end r) ret then -1 else 0, Some (s32 l), p_cur)
      end
  end.

Definition at_tok_nextint (p_cur : option bytes) : Z * option Z * option bytes :=
  at_tok_nextint_base p_cur 10 false.

Definition at_tok_nexthexint (p_cur : option bytes) : Z * option Z * option bytes :=
  at_tok_nextint_base p_cur 16 true.

Definition at_tok_nextbool (p_cur : option bytes) : Z * option Z * option bytes :=
  let '(ret, result, p_cur) := at_tok_nextint p_cur in
  if ret <? 0 then (-1, None, p_cur)
  else match result with
       | None => (-1, None, p_cur)
       | Some result =>
           if negb ((result =? 0) || (result =? 1)) then (-1, None, p_cur)
           else (ret, Some (u8 result), p_cur)
       end.

Definition at_tok_nextstr (p_cur : option bytes) : Z * option bytes * option bytes :=
  match p_cur with
  | None => (-1, None, None)
  | Some _ => let '(ret, p_cur) := nextTok p_cur in (0, ret, p_cur)
  end.

Definition at_tok_hasmore (p_cur : option bytes) : bool :=
  match p_cur with None | Some [] => false | Some (_ :: _) => true end.

Definition at_tok_count (in_line : option bytes) : Z :=
  match in_line with
  | None => 0
  | Some s => fold_left (fun commas c => if c =? 44 then commas + 1 else commas) s 0
  end.

(** ** [at_tok_scanf] *)

(** What a conversion stored through its argument. *)
Inductive out := OInt (z : Z) | OChar (z : Z) | OStr (s : bytes).

(** One conversion of the [switch]: the error of the token function, the store
    and the cursor; [None] for a letter that is none of the four. *)
Definition scan_conv (c : Z) (line : option bytes) : option (Z * option out * option bytes) :=
  if c =? 100 then let '(err, v, line) := at_tok_nextint line in Some (err, OInt <$> v, line)
  else if c =? 120 then let '(err, v, line) := at_tok_nexthexint line in Some (err, OInt <$> v, line)
  else if c =? 98 then let '(err, v, line) := at_tok_nextbool line in Some (err, OChar <$> v, line)
  else if c =? 115 then let '(err, v, line) := at_tok_nextstr line in Some (err, OStr <$> v, line)
  else None.

(** The cursor after [-,], where it points at that. *)
Definition dash (line : option bytes) : option bytes :=
  match line with
  | Some (45 :: 44 :: r) => Some r
  | _ => None
  end.

(** The loop over the format; [outs] collects the store of every argument
    taken.  [None]: the format ends in [%] and the code walks past its NUL. *)
Fixpoint scanf_loop (fmt : bytes) (line : option bytes) (n : Z) (outs : list (option out))
  : option (Z * list (option out)) :=
  match fmt with
  | [] => Some (n, outs)
  | c :: fmt =>
      if (c =? 44) || (c =? 32) then scanf_loop fmt line n outs
      else if negb (c =? 37) then Some (n, outs)
      else
        match fmt with
        | [] =>
            if negb (at_tok_hasmore line) then Some (n, outs ++ [None])
            else match dash line with Some _ => None | None => Some (n, outs ++ [None]) end
        | c :: fmt =>
            if negb (at_tok_hasmore line) then Some (n, outs ++ [None])
            else
              match dash line with
              | Some line =>
                  scanf_loop fmt (Some line) (n + 1) (outs ++ [if c =? 100 then Some (OInt (-1)) else None])
              | None =>
                  match scan_conv c line with
                  | None => Some (n, outs ++ [None])
                  | Some (err, v, line) =>
                      if err <? 0 then Some (n, outs ++ [v])
                      else scanf_loop fmt line (n + 1) (outs ++ [v])
                  end
              end
        end
  end.

(** The line is cut to the static buffer's 1023 characters. *)
Definition at_tok_scanf (in_line : option bytes) (fmt : bytes) : option (Z * list (option out)) :=
  match in_line with
  | None => Some (0, [])
  | Some s =>
      let '(err, line) := at_tok_start (Some (ztake 1023 s)) in
      if err <? 0 then Some (0, []) else scanf_loop fmt line 0 []
  end.

(** ** Response lines

    The fields of a response as the modem writes them, each with the blanks
    in front of it. *)
Inductive field :=
  | FInt (neg : bool) (ds : bytes)
  | FHex (ds : bytes)
  | FBool (b : bool)
  | FQuoted (s : bytes)
  | FPlain (s : bytes).

Definition field_text (f : field) : bytes :=
  match f with
  | FInt neg ds => (if neg : bool then [45] else []) ++ ds
  | FHex ds => ds
  | FBool b => [if b : bool then 49 else 48]
  | FQuoted s => 34 :: s ++ [34]
  | FPlain s => s
  end.

Definition is_hex (c : Z) : Prop := is_Some (base_digit 16 c).

Definition hex_val (s : bytes) : Z := fold_left (fun a c => a * 16 + default 0 (base_digit 16 c)) s 0.

(** What the conversion of a field stores. *)
Definition field_out (f : field) : out :=
  match f with
  | FInt neg ds => OInt (s32 (if neg : bool then - dec_val ds else dec_val ds))
  | FHex ds => OInt (s32 (s64 (hex_val ds)))
  | FBool b => OChar (if b : bool then 1 else 0)
  | FQuoted s | FPlain s => OStr s
  end.

Definition field_conv (f : field) : Z :=
  match f with FInt _ _ => 100 | FHex _ => 120 | FBool _ => 98 | FQuoted _ | FPlain _ => 115 end.

Definition field_ok (f : field) : Prop :=
  match f with
  | FInt _ ds => Forall is_dec ds /\ ds <> [] /\ dec_val ds <= LONG_MAX
  | FHex ds => Forall is_hex ds /\ ds <> [] /\ hex_val ds <= ULONG_MAX
  | FBool _ => True
  | FQuoted s => 34 ∉ s
  | FPlain s => 44 ∉ s /\ s <> [45] /\ exists c r, s = c :: r /\ c <> 34 /\ isspace c = false
  end.

Fixpoint join (l : list bytes) : bytes :=
  match l with
  | [] => []
  | [x] => x
  | x :: l => x ++ 44 :: join l
  end.

Definition line_text (fs : list (bytes * field)) : bytes :=
  join (map (fun x => fst x ++ field_text (snd x)) fs).

Definition fmt_of (fs : list (bytes * field)) : bytes :=
  join (map (fun x => [37; field_conv (snd x)]) fs).

(** The token of a field. *)
Definition field_tok (f : field) : bytes :=
  match f with FQuoted s => s | f => field_text f end.

(** ** Lemmas *)

Lemma skip_while_app f p s :
  Forall (fun c => f c = true) p -> skip_while f (p ++ s) = skip_while f s.
Proof. induction 1 as [|c p Hc _ IH]; [done|]. cbn. by rewrite Hc. Qed.

Lemma hex_not_space c : is_hex c -> isspace c = false /\ c <> 34 /\ c <> 44 /\ c <> 45 /\ c <> 43 /\ c <> 120 /\ c <> 88.
Proof.
  unfold is_hex, base_digit, digit_val, isdigit, isspace. intros [d H]. revert H.
  zbool; cbn; zbool; cbn; intros; first [discriminate | exfalso; lia | split_and!; (done || lia)].
Qed.

Lemma dec_is_hex c : is_dec c -> is_hex c.
Proof. intros. unfold is_hex. rewrite base_digit_dec by (done || lia). by eexists. Qed.

Lemma scan_digits_hex s acc any :
  Forall is_hex s ->
  scan_digits 16 s acc any =
    (fold_left (fun a c => a * 16 + default 0 (base_digit 16 c)) s acc, [], any || negb (bool_decide (s = []))).
Proof.
  intros Hs. revert acc any. induction Hs as [|c s [d Hd] Hs IH]; intros acc any.
  - cbn. by rewrite orb_false_r.
  - cbn [scan_digits fold_left]. rewrite Hd. rewrite IH. cbn. by rewrite orb_true_r.
Qed.

Lemma num_scan_hex s : Forall is_hex s -> s <> [] -> num_scan 16 s = (false, hex_val s, []).
Proof.
  intros Hs Hne. unfold num_scan. destruct s as [|c s]; [done|].
  destruct (hex_not_space c (Forall_inv Hs)) as (Hsp & _ & _ & H45 & H43 & _).
  rewrite skip_while_none, num_sign_none by done.
  assert (Hp : num_prefix 16 (c :: s) = (16, c :: s)).
  { unfold num_prefix. destruct s as [|x [|h r]]; [repeat (split_match; try done)..|].
    destruct (hex_not_space x (Forall_inv (Forall_inv_tail Hs))) as (_ & _ & _ & _ & _ & Hx1 & Hx2).
    apply Z.eqb_neq in Hx1, Hx2. rewrite Hx1, Hx2. cbn [orb andb]. repeat (split_match; try done). }
  by rewrite Hp, scan_digits_hex, bool_decide_eq_false_2 by done.
Qed.

Lemma endp_nil (s : bytes) : s <> [] -> endp_eqb [] s = false.
Proof. by destruct s. Qed.

(** The head of a field's token, where the cursor looks for a quote. *)
Lemma token_head f : field_ok f -> (exists s, f = FQuoted s) \/
  (44 ∉ field_text f /\ exists c r, field_text f = c :: r /\ c <> 34 /\ isspace c = false).
Proof.
  assert (Hhex : forall ds, Forall is_hex ds -> 44 ∉ ds).
  { intros ds Hd Hin. eapply Forall_forall in Hd; [|done]. by destruct (hex_not_space _ Hd) as (_ & _ & ? & _). }
  assert (Hh : forall ds, Forall is_hex ds -> ds <> [] ->
            exists c r, ds = c :: r /\ c <> 34 /\ isspace c = false).
  { intros [|c r] Hd Hne; [done|]. destruct (hex_not_space c (Forall_inv Hd)) as (? & ? & _). by exists c, r. }
  destruct f as [neg ds|ds|b|s|s]; cbn [field_ok field_text].
  - intros (Hd & Hne & _). right.
    assert (Hx : Forall is_hex ds) by (eapply Forall_impl; [done|apply dec_is_hex]).
    split; [|destruct neg; [by exists 45, ds|by apply Hh]].
    destruct neg; [|by apply Hhex]. cbn. rewrite not_elem_of_cons. split; [done|by apply Hhex].
  - intros (Hd & Hne & _). right. split; [by apply Hhex|by apply Hh].
  - intros _. right. split; [destruct b; by rewrite list_elem_of_singleton|destruct b; by eexists _, []].
  - intros _. left. by eexists.
  - intros (Hc & _ & c & r & -> & ?). right. split; [done|by eexists _, _].
Qed.

Lemma nextTok_skip sp s :
  Forall (fun c => isspace c = true) sp -> nextTok (Some (sp ++ s)) = nextTok (Some s).
Proof. intros H. unfold nextTok, skipWhiteSpace. by rewrite skip_while_app. Qed.

(** Reading a field followed by a comma, and the last one. *)
Lemma nextTok_field f r :
  field_ok f ->
  nextTok (Some (field_text f ++ 44 :: r)) = (Some (field_tok f), Some r) /\
  fst (nextTok (Some (field_text f))) = Some (field_tok f).
Proof.
  intros Hf. destruct (token_head f Hf) as [[s ->]|(Hc & c & q & E & Hq & Hsp)].
  - cbn [field_ok field_text field_tok] in *. unfold nextTok, skipWhiteSpace. rewrite <- app_comm_cons.
    rewrite !skip_while_none by done. rewrite !bool_decide_eq_true_2 by done. cbn [tail].
    unfold strsep. rewrite <- app_assoc. cbn [app]. rewrite !cut_delim by done. split; reflexivity.
  - assert (E' : field_tok f = field_text f).
    { destruct f; [done..| |done]. exfalso. by injection E as <- _. }
    rewrite E', E in *. unfold nextTok, skipWhiteSpace. rewrite <- app_comm_cons.
    rewrite !skip_while_none by done. rewrite !bool_decide_eq_false_2 by (cbn; congruence).
    unfold strsep. rewrite app_comm_cons, cut_delim, cut_no_delim by done. done.
Qed.

(** The number a field stands for. *)
Lemma strtol_field neg ds :
  Forall is_dec ds -> ds <> [] -> dec_val ds <= LONG_MAX ->
  strtol 10 ((if neg : bool then [45] else []) ++ ds) =
    NumRes (if neg then - dec_val ds else dec_val ds) [] false.
Proof.
  intros Hd Hne Hv. pose proof (dec_val_nonneg ds Hd) as H0.
  rewrite <- (app_nil_r ds) at 1. destruct neg; cbn [app].
  - unfold strtol, num_scan. rewrite skip_while_none by done. cbn [num_sign].
    rewrite num_prefix_10, scan_digits_dec by (done || by intros ?).
    rewrite bool_decide_eq_false_2 by done. cbn [orb negb]. fold (dec_val ds).
    rewrite (proj2 (Z.ltb_ge _ _)); [done|]. unfold LONG_MIN, LONG_MAX in *. lia.
  - rewrite strtol_dec by (done || by intros ?). rewrite Z.min_l by done.
    by rewrite (proj2 (Z.ltb_ge _ _)).
Qed.

Lemma strtoul_field ds :
  Forall is_hex ds -> ds <> [] -> hex_val ds <= ULONG_MAX ->
  strtoul 16 ds = NumRes (hex_val ds) [] false.
Proof.
  intros Hd Hne Hv. unfold strtoul. rewrite num_scan_hex by done. by rewrite (proj2 (Z.ltb_ge _ _)).
Qed.

(** A conversion whose token is a field's stores the field's value. *)
Lemma conv_tok f s t :
  field_ok f -> nextTok (Some s) = (Some (field_tok f), t) ->
  scan_conv (field_conv f) (Some s) = Some (0, Some (field_out f), t).
Proof.
  intros Hf E. unfold scan_conv.
  destruct f as [neg ds|ds|b|q|q]; cbn [field_conv field_tok field_text field_out field_ok] in *;
    cbn [Z.eqb Pos.eqb]; unfold at_tok_nextint, at_tok_nexthexint, at_tok_nextbool, at_tok_nextint,
      at_tok_nextint_base, at_tok_nextstr; rewrite E.
  - destruct Hf as (? & Hne & ?). rewrite strtol_field by done. cbn [num_end num_val].
    rewrite endp_nil; [done|]. destruct neg; [done|exact Hne].
  - destruct Hf as (? & Hne & ?). rewrite strtoul_field by done. cbn [num_end num_val]. by rewrite endp_nil.
  - destruct b; reflexivity.
  - done.
  - done.
Qed.

Lemma dash_none c r : c <> 45 -> dash (Some (c :: r)) = None.
Proof. intros H. unfold dash. repeat (split_match; try done). Qed.

Lemma dash_none2 c x r : x <> 44 -> dash (Some (c :: x :: r)) = None.
Proof. intros H. unfold dash. repeat (split_match; try done). Qed.

(** No field is taken for the dash of an absent value. *)
Lemma dash_field sp f tl :
  Forall (fun c => isspace c = true) sp -> field_ok f -> dash (Some ((sp ++ field_text f) ++ tl)) = None.
Proof.
  intros Hsp Hf. destruct sp as [|c sp]; [|apply dash_none; intros ->; by apply Forall_inv in Hsp]. cbn [app].
  destruct f as [neg ds|ds|b|q|q]; cbn [field_ok field_text] in *.
  - destruct Hf as (Hd & Hne & _). destruct ds as [|x ds]; [done|].
    apply Forall_inv in Hd. unfold is_dec in Hd.
    destruct neg; [apply dash_none2|apply dash_none]; lia.
  - destruct Hf as (Hd & Hne & _). destruct ds as [|x ds]; [done|].
    apply dash_none. by destruct (hex_not_space x (Forall_inv Hd)) as (_ & _ & _ & ? & _).
  - destruct b; by apply dash_none.
  - by apply dash_none.
  - destruct Hf as (Hc & Hd & c & [|x r] & -> & _); [apply dash_none; congruence|].
    apply dash_none2. intros ->. apply Hc. right. left.
Qed.

Lemma hasmore_field sp f tl : field_ok f -> at_tok_hasmore (Some ((sp ++ field_text f) ++ tl)) = true.
Proof.
  intros Hf. destruct sp; [|done]. destruct (token_head f Hf) as [[s ->]|(_ & c & r & -> & _)]; done.
Qed.

Definition line_ok (fs : list (bytes * field)) : Prop :=
  Forall (fun x => Forall (fun c => isspace c = true) (fst x) /\ field_ok (snd x)) fs.

(** One conversion of the loop, on the text of its field. *)
Lemma scanf_field fmt sp f tl t n outs :
  Forall (fun c => isspace c = true) sp -> field_ok f ->
  nextTok (Some (field_text f ++ tl)) = (Some (field_tok f), t) ->
  scanf_loop (37 :: field_conv f :: fmt) (Some ((sp ++ field_text f) ++ tl)) n outs =
  scanf_loop fmt t (n + 1) (outs ++ [Some (field_out f)]).
Proof.
  intros Hsp Hf E. cbn [scanf_loop Z.eqb Pos.eqb orb negb].
  rewrite hasmore_field, dash_field by done. cbn [negb].
  rewrite (conv_tok f _ t); [done|done|]. by rewrite <- app_assoc, nextTok_skip.
Qed.

Lemma scanf_fields fs n outs :
  line_ok fs -> fs <> [] ->
  scanf_loop (fmt_of fs) (Some (line_text fs)) n outs =
    Some (n + zlen fs, outs ++ map (fun x => Some (field_out (snd x))) fs).
Proof.
  intros Hok Hne. revert n outs. induction Hok as [|[sp f] fs [Hsp Hf] Hok IH]; intros n outs; [done|].
  cbn [fst snd] in *. destruct fs as [|g fs].
  - unfold fmt_of, line_text. cbn [map join fst snd]. rewrite <- (app_nil_r (sp ++ field_text f)).
    destruct (nextTok (Some (field_text f ++ []))) as [tk t] eqn:E.
    assert (tk = Some (field_tok f)) as ->.
    { rewrite app_nil_r in E. destruct (nextTok_field f [] Hf) as [_ E2]. by rewrite E in E2. }
    by rewrite (scanf_field [] sp f [] t).
  - change (fmt_of ((sp, f) :: g :: fs)) with (37 :: field_conv f :: 44 :: fmt_of (g :: fs)).
    change (line_text ((sp, f) :: g :: fs)) with ((sp ++ field_text f) ++ 44 :: line_text (g :: fs)).
    rewrite (scanf_field _ sp f _ (Some (line_text (g :: fs)))); [|done..|].
    + cbn [scanf_loop Z.eqb Pos.eqb orb]. rewrite IH by done. rewrite <- app_assoc, (zlen_cons (sp, f)).
      by rewrite Z.add_assoc.
    + by destruct (nextTok_field f (line_text (g :: fs)) Hf).
Qed.

(** ** Theorems *)

(** Round trip of an AT response: the line a modem writes from a prefix
    and comma-separated decimal, hexadecimal, boolean, quoted and plain fields
    is read back field by field, every conversion of the matching format
    stores the field's value (an [int] keeps the low 32 bits), and the count
    returned is the number of fields, for lines that fit the buffer. *)
Theorem scanf_roundtrip pre fs :
  58 ∉ pre -> line_ok fs -> fs <> [] -> zlen (pre ++ 58 :: line_text fs) <= 1023 ->
  at_tok_scanf (Some (pre ++ 58 :: line_text fs)) (fmt_of fs) =
    Some (zlen fs, map (fun x => Some (field_out (snd x))) fs).
Proof.
  intros Hp Hok Hne Hl. unfold at_tok_scanf. unfold ztake. rewrite take_ge by (unfold zlen in Hl; lia).
  cbn [at_tok_start]. rewrite strchr_cut, cut_delim by done. cbn [snd tail Z.ltb Z.compare].
  by rewrite scanf_fields.
Qed.

Lemma scanf_roundtrip_witness :
  at_tok_scanf (Some (bs "+CREG: -7," ++ 34 :: bs "1A2B" ++ 34 :: bs ",ff, x y,1")) (bs "%d,%s,%x,%s,%b") =
    Some (5, [Some (OInt (-7)); Some (OStr (bs "1A2B")); Some (OInt 255); Some (OStr (bs "x y")); Some (OChar 1)]).
Proof.
  apply (scanf_roundtrip (bs "+CREG")
           [([32], FInt true [55]); ([], FQuoted (bs "1A2B")); ([], FHex (bs "ff"));
            ([32], FPlain (bs "x y")); ([], FBool true)]).
  - apply (bool_decide_unpack _). vm_compute. exact I.
  - repeat constructor; try (apply (bool_decide_unpack _); vm_compute; exact I); try done.
    by eexists _, _.
  - done.
  - by vm_compute.
Defined.
