(* ===== verification/QmiMsg.v ===== *)
(** * QMI messages of the connection manager: [QMIThread.c], [QCQMUX.h], [QCQMI.h]

    A message is the bytes of the packed structure [QCQMIMSG]: the QMI header
    (6 bytes), the QMUX header (3), the message header with type and length (4)
    and the type-length-value fields.  Requests are built in place in a buffer
    of [WDM_DEFAULT_BUFSIZE] bytes: a store past its end gives [None].  Loads
    past the end of a received message give [Overread]. *)

From S2P Require Import Prelude CLib.

(** ** Little-endian fields *)

Definition w16 (x : Z) : bytes := [u8 x; u8 (x / 2 ^ 8)].
Definition w32 (x : Z) : bytes := [u8 x; u8 (x / 2 ^ 8); u8 (x / 2 ^ 16); u8 (x / 2 ^ 24)].

(** Loads at a byte offset, [None] outside the message. *)
Definition rd16 (d : bytes) (i : Z) : option Z :=
  match zget d i, zget d (i + 1) with
  | Some a, Some b => Some (a + 2 ^ 8 * b)
  | _, _ => None
  end.
Definition rd32 (d : bytes) (i : Z) : option Z :=
  match rd16 d i, rd16 d (i + 2) with
  | Some a, Some b => Some (a + 2 ^ 16 * b)
  | _, _ => None
  end.

(** [memcpy] out of a message. *)
Definition rdn (d : bytes) (i n : Z) : option bytes :=
  if (0 <=? i) && (i + n <=? zlen d) then Some (ztake n (zdrop i d)) else None.

(** Store into a buffer of fixed size. *)
Definition put (off : Z) (l b : bytes) : option bytes :=
  if (0 <=? off) && (off + zlen l <=? zlen b)
  then Some (ztake off b ++ l ++ zdrop (off + zlen l) b) else None.

(** ** Layout *)

Definition sizeof_QCQMI_HDR : Z := 6.
Definition sizeof_QCQMUX_HDR : Z := 3.
Definition sizeof_QCQMUX_MSG_HDR : Z := 4.
Definition sizeof_QMI_TLV_HDR : Z := 3.
Definition WDM_DEFAULT_BUFSIZE : Z := 256.

(** Offset of the message header, and of the first field. *)
Definition off_hdr : Z := sizeof_QCQMI_HDR + sizeof_QCQMUX_HDR.
Definition off_tlvs : Z := off_hdr + sizeof_QCQMUX_MSG_HDR.

Definition QMUX_TYPE_CTL : Z := 0x00.
Definition QMUX_TYPE_WDS : Z := 0x01.
Definition QMUX_TYPE_DMS : Z := 0x02.
Definition QMUX_TYPE_NAS : Z := 0x03.
Definition QMUX_TYPE_UIM : Z := 0x0B.
Definition QMUX_TYPE_WDS_IPV6 : Z := 0x11.
Definition QMUX_TYPE_WDS_ADMIN : Z := 0x1A.

Definition QMIWDS_START_NETWORK_INTERFACE_REQ : Z := 0x0020.
Definition QMIWDS_STOP_NETWORK_INTERFACE_REQ : Z := 0x0021.
Definition QMIWDS_GET_PKT_SRVC_STATUS_REQ : Z := 0x0022.
Definition QMIWDS_GET_PKT_SRVC_STATUS_IND : Z := 0x0022.
Definition QMIWDS_MODIFY_PROFILE_SETTINGS_REQ : Z := 0x0028.
Definition QMIWDS_GET_RUNTIME_SETTINGS_REQ : Z := 0x002D.
Definition QMIWDS_SET_CLIENT_IP_FAMILY_PREF_REQ : Z := 0x004D.
Definition QMIWDS_SET_AUTO_CONNECT_REQ : Z := 0x0051.
Definition QMIWDS_BIND_MUX_DATA_PORT_REQ : Z := 0x00A2.
Definition QMIWDS_ADMIN_SET_DATA_FORMAT_REQ : Z := 0x0020.
Definition QMI_WDA_SET_LOOPBACK_CONFIG_REQ : Z := 0x002F.
Definition QMI_WDA_SET_LOOPBACK_CONFIG_IND : Z := 0x002F.
Definition IpFamilyV4 : Z := 0x04.
Definition IpFamilyV6 : Z := 0x06.

(** ** [GetTLV] *)

Inductive tlv_res := Found (off : Z) | NotFound | Overread | TlvNoFuel.

(** One turn per field.  [d] starts at the message header; [p] is the cursor
    and [Length] the 16-bit count of bytes left; every turn that goes on moves
    the cursor by at least a field header inside [d], so the length of [d]
    bounds the turns. *)
Fixpoint get_tlv_loop (fuel : nat) (d : bytes) (TLVType TLVFind Length p : Z) : tlv_res :=
  if Length <? sizeof_QMI_TLV_HDR then NotFound
  else
    match fuel with
    | O => TlvNoFuel
    | S fuel =>
        let TLVFind := TLVFind + 1 in
        if (0x1000 <? TLVType) && (TLVFind + 0x1000 =? TLVType) then Found p
        else
          match (if 0x1000 <? TLVType then Some false
                 else match zget d p with Some t => Some (t =? TLVType) | None => None end) with
          | None => Overread
          | Some true => Found p
          | Some false =>
              match rd16 d (p + 1) with
              | None => Overread
              | Some len => get_tlv_loop fuel d TLVType TLVFind (u16 (Length - (len + sizeof_QMI_TLV_HDR)))
                              (p + len + sizeof_QMI_TLV_HDR)
              end
          end
    end.

Definition GetTLV (d : bytes) (TLVType : Z) : tlv_res :=
  match rd16 d 2 with
  | None => Overread
  | Some Length => get_tlv_loop (S (length d)) d TLVType 0 Length sizeof_QCQMUX_MSG_HDR
  end.

(** ** Transaction numbers *)

(** The new value of the counter, which is also the number handed out. *)
Definition GetQMUXTransactionId (TransactionId : Z) : Z :=
  let TransactionId := TransactionId + 1 in
  if 0xFFFF <? TransactionId then 1 else TransactionId.

(** ** Building requests *)

(** A callback [CUSTOMQMUX] on the whole buffer: the buffer and the length it
    returns, counted from the message header. *)
Abbreviation builder := (bytes -> option (bytes * Z)).

Definition ComposeQMUXMsg (tid QMIType Type_ : Z) (custom : option builder) : option bytes :=
  let b := replicate (Z.to_nat WDM_DEFAULT_BUFSIZE) 0 in
  b ← put 0 [1] b;
  b ← put 3 [0; u8 QMIType] b;
  b ← put sizeof_QCQMI_HDR [0] b;
  b ← put (sizeof_QCQMI_HDR + 1) (w16 tid) b;
  b ← put off_hdr (w16 Type_) b;
  '(b, n) ← match custom with
            | Some f => '(b, n) ← f b; Some (b, u16 (n - sizeof_QCQMUX_MSG_HDR))
            | None => Some (b, 0)
            end;
  b ← put (off_hdr + 2) (w16 n) b;
  let qlen := u16 (n + sizeof_QCQMUX_MSG_HDR + sizeof_QCQMUX_HDR + sizeof_QCQMI_HDR - 1) in
  b ← put 1 (w16 qlen) b;
  rdn b 0 (qlen + 1).

(** A field as the code stores it: its type, the value its length counts, and
    what is stored behind the value, where the next field goes: the NUL of
    [qstrcpy], the upper bytes of a [BOOL] whose length is given as 1. *)
Record wfield := WF { f_type : Z; f_val : bytes; f_slack : bytes }.

Definition u8_field (t x : Z) : wfield := WF t [u8 x] [].
Definition u32_field (t x : Z) : wfield := WF t (w32 x) [].
Definition bool_field (t x : Z) : wfield := WF t [u8 x] (tail (w32 x)).
Definition str_field (t : Z) (s : bytes) : wfield := WF t s [0].

(** The stores of a field at [base + TLVLength], and the new [TLVLength]. *)
Definition add_tlv (f : wfield) (base : Z) (s : bytes * Z) : option (bytes * Z) :=
  let '(b, TLVLength) := s in
  b ← put (base + TLVLength) (u8 (f_type f) :: w16 (zlen (f_val f)) ++ f_val f ++ f_slack f) b;
  Some (b, u16 (TLVLength + (u16 (zlen (f_val f)) + sizeof_QMI_TLV_HDR))).

Fixpoint add_all (l : list wfield) (base : Z) (s : bytes * Z) : option (bytes * Z) :=
  match l with
  | [] => Some s
  | f :: l => s ← add_tlv f base s; add_all l base s
  end.

(** The part of [PROFILE_T] the requests read. *)
Record profile := Profile {
  p_apn : option bytes; p_user : option bytes; p_pd : option bytes; p_auth : Z; p_iptype : Z;
  p_pdp : Z; p_profile_index : Z; p_curIpFamily : Z; p_idProduct : Z;
  p_bring_up_by_apn_name : Z; p_bring_up_by_apn_type : Z; p_apn_type : Z }.

Definition empty_str (s : option bytes) : bool :=
  match s with None | Some [] => true | _ => false end.

(** [if (cond) { ... }] around a field. *)
Definition field_if (b : bool) (f : wfield) : list wfield := if b then [f] else [].
Definition field_opt (o : option bytes) (t : Z) : list wfield :=
  match o with Some s => [str_field t s] | None => [] end.

Definition ctnet_user : bytes := bs "ctnet@mycdma.cn".
Definition ctnet_pd : bytes := bs "vnet.mobi".

(** The user name, password and authentication that are sent. *)
Definition start_auth (s_is_cdma : bool) (p : profile) : option bytes * option bytes * Z :=
  if s_is_cdma && empty_str (p_user p) && empty_str (p_pd p)
  then (Some ctnet_user, Some ctnet_pd, 2) else (p_user p, p_pd p, p_auth p).

(** The fields of the request that starts a data call.  The test for the type
    [0x32] inside the profile index is dead code: it needs [s_is_cdma], which
    the enclosing test excludes. *)
Definition start_fields (s_is_cdma : bool) (p : profile) : list wfield :=
  let '(user, pd, auth) := start_auth s_is_cdma p in
  [u8_field 0x30 (if s_is_cdma then 0x02 else 0x01)]
  ++ (if s_is_cdma then [] else field_opt (p_apn p) 0x14)
  ++ field_opt user 0x17
  ++ field_opt pd 0x18
  ++ field_if (bool_decide (is_Some user /\ is_Some pd)) (u8_field 0x16 auth)
  ++ [u8_field 0x19 (p_curIpFamily p)]
  ++ (if negb (p_idProduct p =? 0x0316) then
        field_if (negb (p_profile_index p =? 0) && negb s_is_cdma) (u8_field 0x31 (p_profile_index p))
      else
        field_if (negb (p_bring_up_by_apn_name p =? 0)) (bool_field 0x3C (p_bring_up_by_apn_name p))
        ++ field_if (negb (p_bring_up_by_apn_type p =? 0)) (bool_field 0x3D (p_bring_up_by_apn_type p))
        ++ field_if (negb (p_apn_type p =? 0)) (u32_field 0x38 (p_apn_type p))).

Definition WdsStartNwInterfaceReq (s_is_cdma : bool) (p : profile) : builder := fun b =>
  b ← put (off_hdr + 2) (w16 0) b;
  '(b, TLVLength) ← add_all (start_fields s_is_cdma p) off_tlvs (b, 0);
  Some (b, u16 (sizeof_QCQMUX_MSG_HDR + TLVLength)).

(** A request of fixed shape: its fields one after the other.  What such
    a callback stores as the length of the message the composer overwrites. *)
Definition fixed_req (l : list wfield) : builder := fun b =>
  '(b, TLVLength) ← add_all l off_tlvs (b, 0);
  Some (b, u16 (sizeof_QCQMUX_MSG_HDR + TLVLength)).

Definition WdsStopNwInterfaceReq (v4 v6 : Z) (curIpFamily : Z) : builder :=
  fixed_req [u32_field 0x01 (if curIpFamily =? IpFamilyV4 then v4 else v6)].

Definition WdsSetClientIPFamilyPref (IpPreference : Z) : builder := fixed_req [u8_field 0x01 IpPreference].

Definition WdsSetAutoConnect (autoconnect : Z) : builder := fixed_req [u8_field 0x01 autoconnect].

Record QMAP_SETTING := QmapSetting {
  q_rx_urb_size : Z; q_ep_type : Z; q_iface_id : Z; q_MuxId : Z;
  q_ul_max_datagrams : Z; q_ul_max_size : Z; q_dl_minimum_padding : Z }.

(** Two 32-bit members in one field. *)
Definition ep_field (t ep_type iface_id : Z) : wfield := WF t (w32 ep_type ++ w32 iface_id) [].

Definition WdsSetQMUXBindMuxDataPort (q : QMAP_SETTING) : builder :=
  fixed_req [ep_field 0x10 (q_ep_type q) (q_iface_id q); u8_field 0x11 (q_MuxId q); u32_field 0x13 1].

(** Without aggregation of uplink data only the first seven fields are sent. *)
Definition data_format_fields (qmap_version : Z) (q : QMAP_SETTING) : list wfield :=
  if q_rx_urb_size q =? 0
  then [u8_field 0x10 0; u32_field 0x11 1; u32_field 0x13 0]
  else
    [u8_field 0x10 0; u32_field 0x11 2; u32_field 0x12 qmap_version; u32_field 0x13 qmap_version;
     u32_field 0x15 (q_rx_urb_size q / 512); u32_field 0x16 (q_rx_urb_size q);
     ep_field 0x17 (q_ep_type q) (q_iface_id q)]
    ++ (if q_ul_max_datagrams q =? 0 then []
        else [u32_field 0x19 (q_dl_minimum_padding q); u32_field 0x1B (q_ul_max_datagrams q);
              u32_field 0x1C (q_ul_max_size q)]).

Definition WdaSetDataFormat (qmap_version : Z) (q : QMAP_SETTING) : builder :=
  fixed_req (data_format_fields qmap_version q).

(** The PIN, its one-byte length in front, and the NUL behind the message. *)
Definition pin_field (t : Z) (pin : bytes) : wfield := WF t ([0x01; u8 (zlen pin)] ++ pin) [0].

Definition DmsUIMVerifyPinReqSend (pin : bytes) : builder := fixed_req [pin_field 0x01 pin].

Definition UimVerifyPinReqSend (pin : bytes) : builder :=
  fixed_req [WF 0x01 [0; 0] []; pin_field 0x02 pin].

Definition UimEventRegReqSend : builder := fixed_req [u32_field 0x01 0x00000001].

Definition WdsGetProfileListReqSend : builder := fixed_req [].
Definition WdsCreateProfileSettingsReqSend (p : profile) : builder :=
  fixed_req [u8_field 0x01 0; u8_field 0x25 (p_pdp p)].
Definition WdsGetProfileSettingsReqSend (p : profile) : builder :=
  fixed_req [WF 0x01 [0; u8 (p_profile_index p)] []].

Definition modify_fields (p : profile) : list wfield :=
  [WF 0x01 [0; u8 (p_profile_index p)] []; u8_field 0x11 (p_iptype p)]
  ++ field_opt (p_apn p) 0x14
  ++ field_opt (p_user p) 0x1B
  ++ field_opt (p_pd p) 0x1C
  ++ field_if (bool_decide (is_Some (p_user p) /\ is_Some (p_pd p))) (u8_field 0x1D (p_auth p)).

Definition WdsModifyProfileSettingsReq (p : profile) : builder := fixed_req (modify_fields p).

Definition runtime_mask : Z :=
  Z.lor (Z.lor (Z.lor (Z.lor (Z.lor (Z.shiftl 1 4) (Z.shiftl 1 8)) (Z.shiftl 1 13)) (Z.shiftl 1 9))
           (Z.shiftl 1 11)) (Z.shiftl 1 14).

Definition WdsGetRuntimeSettingReq : builder := fixed_req [u32_field 0x10 runtime_mask].

Definition DmsSetOperatingModeReq (mode : Z) : builder := fixed_req [u8_field 0x01 mode].
Definition UimSetCardSlotReq (slot : Z) : builder := fixed_req [u8_field 0x01 slot].

(** The caller stores the values into the composed message. *)
Definition WdaSetLoopBackReq : builder := fixed_req [u8_field 0x01 0; u32_field 0x10 0].

(** ** The format *)

(** Fields as a sequence of types and values. *)
Definition encode_tlv (x : Z * bytes) : bytes := fst x :: w16 (zlen (snd x)) ++ snd x.
Definition encode (ts : list (Z * bytes)) : bytes := concat (map encode_tlv ts).

(** A message from its message header on, and a whole request. *)
Definition qmux_body (Type_ : Z) (ts : list (Z * bytes)) : bytes :=
  w16 Type_ ++ w16 (zlen (encode ts)) ++ encode ts.
Definition qmi_request (QMIType ClientId tid Type_ : Z) (ts : list (Z * bytes)) : bytes :=
  [1] ++ w16 (zlen (encode ts) + 12) ++ [0; u8 QMIType; u8 ClientId; 0] ++ w16 tid ++ qmux_body Type_ ts.

Definition tlv_of (f : wfield) : Z * bytes := (u8 (f_type f), f_val f).

(** The value of the first field of a type. *)
Fixpoint lookup_tlv (ts : list (Z * bytes)) (t : Z) : option bytes :=
  match ts with
  | [] => None
  | (t', v) :: ts => if t' =? t then Some v else lookup_tlv ts t
  end.

(** [v] is the value of the field at [off]. *)
Definition tlv_at (d : bytes) (off : Z) (v : bytes) : Prop :=
  rd16 d (off + 1) = Some (zlen v) /\ rdn d (off + 3) (zlen v) = Some v.

(** The room the fields need: every store ends inside the buffer. *)
Fixpoint fits (room : Z) (l : list wfield) : bool :=
  match l with
  | [] => true
  | f :: l => (sizeof_QMI_TLV_HDR + zlen (f_val f) + zlen (f_slack f) <=? room)
              && fits (room - (sizeof_QMI_TLV_HDR + zlen (f_val f))) l
  end.

(** ** Lemmas: loads and stores *)

Lemma zlen_w16 x : zlen (w16 x) = 2.
Proof. done. Qed.

Lemma zlen_w32 x : zlen (w32 x) = 4.
Proof. done. Qed.

Lemma zdrop_app_ge {A} (l k : list A) n : zlen l <= n -> zdrop n (l ++ k) = zdrop (n - zlen l) k.
Proof. intros. unfold zdrop, zlen in *. rewrite drop_app_ge by lia. f_equal. lia. Qed.

Lemma put_app p l rest :
  put (zlen p) l (p ++ rest) = if zlen l <=? zlen rest then Some (p ++ l ++ zdrop (zlen l) rest) else None.
Proof.
  unfold put. rewrite zlen_app, (proj2 (Z.leb_le 0 _)) by apply zlen_nonneg. cbn [andb].
  destruct (Z.leb_spec (zlen l) (zlen rest)).
  - rewrite (proj2 (Z.leb_le _ _)) by lia. rewrite ztake_app by done.
    pose proof (zlen_nonneg l). rewrite zdrop_app_ge by lia. do 4 f_equal. lia.
  - by rewrite (proj2 (Z.leb_gt _ _)) by lia.
Qed.

Lemma zget_app_mid {A} (p : list A) x r i : i = zlen p -> zget (p ++ x :: r) i = Some x.
Proof. intros ->. rewrite zget_app_r, Z.sub_diag by done. done. Qed.

Lemma rd16_app p x r i : in_u 16 x -> i = zlen p -> rd16 (p ++ w16 x ++ r) i = Some x.
Proof.
  intros Hx ->. unfold rd16. cbn [w16 app]. rewrite zget_app_mid by done.
  change (u8 x :: u8 (x / 2 ^ 8) :: r) with ([u8 x] ++ u8 (x / 2 ^ 8) :: r). rewrite app_assoc.
  rewrite zget_app_mid by by rewrite zlen_app. f_equal. unfold wrap, in_u in *.
  rewrite (Z.mod_small (x / 2 ^ 8)) by (split; [apply Z.div_pos|apply Z.div_lt_upper_bound]; lia).
  pose proof (Z.div_mod x (2 ^ 8)). lia.
Qed.

Lemma rdn_app p v r i n : i = zlen p -> n = zlen v -> rdn (p ++ v ++ r) i n = Some v.
Proof.
  intros -> ->. unfold rdn. rewrite !zlen_app.
  pose proof (zlen_nonneg p). pose proof (zlen_nonneg r).
  rewrite (proj2 (Z.leb_le 0 _)), (proj2 (Z.leb_le _ _)) by lia. cbn [andb].
  by rewrite zdrop_app, ztake_app by done.
Qed.

Lemma encode_app a b : encode (a ++ b) = encode a ++ encode b.
Proof. unfold encode. by rewrite map_app, concat_app. Qed.

Lemma zlen_encode_cons t v ts : zlen (encode ((t, v) :: ts)) = 3 + zlen v + zlen (encode ts).
Proof.
  change (encode ((t, v) :: ts)) with ((t :: w16 (zlen v) ++ v) ++ encode ts).
  rewrite zlen_app, zlen_cons, zlen_app, zlen_w16. lia.
Qed.

(** ** Lemmas: [GetTLV] on a well-formed message *)

Definition tlvs_ok (ts : list (Z * bytes)) : Prop :=
  Forall (fun x => in_u 8 (fst x) /\ zlen (snd x) < 2 ^ 16) ts.

Lemma tlv_at_app p t v r : zlen v < 2 ^ 16 -> tlv_at (p ++ encode_tlv (t, v) ++ r) (zlen p) v.
Proof.
  intros Hv. pose proof (zlen_nonneg v). unfold tlv_at, encode_tlv. cbn [fst snd]. split.
  - replace (p ++ (t :: w16 (zlen v) ++ v) ++ r) with ((p ++ [t]) ++ w16 (zlen v) ++ (v ++ r))
      by by rewrite <- !app_assoc.
    apply rd16_app; [in_u|]. by rewrite zlen_app.
  - replace (p ++ (t :: w16 (zlen v) ++ v) ++ r) with ((p ++ t :: w16 (zlen v)) ++ v ++ r)
      by by rewrite <- !app_assoc.
    apply rdn_app; [|done]. by rewrite zlen_app, zlen_cons, zlen_w16.
Qed.

Lemma get_tlv_finds ts t junk p k fuel :
  tlvs_ok ts -> t <= 0x1000 -> zlen (encode ts) < 2 ^ 16 -> (length ts < fuel)%nat ->
  match lookup_tlv ts t with
  | Some v => exists off, get_tlv_loop fuel (p ++ encode ts ++ junk) t k (zlen (encode ts)) (zlen p) = Found off /\
                tlv_at (p ++ encode ts ++ junk) off v
  | None => get_tlv_loop fuel (p ++ encode ts ++ junk) t k (zlen (encode ts)) (zlen p) = NotFound
  end.
Proof.
  intros Hok Ht. revert p k fuel. induction Hok as [|[t' v] ts [Ht' Hv] Hok IH]; intros p k fuel Hl Hf.
  - by destruct fuel.
  - destruct fuel as [|fuel]; [cbn in Hf; lia|]. cbn [length] in Hf. cbn [fst snd] in *.
    pose proof (zlen_encode_cons t' v ts) as El. pose proof (zlen_nonneg v). pose proof (zlen_nonneg (encode ts)).
    cbn [lookup_tlv get_tlv_loop]. rewrite (proj2 (Z.ltb_ge _ _)) by (unfold sizeof_QMI_TLV_HDR; lia).
    rewrite (proj2 (Z.ltb_ge 0x1000 t)) by done. cbn [andb].
    change (encode ((t', v) :: ts)) with (encode_tlv (t', v) ++ encode ts) in *.
    assert (Eg : zget (p ++ (encode_tlv (t', v) ++ encode ts) ++ junk) (zlen p) = Some t') by by apply zget_app_mid.
    pose proof (tlv_at_app p t' v (encode ts ++ junk) Hv) as Hat. rewrite (app_assoc (encode_tlv _)) in Hat.
    rewrite Eg. destruct (t' =? t); [by eexists|]. rewrite (proj1 Hat).
    replace (u16 (zlen (encode_tlv (t', v) ++ encode ts) - (zlen v + sizeof_QMI_TLV_HDR)))
      with (zlen (encode ts)) by (rewrite El, (wrap_small 16); unfold sizeof_QMI_TLV_HDR, in_u; lia).
    replace (p ++ (encode_tlv (t', v) ++ encode ts) ++ junk)
      with ((p ++ encode_tlv (t', v)) ++ encode ts ++ junk) by by rewrite !app_assoc.
    replace (zlen p + zlen v + sizeof_QMI_TLV_HDR) with (zlen (p ++ encode_tlv (t', v))).
    + apply IH; lia.
    + rewrite zlen_app. unfold encode_tlv, sizeof_QMI_TLV_HDR. cbn [fst snd].
      rewrite zlen_cons, zlen_app, zlen_w16. lia.
Qed.

(** A body behind anything, followed by anything. *)
Lemma GetTLV_body Type_ ts t junk :
  tlvs_ok ts -> t <= 0x1000 -> zlen (encode ts) < 2 ^ 16 ->
  match lookup_tlv ts t with
  | Some v => exists off, GetTLV (qmux_body Type_ ts ++ junk) t = Found off /\ tlv_at (qmux_body Type_ ts ++ junk) off v
  | None => GetTLV (qmux_body Type_ ts ++ junk) t = NotFound
  end.
Proof.
  intros Hok Ht Hl. unfold GetTLV, qmux_body.
  replace ((w16 Type_ ++ w16 (zlen (encode ts)) ++ encode ts) ++ junk)
    with (w16 Type_ ++ w16 (zlen (encode ts)) ++ (encode ts ++ junk)) by by rewrite <- !app_assoc.
  pose proof (zlen_nonneg (encode ts)). rewrite rd16_app by (done || in_u).
  rewrite (app_assoc (w16 Type_)). change sizeof_QCQMUX_MSG_HDR with (zlen (w16 Type_ ++ w16 (zlen (encode ts)))).
  apply get_tlv_finds; [done..|]. rewrite !length_app.
  assert (length ts <= length (encode ts))%nat; [|lia]. clear.
  induction ts as [|[t v] ts IH]; [done|]. pose proof (zlen_encode_cons t v ts) as E. unfold zlen in E. cbn [length]. lia.
Qed.

(** Every turn moves the cursor inside the message, so the turns given suffice. *)
Lemma get_tlv_total d t k L p fuel :
  zlen d - p < Z.of_nat fuel -> (0 < fuel)%nat -> 0 <= p -> Forall is_byte d ->
  get_tlv_loop fuel d t k L p <> TlvNoFuel.
Proof.
  intros Hf Hp H0 Hd. revert k L p Hf Hp H0. induction fuel as [|fuel IH]; intros k L p Hf Hp H0; [lia|].
  cbn [get_tlv_loop]. destruct (L <? _); [done|]. destruct (_ && _); [done|].
  destruct (if 0x1000 <? t then Some false else _) as [[]|]; [done| |done].
  unfold rd16. destruct (zget d (p + 1)) as [a|] eqn:Ea; [|done].
  destruct (zget d (p + 1 + 1)) as [b|] eqn:Eb; [|done].
  assert (p + 1 + 1 < zlen d) by (apply zget_is_Some; by eexists).
  assert (Hz : forall i x, zget d i = Some x -> 0 <= x).
  { intros i x E. unfold zget in E. destruct (i <? 0); [done|].
    eapply Forall_lookup in Hd; [|done]. unfold is_byte, in_u in Hd. lia. }
  pose proof (Hz _ _ Ea). pose proof (Hz _ _ Eb). unfold sizeof_QMI_TLV_HDR.
  apply IH; lia.
Qed.

(** ** Lemmas: building *)

Lemma put_in p x r l : zlen x = zlen l -> put (zlen p) l (p ++ x ++ r) = Some (p ++ l ++ r).
Proof.
  intros E. rewrite put_app, zlen_app. pose proof (zlen_nonneg r).
  rewrite (proj2 (Z.leb_le _ _)) by lia. do 3 f_equal. by rewrite zdrop_app by lia.
Qed.

Lemma add_tlv_spec f h ts rest :
  zlen (encode ts) + zlen rest < 2 ^ 16 ->
  exists rest',
    add_tlv f (zlen h) (h ++ encode ts ++ rest, zlen (encode ts)) =
      (if sizeof_QMI_TLV_HDR + zlen (f_val f) + zlen (f_slack f) <=? zlen rest
       then Some (h ++ encode (ts ++ [tlv_of f]) ++ rest', zlen (encode (ts ++ [tlv_of f]))) else None) /\
    (sizeof_QMI_TLV_HDR + zlen (f_val f) + zlen (f_slack f) <= zlen rest ->
     zlen rest' = zlen rest - (sizeof_QMI_TLV_HDR + zlen (f_val f))).
Proof.
  destruct f as [t v e]. cbn [f_val f_slack]. intros Hl. unfold sizeof_QMI_TLV_HDR.
  set (l := u8 t :: w16 (zlen v) ++ v ++ e).
  pose proof (zlen_nonneg v). pose proof (zlen_nonneg e). pose proof (zlen_nonneg (encode ts)).
  assert (El : zlen l = 3 + zlen v + zlen e) by (unfold l; autorewrite with zlen; rewrite zlen_w16; lia).
  exists (e ++ zdrop (zlen l) rest). split.
  - cbn [add_tlv f_type f_val f_slack]. fold l. rewrite (app_assoc h).
    replace (zlen h + zlen (encode ts)) with (zlen (h ++ encode ts)) by by rewrite zlen_app.
    rewrite put_app, El. destruct (Z.leb_spec (3 + zlen v + zlen e) (zlen rest)); [|done].
    rewrite <- El. cbn [mbind option_bind]. f_equal. f_equal.
    + unfold l. rewrite encode_app. change (encode [tlv_of (WF t v e)]) with (encode_tlv (u8 t, v) ++ []).
      unfold encode_tlv. cbn [fst snd]. rewrite app_nil_r, <- !app_assoc. cbn [app]. by rewrite <- !app_assoc.
    + rewrite encode_app, zlen_app. change (tlv_of (WF t v e)) with (u8 t, v). rewrite zlen_encode_cons.
      change (zlen (encode [])) with 0. rewrite !(wrap_small 16) by (unfold sizeof_QMI_TLV_HDR, in_u; lia || (rewrite (wrap_small 16); unfold in_u; lia)).
      unfold sizeof_QMI_TLV_HDR. lia.
  - intros. rewrite zlen_app, zlen_zdrop by lia. lia.
Qed.

Lemma add_all_spec l h ts rest :
  zlen (encode ts) + zlen rest < 2 ^ 16 ->
  exists rest',
    add_all l (zlen h) (h ++ encode ts ++ rest, zlen (encode ts)) =
      (if fits (zlen rest) l
       then Some (h ++ encode (ts ++ map tlv_of l) ++ rest', zlen (encode (ts ++ map tlv_of l))) else None).
Proof.
  revert ts rest. induction l as [|f l IH]; intros ts rest Hl.
  - exists rest. cbn [add_all fits map]. by rewrite app_nil_r.
  - destruct (add_tlv_spec f h ts rest Hl) as (r1 & E1 & E2). cbn [add_all fits map].
    rewrite E1. destruct (Z.leb_spec (sizeof_QMI_TLV_HDR + zlen (f_val f) + zlen (f_slack f)) (zlen rest)) as [Hle|];
      [|by exists []]. specialize (E2 Hle). cbn [mbind option_bind andb]. rewrite <- E2.
    assert (Hs : zlen (encode (ts ++ [tlv_of f])) + zlen r1 < 2 ^ 16).
    { rewrite encode_app, zlen_app. change (tlv_of f) with (u8 (f_type f), f_val f). rewrite zlen_encode_cons.
      change (zlen (encode [])) with 0. unfold sizeof_QMI_TLV_HDR in *. lia. }
    destruct (IH (ts ++ [tlv_of f]) r1 Hs) as [r2 E3]. exists r2. rewrite E3. by rewrite <- app_assoc.
Qed.

Lemma fits_room l room : 0 <= room -> fits room l = true -> zlen (encode (map tlv_of l)) <= room.
Proof.
  revert room. induction l as [|f l IH]; intros room Hr; cbn [fits map]; [done|].
  intros (H1 & H2)%andb_true_iff. zprop. pose proof (zlen_nonneg (f_slack f)).
  change (tlv_of f) with (u8 (f_type f), f_val f). rewrite zlen_encode_cons.
  unfold sizeof_QMI_TLV_HDR in *. apply IH in H2; lia.
Qed.

(** The stores of the header into the cleared buffer. *)
Lemma compose_header q t0 t1 y0 y1 :
  (b ← put 0 [1] (replicate (Z.to_nat WDM_DEFAULT_BUFSIZE) 0);
   b ← put 3 [0; q] b;
   b ← put sizeof_QCQMI_HDR [0] b;
   b ← put (sizeof_QCQMI_HDR + 1) [t0; t1] b;
   put off_hdr [y0; y1] b) =
  Some ([1; 0; 0; 0; q; 0; 0; t0; t1; y0; y1; 0; 0] ++ replicate 243 0).
Proof. reflexivity. Qed.

Lemma request_split q cl tid ty ts :
  qmi_request q cl tid ty ts =
    ([1] ++ w16 (zlen (encode ts) + 12) ++ [0; u8 q; u8 cl; 0] ++ w16 tid ++ w16 ty ++ w16 (zlen (encode ts))) ++ encode ts.
Proof. unfold qmi_request, qmux_body. by rewrite <- !app_assoc. Qed.

(** Composing a request from fields: the message of the format when the buffer
    is large enough, a store past the buffer otherwise. *)
Lemma compose_fields tid q ty l (custom : builder) :
  (forall h rest, zlen h = off_hdr + 2 -> custom (h ++ [0; 0] ++ rest) =
     '(b, n) ← add_all l off_tlvs (h ++ [0; 0] ++ rest, 0); Some (b, u16 (sizeof_QCQMUX_MSG_HDR + n))) ->
  ComposeQMUXMsg tid q ty (Some custom) =
    if fits 243 l then Some (qmi_request q 0 tid ty (map tlv_of l)) else None.
Proof.
  intros Hc. unfold ComposeQMUXMsg.
  pose proof (compose_header (u8 q) (u8 tid) (u8 (tid / 2 ^ 8)) (u8 ty) (u8 (ty / 2 ^ 8))) as Hh.
  fold (w16 tid) (w16 ty) in Hh. unfold mbind, option_bind in *.
  repeat match type of Hh with context [match ?x with _ => _ end] =>
    lazymatch x with context [match _ with _ => _ end] => fail | _ => destruct x; [|discriminate Hh] end end.
  rewrite Hh. set (h := [1; 0; 0; 0; u8 q; 0; 0; u8 tid; u8 (tid / 2 ^ 8); u8 ty; u8 (ty / 2 ^ 8); 0; 0]) in *.
  pose proof (Hc (take 11 h) (replicate 243 0) eq_refl) as Ec.
  change (take 11 h ++ [0; 0] ++ replicate 243 0) with (h ++ replicate 243 0) in Ec.
  unfold mbind, option_bind in Ec. rewrite Ec. clear Ec Hc Hh.
  destruct (add_all_spec l h [] (replicate 243 0)) as [rest Ea]; [done|].
  change (encode [] ++ replicate 243 0) with (replicate 243 0) in Ea. change (zlen (encode [])) with 0 in Ea.
  change (zlen h) with off_tlvs in Ea. change (zlen (replicate 243 0)) with 243 in Ea. cbn [app] in Ea.
  fold h in Ea. rewrite Ea. destruct (fits 243 l) eqn:Ef; [|done].
  apply fits_room in Ef; [|done]. set (ts := map tlv_of l) in *. set (n := zlen (encode ts)) in *.
  pose proof (zlen_nonneg (encode ts)) as Hn. fold n in Hn. unfold sizeof_QCQMUX_MSG_HDR, sizeof_QCQMUX_HDR, sizeof_QCQMI_HDR.
  rewrite (wrap_small 16 (4 + n)) by in_u. replace (4 + n - 4) with n by lia. rewrite (wrap_small 16 n) by in_u.
  change h with ([1; 0; 0; 0; u8 q; 0; 0; u8 tid; u8 (tid / 2 ^ 8); u8 ty; u8 (ty / 2 ^ 8)] ++ [0; 0]).
  rewrite <- app_assoc.
  change (off_hdr + 2) with (zlen [1; 0; 0; 0; u8 q; 0; 0; u8 tid; u8 (tid / 2 ^ 8); u8 ty; u8 (ty / 2 ^ 8)]).
  rewrite put_in by done.
  replace (n + 4 + 3 + 6 - 1) with (n + 12) by lia. rewrite (wrap_small 16) by in_u.
  match goal with |- context [put 1 _ ?b] =>
    change b with ([1] ++ [0; 0] ++ ([0; u8 q; 0; 0] ++ w16 tid ++ w16 ty ++ w16 n) ++ encode ts ++ rest) end.
  change (put 1) with (put (zlen [1])). rewrite put_in by done.
  rewrite request_split. fold n. set (hd := [1] ++ w16 (n + 12) ++ [0; u8 q; u8 0; 0] ++ w16 tid ++ w16 ty ++ w16 n).
  match goal with |- rdn ?b _ _ = _ => replace b with ([] ++ (hd ++ encode ts) ++ rest)
    by (unfold hd; by rewrite <- !app_assoc) end.
  apply rdn_app; [done|]. rewrite zlen_app. fold n. change (zlen hd) with 13. lia.
Qed.

Lemma compose_fixed tid q ty l :
  ComposeQMUXMsg tid q ty (Some (fixed_req l)) =
    if fits 243 l then Some (qmi_request q 0 tid ty (map tlv_of l)) else None.
Proof. by apply compose_fields. Qed.

Lemma compose_start tid q ty cdma p :
  ComposeQMUXMsg tid q ty (Some (WdsStartNwInterfaceReq cdma p)) =
    if fits 243 (start_fields cdma p) then Some (qmi_request q 0 tid ty (map tlv_of (start_fields cdma p))) else None.
Proof.
  apply compose_fields. intros h rest Hh. unfold WdsStartNwInterfaceReq. rewrite <- Hh. by rewrite put_in.
Qed.

Lemma compose_empty tid q ty : ComposeQMUXMsg tid q ty None = Some (qmi_request q 0 tid ty []).
Proof. reflexivity. Qed.

(** The part of a request behind the QMUX header, where [GetTLV] is called. *)
Lemma request_body q cl tid ty ts : zdrop off_hdr (qmi_request q cl tid ty ts) = qmux_body ty ts.
Proof. unfold qmi_request. reflexivity. Qed.

(** What a field lookup in a request finds. *)
Definition carries (m : bytes) (t : Z) (o : option bytes) : Prop :=
  let d := zdrop off_hdr m in
  match o with
  | Some v => exists off, GetTLV d t = Found off /\ tlv_at d off v
  | None => GetTLV d t = NotFound
  end.

Lemma fits_tlvs_ok l room : room < 2 ^ 16 -> fits room l = true -> tlvs_ok (map tlv_of l).
Proof.
  revert room. induction l as [|f l IH]; intros room Hr; cbn [fits map]; [constructor|].
  intros (H1 & H2)%andb_true_iff. zprop. pose proof (zlen_nonneg (f_slack f)). pose proof (zlen_nonneg (f_val f)).
  unfold sizeof_QMI_TLV_HDR in *. constructor; [|apply IH in H2; [done|lia]].
  unfold tlv_of. cbn [fst snd]. split; [apply wrap_in_u; lia|lia].
Qed.

Lemma request_carries q cl tid ty l t :
  fits 243 l = true -> t <= 0x1000 ->
  carries (qmi_request q cl tid ty (map tlv_of l)) t (lookup_tlv (map tlv_of l) t).
Proof.
  intros Hf Ht. unfold carries. rewrite request_body, <- (app_nil_r (qmux_body _ _)).
  apply GetTLV_body; [by apply (fits_tlvs_ok l 243)|done|]. apply fits_room in Hf; lia.
Qed.

(** The fields of a start request, looked up by type. *)
Lemma start_lookup cdma p :
  let '(user, pd, auth) := start_auth cdma p in
  let l := map tlv_of (start_fields cdma p) in
  lookup_tlv l 0x14 = (if cdma then None else p_apn p) /\ lookup_tlv l 0x17 = user /\
  lookup_tlv l 0x18 = pd /\ lookup_tlv l 0x19 = Some [u8 (p_curIpFamily p)] /\
  lookup_tlv l 0x16 = (if bool_decide (is_Some user /\ is_Some pd) then Some [u8 auth] else None) /\
  lookup_tlv l 0x31 = (if negb (p_idProduct p =? 0x0316) && negb (p_profile_index p =? 0) && negb cdma
                       then Some [u8 (p_profile_index p)] else None).
Proof.
  unfold start_fields. destruct (start_auth cdma p) as [[user pd] auth]. cbv zeta.
  destruct cdma, (p_apn p), user, pd, (p_idProduct p =? 0x0316), (p_profile_index p =? 0),
    (p_bring_up_by_apn_name p =? 0), (p_bring_up_by_apn_type p =? 0), (p_apn_type p =? 0);
    repeat split.
Qed.

Lemma compose_start_inv tid q ty cdma p m :
  ComposeQMUXMsg tid q ty (Some (WdsStartNwInterfaceReq cdma p)) = Some m ->
  fits 243 (start_fields cdma p) = true /\ m = qmi_request q 0 tid ty (map tlv_of (start_fields cdma p)).
Proof. rewrite compose_start. destruct (fits _ _); [|done]. by intros [= <-]. Qed.

(** ** Theorems *)

(** C29. [GetTLV] is lookup by type: on a message whose fields are well formed it
    finds the first field of the type and the value there is the one encoded,
    it finds nothing exactly when no field has the type, and whatever bytes
    follow the message are not read; on arbitrary bytes the walk ends. *)
Theorem GetTLV_lookup Type_ ts t junk :
  tlvs_ok ts -> t <= 0x1000 -> zlen (encode ts) < 2 ^ 16 ->
  let d := qmux_body Type_ ts ++ junk in
  match lookup_tlv ts t with
  | Some v => exists off, GetTLV d t = Found off /\ tlv_at d off v
  | None => GetTLV d t = NotFound
  end /\
  forall d t, Forall is_byte d -> GetTLV d t <> TlvNoFuel.
Proof.
  intros Hok Ht Hl d. split; [by apply GetTLV_body|].
  clear. intros d t Hd. unfold GetTLV. destruct (rd16 d 2) as [L|]; [|done].
  apply get_tlv_total; [|lia|done|done]. unfold zlen, sizeof_QCQMUX_MSG_HDR. lia.
Qed.

Lemma GetTLV_lookup_witness :
  exists off, GetTLV (qmux_body 0x20 [(0x02, [0; 0; 0; 0]); (0x01, [9; 8; 7; 6])] ++ [77]) 0x01 = Found off /\
    tlv_at (qmux_body 0x20 [(0x02, [0; 0; 0; 0]); (0x01, [9; 8; 7; 6])] ++ [77]) off [9; 8; 7; 6].
Proof.
  apply (GetTLV_lookup 0x20 [(0x02, [0; 0; 0; 0]); (0x01, [9; 8; 7; 6])] 0x01 [77]);
    [repeat constructor; by vm_compute|done|by vm_compute].
Defined.

(** A field that claims more bytes than the message holds makes the 16-bit
    count of bytes left wrap around, and the lookup of another type walks on
    past the end of the message. *)
Theorem GetTLV_length_wraps Type_ t' claimed t :
  in_u 8 t' -> t <> t' -> t <= 0x1000 -> 0 < claimed < 2 ^ 16 - 2 ->
  GetTLV (w16 Type_ ++ w16 3 ++ t' :: w16 claimed) t = Overread.
Proof.
  intros Ht' Hne Ht Hc. unfold GetTLV.
  change (w16 Type_ ++ w16 3 ++ t' :: w16 claimed) with (w16 Type_ ++ w16 3 ++ (t' :: w16 claimed)).
  set (d := w16 Type_ ++ w16 3 ++ (t' :: w16 claimed)).
  assert (E2 : rd16 d 2 = Some 3) by (by apply rd16_app). rewrite E2.
  assert (E5 : rd16 d (sizeof_QCQMUX_MSG_HDR + 1) = Some claimed).
  { unfold d. change (w16 Type_ ++ w16 3 ++ t' :: w16 claimed) with ((w16 Type_ ++ w16 3 ++ [t']) ++ w16 claimed ++ []).
    apply rd16_app; [in_u|done]. }
  assert (E4 : zget d sizeof_QCQMUX_MSG_HDR = Some t') by done.
  assert (El : exists n, length d = S n) by by eexists. destruct El as [n El]. rewrite El.
  assert (Hz : zget d (sizeof_QCQMUX_MSG_HDR + claimed + sizeof_QMI_TLV_HDR) = None).
  { destruct (zget d (_ + claimed + _)) eqn:E; [|done]. apply mk_is_Some, zget_is_Some in E. change (zlen d) with 7 in E.
    unfold sizeof_QCQMUX_MSG_HDR, sizeof_QMI_TLV_HDR in E. lia. }
  clearbody d. cbn [get_tlv_loop]. change (3 <? sizeof_QMI_TLV_HDR) with false. cbn iota.
  rewrite (proj2 (Z.ltb_ge 0x1000 t)) by done. cbn [andb]. rewrite E4, (proj2 (Z.eqb_neq t' t)) by done. rewrite E5.
  replace (u16 (3 - (claimed + sizeof_QMI_TLV_HDR))) with (2 ^ 16 - claimed).
  2: { unfold wrap, sizeof_QMI_TLV_HDR. apply (Z.mod_unique_pos _ _ (-1)); lia. }
  rewrite (proj2 (Z.ltb_ge _ _)) by (unfold sizeof_QMI_TLV_HDR; lia). by rewrite Hz.
Qed.

Lemma GetTLV_length_wraps_witness : GetTLV [0x2F; 0; 3; 0; 0x02; 4; 0] 0x10 = Overread.
Proof. apply (GetTLV_length_wraps 0x2F 0x02 4 0x10); [by vm_compute|done|done|by vm_compute]. Defined.


Definition ex_profile : profile :=
  Profile (Some (bs "internet")) (Some (bs "me")) (Some (bs "secret")) 2 0 1 3 IpFamilyV4 0x0801 0 0 0.


(** The buffer of 256 bytes bounds the strings: without user name and
    password a start request that names a profile is built exactly when the APN
    has at most 228 characters, and a longer APN is copied past the buffer. *)
Theorem start_request_bound tid q p apn :
  p_apn p = Some apn -> p_user p = None -> p_pd p = None ->
  p_idProduct p <> 0x0316 -> p_profile_index p <> 0 ->
  is_Some (ComposeQMUXMsg tid q QMIWDS_START_NETWORK_INTERFACE_REQ (Some (WdsStartNwInterfaceReq false p))) <->
  zlen apn <= 228.
Proof.
  intros Ha Hu Hp Hi Hx. rewrite compose_start. pose proof (zlen_nonneg apn).
  assert (Ef : fits 243 (start_fields false p) = (zlen apn <=? 228)).
  { unfold start_fields, start_auth. cbn [andb]. rewrite Ha, Hu, Hp.
    rewrite (proj2 (Z.eqb_neq _ _) Hi), (proj2 (Z.eqb_neq _ _) Hx).
    cbn [negb andb field_opt field_if bool_decide app fits f_val f_slack u8_field str_field].
    rewrite bool_decide_eq_false_2 by (intros [[? ?] _]; done).
    cbn [field_if app fits f_val f_slack u8_field]. unfold sizeof_QMI_TLV_HDR.
    change (zlen [0]) with 1. change (zlen (@nil Z)) with 0.
    change (zlen [u8 1]) with 1. change (zlen [u8 (p_curIpFamily p)]) with 1.
    change (zlen [u8 (p_profile_index p)]) with 1. zbool; cbn; done || lia. }
  rewrite Ef. destruct (Z.leb_spec (zlen apn) 228).
  - split; [done|by eexists].
  - split; [by intros [? ?]|lia].
Qed.

Lemma start_request_bound_witness :
  is_Some (ComposeQMUXMsg 1 QMUX_TYPE_WDS QMIWDS_START_NETWORK_INTERFACE_REQ
    (Some (WdsStartNwInterfaceReq false (Profile (Some (replicate 228 97)) None None 0 0 1 1 4 0 0 0 0)))).
Proof.
  apply (start_request_bound 1 QMUX_TYPE_WDS (Profile (Some (replicate 228 97)) None None 0 0 1 1 4 0 0 0 0)
           (replicate 228 97)); [reflexivity|reflexivity|reflexivity|done|done|by vm_compute].
Defined.

Lemma bytes_app a b : Forall is_byte a -> Forall is_byte b -> Forall is_byte (a ++ b).
Proof. intros. by apply Forall_app. Qed.

Lemma bytes_w16 x : Forall is_byte (w16 x).
Proof. repeat constructor; apply wrap_in_u; lia. Qed.

Lemma bytes_encode ts : Forall (fun x => is_byte (fst x) /\ Forall is_byte (snd x)) ts -> Forall is_byte (encode ts).
Proof.
  induction 1 as [|[t v] ts [Ht Hv] _ IH]; [constructor|].
  change (encode ((t, v) :: ts)) with (t :: w16 (zlen v) ++ v ++ encode ts).
  constructor; [done|]. auto using bytes_app, bytes_w16.
Qed.


