(* ===== verification/QmiReq.v ===== *)
(** * QMI requests of the connection manager: [QMIThread.c]

    The static variables of the file are a record; the modem and the transport
    behind [QmiThreadSendQMITimeout] are a parameter: the error returned and the
    response, if any, for each request.  A request runs in a state monad that
    fails ([None]) when the code reads or writes outside an object; allocations
    succeed.  Requests are logged in the order they are sent. *)

From S2P Require Import Prelude CLib QmiMsg.

(** ** State and monad *)

Record qst := Qst {
  v4_handle : Z; v6_handle : Z; s_is_cdma : bool; s_9x07 : bool; TransactionId : Z;
  g_pdn_conflict : Z; qmap_version : Z; q_sent : list bytes }.

Definition set_v4_handle (s : qst) (x : Z) : qst :=
  Qst x (v6_handle s) (s_is_cdma s) (s_9x07 s) (TransactionId s) (g_pdn_conflict s) (qmap_version s) (q_sent s).
Definition set_v6_handle (s : qst) (x : Z) : qst :=
  Qst (v4_handle s) x (s_is_cdma s) (s_9x07 s) (TransactionId s) (g_pdn_conflict s) (qmap_version s) (q_sent s).
Definition set_9x07 (s : qst) (x : bool) : qst :=
  Qst (v4_handle s) (v6_handle s) (s_is_cdma s) x (TransactionId s) (g_pdn_conflict s) (qmap_version s) (q_sent s).
Definition set_tid (s : qst) (x : Z) : qst :=
  Qst (v4_handle s) (v6_handle s) (s_is_cdma s) (s_9x07 s) x (g_pdn_conflict s) (qmap_version s) (q_sent s).
Definition set_conflict (s : qst) (x : Z) : qst :=
  Qst (v4_handle s) (v6_handle s) (s_is_cdma s) (s_9x07 s) (TransactionId s) x (qmap_version s) (q_sent s).
Definition set_version (s : qst) (x : Z) : qst :=
  Qst (v4_handle s) (v6_handle s) (s_is_cdma s) (s_9x07 s) (TransactionId s) (g_pdn_conflict s) x (q_sent s).
Definition add_sent (s : qst) (r : bytes) : qst :=
  Qst (v4_handle s) (v6_handle s) (s_is_cdma s) (s_9x07 s) (TransactionId s) (g_pdn_conflict s) (qmap_version s)
    (q_sent s ++ [r]).

(** What the modem answers to the requests sent so far and the new one. *)
Abbreviation modem := (list bytes -> bytes -> Z * option bytes).

Abbreviation act := (st qst).

Definition crash {A} : act A := fun _ => None.
Abbreviation gets := st_gets.
Abbreviation modify := st_modify.
(** A load that must lie inside the message. *)
Abbreviation load := st_load.

(** ** Sending and checking *)

(** [ComposeQMUXMsg] with the next transaction number. *)
Definition compose (QMIType Type_ : Z) (custom : option builder) : act bytes :=
  modify (fun s => set_tid s (GetQMUXTransactionId (TransactionId s)));;
  tid ← gets TransactionId;
  load (ComposeQMUXMsg tid QMIType Type_ custom).

(** [QmiThreadSendQMI]: [err] and [pResponse]. *)
Definition send (md : modem) (r : bytes) : act (Z * option bytes) :=
  fun s => Some (md (q_sent s) r, add_sent s r).

(** [QMUXResult] and [QMUXError] behind the message header. *)
Definition rsp_result (m : bytes) : act (Z * Z) :=
  r ← load (rd16 m (off_hdr + 7)); e ← load (rd16 m (off_hdr + 9)); mret (r, e).

Definition rsp_failed (x : Z * Z) : bool := negb (fst x =? 0) || negb (snd x =? 0).

(** A request and [qmi_rsp_check_and_return]: the value the caller returns at
    once, or the response. *)
Definition request (md : modem) (QMIType Type_ : Z) (custom : option builder) : act (Z + bytes) :=
  r ← compose QMIType Type_ custom;
  '(err, rsp) ← send md r;
  match rsp with
  | None => mret (inl err)
  | Some m =>
      if err <? 0 then mret (inl err)
      else x ← rsp_result m; mret (if rsp_failed x then inl (snd x) else inr m)
  end.

(** [GetTLV(&pResponse->MUXMsg.QMUXMsgHdr, t)]: the offset in the message. *)
Definition tlv (m : bytes) (t : Z) : act (option Z) :=
  match GetTLV (zdrop off_hdr m) t with
  | Found off => mret (Some (off_hdr + off))
  | NotFound => mret None
  | Overread | TlvNoFuel => crash
  end.

Definition wds_type (curIpFamily : Z) : Z :=
  if curIpFamily =? IpFamilyV4 then QMUX_TYPE_WDS else QMUX_TYPE_WDS_IPV6.

(** ** Data calls *)

Definition handle_of (curIpFamily : Z) (s : qst) : Z :=
  if curIpFamily =? IpFamilyV4 then v4_handle s else v6_handle s.
Definition set_handle (curIpFamily h : Z) (s : qst) : qst :=
  if curIpFamily =? IpFamilyV4 then set_v4_handle s h else set_v6_handle s h.

Definition QWDS_PKT_DATA_DISCONNECTED : Z := 0x01.
Definition QWDS_PKT_DATA_CONNECTED : Z := 0x02.

(** The return value and the connection status stored. *)
Definition requestQueryDataCall (md : modem) (status curIpFamily : Z) : act (Z * Z) :=
  rsp ← request md (wds_type curIpFamily) QMIWDS_GET_PKT_SRVC_STATUS_REQ None;
  match rsp with
  | inl err => mret (err, status)
  | inr m =>
      p ← tlv m 0x01;
      status ← match p with
               | None => mret QWDS_PKT_DATA_DISCONNECTED
               | Some p =>
                   st ← load (zget m (p + 3));
                   len ← load (rd16 m (p + 1));
                   if len =? 2 then
                     reconf ← load (zget m (p + 4));
                     mret (if reconf =? 0x01 then QWDS_PKT_DATA_DISCONNECTED else st)
                   else mret st
               end;
      (if status =? QWDS_PKT_DATA_DISCONNECTED then modify (set_handle curIpFamily 0) else mret tt);;
      mret (0, status)
  end.

Definition set_family (p : profile) (f : Z) : profile :=
  Profile (p_apn p) (p_user p) (p_pd p) (p_auth p) (p_iptype p) (p_pdp p) (p_profile_index p) f
    (p_idProduct p) (p_bring_up_by_apn_name p) (p_bring_up_by_apn_type p) (p_apn_type p).

(** The reasons after which the caller has to detach: the network already has
    the PDN, or the modem throttles. *)
Definition conflict_reason (type verbose : Z) : bool :=
  ((type =? 6) && (verbose =? 55)) || ((type =? 2) && ((verbose =? 209) || (verbose =? 211))).

(** The handle is read behind the result field, wherever the modem put it. *)
Definition requestSetupDataCall (md : modem) (p : profile) (curIpFamily : Z) : act (Z * profile) :=
  let p := set_family p curIpFamily in
  modify (fun s => set_conflict s 0);;
  cdma ← gets s_is_cdma;
  r ← compose (wds_type curIpFamily) QMIWDS_START_NETWORK_INTERFACE_REQ (Some (WdsStartNwInterfaceReq cdma p));
  '(err, rsp) ← send md r;
  match rsp with
  | None => mret (err, p)
  | Some m =>
      if err <? 0 then mret (err, p)
      else
        x ← rsp_result m;
        if rsp_failed x then
          t ← tlv m 0x10;
          (match t with Some t => load (rd16 m (t + 3));; mret tt | None => mret tt end);;
          t ← tlv m 0x11;
          (match t with
           | Some t =>
               type ← load (rd16 m (t + 3));
               verbose ← load (rd16 m (t + 5));
               if conflict_reason type verbose then modify (fun s => set_conflict s verbose) else mret tt
           | None => mret tt
           end);;
          mret (snd x, p)
        else
          h ← load (rd32 m (off_hdr + 14));
          modify (set_handle curIpFamily h);;
          mret (0, p)
  end.

Definition requestDeactivateDefaultPDP (md : modem) (curIpFamily : Z) : act Z :=
  v4 ← gets v4_handle; v6 ← gets v6_handle;
  if (curIpFamily =? IpFamilyV4) && (v4 =? 0) then mret 0
  else if (curIpFamily =? IpFamilyV6) && (v6 =? 0) then mret 0
  else
    rsp ← request md (wds_type curIpFamily) QMIWDS_STOP_NETWORK_INTERFACE_REQ
            (Some (WdsStopNwInterfaceReq v4 v6 curIpFamily));
    match rsp with
    | inl err => mret err
    | inr m => modify (set_handle curIpFamily 0);; mret 0
    end.

(** ** Lemmas *)

Lemma tlv_inv m t s o s' : tlv m t s = Some (o, s') -> s' = s /\ match o with
    | Some p => GetTLV (zdrop off_hdr m) t = Found (p - off_hdr) | None => GetTLV (zdrop off_hdr m) t = NotFound end.
Proof.
  unfold tlv. destruct (GetTLV _ t) eqn:E; [| |done|done]; intros [-> ->]%st_ret_inv; split; try done.
  f_equal. lia.
Qed.

(** Take a run apart, every branch of it. *)
Ltac run_in H :=
  match type of H with
  | (_ ≫= _) _ = Some _ =>
      let x := fresh "x" in let s := fresh "s" in let H1 := fresh "H" in
      apply st_bind_inv in H; destruct H as (x & s & H1 & H); try done; run_in H1; run_in H
  | mret _ _ = Some _ => apply st_ret_inv in H; destruct H as [? ?]; subst
  | gets _ _ = Some _ => apply st_gets_inv in H; destruct H as [? ?]; subst
  | modify _ _ = Some _ => apply st_modify_inv in H; subst
  | load _ _ = Some _ => apply st_load_inv in H; destruct H as [? ?]; subst
  | tlv _ _ _ = Some _ => apply tlv_inv in H; destruct H as [? ?]; subst
  | (if ?b then _ else _) _ = Some _ => let E := fresh "E" in destruct b eqn:E; run_in H
  | (match ?o with Some _ => _ | None => _ end) _ = Some _ => let E := fresh "E" in destruct o eqn:E; run_in H
  | (match ?o with inl _ => _ | inr _ => _ end) _ = Some _ => let E := fresh "E" in destruct o eqn:E; run_in H
  | (let '(_, _) := ?p in _) _ = Some _ => destruct p; run_in H
  | _ => idtac
  end.

Lemma rsp_inv m s x s' :
  rsp_result m s = Some (x, s') ->
  s' = s /\ rd16 m (off_hdr + 7) = Some (fst x) /\ rd16 m (off_hdr + 9) = Some (snd x).
Proof. intros H. unfold rsp_result in H. run_in H. done. Qed.

(** The state after the request [r] with the next transaction number. *)
Definition sent_state (s : qst) (r : bytes) : qst :=
  add_sent (set_tid s (GetQMUXTransactionId (TransactionId s))) r.

Lemma compose_inv q ty c s r s' :
  compose q ty c s = Some (r, s') ->
  ComposeQMUXMsg (GetQMUXTransactionId (TransactionId s)) q ty c = Some r /\
  s' = set_tid s (GetQMUXTransactionId (TransactionId s)).
Proof. intros H. unfold compose in H. run_in H. done. Qed.

Lemma send_inv md r s y s' : send md r s = Some (y, s') -> y = md (q_sent s) r /\ s' = add_sent s r.
Proof. by intros [= <- <-]. Qed.

Lemma request_inv md q ty c s x s' :
  request md q ty c s = Some (x, s') ->
  exists r, ComposeQMUXMsg (GetQMUXTransactionId (TransactionId s)) q ty c = Some r /\ s' = sent_state s r /\
    match x with
    | inl _ => True
    | inr m => 0 <= fst (md (q_sent s) r) /\ snd (md (q_sent s) r) = Some m
    end.
Proof.
  intros H. unfold request in H. run_in H.
  all: apply compose_inv in H0 as [Hc ->]; apply send_inv in H1 as [E2 ->].
  all: try apply rsp_inv in H2 as (-> & _).
  all: exists x0; split_and!; try done.
  change (q_sent (set_tid s (GetQMUXTransactionId (TransactionId s)))) with (q_sent s) in E2.
  destruct (rsp_failed x1); [done|]. rewrite <- E2. split; [by apply Z.ltb_ge|done].
Qed.

(** A request answered without error. *)
Lemma request_ok md q ty c s r m :
  ComposeQMUXMsg (GetQMUXTransactionId (TransactionId s)) q ty c = Some r ->
  md (q_sent s) r = (0, Some m) -> (forall s, rsp_result m s = Some ((0, 0), s)) ->
  request md q ty c s = Some (inr m, sent_state s r).
Proof.
  intros Hc Hmd Hr. unfold request.
  assert (E : compose q ty c s = Some (r, set_tid s (GetQMUXTransactionId (TransactionId s)))).
  { unfold compose, mbind, st_bind, modify, gets, load. cbn [TransactionId set_tid]. by rewrite Hc. }
  rewrite (st_bind_some _ _ _ _ _ E). erewrite st_bind_some by reflexivity.
  change (q_sent (set_tid s (GetQMUXTransactionId (TransactionId s)))) with (q_sent s). rewrite Hmd.
  change (0 <? 0) with false. cbn iota. by rewrite (st_bind_some _ _ _ _ _ (Hr _)).
Qed.

(** *** Reading the fields of a response *)

Lemma zget_zdrop {A} (l : list A) k i : 0 <= k -> 0 <= i -> zget (zdrop k l) i = zget l (k + i).
Proof.
  intros. unfold zget, zdrop. rewrite (proj2 (Z.ltb_ge i 0)), (proj2 (Z.ltb_ge (k + i) 0)) by lia.
  rewrite lookup_drop. f_equal. lia.
Qed.

Lemma zget_ztake {A} (l : list A) n i : i < n -> zget (ztake n l) i = zget l i.
Proof.
  intros. unfold zget, ztake. destruct (Z.ltb_spec i 0); [done|]. apply lookup_take_lt. lia.
Qed.

(** A byte of a value that was copied out. *)
Lemma rdn_zget m i n v j : rdn m i n = Some v -> 0 <= j < n -> zget m (i + j) = zget v j.
Proof.
  unfold rdn. destruct ((0 <=? i) && (i + n <=? zlen m)) eqn:E; [|done]. intros [= <-] Hj. zprop.
  by rewrite zget_ztake, zget_zdrop by lia.
Qed.

Lemma rdn_rd16 m i n v j : rdn m i n = Some v -> 0 <= j < n - 1 -> rd16 m (i + j) = rd16 v j.
Proof.
  intros H Hj. unfold rd16. rewrite (rdn_zget m i n v j) by (done || lia).
  rewrite <- Z.add_assoc, (rdn_zget m i n v (j + 1)) by (done || lia). done.
Qed.

Lemma rdn_rd32 m i n v j : rdn m i n = Some v -> 0 <= j < n - 3 -> rd32 m (i + j) = rd32 v j.
Proof.
  intros H Hj. unfold rd32. rewrite (rdn_rd16 m i n v j) by (done || lia).
  rewrite <- Z.add_assoc, (rdn_rd16 m i n v (j + 2)) by (done || lia). done.
Qed.

Lemma rd32_w32 x : in_u 32 x -> rd32 (w32 x) 0 = Some x.
Proof.
  intros Hx. unfold rd32, rd16, w32. cbn -[Z.div Z.modulo Z.mul Z.add Z.pow wrap]. f_equal. unfold wrap, in_u in *.
  pose proof (Z.div_mod x (2 ^ 8)) as H1. pose proof (Z.div_mod (x / 2 ^ 8) (2 ^ 8)) as H2.
  pose proof (Z.div_mod (x / 2 ^ 16) (2 ^ 8)) as H3. rewrite !Z.div_div in H2, H3 by lia.
  change (2 ^ 8 * 2 ^ 8) with (2 ^ 16) in H2. change (2 ^ 16 * 2 ^ 8) with (2 ^ 24) in H3.
  rewrite (Z.mod_small (x / 2 ^ 24)) by (split; [apply Z.div_pos|apply Z.div_lt_upper_bound]; lia). lia.
Qed.

(** [v] is the value of the field at [p] of a response. *)
Definition field_at (m : bytes) (p : Z) (v : bytes) : Prop :=
  off_hdr <= p /\ rd16 m (p + 1) = Some (zlen v) /\ rdn m (p + 3) (zlen v) = Some v.

Lemma get_tlv_off fuel d t k L p off : 0 <= p -> Forall is_byte d -> get_tlv_loop fuel d t k L p = Found off -> p <= off.
Proof.
  intros Hp Hd. revert k L p Hp. induction fuel as [|fuel IH]; intros k L p Hp; cbn [get_tlv_loop];
    (destruct (L <? _); [done|]); [done|]. destruct (_ && _); [by intros [= <-]|].
  destruct (if 0x1000 <? t then _ else _) as [[]|]; [by intros [= <-]| |done].
  destruct (rd16 d (p + 1)) as [len|] eqn:E; [|done]. intros H.
  assert (0 <= len).
  { unfold rd16 in E. destruct (zget d (p + 1)) as [a|] eqn:Ea; [|done]. destruct (zget d (p + 1 + 1)) as [b|] eqn:Eb; [|done].
    injection E as <-. assert (Hz : forall i x, zget d i = Some x -> 0 <= x).
    { intros i x E. unfold zget in E. destruct (i <? 0); [done|]. eapply Forall_lookup in Hd; [|done]. apply Hd. }
    pose proof (Hz _ _ Ea). pose proof (Hz _ _ Eb). lia. }
  apply IH in H; unfold sizeof_QMI_TLV_HDR in *; lia.
Qed.

Lemma tlv_lookup q cl tid ty ts t s :
  tlvs_ok ts -> Forall (fun x => Forall is_byte (snd x)) ts -> t <= 0x1000 -> zlen (encode ts) < 2 ^ 16 ->
  let m := qmi_request q cl tid ty ts in
  match lookup_tlv ts t with
  | Some v => exists p, tlv m t s = Some (Some p, s) /\ field_at m p v
  | None => tlv m t s = Some (None, s)
  end.
Proof.
  intros Hok Hb Ht Hl m. pose proof (GetTLV_body ty ts t [] Hok Ht Hl) as H. rewrite app_nil_r in H.
  rewrite <- (request_body q cl tid) in H. fold m in H. unfold tlv.
  destruct (lookup_tlv ts t) as [v|]; [|by rewrite H]. destruct H as (off & E & Hat1 & Hat2). rewrite E.
  exists (off_hdr + off). split; [done|].
  assert (Hoff : 0 <= off).
  { unfold GetTLV in E. destruct (rd16 _ 2) as [L|]; [|done]. apply get_tlv_off in E; [unfold sizeof_QCQMUX_MSG_HDR in E; lia|done|].
    unfold m. rewrite request_body. unfold qmux_body. repeat apply bytes_app; try apply bytes_w16.
    apply bytes_encode. eapply Forall_impl; [apply Forall_and; split; [exact Hok|exact Hb]|].
    intros x [[? ?] ?]. done. }
  unfold field_at. split_and!; [unfold off_hdr, sizeof_QCQMI_HDR, sizeof_QCQMUX_HDR; lia| |].
  - unfold rd16 in *. by rewrite !zget_zdrop, !Z.add_assoc in Hat1 by (done || lia).
  - unfold rdn in *. destruct ((0 <=? off + 3) && _) eqn:Er; [|done]. injection Hat2 as Hat2. zprop.
    assert (Hlen : zlen (zdrop off_hdr m) <= zlen m - off_hdr \/ zlen (zdrop off_hdr m) = 0).
    { unfold zlen, zdrop. rewrite length_drop. lia. }
    rewrite (proj2 (Z.leb_le _ _)) by (unfold off_hdr, sizeof_QCQMI_HDR, sizeof_QCQMUX_HDR; lia).
    pose proof (zlen_nonneg v).
    rewrite (proj2 (Z.leb_le _ _)) by lia. cbn [andb]. f_equal. rewrite <- Hat2 at 2. unfold zdrop, ztake.
    rewrite drop_drop. do 2 f_equal. unfold off_hdr, sizeof_QCQMI_HDR, sizeof_QCQMUX_HDR. lia.
Qed.

(** A response: the result field first, then the fields [ts]. *)
Definition response (q cl tid ty res err : Z) (ts : list (Z * bytes)) : bytes :=
  qmi_request q cl tid ty ((0x02, w16 res ++ w16 err) :: ts).

Definition fields_ok (ts : list (Z * bytes)) : Prop :=
  tlvs_ok ts /\ Forall (fun x => Forall is_byte (snd x)) ts /\ zlen (encode ts) < 2 ^ 16 - 7.

Lemma response_split q cl tid ty res err ts :
  exists h, zlen h = 16 /\ response q cl tid ty res err ts = h ++ w16 res ++ w16 err ++ encode ts.
Proof.
  set (n := zlen (encode ((0x02, w16 res ++ w16 err) :: ts))).
  exists ([1] ++ w16 (n + 12) ++ [0; u8 q; u8 cl; 0] ++ w16 tid ++ w16 ty ++ w16 n ++ [2] ++ w16 4). split; [done|].
  unfold response. rewrite request_split. fold n.
  change (encode ((2, w16 res ++ w16 err) :: ts)) with ([2] ++ w16 4 ++ w16 res ++ w16 err ++ encode ts).
  by rewrite <- !app_assoc.
Qed.

Lemma rsp_response q cl tid ty res err ts s :
  in_u 16 res -> in_u 16 err -> rsp_result (response q cl tid ty res err ts) s = Some ((res, err), s).
Proof.
  intros Hr He. destruct (response_split q cl tid ty res err ts) as (h & Eh & ->).
  unfold rsp_result, mbind, st_bind, load. rewrite rd16_app by done.
  rewrite (app_assoc h). rewrite rd16_app; [done|done|]. by rewrite zlen_app, Eh.
Qed.

Lemma response_tlv q cl tid ty res err ts t s :
  fields_ok ts -> t <> 2 -> t <= 0x1000 ->
  let m := response q cl tid ty res err ts in
  match lookup_tlv ts t with
  | Some v => exists p, tlv m t s = Some (Some p, s) /\ field_at m p v
  | None => tlv m t s = Some (None, s)
  end.
Proof.
  intros (Hok & Hb & Hl) Hne Ht. cbv zeta.
  pose proof (tlv_lookup q cl tid ty ((0x02, w16 res ++ w16 err) :: ts) t s) as H. cbn [lookup_tlv] in H.
  rewrite (proj2 (Z.eqb_neq 2 t)) in H by done. apply H; [| |done|].
  - constructor; [|done]. cbn [fst snd]. split; by vm_compute.
  - constructor; [|done]. cbn [snd]. apply bytes_app; apply bytes_w16.
  - rewrite zlen_encode_cons. change (zlen (w16 res ++ w16 err)) with 4. lia.
Qed.

Lemma rd32_app p x r i : in_u 32 x -> i = zlen p -> rd32 (p ++ w32 x ++ r) i = Some x.
Proof.
  intros Hx ->. rewrite <- (Z.add_0_r (zlen p)).
  rewrite (rdn_rd32 (p ++ w32 x ++ r) (zlen p) 4 (w32 x) 0); [by apply rd32_w32|by apply rdn_app|lia].
Qed.

(** Two 16-bit members of a field. *)
Lemma field_two m p a b :
  in_u 16 a -> in_u 16 b -> field_at m p (w16 a ++ w16 b) -> rd16 m (p + 3) = Some a /\ rd16 m (p + 5) = Some b.
Proof.
  intros Ha Hb (_ & _ & H). change (zlen (w16 a ++ w16 b)) with 4 in H. split.
  - rewrite <- (Z.add_0_r (p + 3)). rewrite (rdn_rd16 _ _ _ _ 0 H) by lia. by apply (rd16_app [] a (w16 b)).
  - replace (p + 5) with (p + 3 + 2) by lia. rewrite (rdn_rd16 _ _ _ _ 2 H) by lia.
    rewrite <- (app_nil_r (w16 b)). by apply (rd16_app (w16 a) b []).
Qed.

(** The response to a start request gave the handle. *)
Definition is_request (r : bytes) (QMIType Type_ : Z) : Prop :=
  zget r 4 = Some QMIType /\ rd16 r off_hdr = Some Type_.

(** [h] is the handle in the response to a start request for the family among
    the requests [log]. *)
Definition given (md : modem) (log : list bytes) (fam h : Z) : Prop :=
  exists pre r post m, log = pre ++ r :: post /\ is_request r (wds_type fam) QMIWDS_START_NETWORK_INTERFACE_REQ /\
    snd (md pre r) = Some m /\ rd32 m (off_hdr + 14) = Some h.

Definition is_stop (r : bytes) (fam : Z) : Prop :=
  is_request r (wds_type fam) QMIWDS_STOP_NETWORK_INTERFACE_REQ.

Lemma given_app md log log' fam h : given md log fam h -> given md (log ++ log') fam h.
Proof.
  intros (pre & r & post & m & -> & H). exists pre, r, (post ++ log'), m. split; [|done].
  by rewrite <- app_assoc, <- app_comm_cons.
Qed.

Definition is_family (fam : Z) : Prop := fam = IpFamilyV4 \/ fam = IpFamilyV6.

(** Handles are zero or were given, and stop requests name given handles. *)
Record calls_ok (md : modem) (s : qst) : Prop := CallsOk {
  co_handle : forall fam, is_family fam -> handle_of fam s <> 0 -> given md (q_sent s) fam (handle_of fam s);
  co_stop : forall pre r post fam, q_sent s = pre ++ r :: post -> is_family fam -> is_stop r fam ->
    exists h, h <> 0 /\ given md pre fam h /\ carries r 0x01 (Some (w32 h)) }.

Lemma request_is q cl tid ty ts :
  in_u 8 q -> in_u 16 ty -> is_request (qmi_request q cl tid ty ts) q ty.
Proof.
  intros Hq Ht. split.
  - change (zget (qmi_request q cl tid ty ts) 4) with (Some (u8 q)). by rewrite (wrap_small 8).
  - unfold qmi_request, qmux_body, off_hdr, sizeof_QCQMI_HDR, sizeof_QCQMUX_HDR.
    replace ([1] ++ w16 (zlen (encode ts) + 12) ++ [0; u8 q; u8 cl; 0] ++ w16 tid ++ w16 ty ++ w16 (zlen (encode ts)) ++ encode ts)
      with (([1] ++ w16 (zlen (encode ts) + 12) ++ [0; u8 q; u8 cl; 0] ++ w16 tid) ++ w16 ty ++ w16 (zlen (encode ts)) ++ encode ts)
      by by rewrite <- !app_assoc.
    by apply rd16_app.
Qed.

Lemma is_request_inj r q ty q' ty' : is_request r q ty -> is_request r q' ty' -> q = q' /\ ty = ty'.
Proof. intros [H1 H2] [H3 H4]. split; congruence. Qed.

Lemma wds_type_range fam : in_u 8 (wds_type fam).
Proof. unfold wds_type. by destruct (fam =? IpFamilyV4). Qed.

Lemma wds_type_inj f g : is_family f -> is_family g -> wds_type f = wds_type g -> f = g.
Proof. by intros [-> | ->] [-> | ->]. Qed.

Lemma snoc_split {A} (l : list A) x pre y post :
  l ++ [x] = pre ++ y :: post -> (post = [] /\ y = x /\ pre = l) \/ exists post', l = pre ++ y :: post'.
Proof.
  destruct post as [|z post] using rev_ind; intros E.
  - left. by apply app_inj_tail in E as [-> ->].
  - right. exists post. rewrite app_comm_cons, app_assoc in E. by apply app_inj_tail in E as [-> _].
Qed.

Lemma calls_sent md s r :
  calls_ok md s ->
  (forall fam, is_family fam -> is_stop r fam ->
     exists h, h <> 0 /\ given md (q_sent s) fam h /\ carries r 0x01 (Some (w32 h))) ->
  calls_ok md (sent_state s r).
Proof.
  intros [Hh Hs] Hr. split.
  - intros fam Hf Hn. apply given_app. by apply Hh.
  - intros pre r' post fam E Hf Hst. apply snoc_split in E as [(_ & -> & ->) | [post' E]]; [by apply Hr|].
    by apply (Hs pre r' post' fam).
Qed.

(** A request of another type. *)
Lemma calls_sent_other md s r q ty :
  calls_ok md s -> is_request r q ty -> ty <> QMIWDS_STOP_NETWORK_INTERFACE_REQ -> calls_ok md (sent_state s r).
Proof. intros Hok Hr Hne. apply calls_sent; [done|]. intros fam _ Hst. by destruct (is_request_inj _ _ _ _ _ Hr Hst). Qed.

Lemma handle_set_same fam h s : handle_of fam (set_handle fam h s) = h.
Proof. unfold handle_of, set_handle. by destruct (fam =? IpFamilyV4). Qed.

Lemma handle_set_other f g h s : is_family f -> is_family g -> f <> g -> handle_of g (set_handle f h s) = handle_of g s.
Proof. intros [-> | ->] [-> | ->] H; done. Qed.

Lemma sent_set_handle fam h s : q_sent (set_handle fam h s) = q_sent s.
Proof. unfold set_handle. by destruct (fam =? IpFamilyV4). Qed.

Lemma calls_set_handle md s fam h :
  calls_ok md s -> is_family fam -> (h <> 0 -> given md (q_sent s) fam h) -> calls_ok md (set_handle fam h s).
Proof.
  intros [Hh Hs] Hf Hg. split; rewrite sent_set_handle; [|done].
  intros g Hgf. destruct (decide (fam = g)) as [<-|Hne]; [by rewrite handle_set_same|].
  rewrite handle_set_other by done. by apply Hh.
Qed.

Lemma calls_set_conflict md s x : calls_ok md s -> calls_ok md (set_conflict s x).
Proof. intros [Hh Hs]. by split. Qed.

Lemma calls_query md st fam s y s' :
  is_family fam -> calls_ok md s -> requestQueryDataCall md st fam s = Some (y, s') -> calls_ok md s'.
Proof.
  intros Hf Hok H. unfold requestQueryDataCall in H. apply st_bind_inv in H as (x & s1 & H1 & H).
  apply request_inv in H1 as (r & Hc & -> & _). rewrite compose_empty in Hc.
  assert (Hok1 : calls_ok md (sent_state s r)).
  { injection Hc as <-. eapply calls_sent_other; [done|by apply request_is; [apply wds_type_range|]|done]. }
  revert Hok1 H. generalize (sent_state s r). intros s1 Hok1 H. run_in H; try done; by apply calls_set_handle.
Qed.

Lemma calls_stop md fam s y s' :
  is_family fam -> calls_ok md s -> requestDeactivateDefaultPDP md fam s = Some (y, s') -> calls_ok md s'.
Proof.
  intros Hf Hok H. unfold requestDeactivateDefaultPDP in H.
  apply st_bind_inv in H as (? & s0 & [-> ->]%st_gets_inv & H). apply st_bind_inv in H as (? & ? & [-> ->]%st_gets_inv & H).
  destruct ((fam =? IpFamilyV4) && (v4_handle s =? 0)) eqn:E4; [by run_in H|].
  destruct ((fam =? IpFamilyV6) && (v6_handle s =? 0)) eqn:E6; [by run_in H|].
  apply st_bind_inv in H as (x & s1 & H1 & H). apply request_inv in H1 as (r & Hc & -> & _).
  unfold WdsStopNwInterfaceReq in Hc. fold (handle_of fam s) in Hc. rewrite compose_fixed in Hc.
  set (h := handle_of fam s) in *. change (fits 243 [u32_field 0x01 h]) with true in Hc.
  assert (Hh : h <> 0).
  { unfold h, handle_of. destruct Hf as [-> | ->]; cbn [Z.eqb IpFamilyV4 IpFamilyV6 Pos.eqb andb] in *; by zprop. }
  assert (Hok1 : calls_ok md (sent_state s r)).
  { apply calls_sent; [done|]. intros g Hg Hst. exists h. injection Hc as <-.
    destruct (is_request_inj _ _ _ _ _ (request_is (wds_type fam) 0 _ _ _
                (wds_type_range fam) (ltac:(by vm_compute) : in_u 16 QMIWDS_STOP_NETWORK_INTERFACE_REQ)) Hst) as [E _].
    apply wds_type_inj in E as <-; [|done..].
    split_and!; [done|by apply (co_handle _ _ Hok)|]. by apply (request_carries _ _ _ _ [u32_field 0x01 h] 0x01). }
  revert Hok1 H. generalize (sent_state s r). intros s1 Hok1 H. run_in H; try done; by apply calls_set_handle.
Qed.

Lemma calls_setup md p fam s y s' :
  is_family fam -> calls_ok md s -> requestSetupDataCall md p fam s = Some (y, s') -> calls_ok md s'.
Proof.
  intros Hf Hok H. unfold requestSetupDataCall in H.
  apply st_bind_inv in H as (? & s0 & ->%st_modify_inv & H). apply st_bind_inv in H as (? & ? & [-> ->]%st_gets_inv & H).
  apply st_bind_inv in H as (r & s1 & [Hc ->]%compose_inv & H).
  apply st_bind_inv in H as ([err rsp] & s2 & [E ->]%send_inv & H).
  apply (calls_set_conflict md s 0) in Hok. revert Hc Hok H E. generalize (set_conflict s 0). clear s. intros s Hc Hok H E.
  fold (sent_state s r) in H. change (q_sent (set_tid s (GetQMUXTransactionId (TransactionId s)))) with (q_sent s) in E.
  apply compose_start_inv in Hc as [_ Er].
  assert (Hi : is_request r (wds_type fam) QMIWDS_START_NETWORK_INTERFACE_REQ)
    by (rewrite Er; apply request_is; [apply wds_type_range|by vm_compute]).
  assert (Hok1 : calls_ok md (sent_state s r)) by by eapply calls_sent_other.
  assert (Hg : forall m h, rsp = Some m -> rd32 m (off_hdr + 14) = Some h -> given md (q_sent (sent_state s r)) fam h).
  { intros m h Hm Hh. exists (q_sent s), r, [], m. rewrite <- E. by split_and!. }
  revert Hok1 Hg H. generalize (sent_state s r). intros s1 Hok1 Hg H.
  run_in H; try apply calls_set_conflict; try (apply rsp_inv in H0 as (-> & _)); try done.
  all: first [by apply calls_set_handle; [..|intros _; eapply Hg] | done].
Qed.

(** Any sequence of data-call requests, on either family. *)
Inductive call_step (md : modem) (s s' : qst) : Prop :=
  | cs_setup p fam y : is_family fam -> requestSetupDataCall md p fam s = Some (y, s') -> call_step md s s'
  | cs_query st fam y : is_family fam -> requestQueryDataCall md st fam s = Some (y, s') -> call_step md s s'
  | cs_stop fam y : is_family fam -> requestDeactivateDefaultPDP md fam s = Some (y, s') -> call_step md s s'.

Lemma calls_run md s s' : rtc (call_step md) s s' -> calls_ok md s -> calls_ok md s'.
Proof.
  induction 1 as [|s s1 s2 Hs _ IH]; [done|]. intros Hok. apply IH. destruct Hs as [p fam y Hf H|st fam y Hf H|fam y Hf H].
  - by apply (calls_setup md p fam s y).
  - by apply (calls_query md st fam s y).
  - by apply (calls_stop md fam s y).
Qed.

(** ** Theorems *)

(** C27. Data-call handles: whatever the modem answers and in whatever order the
    calls of both address families are set up, queried and torn down, every
    stop request names, as a decoder of its field finds it, a handle other than
    zero that the modem gave in the response to an earlier start request of the
    same family, and a handle kept in memory is zero or was given likewise. *)
Theorem stops_name_given_handles md s0 s :
  v4_handle s0 = 0 -> v6_handle s0 = 0 -> q_sent s0 = [] -> rtc (call_step md) s0 s ->
  (forall pre r post fam, q_sent s = pre ++ r :: post -> is_family fam -> is_stop r fam ->
     exists h, h <> 0 /\ given md pre fam h /\ carries r 0x01 (Some (w32 h))) /\
  (forall fam, is_family fam -> handle_of fam s <> 0 -> given md (q_sent s) fam (handle_of fam s)).
Proof.
  intros H4 H6 Hl Hr. apply calls_run in Hr as [Hh Hs]; [by split|]. split.
  - intros fam [-> | ->]; cbn; congruence.
  - rewrite Hl. intros [|? ?] r post fam E; discriminate E.
Qed.

Definition ex_modem : modem := fun _ r =>
  (0, Some (response QMUX_TYPE_WDS 1 0 QMIWDS_START_NETWORK_INTERFACE_REQ 0 0 [(0x01, w32 0xABCD)])).
Definition ex_qst : qst := Qst 0 0 false true 0 0 5 [].

Definition run_state {A} (o : option (A * qst)) : qst := match o with Some (_, s) => s | None => ex_qst end.
Definition ex_up : qst := run_state (requestSetupDataCall ex_modem ex_profile IpFamilyV4 ex_qst).
Definition ex_down : qst := run_state (requestDeactivateDefaultPDP ex_modem IpFamilyV4 ex_up).

Lemma stops_name_given_handles_witness :
  v4_handle ex_up = 0xABCD /\ v4_handle ex_down = 0 /\ length (q_sent ex_down) = 2%nat /\
  exists h, h <> 0 /\ given ex_modem (q_sent ex_up) IpFamilyV4 h /\
    carries (default [] (last (q_sent ex_down))) 0x01 (Some (w32 h)).
Proof.
  split_and!; [by vm_compute..|].
  destruct (stops_name_given_handles ex_modem ex_qst ex_down) as [H _]; [done..| |].
  - apply (rtc_l _ _ ex_up); [|apply rtc_once].
    + apply (cs_setup _ _ _ ex_profile IpFamilyV4 (0, set_family ex_profile IpFamilyV4)); [by left|by vm_compute].
    + apply (cs_stop _ _ _ IpFamilyV4 0); [by left|by vm_compute].
  - apply (H (q_sent ex_up) (default [] (last (q_sent ex_down))) [] IpFamilyV4); [by vm_compute|by left|by vm_compute].
Defined.

(** The state after the start request [r]. *)
Definition started (s : qst) (r : bytes) : qst := sent_state (set_conflict s 0) r.

Lemma setup_run md p fam s r :
  ComposeQMUXMsg (GetQMUXTransactionId (TransactionId s)) (wds_type fam) QMIWDS_START_NETWORK_INTERFACE_REQ
    (Some (WdsStartNwInterfaceReq (s_is_cdma s) (set_family p fam))) = Some r ->
  requestSetupDataCall md p fam s =
  match snd (md (q_sent s) r) with
  | None => Some ((fst (md (q_sent s) r), set_family p fam), started s r)
  | Some m =>
      if fst (md (q_sent s) r) <? 0 then Some ((fst (md (q_sent s) r), set_family p fam), started s r)
      else
        (x ← rsp_result m;
         if rsp_failed x then
           t ← tlv m 0x10;
           (match t with Some t => load (rd16 m (t + 3));; mret tt | None => mret tt end);;
           t ← tlv m 0x11;
           (match t with
            | Some t =>
                type ← load (rd16 m (t + 3));
                verbose ← load (rd16 m (t + 5));
                if conflict_reason type verbose then modify (fun s => set_conflict s verbose) else mret tt
            | None => mret tt
            end);;
           mret (snd x, set_family p fam)
         else
           h ← load (rd32 m (off_hdr + 14));
           modify (set_handle fam h);;
           mret (0, set_family p fam)) (started s r)
  end.
Proof.
  intros Hc. unfold requestSetupDataCall. unfold mbind at 1, st_bind at 1, modify at 1.
  unfold mbind at 1, st_bind at 1, gets at 1. unfold mbind at 1, st_bind at 1.
  assert (E : compose (wds_type fam) QMIWDS_START_NETWORK_INTERFACE_REQ
     (Some (WdsStartNwInterfaceReq (s_is_cdma (set_conflict s 0)) (set_family p fam))) (set_conflict s 0) =
     Some (r, set_tid (set_conflict s 0) (GetQMUXTransactionId (TransactionId s)))).
  { unfold compose, mbind, st_bind, modify, gets. cbn [TransactionId set_tid set_conflict s_is_cdma]. unfold load. by rewrite Hc. }
  rewrite E. unfold mbind at 1, st_bind at 1, send at 1.
  change (q_sent (set_tid (set_conflict s 0) (GetQMUXTransactionId (TransactionId s)))) with (q_sent s).
  fold (started s r). destruct (md (q_sent s) r) as [err [m|]]; cbn [fst snd]; [|done]. by destruct (err <? 0).
Qed.

Lemma rsp_failed_iff res err : rsp_failed (res, err) = false <-> res = 0 /\ err = 0.
Proof.
  unfold rsp_failed. cbn [fst snd]. rewrite orb_false_iff, !negb_false_iff, !Z.eqb_eq. done.
Qed.

Lemma field_rd16 m p v : field_at m p v -> 2 <= zlen v -> exists x, rd16 m (p + 3) = Some x.
Proof.
  intros (_ & _ & H) Hl. rewrite <- (Z.add_0_r (p + 3)), (rdn_rd16 _ _ _ _ 0 H) by lia.
  unfold rd16. destruct v as [|a [|b v]]; [done|by vm_compute in Hl|]. by eexists.
Qed.


