(* ===== verification/QmiAddr.v ===== *)
(** * Addresses of a data call: [requestGetIPAddress] of [QMIThread.c]

    The members of [IPV4_T], [IPV6_T] and the P-CSCF addresses of [PROFILE_T]
    the request fills in; IPv4 addresses are the four bytes of the field as a
    little-endian number, which is how the code stores them. *)

From S2P Require Import Prelude CLib QmiMsg QmiReq.

Record ipv4 := Ipv4 { i4_Address : Z; i4_Gateway : Z; i4_SubnetMask : Z; i4_DnsPrimary : Z; i4_DnsSecondary : Z; i4_Mtu : Z }.
Record ipv6 := Ipv6 {
  i6_Address : bytes; i6_Gateway : bytes; i6_SubnetMask : bytes; i6_DnsPrimary : bytes; i6_DnsSecondary : bytes;
  i6_PrefixLengthIPAddr : Z; i6_PrefixLengthGateway : Z; i6_Mtu : Z }.
Record ipcfg := IpCfg {
  c_ipv4 : ipv4; c_ipv6 : ipv6; c_pcscf4_1 : Z; c_pcscf4_2 : Z; c_pcscf6_1 : bytes; c_pcscf6_2 : bytes }.

Definition zero16 : bytes := replicate 16 0.
Definition no_ipv4 : ipv4 := Ipv4 0 0 0 0 0 0.
Definition no_ipv6 : ipv6 := Ipv6 zero16 zero16 zero16 zero16 zero16 0 0 0.

Definition set_ipv4 (c : ipcfg) (x : ipv4) : ipcfg :=
  IpCfg x (c_ipv6 c) (c_pcscf4_1 c) (c_pcscf4_2 c) (c_pcscf6_1 c) (c_pcscf6_2 c).
Definition set_ipv6 (c : ipcfg) (x : ipv6) : ipcfg :=
  IpCfg (c_ipv4 c) x (c_pcscf4_1 c) (c_pcscf4_2 c) (c_pcscf6_1 c) (c_pcscf6_2 c).
Definition set_pcscf4 (c : ipcfg) (a b : Z) : ipcfg :=
  IpCfg (c_ipv4 c) (c_ipv6 c) a b (c_pcscf6_1 c) (c_pcscf6_2 c).
Definition set_pcscf6 (c : ipcfg) (a b : bytes) : ipcfg :=
  IpCfg (c_ipv4 c) (c_ipv6 c) (c_pcscf4_1 c) (c_pcscf4_2 c) a b.

Definition set_4addr (x : Z) (c : ipcfg) : ipcfg :=
  let i := c_ipv4 c in set_ipv4 c (Ipv4 x (i4_Gateway i) (i4_SubnetMask i) (i4_DnsPrimary i) (i4_DnsSecondary i) (i4_Mtu i)).
Definition set_4gw (x : Z) (c : ipcfg) : ipcfg :=
  let i := c_ipv4 c in set_ipv4 c (Ipv4 (i4_Address i) x (i4_SubnetMask i) (i4_DnsPrimary i) (i4_DnsSecondary i) (i4_Mtu i)).
Definition set_4mask (x : Z) (c : ipcfg) : ipcfg :=
  let i := c_ipv4 c in set_ipv4 c (Ipv4 (i4_Address i) (i4_Gateway i) x (i4_DnsPrimary i) (i4_DnsSecondary i) (i4_Mtu i)).
Definition set_4dns1 (x : Z) (c : ipcfg) : ipcfg :=
  let i := c_ipv4 c in set_ipv4 c (Ipv4 (i4_Address i) (i4_Gateway i) (i4_SubnetMask i) x (i4_DnsSecondary i) (i4_Mtu i)).
Definition set_4dns2 (x : Z) (c : ipcfg) : ipcfg :=
  let i := c_ipv4 c in set_ipv4 c (Ipv4 (i4_Address i) (i4_Gateway i) (i4_SubnetMask i) (i4_DnsPrimary i) x (i4_Mtu i)).
Definition set_4mtu (x : Z) (c : ipcfg) : ipcfg :=
  let i := c_ipv4 c in set_ipv4 c (Ipv4 (i4_Address i) (i4_Gateway i) (i4_SubnetMask i) (i4_DnsPrimary i) (i4_DnsSecondary i) x).
Definition set_6addr (x : bytes) (n : Z) (c : ipcfg) : ipcfg :=
  let i := c_ipv6 c in
  set_ipv6 c (Ipv6 x (i6_Gateway i) (i6_SubnetMask i) (i6_DnsPrimary i) (i6_DnsSecondary i) n (i6_PrefixLengthGateway i) (i6_Mtu i)).
Definition set_6gw (x : bytes) (n : Z) (c : ipcfg) : ipcfg :=
  let i := c_ipv6 c in
  set_ipv6 c (Ipv6 (i6_Address i) x (i6_SubnetMask i) (i6_DnsPrimary i) (i6_DnsSecondary i) (i6_PrefixLengthIPAddr i) n (i6_Mtu i)).
Definition set_6dns1 (x : bytes) (c : ipcfg) : ipcfg :=
  let i := c_ipv6 c in
  set_ipv6 c (Ipv6 (i6_Address i) (i6_Gateway i) (i6_SubnetMask i) x (i6_DnsSecondary i) (i6_PrefixLengthIPAddr i) (i6_PrefixLengthGateway i) (i6_Mtu i)).
Definition set_6dns2 (x : bytes) (c : ipcfg) : ipcfg :=
  let i := c_ipv6 c in
  set_ipv6 c (Ipv6 (i6_Address i) (i6_Gateway i) (i6_SubnetMask i) (i6_DnsPrimary i) x (i6_PrefixLengthIPAddr i) (i6_PrefixLengthGateway i) (i6_Mtu i)).
Definition set_6mtu (x : Z) (c : ipcfg) : ipcfg :=
  let i := c_ipv6 c in
  set_ipv6 c (Ipv6 (i6_Address i) (i6_Gateway i) (i6_SubnetMask i) (i6_DnsPrimary i) (i6_DnsSecondary i) (i6_PrefixLengthIPAddr i) (i6_PrefixLengthGateway i) x).

(** [if (p = GetTLV(t)) { ... }] *)
Definition when_tlv {C} (m : bytes) (t : Z) (f : Z -> C -> act C) (c : C) : act C :=
  p ← tlv m t; match p with Some p => f p c | None => mret c end.

Definition take32 {C} (m : bytes) (f : Z -> C -> C) (p : Z) (c : C) : act C :=
  x ← load (rd32 m (p + 3)); mret (f x c).
Definition take16 {C} (m : bytes) (f : bytes -> C -> C) (p : Z) (c : C) : act C :=
  x ← load (rdn m (p + 3) 16); mret (f x c).
(** Address and prefix length. *)
Definition take17 {C} (m : bytes) (f : bytes -> Z -> C -> C) (p : Z) (c : C) : act C :=
  x ← load (rdn m (p + 3) 16); n ← load (zget m (p + 19)); mret (f x n c).

Definition take_pcscf6 (m : bytes) (p : Z) (c : ipcfg) : act ipcfg :=
  n ← load (zget m (p + 3));
  if n =? 1 then a ← load (rdn m (p + 4) 16); mret (set_pcscf6 c a (c_pcscf6_2 c))
  else if n =? 2 then
    a ← load (rdn m (p + 4) 16); b ← load (rdn m (p + 20) 16); mret (set_pcscf6 c a b)
  else mret c.
Definition take_pcscf4 (m : bytes) (p : Z) (c : ipcfg) : act ipcfg :=
  n ← load (zget m (p + 3));
  if n =? 1 then a ← load (rd32 m (p + 4)); mret (set_pcscf4 c a (c_pcscf4_2 c))
  else if n =? 2 then
    a ← load (rd32 m (p + 4)); b ← load (rd32 m (p + 8)); mret (set_pcscf4 c a b)
  else mret c.

(** The fields of the response, in the order of the code. *)
Definition parse_settings (m : bytes) (curIpFamily : Z) (c : ipcfg) : act ipcfg :=
  c ← when_tlv m 0x2e (take_pcscf6 m) c;
  c ← when_tlv m 0x23 (take_pcscf4 m) c;
  c ← when_tlv m 0x15 (take32 m set_4dns1) c;
  c ← when_tlv m 0x16 (take32 m set_4dns2) c;
  c ← when_tlv m 0x20 (take32 m set_4gw) c;
  c ← when_tlv m 0x21 (take32 m set_4mask) c;
  c ← when_tlv m 0x1E (take32 m set_4addr) c;
  c ← when_tlv m 0x27 (take16 m set_6dns1) c;
  c ← when_tlv m 0x28 (take16 m set_6dns2) c;
  c ← when_tlv m 0x26 (take17 m set_6gw) c;
  c ← when_tlv m 0x25 (take17 m set_6addr) c;
  when_tlv m 0x29 (take32 m (if curIpFamily =? IpFamilyV4 then set_4mtu else set_6mtu)) c.

Definition requestGetIPAddress (md : modem) (curIpFamily : Z) (c : ipcfg) : act (Z * ipcfg) :=
  v4 ← gets v4_handle; v6 ← gets v6_handle;
  let c := if curIpFamily =? IpFamilyV4 then set_ipv4 c no_ipv4
           else if curIpFamily =? IpFamilyV6 then set_ipv6 c no_ipv6 else c in
  if (curIpFamily =? IpFamilyV4) && (v4 =? 0) then mret (0, c)
  else if (curIpFamily =? IpFamilyV6) && (v6 =? 0) then mret (0, c)
  else
    rsp ← request md (wds_type curIpFamily) QMIWDS_GET_RUNTIME_SETTINGS_REQ (Some WdsGetRuntimeSettingReq);
    match rsp with
    | inl err => mret (err, c)
    | inr m => c ← parse_settings m curIpFamily c; mret (0, c)
    end.

(** ** Lemmas *)

Lemma when32 {C} q cl tid ty res err ts t (f : Z -> C -> C) c s o :
  fields_ok ts -> t <> 2 -> t <= 0x1000 -> lookup_tlv ts t = w32 <$> o ->
  match o with Some x => in_u 32 x | None => True end ->
  let m := response q cl tid ty res err ts in
  when_tlv m t (take32 m f) c s = Some (match o with Some x => f x c | None => c end, s).
Proof.
  intros Hts Hne Ht Hl Ho m. pose proof (response_tlv q cl tid ty res err ts t s Hts Hne Ht) as H.
  cbv zeta in H. fold m in H. rewrite Hl in H. unfold when_tlv. destruct o as [x|]; cbn [fmap option_fmap option_map] in H.
  - destruct H as (p & E & _ & _ & Hv). rewrite (st_bind_some _ _ _ _ _ E). unfold take32, mbind, st_bind, load.
    rewrite <- (Z.add_0_r (p + 3)), (rdn_rd32 _ _ _ _ 0 Hv) by (change (zlen (w32 x)) with 4; lia).
    by rewrite rd32_w32.
  - by rewrite (st_bind_some _ _ _ _ _ H).
Qed.

Lemma when_none {C} q cl tid ty res err ts t (f : Z -> C -> act C) c s :
  fields_ok ts -> t <> 2 -> t <= 0x1000 -> lookup_tlv ts t = None ->
  when_tlv (response q cl tid ty res err ts) t f c s = Some (c, s).
Proof.
  intros Hts Hne Ht Hl. pose proof (response_tlv q cl tid ty res err ts t s Hts Hne Ht) as H.
  rewrite Hl in H. unfold when_tlv. by rewrite (st_bind_some _ _ _ _ _ H).
Qed.

(** The value of an IPv6 field: address and prefix length. *)
Definition val17 (x : bytes * Z) : bytes := fst x ++ [snd x].

Lemma when16 {C} q cl tid ty res err ts t (f : bytes -> C -> C) c s o :
  fields_ok ts -> t <> 2 -> t <= 0x1000 -> lookup_tlv ts t = o ->
  match o with Some x => zlen x = 16 | None => True end ->
  let m := response q cl tid ty res err ts in
  when_tlv m t (take16 m f) c s = Some (match o with Some x => f x c | None => c end, s).
Proof.
  intros Hts Hne Ht Hl Ho m. destruct o as [x|]; [|by apply when_none].
  pose proof (response_tlv q cl tid ty res err ts t s Hts Hne Ht) as H. cbv zeta in H. fold m in H. rewrite Hl in H.
  destruct H as (p & E & _ & _ & Hv). unfold when_tlv. rewrite (st_bind_some _ _ _ _ _ E). rewrite Ho in Hv.
  unfold take16, mbind, st_bind, load. by rewrite Hv.
Qed.

Lemma rdn_prefix m i n v k : rdn m i n = Some v -> 0 <= k <= n -> rdn m i k = Some (ztake k v).
Proof.
  unfold rdn. destruct ((0 <=? i) && (i + n <=? zlen m)) eqn:E; [|done]. intros [= <-] Hk. zprop.
  rewrite (proj2 (Z.leb_le 0 i)), (proj2 (Z.leb_le _ _)) by lia. cbn [andb]. f_equal.
  unfold ztake. rewrite take_take. f_equal. lia.
Qed.

Lemma when17 {C} q cl tid ty res err ts t (f : bytes -> Z -> C -> C) c s o :
  fields_ok ts -> t <> 2 -> t <= 0x1000 -> lookup_tlv ts t = val17 <$> o ->
  match o with Some x => zlen (fst x) = 16 | None => True end ->
  let m := response q cl tid ty res err ts in
  when_tlv m t (take17 m f) c s = Some (match o with Some (x, n) => f x n c | None => c end, s).
Proof.
  intros Hts Hne Ht Hl Ho m. destruct o as [[x n]|]; [|by apply when_none].
  pose proof (response_tlv q cl tid ty res err ts t s Hts Hne Ht) as H. cbv zeta in H. fold m in H. rewrite Hl in H.
  destruct H as (p & E & _ & _ & Hv). unfold when_tlv. rewrite (st_bind_some _ _ _ _ _ E). unfold val17 in *. cbn [fst snd] in *.
  rewrite zlen_snoc, Ho in Hv. unfold take17, mbind, st_bind, load.
  rewrite (rdn_prefix _ _ _ _ 16 Hv), ztake_app by (done || lia).
  replace (p + 19) with (p + 3 + 16) by lia. rewrite (rdn_zget _ _ _ _ 16 Hv) by lia.
  by rewrite zget_app_mid by done.
Qed.

Definition all_u32 (l : list (option Z)) : Prop := Forall (fun o => match o with Some x => in_u 32 x | None => True end) l.
Definition all_16 (l : list (option bytes)) : Prop := Forall (fun o => match o with Some x => zlen x = 16 | None => True end) l.

(** The next field of a response, absent or with its value. *)
Ltac field_none t :=
  erewrite st_bind_some by (apply (when_none _ _ _ _ _ _ _ t); [assumption|done|done|
    match goal with Hn : forall t, _ -> lookup_tlv _ t = None |- _ => apply Hn; set_solver end]).
Ltac field_some lem H :=
  erewrite st_bind_some by (eapply lem; [assumption|done|done|exact H|assumption]).

Lemma parse_ipv4 q cl tid ty res err ts c s dns1 dns2 gw mask addr mtu :
  fields_ok ts -> all_u32 [dns1; dns2; gw; mask; addr; mtu] ->
  (forall t, t ∈ [0x2e; 0x23; 0x25; 0x26; 0x27; 0x28] -> lookup_tlv ts t = None) ->
  lookup_tlv ts 0x15 = w32 <$> dns1 -> lookup_tlv ts 0x16 = w32 <$> dns2 -> lookup_tlv ts 0x20 = w32 <$> gw ->
  lookup_tlv ts 0x21 = w32 <$> mask -> lookup_tlv ts 0x1E = w32 <$> addr -> lookup_tlv ts 0x29 = w32 <$> mtu ->
  c_ipv4 c = no_ipv4 ->
  parse_settings (response q cl tid ty res err ts) IpFamilyV4 c s =
    Some (set_ipv4 c (Ipv4 (default 0 addr) (default 0 gw) (default 0 mask) (default 0 dns1) (default 0 dns2) (default 0 mtu)), s).
Proof.
  intros Hts Hu Hn H1 H2 H3 H4 H5 H6 Hc. unfold parse_settings.
  unfold all_u32 in Hu. rewrite !Forall_cons in Hu. destruct Hu as (U1 & U2 & U3 & U4 & U5 & U6 & _).
  field_none 0x2e.
  field_none 0x23.
  field_some (@when32 ipcfg) H1.
  field_some (@when32 ipcfg) H2.
  field_some (@when32 ipcfg) H3.
  field_some (@when32 ipcfg) H4.
  field_some (@when32 ipcfg) H5.
  field_none 0x27.
  field_none 0x28.
  field_none 0x26.
  field_none 0x25.
  change (IpFamilyV4 =? IpFamilyV4) with true. cbn iota.
  rewrite (when32 _ _ _ _ _ _ _ 0x29 _ _ _ mtu) by done.
  destruct c as [c4 c6 p1 p2 p3 p4]. cbn [c_ipv4] in Hc. subst c4.
  destruct dns1, dns2, gw, mask, addr, mtu; reflexivity.
Qed.

Lemma parse_ipv6 q cl tid ty res err ts c s dns1 dns2 gw addr mtu :
  fields_ok ts -> all_16 [dns1; dns2; fst <$> gw; fst <$> addr] -> all_u32 [mtu] ->
  (forall t, t ∈ [0x2e; 0x23; 0x15; 0x16; 0x20; 0x21; 0x1E] -> lookup_tlv ts t = None) ->
  lookup_tlv ts 0x27 = dns1 -> lookup_tlv ts 0x28 = dns2 -> lookup_tlv ts 0x26 = val17 <$> gw ->
  lookup_tlv ts 0x25 = val17 <$> addr -> lookup_tlv ts 0x29 = w32 <$> mtu ->
  c_ipv6 c = no_ipv6 ->
  parse_settings (response q cl tid ty res err ts) IpFamilyV6 c s =
    Some (set_ipv6 c (Ipv6 (default zero16 (fst <$> addr)) (default zero16 (fst <$> gw)) zero16 (default zero16 dns1)
                        (default zero16 dns2) (default 0 (snd <$> addr)) (default 0 (snd <$> gw)) (default 0 mtu)), s).
Proof.
  intros Hts Hu Hm Hn H1 H2 H3 H4 H5 Hc. unfold parse_settings.
  unfold all_16 in Hu. rewrite !Forall_cons in Hu. destruct Hu as (U1 & U2 & U3 & U4 & _).
  unfold all_u32 in Hm. rewrite Forall_cons in Hm. destruct Hm as [U5 _].
  assert (U3' : match gw with Some x => zlen (fst x) = 16 | None => True end) by by destruct gw.
  assert (U4' : match addr with Some x => zlen (fst x) = 16 | None => True end) by by destruct addr.
  field_none 0x2e. field_none 0x23. field_none 0x15. field_none 0x16. field_none 0x20. field_none 0x21. field_none 0x1E.
  field_some (@when16 ipcfg) H1. field_some (@when16 ipcfg) H2. field_some (@when17 ipcfg) H3. field_some (@when17 ipcfg) H4.
  change (IpFamilyV6 =? IpFamilyV4) with false. cbn iota.
  rewrite (when32 _ _ _ _ _ _ _ 0x29 _ _ _ mtu) by done.
  destruct c as [c4 c6 p1 p2 p3 p4]. cbn [c_ipv6] in Hc. subst c6.
  destruct dns1, dns2, gw as [[? ?]|], addr as [[? ?]|], mtu; reflexivity.
Qed.

(** The request for the settings of a call and the state after it. *)
Definition settings_request (fam : Z) (s : qst) : bytes :=
  qmi_request (wds_type fam) 0 (GetQMUXTransactionId (TransactionId s)) QMIWDS_GET_RUNTIME_SETTINGS_REQ
    [(0x10, w32 runtime_mask)].

Lemma get_address_run md fam c s m :
  is_family fam -> handle_of fam s <> 0 ->
  md (q_sent s) (settings_request fam s) = (0, Some m) ->
  (forall s, rsp_result m s = Some ((0, 0), s)) ->
  requestGetIPAddress md fam c s =
    match parse_settings m fam (if fam =? IpFamilyV4 then set_ipv4 c no_ipv4 else set_ipv6 c no_ipv6)
            (sent_state s (settings_request fam s)) with
    | Some (c, s) => Some ((0, c), s)
    | None => None
    end.
Proof.
  intros Hf Hh Hmd Hr. unfold requestGetIPAddress, mbind at 1, st_bind at 1, gets at 1.
  unfold mbind at 1, st_bind at 1, gets at 1.
  assert (E : request md (wds_type fam) QMIWDS_GET_RUNTIME_SETTINGS_REQ (Some WdsGetRuntimeSettingReq) s =
              Some (inr m, sent_state s (settings_request fam s))).
  { apply request_ok; [|done|done]. unfold WdsGetRuntimeSettingReq. by rewrite compose_fixed. }
  unfold handle_of in Hh. destruct Hf as [-> | ->]; cbn [Z.eqb Pos.eqb IpFamilyV4 IpFamilyV6 andb] in *;
    rewrite (proj2 (Z.eqb_neq _ _) Hh); rewrite (st_bind_some _ _ _ _ _ E); unfold mbind, st_bind;
    by destruct (parse_settings _ _ _ _) as [[? ?]|].
Qed.

(** ** Theorems *)

(** Round trip of the addresses of a data call: when a call of the family is
    up and the modem answers the settings request with the encoded addresses,
    gateway, name servers, mask or prefix lengths and MTU, exactly these are
    stored, absent ones as zero, and the other family's are left alone. *)
Theorem address_roundtrip md c s q cl tid ty ts fam mtu :
  is_family fam -> handle_of fam s <> 0 -> fields_ok ts -> all_u32 [mtu] -> lookup_tlv ts 0x29 = w32 <$> mtu ->
  lookup_tlv ts 0x2e = None -> lookup_tlv ts 0x23 = None ->
  md (q_sent s) (settings_request fam s) = (0, Some (response q cl tid ty 0 0 ts)) ->
  (forall dns1 dns2 gw mask addr, fam = IpFamilyV4 -> all_u32 [dns1; dns2; gw; mask; addr] ->
     (forall t, t ∈ [0x25; 0x26; 0x27; 0x28] -> lookup_tlv ts t = None) ->
     lookup_tlv ts 0x15 = w32 <$> dns1 -> lookup_tlv ts 0x16 = w32 <$> dns2 -> lookup_tlv ts 0x20 = w32 <$> gw ->
     lookup_tlv ts 0x21 = w32 <$> mask -> lookup_tlv ts 0x1E = w32 <$> addr ->
     requestGetIPAddress md fam c s =
       Some ((0, set_ipv4 c (Ipv4 (default 0 addr) (default 0 gw) (default 0 mask) (default 0 dns1) (default 0 dns2)
                               (default 0 mtu))), sent_state s (settings_request fam s))) /\
  (forall dns1 dns2 gw addr, fam = IpFamilyV6 -> all_16 [dns1; dns2; fst <$> gw; fst <$> addr] ->
     (forall t, t ∈ [0x15; 0x16; 0x20; 0x21; 0x1E] -> lookup_tlv ts t = None) ->
     lookup_tlv ts 0x27 = dns1 -> lookup_tlv ts 0x28 = dns2 -> lookup_tlv ts 0x26 = val17 <$> gw ->
     lookup_tlv ts 0x25 = val17 <$> addr ->
     requestGetIPAddress md fam c s =
       Some ((0, set_ipv6 c (Ipv6 (default zero16 (fst <$> addr)) (default zero16 (fst <$> gw)) zero16 (default zero16 dns1)
                               (default zero16 dns2) (default 0 (snd <$> addr)) (default 0 (snd <$> gw)) (default 0 mtu))),
             sent_state s (settings_request fam s))).
Proof.
  intros Hf Hh Hts Hm H29 H2e H23 Hmd.
  rewrite (get_address_run md fam c s _ Hf Hh Hmd) by (intros; by apply rsp_response). split.
  - intros dns1 dns2 gw mask addr -> Hu Hn H1 H2 H3 H4 H5. change (IpFamilyV4 =? IpFamilyV4) with true. cbn iota.
    rewrite (parse_ipv4 q cl tid ty 0 0 ts (set_ipv4 c no_ipv4) _ dns1 dns2 gw mask addr mtu); try done.
    + unfold all_u32 in *. rewrite !Forall_cons in *. tauto.
    + intros t Ht. set_solver.
  - intros dns1 dns2 gw addr -> Hu Hn H1 H2 H3 H4. change (IpFamilyV6 =? IpFamilyV4) with false. cbn iota.
    rewrite (parse_ipv6 q cl tid ty 0 0 ts (set_ipv6 c no_ipv6) _ dns1 dns2 gw addr mtu); try done.
    intros t Ht. set_solver.
Qed.

Definition ex_fields : list (Z * bytes) :=
  [(0x15, w32 0x08080808); (0x20, w32 0x0100000A); (0x21, w32 0xFFFFFF); (0x1E, w32 0x0200000A); (0x29, w32 1500)].
Definition ex_settings : modem := fun _ _ => (0, Some (response QMUX_TYPE_WDS 1 0 0x2D 0 0 ex_fields)).
Definition ex_cfg : ipcfg := IpCfg no_ipv4 no_ipv6 0 0 zero16 zero16.

Lemma address_roundtrip_witness :
  requestGetIPAddress ex_settings IpFamilyV4 ex_cfg ex_up =
    Some ((0, set_ipv4 ex_cfg (Ipv4 0x0200000A 0x0100000A 0xFFFFFF 0x08080808 0 1500)),
          sent_state ex_up (settings_request IpFamilyV4 ex_up)).
Proof.
  refine (proj1 (address_roundtrip ex_settings ex_cfg ex_up QMUX_TYPE_WDS 1 0 0x2D ex_fields IpFamilyV4 (Some 1500)
    _ _ _ _ _ _ _ _) (Some 0x08080808) None (Some 0x0100000A) (Some 0xFFFFFF) (Some 0x0200000A) _ _ _ _ _ _ _ _);
    try reflexivity.
  - by left.
  - by vm_compute.
  - split_and!; [| |by vm_compute]; repeat constructor; by vm_compute.
  - repeat constructor; by vm_compute.
  - repeat constructor; by vm_compute.
  - intros t Ht. repeat (apply elem_of_cons in Ht as [-> | Ht]; [reflexivity|]). by apply elem_of_nil in Ht.
Defined.
