(* ===== verification/QmiCard.v ===== *)
(** * SIM card and profile requests: [QMIThread.c]

    Buffers on the stack have their C size: a store or load outside of them
    ends the run ([None]), as do loads outside a message and the use of a
    response after it was freed. *)

From S2P Require Import Prelude CLib QmiMsg QmiReq.

(** ** SIM status *)

Definition SIM_ABSENT : Z := 0.
Definition SIM_READY : Z := 2.
Definition SIM_PIN : Z := 3.
Definition SIM_PUK : Z := 4.
Definition SIM_BAD : Z := 6.

Definition QMI_PIN_STATUS_NOT_INIT : Z := 0.
Definition QMI_PIN_STATUS_NOT_VERIF : Z := 1.
Definition QMI_PIN_STATUS_VERIFIED : Z := 2.
Definition QMI_PIN_STATUS_DISABLED : Z := 3.
Definition QMI_PIN_STATUS_BLOCKED : Z := 4.
Definition QMI_PIN_STATUS_PERM_BLOCKED : Z := 5.

Definition UIM_APP_TYPE_USIM : Z := 0x02.
Definition UIM_CARD_STATE_PRESENT : Z := 0x01.
Definition sizeof_QMIUIM_CARD_STATUS : Z := 25.
Definition sizeof_QMIUIM_PIN_STATE : Z := 7.
Definition sizeof_QMIUI_APP_INFO : Z := 7.

Definition QMIUIM_GET_CARD_STATUS_REQ : Z := 0x002F.
Definition QMIUIM_VERIFY_PIN_REQ : Z := 0x0026.
Definition QMIDMS_UIM_VERIFY_PIN_REQ : Z := 0x0028.
Definition QMIDMS_UIM_GET_PIN_STATUS_REQ : Z := 0x002B.
Definition QMIDMS_UIM_GET_STATE_REQ : Z := 0x0044.

(** The return value and the SIM status stored. *)
Definition requestGetPINStatus (md : modem) (st : Z) : act (Z * Z) :=
  x07 ← gets s_9x07;
  rsp ← (if (x07 : bool) then request md QMUX_TYPE_UIM QMIUIM_GET_CARD_STATUS_REQ None
         else request md QMUX_TYPE_DMS QMIDMS_UIM_GET_PIN_STATUS_REQ None);
  match rsp with
  | inl err => mret (err, st)
  | inr m =>
      p ← tlv m 0x11;
      match p with
      | None => mret (0, st)
      | Some p =>
          x ← load (zget m (p + 3));
          mret (0, if x =? QMI_PIN_STATUS_NOT_VERIF then SIM_PIN
                   else if x =? QMI_PIN_STATUS_BLOCKED then SIM_PUK
                   else if x =? QMI_PIN_STATUS_PERM_BLOCKED then SIM_BAD else st)
      end
  end.

(** The PIN state behind the applications of the card: [n] turns of the loop,
    which tests the type of the first application each time. *)
Fixpoint walk_apps (m : bytes) (p : Z) (n : nat) (pin : Z) : act Z :=
  match n with
  | O => mret pin
  | S n =>
      app ← load (zget m (p + 18));
      if negb (app =? UIM_APP_TYPE_USIM) then
        let appinfo := pin + sizeof_QMIUIM_PIN_STATE in
        aid ← load (zget m (appinfo + 6));
        walk_apps m p n (appinfo + sizeof_QMIUI_APP_INFO + aid)
      else walk_apps m p n pin
  end.

(** [n] turns of [csRawLen += snprintf(csRaw + csRawLen, sizeof(csRaw) - csRawLen, ...)]
    with two digits and a NUL each: the size is unsigned. *)
Fixpoint raw_dump (n : nat) (csRawLen : Z) : option Z :=
  match n with
  | O => Some csRawLen
  | S n =>
      let size := u64 (96 - csRawLen) in
      if (size =? 0) || (csRawLen + Z.min 3 size <=? 96) then raw_dump n (csRawLen + 2) else None
  end.

Definition sim_table (CardState PIN1State : Z) : Z :=
  if (CardState =? 0x01) && ((PIN1State =? QMI_PIN_STATUS_VERIFIED) || (PIN1State =? QMI_PIN_STATUS_DISABLED)) then SIM_READY
  else if CardState =? 0x01 then
    let st := if PIN1State =? QMI_PIN_STATUS_NOT_VERIF then SIM_PIN else SIM_ABSENT in
    if PIN1State =? QMI_PIN_STATUS_BLOCKED then SIM_PUK
    else if PIN1State =? QMI_PIN_STATUS_PERM_BLOCKED then SIM_BAD
    else if (PIN1State =? QMI_PIN_STATUS_NOT_INIT) || (PIN1State =? QMI_PIN_STATUS_VERIFIED)
            || (PIN1State =? QMI_PIN_STATUS_DISABLED) then SIM_READY
    else st
  else SIM_ABSENT.

(** Card and PIN state out of the card status field at [p]. *)
Definition card_status (m : bytes) (p : Z) : act (Z * Z) :=
  aid ← load (zget m (p + 24));
  apps ← load (zget m (p + 17));
  pin ← walk_apps m p (Z.to_nat (apps - 1)) (p + sizeof_QMIUIM_CARD_STATUS + aid);
  card ← load (zget m (p + 12));
  upin ← load (zget m (p + 13));
  st ← (if card =? UIM_CARD_STATE_PRESENT then
          univ ← load (zget m pin);
          if univ =? 1 then mret upin else load (zget m (pin + 1))
        else mret QMI_PIN_STATUS_NOT_VERIF);
  load (zget m (p + 16));; load (zget m (p + 14));; load (zget m (p + 15));;
  load (zget m (pin + 1));; load (zget m (pin + 2));;
  len ← load (rd16 m (p + 1));
  load (rdn m p (Z.min len 96));;
  load (raw_dump (Z.to_nat (Z.min len 96)) 0);;
  mret (card, st).

(** The table of names has six entries. *)
Definition sim_status_string (st : Z) : act unit := if st <? 6 then mret tt else crash.

Definition requestGetSIMStatus (md : modem) (st : Z) : act (Z * Z) :=
  x07 ← gets s_9x07;
  rsp ← (if (x07 : bool) then request md QMUX_TYPE_UIM QMIUIM_GET_CARD_STATUS_REQ None
         else request md QMUX_TYPE_DMS QMIDMS_UIM_GET_STATE_REQ None);
  match rsp with
  | inl err => mret (err, st)
  | inr m =>
      st ← (if (x07 : bool) then
              p ← tlv m 0x10;
              '(card, pin) ← match p with
                             | Some p => card_status m p
                             | None => mret (0x01, QMI_PIN_STATUS_NOT_VERIF)
                             end;
              mret (sim_table card pin)
            else
              state ← load (zget m (off_hdr + 14));
              if state =? 0x00 then mret SIM_READY
              else if state =? 0x01 then '(_, st) ← requestGetPINStatus md SIM_ABSENT; mret st
              else mret SIM_ABSENT);
      sim_status_string st;;
      mret (0, st)
  end.

Definition requestEnterSimPin (md : modem) (pin : bytes) : act Z :=
  x07 ← gets s_9x07;
  rsp ← (if (x07 : bool) then request md QMUX_TYPE_UIM QMIUIM_VERIFY_PIN_REQ (Some (UimVerifyPinReqSend pin))
         else request md QMUX_TYPE_DMS QMIDMS_UIM_VERIFY_PIN_REQ (Some (DmsUIMVerifyPinReqSend pin)));
  match rsp with inl err => mret err | inr _ => mret 0 end.

(** ** Radio power and loopback *)

Definition QMIDMS_SET_OPERATING_MODE_REQ : Z := 0x002E.
Definition QMIUIM_POWER_DOWN : Z := 0x0030.
Definition QMIUIM_POWER_UP : Z := 0x0031.

Definition requestRadioPower (md : modem) (state : Z) : act Z :=
  let mode := if negb (state =? 0) then 0 else 1 in
  let op := if negb (state =? 0) then QMIUIM_POWER_UP else QMIUIM_POWER_DOWN in
  rsp ← request md QMUX_TYPE_DMS QMIDMS_SET_OPERATING_MODE_REQ (Some (DmsSetOperatingModeReq mode));
  match rsp with
  | inl err => mret err
  | inr _ =>
      rsp ← request md QMUX_TYPE_UIM op (Some (UimSetCardSlotReq 0x01));
      match rsp with inl err => mret err | inr _ => mret 0 end
  end.

(** The values are stored into the composed request; the factor goes through
    [cpu_to_le16]. *)
Definition loopback_request (state factor : Z) : act bytes :=
  r ← compose QMUX_TYPE_WDS_ADMIN QMI_WDA_SET_LOOPBACK_CONFIG_REQ (Some WdaSetLoopBackReq);
  r ← load (put (off_tlvs + 3) [u8 state] r);
  load (put (off_tlvs + 7) (w32 (u16 factor)) r).

Definition requestSetLoopBackState (md : modem) (state factor : Z) : act Z :=
  r ← loopback_request state factor;
  '(err, rsp) ← send md r;
  match rsp with
  | None => mret err
  | Some m =>
      if err <? 0 then mret err
      else x ← rsp_result m; mret (if rsp_failed x then snd x else 0)
  end.

(** ** Profiles *)

Definition QMIWDS_CREATE_PROFILE_REQ : Z := 0x0027.
Definition QMIWDS_GET_PROFILE_LIST_REQ : Z := 0x002A.
Definition QMIWDS_GET_PROFILE_SETTINGS_REQ : Z := 0x002B.

(** What the modem's profile held when it was read. *)
Record old_profile := OldProfile {
  old_apn : bytes; old_user : bytes; old_pd : bytes; old_auth : Z; old_iptype : Z }.

Definition set_index (p : profile) (i : Z) : profile :=
  Profile (p_apn p) (p_user p) (p_pd p) (p_auth p) (p_iptype p) (p_pdp p) i (p_curIpFamily p)
    (p_idProduct p) (p_bring_up_by_apn_name p) (p_bring_up_by_apn_type p) (p_apn_type p).
Definition set_iptype (p : profile) (x : Z) : profile :=
  Profile (p_apn p) (p_user p) (p_pd p) (p_auth p) x (p_pdp p) (p_profile_index p) (p_curIpFamily p)
    (p_idProduct p) (p_bring_up_by_apn_name p) (p_bring_up_by_apn_type p) (p_apn_type p).

Definition requestSetProfile (md : modem) (p : profile) (o : old_profile) : act Z :=
  let new_apn := default [] (p_apn p) in
  let new_user := default [] (p_user p) in
  let new_pd := default [] (p_pd p) in
  (if (0 <=? p_iptype p) && (p_iptype p <? 4) then mret tt else crash);;
  if p_profile_index p =? 0 then mret (-1)
  else if bool_decide (old_apn o = new_apn) && bool_decide (old_user o = new_user) && bool_decide (old_pd o = new_pd)
          && (old_iptype o =? p_iptype p) && (old_auth o =? p_auth p) then mret 0
  else
    rsp ← request md QMUX_TYPE_WDS QMIWDS_MODIFY_PROFILE_SETTINGS_REQ (Some (WdsModifyProfileSettingsReq p));
    match rsp with inl err => mret err | inr _ => mret 1 end.

(** [uchar2char] into a buffer of [n] bytes: the string it then holds. *)
Definition uchar2char (m : bytes) (n src len : Z) : act bytes :=
  x ← load (rdn m src (Z.min (n - 1) len)); mret (fst (cut 0 x)).

Definition str_tlv (m : bytes) (t : Z) : act bytes :=
  p ← tlv m t;
  match p with
  | None => mret []
  | Some p => len ← load (rd16 m (p + 1)); uchar2char m 64 (p + 3) len
  end.

Definition u8_tlv (m : bytes) (t : Z) : act Z :=
  p ← tlv m t; match p with None => mret 0 | Some p => load (zget m (p + 3)) end.

(** The profile numbers in the list at [p + 3]: [n] turns that store at [j] of
    an array of 42 and read at the 8-bit index [k]. *)
Fixpoint profile_list (m : bytes) (p : Z) (n : nat) (j k : Z) : act (list Z) :=
  match n with
  | O => mret []
  | S n =>
      if 42 <=? j then crash
      else
        i ← load (zget m (p + 3 + k));
        let k := u8 (k + 1) in
        len ← load (zget m (p + 3 + k));
        rest ← profile_list m p n (j + 1) (u8 (k + 2 + len));
        mret (i :: rest)
  end.

(** The search for the profile of the context: the error to return with the
    number of the profile asked for, or that number and the response with the
    settings, or nothing. *)
Fixpoint find_profile (md : modem) (p : profile) (l : list Z) : act (Z * Z + option (Z * bytes)) :=
  match l with
  | [] => mret (inr None)
  | i :: l =>
      rsp ← request md QMUX_TYPE_WDS QMIWDS_GET_PROFILE_SETTINGS_REQ (Some (WdsGetProfileSettingsReqSend (set_index p i)));
      match rsp with
      | inl err => mret (inl (err, i))
      | inr m =>
          t ← tlv m 0x25;
          match t with
          | None => find_profile md p l
          | Some t =>
              x ← load (zget m (t + 3));
              if x =? p_pdp p then mret (inr (Some (i, m))) else find_profile md p l
          end
      end
  end.

(** The settings in the response; the table of address types has four entries. *)
Definition old_settings (m : bytes) : act old_profile :=
  a ← str_tlv m 0x14; u ← str_tlv m 0x1B; d ← str_tlv m 0x1C;
  auth ← u8_tlv m 0x1D; ip ← u8_tlv m 0x11;
  if ip <? 4 then mret (OldProfile a u d auth ip) else crash.

Definition empty_old : old_profile := OldProfile [] [] [] 0 0.

(** From [_re_check] on; the fuel bounds the profiles created.  With an empty
    list the freed response is used. *)
Fixpoint get_profile_loop (fuel : nat) (md : modem) (p : profile) : act (option (Z * profile * old_profile)) :=
  match fuel with
  | O => mret None
  | S fuel =>
      rsp ← request md QMUX_TYPE_WDS QMIWDS_GET_PROFILE_LIST_REQ (Some WdsGetProfileListReqSend);
      match rsp with
      | inl err => mret (Some (err, p, empty_old))
      | inr m =>
          t ← tlv m 0x01;
          match t with
          | None => mret (Some (-1, p, empty_old))
          | Some t =>
              num ← load (zget m (t + 3));
              l ← profile_list m t (Z.to_nat num) 0 2;
              match l with
              | [] => crash
              | _ :: _ =>
                  f ← find_profile md p l;
                  match f with
                  | inl (err, i) => mret (Some (err, set_index p i, empty_old))
                  | inr (Some (i, m)) => o ← old_settings m; mret (Some (0, set_index p i, o))
                  | inr None =>
                      let p := set_index p (default 0 (last l)) in
                      rsp ← request md QMUX_TYPE_WDS QMIWDS_CREATE_PROFILE_REQ (Some (WdsCreateProfileSettingsReqSend p));
                      match rsp with
                      | inl err => mret (Some (err, p, empty_old))
                      | inr _ => get_profile_loop fuel md p
                      end
                  end
              end
          end
      end
  end.

Definition requestGetProfile (fuel : nat) (md : modem) (v4 v6 : bool) (p : profile)
  : act (option (Z * profile * old_profile)) :=
  let p := set_iptype p (if v4 && v6 then 3 else if v6 then 2 else 0) in
  if p_pdp p =? 0 then mret (Some (0, p, empty_old)) else get_profile_loop fuel md p.

(** ** Lemmas *)

(** The dump of the field's head fits the buffer for up to 49 bytes. *)
Lemma raw_dump_limit n : (n <= 96)%nat -> raw_dump n 0 = if (n <=? 49)%nat then Some (2 * Z.of_nat n) else None.
Proof.
  intros Hn. assert (H : Forall (fun n => raw_dump n 0 = if (n <=? 49)%nat then Some (2 * Z.of_nat n) else None) (seq 0 97)).
  { apply (bool_decide_unpack _). by vm_compute. }
  rewrite Forall_forall in H. apply H. apply elem_of_seq. lia.
Qed.

Lemma card_status_overflows m p v s : field_at m p v -> 50 <= zlen v -> card_status m p s = None.
Proof.
  intros (_ & Hl & _) H50. destruct (card_status m p s) as [[y s']|] eqn:E; [exfalso|done]. unfold card_status in E.
  repeat (apply st_bind_inv in E as (? & ? & ? & E)).
  match goal with H : load (rd16 m (p + 1)) _ = _ |- _ => apply st_load_inv in H as [H _]; rewrite Hl in H; injection H as <- end.
  match goal with H : load (raw_dump _ 0) _ = _ |- _ => apply st_load_inv in H as [H _];
    rewrite raw_dump_limit in H by lia; rewrite (proj2 (Nat.leb_gt _ _)) in H by lia; discriminate H end.
Qed.

(** The value of the card status field of a card with one application. *)
Definition card_value (idx : bytes) (slot card upin upr upk err : Z) (app6 aid pin : bytes) : bytes :=
  (idx ++ [slot; card; upin; upr; upk; err; 1] ++ app6 ++ [zlen aid] ++ aid) ++ pin.

Lemma card_value_len idx slot card upin upr upk err app6 aid pin :
  zlen idx = 8 -> zlen app6 = 6 -> zlen pin = 7 ->
  zlen (card_value idx slot card upin upr upk err app6 aid pin) = 29 + zlen aid.
Proof. intros. unfold card_value. autorewrite with zlen. lia. Qed.

Lemma card_value_head idx slot card upin upr upk err app6 aid pin j :
  zlen idx = 8 -> 8 <= j < 15 ->
  zget (card_value idx slot card upin upr upk err app6 aid pin) j = zget [slot; card; upin; upr; upk; err; 1] (j - 8).
Proof.
  intros Hi Hj. unfold card_value. rewrite <- app_assoc, zget_app_r by lia. rewrite Hi, <- app_assoc.
  apply zget_app_l. change (zlen [slot; card; upin; upr; upk; err; 1]) with 7. lia.
Qed.

Lemma card_value_aid idx slot card upin upr upk err app6 aid pin :
  zlen idx = 8 -> zlen app6 = 6 -> zget (card_value idx slot card upin upr upk err app6 aid pin) 21 = Some (zlen aid).
Proof.
  intros Hi Ha. unfold card_value.
  replace ((idx ++ [slot; card; upin; upr; upk; err; 1] ++ app6 ++ [zlen aid] ++ aid) ++ pin)
    with ((idx ++ [slot; card; upin; upr; upk; err; 1] ++ app6) ++ zlen aid :: aid ++ pin)
    by by rewrite <- !app_assoc.
  apply zget_app_mid. autorewrite with zlen. lia.
Qed.

Lemma card_value_pin idx slot card upin upr upk err app6 aid pin j :
  zlen idx = 8 -> zlen app6 = 6 -> 0 <= j ->
  zget (card_value idx slot card upin upr upk err app6 aid pin) (22 + zlen aid + j) = zget pin j.
Proof.
  intros Hi Ha Hj. unfold card_value.
  assert (E : zlen (idx ++ [slot; card; upin; upr; upk; err; 1] ++ app6 ++ [zlen aid] ++ aid) = 22 + zlen aid)
    by (autorewrite with zlen; lia).
  rewrite zget_app_r by lia. f_equal. lia.
Qed.

Lemma rdn_total d i n : 0 <= i -> i + n <= zlen d -> is_Some (rdn d i n).
Proof. intros. unfold rdn. rewrite (proj2 (Z.leb_le 0 i)), (proj2 (Z.leb_le _ _)) by lia. by eexists. Qed.

(** The state such a field is decoded to. *)
Definition card_pin (card upin univ pin1 : Z) : Z :=
  if card =? UIM_CARD_STATE_PRESENT then (if univ =? 1 then upin else pin1) else QMI_PIN_STATUS_NOT_VERIF.

Lemma card_status_one m p idx slot card upin upr upk err app6 aid univ pin1 r1 u1 p2 r2 u2 s :
  let v := card_value idx slot card upin upr upk err app6 aid [univ; pin1; r1; u1; p2; r2; u2] in
  zlen idx = 8 -> zlen app6 = 6 -> zlen aid <= 20 -> field_at m p v ->
  card_status m p s = Some ((card, card_pin card upin univ pin1), s).
Proof.
  intros v Hi Ha Hl (Hp & Hl1 & Hv). pose proof (zlen_nonneg aid) as H0.
  assert (Ev : zlen v = 29 + zlen aid) by by apply card_value_len. rewrite Ev in *.
  assert (Hz : forall j, 0 <= j < 29 + zlen aid -> zget m (p + 3 + j) = zget v j) by (intros; by apply (rdn_zget m _ (29 + zlen aid))).
  assert (Hh : forall j, 8 <= j < 15 -> zget m (p + 3 + j) = zget [slot; card; upin; upr; upk; err; 1] (j - 8)).
  { intros j Hj. rewrite Hz by lia. by apply card_value_head. }
  assert (Hpin : forall j, 0 <= j < 7 -> zget m (p + sizeof_QMIUIM_CARD_STATUS + zlen aid + j) = zget [univ; pin1; r1; u1; p2; r2; u2] j).
  { intros j Hj. replace (p + sizeof_QMIUIM_CARD_STATUS + zlen aid + j) with (p + 3 + (22 + zlen aid + j))
      by (unfold sizeof_QMIUIM_CARD_STATUS; lia).
    rewrite Hz by lia. apply card_value_pin; lia. }
  assert (Hr : exists raw, rdn m p (Z.min (29 + zlen aid) 96) = Some raw).
  { unfold off_hdr, sizeof_QCQMI_HDR, sizeof_QCQMUX_HDR in Hp. apply rdn_total; [lia|].
    unfold rdn in Hv. destruct ((0 <=? p + 3) && _) eqn:E; [|done]. zprop. lia. }
  destruct Hr as [raw Hraw].
  unfold card_status, mbind, st_bind, load.
  assert (E21 : zget v 21 = Some (zlen aid)) by by apply card_value_aid.
  replace (p + 24) with (p + 3 + 21) by lia. rewrite Hz, E21 by lia.
  replace (p + 17) with (p + 3 + 14) by lia. rewrite (Hh 14) by lia. change (zget [slot; card; upin; upr; upk; err; 1] (14 - 8)) with (Some 1).
  assert (Ew : forall pin s, walk_apps m p (Z.to_nat (1 - 1)) pin s = Some (pin, s)) by done.
  cbn beta iota. rewrite Ew. unfold mret, st_ret.
  replace (p + 12) with (p + 3 + 9) by lia. rewrite (Hh 9) by lia. change (zget [slot; card; upin; upr; upk; err; 1] (9 - 8)) with (Some card).
  replace (p + 13) with (p + 3 + 10) by lia. rewrite (Hh 10) by lia. change (zget [slot; card; upin; upr; upk; err; 1] (10 - 8)) with (Some upin).
  replace (p + 16) with (p + 3 + 13) by lia. rewrite (Hh 13) by lia. change (zget [slot; card; upin; upr; upk; err; 1] (13 - 8)) with (Some err).
  replace (p + 14) with (p + 3 + 11) by lia. rewrite (Hh 11) by lia. change (zget [slot; card; upin; upr; upk; err; 1] (11 - 8)) with (Some upr).
  replace (p + 15) with (p + 3 + 12) by lia. rewrite (Hh 12) by lia. change (zget [slot; card; upin; upr; upk; err; 1] (12 - 8)) with (Some upk).
  pose proof (Hpin 0 ltac:(lia)) as Hpin0. rewrite Z.add_0_r in Hpin0. rewrite Hpin0, !Hpin by lia. change (zget [univ; pin1; r1; u1; p2; r2; u2] 0) with (Some univ).
  change (zget [univ; pin1; r1; u1; p2; r2; u2] 1) with (Some pin1). change (zget [univ; pin1; r1; u1; p2; r2; u2] 2) with (Some r1).
  rewrite Hl1, Hraw, raw_dump_limit, (proj2 (Nat.leb_le _ _)) by lia. unfold card_pin.
  by destruct (card =? UIM_CARD_STATE_PRESENT), (univ =? 1).
Qed.

Definition card_request (s : qst) : bytes :=
  qmi_request QMUX_TYPE_UIM 0 (GetQMUXTransactionId (TransactionId s)) QMIUIM_GET_CARD_STATUS_REQ [].

(** The run on a modem with UIM service up to the card status field. *)
Lemma sim_status_run md st s q cl tid ty ts v :
  s_9x07 s = true -> fields_ok ts -> lookup_tlv ts 0x10 = Some v ->
  md (q_sent s) (card_request s) = (0, Some (response q cl tid ty 0 0 ts)) ->
  exists p, field_at (response q cl tid ty 0 0 ts) p v /\
    requestGetSIMStatus md st s =
      match card_status (response q cl tid ty 0 0 ts) p (sent_state s (card_request s)) with
      | Some ((card, pin), s) => if sim_table card pin <? 6 then Some ((0, sim_table card pin), s) else None
      | None => None
      end.
Proof.
  intros H9 Hts Hl Hmd. set (m := response q cl tid ty 0 0 ts) in *. set (s1 := sent_state s (card_request s)).
  pose proof (response_tlv q cl tid ty 0 0 ts 0x10 s1 Hts) as Ht. cbv zeta in Ht. fold m in Ht. rewrite Hl in Ht.
  destruct Ht as (p & Et & Hat); [done|done|]. exists p. split; [done|].
  unfold requestGetSIMStatus. erewrite st_bind_some by reflexivity. rewrite H9.
  erewrite st_bind_some.
  2: { apply request_ok; [apply compose_empty|exact Hmd|]. intros s0. by apply rsp_response. }
  fold (card_request s). fold s1. unfold mbind, st_bind. cbn iota. rewrite Et. destruct (card_status m p s1) as [[[card pin] s2]|]; [|done].
  unfold sim_status_string, mret, st_ret, crash. by destruct (_ <? 6).
Qed.

(** ** Theorems *)

(** The status of a card with one application: the PIN that guards the card
    (the universal PIN when it replaces the first one) decides whether the SIM
    is ready, waits for its PIN or for its PUK; without a card it is absent.  A
    permanently blocked PIN reads past the table of status names. *)
Theorem sim_status_one_app md st s q cl tid ty ts idx slot card upin upr upk err app6 aid univ pin1 r1 u1 p2 r2 u2 :
  s_9x07 s = true -> fields_ok ts ->
  lookup_tlv ts 0x10 = Some (card_value idx slot card upin upr upk err app6 aid [univ; pin1; r1; u1; p2; r2; u2]) ->
  zlen idx = 8 -> zlen app6 = 6 -> zlen aid <= 20 ->
  md (q_sent s) (card_request s) = (0, Some (response q cl tid ty 0 0 ts)) ->
  let pin := if univ =? 1 then upin else pin1 in
  requestGetSIMStatus md st s =
    if negb (card =? 1) then Some ((0, SIM_ABSENT), sent_state s (card_request s))
    else if pin =? QMI_PIN_STATUS_PERM_BLOCKED then None
    else Some ((0, if pin =? QMI_PIN_STATUS_NOT_VERIF then SIM_PIN
                   else if pin =? QMI_PIN_STATUS_BLOCKED then SIM_PUK
                   else if (0 <=? pin) && (pin <=? 3) then SIM_READY else SIM_ABSENT),
               sent_state s (card_request s)).
Proof.
  intros H9 Hts Hl Hi Ha Haid Hmd pin.
  destruct (sim_status_run md st s q cl tid ty ts _ H9 Hts Hl Hmd) as (p & Hat & ->).
  rewrite (card_status_one _ p idx slot card upin upr upk err app6 aid univ pin1 r1 u1 p2 r2 u2) by done.
  unfold card_pin, UIM_CARD_STATE_PRESENT. fold pin. unfold sim_table.
  destruct (card =? 1); [|done]. cbn [negb andb].
  unfold QMI_PIN_STATUS_VERIFIED, QMI_PIN_STATUS_DISABLED, QMI_PIN_STATUS_NOT_VERIF, QMI_PIN_STATUS_BLOCKED,
    QMI_PIN_STATUS_PERM_BLOCKED, QMI_PIN_STATUS_NOT_INIT.
  destruct (Z.eqb_spec pin 2) as [->|]; [done|]. destruct (Z.eqb_spec pin 3) as [->|]; [done|].
  destruct (Z.eqb_spec pin 1) as [->|]; [done|]. destruct (Z.eqb_spec pin 4) as [->|]; [done|].
  destruct (Z.eqb_spec pin 5) as [->|]; [done|]. destruct (Z.eqb_spec pin 0) as [->|]; [done|]. cbn [orb].
  destruct ((0 <=? pin) && (pin <=? 3)) eqn:E; [zprop; lia|done].
Qed.

Definition ex_card : bytes :=
  card_value (replicate 8 255) 1 1 0 0 0 0 [2; 7; 0; 0; 0; 0] (replicate 16 0xA0) [0; 1; 3; 10; 1; 3; 10].
Definition ex_card_modem : modem := fun _ _ => (0, Some (response QMUX_TYPE_UIM 1 0 0x2F 0 0 [(0x10, ex_card)])).

Lemma ex_card_ok : fields_ok [(0x10, ex_card)].
Proof.
  split_and!; [repeat constructor; by vm_compute| |by vm_compute].
  constructor; [|constructor]. apply (bool_decide_unpack _). by vm_compute.
Qed.

Lemma sim_status_one_app_witness :
  requestGetSIMStatus ex_card_modem SIM_ABSENT ex_qst = Some ((0, SIM_PIN), sent_state ex_qst (card_request ex_qst)).
Proof.
  exact (sim_status_one_app ex_card_modem SIM_ABSENT ex_qst QMUX_TYPE_UIM 1 0 0x2F [(0x10, ex_card)]
    (replicate 8 255) 1 1 0 0 0 0 [2; 7; 0; 0; 0; 0] (replicate 16 0xA0) 0 1 3 10 1 3 10
    eq_refl ex_card_ok eq_refl eq_refl eq_refl (ltac:(by vm_compute)) eq_refl).
Defined.

(** The dump of the card status overflows its buffer of 96 bytes: a field of
    50 bytes or more, as a card with two applications has, makes the run store
    past the buffer whatever else the response holds. *)
Theorem sim_status_overflows md st s q cl tid ty ts v :
  s_9x07 s = true -> fields_ok ts -> lookup_tlv ts 0x10 = Some v -> 50 <= zlen v ->
  md (q_sent s) (card_request s) = (0, Some (response q cl tid ty 0 0 ts)) ->
  requestGetSIMStatus md st s = None.
Proof.
  intros H9 Hts Hl H50 Hmd. destruct (sim_status_run md st s q cl tid ty ts v H9 Hts Hl Hmd) as (p & Hat & ->).
  by rewrite (card_status_overflows _ _ v).
Qed.

(** A card with a USIM and an ISIM application. *)
Definition ex_card2 : bytes :=
  replicate 8 255 ++ [1; 1; 0; 0; 0; 0; 2] ++ [2; 7; 0; 0; 0; 0; 16] ++ replicate 16 0xA0 ++ [0; 3; 3; 10; 1; 3; 10]
  ++ [5; 7; 0; 0; 0; 0; 16] ++ replicate 16 0xA0 ++ [0; 3; 3; 10; 1; 3; 10].

Lemma sim_status_overflows_witness :
  requestGetSIMStatus (fun _ _ => (0, Some (response QMUX_TYPE_UIM 1 0 0x2F 0 0 [(0x10, ex_card2)]))) SIM_ABSENT ex_qst = None.
Proof.
  apply (sim_status_overflows _ SIM_ABSENT ex_qst QMUX_TYPE_UIM 1 0 0x2F [(0x10, ex_card2)] ex_card2);
    [reflexivity| |reflexivity|by vm_compute|reflexivity].
  split_and!; [repeat constructor; by vm_compute| |by vm_compute].
  constructor; [|constructor]. apply (bool_decide_unpack _). by vm_compute.
Defined.

(** *** Profiles *)

(** A string the code keeps whole. *)
Definition short_str (s : bytes) : Prop := zlen s <= 63 /\ Forall (fun c => 0 < c < 256) s.

Lemma short_no_nul s : short_str s -> 0 ∉ s.
Proof. intros [_ H] Hin. rewrite Forall_forall in H. apply H in Hin. lia. Qed.

Lemma str_tlv_lookup q cl tid ty ts t o s :
  fields_ok ts -> t <> 2 -> t <= 0x1000 -> lookup_tlv ts t = o -> short_str (default [] o) ->
  str_tlv (response q cl tid ty 0 0 ts) t s = Some (default [] o, s).
Proof.
  intros Hts Hne Ht Hl Hs. pose proof (response_tlv q cl tid ty 0 0 ts t s Hts Hne Ht) as H. rewrite Hl in H.
  unfold str_tlv. destruct o as [v|]; [|by rewrite (st_bind_some _ _ _ _ _ H)].
  destruct H as (p & E & _ & El & Ev). rewrite (st_bind_some _ _ _ _ _ E).
  change (default [] (Some v)) with v in *. unfold uchar2char, mbind, st_bind, load. rewrite El. destruct Hs as [Hs Hb]. rewrite Z.min_r by lia.
  rewrite Ev, cut_no_delim; [done|]. by apply short_no_nul.
Qed.

Lemma u8_tlv_lookup q cl tid ty ts t o s :
  fields_ok ts -> t <> 2 -> t <= 0x1000 -> lookup_tlv ts t = (fun x => [x]) <$> o ->
  u8_tlv (response q cl tid ty 0 0 ts) t s = Some (default 0 o, s).
Proof.
  intros Hts Hne Ht Hl. pose proof (response_tlv q cl tid ty 0 0 ts t s Hts Hne Ht) as H. rewrite Hl in H.
  unfold u8_tlv. destruct o as [v|]; [|by rewrite (st_bind_some _ _ _ _ _ H)].
  destruct H as (p & E & _ & El & Ev). rewrite (st_bind_some _ _ _ _ _ E). unfold load.
  rewrite <- (Z.add_0_r (p + 3)), (rdn_zget _ _ _ _ 0 Ev) by by vm_compute. done.
Qed.

(** The settings a modify request writes, as the modem reports them. *)
Definition written (p : profile) : list (Z * bytes) := map tlv_of (tail (modify_fields p)).

Lemma written_lookup p :
  lookup_tlv (written p) 0x14 = p_apn p /\ lookup_tlv (written p) 0x1B = p_user p /\
  lookup_tlv (written p) 0x1C = p_pd p /\
  lookup_tlv (written p) 0x1D = (if bool_decide (is_Some (p_user p) /\ is_Some (p_pd p)) then Some [u8 (p_auth p)] else None) /\
  lookup_tlv (written p) 0x11 = Some [u8 (p_iptype p)].
Proof.
  unfold written, modify_fields. destruct (p_apn p), (p_user p), (p_pd p); repeat split.
Qed.

Definition profile_ok (p : profile) : Prop :=
  short_str (default [] (p_apn p)) /\ short_str (default [] (p_user p)) /\ short_str (default [] (p_pd p)) /\
  0 <= p_iptype p < 4 /\ in_u 8 (p_auth p) /\ (p_auth p = 0 \/ (is_Some (p_user p) /\ is_Some (p_pd p))).

Lemma short_bytes s : short_str s -> Forall is_byte s.
Proof. intros [_ H]. eapply Forall_impl; [exact H|]. intros c Hc. cbn beta in Hc. unfold is_byte, in_u. lia. Qed.

Lemma written_fields_ok p : profile_ok p -> fields_ok (written p).
Proof.
  intros (Ha & Hu & Hd & _). unfold written, modify_fields. cbn [tail app map].
  assert (Hs : forall o t, in_u 8 t -> short_str (default [] o) ->
    let l := map tlv_of (field_opt o t) in
    tlvs_ok l /\ Forall (fun x => Forall is_byte (snd x)) l /\ zlen (encode l) <= 66).
  { intros [v|] t Ht Hv; [change (short_str v) in Hv|split_and!; [constructor|constructor|by vm_compute]].
    cbn [field_opt map]. pose proof (proj1 Hv). pose proof (zlen_nonneg v). split_and!.
    - constructor; [|constructor]. split; [apply wrap_in_u; lia|]. change (zlen v < 2 ^ 16). lia.
    - constructor; [|constructor]. by apply short_bytes.
    - change (tlv_of (str_field t v)) with (u8 t, v). rewrite zlen_encode_cons. change (zlen (encode [])) with 0. lia. }
  destruct (Hs (p_apn p) 0x14 ltac:(in_u) Ha) as (A1 & A2 & A3).
  destruct (Hs (p_user p) 0x1B ltac:(in_u) Hu) as (B1 & B2 & B3).
  destruct (Hs (p_pd p) 0x1C ltac:(in_u) Hd) as (C1 & C2 & C3).
  assert (Hi : forall b x t, let l := map tlv_of (field_if b (u8_field t x)) in
    tlvs_ok l /\ Forall (fun x => Forall is_byte (snd x)) l /\ zlen (encode l) <= 4).
  { intros [] x t; cbv zeta; cbn [field_if map]; [|split_and!; [constructor|constructor|by vm_compute]]. split_and!.
    - apply Forall_singleton. split; [apply wrap_in_u; lia|by vm_compute].
    - apply Forall_singleton, Forall_singleton, wrap_in_u. lia.
    - by vm_compute. }
  destruct (Hi (bool_decide (is_Some (p_user p) /\ is_Some (p_pd p))) (p_auth p) 0x1D) as (D1 & D2 & D3).
  destruct (Hi true (p_iptype p) 0x11) as (E1 & E2 & E3). cbn [field_if map] in E1, E2, E3.
  rewrite !map_app.
  change (tlv_of (u8_field 17 (p_iptype p)) :: map tlv_of (field_opt (p_apn p) 20) ++ map tlv_of (field_opt (p_user p) 27) ++
    map tlv_of (field_opt (p_pd p) 28) ++ map tlv_of (field_if (bool_decide (is_Some (p_user p) /\ is_Some (p_pd p))) (u8_field 29 (p_auth p))))
    with ([tlv_of (u8_field 17 (p_iptype p))] ++ map tlv_of (field_opt (p_apn p) 20) ++ map tlv_of (field_opt (p_user p) 27) ++
    map tlv_of (field_opt (p_pd p) 28) ++ map tlv_of (field_if (bool_decide (is_Some (p_user p) /\ is_Some (p_pd p))) (u8_field 29 (p_auth p)))).
  unfold fields_ok, tlvs_ok in *. rewrite !Forall_app, !encode_app, !zlen_app. split_and!; try done. lia.
Qed.

Lemma old_written q cl tid ty p s :
  profile_ok p ->
  old_settings (response q cl tid ty 0 0 (written p)) s =
    Some (OldProfile (default [] (p_apn p)) (default [] (p_user p)) (default [] (p_pd p)) (p_auth p) (p_iptype p), s).
Proof.
  intros Hp. pose proof (written_fields_ok p Hp) as Hts. destruct (written_lookup p) as (L1 & L2 & L3 & L4 & L5).
  destruct Hp as (Ha & Hu & Hd & Hi & Hau & Hb). unfold old_settings.
  erewrite st_bind_some by (apply str_tlv_lookup; [done|done|done|exact L1|done]).
  erewrite st_bind_some by (apply str_tlv_lookup; [done|done|done|exact L2|done]).
  erewrite st_bind_some by (apply str_tlv_lookup; [done|done|done|exact L3|done]).
  erewrite st_bind_some.
  2: { apply (u8_tlv_lookup _ _ _ _ _ _ (if bool_decide (is_Some (p_user p) /\ is_Some (p_pd p)) then Some (u8 (p_auth p)) else None));
       [done|done|done|]. rewrite L4. by destruct (bool_decide _). }
  erewrite st_bind_some by (apply (u8_tlv_lookup _ _ _ _ _ _ (Some (u8 (p_iptype p)))); [done|done|done|exact L5]).
  change (default 0 (Some (u8 (p_iptype p)))) with (u8 (p_iptype p)). rewrite (wrap_small 8 (p_iptype p)) by in_u. rewrite (proj2 (Z.ltb_lt _ _)) by lia.
  unfold mret, st_ret. do 2 f_equal. f_equal.
  case_bool_decide as Hbb; [by apply (wrap_small 8)|]. destruct Hb as [->|Hb]; [done|by destruct Hbb].
Qed.

(** Writing a profile settles it: when the modem reports the settings that
    the modify request of a profile writes, reading them back gives the APN,
    user name, password, authentication and address type of the profile, and
    setting the same profile again sends nothing, while setting one that differs
    in any of these sends a request. *)
Theorem profile_write_read md p s q cl tid ty :
  profile_ok p -> p_profile_index p <> 0 ->
  exists o, old_settings (response q cl tid ty 0 0 (written p)) s = Some (o, s) /\
    requestSetProfile md p o s = Some (0, s) /\
    forall p' y s', p_profile_index p' <> 0 ->
      (default [] (p_apn p'), default [] (p_user p'), default [] (p_pd p'), p_auth p', p_iptype p') <>
      (default [] (p_apn p), default [] (p_user p), default [] (p_pd p), p_auth p, p_iptype p) ->
      requestSetProfile md p' o s = Some (y, s') -> exists r, q_sent s' = q_sent s ++ [r].
Proof.
  intros Hp Hi. eexists. split; [by apply old_written|]. destruct Hp as (_ & _ & _ & Hip & _).
  unfold requestSetProfile. cbn [old_apn old_user old_pd old_auth old_iptype]. split.
  - rewrite (proj2 (Z.leb_le _ _)), (proj2 (Z.ltb_lt _ _)) by lia. cbn [andb]. erewrite st_bind_some by reflexivity.
    rewrite (proj2 (Z.eqb_neq _ _) Hi), !bool_decide_eq_true_2, !Z.eqb_refl by done. done.
  - intros p' y s' Hi' Hne H. apply st_bind_inv in H as (? & s1 & H1 & H).
    assert (s1 = s) as -> by (destruct (_ && _) in H1; [by injection H1|done]).
    rewrite (proj2 (Z.eqb_neq _ _) Hi') in H.
    destruct (bool_decide _ && _ && _ && _ && _) eqn:E.
    + exfalso. apply Hne. zprop. repeat match goal with H : bool_decide _ = true |- _ => apply bool_decide_eq_true in H end.
      congruence.
    + apply st_bind_inv in H as (rsp & s2 & Hr & H). apply request_inv in Hr as (r & _ & -> & _). exists r. by run_in H.
Qed.

Lemma profile_write_read_witness :
  exists o, old_settings (response QMUX_TYPE_WDS 1 0 0x2B 0 0 (written ex_profile)) ex_qst = Some (o, ex_qst) /\
    requestSetProfile ex_modem ex_profile o ex_qst = Some (0, ex_qst).
Proof.
  destruct (profile_write_read ex_modem ex_profile ex_qst QMUX_TYPE_WDS 1 0 0x2B) as (o & H1 & H2 & _).
  - split_and!; apply (bool_decide_unpack _); by vm_compute.
  - done.
  - by exists o.
Defined.

Lemma profile_list_too_long m p n j k s : j <= 42 -> 42 < j + Z.of_nat n -> profile_list m p n j k s = None.
Proof.
  revert j k. induction n as [|n IH]; intros j k Hj H; [lia|].
  cbn [profile_list]. destruct (Z.leb_spec 42 j); [done|]. unfold mbind, st_bind, load.
  destruct (zget m (p + 3 + k)); [|done]. destruct (zget m _); [|done]. by rewrite IH by lia.
Qed.

Definition list_request (s : qst) : bytes :=
  qmi_request QMUX_TYPE_WDS 0 (GetQMUXTransactionId (TransactionId s)) QMIWDS_GET_PROFILE_LIST_REQ [].

(** The number of profiles the modem reports is not checked: with an empty
    list the search reads the response after it was freed, with more than 42
    profiles their numbers are stored past the array. *)
Theorem profile_list_unchecked fuel md v4 v6 p s q cl tid ty ts num rest :
  p_pdp p <> 0 -> fields_ok ts -> lookup_tlv ts 0x01 = Some (num :: rest) ->
  num = 0 \/ 42 < num ->
  md (q_sent s) (list_request s) = (0, Some (response q cl tid ty 0 0 ts)) ->
  requestGetProfile (S fuel) md v4 v6 p s = None.
Proof.
  intros Hp Hts Hl Hn Hmd. unfold requestGetProfile.
  change (p_pdp (set_iptype p (if v4 && v6 then 3 else if v6 then 2 else 0))) with (p_pdp p).
  rewrite (proj2 (Z.eqb_neq _ _) Hp). cbn [get_profile_loop].
  erewrite st_bind_some.
  2: { apply request_ok; [unfold WdsGetProfileListReqSend; by rewrite compose_fixed|exact Hmd|].
       intros s0. by apply rsp_response. }
  set (m := response q cl tid ty 0 0 ts). set (s1 := sent_state s _).
  pose proof (response_tlv q cl tid ty 0 0 ts 0x01 s1 Hts) as H. cbv zeta in H. fold m in H. rewrite Hl in H.
  destruct H as (t & Et & _ & _ & Hv); [done|done|]. rewrite (st_bind_some _ _ _ _ _ Et).
  assert (En : zget m (t + 3) = Some num).
  { rewrite <- (Z.add_0_r (t + 3)), (rdn_zget _ _ _ _ 0 Hv); [done|]. rewrite zlen_cons. pose proof (zlen_nonneg rest). lia. }
  unfold load at 1. erewrite st_bind_some by by rewrite En. destruct Hn as [-> | Hn].
  - by erewrite st_bind_some by reflexivity.
  - unfold mbind, st_bind. by rewrite profile_list_too_long by lia.
Qed.

Lemma profile_list_unchecked_witness :
  requestGetProfile 1 (fun _ _ => (0, Some (response QMUX_TYPE_WDS 1 0 0x2A 0 0 [(0x01, [0])]))) true false ex_profile ex_qst = None.
Proof.
  apply (profile_list_unchecked 0 _ true false ex_profile ex_qst QMUX_TYPE_WDS 1 0 0x2A [(0x01, [0])] 0 []);
    [done| |reflexivity|by left|reflexivity].
  split_and!; [repeat constructor; by vm_compute| |by vm_compute]. repeat constructor; by vm_compute.
Defined.

(** The loopback request keeps 16 of the 32 bits of the replication factor. *)
Lemma loopback_factor state factor s r s' :
  loopback_request state factor s = Some (r, s') ->
  r = qmi_request QMUX_TYPE_WDS_ADMIN 0 (GetQMUXTransactionId (TransactionId s)) QMI_WDA_SET_LOOPBACK_CONFIG_REQ
        [(0x01, [u8 state]); (0x10, w32 (u16 factor))].
Proof.
  intros H. unfold loopback_request in H. apply st_bind_inv in H as (r0 & s0 & Hc & H).
  apply compose_inv in Hc as [Hc ->]. unfold WdaSetLoopBackReq in Hc. rewrite compose_fixed in Hc. injection Hc as <-.
  run_in H. match goal with H : put (off_tlvs + 3) _ _ = Some _ |- _ => injection H as <- end.
  match goal with H : put (off_tlvs + 7) _ _ = Some _ |- _ => by injection H as <- end.
Qed.
