(* ===== verification/QmiSession.v ===== *)
(** * Requests and responses between threads: [QmiThreadSendQMITimeout] and
    [QmiThreadRecvQMI] of [QMIThread.c], the reader of [QmiWwanCM.c]

    The two functions hold [cm_command_mutex] except while the sender waits on
    the condition, so they interleave in three atomic steps: the sender up to
    the wait, a whole call of the receiver, and the sender from the end of the
    wait on.  The wait may end without a signal. *)

From S2P Require Import Prelude CLib QmiMsg QmiReq QmiCard.

(** ** Matching responses *)

Definition qmi_type (m : bytes) : option Z := zget m 4.
Definition client_id (m : bytes) : option Z := zget m 5.
Definition mux_type (m : bytes) : option Z := rd16 m off_hdr.

(** The transaction number of a control message is one byte. *)
Definition message_tid (m : bytes) (t : Z) : option Z :=
  if t =? QMUX_TYPE_CTL then zget m (sizeof_QCQMI_HDR + 1) else rd16 m (sizeof_QCQMI_HDR + 1).

Definition is_response (r m : bytes) : option bool :=
  t1 ← qmi_type r; t2 ← qmi_type m; c1 ← client_id r; c2 ← client_id m;
  if (t1 =? t2) && (c1 =? c2) then
    a ← message_tid r t1; b ← message_tid m t1; Some (a =? b)
  else Some false.

(** ** State *)

(** [ss_wait] is the request whose sender waits; [ss_events] go to the main
    thread. *)
Record sess := Sess {
  ss_req : option bytes; ss_rsp : option bytes; ss_wait : option bytes; ss_events : list Z }.

Definition MODEM_REPORT_RESET_EVENT : Z := 0x1006.
Definition RIL_UNSOL_RESPONSE_VOICE_NETWORK_STATE_CHANGED : Z := 0x1004.
Definition RIL_UNSOL_DATA_CALL_LIST_CHANGED : Z := 0x1005.
Definition RIL_UNSOL_LOOPBACK_CONFIG_IND : Z := 0x1007.
Definition QMICTL_REVOKE_CLIENT_ID_IND : Z := 0x0024.
Definition QMIUIM_STATUS_CHANGE_IND : Z := 0x0032.
Definition QMINAS_SERVING_SYSTEM_IND : Z := 0x0024.
Definition QMINAS_SYS_INFO_IND : Z := 0x004E.

Definition event (e : Z) (s : sess) : sess := Sess (ss_req s) (ss_rsp s) (ss_wait s) (ss_events s ++ [e]).

(** The loads of [QmiUimLogCardStatus] on an indication; it stores nothing
    outside its buffer of 96 characters, 48 times two digits. *)
Definition log_card (m : bytes) : act unit :=
  p ← tlv m 0x10;
  match p with
  | None => mret tt
  | Some p =>
      aid ← load (zget m (p + 24));
      apps ← load (zget m (p + 17));
      pin ← walk_apps m p (Z.to_nat (apps - 1)) (p + sizeof_QMIUIM_CARD_STATUS + aid);
      len ← load (rd16 m (p + 1));
      load (rdn m p (Z.min len 48));;
      load (rdn m (p + 12) 5);; load (rdn m (pin + 1) 2);; mret tt
  end.
Definition act_eval {A} (a : act A) : option A := fst <$> a (Qst 0 0 false true 0 0 0 []).

(** A message that is no response. *)
Definition indication (m : bytes) (s : sess) : option sess :=
  t ← qmi_type m;
  ctl ← rd16 m (sizeof_QCQMI_HDR + 2);
  if (t =? QMUX_TYPE_CTL) && (ctl =? QMICTL_REVOKE_CLIENT_ID_IND) then Some (event MODEM_REPORT_RESET_EVENT s)
  else if t =? QMUX_TYPE_CTL then Some s
  else
    ty ← mux_type m;
    if (t =? QMUX_TYPE_UIM) && (ty =? QMIUIM_STATUS_CHANGE_IND) then _ ← act_eval (log_card m); Some s
    else if (t =? QMUX_TYPE_NAS) && (ty =? QMINAS_SERVING_SYSTEM_IND) then
      Some (event RIL_UNSOL_RESPONSE_VOICE_NETWORK_STATE_CHANGED s)
    else if (t =? QMUX_TYPE_WDS) && (ty =? QMIWDS_GET_PKT_SRVC_STATUS_IND) then
      Some (event RIL_UNSOL_DATA_CALL_LIST_CHANGED s)
    else if (t =? QMUX_TYPE_NAS) && (ty =? QMINAS_SYS_INFO_IND) then
      Some (event RIL_UNSOL_RESPONSE_VOICE_NETWORK_STATE_CHANGED s)
    else if (t =? QMUX_TYPE_WDS_ADMIN) && (ty =? QMI_WDA_SET_LOOPBACK_CONFIG_IND) then
      _ ← rdn m off_hdr 15; Some (event RIL_UNSOL_LOOPBACK_CONFIG_IND s)
    else Some s.

(** [None] as message: the device is gone. *)
Definition QmiThreadRecvQMI (m : option bytes) (s : sess) : option sess :=
  match m with
  | None => Some (match ss_req s with Some _ => Sess None None (ss_wait s) (ss_events s) | None => s end)
  | Some m =>
      len ← rd16 m 1;
      match ss_req s with
      | None => indication m s
      | Some r =>
          b ← is_response r m;
          if b : bool then c ← rdn m 0 (len + 1); Some (Sess None (Some c) (ss_wait s) (ss_events s))
          else indication m s
      end
  end.

(** The reader hands over what it read when its length is the header's. *)
Definition on_read (m : bytes) (s : sess) : option sess :=
  len ← rd16 m 1; if zlen m =? len + 1 then QmiThreadRecvQMI (Some m) s else Some s.

(** [QmiWwanSendQMI] completes the header: the client of the service, and the
    IPv6 data service is the data service of another client.  [None]: the
    service has no client. *)
Definition wwan_header (clients : Z -> Z) (r : bytes) : option bytes :=
  t ← qmi_type r;
  if t =? QMUX_TYPE_CTL then Some r
  else if clients t =? 0 then None
  else put 4 [if t =? QMUX_TYPE_WDS_IPV6 then QMUX_TYPE_WDS else t; u8 (clients t)] r.

(** The sender up to the wait. *)
Definition send_begin (r : bytes) (s : sess) : sess := Sess (Some r) None (Some r) (ss_events s).
(** The same when [qmidev_send] fails. *)
Definition send_failed (r : bytes) (s : sess) : sess := Sess (Some r) None None (ss_events s).

(** The sender from the end of the wait on: what it returns and stores. *)
Definition send_end (ret : Z) (want : bool) (s : sess) : Z * option bytes * sess :=
  let s' := Sess (ss_req s) (ss_rsp s) None (ss_events s) in
  if ret =? 0 then
    match ss_rsp s with
    | Some m => if want then (0, Some m, s') else (0, None, Sess (ss_req s) None None (ss_events s))
    | None => (- EINVAL, None, s')
    end
  else (ret, None, s').

(** ** Steps

    Every request has the number that was current when it was composed. *)
Inductive sstep : sess -> sess -> Prop :=
  | st_begin r s : ss_wait s = None -> sstep s (send_begin r s)
  | st_failed r s : ss_wait s = None -> sstep s (send_failed r s)
  | st_recv m s s' : on_read m s = Some s' -> sstep s s'
  | st_gone s s' : QmiThreadRecvQMI None s = Some s' -> sstep s s'
  | st_end ret want s : sstep s (snd (send_end ret want s)).

(** What a waiting sender can find. *)
Definition sess_ok (s : sess) : Prop :=
  match ss_wait s with
  | None => True
  | Some r =>
      (ss_req s = Some r /\ ss_rsp s = None) \/
      (ss_req s = None /\ (ss_rsp s = None \/ exists m, ss_rsp s = Some m /\ is_response r m = Some true))
  end.

(** ** Lemmas *)

Lemma indication_keeps m s s' :
  indication m s = Some s' -> ss_req s' = ss_req s /\ ss_rsp s' = ss_rsp s /\ ss_wait s' = ss_wait s.
Proof.
  unfold indication, mbind, option_bind. intros H.
  repeat (split_match_in H; try discriminate H); injection H as <-; done.
Qed.

Lemma rdn_all m : rdn m 0 (zlen m) = Some m.
Proof.
  unfold rdn. rewrite (proj2 (Z.leb_le 0 0)), (proj2 (Z.leb_le (0 + zlen m) (zlen m))) by lia. cbn [andb]. f_equal.
  unfold ztake, zdrop. apply take_ge. cbn [Z.to_nat drop]. unfold zlen. lia.
Qed.

Lemma on_read_ok m s s' : sess_ok s -> on_read m s = Some s' -> sess_ok s'.
Proof.
  intros Hok H. unfold on_read, mbind, option_bind in H. destruct (rd16 m 1) as [len|] eqn:El; [|done].
  destruct (Z.eqb_spec (zlen m) (len + 1)) as [Hl|]; [|by injection H as <-].
  unfold QmiThreadRecvQMI, mbind, option_bind in H. rewrite El in H.
  assert (Hind : indication m s = Some s' -> sess_ok s').
  { intros (E1 & E2 & E3)%indication_keeps. unfold sess_ok. by rewrite E1, E2, E3. }
  destruct (ss_req s) as [r|] eqn:Er; [|by apply Hind].
  destruct (is_response r m) as [[]|] eqn:Ei; [|by apply Hind|done].
  rewrite <- Hl, rdn_all in H. injection H as <-. unfold sess_ok in *. cbn [ss_wait ss_req ss_rsp].
  destruct (ss_wait s) as [w|]; [|done]. right. split; [done|]. right. exists m. split; [done|].
  destruct Hok as [[E _]|[E _]]; congruence.
Qed.

Lemma sstep_ok s s' : sstep s s' -> sess_ok s -> sess_ok s'.
Proof.
  intros Hs Hok. destruct Hs as [r s Hw|r s Hw|m s s' H|s s' H|ret want s].
  - by left.
  - done.
  - by apply (on_read_ok m s).
  - cbn in H. injection H as <-. unfold sess_ok in *. destruct (ss_req s) eqn:Er; [|by rewrite Er].
    cbn [ss_wait ss_req ss_rsp]. destruct (ss_wait s); [|done]. right. split; [done|by left].
  - unfold send_end. by destruct (ret =? 0), (ss_rsp s), want.
Qed.

Lemma sess_run s s' : rtc sstep s s' -> sess_ok s -> sess_ok s'.
Proof. induction 1 as [|s s1 s2 H1 _ IH]; [done|]. intros Hok. apply IH. by apply (sstep_ok s). Qed.

(** The response [m] is of the service, the client and the transaction of [r]. *)
Definition same_transaction (r m : bytes) : Prop :=
  exists t c tid, qmi_type r = Some t /\ qmi_type m = Some t /\ client_id r = Some c /\ client_id m = Some c /\
    message_tid r t = Some tid /\ message_tid m t = Some tid.

Lemma is_response_same r m : is_response r m = Some true -> same_transaction r m.
Proof.
  unfold is_response, same_transaction, mbind, option_bind. intros H.
  destruct (qmi_type r) as [t1|]; [|done]. destruct (qmi_type m) as [t2|]; [|done].
  destruct (client_id r) as [c1|]; [|done]. destruct (client_id m) as [c2|]; [|done].
  destruct ((t1 =? t2) && (c1 =? c2)) eqn:E; [|done].
  apply andb_prop in E as [E1%Z.eqb_eq E2%Z.eqb_eq]. subst t2 c2.
  destruct (message_tid r t1) as [a|] eqn:Ea; [|done]. destruct (message_tid m t1) as [b|] eqn:Eb; [|done].
  injection H as H. apply Z.eqb_eq in H. exists t1, c1, a. rewrite Ea, Eb, H. done.
Qed.

(** The transaction counter after [n] more requests. *)
Fixpoint next_tid (n : nat) (t : Z) : Z :=
  match n with O => t | S n => next_tid n (GetQMUXTransactionId t) end.

Lemma next_tid_closed n t : 1 <= t <= 0xFFFF -> next_tid n t = (t - 1 + Z.of_nat n) mod 0xFFFF + 1.
Proof.
  revert t. induction n as [|n IH]; intros t Ht; cbn [next_tid].
  - rewrite Z.mod_small by lia. lia.
  - unfold GetQMUXTransactionId. destruct (Z.ltb_spec 0xFFFF (t + 1)).
    + rewrite IH by lia. assert (t = 0xFFFF) as -> by lia. f_equal.
      replace (0xFFFF - 1 + Z.of_nat (S n)) with (1 - 1 + Z.of_nat n + 1 * 0xFFFF) by lia. by rewrite Z_mod_plus_full.
    + rewrite IH by lia. f_equal. f_equal. lia.
Qed.

(** ** Theorems *)

(** C28. A response belongs to its request: whatever is read from the device, in
    whatever order messages, the loss of the device, timeouts and wake-ups come,
    a sender that returns 0 with a response holds a message of the service, the
    client and the transaction number of the request it sent; one that finds no
    response reports an error, never success. *)
Theorem response_matches_request s0 s r ret want ret' m s' :
  ss_wait s0 = None -> rtc sstep s0 s -> ss_wait s = Some r ->
  send_end ret want s = (ret', m, s') ->
  (forall x, m = Some x -> ret' = 0 /\ same_transaction r x) /\
  (ret' = 0 -> want = true -> is_Some m).
Proof.
  intros H0 Hr Hw. assert (Hok : sess_ok s) by (apply (sess_run s0); [done|unfold sess_ok; by rewrite H0]).
  unfold sess_ok in Hok. rewrite Hw in Hok. unfold send_end.
  destruct (Z.eqb_spec ret 0) as [->|Hne].
  - destruct (ss_rsp s) as [y|] eqn:Ey.
    + destruct want; intros [= <- <- <-]; split; intros.
      * split; [done|]. simplify_eq. destruct Hok as [[_ E]|[_ [E|(z & [= <-] & Hz)]]]; try done.
        by apply is_response_same.
      * by eexists.
      * done.
      * done.
    + intros [= <- <- <-]. split; intros; done.
  - intros [= <- <- <-]. split; intros; done.
Qed.

Definition ex_req : bytes := qmi_request QMUX_TYPE_WDS 5 7 QMIWDS_GET_PKT_SRVC_STATUS_REQ [].
Definition ex_rsp : bytes := qmi_request QMUX_TYPE_WDS 5 7 QMIWDS_GET_PKT_SRVC_STATUS_REQ [(2, [0; 0; 0; 0])].
Definition ex_stale : bytes := qmi_request QMUX_TYPE_WDS 5 6 QMIWDS_GET_PKT_SRVC_STATUS_REQ [(2, [0; 0; 0; 0])].
Definition ex_idle_sess : sess := Sess None None None [].
Definition ex_wait_sess : sess := send_begin ex_req ex_idle_sess.
Definition ex_got_sess : sess := Sess None (Some ex_rsp) (Some ex_req) [RIL_UNSOL_DATA_CALL_LIST_CHANGED].

Lemma response_matches_request_witness :
  same_transaction ex_req ex_rsp /\ is_response ex_req ex_stale = Some false.
Proof.
  split; [|reflexivity].
  refine (proj2 (proj1 (response_matches_request ex_idle_sess ex_got_sess ex_req 0 true 0 (Some ex_rsp)
    (Sess None (Some ex_rsp) None [RIL_UNSOL_DATA_CALL_LIST_CHANGED]) eq_refl _ eq_refl eq_refl) ex_rsp eq_refl)).
  apply (rtc_l _ _ ex_wait_sess); [by apply st_begin|].
  apply (rtc_l _ _ (event RIL_UNSOL_DATA_CALL_LIST_CHANGED ex_wait_sess)); [by apply (st_recv ex_stale)|].
  apply rtc_once. by apply (st_recv ex_rsp).
Defined.

(** Transaction numbers are nonzero 16-bit numbers and come back only after
    65535 requests: no two requests fewer than that apart have the same. *)
Theorem transaction_ids_fresh t n k :
  0 <= t <= 0xFFFF -> (0 < n < k)%nat -> Z.of_nat (k - n) < 0xFFFF ->
  1 <= next_tid n t <= 0xFFFF /\ next_tid n t <> next_tid k t.
Proof.
  intros Ht Hn Hk. destruct n as [|n]; [lia|]. destruct k as [|k]; [lia|]. cbn [next_tid].
  assert (Hg : 1 <= GetQMUXTransactionId t <= 0xFFFF).
  { unfold GetQMUXTransactionId. destruct (Z.ltb_spec 0xFFFF (t + 1)); lia. }
  rewrite !next_tid_closed by done. set (a := GetQMUXTransactionId t - 1) in *. split.
  - pose proof (Z.mod_pos_bound (a + Z.of_nat n) 0xFFFF). lia.
  - intros E. assert (E2 : (a + Z.of_nat k) mod 0xFFFF = (a + Z.of_nat n) mod 0xFFFF) by lia.
    replace (a + Z.of_nat k) with (a + Z.of_nat n + Z.of_nat (k - n)) in E2 by lia.
    pose proof (Z.div_mod (a + Z.of_nat n + Z.of_nat (k - n)) 0xFFFF) as H1.
    pose proof (Z.div_mod (a + Z.of_nat n) 0xFFFF) as H2. rewrite E2 in H1.
    assert (Z.of_nat (k - n) = 0xFFFF * ((a + Z.of_nat n + Z.of_nat (k - n)) / 0xFFFF - (a + Z.of_nat n) / 0xFFFF)) by lia.
    assert (Hq : 0 < (a + Z.of_nat n + Z.of_nat (k - n)) / 0xFFFF - (a + Z.of_nat n) / 0xFFFF) by lia. lia.
Qed.

Lemma transaction_ids_fresh_witness : next_tid 1 0xFFFE = 0xFFFF /\ next_tid 1 0xFFFE <> next_tid 2 0xFFFE.
Proof. split; [reflexivity|]. apply (transaction_ids_fresh 0xFFFE 1 2); lia. Defined.
