(* ===== verification/QmiProxy.v ===== *)
(** * The QMI proxy: [quectel-qmi-proxy.c]

    One thread multiplexes the control port of the modem between local clients.
    The handlers of its poll loop are functions on the state; their effects and
    the changes of its lists are logged in order.  Allocation succeeds; a
    message handed to [send_qmi_to_cdc_wdm] or [send_qmi_to_client] is logged
    whether or not the descriptor takes it within five seconds.  Device and
    clients share the read buffer [qmi_buf], so a field past the end of a short
    message is what an earlier message left there; a queued request is a heap
    copy of its own size, and a load past its end is [None]. *)

From S2P Require Import Prelude CLib QmiMsg QmiReq QmiCard QmiSession.

(** ** State *)

Definition USB_CTL_MSG_TYPE_QMI : Z := 0x01.
Definition QMICTL_FLAG_REQUEST : Z := 0x00.
Definition QMICTL_CTL_FLAG_RSP : Z := 0x01.
Definition QMICTL_CTL_FLAG_IND : Z := 0x02.
Definition QMICTL_GET_CLIENT_ID_RESP : Z := 0x0022.
Definition QMICTL_RELEASE_CLIENT_ID_REQ : Z := 0x0023.
Definition QMICTL_RELEASE_CLIENT_ID_RESP : Z := 0x0023.
Definition QMICTL_SYNC_REQ : Z := 0x0027.
Definition QCTLV_TYPE_REQUIRED_PARAMETER : Z := 0x01.

Record client := Client { cl_type : Z; cl_id : Z }.
Record conn := Conn { cn_fd : Z; cn_clients : list client }.
Record pmsg := PMsg { pm_fd : Z; pm_qmi : bytes }.

#[global] Instance client_eq_dec : EqDecision client.
Proof. solve_decision. Defined.

Inductive effect :=
  | Opened (fd : Z)
  | Closed (fd : Z)
  | Assigned (fd : Z) (c : client)
  | Freed (fd : Z) (c : client)
  | Dropped (fd : Z) (c : client)
  | Queued (q : pmsg)
  | Sent (q : pmsg)
  | Done (q : pmsg)
  | Abandoned (q : pmsg)
  | Reply (fd : Z) (q : pmsg) (m : bytes)
  | Data (m : bytes)
  | Deliver (fd : Z) (m : bytes).

Record proxy := Proxy {
  p_server : Z; p_conns : list conn; p_ctl : list pmsg; p_reset : bool; p_sync : bool;
  p_buf : bytes; p_log : list effect }.

Definition set_conns (l : list conn) (s : proxy) : proxy :=
  Proxy (p_server s) l (p_ctl s) (p_reset s) (p_sync s) (p_buf s) (p_log s).
Definition set_ctl (l : list pmsg) (s : proxy) : proxy :=
  Proxy (p_server s) (p_conns s) l (p_reset s) (p_sync s) (p_buf s) (p_log s).
Definition set_reset (s : proxy) : proxy :=
  Proxy (p_server s) (p_conns s) (p_ctl s) true (p_sync s) (p_buf s) (p_log s).
Definition set_sync (s : proxy) : proxy :=
  Proxy (p_server s) (p_conns s) (p_ctl s) (p_reset s) true (p_buf s) (p_log s).
Definition set_buf (b : bytes) (s : proxy) : proxy :=
  Proxy (p_server s) (p_conns s) (p_ctl s) (p_reset s) (p_sync s) b (p_log s).
Definition emit (l : list effect) (s : proxy) : proxy :=
  Proxy (p_server s) (p_conns s) (p_ctl s) (p_reset s) (p_sync s) (p_buf s) (p_log s ++ l).

(** ** Operations *)

Definition accept_qmi_connection (clientfd : Z) (s : proxy) : proxy :=
  emit [Opened clientfd] (set_conns (p_conns s ++ [Conn clientfd []]) s).

(** The release request of a client whose connection has gone. *)
Definition release_req (c : client) : bytes :=
  [USB_CTL_MSG_TYPE_QMI] ++ w16 16 ++ [0x00; QMUX_TYPE_CTL; 0x00] ++
  [QMICTL_FLAG_REQUEST; 255] ++ w16 QMICTL_RELEASE_CLIENT_ID_REQ ++ w16 5 ++
  [QCTLV_TYPE_REQUIRED_PARAMETER] ++ w16 2 ++ [cl_type c; cl_id c].

(** [if (qlist_empty(...)) send_qmi_to_cdc_wdm(...); qlist_add_tail(...)] *)
Definition queue_ctl (q : pmsg) (s : proxy) : proxy :=
  emit ((if p_ctl s then [Sent q] else []) ++ [Queued q]) (set_ctl (p_ctl s ++ [q]) s).

Fixpoint drop_clients (fd : Z) (l : list client) (s : proxy) : proxy :=
  match l with
  | [] => s
  | c :: l => drop_clients fd l (queue_ctl (PMsg (p_server s) (release_req c)) (emit [Dropped fd c] s))
  end.

(** The first element a loop with [break] finds, and the list without it. *)
Fixpoint pick {A} (f : A -> bool) (l : list A) : option (A * list A) :=
  match l with
  | [] => None
  | x :: l => if f x then Some (x, l) else '(y, k) ← pick f l; Some (y, x :: k)
  end.

Definition remove_request (fd : Z) (s : proxy) : proxy :=
  match pick (fun q => pm_fd q =? fd) (p_ctl s) with
  | Some (q, l) => emit [Abandoned q] (set_ctl l s)
  | None => s
  end.

Definition cleanup_qmi_connection (clientfd : Z) (clientDisconnect : bool) (s : proxy) : proxy :=
  match pick (fun c => cn_fd c =? clientfd) (p_conns s) with
  | None => s
  | Some (c, rest) =>
      let s1 := if clientDisconnect then drop_clients (cn_fd c) (cn_clients c) s else s in
      emit [Closed (cn_fd c)] (set_conns rest (remove_request (cn_fd c) s1))
  end.

(** Fields of the message in the read buffer. *)
Definition b8 (s : proxy) (i : Z) : Z := default 0 (zget (p_buf s) i).
Definition b16 (s : proxy) (i : Z) : Z := b8 s i + 2 ^ 8 * b8 s (i + 1).
Definition off_CtlFlags : Z := 6.
Definition off_TransactionId : Z := 7.
Definition off_QMICTLType : Z := 8.
Definition off_QMIResult : Z := 15.
Definition off_QMIError : Z := 17.
Definition off_rsp_QMIType : Z := 22.
Definition off_rsp_ClientId : Z := 23.

Definition rsp_success (s : proxy) : bool := (b16 s off_QMIResult =? 0) && (b16 s off_QMIError =? 0).
Definition rsp_client (s : proxy) : client := Client (b8 s off_rsp_QMIType) (b8 s off_rsp_ClientId).

Definition get_client_id (s : proxy) (c : conn) : conn * list effect :=
  if rsp_success s then (Conn (cn_fd c) (cn_clients c ++ [rsp_client s]), [Assigned (cn_fd c) (rsp_client s)])
  else (c, []).

Definition release_client_id (s : proxy) (c : conn) : conn * list effect :=
  if rsp_success s then
    match pick (fun k => (b8 s off_rsp_QMIType =? cl_type k) && (b8 s off_rsp_ClientId =? cl_id k)) (cn_clients c) with
    | Some (k, l) => (Conn (cn_fd c) l, [Freed (cn_fd c) k])
    | None => (c, [])
    end
  else (c, []).

(** The loop over the connections that hands a control response over. *)
Fixpoint reply (s : proxy) (q : pmsg) (m : bytes) (l : list conn) : list conn * list effect :=
  match l with
  | [] => ([], [])
  | c :: l =>
      let '(c1, e1) :=
        if cn_fd c =? pm_fd q then
          let '(c1, e) :=
            if b16 s off_QMICTLType =? QMICTL_GET_CLIENT_ID_RESP then get_client_id s c
            else if b16 s off_QMICTLType =? QMICTL_RELEASE_CLIENT_ID_RESP then release_client_id s c
            else (c, []) in
          (c1, Reply (pm_fd q) q m :: e)
        else (c, []) in
      let '(k, e2) := reply s q m l in (c1 :: k, e1 ++ e2)
  end.

(** Does the response in the buffer answer the request?  The second comparison
    is made when the first succeeds. *)
Definition answers (s : proxy) (q : pmsg) : option bool :=
  t ← zget (pm_qmi q) off_TransactionId;
  if t =? b8 s off_TransactionId then
    ty ← rd16 (pm_qmi q) off_QMICTLType; Some (ty =? b16 s off_QMICTLType)
  else Some false.

(** [qlist_remove], and [send_qmi_to_cdc_wdm] of the next request, whose length
    is loaded from its copy. *)
Definition next_request (q : pmsg) (rest : list pmsg) (s : proxy) : option proxy :=
  match rest with
  | [] => Some (emit [Done q] (set_ctl [] s))
  | q1 :: _ =>
      len ← rd16 (pm_qmi q1) 1;
      x ← rdn (pm_qmi q1) 0 (len + 1);
      Some (emit [Done q; Sent (PMsg (pm_fd q1) x)] (set_ctl rest s))
  end.

(** The copies a data message or indication is sent to. *)
Definition holders (s : proxy) (t i : Z) : list Z :=
  concat (map (fun c => map (fun _ => cn_fd c)
    (filter (fun k => t = cl_type k /\ (i = 0 \/ i = cl_id k)) (cn_clients c))) (p_conns s)).

Definition recv_qmi_from_dev (m : bytes) (s : proxy) : option proxy :=
  if p_server s =? -1 then Some (set_sync s)
  else if b8 s 4 =? QMUX_TYPE_CTL then
    if b8 s off_CtlFlags =? QMICTL_CTL_FLAG_RSP then
      match p_ctl s with
      | [] => Some s
      | q :: rest =>
          ok ← answers s q;
          let s1 :=
            if negb ok || (pm_fd q =? p_server s) then s
            else let '(l, e) := reply s q m (p_conns s) in emit e (set_conns l s) in
          next_request q rest s1
      end
    else if b8 s 4 =? QMICTL_CTL_FLAG_IND then
      Some (if b16 s off_QMICTLType =? QMICTL_REVOKE_CLIENT_ID_IND then set_reset s else s)
    else Some s
  else Some (emit (map (fun fd => Deliver fd m) (holders s (b8 s 4) (b8 s 5))) s).

Definition recv_qmi_from_client (m : bytes) (clientfd : Z) (s : proxy) : Z * proxy :=
  if p_server s =? -1 then (-1, s)
  else if b8 s 4 =? QMUX_TYPE_CTL then
    if b16 s off_QMICTLType =? QMICTL_SYNC_REQ then (0, s)
    else (0, queue_ctl (PMsg clientfd m) s)
  else (0, emit [Data m] s).

(** ** The poll loop *)

(** [read] into [qmi_buf] and the check of the length. *)
Definition read_buf (m : bytes) (s : proxy) : proxy := set_buf (m ++ zdrop (zlen m) (p_buf s)) s.
Definition length_ok (m : bytes) (s : proxy) : bool := zlen m =? b16 s 1 + 1.

Definition on_dev (m : bytes) (s : proxy) : option proxy :=
  let s1 := read_buf m s in if length_ok m s1 then recv_qmi_from_dev m s1 else Some s1.
Definition on_client (fd : Z) (m : bytes) (s : proxy) : proxy :=
  let s1 := read_buf m s in if length_ok m s1 then snd (recv_qmi_from_client m fd s1) else s1.

(** [qmi_proxy_loop_exit]: one turn per connection. *)
Fixpoint loop_exit (fuel : nat) (s : proxy) : proxy :=
  match fuel, p_conns s with
  | S fuel, c :: _ => loop_exit fuel (cleanup_qmi_connection (cn_fd c) false s)
  | _, _ => s
  end.

(** Empty and error reads of the device leave the loop, of a client close it. *)
Inductive pstep : proxy -> proxy -> Prop :=
  | p_accept fd s : pstep s (accept_qmi_connection fd s)
  | p_dev m s s' : 0 < zlen m -> on_dev m s = Some s' -> pstep s s'
  | p_client fd m s : 0 < zlen m -> pstep s (on_client fd m s)
  | p_close fd s : pstep s (cleanup_qmi_connection fd true s).

(** The loop starts with empty lists. *)
Definition loop_start (s : proxy) : Prop := p_conns s = [] /\ p_ctl s = [] /\ p_log s = [].

(** ** What the log says *)

Definition assigned (l : list effect) : list client := omap (fun e => if e is Assigned _ c then Some c else None) l.
Definition freed (l : list effect) : list client := omap (fun e => if e is Freed _ c then Some c else None) l.
Definition dropped (l : list effect) : list client := omap (fun e => if e is Dropped _ c then Some c else None) l.
Definition queued (l : list effect) : list pmsg := omap (fun e => if e is Queued q then Some q else None) l.
Definition sent (l : list effect) : list pmsg := omap (fun e => if e is Sent q then Some q else None) l.
Definition done_ (l : list effect) : list pmsg := omap (fun e => if e is Done q then Some q else None) l.
Definition abandoned (l : list effect) : list pmsg := omap (fun e => if e is Abandoned q then Some q else None) l.
Definition replies (l : list effect) : list (Z * pmsg * bytes) :=
  omap (fun e => if e is Reply fd q m then Some (fd, q, m) else None) l.

Definition held (s : proxy) : list client := concat (map cn_clients (p_conns s)).

(** ** Lemmas *)

Ltac log_app := unfold assigned, freed, dropped, queued, sent, done_, abandoned, replies in *;
  cbn [p_log emit set_conns set_ctl set_reset set_sync set_buf]; rewrite ?omap_app; cbn [omap list_omap].

Lemma pick_split {A} (f : A -> bool) l x k :
  pick f l = Some (x, k) -> f x = true /\ exists a b, l = a ++ x :: b /\ k = a ++ b.
Proof.
  revert k. induction l as [|y l IH]; intros k; cbn; [done|].
  destruct (f y) eqn:E.
  - intros [= <- <-]. split; [done|]. by exists [], l.
  - destruct (pick f l) as [[z r]|]; [|done]. cbn. intros [= <- <-].
    destruct (IH r eq_refl) as (Hf & a & b & -> & ->). split; [done|]. by exists (y :: a), b.
Qed.

Lemma pick_perm {A} (f : A -> bool) l x k : pick f l = Some (x, k) -> l ≡ₚ x :: k.
Proof. intros (_ & a & b & -> & ->)%pick_split. by rewrite Permutation_middle. Qed.

Lemma concat_perm {A} (a b : list (list A)) : a ≡ₚ b -> concat a ≡ₚ concat b.
Proof.
  induction 1 as [|x a b _ IH|x y a|a b c _ IH1 _ IH2]; cbn; [done|by rewrite IH| |by rewrite IH1].
  rewrite !app_assoc. by rewrite (Permutation_app_comm x y).
Qed.

(** What a response does to the lists of one connection and of all. *)
Lemma get_client_id_ids s c c1 e :
  get_client_id s c = (c1, e) -> cn_fd c1 = cn_fd c /\
  cn_clients c1 ≡ₚ cn_clients c ++ assigned e /\ freed e = [] /\ dropped e = [].
Proof.
  unfold get_client_id. destruct (rsp_success s); intros [= <- <-]; cbn; [done|].
  by rewrite app_nil_r.
Qed.

Lemma release_client_id_ids s c c1 e :
  release_client_id s c = (c1, e) -> cn_fd c1 = cn_fd c /\
  cn_clients c ≡ₚ cn_clients c1 ++ freed e /\ assigned e = [] /\ dropped e = [].
Proof.
  unfold release_client_id. destruct (rsp_success s); [|intros [= <- <-]; cbn; by rewrite app_nil_r].
  destruct (pick _ _) as [[k l]|] eqn:E; intros [= <- <-]; cbn; [|by rewrite app_nil_r].
  split; [done|]. split; [|done]. rewrite (pick_perm _ _ _ _ E). by rewrite Permutation_app_comm.
Qed.

Lemma reply_ids s q m l k e :
  reply s q m l = (k, e) ->
  concat (map cn_clients l) ++ assigned e ≡ₚ concat (map cn_clients k) ++ freed e /\ dropped e = [].
Proof.
  revert k e. induction l as [|c l IH]; intros k e; cbn; [by intros [= <- <-]|].
  destruct (if cn_fd c =? pm_fd q then _ else _) as [c1 e1] eqn:E1.
  destruct (reply s q m l) as [k2 e2] eqn:E2. intros [= <- <-].
  destruct (IH _ _ eq_refl) as [H2 D2].
  assert (H1 : cn_clients c ++ assigned e1 ≡ₚ cn_clients c1 ++ freed e1 /\ dropped e1 = []).
  { destruct (cn_fd c =? pm_fd q); [|injection E1 as <- <-; done].
    destruct (if b16 s off_QMICTLType =? QMICTL_GET_CLIENT_ID_RESP then _ else _) as [c2 e3] eqn:E3.
    injection E1 as <- <-.
    change (cn_clients c ++ assigned e3 ≡ₚ cn_clients c2 ++ freed e3 /\ dropped e3 = []).
    destruct (b16 s off_QMICTLType =? QMICTL_GET_CLIENT_ID_RESP);
      [|destruct (b16 s off_QMICTLType =? QMICTL_RELEASE_CLIENT_ID_RESP)].
    - apply get_client_id_ids in E3 as (_ & H & F & D). rewrite F, app_nil_r. by rewrite H.
    - apply release_client_id_ids in E3 as (_ & H & F & D). rewrite F, app_nil_r. done.
    - by injection E3 as <- <-. }
  destruct H1 as [H1 D1]. cbn [map concat].
  unfold assigned, freed, dropped in *. rewrite !omap_app, D1, D2. split; [|done].
  transitivity ((cn_clients c ++ omap (fun e => if e is Assigned _ c then Some c else None) e1) ++
    (concat (map cn_clients l) ++ omap (fun e => if e is Assigned _ c then Some c else None) e2)).
  { rewrite <- !app_assoc. f_equiv. rewrite !app_assoc. f_equiv. apply Permutation_app_comm. }
  rewrite H1, H2. rewrite <- !app_assoc. f_equiv. rewrite !app_assoc. f_equiv. apply Permutation_app_comm.
Qed.

(** [reply] touches nothing of the queue and is what the log calls replies. *)
Lemma reply_log s q m l k e :
  reply s q m l = (k, e) -> queued e = [] /\ sent e = [] /\ done_ e = [] /\ abandoned e = [] /\
  Forall (fun r => r = (pm_fd q, q, m)) (replies e).
Proof.
  revert k e. induction l as [|c l IH]; intros k e; cbn; [intros [= <- <-]; cbn; by rewrite Forall_nil|].
  destruct (if cn_fd c =? pm_fd q then _ else _) as [c1 e1] eqn:E1.
  destruct (reply s q m l) as [k2 e2] eqn:E2. intros [= <- <-].
  destruct (IH _ _ eq_refl) as (Q2 & S2 & D2 & A2 & R2).
  assert (H1 : queued e1 = [] /\ sent e1 = [] /\ done_ e1 = [] /\ abandoned e1 = [] /\
    Forall (fun r => r = (pm_fd q, q, m)) (replies e1)).
  { destruct (cn_fd c =? pm_fd q); [|injection E1 as <- <-; cbn; by rewrite Forall_nil].
    unfold get_client_id, release_client_id in E1.
    repeat (case_match; simplify_eq); cbn; repeat constructor. }
  destruct H1 as (Q1 & S1 & D1 & A1 & R1).
  unfold queued, sent, done_, abandoned, replies in *. rewrite !omap_app, Q1, S1, D1, A1, Q2, S2, D2, A2.
  repeat (split; [done|]). by apply Forall_app_2.
Qed.

(** ** Client identifiers are accounted for *)

Definition accounted (s : proxy) : Prop :=
  assigned (p_log s) ≡ₚ freed (p_log s) ++ dropped (p_log s) ++ held s.

Lemma queue_ctl_ids q s :
  p_conns (queue_ctl q s) = p_conns s /\ assigned (p_log (queue_ctl q s)) = assigned (p_log s) /\
  freed (p_log (queue_ctl q s)) = freed (p_log s) /\ dropped (p_log (queue_ctl q s)) = dropped (p_log s).
Proof.
  unfold queue_ctl. log_app. destruct (p_ctl s); cbn; by rewrite !app_nil_r.
Qed.

Lemma drop_clients_ids fd l s :
  p_conns (drop_clients fd l s) = p_conns s /\ assigned (p_log (drop_clients fd l s)) = assigned (p_log s) /\
  freed (p_log (drop_clients fd l s)) = freed (p_log s) /\
  dropped (p_log (drop_clients fd l s)) = dropped (p_log s) ++ l.
Proof.
  revert s. induction l as [|c l IH]; intros s; cbn [drop_clients]; [by rewrite app_nil_r|].
  set (s1 := queue_ctl _ _). destruct (IH s1) as (-> & -> & -> & ->).
  destruct (queue_ctl_ids (PMsg (p_server s) (release_req c)) (emit [Dropped fd c] s)) as (E1 & E2 & E3 & E4).
  fold s1 in E1, E2, E3, E4. rewrite E1, E2, E3, E4. log_app. by rewrite !app_nil_r, <- app_assoc.
Qed.

Lemma remove_request_ids fd s :
  p_conns (remove_request fd s) = p_conns s /\ assigned (p_log (remove_request fd s)) = assigned (p_log s) /\
  freed (p_log (remove_request fd s)) = freed (p_log s) /\ dropped (p_log (remove_request fd s)) = dropped (p_log s).
Proof.
  unfold remove_request. destruct (pick _ _) as [[q l]|]; [|done]. log_app. by rewrite !app_nil_r.
Qed.

Lemma next_request_inv q rest s s' :
  next_request q rest s = Some s' ->
  exists e, s' = emit (Done q :: e) (set_ctl rest s) /\ (e = [] \/ exists q1, e = [Sent q1]).
Proof.
  unfold next_request. destruct rest as [|q1 r]; [intros [= <-]; exists []; auto|].
  destruct (rd16 (pm_qmi q1) 1); [|done]. cbn [mbind option_bind]. destruct (rdn _ _ _) as [x|]; [|done].
  cbn [mbind option_bind]. intros [= <-]. exists [Sent (PMsg (pm_fd q1) x)]. eauto.
Qed.

Lemma next_request_ids q rest s s' :
  next_request q rest s = Some s' ->
  p_conns s' = p_conns s /\ assigned (p_log s') = assigned (p_log s) /\
  freed (p_log s') = freed (p_log s) /\ dropped (p_log s') = dropped (p_log s).
Proof.
  intros (e & -> & [->|(q1 & ->)])%next_request_inv; log_app; by rewrite !app_nil_r.
Qed.

Lemma accounted_same s s' :
  p_conns s' = p_conns s -> assigned (p_log s') = assigned (p_log s) ->
  freed (p_log s') = freed (p_log s) -> dropped (p_log s') = dropped (p_log s) -> accounted s -> accounted s'.
Proof. unfold accounted, held. by intros -> -> -> ->. Qed.

Lemma cleanup_accounted fd s : accounted s -> accounted (cleanup_qmi_connection fd true s).
Proof.
  intros H. unfold cleanup_qmi_connection. destruct (pick _ _) as [[c rest]|] eqn:E; [|done].
  destruct (drop_clients_ids (cn_fd c) (cn_clients c) s) as (E1 & E2 & E3 & E4).
  set (s1 := drop_clients _ _ s) in *.
  destruct (remove_request_ids (cn_fd c) s1) as (F1 & F2 & F3 & F4).
  set (s2 := remove_request _ s1) in *. unfold accounted, held in *. log_app. rewrite !app_nil_r.
  cbn [p_conns emit set_conns]. rewrite F2, F3, F4, E2, E3, E4, H.
  apply pick_perm, (Permutation_map cn_clients), concat_perm in E. rewrite E. cbn [map concat].
  by rewrite <- !app_assoc.
Qed.

Lemma reply_accounted s q m l e :
  reply s q m (p_conns s) = (l, e) -> accounted s -> accounted (emit e (set_conns l s)).
Proof.
  intros (Hp & Hd)%reply_ids H. unfold accounted, held in *. log_app.
  cbn [p_conns emit set_conns]. rewrite Hd, app_nil_r, H.
  rewrite <- !app_assoc. f_equiv. rewrite (Permutation_app_comm (omap _ e)), <- app_assoc. f_equiv.
  rewrite Hp. done.
Qed.

Lemma on_dev_cases m s s' (P : proxy -> Prop) :
  on_dev m s = Some s' ->
  let s1 := read_buf m s in
  P s1 -> P (set_sync s1) -> P (set_reset s1) ->
  (p_server s <> -1 -> P (emit (map (fun fd => Deliver fd m) (holders s1 (b8 s1 4) (b8 s1 5))) s1)) ->
  (forall q rest ok s2, length_ok m s1 = true -> p_ctl s = q :: rest -> answers s1 q = Some ok ->
    s2 = (if negb ok || (pm_fd q =? p_server s) then s1
          else let '(l, e) := reply s1 q m (p_conns s) in emit e (set_conns l s1)) ->
    next_request q rest s2 = Some s' -> P s') ->
  P s'.
Proof.
  intros H s1 H1 Hs Hr Hd Hq. unfold on_dev in H. fold s1 in H.
  destruct (length_ok m s1) eqn:El; [|by injection H as <-]. unfold recv_qmi_from_dev in H.
  change (p_server s1) with (p_server s) in H. change (p_ctl s1) with (p_ctl s) in H.
  change (p_conns s1) with (p_conns s) in H.
  destruct (Z.eqb_spec (p_server s) (-1)); [by injection H as <-|].
  destruct (b8 s1 4 =? QMUX_TYPE_CTL); [|injection H as <-; by apply Hd].
  destruct (b8 s1 off_CtlFlags =? QMICTL_CTL_FLAG_RSP).
  - destruct (p_ctl s) as [|q rest] eqn:Eq; [by injection H as <-|].
    destruct (answers s1 q) as [ok|] eqn:Ea; [|done]. cbn [mbind option_bind] in H. eauto.
  - destruct (b8 s1 4 =? QMICTL_CTL_FLAG_IND); [|by injection H as <-].
    injection H as <-. by destruct (b16 s1 off_QMICTLType =? QMICTL_REVOKE_CLIENT_ID_IND).
Qed.

Lemma on_client_cases fd m s (P : proxy -> Prop) :
  let s1 := read_buf m s in
  P s1 -> P (emit [Data m] s1) ->
  (length_ok m s1 = true -> P (queue_ctl (PMsg fd m) s1)) -> P (on_client fd m s).
Proof.
  intros s1 H1 Hd Hq. unfold on_client. fold s1. destruct (length_ok m s1); [|done].
  unfold recv_qmi_from_client. repeat case_match; auto.
Qed.

Lemma deliver_log m l :
  let e := map (fun fd => Deliver fd m) l in
  assigned e = [] /\ freed e = [] /\ dropped e = [] /\ queued e = [] /\ sent e = [] /\ done_ e = [] /\ replies e = [].
Proof. cbn zeta. by induction l as [|x l (? & ? & ? & ? & ? & ? & ?)]; [|repeat split]. Qed.

Lemma accounted_step s s' : pstep s s' -> accounted s -> accounted s'.
Proof.
  intros [fd s0|m s0 s1 _ H|fd m s0 _|fd s0] Ha.
  - unfold accounted, held in *. unfold accept_qmi_connection. log_app. cbn [p_conns emit set_conns].
    rewrite map_app, concat_app. cbn. by rewrite !app_nil_r.
  - apply (on_dev_cases m s0 s1); try done.
    + intros _. set (e := map _ _). destruct (deliver_log m (holders (read_buf m s0) (b8 (read_buf m s0) 4)
        (b8 (read_buf m s0) 5))) as (E1 & E2 & E3 & _). fold e in E1, E2, E3.
      apply (accounted_same s0); try done; log_app; by rewrite ?E1, ?E2, ?E3, app_nil_r.
    + intros q rest ok s2 _ _ _ E (E1 & E2 & E3 & E4)%next_request_ids.
      apply (accounted_same s2); try done. subst s2. destruct (negb ok || _); [done|].
      destruct (reply _ _ _ _) as [l e] eqn:Er. by apply (reply_accounted (read_buf m s0) q m l e).
  - apply on_client_cases; [done| |].
    + apply (accounted_same s0); try done; log_app; by rewrite app_nil_r.
    + intros _. destruct (queue_ctl_ids (PMsg fd m) (read_buf m s0)) as (E1 & E2 & E3 & E4).
      by apply (accounted_same s0).
  - by apply cleanup_accounted.
Qed.

(** ** The control queue is served one request at a time *)

Definition sized (q : pmsg) : Prop := forall len, rd16 (pm_qmi q) 1 = Some len -> zlen (pm_qmi q) = len + 1.
Definition same_request (q : pmsg) (m : bytes) : Prop :=
  zget m off_TransactionId = zget (pm_qmi q) off_TransactionId /\
  rd16 m off_QMICTLType = rd16 (pm_qmi q) off_QMICTLType.

Record serial (s : proxy) : Prop := Serial {
  sr_sized : Forall sized (p_ctl s);
  sr_queued : queued (p_log s) = done_ (p_log s) ++ p_ctl s;
  sr_sent : sent (p_log s) = done_ (p_log s) ++ take 1 (p_ctl s);
  sr_reply : Forall (fun '(fd, q, m) =>
    pm_fd q = fd /\ q ∈ done_ (p_log s) /\ (10 <= zlen m -> same_request q m)) (replies (p_log s)) }.

(** Adding to the log nothing about the queue. *)
Lemma serial_emit s s' e :
  p_log s' = p_log s ++ e -> p_ctl s' = p_ctl s -> queued e = [] -> sent e = [] -> done_ e = [] -> replies e = [] ->
  serial s -> serial s'.
Proof.
  intros El Ec Hq Hs Hd Hr [H1 H2 H3 H4]. split; rewrite ?El, ?Ec; [done| | |];
    unfold queued, sent, done_, replies in *; rewrite !omap_app, ?Hq, ?Hs, ?Hd, ?Hr, ?app_nil_r; done.
Qed.

Lemma queue_ctl_serial q s : sized q -> serial s -> serial (queue_ctl q s).
Proof.
  intros Hq [H1 H2 H3 H4]. unfold queue_ctl.
  assert (Hd : done_ (p_log s ++ (if p_ctl s then [Sent q] else []) ++ [Queued q]) = done_ (p_log s)).
  { unfold done_. rewrite !omap_app. by destruct (p_ctl s); cbn; rewrite app_nil_r. }
  split; cbn [p_ctl p_log emit set_ctl]; rewrite ?Hd.
  - apply Forall_app_2; [done|by constructor].
  - unfold queued in *. rewrite !omap_app, H2. by destruct (p_ctl s); cbn; rewrite <- ?app_assoc.
  - unfold sent in *. rewrite !omap_app, H3. destruct (p_ctl s); cbn; rewrite ?app_nil_r; done.
  - unfold replies in *. rewrite !omap_app. destruct (p_ctl s); cbn; by rewrite app_nil_r.
Qed.

Lemma buf_b8 m s i x : zget m i = Some x -> b8 (read_buf m s) i = x.
Proof.
  intros H. unfold b8, read_buf. cbn [p_buf set_buf]. rewrite zget_app_l, H; [done|].
  assert (is_Some (zget m i)) by by eexists. by apply zget_is_Some in H0 as [].
Qed.

Lemma buf_b16 m s i x : rd16 m i = Some x -> b16 (read_buf m s) i = x.
Proof.
  unfold rd16. destruct (zget m i) eqn:E1; [|done]. destruct (zget m (i + 1)) eqn:E2; [|done]. intros [= <-].
  unfold b16. by rewrite (buf_b8 _ _ _ _ E1), (buf_b8 _ _ _ _ E2).
Qed.

Lemma read_sized fd m s : length_ok m (read_buf m s) = true -> sized (PMsg fd m).
Proof. unfold length_ok. intros H%Z.eqb_eq len Hl. cbn in *. by rewrite H, (buf_b16 _ _ _ _ Hl). Qed.

Lemma release_sized fd c : sized (PMsg fd (release_req c)).
Proof. intros len [= <-]. reflexivity. Qed.

Lemma answers_same m s q : answers (read_buf m s) q = Some true -> 10 <= zlen m -> same_request q m.
Proof.
  unfold answers, same_request. intros H Hm.
  destruct (proj2 (zget_is_Some m off_TransactionId)) as [t Et]; [unfold off_TransactionId; lia|].
  destruct (proj2 (zget_is_Some m off_QMICTLType)) as [a Ea]; [unfold off_QMICTLType; lia|].
  destruct (proj2 (zget_is_Some m (off_QMICTLType + 1))) as [b Eb]; [unfold off_QMICTLType; lia|].
  assert (Er : rd16 m off_QMICTLType = Some (a + 2 ^ 8 * b)) by (unfold rd16; by rewrite Ea, Eb).
  rewrite (buf_b8 _ _ _ _ Et), (buf_b16 _ _ _ _ Er) in H. rewrite Et, Er.
  destruct (zget (pm_qmi q) off_TransactionId) as [t'|]; [|done]. cbn [mbind option_bind] in H.
  destruct (Z.eqb_spec t' t) as [E|]; [|done]. destruct (rd16 (pm_qmi q) _) as [y|]; [|done].
  cbn [mbind option_bind] in H. injection H as H. apply Z.eqb_eq in H. by rewrite E, H.
Qed.

(** The head of the queue is answered and the next request goes out. *)
Lemma next_request_serial q rest s s' r :
  serial s -> p_ctl s = q :: rest -> queued r = [] -> sent r = [] -> done_ r = [] ->
  Forall (fun '(fd, q', m) => pm_fd q' = fd /\ q' = q /\ (10 <= zlen m -> same_request q m)) (replies r) ->
  forall s2, p_log s2 = p_log s ++ r -> next_request q rest s2 = Some s' -> serial s'.
Proof.
  intros [H1 H2 H3 H4] Eq Qr Sr Dr Rr s2 El Hn. rewrite Eq in H1, H2, H3. apply Forall_cons_1 in H1 as [_ H1].
  set (e := Done q :: match rest with [] => [] | q1 :: _ => [Sent q1] end).
  assert (E : p_log s' = p_log s ++ r ++ e /\ p_ctl s' = rest).
  { unfold next_request in Hn. destruct rest as [|q1 rest]; [injection Hn as <-; cbn; by rewrite El, <- app_assoc|].
    apply Forall_cons_1 in H1 as [Hz _]. destruct (rd16 (pm_qmi q1) 1) as [len|] eqn:Er; [|done].
    cbn [mbind option_bind] in Hn. rewrite <- (Hz _ Er), rdn_all in Hn. cbn [mbind option_bind] in Hn.
    injection Hn as <-. cbn. rewrite El, <- app_assoc. by destruct q1. }
  destruct E as [E Ec].
  assert (Qe : queued e = []) by by destruct rest. assert (De : done_ e = [q]) by by destruct rest.
  assert (Se : sent e = take 1 rest) by by destruct rest. assert (Re : replies e = []) by by destruct rest.
  split; rewrite ?E, ?Ec; [done| | |]; unfold queued, sent, done_, replies in *;
    rewrite !omap_app, ?Qr, ?Sr, ?Dr, ?Qe, ?De, ?Se, ?Re.
  - rewrite H2. cbn. by rewrite app_nil_r, <- app_assoc.
  - by rewrite H3.
  - rewrite app_nil_r. apply Forall_app_2.
    + eapply Forall_impl; [exact H4|]. intros [[fd q'] m] (A & B & C). split; [done|]. split; [set_solver|done].
    + eapply Forall_impl; [exact Rr|]. intros [[fd q'] m] (A & -> & C). split; [done|]. split; [set_solver|done].
Qed.

Lemma drop_clients_serial fd l s : serial s -> serial (drop_clients fd l s).
Proof.
  revert s. induction l as [|c l IH]; intros s H; [done|]. apply IH, queue_ctl_serial; [apply release_sized|].
  by apply (serial_emit s _ [Dropped fd c]).
Qed.

Lemma serial_step s s' : pstep s s' -> abandoned (p_log s') = [] -> serial s -> serial s'.
Proof.
  intros [fd s0|m s0 s1 _ H|fd m s0 _|fd s0] Hab Hs.
  - by apply (serial_emit s0 _ [Opened fd]).
  - assert (Hb : serial (read_buf m s0)) by (apply (serial_emit s0 _ []); try done; by cbn; rewrite app_nil_r).
    apply (on_dev_cases m s0 s1); try done.
    + by apply (serial_emit (read_buf m s0) _ []); try done; cbn; rewrite app_nil_r.
    + by apply (serial_emit (read_buf m s0) _ []); try done; cbn; rewrite app_nil_r.
    + intros _. destruct (deliver_log m (holders (read_buf m s0) (b8 (read_buf m s0) 4) (b8 (read_buf m s0) 5)))
        as (_ & _ & _ & E1 & E2 & E3 & E4). by eapply (serial_emit (read_buf m s0)).
    + intros q rest ok s2 _ Eq Ea E Hn.
      destruct (negb ok || (pm_fd q =? p_server s0)) eqn:Eo.
      { apply (next_request_serial q rest (read_buf m s0) s1 []) with (s2 := s2); try done.
        subst s2. by rewrite app_nil_r. }
      destruct (reply _ _ _ _) as [l e] eqn:Er. destruct (reply_log _ _ _ _ _ _ Er) as (E1 & E2 & E3 & _ & E5).
      apply (next_request_serial q rest (read_buf m s0) s1 e) with (s2 := s2); try done; [|by subst s2].
      eapply Forall_impl; [exact E5|]. intros [[fd q'] m'] [= -> -> ->]. split; [done|]. split; [done|].
      apply (answers_same m s0). rewrite Ea. by destruct ok.
  - assert (Hb : serial (read_buf m s0)) by (apply (serial_emit s0 _ []); try done; by cbn; rewrite app_nil_r).
    apply on_client_cases; [done| |].
    + by apply (serial_emit (read_buf m s0) _ [Data m]).
    + intros Hl. apply queue_ctl_serial; [by apply (read_sized fd m s0)|done].
  - unfold cleanup_qmi_connection in *. destruct (pick _ (p_conns s0)) as [[c rest]|]; [|done].
    apply (drop_clients_serial (cn_fd c) (cn_clients c)) in Hs. set (s1 := drop_clients _ _ s0) in *.
    unfold remove_request in *. destruct (pick _ (p_ctl s1)) as [[q l]|].
    + exfalso. revert Hab. log_app. intros H%(f_equal length). rewrite !length_app in H. cbn in H. lia.
    + by apply (serial_emit s1 _ [Closed (cn_fd c)]).
Qed.

(** ** Dropped identifiers are queued for release *)

Definition release_msg (server : Z) (c : client) : pmsg := PMsg server (release_req c).
Definition releases (server : Z) (e : list effect) : Prop :=
  map (release_msg server) (dropped e) `sublist_of` queued e.

Lemma releases_app v e1 e2 : releases v e1 -> releases v e2 -> releases v (e1 ++ e2).
Proof. unfold releases, dropped, queued. rewrite !omap_app, map_app. apply sublist_app. Qed.

Lemma releases_none v e : dropped e = [] -> releases v e.
Proof. unfold releases. intros ->. apply sublist_nil_l. Qed.

(** [s'] is [s] with a longer log that queues a release for every drop. *)
Definition extends (s s' : proxy) : Prop :=
  p_server s' = p_server s /\ exists e, p_log s' = p_log s ++ e /\ releases (p_server s) e.

Lemma extends_refl s s' : p_server s' = p_server s -> p_log s' = p_log s -> extends s s'.
Proof. intros E1 E2. split; [done|]. exists []. rewrite E2, app_nil_r. split; [done|by apply releases_none]. Qed.

Lemma extends_emit s e : dropped e = [] -> extends s (emit e s).
Proof. intros H. split; [done|]. exists e. split; [done|]. by apply releases_none. Qed.

Lemma extends_trans s1 s2 s3 : extends s1 s2 -> extends s2 s3 -> extends s1 s3.
Proof.
  intros (E1 & e1 & L1 & R1) (E2 & e2 & L2 & R2). split; [congruence|]. exists (e1 ++ e2).
  rewrite L2, L1, app_assoc. split; [done|]. apply releases_app; [done|]. by rewrite <- E1.
Qed.

Lemma queue_ctl_extends q s : extends s (queue_ctl q s).
Proof.
  apply (extends_trans _ (set_ctl (p_ctl s ++ [q]) s)); [by apply extends_refl|].
  apply extends_emit. by destruct (p_ctl s).
Qed.

Lemma drop_clients_extends fd l s : extends s (drop_clients fd l s).
Proof.
  revert s. induction l as [|c l IH]; intros s; cbn [drop_clients]; [by apply extends_refl|].
  eapply extends_trans; [|apply IH]. split; [done|].
  exists (Dropped fd c :: (if p_ctl s then [Sent (release_msg (p_server s) c)] else []) ++
    [Queued (release_msg (p_server s) c)]).
  cbn [p_log emit queue_ctl set_ctl p_ctl]. split; [by rewrite <- app_assoc|].
  unfold releases. destruct (p_ctl s); cbn; apply sublist_skip, sublist_nil.
Qed.

Lemma pstep_extends s s' : pstep s s' -> extends s s'.
Proof.
  intros [fd s0|m s0 s1 _ H|fd m s0 _|fd s0].
  - apply (extends_trans _ (set_conns (p_conns s0 ++ [Conn fd []]) s0)); [by apply extends_refl|].
    by apply extends_emit.
  - assert (Hb : extends s0 (read_buf m s0)) by by apply extends_refl.
    apply (on_dev_cases m s0 s1); try (by apply extends_refl); [done|..].
    + intros _. eapply extends_trans; [exact Hb|]. apply extends_emit. by apply deliver_log.
    + intros q rest ok s2 _ _ _ E Hn. apply (extends_trans _ s2).
      { subst s2. destruct (negb ok || _); [done|]. destruct (reply _ _ _ _) as [l e] eqn:Er.
        eapply extends_trans; [exact Hb|]. apply (extends_trans _ (set_conns l (read_buf m s0))); [by apply extends_refl|].
        apply extends_emit. by apply reply_ids in Er as [_ ?]. }
      apply next_request_inv in Hn as (e & -> & He).
      apply (extends_trans _ (set_ctl rest s2)); [by apply extends_refl|].
      apply extends_emit. by destruct He as [->|(q1 & ->)].
  - assert (Hb : extends s0 (read_buf m s0)) by by apply extends_refl.
    apply on_client_cases; [done| |]; [|intros _]; (eapply extends_trans; [exact Hb|]);
      [by apply extends_emit|apply queue_ctl_extends].
  - unfold cleanup_qmi_connection. destruct (pick _ (p_conns s0)) as [[c rest]|]; [|by apply extends_refl].
    eapply extends_trans; [apply (drop_clients_extends (cn_fd c) (cn_clients c))|]. set (s1 := drop_clients _ _ s0).
    apply (extends_trans _ (remove_request (cn_fd c) s1)).
    + unfold remove_request. destruct (pick _ (p_ctl s1)) as [[q l]|]; [|by apply extends_refl].
      apply (extends_trans _ (set_ctl l s1)); [by apply extends_refl|]. by apply extends_emit.
    + eapply extends_trans; [|by apply extends_emit]. by apply extends_refl.
Qed.

Lemma run_extends s s' : rtc pstep s s' -> extends s s'.
Proof.
  induction 1 as [s|s s1 s2 H _ IH]; [by apply extends_refl|]. eapply extends_trans; [by apply pstep_extends|done].
Qed.

(** ** Theorems *)

(** Client identifiers are accounted for: in any run of the proxy, every
    identifier the modem assigned on the request of a connection is held by a
    connection, was released on the request of its connection, or was dropped
    with a connection that closed; and for every dropped identifier the proxy
    queued a release request of its own, in that order. *)
Theorem proxy_ids_accounted s s' :
  loop_start s -> rtc pstep s s' ->
  assigned (p_log s') ≡ₚ freed (p_log s') ++ dropped (p_log s') ++ held s' /\
  map (fun c => PMsg (p_server s) (release_req c)) (dropped (p_log s')) `sublist_of` queued (p_log s').
Proof.
  intros (H1 & H2 & H3) H. split.
  - assert (Ha : accounted s) by (unfold accounted, held; by rewrite H1, H3).
    clear H1 H2 H3. induction H as [s|s s1 s2 Hs _ IH]; [done|]. by apply IH, (accounted_step s).
  - apply run_extends in H as (_ & e & -> & He). by rewrite H3.
Qed.

(** A run: a client connects, asks for an identifier of the data service, gets
    it, and goes away. *)
Definition get_req (tid t : Z) : bytes :=
  [1] ++ w16 15 ++ [0; 0; 0] ++ [0; tid] ++ w16 0x22 ++ w16 4 ++ [1] ++ w16 1 ++ [t].
Definition get_rsp (tid t i : Z) : bytes :=
  [1] ++ w16 23 ++ [0x80; 0; 0] ++ [1; tid] ++ w16 0x22 ++ w16 12 ++ [2] ++ w16 4 ++ w16 0 ++ w16 0 ++ [1] ++ w16 2 ++ [t; i].
Definition ex_p0 : proxy := Proxy 4 [] [] false true (replicate 64 0) [].
Definition ex_p1 : proxy := accept_qmi_connection 5 ex_p0.
Definition ex_p2 : proxy := on_client 5 (get_req 1 1) ex_p1.
Definition ex_p3 : proxy := default ex_p0 (on_dev (get_rsp 1 1 7) ex_p2).
Definition ex_p4 : proxy := cleanup_qmi_connection 5 true ex_p3.

Lemma ex_proxy_run : rtc pstep ex_p0 ex_p3.
Proof.
  apply (rtc_l _ _ ex_p1); [apply p_accept|]. apply (rtc_l _ _ ex_p2); [apply (p_client 5 (get_req 1 1)); reflexivity|].
  apply rtc_once. apply (p_dev (get_rsp 1 1 7)); reflexivity.
Qed.

Lemma proxy_ids_accounted_witness :
  assigned (p_log ex_p4) = [Client 1 7] /\ dropped (p_log ex_p4) = [Client 1 7] /\
  (assigned (p_log ex_p4) ≡ₚ freed (p_log ex_p4) ++ dropped (p_log ex_p4) ++ held ex_p4).
Proof.
  split; [reflexivity|]. split; [reflexivity|]. apply (proxy_ids_accounted ex_p0 ex_p4); [done|].
  eapply rtc_r; [apply ex_proxy_run|apply p_close].
Defined.

(** C32. Control requests are served one at a time and in order: in any run in
    which no connection closes while a request of its own waits, the requests
    queued are those finished followed by those waiting, the modem was handed
    the finished ones and the first of the waiting ones, in the same order; and
    every control response passed on went to the connection of a finished
    request with the transaction number and the type of the response. *)
Theorem proxy_control_serial s s' :
  loop_start s -> rtc pstep s s' -> abandoned (p_log s') = [] ->
  queued (p_log s') = done_ (p_log s') ++ p_ctl s' /\
  sent (p_log s') = done_ (p_log s') ++ take 1 (p_ctl s') /\
  Forall (fun '(fd, q, m) => pm_fd q = fd /\ q ∈ done_ (p_log s') /\ (10 <= zlen m -> same_request q m))
    (replies (p_log s')).
Proof.
  intros (H1 & H2 & H3) H Hab.
  assert (Hs : serial s) by (split; rewrite ?H2, ?H3; [by apply Forall_nil|done|done|by apply Forall_nil]).
  clear H1 H2 H3. enough (Hs' : serial s') by (destruct Hs'; auto).
  induction H as [s|s s1 s2 Hst H IH]; [done|]. apply IH; [done|]. apply (serial_step s); [done| |done].
  apply run_extends in H as (_ & e & E & _). revert Hab. rewrite E. unfold abandoned. rewrite omap_app.
  by intros [-> _]%app_nil.
Qed.

Lemma proxy_control_serial_witness :
  map pm_qmi (queued (p_log ex_p3)) = [get_req 1 1] /\ length (replies (p_log ex_p3)) = 1%nat /\
  sent (p_log ex_p3) = done_ (p_log ex_p3) ++ take 1 (p_ctl ex_p3).
Proof.
  split; [reflexivity|]. split; [reflexivity|].
  apply (proxy_control_serial ex_p0 ex_p3); [done|apply ex_proxy_run|reflexivity].
Defined.

(** Delivery of data messages and indications: one copy per identifier of the
    service a connection holds that the message names, or that any names when
    the message's is 0. *)
Lemma deliver_private m s s' fd :
  on_dev m s = Some s' -> In (Deliver fd m) (p_log s') -> ~ In (Deliver fd m) (p_log s) ->
  exists c k, In c (p_conns s) /\ cn_fd c = fd /\ In k (cn_clients c) /\
    cl_type k = b8 (read_buf m s) 4 /\ (b8 (read_buf m s) 5 = 0 \/ b8 (read_buf m s) 5 = cl_id k).
Proof.
  intros H. apply (on_dev_cases m s s' (fun s' => In (Deliver fd m) (p_log s') -> ~ In (Deliver fd m) (p_log s) -> _));
    [done|done|done|done| |].
  - intros _ Hin Hn. cbn [p_log emit] in Hin. apply in_app_iff in Hin as [Hin|Hin]; [by destruct Hn|].
    apply in_map_iff in Hin as (x & [= ->] & Hin). unfold holders in Hin.
    apply in_concat in Hin as (l & Hl & Hin). apply in_map_iff in Hl as (c & <- & Hc).
    apply in_map_iff in Hin as (k & Hk & Hin). apply list_elem_of_In, list_elem_of_filter in Hin as [[E1 E2] Hin].
    exists c, k. apply list_elem_of_In in Hin. auto.
  - intros q rest ok s2 _ _ _ E Hn Hin Hno. exfalso.
    assert (Hs2 : In (Deliver fd m) (p_log s2)).
    { apply next_request_inv in Hn as (e & -> & He). cbn [p_log emit set_ctl] in Hin.
      apply in_app_iff in Hin as [?|Hin]; [done|]. destruct He as [->|(q1 & ->)]; cbn in Hin; naive_solver. }
    subst s2. destruct (negb ok || _); [done|]. destruct (reply _ _ _ _) as [l e] eqn:Er.
    cbn in Hs2. apply in_app_iff in Hs2 as [?|Hin2]; [done|]. clear -Er Hin2. revert l e Er Hin2.
    induction (p_conns s) as [|c cs IH]; intros l e; cbn; [by intros [= <- <-]|].
    destruct (if cn_fd c =? pm_fd q then _ else _) as [c1 e1] eqn:E1.
    destruct (reply (read_buf m s) q m cs) as [k e2] eqn:E2. intros [= <- <-] [Hin|Hin]%in_app_iff; [|by eapply IH].
    unfold get_client_id, release_client_id in E1. repeat (case_match; simplify_eq); naive_solver.
Qed.

(** The modem's reset indication is never noticed: the condition compares the
    service of the message, known to be 0, with the indication flag. *)
Lemma revoke_not_noticed s s' : pstep s s' -> p_reset s' = p_reset s.
Proof.
  intros [fd s0|m s0 s1 _ H|fd m s0 _|fd s0]; [done| | |].
  - unfold on_dev in H. destruct (length_ok m (read_buf m s0)); [|by injection H as <-].
    unfold recv_qmi_from_dev in H. destruct (p_server (read_buf m s0) =? -1); [by injection H as <-|].
    destruct (Z.eqb_spec (b8 (read_buf m s0) 4) QMUX_TYPE_CTL) as [E|]; [|by injection H as <-].
    rewrite E in H. destruct (b8 (read_buf m s0) off_CtlFlags =? QMICTL_CTL_FLAG_RSP); [|by injection H as <-].
    destruct (p_ctl (read_buf m s0)) as [|q rest]; [by injection H as <-|].
    destruct (answers _ q) as [ok|]; [|done]. cbn [mbind option_bind] in H.
    apply next_request_inv in H as (e & -> & _). cbn [p_reset emit set_ctl].
    destruct (negb ok || _); [done|]. by destruct (reply _ _ _ _).
  - by apply on_client_cases.
  - unfold cleanup_qmi_connection. destruct (pick _ (p_conns s0)) as [[c rest]|]; [|done]. cbn [p_reset emit set_conns].
    assert (E : p_reset (drop_clients (cn_fd c) (cn_clients c) s0) = p_reset s0).
    { generalize (cn_clients c) as l. intros l. revert s0. induction l as [|k l IH]; intros s0; [done|]. cbn.
      by rewrite IH. }
    unfold remove_request. by destruct (pick _ _) as [[q l]|].
Qed.

(** A connection that closes while its request is the one the modem works on
    takes the request off the queue without sending the next.  The next one then
    waits for the answer to the lost one, which removes it: it is finished
    without having been handed to the modem. *)
Theorem proxy_disconnect_loses_next s fd rest q1 q2 l m s' :
  pick (fun c => cn_fd c =? fd) (p_conns s) = Some (Conn fd [], rest) ->
  p_ctl s = q1 :: q2 :: l -> pm_fd q1 = fd -> p_server s <> -1 ->
  let s1 := cleanup_qmi_connection fd true s in
  let s2 := read_buf m s1 in
  length_ok m s2 = true -> b8 s2 4 = QMUX_TYPE_CTL -> b8 s2 off_CtlFlags = QMICTL_CTL_FLAG_RSP ->
  answers s2 q2 = Some false -> on_dev m s1 = Some s' ->
  p_ctl s1 = q2 :: l /\ sent (p_log s1) = sent (p_log s) /\
  p_ctl s' = l /\ done_ (p_log s') = done_ (p_log s) ++ [q2] /\ (l = [] -> sent (p_log s') = sent (p_log s)).
Proof.
  intros Hp Hq Hf Hv s1 s2 Hl Hc Hr Ha H.
  assert (E1 : s1 = emit [Abandoned q1; Closed fd] (set_ctl (q2 :: l) (set_conns rest s))).
  { unfold s1, cleanup_qmi_connection. rewrite Hp. cbn [cn_fd cn_clients drop_clients]. unfold remove_request. rewrite Hq.
    cbn [pick]. rewrite (proj2 (Z.eqb_eq _ _) Hf). unfold emit, set_conns, set_ctl. cbn. by rewrite <- app_assoc. }
  unfold on_dev in H. fold s2 in H. rewrite Hl in H. unfold recv_qmi_from_dev in H.
  assert (E2 : p_server s2 = p_server s /\ p_ctl s2 = q2 :: l) by (unfold s2; rewrite E1; done).
  destruct E2 as [Es Ec]. rewrite Es, (proj2 (Z.eqb_neq _ _) Hv), Hc, Hr, Ec in H. cbn [Z.eqb QMUX_TYPE_CTL] in H.
  change (QMICTL_CTL_FLAG_RSP =? QMICTL_CTL_FLAG_RSP) with true in H. cbn iota in H. rewrite Ha in H.
  cbn [mbind option_bind negb orb] in H.
  assert (E3 : p_log s1 = p_log s ++ [Abandoned q1; Closed fd]) by by rewrite E1.
  assert (E4 : sent (p_log s1) = sent (p_log s) /\ done_ (p_log s1) = done_ (p_log s)).
  { rewrite E3. unfold sent, done_. rewrite !omap_app. by rewrite !app_nil_r. }
  split; [by rewrite E1|]. split; [apply E4|]. change (p_log s1) with (p_log s2) in E4. destruct E4 as [E5 E6].
  pose proof H as (e & -> & He)%next_request_inv. split; [done|]. split.
  - cbn [p_log emit set_ctl]. unfold done_ in *. rewrite omap_app, E6. by destruct He as [->|(q & ->)].
  - intros ->. injection H as H. apply app_inv_head in H as [= <-].
    cbn [p_log emit set_ctl]. unfold sent in *. by rewrite omap_app, E5, app_nil_r.
Qed.

(** Two clients ask with the same transaction number 1; the first goes away, and
    the answer to its request is taken for the answer to the second's. *)
Definition ex_two : proxy :=
  on_client 6 (get_req 1 3) (on_client 5 (get_req 1 1) (accept_qmi_connection 6 (accept_qmi_connection 5 ex_p0))).
Definition ex_mixed : proxy := default ex_p0 (on_dev (get_rsp 1 1 7) (cleanup_qmi_connection 5 true ex_two)).

Lemma proxy_mixes_clients :
  p_conns ex_mixed = [Conn 6 [Client 1 7]] /\ map pm_qmi (sent (p_log ex_mixed)) = [get_req 1 1].
Proof. split; reflexivity. Qed.

(** Leaving the loop closes every connection. *)
Lemma loop_exit_clean fuel s : (length (p_conns s) <= fuel)%nat -> p_conns (loop_exit fuel s) = [].
Proof.
  revert s. induction fuel as [|n IH]; intros s Hn; cbn [loop_exit]; destruct (p_conns s) as [|c l] eqn:E; try done.
  { cbn in Hn. lia. }
  apply IH. unfold cleanup_qmi_connection. rewrite E. cbn [pick]. rewrite Z.eqb_refl. cbn [p_conns emit set_conns].
  cbn in Hn. lia.
Qed.
