(* ===== verification/QmiClient.v ===== *)
(** * Client identifiers: [QmiWwanCM.c]

    Control messages and the table [qmiclientId].  The state is that of the
    requests ([QmiReq]) with the table and the counter of control transactions;
    all requests go through the same log. *)

From S2P Require Import Prelude CLib QmiMsg QmiReq QmiCard QmiSession QmiProxy.

(** ** State and monad *)

Record cst := Cst { c_q : qst; qmiclientId : list Z; c_tid : Z }.

Abbreviation cact := (st cst).

Definition lift {A} (a : act A) : cact A := fun s =>
  match a (c_q s) with Some (x, q) => Some (x, Cst q (qmiclientId s) (c_tid s)) | None => None end.
Definition set_id (i x : Z) : cact unit := fun s =>
  Some (tt, Cst (c_q s) (<[Z.to_nat i := x]> (qmiclientId s)) (c_tid s)).
Definition get_id (i : Z) : cact Z := fun s => x ← zget (qmiclientId s) i; Some (x, s).

(** ** Control messages *)

Definition QMUX_TYPE_ALL : Z := 0xFF.
Definition sizeof_QCQMICTL_MSG_HDR : Z := 6.
Definition QMICTL_GET_VERSION_REQ : Z := 0x0021.
Definition QMICTL_GET_CLIENT_ID_REQ : Z := 0x0022.
Definition QMI_MESSAGE_CTL_INTERNAL_PROXY_OPEN : Z := 0xFF00.
Definition QMIUIM_EVENT_REG_REQ : Z := 0x002E.

Definition GetQCTLTransactionId : cact Z := fun s =>
  let t := c_tid s + 1 in
  let t := if 0xFF <? t then 1 else t in
  Some (t, Cst (c_q s) (qmiclientId s) t).

(** The callbacks write their fields behind the header of the message: the
    bytes they write, all of which the length they return counts. *)
Definition CtlGetVersionReq : bytes := [QCTLV_TYPE_REQUIRED_PARAMETER] ++ w16 0x0001 ++ [QMUX_TYPE_ALL].
Definition CtlGetClientIdReq (QMIType : Z) : bytes := [QCTLV_TYPE_REQUIRED_PARAMETER] ++ w16 0x0001 ++ [QMIType].
Definition CtlReleaseClientIdReq (QMIType ClientId : Z) : bytes :=
  [QCTLV_TYPE_REQUIRED_PARAMETER] ++ w16 0x0002 ++ [QMIType; ClientId].
Definition CtlLibQmiProxyOpenReq (device_path : bytes) : bytes := [0x01] ++ w16 (zlen device_path) ++ device_path.

(** [None]: the fields do not fit the buffer. *)
Definition ComposeQCTLMsg (QMICTLType : Z) (fields : bytes) : cact bytes :=
  tid ← GetQCTLTransactionId;
  if sizeof_QCQMI_HDR + sizeof_QCQMICTL_MSG_HDR + zlen fields <=? WDM_DEFAULT_BUFSIZE then
    mret ([USB_CTL_MSG_TYPE_QMI] ++ w16 (zlen fields + sizeof_QCQMICTL_MSG_HDR + sizeof_QCQMI_HDR - 1) ++
          [0x00; QMUX_TYPE_CTL; 0x00] ++ [QMICTL_FLAG_REQUEST; tid] ++ w16 QMICTLType ++ w16 (zlen fields) ++ fields)
  else fun _ => None.

(** [QmiThreadSendQMI(ComposeQCTLMsg(...), &pResponse)] *)
Definition ctl_request (md : modem) (QMICTLType : Z) (fields : bytes) : cact (Z * option bytes) :=
  r ← ComposeQCTLMsg QMICTLType fields; lift (send md r).

Definition ctl_result (m : bytes) : cact (Z * Z) :=
  a ← lift (load (rd16 m off_QMIResult)); b ← lift (load (rd16 m off_QMIError)); mret (a, b).

Definition libqmi_proxy_open (md : modem) (cdc_wdm : bytes) : cact Z :=
  '(ret, rsp) ← ctl_request md QMI_MESSAGE_CTL_INTERNAL_PROXY_OPEN (CtlLibQmiProxyOpenReq cdc_wdm);
  match rsp with
  | Some m => if ret =? 0 then x ← ctl_result m; mret (if rsp_failed x then -1 else 0) else mret (-1)
  | None => mret (-1)
  end.

(** The identifier is loaded before the result is looked at. *)
Definition QmiWwanGetClientID (md : modem) (QMIType : Z) : cact Z :=
  '(_, rsp) ← ctl_request md QMICTL_GET_CLIENT_ID_REQ (CtlGetClientIdReq QMIType);
  match rsp with
  | Some m =>
      x ← ctl_result m;
      ClientId ← lift (load (zget m off_rsp_ClientId));
      if rsp_failed x then mret 0
      else t ← lift (load (zget m off_rsp_QMIType)); mret (if QMIType =? t then ClientId else 0)
  | None => mret 0
  end.

Definition QmiWwanReleaseClientID (md : modem) (QMIType ClientId : Z) : cact Z :=
  ctl_request md QMICTL_RELEASE_CLIENT_ID_REQ (CtlReleaseClientIdReq QMIType ClientId);; mret 0.

Definition requestUIMCardStatusEvent (md : modem) (cid : Z) : act unit :=
  s9x07 ← gets s_9x07;
  if negb s9x07 || (cid =? 0) then mret tt
  else
    r ← compose QMUX_TYPE_UIM QMIUIM_EVENT_REG_REQ (Some UimEventRegReqSend);
    '(err, rsp) ← send md r;
    match rsp with
    | Some m => if err =? 0 then rsp_result m;; mret tt else mret tt
    | None => mret tt
    end.

(** ** Initialisation *)

(** The synchronisation loop: ten times at most, while it times out. *)
Fixpoint sync_loop (n : nat) (md : modem) (ret : Z) : cact Z :=
  match n with
  | O => mret ret
  | S n =>
      '(ret, _) ← ctl_request md QMICTL_SYNC_REQ [];
      if ret =? ETIMEDOUT then sync_loop n md ret else mret ret
  end.

(** [qmap_version] from the list of service versions. *)
Fixpoint version_loop (n : nat) (m : bytes) (off v : Z) : cact Z :=
  match n with
  | O => mret v
  | S n =>
      t ← lift (load (zget m off));
      v ← (if t =? QMUX_TYPE_WDS_ADMIN then
             minor ← lift (load (rd16 m (off + 3))); mret (if 16 <? minor then 1 else 0)
           else mret v);
      version_loop n m (off + 5) v
  end.

(** The members of the profile it uses. *)
Record wprofile := WProfile {
  wp_proxy : bool; wp_libqmi : bool; wp_channel : bytes; wp_qmap_mode : Z; wp_qmap_version : Z; wp_enable_ipv6 : bool }.

Definition assign (md : modem) (i t : Z) : cact unit := x ← QmiWwanGetClientID md t; set_id i x.

(** The return value, and [qmap_version] and [wda_client] as stored. *)
Definition QmiWwanInit (md : modem) (p : wprofile) : cact (Z * Z * option Z) :=
  let v := wp_qmap_version p in
  ret ← (if wp_libqmi p then libqmi_proxy_open md (wp_channel p) else mret 0);
  if negb (ret =? 0) then mret (ret, v, None) else
  ret ← (if wp_proxy p then mret 0 else sync_loop 10 md 0);
  if negb (ret =? 0) then mret (ret, v, None) else
  '(_, rsp) ← ctl_request md QMICTL_GET_VERSION_REQ CtlGetVersionReq;
  v ← match rsp with
      | Some m =>
          if wp_qmap_mode p =? 0 then mret v
          else x ← ctl_result m;
               if rsp_failed x then mret v
               else n ← lift (load (zget m 22)); version_loop (Z.to_nat n) m 23 v
      | None => mret v
      end;
  assign md QMUX_TYPE_WDS QMUX_TYPE_WDS;;
  (if wp_enable_ipv6 p then assign md QMUX_TYPE_WDS_IPV6 QMUX_TYPE_WDS else mret tt);;
  assign md QMUX_TYPE_DMS QMUX_TYPE_DMS;;
  assign md QMUX_TYPE_NAS QMUX_TYPE_NAS;;
  assign md QMUX_TYPE_UIM QMUX_TYPE_UIM;;
  uim ← get_id QMUX_TYPE_UIM;
  lift (requestUIMCardStatusEvent md uim);;
  assign md QMUX_TYPE_WDS_ADMIN QMUX_TYPE_WDS_ADMIN;;
  wda ← get_id QMUX_TYPE_WDS_ADMIN;
  mret (0, v, Some wda).

(** The service an entry of the table belongs to. *)
Definition service (i : Z) : Z := if i =? QMUX_TYPE_WDS_IPV6 then QMUX_TYPE_WDS else i.

Fixpoint deinit_loop (n : nat) (md : modem) (i : Z) : cact Z :=
  match n with
  | O => mret 0
  | S n =>
      x ← get_id i;
      (if x =? 0 then mret tt else QmiWwanReleaseClientID md (service i) x;; set_id i 0);;
      deinit_loop n md (i + 1)
  end.
Definition QmiWwanDeInit (md : modem) : cact Z := deinit_loop (Z.to_nat QMUX_TYPE_ALL) md 0.

(** ** What the modem granted *)

(** The identifier a request was granted, if it asked for one. *)
Definition grant (md : modem) (pre : list bytes) (r : bytes) : list (Z * Z) :=
  if decide (zget r 4 = Some QMUX_TYPE_CTL /\ rd16 r off_QMICTLType = Some QMICTL_GET_CLIENT_ID_REQ) then
    match snd (md pre r) with
    | Some m =>
        match zget r 15, rd16 m off_QMIResult, rd16 m off_QMIError, zget m off_rsp_QMIType, zget m off_rsp_ClientId with
        | Some t, Some 0, Some 0, Some t', Some x => if (t =? t') && negb (x =? 0) then [(t, x)] else []
        | _, _, _, _, _ => []
        end
    | None => []
    end
  else [].

Fixpoint granted (md : modem) (pre l : list bytes) : list (Z * Z) :=
  match l with [] => [] | r :: l => grant md pre r ++ granted md (pre ++ [r]) l end.

(** A request that releases an identifier. *)
Definition is_release (r : bytes) (x : Z * Z) : Prop :=
  zget r 4 = Some QMUX_TYPE_CTL /\ rd16 r off_QMICTLType = Some QMICTL_RELEASE_CLIENT_ID_REQ /\
  rdn r 12 5 = Some (CtlReleaseClientIdReq (fst x) (snd x)).

(** The identifiers of a table from entry [i] on. *)
Fixpoint entries (i : Z) (l : list Z) : list (Z * Z) :=
  match l with
  | [] => []
  | x :: l => (if x =? 0 then [] else [(service i, x)]) ++ entries (i + 1) l
  end.

(** ** Lemmas *)

Lemma lift_inv {A} (a : act A) s y s' :
  lift a s = Some (y, s') ->
  exists q, a (c_q s) = Some (y, q) /\ s' = Cst q (qmiclientId s) (c_tid s).
Proof. unfold lift. destruct (a (c_q s)) as [[x q]|]; [|done]. intros [= <- <-]. by exists q. Qed.

Lemma load_lift_inv {A} (o : option A) s y s' : lift (load o) s = Some (y, s') -> o = Some y /\ s' = s.
Proof. intros (q & [-> ->]%st_load_inv & ->)%lift_inv. by destruct s. Qed.

Lemma get_id_inv i s y s' : get_id i s = Some (y, s') -> zget (qmiclientId s) i = Some y /\ s' = s.
Proof. unfold get_id, mbind, option_bind. destruct (zget _ i); [|done]. by intros [= <- <-]. Qed.

Ltac crun_in H :=
  match type of H with
  | (_ ≫= _) _ = Some _ =>
      let x := fresh "x" in let s := fresh "s" in let H1 := fresh "H" in
      apply st_bind_inv in H; destruct H as (x & s & H1 & H); try done; crun_in H1; crun_in H
  | mret _ _ = Some _ => apply st_ret_inv in H; destruct H as [? ?]; subst
  | lift (load _) _ = Some _ => apply load_lift_inv in H; destruct H as [? ?]; subst
  | get_id _ _ = Some _ => apply get_id_inv in H; destruct H as [? ?]; subst
  | (if ?b then _ else _) _ = Some _ => let E := fresh "E" in destruct b eqn:E; crun_in H
  | (match ?o with Some _ => _ | None => _ end) _ = Some _ => let E := fresh "E" in destruct o eqn:E; crun_in H
  | (let '(_, _) := ?p in _) _ = Some _ => destruct p; crun_in H
  | _ => idtac
  end.

(** From [s] to [s'] requests were sent that were granted [g]. *)
Definition ext (md : modem) (s s' : cst) (g : list (Z * Z)) : Prop :=
  exists l, q_sent (c_q s') = q_sent (c_q s) ++ l /\ granted md (q_sent (c_q s)) l = g.

Lemma granted_app md pre l1 l2 : granted md pre (l1 ++ l2) = granted md pre l1 ++ granted md (pre ++ l1) l2.
Proof.
  revert pre. induction l1 as [|r l1 IH]; intros pre; cbn; [by rewrite app_nil_r|].
  by rewrite IH, <- !app_assoc.
Qed.

Lemma ext_refl md s : ext md s s [].
Proof. exists []. by rewrite app_nil_r. Qed.

Lemma ext_trans md s1 s2 s3 g1 g2 : ext md s1 s2 g1 -> ext md s2 s3 g2 -> ext md s1 s3 (g1 ++ g2).
Proof.
  intros (l1 & E1 & <-) (l2 & E2 & <-). exists (l1 ++ l2). rewrite E2, E1, app_assoc. split; [done|].
  by rewrite granted_app.
Qed.

(** A control request and its log entry. *)
Definition ctl_msg (tid ty : Z) (f : bytes) : bytes :=
  [USB_CTL_MSG_TYPE_QMI] ++ w16 (zlen f + sizeof_QCQMICTL_MSG_HDR + sizeof_QCQMI_HDR - 1) ++
  [0x00; QMUX_TYPE_CTL; 0x00] ++ [QMICTL_FLAG_REQUEST; tid] ++ w16 ty ++ w16 (zlen f) ++ f.

Lemma ctl_request_inv md ty f s y s' :
  ctl_request md ty f s = Some (y, s') ->
  exists tid, y = md (q_sent (c_q s)) (ctl_msg tid ty f) /\ qmiclientId s' = qmiclientId s /\
    q_sent (c_q s') = q_sent (c_q s) ++ [ctl_msg tid ty f].
Proof.
  unfold ctl_request. intros (r & s1 & H1 & (q & [-> ->]%send_inv & ->)%lift_inv)%st_bind_inv.
  unfold ComposeQCTLMsg in H1. apply st_bind_inv in H1 as (tid & s2 & [= <- <-] & H1).
  destruct (_ <=? WDM_DEFAULT_BUFSIZE); [|done]. apply st_ret_inv in H1 as [-> ->]. cbn. by eexists.
Qed.

Lemma rd16_ctl_msg tid ty f : in_u 16 ty -> rd16 (ctl_msg tid ty f) off_QMICTLType = Some ty.
Proof.
  intros H. unfold ctl_msg.
  change (rd16 (([USB_CTL_MSG_TYPE_QMI] ++ w16 (zlen f + sizeof_QCQMICTL_MSG_HDR + sizeof_QCQMI_HDR - 1) ++
    [0; QMUX_TYPE_CTL; 0; QMICTL_FLAG_REQUEST; tid]) ++ w16 ty ++ w16 (zlen f) ++ f) off_QMICTLType = Some ty).
  by apply rd16_app.
Qed.

Lemma ctl_request_ext md ty f s y s' :
  in_u 16 ty -> ty <> QMICTL_GET_CLIENT_ID_REQ -> ctl_request md ty f s = Some (y, s') ->
  ext md s s' [] /\ qmiclientId s' = qmiclientId s.
Proof.
  intros Hu Ht (tid & _ & Ei & El)%ctl_request_inv. split; [|done]. eexists. split; [exact El|].
  cbn [granted]. unfold grant. rewrite rd16_ctl_msg by done. rewrite decide_False; [done|]. by intros [_ [= ->]].
Qed.

Lemma ctl_result_inv m s x s' :
  ctl_result m s = Some (x, s') -> s' = s /\ rd16 m off_QMIResult = Some (fst x) /\ rd16 m off_QMIError = Some (snd x).
Proof. intros H. unfold ctl_result in H. crun_in H. done. Qed.

Lemma get_client_ext md t s x s' :
  QmiWwanGetClientID md t s = Some (x, s') ->
  ext md s s' (if x =? 0 then [] else [(t, x)]) /\ qmiclientId s' = qmiclientId s.
Proof.
  unfold QmiWwanGetClientID. intros (y & s1 & H1 & H)%st_bind_inv.
  apply ctl_request_inv in H1 as (tid & -> & Ei & El).
  set (r := ctl_msg tid QMICTL_GET_CLIENT_ID_REQ (CtlGetClientIdReq t)) in *.
  assert (Hg : forall g, s' = s1 -> grant md (q_sent (c_q s)) r = g ->
    ext md s s' g /\ qmiclientId s' = qmiclientId s).
  { intros g -> Hg. split; [|done]. exists [r]. split; [done|]. cbn [granted]. by rewrite Hg, app_nil_r. }
  assert (Hr : grant md (q_sent (c_q s)) r = match snd (md (q_sent (c_q s)) r) with
    | Some m => match rd16 m off_QMIResult, rd16 m off_QMIError, zget m off_rsp_QMIType, zget m off_rsp_ClientId with
        | Some 0, Some 0, Some t', Some x => if (t =? t') && negb (x =? 0) then [(t, x)] else []
        | _, _, _, _ => [] end
    | None => [] end) by reflexivity.
  destruct (md (q_sent (c_q s)) r) as [err [m|]]; cbn [snd] in *; [|apply st_ret_inv in H as [-> ->]; by apply Hg].
  apply st_bind_inv in H as (y & s2 & (-> & Er & Ee)%ctl_result_inv & H).
  apply st_bind_inv in H as (c & s2 & [Ec ->]%load_lift_inv & H). rewrite Er, Ee, Ec in Hr.
  destruct y as [res err']. unfold rsp_failed in H. cbn [fst snd] in *.
  destruct (Z.eqb_spec res 0) as [->|]; cbn [negb orb] in H.
  2: { apply st_ret_inv in H as [-> ->]. apply Hg; [done|]. rewrite Hr. by destruct res. }
  destruct (Z.eqb_spec err' 0) as [->|]; cbn [negb orb] in H.
  2: { apply st_ret_inv in H as [-> ->]. apply Hg; [done|]. rewrite Hr. by destruct err'. }
  apply st_bind_inv in H as (t' & s2 & [Et ->]%load_lift_inv & [-> ->]%st_ret_inv). rewrite Et in Hr.
  apply Hg; [done|]. rewrite Hr. destruct (t =? t'); [|done]. cbn [andb]. by destruct (c =? 0).
Qed.

Lemma sync_loop_ext n md r s y s' :
  sync_loop n md r s = Some (y, s') -> ext md s s' [] /\ qmiclientId s' = qmiclientId s.
Proof.
  revert r s. induction n as [|n IH]; intros r s H; cbn [sync_loop] in H.
  { apply st_ret_inv in H as [-> ->]. split; [apply ext_refl|done]. }
  apply st_bind_inv in H as ([ret m] & s1 & H1 & H).
  apply ctl_request_ext in H1 as [E1 I1]; [|by compute|done].
  destruct (ret =? ETIMEDOUT); [|apply st_ret_inv in H as [-> ->]; done].
  apply IH in H as [E2 I2]. split; [|congruence]. apply (ext_trans md s s1 s' [] []); done.
Qed.

Lemma version_loop_same n m off v s y s' : version_loop n m off v s = Some (y, s') -> s' = s.
Proof.
  revert off v. induction n as [|n IH]; intros off v H; cbn [version_loop] in H; [by apply st_ret_inv in H as [_ ->]|].
  crun_in H; eauto.
Qed.

Lemma open_ext md c s y s' :
  libqmi_proxy_open md c s = Some (y, s') -> ext md s s' [] /\ qmiclientId s' = qmiclientId s.
Proof.
  unfold libqmi_proxy_open. intros ([ret rsp] & s1 & H1 & H)%st_bind_inv.
  apply ctl_request_ext in H1 as [E1 I1]; [|by compute|done].
  enough (s' = s1) as -> by done. crun_in H; try done. by apply ctl_result_inv in H0 as [-> _].
Qed.

Lemma uim_event_ext md x s y s' :
  lift (requestUIMCardStatusEvent md x) s = Some (y, s') -> ext md s s' [] /\ qmiclientId s' = qmiclientId s.
Proof.
  intros (q & H & ->)%lift_inv. split; [|done]. unfold requestUIMCardStatusEvent in H.
  apply st_bind_inv in H as (b & q1 & [-> ->]%st_gets_inv & H).
  destruct (negb _ || _); [apply st_ret_inv in H as [_ ->]; exists []; by rewrite app_nil_r|].
  apply st_bind_inv in H as (r & q1 & [Hc ->]%compose_inv & H).
  apply st_bind_inv in H as ([err rsp] & q2 & [_ ->]%send_inv & H).
  assert (E : q = add_sent (set_tid (c_q s) (GetQMUXTransactionId (TransactionId (c_q s)))) r).
  { run_in H; try done. by apply rsp_inv in H0 as [-> _]. }
  subst q. exists [r]. split; [done|]. unfold UimEventRegReqSend in Hc. rewrite compose_fixed in Hc.
  injection Hc as <-. reflexivity.
Qed.

Lemma entries_insert l (i : nat) x k :
  l !! i = Some 0 ->
  entries k (<[i := x]> l) ≡ₚ entries k l ++ (if x =? 0 then [] else [(service (k + Z.of_nat i), x)]).
Proof.
  revert i k. induction l as [|y l IH]; intros [|i] k; cbn; try done.
  - intros [= ->]. rewrite Z.add_0_r. cbn. by rewrite Permutation_app_comm.
  - intros H. rewrite (IH i (k + 1) H), app_assoc.
    by replace (k + 1 + Z.of_nat i) with (k + Z.of_nat (S i)) by lia.
Qed.

Definition no_ids : list Z := replicate (Z.to_nat QMUX_TYPE_ALL) 0.

(** The table holds what was granted since [s0]; the entries [free] are empty. *)
Definition filled (md : modem) (s0 : cst) (free : list nat) (s : cst) : Prop :=
  exists g, ext md s0 s g /\ entries 0 (qmiclientId s) ≡ₚ g /\ Forall (fun i => qmiclientId s !! i = Some 0) free /\
    length (qmiclientId s) = Z.to_nat QMUX_TYPE_ALL.

Lemma filled_ext md s0 free s s' :
  filled md s0 free s -> ext md s s' [] -> qmiclientId s' = qmiclientId s -> filled md s0 free s'.
Proof.
  intros (g & E & G & F & Hn) E' I. exists g. rewrite I. split; [|done].
  rewrite <- (app_nil_r g). by apply (ext_trans md s0 s s').
Qed.

Lemma filled_assign md s0 i free t s y s' :
  filled md s0 (i :: free) s -> i ∉ free -> service (Z.of_nat i) = t ->
  assign md (Z.of_nat i) t s = Some (y, s') -> filled md s0 free s'.
Proof.
  intros (g & E0 & G & [Hl F]%Forall_cons_1 & Hn) Hi <-. unfold assign.
  intros (x & s1 & [E I]%get_client_ext & [= <- <-])%st_bind_inv.
  exists (g ++ if x =? 0 then [] else [(service (Z.of_nat i), x)]). cbn [qmiclientId]. rewrite I, Nat2Z.id.
  split; [by apply (ext_trans md s0 s s1)|]. split; [by rewrite entries_insert, G, Z.add_0_l|].
  split; [|by rewrite length_insert].
  apply Forall_forall. intros j Hj. rewrite list_lookup_insert_ne by (intros ->; done). by apply (proj1 (Forall_forall _ _) F).
Qed.

Lemma init_prefix md p s ret a ret2 b e rsp c v' c' :
  qmiclientId s = no_ids ->
  (if wp_libqmi p then libqmi_proxy_open md (wp_channel p) else mret 0) s = Some (ret, a) ->
  (if wp_proxy p then mret 0 else sync_loop 10 md 0) a = Some (ret2, b) ->
  ctl_request md QMICTL_GET_VERSION_REQ CtlGetVersionReq b = Some ((e, rsp), c) ->
  (match rsp with
   | Some m =>
       if wp_qmap_mode p =? 0 then mret (wp_qmap_version p)
       else x ← ctl_result m;
            if rsp_failed x then mret (wp_qmap_version p)
            else n ← lift (load (zget m 22)); version_loop (Z.to_nat n) m 23 (wp_qmap_version p)
   | None => mret (wp_qmap_version p)
   end : cact Z) c = Some (v', c') ->
  filled md s [1; 17; 2; 3; 11; 26]%nat c'.
Proof.
  intros H0 H1 H2 H3 H4.
  assert (Hs : filled md s [1; 17; 2; 3; 11; 26]%nat s).
  { exists []. rewrite H0. split; [apply ext_refl|]. split; [done|].
    split; [by repeat constructor|done]. }
  assert (Ha : filled md s [1; 17; 2; 3; 11; 26]%nat a).
  { destruct (wp_libqmi p); [|by apply st_ret_inv in H1 as [_ ->]]. apply open_ext in H1 as [? ?]. by eapply filled_ext. }
  assert (Hb : filled md s [1; 17; 2; 3; 11; 26]%nat b).
  { destruct (wp_proxy p); [by apply st_ret_inv in H2 as [_ ->]|]. apply sync_loop_ext in H2 as [? ?]. by eapply filled_ext. }
  apply ctl_request_ext in H3 as [E3 I3]; [|by compute|done].
  assert (c' = c) as ->; [|by eapply filled_ext].
  crun_in H4; try done; apply ctl_result_inv in H as [-> _]; [done|]. by apply version_loop_same in H4.
Qed.

Lemma init_entries md p s v w s1 :
  qmiclientId s = no_ids -> QmiWwanInit md p s = Some ((0, v, w), s1) -> filled md s [] s1.
Proof.
  intros H0. unfold QmiWwanInit. intros (ret & a & H1 & H)%st_bind_inv.
  destruct (negb (ret =? 0)) eqn:Er; [by apply st_ret_inv in H as [[= <-] _]|].
  apply st_bind_inv in H as (ret2 & b & H2 & H).
  destruct (negb (ret2 =? 0)) eqn:Er2; [by apply st_ret_inv in H as [[= <-] _]|].
  apply st_bind_inv in H as ([e rsp] & c & H3 & H). apply st_bind_inv in H as (v' & c' & H4 & H).
  pose proof (init_prefix md p s ret a ret2 b e rsp c v' c' H0 H1 H2 H3 H4) as F. clear a b c H1 H2 H3 H4.
  apply st_bind_inv in H as (u & a & H1 & H). apply (filled_assign _ _ _ _ _ _ _ _ F) in H1 as Fa; [|set_solver|done].
  clear F c' H1. apply st_bind_inv in H as (u2 & b & H1 & H).
  assert (Fb : filled md s [2; 3; 11; 26]%nat b).
  { destruct (wp_enable_ipv6 p); [by apply (filled_assign _ _ _ _ _ _ _ _ Fa) in H1; [|set_solver|]|].
    apply st_ret_inv in H1 as [_ ->]. destruct Fa as (g & E & G & [_ F]%Forall_cons_1 & Hn). by exists g. }
  clear Fa H1 a. apply st_bind_inv in H as (u3 & a & H1 & H).
  apply (filled_assign _ _ _ _ _ _ _ _ Fb) in H1 as Fa; [|set_solver|done]. clear Fb H1 b.
  apply st_bind_inv in H as (u4 & b & H1 & H).
  apply (filled_assign _ _ _ _ _ _ _ _ Fa) in H1 as Fb; [|set_solver|done]. clear Fa H1 a.
  apply st_bind_inv in H as (u5 & a & H1 & H).
  apply (filled_assign _ _ _ _ _ _ _ _ Fb) in H1 as Fa; [|set_solver|done]. clear Fb H1 b.
  apply st_bind_inv in H as (uim & a6 & [_ ->]%get_id_inv & H).
  apply st_bind_inv in H as (u6 & b & [E7 I7]%uim_event_ext & H). pose proof (filled_ext _ _ _ _ _ Fa E7 I7) as Fb.
  apply st_bind_inv in H as (u7 & c & H1 & H).
  apply (filled_assign _ _ _ _ _ _ _ _ Fb) in H1 as Fc; [|set_solver|done].
  by apply st_bind_inv in H as (wda & a8 & [_ ->]%get_id_inv & [_ ->]%st_ret_inv).
Qed.

Lemma release_inv md t x s y s' :
  QmiWwanReleaseClientID md t x s = Some (y, s') ->
  exists r, q_sent (c_q s') = q_sent (c_q s) ++ [r] /\ is_release r (t, x) /\ qmiclientId s' = qmiclientId s.
Proof.
  unfold QmiWwanReleaseClientID. intros (z & s1 & H & [_ ->]%st_ret_inv)%st_bind_inv.
  apply ctl_request_inv in H as (tid & _ & I & E). eexists. split; [exact E|]. split; [|done].
  split; [done|]. split; [by apply rd16_ctl_msg; compute|reflexivity].
Qed.

(** The loop clears the rest of the table and releases what it held. *)
Lemma deinit_loop_spec n md a b s y s' :
  qmiclientId s = a ++ b -> length b = n -> deinit_loop n md (zlen a) s = Some (y, s') ->
  y = 0 /\ qmiclientId s' = a ++ replicate n 0 /\
  exists l, q_sent (c_q s') = q_sent (c_q s) ++ l /\ Forall2 is_release l (entries (zlen a) b).
Proof.
  revert a b s. induction n as [|n IH]; intros a b s Hi Hb H; cbn [deinit_loop] in H.
  { apply st_ret_inv in H as [-> ->]. destruct b; [|done]. split; [done|]. split; [done|]. exists [].
    rewrite app_nil_r. by repeat constructor. }
  destruct b as [|x b]; [done|]. injection Hb as Hb.
  apply st_bind_inv in H as (x' & s1 & [Hx ->]%get_id_inv & H). rewrite Hi, zget_app_mid in Hx by done.
  injection Hx as <-. apply st_bind_inv in H as (u & s2 & H1 & H). cbn [entries].
  assert (Hs2 : qmiclientId s2 = (a ++ [0]) ++ b /\
    exists l, q_sent (c_q s2) = q_sent (c_q s) ++ l /\ Forall2 is_release l (if x =? 0 then [] else [(service (zlen a), x)])).
  { destruct (Z.eqb_spec x 0) as [->|].
    - apply st_ret_inv in H1 as [_ ->]. rewrite Hi, <- app_assoc. split; [done|]. exists []. by rewrite app_nil_r.
    - apply st_bind_inv in H1 as (r0 & s3 & (r & E & Hr & I)%release_inv & [= <- <-]). cbn. rewrite I, Hi.
      unfold zlen. rewrite Nat2Z.id, insert_app_r_alt, Nat.sub_diag, <- app_assoc by done. split; [done|].
      exists [r]. split; [done|]. by constructor. }
  destruct Hs2 as (I2 & l2 & L2 & F2). rewrite <- zlen_snoc with (x := 0) in H.
  apply (IH (a ++ [0]) b s2) in H as (-> & I3 & l3 & L3 & F3); [|done|done].
  split; [done|]. split; [by rewrite I3, <- app_assoc|]. exists (l2 ++ l3). rewrite L3, L2, app_assoc. split; [done|].
  apply Forall2_app; [done|]. by rewrite zlen_snoc in F3.
Qed.

(** ** Theorems *)

(** C31. Identifiers are given back: whatever the modem answers, after a
    successful initialisation from an empty table every client identifier the
    modem granted during it is released by the de-initialisation exactly once and
    under the service it was granted for (the entry of the IPv6 data service
    under the data service), nothing else is released, and the table is empty
    again. *)
Theorem client_ids_balanced md p s v w s1 y s2 :
  qmiclientId s = no_ids -> QmiWwanInit md p s = Some ((0, v, w), s1) -> QmiWwanDeInit md s1 = Some (y, s2) ->
  qmiclientId s2 = no_ids /\
  exists init deinit rel,
    q_sent (c_q s1) = q_sent (c_q s) ++ init /\ q_sent (c_q s2) = q_sent (c_q s1) ++ deinit /\
    Forall2 is_release deinit rel /\ rel ≡ₚ granted md (q_sent (c_q s)) init.
Proof.
  intros H0 Hi Hd. destruct (init_entries md p s v w s1 H0 Hi) as (g & (l & E & G) & P & _ & Hn).
  apply (deinit_loop_spec _ md [] (qmiclientId s1)) in Hd as (_ & I & l2 & L2 & F2); [|done|done].
  split; [done|]. exists l, l2, (entries 0 (qmiclientId s1)). rewrite G. auto.
Qed.

(** A modem that grants identifier 7 of every service it is asked for. *)
Definition ex_granting : modem := fun _ r =>
  match zget r 7, zget r 15 with
  | Some tid, Some t => (0, Some (get_rsp tid t 7))
  | Some tid, None => (0, Some (get_rsp tid 0 0))
  | _, _ => (0, None)
  end.
Definition ex_cst : cst := Cst ex_qst no_ids 0.
Definition ex_wp : wprofile := WProfile true false [] 0 5 true.
Definition run_cst {A} (o : option (A * cst)) : cst := match o with Some (_, s) => s | None => ex_cst end.
Definition ex_init : cst := run_cst (QmiWwanInit ex_granting ex_wp ex_cst).

Lemma client_ids_balanced_witness :
  entries 0 (qmiclientId ex_init) = [(1, 7); (2, 7); (3, 7); (11, 7); (1, 7); (26, 7)] /\
  qmiclientId (run_cst (QmiWwanDeInit ex_granting ex_init)) = no_ids.
Proof.
  split; [reflexivity|].
  refine (proj1 (client_ids_balanced ex_granting ex_wp ex_cst 5 (Some 7) ex_init 0
    (run_cst (QmiWwanDeInit ex_granting ex_init)) eq_refl _ _)); vm_compute; reflexivity.
Defined.

(** A modem that refuses without naming a service and an identifier is read past
    the end of its response: the identifier is loaded before the result. *)
Lemma refused_client_overread md t s m :
  (forall pre r, md pre r = (0, Some m)) -> zlen m = 19 -> QmiWwanGetClientID md t s = None.
Proof.
  intros Hmd Hm. destruct (QmiWwanGetClientID md t s) as [[x s']|] eqn:H; [|done]. exfalso.
  unfold QmiWwanGetClientID in H. apply st_bind_inv in H as (y & s1 & (tid & -> & _)%ctl_request_inv & H).
  rewrite Hmd in H. apply st_bind_inv in H as (y & s2 & _ & H).
  apply st_bind_inv in H as (c & s3 & [Ec _]%load_lift_inv & _).
  assert (Hs : is_Some (zget m off_rsp_ClientId)) by by eexists.
  apply zget_is_Some in Hs. unfold off_rsp_ClientId in Hs. lia.
Qed.
