(* ===== verification/QmiEth.v ===== *)
(** * Negotiation of the data format: [requestSetEthMode] of [QMIThread.c]

    The members of the profile the function uses and stores, and the setting it
    hands to the network driver with [ql_set_driver_qmap_setting]. *)

From S2P Require Import Prelude CLib QmiMsg QmiReq QmiCard.

(** ** Data *)

Inductive hardware := HARDWARE_USB | HARDWARE_PCIE | HARDWARE_IPA | HARDWARE_OTHER.

Definition DATA_EP_TYPE_HSUSB : Z := 0x2.
Definition DATA_EP_TYPE_PCIE : Z := 0x3.
Definition DATA_EP_TYPE_EMBEDDED : Z := 0x4.

Record rmnet_info := RmnetInfo {
  ri_size : Z; ri_rx_urb_size : Z; ri_ep_type : Z; ri_iface_id : Z; ri_qmap_version : Z; ri_dl_minimum_padding : Z }.

Record eprofile := EProfile {
  e_qmap_mode : Z; e_rawIP : bool; e_muxid : Z; e_hardware : hardware; e_qmap_size : Z; e_idProduct : Z;
  e_qmap_version : Z; e_rmnet : rmnet_info; e_wda_client : Z; e_ipv4 : bool; e_ipv6 : bool; e_qmapnet : bool }.

Definition set_rawIP (p : eprofile) (b : bool) : eprofile :=
  EProfile (e_qmap_mode p) b (e_muxid p) (e_hardware p) (e_qmap_size p) (e_idProduct p) (e_qmap_version p)
    (e_rmnet p) (e_wda_client p) (e_ipv4 p) (e_ipv6 p) (e_qmapnet p).
Definition set_qversion (p : eprofile) (v : Z) : eprofile :=
  EProfile (e_qmap_mode p) (e_rawIP p) (e_muxid p) (e_hardware p) (e_qmap_size p) (e_idProduct p) v
    (e_rmnet p) (e_wda_client p) (e_ipv4 p) (e_ipv6 p) (e_qmapnet p).

Definition no_setting : QMAP_SETTING := QmapSetting 0 0 0 0 0 0 0.
Definition set_urb (q : QMAP_SETTING) (x : Z) : QMAP_SETTING :=
  QmapSetting x (q_ep_type q) (q_iface_id q) (q_MuxId q) (q_ul_max_datagrams q) (q_ul_max_size q) (q_dl_minimum_padding q).
Definition set_ul (q : QMAP_SETTING) (n size pad : Z) : QMAP_SETTING :=
  QmapSetting (q_rx_urb_size q) (q_ep_type q) (q_iface_id q) (q_MuxId q) n size pad.

(** ** The operation *)

(** The first part for aggregation over USB and PCIe, before the driver's own
    values. *)
Definition usb_setting (p : eprofile) : QMAP_SETTING :=
  let '(ep, iface) :=
    match e_hardware p with
    | HARDWARE_PCIE => (DATA_EP_TYPE_PCIE, 0x04)
    | _ => (DATA_EP_TYPE_HSUSB, if e_idProduct p =? 0x0316 then 0x03 else 0x04)
    end in
  QmapSetting (u32 (e_qmap_size p)) ep iface (u32 (e_muxid p)) 11 (8 * 1024) 0.

Definition rmnet_setting (i : rmnet_info) (q : QMAP_SETTING) : QMAP_SETTING :=
  if ri_size i =? 0 then q
  else QmapSetting (ri_rx_urb_size i) (ri_ep_type i) (ri_iface_id i) (q_MuxId q) (q_ul_max_datagrams q)
         (q_ul_max_size q) (ri_dl_minimum_padding i).

(** The setting, the profile and whether the data format is set. *)
Definition eth_prepare (p : eprofile) : act (QMAP_SETTING * eprofile * bool) :=
  if e_qmap_mode p =? 0 then mret (no_setting, p, true)
  else
    let p := set_rawIP p true in
    modify (fun s => set_9x07 s true);;
    match e_hardware p with
    | HARDWARE_IPA =>
        mret (QmapSetting (u32 (e_qmap_size p)) DATA_EP_TYPE_EMBEDDED 1 (u32 (e_muxid p)) 0 0 0, p, false)
    | _ =>
        let p := if e_qmap_version p =? 0x09 then p else set_qversion p 0x05 in
        modify (fun s => set_version s (e_qmap_version p));;
        (if ri_size (e_rmnet p) =? 0 then mret tt else modify (fun s => set_version s (ri_qmap_version (e_rmnet p))));;
        mret (rmnet_setting (e_rmnet p) (usb_setting p), p, negb (e_wda_client p =? 0))
    end.

(** [if ((tlv = GetTLV(t))) ... tlv->Value ...] on a 32-bit field. *)
Definition u32_tlv (m : bytes) (t : Z) : act (option Z) :=
  p ← tlv m t;
  match p with Some p => x ← load (rd32 m (p + 3)); mret (Some x) | None => mret None end.

(** What the response changes, and the call of the driver. *)
Definition eth_response (m : bytes) (q : QMAP_SETTING) (p : eprofile) : act (QMAP_SETTING * eprofile * option QMAP_SETTING) :=
  link ← u32_tlv m 0x11;
  p ← match link with
      | Some x => modify (fun s => set_9x07 s (x =? 2));; mret (set_rawIP p (x =? 2))
      | None => mret p
      end;
  urb ← u32_tlv m 0x16;
  let q := match urb with Some x => if e_qmap_mode p =? 0 then q else set_urb q x | None => q end in
  if q_ul_max_datagrams q =? 0 then mret (q, p, None)
  else
    n ← u32_tlv m 0x17;
    size ← u32_tlv m 0x18;
    pad ← u32_tlv m 0x1A;
    let q := set_ul q
      (match n with Some x => Z.min (q_ul_max_datagrams q) x | None => q_ul_max_datagrams q end)
      (match size with Some x => Z.min (q_ul_max_size q) x | None => q_ul_max_size q end)
      (match pad with Some x => x | None => q_dl_minimum_padding q end) in
    mret (q, p, if 1 <? q_ul_max_datagrams q then Some q else None).

(** A request whose answer is thrown away. *)
Definition request_any (md : modem) (QMIType Type_ : Z) (custom : option builder) : act unit :=
  r ← compose QMIType Type_ custom; send md r;; mret tt.

(** The requests for one address family; [Some err] ends the function. *)
Definition eth_family (md : modem) (p : eprofile) (q : QMAP_SETTING) (fam : Z) (checked : bool) : act (option Z) :=
  bind ← (if e_qmapnet p then
            rsp ← request md (wds_type fam) QMIWDS_BIND_MUX_DATA_PORT_REQ (Some (WdsSetQMUXBindMuxDataPort q));
            mret (match rsp with inl err => Some err | inr _ => None end)
          else mret None);
  match bind with
  | Some err => mret (Some err)
  | None =>
      if checked then
        rsp ← request md (wds_type fam) QMIWDS_SET_CLIENT_IP_FAMILY_PREF_REQ (Some (WdsSetClientIPFamilyPref fam));
        mret (match rsp with inl err => Some err | inr _ => None end)
      else
        request_any md (wds_type fam) QMIWDS_SET_CLIENT_IP_FAMILY_PREF_REQ (Some (WdsSetClientIPFamilyPref fam));;
        mret None
  end.

Definition eth_families (md : modem) (p : eprofile) (q : QMAP_SETTING) : act (option Z) :=
  r ← (if e_ipv4 p then eth_family md p q IpFamilyV4 false else mret None);
  match r with
  | Some err => mret (Some err)
  | None => if e_ipv6 p then eth_family md p q IpFamilyV6 true else mret None
  end.

Definition eth_tail (md : modem) (p : eprofile) (q : QMAP_SETTING) (drv : option QMAP_SETTING)
  : act (Z * eprofile * option QMAP_SETTING) :=
  r ← eth_families md p q;
  match r with
  | Some err => mret (err, p, drv)
  | None => request_any md QMUX_TYPE_WDS QMIWDS_SET_AUTO_CONNECT_REQ (Some (WdsSetAutoConnect 0));; mret (0, p, drv)
  end.

(** From the test of [wda_client] on. *)
Definition eth_run (md : modem) (x : QMAP_SETTING * eprofile * bool) : act (Z * eprofile * option QMAP_SETTING) :=
  let '(q, p, format) := x in
  if format then
    version ← gets qmap_version;
    rsp ← request md QMUX_TYPE_WDS_ADMIN QMIWDS_ADMIN_SET_DATA_FORMAT_REQ (Some (WdaSetDataFormat version q));
    match rsp with
    | inl err => mret (err, p, None)
    | inr m => y ← eth_response m q p; eth_tail md (snd (fst y)) (fst (fst y)) (snd y)
    end
  else eth_tail md p q None.

(** The return value, the profile and the setting given to the driver. *)
Definition requestSetEthMode (md : modem) (p : eprofile) : act (Z * eprofile * option QMAP_SETTING) :=
  x ← eth_prepare p; eth_run md x.

(** ** The requests of a negotiation *)

(** Service and type of a request. *)
Definition kind (r : bytes) : option (Z * Z) := t ← zget r 4; ty ← rd16 r off_hdr; Some (t, ty).

Definition family_plan (p : eprofile) (fam : Z) : list (Z * Z) :=
  (if e_qmapnet p then [(wds_type fam, QMIWDS_BIND_MUX_DATA_PORT_REQ)] else []) ++
  [(wds_type fam, QMIWDS_SET_CLIENT_IP_FAMILY_PREF_REQ)].

(** The data format is left alone inside the modem and without a client of the
    service when QMAP is on. *)
Definition sets_format (p : eprofile) : bool :=
  (e_qmap_mode p =? 0) ||
  (match e_hardware p with HARDWARE_IPA => false | _ => true end && negb (e_wda_client p =? 0)).

Definition tail_plan (p : eprofile) : list (Z * Z) :=
  (if e_ipv4 p then family_plan p IpFamilyV4 else []) ++ (if e_ipv6 p then family_plan p IpFamilyV6 else []) ++
  [(QMUX_TYPE_WDS, QMIWDS_SET_AUTO_CONNECT_REQ)].

Definition eth_plan (p : eprofile) : list (Z * Z) :=
  (if sets_format p then [(QMUX_TYPE_WDS_ADMIN, QMIWDS_ADMIN_SET_DATA_FORMAT_REQ)] else []) ++ tail_plan p.

(** From [s] to [s'] requests of the kinds [l] were sent. *)
Definition sends (s s' : qst) (l : list (Z * Z)) : Prop :=
  exists ms, q_sent s' = q_sent s ++ ms /\ map kind ms = map Some l.

(** ** Lemmas *)

Lemma sends_nil s s' : q_sent s' = q_sent s -> sends s s' [].
Proof. intros E. exists []. by rewrite app_nil_r. Qed.

Lemma sends_trans s1 s2 s3 l1 l2 : sends s1 s2 l1 -> sends s2 s3 l2 -> sends s1 s3 (l1 ++ l2).
Proof.
  intros (m1 & E1 & K1) (m2 & E2 & K2). exists (m1 ++ m2). rewrite E2, E1, app_assoc. split; [done|].
  by rewrite !map_app, K1, K2.
Qed.

Lemma kind_fixed tid q ty l r :
  in_u 8 q -> in_u 16 ty -> ComposeQMUXMsg tid q ty (Some (fixed_req l)) = Some r -> kind r = Some (q, ty).
Proof.
  intros Hq Ht. rewrite compose_fixed. destruct (fits 243 l); [|done]. intros [= <-].
  unfold kind, qmi_request, qmux_body. cbn [mbind option_bind].
  change (zget _ 4) with (Some (u8 q)). cbn [mbind option_bind].
  set (h := [1] ++ w16 (zlen (encode (map tlv_of l)) + 12) ++ [0; u8 q; u8 0; 0] ++ w16 tid).
  change (rd16 (h ++ w16 ty ++ w16 (zlen (encode (map tlv_of l))) ++ encode (map tlv_of l)) off_hdr
    ≫= (fun ty0 : Z => Some (u8 q, ty0)) = Some (q, ty)).
  rewrite rd16_app by done. cbn [mbind option_bind]. unfold wrap. by rewrite Z.mod_small by (unfold in_u in Hq; lia).
Qed.

Lemma request_sends md q ty l s x s' :
  in_u 8 q -> in_u 16 ty -> request md q ty (Some (fixed_req l)) s = Some (x, s') -> sends s s' [(q, ty)].
Proof.
  intros Hq Ht (r & Hc & -> & _)%request_inv. exists [r]. split; [done|]. cbn [map]. by erewrite (kind_fixed _ q ty l r) by done.
Qed.

Lemma any_sends md q ty l s x s' :
  in_u 8 q -> in_u 16 ty -> request_any md q ty (Some (fixed_req l)) s = Some (x, s') -> sends s s' [(q, ty)].
Proof.
  intros Hq Ht. unfold request_any. intros (r & s1 & [Hc ->]%compose_inv & H)%st_bind_inv.
  apply st_bind_inv in H as (y & s2 & [_ ->]%send_inv & [_ ->]%st_ret_inv).
  exists [r]. split; [done|]. cbn [map]. by erewrite (kind_fixed _ q ty l r) by done.
Qed.

Lemma wds_type_u8 fam : in_u 8 (wds_type fam).
Proof. unfold wds_type. by case_match; compute. Qed.

(** A family sends its plan, or the first part of it and gives up. *)
Lemma family_sends md p q fam chk s r s' :
  eth_family md p q fam chk s = Some (r, s') ->
  match r with
  | None => sends s s' (family_plan p fam)
  | Some _ => exists l, sends s s' l /\ l `prefix_of` family_plan p fam
  end.
Proof.
  unfold eth_family, family_plan. intros (b & s1 & H1 & H)%st_bind_inv. pose proof (wds_type_u8 fam) as Hu.
  assert (Hb : sends s s1 (if e_qmapnet p then [(wds_type fam, QMIWDS_BIND_MUX_DATA_PORT_REQ)] else [])).
  { destruct (e_qmapnet p); [|apply st_ret_inv in H1 as [_ ->]; by apply sends_nil].
    apply st_bind_inv in H1 as (x & s2 & H1 & [_ ->]%st_ret_inv). by apply request_sends in H1; [|done|by compute]. }
  destruct b as [err|].
  { apply st_ret_inv in H as [-> ->]. eexists. split; [exact Hb|]. by apply prefix_app_r. }
  destruct chk.
  - apply st_bind_inv in H as (x & s2 & H & [-> ->]%st_ret_inv). apply request_sends in H; [|done|by compute].
    pose proof (sends_trans _ _ _ _ _ Hb H) as Ht. destruct x; [|done]. by eexists.
  - apply st_bind_inv in H as (x & s2 & H & [-> ->]%st_ret_inv). apply any_sends in H; [|done|by compute].
    by apply (sends_trans s s1 s2).
Qed.

Lemma tail_sends md p q d s ret p' d' s' :
  eth_tail md p q d s = Some ((ret, p', d'), s') ->
  p' = p /\ d' = d /\ exists l, sends s s' l /\ l `prefix_of` tail_plan p /\
  (l = tail_plan p /\ ret = 0 \/ (length l < length (tail_plan p))%nat).
Proof.
  unfold eth_tail, eth_families, tail_plan. intros (r & s2 & H1 & H)%st_bind_inv.
  apply st_bind_inv in H1 as (r4 & s1 & H4 & H6).
  assert (P4 : match r4 with
    | None => sends s s1 (if e_ipv4 p then family_plan p IpFamilyV4 else [])
    | Some _ => exists l, sends s s1 l /\ l `prefix_of` (if e_ipv4 p then family_plan p IpFamilyV4 else []) end).
  { destruct (e_ipv4 p); [by apply family_sends in H4|]. apply st_ret_inv in H4 as [-> ->]. by apply sends_nil. }
  set (f4 := if e_ipv4 p then family_plan p IpFamilyV4 else []) in *.
  set (f6 := if e_ipv6 p then family_plan p IpFamilyV6 else []).
  destruct r4 as [e4|].
  { apply st_ret_inv in H6 as [-> ->]. apply st_ret_inv in H as [[= -> -> ->] ->]. split; [done|]. split; [done|].
    destruct P4 as (l & S & Hp). exists l. split; [done|]. split; [by apply prefix_app_r|]. right.
    apply prefix_length in Hp. rewrite !length_app. cbn. lia. }
  assert (P6 : match r with
    | None => sends s1 s2 f6
    | Some _ => exists l, sends s1 s2 l /\ l `prefix_of` f6 end).
  { unfold f6. destruct (e_ipv6 p); [by apply family_sends in H6|]. apply st_ret_inv in H6 as [-> ->]. by apply sends_nil. }
  destruct r as [e6|].
  { apply st_ret_inv in H as [[= -> -> ->] ->]. split; [done|]. split; [done|]. destruct P6 as (l & S & Hp).
    exists (f4 ++ l). split; [by apply (sends_trans s s1 s2)|]. split; [by apply prefix_app, prefix_app_r|]. right.
    apply prefix_length in Hp. rewrite !length_app. cbn. lia. }
  apply st_bind_inv in H as (u & s3 & Ha & [[= -> -> ->] ->]%st_ret_inv). apply any_sends in Ha; [|by compute|by compute].
  split; [done|]. split; [done|]. eexists. split; [|split; [reflexivity|by left]].
  apply (sends_trans s s1 s3); [done|]. by apply (sends_trans s1 s2 s3).
Qed.

(** The parts the plan depends on stay. *)
Definition same_plan (p p' : eprofile) : Prop :=
  e_ipv4 p' = e_ipv4 p /\ e_ipv6 p' = e_ipv6 p /\ e_qmapnet p' = e_qmapnet p.

Lemma same_plan_tail p p' : same_plan p p' -> tail_plan p' = tail_plan p.
Proof. intros (E1 & E2 & E3). unfold tail_plan, family_plan. by rewrite E1, E2, E3. Qed.

Lemma usb_ul i p :
  q_ul_max_datagrams (rmnet_setting i (usb_setting p)) = 11 /\ q_ul_max_size (rmnet_setting i (usb_setting p)) = 8192.
Proof. unfold rmnet_setting, usb_setting. by destruct (ri_size i =? 0), (e_hardware p). Qed.

Lemma prepare_inv p s x s' :
  eth_prepare p s = Some (x, s') ->
  same_plan p (snd (fst x)) /\ q_sent s' = q_sent s /\ snd x = sets_format p /\
  (q_ul_max_datagrams (fst (fst x)) = 11 /\ q_ul_max_size (fst (fst x)) = 8192 /\ e_qmap_mode p <> 0 \/
   q_ul_max_datagrams (fst (fst x)) = 0).
Proof.
  unfold eth_prepare, sets_format. destruct (Z.eqb_spec (e_qmap_mode p) 0) as [E|E].
  { intros [-> ->]%st_ret_inv. split; [done|]. auto. }
  intros (u & s1 & ->%st_modify_inv & H)%st_bind_inv.
  change (e_hardware (set_rawIP p true)) with (e_hardware p) in H.
  destruct (e_hardware p) eqn:Eh;
    [| |apply st_ret_inv in H as [-> ->]; split; [done|]; auto|]; cbn [orb andb].
  all: apply st_bind_inv in H as (u2 & s2 & ->%st_modify_inv & H); apply st_bind_inv in H as (u3 & s3 & H3 & [-> ->]%st_ret_inv).
  all: assert (Eq : q_sent s3 = q_sent s) by (case_match; [by apply st_ret_inv in H3 as [_ ->]|by apply st_modify_inv in H3 as ->]).
  all: cbn [fst snd]; rewrite Eq.
  all: set (p1 := if _ =? 9 then _ else _).
  all: assert (Hp : same_plan p p1 /\ e_wda_client p1 = e_wda_client p) by (unfold p1; by destruct (_ =? 9)).
  all: destruct Hp as [Hp ->]; split; [done|]; split; [done|]; split; [done|]; left.
  all: by destruct (usb_ul (e_rmnet p1) p1).
Qed.

Lemma u32_tlv_inv m t s x s' : u32_tlv m t s = Some (x, s') -> s' = s.
Proof. intros H. unfold u32_tlv in H. by run_in H. Qed.

Lemma response_inv m q p s y s' :
  eth_response m q p s = Some (y, s') ->
  same_plan p (snd (fst y)) /\ q_sent s' = q_sent s /\
  forall d, snd y = Some d ->
    1 < q_ul_max_datagrams d <= q_ul_max_datagrams q /\ q_ul_max_size d <= q_ul_max_size q /\ d = fst (fst y).
Proof.
  unfold eth_response. intros (link & s1 & ->%u32_tlv_inv & H)%st_bind_inv.
  apply st_bind_inv in H as (p1 & s1 & H1 & H). apply st_bind_inv in H as (urb & s2 & ->%u32_tlv_inv & H).
  assert (Hp : same_plan p p1 /\ q_sent s1 = q_sent s).
  { destruct link; [|by apply st_ret_inv in H1 as [-> ->]].
    by apply st_bind_inv in H1 as (u & s3 & ->%st_modify_inv & [-> ->]%st_ret_inv). }
  set (q1 := match urb with Some x => _ | None => q end) in *.
  assert (Hq : q_ul_max_datagrams q1 = q_ul_max_datagrams q /\ q_ul_max_size q1 = q_ul_max_size q)
    by (unfold q1; repeat case_match; done).
  destruct (q_ul_max_datagrams q1 =? 0); [by apply st_ret_inv in H as [-> ->]; destruct Hp|].
  apply st_bind_inv in H as (n & s3 & ->%u32_tlv_inv & H). apply st_bind_inv in H as (size & s3 & ->%u32_tlv_inv & H).
  apply st_bind_inv in H as (pad & s3 & ->%u32_tlv_inv & [-> ->]%st_ret_inv). destruct Hp, Hq as [Hq1 Hq2].
  split; [done|]. split; [done|]. cbn [fst snd]. intros d. set (q2 := set_ul _ _ _ _).
  destruct (Z.ltb_spec 1 (q_ul_max_datagrams q2)) as [Hl|]; [|done]. intros [= <-]. subst q2. cbn [q_ul_max_datagrams q_ul_max_size set_ul] in *. rewrite Hq1, Hq2 in *.
  split; [|split; [|done]]; repeat case_match; lia.
Qed.

(** ** Theorems *)

(** The negotiation of the data format follows its plan: the requests sent
    are the data format (unless the profile leaves it alone), for IPv4 and then
    for IPv6, when enabled, the binding of the data port and the address family,
    and at last the end of auto-connect; they stop early only after an answer
    that the code checks, and a run that sends them all returns 0.  The driver is
    given a setting only with QMAP on and only one that aggregates 2 to 11
    datagrams of at most 8 KiB, whatever the modem answers. *)
Theorem eth_mode_plan md p s ret p' d s' :
  requestSetEthMode md p s = Some ((ret, p', d), s') ->
  (exists l, sends s s' l /\ l `prefix_of` eth_plan p /\
    (l = eth_plan p /\ ret = 0 \/ (length l < length (eth_plan p))%nat)) /\
  (forall q, d = Some q -> e_qmap_mode p <> 0 /\ 2 <= q_ul_max_datagrams q <= 11 /\ q_ul_max_size q <= 8192).
Proof.
  unfold requestSetEthMode, eth_plan. intros (x & s1 & (Hp & Hs & Hf & Hu)%prepare_inv & H)%st_bind_inv.
  destruct x as [[q p1] fmt]. cbn [fst snd] in *. rewrite <- Hf, <- (same_plan_tail p p1 Hp).
  apply sends_nil in Hs. unfold eth_run in H. destruct fmt.
  - apply st_bind_inv in H as (v & s2 & [-> ->]%st_gets_inv & H). apply st_bind_inv in H as (rsp & s2 & H1 & H).
    apply request_sends in H1; [|by compute|by compute]. pose proof (sends_trans _ _ _ _ _ Hs H1) as S. cbn [app] in S.
    destruct rsp as [err|m].
    { apply st_ret_inv in H as [[= -> -> ->] ->]. split; [|done]. eexists. split; [exact S|].
      split; [apply prefix_app_r; done|]. right. rewrite length_app. unfold tail_plan. rewrite !length_app. cbn. lia. }
    apply st_bind_inv in H as (y & s3 & (Hp2 & Hs2 & Hd)%response_inv & H).
    apply tail_sends in H as (-> & -> & l & Sl & Hl & Hr). rewrite (same_plan_tail _ _ Hp2) in Hl, Hr.
    apply sends_nil in Hs2. pose proof (sends_trans _ _ _ _ _ Hs2 Sl) as S3. cbn [app] in S3. split.
    + eexists. split; [exact (sends_trans _ _ _ _ _ S S3)|]. split; [by apply prefix_app|].
      destruct Hr as [[-> ->]|]; [by left|right]. cbn. lia.
    + intros q' E. destruct (Hd q' E) as (? & ? & _). destruct Hu as [(E1 & E2 & ?)|E0]; [|lia].
      split; [done|]. lia.
  - apply tail_sends in H as (-> & -> & l & Sl & Hl & Hr). split; [|done]. exists l.
    split; [exact (sends_trans _ _ _ _ _ Hs Sl)|done].
Qed.

Definition ex_eprofile : eprofile :=
  EProfile 1 false 0x81 HARDWARE_PCIE 32768 0x0800 9 (RmnetInfo 0 0 0 0 0 0) 7 true true true.
Definition ex_format : modem := fun _ _ =>
  (0, Some (response QMUX_TYPE_WDS 1 0 0x20 0 0 [(0x11, w32 2); (0x16, w32 16384); (0x17, w32 20); (0x18, w32 4096)])).
Definition ex_eth_q : QMAP_SETTING := QmapSetting 16384 3 4 0x81 11 4096 0.


Lemma ex_eth_run : exists p' s', requestSetEthMode ex_format ex_eprofile ex_qst = Some ((0, p', Some ex_eth_q), s').
Proof. eexists _, _. vm_compute. reflexivity. Qed.

Lemma eth_mode_plan_witness : ex_eth_q <> no_setting /\ 2 <= q_ul_max_datagrams ex_eth_q <= 11.
Proof.
  split; [done|]. destruct ex_eth_run as (p' & s' & E).
  exact (proj1 (proj2 (proj2 (eth_mode_plan ex_format ex_eprofile ex_qst 0 p' (Some ex_eth_q) s' E) ex_eth_q eq_refl))).
Defined.
