(* ===== verification/MbimMsg.v ===== *)
(** * MBIM control messages: [mbim-cm.c]

    Messages are the bytes of the packed structures of the file, numbers in
    little-endian order.  The command message is its header (12 bytes), the
    fragment header (8), the service's UUID (16), CID, command type and the length
    of the information buffer (4 each) and the information buffer. *)

From S2P Require Import Prelude CLib QmiMsg QmiReq.

(** ** Layout and constants *)

Definition sizeof_MBIM_MESSAGE_HEADER : Z := 12.
Definition sizeof_MBIM_OPEN_MSG : Z := 16.
Definition sizeof_MBIM_CLOSE_MSG : Z := 12.
Definition sizeof_MBIM_COMMAND_MSG : Z := 48.
Definition sizeof_MBIM_SET_CONNECT : Z := 60.
Definition sizeof_MBIM_IP_CONFIGURATION_INFO : Z := 60.

Definition MBIM_OPEN_MSG : Z := 1.
Definition MBIM_CLOSE_MSG : Z := 2.
Definition MBIM_COMMAND_MSG : Z := 3.
Definition MBIM_OPEN_DONE : Z := 0x80000001.
Definition MBIM_CLOSE_DONE : Z := 0x80000002.
Definition MBIM_COMMAND_DONE : Z := 0x80000003.
Definition MBIM_FUNCTION_ERROR_MSG : Z := 0x80000004.
Definition MBIM_INDICATE_STATUS_MSG : Z := 0x80000007.

Definition MBIM_CID_CMD_TYPE_QUERY : Z := 0.
Definition MBIM_CID_CMD_TYPE_SET : Z := 1.
Definition MBIM_CID_DEVICE_CAPS : Z := 1.
Definition MBIM_CID_SUBSCRIBER_READY_STATUS : Z := 2.
Definition MBIM_CID_RADIO_STATE : Z := 3.
Definition MBIM_CID_REGISTER_STATE : Z := 9.
Definition MBIM_CID_PACKET_SERVICE : Z := 10.
Definition MBIM_CID_CONNECT : Z := 12.
Definition MBIM_CID_IP_CONFIGURATION : Z := 15.
Definition MBIM_CID_DEVICE_SERVICES : Z := 16.
Definition MBIM_CID_MS_VERSION : Z := 15.
Definition MBIM_CID_PROXY_CONTROL_CONFIGURATION : Z := 1.

Definition UUID_BASIC_CONNECT : bytes := bs "a289cc33-bcbb-8b4f-b6b0-133ec2aae6df".
Definition UUID_BASIC_CONNECT_EXT : bytes := bs "3d01dcc5-fef5-4d05-0d3a-bef7058e9aaf".
Definition uuid_ext_qmux : bytes := bs "d1a30bc2-f97a-6e43-bf65-c7e24fb0f0d3".
Definition UUID_LIBMBIM_PROXY : bytes := bs "838cf7fb-8d0d-4d7f-871e-d71dbefbb39b".
Definition UUID_MBIMContextTypeInternet : bytes := bs "7E5E2A7E-4E6F-7272-736B-656E7E5E2A7E".

Definition MBIMActivationCommandDeactivate : Z := 0.
Definition MBIMActivationCommandActivate : Z := 1.
Definition MBIMCompressionNone : Z := 0.

(** ** UUIDs *)

Definition tolower (c : Z) : Z := if (65 <=? c) && (c <=? 90) then c + 32 else c.

Definition hex_value (c : Z) : option Z :=
  if (48 <=? c) && (c <=? 57) then Some (c - 48)
  else if (97 <=? c) && (c <=? 102) then Some (c - 87) else None.
Definition hex_digit (x : Z) : Z := if x <? 10 then x + 48 else x + 87.

(** The format of [str2uuid] and [uuid2str]: bytes ([true]) and dashes. *)
Definition uuid_format : list bool :=
  replicate 4 true ++ [false] ++ replicate 2 true ++ [false] ++ replicate 2 true ++ [false] ++
  replicate 2 true ++ [false] ++ replicate 6 true.

(** [None] where [sscanf] would stop and leave a number unset. *)
Fixpoint scan_uuid (f : list bool) (s : bytes) : option bytes :=
  match f with
  | [] => Some []
  | true :: f =>
      match s with
      | a :: b :: s =>
          match hex_value a, hex_value b with
          | Some x, Some y => l ← scan_uuid f s; Some (16 * x + y :: l)
          | _, _ => None
          end
      | _ => None
      end
  | false :: f => match s with c :: s => if c =? 45 then scan_uuid f s else None | [] => None end
  end.

Definition str2uuid (str : bytes) : option bytes := scan_uuid uuid_format (map tolower str).

Fixpoint print_uuid (f : list bool) (d : bytes) : bytes :=
  match f with
  | [] => []
  | true :: f => match d with x :: d => hex_digit (x / 16) :: hex_digit (x mod 16) :: print_uuid f d | [] => [] end
  | false :: f => 45 :: print_uuid f d
  end.

Definition uuid2str (d : bytes) : bytes := print_uuid uuid_format d.

Definition strcasecmp_eq (a b : bytes) : bool := bool_decide (map tolower a = map tolower b).

(** ** Strings *)

(** [wchar2char]: every other byte from [off] on, at most [dst_len - 1] of them. *)
Fixpoint narrow (n : nat) (d : bytes) (off : Z) : option bytes :=
  match n with
  | O => Some []
  | S n => x ← zget d off; l ← narrow n d (off + 2); Some (x :: l)
  end.
Definition wchar2char (d : bytes) (off src_size dst_len : Z) : option bytes :=
  narrow (Z.to_nat (Z.min (dst_len - 1) (src_size / 2))) d off.

Definition widen (s : bytes) : bytes := concat (map (fun x => [x; 0]) s).
Definition char2wchar (src : bytes) (dst_len : Z) : bytes := widen (ztake (Z.min (zlen src) (dst_len / 2)) src).

Definition mbim2qmi_ipv4addr (addr : Z) : Z :=
  Z.lor (Z.lor (Z.shiftr addr 24) (Z.land (Z.shiftr addr 8) 0xff00))
        (Z.lor (Z.land (Z.shiftl addr 8) 0xff0000) (u32 (Z.shiftl addr 24))).

(** ** Composing *)

Definition message_header (type len tid : Z) : bytes := w32 type ++ w32 len ++ w32 tid.

Definition compose_open_command (tid MaxControlTransfer : Z) : bytes :=
  message_header MBIM_OPEN_MSG sizeof_MBIM_OPEN_MSG tid ++ w32 MaxControlTransfer.

Definition compose_close_command (tid : Z) : bytes := message_header MBIM_CLOSE_MSG sizeof_MBIM_CLOSE_MSG tid.

(** [junk]: what the allocated information buffer holds when none is given. *)
Definition compose_basic_connect_command (tid CID CommandType : Z) (info : option bytes) (len : Z) (junk : bytes) : option bytes :=
  uuid ← str2uuid UUID_BASIC_CONNECT;
  let head := message_header MBIM_COMMAND_MSG (sizeof_MBIM_COMMAND_MSG + len) tid ++ w32 1 ++ w32 0 ++ uuid ++ w32 CID ++ w32 CommandType in
  match info with
  | Some b => if negb (len =? 0) then Some (head ++ w32 len ++ b) else Some (head ++ w32 0 ++ junk)
  | None => Some (head ++ w32 0 ++ junk)
  end.

(** The UUID of the service, replaced. *)
Definition set_service (uuid : bytes) (m : bytes) : option bytes := u ← str2uuid uuid; put 20 u m.

(** ** The connect request *)

Definition align_32 (len : Z) : Z := len + (if negb (len mod 4 =? 0) then 4 - len mod 4 else 0).

(** [mbim_apn && strlen(mbim_apn) > 0], and the length. *)
Definition str_len (s : option bytes) : Z := match s with Some s => zlen s | None => 0 end.

Definition connect_buflen (apn user pd : option bytes) : Z :=
  align_32 (align_32 (align_32 (2 * str_len apn) + 2 * str_len user) + 2 * str_len pd).

(** One string: its size and offset in the header, its characters in the data
    buffer; the offset after it. *)
Definition store_str (off_at size_at : Z) (s : option bytes) (buflen : Z) (x : bytes * Z) : option (bytes * Z) :=
  let '(b, offset) := x in
  match s with
  | Some s =>
      if 0 <? zlen s then
        b ← put size_at (w32 (2 * zlen s)) b;
        b ← put off_at (w32 (offset + sizeof_MBIM_SET_CONNECT)) b;
        let w := char2wchar s (buflen - offset) in
        b ← put (sizeof_MBIM_SET_CONNECT + offset) w b;
        Some (b, align_32 (zlen w))
      else Some x
  | None => Some x
  end.

Definition mbim_populate_connect_data (apn user pd : option bytes) : option (bytes * Z) :=
  let buflen := connect_buflen apn user pd in
  let b := replicate (Z.to_nat (sizeof_MBIM_SET_CONNECT + buflen)) 0 in
  x ← store_str 8 12 apn buflen (b, 0);
  x ← store_str 16 20 user buflen x;
  x ← store_str 24 28 pd buflen x;
  Some (fst x, buflen).

(** The fields [mbim_set_connect] adds. *)
Definition connect_info (onoff sessionID auth iptype : Z) (apn user pd : option bytes) : option bytes :=
  '(b, _) ← mbim_populate_connect_data apn user pd;
  b ← put 0 (w32 sessionID) b;
  b ← put 4 (w32 (if onoff =? 0 then MBIMActivationCommandDeactivate else MBIMActivationCommandActivate)) b;
  b ← put 32 (w32 MBIMCompressionNone) b;
  b ← put 36 (w32 auth) b;
  b ← put 40 (w32 iptype) b;
  u ← str2uuid UUID_MBIMContextTypeInternet;
  put 44 u b.

(** What the device finds in the information buffer. *)
Definition string_at (b : bytes) (off_at size_at : Z) : option bytes :=
  off ← rd32 b off_at; size ← rd32 b size_at; rdn b off size.

(** ** Stores and loads *)

(** [l] lies at offset [i]. *)
Definition lies (b : bytes) (i : Z) (l : bytes) : Prop := rdn b i (zlen l) = Some l.

Lemma put_some off l b : 0 <= off -> off + zlen l <= zlen b -> exists b', put off l b = Some b' /\ zlen b' = zlen b.
Proof.
  intros H1 H2. unfold put. rewrite (proj2 (Z.leb_le 0 off)), (proj2 (Z.leb_le _ (zlen b))) by lia. cbn [andb].
  eexists. split; [reflexivity|]. pose proof (zlen_nonneg l). rewrite !zlen_app, zlen_zdrop by lia.
  unfold ztake, zlen in *. rewrite length_take. lia.
Qed.

Lemma put_inv off l b b' :
  put off l b = Some b' -> 0 <= off /\ off + zlen l <= zlen b /\ zlen b' = zlen b /\
    b' = ztake off b ++ l ++ zdrop (off + zlen l) b.
Proof.
  intros H. assert (Hr : 0 <= off /\ off + zlen l <= zlen b).
  { unfold put in H. destruct (Z.leb_spec 0 off); [|done]. destruct (Z.leb_spec (off + zlen l) (zlen b)); [|done]. lia. }
  destruct (put_some off l b) as (b2 & E & Hl); [lia|lia|]. rewrite H in E. injection E as <-.
  split_and!; [lia|lia|done|]. unfold put in H. destruct (_ && _); [|done]. by injection H as <-.
Qed.

Lemma zlen_take {A} n (l : list A) : 0 <= n <= zlen l -> zlen (ztake n l) = n.
Proof. intros H. unfold ztake, zlen in *. rewrite length_take. lia. Qed.

Lemma put_lies off l b b' : put off l b = Some b' -> lies b' off l.
Proof. intros (H1 & H2 & _ & ->)%put_inv. pose proof (zlen_nonneg l). apply rdn_app; [|done]. rewrite zlen_take; lia. Qed.

Lemma rdn_Some d i n v : rdn d i n = Some v -> 0 <= i /\ i + n <= zlen d /\ v = ztake n (zdrop i d).
Proof.
  unfold rdn. destruct (Z.leb_spec 0 i); [|done]. destruct (Z.leb_spec (i + n) (zlen d)); [|done]. cbn. by intros [= <-].
Qed.

Lemma put_lies_other off l b b' i k :
  put off l b = Some b' -> lies b i k -> i + zlen k <= off \/ off + zlen l <= i -> lies b' i k.
Proof.
  intros Hp Hk Hd. apply put_inv in Hp as (H1 & H2 & Hl & E). unfold lies in *.
  apply rdn_Some in Hk as (K1 & K2 & K3). unfold rdn.
  rewrite (proj2 (Z.leb_le 0 i)), (proj2 (Z.leb_le (i + zlen k) (zlen b'))) by lia. cbn [andb]. f_equal. rewrite K3 at 2. subst b'.
  unfold ztake, zdrop, zlen in *. apply list_eq. intros x.
  destruct (decide (x < Z.to_nat (Z.of_nat (length k)))%nat) as [Hx|Hx].
  2: { rewrite !lookup_take_ge by lia. done. }
  rewrite !lookup_take_lt, !lookup_drop by lia.
  destruct Hd as [Hd|Hd].
  - rewrite lookup_app_l by (rewrite length_take; lia). by rewrite lookup_take_lt by lia.
  - rewrite lookup_app_r by (rewrite length_take; lia). rewrite lookup_app_r by (rewrite length_take; lia).
    rewrite lookup_drop. f_equal. rewrite length_take. lia.
Qed.

Lemma lies_rd32 b i x : in_u 32 x -> lies b i (w32 x) -> rd32 b i = Some x.
Proof.
  intros Hx Hl. pose proof (rdn_rd32 b i 4 (w32 x) 0 Hl ltac:(lia)) as H. rewrite Z.add_0_r in H. by rewrite H, rd32_w32.
Qed.

Lemma lies_string b off_at size_at off w :
  in_u 32 off -> in_u 32 (zlen w) -> lies b off_at (w32 off) -> lies b size_at (w32 (zlen w)) -> lies b off w ->
  string_at b off_at size_at = Some w.
Proof.
  intros H1 H2 H3 H4 H5. unfold string_at. rewrite (lies_rd32 b off_at off H1 H3), (lies_rd32 b size_at _ H2 H4). exact H5.
Qed.

Lemma zlen_widen s : zlen (widen s) = 2 * zlen s.
Proof. induction s as [|x s IH]; [done|]. unfold widen in *. cbn [map concat]. rewrite zlen_app, IH, !zlen_cons, zlen_nil. lia. Qed.

Lemma char2wchar_fits s n : 2 * zlen s <= n -> char2wchar s n = widen s.
Proof.
  intros H. unfold char2wchar. pose proof (Z.div_le_lower_bound n 2 (zlen s) ltac:(lia) ltac:(lia)). rewrite Z.min_l by lia.
  unfold ztake, zlen. rewrite Nat2Z.id, firstn_all. done.
Qed.

Lemma align_bounds n : 0 <= n -> n <= align_32 n < n + 4.
Proof. intros H. unfold align_32. pose proof (Z.mod_pos_bound n 4). destruct (Z.eqb_spec (n mod 4) 0); cbn [negb]; lia. Qed.

Lemma align_eq n : align_32 n = 4 * ((n + 3) / 4).
Proof. unfold align_32. pose proof (Z.div_mod n 4 ltac:(lia)). pose proof (Z.mod_pos_bound n 4 ltac:(lia)).
  pose proof (Z.div_mod (n + 3) 4 ltac:(lia)). pose proof (Z.mod_pos_bound (n + 3) 4 ltac:(lia)).
  destruct (Z.eqb_spec (n mod 4) 0); cbn [negb]; lia.
Qed.

Lemma align_mono m n : m <= n -> align_32 m <= align_32 n.
Proof. intros H. rewrite !align_eq. pose proof (Z.div_le_mono (m + 3) (n + 3) 4 ltac:(lia) ltac:(lia)). lia. Qed.

(** A stored string lies where its header says; everything outside its size,
    its offset and its characters stays. *)
Lemma store_str_spec off_at size_at s buflen b offset :
  0 <= offset -> 0 < zlen s -> offset + 2 * zlen s <= buflen -> zlen b = 60 + buflen ->
  0 <= off_at -> off_at + 4 <= 60 -> 0 <= size_at -> size_at + 4 <= 60 ->
  off_at + 4 <= size_at \/ size_at + 4 <= off_at ->
  exists b', store_str off_at size_at (Some s) buflen (b, offset) = Some (b', align_32 (2 * zlen s)) /\ zlen b' = zlen b /\
    lies b' off_at (w32 (offset + 60)) /\ lies b' size_at (w32 (2 * zlen s)) /\ lies b' (60 + offset) (widen s) /\
    (forall i k, lies b i k -> i + zlen k <= off_at \/ off_at + 4 <= i -> i + zlen k <= size_at \/ size_at + 4 <= i ->
       i + zlen k <= 60 + offset \/ 60 + offset + 2 * zlen s <= i -> lies b' i k).
Proof.
  intros H0 Hs Hf Hb A1 A2 B1 B2 Hd. unfold store_str. rewrite (proj2 (Z.ltb_lt 0 (zlen s))) by lia.
  change sizeof_MBIM_SET_CONNECT with 60. rewrite char2wchar_fits by lia. pose proof (zlen_widen s) as Hw.
  destruct (put_some size_at (w32 (2 * zlen s)) b) as (b1 & E1 & L1); [lia|rewrite zlen_w32; lia|]. rewrite E1. cbn [mbind option_bind].
  destruct (put_some off_at (w32 (offset + 60)) b1) as (b2 & E2 & L2); [lia|rewrite zlen_w32; lia|]. rewrite E2. cbn [mbind option_bind].
  destruct (put_some (60 + offset) (widen s) b2) as (b3 & E3 & L3); [lia|lia|]. rewrite E3. cbn [mbind option_bind]. rewrite Hw.
  exists b3. split; [done|]. split; [lia|].
  assert (Hk : forall i k, lies b i k -> i + zlen k <= off_at \/ off_at + 4 <= i -> i + zlen k <= size_at \/ size_at + 4 <= i ->
       i + zlen k <= 60 + offset \/ 60 + offset + 2 * zlen s <= i -> lies b3 i k).
  { intros i k H1 H2 H3 H4. eapply put_lies_other; [exact E3| |lia]. eapply put_lies_other; [exact E2| |rewrite zlen_w32; lia].
    eapply put_lies_other; [exact E1|done|rewrite zlen_w32; lia]. }
  split_and!; [| |by eapply put_lies|exact Hk].
  - eapply put_lies_other; [exact E3|by eapply put_lies|rewrite zlen_w32; lia].
  - eapply put_lies_other; [exact E3| |rewrite zlen_w32; lia].
    eapply put_lies_other; [exact E2|by eapply put_lies|rewrite !zlen_w32; lia].
Qed.

(** A field whose string may be missing or empty. *)
Lemma store_opt_spec off_at size_at s buflen b offset :
  0 <= offset -> offset + 2 * str_len s <= buflen -> zlen b = 60 + buflen ->
  0 <= off_at -> off_at + 4 <= size_at -> size_at + 4 <= 60 -> lies b off_at (w32 0) -> lies b size_at (w32 0) ->
  exists b', store_str off_at size_at s buflen (b, offset) =
      Some (b', if 0 <? str_len s then align_32 (2 * str_len s) else offset) /\ zlen b' = zlen b /\
    lies b' off_at (w32 (if 0 <? str_len s then offset + 60 else 0)) /\ lies b' size_at (w32 (2 * str_len s)) /\
    (0 < str_len s -> lies b' (60 + offset) (widen (default [] s))) /\
    (forall i k, lies b i k -> i + zlen k <= off_at \/ size_at + 4 <= i ->
       (0 < str_len s -> i + zlen k <= 60 + offset \/ 60 + offset + 2 * str_len s <= i) -> lies b' i k).
Proof.
  intros H0 Hf Hb A1 A2 B2 Lo Ls. destruct s as [s|]; [|by exists b; split_and!].
  cbn [str_len default] in *. destruct (Z.ltb_spec 0 (zlen s)) as [Hs|Hs].
  - destruct (store_str_spec off_at size_at s buflen b offset) as (b' & E & L & C1 & C2 & C3 & C4); try done; try lia.
    exists b'. split_and!; try done. intros i k Hk H1 H2. apply C4; [done|lia|lia|lia].
  - pose proof (zlen_nonneg s). assert (E : zlen s = 0) by lia. exists b. unfold store_str.
    rewrite (proj2 (Z.ltb_ge 0 (zlen s))) by lia. rewrite E. by split_and!.
Qed.

Lemma str_len_nonneg s : 0 <= str_len s. Proof. destruct s; [apply zlen_nonneg|done]. Qed.

Lemma zlen_widen_opt s : zlen (widen (default [] s)) = 2 * str_len s.
Proof. rewrite zlen_widen. by destruct s. Qed.

Lemma lies_zero n i k : 0 <= i -> i + zlen k <= Z.of_nat n -> Forall (eq 0) k -> lies (replicate n 0) i k.
Proof.
  intros H1 H2 H3. unfold lies, rdn. rewrite zlen_replicate.
  rewrite (proj2 (Z.leb_le 0 i)), (proj2 (Z.leb_le (i + zlen k) (Z.of_nat n))) by lia. cbn [andb]. f_equal.
  unfold ztake, zdrop. rewrite drop_replicate, take_replicate. unfold zlen in *. rewrite Nat2Z.id, Nat.min_l by lia.
  clear H1 H2. induction H3 as [|x k <- _ IH]; [done|]. cbn. by f_equal.
Qed.

Lemma lies_nil b : lies b 0 []. Proof. unfold lies, rdn. pose proof (zlen_nonneg b) as H. apply Z.leb_le in H. change (0 + zlen []) with 0. by rewrite H. Qed.

(** One string as the device will find it, at the offset the data has. *)
Lemma found b off_at size_at s off :
  2 * str_len s < 2 ^ 32 -> in_u 32 off ->
  lies b off_at (w32 (if 0 <? str_len s then off else 0)) -> lies b size_at (w32 (2 * str_len s)) ->
  (0 < str_len s -> lies b off (widen (default [] s))) -> string_at b off_at size_at = Some (widen (default [] s)).
Proof.
  intros Hn Ho L1 L2 L3. pose proof (str_len_nonneg s) as Hp.
  apply (lies_string b off_at size_at (if 0 <? str_len s then off else 0)); rewrite ?zlen_widen_opt; try done.
  - by destruct (0 <? str_len s).
  - split; lia.
  - destruct (Z.ltb_spec 0 (str_len s)); [by apply L3|].
    assert (E : default [] s = []).
    { destruct s as [[|x l]|]; done. }
    rewrite E. apply lies_nil.
Qed.

(** Stores of the fixed fields keep what lies outside of them. *)
Lemma put_frame off l b b' :
  put off l b = Some b' -> zlen b' = zlen b /\
    forall i k, lies b i k -> i + zlen k <= off \/ off + zlen l <= i -> lies b' i k.
Proof. intros H. split; [by apply put_inv in H as (_ & _ & E & _)|]. intros i k Hk Hd. by apply (put_lies_other off l b b'). Qed.

(** The three strings, as far as the data buffer is right. *)
Lemma populate_spec apn user pd :
  str_len apn = 0 \/ str_len user = 0 \/ str_len pd = 0 ->
  exists b, mbim_populate_connect_data apn user pd = Some (b, connect_buflen apn user pd) /\
    zlen b = 60 + connect_buflen apn user pd /\
    let o1 := align_32 (2 * str_len apn) in
    let o2 := if 0 <? str_len user then align_32 (2 * str_len user) else o1 in
    (lies b 8 (w32 (if 0 <? str_len apn then 60 else 0)) /\ lies b 12 (w32 (2 * str_len apn)) /\
     (0 < str_len apn -> lies b 60 (widen (default [] apn)))) /\
    (lies b 16 (w32 (if 0 <? str_len user then o1 + 60 else 0)) /\ lies b 20 (w32 (2 * str_len user)) /\
     (0 < str_len user -> lies b (60 + o1) (widen (default [] user)))) /\
    (lies b 24 (w32 (if 0 <? str_len pd then o2 + 60 else 0)) /\ lies b 28 (w32 (2 * str_len pd)) /\
     (0 < str_len pd -> lies b (60 + o2) (widen (default [] pd)))).
Proof.
  intros Hz. pose proof (str_len_nonneg apn) as Na. pose proof (str_len_nonneg user) as Nu. pose proof (str_len_nonneg pd) as Np.
  pose proof (align_bounds (2 * str_len apn) ltac:(lia)) as Ba. pose proof (align_bounds (2 * str_len user) ltac:(lia)) as Bu.
  set (o1 := align_32 (2 * str_len apn)) in *.
  pose proof (align_bounds (o1 + 2 * str_len user) ltac:(lia)) as B2.
  pose proof (align_bounds (align_32 (o1 + 2 * str_len user) + 2 * str_len pd) ltac:(lia)) as B3.
  assert (Hc : connect_buflen apn user pd = align_32 (align_32 (o1 + 2 * str_len user) + 2 * str_len pd)) by done.
  set (n := connect_buflen apn user pd) in *. rewrite <- Hc in B3.
  pose proof (align_mono (2 * str_len user) (o1 + 2 * str_len user) ltac:(lia)) as Bm.
  assert (Z0 : str_len apn = 0 -> o1 = 0) by (intros E; unfold o1; rewrite E; done).
  unfold mbim_populate_connect_data. fold n. change sizeof_MBIM_SET_CONNECT with 60.
  set (b0 := replicate (Z.to_nat (60 + n)) 0).
  assert (Hb0 : zlen b0 = 60 + n) by (unfold b0; rewrite zlen_replicate; lia).
  assert (Hw : forall i, 0 <= i -> i + 4 <= 60 -> lies b0 i (w32 0)).
  { intros i H1 H2. apply lies_zero; [lia|rewrite zlen_w32; lia|repeat constructor]. }
  destruct (store_opt_spec 8 12 apn n b0 0) as (b1 & E1 & L1 & P1 & S1 & D1 & F1); try lia; [by apply Hw..|].
  rewrite E1. cbn [mbind option_bind].
  assert (O1 : (if 0 <? str_len apn then o1 else 0) = o1) by (destruct (Z.ltb_spec 0 (str_len apn)); [done|symmetry; apply Z0; lia]).
  fold o1. rewrite O1.
  destruct (store_opt_spec 16 20 user n b1 o1) as (b2 & E2 & L2 & P2 & S2 & D2 & F2); try lia;
    [apply F1; [by apply Hw|rewrite zlen_w32; lia..]..|].
  rewrite E2. cbn [mbind option_bind]. set (o2 := if 0 <? str_len user then _ else o1).
  assert (O2 : 0 <= o2 /\ (0 < str_len pd -> o2 + 2 * str_len pd <= n /\ 2 * str_len apn <= o2 /\ (0 < str_len user -> o1 + 2 * str_len user <= o2))).
  { unfold o2. destruct (Z.ltb_spec 0 (str_len user)); split; [lia| |lia|lia]. intros Hp.
    assert (E : str_len apn = 0) by lia. pose proof (Z0 E) as Eo. rewrite Eo in B2, B3 |- *. rewrite Z.add_0_l in B2, B3. lia. }
  destruct (store_opt_spec 24 28 pd n b2 o2) as (b3 & E3 & L3 & P3 & S3 & D3 & F3); try lia;
    [destruct (Z.eq_dec (str_len pd) 0); [unfold o2; destruct (0 <? str_len user); lia|lia]
    |apply F2; [apply F1; [by apply Hw|rewrite zlen_w32; lia..]|rewrite zlen_w32; lia..]..|].
  rewrite E3. cbn [mbind option_bind fst]. exists b3. split; [done|]. split; [lia|]. cbv zeta.
  change (if 0 <? str_len user then align_32 (2 * str_len user) else align_32 (2 * str_len apn)) with o2.
  assert (K1 : forall i k, lies b1 i k -> i + zlen k <= 16 -> lies b3 i k).
  { intros i k Hk Hi. apply F3; [apply F2; [done|lia|lia]|lia|lia]. }
  assert (K2 : forall i k, lies b2 i k -> i + zlen k <= 24 -> lies b3 i k) by (intros i k Hk Hi; apply F3; [done|lia|lia]).
  split_and!.
  - apply K1; [done|rewrite zlen_w32; lia].
  - apply K1; [done|rewrite zlen_w32; lia].
  - intros Hp. apply F3; rewrite ?zlen_widen_opt; [apply F2; rewrite ?zlen_widen_opt; [by apply D1|lia|lia]|lia|].
    intros Hq. destruct O2 as [_ O2]. specialize (O2 Hq). lia.
  - apply K2; [done|rewrite zlen_w32; lia].
  - apply K2; [done|rewrite zlen_w32; lia].
  - intros Hp. apply F3; rewrite ?zlen_widen_opt; [by apply D2|lia|].
    intros Hq. destruct O2 as [_ O2]. specialize (O2 Hq). lia.
  - done.
  - done.
  - done.
Qed.

Lemma internet_uuid : exists u, str2uuid UUID_MBIMContextTypeInternet = Some u /\ zlen u = 16.
Proof. eexists. split; vm_compute; reflexivity. Qed.

Lemma hex_roundtrip x : 0 <= x < 16 -> hex_value (tolower (hex_digit x)) = Some x.
Proof.
  intros H. assert (x = 0 \/ x = 1 \/ x = 2 \/ x = 3 \/ x = 4 \/ x = 5 \/ x = 6 \/ x = 7 \/ x = 8 \/ x = 9 \/ x = 10 \/
    x = 11 \/ x = 12 \/ x = 13 \/ x = 14 \/ x = 15) as Hc by lia.
  by repeat (destruct Hc as [->|Hc]; [done|]); subst.
Qed.

Lemma scan_print f : forall d, Forall is_byte d -> length (filter (eq true) f) = length d ->
  scan_uuid f (map tolower (print_uuid f d)) = Some d.
Proof.
  induction f as [|[] f IH]; intros d Hd Hl.
  - by destruct d.
  - destruct d as [|x d]; [done|]. apply Forall_cons in Hd as [Hx Hd]. unfold is_byte, in_u in Hx. cbn [print_uuid map scan_uuid].
    pose proof (Z.div_mod x 16 ltac:(lia)). pose proof (Z.mod_pos_bound x 16 ltac:(lia)).
    assert (0 <= x / 16 < 16) by (split; [apply Z.div_pos; lia|apply Z.div_lt_upper_bound; lia]).
    rewrite filter_cons_True in Hl by done. cbn [length] in Hl. rewrite !hex_roundtrip by lia. rewrite (IH d Hd) by lia. cbn. by replace (16 * (x / 16) + x mod 16) with x by lia.
  - cbn [print_uuid map scan_uuid]. change (tolower 45) with 45. cbn [Z.eqb Pos.eqb].
    rewrite filter_cons_False in Hl by done. by apply IH.
Qed.

(** ** Theorems *)

(** Printing a service's UUID and parsing it again gives it back. *)
Theorem uuid_roundtrip d : Forall is_byte d -> length d = 16%nat -> str2uuid (uuid2str d) = Some d.
Proof. intros Hd Hl. apply scan_print; [done|]. by rewrite Hl. Qed.

(** C34. The connect request carries the credentials: when access point, user name
    and password are not all three given, the device finds each of them, in
    UTF-16, where the request's offsets and sizes point, with the session, the
    authentication and the address type in their fields. *)
Theorem connect_carries_strings onoff sessionID auth iptype apn user pd :
  str_len apn = 0 \/ str_len user = 0 \/ str_len pd = 0 ->
  str_len apn < 2 ^ 28 -> str_len user < 2 ^ 28 -> str_len pd < 2 ^ 28 ->
  in_u 32 sessionID -> in_u 32 auth -> in_u 32 iptype ->
  exists b, connect_info onoff sessionID auth iptype apn user pd = Some b /\
    zlen b = sizeof_MBIM_SET_CONNECT + connect_buflen apn user pd /\
    string_at b 8 12 = Some (widen (default [] apn)) /\
    string_at b 16 20 = Some (widen (default [] user)) /\
    string_at b 24 28 = Some (widen (default [] pd)) /\
    rd32 b 0 = Some sessionID /\ rd32 b 36 = Some auth /\ rd32 b 40 = Some iptype.
Proof.
  intros Hz Ha Hu Hp Is Ia Ii. destruct (populate_spec apn user pd Hz) as (b & E & Hl & (A1 & A2 & A3) & (U1 & U2 & U3) & (P1 & P2 & P3)).
  unfold connect_info. rewrite E. cbn [mbind option_bind].
  pose proof (str_len_nonneg apn) as Na. pose proof (str_len_nonneg user) as Nu. pose proof (str_len_nonneg pd) as Np.
  pose proof (align_bounds (2 * str_len apn) ltac:(lia)) as Ba. pose proof (align_bounds (2 * str_len user) ltac:(lia)) as Bu.
  assert (Hn : 0 <= connect_buflen apn user pd).
  { unfold connect_buflen. rewrite !align_eq. Z.div_mod_to_equations. lia. }
  destruct internet_uuid as (u & Eu & Lu). rewrite Eu.
  set (n := connect_buflen apn user pd) in *. set (x1 := w32 sessionID). set (x2 := w32 (if onoff =? 0 then _ else _)).
  assert (L1 : zlen x1 = 4) by apply zlen_w32. assert (L2 : zlen x2 = 4) by apply zlen_w32.
  destruct (put_some 0 x1 b ltac:(lia) ltac:(lia)) as (b1 & E1 & Z1). rewrite E1. cbn [mbind option_bind].
  destruct (put_some 4 x2 b1 ltac:(lia) ltac:(lia)) as (b2 & E2 & Z2). rewrite E2. cbn [mbind option_bind].
  destruct (put_some 32 (w32 MBIMCompressionNone) b2 ltac:(lia) ltac:(rewrite zlen_w32; lia)) as (b3 & E3 & Z3). rewrite E3. cbn [mbind option_bind].
  destruct (put_some 36 (w32 auth) b3 ltac:(lia) ltac:(rewrite zlen_w32; lia)) as (b4 & E4 & Z4). rewrite E4. cbn [mbind option_bind].
  destruct (put_some 40 (w32 iptype) b4 ltac:(lia) ltac:(rewrite zlen_w32; lia)) as (b5 & E5 & Z5). rewrite E5. cbn [mbind option_bind].
  destruct (put_some 44 u b5 ltac:(lia) ltac:(lia)) as (b6 & E6 & Z6).
  exists b6. split; [exact E6|]. split; [rewrite Z6, Z5, Z4, Z3, Z2, Z1; exact Hl|].
  pose proof (put_frame _ _ _ _ E1) as [_ F1]. pose proof (put_frame _ _ _ _ E2) as [_ F2]. pose proof (put_frame _ _ _ _ E3) as [_ F3].
  pose proof (put_frame _ _ _ _ E4) as [_ F4]. pose proof (put_frame _ _ _ _ E5) as [_ F5]. pose proof (put_frame _ _ _ _ E6) as [_ F6].
  rewrite ?zlen_w32, ?L1, ?L2, ?Lu in *.
  assert (K : forall i k, lies b i k -> 8 <= i -> i + zlen k <= 32 \/ 60 <= i -> lies b6 i k).
  { intros i k Hk H1 H2. apply F6; [apply F5; [apply F4; [apply F3; [apply F2; [apply F1; [done|lia]|lia]|lia]|lia]|lia]|lia]. }
  assert (Ks : forall off_at size_at s off, 8 <= off_at -> off_at + 8 <= 32 -> size_at = off_at + 4 -> 60 <= off -> off < 2 ^ 31 -> str_len s < 2 ^ 28 ->
    lies b off_at (w32 (if 0 <? str_len s then off else 0)) -> lies b size_at (w32 (2 * str_len s)) ->
    (0 < str_len s -> lies b off (widen (default [] s))) -> string_at b6 off_at size_at = Some (widen (default [] s))).
  { intros off_at size_at s off H1 H2 -> H3 H4 H5 G1 G2 G3. apply (found b6 _ _ s off); [lia|split; lia|apply K; rewrite ?zlen_w32; try done; lia..|].
    intros Hs. apply K; [by apply G3|lia|lia]. }
  split_and!.
  - by apply (Ks 8 12 apn 60).
  - apply (Ks 16 20 user (align_32 (2 * str_len apn) + 60)); try done; try lia. rewrite Z.add_comm. done.
  - apply (Ks 24 28 pd ((if 0 <? str_len user then align_32 (2 * str_len user) else align_32 (2 * str_len apn)) + 60)); try done;
      [destruct (0 <? str_len user); lia..|]. rewrite Z.add_comm. done.
  - apply lies_rd32; [done|]. fold x1. apply put_lies in E1.
    apply F6; [apply F5; [apply F4; [apply F3; [apply F2; [done|lia]|lia]|lia]|lia]|lia].
  - apply lies_rd32; [done|]. apply put_lies in E4. apply F6; [apply F5; [done|rewrite zlen_w32; lia]|rewrite zlen_w32; lia].
  - apply lies_rd32; [done|]. apply put_lies in E5. apply F6; [done|rewrite zlen_w32; lia].
Qed.

Lemma connect_carries_strings_witness :
  exists b, connect_info 1 0 1 3 (Some (bs "internet")) (Some (bs "me")) None = Some b /\
    string_at b 16 20 = Some (widen (bs "me")).
Proof.
  destruct (connect_carries_strings 1 0 1 3 (Some (bs "internet")) (Some (bs "me")) None) as (b & E & _ & _ & Hu & _);
    [by right; right|done..|]. by exists b.
Defined.

(** With all three the password is stored over another string: its offset counts
    from the length of the user name alone.  Here the device is told to use the
    access point [insecret]. *)
Theorem connect_password_overwrites :
  exists b, connect_info 1 0 1 3 (Some (bs "internet")) (Some (bs "me")) (Some (bs "secr")) = Some b /\
    string_at b 8 12 = Some (widen (bs "insecret")).
Proof. eexists. split; vm_compute; reflexivity. Qed.
