(* ===== verification/MbimCm.v ===== *)
(** * The MBIM session of the connection manager: [mbim-cm.c]

    The static variables of the file are a record; the device and the reader
    thread behind [mbim_send_command] are a parameter: the outcome of the write
    and the wait, and the response handed over, for each request.  A request runs
    in a state monad that fails ([None]) when the code loads outside the block of a
    response.  Allocations succeed and are counted: [m_live] blocks are allocated
    and not freed. *)

From S2P Require Import Prelude CLib QmiMsg QmiReq QmiAddr QmiCard MbimMsg.

(** ** Constants *)

Definition MBIMSubscriberReadyStateNotInitialized : Z := 0.
Definition MBIMSubscriberReadyStateInitialized : Z := 1.
Definition MBIMSubscriberReadyStateBadSim : Z := 3.
Definition MBIMSubscriberReadyStateDeviceLocked : Z := 6.
Definition MBIMRegisterStateHome : Z := 3.
Definition MBIMRegisterStateRoaming : Z := 4.
Definition MBIMPacketServiceStateAttached : Z := 2.
Definition MBIMPacketServiceActionAttach : Z := 0.
Definition MBIMActivationStateUnknown : Z := 0.
Definition MBIMActivationStateActivated : Z := 1.
Definition MBIMContextIPTypeDefault : Z := 0.
Definition MBIMContextIPTypeIPv4 : Z := 1.
Definition MBIMContextIPTypeIPv6 : Z := 2.
Definition MBIMContextIPTypeIPv4AndIPv6 : Z := 4.
Definition MBIMRadioOn : Z := 1.
Definition MBIM_ERROR_NOT_OPENED : Z := 5.
Definition sizeof_MBIM_PACKET_SERVICE_INFO_V2 : Z := 32.
Definition QWDS_PKT_DATA_UNKNOW : Z := 0.
Definition SIM_NOT_READY : Z := 1.

(** ** State and monad *)

(** The four states of the modem, as last seen and as last reported. *)
Record dev_state := DevState { ReadyState : Z; RegisterState : Z; PacketServiceState : Z; ActivationState : Z }.

#[global] Instance dev_state_eq_dec : EqDecision dev_state.
Proof. solve_decision. Defined.

Record mst := Mst {
  m_tid : Z;
  mbim_apn : option bytes; mbim_user : option bytes; mbim_pd : option bytes;
  mbim_iptype : Z; mbim_auth : Z; mbim_sessionID : Z;
  mbim_fd : Z; s_tid_reader : bool;
  m_cur : dev_state; m_old : dev_state;
  mbim_open_state : Z; mbim_ms_version : Z; qmi_over_mbim_support : bool;
  m_baseband : option bytes;
  m_live : Z;
  m_sent : list bytes }.

Definition set_m_tid (s : mst) (x : Z) : mst :=
  Mst x (mbim_apn s) (mbim_user s) (mbim_pd s) (mbim_iptype s) (mbim_auth s) (mbim_sessionID s) (mbim_fd s) (s_tid_reader s) (m_cur s) (m_old s)
    (mbim_open_state s) (mbim_ms_version s) (qmi_over_mbim_support s) (m_baseband s) (m_live s) (m_sent s).
Definition set_m_profile (s : mst) (apn user pd : option bytes) (auth iptype : Z) : mst :=
  Mst (m_tid s) apn user pd iptype auth (mbim_sessionID s) (mbim_fd s) (s_tid_reader s) (m_cur s) (m_old s)
    (mbim_open_state s) (mbim_ms_version s) (qmi_over_mbim_support s) (m_baseband s) (m_live s) (m_sent s).
Definition set_m_states (s : mst) (cur old : dev_state) : mst :=
  Mst (m_tid s) (mbim_apn s) (mbim_user s) (mbim_pd s) (mbim_iptype s) (mbim_auth s) (mbim_sessionID s) (mbim_fd s) (s_tid_reader s) cur old
    (mbim_open_state s) (mbim_ms_version s) (qmi_over_mbim_support s) (m_baseband s) (m_live s) (m_sent s).
Definition set_m_open (s : mst) (x : Z) : mst :=
  Mst (m_tid s) (mbim_apn s) (mbim_user s) (mbim_pd s) (mbim_iptype s) (mbim_auth s) (mbim_sessionID s) (mbim_fd s) (s_tid_reader s) (m_cur s) (m_old s)
    x (mbim_ms_version s) (qmi_over_mbim_support s) (m_baseband s) (m_live s) (m_sent s).
Definition set_m_caps (s : mst) (ver : Z) (qmi : bool) (bb : option bytes) : mst :=
  Mst (m_tid s) (mbim_apn s) (mbim_user s) (mbim_pd s) (mbim_iptype s) (mbim_auth s) (mbim_sessionID s) (mbim_fd s) (s_tid_reader s) (m_cur s) (m_old s)
    (mbim_open_state s) ver qmi bb (m_live s) (m_sent s).
Definition set_m_live (s : mst) (x : Z) : mst :=
  Mst (m_tid s) (mbim_apn s) (mbim_user s) (mbim_pd s) (mbim_iptype s) (mbim_auth s) (mbim_sessionID s) (mbim_fd s) (s_tid_reader s) (m_cur s) (m_old s)
    (mbim_open_state s) (mbim_ms_version s) (qmi_over_mbim_support s) (m_baseband s) x (m_sent s).
Definition add_m_sent (s : mst) (r : bytes) : mst :=
  Mst (m_tid s) (mbim_apn s) (mbim_user s) (mbim_pd s) (mbim_iptype s) (mbim_auth s) (mbim_sessionID s) (mbim_fd s) (s_tid_reader s) (m_cur s) (m_old s)
    (mbim_open_state s) (mbim_ms_version s) (qmi_over_mbim_support s) (m_baseband s) (m_live s) (m_sent s ++ [r]).

Abbreviation mact := (st mst).
#[global] Instance mact_map : FMap mact := fun A B f m s => match m s with Some (x, s) => Some (f x, s) | None => None end.

Abbreviation mgets := st_gets.
Abbreviation mmodify := st_modify.
Abbreviation mload := st_load.

(** [n] blocks allocated, or freed when negative. *)
Definition blocks (n : Z) : mact unit := mmodify (fun s => set_m_live s (m_live s + n)).

(** ** Sending *)

(** [TransactionId++] of the composers. *)
Definition mbim_next_tid : mact Z :=
  t ← mgets m_tid; mmodify (fun s => set_m_tid s (u32 (t + 1)));; blocks 1;; mret t.

(** The limit of the transaction numbers: the top byte is the proxy's. *)
Definition tid_limit : Z := 0xFFFFFF + 1.

(** [mbim_send_command]: the value returned and the response. *)
Definition mbim_send_command (md : modem) (r : bytes) : mact (Z * option bytes) :=
  fd ← mgets mbim_fd; reader ← mgets s_tid_reader;
  if fd <=? 0 then mret (- ENODEV, None)
  else if negb reader then mret (- EINVAL, None)
  else
    t ← mload (rd32 r 8);
    r ← (if t =? tid_limit then mmodify (fun s => set_m_tid s 2);; mload (put 8 (w32 1) r) else mret r);
    '(ret, rsp) ← (fun s => Some (md (m_sent s) r, add_m_sent s r));
    blocks (if rsp then 1 else 0);;
    mret (ret, if ret =? 0 then rsp else None).

(** Offset of the status in each kind of answer. *)
Definition status_at (type : Z) : option Z :=
  if (type =? MBIM_OPEN_DONE) || (type =? MBIM_CLOSE_DONE) || (type =? MBIM_FUNCTION_ERROR_MSG) then Some 12
  else if type =? MBIM_COMMAND_DONE then Some 40 else None.

Definition mbim_status_code (rsp : option bytes) : mact Z :=
  match rsp with
  | None => mret 0
  | Some m =>
      type ← mload (rd32 m 0);
      match status_at type with
      | None => mret 0
      | Some i =>
          st ← mload (rd32 m i);
          (if (type =? MBIM_FUNCTION_ERROR_MSG) && (st =? MBIM_ERROR_NOT_OPENED)
           then mmodify (fun s => set_m_open s 0) else mret tt);;
          mret (s32 st)
      end
  end.

(** [mbim_check_err]: what the caller returns at once, or the response. *)
Definition mbim_check_err (err : Z) (rsp : option bytes) : mact (Z + bytes) :=
  status ← mbim_status_code rsp;
  match rsp with
  | None => blocks (-1);; mret (inl (if negb (err =? 0) then err else if negb (status =? 0) then status else 8888))
  | Some m =>
      if negb (err =? 0) then blocks (-2);; mret (inl err)
      else if negb (status =? 0) then blocks (-2);; mret (inl status)
      else mret (inr m)
  end.

Definition command (md : modem) (service : bytes) (CID CommandType : Z) (info : option bytes) (len : Z) (junk : bytes) : mact (Z + bytes) :=
  t ← mbim_next_tid;
  r ← mload (compose_basic_connect_command t CID CommandType info len junk);
  r ← mload (set_service service r);
  '(err, rsp) ← mbim_send_command md r;
  mbim_check_err err rsp.

Definition basic (md : modem) (CID CommandType : Z) (info : bytes) : mact (Z + bytes) :=
  command md UUID_BASIC_CONNECT CID CommandType (Some info) (zlen info) [].

(** The two blocks are freed and 0 returned. *)
Definition done_with : mact Z := blocks (-2);; mret 0.

(** ** Requests *)

Definition finish (x : Z + bytes) (f : bytes -> mact Z) : mact Z := match x with inl e => mret e | inr m => f m end.

(** The status of the answer to an open or close message. *)
Definition take_status (m : bytes) : mact Z := st ← mload (rd32 m 12); blocks (-2);; mret (s32 st).

Definition mbim_open_device (md : modem) (MaxControlTransfer : Z) : mact Z :=
  t ← mbim_next_tid;
  '(err, rsp) ← mbim_send_command md (compose_open_command t MaxControlTransfer);
  x ← mbim_check_err err rsp;
  finish x take_status.

Definition mbim_close_device (md : modem) : mact Z :=
  t ← mbim_next_tid;
  '(err, rsp) ← mbim_send_command md (compose_close_command t);
  x ← mbim_check_err err rsp;
  finish x take_status.

Definition mbim_update_state : mact Z :=
  c ← mgets m_cur; o ← mgets m_old;
  mmodify (fun s => set_m_states s c c);;
  let d (a b : Z) := if a =? b then 0 else 1 in
  mret (d (ReadyState o) (ReadyState c) + d (RegisterState o) (RegisterState c) +
        d (PacketServiceState o) (PacketServiceState c) + d (ActivationState o) (ActivationState c)).

Definition set_ready (x : Z) (d : dev_state) : dev_state := DevState x (RegisterState d) (PacketServiceState d) (ActivationState d).
Definition set_register (x : Z) (d : dev_state) : dev_state := DevState (ReadyState d) x (PacketServiceState d) (ActivationState d).
Definition set_packet (x : Z) (d : dev_state) : dev_state := DevState (ReadyState d) (RegisterState d) x (ActivationState d).
Definition set_activation (x : Z) (d : dev_state) : dev_state := DevState (ReadyState d) (RegisterState d) (PacketServiceState d) x.

(** A state read from the information buffer at [i], if there is one. *)
Definition take_state (m : bytes) (i : Z) (f : Z -> dev_state -> dev_state) : mact Z :=
  len ← mload (rd32 m 44);
  (if negb (len =? 0) then
     x ← mload (rd32 m (48 + i));
     mmodify (fun s => set_m_states s (f x (m_cur s)) (m_old s));; mbim_update_state
   else mret 0);;
  done_with.

(** [junk]: the members of [set_connect] that are not set. *)
Definition mbim_query_connect (md : modem) (sessionID : Z) (junk : bytes) : mact Z :=
  x ← basic md MBIM_CID_CONNECT MBIM_CID_CMD_TYPE_QUERY (w32 sessionID ++ junk);
  finish x (fun m => take_state m 4 set_activation).

Definition mbim_ms_version_query (md : modem) : mact Z :=
  x ← command md UUID_BASIC_CONNECT_EXT MBIM_CID_MS_VERSION MBIM_CID_CMD_TYPE_QUERY (Some [0; 1; 0; 2]) 4 [];
  finish x (fun m =>
    len ← mload (rd32 m 44);
    (if negb (len =? 0) then
       v ← mload (zget m (48 + 3)); mmodify (fun s => set_m_caps s v (qmi_over_mbim_support s) (m_baseband s))
     else mret tt);;
    done_with).

(** Whether the list of CIDs at [i] names [MBIM_CID_MS_VERSION]. *)
Fixpoint has_ms_version (n : nat) (m : bytes) (i : Z) (acc : bool) : option bool :=
  match n with
  | O => Some acc
  | S n => c ← rd32 m i; has_ms_version n m (i + 4) (acc || (c =? MBIM_CID_MS_VERSION))
  end.

(** The services: is version 2 supported, and QMI over MBIM? *)
Fixpoint services (n : nat) (m : bytes) (i : Z) (v2 qmi : bool) : option (bool * bool) :=
  match n with
  | O => Some (v2, qmi)
  | S n =>
      off ← rd32 m (48 + 8 + 8 * i);
      u ← rdn m (48 + off) 16;
      if strcasecmp_eq UUID_BASIC_CONNECT_EXT (uuid2str u) then
        cnt ← rd32 m (48 + off + 24);
        v ← has_ms_version (Z.to_nat cnt) m (48 + off + 28) v2;
        services n m (i + 1) v qmi
      else services n m (i + 1) v2 (qmi || strcasecmp_eq uuid_ext_qmux (uuid2str u))
  end.

Definition mbim_device_services_query (md : modem) : mact Z :=
  x ← command md UUID_BASIC_CONNECT MBIM_CID_DEVICE_SERVICES MBIM_CID_CMD_TYPE_QUERY None 0 [];
  finish x (fun m =>
    len ← mload (rd32 m 44);
    v2 ← (if negb (len =? 0) then
            cnt ← mload (rd32 m 48); q ← mgets qmi_over_mbim_support;
            '(v2, qmi) ← mload (services (Z.to_nat cnt) m 0 false q);
            mmodify (fun s => set_m_caps s (mbim_ms_version s) qmi (m_baseband s));; mret v2
          else mret false);
    blocks (-2);;
    (if v2 : bool then mbim_ms_version_query md else mret 0);;
    mret 0).

(** A string of the capabilities, in a buffer of 32 bytes. *)
Definition caps_string (m : bytes) (off_at : Z) : mact (option bytes) :=
  off ← mload (rd32 m (48 + off_at)); size ← mload (rd32 m (48 + off_at + 4));
  if (off =? 0) || (size =? 0) then mret None
  else t ← mload (wchar2char m (48 + off) size 32); mret (Some t).

Definition mbim_device_caps_query (md : modem) : mact Z :=
  x ← command md UUID_BASIC_CONNECT MBIM_CID_DEVICE_CAPS MBIM_CID_CMD_TYPE_QUERY None 0 [];
  finish x (fun m =>
    len ← mload (rd32 m 44);
    (if negb (len =? 0) then
       caps_string m 40;;
       fw ← caps_string m 48;
       (match fw with
        | Some t => mmodify (fun s => set_m_caps s (mbim_ms_version s) (qmi_over_mbim_support s) (Some t))
        | None => mret tt end);;
       caps_string m 56;; mret tt
     else mret tt);;
    done_with).

Definition mbim_set_radio_state (md : modem) (RadioState : Z) : mact Z :=
  x ← basic md MBIM_CID_RADIO_STATE MBIM_CID_CMD_TYPE_SET (w32 RadioState);
  finish x (fun m =>
    len ← mload (rd32 m 44);
    (if negb (len =? 0) then mload (rd32 m 48);; mload (rd32 m 52);; mret tt else mret tt);;
    done_with).

Definition mbim_subscriber_status_query (md : modem) : mact Z :=
  x ← command md UUID_BASIC_CONNECT MBIM_CID_SUBSCRIBER_READY_STATUS MBIM_CID_CMD_TYPE_QUERY None 0 [];
  finish x (fun m =>
    len ← mload (rd32 m 44);
    (if negb (len =? 0) then
       o ← mload (rd32 m 52); n ← mload (rd32 m 56); mload (wchar2char m (48 + o) n 32);;
       o ← mload (rd32 m 60); n ← mload (rd32 m 64); mload (wchar2char m (48 + o) n 32);; mret tt
     else mret tt);;
    take_state m 0 set_ready).

Definition mbim_register_state_query (md : modem) : mact Z :=
  x ← command md UUID_BASIC_CONNECT MBIM_CID_REGISTER_STATE MBIM_CID_CMD_TYPE_QUERY None 0 [];
  finish x (fun m => take_state m 4 set_register).

Definition mbim_packet_service_query (md : modem) : mact Z :=
  x ← command md UUID_BASIC_CONNECT MBIM_CID_PACKET_SERVICE MBIM_CID_CMD_TYPE_QUERY None 0 [];
  finish x (fun m =>
    len ← mload (rd32 m 44);
    (if len =? sizeof_MBIM_PACKET_SERVICE_INFO_V2 then mload (rd32 m (48 + 8)) else mret 0);;
    take_state m 4 set_packet).

Definition mbim_packet_service_set (md : modem) (action : Z) : mact Z :=
  x ← basic md MBIM_CID_PACKET_SERVICE MBIM_CID_CMD_TYPE_SET (w32 action);
  finish x (fun m => take_state m 4 set_packet).

Definition mbim_set_connect (md : modem) (onoff sessionID : Z) : mact Z :=
  apn ← mgets mbim_apn; user ← mgets mbim_user; pd ← mgets mbim_pd; auth ← mgets mbim_auth; iptype ← mgets mbim_iptype;
  info ← mload (connect_info onoff sessionID auth iptype apn user pd);
  x ← basic md MBIM_CID_CONNECT MBIM_CID_CMD_TYPE_SET info;
  finish x (fun m => take_state m 4 set_activation).

(** The request of the proxy's configuration: the length of its information
    buffer is never set. *)
Definition proxy_config (dev : bytes) : bytes :=
  w32 12 ++ w32 (zlen (char2wchar dev (2 * zlen dev))) ++ w32 15 ++ char2wchar dev (2 * zlen dev).

Definition mbim_proxy_configure (md : modem) (dev : bytes) : mact Z :=
  x ← command md UUID_LIBMBIM_PROXY MBIM_CID_PROXY_CONTROL_CONFIGURATION MBIM_CID_CMD_TYPE_SET None
         (12 + 2 * zlen dev) (proxy_config dev);
  finish x (fun _ => done_with).

(** ** Addresses *)

(** A member of the information buffer, and an address its offset leads to. *)
Definition member (m : bytes) (i : Z) : mact Z := mload (rd32 m (48 + i)).
Definition addr4 (m : bytes) (off : Z) : mact Z := x ← mload (rd32 m (48 + off)); mret (mbim2qmi_ipv4addr x).
Definition addr6 (m : bytes) (off : Z) : mact bytes := mload (rdn m (48 + off) 16).

(** [None] for a shift the language does not define. *)
Definition netmask (prefix : Z) : option Z :=
  if (1 <=? prefix) && (prefix <=? 32) then Some (u32 (Z.shiftl (Z.shiftr 0xFFFFFFFF (32 - prefix)) (32 - prefix))) else None.

Definition avail (flags i : Z) : bool := Z.testbit flags i.
Definition mwhen {C} (b : bool) (f : C -> mact C) (c : C) : mact C := if b then f c else mret c.

Definition take_ipv4 (m : bytes) (flags mtu : Z) (c : ipcfg) : mact (ipcfg * Z) :=
  off ← member m 16; p ← mload (rd32 m (48 + off)); a ← addr4 m (off + 4);
  let c := set_4addr a c in
  mtu ← mwhen (avail flags 3) (fun _ => member m 52) mtu;
  c ← mwhen (avail flags 1) (fun c => o ← member m 28; g ← addr4 m o; mret (set_4gw g c)) c;
  k ← mload (netmask (u8 p));
  let c := set_4mask (mbim2qmi_ipv4addr k) c in
  c ← mwhen (avail flags 2) (fun c =>
        o ← member m 40; n ← member m 36; d ← addr4 m o;
        let c := set_4dns1 d c in
        mwhen (n =? 2) (fun c => e ← addr4 m (o + 4); mret (set_4dns2 e c)) c) c;
  mret (set_4mtu (mbim2qmi_ipv4addr mtu) c, mtu).

Definition take_ipv6 (m : bytes) (flags mtu : Z) (c : ipcfg) : mact ipcfg :=
  off ← member m 24; p ← mload (rd32 m (48 + off)); a ← addr6 m (off + 4);
  let c := set_6addr a (u8 p) c in
  mtu ← mwhen (avail flags 3) (fun _ => member m 56) mtu;
  c ← mwhen (avail flags 1) (fun c => o ← member m 32; g ← addr6 m o; mret (set_6gw g (u8 p) c)) c;
  c ← mwhen (avail flags 2) (fun c =>
        o ← member m 48; n ← member m 44; d ← addr6 m o;
        let c := set_6dns1 d c in
        mwhen (n =? 2) (fun c => e ← addr6 m (o + 16); mret (set_6dns2 e c)) c) c;
  mret (set_6mtu (mbim2qmi_ipv4addr mtu) (set_6gw (i6_Gateway (c_ipv6 c)) (u8 p) c)).

(** The answer; on success neither the request nor the response is freed. *)
Definition mbim_ip_config (md : modem) (sessionID : Z) (junk : bytes) (c : ipcfg) : mact (Z * ipcfg) :=
  x ← basic md MBIM_CID_IP_CONFIGURATION MBIM_CID_CMD_TYPE_QUERY (w32 sessionID ++ junk);
  match x with
  | inl e => mret (e, c)
  | inr m =>
      len ← mload (rd32 m 44);
      if len =? 0 then mret (0, c)
      else
        f4 ← member m 4; f6 ← member m 8;
        '(c, mtu) ← (if avail f4 0 then take_ipv4 m f4 1500 c else mret (c, 1500));
        c ← mwhen (avail f6 0) (take_ipv6 m f6 mtu) c;
        mret (0, c)
  end.

(** ** The operations of the connection manager *)

Definition requestGetSIMStatus (md : modem) : mact (Z * Z) :=
  ret ← mbim_subscriber_status_query md;
  if negb (ret =? 0) then mret (ret, SIM_ABSENT)
  else
    mbim_update_state;;
    d ← mgets m_cur;
    let r := ReadyState d in
    mret (ret, if r =? MBIMSubscriberReadyStateNotInitialized then SIM_NOT_READY
               else if r =? MBIMSubscriberReadyStateInitialized then SIM_READY
               else if r =? MBIMSubscriberReadyStateBadSim then SIM_BAD
               else if r =? MBIMSubscriberReadyStateDeviceLocked then SIM_PIN else SIM_ABSENT).

(** The value returned and the attached state stored. *)
Definition requestRegistrationState (md : modem) : mact (Z * Z) :=
  ret ← mbim_register_state_query md;
  if negb (ret =? 0) then mret (ret, 0)
  else
    mbim_update_state;;
    d ← mgets m_cur;
    let r := RegisterState d in
    if negb ((r =? MBIMRegisterStateHome) || (r =? MBIMRegisterStateRoaming)) then mret (ret, 0)
    else
      ret ← mbim_packet_service_query md;
      if negb (ret =? 0) then mret (ret, 1)
      else
        d ← mgets m_cur;
        if PacketServiceState d =? MBIMPacketServiceStateAttached then mret (ret, 1)
        else mbim_packet_service_set md MBIMPacketServiceActionAttach;; mret (ret, 0).

(** The members of the profile the call uses. *)
Record dial := Dial { d_apn : option bytes; d_user : option bytes; d_pd : option bytes; d_auth : Z; d_v4 : bool; d_v6 : bool }.

Definition or_keep {A} (x old : option A) : option A := match x with Some _ => x | None => old end.

Definition adopt (p : dial) (s : mst) : mst :=
  set_m_profile s (or_keep (d_apn p) (mbim_apn s)) (or_keep (d_user p) (mbim_user s)) (or_keep (d_pd p) (mbim_pd s))
    (if negb (d_auth p =? 0) then d_auth p else mbim_auth s)
    (if d_v4 p && d_v6 p then MBIMContextIPTypeIPv4AndIPv6
     else if d_v6 p then MBIMContextIPTypeIPv6 else if d_v4 p then MBIMContextIPTypeIPv4 else mbim_iptype s).

Definition requestSetupDataCall (md : modem) (p : dial) : mact Z :=
  mmodify (adopt p);; sid ← mgets mbim_sessionID; mbim_set_connect md 1 sid.

Definition requestQueryDataCall (md : modem) (junk : bytes) : mact (Z * Z) :=
  sid ← mgets mbim_sessionID; ret ← mbim_query_connect md sid junk;
  if negb (ret =? 0) then mret (ret, QWDS_PKT_DATA_DISCONNECTED)
  else
    d ← mgets m_cur;
    mret (ret, if ActivationState d =? MBIMActivationStateUnknown then QWDS_PKT_DATA_UNKNOW
               else if ActivationState d =? MBIMActivationStateActivated then QWDS_PKT_DATA_CONNECTED
               else QWDS_PKT_DATA_DISCONNECTED).

Definition requestDeactivateDefaultPDP (md : modem) : mact Z := sid ← mgets mbim_sessionID; mbim_set_connect md 0 sid.

Definition requestGetIPAddress (md : modem) (junk : bytes) (c : ipcfg) : mact (Z * ipcfg) :=
  sid ← mgets mbim_sessionID; mbim_ip_config md sid junk c.

(** At most [n] attempts while they time out. *)
Fixpoint open_loop (n : nat) (md : modem) : mact Z :=
  match n with
  | O => mret ETIMEDOUT
  | S n => r ← mbim_open_device md 4096; if r =? ETIMEDOUT then open_loop n md else mret r
  end.

(** A step of [mbim_init]: the rest runs if it returns 0. *)
Definition init_step (m : mact Z) (k : mact Z) : mact Z := r ← m; if negb (r =? 0) then mret r else k.

(** [dev]: the device path, when the proxy is libmbim's. *)
Definition mbim_init (md : modem) (dev : option bytes) : mact Z :=
  init_step (match dev with Some d => mbim_proxy_configure md d | None => mret 0 end)
  (init_step (open_loop 10 md)
  (init_step (mbim_device_caps_query md)
  (mbim_update_state;; init_step (mbim_device_services_query md)
  (mbim_update_state;; init_step (mbim_set_radio_state md MBIMRadioOn)
  (mbim_update_state;; mret 0))))).

(** ** The reader *)

Inductive ril_event := RIL_UNSOL_RESPONSE_VOICE_NETWORK_STATE_CHANGED | RIL_UNSOL_DATA_CALL_LIST_CHANGED.

(** [mbim_pRequest], [mbim_pResponse], whether the condition was signalled, and the
    events sent to the main thread. *)
Record rx := Rx { mbim_pRequest : option bytes; mbim_pResponse : option bytes; rx_signalled : bool; rx_events : list ril_event }.

Definition rx_notify (b : bool) (e : ril_event) (x : rx) : rx :=
  if b then Rx (mbim_pRequest x) (mbim_pResponse x) (rx_signalled x) (rx_events x ++ [e]) else x.

(** An indication against the states last reported. *)
Definition mbim_indication (old : dev_state) (sid : Z) (d : bytes) (x : rx) : option rx :=
  u ← rdn d 20 16;
  basic ← str2uuid UUID_BASIC_CONNECT;
  if negb (bool_decide (u = basic)) then Some x
  else
    cid ← rd32 d 36;
    let voice i last := st ← rd32 d i; Some (rx_notify (negb (st =? last)) RIL_UNSOL_RESPONSE_VOICE_NETWORK_STATE_CHANGED x) in
    if cid =? MBIM_CID_SUBSCRIBER_READY_STATUS then voice 44 (ReadyState old)
    else if cid =? MBIM_CID_REGISTER_STATE then voice 48 (RegisterState old)
    else if cid =? MBIM_CID_PACKET_SERVICE then voice 48 (PacketServiceState old)
    else if cid =? MBIM_CID_CONNECT then
      id ← rd32 d 44;
      if negb (id =? sid) then Some x
      else st ← rd32 d 48; Some (rx_notify (negb (st =? ActivationState old)) RIL_UNSOL_DATA_CALL_LIST_CHANGED x)
    else Some x.

(** [d] is the whole receive buffer; [None] for [NULL], when the reader ends.  The
    copy has the length the message claims. *)
Definition mbim_recv_command (old : dev_state) (sid : Z) (d : option bytes) (x : rx) : option rx :=
  match d with
  | None => Some (Rx (mbim_pRequest x) (mbim_pResponse x) true (rx_events x))
  | Some d =>
      t ← rd32 d 8;
      if (match mbim_pRequest x with Some r => bool_decide (rd32 r 8 = Some t) | None => false end) then
        len ← rd32 d 4; c ← rdn d 0 len; Some (Rx (mbim_pRequest x) (Some c) true (rx_events x))
      else
        type ← rd32 d 0;
        if type =? MBIM_INDICATE_STATUS_MSG then mbim_indication old sid d x else Some x
  end.

Fixpoint recv_all (old : dev_state) (sid : Z) (ds : list (option bytes)) (x : rx) : option rx :=
  match ds with [] => Some x | d :: ds => x ← mbim_recv_command old sid d x; recv_all old sid ds x end.

(** What the connection manager asks for, one call after the other. *)
Inductive mop :=
| OInit (dev : option bytes) | OClose | OSim | ORegister | OSetup (p : dial) | OQuery (junk : bytes) | ODeactivate
| OAddress (junk : bytes) (c : ipcfg).

Definition run_mop (md : modem) (o : mop) : mact Z :=
  match o with
  | OInit dev => mbim_init md dev
  | OClose => mbim_close_device md
  | OSim => fst <$> requestGetSIMStatus md
  | ORegister => fst <$> requestRegistrationState md
  | OSetup p => requestSetupDataCall md p
  | OQuery junk => fst <$> requestQueryDataCall md junk
  | ODeactivate => requestDeactivateDefaultPDP md
  | OAddress junk c => fst <$> requestGetIPAddress md junk c
  end.

(** The operations with what they returned. *)
Fixpoint run_mops (md : modem) (os : list mop) : mact (list (mop * Z)) :=
  match os with
  | [] => mret []
  | o :: os => r ← run_mop md o; rs ← run_mops md os; mret ((o, r) :: rs)
  end.

(** ** Runs *)

Definition ready (s : mst) : Prop := 0 < mbim_fd s /\ s_tid_reader s = true.

(** The transaction number of a message: its top byte is free for the proxy. *)
Definition tid_free (r : bytes) : Prop := exists t, rd32 r 8 = Some t /\ 1 <= t < tid_limit.
Definition tid_ok (s : mst) : Prop := 1 <= m_tid s <= tid_limit.

Definition settled (s : mst) : Prop := m_old s = m_cur s.

(** What a piece of a request does: [n] more blocks are allocated, messages are
    only added, with proper numbers, and reported states stay reported. *)
Record step (n : Z) (s s' : mst) : Prop := {
  st_dev : mbim_fd s' = mbim_fd s /\ s_tid_reader s' = s_tid_reader s;
  st_tid : ready s -> tid_ok s -> tid_ok s' /\ exists ms, m_sent s' = m_sent s ++ ms /\ Forall tid_free ms;
  st_live : m_live s' = m_live s + n;
  st_settled : settled s -> settled s' }.

Lemma ready_step n s s' : step n s s' -> ready s -> ready s'.
Proof. intros [[E1 E2] _ _ _] [H1 H2]. unfold ready. by rewrite E1, E2. Qed.

Lemma step_trans n k s1 s2 s3 : step n s1 s2 -> step k s2 s3 -> step (n + k) s1 s3.
Proof.
  intros A B. pose proof (ready_step _ _ _ A) as Hr. destruct A as [[A1 A2] A3 A4 A5], B as [[B1 B2] B3 B4 B5].
  split; [split; congruence| |lia|auto]. intros R T. destruct (A3 R T) as (T2 & ms & E & F).
  destruct (B3 (Hr R) T2) as (T3 & ms' & E' & F'). split; [done|]. exists (ms ++ ms'). rewrite E', E, app_assoc.
  split; [done|]. by apply Forall_app.
Qed.

(** A change of the state that concerns none of it. *)
Lemma step_quiet n s s' :
  mbim_fd s' = mbim_fd s -> s_tid_reader s' = s_tid_reader s -> m_tid s' = m_tid s -> m_sent s' = m_sent s ->
  (settled s -> settled s') -> m_live s' = m_live s + n -> step n s s'.
Proof.
  intros E1 E2 E3 E4 E5 E6. split; [done| |done|done]. intros _ Ht. unfold tid_ok. rewrite E3, E4. split; [done|].
  exists []. by rewrite app_nil_r.
Qed.

Definition does {A} (n : Z) (m : mact A) : Prop := forall s x s', m s = Some (x, s') -> step n s s'.

Create HintDb does discriminated.



Lemma does_bind {A B} n k t (m : mact A) (f : A -> mact B) :
  t = n + k -> does n m -> (forall x, does k (f x)) -> does t (m ≫= f).
Proof. intros -> Hm Hf s y s' (x & s1 & H1 & H2)%st_bind_inv. eapply step_trans; [by eapply Hm|by eapply Hf]. Qed.

Lemma step_refl s : step 0 s s.
Proof. apply step_quiet; try done; cbn; lia. Qed.

Lemma does_ret {A} (x : A) : does 0 (mret x : mact A).
Proof. intros s y s' [= <- <-]. apply step_refl. Qed.
Lemma does_gets {A} (f : mst -> A) : does 0 (mgets f).
Proof. intros s y s' [= <- <-]. apply step_refl. Qed.
Lemma does_load {A} (o : option A) : does 0 (mload o).
Proof. unfold mload. intros s y s'. destruct o; [|done]. intros [= <- <-]. apply step_refl. Qed.
Lemma does_blocks n : does n (blocks n).
Proof. intros s y s' [= <- <-]. by apply step_quiet. Qed.
Lemma does_caps f g h : does 0 (mmodify (fun s => set_m_caps s (f s) (g s) (h s))).
Proof. intros s y s' [= <- <-]. apply step_quiet; try done; cbn; lia. Qed.
Lemma does_adopt p : does 0 (mmodify (adopt p)).
Proof. intros s y s' [= <- <-]. apply step_quiet; try done; cbn; lia. Qed.
Lemma does_open x : does 0 (mmodify (fun s => set_m_open s x)).
Proof. intros s y s' [= <- <-]. apply step_quiet; try done; cbn; lia. Qed.
Lemma does_update : does 0 mbim_update_state.
Proof.
  intros s y s' H. unfold mbim_update_state in H. apply st_bind_inv in H as (c & s1 & [= <- <-] & H).
  apply st_bind_inv in H as (o & s2 & [= <- <-] & H). apply st_bind_inv in H as (u & s3 & [= <- <-] & [= <- <-]).
  apply step_quiet; try done; cbn; lia.
Qed.

Lemma does_bind0 {A B} n (m : mact A) (f : A -> mact B) : does 0 m -> (forall x, does n (f x)) -> does n (m ≫= f).
Proof. intros. by apply (does_bind 0 n). Qed.
Lemma does_bind_l {A B} n (m : mact A) (f : A -> mact B) : does n m -> (forall x, does 0 (f x)) -> does n (m ≫= f).
Proof. intros. apply (does_bind n 0); [lia|done..]. Qed.
Lemma does_done : does (-2) done_with.
Proof. apply does_bind_l; [apply does_blocks|intros; apply does_ret]. Qed.

#[export] Hint Resolve does_ret does_gets does_load does_blocks does_caps does_adopt does_open does_update does_done : does.

(** Walk through a piece of code: branches, what it binds, then its tail. *)
Ltac does :=
  repeat first
    [ solve [auto with does nocore]
    | progress intros
    | match goal with
      | |- does _ (if ?b then _ else _) => destruct b
      | |- does _ (match ?o with Some _ => _ | None => _ end) => destruct o
      | |- does _ (let '(_, _) := ?p in _) => destruct p
      | |- does _ (match ?p with (_, _) => _ end) => destruct p
      | |- does ?n (_ ≫= _) => first [apply does_bind0; [solve [does]|] | apply does_bind_l; [solve [does]|]]
      end ].

Lemma does_take m i f : does (-2) (take_state m i f).
Proof.
  unfold take_state. apply does_bind0; [does|]. intros len. apply does_bind0; [|does]. destruct (negb _); [|does].
  apply does_bind0; [does|]. intros x s y s' H. apply st_bind_inv in H as (u & s1 & [= <- <-] & H).
  unfold mbim_update_state in H. apply st_bind_inv in H as (c & s2 & [= <- <-] & H).
  apply st_bind_inv in H as (o & s3 & [= <- <-] & H). apply st_bind_inv in H as (u' & s4 & [= <- <-] & [= <- <-]).
  apply step_quiet; try done; cbn; lia.
Qed.

Section Clean.
Context (md : modem) (Hmd : forall l r, fst (md l r) <> 0 -> snd (md l r) = None).

Lemma put_tid r r' : put 8 (w32 1) r = Some r' -> rd32 r' 8 = Some 1.
Proof. intros H%put_lies. by apply lies_rd32. Qed.
Lemma does_status rsp : does 0 (mbim_status_code rsp).
Proof. unfold mbim_status_code. does. Qed.

Lemma check_step err rsp s x s' :
  mbim_check_err err rsp s = Some (x, s') ->
  step (match rsp with None => -1 | Some _ => if x then -2 else 0 end) s s' /\ (rsp = None -> exists e, x = inl e).
Proof.
  unfold mbim_check_err. intros (st & s1 & H1%does_status & H)%st_bind_inv.
  assert (Hb : forall n (y : Z + bytes), (blocks n;; mret y) s1 = Some (x, s') -> step n s s' /\ x = y).
  { intros n y Hy. split; [|apply st_bind_inv in Hy as (u & s2 & _ & [= <- <-]); done].
    rewrite <- (Z.add_0_l n). eapply step_trans; [exact H1|]. revert Hy. apply does_bind_l; does. }
  destruct rsp as [m|].
  - split; [|done]. destruct (negb (err =? 0)); [apply Hb in H as [H ->]; done|].
    destruct (negb (st =? 0)); [apply Hb in H as [H ->]; done|]. injection H as <- <-. done.
  - apply Hb in H as [H ->]. split; [done|eauto].
Qed.

(** A request from the number it takes to the check of its response. *)
Lemma core_step s r x s' :
  (tid_ok s -> rd32 r 8 = Some (m_tid s)) ->
  (mbim_send_command md r ≫= fun '(err, rsp) => mbim_check_err err rsp)
    (set_m_live (set_m_tid s (u32 (m_tid s + 1))) (m_live s + 1)) = Some (x, s') ->
  step (if x then 0 else 2) s s'.
Proof.
  intros Hr. set (s1 := set_m_live _ _). intros ([ret rsp] & s2 & H & Hc)%st_bind_inv. apply check_step in Hc as [Hc Hn].
  assert (Hs : step (1 + if rsp then 1 else 0) s s2).
  { unfold mbim_send_command in H. apply st_bind_inv in H as (fd & sx & [= <- <-] & H).
    apply st_bind_inv in H as (rd & sx & [= <- <-] & H).
    change (mbim_fd s1) with (mbim_fd s) in H. change (s_tid_reader s1) with (s_tid_reader s) in H.
    destruct (Z.leb_spec (mbim_fd s) 0) as [Hf|Hf].
    { injection H as <- <- <-. split; [done| |done|done]. intros [R _]. lia. }
    destruct (s_tid_reader s) eqn:Er; cbn [negb] in H.
    2: { injection H as <- <- <-. split; [done| |done|done]. intros [_ R]. congruence. }
    apply st_bind_inv in H as (t & sx & H1 & H). unfold mload in H1. destruct (rd32 r 8) as [t'|] eqn:Et; [|done]. injection H1 as <- <-.
    apply st_bind_inv in H as (r' & s3 & H1 & H).
    assert (Hq : (t' = tid_limit /\ rd32 r' 8 = Some 1 /\ s3 = set_m_tid s1 2) \/ (t' <> tid_limit /\ r' = r /\ s3 = s1)).
    { destruct (Z.eqb_spec t' tid_limit) as [->|Hne].
      - left. apply st_bind_inv in H1 as (u & s4 & [= <- <-] & H1). unfold mload in H1.
        destruct (put 8 (w32 1) r) as [r2|] eqn:Ep; [|done]. injection H1 as <- <-. split_and!; [done|by apply (put_tid r)|done].
      - right. by injection H1 as <- <-. }
    apply st_bind_inv in H as ([ret' rsp'] & s4 & H2 & H). injection H2 as E4 <-.
    apply st_bind_inv in H as (u & s5 & [= <- <-] & [= <- <- <-]).
    assert (El : (if (if ret' =? 0 then rsp' else None) then 1 else 0) = (if rsp' then 1 else 0)).
    { destruct (Z.eqb_spec ret' 0) as [|Hne]; [done|]. pose proof (Hmd (m_sent s3) r') as Hm. rewrite E4 in Hm. cbn [fst snd] in Hm. by rewrite (Hm Hne). }
    split.
    - destruct Hq as [(_ & _ & ->)|(_ & _ & ->)]; by cbn.
    - intros _ Ht. specialize (Hr Ht). injection Hr as ->. unfold tid_ok, tid_limit in *.
      destruct Hq as [(Eq & E1 & ->)|(Hne & -> & ->)]; cbn [m_tid m_sent set_m_live add_m_sent set_m_tid s1].
      + split; [lia|]. exists [r']. split; [done|]. repeat constructor. exists 1. split; [done|unfold tid_limit; lia].
      + rewrite wrap_small by (unfold in_u; lia). split; [lia|]. exists [r]. split; [done|]. repeat constructor.
        exists (m_tid s). split; [done|unfold tid_limit; lia].
    - rewrite El. destruct Hq as [(_ & _ & ->)|(_ & _ & ->)]; cbn; lia.
    - destruct Hq as [(_ & _ & ->)|(_ & _ & ->)]; done. }
  replace (if x then 0 else 2) with ((1 + if rsp then 1 else 0) + match rsp with None => -1 | Some _ => if x then -2 else 0 end).
  - by eapply step_trans.
  - destruct rsp; [by destruct x|]. by destruct (Hn eq_refl) as [e ->].
Qed.

Lemma header_tid type len t rest : lies (message_header type len t ++ rest) 8 (w32 t).
Proof.
  unfold message_header, lies. rewrite <- app_assoc, <- app_assoc, (app_assoc (w32 type)). by apply rdn_app.
Qed.

Lemma compose_tid t cid ty info len junk service r r' :
  compose_basic_connect_command t cid ty info len junk = Some r -> set_service service r = Some r' -> in_u 32 t ->
  rd32 r' 8 = Some t.
Proof.
  intros Hc Hs Ht. apply lies_rd32; [done|]. unfold set_service in Hs. destruct (str2uuid service) as [u|]; [|done].
  cbn [mbind option_bind] in Hs. apply (put_lies_other 20 u r r'); [done| |rewrite zlen_w32; lia].
  unfold compose_basic_connect_command in Hc. destruct (str2uuid UUID_BASIC_CONNECT) as [b|]; [|done]. cbn [mbind option_bind] in Hc.
  destruct info as [i|]; [destruct (negb _)|]; injection Hc as <-; rewrite <- app_assoc; apply header_tid.
Qed.

Lemma tid_in_u s : tid_ok s -> in_u 32 (m_tid s).
Proof. unfold tid_ok, tid_limit, in_u. lia. Qed.

Lemma mbim_next_tid_inv s t s1 :
  mbim_next_tid s = Some (t, s1) -> t = m_tid s /\ s1 = set_m_live (set_m_tid s (u32 (m_tid s + 1))) (m_live s + 1).
Proof. by intros [= <- <-]. Qed.



Lemma command_step service cid ty info len junk s x s' :
  command md service cid ty info len junk s = Some (x, s') -> step (if x then 0 else 2) s s'.
Proof.
  unfold command. intros (t & s1 & Ht & H)%st_bind_inv. apply mbim_next_tid_inv in Ht as [-> ->].
  apply st_bind_inv in H as (r & s2 & [Hc ->]%st_load_inv & H). apply st_bind_inv in H as (r' & s3 & [Hs ->]%st_load_inv & H).
  apply (core_step s r'); [|done]. intros Ho. by eapply compose_tid, tid_in_u.
Qed.

Lemma does_finish (x : Z + bytes) (f : bytes -> mact Z) n k : (forall m, does n (f m)) -> (if x then 0 else k) + (if x then 0 else n) = 0 ->
  forall s s1 y s', step (if x then 0 else k) s s1 -> finish x f s1 = Some (y, s') -> step 0 s s'.
Proof.
  intros Hf Hk s s1 y s' H1 H2. rewrite <- Hk. eapply step_trans; [exact H1|].
  destruct x as [e|m]; cbn [finish] in H2; [injection H2 as <- <-; apply step_refl|by eapply Hf].
Qed.

Lemma does_request service cid ty info len junk f :
  (forall m, does (-2) (f m)) -> does 0 (command md service cid ty info len junk ≫= fun x => finish x f).
Proof.
  intros Hf s y s' (x & s1 & H1%command_step & H2)%st_bind_inv.
  eapply (does_finish x f (-2) 2 Hf); [by destruct x|done|done].
Qed.

Lemma does_open_close mk :
  (forall t, lies (mk t) 8 (w32 t)) ->
  does 0 (t ← mbim_next_tid; '(err, rsp) ← mbim_send_command md (mk t); x ← mbim_check_err err rsp; finish x take_status).
Proof.
  intros Hmk s y s' (t & s1 & Ht & H)%st_bind_inv. apply mbim_next_tid_inv in Ht as [-> ->].
  apply st_bind_inv in H as ([err rsp] & s2 & H1 & H). apply st_bind_inv in H as (x & s3 & H2 & H).
  assert (H3 : step (if x then 0 else 2) s s3).
  { apply (core_step s (mk (m_tid s))); [intros Ho; by apply lies_rd32; [apply tid_in_u|apply Hmk]|].
    unfold mbind, st_bind. rewrite H1. exact H2. }
  refine (does_finish x take_status (-2) 2 _ _ s s3 y s' H3 H); [intros m; unfold take_status; does|by destruct x].
Qed.

Lemma does_take' m i f : does (-2) (take_state m i f). Proof. apply does_take. Qed.
Hint Resolve does_take' : does.

Lemma does_open_device n : does 0 (mbim_open_device md n).
Proof. apply (does_open_close (fun t => compose_open_command t n)). intros t. apply header_tid. Qed.
Lemma does_close_device : does 0 (mbim_close_device md).
Proof.
  apply (does_open_close compose_close_command). intros t. unfold compose_close_command.
  rewrite <- (app_nil_r (message_header _ _ _)). apply header_tid.
Qed.
Lemma does_query_connect sid j : does 0 (mbim_query_connect md sid j).
Proof. apply does_request. does. Qed.
Lemma does_ms_version : does 0 (mbim_ms_version_query md).
Proof. apply does_request. does. Qed.
Hint Resolve does_ms_version : does.
Lemma does_services : does 0 (mbim_device_services_query md).
Proof.
  apply does_request. intros m. apply does_bind0; [does|]. intros len. apply does_bind0; [does|]. intros v2.
  apply does_bind_l; [does|]. does.
Qed.
Lemma does_caps_string m i : does 0 (caps_string m i). Proof. unfold caps_string. does. Qed.
Hint Resolve does_caps_string : does.
Lemma does_device_caps : does 0 (mbim_device_caps_query md). Proof. apply does_request. does. Qed.
Lemma does_radio x : does 0 (mbim_set_radio_state md x). Proof. apply does_request. does. Qed.
Lemma does_subscriber : does 0 (mbim_subscriber_status_query md). Proof. apply does_request. does. Qed.
Lemma does_register : does 0 (mbim_register_state_query md). Proof. apply does_request. does. Qed.
Lemma does_packet : does 0 (mbim_packet_service_query md). Proof. apply does_request. does. Qed.
Lemma does_packet_set a : does 0 (mbim_packet_service_set md a). Proof. apply does_request. does. Qed.
Lemma does_proxy dev : does 0 (mbim_proxy_configure md dev). Proof. apply does_request. does. Qed.
Lemma does_connect a b : does 0 (mbim_set_connect md a b).
Proof. unfold mbim_set_connect. does. apply does_request. does. Qed.
Hint Resolve does_open_device does_query_connect does_services does_device_caps does_radio does_subscriber does_register
  does_packet does_packet_set does_proxy does_connect : does.

Lemma does_open_loop n : does 0 (open_loop n md).
Proof. induction n as [|n IH]; cbn [open_loop]; does. Qed.
Hint Resolve does_open_loop : does.

Lemma does_map {A B} n (f : A -> B) (m : mact A) : does n m -> does n (f <$> m).
Proof. intros Hm s y s'. unfold fmap, mact_map. destruct (m s) as [[x s1]|] eqn:E; [|done]. intros [= <- <-]. by eapply Hm. Qed.

Lemma does_member m i : does 0 (member m i). Proof. apply does_load. Qed.
Lemma does_addr4 m i : does 0 (addr4 m i). Proof. unfold addr4. does. Qed.
Lemma does_addr6 m i : does 0 (addr6 m i). Proof. apply does_load. Qed.
Lemma does_mwhen {C} b (f : C -> mact C) c : (forall c, does 0 (f c)) -> does 0 (mwhen b f c).
Proof. intros H. unfold mwhen. destruct b; [apply H|apply does_ret]. Qed.
Hint Resolve does_member does_addr4 does_addr6 : does.

Ltac does_when := repeat (does; try (apply does_mwhen; intros)).

Lemma does_ipv4 m f mtu c : does 0 (take_ipv4 m f mtu c).
Proof.
  unfold take_ipv4. do 3 (apply does_bind0; [does|]; intros ?). apply does_bind0; [by apply does_mwhen; does|]. intros ?.
  apply does_bind0; [by apply does_mwhen; does|]. intros ?. apply does_bind0; [does|]. intros ?.
  apply does_bind0; [|does]. apply does_mwhen. intros ?. do 3 (apply does_bind0; [does|]; intros ?). apply does_mwhen. does.
Qed.

Lemma does_ipv6 m f mtu c : does 0 (take_ipv6 m f mtu c).
Proof.
  unfold take_ipv6. do 3 (apply does_bind0; [does|]; intros ?). apply does_bind0; [by apply does_mwhen; does|]. intros ?.
  apply does_bind0; [by apply does_mwhen; does|]. intros ?.
  apply does_bind0; [|does]. apply does_mwhen. intros ?. do 3 (apply does_bind0; [does|]; intros ?). apply does_mwhen. does.
Qed.
Hint Resolve does_ipv4 : does.

(** An error is not 0. *)
Lemma check_nonzero err rsp s e s' : mbim_check_err err rsp s = Some (inl e, s') -> e <> 0.
Proof.
  unfold mbim_check_err. intros (st & s1 & _ & H)%st_bind_inv.
  destruct rsp as [m|]; destruct (Z.eqb_spec err 0), (Z.eqb_spec st 0); cbn [negb] in H; try done;
    apply st_bind_inv in H as (u & s2 & _ & [= <- <-]); done.
Qed.

Lemma command_nonzero service cid ty info len junk s e s' :
  command md service cid ty info len junk s = Some (inl e, s') -> e <> 0.
Proof.
  unfold command. intros (t & s1 & _ & H)%st_bind_inv. apply st_bind_inv in H as (r & s2 & _ & H).
  apply st_bind_inv in H as (r' & s3 & _ & H). apply st_bind_inv in H as ([err rsp] & s4 & _ & H). by eapply check_nonzero.
Qed.

Lemma ip_config_step sid junk c s ret c' s' :
  mbim_ip_config md sid junk c s = Some ((ret, c'), s') -> step (if ret =? 0 then 2 else 0) s s'.
Proof.
  unfold mbim_ip_config. intros (x & s1 & H1 & H)%st_bind_inv. unfold basic in H1. destruct x as [e|m].
  - injection H as <- <- <-. rewrite (proj2 (Z.eqb_neq e 0)) by (by eapply command_nonzero). by apply command_step in H1.
  - apply command_step in H1.
    assert (Hd : forall (k : mact (Z * ipcfg)), does 0 k -> k s1 = Some ((ret, c'), s') -> ret = 0 -> step (if ret =? 0 then 2 else 0) s s').
    { intros k Hk E ->. change (if 0 =? 0 then 2 else 0) with (2 + 0). eapply step_trans; [exact H1|by eapply Hk]. }
    refine (Hd _ _ H _).
    + apply does_bind0; [does|]. intros len. destruct (len =? 0); [does|]. do 2 (apply does_bind0; [does|]; intros ?).
      apply does_bind0; [does|]. intros [? ?]. apply does_bind0; [apply does_mwhen; intros; apply does_ipv6|]. intros ?. does.
    + apply st_bind_inv in H as (len & s2 & _ & H). destruct (len =? 0); [by injection H|].
      apply st_bind_inv in H as (f4 & s3 & _ & H). apply st_bind_inv in H as (f6 & s4 & _ & H).
      apply st_bind_inv in H as ([c1 mtu] & s5 & _ & H). apply st_bind_inv in H as (c2 & s6 & _ & H). by injection H.
Qed.

(** The blocks an operation leaves behind. *)
Definition left_over (x : mop * Z) : Z := match x with (OAddress _ _, ret) => if ret =? 0 then 2 else 0 | _ => 0 end.

Lemma mop_step o s r s' : run_mop md o s = Some (r, s') -> step (left_over (o, r)) s s'.
Proof.
  destruct o; cbn [run_mop left_over].
  8: { unfold fmap, mact_map. destruct (requestGetIPAddress md junk c s) as [[[ret c'] s1]|] eqn:E; [|done]. intros [= <- <-].
       unfold requestGetIPAddress in E. apply st_bind_inv in E as (sid & s2 & [= <- <-] & E). by eapply ip_config_step. }
  all: match goal with |- ?m _ = _ -> _ => enough (Hd : does 0 m) by (apply Hd) end.
  - unfold mbim_init, init_step. does.
  - apply does_close_device.
  - apply does_map. unfold requestGetSIMStatus. does.
  - apply does_map. unfold requestRegistrationState. does.
  - unfold requestSetupDataCall. does.
  - apply does_map. unfold requestQueryDataCall. does.
  - unfold requestDeactivateDefaultPDP. does.
Qed.

Definition total_left (rs : list (mop * Z)) : Z := foldr (fun x n => left_over x + n) 0 rs.

Lemma mops_step os : forall s rs s', run_mops md os s = Some (rs, s') -> step (total_left rs) s s'.
Proof.
  induction os as [|o os IH]; intros s rs s'; cbn [run_mops]; [intros [= <- <-]; apply step_refl|].
  intros (r & s1 & H1%mop_step & H)%st_bind_inv. apply st_bind_inv in H as (rs' & s2 & H2%IH & [= <- <-]).
  cbn [total_left foldr]. by eapply step_trans.
Qed.

(** ** What is sent *)

Definition cmd_of (r : bytes) : option Z * option Z := (rd32 r 36, rd32 r 40).

(** Exactly one command goes out; the modem's states are left alone. *)
Definition one_command (cid ty : Z) (s s' : mst) : Prop :=
  ready s' /\ m_cur s' = m_cur s /\ exists r, m_sent s' = m_sent s ++ [r] /\ cmd_of r = (Some cid, Some ty).

Lemma status_frame rsp s x s' : mbim_status_code rsp s = Some (x, s') ->
  mbim_fd s' = mbim_fd s /\ s_tid_reader s' = s_tid_reader s /\ m_cur s' = m_cur s /\ m_sent s' = m_sent s.
Proof.
  unfold mbim_status_code. destruct rsp as [m|]; [|by intros [= <- <-]]. intros (ty & s1 & [_ ->]%st_load_inv & H)%st_bind_inv.
  destruct (status_at ty); [|by injection H as <- <-]. apply st_bind_inv in H as (st & s2 & [_ ->]%st_load_inv & H).
  apply st_bind_inv in H as (u & s3 & H1 & [= <- <-]). destruct (_ && _); by injection H1 as <- <-.
Qed.

Lemma check_frame err rsp s x s' : mbim_check_err err rsp s = Some (x, s') ->
  mbim_fd s' = mbim_fd s /\ s_tid_reader s' = s_tid_reader s /\ m_cur s' = m_cur s /\ m_sent s' = m_sent s.
Proof.
  unfold mbim_check_err. intros (st & s1 & (A & B & C & D)%status_frame & H)%st_bind_inv. rewrite <- A, <- B, <- C, <- D.
  destruct rsp as [m|]; repeat (destruct (negb _)); try (by injection H as <- <-);
    apply st_bind_inv in H as (u & s2 & [= <- <-] & [= <- <-]); done.
Qed.

Lemma send_frame r s x s' : ready s -> mbim_send_command md r s = Some (x, s') ->
  mbim_fd s' = mbim_fd s /\ s_tid_reader s' = s_tid_reader s /\ m_cur s' = m_cur s /\
  exists r', m_sent s' = m_sent s ++ [r'] /\ (r' = r \/ put 8 (w32 1) r = Some r').
Proof.
  intros [R1 R2]. unfold mbim_send_command. intros (fd & sx & [= <- <-] & H)%st_bind_inv.
  apply st_bind_inv in H as (rd & sx & [= <- <-] & H). rewrite (proj2 (Z.leb_gt _ _) R1), R2 in H. cbn [negb] in H.
  apply st_bind_inv in H as (t & sx & [_ ->]%st_load_inv & H). apply st_bind_inv in H as (r' & s3 & H1 & H).
  assert (Hq : (r' = r /\ s3 = s) \/ (put 8 (w32 1) r = Some r' /\ s3 = set_m_tid s 2)).
  { destruct (t =? tid_limit); [|injection H1 as <- <-; by left].
    apply st_bind_inv in H1 as (u & s4 & [= <- <-] & [H1 ->]%st_load_inv). by right. }
  apply st_bind_inv in H as ([ret rsp] & s4 & [= _ <-] & H). apply st_bind_inv in H as (u & s5 & [= <- <-] & [= <- <-]).
  destruct Hq as [[-> ->]|[Hp ->]]; split_and!; try done; eexists; (split; [done|]); [by left|by right].
Qed.

Lemma lies_cmd r cid ty : in_u 32 cid -> in_u 32 ty -> lies r 36 (w32 cid) -> lies r 40 (w32 ty) -> cmd_of r = (Some cid, Some ty).
Proof. intros H1 H2 L1 L2. unfold cmd_of. by rewrite (lies_rd32 r 36 cid H1 L1), (lies_rd32 r 40 ty H2 L2). Qed.

Lemma uuid_len str u : str2uuid str = Some u -> zlen u = 16.
Proof.
  assert (H : forall f s l, scan_uuid f s = Some l -> length l = length (filter (eq true) f)).
  { induction f as [|[] f IH]; intros s l; cbn [scan_uuid].
    - by intros [= <-].
    - destruct s as [|a [|b s]]; try done. destruct (hex_value a), (hex_value b); try done.
      destruct (scan_uuid f s) as [l'|] eqn:E; [|done]. intros [= <-]. rewrite filter_cons_True by done. cbn. by rewrite (IH _ _ E).
    - destruct s as [|a s]; [done|]. destruct (a =? 45); [|done]. intros E. rewrite filter_cons_False by done. by apply (IH s). }
  intros E%H. unfold zlen. by rewrite E.
Qed.

Lemma compose_cmd t cid ty info len junk service r r' :
  compose_basic_connect_command t cid ty info len junk = Some r -> set_service service r = Some r' -> in_u 32 cid -> in_u 32 ty ->
  lies r' 36 (w32 cid) /\ lies r' 40 (w32 ty).
Proof.
  intros Hc Hs H1 H2. unfold set_service in Hs. destruct (str2uuid service) as [u|] eqn:Eu; [|done].
  cbn [mbind option_bind] in Hs. apply uuid_len in Eu.
  unfold compose_basic_connect_command in Hc. destruct (str2uuid UUID_BASIC_CONNECT) as [b|] eqn:Eb; [|done]. apply uuid_len in Eb.
  cbn [mbind option_bind] in Hc.
  assert (Hx : exists tl, r = (message_header MBIM_COMMAND_MSG (sizeof_MBIM_COMMAND_MSG + len) t ++ w32 1 ++ w32 0 ++ b) ++ w32 cid ++ w32 ty ++ tl).
  { destruct info as [i|]; [destruct (negb _)|]; injection Hc as <-; eexists; rewrite <- !app_assoc; reflexivity. }
  destruct Hx as [tl ->]. set (p := message_header _ _ _ ++ w32 1 ++ w32 0 ++ b) in *.
  assert (Hp : zlen p = 36) by (unfold p; rewrite !zlen_app, Eb, !zlen_w32; reflexivity).
  split; (eapply put_lies_other; [exact Hs| |rewrite zlen_w32; lia]).
  - apply rdn_app; [done|reflexivity].
  - rewrite app_assoc. apply rdn_app; [rewrite zlen_app, Hp; reflexivity|reflexivity].
Qed.

Lemma command_sends service cid ty info len junk s x s' :
  ready s -> in_u 32 cid -> in_u 32 ty -> command md service cid ty info len junk s = Some (x, s') -> one_command cid ty s s'.
Proof.
  intros R H1 H2. unfold command. intros (t & s1 & Ht & H)%st_bind_inv. apply mbim_next_tid_inv in Ht as [-> ->].
  apply st_bind_inv in H as (r & s2 & [Hc ->]%st_load_inv & H). apply st_bind_inv in H as (r' & s3 & [Hs ->]%st_load_inv & H).
  apply st_bind_inv in H as ([err rsp] & s4 & Hsend & (A1 & A2 & A3 & A4)%check_frame).
  apply send_frame in Hsend as (B1 & B2 & B3 & q & B4 & B5); [|done].
  destruct (compose_cmd _ _ _ _ _ _ _ _ _ Hc Hs H1 H2) as [L1 L2].
  split; [unfold ready; rewrite A1, A2, B1, B2; exact R|]. split; [by rewrite A3, B3|]. exists q. split; [by rewrite A4, B4|].
  destruct B5 as [->|Hp]; [by apply lies_cmd|].
  apply lies_cmd; [done|done|by apply (put_lies_other 8 (w32 1) r' q); [done..|right]|by apply (put_lies_other 8 (w32 1) r' q); [done..|right]].
Qed.

Lemma take_inv m i f s r s' : take_state m i f s = Some (r, s') ->
  r = 0 /\ mbim_fd s' = mbim_fd s /\ s_tid_reader s' = s_tid_reader s /\ m_sent s' = m_sent s /\
  (m_cur s' = m_cur s \/ exists x, m_cur s' = f x (m_cur s)).
Proof.
  unfold take_state. intros (len & s1 & [_ ->]%st_load_inv & H)%st_bind_inv. apply st_bind_inv in H as (u & s2 & H1 & H).
  apply st_bind_inv in H as (u' & s3 & [= <- <-] & [= <- <-]). split; [done|].
  destruct (negb (len =? 0)); [|injection H1 as <- <-; by split_and!; [..|left]].
  apply st_bind_inv in H1 as (x & s3 & [_ ->]%st_load_inv & H1). apply st_bind_inv in H1 as (u1 & s4 & [= <- <-] & H1).
  unfold mbim_update_state in H1. apply st_bind_inv in H1 as (c & s5 & [= <- <-] & H1).
  apply st_bind_inv in H1 as (o & s6 & [= <- <-] & H1). apply st_bind_inv in H1 as (u2 & s7 & [= <- <-] & [= <- <-]).
  split_and!; try done. right. by exists x.
Qed.

Lemma update_inv s r s' : mbim_update_state s = Some (r, s') ->
  mbim_fd s' = mbim_fd s /\ s_tid_reader s' = s_tid_reader s /\ m_sent s' = m_sent s /\ m_cur s' = m_cur s.
Proof.
  unfold mbim_update_state. intros (c & s5 & [= <- <-] & H1)%st_bind_inv.
  apply st_bind_inv in H1 as (o & s6 & [= <- <-] & H1). by apply st_bind_inv in H1 as (u2 & s7 & [= <- <-] & [= <- <-]).
Qed.

(** A query for one of the states. *)
Definition queried (f : Z -> dev_state -> dev_state) (cid ty : Z) (s : mst) (ret : Z) (s' : mst) : Prop :=
  ready s' /\ (exists r, m_sent s' = m_sent s ++ [r] /\ cmd_of r = (Some cid, Some ty)) /\
  (m_cur s' = m_cur s \/ exists x, m_cur s' = f x (m_cur s)).

Lemma state_request service cid ty info len junk i f (pre : bytes -> mact Z) s ret s' :
  ready s -> in_u 32 cid -> in_u 32 ty ->
  (forall m s x s', pre m s = Some (x, s') -> s' = s) ->
  (command md service cid ty info len junk ≫= fun x => finish x (fun m => (pre m : mact Z);; take_state m i f)) s = Some (ret, s') ->
  queried f cid ty s ret s'.
Proof.
  intros R H1 H2 Hpre (x & s1 & (R1 & C1 & r & S1 & K)%command_sends & H)%st_bind_inv; try done.
  destruct x as [e|m]; cbn [finish] in H.
  - injection H as <- <-. split_and!; [done|by exists r|by left].
  - apply st_bind_inv in H as (u & s2 & ->%Hpre & (_ & T1 & T2 & T3 & T4)%take_inv). destruct R1 as [R1 R2].
    split; [unfold ready; by rewrite T1, T2|]. split; [exists r; by rewrite T3|]. by rewrite <- C1.
Qed.

Lemma register_queried s ret s' :
  ready s -> mbim_register_state_query md s = Some (ret, s') ->
  queried set_register MBIM_CID_REGISTER_STATE MBIM_CID_CMD_TYPE_QUERY s ret s'.
Proof.
  intros R H. unfold mbim_register_state_query in H. apply st_bind_inv in H as (x & s1 & H1 & H).
  eapply (state_request UUID_BASIC_CONNECT _ _ None 0 [] 4 _ (fun _ => (mret 0 : mact Z))); try done; [by intros ? ? ? ? [= <- <-]|].
  unfold mbind at 1, st_bind at 1. rewrite H1. exact H.
Qed.

Lemma packet_queried s ret s' :
  ready s -> mbim_packet_service_query md s = Some (ret, s') ->
  queried set_packet MBIM_CID_PACKET_SERVICE MBIM_CID_CMD_TYPE_QUERY s ret s'.
Proof.
  intros R H. unfold mbim_packet_service_query in H. apply st_bind_inv in H as (x & s1 & H1 & H).
  eapply (state_request UUID_BASIC_CONNECT _ _ None 0 [] 4 _ (fun m => len ← mload (rd32 m 44);
    (if len =? sizeof_MBIM_PACKET_SERVICE_INFO_V2 then mload (rd32 m (48 + 8)) else mret 0) : mact Z)); try done.
  - intros m s2 y s3 (len & s4 & [_ ->]%st_load_inv & Hx)%st_bind_inv. destruct (_ =? _); [by apply st_load_inv in Hx as [_ ->]|by injection Hx].
  - unfold mbind at 1, st_bind at 1. rewrite H1. destruct x as [e|m]; [exact H|]. cbn [finish] in H |- *.
    apply st_bind_inv in H as (len & s2 & E2 & H). apply st_bind_inv in H as (u & s3 & E3 & H).
    unfold mbind, st_bind in *. rewrite E2, E3. exact H.
Qed.

Lemma packet_set_queried a s ret s' :
  ready s -> mbim_packet_service_set md a s = Some (ret, s') ->
  queried set_packet MBIM_CID_PACKET_SERVICE MBIM_CID_CMD_TYPE_SET s ret s'.
Proof.
  intros R H. unfold mbim_packet_service_set, basic in H. apply st_bind_inv in H as (x & s1 & H1 & H).
  eapply (state_request UUID_BASIC_CONNECT _ _ (Some (w32 a)) (zlen (w32 a)) [] 4 _ (fun _ => (mret 0 : mact Z))); try done; [by intros ? ? ? ? [= <- <-]|].
  unfold mbind at 1, st_bind at 1. rewrite H1. exact H.
Qed.

End Clean.

(** ** Theorems *)

(** In any run of the session, with whatever the modem answers, every message
    sent has a transaction number from 1 to 0xFFFFFF, which leaves the byte the
    proxy marks its clients with; the states last reported are those last seen;
    and every block is freed again, except the two of each successful query of the
    addresses. *)
Theorem mbim_session_sound md os s rs s' :
  (forall l r, fst (md l r) <> 0 -> snd (md l r) = None) ->
  ready s -> tid_ok s -> settled s -> run_mops md os s = Some (rs, s') ->
  tid_ok s' /\ settled s' /\ m_live s' = m_live s + total_left rs /\
  exists ms, m_sent s' = m_sent s ++ ms /\ Forall tid_free ms.
Proof.
  intros Hmd R T S H. destruct (mops_step md Hmd os s rs s' H) as [_ H1 H2 H3]. destruct (H1 R T) as (T' & ms & E & F).
  split_and!; [done|by apply H3|done|by exists ms].
Qed.

Definition registered (d : dev_state) : bool :=
  (RegisterState d =? MBIMRegisterStateHome) || (RegisterState d =? MBIMRegisterStateRoaming).

(** [requestRegistrationState] asks for the registration first; only if the
    modem is registered does it ask for the packet service, and only if that is not
    attached does it send the command to attach.  It reports success and attached
    exactly when both were seen, whatever the modem answers. *)
Theorem registration_plan md s ret att s' :
  ready s -> requestRegistrationState md s = Some ((ret, att), s') ->
  let reg := (Some MBIM_CID_REGISTER_STATE, Some MBIM_CID_CMD_TYPE_QUERY) in
  let pkt ty := (Some MBIM_CID_PACKET_SERVICE, Some ty) in
  exists ms, m_sent s' = m_sent s ++ ms /\
    (map cmd_of ms = [reg] /\ att = 0 /\ (ret = 0 -> registered (m_cur s') = false) \/
     map cmd_of ms = [reg; pkt MBIM_CID_CMD_TYPE_QUERY] /\ att = 1 /\ registered (m_cur s') = true /\
       (ret = 0 -> PacketServiceState (m_cur s') = MBIMPacketServiceStateAttached) \/
     map cmd_of ms = [reg; pkt MBIM_CID_CMD_TYPE_QUERY; pkt MBIM_CID_CMD_TYPE_SET] /\ att = 0 /\ ret = 0 /\
       registered (m_cur s') = true).
Proof.
  intros R. unfold requestRegistrationState. cbv zeta. intros (r1 & s1 & Hq & H)%st_bind_inv.
  apply register_queried in Hq as (R1 & (m1 & S1 & K1) & _); [|done].
  destruct (Z.eqb_spec r1 0) as [->|Hn]; cbn [negb] in H.
  2: { injection H as <- <- <-. exists [m1]. split; [done|]. left. cbn [map]. rewrite K1. by split_and!. }
  apply st_bind_inv in H as (u & s2 & (U1 & U2 & U3 & U4)%update_inv & H). apply st_bind_inv in H as (d & s3 & [= <- <-] & H).
  assert (R2 : ready s2) by (destruct R1; unfold ready; by rewrite U1, U2). fold (registered (m_cur s2)) in H.
  destruct (registered (m_cur s2)) eqn:Eg; cbn [negb] in H.
  2: { injection H as <- <- <-. exists [m1]. rewrite U3. split; [done|]. left. cbn [map]. rewrite K1. by split_and!. }
  apply st_bind_inv in H as (r2 & s4 & Hp & H). apply packet_queried in Hp as (R4 & (m2 & S4 & K4) & C4); [|done].
  assert (E4 : registered (m_cur s4) = true) by (destruct C4 as [->|[x ->]]; exact Eg).
  destruct (Z.eqb_spec r2 0) as [->|Hn]; cbn [negb] in H.
  2: { injection H as <- <- <-. exists [m1; m2]. rewrite S4, U3, S1, <- app_assoc. split; [done|]. right; left. cbn [map]. rewrite K1, K4. by split_and!. }
  apply st_bind_inv in H as (d & s5 & [= <- <-] & H). destruct (Z.eqb_spec (PacketServiceState (m_cur s4)) MBIMPacketServiceStateAttached) as [Ea|_].
  { injection H as <- <- <-. exists [m1; m2]. rewrite S4, U3, S1, <- app_assoc. split; [done|]. right; left. cbn [map]. rewrite K1, K4. by split_and!. }
  apply st_bind_inv in H as (r3 & s6 & Ht & [= <- <- <-]). apply packet_set_queried in Ht as (R6 & (m3 & S6 & K6) & C6); [|done].
  exists [m1; m2; m3]. rewrite S6, S4, U3, S1, <- !app_assoc. split; [done|]. right; right. cbn [map]. rewrite K1, K4, K6.
  split_and!; try done. destruct C6 as [->|[x ->]]; exact E4.
Qed.

(** A modem that is registered at home and answers every command with the
    information [NwError, 3, ...]. *)
Definition ex_answer (r : bytes) : bytes :=
  match rd32 r 0 with
  | Some 3 => message_header MBIM_COMMAND_DONE 64 (default 0 (rd32 r 8)) ++ w32 1 ++ w32 0 ++ default [] (rdn r 20 20) ++
              w32 0 ++ w32 16 ++ w32 0 ++ w32 3 ++ w32 0 ++ w32 0
  | Some t => message_header (0x80000000 + t) 16 (default 0 (rd32 r 8)) ++ w32 0
  | None => []
  end.
Definition ex_mbim (_ : list bytes) (r : bytes) : Z * option bytes := (0, Some (ex_answer r)).
Definition ex_mst : mst :=
  Mst 0xFFFFFF None None None 0 0 0 5 true (DevState 0 0 0 0) (DevState 0 0 0 0) 0 1 false None 0 [].
Definition ex_mops : list mop := [OClose; ORegister; ODeactivate].

Lemma mbim_session_sound_witness :
  exists rs s', run_mops ex_mbim ex_mops ex_mst = Some (rs, s') /\ m_live s' = 0 /\ m_tid s' = 5.
Proof.
  destruct (run_mops ex_mbim ex_mops ex_mst) as [[rs s']|] eqn:E; [|vm_compute in E; discriminate].
  exists rs, s'. split; [reflexivity|].
  destruct (mbim_session_sound ex_mbim ex_mops ex_mst rs s') as (_ & _ & L & _);
    [intros l r Hn; destruct (Hn eq_refl)|split; reflexivity|vm_compute; split; discriminate|reflexivity|exact E|].
  assert (Er : total_left rs = 0 /\ m_tid s' = 5) by (vm_compute in E; injection E as <- <-; split; reflexivity).
  destruct Er as [Er Et]. rewrite L, Er. split; [reflexivity|exact Et].
Defined.

Lemma registration_plan_witness :
  exists s' ms, requestRegistrationState ex_mbim ex_mst = Some ((0, 0), s') /\ m_sent s' = ms /\ length ms = 3%nat.
Proof.
  destruct (requestRegistrationState ex_mbim ex_mst) as [[[ret att] s']|] eqn:E; [|vm_compute in E; discriminate].
  destruct (registration_plan ex_mbim ex_mst ret att s') as (ms & Es & _); [split; reflexivity|exact E|].
  exists s', ms. change (m_sent ex_mst) with (@nil bytes) in Es.
  assert (Hr : ret = 0 /\ att = 0 /\ length (m_sent s') = 3%nat) by (vm_compute in E; injection E as <- <- <-; split_and!; reflexivity).
  destruct Hr as (-> & -> & Hl). rewrite Es in Hl. split_and!; [reflexivity|exact Es|exact Hl].
Defined.

(** The numbers run on while the device is closed: composed there, the number that
    should wrap is never looked at, and the next one sent has the proxy's byte set. *)
Theorem closed_device_loses_wrap md s :
  m_tid s = tid_limit -> mbim_fd s <= 0 ->
  exists s', mbim_close_device md s = Some (- ENODEV, s') /\ m_tid s' = tid_limit + 1.
Proof.
  intros Ht Hf. unfold mbim_close_device, mbim_next_tid, mbim_send_command. unfold mbind at 1, st_bind at 1.
  eexists. unfold mbind, st_bind, mgets, mmodify, blocks, mret, st_ret. cbn. rewrite (proj2 (Z.leb_le _ _) Hf). cbn.
  split; [reflexivity|]. cbn. by rewrite Ht.
Qed.

(** The configuration sent to the proxy announces an empty information buffer. *)
Theorem proxy_config_announces_nothing t dev r :
  compose_basic_connect_command t MBIM_CID_PROXY_CONTROL_CONFIGURATION MBIM_CID_CMD_TYPE_SET None (12 + 2 * zlen dev)
    (proxy_config dev) = Some r -> rd32 r 44 = Some 0.
Proof.
  intros H. apply lies_rd32; [done|]. unfold compose_basic_connect_command in H.
  destruct (str2uuid UUID_BASIC_CONNECT) as [b|] eqn:Eb; [|done]. apply uuid_len in Eb. cbn [mbind option_bind] in H.
  apply (inj Some) in H. subst r. apply rdn_app; [|reflexivity]. rewrite !zlen_app, Eb, !zlen_w32. reflexivity.
Qed.

(** [c] is a copy of a received message that answers [r]. *)
Definition mbim_answers (r : bytes) (ds : list (option bytes)) (c : bytes) : Prop :=
  exists d len, In (Some d) ds /\ is_Some (rd32 d 8) /\ rd32 d 8 = rd32 r 8 /\ rd32 d 4 = Some len /\ rdn d 0 len = Some c.

Lemma notify_keeps b e x : mbim_pRequest (rx_notify b e x) = mbim_pRequest x /\ mbim_pResponse (rx_notify b e x) = mbim_pResponse x.
Proof. by destruct b. Qed.

Lemma mbim_indication_keeps old sid d x x' :
  mbim_indication old sid d x = Some x' -> mbim_pRequest x' = mbim_pRequest x /\ mbim_pResponse x' = mbim_pResponse x.
Proof.
  assert (Hv : forall i last e y, (st ← rd32 d i; Some (rx_notify (negb (st =? last)) e x)) = Some y ->
    mbim_pRequest y = mbim_pRequest x /\ mbim_pResponse y = mbim_pResponse x).
  { intros i last e y. destruct (rd32 d i); [|done]. cbn [mbind option_bind]. intros [= <-]. apply notify_keeps. }
  unfold mbim_indication. destruct (rdn d 20 16); [|done]. cbn [mbind option_bind]. destruct (str2uuid _); [|done]. cbn [mbind option_bind].
  destruct (negb _); [by intros [= <-]|]. destruct (rd32 d 36) as [cid|]; [|done]. cbn [mbind option_bind].
  repeat (destruct (cid =? _); [try (by apply Hv)|]); [|by intros [= <-]].
  destruct (rd32 d 44); [|done]. cbn [mbind option_bind]. destruct (negb _); [by intros [= <-]|by apply Hv].
Qed.

Lemma recv_keeps old sid d x x' r :
  mbim_recv_command old sid d x = Some x' -> mbim_pRequest x = Some r ->
  mbim_pRequest x' = Some r /\
  (mbim_pResponse x' = mbim_pResponse x \/ exists c, mbim_pResponse x' = Some c /\ mbim_answers r [d] c).
Proof.
  intros H Hr. unfold mbim_recv_command in H. destruct d as [d|]; [|injection H as <-; by split; [|left]].
  destruct (rd32 d 8) as [t|] eqn:Et; [|done]. cbn [mbind option_bind] in H. rewrite Hr in H.
  destruct (bool_decide_reflect (rd32 r 8 = Some t)) as [E|_].
  - destruct (rd32 d 4) as [len|] eqn:El; [|done]. cbn [mbind option_bind] in H. destruct (rdn d 0 len) as [c|] eqn:Ec; [|done].
    injection H as <-. split; [by cbn|]. right. exists c. split; [done|]. exists d, len. rewrite Et, E. split_and!; [by left|by eexists|done|done|done].
  - assert (Hk : mbim_pRequest x' = mbim_pRequest x /\ mbim_pResponse x' = mbim_pResponse x).
    { destruct (rd32 d 0) as [type|]; [|done]. cbn [mbind option_bind] in H.
      destruct (type =? _); [by apply mbim_indication_keeps in H|by injection H as <-]. }
    destruct Hk as [-> ->]. split; [done|by left].
Qed.

(** Whatever the reader receives while a request waits, the response handed to it is
    the beginning of a received message with the transaction number of the request,
    and of the length that message claims. *)
Theorem mbim_response_matches old sid ds : forall x x' r c,
  recv_all old sid ds x = Some x' -> mbim_pRequest x = Some r -> mbim_pResponse x = None -> mbim_pResponse x' = Some c ->
  mbim_answers r ds c.
Proof.
  enough (H : forall x x' r c, recv_all old sid ds x = Some x' -> mbim_pRequest x = Some r -> mbim_pResponse x' = Some c ->
    mbim_pResponse x = Some c \/ mbim_answers r ds c).
  { intros x x' r c H1 H2 H3 H4. destruct (H x x' r c H1 H2 H4) as [E|E]; [congruence|done]. }
  induction ds as [|d ds IH]; intros x x' r c; cbn [recv_all]; [intros [= <-]; by left|].
  destruct (mbim_recv_command old sid d x) as [x1|] eqn:E; [|done]. cbn [mbind option_bind]. intros H1 H2 H3.
  destruct (recv_keeps _ _ _ _ _ _ E H2) as [R1 Rc]. destruct (IH x1 x' r c H1 R1 H3) as [E1|(d' & len & Hi & ?)].
  - destruct Rc as [Es|(c1 & Ec & d' & len & Hi & ?)]; [left; congruence|right]. assert (c1 = c) as -> by congruence.
    exists d', len. split; [|done]. destruct Hi as [->|[]]. by left.
  - right. exists d', len. split; [by right|done].
Qed.
