(* ===== verification/QmiNet.v ===== *)
(** * Registration: [requestRegistrationState] of [QMIThread.c]

    Whether the modem is attached to packet service, and on which radio
    technology.  Newer modems are asked for the system information, a sequence
    of fields that is walked from the first to the last; older ones for the
    serving system.  The state is that of QmiReq: the walk decides [s_is_cdma],
    on which the next start request depends. *)

From S2P Require Import Prelude CLib QmiMsg QmiReq.

(** ** Codes *)

Definition QMINAS_GET_SERVING_SYSTEM_REQ : Z := 0x0024.
Definition QMINAS_GET_HOME_NETWORK_REQ : Z := 0x0025.
Definition QMINAS_GET_SYS_INFO_REQ : Z := 0x004D.

Definition WWAN_DATA_CLASS_NONE : Z := 0x00000000.
Definition WWAN_DATA_CLASS_GPRS : Z := 0x00000001.
Definition WWAN_DATA_CLASS_EDGE : Z := 0x00000002.
Definition WWAN_DATA_CLASS_UMTS : Z := 0x00000004.
Definition WWAN_DATA_CLASS_LTE : Z := 0x00000020.
Definition WWAN_DATA_CLASS_5G_NSA : Z := 0x00000040.
Definition WWAN_DATA_CLASS_5G_SA : Z := 0x00000080.
Definition WWAN_DATA_CLASS_1XRTT : Z := 0x00010000.
Definition WWAN_DATA_CLASS_1XEVDO : Z := 0x00020000.
Definition WWAN_DATA_CLASS_1XEVDO_REVA : Z := 0x00040000.
Definition WWAN_DATA_CLASS_1XEVDV : Z := 0x00080000.
Definition WWAN_DATA_CLASS_3XRTT : Z := 0x00100000.
Definition WWAN_DATA_CLASS_1XEVDO_REVB : Z := 0x00200000.
Definition WWAN_DATA_CLASS_UMB : Z := 0x00400000.
Definition DEVICE_CLASS_CDMA : Z := 1.
Definition DEVICE_CLASS_GSM : Z := 2.

Definition set_cdma (s : qst) (x : bool) : qst :=
  Qst (v4_handle s) (v6_handle s) x (s_9x07 s) (TransactionId s) (g_pdn_conflict s) (qmap_version s) (q_sent s).

(** ** Country and network codes *)

(** The digits of a CDMA code: 111 is added first, and a digit 0 stands for 10. *)
Definition quectel_convert_cdma_mcc_2_ascii_mcc (mcc : Z) : Z :=
  if mcc =? 0x3FF then 3
  else
    let buf := mcc + 111 in
    let d3 := buf mod 10 in
    let buf := if d3 =? 0 then (buf - 10) / 10 else buf / 10 in
    let d2 := buf mod 10 in
    let buf := if d2 =? 0 then (buf - 10) / 10 else buf / 10 in
    let d1 := if buf =? 10 then 0 else buf in
    if (d1 <? 10) && (d2 <? 10) && (d3 <? 10) then u16 (d1 * 100 + d2 * 10 + d3) else 0.

Definition quectel_convert_cdma_mnc_2_ascii_mnc (imsi_11_12 : Z) : Z :=
  if imsi_11_12 =? 0x7F then 7
  else
    let buf := imsi_11_12 + 11 in
    let d2 := buf mod 10 in
    let buf := if d2 =? 0 then (buf - 10) / 10 else buf / 10 in
    let d1 := if buf =? 10 then 0 else buf in
    if (d1 <? 10) && (d2 <? 10) then u16 (d1 * 10 + d2) else 0.

(** Three digits, the last of which may be 0xFF. *)
Definition char2ushort (str : bytes) : Z :=
  let temp := map (fun c => if c =? 0xFF then 0 else c) str in
  u16 (num_val (strtol 10 (fst (cut 0 temp)))).

(** The result and the codes of the home network, 0 if it has none. *)
Definition requestGetHomeNetwork (md : modem) : act (Z * Z * Z) :=
  rsp ← request md QMUX_TYPE_NAS QMINAS_GET_HOME_NETWORK_REQ None;
  match rsp with
  | inl err => mret (err, 0, 0)
  | inr m =>
      p ← tlv m 0x01;
      '(mcc, mnc) ← match p with
                    | Some p => mcc ← load (rd16 m (p + 3)); mnc ← load (rd16 m (p + 5)); mret (mcc, mnc)
                    | None => mret (0, 0)
                    end;
      tlv m 0x10;;
      mret (0, mcc, mnc)
  end.

(** ** The system information *)

(** The locals of the walk and the globals it writes; the name of the technology
    is only printed. *)
Record sysinfo := SysInfo {
  y_ps : Z; y_lte : bool; y_cdma : bool; y_hdr : Z; y_class : Z; y_cap : Z;
  y_mcc : Z; y_mnc : Z; y_endc : option Z; y_dcnr : option Z }.

Definition put_service (class cap : Z) (lte cdma : bool) (y : sysinfo) : sysinfo :=
  SysInfo (y_ps y) lte cdma (y_hdr y) class cap (y_mcc y) (y_mnc y) (y_endc y) (y_dcnr y).
Definition set_domain (lte cdma : bool) (y : sysinfo) : sysinfo :=
  SysInfo 1 lte cdma (y_hdr y) (y_class y) (y_cap y) (y_mcc y) (y_mnc y) (y_endc y) (y_dcnr y).
Definition set_codes (mcc mnc : Z) (y : sysinfo) : sysinfo :=
  SysInfo (y_ps y) (y_lte y) (y_cdma y) (y_hdr y) (y_class y) (y_cap y) mcc mnc (y_endc y) (y_dcnr y).
Definition set_hdr (x : Z) (y : sysinfo) : sysinfo :=
  SysInfo (y_ps y) (y_lte y) (y_cdma y) x (y_class y) (y_cap y) (y_mcc y) (y_mnc y) (y_endc y) (y_dcnr y).
Definition set_endc (x : Z) (y : sysinfo) : sysinfo :=
  SysInfo (y_ps y) (y_lte y) (y_cdma y) (y_hdr y) (y_class y) (y_cap y) (y_mcc y) (y_mnc y) (Some x) (y_dcnr y).
Definition set_dcnr (x : Z) (y : sysinfo) : sysinfo :=
  SysInfo (y_ps y) (y_lte y) (y_cdma y) (y_hdr y) (y_class y) (y_cap y) (y_mcc y) (y_mnc y) (y_endc y) (Some x).

Definition no_info : sysinfo := SysInfo 0 false false 0 0 0 0 0 None None.

(** [SrvStatus == 0x02] of the field at [p]. *)
Definition in_service (m : bytes) (p : Z) : act bool := x ← load (zget m (p + 3)); mret (x =? 0x02).

(** [SrvDomainValid] and the packet bit of [SrvDomain]. *)
Definition packet_domain (m : bytes) (p : Z) : act bool :=
  valid ← load (zget m (p + 3));
  if valid =? 0x01 then d ← load (zget m (p + 4)); mret (negb (Z.land d 0x02 =? 0)) else mret false.

(** [NetworkIdValid] at [off] and the codes behind it. *)
Definition network_id (m : bytes) (p off : Z) (y : sysinfo) : act sysinfo :=
  valid ← load (zget m (p + off));
  if valid =? 0x01 then
    mcc ← load (rdn m (p + off + 1) 3); mnc ← load (rdn m (p + off + 4) 3);
    mret (set_codes (char2ushort mcc) (char2ushort mnc) y)
  else mret y.

(** The HDR information asks for the home network. *)
Definition hdr_info (md : modem) (m : bytes) (p : Z) (y : sysinfo) : act sysinfo :=
  d ← packet_domain m p;
  let y := if (d : bool) then set_domain (y_lte y) (negb (y_lte y)) y else y in
  y ← (if negb (y_ps y =? 0) then
         v ← load (zget m (p + 13));
         if v =? 0x01 then x ← load (zget m (p + 14)); mret (if x =? 0x03 then set_hdr 0x02 y else y) else mret y
       else mret y);
  '(err, mcc, mnc) ← requestGetHomeNetwork md;
  mret (if (err =? 0) && negb (mcc =? 0)
        then set_codes (quectel_convert_cdma_mcc_2_ascii_mcc mcc) (quectel_convert_cdma_mnc_2_ascii_mnc mnc) y else y).

Definition cdma_caps : Z :=
  Z.lor WWAN_DATA_CLASS_1XRTT (Z.lor WWAN_DATA_CLASS_1XEVDO (Z.lor WWAN_DATA_CLASS_1XEVDO_REVA
    (Z.lor WWAN_DATA_CLASS_1XEVDV WWAN_DATA_CLASS_1XEVDO_REVB))).

(** One field of type [t] at [p]. *)
Definition sys_field (md : modem) (m : bytes) (t p : Z) (y : sysinfo) : act sysinfo :=
  let service class cap lte cdma :=
    on ← in_service m p; mret (if on : bool then put_service class cap lte cdma y else y) in
  let system off lte cdma :=
    d ← packet_domain m p; network_id m p off (if d : bool then set_domain lte cdma y else y) in
  if t =? 0x10 then service DEVICE_CLASS_CDMA cdma_caps (y_lte y) (negb (y_lte y))
  else if t =? 0x11 then
    service DEVICE_CLASS_CDMA (Z.lor WWAN_DATA_CLASS_3XRTT WWAN_DATA_CLASS_UMB) (y_lte y) (negb (y_lte y))
  else if t =? 0x12 then
    service DEVICE_CLASS_GSM (Z.lor WWAN_DATA_CLASS_GPRS WWAN_DATA_CLASS_EDGE) (y_lte y) (y_cdma y)
  else if t =? 0x13 then service DEVICE_CLASS_GSM WWAN_DATA_CLASS_UMTS (y_lte y) (y_cdma y)
  else if t =? 0x14 then service DEVICE_CLASS_GSM WWAN_DATA_CLASS_LTE true false
  else if t =? 0x4A then service DEVICE_CLASS_GSM (Z.lor (y_cap y) WWAN_DATA_CLASS_5G_SA) true false
  else if t =? 0x4B then system 22 (y_lte y) (y_cdma y)
  else if t =? 0x4E then x ← load (zget m (p + 3)); mret (set_endc x y)
  else if t =? 0x4F then x ← load (zget m (p + 3)); mret (set_dcnr x y)
  else if t =? 0x24 then in_service m p;; mret y
  else if t =? 0x15 then system 38 (y_lte y) (negb (y_lte y))
  else if t =? 0x16 then hdr_info md m p y
  else if t =? 0x17 then system 22 (y_lte y) (y_cdma y)
  else if t =? 0x18 then system 22 (y_lte y) (y_cdma y)
  else if t =? 0x19 then system 22 true false
  else if t =? 0x25 then system 22 (y_lte y) (y_cdma y)
  else mret y.

(** Every turn takes at least 3 of the remaining bytes: [remainingLen] of them
    are fuel enough. *)
Fixpoint sys_loop (fuel : nat) (md : modem) (m : bytes) (remainingLen p : Z) (y : sysinfo) : act (option sysinfo) :=
  if remainingLen <=? 0 then mret (Some y)
  else
    match fuel with
    | O => mret None
    | S fuel =>
        t ← load (zget m p);
        y ← sys_field md m t p y;
        len ← load (rd16 m (p + 1));
        sys_loop fuel md m (remainingLen - (len + 3)) (p + 3 + len) y
    end.

Definition has (caps class : Z) : bool := negb (Z.land caps class =? 0).

(** Non-standalone 5G: LTE with dual connectivity available and not restricted. *)
Definition final_caps (y : sysinfo) : Z :=
  if has (y_cap y) WWAN_DATA_CLASS_LTE then
    match y_endc y, y_dcnr y with
    | Some e, Some r => if negb (e =? 0) && (r =? 0) then Z.lor (y_cap y) WWAN_DATA_CLASS_5G_NSA else y_cap y
    | _, _ => y_cap y
    end
  else y_cap y.

(** [s_5g_type]. *)
Definition type_5g (y : sysinfo) : Z :=
  if y_class y =? DEVICE_CLASS_CDMA then WWAN_DATA_CLASS_NONE
  else if has (final_caps y) WWAN_DATA_CLASS_5G_SA then WWAN_DATA_CLASS_5G_SA
  else if has (final_caps y) WWAN_DATA_CLASS_5G_NSA then WWAN_DATA_CLASS_5G_NSA
  else WWAN_DATA_CLASS_NONE.

(** The return value, the attached state stored, and what the walk found. *)
Definition requestRegistrationState2 (md : modem) : act (option (Z * Z * sysinfo)) :=
  rsp ← request md QMUX_TYPE_NAS QMINAS_GET_SYS_INFO_REQ None;
  match rsp with
  | inl err => mret (Some (err, 0, no_info))
  | inr m =>
      remainingLen ← load (rd16 m (off_hdr + 2));
      y ← sys_loop (Z.to_nat remainingLen) md m remainingLen off_tlvs no_info;
      match y with
      | None => mret None
      | Some y => modify (fun s => set_cdma s (y_cdma y));; mret (Some (0, y_ps y, y))
      end
  end.

(** ** The serving system *)

(** The attached state and [s_is_cdma]; the codes and names that are only printed
    are read and not kept. *)
Definition serving_system (md : modem) (m : bytes) : act (Z * bool) :=
  p ← tlv m 0x12;
  match p with Some p => load (rd16 m (p + 3));; load (rd16 m (p + 5));; mret tt | None => mret tt end;;
  sv ← tlv m 0x01;
  '(ps, reg) ← match sv with
               | Some p => reg ← load (zget m (p + 3));
                           if reg =? 0x01 then ps ← load (zget m (p + 5)); mret (ps, true) else mret (0x02, false)
               | None => mret (0, false)
               end;
  c ← tlv m 0x11;
  match c with
  | Some p => n ← load (zget m (p + 3));
              if n =? 0 then mret tt
              else (if n =? 2 then load (zget m (p + 5));; mret tt else mret tt);; load (zget m (p + 4));; mret tt
  | None => mret tt
  end;;
  radio ← match sv with
          | Some p => if reg : bool then
                        used ← load (zget m (p + 7));
                        if used =? 0 then mret 0 else load (zget m (p + 8))
                      else mret 0
          | None => mret 0
          end;
  if (radio =? 0x01) || (radio =? 0x02) then
    requestGetHomeNetwork md;;
    h ← tlv m 0x23;
    match h with Some p => load (zget m (p + 3));; mret tt | None => mret tt end;;
    mret (ps, true)
  else mret (ps, false).

(** [ps]: what the caller's variable held. *)
Definition requestRegistrationState (md : modem) (ps : Z) : act (option (Z * Z)) :=
  x07 ← gets s_9x07;
  if x07 : bool then r ← requestRegistrationState2 md; mret (r ≫= fun '(err, ps, _) => Some (err, ps))
  else
    rsp ← request md QMUX_TYPE_NAS QMINAS_GET_SERVING_SYSTEM_REQ None;
    match rsp with
    | inl err => mret (Some (err, ps))
    | inr m => '(ps, cdma) ← serving_system md m; modify (fun s => set_cdma s cdma);; mret (Some (0, ps))
    end.

(** ** What the system information says *)

Definition vget (v : bytes) (j : Z) : Z := default 0 (zget v j).

(** A field reports packet service in its domain. *)
Definition one_of (t : Z) (l : list Z) : bool := existsb (Z.eqb t) l.
Definition is_system (t : Z) : bool := one_of t [0x4B; 0x15; 0x16; 0x17; 0x18; 0x19; 0x25].
Definition ps_hint (f : Z * bytes) : bool :=
  is_system (fst f) && (vget (snd f) 0 =? 0x01) && negb (Z.land (vget (snd f) 1) 0x02 =? 0).

(** A field reports service, or packet service, of LTE or 5G, and of CDMA or HDR. *)
Definition lte_hint (f : Z * bytes) : bool :=
  (one_of (fst f) [0x14; 0x4A] && (vget (snd f) 0 =? 0x02)) || ((fst f =? 0x19) && ps_hint f).
Definition cdma_hint (f : Z * bytes) : bool :=
  (one_of (fst f) [0x10; 0x11] && (vget (snd f) 0 =? 0x02)) || (one_of (fst f) [0x15; 0x16] && ps_hint f).

(** The bytes the walk reads of a field. *)
Definition min_len (t : Z) : Z :=
  if one_of t [0x10; 0x11; 0x12; 0x13; 0x14; 0x4A; 0x4E; 0x4F; 0x24] then 1
  else if t =? 0x15 then 42 else if t =? 0x16 then 12
  else if one_of t [0x4B; 0x17; 0x18; 0x19; 0x25] then 26 else 0.

(** ** Lemmas *)

Section Field.
Context (md : modem) (m : bytes) (p : Z) (v : bytes).
Hypothesis Hv : rdn m (p + 3) (zlen v) = Some v.

Lemma field_load i j (s : qst) : 3 <= i -> i - 3 = j -> j < zlen v -> load (zget m (p + i)) s = Some (vget v j, s).
Proof.
  intros H3 Hj Hlt. replace (p + i) with (p + 3 + j) by lia. rewrite (rdn_zget _ _ _ _ j Hv) by lia.
  unfold vget, load. destruct (zget v j) eqn:E; [done|]. exfalso. revert E. unfold zget, zlen in *.
  rewrite (proj2 (Z.ltb_ge j 0)) by lia. intros E%lookup_ge_None. lia.
Qed.

Lemma field_slice i n (s : qst) : 3 <= i -> 0 <= n -> i - 3 + n <= zlen v -> exists x, load (rdn m (p + i) n) s = Some (x, s).
Proof.
  intros Hi Hn Hle. revert Hv. unfold rdn. destruct ((0 <=? p + 3) && _) eqn:E; [|done]. intros _. zprop.
  rewrite (proj2 (Z.leb_le _ _)), (proj2 (Z.leb_le _ _)) by lia. cbn. by eexists.
Qed.

Lemma first_byte (s : qst) : 1 <= zlen v -> load (zget m (p + 3)) s = Some (vget v 0, s).
Proof. intros Hl. apply field_load; lia. Qed.

Lemma in_service_ok s : 1 <= zlen v -> in_service m p s = Some (vget v 0 =? 0x02, s).
Proof. intros Hl. unfold in_service. by rewrite (st_bind_some _ _ _ _ _ (first_byte s Hl)). Qed.

Definition ps_bit : bool := (vget v 0 =? 0x01) && negb (Z.land (vget v 1) 0x02 =? 0).

Lemma packet_domain_ok s : 2 <= zlen v -> packet_domain m p s = Some (ps_bit, s).
Proof.
  intros Hl. unfold packet_domain, ps_bit. rewrite (st_bind_some _ _ _ _ _ (field_load 3 0 s ltac:(lia) ltac:(lia) ltac:(lia))).
  destruct (_ =? 1); [|done]. by rewrite (st_bind_some _ _ _ _ _ (field_load 4 1 s ltac:(lia) ltac:(lia) ltac:(lia))).
Qed.

(** What later fields and the result depend on. *)
Definition key (y : sysinfo) : Z * bool * bool := (y_ps y, y_lte y, y_cdma y).

Lemma network_id_ok off y s :
  3 <= off -> off + 4 <= zlen v -> exists y', network_id m p off y s = Some (y', s) /\ key y' = key y.
Proof.
  intros Ho Hl. unfold network_id. rewrite (st_bind_some _ _ _ _ _ (field_load off (off - 3) s ltac:(lia) ltac:(lia) ltac:(lia))).
  destruct (_ =? 1); [|by eexists]. rewrite <- !Z.add_assoc.
  destruct (field_slice (off + 1) 3 s) as [a Ea]; [lia..|]. destruct (field_slice (off + 4) 3 s) as [b Eb]; [lia..|].
  rewrite (st_bind_some _ _ _ _ _ Ea), (st_bind_some _ _ _ _ _ Eb). by eexists.
Qed.

Hypothesis Hhome : forall s, exists x s', requestGetHomeNetwork md s = Some (x, s').

Lemma hdr_info_ok y s : 12 <= zlen v ->
  exists y' s', hdr_info md m p y s = Some (y', s') /\
    key y' = if ps_bit then (1, y_lte y, negb (y_lte y)) else key y.
Proof.
  intros Hl. unfold hdr_info. rewrite (st_bind_some _ _ _ _ _ (packet_domain_ok s ltac:(lia))).
  set (y1 := if ps_bit then _ else y).
  assert (exists y2, (if negb (y_ps y1 =? 0) then
         v ← load (zget m (p + 13));
         if v =? 0x01 then x ← load (zget m (p + 14)); mret (if x =? 0x03 then set_hdr 0x02 y1 else y1) else mret y1
       else mret y1) s = Some (y2, s) /\ key y2 = key y1) as (y2 & E2 & K2).
  { clearbody y1. destruct (negb _); [|by exists y1]. rewrite (st_bind_some _ _ _ _ _ (field_load 13 10 s ltac:(lia) ltac:(lia) ltac:(lia))).
    destruct (_ =? 1); [|by exists y1]. rewrite (st_bind_some _ _ _ _ _ (field_load 14 11 s ltac:(lia) ltac:(lia) ltac:(lia))).
    destruct (_ =? 3); (eexists; split; reflexivity). }
  rewrite (st_bind_some _ _ _ _ _ E2). destruct (Hhome s) as ([[err mcc] mnc] & s' & Eh). rewrite (st_bind_some _ _ _ _ _ Eh).
  eexists _, s'. split; [reflexivity|]. assert (K1 : key y1 = if ps_bit then (1, y_lte y, negb (y_lte y)) else key y)
    by (unfold y1; by destruct ps_bit).
  destruct (_ && _); [change (key (set_codes _ _ y2)) with (key y2)|]; by rewrite K2.
Qed.

(** The effect of one field on the key. *)
Definition key_step (k : Z * bool * bool) (f : Z * bytes) : Z * bool * bool :=
  let '(ps, lte, cdma) := k in
  (if ps_hint f then 1 else ps, lte || lte_hint f,
   if lte_hint f then false else if cdma_hint f then negb lte else cdma).

Lemma service_ok class cap lte cdma y s : 1 <= zlen v ->
  exists y', (on ← in_service m p; mret (if on : bool then put_service class cap lte cdma y else y)) s = Some (y', s)
    /\ key y' = if vget v 0 =? 0x02 then (y_ps y, lte, cdma) else key y.
Proof.
  intros Hl. rewrite (st_bind_some _ _ _ _ _ (in_service_ok s Hl)). eexists. split; [reflexivity|]. by destruct (_ =? 2).
Qed.

Lemma system_ok off lte cdma y s : 3 <= off -> off + 4 <= zlen v ->
  exists y', (d ← packet_domain m p; network_id m p off (if d : bool then set_domain lte cdma y else y)) s = Some (y', s)
    /\ key y' = if ps_bit then (1, lte, cdma) else key y.
Proof.
  intros Ho Hl. rewrite (st_bind_some _ _ _ _ _ (packet_domain_ok s ltac:(lia))).
  destruct (network_id_ok off (if ps_bit then set_domain lte cdma y else y) s Ho Hl) as (y' & E & K).
  exists y'. split; [exact E|]. rewrite K. by destruct ps_bit.
Qed.

(** Types the key does not depend on. *)
Lemma key_idle t y : one_of t [0x4B; 0x15; 0x16; 0x17; 0x18; 0x19; 0x25; 0x14; 0x4A; 0x10; 0x11] = false ->
  key y = key_step (key y) (t, v).
Proof.
  unfold key_step, key, lte_hint, cdma_hint, ps_hint, is_system, one_of. cbn [fst snd existsb]. intros H.
  repeat apply orb_false_iff in H as [? H]. 
  repeat match goal with E : (t =? _) = false |- _ => rewrite !E; clear E end. cbn. by rewrite orb_false_r.
Qed.

Ltac key_case :=
  unfold key_step, key, lte_hint, cdma_hint, ps_hint, ps_bit; cbn [fst snd];
  match goal with y : sysinfo |- _ =>
    by destruct (vget v 0 =? 1), (vget v 0 =? 2), (Z.land (vget v 1) 2 =? 0), (y_lte y), (y_cdma y) end.

Lemma sys_field_ok t y s : min_len t <= zlen v ->
  exists y' s', sys_field md m t p y s = Some (y', s') /\ key y' = key_step (key y) (t, v).
Proof.
  intros Hl. unfold sys_field.
  repeat match goal with |- context [t =? ?n] => destruct (Z.eqb_spec t n) as [->|?Hn]; cbv zeta;
    [first
      [ edestruct service_ok as (y' & E & K); [exact Hl|]; exists y', s; split; [exact E|]; rewrite K
      | edestruct (system_ok 22) as (y' & E & K); [lia|exact Hl|]; exists y', s; split; [exact E|]; rewrite K
      | idtac ]|] end.
  all: try key_case.
  - rewrite (st_bind_some _ _ _ _ _ (first_byte s Hl)). eexists _, s. split; [done|]. change (key (set_endc _ y)) with (key y). by apply key_idle.
  - rewrite (st_bind_some _ _ _ _ _ (first_byte s Hl)). eexists _, s. split; [done|]. change (key (set_dcnr _ y)) with (key y). by apply key_idle.
  - rewrite (st_bind_some _ _ _ _ _ (in_service_ok s Hl)). exists y, s. split; [done|by apply key_idle].
  - destruct (system_ok 38 (y_lte y) (negb (y_lte y)) y s ltac:(lia) Hl) as (y' & E & K). exists y', s. split; [exact E|].
    rewrite K. key_case.
  - destruct (hdr_info_ok y s Hl) as (y' & s' & E & K). exists y', s'. split; [exact E|]. rewrite K. key_case.
  - exists y, s. split; [done|]. apply key_idle. unfold one_of. cbn [existsb].
    repeat (rewrite (proj2 (Z.eqb_neq _ _)) by eassumption). done.
Qed.

End Field.

Definition long_enough (ts : list (Z * bytes)) : Prop := Forall (fun f => min_len (fst f) <= zlen (snd f)) ts.

Definition home_answers (md : modem) : Prop := forall s, exists x s', requestGetHomeNetwork md s = Some (x, s').

Lemma sys_loop_ok md ts fuel pre y s :
  home_answers md -> long_enough ts -> tlvs_ok ts -> zlen (encode ts) <= Z.of_nat fuel ->
  exists y' s', sys_loop fuel md (pre ++ encode ts) (zlen (encode ts)) (zlen pre) y s = Some (Some y', s')
    /\ key y' = foldl key_step (key y) ts.
Proof.
  intros Hh. revert fuel pre y s. induction ts as [|[t v] ts IH]; intros fuel pre y s Hlen Hok Hf.
  { exists y, s. by destruct fuel. }
  inversion Hlen as [|? ? Hl Hlen']; subst. inversion Hok as [|? ? [Ht Hv16] Hok']; subst. cbn [fst snd] in *.
  rewrite zlen_encode_cons in *. pose proof (zlen_nonneg v). pose proof (zlen_nonneg (encode ts)).
  destruct fuel as [|fuel]; [lia|]. cbn [sys_loop]. rewrite (proj2 (Z.leb_gt _ _)) by lia.
  change (encode ((t, v) :: ts)) with (encode_tlv (t, v) ++ encode ts).
  destruct (tlv_at_app pre t v (encode ts)) as [E1 E2]; [lia|].
  assert (E0 : load (zget (pre ++ encode_tlv (t, v) ++ encode ts) (zlen pre)) s = Some (t, s))
    by (unfold load, encode_tlv; cbn [fst snd]; rewrite <- app_comm_cons, zget_app_mid; done).
  rewrite (st_bind_some _ _ _ _ _ E0).
  destruct (sys_field_ok md _ (zlen pre) v E2 Hh t y s Hl) as (y1 & s1 & Ey & Ky). rewrite (st_bind_some _ _ _ _ _ Ey).
  unfold load at 1. rewrite E1. erewrite st_bind_some by reflexivity.
  destruct (IH fuel (pre ++ encode_tlv (t, v)) y1 s1) as (y' & s' & E & K); [done|done|lia|].
  exists y', s'. rewrite Ky in K. split; [|exact K]. rewrite <- app_assoc in E. rewrite <- E. f_equal; [lia|].
  rewrite zlen_app. unfold encode_tlv. cbn [fst snd]. rewrite zlen_cons, zlen_app, zlen_w16. lia.
Qed.

(** The walk's order does not matter: what each field reports adds up. *)
Lemma key_fold ts ps lte cdma :
  (cdma = true -> lte = false) ->
  foldl key_step (ps, lte, cdma) ts
  = (if existsb ps_hint ts then 1 else ps, lte || existsb lte_hint ts,
     (cdma || existsb cdma_hint ts) && negb (lte || existsb lte_hint ts)).
Proof.
  revert ps lte cdma. induction ts as [|f ts IH]; intros ps lte cdma Hi; cbn [foldl existsb].
  { by destruct lte, cdma; try done; discriminate (Hi eq_refl). }
  assert (Hx : lte_hint f = true -> cdma_hint f = false).
  { unfold lte_hint, cdma_hint, one_of. cbn [existsb]. intros H. destruct (Z.eqb_spec (fst f) 0x14) as [->|_]; [done|].
    destruct (Z.eqb_spec (fst f) 0x4A) as [->|_]; [done|]. destruct (Z.eqb_spec (fst f) 0x19) as [->|_]; [done|]. discriminate H. }
  unfold key_step at 2. rewrite IH.
  - destruct (ps_hint f), (lte_hint f), (cdma_hint f), (existsb ps_hint ts), (existsb lte_hint ts), (existsb cdma_hint ts), lte, cdma;
      try done; try discriminate (Hx eq_refl); discriminate (Hi eq_refl).
  - destruct (lte_hint f); [done|]. destruct (cdma_hint f), lte, cdma; try done; discriminate (Hi eq_refl).
Qed.

(** C25. Registration on the newer modems: for every well-formed answer to the system
    information request the walk ends within its bytes, and whatever the order
    of the fields the modem counts as attached exactly if some radio's domain
    reports packet service, and as CDMA exactly if a CDMA or HDR field reports
    service and no field reports LTE or 5G service. *)
Theorem registration_declarative md s r q cl tid ty ts :
  s_9x07 s = true ->
  ComposeQMUXMsg (GetQMUXTransactionId (TransactionId s)) QMUX_TYPE_NAS QMINAS_GET_SYS_INFO_REQ None = Some r ->
  md (q_sent s) r = (0, Some (response q cl tid ty 0 0 ts)) ->
  fields_ok ts -> long_enough ts -> home_answers md ->
  forall ps, exists s',
    requestRegistrationState md ps s = Some (Some (0, if existsb ps_hint ts then 1 else 0), s')
    /\ s_is_cdma s' = existsb cdma_hint ts && negb (existsb lte_hint ts).
Proof.
  intros H07 Hc Hmd (Hok & Hb & Hl16) Hlen Hh ps. unfold requestRegistrationState.
  erewrite st_bind_some by reflexivity. rewrite H07.
  set (all := (0x02, w16 0 ++ w16 0) :: ts). pose proof (zlen_nonneg (encode ts)).
  assert (Ha : zlen (encode all) = 7 + zlen (encode ts)) by (unfold all; by rewrite zlen_encode_cons).
  set (m := response q cl tid ty 0 0 ts) in *.
  assert (Er : request md QMUX_TYPE_NAS QMINAS_GET_SYS_INFO_REQ None s = Some (inr m, sent_state s r)).
  { apply request_ok; [done|done|]. intros s0. by apply rsp_response. }
  assert (E2 : rd16 m (off_hdr + 2) = Some (zlen (encode all))).
  { unfold m, response. fold all. rewrite request_split.
    set (h := [1] ++ w16 (zlen (encode all) + 12) ++ [0; u8 q; u8 cl; 0] ++ w16 tid ++ w16 ty).
    replace (_ ++ encode all) with (h ++ w16 (zlen (encode all)) ++ encode all) by (unfold h; by rewrite <- !app_assoc).
    apply rd16_app; [in_u|done]. }
  unfold requestRegistrationState2. rewrite st_bind_assoc, (st_bind_some _ _ _ _ _ Er), st_bind_assoc.
  unfold load at 1. rewrite E2. erewrite st_bind_some by reflexivity.
  destruct (sys_loop_ok md all (Z.to_nat (zlen (encode all))) (ztake off_tlvs m) no_info (sent_state s r)) as (y & s' & Ey & Ky).
  { done. } { by constructor. } { constructor; [|done]. cbn [fst snd]. by vm_compute. } { rewrite Z2Nat.id; lia. }
  assert (Em : ztake off_tlvs m ++ encode all = m) by reflexivity.
  rewrite Em in Ey. change (zlen (ztake off_tlvs m)) with off_tlvs in Ey.
  rewrite st_bind_assoc, (st_bind_some _ _ _ _ _ Ey), st_bind_assoc. erewrite st_bind_some by reflexivity.
  unfold all in Ky. cbn [foldl] in Ky. unfold key at 2 in Ky. cbn [no_info y_ps y_lte y_cdma] in Ky.
  change (key_step (0, false, false) (2, w16 0 ++ w16 0)) with (0, false, false) in Ky.
  rewrite key_fold in Ky by done. injection Ky as K1 _ K3.
  exists (set_cdma s' (y_cdma y)). split; [|exact K3]. rewrite <- K1. reflexivity.
Qed.

(** *** A concrete modem *)

(** It answers every request with LTE service, LTE packet service and CDMA service. *)
Definition ex_sys : list (Z * bytes) :=
  [(0x10, [2; 0; 0]); (0x14, [2; 0; 0]); (0x19, [1; 2] ++ replicate 17 0 ++ [1; 50; 54; 50; 48; 49; 0xFF])].
Definition ex_net_modem : modem := fun _ _ => (0, Some (response QMUX_TYPE_NAS 1 7 QMINAS_GET_SYS_INFO_REQ 0 0 ex_sys)).
Definition ex_net_qst : qst := Qst 0 0 false true 0 0 0 [].

Lemma registration_declarative_witness :
  exists s', requestRegistrationState ex_net_modem 0 ex_net_qst = Some (Some (0, 1), s') /\ s_is_cdma s' = false.
Proof.
  eapply (registration_declarative ex_net_modem ex_net_qst _ QMUX_TYPE_NAS 1 7 QMINAS_GET_SYS_INFO_REQ ex_sys).
  - reflexivity.
  - reflexivity.
  - reflexivity.
  - split_and!; [|apply (bool_decide_unpack _); by vm_compute|by vm_compute].
    repeat constructor; cbn; lia.
  - repeat constructor; by vm_compute.
  - intros s. eexists _, _. reflexivity.
Defined.

(** The codes a CDMA network sends for three digits: each digit minus one, with 0
    as 10. *)
Definition cdma_mcc (d1 d2 d3 : Z) : Z :=
  let e d := if d =? 0 then 10 else d in e d1 * 100 + e d2 * 10 + e d3 - 111.

Lemma cdma_mcc_roundtrip d1 d2 d3 :
  0 <= d1 <= 9 -> 0 <= d2 <= 9 -> 0 <= d3 <= 9 ->
  quectel_convert_cdma_mcc_2_ascii_mcc (cdma_mcc d1 d2 d3) = d1 * 100 + d2 * 10 + d3.
Proof.
  intros H1 H2 H3.
  assert (H : Forall (fun n => let '(a, b, c) := (Z.of_nat n / 100, Z.of_nat n / 10 mod 10, Z.of_nat n mod 10) in
    quectel_convert_cdma_mcc_2_ascii_mcc (cdma_mcc a b c) = a * 100 + b * 10 + c) (seq 0 1000)).
  { apply (bool_decide_unpack _). by vm_compute. }
  rewrite Forall_forall in H. specialize (H (Z.to_nat (d1 * 100 + d2 * 10 + d3))). rewrite Z2Nat.id in H by lia.
  replace ((d1 * 100 + d2 * 10 + d3) / 100) with d1 in H by (apply (Z.div_unique_pos _ _ _ (d2 * 10 + d3)); lia).
  replace ((d1 * 100 + d2 * 10 + d3) / 10) with (d1 * 10 + d2) in H by (apply (Z.div_unique_pos _ _ _ d3); lia).
  replace ((d1 * 10 + d2) mod 10) with d2 in H by (apply (Z.mod_unique_pos _ _ d1); lia).
  replace ((d1 * 100 + d2 * 10 + d3) mod 10) with d3 in H by (apply (Z.mod_unique_pos _ _ (d1 * 10 + d2)); lia).
  apply H, elem_of_seq. lia.
Qed.
