(* ===== verification/QcmDial.v ===== *)
(** * The dial loop of the connection manager: [qmi_main] of [main.c]

    The loop keeps a connection up: it reads signals it sends itself (start a
    call, check the calls, stop) and events of the modem, and drives the modem
    through [struct request_ops], stated here as the class [RequestOps] on the
    state [W] of a session; QcmSessions gives the instances.  Clock readings are arguments.  What leaves the loop is logged in order. *)

From S2P Require Import Prelude CLib QmiMsg QmiReq QmiAddr QmiCard.

(** ** The operations of a session *)

Inductive ops_kind := QmiOps | MbimOps | AtcOps.

#[global] Instance ops_kind_eq_dec : EqDecision ops_kind.
Proof. solve_decision. Defined.

(** [ro_conflict]: the global [g_pdn_conflict], which a setup may set.
    [ro_prepare]: [requestBaseBandVersion] and [requestSetEthMode].  The
    operations of type [option] are the ones a table may leave out; a setup also
    reads which address families the user asked for.  [ro_poll]: the queries of
    signal, cells and coexistence. *)
Class RequestOps (W : Type) := {
  ro_kind : ops_kind;
  ro_conflict : W -> Z;
  ro_clear_conflict : W -> W;
  ro_init : W -> option (Z * W);
  ro_prepare : profile -> W -> option (profile * W);
  ro_loopback : option (Z -> Z -> W -> option (Z * W));
  ro_sim : option (Z -> W -> option (Z * Z * W));
  ro_pin : option (bytes -> W -> option (Z * W));
  ro_getprofile : option (bool -> bool -> profile -> W -> option (profile * old_profile * W));
  ro_setprofile : option (profile -> old_profile -> W -> option (Z * W));
  ro_setup : bool -> bool -> profile -> Z -> W -> option (Z * profile * W);
  ro_getip : Z -> ipcfg -> W -> option (Z * ipcfg * W);
  ro_query : Z -> Z -> W -> option (Z * Z * W);
  ro_deactivate : Z -> W -> option W;
  ro_registration : Z -> W -> option (Z * W);
  ro_poll : W -> option W;
  ro_deinit : W -> option W }.

(** ** State *)

Inductive signo := SIG_EVENT_START | SIG_EVENT_CHECK | SIG_EVENT_STOP.

(** [ASetup]: a call is requested with this user's authentication and access point. *)
Inductive dial_act :=
| ASetup (family auth : Z) (apn : option bytes)
| ADeactivate (family : Z)
| ADhcpStart | ADhcpStop
| AConflictFile (reason : Z)
| ADeinit | AQuitReader | AStopReader.

#[global] Instance signo_eq_dec : EqDecision signo.
Proof. solve_decision. Defined.
#[global] Instance dial_act_eq_dec : EqDecision dial_act.
Proof. solve_decision. Defined.

(** [getenv] of [QCM_EXIT_ON_PDN_CONFLICT], [QCM_V6_FIRST] and [QCM_DIAL_BY_PROFILE]. *)
Record dial_env := DialEnv { e_exit_on_conflict : bool; e_v6_first : bool; e_by_profile : bool }.

Section Dial.
Context {W : Type} {ops : RequestOps W} (env : dial_env).

(** [l_alarm]: the seconds of the alarm that is set; [l_sig]: the signals in the
    socket pair; [l_quit]: the loop has ended. *)
Record dl := Dl {
  l_ps : Z;
  l_v4 : Z;
  l_v6 : Z;
  l_fail : Z;
  l_allow : Z;
  l_link : Z;
  l_en4 : bool;
  l_en6 : bool;
  l_prof : profile;
  l_loop : Z;
  l_repl : Z;
  l_addr : ipcfg;
  l_udhcpc_ip : Z;
  l_alarm : option Z;
  l_sig : list signo;
  l_quit : bool;
  l_again : bool;
  l_log : list dial_act;
  l_w : W }.

Definition set_l_ps (x : Z) (s : dl) : dl :=
  Dl x (l_v4 s) (l_v6 s) (l_fail s) (l_allow s) (l_link s) (l_en4 s) (l_en6 s) (l_prof s) (l_loop s) (l_repl s) (l_addr s) (l_udhcpc_ip s) (l_alarm s) (l_sig s) (l_quit s) (l_again s) (l_log s) (l_w s).
Definition set_l_v4 (x : Z) (s : dl) : dl :=
  Dl (l_ps s) x (l_v6 s) (l_fail s) (l_allow s) (l_link s) (l_en4 s) (l_en6 s) (l_prof s) (l_loop s) (l_repl s) (l_addr s) (l_udhcpc_ip s) (l_alarm s) (l_sig s) (l_quit s) (l_again s) (l_log s) (l_w s).
Definition set_l_v6 (x : Z) (s : dl) : dl :=
  Dl (l_ps s) (l_v4 s) x (l_fail s) (l_allow s) (l_link s) (l_en4 s) (l_en6 s) (l_prof s) (l_loop s) (l_repl s) (l_addr s) (l_udhcpc_ip s) (l_alarm s) (l_sig s) (l_quit s) (l_again s) (l_log s) (l_w s).
Definition set_l_fail (x : Z) (s : dl) : dl :=
  Dl (l_ps s) (l_v4 s) (l_v6 s) x (l_allow s) (l_link s) (l_en4 s) (l_en6 s) (l_prof s) (l_loop s) (l_repl s) (l_addr s) (l_udhcpc_ip s) (l_alarm s) (l_sig s) (l_quit s) (l_again s) (l_log s) (l_w s).
Definition set_l_allow (x : Z) (s : dl) : dl :=
  Dl (l_ps s) (l_v4 s) (l_v6 s) (l_fail s) x (l_link s) (l_en4 s) (l_en6 s) (l_prof s) (l_loop s) (l_repl s) (l_addr s) (l_udhcpc_ip s) (l_alarm s) (l_sig s) (l_quit s) (l_again s) (l_log s) (l_w s).
Definition set_l_link (x : Z) (s : dl) : dl :=
  Dl (l_ps s) (l_v4 s) (l_v6 s) (l_fail s) (l_allow s) x (l_en4 s) (l_en6 s) (l_prof s) (l_loop s) (l_repl s) (l_addr s) (l_udhcpc_ip s) (l_alarm s) (l_sig s) (l_quit s) (l_again s) (l_log s) (l_w s).
Definition set_l_en4 (x : bool) (s : dl) : dl :=
  Dl (l_ps s) (l_v4 s) (l_v6 s) (l_fail s) (l_allow s) (l_link s) x (l_en6 s) (l_prof s) (l_loop s) (l_repl s) (l_addr s) (l_udhcpc_ip s) (l_alarm s) (l_sig s) (l_quit s) (l_again s) (l_log s) (l_w s).
Definition set_l_en6 (x : bool) (s : dl) : dl :=
  Dl (l_ps s) (l_v4 s) (l_v6 s) (l_fail s) (l_allow s) (l_link s) (l_en4 s) x (l_prof s) (l_loop s) (l_repl s) (l_addr s) (l_udhcpc_ip s) (l_alarm s) (l_sig s) (l_quit s) (l_again s) (l_log s) (l_w s).
Definition set_l_prof (x : profile) (s : dl) : dl :=
  Dl (l_ps s) (l_v4 s) (l_v6 s) (l_fail s) (l_allow s) (l_link s) (l_en4 s) (l_en6 s) x (l_loop s) (l_repl s) (l_addr s) (l_udhcpc_ip s) (l_alarm s) (l_sig s) (l_quit s) (l_again s) (l_log s) (l_w s).
Definition set_l_loop (x : Z) (s : dl) : dl :=
  Dl (l_ps s) (l_v4 s) (l_v6 s) (l_fail s) (l_allow s) (l_link s) (l_en4 s) (l_en6 s) (l_prof s) x (l_repl s) (l_addr s) (l_udhcpc_ip s) (l_alarm s) (l_sig s) (l_quit s) (l_again s) (l_log s) (l_w s).
Definition set_l_repl (x : Z) (s : dl) : dl :=
  Dl (l_ps s) (l_v4 s) (l_v6 s) (l_fail s) (l_allow s) (l_link s) (l_en4 s) (l_en6 s) (l_prof s) (l_loop s) x (l_addr s) (l_udhcpc_ip s) (l_alarm s) (l_sig s) (l_quit s) (l_again s) (l_log s) (l_w s).
Definition set_l_addr (x : ipcfg) (s : dl) : dl :=
  Dl (l_ps s) (l_v4 s) (l_v6 s) (l_fail s) (l_allow s) (l_link s) (l_en4 s) (l_en6 s) (l_prof s) (l_loop s) (l_repl s) x (l_udhcpc_ip s) (l_alarm s) (l_sig s) (l_quit s) (l_again s) (l_log s) (l_w s).
Definition set_l_udhcpc_ip (x : Z) (s : dl) : dl :=
  Dl (l_ps s) (l_v4 s) (l_v6 s) (l_fail s) (l_allow s) (l_link s) (l_en4 s) (l_en6 s) (l_prof s) (l_loop s) (l_repl s) (l_addr s) x (l_alarm s) (l_sig s) (l_quit s) (l_again s) (l_log s) (l_w s).
Definition set_l_alarm (x : option Z) (s : dl) : dl :=
  Dl (l_ps s) (l_v4 s) (l_v6 s) (l_fail s) (l_allow s) (l_link s) (l_en4 s) (l_en6 s) (l_prof s) (l_loop s) (l_repl s) (l_addr s) (l_udhcpc_ip s) x (l_sig s) (l_quit s) (l_again s) (l_log s) (l_w s).
Definition set_l_sig (x : list signo) (s : dl) : dl :=
  Dl (l_ps s) (l_v4 s) (l_v6 s) (l_fail s) (l_allow s) (l_link s) (l_en4 s) (l_en6 s) (l_prof s) (l_loop s) (l_repl s) (l_addr s) (l_udhcpc_ip s) (l_alarm s) x (l_quit s) (l_again s) (l_log s) (l_w s).
Definition set_l_quit (x : bool) (s : dl) : dl :=
  Dl (l_ps s) (l_v4 s) (l_v6 s) (l_fail s) (l_allow s) (l_link s) (l_en4 s) (l_en6 s) (l_prof s) (l_loop s) (l_repl s) (l_addr s) (l_udhcpc_ip s) (l_alarm s) (l_sig s) x (l_again s) (l_log s) (l_w s).
Definition set_l_again (x : bool) (s : dl) : dl :=
  Dl (l_ps s) (l_v4 s) (l_v6 s) (l_fail s) (l_allow s) (l_link s) (l_en4 s) (l_en6 s) (l_prof s) (l_loop s) (l_repl s) (l_addr s) (l_udhcpc_ip s) (l_alarm s) (l_sig s) (l_quit s) x (l_log s) (l_w s).
Definition set_l_log (x : list dial_act) (s : dl) : dl :=
  Dl (l_ps s) (l_v4 s) (l_v6 s) (l_fail s) (l_allow s) (l_link s) (l_en4 s) (l_en6 s) (l_prof s) (l_loop s) (l_repl s) (l_addr s) (l_udhcpc_ip s) (l_alarm s) (l_sig s) (l_quit s) (l_again s) x (l_w s).
Definition set_l_w (x : W) (s : dl) : dl :=
  Dl (l_ps s) (l_v4 s) (l_v6 s) (l_fail s) (l_allow s) (l_link s) (l_en4 s) (l_en6 s) (l_prof s) (l_loop s) (l_repl s) (l_addr s) (l_udhcpc_ip s) (l_alarm s) (l_sig s) (l_quit s) (l_again s) (l_log s) x.

Definition dact : Type -> Type := st dl.

Definition dgets {A} (f : dl -> A) : st dl A := st_gets f.
Definition dmod (f : dl -> dl) : st dl unit := st_modify f.
Definition log (a : dial_act) : st dl unit := dmod (fun s => set_l_log (l_log s ++ [a]) s).

(** An operation of the session. *)
Definition on_session {A} (f : W -> option (A * W)) : st dl A :=
  fun s => match f (l_w s) with Some (x, w) => Some (x, set_l_w w s) | None => None end.

Definition send_signo_to_main (x : signo) : st dl unit := dmod (fun s => set_l_sig (l_sig s ++ [x]) s).

(** [alarm(0)] cancels. *)
Definition alarm (n : Z) : st dl unit := dmod (set_l_alarm (if n =? 0 then None else Some n)).

Definition QMI_ERR_OP_DEVICE_UNSUPPORTED : Z := 0x19.
Definition QMI_ERR_INVALID_QMI_CMD : Z := 0x47.

Definition connected (x : Z) : bool := x =? QWDS_PKT_DATA_CONNECTED.
Definition disconnected (x : Z) : bool := x =? QWDS_PKT_DATA_DISCONNECTED.

(** ** Link *)

Definition bit4 : Z := Z.shiftl 1 IpFamilyV4.
Definition bit6 : Z := Z.shiftl 1 IpFamilyV6.

Definition usbnet_link_change (link : Z) : st dl unit :=
  old ← dgets l_link;
  if old =? link then mret tt
  else
    dmod (set_l_link link);;
    (if Z.land link bit4 =? 0 then dmod (fun s => set_l_addr (set_ipv4 (l_addr s) no_ipv4) s) else mret tt);;
    (if Z.land link bit6 =? 0 then dmod (fun s => set_l_addr (set_ipv6 (l_addr s) no_ipv6) s) else mret tt);;
    if negb (link =? 0) then log ADhcpStart else log ADhcpStop.

(** ** Requests *)

Definition setup (family : Z) : st dl Z :=
  p ← dgets l_prof; en4 ← dgets l_en4; en6 ← dgets l_en6;
  log (ASetup family (p_auth p) (p_apn p));;
  '(err, p) ← on_session (fun w => '(r, p, w) ← ro_setup en4 en6 p family w; Some ((r, p), w));
  dmod (set_l_prof p);; mret err.

Definition get_ip (family : Z) : st dl Z :=
  c ← dgets l_addr;
  '(ret, c) ← on_session (fun w => '(r, c, w) ← ro_getip family c w; Some ((r, c), w));
  dmod (set_l_addr c);; mret ret.

Definition deactivate (family : Z) : st dl unit :=
  log (ADeactivate family);; on_session (fun w => w ← ro_deactivate family w; Some (tt, w)).

Definition registration : st dl unit :=
  ps ← dgets l_ps; ps ← on_session (ro_registration ps); dmod (set_l_ps ps).

Definition query (family status : Z) : st dl (Z * Z) :=
  on_session (fun w => '(r, x, w) ← ro_query family status w; Some ((r, x), w)).

Definition conflict : st dl Z := dgets (fun s => ro_conflict (l_w s)).

Definition set_auth (x : Z) (p : profile) : profile :=
  Profile (p_apn p) (p_user p) (p_pd p) x (p_iptype p) (p_pdp p) (p_profile_index p) (p_curIpFamily p)
    (p_idProduct p) (p_bring_up_by_apn_name p) (p_bring_up_by_apn_type p) (p_apn_type p).
Definition set_apn (x : option bytes) (p : profile) : profile :=
  Profile x (p_user p) (p_pd p) (p_auth p) (p_iptype p) (p_pdp p) (p_profile_index p) (p_curIpFamily p)
    (p_idProduct p) (p_bring_up_by_apn_name p) (p_bring_up_by_apn_type p) (p_apn_type p).
Definition upd_prof (f : profile -> profile) : st dl unit := dmod (fun s => set_l_prof (f (l_prof s)) s).

(** ** Starting calls *)

(** The other authentication, when the first one failed. *)
Definition retry_auth (err : Z) : st dl Z :=
  p ← dgets l_prof;
  if (0 <? err) && negb (empty_str (p_user p)) && negb (empty_str (p_pd p)) then
    upd_prof (set_auth (if p_auth p =? 1 then 2 else 1));;
    err ← setup IpFamilyV4;
    (if negb (err =? 0) then upd_prof (set_auth (p_auth p)) else mret tt);;
    mret err
  else mret err.

(** The profile alone, when the modem already holds a PDN for the access point. *)
Definition retry_profile (err : Z) : st dl Z :=
  p ← dgets l_prof; k ← conflict;
  if negb (err =? 0) && negb (k =? 0) && bool_decide (is_Some (p_apn p)) && negb (p_profile_index p =? 0)
     && e_exit_on_conflict env then
    upd_prof (set_apn None);;
    err ← setup IpFamilyV4;
    upd_prof (set_apn (p_apn p));; mret err
  else mret err.

(** [k4]: [pdn_conflict_v4]. *)
Definition start_v4 (k4 : Z) : st dl Z :=
  en ← dgets l_en4; v4 ← dgets l_v4;
  if en && negb (connected v4) then
    err ← setup IpFamilyV4;
    err ← retry_auth err;
    err ← retry_profile err;
    if negb (err =? 0) then conflict
    else
      err ← get_ip IpFamilyV4;
      (if err =? 0 then dmod (set_l_v4 QWDS_PKT_DATA_CONNECTED) else mret tt);; mret k4
  else mret k4.

(** IPv6 shares the call of the other sessions. *)
Definition shares_v4 (s : dl) : bool := l_en4 s && negb (bool_decide (ro_kind = QmiOps)).

Definition start_v6 : st dl unit :=
  en ← dgets l_en6; v6 ← dgets l_v6;
  if en && negb (connected v6) then
    shared ← dgets shares_v4;
    if shared : bool then v4 ← dgets l_v4; dmod (set_l_v6 v4)
    else
      err ← setup IpFamilyV6;
      k ← conflict; en4 ← dgets l_en4; v4 ← dgets l_v4;
      (if negb (err =? 0) && negb (k =? 0) && en4 && connected v4 && e_exit_on_conflict env
       then dmod (set_l_en6 false);; dmod (fun s => set_l_w (ro_clear_conflict (l_w s)) s) else mret tt);;
      if err =? 0 then
        err ← get_ip IpFamilyV6;
        if err =? 0 then dmod (set_l_v6 QWDS_PKT_DATA_CONNECTED) else mret tt
      else mret tt
  else mret tt.

Definition passes : st dl Z :=
  first6 ← dgets (fun s => l_en4 s && l_en6 s && bool_decide (ro_kind = QmiOps) && e_v6_first env);
  if first6 : bool then start_v6;; start_v4 0
  else k ← start_v4 0; start_v6;; mret k.

(** Seconds to wait after the given number of failures in a row. *)
Definition allow_time (fail : Z) : Z := default 60 (zget [5; 10; 20; 40; 60] fail).

(** A call is missing. *)
Definition need (s : dl) : bool := (l_en4 s && disconnected (l_v4 s)) || (l_en6 s && disconnected (l_v6 s)).

Definition quit : st dl unit := dmod (set_l_quit true).

(** The shared end of the loop. *)
Definition main_quit : st dl unit := usbnet_link_change 0;; quit.

Definition shut_down : st dl unit :=
  usbnet_link_change 0;;
  log ADeinit;; on_session (fun w => w ← ro_deinit w; Some (tt, w));;
  log AQuitReader;; main_quit.

(** What follows the attempts; [now]: the clock after them. *)
Definition start_outcome (k4 now : Z) : st dl unit :=
  en4 ← dgets l_en4; g ← conflict; v4 ← dgets l_v4; v6 ← dgets l_v6;
  let k := if en4 : bool then k4 else g in
  if negb (k =? 0) && e_exit_on_conflict env && disconnected (if en4 : bool then v4 else v6) then
    log (AConflictFile k);; shut_down
  else
    miss ← dgets need;
    if miss : bool then
      fail ← dgets l_fail;
      let t := allow_time fail in
      dmod (set_l_fail (u32 (fail + 1)));;
      alarm t;;
      dmod (set_l_allow (u64 (t * 1000 + now)))
    else if connected v4 || connected v6 then
      dmod (set_l_fail 0);; dmod (set_l_allow now)
    else mret tt.

(** The clock is read for the test, for the alarm and after the attempts. *)
Record clock := Clock { t_test : Z; t_alarm : Z; t_end : Z }.

Definition sig_start (t : clock) : st dl unit :=
  ps ← dgets l_ps; lo ← dgets l_loop; allow ← dgets l_allow;
  if negb (ps =? 1) && (lo =? 0) then mret tt
  else if t_test t <? allow then alarm (u32 (u64 (allow - t_alarm t + 999) / 1000))
  else k ← passes; start_outcome k (t_end t).

(** ** Checking calls *)

Definition check_ipv4_address : st dl bool :=
  c ← dgets l_addr; udhcpc ← dgets l_udhcpc_ip;
  if bool_decide (ro_kind = MbimOps) then mret true
  else if bool_decide (ro_kind = AtcOps) && (udhcpc =? 0) then mret true
  else
    let oldAddress := if bool_decide (ro_kind = AtcOps) then udhcpc else i4_Address (c_ipv4 c) in
    ret ← get_ip IpFamilyV4;
    c ← dgets l_addr;
    mret ((ret =? 0) && (i4_Address (c_ipv4 c) =? oldAddress)).

Definition check_v4 : st dl unit :=
  en ← dgets l_en4; v4 ← dgets l_v4;
  '(ok, v4) ← (if en && negb (disconnected v4) then '(r, v) ← query IpFamilyV4 v4; mret (r =? 0, v) else mret (false, v4));
  if negb (ok : bool) then dmod (set_l_v4 QWDS_PKT_DATA_DISCONNECTED)
  else
    dmod (set_l_v4 v4);;
    c ← dgets l_addr;
    (if connected v4 && (i4_Address (c_ipv4 c) =? 0) then
       err ← get_ip IpFamilyV4;
       if negb (err =? 0) then dmod (set_l_v4 QWDS_PKT_DATA_DISCONNECTED) else mret tt
     else mret tt);;
    v4 ← dgets l_v4;
    if connected v4 then
      same ← check_ipv4_address;
      if negb (same : bool) then deactivate IpFamilyV4;; dmod (set_l_v4 QWDS_PKT_DATA_DISCONNECTED) else mret tt
    else mret tt.

Definition check_v6 : st dl unit :=
  en ← dgets l_en6; v6 ← dgets l_v6;
  if en && negb (disconnected v6) then
    shared ← dgets shares_v4;
    if shared : bool then v4 ← dgets l_v4; dmod (set_l_v6 v4)
    else '(_, v) ← query IpFamilyV6 v6; dmod (set_l_v6 v)
  else dmod (set_l_v6 QWDS_PKT_DATA_DISCONNECTED).

Definition link_of (v4 v6 : Z) : Z :=
  Z.lor (if connected v4 then bit4 else 0) (if connected v6 then bit6 else 0).

Definition update_link : st dl unit :=
  v4 ← dgets l_v4; v6 ← dgets l_v6;
  if disconnected v4 && disconnected v6 then usbnet_link_change 0
  else if connected v4 || connected v6 then usbnet_link_change (link_of v4 v6)
  else mret tt.

Definition sig_check : st dl unit :=
  on_session (fun w => w ← ro_poll w; Some (tt, w));;
  ps ← dgets l_ps;
  (if negb (ps =? 1) then registration else mret tt);;
  check_v4;; check_v6;; update_link;;
  miss ← dgets need;
  if miss : bool then send_signo_to_main SIG_EVENT_START else mret tt.

Definition sig_stop : st dl unit :=
  s ← dgets id;
  (if l_en4 s && connected (l_v4 s) then deactivate IpFamilyV4 else mret tt);;
  (if l_en6 s && connected (l_v6 s) && negb (shares_v4 s) then deactivate IpFamilyV6 else mret tt);;
  shut_down.

(** A signal is read: the alarm is cancelled first. *)
Definition on_signal (t : clock) : st dl unit :=
  q ← dgets l_sig;
  match q with
  | [] => mret tt
  | x :: q =>
      dmod (set_l_sig q);; alarm 0;;
      match x with
      | SIG_EVENT_START => sig_start t
      | SIG_EVENT_CHECK => sig_check
      | SIG_EVENT_STOP => sig_stop
      end
  end.

(** ** Events of the modem *)

Inductive modem_event :=
| RIL_INDICATE_DEVICE_DISCONNECTED
| RIL_UNSOL_RESPONSE_VOICE_NETWORK_STATE_CHANGED
| RIL_UNSOL_DATA_CALL_LIST_CHANGED
| MODEM_REPORT_RESET_EVENT
| RIL_UNSOL_LOOPBACK_CONFIG_IND (state factor : Z).

Definition on_event (e : modem_event) (now : Z) : st dl unit :=
  match e with
  | RIL_INDICATE_DEVICE_DISCONNECTED => main_quit
  | RIL_UNSOL_RESPONSE_VOICE_NETWORK_STATE_CHANGED =>
      registration;;
      ps ← dgets l_ps; miss ← dgets need;
      if ps =? 1 then (if miss : bool then send_signo_to_main SIG_EVENT_START else mret tt)
      else dmod (set_l_allow now)
  | RIL_UNSOL_DATA_CALL_LIST_CHANGED =>
      v4 ← dgets l_v4; v6 ← dgets l_v6;
      (if connected v4 || connected v6 then dmod (set_l_allow (u64 (now + 1000))) else mret tt);;
      send_signo_to_main SIG_EVENT_CHECK
  | MODEM_REPORT_RESET_EVENT => log AQuitReader;; dmod (set_l_again true);; main_quit
  | RIL_UNSOL_LOOPBACK_CONFIG_IND x factor =>
      dmod (set_l_loop x);; dmod (set_l_repl factor);;
      if negb (x =? 0) then send_signo_to_main SIG_EVENT_START else mret tt
  end.

(** ** Before the loop *)

(** The SIM's state, asked again while the modem is not up; [None] without fuel. *)
Fixpoint sim_wait (fuel : nat) (op : Z -> W -> option (Z * Z * W)) (sim : Z) : st dl (option Z) :=
  match fuel with
  | O => mret None
  | S fuel =>
      '(err, sim) ← on_session (fun w => '(r, x, w) ← op sim w; Some ((r, x), w));
      if err =? QMI_ERR_OP_DEVICE_UNSUPPORTED then sim_wait fuel op sim else mret (Some sim)
  end.

Definition start_loopback : st dl unit :=
  lo ← dgets l_loop; factor ← dgets l_repl;
  match ro_loopback with
  | Some op =>
      if negb (lo =? 0) then
        err ← on_session (op lo factor);
        if negb (err =? QMI_ERR_INVALID_QMI_CMD) then dmod (set_l_loop 0) else mret tt
      else mret tt
  | None => mret tt
  end.

(** The result: whether the SIM answered within the fuel. *)
Definition start_sim (fuel : nat) (pincode : option bytes) : st dl bool :=
  match ro_sim with
  | None => mret true
  | Some op =>
      sim ← sim_wait fuel op SIM_ABSENT;
      match sim with
      | None => mret false
      | Some sim =>
          match pincode, ro_pin with
          | Some pin, Some enter => if sim =? SIM_PIN then on_session (enter pin);; mret true else mret true
          | _, _ => mret true
          end
      end
  end.

Definition start_profile : st dl unit :=
  p ← dgets l_prof; en4 ← dgets l_en4; en6 ← dgets l_en6;
  if p_idProduct p =? 0x0316 then mret tt
  else
    o ← match ro_getprofile with
        | Some op => '(p, o) ← on_session (fun w => '(p, o, w) ← op en4 en6 p w; Some ((p, o), w)); dmod (set_l_prof p);; mret o
        | None => mret empty_old
        end;
    p ← dgets l_prof;
    match ro_setprofile with
    | Some op =>
        if bool_decide (is_Some (p_apn p)) || bool_decide (is_Some (p_user p)) || bool_decide (is_Some (p_pd p)) then
          set ← on_session (op p o);
          if ((set =? 0) || (set =? 1)) && negb (p_profile_index p =? 0) && bool_decide (is_Some (p_apn p))
             && empty_str (p_user p) && e_by_profile env
          then upd_prof (set_apn None) else mret tt
        else mret tt
    | None => mret tt
    end.

(** A call an AT session left open is closed. *)
Definition start_stale : st dl unit :=
  en4 ← dgets l_en4; v4 ← dgets l_v4;
  if en4 && bool_decide (ro_kind = AtcOps) then
    '(err, v4) ← query IpFamilyV4 v4;
    dmod (set_l_v4 v4);;
    if (err =? 0) && connected v4 then deactivate IpFamilyV4 else mret tt
  else mret tt.

(** From the start of the reader to the loop: [Some true] when the loop begins,
    [Some false] when [qmi_init] failed, [None] when the SIM never answered. *)
Definition start_up (fuel : nat) (pincode : option bytes) : st dl (option bool) :=
  err ← on_session ro_init;
  if negb (err =? 0) then mret (Some false)
  else
    p ← dgets l_prof;
    p ← on_session (ro_prepare p); dmod (set_l_prof p);;
    start_loopback;;
    ok ← start_sim fuel pincode;
    if negb (ok : bool) then mret None
    else
      start_profile;; registration;; start_stale;;
      send_signo_to_main SIG_EVENT_CHECK;; mret (Some true).

(** ** The loop *)

(** What [poll] reports (a signal, an event, nothing for 15 seconds, a failure of
    its own or an error on a descriptor) and the signals of the process: [TAlarm]
    is [SIGALRM], [TKill] [SIGINT] or [SIGTERM]. *)
Inductive turn :=
| TSignal (t : clock)
| TEvent (e : modem_event) (now : Z)
| TTimeout
| TPollFailed
| TError (hup : bool)
| TAlarm
| TKill.

Definition loop_turn (x : turn) : st dl unit :=
  stopped ← dgets l_quit;
  if stopped : bool then mret tt
  else
    match x with
    | TSignal t => on_signal t
    | TEvent e now => on_event e now
    | TTimeout => send_signo_to_main SIG_EVENT_CHECK
    | TAlarm => a ← dgets l_alarm;
        match a with Some _ => dmod (set_l_alarm None);; send_signo_to_main SIG_EVENT_START | None => mret tt end
    | TKill => dmod (set_l_again false);; send_signo_to_main SIG_EVENT_STOP;; log AStopReader
    | TPollFailed => main_quit
    | TError hup => log AQuitReader;; if hup : bool then main_quit else mret tt
    end.

Fixpoint run_turns (xs : list turn) : st dl unit :=
  match xs with [] => mret tt | x :: xs => loop_turn x;; run_turns xs end.

(** ** Frames: what an operation may log, and what it leaves alone *)

(** Only actions in [ok] are added to the log. *)
Definition grows (ok : dial_act -> bool) (s s' : dl) : Prop :=
  exists l, l_log s' = l_log s ++ l /\ Forall (fun a => ok a = true) l.

Definition same {A} (f : dl -> A) (s s' : dl) : Prop := f s' = f s.

#[local] Instance grows_pre ok : PreOrder (grows ok).
Proof.
  split.
  - intros s. exists []. by rewrite app_nil_r.
  - intros s1 s2 s3 (l1 & E1 & F1) (l2 & E2 & F2). exists (l1 ++ l2). rewrite E2, E1, assoc by apply _.
    split; [done|by apply Forall_app].
Qed.

#[local] Instance same_pre {A} (f : dl -> A) : PreOrder (same f).
Proof. split; [by intros s|]. intros s1 s2 s3 E1 E2. unfold same in *. congruence. Qed.

Lemma grows_refl ok s s' : l_log s' = l_log s -> grows ok s s'.
Proof. intros E. exists []. by rewrite E, app_nil_r. Qed.

Lemma rel_on_session {A} (R : dl -> dl -> Prop) (f : W -> option (A * W)) :
  (forall w s, R s (set_l_w w s)) -> st_rel R (on_session f).
Proof. intros HR s x s'. unfold on_session. destruct (f (l_w s)) as [[y w]|]; [|done]. intros [= <- <-]. apply HR. Qed.

Lemma grows_log ok a : ok a = true -> st_rel (grows ok) (log a).
Proof. intros Ha. apply rel_modify. intros s. exists [a]. split; [done|by constructor]. Qed.

(** Walks through a body; what it cannot see through is left. *)
Ltac frame1 :=
  lazymatch goal with
  | |- st_rel _ (on_session _) => apply rel_on_session; intros ? ?
  | |- grows _ _ _ => apply grows_refl; reflexivity
  | |- same _ _ _ => reflexivity
  | |- st_rel _ _ => first [st_walk1 | progress unfold dgets, dmod, send_signo_to_main, alarm, upd_prof, conflict, query, quit]
  end.
Ltac frame := repeat frame1.

(** The actions of the DHCP client alone. *)
Definition is_dhcp (a : dial_act) : bool := match a with ADhcpStart | ADhcpStop => true | _ => false end.
Definition is_setup (a : dial_act) : bool := match a with ASetup _ _ _ => true | _ => false end.
Definition not_setup (a : dial_act) : bool := negb (is_setup a).
Definition not_dhcp (a : dial_act) : bool := negb (is_dhcp a).

Lemma link_change_grows ok link :
  ok ADhcpStart = true -> ok ADhcpStop = true -> st_rel (grows ok) (usbnet_link_change link).
Proof. intros H1 H2. unfold usbnet_link_change. frame; by apply grows_log. Qed.

Lemma setup_grows ok f : (forall a n, ok (ASetup f a n) = true) -> st_rel (grows ok) (setup f).
Proof. intros Hok. unfold setup. frame. by apply grows_log. Qed.

Lemma get_ip_grows ok f : st_rel (grows ok) (get_ip f).
Proof. unfold get_ip. frame. Qed.

Lemma deactivate_grows ok f : ok (ADeactivate f) = true -> st_rel (grows ok) (deactivate f).
Proof. intros Hok. unfold deactivate. frame. by apply grows_log. Qed.

Lemma registration_grows ok : st_rel (grows ok) registration.
Proof. unfold registration. frame. Qed.

#[local] Hint Resolve grows_log link_change_grows setup_grows get_ip_grows deactivate_grows registration_grows : dial.
#[local] Hint Extern 1 (_ = true) => reflexivity : dial.

(** Everything but call requests and conflict files is in [ok]. *)
Definition quiet (ok : dial_act -> bool) : Prop :=
  forall a, match a with ASetup _ _ _ | AConflictFile _ => True | _ => ok a = true end.

Lemma quiet_log ok a :
  quiet ok -> match a with ASetup _ _ _ | AConflictFile _ => False | _ => True end -> st_rel (grows ok) (log a).
Proof. intros Hq Ha. apply grows_log. specialize (Hq a). by destruct a. Qed.

Lemma quiet_link_change ok link : quiet ok -> st_rel (grows ok) (usbnet_link_change link).
Proof. intros Hq. apply link_change_grows; [apply (Hq ADhcpStart)|apply (Hq ADhcpStop)]. Qed.

Lemma quiet_deactivate ok f : quiet ok -> st_rel (grows ok) (deactivate f).
Proof. intros Hq. apply deactivate_grows, (Hq (ADeactivate f)). Qed.

#[local] Hint Resolve quiet_log quiet_link_change quiet_deactivate I : dial.

Lemma main_quit_grows ok : quiet ok -> st_rel (grows ok) main_quit.
Proof. intros Hq. unfold main_quit. frame; auto with dial. Qed.

Lemma shut_down_grows ok : quiet ok -> st_rel (grows ok) shut_down.
Proof. intros Hq. unfold shut_down. frame; auto using main_quit_grows with dial. Qed.

Lemma check_grows ok : quiet ok -> st_rel (grows ok) sig_check.
Proof.
  intros Hq. unfold sig_check, check_v4, check_v6, check_ipv4_address, update_link. frame; auto with dial.
Qed.

Lemma stop_grows ok : quiet ok -> st_rel (grows ok) sig_stop.
Proof. intros Hq. unfold sig_stop. frame; auto using shut_down_grows with dial. Qed.

Lemma event_grows ok e now : quiet ok -> st_rel (grows ok) (on_event e now).
Proof. intros Hq. destruct e; cbn [on_event]; frame; auto using main_quit_grows with dial. Qed.

Lemma quiet_not_setup : quiet not_setup.
Proof. by intros []. Qed.
#[local] Hint Resolve quiet_not_setup : dial.

(** A turn that does not dial. *)
Lemma turn_grows ok x s s' :
  quiet ok -> loop_turn x s = Some (tt, s') ->
  grows ok s s' \/ exists t q, x = TSignal t /\ l_sig s = SIG_EVENT_START :: q /\ l_quit s = false /\
    sig_start t (set_l_alarm None (set_l_sig q s)) = Some (tt, s').
Proof.
  unfold loop_turn. intros Hq H. unfold dgets in H. rewrite st_bind_gets in H. destruct (l_quit s) eqn:Eq.
  { injection H as <-. by left. }
  destruct x as [t|e now| | |hup| |]; [|left; refine ((_ : st_rel (grows ok) _) _ _ _ H); clear H..].
  - unfold on_signal in H. unfold dgets in H. rewrite st_bind_gets in H. destruct (l_sig s) as [|[] q] eqn:Es.
    + injection H as <-. by left.
    + right. by exists t, q.
    + left. by apply (check_grows ok Hq) in H.
    + left. by apply (stop_grows ok Hq) in H.
  - by apply event_grows.
  - frame.
  - by apply main_quit_grows.
  - frame; auto using main_quit_grows with dial.
  - frame.
  - frame; auto with dial.
Qed.

Lemma outcome_grows k now : st_rel (grows not_setup) (start_outcome k now).
Proof. unfold start_outcome. frame; auto using shut_down_grows with dial. Qed.

(** ** No lost wake-up *)

(** What [SIG_EVENT_START] tests before it dials. *)
Definition attached (s : dl) : bool := (l_ps s =? 1) || negb (l_loop s =? 0).

(** Something will bring the loop back to a missing call. *)
Definition woken (s : dl) : Prop :=
  l_quit s = true \/ need s = false \/ attached s = false \/ is_Some (l_alarm s)
  \/ SIG_EVENT_START ∈ l_sig s \/ SIG_EVENT_CHECK ∈ l_sig s.

(** Times are milliseconds since the system started: 69 years fit. *)
Definition max_clock : Z := 2 ^ 41.
Definition time_ok (t : Z) : Prop := 0 <= t < max_clock.
Definition allow_ok (s : dl) : Prop := 0 <= l_allow s < max_clock + 60001.

Definition turn_ok (x : turn) (s : dl) : Prop :=
  match x with
  | TSignal t => time_ok (t_end t) /\ 0 <= t_alarm t /\ (t_test t < l_allow s -> t_alarm t < l_allow s)
  | TEvent _ now => time_ok now
  | _ => True
  end.

(** The states the loop reaches from [s0]. *)
Inductive reaches (s0 : dl) : dl -> Prop :=
| reaches_start : reaches s0 s0
| reaches_turn s x s' : reaches s0 s -> turn_ok x s -> loop_turn x s = Some (tt, s') -> reaches s0 s'.

(** The state in which [qmi_main] enters its loop. *)
Definition entered (s : dl) : Prop := SIG_EVENT_CHECK ∈ l_sig s /\ l_quit s = false /\ allow_ok s.

Ltac run H := unfold send_signo_to_main, alarm, upd_prof, conflict, query, quit, log in H; unfold dgets, dmod in H; st_run H.

Lemma shut_down_quits s s' x : shut_down s = Some (x, s') -> l_quit s' = true.
Proof.
  unfold shut_down, main_quit. intros H. repeat (apply st_bind_inv in H as (? & ? & _ & H)).
  by injection H as <- <-.
Qed.

Lemma main_quit_quits s s' x : main_quit s = Some (x, s') -> l_quit s' = true.
Proof. unfold main_quit. intros (? & ? & _ & [= <- <-])%st_bind_inv. done. Qed.

Lemma allow_time_pos k : 0 < allow_time k <= 60.
Proof.
  unfold allow_time, zget. destruct (k <? 0); [simpl; lia|].
  destruct (Z.to_nat k) as [|[|[|[|[|n]]]]]; simpl; lia.
Qed.

Lemma outcome_woken k now s s' x : start_outcome k now s = Some (x, s') -> woken s'.
Proof.
  unfold start_outcome. intros H. run H. case_match; [left; by eapply shut_down_quits|].
  destruct (need s) eqn:En.
  - run H. injection H as <- <-. do 3 right. left. cbn.
    destruct (Z.eqb_spec (allow_time (l_fail s)) 0) as [E0|]; [|done]. pose proof (allow_time_pos (l_fail s)). lia.
  - right. left. case_match; run H; injection H as <- <-; exact En.
Qed.

Lemma check_woken s s' x : sig_check s = Some (x, s') -> woken s'.
Proof.
  unfold sig_check. intros H. do 5 (apply st_bind_inv in H as (? & ? & _ & H)).
  apply st_bind_inv in H as (? & s1 & _ & H). run H. destruct (need s1) eqn:En; run H; injection H as <- <-.
  - do 4 right. left. cbn. set_solver.
  - by right; left.
Qed.

Lemma stop_woken s s' x : sig_stop s = Some (x, s') -> woken s'.
Proof.
  unfold sig_stop. intros H. do 3 (apply st_bind_inv in H as (? & ? & _ & H)). left. by eapply shut_down_quits.
Qed.

Lemma start_woken t s s' x :
  allow_ok s -> 0 <= t_alarm t -> (t_test t < l_allow s -> t_alarm t < l_allow s) ->
  sig_start t s = Some (x, s') -> woken s'.
Proof.
  unfold sig_start, allow_ok, max_clock. intros Ha H0 Ht H. run H. case_match eqn:Ea.
  - injection H as <- <-. right; right; left. unfold attached. by destruct (l_ps s =? 1), (l_loop s =? 0).
  - destruct (Z.ltb_spec (t_test t) (l_allow s)) as [Hlt|].
    + specialize (Ht Hlt). run H. injection H as <- <-. do 3 right. left. cbn.
      destruct (Z.eqb_spec (u32 (u64 (l_allow s - t_alarm t + 999) / 1000)) 0) as [E|]; [exfalso|done].
      revert E. unfold u64, u32. rewrite (Z.mod_small (_ + 999)) by lia.
      assert (1 <= (l_allow s - t_alarm t + 999) / 1000 < 2 ^ 32)
        by (split; [apply Z.div_le_lower_bound|apply Z.div_lt_upper_bound]; lia).
      rewrite Z.mod_small; lia.
    + apply st_bind_inv in H as (? & ? & _ & H). by eapply outcome_woken.
Qed.

Lemma registration_view s s' x :
  registration s = Some (x, s') ->
  l_quit s' = l_quit s /\ l_loop s' = l_loop s /\ l_alarm s' = l_alarm s /\ l_sig s' = l_sig s /\ need s' = need s.
Proof.
  unfold registration. intros H. run H. apply st_bind_inv in H as (ps & s1 & Hs & H). run H. injection H as <- <-.
  revert Hs. unfold on_session. case_match; [|done]. case_match. by intros [= <- <-].
Qed.

Lemma event_woken e now s s' x : woken s -> on_event e now s = Some (x, s') -> woken s'.
Proof.
  intros Hw. destruct e; cbn [on_event]; intros H.
  - left. by eapply main_quit_quits.
  - apply st_bind_inv in H as ([] & s1 & (Eq & El & Ea & Es & En)%registration_view & H). run H.
    destruct (Z.eqb_spec (l_ps s1) 1) as [E|E].
    + destruct (need s1) eqn:En1; injection H as <- <-; [do 4 right; left; cbn; set_solver|by right; left].
    + injection H as <- <-. unfold woken, need, attached in *. cbn. rewrite Ea, Es, Eq, El.
      rewrite (proj2 (Z.eqb_neq _ _) E). cbn [orb].
      destruct Hw as [|[Hw|[Hw|[|]]]]; [tauto| |apply orb_false_iff in Hw; tauto|tauto|tauto].
      right. left. rewrite <- Hw. exact En.
  - run H. do 5 right. case_match; run H; injection H as <- <-; cbn; set_solver.
  - left. do 2 (apply st_bind_inv in H as (? & ? & _ & H)). by eapply main_quit_quits.
  - run H. case_match; run H; injection H as <- <-; [do 4 right; left; cbn; set_solver|].
    unfold woken, need, attached in *. cbn. apply negb_false_iff in H0. rewrite H0 in *. cbn.
    destruct Hw as [|[|[[Hw _]%orb_false_iff|]]]; rewrite ?orb_false_r; tauto.
Qed.

(** The time before which no call is set up and the number of failures are only
    written by the outcome of an attempt and by the modem's events. *)
Lemma link_change_same {A} (f : dl -> A) link :
  (forall s x, f (set_l_link x s) = f s) -> (forall s x, f (set_l_addr x s) = f s) -> (forall s x, f (set_l_log x s) = f s) ->
  st_rel (same f) (usbnet_link_change link).
Proof. intros H1 H2 H3. unfold usbnet_link_change, log. frame; cbn; auto; apply H1 || apply H2 || apply H3. Qed.

Definition pace (s : dl) : Z * Z := (l_allow s, l_fail s).

Lemma pace_inv s s' : same pace s s' -> l_allow s' = l_allow s /\ l_fail s' = l_fail s.
Proof. by intros [= -> ->]. Qed.

Lemma shut_down_pace : st_rel (same pace) shut_down.
Proof. unfold shut_down, main_quit, log. frame; by apply link_change_same. Qed.

Lemma main_quit_pace : st_rel (same pace) main_quit.
Proof. unfold main_quit. frame; by apply link_change_same. Qed.

Lemma registration_pace : st_rel (same pace) registration.
Proof. unfold registration. frame. Qed.

Lemma setup_pace f : st_rel (same pace) (setup f).
Proof. unfold setup, log. frame. Qed.

Lemma get_ip_pace f : st_rel (same pace) (get_ip f).
Proof. unfold get_ip. frame. Qed.

Lemma passes_pace : st_rel (same pace) passes.
Proof.
  unfold passes, start_v4, start_v6, retry_auth, retry_profile. frame; auto using setup_pace, get_ip_pace.
Qed.

Lemma check_pace : st_rel (same pace) sig_check.
Proof.
  unfold sig_check, check_v4, check_v6, check_ipv4_address, update_link, deactivate, registration, log.
  frame; auto using get_ip_pace; by apply link_change_same.
Qed.

Lemma stop_pace : st_rel (same pace) sig_stop.
Proof. unfold sig_stop, deactivate, log. frame; auto using shut_down_pace. Qed.

Lemma outcome_allow_ok k now s s' x :
  time_ok now -> allow_ok s -> start_outcome k now s = Some (x, s') -> allow_ok s'.
Proof.
  unfold time_ok, allow_ok, max_clock, start_outcome. intros Hn Ha H. run H. case_match.
  { apply shut_down_pace, pace_inv in H as [-> _]. exact Ha. }
  destruct (need s); [|case_match]; run H; injection H as <- <-; cbn; [|lia|lia].
  pose proof (allow_time_pos (l_fail s)). unfold u64. rewrite Z.mod_small; lia.
Qed.

Lemma event_allow_ok e now s s' x : time_ok now -> allow_ok s -> on_event e now s = Some (x, s') -> allow_ok s'.
Proof.
  unfold time_ok, allow_ok, max_clock. intros Hn Ha. destruct e; cbn [on_event]; intros H.
  - apply main_quit_pace, pace_inv in H as [H _]. by rewrite H.
  - apply st_bind_inv in H as ([] & s1 & [Hr _]%registration_pace%pace_inv & H). run H.
    case_match; [case_match|]; run H; injection H as <- <-; cbn; rewrite ?Hr; lia.
  - run H. case_match; run H; injection H as <- <-; cbn; [|lia]. unfold u64. rewrite Z.mod_small; lia.
  - run H. apply main_quit_pace, pace_inv in H as [H _]. by rewrite H.
  - run H. case_match; run H; injection H as <- <-; exact Ha.
Qed.

(** One turn keeps the loop able to come back to a missing call. *)
Lemma turn_woken x s s' : allow_ok s -> woken s -> turn_ok x s -> loop_turn x s = Some (tt, s') -> allow_ok s' /\ woken s'.
Proof.
  unfold loop_turn. intros Ha Hw Ht H. run H. destruct (l_quit s) eqn:Eq; [by injection H as <-|].
  destruct x as [t|e now| | |hup| |]; cbn [turn_ok] in Ht.
  - unfold on_signal in H. run H. destruct (l_sig s) as [|[] q]; [by injection H as <-| | |]; run H;
      destruct Ht as (Hte & H0 & Ht).
    + split; [|by eapply start_woken; [| | |exact H]]. revert H. unfold sig_start. intros H. run H.
      case_match; [by injection H as <-|]. case_match; [run H; by injection H as <-|].
      apply st_bind_inv in H as (? & ? & [Hp _]%passes_pace%pace_inv & H). eapply outcome_allow_ok; [..|exact H]; [done|].
      unfold allow_ok. rewrite Hp. exact Ha.
    + split; [|by eapply check_woken]. apply check_pace, pace_inv in H as [H _]. unfold allow_ok. rewrite H. exact Ha.
    + split; [|by eapply stop_woken]. apply stop_pace, pace_inv in H as [H _]. unfold allow_ok. rewrite H. exact Ha.
  - split; [by eapply event_allow_ok|by eapply event_woken].
  - run H. injection H as <-. split; [exact Ha|]. do 5 right. cbn. set_solver.
  - split; [apply main_quit_pace, pace_inv in H as [H _]; unfold allow_ok; by rewrite H|left; by eapply main_quit_quits].
  - run H. destruct hup.
    + split; [apply main_quit_pace, pace_inv in H as [H _]; unfold allow_ok; by rewrite H|left; by eapply main_quit_quits].
    + by injection H as <-.
  - run H. destruct (l_alarm s); run H; injection H as <-; [|done]. split; [exact Ha|]. do 4 right. left. cbn. set_solver.
  - run H. injection H as <-. split; [exact Ha|].
    destruct Hw as [|[|[|[|[|]]]]]; [by left|by right; left|by right; right; left|by do 3 right; left| |];
      [do 4 right; left|do 5 right]; cbn; set_solver.
Qed.

(** C19. The dial loop never loses its wake-up: in every state it reaches, unless it
    has ended, a wanted call that is missing while the modem is attached (or in
    loopback) has an armed alarm or a start or check signal queued, whatever the
    session's operations answer and in whatever order signals, events, alarms
    and timeouts arrive.  The clock readings fit 41 bits, and within one start
    signal the second reading does not pass the time the first was below. *)
Theorem dial_never_sleeps s0 s :
  entered s0 -> reaches s0 s -> l_quit s = false -> need s = true -> attached s = true ->
  is_Some (l_alarm s) \/ SIG_EVENT_START ∈ l_sig s \/ SIG_EVENT_CHECK ∈ l_sig s.
Proof.
  intros (Hc & _ & Ha0) Hr Hq Hn Hat. assert (allow_ok s /\ woken s) as [_ Hw].
  { clear Hq Hn Hat. induction Hr as [|s x s' _ [Ha Hw] Ht H]; [split; [done|by do 5 right]|by eapply turn_woken]. }
  unfold woken in Hw. rewrite Hq, Hn, Hat in Hw. destruct Hw as [|[|[|]]]; done || tauto.
Qed.

(** When the clock passes the permitted time between its two readings, by less
    than a second, the alarm is cancelled instead of set. *)
Lemma start_race t s :
  attached s = true -> t_test t < l_allow s <= t_alarm t -> t_alarm t <= l_allow s + 999 ->
  sig_start t s = Some (tt, set_l_alarm None s).
Proof.
  unfold attached. intros Ha Ht H1. unfold sig_start, alarm. unfold dgets, dmod. rewrite !st_bind_gets.
  replace (negb (l_ps s =? 1) && (l_loop s =? 0)) with false by (by destruct (l_ps s =? 1), (l_loop s =? 0)).
  rewrite (proj2 (Z.ltb_lt _ _)) by lia. unfold u32, u64. rewrite (Z.mod_small (_ + 999)), Z.div_small by lia. done.
Qed.

(** ** Pace *)

(** What an attempt leaves behind: the failures so far and the next permitted time. *)
Definition paced (s s' : dl) (now : Z) : Prop :=
  l_quit s' = true \/
  if need s' then
    l_fail s' = u32 (l_fail s + 1) /\ l_alarm s' = Some (allow_time (l_fail s))
    /\ l_allow s' = u64 (allow_time (l_fail s) * 1000 + now)
  else if connected (l_v4 s') || connected (l_v6 s') then l_fail s' = 0 /\ l_allow s' = now
  else pace s' = pace s.

Lemma outcome_paced k now s s' x : start_outcome k now s = Some (x, s') -> paced s s' now.
Proof.
  unfold start_outcome. intros H. run H. case_match; [left; by eapply shut_down_quits|]. right.
  destruct (need s) eqn:En; run H.
  - injection H as <- <-. change (need _) with (need s). rewrite En. cbn. split; [done|]. split; [|done].
    destruct (Z.eqb_spec (allow_time (l_fail s)) 0) as [E0|]; [|done]. pose proof (allow_time_pos (l_fail s)). lia.
  - destruct (connected (l_v4 s) || connected (l_v6 s)) eqn:Ec; run H; injection H as <- <-;
      [change (need _) with (need s); rewrite En; cbn; by rewrite Ec|by rewrite En, Ec].
Qed.

Lemma start_cases t s s' x :
  sig_start t s = Some (x, s') ->
  (attached s = true /\ l_allow s <= t_test t /\ paced s s' (t_end t)) \/ exists a, s' = set_l_alarm a s.
Proof.
  unfold sig_start, attached. intros H. run H.
  case_match eqn:Ea; [right; injection H as <- <-; exists (l_alarm s); by destruct s|].
  destruct (Z.ltb_spec (t_test t) (l_allow s)) as [Hlt|Hge]; [right; run H; injection H as <- <-; by eexists|].
  left. split_and!; [by destruct (l_ps s =? 1), (l_loop s =? 0)|done|].
  apply st_bind_inv in H as (k & s1 & [Hp1 Hp2]%passes_pace%pace_inv & H%outcome_paced).
  unfold paced, pace in *. by rewrite Hp1, Hp2 in H.
Qed.

Lemma event_fail e now : st_rel (same l_fail) (on_event e now).
Proof. destruct e; cbn [on_event]; unfold registration, main_quit, log; frame; by apply link_change_same. Qed.

Lemma dial_start_case t q s s' :
  l_sig s = SIG_EVENT_START :: q -> sig_start t (set_l_alarm None (set_l_sig q s)) = Some (tt, s') ->
  (exists t' q', TSignal t = TSignal t' /\ l_sig s = SIG_EVENT_START :: q' /\ attached s = true /\ l_allow s <= t_test t'
               /\ paced s s' (t_end t'))
  \/ (grows not_setup s s' /\ l_fail s' = l_fail s /\ l_allow s' = l_allow s).
Proof.
  intros Es H. apply start_cases in H as [(Ha & Hge & Hp)|[a ->]]; [left|right; split; [by apply grows_refl|done]].
  exists t, q. split_and!; [done..|exact Ha|exact Hge|exact Hp].
Qed.

Lemma turn_pace x s s' :
  loop_turn x s = Some (tt, s') ->
  (l_fail s' = l_fail s /\ match x with TEvent _ _ => True | _ => l_allow s' = l_allow s end)
  \/ exists t q, x = TSignal t /\ l_sig s = SIG_EVENT_START :: q /\ l_quit s = false /\
    sig_start t (set_l_alarm None (set_l_sig q s)) = Some (tt, s').
Proof.
  unfold loop_turn. intros H. unfold dgets in H. rewrite st_bind_gets in H. destruct (l_quit s) eqn:Eq.
  { injection H as <-. left. by destruct x. }
  destruct x as [t|e now| | |hup| |]; [|left; split; [by apply event_fail in H|done]|..].
  { unfold on_signal in H. unfold dgets in H. rewrite st_bind_gets in H. destruct (l_sig s) as [|[] q] eqn:Es.
    - injection H as <-. by left.
    - right. by exists t, q.
    - left. by apply check_pace, pace_inv in H as [? ?].
    - left. by apply stop_pace, pace_inv in H as [? ?]. }
  all: left; apply and_comm, pace_inv; refine ((_ : st_rel (same pace) _) _ _ _ H); clear H; unfold log; frame;
    auto using main_quit_pace.
Qed.


(** ** IPv6 refusals and conflicts *)

(** What the loop knows of IPv4, and whether it goes on. *)
Definition view4 (s : dl) : bool * Z * bool * Z := (l_en4 s, l_v4 s, l_quit s, l_link s).

Lemma setup_view4 f : st_rel (same view4) (setup f).
Proof. unfold setup, log. frame. Qed.
Lemma get_ip_view4 f : st_rel (same view4) (get_ip f).
Proof. unfold get_ip. frame. Qed.
Lemma start_v6_view4 : st_rel (same view4) start_v6.
Proof. unfold start_v6. frame; auto using setup_view4, get_ip_view4. Qed.

Lemma start_v4_idle k s s' x :
  connected (l_v4 s) = true -> start_v4 k s = Some (x, s') -> x = k /\ s' = s.
Proof. unfold start_v4. intros Hc H. run H. rewrite Hc, andb_false_r in H. by injection H as <- <-. Qed.

Lemma passes_idle s s' k :
  connected (l_v4 s) = true -> passes s = Some (k, s') -> k = 0 /\ same view4 s s'.
Proof.
  unfold passes. intros Hc H. run H. destruct (_ && _ && _ && _).
  - apply st_bind_inv in H as ([] & s1 & Hv%start_v6_view4 & H).
    apply start_v4_idle in H as [-> ->]; [done|]. by injection Hv as _ -> _ _.
  - apply st_bind_inv in H as (k1 & s1 & H1 & H). apply start_v4_idle in H1 as [-> ->]; [|done].
    apply st_bind_inv in H as ([] & s2 & Hv%start_v6_view4 & H). run H. by injection H as <- <-.
Qed.

Lemma passes_grows : st_rel (grows is_setup) passes.
Proof. unfold passes, start_v4, start_v6, retry_auth, retry_profile. frame; auto with dial. Qed.

(** C21. A working IPv4 call survives everything IPv6 does: while IPv4 is enabled and
    connected, a start signal leaves IPv4 connected and the link as it was, logs
    nothing but call requests (no conflict file, no DHCP action, no
    deactivation) and never ends the loop, whatever the modem answers. *)
Theorem dial_v4_survives_v6 t q s s' :
  l_quit s = false -> l_sig s = SIG_EVENT_START :: q -> l_en4 s = true -> connected (l_v4 s) = true ->
  loop_turn (TSignal t) s = Some (tt, s') ->
  l_quit s' = false /\ l_v4 s' = l_v4 s /\ l_link s' = l_link s /\ grows is_setup s s'.
Proof.
  unfold loop_turn, on_signal, sig_start. intros Hq Hs He Hc H. run H. rewrite Hq in H. run H. rewrite Hs in H. run H.
  case_match; [by injection H as <-; split_and!; [..|by apply grows_refl]|].
  case_match; [by run H; injection H as <-; split_and!; [..|by apply grows_refl]|].
  apply st_bind_inv in H as (k & s1 & Hp & H). pose proof (passes_grows _ _ _ Hp) as Hg.
  apply passes_idle in Hp as [-> [= E1 E2 E3 E4]]; [|exact Hc]. cbn in E1, E2, E3, E4.
  assert (l_quit s' = l_quit s1 /\ l_v4 s' = l_v4 s1 /\ l_link s' = l_link s1 /\ l_log s' = l_log s1) as (F1 & F2 & F3 & F4).
  { unfold start_outcome in H. run H. rewrite E1, He in H. change (negb (0 =? 0)) with false in H. cbn [andb] in H.
    destruct (need s1); [|destruct (connected (l_v4 s1) || connected (l_v6 s1))]; run H; by injection H as <-. }
  rewrite F1, F2, F3, E2, E3, E4. split_and!; [done..|]. etrans; [|by apply grows_refl].
  exact Hg.
Qed.

(** ** The DHCP client follows the link *)

Definition keep (P : dl -> Prop) (s s' : dl) : Prop := P s -> P s'.

#[local] Instance keep_pre P : PreOrder (keep P).
Proof. split; [by intros s HP|]. intros s1 s2 s3 H1 H2 HP. by apply H2, H1. Qed.

(** The last thing the DHCP client was told. *)
Definition dhcp_last (l : list dial_act) : option dial_act := last (filter (fun a => is_dhcp a = true) l).

Definition dhcp_ok (s : dl) : Prop :=
  match dhcp_last (l_log s) with
  | Some ADhcpStart => 0 < l_link s
  | Some ADhcpStop => l_link s = 0
  | _ => l_link s <= 0
  end.

Definition ended_down (s : dl) : Prop := l_quit s = true -> l_link s = 0.

Lemma dhcp_last_app l l' : Forall (fun a => not_dhcp a = true) l' -> dhcp_last (l ++ l') = dhcp_last l.
Proof.
  intros HF. unfold dhcp_last. rewrite filter_app.
  replace (filter (fun a => is_dhcp a = true) l') with (@nil dial_act); [by rewrite app_nil_r|].
  induction HF as [|a l' Ha HF IH]; [done|]. rewrite filter_cons_False; [done|]. unfold not_dhcp in Ha. by destruct (is_dhcp a).
Qed.

Lemma dhcp_last_snoc l a : is_dhcp a = true -> dhcp_last (l ++ [a]) = Some a.
Proof. intros Ha. unfold dhcp_last. rewrite filter_app, filter_cons_True, filter_nil by done. apply last_snoc. Qed.

Lemma log_dhcp a : not_dhcp a = true -> st_rel (keep dhcp_ok) (log a).
Proof.
  intros Ha. apply rel_modify. intros s HP. unfold dhcp_ok in *. cbn [l_log set_l_log l_link]. rewrite dhcp_last_app; [exact HP|by constructor].
Qed.

Lemma link_change_inv link s s' x :
  usbnet_link_change link s = Some (x, s') ->
  (l_link s = link /\ s' = s)
  \/ (l_link s <> link /\ l_link s' = link /\ l_log s' = l_log s ++ [if link =? 0 then ADhcpStop else ADhcpStart]).
Proof.
  unfold usbnet_link_change. intros H. run H. destruct (Z.eqb_spec (l_link s) link) as [E|E]; [by injection H as <- <-; left|].
  right. by destruct (Z.land link bit4 =? 0), (Z.land link bit6 =? 0), (link =? 0); run H; injection H as <- <-.
Qed.

Lemma link_change_dhcp link : 0 <= link -> st_rel (keep dhcp_ok) (usbnet_link_change link).
Proof.
  intros Hl s x s' [[_ ->]|(_ & E1 & E2)]%link_change_inv HP; [done|]. unfold dhcp_ok.
  rewrite E1, E2, dhcp_last_snoc by (by case_match). destruct (Z.eqb_spec link 0); lia.
Qed.

Lemma link_change_link link s s' x : usbnet_link_change link s = Some (x, s') -> l_link s' = link.
Proof. by intros [[E ->]|(_ & E & _)]%link_change_inv. Qed.

(** Everything but [usbnet_link_change] leaves the link and the DHCP client alone. *)
Lemma keep_dhcp s s' : l_link s' = l_link s -> l_log s' = l_log s -> keep dhcp_ok s s'.
Proof. unfold keep, dhcp_ok. by intros -> ->. Qed.

Lemma link_of_pos v4 v6 : 0 <= link_of v4 v6.
Proof. unfold link_of. apply Z.lor_nonneg. split; case_match; by vm_compute. Qed.

#[local] Hint Resolve log_dhcp link_change_dhcp link_of_pos keep_dhcp : dial.
#[local] Hint Extern 1 (0 <= 0) => apply Z.le_refl : dial.

Ltac frame_dhcp := frame; auto with dial; try (by apply keep_dhcp).

Lemma setup_dhcp f : st_rel (keep dhcp_ok) (setup f).
Proof. unfold setup. frame_dhcp. Qed.
Lemma get_ip_dhcp f : st_rel (keep dhcp_ok) (get_ip f).
Proof. unfold get_ip. frame_dhcp. Qed.
Lemma deactivate_dhcp f : st_rel (keep dhcp_ok) (deactivate f).
Proof. unfold deactivate. frame_dhcp. Qed.
Lemma registration_dhcp : st_rel (keep dhcp_ok) registration.
Proof. unfold registration. frame_dhcp. Qed.
Lemma main_quit_dhcp : st_rel (keep dhcp_ok) main_quit.
Proof. unfold main_quit. frame_dhcp. Qed.
Lemma shut_down_dhcp : st_rel (keep dhcp_ok) shut_down.
Proof. unfold shut_down. frame_dhcp. apply main_quit_dhcp. Qed.
#[local] Hint Resolve setup_dhcp get_ip_dhcp deactivate_dhcp registration_dhcp main_quit_dhcp shut_down_dhcp : dial.

Lemma passes_dhcp : st_rel (keep dhcp_ok) passes.
Proof. unfold passes, start_v4, start_v6, retry_auth, retry_profile. frame_dhcp. Qed.

Lemma turn_dhcp x : st_rel (keep dhcp_ok) (loop_turn x).
Proof.
  unfold loop_turn, on_signal, sig_start, start_outcome, sig_check, check_v4, check_v6, check_ipv4_address, update_link,
    sig_stop, on_event.
  frame_dhcp; apply passes_dhcp.
Qed.

Lemma main_quit_down s s' x : main_quit s = Some (x, s') -> l_link s' = 0.
Proof. unfold main_quit. intros (? & s1 & E%link_change_link & [= <- <-])%st_bind_inv. exact E. Qed.

Lemma shut_down_down s s' x : shut_down s = Some (x, s') -> l_link s' = 0.
Proof. unfold shut_down. intros H. do 4 (apply st_bind_inv in H as (? & ? & _ & H)). by eapply main_quit_down. Qed.

Lemma passes_quit : st_rel (same l_quit) passes.
Proof. unfold passes, start_v4, start_v6, retry_auth, retry_profile, setup, get_ip, log. frame. Qed.

Lemma check_quit : st_rel (same l_quit) sig_check.
Proof.
  unfold sig_check, check_v4, check_v6, check_ipv4_address, update_link, deactivate, registration, get_ip, log.
  frame; by apply link_change_same.
Qed.

Lemma registration_quit : st_rel (same l_quit) registration.
Proof. unfold registration. frame. Qed.

(** Ending the loop takes the link down. *)
Lemma turn_ended x s s' : l_quit s = false -> loop_turn x s = Some (tt, s') -> ended_down s'.
Proof.
  unfold loop_turn, ended_down. intros Hq H. run H. rewrite Hq in H.
  destruct x as [t|e now| | |[]| |]; try (run H; intros _; by eapply main_quit_down); try (run H; injection H as <-; cbn; by rewrite Hq).
  - unfold on_signal in H. run H. destruct (l_sig s) as [|[] q]; run H; [injection H as <-; by rewrite Hq| | |].
    + unfold sig_start in H. run H. case_match; [injection H as <-; cbn; by rewrite Hq|].
      case_match; [run H; injection H as <-; cbn; by rewrite Hq|].
      apply st_bind_inv in H as (k & s1 & E%passes_quit & H). unfold same in E. cbn in E. rewrite Hq in E.
      unfold start_outcome in H. run H. destruct (_ && disconnected _); [intros _; by eapply shut_down_down|].
      destruct (need s1); [|destruct (connected (l_v4 s1) || connected (l_v6 s1))]; run H; injection H as <-; cbn; by rewrite E.
    + apply check_quit in H. unfold same in H. cbn in H. by rewrite H, Hq.
    + intros _. unfold sig_stop in H. do 3 (apply st_bind_inv in H as (? & ? & _ & H)). by eapply shut_down_down.
  - destruct e; cbn [on_event] in H; try (run H; intros _; by eapply main_quit_down).
    + apply st_bind_inv in H as ([] & s1 & E%registration_quit & H). unfold same in E. rewrite Hq in E. run H.
      destruct (l_ps s1 =? 1), (need s1); run H; injection H as <-; cbn; by rewrite E.
    + run H. destruct (connected (l_v4 s) || connected (l_v6 s)); run H; injection H as <-; cbn; by rewrite Hq.
    + run H. destruct (negb _); run H; injection H as <-; cbn; by rewrite Hq.
  - run H. destruct (l_alarm s); run H; injection H as <-; cbn; by rewrite Hq.
Qed.

(** C22. The DHCP client follows the link: in every state the loop reaches, the last
    DHCP action logged is a start exactly while the link is up and a stop once
    it is down, and when the loop has ended, for whatever reason, the link is
    down and the client was stopped last. *)
Theorem dial_dhcp_follows_link s0 s :
  dhcp_ok s0 -> l_quit s0 = false -> reaches s0 s ->
  dhcp_ok s /\ (l_quit s = true -> l_link s = 0 /\ dhcp_last (l_log s) <> Some ADhcpStart).
Proof.
  intros H0 Hq Hr. assert (dhcp_ok s /\ ended_down s) as [Hd He].
  { induction Hr as [|s x s' _ [IH1 IH2] _ H]; [by split; [|unfold ended_down; rewrite Hq]|].
    split; [by eapply turn_dhcp|]. destruct (l_quit s) eqn:Eq; [|by eapply turn_ended].
    unfold loop_turn in H. run H. rewrite Eq in H. by injection H as <-. }
  split; [done|]. intros E. specialize (He E). split; [done|]. unfold dhcp_ok in Hd. intros E'. rewrite E', He in Hd. lia.
Qed.

(** ** Stopping *)

(** The session is released last. *)
Lemma shut_down_session s s' x : shut_down s = Some (x, s') -> ro_deinit (l_w s) = Some (l_w s').
Proof.
  unfold shut_down, main_quit. intros H. apply st_bind_inv in H as ([] & s1 & H1 & H). run H.
  apply st_bind_inv in H as ([] & s2 & H2 & H). run H. apply st_bind_inv in H as ([] & s3 & H3 & H). run H. injection H as <- <-.
  assert (forall l a b, usbnet_link_change l a = Some (tt, b) -> l_w b = l_w a) as Hl
    by (intros l a b E; by apply (link_change_same l_w l) in E).
  apply Hl in H1, H3. cbn in *. rewrite H3. cbn. revert H2. unfold on_session. cbn. rewrite H1.
  destruct (ro_deinit (l_w s)); cbn; [|done]. by intros [= <-].
Qed.

Lemma deactivate_inv f s s' x :
  deactivate f s = Some (x, s') ->
  l_log s' = l_log s ++ [ADeactivate f] /\ l_link s' = l_link s.
Proof.
  unfold deactivate. intros H. run H. revert H. unfold on_session. cbn.
  destruct (ro_deactivate f (l_w s)) as [w|]; cbn; [|done]. by intros [= <- <-].
Qed.

Lemma deactivate_if (b : bool) f s s' x :
  (if b then deactivate f else mret tt) s = Some (x, s') ->
  l_log s' = l_log s ++ (if b then [ADeactivate f] else []) /\ l_link s' = l_link s.
Proof. destruct b; [apply deactivate_inv|]. intros [= <- <-]. by rewrite app_nil_r. Qed.

Lemma shut_down_log s s' x :
  shut_down s = Some (x, s') -> l_log s' = l_log s ++ (if l_link s =? 0 then [] else [ADhcpStop]) ++ [ADeinit; AQuitReader].
Proof.
  unfold shut_down, main_quit. intros H. apply st_bind_inv in H as ([] & s1 & H1 & H). run H.
  apply st_bind_inv in H as ([] & s2 & H2 & H). run H. apply st_bind_inv in H as ([] & s3 & H3 & H). run H. injection H as <- <-.
  assert (l_log s2 = l_log s1 ++ [ADeinit] /\ l_link s2 = l_link s1) as [E2 L2].
  { revert H2. unfold on_session. cbn. destruct (ro_deinit (l_w s1)); cbn; [|done]. by intros [= <-]. }
  pose proof (link_change_link _ _ _ _ H1) as L1.
  apply link_change_inv in H3 as [[_ ->]|(N3 & _)]; cbn in *; [|congruence]. rewrite E2.
  apply link_change_inv in H1 as [[E ->]|(N & _ & E)]; [rewrite E|rewrite E, (proj2 (Z.eqb_neq _ _) N)]; cbn;
    by rewrite <-!(assoc_L (++)).
Qed.

(** A stop signal closes exactly what is open: the loop ends with the link down,
    and what it did in this turn is, in order, to deactivate the IPv4 call if it
    is wanted and connected, the IPv6 call if it is wanted, connected and a call
    of its own, to stop the DHCP client unless the link was down already, to
    release the session and to tell the reader to quit. *)
Theorem dial_stop_closes t q s s' :
  l_quit s = false -> l_sig s = SIG_EVENT_STOP :: q -> loop_turn (TSignal t) s = Some (tt, s') ->
  l_quit s' = true /\ l_link s' = 0 /\
  l_log s' = l_log s
    ++ (if l_en4 s && connected (l_v4 s) then [ADeactivate IpFamilyV4] else [])
    ++ (if l_en6 s && connected (l_v6 s) && negb (shares_v4 s) then [ADeactivate IpFamilyV6] else [])
    ++ (if l_link s =? 0 then [] else [ADhcpStop]) ++ [ADeinit; AQuitReader].
Proof.
  unfold loop_turn, on_signal. intros Hq Hs H. run H. rewrite Hq in H. run H. rewrite Hs in H. run H.
  unfold sig_stop in H. unfold dgets in H. rewrite st_bind_gets in H.
  apply st_bind_inv in H as ([] & s1 & [E1 L1]%deactivate_if & H).
  apply st_bind_inv in H as ([] & s2 & [E2 L2]%deactivate_if & H).
  split; [by eapply shut_down_quits|]. split; [by eapply shut_down_down|].
  apply shut_down_log in H. rewrite H, E2, E1, L2, L1. cbn [l_log l_link set_l_alarm set_l_sig id]. by rewrite <-!(assoc_L (++)).
Qed.

(** ** Invariants of the session *)

(** What a session promises: each of its operations keeps [I]. *)
Class SessionInv (I : W -> Prop) : Prop := {
  si_init w r w' : I w -> ro_init w = Some (r, w') -> I w';
  si_prepare p w p' w' : I w -> ro_prepare p w = Some (p', w') -> I w';
  si_loopback op x y w r w' : ro_loopback = Some op -> I w -> op x y w = Some (r, w') -> I w';
  si_sim op x w r y w' : ro_sim = Some op -> I w -> op x w = Some (r, y, w') -> I w';
  si_pin op x w r w' : ro_pin = Some op -> I w -> op x w = Some (r, w') -> I w';
  si_getprofile op a b p w q o w' : ro_getprofile = Some op -> I w -> op a b p w = Some (q, o, w') -> I w';
  si_setprofile op p o w r w' : ro_setprofile = Some op -> I w -> op p o w = Some (r, w') -> I w';
  si_setup a b p f w r q w' : I w -> ro_setup a b p f w = Some (r, q, w') -> I w';
  si_getip f c w r d w' : I w -> ro_getip f c w = Some (r, d, w') -> I w';
  si_query f x w r y w' : I w -> ro_query f x w = Some (r, y, w') -> I w';
  si_deactivate f w w' : I w -> ro_deactivate f w = Some w' -> I w';
  si_registration x w r w' : I w -> ro_registration x w = Some (r, w') -> I w';
  si_poll w w' : I w -> ro_poll w = Some w' -> I w';
  si_deinit w w' : I w -> ro_deinit w = Some w' -> I w';
  si_clear w : I w -> I (ro_clear_conflict w) }.

Section SessionInv.
Context (I : W -> Prop) `{!SessionInv I}.

Definition holds (s : dl) : Prop := I (l_w s).

Lemma session_holds {A} (f : W -> option (A * W)) :
  (forall w x w', I w -> f w = Some (x, w') -> I w') -> st_rel (keep holds) (on_session f).
Proof.
  intros Hf s x s'. unfold on_session. destruct (f (l_w s)) as [[y w]|] eqn:E; [|done]. intros [= <- <-] HI. by eapply Hf.
Qed.

Lemma keep_holds s s' : l_w s' = l_w s -> keep holds s s'.
Proof. unfold keep, holds. by intros ->. Qed.

(** An operation whose results are regrouped around the session. *)
Ltac session_op :=
  let w := fresh in let y := fresh in let w' := fresh in let HI := fresh in let E := fresh in
  apply session_holds; intros w y w' HI E; cbn in E;
  lazymatch type of E with
  | (?m ≫= _) = _ => let Em := fresh in destruct m as [?|] eqn:Em; cbn in E; [|discriminate E];
      repeat match goal with p : (_ * _)%type |- _ => destruct p end; cbn in E; simplify_eq
  | _ => idtac
  end.

Ltac inv_step :=
  lazymatch goal with
  | |- st_rel _ (on_session _) => idtac
  | |- keep _ _ _ => apply keep_holds; reflexivity
  | _ => frame1
  end.
Ltac inv_frame := repeat inv_step; unfold log, dmod; repeat inv_step.

Lemma setup_holds f : st_rel (keep holds) (setup f).
Proof. unfold setup. inv_frame. session_op. by eapply si_setup. Qed.
Lemma get_ip_holds f : st_rel (keep holds) (get_ip f).
Proof. unfold get_ip. inv_frame. session_op. by eapply si_getip. Qed.
Lemma query_holds f x : st_rel (keep holds) (query f x).
Proof. unfold query. session_op. by eapply si_query. Qed.
Lemma deactivate_holds f : st_rel (keep holds) (deactivate f).
Proof. unfold deactivate. inv_frame. session_op. by eapply si_deactivate. Qed.
Lemma registration_holds : st_rel (keep holds) registration.
Proof. unfold registration. inv_frame. session_op. by eapply si_registration. Qed.
Lemma link_change_holds link : st_rel (keep holds) (usbnet_link_change link).
Proof. unfold usbnet_link_change. inv_frame. Qed.
Lemma main_quit_holds : st_rel (keep holds) main_quit.
Proof. unfold main_quit. inv_frame. apply link_change_holds. Qed.
Lemma shut_down_holds : st_rel (keep holds) shut_down.
Proof.
  unfold shut_down. inv_frame; [apply link_change_holds| |apply main_quit_holds]. session_op. by eapply si_deinit.
Qed.
#[local] Hint Resolve setup_holds get_ip_holds query_holds deactivate_holds registration_holds link_change_holds
  main_quit_holds shut_down_holds : dial.

Lemma log_holds a : st_rel (keep holds) (log a).
Proof. unfold log. inv_frame. Qed.
Lemma clear_holds s : keep holds s (set_l_w (ro_clear_conflict (l_w s)) s).
Proof. unfold keep, holds. apply si_clear. Qed.
Lemma poll_holds : st_rel (keep holds) (on_session (fun w => w ← ro_poll w; Some (tt, w))).
Proof. session_op. by eapply si_poll. Qed.
#[local] Hint Resolve log_holds clear_holds poll_holds : dial.

Lemma turn_holds x : st_rel (keep holds) (loop_turn x).
Proof.
  unfold loop_turn, on_signal, sig_start, start_outcome, sig_check, check_v4, check_v6, check_ipv4_address, update_link,
    sig_stop, on_event, passes, start_v4, start_v6, retry_auth, retry_profile.
  repeat inv_step; auto with dial; apply query_holds.
Qed.

Lemma sim_wait_holds fuel op sim : ro_sim = Some op -> st_rel (keep holds) (sim_wait fuel op sim).
Proof.
  intros Hop. revert sim. induction fuel as [|fuel IH]; intros sim; cbn [sim_wait]; repeat inv_step; [|apply IH].
  session_op. by eapply si_sim.
Qed.

Lemma loopback_holds : st_rel (keep holds) start_loopback.
Proof.
  unfold start_loopback. destruct ro_loopback eqn:E; repeat inv_step. session_op. by eapply si_loopback.
Qed.

Lemma start_sim_holds fuel pin : st_rel (keep holds) (start_sim fuel pin).
Proof.
  unfold start_sim. destruct ro_sim eqn:E, ro_pin eqn:E'; repeat inv_step; try by apply sim_wait_holds.
  session_op. by eapply si_pin.
Qed.

Lemma start_profile_holds : st_rel (keep holds) start_profile.
Proof.
  unfold start_profile. destruct ro_getprofile eqn:E, ro_setprofile eqn:E'; repeat inv_step; session_op;
    first [by eapply si_setprofile | by eapply si_getprofile].
Qed.

Lemma start_up_holds fuel pin : st_rel (keep holds) (start_up fuel pin).
Proof.
  unfold start_up, start_stale.
  repeat inv_step; auto using loopback_holds, start_sim_holds, start_profile_holds with dial; try apply query_holds;
    session_op; first [by eapply si_init | by eapply si_prepare].
Qed.

(** The session's invariants are the program's: whatever every operation of a
    session keeps holds from its first request through the start-up and in every
    state of the dial loop after it, also when the loop has ended. *)
Lemma dial_keeps_session fuel pin s s0 s1 r :
  I (l_w s) -> start_up fuel pin s = Some (r, s0) -> reaches s0 s1 -> I (l_w s1).
Proof.
  intros HI H0 Hr. assert (holds s0) as H by (by eapply start_up_holds).
  induction Hr as [|s2 x s3 _ IH _ H1]; [done|by eapply turn_holds].
Qed.

(** What the conflict file may hold: every reason the session can report. *)
Context (Q : Z -> Prop) (HQ : forall w, I w -> Q (ro_conflict w)).

Definition reason_ok (a : dial_act) : Prop := match a with AConflictFile k => k <> 0 /\ Q k | _ => True end.
Definition log_ok (s : dl) : Prop := Forall reason_ok (l_log s).

Definition no_file (a : dial_act) : bool := match a with AConflictFile _ => false | _ => true end.

Lemma start_up_grows fuel pin : st_rel (grows no_file) (start_up fuel pin).
Proof.
  assert (forall f op x, st_rel (grows no_file) (sim_wait f op x)) as Hw.
  { induction f as [|f IH]; intros op x; cbn [sim_wait]; frame. apply IH. }
  unfold start_up, start_loopback, start_sim, start_profile, start_stale. frame; auto with dial.
Qed.

Lemma grows_log_ok s s' : grows no_file s s' -> log_ok s -> log_ok s'.
Proof.
  intros (l & E & F) H. unfold log_ok. rewrite E. apply Forall_app. split; [exact H|].
  eapply Forall_impl; [exact F|]. by intros [].
Qed.

Lemma start_v4_reason k4 : has_post holds (start_v4 k4) (fun k s => holds s /\ (k = k4 \/ Q k)).
Proof.
  unfold start_v4, conflict. intros s k s' HI H. run H. destruct (_ && _); [|injection H as <- <-; by split; [|left]].
  apply st_bind_inv in H as (e1 & s1 & H1 & H). apply st_bind_inv in H as (e2 & s2 & H2 & H).
  apply st_bind_inv in H as (e3 & s3 & H3 & H).
  assert (HI3 : holds s3).
  { assert (st_rel (keep holds) (retry_auth e1)) as K2 by (unfold retry_auth; repeat inv_step; auto with dial).
    assert (st_rel (keep holds) (retry_profile e2)) as K3 by (unfold retry_profile; repeat inv_step; auto with dial).
    eapply K3; [exact H3|]. eapply K2; [exact H2|]. eapply setup_holds; [exact H1|exact HI]. }
  run H. destruct (negb (e3 =? 0)); [injection H as <- <-; by split; [|right; apply HQ]|].
  assert (st_rel (keep holds) (err ← get_ip IpFamilyV4; (if err =? 0 then dmod (set_l_v4 QWDS_PKT_DATA_CONNECTED) else mret tt);; mret k4)) as K
    by (repeat inv_step; auto with dial).
  apply st_bind_inv in H as (e4 & s4 & H4 & H). split.
  - run H. destruct (e4 =? 0); run H; injection H as <- <-; by eapply (get_ip_holds _ _ _ _ H4).
  - left. run H. destruct (e4 =? 0); run H; by injection H as <- <-.
Qed.

Lemma passes_reason : has_post holds passes (fun k s => holds s /\ (k = 0 \/ Q k)).
Proof.
  assert (st_rel (keep holds) start_v6) as K6 by (unfold start_v6; repeat inv_step; auto with dial).
  unfold passes. intros s k s' HI H. run H. destruct (_ && _ && _ && _).
  - apply st_bind_inv in H as ([] & s1 & H1 & H). eapply start_v4_reason; [|exact H]. by eapply K6.
  - apply st_bind_inv in H as (k1 & s1 & [H1 Hk]%start_v4_reason & H); [|exact HI].
    apply st_bind_inv in H as ([] & s2 & H2 & H). run H. injection H as <- <-. split; [by eapply K6|exact Hk].
Qed.

Lemma outcome_log_ok k now s s' x :
  holds s -> (k = 0 \/ Q k) -> log_ok s -> start_outcome k now s = Some (x, s') -> log_ok s'.
Proof.
  unfold start_outcome. intros HI Hk Hl H. run H. set (r := if l_en4 s then k else ro_conflict (l_w s)) in *.
  destruct (negb (r =? 0)) eqn:Er; cbn [andb] in H.
  2:{ destruct (need s); [|destruct (connected (l_v4 s) || connected (l_v6 s))]; run H; by injection H as <- <-. }
  destruct (e_exit_on_conflict env && _); cbn [andb] in H.
  2:{ destruct (need s); [|destruct (connected (l_v4 s) || connected (l_v6 s))]; run H; by injection H as <- <-. }
  eapply grows_log_ok; [eapply shut_down_grows; [|exact H]; by intros []|]. unfold log_ok. cbn [l_log set_l_log].
  apply Forall_app. split; [exact Hl|]. constructor; [|done]. apply negb_true_iff, Z.eqb_neq in Er. split; [exact Er|].
  subst r. destruct (l_en4 s); [by destruct Hk|by apply HQ].
Qed.

Lemma turn_log_ok x s s' : holds s -> log_ok s -> loop_turn x s = Some (tt, s') -> log_ok s'.
Proof.
  intros HI Hl H. destruct (turn_grows no_file x s s') as [Hg|(t & q & -> & Es & Eq & Hs)]; [by intros []|done| |].
  { by eapply grows_log_ok. }
  unfold sig_start in Hs. run Hs. case_match; [by injection Hs as <-|]. case_match; [run Hs; by injection Hs as <-|].
  apply st_bind_inv in Hs as (k & s1 & Hp & Hs).
  pose proof (passes_grows _ _ _ Hp) as Hg. apply passes_reason in Hp as [HI1 Hk]; [|exact HI].
  eapply outcome_log_ok; [exact HI1|exact Hk| |exact Hs]. eapply grows_log_ok; [|exact Hl].
  destruct Hg as (l & E & F). exists l. split; [exact E|]. eapply Forall_impl; [exact F|]. by intros [].
Qed.

(** The conflict file tells the caller a reason of the modem: whatever the session
    is, every number the loop ever writes there is one the session reports as a
    conflict, and never 0. *)
Lemma dial_conflict_reasons s0 s k :
  I (l_w s0) -> log_ok s0 -> reaches s0 s -> AConflictFile k ∈ l_log s -> k <> 0 /\ Q k.
Proof.
  intros HI Hl Hr Hk. assert (holds s /\ log_ok s) as [_ H].
  { clear Hk. induction Hr as [|s1 x s2 _ [IH1 IH2] _ H1]; [done|]. split; [by eapply turn_holds|by eapply turn_log_ok]. }
  unfold log_ok in H. rewrite Forall_forall in H. exact (H _ Hk).
Qed.

End SessionInv.
End Dial.

(** ** A concrete session *)

(** The calls it still refuses; a query finds the call down. *)
Definition ex_dial_ops : RequestOps Z := {|
  ro_kind := QmiOps;
  ro_conflict w := if 0 <? w then 55 else 0;
  ro_clear_conflict w := 0;
  ro_init w := Some (0, w);
  ro_prepare p w := Some (p, w);
  ro_loopback := None;
  ro_sim := Some (fun _ w => Some (0, SIM_READY, w));
  ro_pin := None;
  ro_getprofile := None;
  ro_setprofile := None;
  ro_setup _ _ p _ w := if 0 <? w then Some (14, p, w) else Some (0, p, w);
  ro_getip _ c w := Some (0, c, w);
  ro_query _ _ w := Some (0, QWDS_PKT_DATA_DISCONNECTED, w);
  ro_deactivate _ w := Some w;
  ro_registration _ w := Some (1, w);
  ro_poll w := Some w;
  ro_deinit w := Some w |}.

Definition ex_env : dial_env := DialEnv false false false.
Definition ex_env_exit : dial_env := DialEnv true false false.
Definition ex_clock (t : Z) : clock := Clock t t (t + 3).
Definition ex_dl (v4 v6 link : Z) (sig : list signo) : dl :=
  Dl 1 v4 v6 0 1000 link true true ex_profile 0 0 ex_cfg 0 None sig false false [] 1.

Definition ex_turn (x : turn) (s : dl) : dl :=
  match loop_turn (ops := ex_dial_ops) ex_env x s with Some (_, s') => s' | None => s end.

Definition ex_d0 : dl := ex_dl 0 0 (-1) [SIG_EVENT_CHECK].
Definition ex_d1 : dl := ex_turn (TSignal (ex_clock 2000)) ex_d0.
Definition ex_d2 : dl := ex_turn (TSignal (ex_clock 2100)) ex_d1.

Lemma ex_reaches : reaches (ops := ex_dial_ops) ex_env ex_d0 ex_d2.
Proof.
  eapply reaches_turn with (x := TSignal (ex_clock 2100)) (s := ex_d1).
  - eapply reaches_turn with (x := TSignal (ex_clock 2000)) (s := ex_d0); [constructor| |by vm_compute].
    split_and!; [split; by vm_compute|by vm_compute|by vm_compute].
  - split_and!; [split; by vm_compute|by vm_compute|by vm_compute].
  - by vm_compute.
Qed.

Lemma dial_never_sleeps_witness :
  l_alarm ex_d2 = Some 5 /\
  (is_Some (l_alarm ex_d2) \/ SIG_EVENT_START ∈ l_sig ex_d2 \/ SIG_EVENT_CHECK ∈ l_sig ex_d2).
Proof.
  split; [reflexivity|].
  refine (@dial_never_sleeps Z ex_dial_ops ex_env ex_d0 ex_d2 _ ex_reaches _ _ _); [|reflexivity|reflexivity|reflexivity].
  split; [apply list_elem_of_here|]. split; [reflexivity|]. split; by vm_compute.
Defined.


Definition ex_up : dl := ex_dl 2 1 16 [SIG_EVENT_START].

Lemma dial_v4_survives_v6_witness :
  exists s', loop_turn (ops := ex_dial_ops) ex_env_exit (TSignal (ex_clock 2000)) ex_up = Some (tt, s')
    /\ l_en6 s' = false /\ l_v4 s' = 2.
Proof.
  destruct (loop_turn (ops := ex_dial_ops) ex_env_exit (TSignal (ex_clock 2000)) ex_up) as [[[] s']|] eqn:E; [|vm_compute in E; discriminate].
  exists s'. split; [reflexivity|].
  destruct (@dial_v4_survives_v6 Z ex_dial_ops ex_env_exit (ex_clock 2000) [] ex_up s' eq_refl eq_refl eq_refl eq_refl E) as (_ & E4 & _).
  split; [|exact E4]. vm_compute in E. injection E as <-. reflexivity.
Defined.

Lemma dial_dhcp_follows_link_witness : l_link ex_d2 = 0 /\ dhcp_ok ex_d2.
Proof.
  split; [reflexivity|].
  refine (proj1 (@dial_dhcp_follows_link Z ex_dial_ops ex_env ex_d0 ex_d2 _ eq_refl ex_reaches)). by vm_compute.
Defined.

Lemma dial_stop_closes_witness :
  exists s', loop_turn (ops := ex_dial_ops) ex_env (TSignal (ex_clock 2000)) (ex_dl 2 2 80 [SIG_EVENT_STOP]) = Some (tt, s')
    /\ l_log s' = [ADeactivate IpFamilyV4; ADeactivate IpFamilyV6; ADhcpStop; ADeinit; AQuitReader].
Proof.
  destruct (loop_turn (ops := ex_dial_ops) ex_env (TSignal (ex_clock 2000)) (ex_dl 2 2 80 [SIG_EVENT_STOP])) as [[[] s']|] eqn:E;
    [|vm_compute in E; discriminate].
  exists s'. split; [reflexivity|].
  exact (proj2 (proj2 (@dial_stop_closes Z ex_dial_ops ex_env (ex_clock 2000) [] (ex_dl 2 2 80 [SIG_EVENT_STOP]) s' eq_refl eq_refl E))).
Defined.
