(* ===== verification/QcmSessions.v ===== *)
(** * The sessions of the connection manager

    [qmi_request_ops] with [qmiwwan_qmidev_ops] and [mbim_request_ops] with
    [mbim_dev_ops] as instances of the dial loop's [RequestOps], each put together
    from the operations of its component, and what the dial loop inherits from
    them. *)

From S2P Require Import Prelude CLib QmiMsg QmiReq QmiAddr QmiCard QmiSession QmiClient QmiEth QmiNet.
From S2P Require MbimMsg MbimCm.
From S2P Require Import QcmDial.

(** ** QMI *)

(** The requests, the clients, and the part of the profile that the negotiation
    of the data format changes. *)
Record qsess := QSess { qs_c : cst; qs_e : eprofile; BaseBandVersion : bytes }.

Definition QMIDMS_GET_DEVICE_REV_ID_REQ : Z := 0x0023.

(** The return value and the text stored: 63 characters at most. *)
Definition requestBaseBandVersion (md : modem) (old : bytes) : act (Z * bytes) :=
  rsp ← request md QMUX_TYPE_DMS QMIDMS_GET_DEVICE_REV_ID_REQ None;
  match rsp with
  | inl err => mret (err, old)
  | inr m =>
      p ← tlv m 0x01;
      match p with
      | None => mret (0, old)
      | Some p =>
          len ← load (rd16 m (p + 1));
          if len =? 0 then mret (0, old) else x ← uchar2char m 64 (p + 3) len; mret (0, x)
      end
  end.

Definition set_clients (e : eprofile) (version wda : Z) : eprofile :=
  EProfile (e_qmap_mode e) (e_rawIP e) (e_muxid e) (e_hardware e) (e_qmap_size e) (e_idProduct e) version
    (e_rmnet e) wda (e_ipv4 e) (e_ipv6 e) (e_qmapnet e).

Section Qmi.
Context (md : modem) (proxy libqmi : bool) (channel : bytes) (fuel : nat).

Definition on_q {A} (a : act A) (w : qsess) : option (A * qsess) :=
  match lift a (qs_c w) with Some (x, c) => Some (x, QSess c (qs_e w) (BaseBandVersion w)) | None => None end.

Definition wprofile_of (e : eprofile) : wprofile :=
  WProfile proxy libqmi channel (e_qmap_mode e) (e_qmap_version e) (e_ipv6 e).

Definition qmi_init (w : qsess) : option (Z * qsess) :=
  match QmiWwanInit md (wprofile_of (qs_e w)) (qs_c w) with
  | Some ((ret, v, wda), c) =>
      Some (ret, QSess c (set_clients (qs_e w) v (default (e_wda_client (qs_e w)) wda)) (BaseBandVersion w))
  | None => None
  end.

Definition qmi_prepare (w : qsess) : option qsess :=
  match on_q (requestBaseBandVersion md (BaseBandVersion w)) w with
  | Some ((_, v), w) =>
      match lift (requestSetEthMode md (qs_e w)) (qs_c w) with
      | Some ((_, e, _), c) => Some (QSess c e v)
      | None => None
      end
  | None => None
  end.

(** Searching for a profile needs fuel; with too little there is no result. *)
Definition qmi_getprofile (v4 v6 : bool) (p : profile) (w : qsess) : option (profile * old_profile * qsess) :=
  match on_q (requestGetProfile fuel md v4 v6 p) w with
  | Some (Some (_, p, o), w) => Some (p, o, w)
  | _ => None
  end.

Definition qmi_registration (ps : Z) (w : qsess) : option (Z * qsess) :=
  match on_q (requestRegistrationState md ps) w with
  | Some (Some (_, ps), w) => Some (ps, w)
  | _ => None
  end.

Definition qmi_request_ops : RequestOps qsess := {|
  ro_kind := QmiOps;
  ro_conflict w := g_pdn_conflict (c_q (qs_c w));
  ro_clear_conflict w :=
    QSess (Cst (set_conflict (c_q (qs_c w)) 0) (qmiclientId (qs_c w)) (c_tid (qs_c w))) (qs_e w) (BaseBandVersion w);
  ro_init := qmi_init;
  ro_prepare p w := match qmi_prepare w with Some w => Some (p, w) | None => None end;
  ro_loopback := Some (fun state factor => on_q (requestSetLoopBackState md state factor));
  ro_sim := Some (fun st w => match on_q (requestGetSIMStatus md st) w with Some ((r, x), w) => Some (r, x, w) | None => None end);
  ro_pin := Some (fun pin => on_q (requestEnterSimPin md pin));
  ro_getprofile := Some qmi_getprofile;
  ro_setprofile := Some (fun p o => on_q (requestSetProfile md p o));
  ro_setup _ _ p f w :=
    match on_q (requestSetupDataCall md p f) w with Some ((r, p), w) => Some (r, p, w) | None => None end;
  ro_getip f c w := match on_q (requestGetIPAddress md f c) w with Some ((r, c), w) => Some (r, c, w) | None => None end;
  ro_query f x w := match on_q (requestQueryDataCall md x f) w with Some ((r, x), w) => Some (r, x, w) | None => None end;
  ro_deactivate f w := match on_q (requestDeactivateDefaultPDP md f) w with Some (_, w) => Some w | None => None end;
  ro_registration := qmi_registration;
  ro_poll w := Some w;
  ro_deinit w :=
    match QmiWwanDeInit md (qs_c w) with Some (_, c) => Some (QSess c (qs_e w) (BaseBandVersion w)) | None => None end |}.
#[local] Existing Instance qmi_request_ops.

(** ** What the QMI requests leave alone *)

(** The reason of the last conflict is written by [requestSetupDataCall] alone. *)
Definition same_conflict (s s' : qst) : Prop := g_pdn_conflict s' = g_pdn_conflict s.

#[local] Instance same_conflict_pre : PreOrder same_conflict.
Proof. split; [by intros s|]. intros s1 s2 s3. unfold same_conflict. congruence. Qed.

Ltac walk := repeat (st_walk1 || (cbn beta; reflexivity)).

Lemma compose_same q t c : st_rel same_conflict (compose q t c).
Proof. unfold compose. walk. Qed.
Lemma send_same r : st_rel same_conflict (send md r).
Proof. by intros s x s' [= <- <-]. Qed.
Lemma rsp_same m : st_rel same_conflict (rsp_result m).
Proof. unfold rsp_result. walk. Qed.
Lemma tlv_same m t : st_rel same_conflict (tlv m t).
Proof. unfold tlv, crash. walk; by apply rel_fail. Qed.
#[local] Hint Resolve compose_same send_same rsp_same tlv_same : same.

Lemma request_same q t c : st_rel same_conflict (request md q t c).
Proof. unfold request. walk; auto with same. Qed.
#[local] Hint Resolve request_same : same.

Ltac same := cbv zeta; walk; try (by apply rel_fail); auto with same.

Lemma when_same {C} m t (f : Z -> C -> act C) c :
  (forall p c, st_rel same_conflict (f p c)) -> st_rel same_conflict (when_tlv m t f c).
Proof. intros Hf. unfold when_tlv. same. Qed.

Lemma getip_same f c : st_rel same_conflict (requestGetIPAddress md f c).
Proof.
  unfold requestGetIPAddress, parse_settings, take_pcscf4, take_pcscf6, take32, take16, take17. same; apply when_same; intros; same.
Qed.

Lemma query_same x f : st_rel same_conflict (requestQueryDataCall md x f).
Proof. unfold requestQueryDataCall. same. unfold same_conflict, set_handle. by destruct (_ =? _). Qed.

Lemma deactivate_same f : st_rel same_conflict (requestDeactivateDefaultPDP md f).
Proof. unfold requestDeactivateDefaultPDP. same. unfold same_conflict, set_handle. by destruct (_ =? _). Qed.

Lemma loopback_same a b : st_rel same_conflict (requestSetLoopBackState md a b).
Proof. unfold requestSetLoopBackState, loopback_request. same. Qed.

Lemma walk_apps_same m p n x : st_rel same_conflict (walk_apps m p n x).
Proof. revert x. induction n as [|n IH]; intros x; cbn [walk_apps]; same. Qed.

Lemma pin_status_same x : st_rel same_conflict (requestGetPINStatus md x).
Proof. unfold requestGetPINStatus. same. Qed.
#[local] Hint Resolve walk_apps_same pin_status_same : same.

Lemma sim_same x : st_rel same_conflict (requestGetSIMStatus md x).
Proof. unfold requestGetSIMStatus, card_status, sim_status_string, crash. same. Qed.

Lemma pin_same x : st_rel same_conflict (requestEnterSimPin md x).
Proof. unfold requestEnterSimPin. same. Qed.

Lemma setprofile_same p o : st_rel same_conflict (requestSetProfile md p o).
Proof. unfold requestSetProfile, crash. same. Qed.

Lemma profile_list_same m p n j k : st_rel same_conflict (profile_list m p n j k).
Proof. revert j k. induction n as [|n IH]; intros j k; cbn [profile_list]; unfold crash; same. Qed.

Lemma find_profile_same p l : st_rel same_conflict (find_profile md p l).
Proof. induction l as [|x l IH]; cbn [find_profile]; same. Qed.

Lemma settings_same m : st_rel same_conflict (old_settings m).
Proof. unfold old_settings, str_tlv, u8_tlv, uchar2char, crash. same. Qed.
#[local] Hint Resolve profile_list_same find_profile_same settings_same : same.

Lemma getprofile_same n a b p : st_rel same_conflict (requestGetProfile n md a b p).
Proof.
  unfold requestGetProfile. same. generalize (set_iptype p (if a && b then 3 else if b then 2 else 0)). clear p.
  induction n as [|n IH]; intros p; cbn [get_profile_loop]; unfold crash; same.
Qed.

Lemma home_same : st_rel same_conflict (requestGetHomeNetwork md).
Proof. unfold requestGetHomeNetwork. same. Qed.
#[local] Hint Resolve home_same : same.

Lemma sys_field_same m t p y : st_rel same_conflict (sys_field md m t p y).
Proof. unfold sys_field, hdr_info, in_service, packet_domain, network_id. same. Qed.
#[local] Hint Resolve sys_field_same : same.

Lemma sys_loop_same n m r p y : st_rel same_conflict (sys_loop n md m r p y).
Proof. revert r p y. induction n as [|n IH]; intros r p y; cbn [sys_loop]; same. Qed.
#[local] Hint Resolve sys_loop_same : same.

Lemma registration_same ps : st_rel same_conflict (requestRegistrationState md ps).
Proof. unfold requestRegistrationState, requestRegistrationState2, serving_system. same. Qed.

Lemma eth_same e : st_rel same_conflict (requestSetEthMode md e).
Proof.
  unfold requestSetEthMode, eth_prepare, eth_run, eth_response, eth_tail, eth_families, eth_family, request_any, u32_tlv. same.
Qed.

Lemma version_same old : st_rel same_conflict (requestBaseBandVersion md old).
Proof. unfold requestBaseBandVersion, uchar2char. same. Qed.

(** *** The session's invariant *)

(** No conflict, the network's refusal of a second PDN, or the modem's throttling. *)
Definition reason (k : Z) : Prop := k ∈ [0; 55; 209; 211].

Lemma conflict_reason_ok t v : conflict_reason t v = true -> reason v.
Proof.
  unfold conflict_reason, reason. rewrite !elem_of_cons.
  destruct (Z.eqb_spec v 55), (Z.eqb_spec v 209), (Z.eqb_spec v 211); rewrite ?andb_false_r; cbn; tauto || done.
Qed.

Lemma setup_reason p f s x s' : requestSetupDataCall md p f s = Some (x, s') -> reason (g_pdn_conflict s').
Proof.
  unfold requestSetupDataCall. intros H. rewrite st_bind_modify in H. cbv beta zeta in H. rewrite st_bind_gets in H.
  assert (R0 : forall s1 : qst, same_conflict (set_conflict s 0) s1 -> reason (g_pdn_conflict s1))
    by (intros s1 ->; unfold reason; set_solver).
  apply st_bind_inv in H as (r & s1 & H1%compose_same & H). apply st_bind_inv in H as ([err rsp] & s2 & H2%send_same & H).
  assert (R2 : same_conflict (set_conflict s 0) s2) by (by etrans). clear H1 H2.
  destruct rsp as [m|]; [|by injection H as <- <-; apply R0]. destruct (err <? 0); [by injection H as <- <-; apply R0|].
  apply st_bind_inv in H as (rr & s3 & H3%rsp_same & H). assert (R3 : same_conflict (set_conflict s 0) s3) by (by etrans).
  destruct (rsp_failed rr).
  - apply st_bind_inv in H as (t & s4 & H4%tlv_same & H). apply st_bind_inv in H as (u & s5 & H5 & H).
    assert (R5 : same_conflict s4 s5) by (refine ((_ : st_rel same_conflict _) _ _ _ H5); clear H5; walk).
    apply st_bind_inv in H as (t' & s6 & H6%tlv_same & H). apply st_bind_inv in H as ([] & s7 & H7 & H). injection H as <- <-.
    assert (R6 : same_conflict (set_conflict s 0) s6) by (etrans; [exact R3|]; etrans; [exact H4|]; by etrans).
    destruct t' as [t'|]; [|injection H7 as <-; by apply R0].
    apply st_bind_inv in H7 as (ty & s8 & [_ ->]%st_load_inv & H7). apply st_bind_inv in H7 as (v & s9 & [_ ->]%st_load_inv & H7).
    destruct (conflict_reason ty v) eqn:Ec; injection H7 as <-; [by eapply conflict_reason_ok|by apply R0].
  - apply st_bind_inv in H as (h & s4 & [_ ->]%st_load_inv & H). rewrite st_bind_modify in H. injection H as <- <-.
    unfold set_handle. destruct (_ =? _); exact (R0 s3 R3).
Qed.

Definition qmi_inv (w : qsess) : Prop :=
  length (qmiclientId (qs_c w)) = Z.to_nat QMUX_TYPE_ALL /\ reason (g_pdn_conflict (c_q (qs_c w))).

(** A request that leaves the conflict alone keeps the invariant. *)
Lemma on_q_inv {A} (a : act A) w x w' :
  st_rel same_conflict a -> qmi_inv w -> on_q a w = Some (x, w') -> qmi_inv w'.
Proof.
  intros Ha [Hl Hr]. unfold on_q. destruct (lift a (qs_c w)) as [[y c]|] eqn:E; [|done]. intros [= <- <-].
  apply lift_inv in E as (q & E & ->). split; [done|]. cbn. by rewrite (Ha _ _ _ E).
Qed.

Definition same_clients (s s' : cst) : Prop :=
  same_conflict (c_q s) (c_q s') /\ length (qmiclientId s') = length (qmiclientId s).

#[local] Instance same_clients_pre : PreOrder same_clients.
Proof. split; [done|]. intros s1 s2 s3 [H1 L1] [H2 L2]. split; [by etrans|congruence]. Qed.

Lemma lift_clients {A} (a : act A) : st_rel same_conflict a -> st_rel same_clients (lift a).
Proof. intros Ha s x s' (q & E%Ha & ->)%lift_inv. done. Qed.
Lemma set_id_clients i x : st_rel same_clients (set_id i x).
Proof. intros s y s' [= <- <-]. split; [done|]. apply length_insert. Qed.
Lemma get_id_clients i : st_rel same_clients (get_id i).
Proof. by intros s y s' [_ ->]%get_id_inv. Qed.
#[local] Hint Resolve lift_clients set_id_clients get_id_clients rel_load same_conflict_pre : same.

Lemma ctl_clients ty f : st_rel same_clients (ctl_request md ty f).
Proof.
  unfold ctl_request, ComposeQCTLMsg. same. by intros s x s' [= <- <-].
Qed.
Lemma result_clients m : st_rel same_clients (ctl_result m).
Proof. unfold ctl_result. same. Qed.
#[local] Hint Resolve ctl_clients result_clients : same.

Lemma assign_clients i t : st_rel same_clients (assign md i t).
Proof. unfold assign, QmiWwanGetClientID. same. Qed.
Lemma sync_clients n r : st_rel same_clients (sync_loop n md r).
Proof. revert r. induction n as [|n IH]; intros r; cbn [sync_loop]; same. Qed.
Lemma versions_clients n m off v : st_rel same_clients (version_loop n m off v).
Proof. revert off v. induction n as [|n IH]; intros off v; cbn [version_loop]; same. Qed.
Lemma event_clients x : st_rel same_conflict (requestUIMCardStatusEvent md x).
Proof. unfold requestUIMCardStatusEvent. same. Qed.
#[local] Hint Resolve assign_clients sync_clients versions_clients event_clients : same.

Lemma init_clients p : st_rel same_clients (QmiWwanInit md p).
Proof. unfold QmiWwanInit, libqmi_proxy_open. same. Qed.

Lemma deinit_clients : st_rel same_clients (QmiWwanDeInit md).
Proof.
  unfold QmiWwanDeInit. generalize (Z.to_nat QMUX_TYPE_ALL) at 1. intros n. generalize 0. induction n as [|n IH]; intros i;
    cbn [deinit_loop]; unfold QmiWwanReleaseClientID; same.
Qed.

Lemma clients_inv w c e v : qmi_inv w -> same_clients (qs_c w) c -> qmi_inv (QSess c e v).
Proof. intros [H1 H2] [E1 E2]. split; cbn; [by rewrite E2|by rewrite E1]. Qed.

#[local] Instance qmi_session_inv : SessionInv qmi_inv.
Proof.
  split; cbn.
  - intros w r w' HI. unfold qmi_init. destruct (QmiWwanInit _ _ _) as [[[[ret v] wda] c]|] eqn:E; [|done].
    intros [= <- <-]. eapply clients_inv; [exact HI|]. by eapply init_clients.
  - intros p w p' w' HI. unfold qmi_prepare. destruct (on_q _ w) as [[[r v] w1]|] eqn:E1; [|done].
    apply on_q_inv in E1; [|apply version_same|done].
    destruct (lift _ _) as [[[[r2 e] d] c]|] eqn:E2; [|done]. intros [= <- <-]. eapply clients_inv; [exact E1|].
    eapply lift_clients; [apply eth_same|exact E2].
  - intros op x y w r w' [= <-] HI. by apply on_q_inv; [apply loopback_same|].
  - intros op x w r y w' [= <-] HI. destruct (on_q _ w) as [[[r1 y1] w1]|] eqn:E; [|done]. intros [= <- <- <-].
    by eapply on_q_inv; [apply sim_same| |exact E].
  - intros op x w r w' [= <-] HI. by apply on_q_inv; [apply pin_same|].
  - intros op a b p w q o w' [= <-] HI. unfold qmi_getprofile. destruct (on_q _ w) as [[[[[r1 p1] o1]|] w1]|] eqn:E; [|done..].
    intros [= <- <- <-]. by eapply on_q_inv; [apply getprofile_same| |exact E].
  - intros op p o w r w' [= <-] HI. by apply on_q_inv; [apply setprofile_same|].
  - intros a b p f w r q w' [Hl _]. unfold on_q. destruct (lift _ _) as [[[r1 p1] c]|] eqn:E; [|done]. intros [= <- <- <-].
    apply lift_inv in E as (q1 & E%setup_reason & ->). by split.
  - intros f c w r d w' HI. destruct (on_q _ w) as [[[r1 y1] w1]|] eqn:E; [|done]. intros [= <- <- <-].
    by eapply on_q_inv; [apply getip_same| |exact E].
  - intros f x w r y w' HI. destruct (on_q _ w) as [[[r1 y1] w1]|] eqn:E; [|done]. intros [= <- <- <-].
    by eapply on_q_inv; [apply query_same| |exact E].
  - intros f w w' HI. destruct (on_q _ w) as [[r1 w1]|] eqn:E; [|done]. intros [= <-].
    by eapply on_q_inv; [apply deactivate_same| |exact E].
  - intros x w r w' HI. unfold qmi_registration. destruct (on_q _ w) as [[[[r1 p1]|] w1]|] eqn:E; [|done..]. intros [= <- <-].
    by eapply on_q_inv; [apply registration_same| |exact E].
  - by intros w w' HI [= <-].
  - intros w w' HI. destruct (QmiWwanDeInit md _) as [[r c]|] eqn:E; [|done]. intros [= <-].
    eapply clients_inv; [exact HI|]. by eapply deinit_clients.
  - intros w [Hl _]. split; [done|]. unfold reason. cbn. set_solver.
Qed.

(** *** What the loop inherits *)

Context (env : dial_env).

(** C23. Dialling over QMI, the conflict file only ever tells the caller one of the three
    reasons it acts on: 55, the network already has the PDN, or 209 and 211, the
    modem throttles; from the session's first request on, whatever the modem
    answers and in whatever order signals and events arrive. *)
Theorem qmi_conflict_file fuel' pin s r s0 s1 k :
  qmi_inv (l_w s) -> l_log s = [] -> start_up env fuel' pin s = Some (r, s0) -> reaches env s0 s1 ->
  AConflictFile k ∈ l_log s1 -> k = 55 \/ k = 209 \/ k = 211.
Proof.
  intros HI Hl H0 Hr Hk.
  assert (HI0 : qmi_inv (l_w s0)) by (eapply (dial_keeps_session env qmi_inv); [exact HI|exact H0|constructor]).
  assert (k <> 0 /\ reason k) as [Hn Hx].
  { eapply (dial_conflict_reasons env qmi_inv reason); [by intros w [_ H]|exact HI0| |exact Hr|exact Hk].
    eapply grows_log_ok; [by eapply start_up_grows|]. unfold log_ok. by rewrite Hl. }
  unfold reason in Hx. rewrite !elem_of_cons, elem_of_nil in Hx. naive_solver.
Qed.

(** The table of clients. *)
Definition ids (w : qsess) : list Z := qmiclientId (qs_c w).

Lemma deactivate_ids f (s s' : dl) x : deactivate f s = Some (x, s') -> ids (l_w s') = ids (l_w s).
Proof.
  unfold deactivate. intros H. apply st_bind_inv in H as ([] & s1 & [= <-] & H). revert H. unfold on_session. cbn -[on_q].
  unfold on_q. destruct (lift _ _) as [[y c]|] eqn:E; cbn; [|done]. intros [= <- <-].
  apply lift_inv in E as (q & _ & ->). done.
Qed.

Lemma deactivate_if_ids (b : bool) f (s s' : dl) x :
  (if b then deactivate f else mret tt) s = Some (x, s') -> ids (l_w s') = ids (l_w s).
Proof. destruct b; [apply deactivate_ids|by intros [= <- <-]]. Qed.

(** C24. A stop signal leaves no client behind on the modem: in any state the loop
    reaches, the turn that handles it releases every identifier in the table of
    clients, each once and under its own service, and leaves the table empty. *)
Theorem qmi_stop_releases fuel' pin s r s0 s1 t q s2 :
  qmi_inv (l_w s) -> start_up env fuel' pin s = Some (r, s0) -> reaches env s0 s1 ->
  l_quit s1 = false -> l_sig s1 = SIG_EVENT_STOP :: q -> loop_turn env (TSignal t) s1 = Some (tt, s2) ->
  ids (l_w s2) = no_ids /\
  exists ms rel, q_sent (c_q (qs_c (l_w s2))) = ms ++ rel /\ Forall2 is_release rel (entries 0 (ids (l_w s1))).
Proof.
  intros HI H0 Hr Hq Hs H.
  assert (HI1 : qmi_inv (l_w s1)) by (by eapply (dial_keeps_session env qmi_inv)).
  unfold loop_turn, on_signal, dgets in H. rewrite st_bind_gets, Hq, st_bind_gets, Hs in H.
  apply st_bind_inv in H as ([] & s3 & [= <-] & H). apply st_bind_inv in H as ([] & s4 & [= <-] & H).
  unfold sig_stop, dgets in H. rewrite st_bind_gets in H.
  apply st_bind_inv in H as ([] & s5 & E5%deactivate_if_ids & H). apply st_bind_inv in H as ([] & s6 & E6%deactivate_if_ids & H).
  apply shut_down_session in H. cbn in H. rewrite E5 in E6. change (ids (l_w s6) = ids (l_w s1)) in E6.
  destruct (QmiWwanDeInit md (qs_c (l_w s6))) as [[y c]|] eqn:E; [|done]. injection H as <-.
  destruct HI1 as [Hl _]. fold (ids (l_w s1)) in Hl. rewrite <- E6 in Hl |- *.
  apply (deinit_loop_spec _ md [] (ids (l_w s6))) in E as (_ & E1 & l & E2 & F); [|done|exact Hl].
  split; [exact E1|]. by exists (q_sent (c_q (qs_c (l_w s6)))), l.
Qed.

End Qmi.

(** ** MBIM *)

Section Mbim.
Context (md : modem) (dev : option bytes) (junk : MbimCm.mst -> bytes).

(** The table leaves out what MBIM has no request for; no conflict is reported. *)
Definition mbim_request_ops : RequestOps MbimCm.mst := {|
  ro_kind := MbimOps;
  ro_conflict _ := 0;
  ro_clear_conflict w := w;
  ro_init := MbimCm.mbim_init md dev;
  ro_prepare p w := Some (p, w);
  ro_loopback := None;
  ro_sim := Some (fun _ w => match MbimCm.requestGetSIMStatus md w with Some ((r, x), w) => Some (r, x, w) | None => None end);
  ro_pin := None;
  ro_getprofile := None;
  ro_setprofile := None;
  ro_setup v4 v6 p _ w :=
    match MbimCm.requestSetupDataCall md (MbimCm.Dial (p_apn p) (p_user p) (p_pd p) (p_auth p) v4 v6) w with
    | Some (r, w) => Some (r, p, w) | None => None end;
  ro_getip _ c w :=
    match MbimCm.requestGetIPAddress md (junk w) c w with Some ((r, c), w) => Some (r, c, w) | None => None end;
  ro_query _ _ w :=
    match MbimCm.requestQueryDataCall md (junk w) w with Some ((r, x), w) => Some (r, x, w) | None => None end;
  ro_deactivate _ w := match MbimCm.requestDeactivateDefaultPDP md w with Some (_, w) => Some w | None => None end;
  ro_registration _ w := match MbimCm.requestRegistrationState md w with Some ((_, ps), w) => Some (ps, w) | None => None end;
  ro_poll w := Some w;
  ro_deinit w := match MbimCm.mbim_close_device md w with Some (_, w) => Some w | None => None end |}.
#[local] Existing Instance mbim_request_ops.

(** ** What the loop inherits from MBIM *)

Definition mbim_inv (w : MbimCm.mst) : Prop :=
  MbimCm.ready w /\ MbimCm.tid_ok w /\ MbimCm.settled w /\ Forall MbimCm.tid_free (MbimCm.m_sent w).

(** A failed exchange gives no response. *)
Context (Hmd : forall l r, fst (md l r) <> 0 -> snd (md l r) = None).

Lemma mop_inv o w r w' : mbim_inv w -> MbimCm.run_mop md o w = Some (r, w') -> mbim_inv w'.
Proof.
  intros (R & T & S & F) H%(MbimCm.mop_step md Hmd). pose proof (MbimCm.ready_step _ _ _ H R) as R'.
  destruct H as [_ H1 _ H3]. destruct (H1 R T) as (T' & ms & E & F'). split_and!; [done|done|by apply H3|].
  rewrite E. by apply Forall_app.
Qed.

(** An operation whose value is only in part the one [run_mop] keeps. *)
Ltac of_mop o :=
  match goal with
  | |- mbim_inv _ -> match ?m ?w with _ => _ end = _ -> _ =>
      intros HI; destruct (m w) as [[x1 w1]|] eqn:E; [|done]; repeat match type of x1 with (_ * _)%type => destruct x1 as [? x1] end;
      assert (HI1 : mbim_inv w1)
        by (eapply (mop_inv o); [exact HI|]; cbn [MbimCm.run_mop]; unfold fmap, MbimCm.mact_map; rewrite E; reflexivity);
      intros ?; simplify_eq; exact HI1
  end.

#[local] Instance mbim_session_inv : SessionInv mbim_inv.
Proof.
  split; cbn.
  - intros w r w' HI H. by apply (mop_inv (MbimCm.OInit dev) w r w').
  - by intros p w p' w' HI [= <- <-].
  - done.
  - intros op x w r y w' [= <-]. of_mop MbimCm.OSim.
  - done.
  - done.
  - done.
  - intros a b p f w r q w'. of_mop (MbimCm.OSetup (MbimCm.Dial (p_apn p) (p_user p) (p_pd p) (p_auth p) a b)).
  - intros f c w r d w'. of_mop (MbimCm.OAddress (junk w) c).
  - intros f x w r y w'. of_mop (MbimCm.OQuery (junk w)).
  - intros f w w'. of_mop MbimCm.ODeactivate.
  - intros x w r w'. of_mop MbimCm.ORegister.
  - by intros w w' HI [= <-].
  - intros w w'. of_mop MbimCm.OClose.
  - done.
Qed.


End Mbim.

(** ** Concrete sessions *)

(** A modem that grants clients and refuses every other request, naming the PDN
    that exists already. *)
Definition ex_refusing : modem := fun l r =>
  if bool_decide (zget r 4 = Some QMUX_TYPE_CTL) then ex_granting l r
  else (0, Some (response QMUX_TYPE_WDS 1 0 0x20 1 QMI_ERR_INVALID_QMI_CMD [(0x11, w16 6 ++ w16 55)])).

Definition ex_qmi_ops : RequestOps qsess := qmi_request_ops ex_refusing true false [] 5.
Definition ex_sess_profile : profile := Profile None None None 0 0 0 0 IpFamilyV4 0x0801 0 0 0.
Definition ex_qmi_dl (W : Type) (loop : Z) (w : W) : dl :=
  Dl 0 0 0 0 1000 (-1) true false ex_sess_profile loop 1 ex_cfg 0 None [] false false [] w.
Definition ex_sess_eprofile : eprofile :=
  EProfile 0 false 0x81 HARDWARE_PCIE 32768 0x0800 9 (RmnetInfo 0 0 0 0 0 0) 7 true false true.
Definition ex_q : dl := ex_qmi_dl qsess 1 (QSess ex_cst ex_sess_eprofile []).

Definition dl_of {A} (d : @dl qsess) (o : option (A * @dl qsess)) : @dl qsess := match o with Some (_, s) => s | None => d end.
Definition ex_q0 : dl := Eval vm_compute in dl_of ex_q (start_up (ops := ex_qmi_ops) ex_env_exit 3 None ex_q).
Definition ex_q1 : dl := Eval vm_compute in dl_of ex_q (loop_turn (ops := ex_qmi_ops) ex_env_exit (TSignal (ex_clock 2000)) ex_q0).
Definition ex_q2 : dl := Eval vm_compute in dl_of ex_q (loop_turn (ops := ex_qmi_ops) ex_env_exit (TSignal (ex_clock 2100)) ex_q1).

Lemma ex_q_inv : qmi_inv (l_w ex_q).
Proof. split; [reflexivity|]. apply list_elem_of_here. Qed.

Lemma ex_q_reaches1 : reaches (ops := ex_qmi_ops) ex_env_exit ex_q0 ex_q1.
Proof.
  eapply reaches_turn with (x := TSignal (ex_clock 2000)) (s := ex_q0); [constructor| |vm_compute; reflexivity].
  split_and!; [split; by vm_compute|by vm_compute|by vm_compute].
Qed.

Lemma ex_q_reaches : reaches (ops := ex_qmi_ops) ex_env_exit ex_q0 ex_q2.
Proof.
  eapply reaches_turn with (x := TSignal (ex_clock 2100)) (s := ex_q1); [apply ex_q_reaches1| |vm_compute; reflexivity].
  split_and!; [split; by vm_compute|by vm_compute|by vm_compute].
Qed.

Lemma qmi_conflict_file_witness : AConflictFile 55 ∈ l_log ex_q2 /\ (55 = 55 \/ 55 = 209 \/ 55 = 211).
Proof.
  assert (H : AConflictFile 55 ∈ l_log ex_q2) by (apply (bool_decide_unpack _); vm_compute; exact I).
  split; [exact H|].
  refine (@qmi_conflict_file ex_refusing true false [] 5 ex_env_exit 3 None ex_q (Some true) ex_q0 ex_q2 55 ex_q_inv eq_refl _ ex_q_reaches H).
  vm_compute; reflexivity.
Defined.

(** After the check the process is told to stop. *)
Definition ex_q3 : dl := Eval vm_compute in dl_of ex_q (loop_turn (ops := ex_qmi_ops) ex_env_exit TKill ex_q1).
Definition ex_q4 : dl := Eval vm_compute in dl_of ex_q (loop_turn (ops := ex_qmi_ops) ex_env_exit (TSignal (ex_clock 500)) ex_q3).
Definition ex_q5 : dl := Eval vm_compute in dl_of ex_q (loop_turn (ops := ex_qmi_ops) ex_env_exit (TSignal (ex_clock 500)) ex_q4).

Lemma ex_q_reaches4 : reaches (ops := ex_qmi_ops) ex_env_exit ex_q0 ex_q4.
Proof.
  eapply reaches_turn with (x := TSignal (ex_clock 500)) (s := ex_q3); [| |vm_compute; reflexivity].
  - eapply reaches_turn with (x := TKill) (s := ex_q1); [apply ex_q_reaches1|done|vm_compute; reflexivity].
  - split_and!; [split; by vm_compute|by vm_compute|by vm_compute].
Qed.

Lemma qmi_stop_releases_witness :
  entries 0 (ids (l_w ex_q4)) = [(1, 7); (2, 7); (3, 7); (11, 7); (26, 7)] /\ ids (l_w ex_q5) = no_ids.
Proof.
  split; [reflexivity|].
  refine (proj1 (@qmi_stop_releases ex_refusing true false [] 5 ex_env_exit 3 None ex_q (Some true) ex_q0 ex_q4 (ex_clock 500) []
    ex_q5 ex_q_inv _ ex_q_reaches4 eq_refl eq_refl _)); vm_compute; reflexivity.
Defined.

(** A modem that answers every command with 256 bytes, of which the second word is 3. *)
Definition ex_long_answer (r : bytes) : bytes :=
  match rd32 r 0 with
  | Some 3 => MbimMsg.message_header MbimMsg.MBIM_COMMAND_DONE 304 (default 0 (rd32 r 8)) ++ w32 1 ++ w32 0 ++ default [] (rdn r 20 20) ++
              w32 0 ++ w32 256 ++ w32 0 ++ w32 3 ++ replicate 248 0
  | Some t => MbimMsg.message_header (0x80000000 + t) 16 (default 0 (rd32 r 8)) ++ w32 0
  | None => []
  end.
Definition ex_long_mbim : modem := fun _ r => (0, Some (ex_long_answer r)).
Definition ex_mbim_ops : RequestOps MbimCm.mst := mbim_request_ops ex_long_mbim None (fun _ => replicate 32 0).
Definition ex_m : dl := ex_qmi_dl MbimCm.mst 0 MbimCm.ex_mst.
Definition mdl_of {A} (d : @dl MbimCm.mst) (o : option (A * @dl MbimCm.mst)) : @dl MbimCm.mst :=
  match o with Some (_, s) => s | None => d end.
Definition ex_m0 : dl := Eval vm_compute in mdl_of ex_m (start_up (ops := ex_mbim_ops) ex_env_exit 3 None ex_m).
Definition ex_m1 : dl := Eval vm_compute in mdl_of ex_m (loop_turn (ops := ex_mbim_ops) ex_env_exit (TSignal (ex_clock 2000)) ex_m0).

Lemma ex_m_reaches : reaches (ops := ex_mbim_ops) ex_env_exit ex_m0 ex_m1.
Proof.
  eapply reaches_turn with (x := TSignal (ex_clock 2000)) (s := ex_m0); [constructor| |vm_compute; reflexivity].
  split_and!; [split; by vm_compute|by vm_compute|by vm_compute].
Qed.

